(* ===== verification/_CoqProject ===== *)
-Q . S2P
Prelude.v
Amounts.v
Pump.v
Swarm.v
Config.v
Registry.v
Strategy.v
Features.v
ScoreEngine.v
Learning.v
Curve.v
Text.v
LivePosition.v
ExitEngine.v
Positions.v
Tick.v
Blacklist.v
Brokers.v
Wallets.v
Messages.v
Manager.v
System.v
Runs.v
Feed.v
Ingest.v
Pipeline.v
Watchlist.v
Creator.v
Admission.v
Instructions.v
Onchain.v
Jupiter.v
Hoare.v
LiveBroker.v
Node.v
LiveRuns.v
LiveSell.v
Storage.v
PostExit.v
Latency.v
Server.v
Chart.v
DashChart.v
Dash.v
DashView.v
DashControls.v
DashLink.v
DashRuns.v
Mirror.v
Database.v
Analytics.v
DbRuns.v
Trades.v
Hub.v
Relay.v
Window.v
Api.v
Counterfactual.v
Startup.v
Handles.v
