(* ===== verification/Prelude.v ===== *)
(** * Loggaper: a verification library for the pump.fun trading bot

    The program under [src/src] reads the transaction logs of the pump.fun
    programs, keeps the traders of every new token, scores the token, buys it on
    one or several wallets, follows the open positions and sells them; [src/sips]
    builds the transactions it sends and [src/dashboard] is the operator's
    window.  This library models that code, component by component, and proves
    what makes it correct.

    ** How the parts fit

    - The feed ([Feed], [Ingest]) turns log lines into the events of [Pump];
      the launchpad ([Swarm]) keeps the pool and the ledger of traders of each
      token.  [Admission] decides whether a created token is scored, now or
      through [Watchlist].
    - [Pipeline] collects the features ([Features]), scores them
      ([ScoreEngine], configured by [Config] and by what [Learning], [Registry]
      and [Creator] know) and sends the manager an [InitiateBuy].
    - [Manager] is the actor that owns the positions: one function per message
      of its mailbox ([Messages]), the exit logic of a tick in [Tick] over the
      position record of [Positions] and the rules of [ExitEngine] and
      [LivePosition], the risk limits of [Strategy], the bans of [Blacklist].
      [System] puts the actor together with its mailbox, its tasks and the
      wallets of [Wallets].
    - A wallet trades through the interface [Brokers.Broker].  Its two
      implementations are the mock broker of [Brokers] and the live broker of
      [LiveBroker], which decides with [Curve], builds transactions with
      [Instructions], sends and confirms them with [Onchain] and falls back to
      the Jupiter client of [Jupiter].
    - What happens is stored through the batched queue of [Storage] in the
      tables of [Database], from which [Analytics] reads its aggregates; it is
      sampled by [PostExit], timed by [Latency] and served by [Server], [Api]
      and [Chart].  [Trades] follows a trade of the feed to the manager and to
      its row; [Hub] carries the events of the manager to the sockets.
    - The dashboard is [Dash] (state and event loop), [DashControls] (what the
      operator can do), [DashView] (what is drawn), [DashChart] (the chart it
      draws) and [DashLink] (its background thread).
    - The actors among these are called through the handles of [Handles], a
      bounded mailbox under every interleaving of its clients.
    - [Startup] is [main] up to its first loop: configuration, environment,
      wallets, and the states every other part begins in.  [Counterfactual] is
      the operator's tool that replays stored trades through the score engine.

    ** Files and sources

    Every definition names in a comment the lines it translates, relative to
    [src/src] unless it starts with [sips] or [dashboard].

    - [Prelude]: machine integers with their wrapping, IEEE floats and their
      order, panics ([outcome]), record update, sorting, the database [bounds].
      [Text]: the string operations of the standard library on byte strings.
    - [Amounts]: helper.rs.  [Pump]: feed/logs, generalize, launchpads/pump/pool.rs.
      [Swarm]: trading/, launchpads/.  [Feed]: feed/metrics.rs.  [Ingest]:
      feed/logs_feed.rs, pipelines/pump.rs.
    - [Config], [Registry], [Strategy], [Features], [ScoreEngine],
      [LivePosition]: scoring/.  [Learning]: learning/.
    - [ExitEngine], [Positions], [Tick], [Blacklist], [Brokers], [Wallets],
      [Messages], [Manager], [PostExit], [Creator]: autobuy/.  [System]: the
      tasks spawned by autobuy/manager.rs, as a step relation.
    - [Curve], [Onchain], [LiveBroker]: autobuy/pump_brocker.rs.  [Jupiter]:
      autobuy/jupiter_sell.rs.  [Instructions]: sips/.
    - [Pipeline], [Watchlist]: pipeline/.  [Admission], [Trades], [Server],
      [Api], [Chart], [Hub]: main.rs.  [Storage]: persistence/, setup/waiter.rs.
      [Database]: persistence/postgres and the statements of learning/db.rs that
      write.  [Analytics]: the aggregates of both.  [Latency]: telemetry/.
    - [Dash], [DashChart], [DashControls], [DashView], [DashLink]:
      dashboard/src/main.rs.
    - [Startup]: setup/, autobuy/execution.rs, autobuy/filters/config.rs, the
      opening of a wallet in autobuy/wallet_registry.rs, the start of main.rs, and
      what autobuy/jupiter_sell.rs reads of the environment and logs.
      [Counterfactual]: bin/cf_spamdev.rs.  [Handles]: the handles of trading/,
      scoring/, autobuy/performance_tracker.rs, launchpads/pump/handler.rs and
      setup/waiter.rs.

    [Hoare], [Node], [Runs], [LiveRuns], [LiveSell], [DbRuns], [Relay],
    [DashRuns], [Mirror] and [Window] hold no code of the program: a program logic for the
    live broker's monad, a concrete node to evaluate it on, and theorems about
    compositions.

    ** How code is modelled

    A struct is a record, an enum an inductive type, a [HashMap] a [gmap]; a
    handler is a function of the state it owns.  A function that may panic
    (assertion, division by zero, slice) returns an [outcome]; the handlers of
    the manager live in a monad of state, effects in order and panics, the live
    broker in a monad of questions to the outside ([Onchain.Io]).  Integers are
    [Z] kept at their width by [u64], [i64] and so on, as a release build wraps;
    floats are [PrimFloat].  Clocks are arguments.  What is concurrent is a step
    relation or a schedule: [System.sys_step], [Watchlist], [Storage.queue_step],
    [Trades.flow_step], [Analytics.stats_step], [Hub.hub_step], [Handles.mailbox_step],
    [DashLink.link_step].  A statement is a function of the tables that either
    takes effect whole or not at all, with the constraints of the migrations;
    the fault it meets ([Database.Fault]) is an argument, a lost answer may or
    may not have taken effect.  What libraries do is an interface whose laws
    state documented behaviour: [Pool], [Broker], [Chain], [Sdk], [Crypto],
    [Wire], [SqlFloats].

    ** What the theorems show

    - The manager, in every reachable state: a closing position has its sell and
      a pending mint its release ([Runs.sells_never_stuck]), a closed mint is
      not bought again ([Runs.no_reentry]); a signal is accepted exactly when
      every gate is open and a sell settles its position on both outcomes
      ([Runs]).  The tick: a crash always exits, a stop loss is confirmed in
      bounded ticks, a tick queues at most one sell ([Tick]).
    - The live broker: sending ends, and a retried transaction is accepted at
      most once ([LiveRuns]); a buy debits exactly when it succeeds; a sell
      submits only guarded transactions that respect the curve as last read
      ([LiveSell], [Curve]); what each builder of an instruction sends reads back
      as what it was asked for, and the derived address is that of the highest
      bump ([Instructions]).
    - The entry: the pipeline buys exactly when every gate lets the token
      through, ends in one outcome, and never buys a developer without history
      above tier B, unless he is held as a spammer, whose statistics are not read
      ([Pipeline], [Watchlist], [Admission]).
    - The feed: it forwards what its window of signatures lets through, its
      counters balance, and its watchdog ends a subscription 15 seconds after the
      last useful event, to the lateness of the timer, whatever junk arrives
      ([Ingest]).
    - Bookkeeping: ledgers, caches, queues and counters refine their
      specifications or conserve what they are given ([Swarm], [Blacklist],
      [Ingest], [Storage], [PostExit], [Wallets], [Amounts]).
    - The tables: whatever is written under whatever faults, rows are only added
      and every reference resolves; the queue reaches them exactly; a crash bans
      its developer for every later token ([DbRuns]); no trade is written before
      its coin ([Trades]); the statistics of a developer are at most three
      minutes old ([Analytics]).
    - The operator: the cap on a buy keeps its floor ([Api]); the mode file changes only by an accepted request
      ([Server]), a switch to live is one the operator typed LIVE for, through
      every queue and reconnection ([DashRuns]); the dashboard's table mirrors
      the manager's positions after one answer and the events that follow it
      ([Mirror]), through the bridge, the broadcast and an open socket ([Relay]),
      and with any number of answers racing the events it is exactly known which
      rows the last one leaves right ([Window]); charts are well formed on both sides ([Chart], [DashChart]).
    - The actors: a call is answered for the state after exactly the messages
      sent before it ([Handles]).
    - The start: a bot that starts trades in the configured mode on every wallet,
      holds every enabled wallet with the key its variable names, and begins in
      the states the theorems about runs assume ([Startup]).
    - The tool: a stricter penalty only costs ([Counterfactual]).

    ** Bounds and fuel

    Loops of the code that are bounded by a constant or a configuration are
    structural recursions on that bound: the sends of a transaction
    ([max(max_retries, 6)] attempts), the polls of a signature, the 24 and 8
    reads of a balance, the 50 legs of a drain, the 255 bumps of a derived
    address, the six and three fetches the dashboard schedules.  Loops over time
    have a fuel that is proved to be enough ([Onchain.poll_fuel] in [Hoare],
    [Watchlist.watch_decides]).  Fetches of the dashboard are counted by a [u64];
    its theorem is about fewer than 2^64 of them.

    ** Not modelled

    - The text of the SQL statements and the pool of connections; the floats a
      server computes in an aggregate are the interface [SqlFloats].
    - The table of routes, the command line, the order in which the tasks of
      [main] are scheduled, TLS and logging, printing, the widgets and layout of
      egui.  YAML is read by a library: the configuration starts as its sections,
      present or absent.
    - The derive macros of sips/ix_macros, and sips instructions the bot does not
      send.
    - Calls of one live broker are sequential here; the lock around the key and
      the runtime's scheduling inside one call are not modelled.
*)

From Stdlib Require Export ZArith Lia Floats.
From stdpp Require Export base option numbers strings pretty gmap list list_numbers list_relations list_monad list_misc sorting.

(** A 32-byte account address; only its equality matters. *)
Abbreviation Address := N.

(** The arithmetic of the development is on [Z]; [nat] only indexes lists. *)
#[export] Set Warnings "-inexact-float,-postfix-notation-not-level-1".
Global Open Scope Z_scope.

(** ** Record update

    [r <| f := v |>] is [r] with field [f] set to [v]: the setter is derived
    from the eta-expansion of the record given by its [Settable] instance. *)
Class Settable (R : Type) := eta : R -> R.
Class Setter {R T : Type} (proj : R -> T) := set : (T -> T) -> R -> R.
Global Arguments set {R T} proj {_} f r.

Ltac derive_setter :=
  match goal with
  | |- @Setter ?R ?T ?proj =>
      let s := constr:(_ : Settable R) in
      let e := eval hnf in s in
      let p := eval pattern proj in e in
      match p with
      | ?F _ => exact (fun (g : T -> T) (r : R) => F (fun r' : R => g (proj r')) r)
      end
  end.

#[export] Hint Extern 1 (Setter _) => derive_setter : typeclass_instances.

Declare Scope record_scope.
Notation "r <| f := v |>" := (set f (fun _ => v) r)
  (at level 12, left associativity, format "r  <| f  :=  v |>") : record_scope.
Global Open Scope record_scope.

(** ** Filtering with a boolean *)

Lemma filter_perm {A} (f : A -> bool) l l' : l ≡ₚ l' -> List.filter f l ≡ₚ List.filter f l'.
Proof.
  induction 1 as [|x l l' _ IH|x y l|l l' l'' _ IH1 _ IH2]; cbn.
  - done.
  - case_match; [by constructor | done].
  - repeat case_match; try done. constructor.
  - by rewrite IH1.
Qed.

Lemma filter_nil_none {A} (f : A -> bool) l : List.filter f l = [] -> forall x, x ∈ l -> f x = false.
Proof.
  intros H x Hx. destruct (f x) eqn:E; [|done].
  assert (List.In x (List.filter f l)) as HI by (apply filter_In; by rewrite <- list_elem_of_In).
  by rewrite H in HI.
Qed.

(** ** Machine integers (release build: unchecked arithmetic wraps) *)

Definition wrap_u (w z : Z) : Z := z mod 2 ^ w.
Definition wrap_s (w z : Z) : Z := (z + 2 ^ (w - 1)) mod 2 ^ w - 2 ^ (w - 1).

Abbreviation u8 := (wrap_u 8).
Abbreviation u32 := (wrap_u 32).
Abbreviation u64 := (wrap_u 64).
Abbreviation u128 := (wrap_u 128).
Abbreviation i32 := (wrap_s 32).
Abbreviation i64 := (wrap_s 64).

Definition U8_MAX : Z := 2 ^ 8 - 1.
Definition U32_MAX : Z := 2 ^ 32 - 1.
Definition U64_MAX : Z := 2 ^ 64 - 1.
Definition U128_MAX : Z := 2 ^ 128 - 1.
Definition I64_MAX : Z := 2 ^ 63 - 1.
Definition I64_MIN : Z := - 2 ^ 63.
Definition I32_MAX : Z := 2 ^ 31 - 1.
Definition I32_MIN : Z := - 2 ^ 31.

(** [saturating_add], [saturating_sub], [saturating_mul] of an unsigned width. *)
Definition sat_add (mx a b : Z) : Z := Z.min mx (a + b).
Definition sat_sub (a b : Z) : Z := Z.max 0 (a - b).
Definition sat_mul (mx a b : Z) : Z := Z.min mx (a * b).
(** the signed ones clamp on both sides *)
Definition sat_s (mn mx z : Z) : Z := Z.max mn (Z.min mx z).

Definition in_u (w z : Z) : Prop := 0 <= z < 2 ^ w.
Definition in_s (w z : Z) : Prop := - 2 ^ (w - 1) <= z < 2 ^ (w - 1).

Lemma wrap_u_small w z : in_u w z -> wrap_u w z = z.
Proof. unfold in_u, wrap_u. intros. by apply Z.mod_small. Qed.

Lemma wrap_u_range w z : 0 <= w -> in_u w (wrap_u w z).
Proof. intros. unfold in_u, wrap_u. apply Z.mod_pos_bound. lia. Qed.

Lemma wrap_s_small w z : 0 < w -> in_s w z -> wrap_s w z = z.
Proof.
  unfold in_s, wrap_s. intros Hw Hz.
  assert (2 ^ w = 2 * 2 ^ (w - 1)) as E.
  { rewrite <- Z.pow_succ_r by lia. f_equal. lia. }
  rewrite Z.mod_small; lia.
Qed.

Lemma wrap_s_range w z : 0 < w -> in_s w (wrap_s w z).
Proof.
  unfold in_s, wrap_s. intros Hw.
  assert (2 ^ w = 2 * 2 ^ (w - 1)) as E.
  { rewrite <- Z.pow_succ_r by lia. f_equal. lia. }
  pose proof (Z.mod_pos_bound (z + 2 ^ (w - 1)) (2 ^ w)). lia.
Qed.

(** ** Panics

    [assert!], division by zero and slice bounds abort a Rust function; the
    result of code that may do so is an [outcome]. *)
Inductive panic : Type :=
  | AssertFailed (msg : string)
  | DivideByZero
  | OutOfBounds
  | NotImplemented.

Inductive outcome (A : Type) : Type :=
  | Ret (a : A)
  | Panic (p : panic).
Arguments Ret {A} a.
Arguments Panic {A} p.

#[export] Instance outcome_ret : MRet outcome := @Ret.
#[export] Instance outcome_bind : MBind outcome :=
  fun A B f m => match m with Ret a => f a | Panic p => Panic p end.
#[export] Instance outcome_fmap : FMap outcome :=
  fun A B f m => match m with Ret a => Ret (f a) | Panic p => Panic p end.

(** [a / b] on integers *)
Definition checked_div (a b : Z) : outcome Z :=
  if b =? 0 then Panic DivideByZero else Ret (a / b).

(** [Result<A, E>] *)
Inductive result (A E : Type) : Type :=
  | Ok (a : A)
  | Err (e : E).
Arguments Ok {A E} a.
Arguments Err {A E} e.

Definition is_err {A E} (r : result A E) : bool :=
  match r with Ok _ => false | Err _ => true end.

(** ** IEEE-754 binary64 *)

Abbreviation f64 := PrimFloat.float.

Declare Scope f64_scope.
Delimit Scope f64_scope with f64.
Notation "x >? y" := (PrimFloat.ltb y x) (at level 70, no associativity) : float_scope.
Notation "x >=? y" := (PrimFloat.leb y x) (at level 70, no associativity) : float_scope.

(** [as f64] of an integer: round to nearest, ties to even *)
Definition f64_of_Z (z : Z) : f64 :=
  SF2Prim (binary_normalize FloatOps.prec FloatOps.emax z 0 false).

Definition f64_is_finite (x : f64) : bool :=
  negb (PrimFloat.is_nan x) && negb (PrimFloat.is_infinity x).

(** [f64::max] and [f64::min]: a NaN argument is ignored *)
Definition f64_max (x y : f64) : f64 :=
  if PrimFloat.is_nan x then y
  else if PrimFloat.is_nan y then x
  else if (x <? y)%float then y else x.

Definition f64_min (x y : f64) : f64 :=
  if PrimFloat.is_nan x then y
  else if PrimFloat.is_nan y then x
  else if (y <? x)%float then y else x.

(** [f64::clamp] (its bounds are ordered constants wherever the code calls it) *)
Definition f64_clamp (x lo hi : f64) : f64 :=
  if (x <? lo)%float then lo else if (hi <? x)%float then hi else x.

(** truncation towards zero of a finite float *)
Definition sf_trunc (s : bool) (m : positive) (e : Z) : Z :=
  let a := if 0 <=? e then Z.shiftl (Z.pos m) e else Z.shiftr (Z.pos m) (- e) in
  if s then - a else a.

(** [as u64] / [as i64]: truncates, saturates, sends NaN to 0 *)
Definition f64_to_int (mn mx : Z) (x : f64) : Z :=
  match Prim2SF x with
  | S754_nan => 0
  | S754_zero _ => 0
  | S754_infinity s => if s then mn else mx
  | S754_finite s m e => Z.max mn (Z.min mx (sf_trunc s m e))
  end.
Definition f64_as_u64 : f64 -> Z := f64_to_int 0 U64_MAX.
Definition f64_as_i64 : f64 -> Z := f64_to_int I64_MIN I64_MAX.

(** [f64::round]: nearest integer, halves away from zero *)
Definition f64_round (x : f64) : f64 :=
  match Prim2SF x with
  | S754_finite s m e =>
      if 0 <=? e then x
      else
        let q := f64_of_Z (Z.shiftr (Z.pos m + Z.shiftl 1 (- e - 1)) (- e)) in
        if s then (- q)%float else q
  | _ => x
  end.

(** ** The order of binary64

    A float is ranked by three integers compared lexicographically, so that
    [lia] decides order goals once the comparisons are translated. *)
Definition sf_rank (x : spec_float) : Z * Z * Z :=
  match x with
  | S754_nan => (10, 0, 0)
  | S754_infinity s => if s then (-3, 0, 0) else (3, 0, 0)
  | S754_zero _ => (0, 0, 0)
  | S754_finite s m e => if s then (-1, - e, - Z.pos m) else (1, e, Z.pos m)
  end.

Definition f64_cls (x : f64) : Z := (sf_rank (Prim2SF x)).1.1.
Definition f64_exp (x : f64) : Z := (sf_rank (Prim2SF x)).1.2.
Definition f64_man (x : f64) : Z := (sf_rank (Prim2SF x)).2.

Definition f64_num (x : f64) : Prop := f64_cls x < 10.
Definition f64_lt (x y : f64) : Prop :=
  f64_num x /\ f64_num y /\
  (f64_cls x < f64_cls y \/ f64_cls x = f64_cls y /\
    (f64_exp x < f64_exp y \/ f64_exp x = f64_exp y /\ f64_man x < f64_man y)).
Definition f64_le (x y : f64) : Prop :=
  f64_num x /\ f64_num y /\
  (f64_cls x < f64_cls y \/ f64_cls x = f64_cls y /\
    (f64_exp x < f64_exp y \/ f64_exp x = f64_exp y /\ f64_man x <= f64_man y)).

Lemma sf_compare_rank x y :
  SFcompare x y =
    if (10 <=? (sf_rank x).1.1) || (10 <=? (sf_rank y).1.1) then None
    else Some (match (sf_rank x).1.1 ?= (sf_rank y).1.1 with
               | Eq => match (sf_rank x).1.2 ?= (sf_rank y).1.2 with
                       | Eq => (sf_rank x).2 ?= (sf_rank y).2
                       | c => c
                       end
               | c => c
               end).
Proof.
  destruct x as [sx|sx| |sx mx ex], y as [sy|sy| |sy my ey];
    try destruct sx; try destruct sy; try reflexivity; cbn -[Z.opp]; try reflexivity.
  rewrite (Z.compare_opp ex ey), (Z.compare_antisym ex ey).
  destruct (ex ?= ey); cbn; reflexivity.
Qed.

Lemma f64_ltb_iff x y : (x <? y)%float = true <-> f64_lt x y.
Proof.
  rewrite FloatAxioms.ltb_spec. unfold SFltb, f64_lt, f64_num, f64_cls, f64_exp, f64_man.
  rewrite sf_compare_rank.
  destruct (sf_rank (Prim2SF x)) as [[a b] c], (sf_rank (Prim2SF y)) as [[a' b'] c']; cbn.
  destruct (Z.leb_spec 10 a), (Z.leb_spec 10 a'); cbn; try (split; [done | lia]).
  destruct (Z.compare_spec a a'); [|split; auto; lia | split; [done | lia]].
  destruct (Z.compare_spec b b'); [|split; auto; lia | split; [done | lia]].
  destruct (Z.compare_spec c c'); split; auto; try done; lia.
Qed.

Lemma f64_leb_iff x y : (x <=? y)%float = true <-> f64_le x y.
Proof.
  rewrite FloatAxioms.leb_spec. unfold SFleb, f64_le, f64_num, f64_cls, f64_exp, f64_man.
  rewrite sf_compare_rank.
  destruct (sf_rank (Prim2SF x)) as [[a b] c], (sf_rank (Prim2SF y)) as [[a' b'] c']; cbn.
  destruct (Z.leb_spec 10 a), (Z.leb_spec 10 a'); cbn; try (split; [done | lia]).
  destruct (Z.compare_spec a a'); [|split; auto; lia | split; [done | lia]].
  destruct (Z.compare_spec b b'); [|split; auto; lia | split; [done | lia]].
  destruct (Z.compare_spec c c'); split; auto; try done; lia.
Qed.

Lemma f64_ltb_false x y : (x <? y)%float = false <-> ~ f64_lt x y.
Proof. rewrite <- f64_ltb_iff. destruct (x <? y)%float; naive_solver. Qed.

Lemma f64_leb_false x y : (x <=? y)%float = false <-> ~ f64_le x y.
Proof. rewrite <- f64_leb_iff. destruct (x <=? y)%float; naive_solver. Qed.

Lemma f64_nan_iff x : PrimFloat.is_nan x = true <-> ~ f64_num x.
Proof.
  unfold PrimFloat.is_nan, f64_num, f64_cls.
  rewrite FloatAxioms.eqb_spec. unfold SFeqb. rewrite sf_compare_rank.
  destruct (Prim2SF x) as [s|s| |s m e]; try destruct s; cbn -[Z.opp];
    rewrite ?Z.compare_refl, ?Pos.compare_refl; cbn;
    rewrite ?Z.compare_refl, ?Pos.compare_refl; cbn; split; try done; lia.
Qed.

Lemma f64_nan_false x : PrimFloat.is_nan x = false <-> f64_num x.
Proof.
  destruct (PrimFloat.is_nan x) eqn:E.
  - apply f64_nan_iff in E. naive_solver.
  - split; [|done]. intros _. unfold f64_num.
    assert (~ ~ f64_num x) as H by (rewrite <- f64_nan_iff, E; done).
    unfold f64_num in H. lia.
Qed.

(** [f64_const] evaluates the ranks of the closed floats of the goal. *)
Ltac f64_rank_value f c :=
  lazymatch f with f64_cls => idtac | f64_exp => idtac | f64_man => idtac end;
  let b := eval vm_compute in (PrimFloat.eqb c c) in
  lazymatch b with true => idtac end;
  let v := eval vm_compute in (f c) in
  change (f c) with v in *.

Ltac f64_const :=
  repeat match goal with
  | |- context [?f ?c] => f64_rank_value f c
  | H : context [?f ?c] |- _ => f64_rank_value f c
  end.

(** Decides goals about [<?], [<=?] and [is_nan] on floats from hypotheses of
    the same form. *)
Ltac f64_order :=
  repeat match goal with
  | H : (_ <? _)%float = true |- _ => apply f64_ltb_iff in H
  | H : (_ <? _)%float = false |- _ => apply f64_ltb_false in H
  | H : (_ <=? _)%float = true |- _ => apply f64_leb_iff in H
  | H : (_ <=? _)%float = false |- _ => apply f64_leb_false in H
  | H : PrimFloat.is_nan _ = true |- _ => apply f64_nan_iff in H
  | H : PrimFloat.is_nan _ = false |- _ => apply f64_nan_false in H
  | |- (_ <? _)%float = true => apply f64_ltb_iff
  | |- (_ <? _)%float = false => apply f64_ltb_false
  | |- (_ <=? _)%float = true => apply f64_leb_iff
  | |- (_ <=? _)%float = false => apply f64_leb_false
  | |- PrimFloat.is_nan _ = true => apply f64_nan_iff
  | |- PrimFloat.is_nan _ = false => apply f64_nan_false
  end;
  unfold f64_lt, f64_le, f64_num in *; f64_const; lia.

Lemma f64_min_le_r x y z : (y <=? z)%float = true -> (f64_min x y <=? z)%float = true.
Proof. intros H. unfold f64_min. repeat case_match; f64_order. Qed.

Lemma f64_le_trans x y z :
  (x <=? y)%float = true -> (y <=? z)%float = true -> (x <=? z)%float = true.
Proof. intros H1 H2. f64_order. Qed.

Lemma f64_max_ge x y z :
  (z <=? x)%float = true -> (z <=? y)%float = true -> (z <=? f64_max x y)%float = true.
Proof. intros H1 H2. unfold f64_max. repeat case_match; done. Qed.

(** ** Bounds by search

    Goals that an integer fits its width or a float keeps a bound. *)
Create HintDb bounds.
#[export] Hint Resolve wrap_u_range wrap_s_range f64_min_le_r f64_max_ge : bounds.
#[export] Hint Extern 1 (0 <= _) => lia : bounds.
#[export] Hint Extern 1 (0 < _) => lia : bounds.

(** ** Sorting floats

    [sort_by(|a, b| a.partial_cmp(b).unwrap_or(Equal))] on numbers: a stable
    insertion sort. *)
Fixpoint f64_insert (x : f64) (l : list f64) : list f64 :=
  match l with
  | [] => [x]
  | y :: l' => if (x <=? y)%float then x :: y :: l' else y :: f64_insert x l'
  end.
Definition f64_sort (l : list f64) : list f64 := List.fold_right f64_insert [] l.

Definition f64_sorted : list f64 -> Prop := StronglySorted (fun x y => (x <=? y)%float = true).

Lemma f64_insert_perm x l : f64_insert x l ≡ₚ x :: l.
Proof.
  induction l as [|y l IH]; cbn; [done|]. destruct (x <=? y)%float; [done|].
  rewrite IH. constructor.
Qed.

Lemma f64_sort_perm l : f64_sort l ≡ₚ l.
Proof. induction l as [|x l IH]; cbn; [done|]. by rewrite f64_insert_perm, IH. Qed.

Lemma f64_insert_sorted x l :
  Forall f64_num (x :: l) -> f64_sorted l -> f64_sorted (f64_insert x l).
Proof.
  induction l as [|y l IH]; intros HN HS; cbn; [by repeat constructor|].
  inversion HN as [|? ? Hx HN']; subst. inversion HN' as [|? ? Hy HN'']; subst.
  inversion HS as [|? ? HS' HF]; subst.
  destruct (x <=? y)%float eqn:E.
  - constructor; [done|]. constructor; [done|].
    eapply Forall_impl; [exact HF|]. cbn. intros z Hz. f64_order.
  - constructor; [by apply IH; [constructor|]|].
    rewrite f64_insert_perm. constructor; [f64_order | done].
Qed.

Lemma f64_sort_sorted l : Forall f64_num l -> f64_sorted (f64_sort l).
Proof.
  induction l as [|x l IH]; intros H; cbn; [constructor|].
  inversion H; subst. apply f64_insert_sorted; [|by apply IH].
  constructor; [done|]. by rewrite f64_sort_perm.
Qed.

(** positive floats are equal when they compare equal *)
Lemma f64_pos_antisym x y :
  (0 <? x)%float = true -> (x <=? y)%float = true -> (y <=? x)%float = true -> x = y.
Proof.
  intros H1 H2 H3. apply FloatAxioms.Prim2SF_inj.
  apply f64_ltb_iff in H1. apply f64_leb_iff in H2. apply f64_leb_iff in H3.
  unfold f64_lt, f64_le, f64_num in *. f64_const.
  unfold f64_cls, f64_exp, f64_man in *.
  destruct (Prim2SF x) as [sx|sx| |sx mx ex], (Prim2SF y) as [sy|sy| |sy my ey]; cbn in *;
    try destruct sx; try destruct sy; cbn in *; try lia; try done.
  assert (mx = my) as -> by lia. by assert (ex = ey) as -> by lia.
Qed.

(** sorting positive floats forgets their order *)
Lemma f64_sort_unique l1 l2 :
  Forall (fun x => (0 <? x)%float = true) l1 -> l1 ≡ₚ l2 -> f64_sort l1 = f64_sort l2.
Proof.
  intros HP H. apply (StronglySorted_unique_strong (fun x y => (x <=? y)%float = true)).
  - intros x y Hx _ H1 H2. apply f64_pos_antisym; [|done..].
    rewrite f64_sort_perm in Hx. rewrite Forall_forall in HP. by apply HP.
  - apply f64_sort_sorted. eapply Forall_impl; [exact HP|]. cbn. intros x Hx. f64_order.
  - apply f64_sort_sorted. rewrite <- H. eapply Forall_impl; [exact HP|]. cbn. intros x Hx. f64_order.
  - by rewrite !f64_sort_perm.
Qed.
