(* ===== verification/Amounts.v ===== *)
(** Fixed-point amounts, [src/src/helper.rs].

    An [Amount] is a raw [u64] with its number of decimals, a [SignedAmount] a
    raw [i64]. Arithmetic is only defined between amounts of the same decimals
    (an [assert_eq!] otherwise); additions and rescalings wrap in the release
    build the deployment scripts produce. *)
From S2P Require Import Prelude.

(** [10u64.pow(d)] and [10i64.pow(d)], wrapping *)
Definition pow10_u64 (d : Z) : Z := u64 (10 ^ d).
Definition pow10_i64 (d : Z) : Z := i64 (10 ^ d).

(* helper.rs 5-9: Amount *)
Record Amount := mkAmount { am_value : Z; am_decimals : Z }.
#[export] Instance Amount_settable : Settable Amount :=
  fun a => mkAmount (am_value a) (am_decimals a).
#[export] Instance Amount_eq_dec : EqDecision Amount.
Proof. solve_decision. Defined.

(* helper.rs 16-22: Amount::from_float *)
Definition amount_from_float (v : f64) (decimals : Z) : Amount :=
  let scale := pow10_u64 decimals in
  mkAmount (f64_as_u64 (f64_round (v * f64_of_Z scale)%float)) decimals.

(* helper.rs 23-30: Amount::from_float_native *)
Definition amount_from_float_native (v : f64) : Amount :=
  let scale := pow10_u64 9 in
  mkAmount (f64_as_u64 (f64_round (v * f64_of_Z scale)%float)) 9.

(* helper.rs 32-34: Amount::from_raw *)
Definition amount_from_raw (value decimals : Z) : Amount := mkAmount value decimals.

(* helper.rs 36-38: Amount::from_raw_native *)
Definition amount_from_raw_native (value : Z) : Amount := mkAmount value 9.

(* helper.rs 44-46: Amount::raw *)
Definition amount_raw (a : Amount) : Z := am_value a.

(* helper.rs 48-50: Amount::to_float *)
Definition amount_to_float (a : Amount) : f64 :=
  (f64_of_Z (am_value a) / f64_of_Z (pow10_u64 (am_decimals a)))%float.

(* helper.rs 52-66: Amount::to_scale *)
Definition amount_to_scale (a : Amount) (new_decimals : Z) : outcome Amount :=
  if am_decimals a <? new_decimals then
    let factor := pow10_u64 (new_decimals - am_decimals a) in
    Ret (mkAmount (u64 (am_value a * factor)) new_decimals)
  else
    let factor := pow10_u64 (am_decimals a - new_decimals) in
    v ← checked_div (am_value a) factor;
    Ret (mkAmount v new_decimals).

(* helper.rs 70-80: Add for Amount *)
Definition amount_add (a b : Amount) : outcome Amount :=
  if am_decimals a =? am_decimals b
  then Ret (mkAmount (u64 (am_value a + am_value b)) (am_decimals a))
  else Panic (AssertFailed "decimal mismatch").

(* helper.rs 82-92: Sub for Amount *)
Definition amount_sub (a b : Amount) : outcome Amount :=
  if am_decimals a =? am_decimals b
  then Ret (mkAmount (u64 (am_value a - am_value b)) (am_decimals a))
  else Panic (AssertFailed "decimal mismatch").

(* helper.rs 94-100: Div for Amount *)
Definition amount_div (a b : Amount) : f64 := (amount_to_float a / amount_to_float b)%float.

(** decimal digits, and [{:0width$}] *)
Definition show_Z (z : Z) : string := pretty (Z.to_N z).
Fixpoint zeros (n : nat) : string :=
  match n with O => "" | S n => "0" +:+ zeros n end.
Definition zero_pad (width : Z) (s : string) : string :=
  (zeros (Z.to_nat width - String.length s) +:+ s)%string.

(* helper.rs 102-120: Display for Amount *)
Definition amount_display (a : Amount) : outcome string :=
  let scale := pow10_u64 (am_decimals a) in
  int_part ← checked_div (am_value a) scale;
  let frac_part := am_value a mod scale in
  if am_decimals a =? 0 then Ret (show_Z int_part)
  else Ret (show_Z int_part +:+ "." +:+ zero_pad (am_decimals a) (show_Z frac_part)).

(* helper.rs 122-126: SignedAmount *)
Record SignedAmount := mkSignedAmount { sam_value : Z; sam_decimals : Z }.

(* helper.rs 133-139: SignedAmount::from_float *)
Definition signed_from_float (v : f64) (decimals : Z) : SignedAmount :=
  let scale := pow10_i64 decimals in
  mkSignedAmount (f64_as_i64 (f64_round (v * f64_of_Z scale)%float)) decimals.

(* helper.rs 140-147: SignedAmount::from_float_native *)
Definition signed_from_float_native (v : f64) : SignedAmount :=
  let scale := pow10_u64 9 in
  mkSignedAmount (f64_as_i64 (f64_round (v * f64_of_Z scale)%float)) 9.

(* helper.rs 165-167: SignedAmount::to_float *)
Definition signed_to_float (a : SignedAmount) : f64 :=
  (f64_of_Z (sam_value a) / f64_of_Z (pow10_u64 (sam_decimals a)))%float.

(* helper.rs 169-183: SignedAmount::to_scale *)
Definition signed_to_scale (a : SignedAmount) (new_decimals : Z) : outcome SignedAmount :=
  if sam_decimals a <? new_decimals then
    let factor := pow10_i64 (new_decimals - sam_decimals a) in
    Ret (mkSignedAmount (i64 (sam_value a * factor)) new_decimals)
  else
    let factor := pow10_i64 (sam_decimals a - new_decimals) in
    if factor =? 0 then Panic DivideByZero
    else Ret (mkSignedAmount (sam_value a ÷ factor) new_decimals).

(* helper.rs 187-197: Add for SignedAmount *)
Definition signed_add (a b : SignedAmount) : outcome SignedAmount :=
  if sam_decimals a =? sam_decimals b
  then Ret (mkSignedAmount (i64 (sam_value a + sam_value b)) (sam_decimals a))
  else Panic (AssertFailed "decimal mismatch").

(* helper.rs 199-209: Sub for SignedAmount *)
Definition signed_sub (a b : SignedAmount) : outcome SignedAmount :=
  if sam_decimals a =? sam_decimals b
  then Ret (mkSignedAmount (i64 (sam_value a - sam_value b)) (sam_decimals a))
  else Panic (AssertFailed "decimal mismatch").

(* helper.rs 211-217: Div for SignedAmount *)
Definition signed_div (a b : SignedAmount) : f64 := (signed_to_float a / signed_to_float b)%float.

(** the format string of the negative branch has a space after the point *)
(* helper.rs 219-250: Display for SignedAmount *)
Definition signed_display (a : SignedAmount) : outcome string :=
  let scale := pow10_u64 (sam_decimals a) in
  let abs_value := Z.abs (sam_value a) in
  int_part ← checked_div abs_value scale;
  let frac_part := abs_value mod scale in
  let frac := zero_pad (sam_decimals a) (show_Z frac_part) in
  Ret (if sam_value a <? 0 then
         if sam_decimals a =? 0 then "-" +:+ show_Z int_part
         else "-" +:+ show_Z int_part +:+ ". " +:+ frac
       else if sam_decimals a =? 0 then show_Z int_part
       else show_Z int_part +:+ "." +:+ frac).

(** ** Well-formedness and laws *)

Definition amount_wf (a : Amount) : Prop := in_u 64 (am_value a) /\ in_u 8 (am_decimals a).
Definition amount_wfb (a : Amount) : bool :=
  (0 <=? am_value a) && (am_value a <? 2 ^ 64) && (0 <=? am_decimals a) && (am_decimals a <? 2 ^ 8).

Lemma amount_wfb_iff a : amount_wfb a = true <-> amount_wf a.
Proof. unfold amount_wfb, amount_wf, in_u. rewrite !andb_true_iff. lia. Qed.

Lemma pow10_u64_small d : 0 <= d < 20 -> pow10_u64 d = 10 ^ d.
Proof.
  intros [H1 H2]. apply wrap_u_small. split; [apply Z.pow_nonneg; lia|].
  apply Z.le_lt_trans with (10 ^ 19); [apply Z.pow_le_mono_r; lia | done].
Qed.

Lemma amount_add_wf a b c : amount_wf a -> amount_add a b = Ret c -> amount_wf c.
Proof.
  unfold amount_add, amount_wf. intros [_ Hd] H.
  destruct (_ =? _); inversion H; subst; cbn. split; [auto with bounds | done].
Qed.

Lemma amount_sub_wf a b c : amount_wf a -> amount_sub a b = Ret c -> amount_wf c.
Proof.
  unfold amount_sub, amount_wf. intros [_ Hd] H.
  destruct (_ =? _); inversion H; subst; cbn. split; [auto with bounds | done].
Qed.

(** Adding and subtracting the same amount is the identity, wrap included. *)
Lemma amount_add_sub a b c :
  amount_wf a -> amount_add a b = Ret c -> amount_sub c b = Ret a.
Proof.
  unfold amount_add, amount_sub, amount_wf. intros [Hv Hd] H.
  destruct (am_decimals a =? am_decimals b) eqn:E; inversion H; subst; cbn. rewrite E.
  unfold wrap_u. rewrite Zminus_mod_idemp_l.
  replace (am_value a + am_value b - am_value b) with (am_value a) by lia.
  fold (u64 (am_value a)). rewrite wrap_u_small by done. by destruct a.
Qed.

Lemma amount_to_scale_total a d :
  amount_wf a -> 0 <= d < 20 -> am_decimals a < 20 -> exists b, amount_to_scale a d = Ret b.
Proof.
  unfold amount_to_scale, amount_wf, in_u. intros [Hv Hd] H1 H2.
  destruct (_ <? _) eqn:E; [by eexists|].
  rewrite pow10_u64_small by lia. unfold checked_div.
  destruct (_ =? 0) eqn:Z0; [|by eexists].
  apply Z.eqb_eq in Z0. pose proof (Z.pow_pos_nonneg 10 (am_decimals a - d)). lia.
Qed.

(** Rescaling an amount to more decimals and back is the identity as long
    as the rescaled raw value fits in a [u64]. *)
Theorem amount_to_scale_roundtrip a d :
  amount_wf a -> am_decimals a <= d < 20 ->
  am_value a * 10 ^ (d - am_decimals a) < 2 ^ 64 ->
  exists b, amount_to_scale a d = Ret b /\ amount_to_scale b (am_decimals a) = Ret a.
Proof.
  intros [Hv Hd] H1 H2. unfold in_u in *.
  assert (0 < 10 ^ (d - am_decimals a)) as Hp by (apply Z.pow_pos_nonneg; lia).
  unfold amount_to_scale at 1. destruct (Z.ltb_spec (am_decimals a) d).
  - eexists; split; [done|]. unfold amount_to_scale; cbn.
    destruct (Z.ltb_spec d (am_decimals a)); [lia|].
    rewrite pow10_u64_small by lia.
    rewrite wrap_u_small by (unfold in_u; nia).
    unfold checked_div. destruct (Z.eqb_spec (10 ^ (d - am_decimals a)) 0); [lia|].
    cbn. rewrite Z.div_mul by lia. by destruct a.
  - assert (d = am_decimals a) as -> by lia. rewrite Z.sub_diag.
    exists a. unfold amount_to_scale. rewrite Z.ltb_irrefl, Z.sub_diag.
    change (pow10_u64 0) with 1. unfold checked_div; cbn -[Z.div].
    rewrite Z.div_1_r. by destruct a.
Qed.

Lemma amount_to_scale_roundtrip_witness :
  exists b, amount_to_scale (mkAmount 1500000 6) 9 = Ret b /\
            amount_to_scale b 6 = Ret (mkAmount 1500000 6).
Proof.
  apply (amount_to_scale_roundtrip (mkAmount 1500000 6) 9);
    [apply amount_wfb_iff; reflexivity | cbn; lia | reflexivity].
Defined.

(** ** Types

    Every operation on well-formed amounts gives a well-formed amount or one of
    the panics of the code. *)
Definition signed_wf (a : SignedAmount) : Prop := in_s 64 (sam_value a) /\ in_u 8 (sam_decimals a).

Lemma f64_to_int_range mn mx x : mn <= 0 <= mx -> mn <= f64_to_int mn mx x <= mx.
Proof. intros H. unfold f64_to_int. repeat case_match; lia. Qed.

(** [10 ^ k] vanishes modulo [2 ^ 64] from [k = 64] on *)
Definition pow10_row (k : nat) : bool :=
  Bool.eqb (pow10_u64 (Z.of_nat k) =? 0) (64 <=? k)%nat &&
  Bool.eqb (pow10_i64 (Z.of_nat k) =? 0) (64 <=? k)%nat && negb (pow10_i64 (Z.of_nat k) =? -1).

Lemma pow10_rows : forallb pow10_row (seq 0 256) = true.
Proof. vm_compute. reflexivity. Qed.

Lemma pow10_zero k : 0 <= k < 256 ->
  (pow10_u64 k = 0 <-> 64 <= k) /\ (pow10_i64 k = 0 <-> 64 <= k) /\ pow10_i64 k <> -1.
Proof.
  intros H. pose proof (proj1 (forallb_forall _ _) pow10_rows (Z.to_nat k)) as C.
  assert (List.In (Z.to_nat k) (seq 0 256)) as I by (apply in_seq; lia).
  specialize (C I). unfold pow10_row in C. rewrite Z2Nat.id in C by lia.
  apply andb_true_iff in C as [[C1%Bool.eqb_prop C2%Bool.eqb_prop]%andb_true_iff C3%negb_true_iff].
  apply Z.eqb_neq in C3. clear I. revert C1 C2 C3.
  generalize (pow10_u64 k) (pow10_i64 k). intros u i C1 C2 C3.
  destruct (Nat.leb_spec 64 (Z.to_nat k)); rewrite ?Z.eqb_eq, ?Z.eqb_neq in C1, C2; lia.
Qed.

(** a result: a typed value, or a panic exactly under [p] *)
Definition typed_or {A} (wf : A -> Prop) (p : Prop) (o : outcome A) : Prop :=
  match o with Ret a => wf a /\ ~ p | Panic _ => p end.

Lemma amount_to_scale_typed a d : amount_wf a -> in_u 8 d ->
  typed_or (fun c => amount_wf c /\ am_decimals c = d) (64 <= am_decimals a - d) (amount_to_scale a d).
Proof.
  intros [Hv Hd] H. unfold in_u in Hd, H. unfold amount_to_scale, checked_div.
  destruct (Z.ltb_spec (am_decimals a) d); cbn.
  - split; [|lia]. split; [|done]. split; [cbn; auto with bounds|done].
  - destruct (pow10_zero (am_decimals a - d)) as [P _]; [lia|].
    destruct (Z.eqb_spec (pow10_u64 (am_decimals a - d)) 0) as [E|E]; cbn; [by apply P|].
    split; [|by rewrite <- P]. split; [|done]. split; [|done]. cbn. unfold in_u in *.
    pose proof (wrap_u_range 64 (10 ^ (am_decimals a - d)) ltac:(lia)) as R.
    fold (pow10_u64 (am_decimals a - d)) in R. unfold in_u in R.
    split; [apply Z.div_pos; lia|]. apply Z.div_lt_upper_bound; nia.
Qed.

Lemma signed_to_scale_typed a d : signed_wf a -> in_u 8 d ->
  typed_or (fun c => signed_wf c /\ sam_decimals c = d) (64 <= sam_decimals a - d) (signed_to_scale a d).
Proof.
  intros [Hv Hd] H. unfold in_u in Hd, H. unfold signed_to_scale.
  destruct (Z.ltb_spec (sam_decimals a) d); cbn.
  - split; [|lia]. split; [|done]. split; [cbn; auto with bounds|done].
  - destruct (pow10_zero (sam_decimals a - d)) as (_ & P & M); [lia|].
    destruct (Z.eqb_spec (pow10_i64 (sam_decimals a - d)) 0) as [E|E]; cbn; [by apply P|].
    split; [|by rewrite <- P]. split; [|done]. split; [|done]. cbn.
    set (f := pow10_i64 (sam_decimals a - d)) in *. unfold in_s in *.
    destruct (Z.eq_dec f 1) as [->|F1]; [by rewrite Z.quot_1_r|].
    assert (Z.abs (sam_value a ÷ f) < 2 ^ 63) as B; [|lia].
    rewrite <- Z.quot_abs by done. apply Z.quot_lt_upper_bound; lia.
Qed.

(** C36: the operations on amounts are typed: from well-formed arguments each
    returns an amount whose value fits its width, or panics, and exactly in
    these cases: the decimals differ in an addition or subtraction, or a
    rescaling divides by a power of ten that has wrapped to zero, 64 decimals
    or more away *)
Theorem amount_ops_typed (a b : Amount) (x y : SignedAmount) (v : f64) (d : Z) :
  amount_wf a -> amount_wf b -> signed_wf x -> signed_wf y -> in_u 8 d ->
  amount_wf (amount_from_float v d) /\ signed_wf (signed_from_float v d) /\
  typed_or amount_wf (am_decimals a <> am_decimals b) (amount_add a b) /\
  typed_or amount_wf (am_decimals a <> am_decimals b) (amount_sub a b) /\
  typed_or (fun c => amount_wf c /\ am_decimals c = d) (64 <= am_decimals a - d) (amount_to_scale a d) /\
  typed_or signed_wf (sam_decimals x <> sam_decimals y) (signed_add x y) /\
  typed_or signed_wf (sam_decimals x <> sam_decimals y) (signed_sub x y) /\
  typed_or (fun c => signed_wf c /\ sam_decimals c = d) (64 <= sam_decimals x - d) (signed_to_scale x d).
Proof.
  intros [Av Ad] [Bv Bd] [Xv Xd] [Yv Yd] D.
  assert (amount_wf (amount_from_float v d)) as F1.
  { split; [|done]. cbn. unfold f64_as_u64, U64_MAX. set (z := f64_round _).
    pose proof (f64_to_int_range 0 (2 ^ 64 - 1) z ltac:(lia)). unfold in_u. lia. }
  assert (signed_wf (signed_from_float v d)) as F2.
  { split; [|done]. cbn. unfold f64_as_i64, I64_MIN, I64_MAX. set (z := f64_round _).
    pose proof (f64_to_int_range (- 2 ^ 63) (2 ^ 63 - 1) z ltac:(lia)). unfold in_s. lia. }
  pose proof (amount_to_scale_typed a d (conj Av Ad) D) as T1.
  pose proof (signed_to_scale_typed x d (conj Xv Xd) D) as T2.
  unfold amount_add, amount_sub, signed_add, signed_sub.
  destruct (Z.eqb_spec (am_decimals a) (am_decimals b)), (Z.eqb_spec (sam_decimals x) (sam_decimals y)); cbn;
    repeat (split; [done || (split; [split; [cbn; auto with bounds|done]|naive_solver])|]); done.
Qed.

Lemma amount_ops_typed_witness :
  typed_or (fun c => amount_wf c /\ am_decimals c = 6) (64 <= 70 - 6) (amount_to_scale (mkAmount 5 70) 6) /\
  typed_or signed_wf (9 <> 9) (signed_add (mkSignedAmount (-3) 9) (mkSignedAmount 4 9)).
Proof.
  assert (amount_wf (mkAmount 5 70)) as A by (apply amount_wfb_iff; reflexivity).
  assert (signed_wf (mkSignedAmount (-3) 9) /\ signed_wf (mkSignedAmount 4 9)) as [X Y]
    by (split; split; unfold in_u, in_s; cbn; lia).
  destruct (amount_ops_typed (mkAmount 5 70) (mkAmount 5 70) (mkSignedAmount (-3) 9) (mkSignedAmount 4 9)
    1%float 6 A A X Y) as (_ & _ & _ & _ & T & S & _ & _); [unfold in_u; lia|]. by split.
Defined.
