(* ===== verification/Pump.v ===== *)
(** Events, general commands and pools of the pump.fun launchpad.

    [feed/logs/pump.rs] and [feed/logs/pump_amm.rs] decode program logs into
    events, [generalize/] turns them into launchpad-independent [Action]s and
    [launchpads/pump/pool.rs] keeps the reserves of a token's pool.  Program
    derived addresses, base58 constants, base64 and borsh are third-party code:
    they are arguments of the definitions that use them. *)
From S2P Require Import Prelude Amounts.

(** ** Events of the pump program *)

(* feed/logs/pump.rs 69-87: CreateEvent *)
Record CreateEvent := mkCreateEvent {
  ce_name : string;
  ce_symbol : string;
  ce_uri : string;
  ce_mint : Address;
  ce_bonding_curve : Address;
  ce_user : Address;
  ce_creator : Address;
  ce_timestamp : Z;
  ce_virtual_token_reserves : Z;
  ce_virtual_sol_reserves : Z;
  ce_real_token_reserves : Z;
  ce_token_total_supply : Z;
  ce_token_program : Address;
  ce_is_mayhem_mode : bool;
  ce_is_cashback_enabled : bool;
  ce_quote_mint : Address;
  ce_virtual_quote_reserves : Z
}.

(* feed/logs/pump.rs 90-122: TradeEvent *)
Record TradeEvent := mkTradeEvent {
  te_mint : Address;
  te_sol_amount : Z;
  te_token_amount : Z;
  te_is_buy : bool;
  te_user : Address;
  te_timestamp : Z;
  te_virtual_sol_reserves : Z;
  te_virtual_token_reserves : Z;
  te_real_sol_reserves : Z;
  te_real_token_reserves : Z;
  te_fee_recipient : Address;
  te_fee_basis_points : Z;
  te_fee : Z;
  te_creator : Address;
  te_creator_fee_basis_points : Z;
  te_creator_fee : Z;
  te_track_volume : bool;
  te_total_unclaimed_tokens : Z;
  te_total_claimed_tokens : Z;
  te_current_sol_volume : Z;
  te_last_update_timestamp : Z;
  te_ix_name : string;
  te_mayhem_mode : bool;
  te_cashback_fee_basis_points : Z;
  te_cashback : Z;
  te_buyback_fee_basis_points : Z;
  te_buyback_fee : Z;
  te_shareholders : list Address;
  te_quote_amount : Z;
  te_virtual_quote_reserves : Z;
  te_real_quote_reserves : Z
}.

(* feed/logs/pump.rs 10-14: PumpEvent *)
Inductive PumpEvent :=
  | PumpCreate (e : CreateEvent)
  | PumpTrade (e : TradeEvent).

(* feed/logs/pump.rs 17-22: PumpEvent::mint *)
Definition pump_event_mint (e : PumpEvent) : Address :=
  match e with PumpCreate c => ce_mint c | PumpTrade t => te_mint t end.

(** ** Events of the AMM the tokens migrate to *)

(* feed/logs/pump_amm.rs 94-104: CreatePoolEvent *)
Record CreatePoolEvent := mkCreatePoolEvent {
  cpe_pool : Address;
  cpe_creator : Address;
  cpe_base_mint : Address;
  cpe_quote_mint : Address;
  cpe_base_amount : Z;
  cpe_quote_amount : Z;
  cpe_lp_mint : Address;
  cpe_lp_supply : Z;
  cpe_timestamp : Z
}.

(* feed/logs/pump_amm.rs 107-140: BuyEvent *)
Record BuyEvent := mkBuyEvent {
  be_timestamp : Z;
  be_base_amount_out : Z;
  be_max_quote_amount_in : Z;
  be_user_base_token_reserves : Z;
  be_user_quote_token_reserves : Z;
  be_pool_base_token_reserves : Z;
  be_pool_quote_token_reserves : Z;
  be_quote_amount_in : Z;
  be_lp_fee_basis_points : Z;
  be_lp_fee : Z;
  be_protocol_fee_basis_points : Z;
  be_protocol_fee : Z;
  be_quote_amount_in_with_lp_fee : Z;
  be_user_quote_amount_in : Z;
  be_pool : Address;
  be_user : Address;
  be_user_base_token_account : Address;
  be_user_quote_token_account : Address;
  be_protocol_fee_recipient : Address;
  be_protocol_fee_recipient_token_account : Address;
  be_coin_creator : Address;
  be_coin_creator_fee_basis_points : Z;
  be_coin_creator_fee : Z;
  be_track_volume : bool;
  be_total_unclaimed_tokens : Z;
  be_total_claimed_tokens : Z;
  be_current_sol_volume : Z;
  be_last_update_timestamp : Z;
  be_min_base_amount_out : Z;
  be_ix_name : string;
  be_cashback_fee_basis_points : Z;
  be_cashback : Z
}.

(* feed/logs/pump_amm.rs 143-176: SellEvent *)
Record SellEvent := mkSellEvent {
  se_timestamp : Z;
  se_base_amount_in : Z;
  se_min_quote_amount_out : Z;
  se_user_base_token_reserves : Z;
  se_user_quote_token_reserves : Z;
  se_pool_base_token_reserves : Z;
  se_pool_quote_token_reserves : Z;
  se_quote_amount_out : Z;
  se_quote_amount_out_without_lp_fee : Z;
  se_lp_fee_basis_points : Z;
  se_lp_fee : Z;
  se_protocol_fee_basis_points : Z;
  se_protocol_fee : Z;
  se_user_quote_amount_out : Z;
  se_pool : Address;
  se_user : Address;
  se_user_base_token_account : Address;
  se_user_quote_token_account : Address;
  se_protocol_fee_recipient : Address;
  se_protocol_fee_recipient_token_account : Address;
  se_coin_creator : Address;
  se_coin_creator_fee_basis_points : Z;
  se_coin_creator_fee : Z
}.

(* feed/logs/pump_amm.rs 17-22: PumpAmmEvent *)
Inductive PumpAmmEvent :=
  | AmmBuy (e : BuyEvent)
  | AmmSell (e : SellEvent)
  | AmmCreatePool (e : CreatePoolEvent).

(* feed/logs/pump_amm.rs 24-31: PumpAmmEvent::pool *)
Definition amm_event_pool (e : PumpAmmEvent) : Address :=
  match e with
  | AmmBuy b => be_pool b
  | AmmSell s => se_pool s
  | AmmCreatePool c => cpe_pool c
  end.

(** ** Log lines

    Base64 decoding and the borsh deserialisers the event types derive are
    third-party code; [deserialize] reads a prefix of the bytes while
    [from_slice] wants all of them, so they are separate arguments. *)

(* feed/logs/log.rs 8-27: Error *)
Inductive log_error :=
  | IoError
  | Base64Decode
  | InvalidDiscriminator
  | InvalidLogEvent.

Definition log_prefix : string := "Program data: ".

(* feed/logs/pump.rs 33-34: CREATE_EVENT, TRADE_EVENT *)
Definition CREATE_EVENT : list Z := [27; 114; 169; 77; 222; 235; 99; 118].
Definition TRADE_EVENT : list Z := [189; 219; 127; 211; 78; 230; 97; 238].
(* feed/logs/pump_amm.rs 66-68: BUY_EVENT, SELL_EVENT, CREATE_POOL_EVENT *)
Definition BUY_EVENT : list Z := [103; 244; 82; 31; 44; 245; 119; 119].
Definition SELL_EVENT : list Z := [62; 47; 55; 10; 165; 3; 220; 42].
Definition CREATE_POOL_EVENT : list Z := [177; 49; 12; 210; 160; 118; 167; 116].

(** [str::strip_prefix] *)
Fixpoint strip_prefix (p s : string) : option string :=
  match p, s with
  | EmptyString, _ => Some s
  | String a p', String b s' => if Ascii.eqb a b then strip_prefix p' s' else None
  | String _ _, EmptyString => None
  end.

Section FromStr.
Context (base64_decode : string -> option (list Z)).

(** the common part of the two [FromStr] instances: the eight bytes of the
    discriminator and the rest *)
Definition split_log (s : string) : result (list Z * list Z) log_error :=
  match strip_prefix log_prefix s with
  | None => Err InvalidLogEvent
  | Some s =>
      match base64_decode s with
      | None => Err Base64Decode
      | Some blob =>
          if (length blob <? 8)%nat then Err InvalidLogEvent
          else Ok (take 8 blob, drop 8 blob)
      end
  end.

Definition io {A B} (f : A -> B) (r : option A) : result B log_error :=
  match r with Some a => Ok (f a) | None => Err IoError end.

(* feed/logs/pump.rs 39-65: PumpEvent::from_str *)
Definition pump_event_from_str
    (trade_deserialize : list Z -> option TradeEvent)
    (create_deserialize : list Z -> option CreateEvent)
    (s : string) : result PumpEvent log_error :=
  match split_log s with
  | Err e => Err e
  | Ok (discriminator, data) =>
      if decide (discriminator = TRADE_EVENT) then io PumpTrade (trade_deserialize data)
      else if decide (discriminator = CREATE_EVENT) then io PumpCreate (create_deserialize data)
      else Err InvalidDiscriminator
  end.

(* feed/logs/pump_amm.rs 73-90: PumpAmmEvent::from_str *)
Definition amm_event_from_str
    (buy_from_slice : list Z -> option BuyEvent)
    (sell_from_slice : list Z -> option SellEvent)
    (create_from_slice : list Z -> option CreatePoolEvent)
    (s : string) : result PumpAmmEvent log_error :=
  match split_log s with
  | Err e => Err e
  | Ok (disc, data) =>
      if decide (disc = BUY_EVENT) then io AmmBuy (buy_from_slice data)
      else if decide (disc = SELL_EVENT) then io AmmSell (sell_from_slice data)
      else if decide (disc = CREATE_POOL_EVENT) then io AmmCreatePool (create_from_slice data)
      else Err InvalidDiscriminator
  end.

End FromStr.

(** ** General commands *)

(* generalize/general_commands.rs 61-65: Currency *)
Inductive Currency := Native (a : Amount) | Dollar (a : Amount).

(* generalize/general_commands.rs 75-80: Currency::amount *)
Definition currency_amount (c : Currency) : Amount :=
  match c with Native a => a | Dollar a => a end.

(* generalize/general_commands.rs 100-107: From<Currency> for u64 *)
Definition currency_into_u64 (c : Currency) : Z :=
  match c with Native a => amount_raw a | Dollar a => amount_raw a end.

(* generalize/general_commands.rs 67-73: Currency::collumn_name *)
Definition currency_collumn_name (c : Currency) : string :=
  match c with Native _ => "sol" | Dollar _ => "usd" end.

(* generalize/general_commands.rs 91-98: Display for Currency *)
Definition currency_display (c : Currency) : outcome string :=
  match c with
  | Native a => s ← amount_display a; Ret (s +:+ " SOL")
  | Dollar a => s ← amount_display a; Ret (s +:+ "$")
  end.

(* generalize/general_commands.rs 109-114: GeneralMetadata *)
Record GeneralMetadata := mkGeneralMetadata {
  gm_name : string; gm_ticker : string; gm_uri : string }.

(* generalize/general_commands.rs 128-136: GeneralCreate *)
Record GeneralCreate := mkGeneralCreate {
  gc_mint : Address;
  gc_user : Address;
  gc_metadata : option GeneralMetadata;
  gc_quote_mint : Address
}.

(* generalize/general_commands.rs 150-156: GeneralBuy *)
Record GeneralBuy := mkGeneralBuy {
  gb_mint : Address; gb_user : Address; gb_bought : Amount; gb_spent : Currency }.

(* generalize/general_commands.rs 158-164: GeneralSell *)
Record GeneralSell := mkGeneralSell {
  gs_mint : Address; gs_user : Address; gs_sold : Amount; gs_received : Currency }.

(* generalize/general_commands.rs 25-29: TradeAction *)
Inductive TradeAction := TradeBuy (b : GeneralBuy) | TradeSell (s : GeneralSell).

(* generalize/general_commands.rs 7-11: Action *)
Inductive Action := ActCreate (c : GeneralCreate) | ActTrade (t : TradeAction).

(* generalize/general_commands.rs 31-37: TradeAction::mint *)
Definition trade_mint (t : TradeAction) : Address :=
  match t with TradeBuy b => gb_mint b | TradeSell s => gs_mint s end.

(* generalize/general_commands.rs 39-44: TradeAction::trader *)
Definition trade_trader (t : TradeAction) : Address :=
  match t with TradeBuy b => gb_user b | TradeSell s => gs_user s end.

(* generalize/general_commands.rs 46-51: TradeAction::size *)
Definition trade_size (t : TradeAction) : Currency :=
  match t with TradeBuy b => gb_spent b | TradeSell s => gs_received s end.

(* generalize/general_commands.rs 53-58: TradeAction::is_buy *)
Definition trade_is_buy (t : TradeAction) : bool :=
  match t with TradeBuy _ => true | TradeSell _ => false end.

(* generalize/general_commands.rs 14-22: Action::mint *)
Definition action_mint (a : Action) : Address :=
  match a with ActCreate c => gc_mint c | ActTrade t => trade_mint t end.

(** the quote mints are base58 constants decoded by the address library *)
Section Quote.
Context (from_str_const : string -> Address).

(* generalize/general_commands.rs 116-118: NATIVE_SOL_QUOTE_MINT *)
Definition NATIVE_SOL_QUOTE_MINT : Address :=
  from_str_const "So11111111111111111111111111111111111111112".
(* generalize/general_commands.rs 120-122: LEGACY_SOL_QUOTE_MINT *)
Definition LEGACY_SOL_QUOTE_MINT : Address :=
  from_str_const "11111111111111111111111111111111".

(* generalize/general_commands.rs 138-142: GeneralCreate::is_native_sol_quote *)
Definition is_native_sol_quote (c : GeneralCreate) : bool :=
  bool_decide (gc_quote_mint c = NATIVE_SOL_QUOTE_MINT)
  || bool_decide (gc_quote_mint c = LEGACY_SOL_QUOTE_MINT).

(* generalize/general_commands.rs 144-147: GeneralCreate::is_unsupported_quote_mint *)
Definition is_unsupported_quote_mint (c : GeneralCreate) : bool := negb (is_native_sol_quote c).
End Quote.

(* trading/offer.rs 3-7: Offer *)
Inductive Offer :=
  | OfferBuy (buy_for : Z) (received : Amount)
  | OfferSell (sell_amount : Amount) (received : Z).

(* generalize/general_commands.rs 166-179: From<TradeAction> for Offer *)
Definition offer_of_trade (t : TradeAction) : Offer :=
  match t with
  | TradeBuy b => OfferBuy (currency_into_u64 (gb_spent b)) (gb_bought b)
  | TradeSell s => OfferSell (gs_sold s) (currency_into_u64 (gs_received s))
  end.

(* launchpads/pump/general.rs 5-5: PRECISION *)
Definition PRECISION : Z := 6.

(* generalize/adapters/pump.rs 28-45: From<TradeEvent> for TradeAction *)
Definition trade_of_pump (e : TradeEvent) : TradeAction :=
  if te_is_buy e then
    TradeBuy (mkGeneralBuy (te_mint e) (te_user e)
      (amount_from_raw (te_token_amount e) PRECISION)
      (Native (amount_from_raw_native (te_sol_amount e))))
  else
    TradeSell (mkGeneralSell (te_mint e) (te_user e)
      (amount_from_raw (te_token_amount e) PRECISION)
      (Native (amount_from_raw_native (te_sol_amount e)))).

(* generalize/adapters/pump.rs 10-26: From<PumpEvent> for Action *)
Definition action_of_pump (e : PumpEvent) : Action :=
  match e with
  | PumpCreate c =>
      ActCreate (mkGeneralCreate (ce_mint c) (ce_user c)
        (Some (mkGeneralMetadata (ce_name c) (ce_symbol c) (ce_uri c))) (ce_quote_mint c))
  | PumpTrade t => ActTrade (trade_of_pump t)
  end.

(** the buy takes its amount from the pool's quote reserve and the sell its
    proceeds from the base amount sold *)
(* feed/logs/pump_amm.rs 33-55: PumpAmmEvent::into_general *)
Definition amm_into_general (e : PumpAmmEvent) (mint : Address) : Action :=
  match e with
  | AmmBuy b =>
      ActTrade (TradeBuy (mkGeneralBuy mint (be_user b)
        (amount_from_raw (be_pool_quote_token_reserves b) PRECISION)
        (Native (amount_from_raw_native (be_quote_amount_in b)))))
  | AmmSell s =>
      ActTrade (TradeSell (mkGeneralSell mint (se_user s)
        (amount_from_raw (se_base_amount_in s) PRECISION)
        (Native (amount_from_raw_native (se_base_amount_in s)))))
  | AmmCreatePool c =>
      ActCreate (mkGeneralCreate mint (cpe_creator c) None (cpe_quote_mint c))
  end.

(** ** Pools

    [update] receives an [&dyn Any]: its argument is what the downcast to a
    [PumpEvent] yields. *)
(* generalize/general_pool.rs 6-16: Pool *)
Class Pool (P : Type) := {
  pool_update : option PumpEvent -> P -> P;
  token_decimals : P -> Z;
  quote_decimals : P -> Z;
  instruction : P -> Action -> outcome unit;
  price : P -> outcome Currency;
  market_cap : P -> outcome Currency;
  mint : P -> Address;
  pool_address : P -> Address;
  creators : P -> list Address
}.

(* launchpads/pump/pool.rs 10-22: Bonding *)
Record Bonding := mkBonding {
  virtual_sol_reserves : Amount;
  virtual_token_reserves : Amount;
  real_sol_reserves : Amount;
  real_token_reserves : Amount;
  bonding_mint : Address;
  bonding_pool : Address;
  bonding_creator : Address
}.
#[export] Instance Bonding_settable : Settable Bonding :=
  fun b => mkBonding (virtual_sol_reserves b) (virtual_token_reserves b) (real_sol_reserves b)
             (real_token_reserves b) (bonding_mint b) (bonding_pool b) (bonding_creator b).

(* launchpads/pump/pool.rs 24-33: Migrated *)
Record Migrated := mkMigrated {
  sol_reserves : Amount;
  token_reserves : Amount;
  migrated_mint : Address;
  migrated_pool : Address;
  migrated_creator : Address
}.

(** [(a as u128) * k / (b as u128)], then [as u64] *)
Definition mul_div_u128 (a k b : Z) : outcome Z :=
  q ← checked_div (u128 (a * k)) b; Ret (u64 q).

(* launchpads/pump/pool.rs 42-46: Migrated::price *)
Definition migrated_price (m : Migrated) : outcome Currency :=
  q ← checked_div (amount_raw (sol_reserves m)) (amount_raw (token_reserves m));
  Ret (Native (amount_from_raw_native (q / 1000))).

(* launchpads/pump/pool.rs 70-75: Migrated::market_cap *)
Definition migrated_market_cap (m : Migrated) : outcome Currency :=
  mc ← mul_div_u128 (amount_raw (sol_reserves m)) (10 ^ 9) (amount_raw (token_reserves m));
  Ret (Native (amount_from_raw_native mc)).

(* launchpads/pump/pool.rs 89-94: Bonding::price *)
Definition bonding_price (b : Bonding) : outcome Currency :=
  p ← mul_div_u128 (amount_raw (virtual_sol_reserves b)) (10 ^ 9)
        (amount_raw (virtual_token_reserves b));
  Ret (Native (amount_from_raw_native p)).

(* launchpads/pump/pool.rs 133-138: Bonding::market_cap *)
Definition bonding_market_cap (b : Bonding) : outcome Currency :=
  mc ← mul_div_u128 (amount_raw (virtual_sol_reserves b)) (10 ^ 15)
         (amount_raw (virtual_token_reserves b));
  Ret (Native (amount_from_raw_native mc)).

(* launchpads/pump/pool.rs 104-119: Bonding::update *)
Definition bonding_update (event : option PumpEvent) (b : Bonding) : Bonding :=
  match event with
  | Some (PumpTrade t) =>
      b <| real_sol_reserves := amount_from_raw_native (te_real_sol_reserves t) |>
        <| real_token_reserves := amount_from_raw (te_real_token_reserves t) PRECISION |>
        <| virtual_sol_reserves := amount_from_raw_native (te_virtual_sol_reserves t) |>
        <| virtual_token_reserves := amount_from_raw (te_virtual_token_reserves t) PRECISION |>
  | Some (PumpCreate _) => b
  | None => b
  end.

(* launchpads/pump/pool.rs 41-80: Pool for Migrated *)
#[export] Instance Migrated_pool : Pool Migrated := {|
  pool_update := fun _ m => m;
  token_decimals := fun _ => 6;
  quote_decimals := fun _ => 9;
  instruction := fun _ _ => Panic NotImplemented;
  price := migrated_price;
  market_cap := migrated_market_cap;
  mint := migrated_mint;
  pool_address := migrated_pool;
  creators := fun m => [migrated_creator m]
|}.

(* launchpads/pump/pool.rs 88-143: Pool for Bonding *)
#[export] Instance Bonding_pool : Pool Bonding := {|
  pool_update := bonding_update;
  token_decimals := fun _ => 6;
  quote_decimals := fun _ => 9;
  instruction := fun _ _ => Panic NotImplemented;
  price := bonding_price;
  market_cap := bonding_market_cap;
  mint := bonding_mint;
  pool_address := bonding_pool;
  creators := fun b => [bonding_creator b]
|}.

(* launchpads/pump/pool.rs 145-148: PumpPool *)
Record PumpPool (T : Type) := mkPumpPool { pp_state : T }.
Arguments mkPumpPool {T} pp_state.
Arguments pp_state {T} p.

(** the two instances for [PumpPool<Bonding>] and [PumpPool<Migrated>] delegate alike *)
(* launchpads/pump/pool.rs 184-263: Pool for PumpPool *)
#[export] Instance PumpPool_pool {T} `{Pool T} : Pool (PumpPool T) := {|
  pool_update := fun e p => mkPumpPool (pool_update e (pp_state p));
  token_decimals := fun _ => 6;
  quote_decimals := fun _ => 9;
  instruction := fun _ _ => Panic NotImplemented;
  price := fun p => price (pp_state p);
  market_cap := fun p => market_cap (pp_state p);
  mint := fun p => mint (pp_state p);
  pool_address := fun p => pool_address (pp_state p);
  creators := fun p => creators (pp_state p)
|}.

Section Pda.
Context (bounding_curve pool_pda : Address -> Address).

(* launchpads/pump/pool.rs 150-163: PumpPool<Bonding>::new *)
Definition pump_pool_new (mint creator : Address) : PumpPool Bonding :=
  mkPumpPool {|
    virtual_sol_reserves := amount_from_raw_native 30000000000;
    virtual_token_reserves := amount_from_raw 1073000000000000 PRECISION;
    real_sol_reserves := amount_from_raw_native 0;
    real_token_reserves := amount_from_raw 793100000000000 PRECISION;
    bonding_mint := mint;
    bonding_pool := bounding_curve mint;
    bonding_creator := creator
  |}.

(* launchpads/pump/pool.rs 165-175: PumpPool<Bonding>::migrate *)
Definition pump_pool_migrate (p : PumpPool Bonding) : PumpPool Migrated :=
  mkPumpPool {|
    sol_reserves := real_sol_reserves (pp_state p);
    token_reserves := real_token_reserves (pp_state p);
    migrated_mint := bonding_mint (pp_state p);
    migrated_pool := pool_pda (mint p);
    migrated_creator := bonding_creator (pp_state p)
  |}.
End Pda.

(** ** Laws of the pools *)

Lemma mul_div_u128_small a k b :
  in_u 64 a -> 0 <= k < 2 ^ 64 -> 0 < b -> a * k / b < 2 ^ 64 ->
  mul_div_u128 a k b = Ret (a * k / b).
Proof.
  unfold in_u, mul_div_u128, checked_div. intros Ha Hk Hb Hq.
  rewrite wrap_u_small by (unfold in_u; nia).
  destruct (Z.eqb_spec b 0); [lia|]. cbn -[Z.div Z.mul]. f_equal.
  rewrite wrap_u_small; [done|]. split; [apply Z.div_pos; nia | done].
Qed.

(** On the bonding curve the market cap is the price scaled to the whole
    supply of 10^15 base units: dividing it by 10^6 gives exactly the price per
    10^9 base units, rounding included, as long as the cap fits in a [u64]. *)
Theorem bonding_cap_price_agree (b : Bonding) :
  in_u 64 (am_value (virtual_sol_reserves b)) -> 0 < am_value (virtual_token_reserves b) ->
  am_value (virtual_sol_reserves b) * 10 ^ 15 / am_value (virtual_token_reserves b) < 2 ^ 64 ->
  exists cap p,
    market_cap b = Ret (Native cap) /\ price b = Ret (Native p) /\
    am_value p = am_value cap / 10 ^ 6 /\ am_decimals cap = 9 /\ am_decimals p = 9.
Proof.
  set (s := am_value _). set (t := am_value _). intros Hs Ht Hc.
  assert (s * 10 ^ 15 / t / 10 ^ 6 = s * 10 ^ 9 / t) as E.
  { rewrite Z.div_div by lia. rewrite (Z.mul_comm t).
    replace (s * 10 ^ 15) with (10 ^ 6 * (s * 10 ^ 9)) by lia.
    apply Z.div_mul_cancel_l; lia. }
  assert (s * 10 ^ 9 / t < 2 ^ 64) as Hp.
  { rewrite <- E. apply Z.div_lt_upper_bound; lia. }
  exists (mkAmount (s * 10 ^ 15 / t) 9), (mkAmount (s * 10 ^ 9 / t) 9).
  cbn -[Z.div Z.mul Z.pow]. unfold bonding_market_cap, bonding_price, amount_raw. fold s t.
  rewrite !mul_div_u128_small by (done || lia). by rewrite E.
Qed.

Definition fresh_bonding : Bonding := pp_state (pump_pool_new id 1%N 2%N).

Lemma bonding_cap_price_agree_witness :
  exists cap p,
    market_cap fresh_bonding = Ret (Native cap) /\ price fresh_bonding = Ret (Native p) /\
    am_value p = am_value cap / 10 ^ 6 /\ am_decimals cap = 9 /\ am_decimals p = 9.
Proof.
  apply (bonding_cap_price_agree fresh_bonding);
    [split; [done | reflexivity] | reflexivity | reflexivity].
Defined.

(** the pool of a newly created token is worth 27.958993476 SOL *)
Example fresh_pool_market_cap :
  market_cap (pump_pool_new id 1%N 2%N) = Ret (Native (mkAmount 27958993476 9)).
Proof. reflexivity. Qed.

(** The reserves after a run of events are those of its last trade. *)
Definition last_trade (es : list PumpEvent) : option TradeEvent :=
  List.fold_left (fun acc e => match e with PumpTrade t => Some t | PumpCreate _ => acc end) es None.

Definition with_reserves (b : Bonding) (t : TradeEvent) : Bonding := {|
  virtual_sol_reserves := mkAmount (te_virtual_sol_reserves t) 9;
  virtual_token_reserves := mkAmount (te_virtual_token_reserves t) 6;
  real_sol_reserves := mkAmount (te_real_sol_reserves t) 9;
  real_token_reserves := mkAmount (te_real_token_reserves t) 6;
  bonding_mint := bonding_mint b; bonding_pool := bonding_pool b;
  bonding_creator := bonding_creator b |}.

Lemma bonding_updates_last b es :
  List.fold_left (fun b e => pool_update (Some e) b) es b =
    match last_trade es with Some t => with_reserves b t | None => b end.
Proof.
  unfold last_trade. induction es as [|e es IH] using rev_ind; [done|].
  rewrite !List.fold_left_app. cbn [List.fold_left]. rewrite IH.
  destruct e as [c|t]; [done|]. by destruct (List.fold_left _ es None).
Qed.
