(* ===== verification/Swarm.v ===== *)
(** Traders of a token, [src/src/trading/] and [launchpads/].

    A [Trader] accumulates the offers of one wallet; a [Swarm] is the list of a
    token's traders, owned by an actor that serves [SwarmMessage]s in the order
    of its channel; the launchpad storage maps AMM pool addresses to token
    buckets (a pool, a handle on the swarm actor, the creation slot). *)
From S2P Require Import Prelude Amounts Pump.

(** ** One trader *)

(* trading/trader.rs 19-24: TraderType *)
Inductive TraderType := Creator | Sniper | Regular.
#[export] Instance TraderType_eq_dec : EqDecision TraderType.
Proof. solve_decision. Defined.

(* trading/trader.rs 6-17: Trader *)
Record Trader := mkTrader {
  current_holdings : Amount;
  avg_cost_basis : Z;
  total_spent : Amount;
  realized_pnl : Z;
  sell_proceeds_raw : Z;
  sell_event_count : Z;
  trader_type : TraderType
}.
#[export] Instance Trader_settable : Settable Trader :=
  fun t => mkTrader (current_holdings t) (avg_cost_basis t) (total_spent t) (realized_pnl t)
             (sell_proceeds_raw t) (sell_event_count t) (trader_type t).

(* trading/trader.rs 38-49: Trader::empty *)
Definition trader_empty (ty : TraderType) (decimals paired_decimals : Z) : Trader := {|
  current_holdings := amount_from_raw 0 decimals;
  avg_cost_basis := 0;
  total_spent := amount_from_raw 0 paired_decimals;
  realized_pnl := 0;
  sell_proceeds_raw := 0;
  sell_event_count := 0;
  trader_type := ty
|}.

(* trading/trader.rs 51-78: Trader::apply *)
Definition trader_apply (t : Trader) (offer : Offer) : outcome Trader :=
  let scale := u128 (10 ^ am_decimals (current_holdings t)) in
  match offer with
  | OfferBuy buy_for received =>
      new_holdings ← amount_add (current_holdings t) received;
      if amount_raw new_holdings =? 0 then Ret t else
      avg ← checked_div
        (u128 (u128 (avg_cost_basis t * amount_raw (current_holdings t))
               + u128 (u128 (buy_for * scale) * scale)))
        (amount_raw new_holdings);
      spent ← amount_add (total_spent t)
        (amount_from_raw buy_for (am_decimals (total_spent t)));
      Ret (t <| avg_cost_basis := avg |> <| current_holdings := new_holdings |>
             <| total_spent := spent |>)
  | OfferSell sell_amount received =>
      q1 ← checked_div (u128 (avg_cost_basis t * amount_raw sell_amount)) scale;
      q2 ← checked_div q1 scale;
      let cost_of_sold := i64 q2 in
      let pnl := i64 (realized_pnl t + i64 (i64 received - cost_of_sold)) in
      holdings ← amount_sub (current_holdings t) sell_amount;
      Ret (t <| realized_pnl := pnl |> <| current_holdings := holdings |>
             <| sell_proceeds_raw := sat_add U64_MAX (sell_proceeds_raw t) received |>
             <| sell_event_count := sat_add U32_MAX (sell_event_count t) 1 |>)
  end.

(* trading/trader.rs 84-89: Trader::pnl_percent *)
Definition pnl_percent (t : Trader) : f64 :=
  if amount_raw (total_spent t) =? 0 then 0%float
  else (f64_of_Z (realized_pnl t) / f64_of_Z (amount_raw (total_spent t)) * 100)%float.

(** ** The swarm *)

(* trading/swarm.rs 17-24: Swarm *)
Record Swarm := mkSwarm {
  traders : list (Address * Trader);
  max_token_supply : Amount;
  decimals : Z;
  decimals_quote : Z
}.
#[export] Instance Swarm_settable : Settable Swarm :=
  fun s => mkSwarm (traders s) (max_token_supply s) (decimals s) (decimals_quote s).

(* trading/swarm.rs 27-34: Swarm::new *)
Definition swarm_new (max_supply : Amount) (decimals decimals_quote : Z) : Swarm :=
  mkSwarm [] max_supply decimals decimals_quote.

(** updates the first trader of that address, or pushes a new one *)
Fixpoint upsert (addr : Address) (offer : Offer) (new : Trader)
    (ts : list (Address * Trader)) : outcome (list (Address * Trader)) :=
  match ts with
  | [] => t ← trader_apply new offer; Ret [(addr, t)]
  | (a, t) :: ts' =>
      if decide (a = addr) then t' ← trader_apply t offer; Ret ((a, t') :: ts')
      else rest ← upsert addr offer new ts'; Ret ((a, t) :: rest)
  end.

(* trading/swarm.rs 36-47: Swarm::update *)
Definition swarm_update (s : Swarm) (addr : Address) (offer : Offer) (ty : TraderType)
    : outcome Swarm :=
  ts ← upsert addr offer (trader_empty ty (decimals s) (decimals_quote s)) (traders s);
  Ret (s <| traders := ts |>).

Definition of_type (ty : TraderType) (s : Swarm) : list (Address * Trader) :=
  List.filter (fun at_ => bool_decide (trader_type at_.2 = ty)) (traders s).

(* trading/swarm.rs 53-67: Swarm::average_pln *)
Definition average_pln (s : Swarm) (ty : TraderType) : f64 :=
  let filtered := of_type ty s in
  match filtered with
  | [] => 0%float
  | _ =>
      let total := List.fold_left (fun acc at_ => acc + pnl_percent at_.2)%float filtered 0%float in
      (total / f64_of_Z (Z.of_nat (length filtered)))%float
  end.

Definition find_trader (addr : Address) (s : Swarm) : option Trader :=
  snd <$> List.find (fun at_ => bool_decide (at_.1 = addr)) (traders s).

(** the answers travel on oneshot channels; [NoReply] is a dropped sender *)
(* trading/swarm.rs 70-109: SwarmMessage *)
Inductive SwarmMessage :=
  | GetPnl (ty : TraderType)
  | GetTrader (addr : Address)
  | GetAllTraders
  | UpdateTrader (addr : Address) (offer : Offer) (ty : TraderType)
  | GetTraderTotalSpent (addr : Address)
  | GetTradersByType (ty : TraderType)
  | GetQuoteDecimals
  | GetTraderPnl (addr : Address).

Inductive SwarmReply :=
  | ReplyF64 (x : f64)
  | ReplyTrader (t : Trader)
  | ReplyCount (n : Z)
  | ReplyAmount (a : Amount)
  | ReplyTraders (l : list (Address * Trader))
  | ReplyPnl (x : option f64)
  | NoReply.

(* trading/swarm.rs 132-196: SwarmActor::run *)
Definition swarm_handle (s : Swarm) (m : SwarmMessage) : outcome (Swarm * SwarmReply) :=
  match m with
  | GetPnl ty => Ret (s, ReplyF64 (average_pln s ty))
  | GetTrader addr =>
      Ret (s, match find_trader addr s with Some t => ReplyTrader t | None => NoReply end)
  | UpdateTrader addr offer ty =>
      s' ← swarm_update s addr offer ty; Ret (s', NoReply)
  | GetAllTraders => Ret (s, ReplyCount (Z.of_nat (length (traders s))))
  | GetTraderTotalSpent addr =>
      Ret (s, ReplyAmount (default (amount_from_raw 0 (decimals_quote s))
                                   (total_spent <$> find_trader addr s)))
  | GetTradersByType ty => Ret (s, ReplyTraders (of_type ty s))
  | GetQuoteDecimals => Ret (s, ReplyCount (decimals_quote s))
  | GetTraderPnl addr => Ret (s, ReplyPnl (pnl_percent <$> find_trader addr s))
  end.

Fixpoint swarm_run (s : Swarm) (ms : list SwarmMessage) : outcome (Swarm * list SwarmReply) :=
  match ms with
  | [] => Ret (s, [])
  | m :: ms' =>
      r ← swarm_handle s m;
      r' ← swarm_run r.1 ms';
      Ret (r'.1, r.2 :: r'.2)
  end.

(** ** Buckets and the launchpad storage

    [TokenBucket::new] spawns an actor and keeps the sending side of its
    channel: a handle is the actor's index, the store keeps for every actor its
    initial swarm and the messages sent so far, in order.  Cloned buckets share
    the actor. *)
(* launchpads/token_bucket.rs 18-23: TokenBucket *)
Record TokenBucket := mkTokenBucket {
  bucket_pool : PumpPool Bonding;
  bucket_swarm : nat;
  created_at : Z
}.
#[export] Instance TokenBucket_settable : Settable TokenBucket :=
  fun b => mkTokenBucket (bucket_pool b) (bucket_swarm b) (created_at b).

Record Actor := mkActor { actor_domain : Swarm; actor_inbox : list SwarmMessage }.
#[export] Instance Actor_settable : Settable Actor :=
  fun a => mkActor (actor_domain a) (actor_inbox a).

(* launchpads/pump/launchpad.rs 46-49: PumpLaunchpadStorage *)
Record PumpLaunchpadStorage := mkStorage {
  tokens : gmap Address TokenBucket;
  sniper_threshold : Z;
  actors : list Actor
}.
#[export] Instance Storage_settable : Settable PumpLaunchpadStorage :=
  fun s => mkStorage (tokens s) (sniper_threshold s) (actors s).

(* launchpads/pump/launchpad.rs 51-57: PumpLaunchpadStorage::new *)
Definition storage_new (sniper_threshold : Z) : PumpLaunchpadStorage :=
  mkStorage ∅ sniper_threshold [].

(* launchpads/token_bucket.rs 36-49: TokenBucket::new *)
Definition bucket_new (pool : PumpPool Bonding) (max_supply : Amount) (created : Z)
    (s : PumpLaunchpadStorage) : TokenBucket * PumpLaunchpadStorage :=
  let actor := mkActor (swarm_new max_supply (token_decimals pool) (quote_decimals pool)) [] in
  (mkTokenBucket pool (length (actors s)) created, s <| actors := actors s ++ [actor] |>).

(** a message sent to the actor of a handle *)
Definition send_actor (h : nat) (m : SwarmMessage) (acts : list Actor) : list Actor :=
  alter (fun a => a <| actor_inbox := actor_inbox a ++ [m] |>) h acts.

Section Launchpad.
Context (bounding_curve pool_pda : Address -> Address).

(* launchpads/pump/launchpad.rs 85-95: PumpLaunchpadStorage::react *)
Definition trader_role (s : PumpLaunchpadStorage) (b : TokenBucket) (user : Address) (slot : Z)
    : TraderType :=
  let role := if u64 (slot - created_at b) <? sniper_threshold s then Sniper else Regular in
  List.fold_left (fun role dev => if decide (dev = user) then Creator else role)
    (creators (bucket_pool b)) role.

(** the flag tells whether [finish] was answered *)
(* launchpads/pump/launchpad.rs 59-104: PumpLaunchpadStorage::react *)
Definition react (s : PumpLaunchpadStorage) (action : PumpEvent) (slot : Z)
    : PumpLaunchpadStorage * bool :=
  match action with
  | PumpCreate c =>
      let max_supply := amount_from_raw 1000000000 PRECISION in
      let '(bucket, s) :=
        bucket_new (pump_pool_new bounding_curve (ce_mint c) (ce_creator c)) max_supply slot s in
      (s <| tokens := <[pool_pda (ce_mint c) := bucket]> (tokens s) |>, true)
  | PumpTrade t =>
      match tokens s !! pool_pda (te_mint t) with
      | None => (s, false)
      | Some bucket =>
          let trade := trade_of_pump t in
          let role := trader_role s bucket (te_user t) slot in
          let bucket' := bucket <| bucket_pool := pool_update (Some (PumpTrade t)) (bucket_pool bucket) |> in
          let msg := UpdateTrader (te_user t) (offer_of_trade trade) role in
          (s <| tokens := <[pool_pda (te_mint t) := bucket']> (tokens s) |>
             <| actors := send_actor (bucket_swarm bucket) msg (actors s) |>, true)
      end
  end.

(* launchpads/pump/launchpad.rs 25-44: PumpLaunchpadCommand *)
Inductive PumpLaunchpadCommand :=
  | GetMint (amm_pool : Address)
  | Event (slot : Z) (e : PumpEvent)
  | GetBucket (mint : Address)
  | TokenExists (mint : Address).

Inductive LaunchpadReply :=
  | ReplyMint (m : option Address)
  | ReplyFinished
  | ReplyBucket (b : TokenBucket)
  | ReplyExists (b : bool)
  | ReplyDropped.

(* launchpads/pump/launchpad.rs 125-162: PumpLaunchpadStorageActor::listen *)
Definition listen_step (s : PumpLaunchpadStorage) (c : PumpLaunchpadCommand)
    : PumpLaunchpadStorage * LaunchpadReply :=
  match c with
  | GetMint amm_pool =>
      (s, match tokens s !! amm_pool with
          | Some b => ReplyMint (Some (mint (bucket_pool b)))
          | None => ReplyMint None
          end)
  | Event slot e =>
      let '(s, finished) := react s e slot in (s, if finished then ReplyFinished else ReplyDropped)
  | GetBucket m =>
      (s, match tokens s !! pool_pda m with Some b => ReplyBucket b | None => ReplyDropped end)
  | TokenExists m => (s, ReplyExists (bool_decide (is_Some (tokens s !! pool_pda m))))
  end.

Definition listen_run (s : PumpLaunchpadStorage) (cs : list PumpLaunchpadCommand)
    : PumpLaunchpadStorage :=
  List.fold_left (fun s c => (listen_step s c).1) cs s.

End Launchpad.

(** ** The ledger a trader refines

    The abstract account of a wallet in unbounded integers. *)
Record Ledger := mkLedger { l_held : Z; l_spent : Z; l_proceeds : Z; l_sells : Z }.

Definition ledger_step (l : Ledger) (o : Offer) : Ledger :=
  match o with
  | OfferBuy buy_for received =>
      if l_held l + am_value received =? 0 then l
      else mkLedger (l_held l + am_value received) (l_spent l + buy_for) (l_proceeds l) (l_sells l)
  | OfferSell amt received =>
      mkLedger (l_held l - am_value amt) (l_spent l) (l_proceeds l + received) (l_sells l + 1)
  end.

(** an offer the machine integers can carry: no sale beyond the holdings, no
    total beyond the width of its counter *)
Definition offer_ok (d : Z) (l : Ledger) (o : Offer) : Prop :=
  match o with
  | OfferBuy buy_for received =>
      am_decimals received = d /\ 0 <= buy_for /\ 0 <= am_value received /\
      l_held l + am_value received < 2 ^ 64 /\ l_spent l + buy_for < 2 ^ 63
  | OfferSell amt received =>
      am_decimals amt = d /\ 0 <= am_value amt <= l_held l /\ 0 <= received /\
      l_proceeds l + received < 2 ^ 63 /\ l_sells l < U32_MAX
  end.

Fixpoint offers_ok (d : Z) (l : Ledger) (os : list Offer) : Prop :=
  match os with
  | [] => True
  | o :: os' => offer_ok d l o /\ offers_ok d (ledger_step l o) os'
  end.

Fixpoint apply_all (t : Trader) (os : list Offer) : outcome Trader :=
  match os with [] => Ret t | o :: os' => t' ← trader_apply t o; apply_all t' os' end.

(** A trader accounts for a ledger.  [avg_cost_basis] is scaled by [10^2d]; the
    cost attributed to past sales is [sell_proceeds_raw - realized_pnl]. *)
Record accounts (d : Z) (t : Trader) (l : Ledger) : Prop := {
  acc_dec : am_decimals (current_holdings t) = d;
  acc_held : am_value (current_holdings t) = l_held l;
  acc_held_range : in_u 64 (l_held l);
  acc_spent : am_value (total_spent t) = l_spent l;
  acc_spent_range : 0 <= l_spent l < 2 ^ 63;
  acc_proceeds : sell_proceeds_raw t = l_proceeds l;
  acc_proceeds_range : 0 <= l_proceeds l < 2 ^ 63;
  acc_sells : sell_event_count t = l_sells l;
  acc_sells_range : 0 <= l_sells l <= U32_MAX;
  acc_avg : 0 <= avg_cost_basis t;
  acc_cost : realized_pnl t <= sell_proceeds_raw t;
  acc_basis :
    avg_cost_basis t * l_held l + (10 ^ d * 10 ^ d) * (sell_proceeds_raw t - realized_pnl t)
      <= (10 ^ d * 10 ^ d) * l_spent l
}.

Lemma scale_small d : 0 <= d <= 9 -> u128 (10 ^ d) = 10 ^ d /\ 0 < 10 ^ d <= 10 ^ 9.
Proof.
  intros Hd. assert (0 < 10 ^ d <= 10 ^ 9) as H.
  { split; [apply Z.pow_pos_nonneg; lia | apply Z.pow_le_mono_r; lia]. }
  split; [|done]. apply wrap_u_small. unfold in_u. lia.
Qed.

Lemma trader_apply_buy d t l buy_for received :
  0 <= d <= 9 -> accounts d t l -> offer_ok d l (OfferBuy buy_for received) ->
  exists t', trader_apply t (OfferBuy buy_for received) = Ret t' /\
             accounts d t' (ledger_step l (OfferBuy buy_for received)) /\
             trader_type t' = trader_type t.
Proof.
  intros Hd A (Hr & Hb & Hv & Hh & Hs). destruct (scale_small d Hd) as [ES [S1 S2]].
  destruct A. unfold trader_apply. rewrite acc_dec0, ES.
  set (S := 10 ^ d) in *. unfold amount_add. cbn -[wrap_u]. rewrite acc_dec0, Hr, !Z.eqb_refl. cbn -[wrap_u].
  rewrite acc_held0. unfold in_u in acc_held_range0.
  rewrite (wrap_u_small 64) by (unfold in_u; lia). unfold amount_raw; cbn -[wrap_u ledger_step].
  unfold ledger_step.
  destruct (Z.eqb_spec (l_held l + am_value received) 0) as [E|E].
  { exists t. split_and!; [done | by split | done]. }
  rewrite (wrap_u_small 128 (avg_cost_basis t * _)) by (unfold in_u; nia).
  rewrite (wrap_u_small 128 (buy_for * S)) by (unfold in_u; nia).
  rewrite (wrap_u_small 128 (buy_for * S * S)) by (unfold in_u; nia).
  assert (0 <= avg_cost_basis t * l_held l) by nia.
  rewrite (wrap_u_small 128) by (unfold in_u; nia).
  unfold checked_div. destruct (Z.eqb_spec (l_held l + am_value received) 0); [done|].
  cbn -[wrap_u Z.div]. rewrite acc_spent0, (wrap_u_small 64) by (unfold in_u; lia).
  eexists. split; [done|]. split; [|done].
  set (N := avg_cost_basis t * l_held l + buy_for * S * S).
  set (D := l_held l + am_value received).
  pose proof (Z.mul_div_le N D) as Hdiv. pose proof (Z.div_pos N D) as Hpos.
  split; cbn -[wrap_u Z.div]; rewrite ?acc_held0; fold S N D; try done; unfold in_u; try lia.
  all: subst N D; nia.
Qed.

Lemma trader_apply_sell d t l amt received :
  0 <= d <= 9 -> accounts d t l -> offer_ok d l (OfferSell amt received) ->
  exists t', trader_apply t (OfferSell amt received) = Ret t' /\
             accounts d t' (ledger_step l (OfferSell amt received)) /\
             trader_type t' = trader_type t.
Proof.
  intros Hd A (Hr & Ha & Hv & Hp & Hs). destruct (scale_small d Hd) as [ES [S1 S2]].
  destruct A. unfold trader_apply. rewrite acc_dec0, ES.
  set (S := 10 ^ d) in *. unfold amount_sub, amount_raw, checked_div.
  unfold in_u in *.
  assert (0 <= avg_cost_basis t * am_value amt <= avg_cost_basis t * l_held l) as Hm by nia.
  assert (0 <= S * S * (sell_proceeds_raw t - realized_pnl t)) by nia.
  rewrite (wrap_u_small 128 (avg_cost_basis t * _)) by (unfold in_u; nia).
  destruct (Z.eqb_spec S 0); [lia|]. cbn -[wrap_s wrap_u Z.div].
  rewrite Z.div_div by lia. set (C := avg_cost_basis t * am_value amt / (S * S)).
  assert (0 <= C) as HC by (apply Z.div_pos; nia).
  assert (S * S * C <= avg_cost_basis t * am_value amt) as HC2 by (apply Z.mul_div_le; nia).
  assert (C + (sell_proceeds_raw t - realized_pnl t) <= l_spent l) as HC3 by nia.
  rewrite acc_dec0, Hr, Z.eqb_refl. cbn -[wrap_s wrap_u Z.div].
  eexists. split; [done|]. split; [|done]. subst.
  assert (i64 (realized_pnl t + i64 (i64 received - i64 C)) = realized_pnl t + (received - C)) as EP.
  { rewrite (wrap_s_small 64 received), (wrap_s_small 64 C) by (unfold in_s; lia).
    rewrite (wrap_s_small 64 (received - C)) by (unfold in_s; lia).
    apply wrap_s_small; unfold in_s; lia. }
  split; cbn -[wrap_s wrap_u Z.div]; rewrite ?EP; try done;
    unfold sat_add, U32_MAX, U64_MAX, in_u in *; try lia.
  rewrite (wrap_u_small 64) by (unfold in_u; lia). lia.
Qed.

Lemma trader_apply_refines d t l o :
  0 <= d <= 9 -> accounts d t l -> offer_ok d l o ->
  exists t', trader_apply t o = Ret t' /\ accounts d t' (ledger_step l o) /\
             trader_type t' = trader_type t.
Proof. destruct o; [apply trader_apply_buy | apply trader_apply_sell]. Qed.

Lemma accounts_empty ty d dq : accounts d (trader_empty ty d dq) (mkLedger 0 0 0 0).
Proof. split; cbn; unfold in_u, U32_MAX; lia. Qed.

Lemma apply_all_refines d os : forall t l,
  0 <= d <= 9 -> accounts d t l -> offers_ok d l os ->
  exists t', apply_all t os = Ret t' /\ accounts d t' (List.fold_left ledger_step os l) /\
             trader_type t' = trader_type t.
Proof.
  induction os as [|o os IH]; intros t l Hd A H; cbn.
  - by exists t.
  - destruct H as [H1 H2].
    destruct (trader_apply_refines d t l o Hd A H1) as (t1 & E1 & A1 & T1).
    destruct (IH t1 _ Hd A1 H2) as (t2 & E2 & A2 & T2).
    exists t2. rewrite E1; cbn. by rewrite T2, T1.
Qed.

(** C35: A trader refines the ledger of its offers: starting from an empty
    trader, offers that sell no more than is held and whose totals fit the
    counters are all applied without panic or wrap; the holdings, the total
    spent, the proceeds and the number of sales are the ledger's, and the cost
    attributed to the sales never exceeds what was spent, so the realized loss
    is at most the total spent. *)
Theorem trader_refines_ledger ty d dq os :
  0 <= d <= 9 -> offers_ok d (mkLedger 0 0 0 0) os ->
  exists t, apply_all (trader_empty ty d dq) os = Ret t /\
    let l := List.fold_left ledger_step os (mkLedger 0 0 0 0) in
    am_value (current_holdings t) = l_held l /\ am_value (total_spent t) = l_spent l /\
    sell_proceeds_raw t = l_proceeds l /\ sell_event_count t = l_sells l /\
    trader_type t = ty /\
    - l_spent l <= realized_pnl t <= l_proceeds l.
Proof.
  intros Hd H.
  destruct (apply_all_refines d os _ _ Hd (accounts_empty ty d dq) H) as (t & E & A & T).
  exists t. split; [done|]. cbn zeta. destruct A. destruct (scale_small d Hd) as [_ [S1 S2]].
  set (S := 10 ^ d) in *. unfold in_u in *. split_and!; try done; [|lia].
  assert (0 <= avg_cost_basis t * l_held (fold_left ledger_step os (mkLedger 0 0 0 0))) by nia.
  assert (sell_proceeds_raw t - realized_pnl t
          <= l_spent (fold_left ledger_step os (mkLedger 0 0 0 0))) by nia.
  lia.
Qed.

Definition sample_offers : list Offer :=
  [OfferBuy 1000000000 (mkAmount 5000000 6); OfferSell (mkAmount 2000000 6) 700000000;
   OfferBuy 300000000 (mkAmount 1000000 6); OfferSell (mkAmount 4000000 6) 100000000].

Lemma trader_refines_ledger_witness :
  exists t, apply_all (trader_empty Regular 6 9) sample_offers = Ret t /\
    let l := List.fold_left ledger_step sample_offers (mkLedger 0 0 0 0) in
    am_value (current_holdings t) = l_held l /\ am_value (total_spent t) = l_spent l /\
    sell_proceeds_raw t = l_proceeds l /\ sell_event_count t = l_sells l /\
    trader_type t = Regular /\
    - l_spent l <= realized_pnl t <= l_proceeds l.
Proof.
  apply (trader_refines_ledger Regular 6 9 sample_offers); [lia|].
  vm_compute. repeat split; discriminate.
Defined.

(** A sale beyond the holdings wraps them to a huge balance. *)
Example trader_oversell :
  (fun t => am_value (current_holdings t))
    <$> apply_all (trader_empty Regular 6 9) [OfferSell (mkAmount 1 6) 5] = Ret (2 ^ 64 - 1).
Proof. reflexivity. Qed.

(** ** One wallet's view of the swarm *)

Definition find_in (addr : Address) (ts : list (Address * Trader)) : option Trader :=
  snd <$> List.find (fun at_ => bool_decide (at_.1 = addr)) ts.

Arguments find_in : simpl never.

Lemma find_in_cons addr a t ts :
  find_in addr ((a, t) :: ts) = if decide (a = addr) then Some t else find_in addr ts.
Proof.
  unfold find_in; cbn [List.find fst].
  case_bool_decide; by destruct (decide (a = addr)).
Qed.

Lemma upsert_find addr offer new ts ts' :
  upsert addr offer new ts = Ret ts' ->
  exists t', trader_apply (default new (find_in addr ts)) offer = Ret t' /\
             find_in addr ts' = Some t' /\
             forall b, b <> addr -> find_in b ts' = find_in b ts.
Proof.
  revert ts'. induction ts as [|[a t] ts IH]; intros ts' H; cbn in H.
  - destruct (trader_apply new offer) as [t|] eqn:E; cbn in H; inversion H; subst.
    exists t. rewrite find_in_cons. destruct (decide (addr = addr)); [|done].
    split_and!; [done|done|]. intros b Hb. rewrite find_in_cons. destruct (decide (addr = b)); [congruence | done].
  - rewrite find_in_cons. destruct (decide (a = addr)) as [->|Ha]; cbn in H |- *.
    + destruct (trader_apply t offer) as [t1|] eqn:E; cbn in H; inversion H; subst.
      exists t1. rewrite find_in_cons. destruct (decide (addr = addr)); [|done].
      split; [done|]. split; [done|]. intros b Hb. rewrite !find_in_cons.
      destruct (decide (addr = b)); congruence.
    + destruct (upsert addr offer new ts) as [rest|] eqn:E; cbn in H; inversion H; subst.
      destruct (IH _ eq_refl) as (t1 & E1 & E2 & E3). exists t1.
      rewrite find_in_cons. destruct (decide (a = addr)); [done|].
      split; [done|]. split; [done|]. intros b Hb. rewrite !find_in_cons.
      destruct (decide (a = b)); [done|]. by apply E3.
Qed.

(** what the messages do to one wallet alone *)
Definition wallet_step (d dq : Z) (addr : Address) (cur : option Trader) (m : SwarmMessage)
    : outcome (option Trader) :=
  match m with
  | UpdateTrader a offer ty =>
      if decide (a = addr)
      then t ← trader_apply (default (trader_empty ty d dq) cur) offer; Ret (Some t)
      else Ret cur
  | _ => Ret cur
  end.

Fixpoint wallet_run (d dq : Z) (addr : Address) (cur : option Trader) (ms : list SwarmMessage)
    : outcome (option Trader) :=
  match ms with
  | [] => Ret cur
  | m :: ms' => c ← wallet_step d dq addr cur m; wallet_run d dq addr c ms'
  end.

Lemma swarm_handle_wallet s m s' r addr :
  swarm_handle s m = Ret (s', r) ->
  wallet_step (decimals s) (decimals_quote s) addr (find_trader addr s) m
    = Ret (find_trader addr s') /\
  decimals s' = decimals s /\ decimals_quote s' = decimals_quote s.
Proof.
  destruct m as [| | |a o ty| | | |]; cbn; intros H; inversion H; subst; try done.
  unfold swarm_update in H1. cbn in H1.
  destruct (upsert _ _ _ _) as [ts|] eqn:E; cbn in H1; inversion H1; subst; cbn.
  split; [|done]. destruct (upsert_find _ _ _ _ _ E) as (t' & E1 & E2 & E3).
  unfold find_trader; cbn. fold (find_in addr (traders s)) (find_in addr ts).
  destruct (decide (a = addr)) as [->|Ha].
  - rewrite E1; cbn. by rewrite E2.
  - by rewrite E3.
Qed.

(** Wallets are independent in the swarm: whenever the actor processes a
    sequence of messages, the trader it holds for a wallet is exactly the fold
    of that wallet's own offers, started from an empty trader of the type
    its first message carried; later types and other wallets change nothing. *)
Theorem swarm_run_wallet s ms s' rs addr :
  swarm_run s ms = Ret (s', rs) ->
  wallet_run (decimals s) (decimals_quote s) addr (find_trader addr s) ms
    = Ret (find_trader addr s').
Proof.
  revert s rs. induction ms as [|m ms IH]; intros s rs H; cbn in H.
  - by inversion H; subst.
  - destruct (swarm_handle s m) as [[s1 r]|] eqn:E; cbn in H; [|done].
    destruct (swarm_run s1 ms) as [[s2 rs2]|] eqn:E2; cbn in H; inversion H; subst.
    destruct (swarm_handle_wallet _ _ _ _ addr E) as (W & D1 & D2).
    cbn. rewrite W. cbn. rewrite <- D1, <- D2. by eapply IH.
Qed.

Definition sample_messages : list SwarmMessage :=
  [UpdateTrader 1%N (OfferBuy 10 (mkAmount 5 6)) Sniper; GetPnl Sniper;
   UpdateTrader 2%N (OfferBuy 20 (mkAmount 7 6)) Creator;
   UpdateTrader 1%N (OfferSell (mkAmount 5 6) 30) Regular].

Definition sample_swarm : Swarm := swarm_new (mkAmount 1000000000 6) 6 9.

Definition sample_run : Swarm * list SwarmReply :=
  Eval vm_compute in
    match swarm_run sample_swarm sample_messages with Ret x => x | Panic _ => (sample_swarm, []) end.

Lemma swarm_run_wallet_witness :
  wallet_run 6 9 1%N None sample_messages = Ret (find_trader 1%N sample_run.1).
Proof.
  apply (swarm_run_wallet sample_swarm sample_messages sample_run.1 sample_run.2 1%N).
  reflexivity.
Defined.

(** ** Routing of trades *)

Section Routing.
Context (bounding_curve pool_pda : Address -> Address).

(** every bucket has an actor of its own *)
Record storage_ok (s : PumpLaunchpadStorage) : Prop := {
  so_live : forall k b, tokens s !! k = Some b -> (bucket_swarm b < length (actors s))%nat;
  so_inj : forall k1 k2 b1 b2, tokens s !! k1 = Some b1 -> tokens s !! k2 = Some b2 ->
    bucket_swarm b1 = bucket_swarm b2 -> k1 = k2;
  so_key : forall k b, tokens s !! k = Some b -> k = pool_pda (mint (bucket_pool b))
}.

Lemma storage_new_ok th : storage_ok (storage_new th).
Proof. split; intros *; cbn; rewrite lookup_empty; done. Qed.

Lemma send_actor_length h m acts : length (send_actor h m acts) = length acts.
Proof. apply length_alter. Qed.

Lemma react_ok s e slot :
  storage_ok s -> storage_ok (react bounding_curve pool_pda s e slot).1.
Proof.
  intros [L I K]. destruct e as [c|t]; cbn.
  - split; cbn; intros *.
    + rewrite length_app; cbn. intros [[_ <-]|[_ H]]%lookup_insert_Some; cbn; [lia|].
      apply L in H. lia.
    + intros [[<- <-]|[N1 H1]]%lookup_insert_Some [[<- <-]|[N2 H2]]%lookup_insert_Some; cbn;
        intros E; try done; [| |by eapply I].
      * apply L in H2. lia.
      * apply L in H1. lia.
    + intros [[<- <-]|[_ H]]%lookup_insert_Some; cbn; [done | by apply K].
  - destruct (tokens s !! pool_pda (te_mint t)) as [b|] eqn:B; cbn; [|by split].
    split; cbn; intros *; rewrite ?send_actor_length.
    + intros [[_ <-]|[_ H]]%lookup_insert_Some; cbn; by eapply L.
    + intros [[<- <-]|[N1 H1]]%lookup_insert_Some [[<- <-]|[N2 H2]]%lookup_insert_Some; cbn;
        intros E; try done; by eapply I.
    + intros [[<- <-]|[_ H]]%lookup_insert_Some; cbn; [|by apply K].
      apply K in B. by destruct (bucket_pool b) as [[]].
Qed.

Lemma listen_run_ok cs s :
  storage_ok s -> storage_ok (listen_run bounding_curve pool_pda s cs).
Proof.
  revert s. induction cs as [|c cs IH]; intros s H; [done|]. cbn. apply IH.
  destruct c as [a|slot e|m|m]; cbn; try done.
  pose proof (react_ok s e slot H) as R. by destruct (react _ _ s e slot).
Qed.

(** the inbox of the swarm actor serving a token *)
Definition inbox (s : PumpLaunchpadStorage) (m : Address) : option (list SwarmMessage) :=
  b ← tokens s !! pool_pda m; a ← actors s !! bucket_swarm b; Some (actor_inbox a).

(** In every state the launchpad actor can reach, a trade of a known token
    is acknowledged, appends exactly one [UpdateTrader] for the trading wallet
    to that token's swarm, and leaves the swarms of all other tokens alone; a
    trade of an unknown token changes nothing and is never acknowledged. *)
Theorem react_routes_trade th cs t slot :
  let s := listen_run bounding_curve pool_pda (storage_new th) cs in
  let r := react bounding_curve pool_pda s (PumpTrade t) slot in
  match tokens s !! pool_pda (te_mint t) with
  | None => r = (s, false)
  | Some b =>
      r.2 = true /\
      inbox r.1 (te_mint t) = (fun q => q ++ [UpdateTrader (te_user t)
          (offer_of_trade (trade_of_pump t)) (trader_role s b (te_user t) slot)])
        <$> inbox s (te_mint t) /\
      forall m, pool_pda m <> pool_pda (te_mint t) -> inbox r.1 m = inbox s m
  end.
Proof.
  cbn zeta. set (s := listen_run _ _ _ _).
  assert (storage_ok s) as O by apply listen_run_ok, storage_new_ok.
  cbn. destruct (tokens s !! pool_pda (te_mint t)) as [b|] eqn:B; [|done]. cbn.
  split; [done|]. unfold inbox, send_actor. cbn. split.
  - rewrite B, lookup_insert_eq. cbn. rewrite list_lookup_alter_eq.
    by destruct (actors s !! bucket_swarm b).
  - intros m Hm. rewrite lookup_insert_ne by done.
    destruct (tokens s !! pool_pda m) as [b'|] eqn:B'; [|done]. cbn.
    rewrite list_lookup_alter_ne; [done|]. intros E. apply Hm. symmetry.
    by eapply (so_inj s O).
Qed.

End Routing.

(** the role of a wallet: the creator's always wins, then the sniper window
    counted in slots modulo [2^64] *)
Lemma trader_role_spec s b user slot :
  trader_role s b user slot =
    if decide (bonding_creator (pp_state (bucket_pool b)) = user) then Creator
    else if u64 (slot - created_at b) <? sniper_threshold s then Sniper else Regular.
Proof. reflexivity. Qed.
