(* ===== verification/Config.v ===== *)
(** Configuration of the scoring stack, [src/src/scoring/config.rs].

    One record per configuration section with its serde defaults: the
    [default_*] functions fill the missing keys of the YAML file, the [Default]
    instances the missing sections. *)
From S2P Require Import Prelude.

(* scoring/config.rs 5-11: MinBuyTier *)
Inductive MinBuyTier := MinA | MinAPlus.
#[export] Instance MinBuyTier_eq_dec : EqDecision MinBuyTier.
Proof. solve_decision. Defined.

(** ** Defaults of single keys *)

(* scoring/config.rs 218-220: default_fresh_watchlist_poll_ms *)
Definition default_fresh_watchlist_poll_ms : Z := 5000.

(* scoring/config.rs 221-223: default_fresh_watchlist_max_ms *)
Definition default_fresh_watchlist_max_ms : Z := 30000.

(* scoring/config.rs 224-226: default_fresh_watchlist_max_concurrent *)
Definition default_fresh_watchlist_max_concurrent : Z := 50.

(* scoring/config.rs 252-254: default_hot_fresh_min_buyers *)
Definition default_hot_fresh_min_buyers : Z := 25.

(* scoring/config.rs 255-257: default_hot_fresh_min_buy_volume_sol *)
Definition default_hot_fresh_min_buy_volume_sol : f64 := 25%float.

(* scoring/config.rs 258-260: default_hot_fresh_min_velocity_pct *)
Definition default_hot_fresh_min_velocity_pct : f64 := 100%float.

(* scoring/config.rs 276-278: default_tier_b_min_smart_wallets *)
Definition default_tier_b_min_smart_wallets : Z := 0.

(* scoring/config.rs 279-281: default_tier_b_min_buyers *)
Definition default_tier_b_min_buyers : Z := 10.

(* scoring/config.rs 282-284: default_tier_b_min_buy_volume_sol *)
Definition default_tier_b_min_buy_volume_sol : f64 := 10%float.

(* scoring/config.rs 285-287: default_tier_b_min_velocity_pct *)
Definition default_tier_b_min_velocity_pct : f64 := 5%float.

(* scoring/config.rs 356-358: default_weak_a_gate_enabled *)
Definition default_weak_a_gate_enabled : bool := true.

(* scoring/config.rs 359-361: default_weak_a_max_score *)
Definition default_weak_a_max_score : Z := 7.

(* scoring/config.rs 362-364: default_weak_a_min_buy_volume_sol *)
Definition default_weak_a_min_buy_volume_sol : f64 := 8%float.

(* scoring/config.rs 365-367: default_weak_a_block_dump_slices_ge *)
Definition default_weak_a_block_dump_slices_ge : Z := 1.

(* scoring/config.rs 368-370: default_weak_a_cont_second_look_max_score *)
Definition default_weak_a_cont_second_look_max_score : Z := 7.

(* scoring/config.rs 371-373: default_synthetic_pump_b2s_threshold *)
Definition default_synthetic_pump_b2s_threshold : f64 := 10%float.

(* scoring/config.rs 374-376: default_synthetic_pump_min_sell_vol *)
Definition default_synthetic_pump_min_sell_vol : f64 := 2%float.

(* scoring/config.rs 379-381: default_momentum_good_smart_bypass *)
Definition default_momentum_good_smart_bypass : Z := 2.

(* scoring/config.rs 385-387: default_momentum_good_aplus_smart_bypass *)
Definition default_momentum_good_aplus_smart_bypass : Z := 1.

(* scoring/config.rs 435-437: default_true *)
Definition default_true : bool := true.

(* scoring/config.rs 439-441: default_strong_a_min_score *)
Definition default_strong_a_min_score : Z := 8.

(* scoring/config.rs 443-445: default_strong_a_min_buyers *)
Definition default_strong_a_min_buyers : Z := 8.

(* scoring/config.rs 447-449: default_strong_a_min_buy_volume_sol *)
Definition default_strong_a_min_buy_volume_sol : f64 := 8%float.

(* scoring/config.rs 451-453: default_strong_a_min_buy_to_sell_ratio *)
Definition default_strong_a_min_buy_to_sell_ratio : f64 := 1.7%float.

(* scoring/config.rs 455-457: default_strong_a_min_absorb_quality *)
Definition default_strong_a_min_absorb_quality : f64 := 0.58%float.

(* scoring/config.rs 459-461: default_strong_a_min_buyer_velocity_persistence *)
Definition default_strong_a_min_buyer_velocity_persistence : f64 := 0.62%float.

(* scoring/config.rs 464-466: default_spam_dev_penalty *)
Definition default_spam_dev_penalty : Z := (-3).

(* scoring/config.rs 469-471: default_spam_dev_require_a_plus *)
Definition default_spam_dev_require_a_plus : bool := true.

(* scoring/config.rs 504-506: default_cont_second_look_enabled *)
Definition default_cont_second_look_enabled : bool := true.

(* scoring/config.rs 507-509: default_cont_second_look_wait_ms *)
Definition default_cont_second_look_wait_ms : Z := 1250.

(* scoring/config.rs 510-512: default_cont_second_look_recheck_window_ms *)
Definition default_cont_second_look_recheck_window_ms : Z := 1200.

(* scoring/config.rs 513-515: default_cont_second_look_recheck_slices *)
Definition default_cont_second_look_recheck_slices : Z := 3.

(* scoring/config.rs 516-518: default_cont_second_look_min_score *)
Definition default_cont_second_look_min_score : Z := 10.

(* scoring/config.rs 554-556: default_aplus_peak_guard_enabled *)
Definition default_aplus_peak_guard_enabled : bool := true.

(* scoring/config.rs 557-559: default_aplus_peak_near_peak_ratio *)
Definition default_aplus_peak_near_peak_ratio : f64 := 0.97%float.

(* scoring/config.rs 560-562: default_aplus_peak_min_mcap_sol *)
Definition default_aplus_peak_min_mcap_sol : f64 := 90%float.

(* scoring/config.rs 563-565: default_aplus_peak_strong_upticks *)
Definition default_aplus_peak_strong_upticks : Z := 2.

(* scoring/config.rs 566-568: default_aplus_peak_strong_new_buyers *)
Definition default_aplus_peak_strong_new_buyers : Z := 2.

(* scoring/config.rs 569-571: default_aplus_peak_recheck_min_vs_peak_ratio *)
Definition default_aplus_peak_recheck_min_vs_peak_ratio : f64 := 0.78%float.

(* scoring/config.rs 626-628: default_continuation_enabled *)
Definition default_continuation_enabled : bool := false.

(* scoring/config.rs 629-631: default_continuation_confirm_window_ms *)
Definition default_continuation_confirm_window_ms : Z := 1500.

(* scoring/config.rs 632-634: default_continuation_confirm_slices *)
Definition default_continuation_confirm_slices : Z := 2.

(* scoring/config.rs 635-637: default_continuation_min_upticks *)
Definition default_continuation_min_upticks : Z := 1.

(* scoring/config.rs 638-640: default_continuation_min_new_buyers *)
Definition default_continuation_min_new_buyers : Z := 1.

(* scoring/config.rs 641-643: default_continuation_max_b2s_drop_ratio *)
Definition default_continuation_max_b2s_drop_ratio : f64 := 0.6%float.

(* scoring/config.rs 644-646: default_continuation_max_sell_absorption_ratio *)
Definition default_continuation_max_sell_absorption_ratio : f64 := 1.5%float.

(* scoring/config.rs 647-649: default_continuation_min_buys_per_sec *)
Definition default_continuation_min_buys_per_sec : f64 := 0%float.

(* scoring/config.rs 695-697: default_anti_parabolic_enabled *)
Definition default_anti_parabolic_enabled : bool := false.

(* scoring/config.rs 698-700: default_anti_parabolic_near_peak_ratio *)
Definition default_anti_parabolic_near_peak_ratio : f64 := 0.97%float.

(* scoring/config.rs 701-703: default_anti_parabolic_weak_score_max *)
Definition default_anti_parabolic_weak_score_max : Z := 9.

(* scoring/config.rs 704-706: default_anti_parabolic_confirm_window_ms *)
Definition default_anti_parabolic_confirm_window_ms : Z := 1500.

(* scoring/config.rs 707-709: default_anti_parabolic_confirm_slices *)
Definition default_anti_parabolic_confirm_slices : Z := 2.

(* scoring/config.rs 710-712: default_anti_parabolic_strong_upticks *)
Definition default_anti_parabolic_strong_upticks : Z := 2.

(* scoring/config.rs 713-715: default_anti_parabolic_strong_new_buyers *)
Definition default_anti_parabolic_strong_new_buyers : Z := 3.

(* scoring/config.rs 775-777: default_anti_rug_enabled *)
Definition default_anti_rug_enabled : bool := true.

(* scoring/config.rs 778-780: default_anti_rug_entry_gate_enabled *)
Definition default_anti_rug_entry_gate_enabled : bool := true.

(* scoring/config.rs 781-783: default_min_sell_volume_window_sol *)
Definition default_min_sell_volume_window_sol : f64 := 2%float.

(* scoring/config.rs 784-786: default_min_fee_flow_ratio *)
Definition default_min_fee_flow_ratio : f64 := 0.08%float.

(* scoring/config.rs 787-789: default_min_sell_pressure_score *)
Definition default_min_sell_pressure_score : f64 := 0.05%float.

(* scoring/config.rs 790-792: default_min_buy_volume_for_gates_sol *)
Definition default_min_buy_volume_for_gates_sol : f64 := 8%float.

(* scoring/config.rs 793-795: default_absorb_strong_min_sell_vol_sol *)
Definition default_absorb_strong_min_sell_vol_sol : f64 := 1.5%float.

(* scoring/config.rs 796-798: default_buy_to_sell_max_without_min_sell_vol *)
Definition default_buy_to_sell_max_without_min_sell_vol : f64 := 12%float.

(* scoring/config.rs 799-801: default_buy_to_sell_min_sell_vol_sol *)
Definition default_buy_to_sell_min_sell_vol_sol : f64 := 3%float.

(* scoring/config.rs 802-804: default_buyer_velocity_min_slices *)
Definition default_buyer_velocity_min_slices : Z := 2.

(* scoring/config.rs 805-807: default_low_mcap_peak_sol *)
Definition default_low_mcap_peak_sol : f64 := 90%float.

(* scoring/config.rs 808-810: default_low_mcap_min_buy_volume_sol *)
Definition default_low_mcap_min_buy_volume_sol : f64 := 25%float.

(* scoring/config.rs 812-814: default_window_ms *)
Definition default_window_ms : Z := 1500.

(* scoring/config.rs 815-817: default_buyer_velocity_slices *)
Definition default_buyer_velocity_slices : Z := 3.

(* scoring/config.rs 818-820: default_a_plus *)
Definition default_a_plus : Z := 9.

(* scoring/config.rs 821-823: default_a *)
Definition default_a : Z := 7.

(* scoring/config.rs 887-889: default_weight_buyer_velocity_persistent *)
Definition default_weight_buyer_velocity_persistent : Z := 1.

(* scoring/config.rs 890-892: default_weight_buyer_velocity_fading *)
Definition default_weight_buyer_velocity_fading : Z := (-2).

(* scoring/config.rs 893-895: default_weight_sell_pressure_high *)
Definition default_weight_sell_pressure_high : Z := (-2).

(* scoring/config.rs 896-898: default_weight_absorb_strong *)
Definition default_weight_absorb_strong : Z := 2.

(* scoring/config.rs 899-901: default_weight_smart_early_exit *)
Definition default_weight_smart_early_exit : Z := (-2).

(* scoring/config.rs 902-904: default_weight_repeat_dump *)
Definition default_weight_repeat_dump : Z := (-1).

(* scoring/config.rs 959-961: default_smart_wallet_3plus_min *)
Definition default_smart_wallet_3plus_min : Z := 4.

(* scoring/config.rs 962-964: default_smart_wallet_1plus_min *)
Definition default_smart_wallet_1plus_min : Z := 1.

(* scoring/config.rs 974-976: default_b_sol *)
Definition default_b_sol : f64 := 0.2%float.

(* scoring/config.rs 1033-1035: default_max_open *)
Definition default_max_open : Z := 3.

(* scoring/config.rs 1036-1038: default_max_trades_per_day *)
Definition default_max_trades_per_day : Z := 25.

(* scoring/config.rs 1039-1041: default_max_daily_loss *)
Definition default_max_daily_loss : f64 := (-2)%float.

(* scoring/config.rs 1042-1044: default_daily_profit_lock *)
Definition default_daily_profit_lock : f64 := 4%float.

(* scoring/config.rs 1045-1047: default_loss_streak *)
Definition default_loss_streak : Z := 5.

(* scoring/config.rs 1048-1050: default_loss_streak_pause *)
Definition default_loss_streak_pause : Z := 1800.

(* scoring/config.rs 1051-1053: default_regime_pause *)
Definition default_regime_pause : bool := true.

(* scoring/config.rs 1054-1056: default_regime_window *)
Definition default_regime_window : Z := 10.

(* scoring/config.rs 1057-1059: default_regime_loss_ratio *)
Definition default_regime_loss_ratio : f64 := 0.8%float.

(* scoring/config.rs 1060-1062: default_regime_pause_secs *)
Definition default_regime_pause_secs : Z := 1800.

(* scoring/config.rs 1095-1097: default_learning_overrides_path *)
Definition default_learning_overrides_path : string := "./state/learning_overrides.json".

(* scoring/config.rs 1099-1101: default_dev_path *)
Definition default_dev_path : string := "/home/automata/state/dev_ranker.json".

(* scoring/config.rs 1102-1104: default_smart_path *)
Definition default_smart_path : string := "/home/automata/state/smart_money.json".

(* scoring/config.rs 1105-1107: default_flush *)
Definition default_flush : Z := 30.

(* scoring/config.rs 1108-1110: default_ttl *)
Definition default_ttl : Z := (48 * 3600).

(** ** Sections *)

(* scoring/config.rs 161-164: AAMomentumOverrideConfig *)
Record AAMomentumOverrideConfig := mkAAMomentumOverrideConfig {
  aamo_enabled : bool
}.
#[export] Instance AAMomentumOverrideConfig_settable : Settable AAMomentumOverrideConfig := fun r =>
  mkAAMomentumOverrideConfig (aamo_enabled r).

(* scoring/config.rs 166-170: Default for AAMomentumOverrideConfig *)
Definition AAMomentumOverrideConfig_default : AAMomentumOverrideConfig := {|
  aamo_enabled := true
|}.

(* scoring/config.rs 196-205: FreshWatchlistConfig *)
Record FreshWatchlistConfig := mkFreshWatchlistConfig {
  fw_enabled : bool;
  fw_poll_interval_ms : Z;
  fw_max_wait_ms : Z;
  fw_max_concurrent : Z
}.
#[export] Instance FreshWatchlistConfig_settable : Settable FreshWatchlistConfig := fun r =>
  mkFreshWatchlistConfig (fw_enabled r) (fw_poll_interval_ms r) (fw_max_wait_ms r)
    (fw_max_concurrent r).

(* scoring/config.rs 207-216: Default for FreshWatchlistConfig *)
Definition FreshWatchlistConfig_default : FreshWatchlistConfig := {|
  fw_enabled := false;
  fw_poll_interval_ms := default_fresh_watchlist_poll_ms;
  fw_max_wait_ms := default_fresh_watchlist_max_ms;
  fw_max_concurrent := default_fresh_watchlist_max_concurrent
|}.

(* scoring/config.rs 230-239: HotFreshOverrideConfig *)
Record HotFreshOverrideConfig := mkHotFreshOverrideConfig {
  hfo_enabled : bool;
  hfo_min_buyers : Z;
  hfo_min_buy_volume_sol : f64;
  hfo_min_velocity_pct : f64
}.
#[export] Instance HotFreshOverrideConfig_settable : Settable HotFreshOverrideConfig := fun r =>
  mkHotFreshOverrideConfig (hfo_enabled r) (hfo_min_buyers r) (hfo_min_buy_volume_sol r)
    (hfo_min_velocity_pct r).

(* scoring/config.rs 241-250: Default for HotFreshOverrideConfig *)
Definition HotFreshOverrideConfig_default : HotFreshOverrideConfig := {|
  hfo_enabled := false;
  hfo_min_buyers := default_hot_fresh_min_buyers;
  hfo_min_buy_volume_sol := default_hot_fresh_min_buy_volume_sol;
  hfo_min_velocity_pct := default_hot_fresh_min_velocity_pct
|}.

(* scoring/config.rs 174-192: TierBGateConfig *)
Record TierBGateConfig := mkTierBGateConfig {
  tb_enabled : bool;
  tb_min_smart_wallets : Z;
  tb_min_buyers : Z;
  tb_min_buy_volume_sol : f64;
  tb_min_velocity_pct : f64;
  tb_fresh_watchlist : FreshWatchlistConfig;
  tb_hot_fresh_override : HotFreshOverrideConfig
}.
#[export] Instance TierBGateConfig_settable : Settable TierBGateConfig := fun r =>
  mkTierBGateConfig (tb_enabled r) (tb_min_smart_wallets r) (tb_min_buyers r)
    (tb_min_buy_volume_sol r) (tb_min_velocity_pct r) (tb_fresh_watchlist r)
    (tb_hot_fresh_override r).

(* scoring/config.rs 262-274: Default for TierBGateConfig *)
Definition TierBGateConfig_default : TierBGateConfig := {|
  tb_enabled := default_true;
  tb_min_smart_wallets := default_tier_b_min_smart_wallets;
  tb_min_buyers := default_tier_b_min_buyers;
  tb_min_buy_volume_sol := default_tier_b_min_buy_volume_sol;
  tb_min_velocity_pct := default_tier_b_min_velocity_pct;
  tb_fresh_watchlist := FreshWatchlistConfig_default;
  tb_hot_fresh_override := HotFreshOverrideConfig_default
|}.

(* scoring/config.rs 319-328: WeakASyntheticPumpConfig *)
Record WeakASyntheticPumpConfig := mkWeakASyntheticPumpConfig {
  sp_enabled : bool;
  sp_buy_to_sell_ratio_gt : f64;
  sp_sell_volume_window_sol_lt : f64
}.
#[export] Instance WeakASyntheticPumpConfig_settable : Settable WeakASyntheticPumpConfig := fun r =>
  mkWeakASyntheticPumpConfig (sp_enabled r) (sp_buy_to_sell_ratio_gt r)
    (sp_sell_volume_window_sol_lt r).

(* scoring/config.rs 330-338: Default for WeakASyntheticPumpConfig *)
Definition WeakASyntheticPumpConfig_default : WeakASyntheticPumpConfig := {|
  sp_enabled := default_true;
  sp_buy_to_sell_ratio_gt := default_synthetic_pump_b2s_threshold;
  sp_sell_volume_window_sol_lt := default_synthetic_pump_min_sell_vol
|}.

(* scoring/config.rs 292-315: WeakATierGateConfig *)
Record WeakATierGateConfig := mkWeakATierGateConfig {
  wa_enabled : bool;
  wa_max_score : Z;
  wa_max_smart_wallets : Z;
  wa_min_buy_volume_sol : f64;
  wa_block_repeat_dump_slices_ge : Z;
  wa_block_dev_neutral : bool;
  wa_block_dev_history_weak : bool;
  wa_continuation_second_look_max_score : Z;
  wa_synthetic_pump : WeakASyntheticPumpConfig
}.
#[export] Instance WeakATierGateConfig_settable : Settable WeakATierGateConfig := fun r =>
  mkWeakATierGateConfig (wa_enabled r) (wa_max_score r) (wa_max_smart_wallets r)
    (wa_min_buy_volume_sol r) (wa_block_repeat_dump_slices_ge r) (wa_block_dev_neutral r)
    (wa_block_dev_history_weak r) (wa_continuation_second_look_max_score r) (wa_synthetic_pump
    r).

(* scoring/config.rs 340-354: Default for WeakATierGateConfig *)
Definition WeakATierGateConfig_default : WeakATierGateConfig := {|
  wa_enabled := default_weak_a_gate_enabled;
  wa_max_score := default_weak_a_max_score;
  wa_max_smart_wallets := 0;
  wa_min_buy_volume_sol := default_weak_a_min_buy_volume_sol;
  wa_block_repeat_dump_slices_ge := default_weak_a_block_dump_slices_ge;
  wa_block_dev_neutral := default_true;
  wa_block_dev_history_weak := default_true;
  wa_continuation_second_look_max_score := default_weak_a_cont_second_look_max_score;
  wa_synthetic_pump := WeakASyntheticPumpConfig_default
|}.

(* scoring/config.rs 392-417: MomentumGoodStrongABypassConfig *)
Record MomentumGoodStrongABypassConfig := mkMomentumGoodStrongABypassConfig {
  msa_enabled : bool;
  msa_min_score : Z;
  msa_min_buyers : Z;
  msa_min_buy_volume_sol : f64;
  msa_min_buy_to_sell_ratio : f64;
  msa_require_absorb_strong : bool;
  msa_min_absorb_quality : f64;
  msa_require_buyer_velocity_persistent : bool;
  msa_min_buyer_velocity_persistence : f64
}.
#[export] Instance MomentumGoodStrongABypassConfig_settable : Settable MomentumGoodStrongABypassConfig := fun r =>
  mkMomentumGoodStrongABypassConfig (msa_enabled r) (msa_min_score r) (msa_min_buyers r)
    (msa_min_buy_volume_sol r) (msa_min_buy_to_sell_ratio r) (msa_require_absorb_strong r)
    (msa_min_absorb_quality r) (msa_require_buyer_velocity_persistent r)
    (msa_min_buyer_velocity_persistence r).

(* scoring/config.rs 419-433: Default for MomentumGoodStrongABypassConfig *)
Definition MomentumGoodStrongABypassConfig_default : MomentumGoodStrongABypassConfig := {|
  msa_enabled := true;
  msa_min_score := default_strong_a_min_score;
  msa_min_buyers := default_strong_a_min_buyers;
  msa_min_buy_volume_sol := default_strong_a_min_buy_volume_sol;
  msa_min_buy_to_sell_ratio := default_strong_a_min_buy_to_sell_ratio;
  msa_require_absorb_strong := true;
  msa_min_absorb_quality := default_strong_a_min_absorb_quality;
  msa_require_buyer_velocity_persistent := true;
  msa_min_buyer_velocity_persistence := default_strong_a_min_buyer_velocity_persistence
|}.

(* scoring/config.rs 476-490: ContinuationSecondLookConfig *)
Record ContinuationSecondLookConfig := mkContinuationSecondLookConfig {
  sl_enabled : bool;
  sl_wait_ms : Z;
  sl_recheck_window_ms : Z;
  sl_recheck_slices : Z;
  sl_min_score : Z
}.
#[export] Instance ContinuationSecondLookConfig_settable : Settable ContinuationSecondLookConfig := fun r =>
  mkContinuationSecondLookConfig (sl_enabled r) (sl_wait_ms r) (sl_recheck_window_ms r)
    (sl_recheck_slices r) (sl_min_score r).

(* scoring/config.rs 492-502: Default for ContinuationSecondLookConfig *)
Definition ContinuationSecondLookConfig_default : ContinuationSecondLookConfig := {|
  sl_enabled := default_cont_second_look_enabled;
  sl_wait_ms := default_cont_second_look_wait_ms;
  sl_recheck_window_ms := default_cont_second_look_recheck_window_ms;
  sl_recheck_slices := default_cont_second_look_recheck_slices;
  sl_min_score := default_cont_second_look_min_score
|}.

(* scoring/config.rs 523-539: ContinuationAplusPeakGuardConfig *)
Record ContinuationAplusPeakGuardConfig := mkContinuationAplusPeakGuardConfig {
  apg_enabled : bool;
  apg_near_peak_ratio : f64;
  apg_min_mcap_sol : f64;
  apg_strong_upticks : Z;
  apg_strong_new_buyers : Z;
  apg_recheck_min_vs_peak_ratio : f64
}.
#[export] Instance ContinuationAplusPeakGuardConfig_settable : Settable ContinuationAplusPeakGuardConfig := fun r =>
  mkContinuationAplusPeakGuardConfig (apg_enabled r) (apg_near_peak_ratio r) (apg_min_mcap_sol
    r) (apg_strong_upticks r) (apg_strong_new_buyers r) (apg_recheck_min_vs_peak_ratio r).

(* scoring/config.rs 541-552: Default for ContinuationAplusPeakGuardConfig *)
Definition ContinuationAplusPeakGuardConfig_default : ContinuationAplusPeakGuardConfig := {|
  apg_enabled := default_aplus_peak_guard_enabled;
  apg_near_peak_ratio := default_aplus_peak_near_peak_ratio;
  apg_min_mcap_sol := default_aplus_peak_min_mcap_sol;
  apg_strong_upticks := default_aplus_peak_strong_upticks;
  apg_strong_new_buyers := default_aplus_peak_strong_new_buyers;
  apg_recheck_min_vs_peak_ratio := default_aplus_peak_recheck_min_vs_peak_ratio
|}.

(* scoring/config.rs 579-607: ContinuationConfig *)
Record ContinuationConfig := mkContinuationConfig {
  ct_enabled : bool;
  ct_second_look : ContinuationSecondLookConfig;
  ct_aplus_peak_guard : ContinuationAplusPeakGuardConfig;
  ct_confirm_window_ms : Z;
  ct_confirm_slices : Z;
  ct_min_upticks : Z;
  ct_min_new_unique_buyers : Z;
  ct_max_b2s_drop_ratio : f64;
  ct_max_sell_absorption_ratio : f64;
  ct_min_buys_per_sec : f64
}.
#[export] Instance ContinuationConfig_settable : Settable ContinuationConfig := fun r =>
  mkContinuationConfig (ct_enabled r) (ct_second_look r) (ct_aplus_peak_guard r)
    (ct_confirm_window_ms r) (ct_confirm_slices r) (ct_min_upticks r) (ct_min_new_unique_buyers
    r) (ct_max_b2s_drop_ratio r) (ct_max_sell_absorption_ratio r) (ct_min_buys_per_sec r).

(* scoring/config.rs 609-624: Default for ContinuationConfig *)
Definition ContinuationConfig_default : ContinuationConfig := {|
  ct_enabled := default_continuation_enabled;
  ct_second_look := ContinuationSecondLookConfig_default;
  ct_aplus_peak_guard := ContinuationAplusPeakGuardConfig_default;
  ct_confirm_window_ms := default_continuation_confirm_window_ms;
  ct_confirm_slices := default_continuation_confirm_slices;
  ct_min_upticks := default_continuation_min_upticks;
  ct_min_new_unique_buyers := default_continuation_min_new_buyers;
  ct_max_b2s_drop_ratio := default_continuation_max_b2s_drop_ratio;
  ct_max_sell_absorption_ratio := default_continuation_max_sell_absorption_ratio;
  ct_min_buys_per_sec := default_continuation_min_buys_per_sec
|}.

(* scoring/config.rs 658-679: AntiParabolicConfig *)
Record AntiParabolicConfig := mkAntiParabolicConfig {
  ap_enabled : bool;
  ap_near_peak_ratio : f64;
  ap_weak_score_max : Z;
  ap_confirm_window_ms : Z;
  ap_confirm_slices : Z;
  ap_strong_upticks : Z;
  ap_strong_new_buyers : Z
}.
#[export] Instance AntiParabolicConfig_settable : Settable AntiParabolicConfig := fun r =>
  mkAntiParabolicConfig (ap_enabled r) (ap_near_peak_ratio r) (ap_weak_score_max r)
    (ap_confirm_window_ms r) (ap_confirm_slices r) (ap_strong_upticks r) (ap_strong_new_buyers
    r).

(* scoring/config.rs 681-693: Default for AntiParabolicConfig *)
Definition AntiParabolicConfig_default : AntiParabolicConfig := {|
  ap_enabled := default_anti_parabolic_enabled;
  ap_near_peak_ratio := default_anti_parabolic_near_peak_ratio;
  ap_weak_score_max := default_anti_parabolic_weak_score_max;
  ap_confirm_window_ms := default_anti_parabolic_confirm_window_ms;
  ap_confirm_slices := default_anti_parabolic_confirm_slices;
  ap_strong_upticks := default_anti_parabolic_strong_upticks;
  ap_strong_new_buyers := default_anti_parabolic_strong_new_buyers
|}.

(* scoring/config.rs 719-754: AntiRugConfig *)
Record AntiRugConfig := mkAntiRugConfig {
  ar_enabled : bool;
  ar_entry_gate_enabled : bool;
  ar_min_sell_volume_window_sol : f64;
  ar_min_fee_flow_ratio : f64;
  ar_min_sell_pressure_score : f64;
  ar_min_buy_volume_for_gates_sol : f64;
  ar_absorb_strong_min_sell_vol_sol : f64;
  ar_buy_to_sell_max_without_min_sell_vol : f64;
  ar_buy_to_sell_min_sell_vol_sol : f64;
  ar_buyer_velocity_min_slices : Z;
  ar_low_mcap_peak_sol : f64;
  ar_low_mcap_min_buy_volume_sol : f64
}.
#[export] Instance AntiRugConfig_settable : Settable AntiRugConfig := fun r =>
  mkAntiRugConfig (ar_enabled r) (ar_entry_gate_enabled r) (ar_min_sell_volume_window_sol r)
    (ar_min_fee_flow_ratio r) (ar_min_sell_pressure_score r) (ar_min_buy_volume_for_gates_sol r)
    (ar_absorb_strong_min_sell_vol_sol r) (ar_buy_to_sell_max_without_min_sell_vol r)
    (ar_buy_to_sell_min_sell_vol_sol r) (ar_buyer_velocity_min_slices r) (ar_low_mcap_peak_sol
    r) (ar_low_mcap_min_buy_volume_sol r).

(* scoring/config.rs 756-773: Default for AntiRugConfig *)
Definition AntiRugConfig_default : AntiRugConfig := {|
  ar_enabled := default_anti_rug_enabled;
  ar_entry_gate_enabled := default_anti_rug_entry_gate_enabled;
  ar_min_sell_volume_window_sol := default_min_sell_volume_window_sol;
  ar_min_fee_flow_ratio := default_min_fee_flow_ratio;
  ar_min_sell_pressure_score := default_min_sell_pressure_score;
  ar_min_buy_volume_for_gates_sol := default_min_buy_volume_for_gates_sol;
  ar_absorb_strong_min_sell_vol_sol := default_absorb_strong_min_sell_vol_sol;
  ar_buy_to_sell_max_without_min_sell_vol := default_buy_to_sell_max_without_min_sell_vol;
  ar_buy_to_sell_min_sell_vol_sol := default_buy_to_sell_min_sell_vol_sol;
  ar_buyer_velocity_min_slices := default_buyer_velocity_min_slices;
  ar_low_mcap_peak_sol := default_low_mcap_peak_sol;
  ar_low_mcap_min_buy_volume_sol := default_low_mcap_min_buy_volume_sol
|}.

(* scoring/config.rs 826-856: ScoringWeights *)
Record ScoringWeights := mkScoringWeights {
  w_dev_history_strong : Z;
  w_dev_history_weak : Z;
  w_dev_ranker_a_plus : Z;
  w_dev_ranker_a : Z;
  w_dev_ranker_bad : Z;
  w_smart_wallets_3plus : Z;
  w_smart_wallets_1plus : Z;
  w_buyers_10plus : Z;
  w_buyers_6plus : Z;
  w_buyers_below_3 : Z;
  w_buy_to_sell_ratio_high : Z;
  w_momentum_good : Z;
  w_momentum_overheated : Z;
  w_volume_ok : Z;
  w_bundle_similar : Z;
  w_bundle_identical : Z;
  w_buyer_velocity_persistent : Z;
  w_buyer_velocity_fading : Z;
  w_sell_pressure_high : Z;
  w_absorb_strong : Z;
  w_smart_early_exit_dump : Z;
  w_repeat_dump_penalty : Z
}.
#[export] Instance ScoringWeights_settable : Settable ScoringWeights := fun r =>
  mkScoringWeights (w_dev_history_strong r) (w_dev_history_weak r) (w_dev_ranker_a_plus r)
    (w_dev_ranker_a r) (w_dev_ranker_bad r) (w_smart_wallets_3plus r) (w_smart_wallets_1plus r)
    (w_buyers_10plus r) (w_buyers_6plus r) (w_buyers_below_3 r) (w_buy_to_sell_ratio_high r)
    (w_momentum_good r) (w_momentum_overheated r) (w_volume_ok r) (w_bundle_similar r)
    (w_bundle_identical r) (w_buyer_velocity_persistent r) (w_buyer_velocity_fading r)
    (w_sell_pressure_high r) (w_absorb_strong r) (w_smart_early_exit_dump r)
    (w_repeat_dump_penalty r).

(* scoring/config.rs 858-885: Default for ScoringWeights *)
Definition ScoringWeights_default : ScoringWeights := {|
  w_dev_history_strong := 2;
  w_dev_history_weak := 2;
  w_dev_ranker_a_plus := 3;
  w_dev_ranker_a := 1;
  w_dev_ranker_bad := (-3);
  w_smart_wallets_3plus := 4;
  w_smart_wallets_1plus := 1;
  w_buyers_10plus := 2;
  w_buyers_6plus := 1;
  w_buyers_below_3 := (-2);
  w_buy_to_sell_ratio_high := 1;
  w_momentum_good := 2;
  w_momentum_overheated := (-3);
  w_volume_ok := 1;
  w_bundle_similar := (-4);
  w_bundle_identical := (-5);
  w_buyer_velocity_persistent := default_weight_buyer_velocity_persistent;
  w_buyer_velocity_fading := default_weight_buyer_velocity_fading;
  w_sell_pressure_high := default_weight_sell_pressure_high;
  w_absorb_strong := default_weight_absorb_strong;
  w_smart_early_exit_dump := default_weight_smart_early_exit;
  w_repeat_dump_penalty := default_weight_repeat_dump
|}.

(* scoring/config.rs 907-934: FeatureThresholds *)
Record FeatureThresholds := mkFeatureThresholds {
  th_dev_strong_min_coins : Z;
  th_dev_strong_min_pnl_pct : f64;
  th_buyers_high : Z;
  th_buyers_mid : Z;
  th_buyers_low : Z;
  th_buy_to_sell_high : f64;
  th_momentum_good_low_pct : f64;
  th_momentum_good_high_pct : f64;
  th_momentum_overheated_pct : f64;
  th_volume_ok_sol : f64;
  th_bundle_similar_ratio : f64;
  th_bundle_identical_ratio : f64;
  th_bundle_similar_tolerance : f64;
  th_smart_wallet_3plus_min : Z;
  th_smart_wallet_1plus_min : Z
}.
#[export] Instance FeatureThresholds_settable : Settable FeatureThresholds := fun r =>
  mkFeatureThresholds (th_dev_strong_min_coins r) (th_dev_strong_min_pnl_pct r) (th_buyers_high
    r) (th_buyers_mid r) (th_buyers_low r) (th_buy_to_sell_high r) (th_momentum_good_low_pct r)
    (th_momentum_good_high_pct r) (th_momentum_overheated_pct r) (th_volume_ok_sol r)
    (th_bundle_similar_ratio r) (th_bundle_identical_ratio r) (th_bundle_similar_tolerance r)
    (th_smart_wallet_3plus_min r) (th_smart_wallet_1plus_min r).

(* scoring/config.rs 936-957: Default for FeatureThresholds *)
Definition FeatureThresholds_default : FeatureThresholds := {|
  th_dev_strong_min_coins := 5;
  th_dev_strong_min_pnl_pct := 20%float;
  th_buyers_high := 10;
  th_buyers_mid := 6;
  th_buyers_low := 4;
  th_buy_to_sell_high := 1.7%float;
  th_momentum_good_low_pct := 12%float;
  th_momentum_good_high_pct := 30%float;
  th_momentum_overheated_pct := 55%float;
  th_volume_ok_sol := 12%float;
  th_bundle_similar_ratio := 0.7%float;
  th_bundle_identical_ratio := 0.5%float;
  th_bundle_similar_tolerance := 0.10%float;
  th_smart_wallet_3plus_min := default_smart_wallet_3plus_min;
  th_smart_wallet_1plus_min := default_smart_wallet_1plus_min
|}.

(* scoring/config.rs 967-972: TierSize *)
Record TierSize := mkTierSize {
  sz_a_plus_sol : f64;
  sz_a_sol : f64;
  sz_b_sol : f64
}.
#[export] Instance TierSize_settable : Settable TierSize := fun r =>
  mkTierSize (sz_a_plus_sol r) (sz_a_sol r) (sz_b_sol r).

(* scoring/config.rs 978-986: Default for TierSize *)
Definition TierSize_default : TierSize := {|
  sz_a_plus_sol := 0.4%float;
  sz_a_sol := 0.3%float;
  sz_b_sol := default_b_sol
|}.

(* scoring/config.rs 16-129: ScoringConfig *)
Record ScoringConfig := mkScoringConfig {
  sc_scoring_window_ms : Z;
  sc_buyer_velocity_slices : Z;
  sc_a_plus_threshold : Z;
  sc_a_threshold : Z;
  sc_require_momentum_good : bool;
  sc_momentum_good_smart_bypass : Z;
  sc_momentum_good_aplus_smart_bypass : Z;
  sc_momentum_good_strong_a : MomentumGoodStrongABypassConfig;
  sc_minimum_tier_for_buy : MinBuyTier;
  sc_spam_dev_penalty : Z;
  sc_spam_dev_require_a_plus : bool;
  sc_legacy_scoring : bool;
  sc_weights : ScoringWeights;
  sc_thresholds : FeatureThresholds;
  sc_size : TierSize;
  sc_anti_rug : AntiRugConfig;
  sc_continuation : ContinuationConfig;
  sc_anti_parabolic : AntiParabolicConfig;
  sc_weak_a_gate : WeakATierGateConfig;
  sc_tier_b : TierBGateConfig;
  sc_aa_momentum_override : AAMomentumOverrideConfig
}.
#[export] Instance ScoringConfig_settable : Settable ScoringConfig := fun r =>
  mkScoringConfig (sc_scoring_window_ms r) (sc_buyer_velocity_slices r) (sc_a_plus_threshold r)
    (sc_a_threshold r) (sc_require_momentum_good r) (sc_momentum_good_smart_bypass r)
    (sc_momentum_good_aplus_smart_bypass r) (sc_momentum_good_strong_a r)
    (sc_minimum_tier_for_buy r) (sc_spam_dev_penalty r) (sc_spam_dev_require_a_plus r)
    (sc_legacy_scoring r) (sc_weights r) (sc_thresholds r) (sc_size r) (sc_anti_rug r)
    (sc_continuation r) (sc_anti_parabolic r) (sc_weak_a_gate r) (sc_tier_b r)
    (sc_aa_momentum_override r).

(* scoring/config.rs 131-157: Default for ScoringConfig *)
Definition ScoringConfig_default : ScoringConfig := {|
  sc_scoring_window_ms := default_window_ms;
  sc_buyer_velocity_slices := default_buyer_velocity_slices;
  sc_a_plus_threshold := default_a_plus;
  sc_a_threshold := default_a;
  sc_require_momentum_good := true;
  sc_momentum_good_smart_bypass := default_momentum_good_smart_bypass;
  sc_momentum_good_aplus_smart_bypass := default_momentum_good_aplus_smart_bypass;
  sc_momentum_good_strong_a := MomentumGoodStrongABypassConfig_default;
  sc_minimum_tier_for_buy := MinA;
  sc_spam_dev_penalty := default_spam_dev_penalty;
  sc_spam_dev_require_a_plus := default_spam_dev_require_a_plus;
  sc_legacy_scoring := false;
  sc_weights := ScoringWeights_default;
  sc_thresholds := FeatureThresholds_default;
  sc_size := TierSize_default;
  sc_anti_rug := AntiRugConfig_default;
  sc_continuation := ContinuationConfig_default;
  sc_anti_parabolic := AntiParabolicConfig_default;
  sc_weak_a_gate := WeakATierGateConfig_default;
  sc_tier_b := TierBGateConfig_default;
  sc_aa_momentum_override := AAMomentumOverrideConfig_default
|}.

(* scoring/config.rs 991-1014: StrategyConfig *)
Record StrategyConfig := mkStrategyConfig {
  st_max_open_positions : Z;
  st_max_trades_per_day : Z;
  st_max_daily_loss_sol : f64;
  st_daily_profit_lock_sol : f64;
  st_loss_streak_limit : Z;
  st_loss_streak_pause_secs : Z;
  st_market_regime_pause : bool;
  st_market_regime_window : Z;
  st_market_regime_loss_ratio : f64;
  st_market_regime_pause_secs : Z
}.
#[export] Instance StrategyConfig_settable : Settable StrategyConfig := fun r =>
  mkStrategyConfig (st_max_open_positions r) (st_max_trades_per_day r) (st_max_daily_loss_sol r)
    (st_daily_profit_lock_sol r) (st_loss_streak_limit r) (st_loss_streak_pause_secs r)
    (st_market_regime_pause r) (st_market_regime_window r) (st_market_regime_loss_ratio r)
    (st_market_regime_pause_secs r).

(* scoring/config.rs 1016-1031: Default for StrategyConfig *)
Definition StrategyConfig_default : StrategyConfig := {|
  st_max_open_positions := default_max_open;
  st_max_trades_per_day := default_max_trades_per_day;
  st_max_daily_loss_sol := default_max_daily_loss;
  st_daily_profit_lock_sol := default_daily_profit_lock;
  st_loss_streak_limit := default_loss_streak;
  st_loss_streak_pause_secs := default_loss_streak_pause;
  st_market_regime_pause := default_regime_pause;
  st_market_regime_window := default_regime_window;
  st_market_regime_loss_ratio := default_regime_loss_ratio;
  st_market_regime_pause_secs := default_regime_pause_secs
|}.

(* scoring/config.rs 1067-1081: PersistenceConfig *)
Record PersistenceConfig := mkPersistenceConfig {
  ps_dev_ranker_path : string;
  ps_smart_money_path : string;
  ps_learning_overrides_path : string;
  ps_flush_every_secs : Z;
  ps_entity_ttl_secs : Z
}.
#[export] Instance PersistenceConfig_settable : Settable PersistenceConfig := fun r =>
  mkPersistenceConfig (ps_dev_ranker_path r) (ps_smart_money_path r) (ps_learning_overrides_path
    r) (ps_flush_every_secs r) (ps_entity_ttl_secs r).

(* scoring/config.rs 1083-1093: Default for PersistenceConfig *)
Definition PersistenceConfig_default : PersistenceConfig := {|
  ps_dev_ranker_path := default_dev_path;
  ps_smart_money_path := default_smart_path;
  ps_learning_overrides_path := default_learning_overrides_path;
  ps_flush_every_secs := default_flush;
  ps_entity_ttl_secs := default_ttl
|}.

