(* ===== verification/Registry.v ===== *)
(** The persisted registries of the scoring stack: [scoring/dev_ranker.rs] ranks
    developers by the outcome of our own trades, [scoring/smart_money.rs] scores
    the wallets seen among the early buyers of those trades.

    Each is an actor over a map keyed by the printed address ([to_string], from
    the address library), with a dirty flag and a periodic flush to a JSON file.
    The clock of a message is an argument. *)
From S2P Require Import Prelude Config.

(** ** Developers *)

(* scoring/dev_ranker.rs 20-31: DevCategory *)
Inductive DevCategory := CatAPlus | CatA | CatNeutral | CatBad | CatStale | CatFresh.
#[export] Instance DevCategory_eq_dec : EqDecision DevCategory.
Proof. solve_decision. Defined.

(* scoring/dev_ranker.rs 33-42: DevRecord *)
Record DevRecord := mkDevRecord {
  dr_score : f64;
  dr_total_tokens : Z;
  dr_strong_successes : Z;
  dr_successes : Z;
  dr_neutrals : Z;
  dr_rugs : Z;
  dr_last_seen_unix : Z
}.
#[export] Instance DevRecord_settable : Settable DevRecord := fun r =>
  mkDevRecord (dr_score r) (dr_total_tokens r) (dr_strong_successes r) (dr_successes r)
    (dr_neutrals r) (dr_rugs r) (dr_last_seen_unix r).
Definition DevRecord_default : DevRecord := mkDevRecord 0%float 0 0 0 0 0 0.

(* scoring/dev_ranker.rs 44-50: TokenOutcome *)
Inductive TokenOutcome := OutStrongSuccess | OutSuccess | OutNeutral | OutRug.

(* scoring/dev_ranker.rs 53-63: TokenOutcome::classify *)
Definition classify (pnl_pct : f64) : TokenOutcome :=
  if (pnl_pct >=? 50)%float then OutStrongSuccess
  else if (pnl_pct >=? 30)%float then OutSuccess
  else if (pnl_pct <=? -16)%float then OutRug
  else OutNeutral.

(* scoring/dev_ranker.rs 222-235: categorize *)
Definition categorize (rec : DevRecord) (now ttl_secs : Z) : DevCategory :=
  if (0 <? ttl_secs) && (ttl_secs <? sat_sub now (dr_last_seen_unix rec)) then CatStale
  else if (dr_score rec >=? 3)%float then CatAPlus
  else if (dr_score rec >=? 1)%float then CatA
  else if (dr_score rec <=? -2)%float then CatBad
  else CatNeutral.

(* scoring/dev_ranker.rs 150-169: spawn *)
Definition note_outcome (outcome : TokenOutcome) (now : Z) (entry : DevRecord) : DevRecord :=
  let entry := entry <| dr_total_tokens := u64 (dr_total_tokens entry + 1) |> in
  let entry :=
    match outcome with
    | OutStrongSuccess =>
        entry <| dr_score := (dr_score entry + 2)%float |>
              <| dr_strong_successes := u64 (dr_strong_successes entry + 1) |>
    | OutSuccess =>
        entry <| dr_score := (dr_score entry + 1)%float |>
              <| dr_successes := u64 (dr_successes entry + 1) |>
    | OutNeutral => entry <| dr_neutrals := u64 (dr_neutrals entry + 1) |>
    | OutRug =>
        entry <| dr_score := (dr_score entry - 2)%float |>
              <| dr_rugs := u64 (dr_rugs entry + 1) |>
    end in
  entry <| dr_last_seen_unix := now |>.

(** an actor's state: the map, the dirty flag and the last file written *)
Record Store (V : Type) := mkStore {
  store_map : gmap string V;
  store_dirty : bool;
  store_file : option (gmap string V)
}.
Arguments mkStore {V} store_map store_dirty store_file.
Arguments store_map {V} s.
Arguments store_dirty {V} s.
Arguments store_file {V} s.
#[export] Instance Store_settable V : Settable (Store V) :=
  fun s => mkStore (store_map s) (store_dirty s) (store_file s).

(** [load_state]: a missing or corrupted file starts empty *)
(* scoring/dev_ranker.rs 244-255: load_state *)
Definition load_state {V} (file : option (gmap string V)) : Store V :=
  mkStore (default ∅ file) false file.

(** the flush arm of the loop; [written] tells whether the write succeeded *)
(* scoring/dev_ranker.rs 205-213: spawn *)
Definition flush {V} (written : bool) (s : Store V) : Store V :=
  if store_dirty s then
    if written then s <| store_file := Some (store_map s) |> <| store_dirty := false |> else s
  else s.

(* scoring/dev_ranker.rs 83-91: DevRankerSnapshot *)
Record DevRankerSnapshot := mkDevRankerSnapshot {
  drs_total_devs : Z; drs_a_plus : Z; drs_a : Z; drs_neutral : Z; drs_bad : Z; drs_stale : Z }.

Definition values {V} (m : gmap string V) : list V := (map_to_list m).*2.
Definition count_if {A} (p : A -> bool) (l : list A) : Z := Z.of_nat (length (List.filter p l)).

Section DevRanker.
Context (to_string : Address -> string) (ttl : Z).

(* scoring/dev_ranker.rs 146-171: spawn *)
Definition dev_update (dev : Address) (outcome : TokenOutcome) (now : Z) (s : Store DevRecord)
    : Store DevRecord :=
  let entry := default DevRecord_default (store_map s !! to_string dev) in
  s <| store_map := <[to_string dev := note_outcome outcome now entry]> (store_map s) |>
    <| store_dirty := true |>.

(* scoring/dev_ranker.rs 172-180: spawn *)
Definition dev_get_category (dev : Address) (now : Z) (s : Store DevRecord)
    : DevCategory * DevRecord :=
  match store_map s !! to_string dev with
  | Some rec => (categorize rec now ttl, rec)
  | None => (CatNeutral, DevRecord_default)
  end.

(* scoring/dev_ranker.rs 181-202: spawn *)
Definition dev_snapshot_counts (now : Z) (s : Store DevRecord) : DevRankerSnapshot :=
  let n c := count_if (fun rec => bool_decide (categorize rec now ttl = c)) (values (store_map s)) in
  mkDevRankerSnapshot (Z.of_nat (size (store_map s))) (n CatAPlus) (n CatA) (n CatNeutral)
    (n CatBad) (n CatStale).

(* scoring/dev_ranker.rs 68-81: Msg *)
Inductive DevMsg :=
  | UpdateOutcome (dev : Address) (outcome : TokenOutcome)
  | GetCategory (dev : Address)
  | SnapshotCounts
  | DevFlush (written : bool).

(* scoring/dev_ranker.rs 143-216: spawn *)
Definition dev_step (s : Store DevRecord) (ev : Z * DevMsg) : Store DevRecord :=
  match ev with
  | (now, UpdateOutcome dev outcome) => dev_update dev outcome now s
  | (_, GetCategory _) => s
  | (_, SnapshotCounts) => s
  | (_, DevFlush written) => flush written s
  end.
End DevRanker.

(** ** Wallets *)

(* scoring/smart_money.rs 16-24: WalletRecord *)
Record WalletRecord := mkWalletRecord {
  wr_trades : Z; wr_wins : Z; wr_losses : Z; wr_pnl_pct_sum : f64; wr_last_seen_unix : Z }.
#[export] Instance WalletRecord_settable : Settable WalletRecord := fun r =>
  mkWalletRecord (wr_trades r) (wr_wins r) (wr_losses r) (wr_pnl_pct_sum r) (wr_last_seen_unix r).
Definition WalletRecord_default : WalletRecord := mkWalletRecord 0 0 0 0%float 0.

(* scoring/smart_money.rs 27-33: WalletRecord::winrate *)
Definition winrate (r : WalletRecord) : f64 :=
  if wr_trades r =? 0 then 0%float else (f64_of_Z (wr_wins r) / f64_of_Z (wr_trades r))%float.

(* scoring/smart_money.rs 34-40: WalletRecord::avg_pnl_pct *)
Definition avg_pnl_pct (r : WalletRecord) : f64 :=
  if wr_trades r =? 0 then 0%float else (wr_pnl_pct_sum r / f64_of_Z (wr_trades r))%float.

(* scoring/smart_money.rs 198-210: is_smart *)
Definition is_smart (rec : WalletRecord) (now ttl_secs : Z) : bool :=
  if (0 <? ttl_secs) && (ttl_secs <? sat_sub now (wr_last_seen_unix rec)) then false
  else if wr_trades rec <? 4 then false
  else ((winrate rec >=? 0.6) && (avg_pnl_pct rec >=? 5))%float.

(* scoring/smart_money.rs 132-141: spawn *)
Definition note_trade (pnl_pct : f64) (now : Z) (e : WalletRecord) : WalletRecord :=
  let e := e <| wr_trades := u64 (wr_trades e + 1) |>
             <| wr_pnl_pct_sum := (wr_pnl_pct_sum e + pnl_pct)%float |> in
  let e := if (0 <? pnl_pct)%float then e <| wr_wins := u64 (wr_wins e + 1) |>
           else e <| wr_losses := u64 (wr_losses e + 1) |> in
  e <| wr_last_seen_unix := now |>.

Section SmartMoney.
Context (to_string : Address -> string) (ttl : Z).

(* scoring/smart_money.rs 130-144: spawn *)
Definition smart_update (wallets : list Address) (pnl_pct : f64) (now : Z)
    (s : Store WalletRecord) : Store WalletRecord :=
  let upd m w :=
    <[to_string w := note_trade pnl_pct now (default WalletRecord_default (m !! to_string w))]> m in
  s <| store_map := List.fold_left upd wallets (store_map s) |> <| store_dirty := true |>.

Definition wallet_smart (now : Z) (s : Store WalletRecord) (w : Address) : bool :=
  match store_map s !! to_string w with Some rec => is_smart rec now ttl | None => false end.

(* scoring/smart_money.rs 145-155: spawn *)
Definition count_smart (wallets : list Address) (now : Z) (s : Store WalletRecord) : Z :=
  List.fold_left (fun count w => if wallet_smart now s w then u32 (count + 1) else count) wallets 0.

(* scoring/smart_money.rs 156-169: spawn *)
Definition filter_smart (wallets : list Address) (now : Z) (s : Store WalletRecord) : list Address :=
  List.filter (wallet_smart now s) wallets.

(* scoring/smart_money.rs 170-178: spawn *)
Definition smart_snapshot (now : Z) (s : Store WalletRecord) : Z * Z :=
  (Z.of_nat (size (store_map s)), count_if (fun r => is_smart r now ttl) (values (store_map s))).

(* scoring/smart_money.rs 49-67: Msg *)
Inductive SmartMsg :=
  | UpdateOutcomes (wallets : list Address) (pnl_pct : f64)
  | CountSmart (wallets : list Address)
  | FilterSmart (wallets : list Address)
  | SmartSnapshotMsg
  | SmartFlush (written : bool).

(* scoring/smart_money.rs 126-192: spawn *)
Definition smart_step (s : Store WalletRecord) (ev : Z * SmartMsg) : Store WalletRecord :=
  match ev with
  | (now, UpdateOutcomes wallets pnl_pct) => smart_update wallets pnl_pct now s
  | (_, SmartFlush written) => flush written s
  | (_, _) => s
  end.
End SmartMoney.

(** ** Laws *)

Lemma length_values {V} (m : gmap string V) : length (values m) = size m.
Proof. unfold values. by rewrite length_fmap, length_map_to_list. Qed.

Lemma count_if_nil {A} (p : A -> bool) : count_if p [] = 0.
Proof. done. Qed.
Lemma count_if_cons {A} (p : A -> bool) a l :
  count_if p (a :: l) = (if p a then 1 else 0) + count_if p l.
Proof. unfold count_if; cbn. destruct (p a); cbn [length]; lia. Qed.

Lemma categorize_not_fresh rec now ttl : categorize rec now ttl <> CatFresh.
Proof. unfold categorize. by repeat case_match. Qed.

(** The counters of a dev-ranker snapshot partition the registry: every
    developer is counted in exactly one of A+, A, Neutral, Bad and Stale. *)
Theorem dev_snapshot_partition ttl now s :
  let r := dev_snapshot_counts ttl now s in
  drs_a_plus r + drs_a r + drs_neutral r + drs_bad r + drs_stale r = drs_total_devs r.
Proof.
  cbn. rewrite <- length_values. induction (values (store_map s)) as [|rec l IH]; [done|].
  rewrite !count_if_cons. cbn [length].
  pose proof (categorize_not_fresh rec now ttl).
  destruct (categorize rec now ttl); try done; repeat case_bool_decide; try done; lia.
Qed.

(** the counters of a record add up modulo the width of the counters *)
Definition dev_record_ok (r : DevRecord) : Prop :=
  dr_total_tokens r =
    u64 (dr_strong_successes r + dr_successes r + dr_neutrals r + dr_rugs r).
Definition wallet_record_ok (r : WalletRecord) : Prop :=
  wr_trades r = u64 (wr_wins r + wr_losses r).

Lemma wrap_u_add_l w a b : wrap_u w (wrap_u w a + b) = wrap_u w (a + b).
Proof. unfold wrap_u. apply Zplus_mod_idemp_l. Qed.
Lemma wrap_u_add_r w a b : wrap_u w (a + wrap_u w b) = wrap_u w (a + b).
Proof. unfold wrap_u. apply Zplus_mod_idemp_r. Qed.

Lemma wrap_u_add_in w a b c : wrap_u w (a + wrap_u w b + c) = wrap_u w (a + b + c).
Proof.
  replace (a + wrap_u w b + c) with (a + c + wrap_u w b) by lia.
  rewrite wrap_u_add_r. f_equal. lia.
Qed.

Lemma note_outcome_ok o now r : dev_record_ok r -> dev_record_ok (note_outcome o now r).
Proof.
  unfold dev_record_ok. intros H. destruct o; cbn; rewrite H, wrap_u_add_l;
    rewrite ?wrap_u_add_r, ?wrap_u_add_in.
  - symmetry. rewrite <- !Z.add_assoc, wrap_u_add_l. f_equal. lia.
  - symmetry. rewrite <- (Z.add_assoc _ (dr_neutrals r)), wrap_u_add_in. f_equal. lia.
  - f_equal. lia.
  - f_equal. lia.
Qed.

Lemma note_trade_ok p now r : wallet_record_ok r -> wallet_record_ok (note_trade p now r).
Proof.
  unfold wallet_record_ok, note_trade. intros H.
  destruct (0 <? p)%float; cbn; rewrite H, wrap_u_add_l, ?wrap_u_add_r, ?wrap_u_add_l;
    f_equal; lia.
Qed.

(** a store is sound for [P] when all its records satisfy [P], and a clean store
    equals its file *)
Record store_ok {V} (P : V -> Prop) (s : Store V) : Prop := {
  store_records : forall k r, store_map s !! k = Some r -> P r;
  store_clean : store_dirty s = false -> default ∅ (store_file s) = store_map s
}.

Lemma store_map_insert {V} (P : V -> Prop) (m : gmap string V) k v :
  (forall k r, m !! k = Some r -> P r) -> P v ->
  forall k' r, <[k := v]> m !! k' = Some r -> P r.
Proof. intros H Hv k' r [[_ <-]|[_ Hk]]%lookup_insert_Some; eauto. Qed.

Lemma default_ok {V} (P : V -> Prop) (m : gmap string V) k d :
  (forall k r, m !! k = Some r -> P r) -> P d -> P (default d (m !! k)).
Proof. intros H Hd. destruct (m !! k) eqn:E; cbn; eauto. Qed.

Lemma flush_ok {V} (P : V -> Prop) w (s : Store V) : store_ok P s -> store_ok P (flush w s).
Proof.
  intros [H C]. unfold flush. destruct (store_dirty s) eqn:D; [|split; auto].
  destruct w; split; cbn; auto; congruence.
Qed.

Lemma dev_step_ok ts ev s : store_ok dev_record_ok s -> store_ok dev_record_ok (dev_step ts s ev).
Proof.
  destruct ev as [now [dev o|dev| |w]]; cbn; try done; [|apply flush_ok].
  intros [H C]. split; cbn; [|done].
  apply store_map_insert; [done|]. apply note_outcome_ok, default_ok; done.
Qed.

Lemma smart_step_ok ts ev s :
  store_ok wallet_record_ok s -> store_ok wallet_record_ok (smart_step ts s ev).
Proof.
  destruct ev as [now [ws p|ws|ws| |w]]; cbn; try done; [|apply flush_ok].
  intros [H C]. split; cbn; [|done]. clear C. revert H.
  generalize (store_map s) as m. induction ws as [|w ws IH]; intros m H; cbn; [done|].
  apply IH. apply store_map_insert; [done|]. apply note_trade_ok, default_ok; done.
Qed.

(** After any run of messages and flushes from a well-formed state file,
    every developer record's outcome counters add up to its token count, every
    wallet record's wins and losses to its trades, and whenever the dirty flag
    is down the file on disk holds exactly the registry in memory. *)
Theorem registries_consistent ts (devs : option (gmap string DevRecord))
    (wallets : option (gmap string WalletRecord)) devs_evs wallet_evs :
  (forall k r, default ∅ devs !! k = Some r -> dev_record_ok r) ->
  (forall k r, default ∅ wallets !! k = Some r -> wallet_record_ok r) ->
  store_ok dev_record_ok (List.fold_left (dev_step ts) devs_evs (load_state devs)) /\
  store_ok wallet_record_ok (List.fold_left (smart_step ts) wallet_evs (load_state wallets)).
Proof.
  intros HD HW. split.
  - assert (store_ok dev_record_ok (load_state devs)) as H by by split.
    revert H. generalize (load_state devs). induction devs_evs as [|e es IH]; intros s H; [done|].
    cbn. by apply IH, dev_step_ok.
  - assert (store_ok wallet_record_ok (load_state wallets)) as H by by split.
    revert H. generalize (load_state wallets).
    induction wallet_evs as [|e es IH]; intros s H; [done|]. cbn. by apply IH, smart_step_ok.
Qed.

Lemma registries_consistent_witness :
  store_ok dev_record_ok
    (List.fold_left (dev_step pretty) [(5, UpdateOutcome 7%N OutRug); (9, DevFlush true)]
       (load_state (Some {["1" := mkDevRecord 1%float 3 1 1 0 1 0]}))) /\
  store_ok wallet_record_ok
    (List.fold_left (smart_step pretty) [(5, UpdateOutcomes [7%N; 8%N] 12.5%float)] (load_state None)).
Proof.
  apply (registries_consistent pretty (Some {["1" := mkDevRecord 1%float 3 1 1 0 1 0]}) None).
  - cbn. intros k r [_ <-]%lookup_singleton_Some. reflexivity.
  - cbn. intros k r. rewrite lookup_empty. discriminate.
Defined.
