(* ===== verification/Strategy.v ===== *)
(** The risk gate, [src/src/scoring/strategy_controller.rs].

    Daily budget, loss cap and profit lock, loss-streak and market-regime
    pauses.  Every read of the clock is an argument of the operation. *)
From S2P Require Import Prelude Config.

(* scoring/strategy_controller.rs 19-28: BuyDecision *)
Inductive BuyDecision :=
  | Allow
  | BlockMaxOpen
  | BlockDailyTrades
  | BlockDailyLoss
  | BlockProfitLock
  | BlockLossStreak
  | BlockRegime.

(* scoring/strategy_controller.rs 42-51: StrategyController *)
Record StrategyController := mkController {
  cfg : StrategyConfig;
  day_unix : Z;
  daily_trades : Z;
  daily_pnl_sol : f64;
  loss_streak : Z;
  paused_until_unix : Z;
  recent_outcomes : list bool;
  last_block_reason : option string
}.
#[export] Instance StrategyController_settable : Settable StrategyController := fun s =>
  mkController (cfg s) (day_unix s) (daily_trades s) (daily_pnl_sol s) (loss_streak s)
    (paused_until_unix s) (recent_outcomes s) (last_block_reason s).

(* scoring/strategy_controller.rs 186-189: current_day *)
Definition current_day (secs : Z) : Z := secs - secs mod 86400.

(* scoring/strategy_controller.rs 54-65: StrategyController::new *)
Definition strategy_new (c : StrategyConfig) (now : Z) : StrategyController :=
  mkController c (current_day now) 0 0%float 0 0 [] None.

(* scoring/strategy_controller.rs 74-83: StrategyController::roll_day_if_needed *)
Definition roll_day_if_needed (now : Z) (s : StrategyController) : StrategyController :=
  let today := current_day now in
  if today =? day_unix s then s
  else s <| day_unix := today |> <| daily_trades := 0 |> <| daily_pnl_sol := 0%float |>.

(* scoring/strategy_controller.rs 85-113: StrategyController::can_open *)
Definition can_open (currently_open : Z) (now : Z) (s : StrategyController)
    : BuyDecision * StrategyController :=
  let s := roll_day_if_needed now s in
  let block reason d := (d, s <| last_block_reason := Some reason |>) in
  if st_max_open_positions (cfg s) <=? currently_open then block "max_open" BlockMaxOpen
  else if st_max_trades_per_day (cfg s) <=? daily_trades s then
    block "daily_trades" BlockDailyTrades
  else if (daily_pnl_sol s <=? st_max_daily_loss_sol (cfg s))%float then
    block "daily_loss" BlockDailyLoss
  else if (daily_pnl_sol s >=? st_daily_profit_lock_sol (cfg s))%float then
    block "profit_lock" BlockProfitLock
  else if now <? paused_until_unix s then block "paused" BlockLossStreak
  else (Allow, s).

(* scoring/strategy_controller.rs 118-121: StrategyController::note_position_opened *)
Definition note_position_opened (now : Z) (s : StrategyController) : StrategyController :=
  let s := roll_day_if_needed now s in
  s <| daily_trades := u32 (daily_trades s + 1) |>.

(** [while len > window { pop_front }] *)
Fixpoint trim (window : nat) (l : list bool) : list bool :=
  if (length l <=? window)%nat then l
  else match l with [] => [] | _ :: l' => trim window l' end.

(** the win or loss and the loss-streak pause *)
(* scoring/strategy_controller.rs 129-142: StrategyController::note_position_closed *)
Definition note_streak (win : bool) (now : Z) (s : StrategyController) : StrategyController :=
  if win then s <| loss_streak := 0 |>
  else
    let s := s <| loss_streak := u32 (loss_streak s + 1) |> in
    if st_loss_streak_limit (cfg s) <=? loss_streak s
    then s <| paused_until_unix := u64 (now + st_loss_streak_pause_secs (cfg s)) |>
    else s.

(** the rolling window and the regime pause *)
(* scoring/strategy_controller.rs 144-168: StrategyController::note_position_closed *)
Definition note_regime (win : bool) (now : Z) (s : StrategyController) : StrategyController :=
  let window := Z.to_nat (st_market_regime_window (cfg s)) in
  let s := s <| recent_outcomes := trim window (recent_outcomes s ++ [win]) |> in
  if st_market_regime_pause (cfg s) && (Nat.max window 1 <=? length (recent_outcomes s))%nat then
    let losses := f64_of_Z (Z.of_nat (length (List.filter negb (recent_outcomes s)))) in
    let ratio := (losses / f64_of_Z (Z.of_nat (length (recent_outcomes s))))%float in
    if (ratio >=? st_market_regime_loss_ratio (cfg s))%float then
      let until := u64 (now + st_market_regime_pause_secs (cfg s)) in
      if paused_until_unix s <? until then s <| paused_until_unix := until |> else s
    else s
  else s.

(* scoring/strategy_controller.rs 125-169: StrategyController::note_position_closed *)
Definition note_position_closed (pnl_sol : f64) (now : Z) (s : StrategyController)
    : StrategyController :=
  let s := roll_day_if_needed now s in
  let s := s <| daily_pnl_sol := (daily_pnl_sol s + pnl_sol)%float |> in
  let win := (0 <? pnl_sol)%float in
  note_regime win now (note_streak win now s).

(* scoring/strategy_controller.rs 30-40: StrategySnapshot *)
Record StrategySnapshot := mkStrategySnapshot {
  ss_day_unix : Z; ss_daily_trades : Z; ss_daily_pnl_sol : f64; ss_loss_streak : Z;
  ss_paused_until_unix : Z; ss_recent_outcomes_window : Z; ss_recent_losses : Z;
  ss_last_block_reason : option string }.

(* scoring/strategy_controller.rs 171-183: StrategyController::snapshot *)
Definition strategy_snapshot (s : StrategyController) : StrategySnapshot :=
  mkStrategySnapshot (day_unix s) (daily_trades s) (daily_pnl_sol s) (loss_streak s)
    (paused_until_unix s) (u32 (Z.of_nat (length (recent_outcomes s))))
    (u32 (Z.of_nat (length (List.filter negb (recent_outcomes s))))) (last_block_reason s).

(** ** The gate *)

(** A buy is allowed exactly when, after rolling the day, every limit has
    room: fewer open positions and fewer trades today than the caps, today's
    PnL strictly between the loss cap and the profit lock, and no pause
    running. *)
Theorem can_open_allow_iff n now s :
  PrimFloat.is_nan (daily_pnl_sol s) = false ->
  PrimFloat.is_nan (st_max_daily_loss_sol (cfg s)) = false ->
  PrimFloat.is_nan (st_daily_profit_lock_sol (cfg s)) = false ->
  let s' := roll_day_if_needed now s in
  (can_open n now s).1 = Allow <->
    n < st_max_open_positions (cfg s) /\
    daily_trades s' < st_max_trades_per_day (cfg s) /\
    (st_max_daily_loss_sol (cfg s) <? daily_pnl_sol s')%float = true /\
    (daily_pnl_sol s' <? st_daily_profit_lock_sol (cfg s))%float = true /\
    paused_until_unix s <= now.
Proof.
  intros N1 N2 N3. cbn zeta. unfold can_open. set (s' := roll_day_if_needed now s).
  assert (cfg s' = cfg s) as -> by (subst s'; unfold roll_day_if_needed; by case_match).
  assert (paused_until_unix s' = paused_until_unix s) as ->
    by (subst s'; unfold roll_day_if_needed; by case_match).
  assert (PrimFloat.is_nan (daily_pnl_sol s') = false) as N1'
    by (subst s'; unfold roll_day_if_needed; by case_match).
  clearbody s'.
  destruct (Z.leb_spec (st_max_open_positions (cfg s)) n); [cbn; split; [done | lia]|].
  destruct (Z.leb_spec (st_max_trades_per_day (cfg s)) (daily_trades s')); [cbn; split; [done | lia]|].
  destruct (daily_pnl_sol s' <=? _)%float eqn:E1.
  { cbn. split; [done|]. intros (_ & _ & H1 & _). exfalso. f64_order. }
  destruct (_ <=? daily_pnl_sol s')%float eqn:E2.
  { cbn. split; [done|]. intros (_ & _ & _ & H1 & _). exfalso. f64_order. }
  destruct (Z.ltb_spec now (paused_until_unix s)); cbn; split; try done; [lia|].
  intros _. split_and!; try lia; f64_order.
Qed.

Lemma can_open_allow_iff_witness :
  let s := strategy_new StrategyConfig_default 1700000000 in
  (can_open 2 1700000100 s).1 = Allow.
Proof.
  apply (can_open_allow_iff 2 1700000100 (strategy_new StrategyConfig_default 1700000000));
    [reflexivity | reflexivity | reflexivity |].
  vm_compute. repeat split; discriminate.
Defined.

(** ** The windows as functions of the trade history *)

(** the last [n] elements *)
Definition lastn {A} (n : nat) (l : list A) : list A := drop (length l - n) l.

Lemma trim_lastn w l : trim w l = lastn w l.
Proof.
  unfold lastn. induction l as [|a l IH]; [by destruct w|].
  cbn [trim length]. destruct (Nat.leb_spec (S (length l)) w).
  - by replace (S (length l) - w)%nat with 0%nat by lia.
  - rewrite IH. by replace (S (length l) - w)%nat with (S (length l - w)) by lia.
Qed.

Lemma lastn_app1 {A} w (l : list A) x : lastn w (lastn w l ++ [x]) = lastn w (l ++ [x]).
Proof.
  unfold lastn. rewrite !length_app, length_drop. cbn [length].
  destruct (Nat.le_gt_cases (length l) w).
  - replace (length l - w)%nat with 0%nat by lia. rewrite drop_0. f_equal. lia.
  - destruct w as [|w].
    + rewrite !drop_ge; [done | rewrite length_app; cbn; lia |
        rewrite length_app, length_drop; cbn; lia].
    + rewrite !drop_app_le by (rewrite ?length_drop; lia). rewrite drop_drop. do 2 f_equal. lia.
Qed.

(** losses since the last win *)
Definition streak (wins : list bool) : Z :=
  List.fold_left (fun n w => if (w : bool) then 0 else u32 (n + 1)) wins 0.

Inductive StrategyEvent :=
  | EvCanOpen (n : Z)
  | EvOpened
  | EvClosed (pnl_sol : f64).

Definition strategy_step (s : StrategyController) (ev : Z * StrategyEvent) : StrategyController :=
  match ev with
  | (now, EvCanOpen n) => (can_open n now s).2
  | (now, EvOpened) => note_position_opened now s
  | (now, EvClosed pnl) => note_position_closed pnl now s
  end.

Definition outcomes (evs : list (Z * StrategyEvent)) : list bool :=
  omap (fun ev => match ev.2 with EvClosed pnl => Some (0 <? pnl)%float | _ => None end) evs.

Lemma roll_same now s :
  cfg (roll_day_if_needed now s) = cfg s /\
  recent_outcomes (roll_day_if_needed now s) = recent_outcomes s /\
  loss_streak (roll_day_if_needed now s) = loss_streak s /\
  paused_until_unix (roll_day_if_needed now s) = paused_until_unix s.
Proof. unfold roll_day_if_needed. by case_match. Qed.

Lemma can_open_same n now s :
  cfg (can_open n now s).2 = cfg s /\
  recent_outcomes (can_open n now s).2 = recent_outcomes s /\
  loss_streak (can_open n now s).2 = loss_streak s /\
  paused_until_unix (can_open n now s).2 = paused_until_unix s.
Proof. unfold can_open. repeat case_match; cbn; apply roll_same. Qed.

Lemma note_streak_fields win now s :
  cfg (note_streak win now s) = cfg s /\
  recent_outcomes (note_streak win now s) = recent_outcomes s /\
  loss_streak (note_streak win now s) = (if win then 0 else u32 (loss_streak s + 1)).
Proof. unfold note_streak. by repeat case_match. Qed.

Lemma note_regime_fields win now s :
  cfg (note_regime win now s) = cfg s /\
  recent_outcomes (note_regime win now s)
    = lastn (Z.to_nat (st_market_regime_window (cfg s))) (recent_outcomes s ++ [win]) /\
  loss_streak (note_regime win now s) = loss_streak s.
Proof. unfold note_regime. rewrite trim_lastn. by repeat case_match. Qed.

Lemma note_closed_fields pnl now s :
  let win := (0 <? pnl)%float in
  let s' := note_position_closed pnl now s in
  cfg s' = cfg s /\
  recent_outcomes s'
    = lastn (Z.to_nat (st_market_regime_window (cfg s))) (recent_outcomes s ++ [win]) /\
  loss_streak s' = (if win then 0 else u32 (loss_streak s + 1)).
Proof.
  cbn zeta. unfold note_position_closed.
  destruct (roll_same now s) as (R1 & R2 & R3 & _).
  set (s1 := roll_day_if_needed now s <| daily_pnl_sol := _ |>).
  destruct (note_streak_fields (0 <? pnl)%float now s1) as (A1 & A2 & A3).
  destruct (note_regime_fields (0 <? pnl)%float now (note_streak (0 <? pnl)%float now s1))
    as (B1 & B2 & B3).
  rewrite B1, B2, B3, A1, A2, A3. subst s1; cbn. by rewrite R1, R2, R3.
Qed.

(** The controller's windows are functions of the closed trades alone:
    after any run of events, [recent_outcomes] is the list of the last
    [market_regime_window] outcomes and [loss_streak] the number of losses
    since the last win (modulo the width of the counter). *)
Theorem strategy_windows c now0 evs :
  let s := List.fold_left strategy_step evs (strategy_new c now0) in
  recent_outcomes s = lastn (Z.to_nat (st_market_regime_window c)) (outcomes evs) /\
  loss_streak s = streak (outcomes evs) /\
  cfg s = c.
Proof.
  cbn zeta. induction evs as [|[now e] evs IH] using rev_ind; [done|].
  rewrite List.fold_left_app. cbn [List.fold_left].
  set (s := List.fold_left strategy_step evs (strategy_new c now0)) in *.
  destruct IH as (I1 & I2 & I3). unfold outcomes, streak in *. rewrite omap_app.
  destruct e as [n| |pnl]; cbn [strategy_step omap list_omap snd].
  - destruct (can_open_same n now s) as (H1 & H2 & H3 & _).
    rewrite app_nil_r, H1, H2, H3. done.
  - destruct (roll_same now s) as (H1 & H2 & H3 & _). unfold note_position_opened. cbn.
    rewrite app_nil_r, H1, H2, H3. done.
  - destruct (note_closed_fields pnl now s) as (H1 & H2 & H3).
    rewrite H1, H2, H3, I1, I2, I3, List.fold_left_app. cbn.
    split; [apply lastn_app1 | done].
Qed.

Lemma note_regime_paused win now s : paused_until_unix s <= paused_until_unix (note_regime win now s).
Proof.
  unfold note_regime. repeat case_match; cbn in *; lia.
Qed.

Lemma note_streak_paused win now s :
  paused_until_unix s <= u64 (now + st_loss_streak_pause_secs (cfg s)) ->
  paused_until_unix s <= paused_until_unix (note_streak win now s).
Proof. intros H. unfold note_streak. repeat case_match; cbn in *; lia. Qed.

Lemma note_paused_bound pnl now s :
  in_u 64 (now + st_loss_streak_pause_secs (cfg s)) ->
  st_market_regime_pause_secs (cfg s) <= st_loss_streak_pause_secs (cfg s) ->
  0 <= now + st_market_regime_pause_secs (cfg s) ->
  paused_until_unix s <= now + st_loss_streak_pause_secs (cfg s) ->
  paused_until_unix (note_position_closed pnl now s) <= now + st_loss_streak_pause_secs (cfg s).
Proof.
  intros W L P H. unfold note_position_closed.
  destruct (roll_same now s) as (R1 & R2 & R3 & R4).
  set (s1 := roll_day_if_needed now s <| daily_pnl_sol := _ |>).
  assert (cfg s1 = cfg s) as C1 by (subst s1; cbn; done).
  assert (paused_until_unix s1 = paused_until_unix s) as P1 by (subst s1; cbn; done).
  clearbody s1. set (win := (0 <? pnl)%float).
  assert (paused_until_unix (note_streak win now s1) <= now + st_loss_streak_pause_secs (cfg s)) as H2.
  { unfold note_streak. repeat case_match; cbn; rewrite ?C1, ?P1; try lia.
    rewrite wrap_u_small by done. lia. }
  destruct (note_streak_fields win now s1) as (A1 & _ & _).
  rewrite C1 in A1. revert H2 A1. generalize (note_streak win now s1). intros s2 H2 A1.
  unfold note_regime. repeat case_match; cbn; try lia.
  rewrite A1, wrap_u_small; unfold in_u in *; lia.
Qed.

(** times do not go back, and the pauses do not overflow *)
Fixpoint clock_ok (c : StrategyConfig) (t : Z) (evs : list (Z * StrategyEvent)) : Prop :=
  match evs with
  | [] => True
  | (now, _) :: evs' =>
      t <= now /\ 0 <= now + st_market_regime_pause_secs c /\
      in_u 64 (now + st_loss_streak_pause_secs c) /\ clock_ok c now evs'
  end.

Lemma paused_step c t s now e :
  cfg s = c -> st_market_regime_pause_secs c <= st_loss_streak_pause_secs c ->
  t <= now -> 0 <= now + st_market_regime_pause_secs c ->
  in_u 64 (now + st_loss_streak_pause_secs c) ->
  paused_until_unix s <= t + st_loss_streak_pause_secs c ->
  let s' := strategy_step s (now, e) in
  cfg s' = c /\ paused_until_unix s <= paused_until_unix s' /\
  paused_until_unix s' <= now + st_loss_streak_pause_secs c.
Proof.
  intros C L T P W B. destruct e as [n| |pnl]; cbn [strategy_step].
  - destruct (can_open_same n now s) as (H1 & _ & _ & H4). rewrite H1, H4. split_and!; [done|lia..].
  - unfold note_position_opened. destruct (roll_same now s) as (H1 & _ & _ & H4). cbn.
    rewrite H1, H4. split_and!; [done|lia..].
  - destruct (note_closed_fields pnl now s) as (H1 & _ & _). rewrite H1. subst c.
    split_and!; [done| |apply note_paused_bound; try done; lia].
    unfold note_position_closed. etrans; [|apply note_regime_paused].
    destruct (roll_same now s) as (R1 & _ & _ & R4).
    set (s1 := roll_day_if_needed now s <| daily_pnl_sol := _ |>).
    assert (paused_until_unix s1 = paused_until_unix s) as P1 by (subst s1; cbn; done).
    rewrite <- P1. apply note_streak_paused. rewrite P1. subst s1; cbn.
    rewrite R1, wrap_u_small by done. lia.
Qed.

(** When the regime pause is no longer than the loss-streak pause, a pause
    once granted is never shortened: along any run of events with a
    non-decreasing clock [paused_until_unix] never decreases. *)
Theorem pause_never_shortened c now0 evs1 evs2 :
  st_market_regime_pause_secs c <= st_loss_streak_pause_secs c ->
  0 <= now0 -> 0 <= st_loss_streak_pause_secs c ->
  clock_ok c now0 (evs1 ++ evs2) ->
  let s1 := List.fold_left strategy_step evs1 (strategy_new c now0) in
  paused_until_unix s1 <= paused_until_unix (List.fold_left strategy_step evs2 s1).
Proof.
  intros L N0 N1 K. cbn zeta.
  assert (forall evs t s, cfg s = c -> paused_until_unix s <= t + st_loss_streak_pause_secs c ->
    clock_ok c t (evs ++ evs2) ->
    let s' := List.fold_left strategy_step evs s in
    exists t', cfg s' = c /\ paused_until_unix s' <= t' + st_loss_streak_pause_secs c /\
               clock_ok c t' evs2) as Run.
  { induction evs as [|[now e] evs IH]; intros t s C B H; [by exists t|].
    destruct H as (H1 & H2 & H3 & H4). cbn.
    destruct (paused_step c t s now e C L H1 H2 H3 B) as (C' & _ & B'). by apply (IH now). }
  destruct (Run evs1 now0 (strategy_new c now0)) as (t & C & B & K2); [done | cbn; lia | done |].
  clear Run K. revert C B K2.
  generalize (fold_left strategy_step evs1 (strategy_new c now0)) as s. intros s.
  revert t s. induction evs2 as [|[now e] evs IH]; intros t s C B K; cbn; [lia|].
  destruct K as (H1 & H2 & H3 & H4).
  destruct (paused_step c t s now e C L H1 H2 H3 B) as (C' & M & B').
  etrans; [apply M|]. by eapply IH.
Qed.

Definition losing_day : list (Z * StrategyEvent) :=
  (fun t => (1700000000 + t, EvClosed (-0.05)%float)) <$> [10; 20; 30; 40; 50; 60; 70; 80; 90; 100].

Lemma pause_never_shortened_witness :
  let s1 := List.fold_left strategy_step losing_day (strategy_new StrategyConfig_default 1700000000) in
  paused_until_unix s1 = 1700001900 /\
  paused_until_unix s1
    <= paused_until_unix (List.fold_left strategy_step [(1700000200, EvClosed 1%float)] s1).
Proof.
  split; [vm_compute; reflexivity|].
  apply (pause_never_shortened StrategyConfig_default 1700000000 losing_day
           [(1700000200, EvClosed 1%float)]); [vm_compute; discriminate.. |].
  vm_compute. repeat split; discriminate.
Defined.

(** With a longer regime pause, the assignment of the loss-streak pause does
    shorten a regime pause that is still running. *)
Definition long_regime : StrategyConfig :=
  StrategyConfig_default <| st_market_regime_pause_secs := 7200 |>.

Definition closings (t : Z) (pnls : list f64) : list (Z * StrategyEvent) :=
  imap (fun i pnl => (t + Z.of_nat i, EvClosed pnl)) pnls.

Example loss_streak_shortens_regime_pause :
  let loss := (-0.05)%float in
  let s1 := List.fold_left strategy_step
    (closings 1700000000 ([1%float; 1%float] ++ replicate 8 loss)) (strategy_new long_regime 1700000000) in
  let s2 := List.fold_left strategy_step
    (closings 1700000100 ([1%float; 1%float; 1%float] ++ replicate 5 loss)) s1 in
  paused_until_unix s1 = 1700007209 /\ paused_until_unix s2 = 1700001907.
Proof. split; reflexivity. Qed.
