(* ===== verification/Features.v ===== *)
(** Token features, [src/src/scoring/features.rs] and [anti_bundle.rs].

    What is known of a token at scoring time, the early tape and its derived
    metrics, the continuation validation layer and the entry gates.  The swarm
    replies and the polled buckets are arguments of the functions that request
    them; [f64::tanh] is an argument too. *)
From S2P Require Import Prelude Amounts Pump Swarm Config Registry.

(* persistence/creators.rs 7-16: CreatorStatistics *)
Record CreatorStatistics := mkCreatorStatistics {
  cs_median_market_cap : Currency;
  cs_trader_pnl_average : f64;
  cs_total_holders_average : Z;
  cs_average_volume : f64;
  cs_median_total_trades : Z;
  cs_average_unique_buy_to_sell_ratio : f64;
  cs_average_buy_trader_size : Currency;
  cs_total_coins : Z
}.
#[export] Instance CreatorStatistics_settable : Settable CreatorStatistics := fun r =>
  mkCreatorStatistics (cs_median_market_cap r) (cs_trader_pnl_average r)
    (cs_total_holders_average r) (cs_average_volume r) (cs_median_total_trades r)
    (cs_average_unique_buy_to_sell_ratio r) (cs_average_buy_trader_size r) (cs_total_coins r).

(** ** Buy-size clusters *)

(* scoring/anti_bundle.rs 10-15: BundleStats *)
Record BundleStats := mkBundleStats {
  bs_similar_size_ratio : f64;
  bs_identical_size_ratio : f64;
  bs_median_size_sol : f64;
  bs_max_size_sol : f64
}.
#[export] Instance BundleStats_settable : Settable BundleStats := fun r =>
  mkBundleStats (bs_similar_size_ratio r) (bs_identical_size_ratio r) (bs_median_size_sol r)
    (bs_max_size_sol r).

(* scoring/anti_bundle.rs 18-25: BundleStats::empty *)
Definition BundleStats_empty : BundleStats := mkBundleStats 0%float 0%float 0%float 0%float.

(** the buckets of equal sizes, in milli-SOL *)
Definition size_buckets (sizes : list f64) : gmap Z nat :=
  List.fold_left (fun m s =>
    let key := f64_as_i64 (f64_round (s * 1000)%float) in
    <[key := S (default 0%nat (m !! key))]> m) sizes ∅.

(* scoring/anti_bundle.rs 28-67: compute_bundle_stats *)
Definition compute_bundle_stats (buy_sizes_sol : list f64) (similar_tolerance : f64)
    : BundleStats :=
  let sizes := List.filter (fun s => (0 <? s)%float) buy_sizes_sol in
  if (length sizes <? 3)%nat then BundleStats_empty else
  let sizes := f64_sort sizes in
  let median := nth (length sizes / 2)%nat sizes 0%float in
  let max := List.last sizes 0%float in
  let similar_count :=
    if (0 <? median)%float then
      let lo := (median * (1 - similar_tolerance))%float in
      let hi := (median * (1 + similar_tolerance))%float in
      length (List.filter (fun s => ((s >=? lo) && (s <=? hi))%float) sizes)
    else 0%nat in
  let identical_count := list_max (map_to_list (size_buckets sizes)).*2 in
  let total := f64_of_Z (Z.of_nat (length sizes)) in
  {| bs_similar_size_ratio := (f64_of_Z (Z.of_nat similar_count) / total)%float;
     bs_identical_size_ratio := (f64_of_Z (Z.of_nat identical_count) / total)%float;
     bs_median_size_sol := median;
     bs_max_size_sol := max |}.

(** ** Feature vector and tape *)

(* scoring/features.rs 25-28: EarlyBuyersSnapshot *)
Record EarlyBuyersSnapshot := mkEarlyBuyersSnapshot {
  eb_regulars : list Address;
  eb_snipers : list Address
}.
#[export] Instance EarlyBuyersSnapshot_settable : Settable EarlyBuyersSnapshot := fun r =>
  mkEarlyBuyersSnapshot (eb_regulars r) (eb_snipers r).

(* scoring/features.rs 40-100: TokenFeatures *)
Record TokenFeatures := mkTokenFeatures {
  tf_mint : Address;
  tf_dev : Address;
  tf_dev_has_history : bool;
  tf_dev_total_coins : Z;
  tf_dev_pnl_avg : f64;
  tf_dev_holders_avg : Z;
  tf_dev_volume_avg : f64;
  tf_dev_trades_avg : Z;
  tf_dev_buy_to_sell_ratio : f64;
  tf_dev_category : DevCategory;
  tf_dev_rank_score : f64;
  tf_dev_rank_record : DevRecord;
  tf_is_spam_dev : bool;
  tf_current_mcap_sol : f64;
  tf_initial_mcap_sol : f64;
  tf_peak_mcap_sol : f64;
  tf_buyers : EarlyBuyersSnapshot;
  tf_regular_buyer_count : Z;
  tf_sniper_count : Z;
  tf_buy_volume_sol : f64;
  tf_still_long_count : Z;
  tf_already_sold_count : Z;
  tf_buy_to_sell_ratio : f64;
  tf_bundle : BundleStats;
  tf_smart_wallet_count : Z;
  tf_buyer_velocity_new_per_slice : list Z;
  tf_buyer_velocity_persistence : f64;
  tf_sell_pressure_score : f64;
  tf_absorb_quality_score : f64;
  tf_sell_events_window : Z;
  tf_sell_volume_window_sol : f64;
  tf_repeat_dump_slices : Z;
  tf_smart_wallet_early_exits : Z
}.
#[export] Instance TokenFeatures_settable : Settable TokenFeatures := fun r =>
  mkTokenFeatures (tf_mint r) (tf_dev r) (tf_dev_has_history r) (tf_dev_total_coins r)
    (tf_dev_pnl_avg r) (tf_dev_holders_avg r) (tf_dev_volume_avg r) (tf_dev_trades_avg r)
    (tf_dev_buy_to_sell_ratio r) (tf_dev_category r) (tf_dev_rank_score r) (tf_dev_rank_record
    r) (tf_is_spam_dev r) (tf_current_mcap_sol r) (tf_initial_mcap_sol r) (tf_peak_mcap_sol r)
    (tf_buyers r) (tf_regular_buyer_count r) (tf_sniper_count r) (tf_buy_volume_sol r)
    (tf_still_long_count r) (tf_already_sold_count r) (tf_buy_to_sell_ratio r) (tf_bundle r)
    (tf_smart_wallet_count r) (tf_buyer_velocity_new_per_slice r) (tf_buyer_velocity_persistence
    r) (tf_sell_pressure_score r) (tf_absorb_quality_score r) (tf_sell_events_window r)
    (tf_sell_volume_window_sol r) (tf_repeat_dump_slices r) (tf_smart_wallet_early_exits r).

(* scoring/features.rs 110-118: EarlyTapePoint *)
Record EarlyTapePoint := mkEarlyTapePoint {
  tp_buyer_count : Z;
  tp_still_long : Z;
  tp_already_sold : Z;
  tp_buy_volume_sol : f64;
  tp_cum_sell_raw : Z;
  tp_cum_sell_events : Z;
  tp_mcap_sol : f64
}.
#[export] Instance EarlyTapePoint_settable : Settable EarlyTapePoint := fun r =>
  mkEarlyTapePoint (tp_buyer_count r) (tp_still_long r) (tp_already_sold r) (tp_buy_volume_sol
    r) (tp_cum_sell_raw r) (tp_cum_sell_events r) (tp_mcap_sol r).

(* scoring/features.rs 122-131: ScoringTapeDerived *)
Record ScoringTapeDerived := mkScoringTapeDerived {
  td_buyer_velocity_new_per_slice : list Z;
  td_buyer_velocity_persistence : f64;
  td_sell_pressure_score : f64;
  td_absorb_quality_score : f64;
  td_sell_events_window : Z;
  td_sell_volume_window_sol : f64;
  td_repeat_dump_slices : Z;
  td_smart_wallet_early_exits : Z
}.
#[export] Instance ScoringTapeDerived_settable : Settable ScoringTapeDerived := fun r =>
  mkScoringTapeDerived (td_buyer_velocity_new_per_slice r) (td_buyer_velocity_persistence r)
    (td_sell_pressure_score r) (td_absorb_quality_score r) (td_sell_events_window r)
    (td_sell_volume_window_sol r) (td_repeat_dump_slices r) (td_smart_wallet_early_exits r).

(* scoring/features.rs 31-36: EarlyBuyersSnapshot::all *)
Definition eb_all (s : EarlyBuyersSnapshot) : list Address := eb_regulars s ++ eb_snipers s.

(* scoring/features.rs 103-105: TokenFeatures::buyer_count *)
Definition buyer_count (f : TokenFeatures) : Z := u64 (tf_regular_buyer_count f + tf_sniper_count f).

(** items of a score, in the order they were added *)
Abbreviation Items := (list (string * Z)).

(* scoring/score_engine.rs 19-25: Tier *)
Inductive Tier := TierAPlus | TierA | TierB | TierSkip.
#[export] Instance Tier_eq_dec : EqDecision Tier.
Proof. solve_decision. Defined.

(* scoring/features.rs 133-135: lamports_to_sol *)
Definition lamports_to_sol (raw : Z) : f64 := amount_to_float (amount_from_raw_native raw).

(* scoring/features.rs 148-160: snapshot_early_tape *)
Definition tape_scan (p : EarlyTapePoint) (at_ : Address * Trader) : EarlyTapePoint :=
  let trader := at_.2 in
  let spent := amount_to_float (total_spent trader) in
  let p := p <| tp_buy_volume_sol := (tp_buy_volume_sol p + spent)%float |> in
  let p :=
    if 0 <? amount_raw (current_holdings trader)
    then p <| tp_still_long := u64 (tp_still_long p + 1) |>
    else if (0 <? spent)%float then p <| tp_already_sold := u64 (tp_already_sold p + 1) |>
    else p in
  p <| tp_cum_sell_raw := sat_add U64_MAX (tp_cum_sell_raw p) (sell_proceeds_raw trader) |>
    <| tp_cum_sell_events := u64 (tp_cum_sell_events p + sell_event_count trader) |>.

(* scoring/features.rs 138-176: snapshot_early_tape *)
Definition snapshot_early_tape (regulars snipers : list (Address * Trader))
    (pool : PumpPool Bonding) : outcome EarlyTapePoint :=
  let zero := mkEarlyTapePoint 0 0 0 0%float 0 0 0%float in
  let p := List.fold_left tape_scan snipers (List.fold_left tape_scan regulars zero) in
  cap ← market_cap pool;
  Ret (p <| tp_buyer_count := Z.of_nat (length regulars) + Z.of_nat (length snipers) |>
         <| tp_mcap_sol := amount_to_float (currency_amount cap) |>).

(* scoring/features.rs 179-185: momentum_peak_pct *)
Definition momentum_peak_pct (initial_mcap_sol peak_mcap_sol : f64) : f64 :=
  if (0 <? initial_mcap_sol)%float
  then ((peak_mcap_sol / initial_mcap_sol - 1) * 100)%float else 0%float.

(* scoring/features.rs 188-197: EarlyTapeObserveResult *)
Record EarlyTapeObserveResult := mkObserve {
  ob_points : list EarlyTapePoint;
  ob_initial_mcap_sol : f64;
  ob_peak_mcap_sol : f64;
  ob_current_mcap_sol : f64;
  ob_exited_early : bool;
  ob_last_bucket : option TokenBucket
}.
#[export] Instance Observe_settable : Settable EarlyTapeObserveResult := fun r =>
  mkObserve (ob_points r) (ob_initial_mcap_sol r) (ob_peak_mcap_sol r) (ob_current_mcap_sol r)
    (ob_exited_early r) (ob_last_bucket r).

(* scoring/features.rs 215-234: finalize_tape_observe *)
Definition finalize_tape_observe (points : list EarlyTapePoint) (exited_early : bool)
    (last_bucket : option TokenBucket) : EarlyTapeObserveResult :=
  let initial := default 0%float (tp_mcap_sol <$> list.head points) in
  let peak := List.fold_left f64_max (tp_mcap_sol <$> points) initial in
  let current := default peak (tp_mcap_sol <$> list.last points) in
  mkObserve points initial peak current exited_early last_bucket.

(* scoring/features.rs 236-238: tape_hit_momentum_low *)
Definition tape_hit_momentum_low (initial peak low_pct : f64) : bool :=
  ((0 <? initial) && (momentum_peak_pct initial peak >=? low_pct))%float.

(** Polls of the launchpad during the window: the bucket and its tape point,
    or nothing when the launchpad does not answer. *)
Abbreviation Poll := (option (TokenBucket * EarlyTapePoint)).

(** the sampling loop: the points so far, first and highest mcap, last bucket;
    [Some] result on an early exit *)
Record ObserveState := mkObserveState {
  os_out : list EarlyTapePoint; os_initial : f64; os_peak : f64; os_last : option TokenBucket }.

(* scoring/features.rs 270-292: observe_early_tape_points_live *)
Fixpoint observe_loop (early : option f64) (polls : list Poll) (s : ObserveState)
    : ObserveState * bool :=
  match polls with
  | [] => (s, false)
  | None :: polls' => observe_loop early polls' s
  | Some (bucket, point) :: polls' =>
      let '(initial, peak) :=
        match os_out s with
        | [] => (tp_mcap_sol point, tp_mcap_sol point)
        | _ => (os_initial s, f64_max (os_peak s) (tp_mcap_sol point))
        end in
      let s := mkObserveState (os_out s ++ [point]) initial peak (Some bucket) in
      match early with
      | Some low =>
          if tape_hit_momentum_low initial peak low then (s, true)
          else observe_loop early polls' s
      | None => observe_loop early polls' s
      end
  end.

(** [*last = point] *)
Definition set_last (points : list EarlyTapePoint) (p : EarlyTapePoint) : list EarlyTapePoint :=
  match points with [] => [] | _ => removelast points ++ [p] end.

(** [polls] are the samples of the loop in order, [final] the refresh at the
    end of the window *)
(* scoring/features.rs 245-316: observe_early_tape_points_live *)
Definition observe_early_tape_points_live (window_ms slices : Z)
    (early_exit_momentum_low_pct : option f64) (polls : nat -> Poll) (final : Poll)
    : EarlyTapeObserveResult :=
  let s := Z.max slices 1 in
  let window_ms := Z.max window_ms 1 in
  if s <=? 1 then
    match final with
    | Some (bucket, point) => finalize_tape_observe [point] false (Some bucket)
    | None => finalize_tape_observe [] false None
    end
  else
    let slice_ms := Z.max (window_ms / s) 1 in
    let '(st, hit) := observe_loop early_exit_momentum_low_pct (polls <$> seq 0 (Z.to_nat s))
                        (mkObserveState [] 0%float 0%float None) in
    if hit then finalize_tape_observe (os_out st) true (os_last st) else
    let used := sat_mul U64_MAX slice_ms (sat_sub s 1) in
    let '(out, last_bucket, only) :=
      if used <? window_ms then
        match final with
        | Some (bucket, point) =>
            match os_out st with
            | [] => ([point], Some bucket, true)
            | _ => (set_last (os_out st) point, Some bucket, false)
            end
        | None => (os_out st, os_last st, false)
        end
      else (os_out st, os_last st, false) in
    let result := finalize_tape_observe out false last_bucket in
    if only then result else
    match early_exit_momentum_low_pct with
    | Some low =>
        if tape_hit_momentum_low (ob_initial_mcap_sol result) (ob_peak_mcap_sol result) low
        then result <| ob_exited_early := true |> else result
    | None => result
    end.

(** the same on one bucket, which nothing calls: [snaps] are the samples in
    order, [final] the refresh at the end of the window *)
(* scoring/features.rs 680-709: observe_early_tape_points *)
Definition observe_early_tape_points (window_ms slices : Z) (snaps : nat -> EarlyTapePoint)
    (final : EarlyTapePoint) : list EarlyTapePoint :=
  let s := Z.max slices 1 in
  let window_ms := Z.max window_ms 1 in
  if s <=? 1 then [final]
  else
    let slice_ms := Z.max (window_ms / s) 1 in
    let out := snaps <$> seq 0 (Z.to_nat s) in
    let used := sat_mul U64_MAX slice_ms (sat_sub s 1) in
    if used <? window_ms then set_last out final else out.

(** ** Continuation validation *)

(** adjacent pairs, [windows(2)] *)
Definition windows2 {A} (l : list A) : list (A * A) := zip l (tail l).

Definition count_upticks (confirm : list EarlyTapePoint) : Z :=
  List.fold_left (fun n w => if (tp_mcap_sol w.1 <? tp_mcap_sol w.2)%float then u32 (n + 1) else n)
    (windows2 confirm) 0.

(* scoring/features.rs 638-653: continuation_strength *)
Definition continuation_strength (confirm : list EarlyTapePoint) (baseline_buyer_count : Z) : Z * Z :=
  if (length confirm <? 2)%nat then (0, 0)
  else (count_upticks confirm,
        default 0 ((fun p => sat_sub (tp_buyer_count p) baseline_buyer_count) <$> list.last confirm)).

(* scoring/features.rs 324-408: evaluate_continuation *)
Definition evaluate_continuation (cfg : ContinuationConfig) (baseline_b2s : f64)
    (baseline_buyer_count : Z) (confirm : list EarlyTapePoint) (window_ms : Z) (is_a_plus : bool)
    : result unit string :=
  match confirm, list.last confirm with
  | first :: _ :: _, Some last =>
      let mcap_net_nonneg := (tp_mcap_sol last >=? tp_mcap_sol first)%float in
      let mcap_rising := (tp_mcap_sol last >? tp_mcap_sol first)%float in
      let upticks := count_upticks confirm in
      if (upticks <? ct_min_upticks cfg) && negb mcap_net_nonneg then Err "cont_no_uptick" else
      let new_buyers := sat_sub (tp_buyer_count last) baseline_buyer_count in
      if new_buyers <? ct_min_new_unique_buyers cfg then Err "cont_no_new_buyers" else
      let secs := (f64_of_Z (Z.max window_ms 1) / 1000)%float in
      let buys_per_sec := (f64_of_Z new_buyers / secs)%float in
      if ((0 <? ct_min_buys_per_sec cfg) && (buys_per_sec <? ct_min_buys_per_sec cfg))%float
      then Err "cont_low_buys_per_sec" else
      let buy_delta := f64_max (tp_buy_volume_sol last - tp_buy_volume_sol first)%float 0%float in
      let sell_delta_sol := lamports_to_sol (sat_sub (tp_cum_sell_raw last) (tp_cum_sell_raw first)) in
      if ((0 <? buy_delta) && (sell_delta_sol / buy_delta >? ct_max_sell_absorption_ratio cfg))%float
      then Err "cont_sell_absorption" else
      let confirm_b2s :=
        if (0 <? sell_delta_sol)%float then (buy_delta / sell_delta_sol)%float
        else if (0 <? buy_delta)%float then baseline_b2s else 0%float in
      if ((0 <? baseline_b2s) && (confirm_b2s <? baseline_b2s * ct_max_b2s_drop_ratio cfg))%float
         && negb (is_a_plus && mcap_rising)
      then Err "cont_b2s_worsening"
      else Ok tt
  | _, _ => Err "cont_no_data"
  end.

(* scoring/features.rs 411-425: aplus_peak_no_smart_guard *)
Definition aplus_peak_no_smart_guard (cfg : ContinuationAplusPeakGuardConfig) (is_a_plus : bool)
    (smart_count : Z) (current_mcap peak_mcap : f64) : bool :=
  if negb (apg_enabled cfg) || negb is_a_plus || (0 <? smart_count) then false
  else if ((peak_mcap <? apg_min_mcap_sol cfg) || (current_mcap <? apg_min_mcap_sol cfg))%float
  then false
  else ((0 <? peak_mcap) && (current_mcap >=? peak_mcap * apg_near_peak_ratio cfg))%float.

(* scoring/features.rs 428-442: aplus_peak_recheck_mcap_acceptable *)
Definition aplus_peak_recheck_mcap_acceptable (cfg : ContinuationAplusPeakGuardConfig)
    (score_peak_mcap score_current_mcap recheck_mcap : f64) : bool :=
  if negb (apg_enabled cfg) || (recheck_mcap <=? 0)%float then (0 <? recheck_mcap)%float
  else
    let anchor := f64_max score_peak_mcap score_current_mcap in
    if (anchor <=? 0)%float then true
    else (recheck_mcap >=? anchor * apg_recheck_min_vs_peak_ratio cfg)%float.

(* scoring/features.rs 445-460: continuation_confirm_strong *)
Definition continuation_confirm_strong (cfg : ContinuationAplusPeakGuardConfig)
    (confirm : list EarlyTapePoint) (baseline_buyer_count : Z) : bool :=
  match confirm, list.last confirm with
  | first :: _ :: _, Some last =>
      if (tp_mcap_sol last <? tp_mcap_sol first)%float then false
      else
        let '(upticks, new_buyers) := continuation_strength confirm baseline_buyer_count in
        (apg_strong_upticks cfg <=? upticks) && (apg_strong_new_buyers cfg <=? new_buyers)
  | _, _ => false
  end.

(* scoring/features.rs 462-464: score_items_has *)
Definition score_items_has (name : string) (items : Items) : bool :=
  existsb (fun i => bool_decide (i.1 = name)) items.

(* scoring/features.rs 467-485: weak_a_profile_match *)
Definition weak_a_profile_match (cfg : WeakATierGateConfig) (tier : Tier) (score : Z)
    (smart_wallet_count : Z) (dev_category : DevCategory) (items : Items) : bool :=
  if negb (wa_enabled cfg) || bool_decide (tier <> TierA) then false
  else if (wa_max_score cfg <? score) || (wa_max_smart_wallets cfg <? smart_wallet_count) then false
  else
    (wa_block_dev_neutral cfg
       && match dev_category with CatNeutral | CatStale => true | _ => false end)
    || (wa_block_dev_history_weak cfg && score_items_has "dev_history_weak" items).

(* scoring/features.rs 488-488: TIER_A_MIN_VELOCITY_PCT *)
Definition TIER_A_MIN_VELOCITY_PCT : f64 := 3%float.

(* scoring/features.rs 491-497: tier_a_low_velocity_skip_reason *)
Definition tier_a_low_velocity_skip_reason (tier : Tier) (velocity_pct : f64) : option string :=
  if bool_decide (tier = TierA) && (velocity_pct <? TIER_A_MIN_VELOCITY_PCT)%float
  then Some "low_velocity_a_setup" else None.

(* scoring/features.rs 500-516: aplus_rug_gate_skip_reason *)
Definition aplus_rug_gate_skip_reason (tier : Tier) (smart_wallet_count : Z)
    (buy_to_sell_ratio : f64) : option string :=
  if bool_decide (tier <> TierAPlus) then None
  else if smart_wallet_count <? 1 then Some "aplus_no_smart_required"
  else if (smart_wallet_count =? 0) && (10 <? buy_to_sell_ratio)%float
  then Some "aplus_no_smart_fake_b2s" else None.

(* scoring/features.rs 519-542: weak_a_synthetic_pump_skip_reason *)
Definition weak_a_synthetic_pump_skip_reason (cfg : WeakASyntheticPumpConfig) (tier : Tier)
    (smart_wallet_count : Z) (f : TokenFeatures) (items : Items) : option string :=
  if negb (sp_enabled cfg) || bool_decide (tier <> TierA) then None
  else if negb (smart_wallet_count =? 0) then None
  else if negb (score_items_has "dev_history_weak" items) then None
  else if (tf_buy_to_sell_ratio f <=? sp_buy_to_sell_ratio_gt cfg)%float then None
  else if (tf_sell_volume_window_sol f >=? sp_sell_volume_window_sol_lt cfg)%float then None
  else Some "weak_a_synthetic_pump".

(* scoring/features.rs 545-563: weak_a_hard_skip_reason *)
Definition weak_a_hard_skip_reason (cfg : WeakATierGateConfig) (tier : Tier) (score : Z)
    (smart_wallet_count : Z) (f : TokenFeatures) (items : Items) : option string :=
  if negb (weak_a_profile_match cfg tier score smart_wallet_count (tf_dev_category f) items)
  then None
  else if wa_block_repeat_dump_slices_ge cfg <=? tf_repeat_dump_slices f
  then Some "weak_a_dump_in_tape"
  else if (tf_buy_volume_sol f <? wa_min_buy_volume_sol cfg)%float then Some "weak_a_low_volume"
  else None.

(* scoring/features.rs 566-581: continuation_second_look_eligible *)
Definition continuation_second_look_eligible (cfg : ContinuationSecondLookConfig)
    (is_a_plus : bool) (score : Z) (first_fail_reason : string) : bool :=
  if negb (sl_enabled cfg) || negb (is_a_plus || (sl_min_score cfg <=? score)) then false
  else if decide (first_fail_reason = "cont_b2s_worsening") then true
  else if decide (first_fail_reason = "cont_sell_absorption") then true
  else if decide (first_fail_reason = "cont_no_uptick") then is_a_plus
  else false.

(* scoring/features.rs 584-605: continuation_second_look_eligible_for_buy *)
Definition continuation_second_look_eligible_for_buy (sl_cfg : ContinuationSecondLookConfig)
    (weak_cfg : WeakATierGateConfig) (tier : Tier) (is_a_plus : bool) (score : Z)
    (smart_wallet_count : Z) (f : TokenFeatures) (items : Items) (first_fail_reason : string) : bool :=
  if continuation_second_look_eligible sl_cfg is_a_plus score first_fail_reason then true
  else if negb (sl_enabled sl_cfg) || negb (wa_enabled weak_cfg) || bool_decide (tier <> TierA)
  then false
  else if negb (weak_a_profile_match weak_cfg tier score smart_wallet_count (tf_dev_category f) items)
  then false
  else score <=? wa_continuation_second_look_max_score weak_cfg.

(* scoring/features.rs 609-633: evaluate_continuation_second_look *)
Definition evaluate_continuation_second_look (ref_mcap_sol : f64) (baseline_buyer_count : Z)
    (recheck : list EarlyTapePoint) : result unit string :=
  match recheck, list.last recheck with
  | first :: _ :: _, Some last =>
      let '(upticks, new_buyers) := continuation_strength recheck baseline_buyer_count in
      let mcap_below_ref := (tp_mcap_sol last <? ref_mcap_sol)%float in
      let mcap_falling_in_window := (tp_mcap_sol last <? tp_mcap_sol first)%float in
      if mcap_below_ref && mcap_falling_in_window && (upticks =? 0) && (new_buyers =? 0)
      then Err "cont_second_look_mcap_fall"
      else if (tp_mcap_sol last >? ref_mcap_sol)%float || (1 <=? upticks) || (1 <=? new_buyers)
      then Ok tt
      else Err "cont_second_look_no_recovery"
  | _, _ => Err "cont_second_look_no_data"
  end.

(* scoring/features.rs 660-678: parabolic_peak_suspect *)
Definition parabolic_peak_suspect (cfg : AntiParabolicConfig) (is_a_plus : bool) (score : Z)
    (smart_count : Z) (current_mcap peak_mcap : f64) : bool :=
  if negb (ap_enabled cfg) then false
  else if is_a_plus || (0 <? smart_count) || (ap_weak_score_max cfg <? score) then false
  else if (peak_mcap <=? 0)%float then false
  else (current_mcap >=? peak_mcap * ap_near_peak_ratio cfg)%float.

(** ** Derived tape metrics *)

(* scoring/features.rs 711-730: buyer_persistence_from_deltas *)
Definition buyer_persistence_from_deltas (d : list Z) : f64 :=
  match d with
  | [] => 0.5%float
  | [x] => if 0 <? x then 0.62%float else 0.42%float
  | _ =>
      let strict_inc := forallb (fun w => w.1 <? w.2) (windows2 d) in
      let non_dec := forallb (fun w => w.1 <=? u64 (w.2 + 1)) (windows2 d) in
      let strong_dec := forallb (fun w => w.2 <? w.1) (windows2 d) in
      if strict_inc then 1%float
      else if non_dec then 0.72%float
      else if strong_dec then 0.05%float
      else 0.38%float
  end.

Definition ScoringTapeDerived_default : ScoringTapeDerived :=
  mkScoringTapeDerived [] 0%float 0%float 0%float 0 0%float 0 0.

(** SOL sold between two samples *)
Definition slice_sold_sol (w : EarlyTapePoint * EarlyTapePoint) : f64 :=
  lamports_to_sol (sat_sub (tp_cum_sell_raw w.2) (tp_cum_sell_raw w.1)).

(* scoring/features.rs 756-772: ScoringTapeDerived::from_tape_points *)
Definition absorb_raw (points : list EarlyTapePoint) : f64 :=
  let '(acc, wsum) :=
    List.fold_left (fun '(acc, wsum) w =>
      let d_sol := slice_sold_sol w in
      if (d_sol <? 1e-9)%float then (acc, wsum)
      else
        let dm := (tp_mcap_sol w.2 - tp_mcap_sol w.1)%float in
        let ratio := (dm / d_sol)%float in
        let weight := f64_min d_sol 2%float in
        ((acc + ratio * weight)%float, (wsum + weight)%float))
      (windows2 points) (0%float, 0%float) in
  if (0 <? wsum)%float then (acc / wsum)%float else 0%float.

(* scoring/features.rs 775-788: ScoringTapeDerived::from_tape_points *)
Definition count_dump_slices (points : list EarlyTapePoint) : Z :=
  List.fold_left (fun n w =>
    let ds := sat_sub (tp_cum_sell_events w.2) (tp_cum_sell_events w.1) in
    let m_mid := ((tp_mcap_sol w.2 + tp_mcap_sol w.1) * 0.5)%float in
    if (2 <=? ds) && (slice_sold_sol w >? m_mid * 0.008)%float then u32 (n + 1) else n)
    (windows2 points) 0.

Section Tape.
Context (tanh : f64 -> f64).

(* scoring/features.rs 733-800: ScoringTapeDerived::from_tape_points *)
Definition from_tape_points (points : list EarlyTapePoint) (smart_wallet_early_exits : Z)
    : ScoringTapeDerived :=
  match points, list.last points with
  | first :: _, Some last =>
      let new_per_slice :=
        (fun w => sat_sub (tp_buyer_count w.2) (tp_buyer_count w.1)) <$> windows2 points in
      let sell_vol_sol := lamports_to_sol (sat_sub (tp_cum_sell_raw last) (tp_cum_sell_raw first)) in
      let mcap_ref := f64_max (tp_mcap_sol last) 1%float in
      {| td_buyer_velocity_new_per_slice := new_per_slice;
         td_buyer_velocity_persistence := buyer_persistence_from_deltas new_per_slice;
         td_sell_pressure_score :=
           f64_clamp (f64_min (sell_vol_sol / mcap_ref)%float 3%float / 3)%float 0%float 1%float;
         td_absorb_quality_score :=
           f64_clamp ((tanh (absorb_raw points) + 1) * 0.5)%float 0%float 1%float;
         td_sell_events_window := sat_sub (tp_cum_sell_events last) (tp_cum_sell_events first);
         td_sell_volume_window_sol := sell_vol_sol;
         td_repeat_dump_slices := count_dump_slices points;
         td_smart_wallet_early_exits := smart_wallet_early_exits |}
  | _, _ => ScoringTapeDerived_default
  end.
End Tape.

(** the sweep of one trader list: sizes, still long, already sold, volume *)
(* scoring/features.rs 824-841: snapshot_early_buyers *)
Definition early_push (acc : list f64 * Z * Z * f64) (at_ : Address * Trader)
    : list f64 * Z * Z * f64 :=
  let '(sizes, still_long, already_sold, total) := acc in
  let spent := amount_to_float (total_spent at_.2) in
  let total := (total + spent)%float in
  let sizes := if (0 <? spent)%float then sizes ++ [spent] else sizes in
  if 0 <? amount_raw (current_holdings at_.2) then (sizes, u64 (still_long + 1), already_sold, total)
  else if (0 <? spent)%float then (sizes, still_long, u64 (already_sold + 1), total)
  else (sizes, still_long, already_sold, total).

(* scoring/features.rs 805-872: snapshot_early_buyers *)
Definition snapshot_early_buyers (regulars snipers : list (Address * Trader))
    (thresholds : FeatureThresholds)
    : EarlyBuyersSnapshot * list f64 * f64 * Z * Z * BundleStats :=
  let '(sizes, still_long, already_sold, total) :=
    List.fold_left early_push snipers (List.fold_left early_push regulars ([], 0, 0, 0%float)) in
  (mkEarlyBuyersSnapshot regulars.*1 snipers.*1, sizes, total, still_long, already_sold,
   compute_bundle_stats sizes (th_bundle_similar_tolerance thresholds)).

(* scoring/features.rs 877-953: assemble *)
Definition assemble (mint dev : Address) (dev_stats : option CreatorStatistics)
    (dev_category : DevCategory) (dev_rank_record : DevRecord)
    (initial_mcap_sol current_mcap_sol peak_mcap_sol : f64) (buyers : EarlyBuyersSnapshot)
    (regular_buyer_count sniper_count : Z) (buy_volume_sol : f64)
    (still_long_count already_sold_count : Z) (bundle : BundleStats) (smart_wallet_count : Z)
    (tape : ScoringTapeDerived) : TokenFeatures :=
  let buy_to_sell_ratio :=
    if already_sold_count =? 0 then
      if 0 <? still_long_count then f64_of_Z still_long_count else 0%float
    else (f64_of_Z still_long_count / f64_of_Z already_sold_count)%float in
  {| tf_mint := mint;
     tf_dev := dev;
     tf_dev_has_history := bool_decide (is_Some dev_stats);
     tf_dev_total_coins := default 0 (cs_total_coins <$> dev_stats);
     tf_dev_pnl_avg := default 0%float (cs_trader_pnl_average <$> dev_stats);
     tf_dev_holders_avg := default 0 (cs_total_holders_average <$> dev_stats);
     tf_dev_volume_avg := default 0%float (cs_average_volume <$> dev_stats);
     tf_dev_trades_avg := default 0 (cs_median_total_trades <$> dev_stats);
     tf_dev_buy_to_sell_ratio := default 0%float (cs_average_unique_buy_to_sell_ratio <$> dev_stats);
     tf_dev_category := dev_category;
     tf_dev_rank_score := dr_score dev_rank_record;
     tf_dev_rank_record := dev_rank_record;
     tf_is_spam_dev := false;
     tf_current_mcap_sol := current_mcap_sol;
     tf_initial_mcap_sol := initial_mcap_sol;
     tf_peak_mcap_sol := peak_mcap_sol;
     tf_buyers := buyers;
     tf_regular_buyer_count := regular_buyer_count;
     tf_sniper_count := sniper_count;
     tf_buy_volume_sol := buy_volume_sol;
     tf_still_long_count := still_long_count;
     tf_already_sold_count := already_sold_count;
     tf_buy_to_sell_ratio := buy_to_sell_ratio;
     tf_bundle := bundle;
     tf_smart_wallet_count := smart_wallet_count;
     tf_buyer_velocity_new_per_slice := td_buyer_velocity_new_per_slice tape;
     tf_buyer_velocity_persistence := td_buyer_velocity_persistence tape;
     tf_sell_pressure_score := td_sell_pressure_score tape;
     tf_absorb_quality_score := td_absorb_quality_score tape;
     tf_sell_events_window := td_sell_events_window tape;
     tf_sell_volume_window_sol := td_sell_volume_window_sol tape;
     tf_repeat_dump_slices := td_repeat_dump_slices tape;
     tf_smart_wallet_early_exits := td_smart_wallet_early_exits tape |}.

(** ** Tier-B lane and momentum overrides *)

(* scoring/features.rs 956-964: tier_b_dev_eligible *)
Definition tier_b_dev_eligible (f : TokenFeatures) (cfg : TierBGateConfig) : bool :=
  if negb (tb_enabled cfg) || tf_is_spam_dev f then false
  else bool_decide (tf_dev_category f = CatFresh).

(* scoring/features.rs 967-975: tier_b_base_gates_ok *)
Definition tier_b_base_gates_ok (cfg : TierBGateConfig) (f : TokenFeatures) : bool :=
  tb_enabled cfg && (tb_min_smart_wallets cfg <=? tf_smart_wallet_count f)
  && (tb_min_buyers cfg <=? buyer_count f)
  && (tf_buy_volume_sol f >=? tb_min_buy_volume_sol cfg)%float.

(* scoring/features.rs 977-979: has_momentum_good *)
Definition has_momentum_good (items : Items) : bool := score_items_has "momentum_good" items.

(* scoring/features.rs 981-983: has_momentum_overheated *)
Definition has_momentum_overheated (items : Items) : bool :=
  score_items_has "momentum_overheated" items.

(* scoring/features.rs 993-996: fresh_b_velocity_pct *)
Definition fresh_b_velocity_pct (f : TokenFeatures) : f64 :=
  let peak := f64_max (tf_peak_mcap_sol f) (tf_current_mcap_sol f) in
  momentum_peak_pct (tf_initial_mcap_sol f) peak.

(* scoring/features.rs 985-990: tier_b_velocity_ok *)
Definition tier_b_velocity_ok (cfg : TierBGateConfig) (f : TokenFeatures) : bool :=
  (fresh_b_velocity_pct f >=? tb_min_velocity_pct cfg)%float.

(* scoring/features.rs 1015-1024: is_momentum_only_tier_b_fail *)
Definition is_momentum_only_tier_b_fail (cfg : TierBGateConfig) (f : TokenFeatures) (items : Items)
    : bool :=
  tier_b_dev_eligible f cfg && tier_b_base_gates_ok cfg f && tier_b_velocity_ok cfg f
  && negb (has_momentum_good items).

(* scoring/features.rs 999-1012: fresh_b_hot_override_ok *)
Definition fresh_b_hot_override_ok (cfg : TierBGateConfig) (f : TokenFeatures) (items : Items)
    : bool :=
  let ho := tb_hot_fresh_override cfg in
  if negb (hfo_enabled ho) || negb (is_momentum_only_tier_b_fail cfg f items) then false
  else
    let vel := fresh_b_velocity_pct f in
    (hfo_min_buyers ho <=? buyer_count f)
    && (tf_buy_volume_sol f >=? hfo_min_buy_volume_sol ho)%float
    && (vel >=? hfo_min_velocity_pct ho)%float.

(* scoring/features.rs 1027-1029: is_momentum_only_aa_overheated *)
Definition is_momentum_only_aa_overheated (items : Items) : bool :=
  has_momentum_overheated items && negb (has_momentum_good items).

(* scoring/features.rs 1032-1046: aa_momentum_override_for_tier *)
Definition aa_momentum_override_for_tier (cfg : AAMomentumOverrideConfig) (tier : Tier)
    (items : Items) : bool :=
  if negb (aamo_enabled cfg) || negb (is_momentum_only_aa_overheated items) then false
  else match tier with TierA => true | TierAPlus => true | _ => false end.

(* scoring/features.rs 1083-1089: tier_b_entry_ok *)
Definition tier_b_entry_ok (cfg : TierBGateConfig) (f : TokenFeatures) (items : Items) : bool :=
  tier_b_base_gates_ok cfg f && has_momentum_good items && tier_b_velocity_ok cfg f.

(* scoring/features.rs 1050-1058: TierBGatePoll *)
Record TierBGatePoll := mkTierBGatePoll {
  bp_entry_ok : bool; bp_hot_override : bool; bp_momentum_only_fail : bool;
  bp_velocity_pct : f64; bp_buyers : Z; bp_buy_volume_sol : f64; bp_momentum_overheated : bool }.

(* scoring/features.rs 1060-1076: evaluate_tier_b_poll *)
Definition evaluate_tier_b_poll (cfg : TierBGateConfig) (f : TokenFeatures) (items : Items)
    : TierBGatePoll :=
  let entry_ok := tier_b_entry_ok cfg f items in
  let hot_override := negb entry_ok && fresh_b_hot_override_ok cfg f items in
  mkTierBGatePoll entry_ok hot_override (is_momentum_only_tier_b_fail cfg f items)
    (fresh_b_velocity_pct f) (buyer_count f) (tf_buy_volume_sol f) (has_momentum_overheated items).

(* scoring/features.rs 1078-1080: tier_b_poll_passes *)
Definition tier_b_poll_passes (p : TierBGatePoll) : bool := bp_entry_ok p || bp_hot_override p.

(* scoring/features.rs 1092-1119: fresh_b_gate_fail_reason *)
Definition fresh_b_gate_fail_reason (cfg : TierBGateConfig) (f : TokenFeatures) (items : Items)
    : option string :=
  if negb (tb_enabled cfg) then Some "fresh_b_disabled"
  else if negb (tier_b_base_gates_ok cfg f) then
    if tf_smart_wallet_count f <? tb_min_smart_wallets cfg then Some "fresh_b_no_smart"
    else if buyer_count f <? tb_min_buyers cfg then Some "fresh_b_low_buyers"
    else if (tf_buy_volume_sol f <? tb_min_buy_volume_sol cfg)%float then Some "fresh_b_low_volume"
    else None
  else if negb (has_momentum_good items) then Some "fresh_b_no_momentum"
  else if negb (tier_b_velocity_ok cfg f) then Some "fresh_b_low_velocity"
  else None.

(* scoring/features.rs 1124-1168: strong_a_momentum_bypass_ok *)
Definition strong_a_momentum_bypass_ok (cfg : MomentumGoodStrongABypassConfig) (tier : Tier)
    (score : Z) (f : TokenFeatures) (items : Items) : bool :=
  let has name := score_items_has name items in
  if negb (msa_enabled cfg) || bool_decide (tier <> TierA) || (score <? msa_min_score cfg) then false
  else if has "buyer_velocity_fading" || has "momentum_overheated" || has "repeat_dump_cluster"
          || has "sell_pressure_high" || has "bundle_identical" || has "bundle_similar" then false
  else if buyer_count f <? msa_min_buyers cfg then false
  else if (tf_buy_volume_sol f <? msa_min_buy_volume_sol cfg)%float then false
  else if (tf_buy_to_sell_ratio f <? msa_min_buy_to_sell_ratio cfg)%float then false
  else
    let absorb_ok := negb (msa_require_absorb_strong cfg) || has "absorb_strong"
                     || (tf_absorb_quality_score f >=? msa_min_absorb_quality cfg)%float in
    let velocity_ok := negb (msa_require_buyer_velocity_persistent cfg)
                       || has "buyer_velocity_persistent"
                       || (tf_buyer_velocity_persistence f
                             >=? msa_min_buyer_velocity_persistence cfg)%float in
    absorb_ok && velocity_ok.

(** ** Laws of the bundle statistics *)

Lemma filter_pos_forall l : Forall (fun x => (0 <? x)%float = true) (List.filter (fun s => (0 <? s)%float) l).
Proof. apply List.Forall_forall. by intros x [_ H]%filter_In. Qed.

Lemma List_filter_perm {A} (p : A -> bool) l1 l2 : l1 ≡ₚ l2 -> List.filter p l1 ≡ₚ List.filter p l2.
Proof.
  induction 1 as [|x l1 l2 _ IH|x y l|l1 l2 l3 _ IH1 _ IH2]; cbn.
  - done.
  - destruct (p x); by rewrite IH.
  - destruct (p x), (p y); try done; by constructor.
  - by rewrite IH1.
Qed.

(** The bundle statistics depend only on which sizes were bought, not on
    the order in which the swarm lists the wallets. *)
Theorem bundle_stats_perm l1 l2 tol :
  l1 ≡ₚ l2 -> compute_bundle_stats l1 tol = compute_bundle_stats l2 tol.
Proof.
  intros H. unfold compute_bundle_stats. apply (List_filter_perm (fun s => (0 <? s)%float)) in H.
  rewrite (Permutation_length H).
  by rewrite (f64_sort_unique _ _ (filter_pos_forall l1) H).
Qed.

Lemma bundle_stats_perm_witness :
  compute_bundle_stats [0.1; 0.1; 5; 0.102]%float 0.05%float
    = compute_bundle_stats [5; 0.102; 0.1; 0.1]%float 0.05%float.
Proof.
  apply (bundle_stats_perm [0.1; 0.1; 5; 0.102]%float [5; 0.102; 0.1; 0.1]%float 0.05%float).
  solve_Permutation.
Defined.

(** the cases of the unit tests *)
Example bundle_identical_buys :
  let s := compute_bundle_stats [0.1; 0.1; 0.1; 0.1; 0.1; 5]%float 0.05%float in
  ((bs_identical_size_ratio s >=? 0.83) && (bs_similar_size_ratio s >=? 0.83))%float = true.
Proof. reflexivity. Qed.

Example bundle_organic :
  let s := compute_bundle_stats [0.01; 0.05; 0.2; 0.3; 0.7; 1.5; 4]%float 0.05%float in
  ((bs_identical_size_ratio s <? 0.5) && (bs_similar_size_ratio s <? 0.5))%float = true.
Proof. reflexivity. Qed.

Example bundle_near_equal :
  let s := compute_bundle_stats [0.10; 0.102; 0.099; 0.101; 0.103; 2]%float 0.10%float in
  ((bs_similar_size_ratio s >=? 0.7) && (bs_identical_size_ratio s <? 0.5))%float = true.
Proof. reflexivity. Qed.

(** ** The observation loop *)

Lemma f64_max_idem x : f64_max x x = x.
Proof. unfold f64_max. by repeat case_match. Qed.

Definition fold_peak (points : list EarlyTapePoint) : f64 :=
  List.fold_left f64_max (tp_mcap_sol <$> points) (default 0%float (tp_mcap_sol <$> list.head points)).

(** the running first and highest mcap are those of the points collected *)
Definition observe_ok (s : ObserveState) : Prop :=
  os_out s <> [] ->
  os_initial s = default 0%float (tp_mcap_sol <$> list.head (os_out s)) /\
  os_peak s = fold_peak (os_out s).

Lemma fold_peak_snoc p0 ps p :
  fold_peak ((p0 :: ps) ++ [p]) = f64_max (fold_peak (p0 :: ps)) (tp_mcap_sol p).
Proof. unfold fold_peak. by rewrite fmap_app, List.fold_left_app. Qed.

Lemma observe_loop_ok early polls s :
  observe_ok s ->
  let r := observe_loop early polls s in
  observe_ok r.1 /\
  (length (os_out r.1) <= length (os_out s) + length polls)%nat /\
  (r.2 = true -> exists low, early = Some low /\
     tape_hit_momentum_low (os_initial r.1) (os_peak r.1) low = true /\ os_out r.1 <> []).
Proof.
  revert s. induction polls as [|[[b p]|] polls IH]; intros s H; cbn -[fold_peak].
  - split_and!; [done | lia | done].
  - destruct (match os_out s with [] => _ | _ => _ end) as [initial peak] eqn:E.
    set (s' := mkObserveState (os_out s ++ [p]) initial peak (Some b)).
    assert (observe_ok s') as H'.
    { intros _. subst s'; cbn -[fold_peak]. unfold observe_ok in H.
      destruct (os_out s) as [|p0 ps]; inversion E; subst; cbn -[fold_peak].
      - unfold fold_peak; cbn. by rewrite f64_max_idem.
      - destruct H as [H1 H2]; [done|]. rewrite H1, H2. split; [done|]. by rewrite <- fold_peak_snoc. }
    assert (length (os_out s') = S (length (os_out s))) as L
      by (subst s'; cbn; rewrite length_app; cbn; lia).
    assert (os_out s' <> []) as NE by (subst s'; cbn; by destruct (os_out s)).
    destruct (IH s' H') as (I1 & I2 & I3).
    destruct early as [low|]; [destruct (tape_hit_momentum_low initial peak low) eqn:T|];
      cbn; split_and!; try done; try (rewrite ?length_app; cbn; lia); eauto.
  - destruct (IH s H) as (I1 & I2 & I3). split_and!; [done | lia | done].
Qed.

Arguments set_last : simpl never.

Lemma set_last_length l p : length (set_last l p) = length l.
Proof.
  destruct l as [|a l]; [done|]. unfold set_last.
  assert (a :: l <> []) as N by done.
  pose proof (f_equal length (app_removelast_last a N)) as H.
  rewrite length_app in *. cbn in *. lia.
Qed.

(** The live tape observer collects at most one point per slice (at least
    one slice), and reports an early exit only when an early-exit threshold was
    configured and the first and highest market cap of the reported points
    reach it; the reported peak is the running maximum of the points. *)
Theorem observe_live_sound window_ms slices early polls final :
  let r := observe_early_tape_points_live window_ms slices early polls final in
  Z.of_nat (length (ob_points r)) <= Z.max slices 1 /\
  ob_peak_mcap_sol r = fold_peak (ob_points r) /\
  (ob_exited_early r = true -> exists low, early = Some low /\
     tape_hit_momentum_low (ob_initial_mcap_sol r) (ob_peak_mcap_sol r) low = true).
Proof.
  cbn zeta. unfold observe_early_tape_points_live. destruct (Z.leb_spec (Z.max slices 1) 1).
  { destruct final as [[b p]|]; cbn; split_and!; try done; lia. }
  set (n := Z.to_nat (Z.max slices 1)).
  pose proof (observe_loop_ok early (polls <$> seq 0 n) (mkObserveState [] 0%float 0%float None)) as L.
  cbn zeta in L. rewrite length_fmap, length_seq in L.
  destruct (observe_loop early (polls <$> seq 0 n) (mkObserveState [] 0%float 0%float None)) as [st hit].
  destruct L as (L1 & L2 & L3); [done|]. cbn [fst snd os_out length] in *.
  destruct hit.
  { destruct (L3 eq_refl) as (low & -> & T & NE). destruct (L1 NE) as [E1 E2].
    cbn -[fold_peak Z.max Z.of_nat]. split_and!; [lia | done|]. intros _. exists low. split; [done|].
    fold (fold_peak (os_out st)). by rewrite <- E1, <- E2. }
  destruct (if sat_mul _ _ _ <? _ then _ else _) as [[out lb] only] eqn:E.
  assert (length out <= Z.to_nat (Z.max slices 1))%nat as LO.
  { clear L1 L3. destruct st as [out0 i0 pk0 lb0]. cbn [os_out os_last] in *.
    repeat case_match; injection E as <- <- <-; 
      rewrite ?set_last_length; cbn [length] in *; lia. }
  destruct only; [cbn -[fold_peak Z.max Z.of_nat]; split_and!; [lia | done | done]|].
  destruct early as [low|]; [|cbn -[fold_peak Z.max Z.of_nat]; split_and!; [lia | done | done]].
  destruct (tape_hit_momentum_low _ _ low) eqn:T; cbn -[fold_peak Z.max Z.of_nat] in *;
    split_and!; try lia; try done; eauto.
Qed.

(** ** Laws of the continuation layer and of the gates *)

(** The A+ flag only relaxes the continuation check: a window that passes
    without it passes with it, and a window that passes only thanks to it had a
    rising market cap and would have failed on the buy/sell ratio alone. *)
Theorem continuation_a_plus_relaxes cfg b2s n confirm ms :
  (evaluate_continuation cfg b2s n confirm ms false = Ok tt ->
   evaluate_continuation cfg b2s n confirm ms true = Ok tt) /\
  (evaluate_continuation cfg b2s n confirm ms true = Ok tt ->
   evaluate_continuation cfg b2s n confirm ms false = Ok tt \/
   evaluate_continuation cfg b2s n confirm ms false = Err "cont_b2s_worsening" /\
   exists first last, list.head confirm = Some first /\ list.last confirm = Some last /\
     (tp_mcap_sol first <? tp_mcap_sol last)%float = true).
Proof.
  unfold evaluate_continuation.
  destruct confirm as [|p0 [|p1 ps]]; [by split; auto..|].
  destruct (list.last (p0 :: p1 :: ps)) as [q|]; [|by split; auto].
  cbn zeta.
  destruct (tp_mcap_sol p0 <? tp_mcap_sol q)%float eqn:R; cbn [negb andb];
    repeat match goal with |- context [if ?b then _ else _] => destruct b eqn:? end;
    cbn in *; rewrite ?andb_true_r, ?andb_false_r in *; split; try done; auto; try congruence.
  intros _; right; split; [done|]; by exists p0, q.
Qed.

(** The reason logged for a rejected fresh developer is complete: when the
    buy volume and its bound are numbers, no reason is given exactly when the
    tier-B entry gates pass. *)
Theorem fresh_b_reason_none_iff cfg f items :
  PrimFloat.is_nan (tf_buy_volume_sol f) = false ->
  PrimFloat.is_nan (tb_min_buy_volume_sol cfg) = false ->
  fresh_b_gate_fail_reason cfg f items = None <-> tier_b_entry_ok cfg f items = true.
Proof.
  intros N1 N2. unfold fresh_b_gate_fail_reason, tier_b_entry_ok, tier_b_base_gates_ok.
  destruct (tb_enabled cfg); cbn [negb andb]; [|by split].
  destruct (Z.leb_spec (tb_min_smart_wallets cfg) (tf_smart_wallet_count f)); cbn [negb andb];
    [|destruct (Z.ltb_spec (tf_smart_wallet_count f) (tb_min_smart_wallets cfg)); [by split | lia]].
  destruct (Z.ltb_spec (tf_smart_wallet_count f) (tb_min_smart_wallets cfg)); [lia|].
  destruct (Z.leb_spec (tb_min_buyers cfg) (buyer_count f)); cbn [negb andb];
    [|destruct (Z.ltb_spec (buyer_count f) (tb_min_buyers cfg)); [by split | lia]].
  destruct (Z.ltb_spec (buyer_count f) (tb_min_buyers cfg)); [lia|].
  destruct (tb_min_buy_volume_sol cfg <=? tf_buy_volume_sol f)%float eqn:E1; cbn [negb andb].
  - destruct (has_momentum_good items), (tier_b_velocity_ok cfg f); by split.
  - destruct (tf_buy_volume_sol f <? tb_min_buy_volume_sol cfg)%float eqn:E2; [by split|].
    exfalso. f64_order.
Qed.

(** A token of a fresh developer that passes the tier-B entry gates. *)
Definition sample_features : TokenFeatures :=
  assemble 1%N 2%N None CatFresh DevRecord_default 30%float 36%float 36%float
    (mkEarlyBuyersSnapshot [3%N] [4%N]) 8 5 14%float 9 4 BundleStats_empty 0
    ScoringTapeDerived_default.

Lemma fresh_b_reason_none_iff_witness :
  fresh_b_gate_fail_reason TierBGateConfig_default sample_features [("momentum_good", 2)] = None.
Proof.
  apply (fresh_b_reason_none_iff TierBGateConfig_default sample_features [("momentum_good", 2)]);
    reflexivity.
Defined.

(** With a volume that is not a number the gates fail and no reason is given. *)
Example fresh_b_nan_volume :
  let f := sample_features <| tf_buy_volume_sol := (0 / 0)%float |> in
  tier_b_entry_ok TierBGateConfig_default f [("momentum_good", 2)] = false /\
  fresh_b_gate_fail_reason TierBGateConfig_default f [("momentum_good", 2)] = None.
Proof. split; reflexivity. Qed.

(** the A+ entry gate only looks at the smart-wallet count: its second reason
    cannot be reached *)
Lemma aplus_rug_gate_spec tier n ratio :
  0 <= n ->
  aplus_rug_gate_skip_reason tier n ratio =
    if bool_decide (tier = TierAPlus) && (n =? 0) then Some "aplus_no_smart_required" else None.
Proof.
  intros Hn. unfold aplus_rug_gate_skip_reason.
  destruct (Z.ltb_spec n 1), (Z.eqb_spec n 0); try lia; destruct tier; done.
Qed.

Lemma aplus_rug_gate_blocks_peak_guard cfg tier n ratio cur peak :
  0 <= n -> aplus_rug_gate_skip_reason tier n ratio = None ->
  aplus_peak_no_smart_guard cfg (bool_decide (tier = TierAPlus)) n cur peak = false.
Proof.
  intros Hn. rewrite aplus_rug_gate_spec by done. unfold aplus_peak_no_smart_guard.
  destruct (bool_decide (tier = TierAPlus)); cbn; [|by rewrite orb_true_r].
  destruct (Z.eqb_spec n 0); [done|]. intros _.
  destruct (Z.ltb_spec 0 n); [|lia]. by rewrite !orb_true_r.
Qed.
