(* ===== verification/ScoreEngine.v ===== *)
(** The score engine, [src/src/scoring/score_engine.rs], with the tier caps and
    the entry gate of [anti_rug.rs] and the fresh-developer subtypes of
    [fresh_b.rs].

    Both score paths are sequences of [add]s to an accumulator of the total (an
    [i32]) and the named items; [finish_breakdown] turns the total into a tier
    and a recommended size. *)
From S2P Require Import Prelude Config Registry Features.

(** ** Anti-rug filters *)

(* scoring/anti_rug.rs 8-31: entry_skip_reason *)
Definition entry_skip_reason (f : TokenFeatures) (cfg : AntiRugConfig) : option string :=
  if negb (ar_entry_gate_enabled cfg)
     || (tf_buy_volume_sol f <? ar_min_buy_volume_for_gates_sol cfg)%float then None
  else
    let sell_vol := tf_sell_volume_window_sol f in
    let buy_vol := tf_buy_volume_sol f in
    let fee_flow := (sell_vol / buy_vol)%float in
    if (sell_vol <? ar_min_sell_volume_window_sol cfg)%float then Some "low_sell_side_volume"
    else if (fee_flow <? ar_min_fee_flow_ratio cfg)%float then Some "low_fee_flow_ratio"
    else if (tf_sell_pressure_score f <? ar_min_sell_pressure_score cfg)%float
    then Some "low_sell_pressure"
    else if ((tf_buy_to_sell_ratio f >=? ar_buy_to_sell_max_without_min_sell_vol cfg)
             && (sell_vol <? ar_buy_to_sell_min_sell_vol_sol cfg))%float
    then Some "fake_buy_to_sell_ratio"
    else None.

(* scoring/anti_rug.rs 34-45: cap_tier_for_low_mcap *)
Definition cap_tier_for_low_mcap (f : TokenFeatures) (cfg : AntiRugConfig) (tier : Tier) : Tier :=
  if negb (ar_enabled cfg) || bool_decide (tier <> TierAPlus) then tier
  else if ((tf_peak_mcap_sol f <? ar_low_mcap_peak_sol cfg)
           && (tf_buy_volume_sol f <? ar_low_mcap_min_buy_volume_sol cfg))%float
  then TierA else tier.

(* scoring/anti_rug.rs 48-57: rewards_buy_to_sell_ratio *)
Definition rewards_buy_to_sell_ratio (f : TokenFeatures) (cfg : AntiRugConfig) (ratio_high : f64)
    : bool :=
  if (tf_buy_to_sell_ratio f <? ratio_high)%float then false
  else if negb (ar_enabled cfg) then true
  else ((tf_sell_volume_window_sol f >=? ar_buy_to_sell_min_sell_vol_sol cfg)
        || (tf_buy_to_sell_ratio f <? ar_buy_to_sell_max_without_min_sell_vol cfg))%float.

(** ** Fresh-developer subtypes *)

(* scoring/fresh_b.rs 8-13: FreshBSubtype *)
Inductive FreshBSubtype := TrueFresh | Unknown.

(* scoring/fresh_b.rs 19-24: FreshBSubtype::as_str *)
Definition fresh_b_as_str (s : FreshBSubtype) : string :=
  match s with TrueFresh => "B_TRUE_FRESH" | Unknown => "B_UNKNOWN" end.

(* scoring/fresh_b.rs 27-38: FreshBSubtype::for_path *)
Definition fresh_b_for_path (dev_stats : option CreatorStatistics) (from_fresh_watchlist : bool)
    : option FreshBSubtype :=
  if from_fresh_watchlist then Some TrueFresh
  else match dev_stats with None => Some Unknown | Some _ => None end.

(** ** The engine *)

(* scoring/score_engine.rs 14-17: scoring_momentum_pct *)
Definition scoring_momentum_pct (f : TokenFeatures) : f64 :=
  let peak := f64_max (tf_peak_mcap_sol f) (tf_current_mcap_sol f) in
  momentum_peak_pct (tf_initial_mcap_sol f) peak.

(* scoring/score_engine.rs 28-42: ScoreBreakdown *)
Record ScoreBreakdown := mkScoreBreakdown {
  sb_total : Z;
  sb_items : Items;
  sb_tier : Tier;
  sb_recommended_size_sol : f64;
  sb_fresh_b_hot_override : bool;
  sb_a_momentum_override : bool;
  sb_a_plus_momentum_override : bool
}.
#[export] Instance ScoreBreakdown_settable : Settable ScoreBreakdown := fun r =>
  mkScoreBreakdown (sb_total r) (sb_items r) (sb_tier r) (sb_recommended_size_sol r)
    (sb_fresh_b_hot_override r) (sb_a_momentum_override r) (sb_a_plus_momentum_override r).

(** total and items so far *)
Abbreviation Acc := (Z * Items)%type.

(* scoring/score_engine.rs 68-73: ScoreEngine::score_legacy *)
Definition add (name : string) (points : Z) (acc : Acc) : Acc :=
  if points =? 0 then acc else (i32 (acc.1 + points), acc.2 ++ [(name, points)]).

Definition add_if (b : bool) (name : string) (points : Z) (acc : Acc) : Acc :=
  if b then add name points acc else acc.

(* scoring/score_engine.rs 77-104: ScoreEngine::score_legacy *)
Definition add_dev_history (cfg : ScoringConfig) (t : FeatureThresholds) (f : TokenFeatures)
    (acc : Acc) : Acc :=
  let w := sc_weights cfg in
  let acc := add_if (tf_is_spam_dev f) "spam_dev_penalty" (sc_spam_dev_penalty cfg) acc in
  if tf_dev_has_history f then
    let strong := (th_dev_strong_min_coins t <=? tf_dev_total_coins f)
                  && (tf_dev_pnl_avg f >=? th_dev_strong_min_pnl_pct t)%float in
    if strong then add "dev_history_strong" (w_dev_history_strong w) acc
    else add "dev_history_weak" (w_dev_history_weak w) acc
  else acc.

(* scoring/score_engine.rs 106-121: ScoreEngine::score_legacy *)
Definition add_dev_rank (w : ScoringWeights) (f : TokenFeatures) (acc : Acc) : Acc :=
  match tf_dev_category f with
  | CatAPlus => add "dev_ranker_a_plus" (w_dev_ranker_a_plus w) acc
  | CatA => add "dev_ranker_a" (w_dev_ranker_a w) acc
  | CatBad => add "dev_ranker_bad" (w_dev_ranker_bad w) acc
  | CatNeutral | CatStale | CatFresh => acc
  end.

(* scoring/score_engine.rs 123-146: ScoreEngine::score_legacy *)
Definition add_wallets_buyers (w : ScoringWeights) (t : FeatureThresholds) (f : TokenFeatures)
    (acc : Acc) : Acc :=
  let acc :=
    if th_smart_wallet_3plus_min t <=? tf_smart_wallet_count f
    then add "smart_wallets_3plus" (w_smart_wallets_3plus w) acc
    else if th_smart_wallet_1plus_min t <=? tf_smart_wallet_count f
    then add "smart_wallets_1plus" (w_smart_wallets_1plus w) acc
    else acc in
  let buyers := buyer_count f in
  if th_buyers_high t <=? buyers then add "buyers_10plus" (w_buyers_10plus w) acc
  else if th_buyers_mid t <=? buyers then add "buyers_6plus" (w_buyers_6plus w) acc
  else if buyers <? th_buyers_low t then add "buyers_below_3" (w_buyers_below_3 w) acc
  else acc.

(** [(lo..=hi).contains(&x)] *)
Definition in_range (lo hi x : f64) : bool := ((x >=? lo) && (x <=? hi))%float.

(* scoring/score_engine.rs 157-167: ScoreEngine::score_legacy *)
Definition add_momentum_legacy (w : ScoringWeights) (t : FeatureThresholds) (f : TokenFeatures)
    (acc : Acc) : Acc :=
  let momentum_pct := scoring_momentum_pct f in
  if (momentum_pct >=? th_momentum_overheated_pct t)%float
  then add "momentum_overheated" (w_momentum_overheated w) acc
  else if in_range (th_momentum_good_low_pct t) (th_momentum_good_high_pct t) momentum_pct
  then add "momentum_good" (w_momentum_good w) acc
  else acc.

(* scoring/score_engine.rs 291-309: ScoreEngine::score_v2 *)
Definition add_momentum_v2 (w : ScoringWeights) (t : FeatureThresholds) (f : TokenFeatures)
    (acc : Acc) : Acc :=
  let momentum_pct := scoring_momentum_pct f in
  let in_good_band := in_range (th_momentum_good_low_pct t) (th_momentum_good_high_pct t) momentum_pct in
  if in_good_band then add "momentum_good" (w_momentum_good w) acc
  else if ((momentum_pct >? th_momentum_good_high_pct t)
           || ((th_momentum_overheated_pct t >? th_momentum_good_high_pct t)
               && (momentum_pct >=? th_momentum_overheated_pct t)))%float
  then add "momentum_overheated" (w_momentum_overheated w) acc
  else acc.

(** [/ 2] truncates towards zero; [saturating_mul] clamps to the [i32] range *)
(* scoring/score_engine.rs 383-464: ScoreEngine::apply_early_tape_scores *)
Definition apply_early_tape_scores (cfg : ScoringConfig) (f : TokenFeatures) (w : ScoringWeights)
    (acc : Acc) : Acc :=
  let ar := sc_anti_rug cfg in
  let slices := Z.of_nat (length (tf_buyer_velocity_new_per_slice f)) in
  let min_slices := if ar_enabled ar then Z.max (ar_buyer_velocity_min_slices ar) 2 else 1 in
  let acc :=
    if (tf_buyer_velocity_persistence f >=? 0.62)%float && (min_slices <=? slices)
    then add "buyer_velocity_persistent" (w_buyer_velocity_persistent w) acc
    else if (tf_buyer_velocity_persistence f <=? 0.28)%float && (2 <=? slices)
    then add "buyer_velocity_fading" (w_buyer_velocity_fading w) acc
    else acc in
  let acc := add_if (tf_sell_pressure_score f >=? 0.58)%float
               "sell_pressure_high" (w_sell_pressure_high w) acc in
  let absorb_min_sell :=
    if ar_enabled ar then ar_absorb_strong_min_sell_vol_sol ar else 0.05%float in
  let acc := add_if ((tf_absorb_quality_score f >=? 0.58)
                     && (tf_sell_volume_window_sol f >=? absorb_min_sell))%float
               "absorb_strong" (w_absorb_strong w) acc in
  let acc :=
    if 2 <=? tf_smart_wallet_early_exits f
    then add "smart_early_exit_dump" (w_smart_early_exit_dump w) acc
    else if tf_smart_wallet_early_exits f =? 1
    then add "smart_early_exit_dump" (Z.max (w_smart_early_exit_dump w ÷ 2) (-2)) acc
    else acc in
  if 2 <=? tf_repeat_dump_slices f
  then add "repeat_dump_cluster" (sat_s I32_MIN I32_MAX (w_repeat_dump_penalty w * 3)) acc
  else if 1 <=? tf_repeat_dump_slices f
  then add "repeat_dump_cluster" (sat_s I32_MIN I32_MAX (w_repeat_dump_penalty w * 2)) acc
  else acc.

(* scoring/score_engine.rs 328-380: ScoreEngine::finish_breakdown *)
Definition finish_breakdown (cfg : ScoringConfig) (f : TokenFeatures) (acc : Acc) : ScoreBreakdown :=
  let '(total, items) := acc in
  let score_tier :=
    cap_tier_for_low_mcap f (sc_anti_rug cfg)
      (if sc_a_plus_threshold cfg <=? total then TierAPlus
       else if sc_a_threshold cfg <=? total then TierA
       else TierSkip) in
  let tier_b_ok := tier_b_entry_ok (sc_tier_b cfg) f items in
  let hot_override := negb tier_b_ok && fresh_b_hot_override_ok (sc_tier_b cfg) f items in
  let tier :=
    if tier_b_dev_eligible f (sc_tier_b cfg)
    then if tier_b_ok || hot_override then TierB else TierSkip
    else score_tier in
  let recommended_size_sol :=
    match tier with
    | TierAPlus => sz_a_plus_sol (sc_size cfg)
    | TierA => sz_a_sol (sc_size cfg)
    | TierB => sz_b_sol (sc_size cfg)
    | TierSkip => 0%float
    end in
  let aa := aa_momentum_override_for_tier (sc_aa_momentum_override cfg) tier items in
  mkScoreBreakdown total items tier recommended_size_sol hot_override
    (bool_decide (tier = TierA) && aa) (bool_decide (tier = TierAPlus) && aa).

(* scoring/score_engine.rs 62-187: ScoreEngine::score_legacy *)
Definition legacy_acc (cfg : ScoringConfig) (f : TokenFeatures) : Acc :=
  let w := sc_weights cfg in
  let t := sc_thresholds cfg in
  let acc := add_dev_history cfg t f (0, []) in
  let acc := add_dev_rank w f acc in
  let acc := add_wallets_buyers w t f acc in
  let acc := add_if (rewards_buy_to_sell_ratio f (sc_anti_rug cfg) (th_buy_to_sell_high t))
               "buy_to_sell_ratio_high" (w_buy_to_sell_ratio_high w) acc in
  let acc := add_momentum_legacy w t f acc in
  let acc := add_if (tf_buy_volume_sol f >=? th_volume_ok_sol t)%float
               "volume_ok" (w_volume_ok w) acc in
  let acc :=
    if (bs_identical_size_ratio (tf_bundle f) >=? th_bundle_identical_ratio t)%float
    then add "bundle_identical" (w_bundle_identical w) acc
    else if (bs_similar_size_ratio (tf_bundle f) >=? th_bundle_similar_ratio t)%float
    then add "bundle_similar" (w_bundle_similar w) acc
    else acc in
  apply_early_tape_scores cfg f w acc.

(* scoring/score_engine.rs 62-187: ScoreEngine::score_legacy *)
Definition score_legacy (cfg : ScoringConfig) (f : TokenFeatures) : ScoreBreakdown :=
  finish_breakdown cfg f (legacy_acc cfg f).

(* scoring/score_engine.rs 190-326: ScoreEngine::score_v2 *)
Definition v2_acc (cfg : ScoringConfig) (f : TokenFeatures) (thresholds : FeatureThresholds)
    : Acc :=
  let w := sc_weights cfg in
  let t := thresholds in
  let acc := add_dev_history cfg t f (0, []) in
  let acc := add_dev_rank w f acc in
  let acc := add_wallets_buyers w t f acc in
  let acc := add_if (rewards_buy_to_sell_ratio f (sc_anti_rug cfg) (th_buy_to_sell_high t))
               "buy_to_sell_ratio_high" (w_buy_to_sell_ratio_high w) acc in
  let acc := add_momentum_v2 w t f acc in
  let acc := add_if (tf_buy_volume_sol f >=? th_volume_ok_sol t)%float
               "volume_ok" (w_volume_ok w) acc in
  let acc := add_if (bs_similar_size_ratio (tf_bundle f) >=? th_bundle_similar_ratio t)%float
               "bundle_similar" (w_bundle_similar w) acc in
  apply_early_tape_scores cfg f w acc.

(* scoring/score_engine.rs 190-326: ScoreEngine::score_v2 *)
Definition score_v2 (cfg : ScoringConfig) (f : TokenFeatures) (thresholds : FeatureThresholds) : ScoreBreakdown :=
  finish_breakdown cfg f (v2_acc cfg f thresholds).

(* scoring/score_engine.rs 53-59: ScoreEngine::score *)
Definition score (cfg : ScoringConfig) (f : TokenFeatures) (thresholds : FeatureThresholds)
    : ScoreBreakdown :=
  if sc_legacy_scoring cfg then score_legacy cfg f else score_v2 cfg f thresholds.

(** ** Every reason counts once

    A stage of the engine adds at most one item, from its own set of names. *)
Definition pick (names : list string) (a b : Acc) : Prop :=
  b = a \/ exists n p, n ∈ names /\ p <> 0 /\ b = (i32 (a.1 + p), a.2 ++ [(n, p)]).

Inductive picks : list (list string) -> Acc -> Acc -> Prop :=
  | picks_nil a : picks [] a a
  | picks_cons ns nss a b c : pick ns a b -> picks nss b c -> picks (ns :: nss) a c.

Lemma picks_app n1 n2 a b c : picks n1 a b -> picks n2 b c -> picks (n1 ++ n2) a c.
Proof. induction 1; intros; [done|]. cbn. econstructor; eauto. Qed.

Lemma pick_stay ns a : pick ns a a.
Proof. by left. Qed.

Lemma pick_add ns n p a : n ∈ ns -> pick ns a (add n p a).
Proof.
  intros H. unfold add. destruct (Z.eqb_spec p 0); [apply pick_stay|]. right. by exists n, p.
Qed.

Lemma pick_add_if ns b n p a : n ∈ ns -> pick ns a (add_if b n p a).
Proof. intros H. destruct b; [by apply pick_add | apply pick_stay]. Qed.

#[local] Hint Resolve pick_stay pick_add pick_add_if : core.
#[local] Hint Extern 1 (_ ∈ _) => (vm_compute; repeat constructor) : core.

Ltac pick_cases := cbv zeta; repeat case_match; auto.

Definition dev_stages : list (list string) :=
  [["spam_dev_penalty"]; ["dev_history_strong"; "dev_history_weak"];
   ["dev_ranker_a_plus"; "dev_ranker_a"; "dev_ranker_bad"];
   ["smart_wallets_3plus"; "smart_wallets_1plus"];
   ["buyers_10plus"; "buyers_6plus"; "buyers_below_3"]; ["buy_to_sell_ratio_high"];
   ["momentum_overheated"; "momentum_good"]; ["volume_ok"]; ["bundle_identical"; "bundle_similar"]].
Definition tape_stages : list (list string) :=
  [["buyer_velocity_persistent"; "buyer_velocity_fading"]; ["sell_pressure_high"];
   ["absorb_strong"]; ["smart_early_exit_dump"]; ["repeat_dump_cluster"]].
Definition stages : list (list string) := dev_stages ++ tape_stages.

(** one stage of the engine; the accumulator so far is generalized *)
Ltac next_stage :=
  lazymatch goal with
  | |- picks ?n ?a (let x : ?T := ?E in @?F x) =>
      tryif unify T Acc then
        lazymatch n with
        | ?ns :: ?nss =>
            refine (picks_cons ns nss a E _ _ _);
              [pick_cases | change (picks nss E (F E)); generalize E; intro; cbv beta]
        end
      else (change (picks n a (F E)); cbv beta)
  end.

Lemma tape_picks cfg f w a : picks tape_stages a (apply_early_tape_scores cfg f w a).
Proof.
  unfold tape_stages. cbv beta delta [apply_early_tape_scores]. repeat next_stage.
  eapply picks_cons; [|apply picks_nil]. pick_cases.
Qed.

Lemma dev_history_picks cfg t f a :
  picks [["spam_dev_penalty"]; ["dev_history_strong"; "dev_history_weak"]] a (add_dev_history cfg t f a).
Proof.
  cbv beta delta [add_dev_history]. repeat next_stage. eapply picks_cons; [|apply picks_nil]. pick_cases.
Qed.

Lemma dev_rank_picks w f a :
  pick ["dev_ranker_a_plus"; "dev_ranker_a"; "dev_ranker_bad"] a (add_dev_rank w f a).
Proof. unfold add_dev_rank. pick_cases. Qed.

Lemma wallets_buyers_picks w t f a :
  picks [["smart_wallets_3plus"; "smart_wallets_1plus"];
         ["buyers_10plus"; "buyers_6plus"; "buyers_below_3"]] a (add_wallets_buyers w t f a).
Proof.
  cbv beta delta [add_wallets_buyers]. repeat next_stage. eapply picks_cons; [|apply picks_nil]. pick_cases.
Qed.

Lemma momentum_legacy_picks w t f a :
  pick ["momentum_overheated"; "momentum_good"] a (add_momentum_legacy w t f a).
Proof. unfold add_momentum_legacy. pick_cases. Qed.

Lemma momentum_v2_picks w t f a :
  pick ["momentum_overheated"; "momentum_good"] a (add_momentum_v2 w t f a).
Proof. unfold add_momentum_v2. pick_cases. Qed.

Lemma legacy_picks cfg f : picks stages (0, []) (legacy_acc cfg f).
Proof.
  eapply (picks_app [_; _]); [apply dev_history_picks|].
  eapply picks_cons; [apply dev_rank_picks|].
  eapply (picks_app [_; _]); [apply wallets_buyers_picks|].
  eapply picks_cons; [apply pick_add_if; auto|].
  eapply picks_cons; [apply momentum_legacy_picks|].
  eapply picks_cons; [apply pick_add_if; auto|].
  eapply (picks_cons _ tape_stages); [|apply tape_picks]. pick_cases.
Qed.

Lemma v2_picks cfg f t : picks stages (0, []) (v2_acc cfg f t).
Proof.
  eapply (picks_app [_; _]); [apply dev_history_picks|].
  eapply picks_cons; [apply dev_rank_picks|].
  eapply (picks_app [_; _]); [apply wallets_buyers_picks|].
  eapply picks_cons; [apply pick_add_if; auto|].
  eapply picks_cons; [apply momentum_v2_picks|].
  eapply picks_cons; [apply pick_add_if; auto|].
  eapply (picks_cons _ tape_stages); [|apply tape_picks]. apply pick_add_if; auto.
Qed.

Definition points (items : Items) : Z := List.fold_right Z.add 0 items.*2.

Lemma i32_add_l a b : i32 (i32 a + b) = i32 (a + b).
Proof.
  unfold wrap_s. set (h := 2 ^ (32 - 1)). f_equal.
  replace ((a + h) mod 2 ^ 32 - h + b + h) with ((a + h) mod 2 ^ 32 + b) by lia.
  rewrite Zplus_mod_idemp_l. f_equal. lia.
Qed.

Lemma picks_items nss a c :
  picks nss a c -> NoDup (concat nss) ->
  exists l, c.2 = a.2 ++ l /\ NoDup l.*1 /\ (forall n, n ∈ l.*1 -> n ∈ concat nss) /\
            Forall (fun i => i.2 <> 0) l /\ (length l <= length nss)%nat /\
            (in_s 32 a.1 -> c.1 = i32 (a.1 + points l)).
Proof.
  induction 1 as [a|ns nss a b c P Ps IH]; intros N; cbn [concat] in *.
  - exists []. rewrite app_nil_r. split_and!; try done; try constructor.
    intros H. unfold points; cbn. rewrite Z.add_0_r. symmetry. by apply wrap_s_small.
  - apply NoDup_app in N as (N1 & N2 & N3). destruct (IH N3) as (l & L1 & L2 & L3 & L4 & L5 & L6).
    destruct P as [->|(n & p & Hn & Hp & ->)].
    + exists l. split_and!; try done; [|cbn; lia]. intros m Hm. apply elem_of_app. auto.
    + exists ((n, p) :: l). cbn in *. split_and!.
      * by rewrite L1, <- app_assoc.
      * constructor; [|done]. intros H. by apply (N2 n Hn), L3.
      * intros m [->|Hm]%elem_of_cons; apply elem_of_app; auto.
      * by constructor.
      * lia.
      * intros Ha. rewrite L6 by auto with bounds. rewrite i32_add_l. unfold points; cbn.
        f_equal. lia.
Qed.

Lemma stages_nodup : NoDup (concat stages).
Proof. apply (bool_decide_unpack (NoDup (concat stages))). vm_compute. exact I. Qed.

Lemma score_picks cfg f t :
  exists acc, picks stages (0, []) acc /\ score cfg f t = finish_breakdown cfg f acc.
Proof.
  unfold score. destruct (sc_legacy_scoring cfg).
  - eexists. split; [apply legacy_picks | reflexivity].
  - eexists. split; [apply v2_picks | reflexivity].
Qed.

Lemma finish_total cfg f acc :
  sb_total (finish_breakdown cfg f acc) = acc.1 /\ sb_items (finish_breakdown cfg f acc) = acc.2.
Proof. by destruct acc. Qed.

(** A score is the sum of its reasons: on both score paths no reason is
    listed twice, none carries zero points, there are at most fourteen of them,
    and the total is the sum of their points (as an [i32]). *)
Theorem score_total_is_sum cfg f t :
  let b := score cfg f t in
  sb_total b = i32 (points (sb_items b)) /\
  NoDup (sb_items b).*1 /\
  Forall (fun i => i.2 <> 0) (sb_items b) /\
  (length (sb_items b) <= 14)%nat.
Proof.
  cbn zeta. destruct (score_picks cfg f t) as (acc & P & ->).
  destruct (finish_total cfg f acc) as [-> ->].
  destruct (picks_items _ _ _ P stages_nodup) as (l & L1 & L2 & _ & L4 & L5 & L6).
  cbn in L1. rewrite L1. cbn [app]. split_and!; try done.
  rewrite L6 by (unfold in_s; cbn; lia). done.
Qed.

Lemma cap_tier_cases f cfg tier :
  cap_tier_for_low_mcap f cfg tier = tier \/
  tier = TierAPlus /\ cap_tier_for_low_mcap f cfg tier = TierA.
Proof.
  unfold cap_tier_for_low_mcap. destruct tier; rewrite ?orb_true_r; auto.
  repeat case_match; auto.
Qed.

(** Tiers: a developer in the fresh lane is only ever rated B or Skip,
    and B exactly when the tier-B entry gates or the hot-fresh override pass; a
    developer outside the lane is never rated B, and is rated A+ or A only at
    or above the configured thresholds.  The recommended size is that of the
    tier, and an A or A+ momentum override is only granted in that tier. *)
Theorem score_tier_sound cfg f t :
  let b := score cfg f t in
  let b_ok := tier_b_entry_ok (sc_tier_b cfg) f (sb_items b)
              || fresh_b_hot_override_ok (sc_tier_b cfg) f (sb_items b) in
  (if tier_b_dev_eligible f (sc_tier_b cfg)
   then sb_tier b = if b_ok then TierB else TierSkip
   else sb_tier b <> TierB /\
        (sb_tier b = TierAPlus -> sc_a_plus_threshold cfg <= sb_total b) /\
        (sb_tier b = TierA ->
           sc_a_threshold cfg <= sb_total b \/ sc_a_plus_threshold cfg <= sb_total b)) /\
  sb_recommended_size_sol b =
    match sb_tier b with
    | TierAPlus => sz_a_plus_sol (sc_size cfg)
    | TierA => sz_a_sol (sc_size cfg)
    | TierB => sz_b_sol (sc_size cfg)
    | TierSkip => 0%float
    end /\
  (sb_a_momentum_override b = true -> sb_tier b = TierA) /\
  (sb_a_plus_momentum_override b = true -> sb_tier b = TierAPlus).
Proof.
  cbn zeta. destruct (score_picks cfg f t) as ([total items] & _ & ->).
  unfold finish_breakdown; cbn [sb_tier sb_items sb_total sb_recommended_size_sol
    sb_a_momentum_override sb_a_plus_momentum_override].
  split_and!; [|reflexivity| |].
  - destruct (tier_b_dev_eligible f (sc_tier_b cfg)).
    + destruct (tier_b_entry_ok _ _ _); cbn [negb andb orb]; [done|]. done.
    + destruct (Z.leb_spec (sc_a_plus_threshold cfg) total), (Z.leb_spec (sc_a_threshold cfg) total);
        match goal with |- context [cap_tier_for_low_mcap ?f ?c ?t] =>
          destruct (cap_tier_cases f c t) as [-> | [E ->]] end;
        split_and!; try done; intros; lia.
  - intros [H _]%andb_true_iff. by apply bool_decide_eq_true in H.
  - intros [H _]%andb_true_iff. by apply bool_decide_eq_true in H.
Qed.
