(* ===== verification/Learning.v ===== *)
(** The learning loop, [src/src/learning/]: trade snapshots, the threshold
    patch with its merge into the configured thresholds, and the heuristics that
    adjust the patch.  The statistics come from the database and the patch file
    from the disk: both are arguments. *)
From S2P Require Import Prelude Config Registry Features ScoreEngine.

(* learning/merge.rs 7-20: FeatureThresholdPatch *)
Record FeatureThresholdPatch := mkFeatureThresholdPatch {
  pt_buyers_low : option Z;
  pt_volume_ok_sol_mult : option f64;
  pt_smart_wallet_3plus_min : option Z;
  pt_smart_wallet_1plus_min : option Z
}.
#[export] Instance FeatureThresholdPatch_settable : Settable FeatureThresholdPatch := fun r =>
  mkFeatureThresholdPatch (pt_buyers_low r) (pt_volume_ok_sol_mult r) (pt_smart_wallet_3plus_min
    r) (pt_smart_wallet_1plus_min r).
Definition FeatureThresholdPatch_default : FeatureThresholdPatch :=
  mkFeatureThresholdPatch None None None None.

(* learning/merge.rs 24-31: LearningOverridesFile *)
Record LearningOverridesFile := mkLearningOverridesFile {
  lo_patch : FeatureThresholdPatch;
  lo_last_optimized_unix : Z;
  lo_last_sample_size : Z
}.
#[export] Instance LearningOverridesFile_settable : Settable LearningOverridesFile := fun r =>
  mkLearningOverridesFile (lo_patch r) (lo_last_optimized_unix r) (lo_last_sample_size r).

(* learning/merge.rs 33-41: Default for LearningOverridesFile *)
Definition LearningOverridesFile_default : LearningOverridesFile :=
  mkLearningOverridesFile FeatureThresholdPatch_default 0 0.

(* autobuy/filters/config.rs 190-192: learning_default_enabled *)
Definition learning_default_enabled : bool := true.

(* autobuy/filters/config.rs 193-195: learning_default_every *)
Definition learning_default_every : Z := 100.

(* autobuy/filters/config.rs 196-198: learning_default_interval *)
Definition learning_default_interval : Z := 3600.

(* autobuy/filters/config.rs 199-201: learning_default_min_trades *)
Definition learning_default_min_trades : Z := 30.

(* autobuy/filters/config.rs 164-177: LearningConfig *)
Record LearningConfig := mkLearningConfig {
  lc_enabled : bool;
  lc_analyze_every_trades : Z;
  lc_analyze_interval_secs : Z;
  lc_min_trades_for_update : Z
}.
#[export] Instance LearningConfig_settable : Settable LearningConfig := fun r =>
  mkLearningConfig (lc_enabled r) (lc_analyze_every_trades r) (lc_analyze_interval_secs r)
    (lc_min_trades_for_update r).

(* autobuy/filters/config.rs 179-188: Default for LearningConfig *)
Definition LearningConfig_default : LearningConfig := {|
  lc_enabled := learning_default_enabled;
  lc_analyze_every_trades := learning_default_every;
  lc_analyze_interval_secs := learning_default_interval;
  lc_min_trades_for_update := learning_default_min_trades
|}.

(* learning/db.rs 353-361: TradeBatchStats *)
Record TradeBatchStats := mkTradeBatchStats {
  bst_n : Z;
  bst_wins : Z;
  bst_win_smart : f64;
  bst_loss_smart : f64;
  bst_win_buyers : f64;
  bst_loss_buyers : f64;
  bst_max_id : Z
}.
#[export] Instance TradeBatchStats_settable : Settable TradeBatchStats := fun r =>
  mkTradeBatchStats (bst_n r) (bst_wins r) (bst_win_smart r) (bst_loss_smart r) (bst_win_buyers
    r) (bst_loss_buyers r) (bst_max_id r).

(* learning/merge.rs 59-86: merge_thresholds *)
Definition merge_thresholds (base : FeatureThresholds) (patch : FeatureThresholdPatch)
    : FeatureThresholds :=
  let t := base in
  let t :=
    match pt_buyers_low patch with
    | Some v =>
        let lo := Z.max (sat_sub (th_buyers_low base) 2) 1 in
        let hi := Z.min (sat_add U64_MAX (th_buyers_low base) 2)
                        (Z.max (sat_sub (th_buyers_mid base) 1) 1) in
        t <| th_buyers_low := Z.min (Z.max v lo) hi |>
    | None => t
    end in
  let t :=
    match pt_volume_ok_sol_mult patch with
    | Some m =>
        let m := f64_clamp m 0.85%float 1.15%float in
        t <| th_volume_ok_sol := f64_max (th_volume_ok_sol base * m)%float 1%float |>
    | None => t
    end in
  match pt_smart_wallet_3plus_min patch, pt_smart_wallet_1plus_min patch with
  | Some high, low1 =>
      let high := Z.max 2 (Z.min high 8) in
      let low_default := default (th_smart_wallet_1plus_min base) low1 in
      let low := Z.min low_default (Z.max (sat_sub high 1) 1) in
      t <| th_smart_wallet_3plus_min := high |> <| th_smart_wallet_1plus_min := low |>
  | None, Some low =>
      let high := th_smart_wallet_3plus_min base in
      t <| th_smart_wallet_1plus_min := Z.max 1 (Z.min low (Z.max (sat_sub high 1) 1)) |>
  | None, None => t
  end.

(* learning/engine.rs 21-55: apply_heuristics *)
Definition apply_heuristics (base : FeatureThresholds) (stats : TradeBatchStats)
    (patch : FeatureThresholdPatch) : FeatureThresholdPatch :=
  if bst_n stats <? 2 then patch else
  let n := f64_of_Z (bst_n stats) in
  let winrate := (f64_of_Z (bst_wins stats) / n)%float in
  let patch :=
    if (winrate <? 0.48)%float then
      let target := sat_add U64_MAX (default (th_buyers_low base) (pt_buyers_low patch)) 1 in
      patch <| pt_buyers_low := Some target |>
    else if (winrate >? 0.62)%float then
      let target := Z.max (sat_sub (default (th_buyers_low base) (pt_buyers_low patch)) 1) 1 in
      patch <| pt_buyers_low := Some target |>
    else patch in
  let patch :=
    if ((winrate <? 0.52) && (bst_win_smart stats >? bst_loss_smart stats + 0.75))%float then
      let cur := default (th_smart_wallet_3plus_min base) (pt_smart_wallet_3plus_min patch) in
      patch <| pt_smart_wallet_3plus_min := Some (Z.min (u32 (cur + 1)) 8) |>
    else patch in
  if ((0 <? bst_loss_buyers stats) && (0 <? bst_win_buyers stats)
      && (bst_loss_buyers stats >? bst_win_buyers stats + 1.5))%float then
    let m := (default 1 (pt_volume_ok_sol_mult patch) * 1.05)%float in
    patch <| pt_volume_ok_sol_mult := Some (f64_min m 1.15%float) |>
  else patch.

(** One wake-up of the loop: the count at the last run and the shared file;
    [cnt] and [stats] are the database's answers, [saved] whether the file was
    written. *)
(* learning/engine.rs 59-123: spawn_learning_engine *)
Definition learning_tick (base : FeatureThresholds) (cfg : LearningConfig)
    (cnt : option Z) (stats : option TradeBatchStats) (now : Z) (saved : bool)
    (st : Z * LearningOverridesFile) : Z * LearningOverridesFile :=
  let '(last, overrides) := st in
  match cnt with
  | None => st
  | Some cnt =>
      if i64 (cnt - last) <? i64 (lc_analyze_every_trades cfg) then st else
      match stats with
      | None => st
      | Some stats =>
          if bst_n stats <? lc_min_trades_for_update cfg then (cnt, overrides) else
          let file := overrides <| lo_patch := apply_heuristics base stats (lo_patch overrides) |>
                        <| lo_last_optimized_unix := now |>
                        <| lo_last_sample_size := bst_n stats |> in
          if saved then (cnt, file) else st
      end
  end.

(** ** Trade snapshots *)

(* learning/snapshot.rs 11-69: LearningTradeSnapshot *)
Record LearningTradeSnapshot := mkLearningTradeSnapshot {
  ls_mint : string;
  ls_dev : string;
  ls_entry_mcap_sol : f64;
  ls_smart_wallet_count : Z;
  ls_velocity_pct : f64;
  ls_bundle_similar : f64;
  ls_bundle_identical : f64;
  ls_buyer_count : Z;
  ls_buy_to_sell_ratio : f64;
  ls_buy_volume_sol : f64;
  ls_score_total : Z;
  ls_tier : string;
  ls_buyer_velocity_persistence : f64;
  ls_buyer_velocity_new_per_slice : list Z;
  ls_sell_pressure_score : f64;
  ls_absorb_quality_score : f64;
  ls_sell_volume_window_sol : f64;
  ls_sell_events_window : Z;
  ls_repeat_dump_slices : Z;
  ls_smart_wallet_early_exits : Z;
  ls_has_momentum_good : bool;
  ls_fresh_b_subtype : option string;
  ls_fresh_watchlist : option string;
  ls_fresh_b_hot_override : option bool;
  ls_momentum_overheated : bool;
  ls_hot_override_reason : option string;
  ls_a_momentum_override : option bool;
  ls_a_plus_momentum_override : option bool;
  ls_first_seen_mcap_sol : option f64;
  ls_discovery_to_buy_ms : option Z
}.
#[export] Instance LearningTradeSnapshot_settable : Settable LearningTradeSnapshot := fun r =>
  mkLearningTradeSnapshot (ls_mint r) (ls_dev r) (ls_entry_mcap_sol r) (ls_smart_wallet_count r)
    (ls_velocity_pct r) (ls_bundle_similar r) (ls_bundle_identical r) (ls_buyer_count r)
    (ls_buy_to_sell_ratio r) (ls_buy_volume_sol r) (ls_score_total r) (ls_tier r)
    (ls_buyer_velocity_persistence r) (ls_buyer_velocity_new_per_slice r)
    (ls_sell_pressure_score r) (ls_absorb_quality_score r) (ls_sell_volume_window_sol r)
    (ls_sell_events_window r) (ls_repeat_dump_slices r) (ls_smart_wallet_early_exits r)
    (ls_has_momentum_good r) (ls_fresh_b_subtype r) (ls_fresh_watchlist r)
    (ls_fresh_b_hot_override r) (ls_momentum_overheated r) (ls_hot_override_reason r)
    (ls_a_momentum_override r) (ls_a_plus_momentum_override r) (ls_first_seen_mcap_sol r)
    (ls_discovery_to_buy_ms r).

(** [{:?}] of a tier *)
Definition tier_debug (t : Tier) : string :=
  match t with TierAPlus => "APlus" | TierA => "A" | TierB => "B" | TierSkip => "Skip" end.

Section Snapshot.
Context (to_string : Address -> string).

(* learning/snapshot.rs 72-117: LearningTradeSnapshot::from_scoring *)
Definition from_scoring (f : TokenFeatures) (breakdown : ScoreBreakdown) : LearningTradeSnapshot :=
  let peak := f64_max (tf_peak_mcap_sol f) (tf_current_mcap_sol f) in
  let velocity_pct :=
    if (0 <? tf_initial_mcap_sol f)%float
    then ((peak / tf_initial_mcap_sol f - 1) * 100)%float else 0%float in
  {| ls_mint := to_string (tf_mint f);
     ls_dev := to_string (tf_dev f);
     ls_entry_mcap_sol := tf_current_mcap_sol f;
     ls_smart_wallet_count := tf_smart_wallet_count f;
     ls_velocity_pct := velocity_pct;
     ls_bundle_similar := bs_similar_size_ratio (tf_bundle f);
     ls_bundle_identical := bs_identical_size_ratio (tf_bundle f);
     ls_buyer_count := buyer_count f;
     ls_buy_to_sell_ratio := tf_buy_to_sell_ratio f;
     ls_buy_volume_sol := tf_buy_volume_sol f;
     ls_score_total := sb_total breakdown;
     ls_tier := tier_debug (sb_tier breakdown);
     ls_buyer_velocity_persistence := tf_buyer_velocity_persistence f;
     ls_buyer_velocity_new_per_slice := tf_buyer_velocity_new_per_slice f;
     ls_sell_pressure_score := tf_sell_pressure_score f;
     ls_absorb_quality_score := tf_absorb_quality_score f;
     ls_sell_volume_window_sol := tf_sell_volume_window_sol f;
     ls_sell_events_window := tf_sell_events_window f;
     ls_repeat_dump_slices := tf_repeat_dump_slices f;
     ls_smart_wallet_early_exits := tf_smart_wallet_early_exits f;
     ls_has_momentum_good := has_momentum_good (sb_items breakdown);
     ls_fresh_b_subtype := None;
     ls_fresh_watchlist := None;
     ls_fresh_b_hot_override := None;
     ls_momentum_overheated := has_momentum_overheated (sb_items breakdown);
     ls_hot_override_reason := None;
     ls_a_momentum_override := None;
     ls_a_plus_momentum_override := None;
     ls_first_seen_mcap_sol := None;
     ls_discovery_to_buy_ms := None |}.

(* learning/snapshot.rs 119-128: LearningTradeSnapshot::apply_aa_momentum_override_fields *)
Definition apply_aa_momentum_override_fields (breakdown : ScoreBreakdown)
    (s : LearningTradeSnapshot) : LearningTradeSnapshot :=
  let s :=
    if sb_a_momentum_override breakdown
    then s <| ls_a_momentum_override := Some true |>
           <| ls_hot_override_reason := Some "momentum_overheated_only" |>
    else s in
  if sb_a_plus_momentum_override breakdown
  then s <| ls_a_plus_momentum_override := Some true |>
         <| ls_hot_override_reason := Some "momentum_overheated_only" |>
  else s.

(* learning/snapshot.rs 130-135: LearningTradeSnapshot::apply_hot_override_fields *)
Definition apply_hot_override_fields (hot_override : bool) (s : LearningTradeSnapshot)
    : LearningTradeSnapshot :=
  if hot_override
  then s <| ls_fresh_b_hot_override := Some true |>
         <| ls_hot_override_reason := Some "momentum_overheated_only" |>
  else s.

(* learning/snapshot.rs 137-149: LearningTradeSnapshot::from_scoring_fresh_b *)
Definition from_scoring_fresh_b (f : TokenFeatures) (breakdown : ScoreBreakdown)
    (subtype : option FreshBSubtype) (fresh_watchlist : option string) : LearningTradeSnapshot :=
  let snap := from_scoring f breakdown in
  let snap := snap <| ls_fresh_b_subtype := fresh_b_as_str <$> subtype |>
                   <| ls_fresh_watchlist := fresh_watchlist |> in
  let snap := apply_hot_override_fields (sb_fresh_b_hot_override breakdown) snap in
  apply_aa_momentum_override_fields breakdown snap.

End Snapshot.

(** ** Safety of the merge *)

(** thresholds an operator may configure *)
Definition thresholds_ok (t : FeatureThresholds) : Prop :=
  1 <= th_buyers_low t < th_buyers_mid t /\ th_buyers_mid t < 2 ^ 64 - 2 /\
  0 <= th_smart_wallet_1plus_min t < th_smart_wallet_3plus_min t /\
  2 <= th_smart_wallet_3plus_min t.

(** the patch's unsigned fields *)
Definition patch_wf (p : FeatureThresholdPatch) : Prop :=
  0 <= default 0 (pt_buyers_low p) /\ 0 <= default 0 (pt_smart_wallet_3plus_min p) /\
  0 <= default 0 (pt_smart_wallet_1plus_min p).

(** Whatever patch the learning loop wrote, the merged thresholds keep the
    order of the buyer and smart-wallet buckets: [buyers_low] stays at least 1,
    below [buyers_mid] and within 2 of the configured value, the lower
    smart-wallet bucket stays below the upper one, a patched upper one is
    between 2 and 8, and every other bucket bound is the configured one. *)
Theorem merge_thresholds_sound base patch :
  thresholds_ok base -> patch_wf patch ->
  let t := merge_thresholds base patch in
  thresholds_ok t /\
  Z.abs (th_buyers_low t - th_buyers_low base) <= 2 /\
  (pt_smart_wallet_3plus_min patch <> None -> 2 <= th_smart_wallet_3plus_min t <= 8) /\
  (pt_smart_wallet_3plus_min patch = None ->
     th_smart_wallet_3plus_min t = th_smart_wallet_3plus_min base) /\
  th_buyers_mid t = th_buyers_mid base /\ th_buyers_high t = th_buyers_high base.
Proof.
  unfold thresholds_ok, patch_wf, merge_thresholds, sat_add, sat_sub, U64_MAX.
  intros (B1 & B2 & S1 & S2) (P1 & P2 & P3). cbn zeta.
  destruct (pt_buyers_low patch), (pt_volume_ok_sol_mult patch),
    (pt_smart_wallet_3plus_min patch) as [high|], (pt_smart_wallet_1plus_min patch) as [low|];
    cbn -[Z.max Z.min Z.pow] in *; split_and!; try done; intros; congruence || lia.
Qed.

Lemma merge_thresholds_sound_witness :
  let patch := mkFeatureThresholdPatch (Some 99) (Some 1.3%float) (Some 20) (Some 40) in
  let t := merge_thresholds FeatureThresholds_default patch in
  thresholds_ok t /\
  Z.abs (th_buyers_low t - th_buyers_low FeatureThresholds_default) <= 2 /\
  (pt_smart_wallet_3plus_min patch <> None -> 2 <= th_smart_wallet_3plus_min t <= 8) /\
  (pt_smart_wallet_3plus_min patch = None ->
     th_smart_wallet_3plus_min t = th_smart_wallet_3plus_min FeatureThresholds_default) /\
  th_buyers_mid t = th_buyers_mid FeatureThresholds_default /\
  th_buyers_high t = th_buyers_high FeatureThresholds_default.
Proof.
  apply (merge_thresholds_sound FeatureThresholds_default); vm_compute; repeat split; discriminate.
Defined.

(** ** The loop *)

Definition losing_batch : TradeBatchStats := mkTradeBatchStats 100 20 1%float 1%float 5%float 5%float 0.
Definition winning_batch : TradeBatchStats := mkTradeBatchStats 100 80 1%float 1%float 5%float 5%float 0.

(** The patch is not clamped when it is written, only when it is merged: after
    twenty losing batches fifteen winning ones do not move the merged
    threshold. *)
Example buyers_low_windup :
  let base := FeatureThresholds_default in
  let p20 := Nat.iter 20 (apply_heuristics base losing_batch) FeatureThresholdPatch_default in
  let p35 := Nat.iter 15 (apply_heuristics base winning_batch) p20 in
  pt_buyers_low p20 = Some 24 /\ pt_buyers_low p35 = Some 9 /\
  th_buyers_low (merge_thresholds base p20) = 5 /\ th_buyers_low (merge_thresholds base p35) = 5.
Proof. repeat split. Qed.

Lemma heuristics_small base stats patch : bst_n stats < 2 -> apply_heuristics base stats patch = patch.
Proof. intros H. unfold apply_heuristics. by destruct (Z.ltb_spec (bst_n stats) 2); [|lia]. Qed.
