(* ===== verification/Curve.v ===== *)
(** Bonding-curve arithmetic of the live broker, [src/src/autobuy/pump_brocker.rs]:
    the on-chain account layout, the constant-product sell formula and its
    inverse, the sizing of a sell against the curve's liquidity, and the
    splitting of post-graduation sells. *)
From S2P Require Import Prelude Amounts Pump.

(* autobuy/pump_brocker.rs 2048-2067: BondingCurveState *)
Record BondingCurveState := mkCurve {
  bc_virtual_token_reserves : Z;
  bc_virtual_sol_reserves : Z;
  bc_real_token_reserves : Z;
  bc_real_sol_reserves : Z;
  bc_creator : Address;
  bc_is_cashback_coin : bool;
  bc_curve_complete : bool
}.

(* autobuy/pump_brocker.rs 2071-2079: bonding_curve_mcap_sol *)
Definition curve_mcap_raw (curve : BondingCurveState) : Z :=
  Z.min (sat_mul U128_MAX (bc_virtual_sol_reserves curve) (10 ^ 15)
         / bc_virtual_token_reserves curve) U64_MAX.

(* autobuy/pump_brocker.rs 2071-2079: bonding_curve_mcap_sol *)
Definition bonding_curve_mcap_sol (curve : BondingCurveState) : f64 :=
  if bc_virtual_token_reserves curve =? 0 then 0%float
  else amount_to_float (amount_from_raw_native (curve_mcap_raw curve)).

(* autobuy/pump_brocker.rs 2169-2185: pump_sol_out_for_tokens *)
Definition pump_sol_out_for_tokens (token_amount_raw : Z) (curve : BondingCurveState) : Z :=
  if (token_amount_raw =? 0) || (bc_virtual_sol_reserves curve =? 0)
     || (bc_virtual_token_reserves curve =? 0) then 0
  else
    let vsr := bc_virtual_sol_reserves curve in
    let vtr := bc_virtual_token_reserves curve in
    let new_vtr := sat_add U128_MAX vtr token_amount_raw in
    if new_vtr =? 0 then 0
    else
      let new_vsr := sat_mul U128_MAX vsr vtr / new_vtr in
      Z.min (sat_sub vsr new_vsr) U64_MAX.

(* autobuy/pump_brocker.rs 2196-2216: pump_max_sellable_tokens_for_sol *)
Definition pump_max_sellable_tokens_for_sol (target_sol_out : Z) (curve : BondingCurveState) : Z :=
  if (target_sol_out =? 0) || (bc_virtual_sol_reserves curve =? 0)
     || (bc_virtual_token_reserves curve =? 0) then 0
  else
    let vsr := bc_virtual_sol_reserves curve in
    let vtr := bc_virtual_token_reserves curve in
    if vsr <=? target_sol_out then U64_MAX
    else
      let denom := vsr - target_sol_out in
      let new_vtr := sat_mul U128_MAX vsr vtr / denom in
      if new_vtr <=? vtr then 0
      else Z.min (sat_sub new_vtr vtr) U64_MAX.

(** ** Decoding the account *)

(** [u64::from_le_bytes] and the like *)
Fixpoint le_of_bytes (bs : list Z) : Z :=
  match bs with [] => 0 | b :: bs' => b + 256 * le_of_bytes bs' end.
Fixpoint le_to_bytes (n : nat) (z : Z) : list Z :=
  match n with O => [] | S n' => z mod 256 :: le_to_bytes n' (z / 256) end.

Definition read_u64 (data : list Z) (off : nat) : Z := le_of_bytes (take 8 (drop off data)).

(** [SolAddress::new_from_array] *)
Definition address_of_bytes (bs : list Z) : Address := Z.to_N (le_of_bytes bs).

Definition CREATOR_OFFSET : nat := 49.
Definition CREATOR_LEN : nat := 32.
Definition IS_CASHBACK_COIN_OFFSET : nat := 82.

Definition byte_set (data : list Z) (off : nat) : bool :=
  match data !! off with Some b => negb (b =? 0) | None => false end.

(** the error carries the length read and the length needed *)
(* autobuy/pump_brocker.rs 2113-2147: fetch_bonding_curve_state *)
Definition decode_bonding_curve_state (data : list Z) : result BondingCurveState (nat * nat) :=
  if (length data <? CREATOR_OFFSET + CREATOR_LEN)%nat
  then Err (length data, (CREATOR_OFFSET + CREATOR_LEN)%nat)
  else Ok {|
    bc_virtual_token_reserves := read_u64 data 8;
    bc_virtual_sol_reserves := read_u64 data 16;
    bc_real_token_reserves := read_u64 data 24;
    bc_real_sol_reserves := read_u64 data 32;
    bc_creator := address_of_bytes (take CREATOR_LEN (drop CREATOR_OFFSET data));
    bc_is_cashback_coin := byte_set data IS_CASHBACK_COIN_OFFSET;
    bc_curve_complete := byte_set data 48 |}.

(** the RPC answer is an argument: an error, no account, or its data *)
(* autobuy/pump_brocker.rs 2094-2112: fetch_bonding_curve_state *)
Inductive CurveError := RpcError | AccountNotFound | DataTooShort (got need : nat).

(* autobuy/pump_brocker.rs 2094-2147: fetch_bonding_curve_state *)
Definition fetch_bonding_curve_state (resp : result (option (list Z)) unit)
    : result BondingCurveState CurveError :=
  match resp with
  | Err _ => Err RpcError
  | Ok None => Err AccountNotFound
  | Ok (Some data) =>
      match decode_bonding_curve_state data with
      | Ok s => Ok s
      | Err (got, need) => Err (DataTooShort got need)
      end
  end.

(* autobuy/pump_brocker.rs 2150-2161: probe_bonding_mcap_sol *)
Definition probe_bonding_mcap_sol (resp : result (option (list Z)) unit) : option f64 :=
  match fetch_bonding_curve_state resp with
  | Err _ => None
  | Ok curve =>
      if bc_curve_complete curve then None
      else
        let mcap := bonding_curve_mcap_sol curve in
        if f64_is_finite mcap && (0 <? mcap)%float then Some mcap else None
  end.

(** ** Sizing a sell *)

(** What [sell] decides before it sends anything: the raw amount of the first
    transaction, whether it was clamped, whether the account is closed in the
    same transaction, whether the route is Jupiter, the SOL expected. *)
Record SellPlan := mkSellPlan {
  plan_raw : Z;
  plan_clamped : bool;
  plan_close_ata : bool;
  plan_jupiter : bool;
  plan_expected_sol : f64
}.

(* autobuy/pump_brocker.rs 1620-1620: JUPITER_SELL_MCAP_SOL *)
Definition JUPITER_SELL_MCAP_SOL : f64 := 250%float.

(* autobuy/pump_brocker.rs 1553-1580: SolanaBroker::sell *)
Definition clamp_sell (token_amount_raw : Z) (curve_state_opt : option BondingCurveState) : Z * bool :=
  match curve_state_opt with
  | None => (token_amount_raw, false)
  | Some curve =>
      let safety_cap_lamports := u64 (u128 (bc_real_sol_reserves curve * 90) / 100) in
      let projected_sol_out := pump_sol_out_for_tokens token_amount_raw curve in
      if safety_cap_lamports <? projected_sol_out then
        let max_sellable := pump_max_sellable_tokens_for_sol safety_cap_lamports curve in
        (Z.min max_sellable token_amount_raw, true)
      else (token_amount_raw, false)
  end.

(* autobuy/pump_brocker.rs 1553-1624: SolanaBroker::sell *)
Definition sell_plan (actual_token_amount : f64) (close_account_after : bool)
    (curve_state_opt : option BondingCurveState) (pool_price : f64) : SellPlan :=
  let token_amount_raw := f64_as_u64 (f64_round (actual_token_amount * 1000000)%float) in
  let '(token_amount_raw, sell_was_clamped) := clamp_sell token_amount_raw curve_state_opt in
  let final_token_amount_ui := (f64_of_Z token_amount_raw / 1000000)%float in
  let expected_sol :=
    match curve_state_opt with
    | Some c => (f64_of_Z (pump_sol_out_for_tokens token_amount_raw c) / 1e9)%float
    | None => (final_token_amount_ui * f64_max pool_price 0)%float
    end in
  let do_close_ata := close_account_after && negb sell_was_clamped in
  let bonding_curve_complete := default false (bc_curve_complete <$> curve_state_opt) in
  let curve_mcap_sol := default 0%float (bonding_curve_mcap_sol <$> curve_state_opt) in
  let route_jupiter :=
    bonding_curve_complete
    || ((curve_mcap_sol >=? JUPITER_SELL_MCAP_SOL)%float && f64_is_finite curve_mcap_sol) in
  mkSellPlan token_amount_raw sell_was_clamped do_close_ata
    (route_jupiter && (0 <? token_amount_raw)) expected_sol.

(** the amount to sell: for a full exit the chain balance, otherwise the
    manager's amount or the tracked one *)
(* autobuy/pump_brocker.rs 1449-1508: SolanaBroker::sell *)
Definition resolve_sell_amount (close_account_after : bool) (chain : result (Z * Z) unit)
    (token_amount : f64) (tracked : option f64) : result f64 string :=
  let actual :=
    if close_account_after then
      match chain with
      | Ok (raw, decimals) =>
          if 0 <? raw then Ok (f64_of_Z raw / f64_of_Z (pow10_u64 decimals))%float else Ok 0%float
      | Err _ => Ok (f64_max token_amount 0)%float
      end
    else if (0 <? token_amount)%float then Ok token_amount
    else match tracked with
         | Some t => Ok t
         | None => Err "Calculated token amount is 0 and no WS-tracked balance found."
         end in
  match actual with
  | Err e => Err e
  | Ok a =>
      if negb close_account_after && (a <=? 0)%float
      then Err "Calculated token amount is 0. Position might not be updated via WS yet."
      else Ok a
  end.

(** ** Jupiter *)

(* autobuy/pump_brocker.rs 599-608: SolanaBroker::jupiter_slippage_steps *)
Definition jupiter_slippage_steps (base_bps : Z) : list Z :=
  List.fold_left (fun steps mul =>
    let b := Z.min (sat_mul U32_MAX base_bps mul) 3500 in
    if bool_decide (b ∈ steps) then steps else steps ++ [b]) [1; 2; 3] [].

(* autobuy/pump_brocker.rs 836-847: SolanaBroker::jupiter_chunk_amounts *)
Definition jupiter_chunk_amounts (total_raw parts : Z) : list Z :=
  if total_raw =? 0 then []
  else if (parts <=? 1) || (total_raw <? u64 (parts * 50000)) then [total_raw]
  else
    let base := total_raw / parts in
    replicate (Z.to_nat (parts - 1)) base ++ [u64 (total_raw - u64 (base * (parts - 1)))].

(* autobuy/pump_brocker.rs 2392-2398: sell_raw_delta_slack *)
Definition sell_raw_delta_slack (sold_raw : Z) : Z :=
  if sold_raw =? 0 then 0 else Z.min (Z.max (sold_raw / 10000) 1) 100.

(* autobuy/pump_brocker.rs 2422-2424: poll_ata_confirms_sell *)
Definition min_drop (sold_raw : Z) : Z :=
  Z.max (sat_sub sold_raw (sell_raw_delta_slack sold_raw)) (if 0 <? sold_raw then 1 else 0).

(** ** The sell formula and its inverse *)

(** the reserves are [u64]s and the curve is live *)
Record curve_live (c : BondingCurveState) : Prop := {
  live_vsr : 0 < bc_virtual_sol_reserves c < 2 ^ 64;
  live_vtr : 0 < bc_virtual_token_reserves c < 2 ^ 64
}.

Lemma div_ge_iff k d n : 0 < d -> n <= k / d <-> n * d <= k.
Proof.
  intros H. split; intros.
  - pose proof (Z.mul_div_le k d H). nia.
  - apply Z.div_le_lower_bound; lia.
Qed.

Lemma sol_out_live c t :
  curve_live c -> 0 <= t < 2 ^ 64 ->
  pump_sol_out_for_tokens t c =
    bc_virtual_sol_reserves c
    - bc_virtual_sol_reserves c * bc_virtual_token_reserves c / (bc_virtual_token_reserves c + t).
Proof.
  intros [[V1 V2] [T1 T2]] Ht. unfold pump_sol_out_for_tokens, sat_add, sat_mul, sat_sub, U128_MAX, U64_MAX.
  set (v := bc_virtual_sol_reserves c) in *. set (w := bc_virtual_token_reserves c) in *.
  destruct (Z.eqb_spec t 0) as [->|Ht0]; cbn [orb].
  { rewrite Z.add_0_r, Z.div_mul; lia. }
  destruct (Z.eqb_spec v 0); [lia|]. destruct (Z.eqb_spec w 0); [lia|]. cbn [orb].
  rewrite (Z.min_r _ (w + t)) by lia. rewrite (Z.min_r _ (v * w)) by nia.
  destruct (Z.eqb_spec (w + t) 0); [lia|].
  assert (0 <= v * w / (w + t) <= v) as [D1 D2].
  { split; [apply Z.div_pos; nia|]. apply Z.div_le_upper_bound; nia. }
  lia.
Qed.

Lemma sol_out_max_sellable c target t :
  curve_live c -> 0 <= target < 2 ^ 64 -> 0 <= t < 2 ^ 64 ->
  pump_sol_out_for_tokens t c <= target <-> t <= pump_max_sellable_tokens_for_sol target c.
Proof.
  intros L Htg Ht. rewrite sol_out_live by done. destruct L as [[V1 V2] [T1 T2]].
  unfold pump_max_sellable_tokens_for_sol, sat_mul, sat_sub, U128_MAX, U64_MAX.
  set (v := bc_virtual_sol_reserves c) in *. set (w := bc_virtual_token_reserves c) in *.
  assert (v - v * w / (w + t) <= target <-> (v - target) * (w + t) <= v * w) as ->.
  { rewrite <- div_ge_iff by lia. lia. }
  destruct (Z.eqb_spec v 0); [lia|]. destruct (Z.eqb_spec w 0); [lia|]. rewrite !orb_false_r.
  destruct (Z.eqb_spec target 0) as [->|N].
  { cbn [orb]. split; nia. }
  destruct (Z.leb_spec v target).
  { cbn [orb]. split; [lia|]. intros _. assert ((v - target) * (w + t) <= 0) by nia. nia. }
  rewrite (Z.min_r _ (v * w)) by nia.
  assert ((v - target) * (w + t) <= v * w <-> w + t <= v * w / (v - target)) as ->.
  { rewrite div_ge_iff by lia. lia. }
  assert (w <= v * w / (v - target)) by (apply Z.div_le_lower_bound; nia).
  destruct (Z.leb_spec (v * w / (v - target)) w); cbn [orb]; lia.
Qed.

Definition fresh_curve : BondingCurveState :=
  mkCurve 1073000000000000 30000000000 793100000000000 500000000 7%N false false.

(** [pump_max_sellable_tokens_for_sol] inverts the sell formula exactly:
    on a live curve a sale of [t] tokens yields at most [target] lamports if and
    only if [t] is at most the computed maximum, roundings included. *)
Theorem max_sellable_galois c target t :
  curve_live c -> 0 <= target < 2 ^ 64 -> 0 <= t < 2 ^ 64 ->
  pump_sol_out_for_tokens t c <= target <-> t <= pump_max_sellable_tokens_for_sol target c.
Proof. apply sol_out_max_sellable. Qed.

Lemma max_sellable_galois_witness :
  pump_sol_out_for_tokens 16363636363636 fresh_curve <= 450000000 <->
  16363636363636 <= pump_max_sellable_tokens_for_sol 450000000 fresh_curve.
Proof.
  apply max_sellable_galois; [split; split; reflexivity | split; done | split; done].
Defined.

Lemma clamp_sell_spec c t raw clamped :
  0 <= t < 2 ^ 64 -> 0 <= bc_real_sol_reserves c < 2 ^ 64 ->
  0 <= bc_virtual_sol_reserves c < 2 ^ 64 -> 0 <= bc_virtual_token_reserves c < 2 ^ 64 ->
  clamp_sell t (Some c) = (raw, clamped) ->
  let cap := bc_real_sol_reserves c * 90 / 100 in
  pump_sol_out_for_tokens raw c <= cap /\ 0 <= raw <= t /\
  (clamped = false <-> pump_sol_out_for_tokens t c <= cap) /\
  (clamped = true -> forall t', 0 <= t' <= t -> pump_sol_out_for_tokens t' c <= cap -> t' <= raw).
Proof.
  intros Ht Hr Hv Hw H. cbn zeta. unfold clamp_sell in H.
  rewrite (wrap_u_small 128) in H by (unfold in_u; lia).
  set (cap := bc_real_sol_reserves c * 90 / 100) in *.
  assert (0 <= cap < 2 ^ 64) as Hc.
  { unfold cap. split; [apply Z.div_pos; lia | apply Z.div_lt_upper_bound; lia]. }
  rewrite (wrap_u_small 64) in H by done.
  destruct (Z.ltb_spec cap (pump_sol_out_for_tokens t c)) as [B|B];
    injection H as <- <-; [|split_and!; try done; lia].
  assert (curve_live c) as L.
  { unfold pump_sol_out_for_tokens in B. destruct (t =? 0); [cbn in B; lia|].
    destruct (Z.eqb_spec (bc_virtual_sol_reserves c) 0); [cbn in B; lia|].
    destruct (Z.eqb_spec (bc_virtual_token_reserves c) 0); [cbn in B; lia|]. split; lia. }
  set (m := pump_max_sellable_tokens_for_sol cap c).
  assert (0 <= m) as Hm.
  { unfold m, pump_max_sellable_tokens_for_sol, sat_sub, U64_MAX. repeat case_match; lia. }
  assert (pump_sol_out_for_tokens (Z.min m t) c <= cap) as HS.
  { apply sol_out_max_sellable; [done..| lia | lia]. }
  split_and!; [done | lia | lia | split; [done | lia] |].
  intros _ t' Ht' Hcap. apply Z.min_glb; [|lia].
  apply sol_out_max_sellable; [done..| lia | done].
Qed.

(** C34: The amount a sell submits never drains the curve: whenever the curve
    state could be read, the SOL the formula gives for the planned raw amount is
    at most 90% of the real SOL reserves; the amount never exceeds the requested
    one, it is reduced only when the requested one would break the cap, and on a
    live curve it is then the largest amount that respects it. *)
Theorem sell_clamp_safe c t raw clamped :
  0 <= t < 2 ^ 64 -> 0 <= bc_real_sol_reserves c < 2 ^ 64 ->
  0 <= bc_virtual_sol_reserves c < 2 ^ 64 -> 0 <= bc_virtual_token_reserves c < 2 ^ 64 ->
  clamp_sell t (Some c) = (raw, clamped) ->
  let cap := bc_real_sol_reserves c * 90 / 100 in
  pump_sol_out_for_tokens raw c <= cap /\ 0 <= raw <= t /\
  (clamped = false <-> pump_sol_out_for_tokens t c <= cap) /\
  (clamped = true -> forall t', 0 <= t' <= t -> pump_sol_out_for_tokens t' c <= cap -> t' <= raw).
Proof. apply clamp_sell_spec. Qed.

Lemma sell_clamp_safe_witness :
  let r := clamp_sell 50000000000000 (Some fresh_curve) in
  let cap := bc_real_sol_reserves fresh_curve * 90 / 100 in
  pump_sol_out_for_tokens r.1 fresh_curve <= cap /\ 0 <= r.1 <= 50000000000000 /\
  (r.2 = false <-> pump_sol_out_for_tokens 50000000000000 fresh_curve <= cap) /\
  (r.2 = true -> forall t', 0 <= t' <= 50000000000000 ->
     pump_sol_out_for_tokens t' fresh_curve <= cap -> t' <= r.1).
Proof.
  apply (sell_clamp_safe fresh_curve 50000000000000); [split; done.. | reflexivity].
Defined.

(** The market cap the broker reads from the chain is the one the pool
    computes: for reserves with a cap that fits in a [u64], the account's cap
    and [Bonding::market_cap] of a pool with the same virtual reserves are the
    same number of lamports. *)
Theorem curve_mcap_agrees c b :
  bc_virtual_sol_reserves c = am_value (virtual_sol_reserves b) ->
  bc_virtual_token_reserves c = am_value (virtual_token_reserves b) ->
  in_u 64 (bc_virtual_sol_reserves c) -> 0 < bc_virtual_token_reserves c ->
  bc_virtual_sol_reserves c * 10 ^ 15 / bc_virtual_token_reserves c < 2 ^ 64 ->
  exists cap, market_cap b = Ret (Native cap) /\
    am_value cap = curve_mcap_raw c /\ amount_to_float cap = bonding_curve_mcap_sol c.
Proof.
  intros Es Et Hs Ht Hc. unfold in_u in Hs.
  exists (mkAmount (bc_virtual_sol_reserves c * 10 ^ 15 / bc_virtual_token_reserves c) 9).
  assert (curve_mcap_raw c = bc_virtual_sol_reserves c * 10 ^ 15 / bc_virtual_token_reserves c) as E.
  { unfold curve_mcap_raw, sat_mul, U128_MAX, U64_MAX. rewrite (Z.min_r (2 ^ 128 - 1)) by lia. lia. }
  split_and!.
  - cbn -[Z.mul Z.div Z.pow]. unfold bonding_market_cap, amount_raw. rewrite <- Es, <- Et.
    rewrite mul_div_u128_small; [done | done | lia | lia | done].
  - by rewrite E.
  - unfold bonding_curve_mcap_sol. destruct (Z.eqb_spec (bc_virtual_token_reserves c) 0); [lia|].
    by rewrite E.
Qed.

Lemma curve_mcap_agrees_witness :
  exists cap, market_cap fresh_bonding = Ret (Native cap) /\
    am_value cap = curve_mcap_raw fresh_curve /\
    amount_to_float cap = bonding_curve_mcap_sol fresh_curve.
Proof.
  apply (curve_mcap_agrees fresh_curve fresh_bonding); try reflexivity. by split.
Defined.

(** ** Splitting and tolerances *)

Definition sum_list (l : list Z) : Z := List.fold_right Z.add 0 l.

Lemma sum_list_app l1 l2 : sum_list (l1 ++ l2) = sum_list l1 + sum_list l2.
Proof. unfold sum_list. induction l1; cbn; lia. Qed.
Lemma sum_list_replicate n x : sum_list (replicate n x) = Z.of_nat n * x.
Proof. unfold sum_list. induction n as [|n IH]; [done|]. cbn [replicate List.fold_right]. lia. Qed.

(** Splitting a Jupiter sell loses nothing: the chunks are positive, there
    are at most [max 1 parts] of them and they add up to the total; when the
    total is split every chunk is at least 50000 raw units. *)
Theorem chunk_amounts_sum total parts :
  in_u 64 total -> in_u 32 parts ->
  let chunks := jupiter_chunk_amounts total parts in
  sum_list chunks = total /\
  Z.of_nat (length chunks) <= Z.max 1 parts /\
  Forall (fun c => 0 < c) chunks /\
  ((2 <= length chunks)%nat -> Forall (fun c => 50000 <= c) chunks).
Proof.
  intros [T1 T2] [P1 P2]. unfold jupiter_chunk_amounts.
  destruct (Z.eqb_spec total 0) as [->|N].
  { cbn. split_and!; try done; lia. }
  destruct (Z.leb_spec parts 1); cbn [orb].
  { cbn. split_and!; try lia; repeat constructor; lia. }
  rewrite wrap_u_small by (unfold in_u; lia).
  destruct (Z.ltb_spec total (parts * 50000)).
  { cbn. split_and!; try lia; repeat constructor; lia. }
  set (base := total / parts).
  assert (50000 <= base) as B1 by (apply Z.div_le_lower_bound; lia).
  assert (parts * base <= total) as B2 by (apply Z.mul_div_le; lia).
  rewrite (wrap_u_small 64 (base * _)) by (unfold in_u; nia).
  rewrite wrap_u_small by (unfold in_u; nia).
  assert (50000 <= total - base * (parts - 1)) as B3 by nia.
  assert (forall m, m <= 50000 -> Forall (fun c => m <= c)
    (replicate (Z.to_nat (parts - 1)) base ++ [total - base * (parts - 1)])) as F.
  { intros m Hm. apply Forall_app. split; [|repeat constructor; lia].
    apply Forall_replicate. lia. }
  split_and!.
  - rewrite sum_list_app, sum_list_replicate, Z2Nat.id by lia. unfold sum_list; cbn. lia.
  - rewrite length_app, length_replicate. cbn. lia.
  - eapply Forall_impl; [apply (F 1); lia|]. cbn. lia.
  - intros _. by apply F.
Qed.

Lemma chunk_amounts_sum_witness :
  let chunks := jupiter_chunk_amounts 1000000000 3 in
  chunks = [333333333; 333333333; 333333334] /\ sum_list chunks = 1000000000.
Proof.
  split; [reflexivity|].
  apply (chunk_amounts_sum 1000000000 3); split; done.
Defined.

(** the slippage steps are distinct, increasing and capped *)
Lemma slippage_steps_spec base :
  in_u 16 base ->
  Forall (fun b => b <= 3500) (jupiter_slippage_steps base) /\
  NoDup (jupiter_slippage_steps base) /\
  list.head (jupiter_slippage_steps base) = Some (Z.min base 3500).
Proof.
  intros [B1 B2]. unfold jupiter_slippage_steps, sat_mul, U32_MAX. cbn -[Z.mul Z.min Z.sub Z.pow].
  rewrite !(Z.min_r (2 ^ 32 - 1)) by lia. rewrite Z.mul_1_r.
  assert (Z.min base 3500 <= 3500 /\ Z.min (base * 2) 3500 <= 3500 /\ Z.min (base * 3) 3500 <= 3500)
    as (H1 & H2 & H3) by lia.
  repeat case_bool_decide;
    try match goal with H : _ ∈ [] |- _ => by apply not_elem_of_nil in H end;
    cbn [app] in *; split_and!;
    first [reflexivity | by repeat constructor | idtac];
    repeat (apply NoDup_cons_2; [rewrite ?elem_of_cons, ?elem_of_nil in *; lia|]);
    apply NoDup_nil_2.
Qed.

Lemma min_drop_bounds sold :
  in_u 64 sold -> 0 <= min_drop sold <= sold /\ (0 < sold -> 1 <= min_drop sold) /\
  sold - 100 <= min_drop sold.
Proof.
  intros [H1 H2]. unfold min_drop, sell_raw_delta_slack, sat_sub.
  destruct (Z.eqb_spec sold 0) as [->|N]; [cbn; lia|].
  destruct (Z.ltb_spec 0 sold); [|lia].
  assert (0 <= sold / 10000) by (apply Z.div_pos; lia). lia.
Qed.

(** ** The account layout *)

Lemma le_bytes_roundtrip n z : 0 <= z < 256 ^ Z.of_nat n -> le_of_bytes (le_to_bytes n z) = z.
Proof.
  revert z. induction n as [|n IH]; intros z Hz; cbn; [cbn in Hz; lia|].
  rewrite IH; [pose proof (Z.div_mod z 256); lia|].
  rewrite Nat2Z.inj_succ, Z.pow_succ_r in Hz by lia.
  split; [apply Z.div_pos; lia | apply Z.div_lt_upper_bound; lia].
Qed.

Lemma le_to_bytes_length n z : length (le_to_bytes n z) = n.
Proof. revert z. induction n as [|n IH]; intros z; cbn; [done | by rewrite IH]. Qed.

(** the Anchor layout of the account, as the comment above the decoder gives it *)
Definition encode_curve (disc : list Z) (c : BondingCurveState) (supply : Z) (mayhem : bool)
    (rest : list Z) : list Z :=
  disc ++ le_to_bytes 8 (bc_virtual_token_reserves c) ++ le_to_bytes 8 (bc_virtual_sol_reserves c)
  ++ le_to_bytes 8 (bc_real_token_reserves c) ++ le_to_bytes 8 (bc_real_sol_reserves c)
  ++ le_to_bytes 8 supply ++ [Z.b2z (bc_curve_complete c)]
  ++ le_to_bytes 32 (Z.of_N (bc_creator c)) ++ [Z.b2z mayhem] ++ [Z.b2z (bc_is_cashback_coin c)]
  ++ rest.

Record curve_wf (c : BondingCurveState) : Prop := {
  wf_vtr : in_u 64 (bc_virtual_token_reserves c);
  wf_vsr : in_u 64 (bc_virtual_sol_reserves c);
  wf_rtr : in_u 64 (bc_real_token_reserves c);
  wf_rsr : in_u 64 (bc_real_sol_reserves c);
  wf_creator : Z.of_N (bc_creator c) < 2 ^ 256
}.

(** Decoding inverts the account layout: for every account that encodes a
    state in the documented layout, whatever its discriminator, supply, mayhem
    flag and trailing bytes, the decoder returns that state. *)
Theorem decode_encode_curve disc c supply mayhem rest :
  length disc = 8%nat -> curve_wf c ->
  decode_bonding_curve_state (encode_curve disc c supply mayhem rest) = Ok c.
Proof.
  intros Hd [W1 W2 W3 W4 W5]. unfold in_u in *.
  assert (forall v, 0 <= v < 2 ^ 64 -> le_of_bytes (le_to_bytes 8 v) = v) as R8
    by (intros; by apply le_bytes_roundtrip).
  assert (length (encode_curve disc c supply mayhem rest) = 83 + length rest)%nat as HL.
  { unfold encode_curve. rewrite !length_app, !le_to_bytes_length, Hd. cbn. lia. }
  unfold decode_bonding_curve_state, CREATOR_OFFSET, CREATOR_LEN, IS_CASHBACK_COIN_OFFSET.
  destruct (Nat.ltb_spec (length (encode_curve disc c supply mayhem rest)) (49 + 32)); [lia|].
  clear HL H. do 8 (destruct disc as [|? disc]; [discriminate|]).
  destruct disc; [clear Hd|discriminate].
  destruct c as [vt vs rt rs cr cb cc]; cbn -[le_of_bytes le_to_bytes] in W1, W2, W3, W4, W5.
  transitivity (Ok (E := nat * nat) {|
    bc_virtual_token_reserves := le_of_bytes (le_to_bytes 8 vt);
    bc_virtual_sol_reserves := le_of_bytes (le_to_bytes 8 vs);
    bc_real_token_reserves := le_of_bytes (le_to_bytes 8 rt);
    bc_real_sol_reserves := le_of_bytes (le_to_bytes 8 rs);
    bc_creator := address_of_bytes (le_to_bytes 32 (Z.of_N cr));
    bc_is_cashback_coin := negb (Z.b2z cb =? 0);
    bc_curve_complete := negb (Z.b2z cc =? 0) |}); [reflexivity|].
  unfold address_of_bytes.
  rewrite !R8, le_bytes_roundtrip, N2Z.id by (cbn; lia). by destruct cb, cc.
Qed.

Lemma decode_encode_curve_witness :
  decode_bonding_curve_state (encode_curve (repeat 7 8) fresh_curve 10 true [1; 2]) = Ok fresh_curve.
Proof. apply decode_encode_curve; [reflexivity | by repeat split]. Defined.
