(* ===== verification/Text.v ===== *)
(** The string operations of the source, on byte strings.

    [contains], [starts_with], [find], [to_ascii_lowercase], the [{:.k}]
    formatting of floats and [str::parse::<f64>] of the Rust standard library,
    with the facts about searching in a concatenation that the close-reason
    theorems use. *)
From Stdlib Require Import Ascii DecimalString.
From S2P Require Import Prelude.

Local Open Scope string_scope.
Local Open Scope Z_scope.

(** [p] is a prefix of [s] *)
Fixpoint starts_with (p s : string) : bool :=
  match p, s with
  | "", _ => true
  | String a p', String b s' => if Ascii.eqb a b then starts_with p' s' else false
  | _, "" => false
  end.

Fixpoint str_find (needle s : string) : option nat :=
  if starts_with needle s then Some O
  else match s with
       | "" => None
       | String _ s' => S <$> str_find needle s'
       end.

Definition contains (needle s : string) : bool :=
  match str_find needle s with Some _ => true | None => false end.

Fixpoint str_drop (n : nat) (s : string) : string :=
  match n, s with
  | S n', String _ s' => str_drop n' s'
  | _, _ => s
  end.

Fixpoint str_take (n : nat) (s : string) : string :=
  match n, s with
  | S n', String c s' => String c (str_take n' s')
  | _, _ => ""
  end.

(** byte [n] starts a character, or is the end *)
Definition char_boundary (s : string) (n : nat) : bool :=
  match str_drop n s with
  | String c _ => negb ((128 <=? N_of_ascii c) && (N_of_ascii c <? 192))%N
  | "" => (n =? String.length s)%nat
  end.

(** [&s[..n]] and [&s[n..]] panic inside a character and past the end *)
Definition slice_to (n : nat) (s : string) : outcome string :=
  if char_boundary s n then Ret (str_take n s) else Panic OutOfBounds.
Definition slice_from (n : nat) (s : string) : outcome string :=
  if char_boundary s n then Ret (str_drop n s) else Panic OutOfBounds.

Definition ends_with (p s : string) : bool :=
  if (String.length p <=? String.length s)%nat
  then String.eqb (str_drop (String.length s - String.length p) s) p else false.

(** [strip_prefix] *)
Definition strip_prefix (p s : string) : option string :=
  if starts_with p s then Some (str_drop (String.length p) s) else None.

Definition ascii_lower (c : ascii) : ascii :=
  let n := N_of_ascii c in
  if ((65 <=? n) && (n <=? 90))%N then ascii_of_N (n + 32) else c.

Fixpoint to_ascii_lowercase (s : string) : string :=
  match s with "" => "" | String c s' => String (ascii_lower c) (to_ascii_lowercase s') end.

Definition is_whitespace (c : ascii) : bool :=
  let n := N_of_ascii c in ((n =? 32) || ((9 <=? n) && (n <=? 13)))%N.

Fixpoint trim_start (s : string) : string :=
  match s with
  | String c s' => if is_whitespace c then trim_start s' else s
  | "" => ""
  end.

Fixpoint str_rev_app (s acc : string) : string :=
  match s with "" => acc | String c s' => str_rev_app s' (String c acc) end.
Definition trim (s : string) : string :=
  let r := trim_start (str_rev_app (trim_start s) "") in str_rev_app r "".

(** up to the first character that satisfies [f] *)
Fixpoint take_until (f : ascii -> bool) (s : string) : string :=
  match s with
  | "" => ""
  | String c s' => if f c then "" else String c (take_until f s')
  end.

(** ** Numbers *)

Definition digit (n : Z) : ascii := ascii_of_N (Z.to_N (48 + n mod 10)).

(** the last [k] decimal digits of [n] *)
Fixpoint digits (k : nat) (n : Z) (acc : string) : string :=
  match k with
  | O => acc
  | S k' => digits k' (n / 10) (String (digit n) acc)
  end.

(** [{}] of an integer *)
Definition fmt_int (z : Z) : string := NilZero.string_of_int (Z.to_int z).

Definition show_fixed (k : nat) (n : Z) : string :=
  match k with
  | O => fmt_int n
  | _ => fmt_int (n / 10 ^ Z.of_nat k) +:+ "." +:+ digits k n ""
  end.

(** [m * 2^e * 10^k] rounded to the nearest integer, ties to even *)
Definition scale_round (m : positive) (e : Z) (k : nat) : Z :=
  let num := Z.pos m * 10 ^ Z.of_nat k in
  if 0 <=? e then num * 2 ^ e
  else
    let d := 2 ^ (- e) in
    let q := num / d in
    match Z.compare (2 * (num mod d)) d with
    | Lt => q
    | Gt => q + 1
    | Eq => if Z.even q then q else q + 1
    end.

(** [format!("{:.k}", x)]: the exact decimal expansion, rounded half to even *)
Definition fmt_fixed (k : nat) (x : f64) : string :=
  let sign (s : bool) := if s then "-" else "" in
  match Prim2SF x with
  | S754_nan => "NaN"
  | S754_infinity s => sign s +:+ "inf"
  | S754_zero s => sign s +:+ show_fixed k 0
  | S754_finite s m e => sign s +:+ show_fixed k (scale_round m e k)
  end.

(** [format!("{:+.k}", x)] *)
Definition fmt_signed (k : nat) (x : f64) : string :=
  match Prim2SF x with
  | S754_infinity false | S754_zero false | S754_finite false _ _ => "+" +:+ fmt_fixed k x
  | _ => fmt_fixed k x
  end.

Definition digit_of (c : ascii) : option Z :=
  let n := Z.of_N (N_of_ascii c) in
  if (48 <=? n) && (n <=? 57) then Some (n - 48) else None.

(** a run of digits: its value, its length and what follows *)
Fixpoint span_digits (s : string) (acc : Z) (k : nat) : Z * nat * string :=
  match s with
  | String c s' =>
      match digit_of c with
      | Some d => span_digits s' (10 * acc + d) (S k)
      | None => (acc, k, s)
      end
  | "" => (acc, k, s)
  end.

(** [n * 10^e] correctly rounded: the quotient is computed with two guard bits
    and a sticky bit *)
Definition f64_of_decimal (n e : Z) : f64 :=
  if n =? 0 then 0%float
  else if 0 <=? e then f64_of_Z (n * 10 ^ e)
  else
    let d := 10 ^ (- e) in
    let s := Z.max 0 (56 + Z.log2 d - Z.log2 n) in
    let num := n * 2 ^ s in
    let m := 2 * (num / d) + (if num mod d =? 0 then 0 else 1) in
    SF2Prim (binary_normalize FloatOps.prec FloatOps.emax m (- s - 1) false).

Definition split_sign (s : string) : bool * string :=
  match s with
  | String "-"%char s' => (true, s')
  | String "+"%char s' => (false, s')
  | _ => (false, s)
  end.

(** the exponent suffix, when there is one *)
Definition parse_exponent (s : string) : option Z :=
  match s with
  | "" => Some 0
  | String c s' =>
      if String.eqb (to_ascii_lowercase (String c "")) "e" then
        let '(neg, s1) := split_sign s' in
        let '(v, k, rest) := span_digits s1 0 0 in
        match k, rest with
        | S _, "" => Some (if neg then - v else v)
        | _, _ => None
        end
      else None
  end.

(** [str::parse::<f64>] *)
Definition parse_f64 (s : string) : option f64 :=
  let '(neg, body) := split_sign s in
  let signed (x : f64) := if neg then (- x)%float else x in
  let low := to_ascii_lowercase body in
  if String.eqb low "inf" || String.eqb low "infinity" then Some (signed infinity)
  else if String.eqb low "nan" then Some nan
  else
    let '(ip, ki, s1) := span_digits body 0 0 in
    let '(fp, kf, s2) :=
      match s1 with
      | String "."%char s1' => span_digits s1' ip 0
      | _ => (ip, O, s1)
      end in
    if (ki + kf =? 0)%nat then None
    else match parse_exponent s2 with
         | Some e => Some (signed (f64_of_decimal fp (e - Z.of_nat kf)))
         | None => None
         end.

Example fmt_fixed_ties :
  fmt_fixed 1 (-16.25)%float = "-16.2" /\ fmt_fixed 1 (72.35)%float = "72.3" /\
  fmt_fixed 1 (-0.04)%float = "-0.0" /\ fmt_fixed 0 (2.5)%float = "2".
Proof. vm_compute. auto. Qed.

Example parse_f64_examples :
  parse_f64 "72.4" = Some 72.4%float /\ parse_f64 "-0.1" = Some (-0.1)%float /\
  parse_f64 "" = None /\ parse_f64 "1e3" = Some 1000%float /\ parse_f64 ".5" = Some 0.5%float /\
  parse_f64 "." = None.
Proof. vm_compute. auto 10. Qed.

(** ** Characters of formatted numbers *)

Fixpoint str_all (f : ascii -> bool) (s : string) : bool :=
  match s with "" => true | String c s' => f c && str_all f s' end.

Lemma str_all_app f a b : str_all f (a +:+ b) = str_all f a && str_all f b.
Proof.
  induction a as [|c a IH]; [done|].
  change (str_all f (String c a +:+ b)) with (f c && str_all f (a +:+ b)).
  rewrite IH. apply andb_assoc.
Qed.

Lemma str_all_impl (f g : ascii -> bool) s :
  (forall c, f c = true -> g c = true) -> str_all f s = true -> str_all g s = true.
Proof.
  intros H. induction s as [|c s IH]; [done|]. cbn. intros [H1 H2]%andb_true_iff.
  by rewrite (H c H1), IH.
Qed.

Definition numeric_char (c : ascii) : bool :=
  match digit_of c with Some _ => true | None => Ascii.eqb c "-" || Ascii.eqb c "." end.

Lemma digit_numeric n : numeric_char (digit n) = true.
Proof.
  unfold digit. pose proof (Z.mod_pos_bound n 10 eq_refl) as H.
  assert (n mod 10 = 0 \/ n mod 10 = 1 \/ n mod 10 = 2 \/ n mod 10 = 3 \/ n mod 10 = 4 \/
    n mod 10 = 5 \/ n mod 10 = 6 \/ n mod 10 = 7 \/ n mod 10 = 8 \/ n mod 10 = 9) as HD by lia.
  repeat (destruct HD as [->|HD]; [reflexivity|]). by rewrite HD.
Qed.

Lemma digits_numeric k n acc :
  str_all numeric_char acc = true -> str_all numeric_char (digits k n acc) = true.
Proof.
  revert n acc. induction k as [|k IH]; intros n acc H; [exact H|]. cbn [digits].
  apply IH. cbn [str_all]. by rewrite digit_numeric.
Qed.

Lemma uint_numeric d : str_all numeric_char (NilEmpty.string_of_uint d) = true.
Proof. induction d; cbn; auto. Qed.

Lemma fmt_int_numeric z : str_all numeric_char (fmt_int z) = true.
Proof.
  unfold fmt_int, NilZero.string_of_int, NilZero.string_of_uint.
  destruct (Z.to_int z) as [d|d]; destruct d; cbn; try done; apply uint_numeric.
Qed.

Lemma show_fixed_numeric k n : str_all numeric_char (show_fixed k n) = true.
Proof.
  unfold show_fixed. destruct k; [apply fmt_int_numeric|].
  rewrite !str_all_app, fmt_int_numeric. cbn [andb]. apply (digits_numeric (S k) n ""). reflexivity.
Qed.

(** a formatted float is [NaN], an infinity, or made of digits, a point and a
    sign *)
Lemma fmt_fixed_chars k x :
  fmt_fixed k x = "NaN" \/ fmt_fixed k x = "inf" \/ fmt_fixed k x = "-inf" \/
  str_all numeric_char (fmt_fixed k x) = true.
Proof.
  unfold fmt_fixed. destruct (Prim2SF x) as [s|s| |s m e]; [|destruct s; auto|auto|];
    do 3 right; rewrite str_all_app, show_fixed_numeric; by destruct s.
Qed.

(** ** Searching *)

(** what follows the first occurrence *)
Fixpoint str_after (needle s : string) : option string :=
  if starts_with needle s then Some (str_drop (String.length needle) s)
  else match s with
       | "" => None
       | String _ s' => str_after needle s'
       end.

Lemma str_find_after needle s :
  (fun i => str_drop (i + String.length needle) s) <$> str_find needle s = str_after needle s.
Proof.
  induction s as [|c s IH]; cbn [str_find str_after]; destruct (starts_with needle _); try done.
  rewrite <- IH. by destruct (str_find needle s).
Qed.

Lemma append_cons c a b : String c a +:+ b = String c (a +:+ b).
Proof. done. Qed.

Lemma append_assoc a b c : (a +:+ b) +:+ c = a +:+ (b +:+ c).
Proof. induction a as [|x a IH]; [done|]. rewrite !append_cons. by rewrite IH. Qed.

Lemma append_nil b : "" +:+ b = b.
Proof. done. Qed.

Lemma after_numeric c1 v s rest :
  str_all numeric_char s = true -> numeric_char c1 = false ->
  str_after (String c1 v) (s +:+ rest) = str_after (String c1 v) rest.
Proof.
  intros Hs Hc. induction s as [|c s IH]; [done|].
  cbn [str_all] in Hs. apply andb_true_iff in Hs as [H1 H2].
  rewrite append_cons. cbn [str_after starts_with].
  destruct (Ascii.eqb_spec c1 c) as [->|_]; [congruence|]. by apply IH.
Qed.

(** no needle that starts with a letter outside [NaN] and [inf] is found inside
    a formatted float *)
Lemma after_fixed k x c1 c2 v c rest :
  numeric_char c1 || existsb (Ascii.eqb c1) ["N"; "a"; "i"; "n"]%char = false ->
  Ascii.eqb c2 c = false ->
  str_after (String c1 (String c2 v)) (fmt_fixed k x +:+ String c rest)
  = str_after (String c1 (String c2 v)) (String c rest).
Proof.
  intros H1 H2. apply orb_false_iff in H1 as [HN HE]. cbn [existsb] in HE.
  repeat (apply orb_false_iff in HE as [?H HE]).
  destruct (fmt_fixed_chars k x) as [-> | [-> | [-> | HS]]]; [.. | by apply after_numeric].
  - rewrite !append_cons, append_nil. cbn [str_after starts_with].
    by rewrite H, H0.
  - rewrite !append_cons, append_nil. cbn [str_after starts_with].
    rewrite H1, H3, H2. by destruct (Ascii.eqb c1 "f").
  - rewrite !append_cons, append_nil. cbn [str_after starts_with].
    rewrite H1, H3, H2.
    destruct (Ascii.eqb_spec c1 "-"%char) as [->|_]; [done|]. by destruct (Ascii.eqb c1 "f").
Qed.

Lemma take_until_app f s c rest :
  str_all (fun c => negb (f c)) s = true -> f c = true -> take_until f (s +:+ String c rest) = s.
Proof.
  intros Hs Hc. induction s as [|a s IH]; [rewrite append_nil; cbn; by rewrite Hc|].
  cbn [str_all] in Hs. apply andb_true_iff in Hs as [H1 H2]. apply negb_true_iff in H1.
  rewrite append_cons. cbn [take_until]. by rewrite H1, IH.
Qed.

Lemma trim_start_id s : str_all (fun c => negb (is_whitespace c)) s = true -> trim_start s = s.
Proof.
  destruct s as [|c s]; [done|]. cbn [str_all trim_start].
  intros [H _]%andb_true_iff. apply negb_true_iff in H. by rewrite H.
Qed.

Lemma str_rev_app_all f s acc :
  str_all f (str_rev_app s acc) = str_all f s && str_all f acc.
Proof.
  revert acc. induction s as [|c s IH]; intros acc; [done|]. cbn [str_rev_app str_all].
  rewrite IH. cbn [str_all]. destruct (f c), (str_all f s); done.
Qed.

Lemma str_rev_app_rev s acc acc' : str_rev_app (str_rev_app s acc) acc' = str_rev_app acc (s +:+ acc').
Proof. revert acc. induction s as [|c s IH]; intros acc; [done|]. cbn [str_rev_app]. by rewrite IH. Qed.

Lemma trim_id s : str_all (fun c => negb (is_whitespace c)) s = true -> trim s = s.
Proof.
  intros H. unfold trim. rewrite (trim_start_id s H).
  rewrite trim_start_id by (rewrite str_rev_app_all, H; done).
  rewrite str_rev_app_rev. clear H. cbn [str_rev_app].
  induction s as [|c s IH]; [done|]. rewrite append_cons. by rewrite IH.
Qed.

(** a formatted float contains none of the delimiters the parsers stop at *)
Lemma fmt_fixed_all f k x :
  (forall c, numeric_char c = true -> f c = true) ->
  forallb f ["N"; "a"; "i"; "n"; "f"]%char = true -> str_all f (fmt_fixed k x) = true.
Proof.
  intros Hf HC. cbn [forallb] in HC. repeat (apply andb_true_iff in HC as [?H HC]).
  pose proof (Hf "-"%char eq_refl) as HM.
  destruct (fmt_fixed_chars k x) as [-> | [-> | [-> | HS]]]; cbn [str_all].
  - by rewrite H, H0.
  - by rewrite H1, H2, H3.
  - by rewrite HM, H1, H2, H3.
  - by apply (str_all_impl numeric_char).
Qed.
