(* ===== verification/LivePosition.v ===== *)
(** The live tape of an open position, [src/src/scoring/live_position.rs].

    The swarm is an actor: each query of it may see a later state, so the
    functions take one swarm state per query.  [sm] is the smart-money handle's
    [filter_smart_wallets]. *)
From S2P Require Import Prelude Amounts Pump Swarm Features.

Section Live.
Context (tanh : f64 -> f64).

Definition SmartFilter := list Address -> list Address.

(** regular then sniper traders, as the loops chain them *)
Definition regular_sniper (s : Swarm) : list (Address * Trader) :=
  of_type Regular s ++ of_type Sniper s.

Definition still_holding (l : list (Address * Trader)) : list Address :=
  (List.filter (fun at_ => 0 <? amount_raw (current_holdings at_.2)) l).*1.

(* scoring/live_position.rs 16-35: count_smart_wallets_still_long *)
Definition count_smart_wallets_still_long (s : Swarm) (sm : option SmartFilter) : Z :=
  match sm with
  | None => 0
  | Some filter_smart_wallets =>
      match still_holding (regular_sniper s) with
      | [] => 0
      | addrs => u32 (Z.of_nat (length (filter_smart_wallets addrs)))
      end
  end.

(* scoring/live_position.rs 38-65: count_smart_early_exits *)
Definition count_smart_early_exits (s : Swarm) (sm : option SmartFilter)
    (early_buyers : list Address) : Z :=
  match sm with
  | None => 0
  | Some filter_smart_wallets =>
      match early_buyers with
      | [] => 0
      | _ =>
          match filter_smart_wallets early_buyers with
          | [] => 0
          | smart_addrs =>
              let holding := still_holding (regular_sniper s) in
              u32 (Z.of_nat (length
                (List.filter (fun a => negb (bool_decide (a ∈ holding))) smart_addrs)))
          end
      end
  end.

(* scoring/live_position.rs 132-146: LivePositionSnapshot *)
Record LivePositionSnapshot := mkLivePositionSnapshot {
  lp_tape : EarlyTapePoint;
  lp_buyers_per_sec : f64;
  lp_holder_growth_rate : f64;
  lp_volume_delta : f64;
  lp_liquidity_delta : f64;
  lp_smart_wallet_count : Z;
  lp_smart_wallet_exits : Z;
  lp_buy_sell_ratio : f64;
  lp_sell_pressure_score : f64;
  lp_bundle_similar : f64;
  lp_bundle_identical : f64;
  lp_mcap_sol : f64
}.

(** [s0 .. s3] are the swarm's states at the four rounds of queries *)
(* scoring/live_position.rs 68-130: snapshot_live_position *)
Definition snapshot_live_position (pool : PumpPool Bonding) (s0 s1 s2 s3 : Swarm)
    (prev : option EarlyTapePoint) (held_secs : Z) (sm : option SmartFilter)
    (early_buyers : list Address) (bundle_tolerance : f64) : outcome LivePositionSnapshot :=
  curr ← snapshot_early_tape (of_type Regular s0) (of_type Sniper s0) pool;
  let smart_count := count_smart_wallets_still_long s1 sm in
  let smart_exits := count_smart_early_exits s2 sm early_buyers in
  let dt := f64_of_Z (Z.max held_secs 1) in
  let '(bps, growth, dv, dl) :=
    match prev with
    | Some p =>
        ((f64_of_Z (sat_sub (tp_buyer_count curr) (tp_buyer_count p)) / dt)%float,
         (f64_of_Z (sat_sub (tp_still_long curr) (tp_still_long p)) / dt)%float,
         ((tp_buy_volume_sol curr - tp_buy_volume_sol p) / dt)%float,
         ((tp_mcap_sol curr - tp_mcap_sol p) / dt)%float)
    | None => ((f64_of_Z (tp_buyer_count curr) / dt)%float, 0%float, 0%float, 0%float)
    end in
  let tape_derived :=
    match prev with
    | Some p => from_tape_points tanh [p; curr] smart_exits
    | None => from_tape_points tanh [curr] smart_exits
    end in
  let buy_sizes := List.filter (fun s => (0 <? s)%float)
    ((fun at_ => amount_to_float (total_spent at_.2)) <$> regular_sniper s3) in
  let bundle := compute_bundle_stats buy_sizes bundle_tolerance in
  let b2s :=
    if tp_already_sold curr =? 0 then f64_of_Z (tp_still_long curr)
    else (f64_of_Z (tp_still_long curr) / f64_of_Z (tp_already_sold curr))%float in
  Ret {| lp_tape := curr; lp_buyers_per_sec := bps; lp_holder_growth_rate := growth;
         lp_volume_delta := dv; lp_liquidity_delta := dl;
         lp_smart_wallet_count := smart_count; lp_smart_wallet_exits := smart_exits;
         lp_buy_sell_ratio := b2s;
         lp_sell_pressure_score := td_sell_pressure_score tape_derived;
         lp_bundle_similar := bs_similar_size_ratio bundle;
         lp_bundle_identical := bs_identical_size_ratio bundle;
         lp_mcap_sol := tp_mcap_sol curr |}.

(** A sell pressure read from a tape never exceeds 1. *)
Lemma clamp_unit_le x : (1.2 <? f64_clamp x 0%float 1%float)%float = false.
Proof. unfold f64_clamp. repeat case_match; f64_order. Qed.

Lemma tape_sell_pressure_le points exits :
  (1.2 <? td_sell_pressure_score (from_tape_points tanh points exits))%float = false.
Proof.
  unfold from_tape_points. destruct points as [|p ps]; [reflexivity|].
  destruct (list.last (p :: ps)); [apply clamp_unit_le | reflexivity].
Qed.

Lemma snapshot_sell_pressure_le pool s0 s1 s2 s3 prev held sm eb tol live :
  snapshot_live_position pool s0 s1 s2 s3 prev held sm eb tol = Ret live ->
  (1.2 <? lp_sell_pressure_score live)%float = false.
Proof.
  unfold snapshot_live_position. destruct (snapshot_early_tape _ _ _) as [curr|]; [|done].
  cbv beta iota delta [mbind outcome_bind].
  destruct prev; cbv beta iota zeta; intros E; injection E as <-;
    apply clamp_unit_le.
Qed.
End Live.
