(* ===== verification/ExitEngine.v ===== *)
(** The exit engine, [src/src/autobuy/exit_engine.rs].

    Pure functions of the position's numbers: the per-profile take-profit
    tables, the live score, the phase machine, the stop-loss triggers, the
    median filter of the exit market cap and the text of a stop-loss reason.
    The two functions that read a whole position are in [Positions]. *)
From S2P Require Import Prelude Text Amounts Pump Swarm Features Learning LivePosition.

(* autobuy/exit_engine.rs 24-31: ExitProfile *)
Inductive ExitProfile := ProfWeak | ProfNeutral | ProfStrong | ProfRunner.
#[export] Instance ExitProfile_eq_dec : EqDecision ExitProfile.
Proof. solve_decision. Defined.

(* autobuy/exit_engine.rs 34-41: ExitProfile::as_str *)
Definition profile_as_str (p : ExitProfile) : string :=
  match p with
  | ProfWeak => "weak" | ProfNeutral => "neutral" | ProfStrong => "strong" | ProfRunner => "runner"
  end.

(* autobuy/exit_engine.rs 45-53: PositionPhase *)
Inductive PositionPhase := Exploration | Momentum | Expansion | Distribution.
#[export] Instance PositionPhase_eq_dec : EqDecision PositionPhase.
Proof. solve_decision. Defined.

(* autobuy/exit_engine.rs 56-63: PositionPhase::as_str *)
Definition phase_as_str (p : PositionPhase) : string :=
  match p with
  | Exploration => "exploration" | Momentum => "momentum"
  | Expansion => "expansion" | Distribution => "distribution"
  end.

(* autobuy/exit_engine.rs 17-22: TkEntryThresholds *)
Record TkEntryThresholds := mkTkEntryThresholds {
  tke_strong_min_buyers : Z;
  tke_strong_min_b2s : f64;
  tke_weak_max_buyers : Z;
  tke_weak_max_b2s : f64
}.
#[export] Instance TkEntryThresholds_settable : Settable TkEntryThresholds := fun r =>
  mkTkEntryThresholds (tke_strong_min_buyers r) (tke_strong_min_b2s r) (tke_weak_max_buyers r)
    (tke_weak_max_b2s r).

(* autobuy/exit_engine.rs 69-100: ExitTpProfile *)
Record ExitTpProfile := mkExitTpProfile {
  ep_tp1_pct : f64;
  ep_tp1_sell_pct : f64;
  ep_tp2_pct : f64;
  ep_tp2_sell_pct : f64;
  ep_tp3_pct : f64;
  ep_tp3_sell_pct : f64;
  ep_tp4_pct : f64;
  ep_tp4_sell_pct : f64;
  ep_tp5_pct : f64;
  ep_tp5_sell_pct : f64;
  ep_trailing_stop_drawdown_pct : f64;
  ep_trailing_activate_profit_pct : f64;
  ep_trailing_floor_profit_pct : f64;
  ep_smart_stop_activate_profit_pct : f64;
  ep_smart_stop_floor_profit_pct : f64
}.
#[export] Instance ExitTpProfile_settable : Settable ExitTpProfile := fun r =>
  mkExitTpProfile (ep_tp1_pct r) (ep_tp1_sell_pct r) (ep_tp2_pct r) (ep_tp2_sell_pct r)
    (ep_tp3_pct r) (ep_tp3_sell_pct r) (ep_tp4_pct r) (ep_tp4_sell_pct r) (ep_tp5_pct r)
    (ep_tp5_sell_pct r) (ep_trailing_stop_drawdown_pct r) (ep_trailing_activate_profit_pct r)
    (ep_trailing_floor_profit_pct r) (ep_smart_stop_activate_profit_pct r)
    (ep_smart_stop_floor_profit_pct r).

(* autobuy/exit_engine.rs 514-532: default_profile_weak *)
Definition default_profile_weak : ExitTpProfile := {|
  ep_tp1_pct := 30%float;
  ep_tp1_sell_pct := 40%float;
  ep_tp2_pct := 50%float;
  ep_tp2_sell_pct := 40%float;
  ep_tp3_pct := 100%float;
  ep_tp3_sell_pct := 15%float;
  ep_tp4_pct := 150%float;
  ep_tp4_sell_pct := 10%float;
  ep_tp5_pct := 200%float;
  ep_tp5_sell_pct := 10%float;
  ep_trailing_stop_drawdown_pct := 14%float;
  ep_trailing_activate_profit_pct := 50%float;
  ep_trailing_floor_profit_pct := 15%float;
  ep_smart_stop_activate_profit_pct := 50%float;
  ep_smart_stop_floor_profit_pct := 5%float
|}.

(* autobuy/exit_engine.rs 102-106: Default for ExitTpProfile *)
Definition ExitTpProfile_default : ExitTpProfile := default_profile_weak.

(* autobuy/exit_engine.rs 580-598: default_profile_neutral *)
Definition default_profile_neutral : ExitTpProfile := {|
  ep_tp1_pct := 30%float;
  ep_tp1_sell_pct := 35%float;
  ep_tp2_pct := 50%float;
  ep_tp2_sell_pct := 25%float;
  ep_tp3_pct := 100%float;
  ep_tp3_sell_pct := 12%float;
  ep_tp4_pct := 150%float;
  ep_tp4_sell_pct := 10%float;
  ep_tp5_pct := 200%float;
  ep_tp5_sell_pct := 10%float;
  ep_trailing_stop_drawdown_pct := 20%float;
  ep_trailing_activate_profit_pct := 60%float;
  ep_trailing_floor_profit_pct := 25%float;
  ep_smart_stop_activate_profit_pct := 50%float;
  ep_smart_stop_floor_profit_pct := 5%float
|}.

(* autobuy/exit_engine.rs 600-618: default_profile_strong *)
Definition default_profile_strong : ExitTpProfile := {|
  ep_tp1_pct := 30%float;
  ep_tp1_sell_pct := 30%float;
  ep_tp2_pct := 50%float;
  ep_tp2_sell_pct := 15%float;
  ep_tp3_pct := 100%float;
  ep_tp3_sell_pct := 10%float;
  ep_tp4_pct := 150%float;
  ep_tp4_sell_pct := 10%float;
  ep_tp5_pct := 200%float;
  ep_tp5_sell_pct := 10%float;
  ep_trailing_stop_drawdown_pct := 26%float;
  ep_trailing_activate_profit_pct := 60%float;
  ep_trailing_floor_profit_pct := 35%float;
  ep_smart_stop_activate_profit_pct := 50%float;
  ep_smart_stop_floor_profit_pct := 5%float
|}.

(* autobuy/exit_engine.rs 620-638: default_profile_runner *)
Definition default_profile_runner : ExitTpProfile := {|
  ep_tp1_pct := 50%float;
  ep_tp1_sell_pct := 10%float;
  ep_tp2_pct := 80%float;
  ep_tp2_sell_pct := 10%float;
  ep_tp3_pct := 150%float;
  ep_tp3_sell_pct := 15%float;
  ep_tp4_pct := 250%float;
  ep_tp4_sell_pct := 12%float;
  ep_tp5_pct := 350%float;
  ep_tp5_sell_pct := 10%float;
  ep_trailing_stop_drawdown_pct := 32%float;
  ep_trailing_activate_profit_pct := 55%float;
  ep_trailing_floor_profit_pct := 30%float;
  ep_smart_stop_activate_profit_pct := 45%float;
  ep_smart_stop_floor_profit_pct := 8%float
|}.

(* autobuy/exit_engine.rs 206-208: default_true *)
Definition exit_default_true : bool := true.

(* autobuy/exit_engine.rs 210-212: default_hold_min_live_score *)
Definition default_hold_min_live_score : Z := 13.

(* autobuy/exit_engine.rs 214-216: default_phase_momentum_min *)
Definition default_phase_momentum_min : Z := 5.

(* autobuy/exit_engine.rs 218-220: default_phase_expansion_min *)
Definition default_phase_expansion_min : Z := 10.

(* autobuy/exit_engine.rs 222-224: default_phase_distribution_max *)
Definition default_phase_distribution_max : Z := 3.

(* autobuy/exit_engine.rs 226-228: default_runner_upgrade_min_live_score *)
Definition default_runner_upgrade_min_live_score : Z := 11.

(* autobuy/exit_engine.rs 230-232: default_re_expansion_min_score *)
Definition default_re_expansion_min_score : Z := 8.

(* autobuy/exit_engine.rs 234-236: default_re_expansion_min_profit_pct *)
Definition default_re_expansion_min_profit_pct : f64 := 20%float.

(* autobuy/exit_engine.rs 238-240: default_bundle_tolerance *)
Definition default_bundle_tolerance : f64 := 0.08%float.

(* autobuy/exit_engine.rs 242-244: default_exit_v4_enabled *)
Definition default_exit_v4_enabled : bool := true.

(* autobuy/exit_engine.rs 246-248: default_live_score_refresh_secs *)
Definition default_live_score_refresh_secs : Z := 4.

(* autobuy/exit_engine.rs 250-252: default_exit_grace_secs *)
Definition default_exit_grace_secs : Z := 8.

(* autobuy/exit_engine.rs 254-256: default_exit_grace_secs_tier_a *)
Definition default_exit_grace_secs_tier_a : Z := 14.

(* autobuy/exit_engine.rs 258-260: default_exit_grace_secs_tier_a_plus *)
Definition default_exit_grace_secs_tier_a_plus : Z := 19.

(* autobuy/exit_engine.rs 262-264: default_decay_early_hold_secs *)
Definition default_decay_early_hold_secs : Z := 25.

(* autobuy/exit_engine.rs 266-268: default_decay_early_mcap_profit_min_pct *)
Definition default_decay_early_mcap_profit_min_pct : f64 := 9%float.

(* autobuy/exit_engine.rs 270-272: default_decay_early_extra_confirm_ticks *)
Definition default_decay_early_extra_confirm_ticks : Z := 1.

(* autobuy/exit_engine.rs 274-276: default_a_plus_time_kill_min_secs *)
Definition default_a_plus_time_kill_min_secs : Z := 50.

(* autobuy/exit_engine.rs 278-280: default_a_plus_time_kill_mcap_profit_min_pct *)
Definition default_a_plus_time_kill_mcap_profit_min_pct : f64 := 5%float.

(* autobuy/exit_engine.rs 282-284: default_tier_a_time_kill_defer_min_secs *)
Definition default_tier_a_time_kill_defer_min_secs : Z := 50.

(* autobuy/exit_engine.rs 286-288: default_tier_a_time_kill_defer_mcap_min_pct *)
Definition default_tier_a_time_kill_defer_mcap_min_pct : f64 := 0%float.

(* autobuy/exit_engine.rs 290-292: default_decay_confirm_ticks *)
Definition default_decay_confirm_ticks : Z := 3.

(* autobuy/exit_engine.rs 294-296: default_flush_drop_pct *)
Definition default_flush_drop_pct : f64 := 18%float.

(* autobuy/exit_engine.rs 298-300: default_recovery_min_score *)
Definition default_recovery_min_score : Z := 8.

(* autobuy/exit_engine.rs 494-496: default_hold_min_b2s *)
Definition default_hold_min_b2s : f64 := 2.2%float.

(* autobuy/exit_engine.rs 498-500: default_hold_min_smart *)
Definition default_hold_min_smart : Z := 5.

(* autobuy/exit_engine.rs 502-504: default_hold_max_bundle_similar *)
Definition default_hold_max_bundle_similar : f64 := 0.35%float.

(* autobuy/exit_engine.rs 506-508: default_hold_momentum_overheated_pct *)
Definition default_hold_momentum_overheated_pct : f64 := 55%float.

(* autobuy/exit_engine.rs 510-512: default_strong_time_kill_min_after_tp *)
Definition default_strong_time_kill_min_after_tp : f64 := 8%float.

(* autobuy/exit_engine.rs 109-204: ExitEngineV4Config *)
Record ExitEngineV4Config := mkExitEngineV4Config {
  v4_enabled : bool;
  v4_live_score_refresh_secs : Z;
  v4_exit_grace_secs : Z;
  v4_exit_grace_secs_tier_a : Z;
  v4_exit_grace_secs_tier_a_plus : Z;
  v4_decay_early_hold_secs : Z;
  v4_decay_early_mcap_profit_min_pct : f64;
  v4_decay_early_extra_confirm_ticks : Z;
  v4_a_plus_time_kill_min_secs : Z;
  v4_a_plus_time_kill_mcap_profit_min_pct : f64;
  v4_tier_a_time_kill_defer_min_secs : Z;
  v4_tier_a_time_kill_defer_mcap_min_pct : f64;
  v4_weak : ExitTpProfile;
  v4_neutral : ExitTpProfile;
  v4_strong : ExitTpProfile;
  v4_runner : ExitTpProfile;
  v4_hold_min_live_score : Z;
  v4_hold_min_b2s : f64;
  v4_hold_min_smart : Z;
  v4_hold_max_bundle_similar : f64;
  v4_hold_momentum_overheated_pct : f64;
  v4_phase_momentum_min_score : Z;
  v4_phase_expansion_min_score : Z;
  v4_phase_distribution_max_score : Z;
  v4_strong_time_kill_min_profit_after_tp : f64;
  v4_momentum_decay_exit_enabled : bool;
  v4_profit_staircase_enabled : bool;
  v4_runtime_runner_upgrade_enabled : bool;
  v4_runner_upgrade_min_live_score : Z;
  v4_re_expansion_enabled : bool;
  v4_re_expansion_min_score : Z;
  v4_re_expansion_min_profit_pct : f64;
  v4_adaptive_moonbag_enabled : bool;
  v4_bundle_similar_tolerance : f64;
  v4_decay_confirm_ticks : Z;
  v4_flush_drop_pct : f64;
  v4_recovery_min_score : Z
}.
#[export] Instance ExitEngineV4Config_settable : Settable ExitEngineV4Config := fun r =>
  mkExitEngineV4Config (v4_enabled r) (v4_live_score_refresh_secs r) (v4_exit_grace_secs r)
    (v4_exit_grace_secs_tier_a r) (v4_exit_grace_secs_tier_a_plus r) (v4_decay_early_hold_secs
    r) (v4_decay_early_mcap_profit_min_pct r) (v4_decay_early_extra_confirm_ticks r)
    (v4_a_plus_time_kill_min_secs r) (v4_a_plus_time_kill_mcap_profit_min_pct r)
    (v4_tier_a_time_kill_defer_min_secs r) (v4_tier_a_time_kill_defer_mcap_min_pct r) (v4_weak
    r) (v4_neutral r) (v4_strong r) (v4_runner r) (v4_hold_min_live_score r) (v4_hold_min_b2s r)
    (v4_hold_min_smart r) (v4_hold_max_bundle_similar r) (v4_hold_momentum_overheated_pct r)
    (v4_phase_momentum_min_score r) (v4_phase_expansion_min_score r)
    (v4_phase_distribution_max_score r) (v4_strong_time_kill_min_profit_after_tp r)
    (v4_momentum_decay_exit_enabled r) (v4_profit_staircase_enabled r)
    (v4_runtime_runner_upgrade_enabled r) (v4_runner_upgrade_min_live_score r)
    (v4_re_expansion_enabled r) (v4_re_expansion_min_score r) (v4_re_expansion_min_profit_pct r)
    (v4_adaptive_moonbag_enabled r) (v4_bundle_similar_tolerance r) (v4_decay_confirm_ticks r)
    (v4_flush_drop_pct r) (v4_recovery_min_score r).

(* autobuy/exit_engine.rs 640-682: Default for ExitEngineV4Config *)
Definition ExitEngineV4Config_default : ExitEngineV4Config := {|
  v4_enabled := default_exit_v4_enabled;
  v4_live_score_refresh_secs := default_live_score_refresh_secs;
  v4_exit_grace_secs := default_exit_grace_secs;
  v4_exit_grace_secs_tier_a := default_exit_grace_secs_tier_a;
  v4_exit_grace_secs_tier_a_plus := default_exit_grace_secs_tier_a_plus;
  v4_decay_early_hold_secs := default_decay_early_hold_secs;
  v4_decay_early_mcap_profit_min_pct := default_decay_early_mcap_profit_min_pct;
  v4_decay_early_extra_confirm_ticks := default_decay_early_extra_confirm_ticks;
  v4_a_plus_time_kill_min_secs := default_a_plus_time_kill_min_secs;
  v4_a_plus_time_kill_mcap_profit_min_pct := default_a_plus_time_kill_mcap_profit_min_pct;
  v4_tier_a_time_kill_defer_min_secs := default_tier_a_time_kill_defer_min_secs;
  v4_tier_a_time_kill_defer_mcap_min_pct := default_tier_a_time_kill_defer_mcap_min_pct;
  v4_weak := default_profile_weak;
  v4_neutral := default_profile_neutral;
  v4_strong := default_profile_strong;
  v4_runner := default_profile_runner;
  v4_hold_min_live_score := default_hold_min_live_score;
  v4_hold_min_b2s := default_hold_min_b2s;
  v4_hold_min_smart := default_hold_min_smart;
  v4_hold_max_bundle_similar := default_hold_max_bundle_similar;
  v4_hold_momentum_overheated_pct := default_hold_momentum_overheated_pct;
  v4_phase_momentum_min_score := default_phase_momentum_min;
  v4_phase_expansion_min_score := default_phase_expansion_min;
  v4_phase_distribution_max_score := default_phase_distribution_max;
  v4_strong_time_kill_min_profit_after_tp := default_strong_time_kill_min_after_tp;
  v4_momentum_decay_exit_enabled := exit_default_true;
  v4_profit_staircase_enabled := exit_default_true;
  v4_runtime_runner_upgrade_enabled := exit_default_true;
  v4_runner_upgrade_min_live_score := default_runner_upgrade_min_live_score;
  v4_re_expansion_enabled := exit_default_true;
  v4_re_expansion_min_score := default_re_expansion_min_score;
  v4_re_expansion_min_profit_pct := default_re_expansion_min_profit_pct;
  v4_adaptive_moonbag_enabled := exit_default_true;
  v4_bundle_similar_tolerance := default_bundle_tolerance;
  v4_decay_confirm_ticks := default_decay_confirm_ticks;
  v4_flush_drop_pct := default_flush_drop_pct;
  v4_recovery_min_score := default_recovery_min_score
|}.

(* autobuy/exit_engine.rs 697-710: LiveMetrics *)
Record LiveMetrics := mkLiveMetrics {
  lm_buyers_per_sec : f64;
  lm_smart_wallet_count : Z;
  lm_buy_sell_ratio : f64;
  lm_holder_growth_rate : f64;
  lm_volume_delta : f64;
  lm_liquidity_delta : f64;
  lm_sell_pressure_score : f64;
  lm_smart_wallet_exits : Z;
  lm_momentum_decay : bool;
  lm_volume_decay : bool;
  lm_bundle_detected : bool;
  lm_momentum_overheated : bool
}.
#[export] Instance LiveMetrics_settable : Settable LiveMetrics := fun r =>
  mkLiveMetrics (lm_buyers_per_sec r) (lm_smart_wallet_count r) (lm_buy_sell_ratio r)
    (lm_holder_growth_rate r) (lm_volume_delta r) (lm_liquidity_delta r) (lm_sell_pressure_score
    r) (lm_smart_wallet_exits r) (lm_momentum_decay r) (lm_volume_decay r) (lm_bundle_detected
    r) (lm_momentum_overheated r).


(* autobuy/exit_engine.rs 685-692: ExitEngineV4Config::profile_params *)
Definition profile_params (cfg : ExitEngineV4Config) (p : ExitProfile) : ExitTpProfile :=
  match p with
  | ProfWeak => v4_weak cfg | ProfNeutral => v4_neutral cfg
  | ProfStrong => v4_strong cfg | ProfRunner => v4_runner cfg
  end.

(** ** Tiers and grace periods *)

(* autobuy/exit_engine.rs 303-306: entry_live_score_floor *)
Definition entry_live_score_floor (snap : option LearningTradeSnapshot) : Z :=
  match snap with Some s => Z.max (Z.quot (ls_score_total s) 2) 1 | None => 1 end.

(* autobuy/exit_engine.rs 309-312: entry_tier_is_a_plus *)
Definition entry_tier_is_a_plus (tier : string) : bool :=
  let t := to_ascii_lowercase tier in contains "aplus" t || contains "a+" t.

(* autobuy/exit_engine.rs 314-320: entry_tier_is_a *)
Definition entry_tier_is_a (tier : string) : bool :=
  if entry_tier_is_a_plus tier then false
  else
    let t := to_ascii_lowercase tier in
    String.eqb t "a" || starts_with "a " t || ends_with "::a" t.

(* autobuy/exit_engine.rs 324-342: tier_a_time_kill_defer_floor_secs *)
Definition tier_a_time_kill_defer_floor_secs (cfg : ExitEngineV4Config) (entry_tier : string)
    (snap : option LearningTradeSnapshot) (mcap_pnl_pct : f64) : option Z :=
  let min_secs := v4_tier_a_time_kill_defer_min_secs cfg in
  if (min_secs =? 0) || entry_tier_is_a_plus entry_tier || negb (entry_tier_is_a entry_tier)
  then None
  else match snap with
       | None => None
       | Some s =>
           if negb (ls_has_momentum_good s) then None
           else if (mcap_pnl_pct <=? v4_tier_a_time_kill_defer_mcap_min_pct cfg)%float then None
           else Some min_secs
       end.

(* autobuy/exit_engine.rs 344-362: exit_grace_secs_for_tier *)
Definition exit_grace_secs_for_tier (tier : string) (cfg : ExitEngineV4Config) : Z :=
  if entry_tier_is_a_plus tier then
    let v := v4_exit_grace_secs_tier_a_plus cfg in if 0 <? v then v else v4_exit_grace_secs cfg
  else if entry_tier_is_a tier then
    let v := v4_exit_grace_secs_tier_a cfg in if 0 <? v then v else v4_exit_grace_secs cfg
  else v4_exit_grace_secs cfg.

(* autobuy/exit_engine.rs 364-366: in_exit_grace_period *)
Definition in_exit_grace_period (held_secs : Z) (cfg : ExitEngineV4Config) : bool :=
  held_secs <? v4_exit_grace_secs cfg.

(* autobuy/exit_engine.rs 368-370: in_exit_grace_period_tier *)
Definition in_exit_grace_period_tier (held_secs : Z) (tier : string) (cfg : ExitEngineV4Config)
    : bool := held_secs <? exit_grace_secs_for_tier tier cfg.

(* autobuy/exit_engine.rs 373-375: in_sl_grace_period *)
Definition in_sl_grace_period (held_secs sl_grace_secs : Z) : bool := held_secs <? sl_grace_secs.

(** ** Stop loss *)

(* autobuy/exit_engine.rs 378-380: sl_trigger_pnl_pct *)
Definition sl_trigger_pnl_pct (filtered_pnl_pct raw_pnl_pct : f64) : f64 :=
  f64_min filtered_pnl_pct raw_pnl_pct.

(* autobuy/exit_engine.rs 440-440: EXIT_MCAP_ABS_MAX *)
Definition EXIT_MCAP_ABS_MAX : f64 := 200000%float.

(* autobuy/exit_engine.rs 442-444: exit_mcap_valid *)
Definition exit_mcap_valid (mcap : f64) : bool :=
  f64_is_finite mcap && (0 <? mcap)%float && (mcap <=? EXIT_MCAP_ABS_MAX)%float.

(* autobuy/exit_engine.rs 383-388: sl_raw_tick_drop_pct *)
Definition sl_raw_tick_drop_pct (prev_raw_mcap raw_mcap : f64) : option f64 :=
  if negb (exit_mcap_valid prev_raw_mcap) || negb (exit_mcap_valid raw_mcap)
     || (prev_raw_mcap <=? 0)%float
  then None
  else Some ((prev_raw_mcap - raw_mcap) / prev_raw_mcap * 100)%float.

(* autobuy/exit_engine.rs 395-410: sl_crash_triggered *)
Definition sl_crash_triggered (trigger_pnl_pct raw_pnl_pct : f64) (tick_drop_pct : option f64)
    (crash_pnl_pct crash_tick_drop_pct : f64) (in_sl_grace : bool) : bool :=
  if (trigger_pnl_pct <=? crash_pnl_pct)%float then true
  else if in_sl_grace then false
  else match tick_drop_pct with
       | Some d => (crash_tick_drop_pct <=? d)%float
       | None => false
       end && (raw_pnl_pct <? 0)%float.

(* autobuy/exit_engine.rs 413-438: format_sl_close_reason *)
Definition format_sl_close_reason (crash : bool) (trigger_pnl_pct floor_pct filtered_pnl_pct
    raw_pnl_pct filt_mcap_sol raw_mcap_sol : f64) (confirm_ticks : option Z)
    (tick_drop_pct : option f64) : string :=
  let tag := if crash then "SL CRASH" else "SL" in
  let confirm := match confirm_ticks with Some n => fmt_int n +:+ " ticks" | None => "instant" end in
  let drop :=
    match tick_drop_pct with
    | Some d => if (0 <? d)%float then " tick_drop=" +:+ fmt_fixed 1 d +:+ "%" else ""
    | None => ""
    end in
  tag +:+ " trigger_pnl=" +:+ fmt_fixed 1 trigger_pnl_pct +:+ "% floor=" +:+ fmt_fixed 1 floor_pct
  +:+ "% filt_pnl=" +:+ fmt_fixed 1 filtered_pnl_pct +:+ "% raw_pnl=" +:+ fmt_fixed 1 raw_pnl_pct
  +:+ "% | filt_mcap=" +:+ fmt_fixed 1 filt_mcap_sol +:+ " raw_mcap=" +:+ fmt_fixed 1 raw_mcap_sol
  +:+ " | " +:+ confirm +:+ drop.

(** ** The median filter *)

(* autobuy/exit_engine.rs 446-453: exit_mcap_median *)
Definition exit_mcap_median (mcaps : list f64) : option f64 :=
  match f64_sort (List.filter exit_mcap_valid mcaps) with
  | [] => None
  | v => v !! (length v / 2)%nat
  end.

(* autobuy/exit_engine.rs 456-467: exit_mcap_matches_band *)
Definition exit_mcap_matches_band (mcap : f64) (median : option f64) (band_low band_high : f64)
    : bool :=
  if negb (exit_mcap_valid mcap) then false
  else match median with
       | None => true
       | Some med =>
           if (med <=? 0)%float then true
           else (med * band_low <=? mcap)%float && (mcap <=? med * band_high)%float
       end.

(* autobuy/exit_engine.rs 470-492: filtered_exit_mcap *)
Definition filtered_exit_mcap (samples : list f64) (enter_mcap band_low band_high : f64) : f64 :=
  let median := exit_mcap_median samples in
  let in_band :=
    List.filter (fun m => exit_mcap_matches_band m median band_low band_high) samples in
  match exit_mcap_median in_band with
  | Some m => m
  | None =>
      match median with
      | Some m => m
      | None =>
          match List.find exit_mcap_valid (rev samples) with
          | Some last => last
          | None => f64_max enter_mcap 0%float
          end
      end
  end.

(** ** Live score *)

(** one conditional term of the score *)
Definition pts (b : bool) (n : Z) : Z := if b then n else 0.

(* autobuy/exit_engine.rs 712-754: calculate_live_score *)
Definition calculate_live_score (m : LiveMetrics) : Z :=
  pts (lm_buyers_per_sec m >? 4)%float 2
  + (if 5 <=? lm_smart_wallet_count m then 3 else if 3 <=? lm_smart_wallet_count m then 2 else 0)
  + (if (lm_buy_sell_ratio m >? 2)%float then 2
     else if (lm_buy_sell_ratio m >? 1.5)%float then 1 else 0)
  + pts (lm_holder_growth_rate m >? 1.5)%float 2
  + pts (lm_volume_delta m >? 0)%float 1
  + pts (lm_liquidity_delta m >? 0)%float 1
  - pts (lm_sell_pressure_score m >? 1.2)%float 2
  - (if 2 <=? lm_smart_wallet_exits m then 3 else if 1 <=? lm_smart_wallet_exits m then 1 else 0)
  - pts (lm_momentum_decay m) 4
  - pts (lm_volume_decay m) 2
  - pts (lm_bundle_detected m) 3.

(* autobuy/exit_engine.rs 894-902: momentum_decay_detected *)
Definition momentum_decay_detected (vel_now vel_prev sell_pressure volume_delta : f64) : bool :=
  let vel_drop := (vel_prev >? 0.01)%float && (vel_now <? vel_prev * 0.7)%float in
  vel_drop && (sell_pressure >? 1.2)%float && (volume_delta <? 0)%float.

(* autobuy/exit_engine.rs 756-792: live_metrics_from_snapshot *)
Definition live_metrics_from_snapshot (snap : LivePositionSnapshot) (buyers_per_sec_prev vel_now
    vel_prev entry_velocity_pct profit_pct : f64) (cfg : ExitEngineV4Config) : LiveMetrics :=
  let volume_decay := (lp_volume_delta snap <? 0)%float && (vel_now <? vel_prev * 0.85)%float in
  let momentum_decay :=
    momentum_decay_detected (lp_buyers_per_sec snap) buyers_per_sec_prev
      (lp_sell_pressure_score snap) (lp_volume_delta snap)
    || ((vel_prev >? 0.01)%float && (vel_now <? vel_prev * 0.7)%float
        && (lp_sell_pressure_score snap >? 1.2)%float && (lp_volume_delta snap <? 0)%float) in
  let bundle_detected :=
    (lp_bundle_similar snap >? v4_hold_max_bundle_similar cfg)%float
    || (lp_bundle_identical snap >? 0.2)%float in
  {| lm_buyers_per_sec := lp_buyers_per_sec snap;
     lm_smart_wallet_count := lp_smart_wallet_count snap;
     lm_buy_sell_ratio := lp_buy_sell_ratio snap;
     lm_holder_growth_rate := lp_holder_growth_rate snap;
     lm_volume_delta := lp_volume_delta snap;
     lm_liquidity_delta := lp_liquidity_delta snap;
     lm_sell_pressure_score := lp_sell_pressure_score snap;
     lm_smart_wallet_exits := lp_smart_wallet_exits snap;
     lm_momentum_decay := momentum_decay;
     lm_volume_decay := volume_decay;
     lm_bundle_detected := bundle_detected;
     lm_momentum_overheated :=
       (v4_hold_momentum_overheated_pct cfg <=? entry_velocity_pct)%float
       || (120 <=? profit_pct)%float |}.

(* autobuy/exit_engine.rs 841-892: recovery_score *)
Definition recovery_score (m : LiveMetrics) (current_mcap flush_low_mcap local_high_mcap : f64)
    : Z :=
  (if (lm_buyers_per_sec m >? 2)%float then 2
   else if (lm_buyers_per_sec m <=? 0.5)%float then -2 else 0)
  + (if (lm_volume_delta m >? 0)%float then 2 else -1)
  + pts (lm_buy_sell_ratio m >? 1.5)%float 1
  - pts (lm_sell_pressure_score m >? 1.2)%float 2
  - pts (1 <=? lm_smart_wallet_exits m) 1
  + (if (flush_low_mcap >? 0)%float then
       if (current_mcap >? flush_low_mcap * 1.05)%float then 2
       else if (current_mcap <? flush_low_mcap)%float then -2 else 0
     else 0)
  + pts ((local_high_mcap >? 0)%float && (local_high_mcap * 0.9 <=? current_mcap)%float) 2
  - pts (lm_momentum_decay m) 2.

(* autobuy/exit_engine.rs 904-914: should_enable_hold_mode *)
Definition should_enable_hold_mode (cfg : ExitEngineV4Config) (m : LiveMetrics) (live_score : Z)
    : bool :=
  (v4_hold_min_live_score cfg <=? live_score)
  && (v4_hold_min_smart cfg <=? lm_smart_wallet_count m)
  && (lm_buy_sell_ratio m >? v4_hold_min_b2s cfg)%float
  && negb (lm_bundle_detected m) && negb (lm_momentum_overheated m).

(** ** Trailing, staircase, phases *)

(* autobuy/exit_engine.rs 917-934: adaptive_trailing *)
Definition adaptive_trailing (profile : ExitProfile) (live_score : Z) (profit_pct : f64) : f64 :=
  let profile_floor :=
    match profile with
    | ProfWeak => 14%float | ProfNeutral => 18%float | ProfStrong => 22%float | ProfRunner => 38%float
    end in
  let doc :=
    if 15 <=? live_score then 40%float
    else if 11 <=? live_score then 24%float
    else if (profit_pct >? 50)%float then 18%float
    else 14%float in
  f64_min (f64_max doc profile_floor) 45%float.

(* autobuy/exit_engine.rs 937-949: profit_lock_staircase_floor *)
Definition profit_lock_staircase_floor (peak_profit_pct : f64) : option f64 :=
  if (400 <=? peak_profit_pct)%float then Some 180%float
  else if (200 <=? peak_profit_pct)%float then Some 90%float
  else if (100 <=? peak_profit_pct)%float then Some 40%float
  else if (50 <=? peak_profit_pct)%float then Some 15%float
  else None.

(* autobuy/exit_engine.rs 951-975: transition_position_phase *)
Definition transition_position_phase (current : PositionPhase) (live_score : Z)
    (momentum_decay : bool) (profit_pct : f64) (cfg : ExitEngineV4Config) : PositionPhase :=
  if v4_re_expansion_enabled cfg && bool_decide (current = Distribution)
     && (v4_re_expansion_min_score cfg <=? live_score)
     && (v4_re_expansion_min_profit_pct cfg <=? profit_pct)%float
  then Expansion
  else if momentum_decay || (live_score <=? v4_phase_distribution_max_score cfg) then Distribution
  else if v4_phase_expansion_min_score cfg <=? live_score then Expansion
  else if v4_phase_momentum_min_score cfg <=? live_score then Momentum
  else Exploration.

(* autobuy/exit_engine.rs 978-997: apply_phase_to_tp *)
Definition apply_phase_to_tp (base : ExitTpProfile) (phase : PositionPhase) : ExitTpProfile :=
  match phase with
  | Exploration => base
  | Momentum =>
      base <| ep_trailing_activate_profit_pct := (ep_trailing_activate_profit_pct base * 1.05)%float |>
  | Expansion =>
      base <| ep_trailing_stop_drawdown_pct :=
                f64_min (ep_trailing_stop_drawdown_pct base * 1.12)%float 45%float |>
           <| ep_tp3_sell_pct := (ep_tp3_sell_pct base * 0.85)%float |>
           <| ep_tp4_sell_pct := (ep_tp4_sell_pct base * 0.85)%float |>
           <| ep_tp5_sell_pct := (ep_tp5_sell_pct base * 0.85)%float |>
  | Distribution =>
      base <| ep_tp1_sell_pct := f64_min (ep_tp1_sell_pct base * 1.2)%float 55%float |>
           <| ep_tp2_sell_pct := f64_min (ep_tp2_sell_pct base * 1.15)%float 50%float |>
           <| ep_trailing_activate_profit_pct := (ep_trailing_activate_profit_pct base * 0.85)%float |>
  end.

(* autobuy/exit_engine.rs 1000-1011: adaptive_moonbag_sell_pct *)
Definition adaptive_moonbag_sell_pct (base_sell : f64) (live_score : Z) (phase : PositionPhase)
    : f64 :=
  if negb (bool_decide (phase = Expansion) || bool_decide (phase = Momentum)) then base_sell
  else if 12 <=? live_score then (base_sell * 0.5)%float
  else if 9 <=? live_score then (base_sell * 0.75)%float
  else base_sell.

(* autobuy/exit_engine.rs 1014-1031: ml_profile_bias *)
Definition ml_profile_bias (tier : string) (base : ExitProfile) : ExitProfile :=
  let t := to_ascii_lowercase tier in
  if contains "aplus" t || contains "a+" t then
    if decide (base = ProfWeak) then ProfStrong else ProfRunner
  else if String.eqb t "a" then
    match base with ProfWeak | ProfNeutral => ProfStrong | _ => base end
  else base.

(* autobuy/exit_engine.rs 1033-1050: maybe_upgrade_runner *)
Definition maybe_upgrade_runner (cfg : ExitEngineV4Config) (current : ExitProfile)
    (m : LiveMetrics) (live_score : Z) (hold_already : bool) : ExitProfile * bool :=
  if negb (v4_runtime_runner_upgrade_enabled cfg) || hold_already then (current, hold_already)
  else if (v4_runner_upgrade_min_live_score cfg <=? live_score)
          && should_enable_hold_mode cfg m live_score
          && (bool_decide (current = ProfStrong) || bool_decide (current = ProfNeutral))
  then (ProfRunner, true)
  else (current, hold_already).

(** ** The median filter picks a real sample *)

Lemma exit_mcap_valid_pos m : exit_mcap_valid m = true -> (0 <? m)%float = true.
Proof. unfold exit_mcap_valid. intros H. apply andb_true_iff in H as [H _].
  by apply andb_true_iff in H as [_ H]. Qed.

Lemma exit_mcap_median_some l :
  match exit_mcap_median l with
  | Some m => m ∈ l /\ exit_mcap_valid m = true
  | None => List.filter exit_mcap_valid l = []
  end.
Proof.
  unfold exit_mcap_median.
  destruct (f64_sort (List.filter exit_mcap_valid l)) as [|x v] eqn:E.
  - apply Permutation_nil. rewrite <- E. apply f64_sort_perm.
  - assert (length (x :: v) / 2 < length (x :: v))%nat as L by (apply Nat.div_lt; cbn; lia).
    destruct ((x :: v) !! (length (x :: v) / 2)%nat) as [m|] eqn:M;
      [|apply lookup_ge_None in M; lia].
    assert (m ∈ List.filter exit_mcap_valid l) as H.
    { rewrite <- f64_sort_perm, E. by eapply list_elem_of_lookup_2. }
    apply list_elem_of_In, filter_In in H as [H1 H2]. by rewrite list_elem_of_In.
Qed.

Lemma exit_mcap_median_perm l l' : l ≡ₚ l' -> exit_mcap_median l = exit_mcap_median l'.
Proof.
  intros H. unfold exit_mcap_median.
  rewrite (f64_sort_unique (List.filter exit_mcap_valid l) (List.filter exit_mcap_valid l'));
    [done | |].
  - apply Forall_forall. intros x Hx. apply list_elem_of_In, filter_In in Hx.
    apply exit_mcap_valid_pos, Hx.
  - by apply filter_perm.
Qed.

(** without a valid sample every filter of the samples has no median either *)
Lemma filtered_mcap_fallback samples enter lo hi :
  existsb exit_mcap_valid samples = false ->
  filtered_exit_mcap samples enter lo hi = f64_max enter 0%float.
Proof.
  intros HV. unfold filtered_exit_mcap.
  assert (List.filter exit_mcap_valid samples = []) as HN.
  { destruct (List.filter exit_mcap_valid samples) as [|x l] eqn:E; [done|].
    assert (In x (List.filter exit_mcap_valid samples)) as HI by (rewrite E; by left).
    apply filter_In in HI. enough (existsb exit_mcap_valid samples = true) by congruence.
    apply existsb_exists. eauto. }
  assert (exit_mcap_median samples = None) as -> by (unfold exit_mcap_median; by rewrite HN).
  assert (forall f, (forall m, f m = true -> exit_mcap_valid m = true) ->
    exit_mcap_median (List.filter f samples) = None) as HF.
  { intros f Hf. destruct (exit_mcap_median (List.filter f samples)) as [m|] eqn:E; [|done].
    pose proof (exit_mcap_median_some (List.filter f samples)) as Hm. rewrite E in Hm.
    destruct Hm as [Hm1 Hm2]. apply list_elem_of_In, filter_In in Hm1 as [Hm1 _].
    apply list_elem_of_In in Hm1. rewrite (filter_nil_none _ _ HN m Hm1) in Hm2. done. }
  rewrite HF by (intros m; unfold exit_mcap_matches_band; by destruct (exit_mcap_valid m)).
  destruct (List.find exit_mcap_valid (rev samples)) as [m|] eqn:E; [|done].
  apply find_some in E as [E1 E2]. apply in_rev, list_elem_of_In in E1.
  rewrite (filter_nil_none _ _ HN m E1) in E2. done.
Qed.

(** The exit market cap is a real sample: as soon as one recent sample is
    valid, the filtered value is one of the samples, valid itself, and either
    the median of the samples or within the configured band of that median; it
    does not depend on the order of the samples.  Without a valid sample it is
    the entry market cap. *)
Theorem filtered_mcap_sound samples enter lo hi :
  let r := filtered_exit_mcap samples enter lo hi in
  (existsb exit_mcap_valid samples = true ->
     r ∈ samples /\ exit_mcap_valid r = true /\
     (exists med, exit_mcap_median samples = Some med /\
        (r = med \/ (med * lo <=? r)%float = true /\ (r <=? med * hi)%float = true)) /\
     forall samples', samples ≡ₚ samples' -> filtered_exit_mcap samples' enter lo hi = r) /\
  (existsb exit_mcap_valid samples = false -> r = f64_max enter 0%float).
Proof.
  pose proof (exit_mcap_median_some samples) as HM.
  split; intros HV.
  - unfold filtered_exit_mcap. apply existsb_exists in HV as (m & Hm & Vm). apply list_elem_of_In in Hm.
    destruct (exit_mcap_median samples) as [med|] eqn:EM; [|].
    2:{ apply (filter_nil_none _ _ HM) in Hm. congruence. }
    pose proof (exit_mcap_median_some
      (List.filter (fun m => exit_mcap_matches_band m (Some med) lo hi) samples)) as HB.
    split_and!.
    4:{ intros samples' HP. rewrite <- (exit_mcap_median_perm _ _ HP), EM.
        by rewrite (exit_mcap_median_perm _ _ (filter_perm _ _ _ HP)). }
    all: destruct (exit_mcap_median (List.filter _ samples)) as [r|]; [|by (exists med; auto) || apply HM].
    all: destruct HB as [HB1 HB2]; apply list_elem_of_In, filter_In in HB1 as [HB1 HB3].
    + by apply list_elem_of_In.
    + done.
    + exists med. split; [done|]. revert HB3. unfold exit_mcap_matches_band. rewrite HB2. cbn [negb].
      destruct HM as [_ HM]. apply exit_mcap_valid_pos in HM.
      destruct (med <=? 0)%float eqn:E; [f64_order|].
      intros H. apply andb_true_iff in H. auto.
  - by apply filtered_mcap_fallback.
Qed.

(** ** Bounds of the exit parameters *)

(** The trailing drawdown stays between 14% and 45%, is at least the
    floor of the profile, and only grows with the live score and with the
    profit. *)
Theorem adaptive_trailing_bounds p s profit :
  let t := adaptive_trailing p s profit in
  (14 <=? t)%float = true /\ (t <=? 45)%float = true /\
  (forall s', s <= s' -> (t <=? adaptive_trailing p s' profit)%float = true) /\
  (forall profit', (profit <=? profit')%float = true ->
     (t <=? adaptive_trailing p s profit')%float = true) /\
  (t <=? adaptive_trailing ProfRunner s profit)%float = true.
Proof.
  unfold adaptive_trailing. split_and!.
  - destruct p; repeat case_match; reflexivity.
  - destruct p; repeat case_match; reflexivity.
  - intros s' Hs. destruct (Z.leb_spec 15 s), (Z.leb_spec 15 s'), (Z.leb_spec 11 s),
      (Z.leb_spec 11 s'); try lia; destruct p, (profit >? 50)%float; reflexivity.
  - intros profit' H. destruct (15 <=? s), (11 <=? s); try (destruct p; reflexivity).
    destruct (profit >? 50)%float eqn:E, (profit' >? 50)%float eqn:E';
      try (destruct p; reflexivity). exfalso. f64_order.
  - destruct p, (15 <=? s), (11 <=? s), (profit >? 50)%float; reflexivity.
Qed.

(** The profit staircase never locks more than was earned: the locked
    floor is strictly below the peak that granted it, and it never decreases
    as the peak grows. *)
Theorem staircase_sound peak peak' f :
  profit_lock_staircase_floor peak = Some f ->
  (f <? peak)%float = true /\
  ((peak <=? peak')%float = true ->
   exists f', profit_lock_staircase_floor peak' = Some f' /\ (f <=? f')%float = true).
Proof.
  unfold profit_lock_staircase_floor. intros H. split.
  - repeat case_match; try discriminate; injection H as <-; f64_order.
  - intros HP. repeat case_match; try discriminate; injection H as <-;
      try (eexists; split; [reflexivity | reflexivity]); exfalso; f64_order.
Qed.

Lemma staircase_sound_witness :
  (15 <? 60)%float = true /\
  ((60 <=? 250)%float = true ->
   exists f', profit_lock_staircase_floor 250 = Some f' /\ (15 <=? f')%float = true).
Proof. apply (staircase_sound 60 250 15). reflexivity. Defined.

(** ** The phase machine *)

(** the phase a fresh position would be given *)
Definition phase_target (cfg : ExitEngineV4Config) (live_score : Z) (decay : bool) : PositionPhase :=
  if decay || (live_score <=? v4_phase_distribution_max_score cfg) then Distribution
  else if v4_phase_expansion_min_score cfg <=? live_score then Expansion
  else if v4_phase_momentum_min_score cfg <=? live_score then Momentum
  else Exploration.

(** The phase machine settles: as long as the tape does not change, two
    refreshes bring the position to the phase its live score calls for, from
    any phase, and every further refresh keeps it, provided a re-expansion
    needs a higher score than a distribution allows. *)
Theorem phase_settles cfg current live_score profit n :
  v4_phase_distribution_max_score cfg < v4_re_expansion_min_score cfg ->
  let step p := transition_position_phase p live_score false profit cfg in
  Nat.iter (2 + n) step current = phase_target cfg live_score false.
Proof.
  intros HC step.
  assert (forall p, p <> Distribution -> step p = phase_target cfg live_score false) as H1.
  { intros p Hp. unfold step, transition_position_phase.
    rewrite (bool_decide_eq_false_2 (p = Distribution)) by done.
    by rewrite andb_false_r. }
  assert (step (phase_target cfg live_score false) = phase_target cfg live_score false) as H2.
  { destruct (decide (phase_target cfg live_score false = Distribution)) as [E|E]; [|by apply H1].
    rewrite E. revert E. unfold step, transition_position_phase, phase_target. cbn [orb].
    destruct (Z.leb_spec live_score (v4_phase_distribution_max_score cfg)).
    - destruct (Z.leb_spec (v4_re_expansion_min_score cfg) live_score); [lia|].
      by rewrite andb_false_r.
    - repeat case_match; done. }
  assert (step (step current) = phase_target cfg live_score false) as H3.
  { destruct (decide (current = Distribution)) as [->|E]; [|by rewrite (H1 _ E), H2].
    unfold step at 2, transition_position_phase.
    destruct (_ && _); [by apply H1|]. exact H2. }
  induction n as [|n IH]; [exact H3|]. cbn in *. by rewrite IH, H2.
Qed.

Lemma phase_settles_witness :
  let step p := transition_position_phase p 8 false 30%float ExitEngineV4Config_default in
  Nat.iter (2 + 3) step Distribution = phase_target ExitEngineV4Config_default 8 false.
Proof. apply phase_settles. reflexivity. Defined.

(** a re-expansion at a score below the expansion threshold lasts one refresh *)
Example re_expansion_undone :
  let step p := transition_position_phase p 8 false 30%float ExitEngineV4Config_default in
  step Distribution = Expansion /\ step Expansion = Momentum.
Proof. vm_compute. auto. Qed.

(** The momentum-decay signal is dead: whatever the tape, the sell
    pressure read from it is at most 1, so with the threshold of 1.2 a live
    snapshot never reports decay, never pays the sell-pressure penalty, and a
    phase refresh from it reaches [Distribution] through a low score only. *)
Theorem snapshot_never_decays tanh pool s0 s1 s2 s3 prev held sm eb tol live
    bps_prev vel_now vel_prev entry_vel profit cfg phase score :
  snapshot_live_position tanh pool s0 s1 s2 s3 prev held sm eb tol = Ret live ->
  let m := live_metrics_from_snapshot live bps_prev vel_now vel_prev entry_vel profit cfg in
  lm_momentum_decay m = false /\
  calculate_live_score m = calculate_live_score (m <| lm_sell_pressure_score := 0%float |>) /\
  (transition_position_phase phase score (lm_momentum_decay m) profit cfg = Distribution ->
   score <= v4_phase_distribution_max_score cfg).
Proof.
  intros H. apply snapshot_sell_pressure_le in H. cbv zeta.
  assert (lm_momentum_decay (live_metrics_from_snapshot live bps_prev vel_now vel_prev entry_vel
    profit cfg) = false) as E.
  { cbn [lm_momentum_decay live_metrics_from_snapshot]. unfold momentum_decay_detected.
    rewrite H. by rewrite !andb_false_r. }
  split_and!; [done | |].
  - unfold calculate_live_score, set. cbn -[pts Z.add Z.sub PrimFloat.ltb]. rewrite H. reflexivity.
  - rewrite E. unfold transition_position_phase. cbn [orb].
    repeat case_match; try done. intros _. lia.
Qed.

Definition quiet_snapshot : outcome LivePositionSnapshot :=
  snapshot_live_position id (pump_pool_new id 1%N 2%N) (swarm_new (amount_from_raw 1 6) 6 9)
    (swarm_new (amount_from_raw 1 6) 6 9) (swarm_new (amount_from_raw 1 6) 6 9)
    (swarm_new (amount_from_raw 1 6) 6 9) None 5 None [] 0.08%float.

Lemma snapshot_never_decays_witness :
  exists live, quiet_snapshot = Ret live /\
    lm_momentum_decay
      (live_metrics_from_snapshot live 9 0 5 20 30 ExitEngineV4Config_default)%float = false.
Proof.
  eexists. split; [vm_compute; reflexivity|].
  refine (proj1 (snapshot_never_decays id (pump_pool_new id 1%N 2%N)
    (swarm_new (amount_from_raw 1 6) 6 9) (swarm_new (amount_from_raw 1 6) 6 9)
    (swarm_new (amount_from_raw 1 6) 6 9) (swarm_new (amount_from_raw 1 6) 6 9)
    None 5 None [] 0.08%float _ 9%float 0%float 5%float 20%float 30%float
    ExitEngineV4Config_default Exploration 0 _)).
  vm_compute. reflexivity.
Defined.
