(* ===== verification/Positions.v ===== *)
(** One open position, [src/src/autobuy/positions.rs], and the two functions of
    [exit_engine.rs] that read one.

    The pool is any implementation of the [Pool] interface ([Box<dyn Pool>] in
    the source): [P] is its type.  Reading a market cap may panic in the pool's
    arithmetic, so everything that reads it is in the [outcome] monad. *)
From S2P Require Import Prelude Text Amounts Pump Features Learning LivePosition ExitEngine.

(* autobuy/positions.rs 17-21: PositionKey *)
Record PositionKey := mkPositionKey { pk_mint : Address; pk_wallet_id : string }.
#[export] Instance PositionKey_eq_dec : EqDecision PositionKey.
Proof. solve_decision. Defined.
#[export] Instance PositionKey_countable : Countable PositionKey.
Proof.
  apply (inj_countable' (fun k => (pk_mint k, pk_wallet_id k)) (fun p => mkPositionKey p.1 p.2)).
  by intros [].
Defined.

(* autobuy/open_reason.rs 5-10: OpenReason *)
Inductive OpenReason :=
  | DevStats (stats : CreatorStatistics)
  | TraderStats.

(* autobuy/positions.rs 36-117: Position *)
Record Position (P : Type) := mkPosition {
  ps_wallet_id : string;
  ps_pool : P;
  ps_initial_holdings : Amount;
  ps_holdings : Amount;
  ps_enter_mcap : Amount;
  ps_highest_mcap : f64;
  ps_exit_profit_floor : f64;
  ps_tp1_triggered : bool;
  ps_tp2_triggered : bool;
  ps_tp3_triggered : bool;
  ps_tp4_triggered : bool;
  ps_tp5_triggered : bool;
  ps_mcap_ceiling_triggered : bool;
  ps_trailing_active : bool;
  ps_is_closing : bool;
  ps_pending_partial_sell : bool;
  ps_entry_time : Z;
  ps_total_returned : f64;
  ps_spent_sol : f64;
  ps_dev_address : option Address;
  ps_early_buyers : list Address;
  ps_learning_snapshot : option LearningTradeSnapshot;
  ps_open_reason : option OpenReason;
  ps_tk_entry_buyers : Z;
  ps_tk_entry_smart : Z;
  ps_tk_entry_b2s : f64;
  ps_tk_last_secs : Z;
  ps_tk_last_mcap : f64;
  ps_tk_prev_secs : Z;
  ps_tk_prev_mcap : f64;
  ps_last_time_kill_tier : string;
  ps_last_time_kill_after_secs : Z;
  ps_exit_profile : ExitProfile;
  ps_hold_mode : bool;
  ps_exit_phase : PositionPhase;
  ps_live_score : Z;
  ps_live_prev_velocity : f64;
  ps_live_buyers_per_sec : f64;
  ps_live_prev_buyers_per_sec : f64;
  ps_last_live_score_at : Z;
  ps_live_score_entry_floor : Z;
  ps_peak_profit_pct : f64;
  ps_live_tape_prev : option EarlyTapePoint;
  ps_live_tape_curr : option EarlyTapePoint;
  ps_exit_mcap_ticks : list f64;
  ps_sl_below_floor_streak : Z;
  ps_decay_streak : Z;
  ps_flush_active : bool;
  ps_flush_low_mcap : f64;
  ps_recovery_score : Z;
  ps_sl_prev_raw_mcap : option f64;
  ps_use_jupiter_exit_mcap : bool;
  ps_exit_mcap_jupiter : option f64;
  ps_last_exit_mcap_poll_at : Z
}.
Arguments mkPosition {P}.
Arguments ps_wallet_id {P} p.
Arguments ps_pool {P} p.
Arguments ps_initial_holdings {P} p.
Arguments ps_holdings {P} p.
Arguments ps_enter_mcap {P} p.
Arguments ps_highest_mcap {P} p.
Arguments ps_exit_profit_floor {P} p.
Arguments ps_tp1_triggered {P} p.
Arguments ps_tp2_triggered {P} p.
Arguments ps_tp3_triggered {P} p.
Arguments ps_tp4_triggered {P} p.
Arguments ps_tp5_triggered {P} p.
Arguments ps_mcap_ceiling_triggered {P} p.
Arguments ps_trailing_active {P} p.
Arguments ps_is_closing {P} p.
Arguments ps_pending_partial_sell {P} p.
Arguments ps_entry_time {P} p.
Arguments ps_total_returned {P} p.
Arguments ps_spent_sol {P} p.
Arguments ps_dev_address {P} p.
Arguments ps_early_buyers {P} p.
Arguments ps_learning_snapshot {P} p.
Arguments ps_open_reason {P} p.
Arguments ps_tk_entry_buyers {P} p.
Arguments ps_tk_entry_smart {P} p.
Arguments ps_tk_entry_b2s {P} p.
Arguments ps_tk_last_secs {P} p.
Arguments ps_tk_last_mcap {P} p.
Arguments ps_tk_prev_secs {P} p.
Arguments ps_tk_prev_mcap {P} p.
Arguments ps_last_time_kill_tier {P} p.
Arguments ps_last_time_kill_after_secs {P} p.
Arguments ps_exit_profile {P} p.
Arguments ps_hold_mode {P} p.
Arguments ps_exit_phase {P} p.
Arguments ps_live_score {P} p.
Arguments ps_live_prev_velocity {P} p.
Arguments ps_live_buyers_per_sec {P} p.
Arguments ps_live_prev_buyers_per_sec {P} p.
Arguments ps_last_live_score_at {P} p.
Arguments ps_live_score_entry_floor {P} p.
Arguments ps_peak_profit_pct {P} p.
Arguments ps_live_tape_prev {P} p.
Arguments ps_live_tape_curr {P} p.
Arguments ps_exit_mcap_ticks {P} p.
Arguments ps_sl_below_floor_streak {P} p.
Arguments ps_decay_streak {P} p.
Arguments ps_flush_active {P} p.
Arguments ps_flush_low_mcap {P} p.
Arguments ps_recovery_score {P} p.
Arguments ps_sl_prev_raw_mcap {P} p.
Arguments ps_use_jupiter_exit_mcap {P} p.
Arguments ps_exit_mcap_jupiter {P} p.
Arguments ps_last_exit_mcap_poll_at {P} p.
#[export] Instance Position_settable P : Settable (Position P) := fun r =>
  mkPosition (ps_wallet_id r) (ps_pool r) (ps_initial_holdings r) (ps_holdings r) (ps_enter_mcap
    r) (ps_highest_mcap r) (ps_exit_profit_floor r) (ps_tp1_triggered r) (ps_tp2_triggered r)
    (ps_tp3_triggered r) (ps_tp4_triggered r) (ps_tp5_triggered r) (ps_mcap_ceiling_triggered r)
    (ps_trailing_active r) (ps_is_closing r) (ps_pending_partial_sell r) (ps_entry_time r)
    (ps_total_returned r) (ps_spent_sol r) (ps_dev_address r) (ps_early_buyers r)
    (ps_learning_snapshot r) (ps_open_reason r) (ps_tk_entry_buyers r) (ps_tk_entry_smart r)
    (ps_tk_entry_b2s r) (ps_tk_last_secs r) (ps_tk_last_mcap r) (ps_tk_prev_secs r)
    (ps_tk_prev_mcap r) (ps_last_time_kill_tier r) (ps_last_time_kill_after_secs r)
    (ps_exit_profile r) (ps_hold_mode r) (ps_exit_phase r) (ps_live_score r)
    (ps_live_prev_velocity r) (ps_live_buyers_per_sec r) (ps_live_prev_buyers_per_sec r)
    (ps_last_live_score_at r) (ps_live_score_entry_floor r) (ps_peak_profit_pct r)
    (ps_live_tape_prev r) (ps_live_tape_curr r) (ps_exit_mcap_ticks r) (ps_sl_below_floor_streak
    r) (ps_decay_streak r) (ps_flush_active r) (ps_flush_low_mcap r) (ps_recovery_score r)
    (ps_sl_prev_raw_mcap r) (ps_use_jupiter_exit_mcap r) (ps_exit_mcap_jupiter r)
    (ps_last_exit_mcap_poll_at r).


Section Positions.
Context {P : Type} `{!Pool P}.
Implicit Types pos : Position P.

(** [pool.market_cap().amount().to_float()] *)
Definition pool_mcap_sol (p : P) : outcome f64 :=
  cap ← market_cap p; Ret (amount_to_float (currency_amount cap)).

(* autobuy/positions.rs 123-191: Position::new *)
Definition position_new (wallet_id : string) (pool : P) (buy_amount : Amount) (current_time : Z)
    (entry_mcap_fill_sol : option f64) : outcome (Position P) :=
  enter_mcap ←
    match entry_mcap_fill_sol with
    | Some m => if (0 <? m)%float then Ret (amount_from_float_native m)
                else cap ← market_cap pool; Ret (currency_amount cap)
    | None => cap ← market_cap pool; Ret (currency_amount cap)
    end;
  Ret {|
    ps_wallet_id := wallet_id; ps_pool := pool;
    ps_initial_holdings := buy_amount; ps_holdings := buy_amount;
    ps_enter_mcap := enter_mcap; ps_highest_mcap := amount_to_float enter_mcap;
    ps_exit_profit_floor := (-16)%float;
    ps_tp1_triggered := false; ps_tp2_triggered := false; ps_tp3_triggered := false;
    ps_tp4_triggered := false; ps_tp5_triggered := false;
    ps_mcap_ceiling_triggered := false; ps_trailing_active := false;
    ps_is_closing := false; ps_pending_partial_sell := false;
    ps_entry_time := current_time; ps_total_returned := 0%float; ps_spent_sol := 0%float;
    ps_dev_address := None; ps_early_buyers := []; ps_learning_snapshot := None;
    ps_open_reason := None;
    ps_tk_entry_buyers := 0; ps_tk_entry_smart := 0; ps_tk_entry_b2s := 0%float;
    ps_tk_last_secs := 0; ps_tk_last_mcap := 0%float;
    ps_tk_prev_secs := 0; ps_tk_prev_mcap := 0%float;
    ps_last_time_kill_tier := ""; ps_last_time_kill_after_secs := 0;
    ps_exit_profile := ProfNeutral; ps_hold_mode := false; ps_exit_phase := Exploration;
    ps_live_score := 0; ps_live_prev_velocity := 0%float; ps_live_buyers_per_sec := 0%float;
    ps_live_prev_buyers_per_sec := 0%float; ps_last_live_score_at := 0;
    ps_live_score_entry_floor := 1; ps_peak_profit_pct := 0%float;
    ps_live_tape_prev := None; ps_live_tape_curr := None; ps_exit_mcap_ticks := [];
    ps_sl_below_floor_streak := 0; ps_decay_streak := 0; ps_flush_active := false;
    ps_flush_low_mcap := 0%float; ps_recovery_score := 0; ps_sl_prev_raw_mcap := None;
    ps_use_jupiter_exit_mcap := false; ps_exit_mcap_jupiter := None;
    ps_last_exit_mcap_poll_at := 0 |}.

(* autobuy/positions.rs 194-201: Position::exit_raw_mcap *)
Definition exit_raw_mcap pos : outcome f64 :=
  if ps_use_jupiter_exit_mcap pos then
    match ps_exit_mcap_jupiter pos with
    | Some j => if (0 <? j)%float then Ret j else pool_mcap_sol (ps_pool pos)
    | None => pool_mcap_sol (ps_pool pos)
    end
  else pool_mcap_sol (ps_pool pos).

(* autobuy/positions.rs 204-206: Position::display_market_cap *)
Definition display_market_cap pos : outcome f64 := exit_raw_mcap pos.

(** the ring buffer keeps the last [max_ticks] samples *)
Definition last_n {A} (n : nat) (l : list A) : list A := drop (length l - n) l.

(* autobuy/positions.rs 208-216: Position::push_exit_mcap_tick *)
Definition push_exit_mcap_tick (raw_mcap : f64) (max_ticks : Z) pos : Position P :=
  if exit_mcap_valid raw_mcap then
    pos <| ps_exit_mcap_ticks := last_n (Z.to_nat max_ticks) (ps_exit_mcap_ticks pos ++ [raw_mcap]) |>
  else pos.

(* autobuy/positions.rs 222-228: Position::pnl_at_mcap *)
Definition pnl_at_mcap pos (mcap : f64) : f64 :=
  let enter_mcap := amount_to_float (ps_enter_mcap pos) in
  if (enter_mcap =? 0)%float then 0%float else ((mcap / enter_mcap - 1) * 100)%float.

(* autobuy/positions.rs 218-220: Position::pnl *)
Definition pnl pos : outcome f64 :=
  mcap ← display_market_cap pos; Ret (pnl_at_mcap pos mcap).

(* autobuy/positions.rs 242-249: Position::filtered_market_cap *)
Definition filtered_market_cap pos (band_low band_high : f64) : f64 :=
  filtered_exit_mcap (ps_exit_mcap_ticks pos) (amount_to_float (ps_enter_mcap pos)) band_low band_high.

(* autobuy/positions.rs 231-240: Position::pnl_filtered *)
Definition pnl_filtered pos (band_low band_high : f64) : f64 :=
  let enter := amount_to_float (ps_enter_mcap pos) in
  let mcap := filtered_exit_mcap (ps_exit_mcap_ticks pos) enter band_low band_high in
  pnl_at_mcap pos mcap.

(* autobuy/positions.rs 252-268: Position::time_kill_note_mcap_sample *)
Definition time_kill_note_mcap_sample (wall_secs : Z) (mcap : f64) pos : Position P :=
  if ps_tk_last_secs pos =? 0 then
    pos <| ps_tk_last_secs := wall_secs |> <| ps_tk_last_mcap := mcap |>
        <| ps_tk_prev_secs := wall_secs |> <| ps_tk_prev_mcap := mcap |>
  else if wall_secs =? ps_tk_last_secs pos then pos <| ps_tk_last_mcap := mcap |>
  else
    pos <| ps_tk_prev_secs := ps_tk_last_secs pos |> <| ps_tk_prev_mcap := ps_tk_last_mcap pos |>
        <| ps_tk_last_secs := wall_secs |> <| ps_tk_last_mcap := mcap |>.

(* autobuy/positions.rs 271-281: Position::time_kill_mcap_velocity_pct_per_sec *)
Definition time_kill_mcap_velocity_pct_per_sec pos (enter_mcap : f64) : f64 :=
  if (enter_mcap <=? 0)%float then 0%float
  else
    let dt := f64_of_Z (Z.max (sat_sub (ps_tk_last_secs pos) (ps_tk_prev_secs pos)) 1) in
    let dm := (ps_tk_last_mcap pos - ps_tk_prev_mcap pos)%float in
    (dm / enter_mcap * 100 / dt)%float.

(** ** Exit-engine functions of a position *)

(** [snap.map(f).unwrap_or(d)] *)
Definition snap_get {A} (snap : option LearningTradeSnapshot) (f : LearningTradeSnapshot -> A) (d : A)
    : A := default d (f <$> snap).

(* autobuy/exit_engine.rs 795-835: live_metrics_lite *)
Definition live_metrics_lite pos (vel_pct_per_sec profit_pct : f64)
    (snap : option LearningTradeSnapshot) (cfg : ExitEngineV4Config) : LiveMetrics :=
  let sell_pressure := snap_get snap ls_sell_pressure_score 0%float in
  let entry_vel := snap_get snap ls_velocity_pct 0%float in
  let bundle_similar := snap_get snap ls_bundle_similar 0%float in
  let bundle_identical := snap_get snap ls_bundle_identical 0%float in
  let smart_exits := snap_get snap ls_smart_wallet_early_exits 0 in
  let b2s := if (0 <? ps_tk_entry_b2s pos)%float then ps_tk_entry_b2s pos
             else snap_get snap ls_buy_to_sell_ratio 1%float in
  let buyers_per_sec :=
    (f64_max (vel_pct_per_sec * 12)%float 0%float
     + (if (35 <=? ps_tk_entry_buyers pos)%Z then 2.5 else 0))%float in
  let volume_delta := vel_pct_per_sec in
  let momentum_decay :=
    momentum_decay_detected vel_pct_per_sec (ps_live_prev_velocity pos) sell_pressure volume_delta in
  {| lm_buyers_per_sec := buyers_per_sec;
     lm_smart_wallet_count := ps_tk_entry_smart pos;
     lm_buy_sell_ratio := b2s;
     lm_holder_growth_rate := (f64_max vel_pct_per_sec 0 * 20)%float;
     lm_volume_delta := volume_delta;
     lm_liquidity_delta := vel_pct_per_sec;
     lm_sell_pressure_score := sell_pressure;
     lm_smart_wallet_exits := smart_exits;
     lm_momentum_decay := momentum_decay;
     lm_volume_decay := (volume_delta <? 0)%float;
     lm_bundle_detected := (bundle_similar >? v4_hold_max_bundle_similar cfg)%float
                           || (bundle_identical >? 0.25)%float;
     lm_momentum_overheated := (v4_hold_momentum_overheated_pct cfg <=? entry_vel)%float
                               || (120 <=? profit_pct)%float |}.

(* autobuy/exit_engine.rs 1053-1104: resolve_entry_profile *)
Definition resolve_entry_profile (tk : TkEntryThresholds) (v4 : ExitEngineV4Config) pos
    (snap : option LearningTradeSnapshot) : ExitProfile * bool :=
  let entry_score := snap_get snap ls_score_total 0 in
  let b2s := f64_max (ps_tk_entry_b2s pos) (snap_get snap ls_buy_to_sell_ratio 0%float) in
  let smart := Z.max (ps_tk_entry_smart pos) (snap_get snap ls_smart_wallet_count 0) in
  let strong :=
    pts (1 <=? smart) 1 + pts (tke_strong_min_buyers tk <=? ps_tk_entry_buyers pos) 1
    + pts (tke_strong_min_b2s tk <=? b2s)%float 1 in
  let weak :=
    pts (ps_tk_entry_smart pos =? 0) 1
    + pts ((0 <? ps_tk_entry_buyers pos) && (ps_tk_entry_buyers pos <? tke_weak_max_buyers tk)) 1
    + pts ((0 <? b2s)%float && (b2s <? tke_weak_max_b2s tk)%float) 1 in
  let base :=
    if (2 <=? strong) && (weak <=? 1) then ProfStrong
    else if (2 <=? weak) && (strong <=? 1) then ProfWeak
    else ProfNeutral in
  let metrics := live_metrics_lite pos 0%float 0%float snap v4 in
  let live_score := Z.max (calculate_live_score metrics) (Z.quot entry_score 2) in
  let hold := should_enable_hold_mode v4 metrics live_score in
  let biased := ml_profile_bias (snap_get snap ls_tier "") base in
  let profile :=
    if hold && (bool_decide (biased = ProfStrong) || bool_decide (biased = ProfNeutral))
    then ProfRunner else biased in
  (profile, hold).
End Positions.
