(* ===== verification/Tick.v ===== *)
(** One tick of one position: the loop body of [process_positions],
    [src/src/autobuy/manager.rs], with the manager's configuration.

    The body is a sequence of checks, each of which may queue a sell and end the
    iteration ([continue]); a check is a function from the position to
    [Next], the position for the next check, or [Stop], the position kept and
    the sell queued.  [tick_position] chains them in the order of the code. *)
From S2P Require Import Prelude Text Amounts Pump Features Learning LivePosition ExitEngine.
From S2P Require Import Positions.

(* autobuy/manager.rs 108-110: default_tp3_pct *)
Definition default_tp3_pct : f64 := 100%float.

(* autobuy/manager.rs 111-113: default_tp3_sell_pct *)
Definition default_tp3_sell_pct : f64 := 10%float.

(* autobuy/manager.rs 114-116: default_tp4_pct *)
Definition default_tp4_pct : f64 := 150%float.

(* autobuy/manager.rs 117-119: default_tp4_sell_pct *)
Definition default_tp4_sell_pct : f64 := 10%float.

(* autobuy/manager.rs 120-122: default_tp5_pct *)
Definition default_tp5_pct : f64 := 200%float.

(* autobuy/manager.rs 123-125: default_tp5_sell_pct *)
Definition default_tp5_sell_pct : f64 := 10%float.

(* autobuy/manager.rs 127-129: default_time_kill_adaptive *)
Definition default_time_kill_adaptive : bool := true.

(* autobuy/manager.rs 130-132: default_time_kill_weak_secs *)
Definition default_time_kill_weak_secs : Z := 22.

(* autobuy/manager.rs 133-135: default_time_kill_strong_secs *)
Definition default_time_kill_strong_secs : Z := 60.

(* autobuy/manager.rs 136-138: default_time_kill_neutral_secs *)
Definition default_time_kill_neutral_secs : Z := 32.

(* autobuy/manager.rs 139-141: default_time_kill_strong_min_buyers *)
Definition default_time_kill_strong_min_buyers : Z := 38.

(* autobuy/manager.rs 142-144: default_time_kill_strong_min_b2s *)
Definition default_time_kill_strong_min_b2s : f64 := 4.5%float.

(* autobuy/manager.rs 145-147: default_time_kill_weak_max_buyers *)
Definition default_time_kill_weak_max_buyers : Z := 28.

(* autobuy/manager.rs 148-150: default_time_kill_weak_max_b2s *)
Definition default_time_kill_weak_max_b2s : f64 := 3%float.

(* autobuy/manager.rs 151-153: default_time_kill_vel_strong *)
Definition default_time_kill_vel_strong : f64 := 0.06%float.

(* autobuy/manager.rs 154-156: default_time_kill_vel_flat *)
Definition default_time_kill_vel_flat : f64 := 0.025%float.

(* autobuy/manager.rs 157-159: default_time_kill_early_green_pct *)
Definition default_time_kill_early_green_pct : f64 := 8%float.

(* autobuy/manager.rs 160-162: default_time_kill_peak_dd_weak *)
Definition default_time_kill_peak_dd_weak : f64 := 0.055%float.

(* autobuy/manager.rs 302-304: default_buy_fanout_delay_ms *)
Definition default_buy_fanout_delay_ms : Z := 800.

(* autobuy/manager.rs 306-308: default_exit_v4_live_snapshot_interval_ms *)
Definition default_exit_v4_live_snapshot_interval_ms : Z := 500.

(* autobuy/manager.rs 310-312: default_sl_confirm_ticks *)
Definition default_sl_confirm_ticks : Z := 3.

(* autobuy/manager.rs 314-316: default_sl_grace_secs *)
Definition default_sl_grace_secs : Z := 5.

(* autobuy/manager.rs 318-320: default_sl_crash_pnl_pct *)
Definition default_sl_crash_pnl_pct : f64 := (-28)%float.

(* autobuy/manager.rs 322-324: default_sl_crash_tick_drop_pct *)
Definition default_sl_crash_tick_drop_pct : f64 := 18%float.

(* autobuy/manager.rs 326-328: default_exit_mcap_median_ticks *)
Definition default_exit_mcap_median_ticks : Z := 5.

(* autobuy/manager.rs 330-332: default_exit_mcap_band_low_ratio *)
Definition default_exit_mcap_band_low_ratio : f64 := 0.02%float.

(* autobuy/manager.rs 334-336: default_exit_mcap_band_high_ratio *)
Definition default_exit_mcap_band_high_ratio : f64 := 50%float.

(* autobuy/manager.rs 338-340: default_mcap_ceiling_sol *)
Definition default_mcap_ceiling_sol : f64 := 350%float.

(* autobuy/manager.rs 342-344: default_mcap_ceiling_partial_sell_pct *)
Definition default_mcap_ceiling_partial_sell_pct : f64 := 65%float.

(* autobuy/manager.rs 346-348: default_fill_mcap_abort_enabled *)
Definition default_fill_mcap_abort_enabled : bool := true.

(* autobuy/manager.rs 350-352: default_fill_mcap_abort_max_ratio *)
Definition default_fill_mcap_abort_max_ratio : f64 := 1.5%float.

(* autobuy/manager.rs 354-356: default_fill_mcap_abort_min_ratio *)
Definition default_fill_mcap_abort_min_ratio : f64 := 0.78%float.

(* autobuy/manager.rs 358-360: default_honest_entry_baseline *)
Definition default_honest_entry_baseline : bool := true.

(* autobuy/manager.rs 362-364: default_honest_entry_baseline_min_ratio *)
Definition default_honest_entry_baseline_min_ratio : f64 := 0.85%float.

(* autobuy/manager.rs 165-300: SmartBuyConfig *)
Record SmartBuyConfig := mkSmartBuyConfig {
  sb_amount_sol : f64;
  sb_tp1_pct : f64;
  sb_tp1_sell_pct : f64;
  sb_tp2_pct : f64;
  sb_tp2_sell_pct : f64;
  sb_tp3_pct : f64;
  sb_tp3_sell_pct : f64;
  sb_tp4_pct : f64;
  sb_tp4_sell_pct : f64;
  sb_tp5_pct : f64;
  sb_tp5_sell_pct : f64;
  sb_exit_profit_floor : f64;
  sb_time_kill_secs : Z;
  sb_time_kill_min_profit_pct : f64;
  sb_time_kill_adaptive : bool;
  sb_time_kill_weak_secs : Z;
  sb_time_kill_strong_secs : Z;
  sb_time_kill_neutral_secs : Z;
  sb_time_kill_strong_min_buyers : Z;
  sb_time_kill_strong_min_b2s : f64;
  sb_time_kill_weak_max_buyers : Z;
  sb_time_kill_weak_max_b2s : f64;
  sb_time_kill_vel_strong : f64;
  sb_time_kill_vel_flat : f64;
  sb_time_kill_early_green_pct : f64;
  sb_time_kill_peak_dd_for_weak : f64;
  sb_trailing_stop_drawdown_pct : f64;
  sb_fill_mcap_abort_enabled : bool;
  sb_fill_mcap_abort_max_ratio : f64;
  sb_fill_mcap_abort_min_ratio : f64;
  sb_honest_entry_baseline : bool;
  sb_honest_entry_baseline_min_ratio : f64;
  sb_sl_confirm_ticks : Z;
  sb_sl_grace_secs : Z;
  sb_sl_crash_pnl_pct : f64;
  sb_sl_crash_tick_drop_pct : f64;
  sb_exit_mcap_median_ticks : Z;
  sb_exit_mcap_band_low_ratio : f64;
  sb_exit_mcap_band_high_ratio : f64;
  sb_mcap_ceiling_sol : f64;
  sb_mcap_ceiling_partial_sell_pct : f64;
  sb_exit_v4 : ExitEngineV4Config;
  sb_buy_fanout_delay_ms : Z;
  sb_exit_v4_live_snapshot_interval_ms : Z
}.
#[export] Instance SmartBuyConfig_settable : Settable SmartBuyConfig := fun r =>
  mkSmartBuyConfig (sb_amount_sol r) (sb_tp1_pct r) (sb_tp1_sell_pct r) (sb_tp2_pct r)
    (sb_tp2_sell_pct r) (sb_tp3_pct r) (sb_tp3_sell_pct r) (sb_tp4_pct r) (sb_tp4_sell_pct r)
    (sb_tp5_pct r) (sb_tp5_sell_pct r) (sb_exit_profit_floor r) (sb_time_kill_secs r)
    (sb_time_kill_min_profit_pct r) (sb_time_kill_adaptive r) (sb_time_kill_weak_secs r)
    (sb_time_kill_strong_secs r) (sb_time_kill_neutral_secs r) (sb_time_kill_strong_min_buyers
    r) (sb_time_kill_strong_min_b2s r) (sb_time_kill_weak_max_buyers r)
    (sb_time_kill_weak_max_b2s r) (sb_time_kill_vel_strong r) (sb_time_kill_vel_flat r)
    (sb_time_kill_early_green_pct r) (sb_time_kill_peak_dd_for_weak r)
    (sb_trailing_stop_drawdown_pct r) (sb_fill_mcap_abort_enabled r)
    (sb_fill_mcap_abort_max_ratio r) (sb_fill_mcap_abort_min_ratio r) (sb_honest_entry_baseline
    r) (sb_honest_entry_baseline_min_ratio r) (sb_sl_confirm_ticks r) (sb_sl_grace_secs r)
    (sb_sl_crash_pnl_pct r) (sb_sl_crash_tick_drop_pct r) (sb_exit_mcap_median_ticks r)
    (sb_exit_mcap_band_low_ratio r) (sb_exit_mcap_band_high_ratio r) (sb_mcap_ceiling_sol r)
    (sb_mcap_ceiling_partial_sell_pct r) (sb_exit_v4 r) (sb_buy_fanout_delay_ms r)
    (sb_exit_v4_live_snapshot_interval_ms r).

(* autobuy/manager.rs 376-425: Default for SmartBuyConfig *)
Definition SmartBuyConfig_default : SmartBuyConfig := {|
  sb_amount_sol := 0.1%float;
  sb_tp1_pct := 30%float;
  sb_tp1_sell_pct := 30%float;
  sb_tp2_pct := 50%float;
  sb_tp2_sell_pct := 15%float;
  sb_tp3_pct := default_tp3_pct;
  sb_tp3_sell_pct := default_tp3_sell_pct;
  sb_tp4_pct := default_tp4_pct;
  sb_tp4_sell_pct := default_tp4_sell_pct;
  sb_tp5_pct := default_tp5_pct;
  sb_tp5_sell_pct := default_tp5_sell_pct;
  sb_exit_profit_floor := (-40)%float;
  sb_time_kill_secs := 25;
  sb_time_kill_min_profit_pct := 10%float;
  sb_time_kill_adaptive := default_time_kill_adaptive;
  sb_time_kill_weak_secs := default_time_kill_weak_secs;
  sb_time_kill_strong_secs := default_time_kill_strong_secs;
  sb_time_kill_neutral_secs := default_time_kill_neutral_secs;
  sb_time_kill_strong_min_buyers := default_time_kill_strong_min_buyers;
  sb_time_kill_strong_min_b2s := default_time_kill_strong_min_b2s;
  sb_time_kill_weak_max_buyers := default_time_kill_weak_max_buyers;
  sb_time_kill_weak_max_b2s := default_time_kill_weak_max_b2s;
  sb_time_kill_vel_strong := default_time_kill_vel_strong;
  sb_time_kill_vel_flat := default_time_kill_vel_flat;
  sb_time_kill_early_green_pct := default_time_kill_early_green_pct;
  sb_time_kill_peak_dd_for_weak := default_time_kill_peak_dd_weak;
  sb_trailing_stop_drawdown_pct := 26%float;
  sb_fill_mcap_abort_enabled := default_fill_mcap_abort_enabled;
  sb_fill_mcap_abort_max_ratio := default_fill_mcap_abort_max_ratio;
  sb_fill_mcap_abort_min_ratio := default_fill_mcap_abort_min_ratio;
  sb_honest_entry_baseline := default_honest_entry_baseline;
  sb_honest_entry_baseline_min_ratio := default_honest_entry_baseline_min_ratio;
  sb_sl_confirm_ticks := default_sl_confirm_ticks;
  sb_sl_grace_secs := default_sl_grace_secs;
  sb_sl_crash_pnl_pct := default_sl_crash_pnl_pct;
  sb_sl_crash_tick_drop_pct := default_sl_crash_tick_drop_pct;
  sb_exit_mcap_median_ticks := default_exit_mcap_median_ticks;
  sb_exit_mcap_band_low_ratio := default_exit_mcap_band_low_ratio;
  sb_exit_mcap_band_high_ratio := default_exit_mcap_band_high_ratio;
  sb_mcap_ceiling_sol := default_mcap_ceiling_sol;
  sb_mcap_ceiling_partial_sell_pct := default_mcap_ceiling_partial_sell_pct;
  sb_exit_v4 := ExitEngineV4Config_default;
  sb_buy_fanout_delay_ms := default_buy_fanout_delay_ms;
  sb_exit_v4_live_snapshot_interval_ms := default_exit_v4_live_snapshot_interval_ms
|}.

(* autobuy/manager.rs 367-374: FillMcapSpike *)
Record FillMcapSpike := mkFillMcapSpike {
  fs_score_mcap_sol : f64;
  fs_fill_mcap_sol : f64;
  fs_ratio : f64;
  fs_max_ratio : f64;
  fs_min_ratio : f64;
  fs_adverse : bool
}.
#[export] Instance FillMcapSpike_settable : Settable FillMcapSpike := fun r =>
  mkFillMcapSpike (fs_score_mcap_sol r) (fs_fill_mcap_sol r) (fs_ratio r) (fs_max_ratio r)
    (fs_min_ratio r) (fs_adverse r).


(* autobuy/post_exit_tracker.rs 39-39: OPEN_EXIT_MCAP_POLL_SECS *)
Definition OPEN_EXIT_MCAP_POLL_SECS : Z := 3.

(** the tuple the loop pushes on [actions], without the key *)
Record SellAction := mkSellAction { sa_percent : f64; sa_reason : string; sa_urgent : bool }.

(** What the loop computes once per tick before the checks. *)
Record Reading := mkReading {
  rd_now : Z;
  rd_raw_mcap : f64;
  rd_current_mcap : f64;
  rd_profit : f64;
  rd_profit_raw : f64;
  rd_sl_profit : f64;
  rd_tick_drop : option f64;
  rd_vel : f64;
  rd_held_secs : Z;
  rd_mcap_pnl_pct : f64;
  rd_is_a_plus : bool;
  rd_in_grace : bool
}.

Inductive flow (P : Type) :=
  | Next (pos : Position P)
  | Stop (pos : Position P) (action : option SellAction).
Arguments Next {P} pos.
Arguments Stop {P} pos action.

Definition andThen {P} (f : flow P) (k : Position P -> flow P) : flow P :=
  match f with Next pos => k pos | Stop pos a => Stop pos a end.

Section Tick.
Context {P : Type} `{!Pool P}.
Implicit Types pos : Position P.
Variable cfg : SmartBuyConfig.

Local Abbreviation v4 := (sb_exit_v4 cfg).
Local Abbreviation v4_on := (v4_enabled (sb_exit_v4 cfg)).

Definition entry_tier pos : string := snap_get (ps_learning_snapshot pos) ls_tier "".

(** 100% of the holdings, and no further signal until the sell has run *)
Definition full_close pos (reason : string) (urgent : bool) : flow P :=
  Stop (pos <| ps_is_closing := true |>) (Some (mkSellAction 100%float reason urgent)).

(** the poll is spawned only when there is an RPC client *)
(* autobuy/manager.rs 2136-2168: process_positions *)
Definition tick_poll (has_rpc : bool) (now : Z) (pool_raw : f64) pos
    : Position P * option (f64 * bool) :=
  let should_poll :=
    ps_use_jupiter_exit_mcap pos || ps_mcap_ceiling_triggered pos || (150 <=? pool_raw)%float in
  if should_poll
     && (OPEN_EXIT_MCAP_POLL_SECS <=? sat_sub now (ps_last_exit_mcap_poll_at pos)) && has_rpc
  then
    let force_jupiter := ps_use_jupiter_exit_mcap pos || ps_mcap_ceiling_triggered pos in
    (pos <| ps_last_exit_mcap_poll_at := now |>, Some (pool_raw, force_jupiter))
  else (pos, None).

(** [pos.pnl()] reads the raw market cap again, which nothing has changed *)
(* autobuy/manager.rs 2170-2203: process_positions *)
Definition tick_observe (now : Z) (raw_mcap : f64) pos : Position P * Reading :=
  let pos := push_exit_mcap_tick raw_mcap (sb_exit_mcap_median_ticks cfg) pos in
  let band_lo := sb_exit_mcap_band_low_ratio cfg in
  let band_hi := sb_exit_mcap_band_high_ratio cfg in
  let current_mcap := filtered_market_cap pos band_lo band_hi in
  let pos := if (current_mcap >? ps_highest_mcap pos)%float
             then pos <| ps_highest_mcap := current_mcap |> else pos in
  let pos := time_kill_note_mcap_sample now current_mcap pos in
  let profit := pnl_filtered pos band_lo band_hi in
  let profit_raw := pnl_at_mcap pos raw_mcap in
  let sl_profit := sl_trigger_pnl_pct profit profit_raw in
  let tick_drop := prev ← ps_sl_prev_raw_mcap pos; sl_raw_tick_drop_pct prev raw_mcap in
  let pos := pos <| ps_sl_prev_raw_mcap := Some raw_mcap |> in
  let pos := if (profit >? ps_peak_profit_pct pos)%float
             then pos <| ps_peak_profit_pct := profit |> else pos in
  let vel := time_kill_mcap_velocity_pct_per_sec pos (amount_to_float (ps_enter_mcap pos)) in
  let held_secs := sat_sub now (ps_entry_time pos) in
  let tier := entry_tier pos in
  (pos, {| rd_now := now; rd_raw_mcap := raw_mcap; rd_current_mcap := current_mcap;
           rd_profit := profit; rd_profit_raw := profit_raw; rd_sl_profit := sl_profit;
           rd_tick_drop := tick_drop; rd_vel := vel; rd_held_secs := held_secs;
           rd_mcap_pnl_pct := pnl_at_mcap pos raw_mcap;
           rd_is_a_plus := entry_tier_is_a_plus tier;
           rd_in_grace := v4_on && in_exit_grace_period_tier held_secs tier v4 |}).

(* autobuy/manager.rs 2205-2228: process_positions *)
Definition tick_refresh (r : Reading) pos : Position P :=
  if v4_on && negb (rd_in_grace r)
     && (v4_live_score_refresh_secs v4 <=? sat_sub (rd_now r) (ps_last_live_score_at pos))
     && match ps_live_tape_curr pos with None => true | Some _ => false end
  then
    let metrics := live_metrics_lite pos (rd_vel r) (rd_profit r) (ps_learning_snapshot pos) v4 in
    let pos := pos <| ps_live_score :=
                        Z.max (calculate_live_score metrics) (ps_live_score_entry_floor pos) |>
                   <| ps_live_prev_velocity := rd_vel r |>
                   <| ps_last_live_score_at := rd_now r |> in
    let pos := pos <| ps_exit_phase :=
                        transition_position_phase (ps_exit_phase pos) (ps_live_score pos)
                          (lm_momentum_decay metrics) (rd_profit r) v4 |> in
    let '(profile, hold) :=
      maybe_upgrade_runner v4 (ps_exit_profile pos) metrics (ps_live_score pos) (ps_hold_mode pos) in
    pos <| ps_exit_profile := profile |> <| ps_hold_mode := hold |>
  else pos.

(* autobuy/manager.rs 2230-2236: process_positions *)
Definition tick_staircase pos : Position P :=
  if v4_on && v4_profit_staircase_enabled v4 then
    match profit_lock_staircase_floor (ps_peak_profit_pct pos) with
    | Some floor =>
        if (ps_exit_profit_floor pos <? floor)%float then pos <| ps_exit_profit_floor := floor |>
        else pos
    | None => pos
    end
  else pos.

(* autobuy/manager.rs 2048-2113: time_kill_window_profile *)
Definition time_kill_window_profile pos (profit current_mcap : f64) (held_secs : Z) : Z * string :=
  if negb (sb_time_kill_adaptive cfg) then (sb_time_kill_secs cfg, "fixed")
  else
    let vel := time_kill_mcap_velocity_pct_per_sec pos (amount_to_float (ps_enter_mcap pos)) in
    let peak_dd :=
      if (0 <? ps_highest_mcap pos)%float
      then ((ps_highest_mcap pos - current_mcap) / ps_highest_mcap pos)%float else 0%float in
    let strong :=
      pts (1 <=? ps_tk_entry_smart pos) 1
      + pts (sb_time_kill_strong_min_buyers cfg <=? ps_tk_entry_buyers pos) 1
      + pts (sb_time_kill_strong_min_b2s cfg <=? ps_tk_entry_b2s pos)%float 1
      + pts ((6 <=? held_secs) && (sb_time_kill_vel_strong cfg <=? vel)%float) 1
      + pts (sb_time_kill_early_green_pct cfg <=? profit)%float 1 in
    let weak :=
      pts (ps_tk_entry_smart pos =? 0) 1
      + pts ((0 <? ps_tk_entry_buyers pos)
             && (ps_tk_entry_buyers pos <? sb_time_kill_weak_max_buyers cfg)) 1
      + pts ((0 <? ps_tk_entry_b2s pos)%float
             && (ps_tk_entry_b2s pos <? sb_time_kill_weak_max_b2s cfg)%float) 1
      + pts ((8 <=? held_secs) && (abs vel <=? sb_time_kill_vel_flat cfg)%float) 1
      + pts ((sb_time_kill_peak_dd_for_weak cfg <=? peak_dd)%float
             && (profit <? sb_time_kill_min_profit_pct cfg)%float) 1 in
    if (4 <=? strong) && (weak <=? 1) then (sat_s 45 80 (sb_time_kill_strong_secs cfg), "strong")
    else if (3 <=? weak) && (strong <=? 1) then (sat_s 18 28 (sb_time_kill_weak_secs cfg), "weak")
    else (sat_s 20 45 (sb_time_kill_neutral_secs cfg), "neutral").

(* autobuy/manager.rs 2238-2254: process_positions *)
Definition tick_kill_window (r : Reading) pos : Position P :=
  let '(secs, tk_tier) :=
    time_kill_window_profile pos (rd_profit r) (rd_current_mcap r) (rd_held_secs r) in
  let secs := if v4_on && rd_is_a_plus r then Z.max secs (v4_a_plus_time_kill_min_secs v4) else secs in
  let secs :=
    if v4_on then
      match tier_a_time_kill_defer_floor_secs v4 (entry_tier pos) (ps_learning_snapshot pos)
              (rd_mcap_pnl_pct r) with
      | Some floor => Z.max secs floor
      | None => secs
      end
    else secs in
  pos <| ps_last_time_kill_tier := tk_tier |> <| ps_last_time_kill_after_secs := secs |>.

(* autobuy/manager.rs 2256-2277: process_positions *)
Definition tick_tp_cfg pos : ExitTpProfile :=
  if v4_on then apply_phase_to_tp (profile_params v4 (ps_exit_profile pos)) (ps_exit_phase pos)
  else {|
    ep_tp1_pct := sb_tp1_pct cfg; ep_tp1_sell_pct := sb_tp1_sell_pct cfg;
    ep_tp2_pct := sb_tp2_pct cfg; ep_tp2_sell_pct := sb_tp2_sell_pct cfg;
    ep_tp3_pct := sb_tp3_pct cfg; ep_tp3_sell_pct := sb_tp3_sell_pct cfg;
    ep_tp4_pct := sb_tp4_pct cfg; ep_tp4_sell_pct := sb_tp4_sell_pct cfg;
    ep_tp5_pct := sb_tp5_pct cfg; ep_tp5_sell_pct := sb_tp5_sell_pct cfg;
    ep_trailing_stop_drawdown_pct := sb_trailing_stop_drawdown_pct cfg;
    ep_trailing_activate_profit_pct := 80%float; ep_trailing_floor_profit_pct := 35%float;
    ep_smart_stop_activate_profit_pct := 50%float; ep_smart_stop_floor_profit_pct := 5%float |}.

(* autobuy/manager.rs 2279-2283: process_positions *)
Definition tick_trailing_pct (r : Reading) pos : f64 :=
  if v4_on then adaptive_trailing (ps_exit_profile pos) (ps_live_score pos) (rd_profit r)
  else ep_trailing_stop_drawdown_pct (tick_tp_cfg pos).

(** ** The checks *)

(* autobuy/manager.rs 2326-2341: process_positions *)
Definition tick_flush (r : Reading) pos : Position P :=
  let drawdown_from_high :=
    if (0 <? ps_highest_mcap pos)%float
    then ((ps_highest_mcap pos - rd_current_mcap r) / ps_highest_mcap pos * 100)%float
    else 0%float in
  if (v4_flush_drop_pct v4 <=? drawdown_from_high)%float then
    if negb (ps_flush_active pos)
    then pos <| ps_flush_active := true |> <| ps_flush_low_mcap := rd_current_mcap r |>
    else if (rd_current_mcap r <? ps_flush_low_mcap pos)%float
    then pos <| ps_flush_low_mcap := rd_current_mcap r |>
    else pos
  else if (ps_highest_mcap pos * 0.99 <=? rd_current_mcap r)%float
  then pos <| ps_flush_active := false |>
  else pos.

(* autobuy/manager.rs 2295-2386: process_positions *)
Definition tick_decay (r : Reading) pos : flow P :=
  if v4_on && v4_momentum_decay_exit_enabled v4 && negb (rd_in_grace r)
     && match ps_live_tape_curr pos with Some _ => true | None => false end
  then
    let sell_p := snap_get (ps_learning_snapshot pos) ls_sell_pressure_score 0%float in
    let velocity_decay :=
      momentum_decay_detected (ps_live_buyers_per_sec pos) (ps_live_prev_buyers_per_sec pos)
        sell_p (rd_vel r) in
    let distribution_decay :=
      bool_decide (ps_exit_phase pos = Distribution)
      && (ps_live_score pos <=? v4_phase_distribution_max_score v4) in
    let early_green :=
      (rd_held_secs r <? v4_decay_early_hold_secs v4)
      && (v4_decay_early_mcap_profit_min_pct v4 <=? rd_mcap_pnl_pct r)%float in
    let decay_now :=
      if early_green && distribution_decay && negb velocity_decay then false
      else velocity_decay || distribution_decay in
    let pos := tick_flush r pos in
    let rec_metrics :=
      live_metrics_lite pos (rd_vel r) (rd_profit r) (ps_learning_snapshot pos) v4 in
    let pos := pos <| ps_recovery_score :=
                        recovery_score rec_metrics (rd_current_mcap r) (ps_flush_low_mcap pos)
                          (ps_highest_mcap pos) |> in
    let healthy_recovery :=
      ps_flush_active pos && (v4_recovery_min_score v4 <=? ps_recovery_score pos) in
    let pos := pos <| ps_decay_streak :=
                        if decay_now && negb healthy_recovery
                        then sat_add U8_MAX (ps_decay_streak pos) 1 else 0 |> in
    let decay_confirm_needed :=
      Z.max (if early_green
             then sat_add U8_MAX (v4_decay_confirm_ticks v4) (v4_decay_early_extra_confirm_ticks v4)
             else v4_decay_confirm_ticks v4) 1 in
    if decay_confirm_needed <=? ps_decay_streak pos then
      full_close pos
        ("MOMENTUM DECAY "
         +:+ (if decide (ps_exit_phase pos = Distribution)
              then "[" +:+ phase_as_str (ps_exit_phase pos) +:+ "] " else "")
         +:+ "(" +:+ fmt_int (ps_decay_streak pos) +:+ " ticks, rec="
         +:+ fmt_int (ps_recovery_score pos) +:+ ")") false
    else Next pos
  else Next pos.

(* autobuy/manager.rs 2388-2412: process_positions *)
Definition tick_time_kill (r : Reading) pos : flow P :=
  let skip_time_kill :=
    (v4_on
     && (bool_decide (ps_exit_profile pos = ProfStrong) || bool_decide (ps_exit_profile pos = ProfRunner))
     && (ps_tp1_triggered pos || ps_tp2_triggered pos)
     && (v4_strong_time_kill_min_profit_after_tp v4 <=? rd_profit r)%float)
    || (v4_on && rd_is_a_plus r
        && ((rd_held_secs r <? v4_a_plus_time_kill_min_secs v4)
            || (v4_a_plus_time_kill_mcap_profit_min_pct v4 <=? rd_mcap_pnl_pct r)%float)) in
  if negb skip_time_kill
     && (u64 (ps_entry_time pos + ps_last_time_kill_after_secs pos) <=? rd_now r)
     && (rd_profit r <? sb_time_kill_min_profit_pct cfg)%float
  then full_close pos "TIME KILL" false
  else Next pos.

(* autobuy/manager.rs 2414-2469: process_positions *)
Definition tick_stop_loss (r : Reading) pos : flow P :=
  let in_sl_grace := in_sl_grace_period (rd_held_secs r) (sb_sl_grace_secs cfg) in
  let sl_confirm := Z.max (sb_sl_confirm_ticks cfg) 1 in
  let crash :=
    sl_crash_triggered (rd_sl_profit r) (rd_profit_raw r) (rd_tick_drop r)
      (sb_sl_crash_pnl_pct cfg) (sb_sl_crash_tick_drop_pct cfg) in_sl_grace in
  if crash then
    full_close pos
      (format_sl_close_reason true (rd_sl_profit r) (ps_exit_profit_floor pos) (rd_profit r)
         (rd_profit_raw r) (rd_current_mcap r) (rd_raw_mcap r) None (rd_tick_drop r)) true
  else
    let pos := pos <| ps_sl_below_floor_streak :=
                        if in_sl_grace then 0
                        else if (rd_sl_profit r <=? ps_exit_profit_floor pos)%float
                        then Z.min (sat_add U8_MAX (ps_sl_below_floor_streak pos) 1) 255
                        else 0 |> in
    if negb in_sl_grace && (u8 sl_confirm <=? ps_sl_below_floor_streak pos) then
      full_close pos
        (format_sl_close_reason false (rd_sl_profit r) (ps_exit_profit_floor pos) (rd_profit r)
           (rd_profit_raw r) (rd_current_mcap r) (rd_raw_mcap r) (Some sl_confirm)
           (rd_tick_drop r)) false
    else Next pos.

(* autobuy/manager.rs 2471-2501: process_positions *)
Definition tick_ceiling (r : Reading) pos : flow P :=
  let ceiling_sol := sb_mcap_ceiling_sol cfg in
  if (ceiling_sol >? 0)%float && (ceiling_sol <=? rd_current_mcap r)%float
     && negb (ps_mcap_ceiling_triggered pos) && negb (ps_pending_partial_sell pos)
  then
    let pos := pos <| ps_mcap_ceiling_triggered := true |> <| ps_use_jupiter_exit_mcap := true |> in
    let sell_pct := f64_clamp (sb_mcap_ceiling_partial_sell_pct cfg) 1%float 99%float in
    let pos :=
      if negb (ps_trailing_active pos) then
        pos <| ps_trailing_active := true |>
            <| ps_exit_profit_floor :=
                 f64_max (ps_exit_profit_floor pos) (ep_trailing_floor_profit_pct (tick_tp_cfg pos)) |>
      else pos in
    Stop (pos <| ps_pending_partial_sell := true |>)
      (Some (mkSellAction sell_pct
               ("MCAP CEILING (" +:+ fmt_fixed 0 sell_pct +:+ "% lock, moonbag)") false))
  else Next pos.

(* autobuy/manager.rs 2503-2517: process_positions *)
Definition tick_trailing (r : Reading) pos : flow P :=
  if ps_trailing_active pos then
    let trail := tick_trailing_pct r pos in
    let keep_fraction := (1 - trail / 100)%float in
    let trailing_stop_mcap := (ps_highest_mcap pos * keep_fraction)%float in
    if (rd_current_mcap r <=? trailing_stop_mcap)%float then
      full_close pos
        (if v4_on then "TRAILING EXIT (" +:+ fmt_fixed 0 trail +:+ "% trail)" else "TRAILING EXIT")
        false
    else Next pos
  else Next pos.

(* autobuy/manager.rs 2519-2529: process_positions *)
Definition tick_protect (r : Reading) pos : Position P :=
  let tp := tick_tp_cfg pos in
  if (ep_trailing_activate_profit_pct tp <=? rd_profit r)%float then
    if negb (ps_trailing_active pos) then
      pos <| ps_trailing_active := true |> <| ps_exit_profit_floor := ep_trailing_floor_profit_pct tp |>
    else pos
  else if (ep_smart_stop_activate_profit_pct tp <=? rd_profit r)%float
          && (ps_exit_profit_floor pos <? ep_smart_stop_floor_profit_pct tp)%float
  then pos <| ps_exit_profit_floor := ep_smart_stop_floor_profit_pct tp |>
  else pos.

(* autobuy/manager.rs 2539-2558: process_positions *)
Definition tp_label pos (n : Z) (pct : f64) : string :=
  if v4_on then
    "TP" +:+ fmt_int n +:+ " (" +:+ fmt_fixed 0 pct +:+ "%) [" +:+ profile_as_str (ps_exit_profile pos)
    +:+ "|" +:+ phase_as_str (ps_exit_phase pos) +:+ "]"
  else "TP" +:+ fmt_int n.

(* autobuy/manager.rs 2552-2558: process_positions *)
Definition moonbag_sell pos (base : f64) : f64 :=
  if v4_on && v4_adaptive_moonbag_enabled v4
  then adaptive_moonbag_sell_pct base (ps_live_score pos) (ps_exit_phase pos) else base.

Definition partial_sell pos (pct : f64) (reason : string) : flow P :=
  Stop (pos <| ps_pending_partial_sell := true |>) (Some (mkSellAction pct reason false)).

(* autobuy/manager.rs 2531-2617: process_positions *)
Definition tick_take_profit (r : Reading) pos : flow P :=
  let tp := tick_tp_cfg pos in
  if ps_pending_partial_sell pos then Stop pos None
  else if (ep_tp1_pct tp <=? rd_profit r)%float && negb (ps_tp1_triggered pos) then
    partial_sell (pos <| ps_tp1_triggered := true |>) (ep_tp1_sell_pct tp)
      (tp_label pos 1 (ep_tp1_pct tp))
  else if (ep_tp2_pct tp <=? rd_profit r)%float && negb (ps_tp2_triggered pos) then
    partial_sell (pos <| ps_tp2_triggered := true |>) (ep_tp2_sell_pct tp)
      (tp_label pos 2 (ep_tp2_pct tp))
  else if (ep_tp3_pct tp <=? rd_profit r)%float && negb (ps_tp3_triggered pos) then
    partial_sell (pos <| ps_tp3_triggered := true |>) (moonbag_sell pos (ep_tp3_sell_pct tp))
      (tp_label pos 3 (ep_tp3_pct tp))
  else if (ep_tp4_pct tp <=? rd_profit r)%float && negb (ps_tp4_triggered pos) then
    partial_sell (pos <| ps_tp4_triggered := true |>) (moonbag_sell pos (ep_tp4_sell_pct tp))
      (tp_label pos 4 (ep_tp4_pct tp))
  else if (ep_tp5_pct tp <=? rd_profit r)%float && negb (ps_tp5_triggered pos) then
    partial_sell (pos <| ps_tp5_triggered := true |>) (moonbag_sell pos (ep_tp5_sell_pct tp))
      (tp_label pos 5 (ep_tp5_pct tp))
  else Stop pos None.

(** the updates that precede the checks *)
Definition tick_prepare (r : Reading) pos : Position P :=
  tick_kill_window r (tick_staircase (tick_refresh r pos)).

(* autobuy/manager.rs 2295-2617: process_positions *)
Definition tick_checks (r : Reading) pos : flow P :=
  andThen (tick_decay r pos) (fun pos =>
  andThen (tick_time_kill r pos) (fun pos =>
  andThen (tick_stop_loss r pos) (fun pos =>
  andThen (tick_ceiling r pos) (fun pos =>
  andThen (tick_trailing r pos) (fun pos =>
  tick_take_profit r (tick_protect r pos)))))).

(** the outcome of one iteration: the position, the sell queued, the market-cap
    poll spawned and the [PositionUpdate] sent *)
Record TickOut := mkTickOut {
  to_pos : Position P;
  to_action : option SellAction;
  to_poll : option (f64 * bool);
  to_update : option (f64 * f64 * f64 * string * Z)
}.

(* autobuy/manager.rs 2129-2618: process_positions *)
Definition tick_position (has_rpc : bool) (now : Z) pos : outcome TickOut :=
  if ps_is_closing pos then Ret (mkTickOut pos None None None)
  else
    pool_raw ← pool_mcap_sol (ps_pool pos);
    let '(pos, poll) := tick_poll has_rpc now pool_raw pos in
    raw_mcap ← exit_raw_mcap pos;
    let '(pos, r) := tick_observe now raw_mcap pos in
    let pos := tick_prepare r pos in
    let update := (rd_profit r, amount_to_float (ps_holdings pos), rd_current_mcap r,
                   ps_last_time_kill_tier pos, ps_last_time_kill_after_secs pos) in
    Ret match tick_checks r pos with
        | Next pos => mkTickOut pos None poll (Some update)
        | Stop pos a => mkTickOut pos a poll (Some update)
        end.
End Tick.
Arguments mkTickOut {P}.
Arguments to_pos {P} t.
Arguments to_action {P} t.
Arguments to_poll {P} t.
Arguments to_update {P} t.

(** ** What a tick may change *)

Section TickProps.
Context {P : Type} `{!Pool P}.
Implicit Types pos : Position P.
Variable cfg : SmartBuyConfig.

(** the one-shot triggers: five take-profit levels and the market-cap ceiling *)
Definition triggers pos : list bool :=
  [ps_tp1_triggered pos; ps_tp2_triggered pos; ps_tp3_triggered pos; ps_tp4_triggered pos;
   ps_tp5_triggered pos; ps_mcap_ceiling_triggered pos].

Definition sell_state pos := (ps_is_closing pos, ps_pending_partial_sell pos, triggers pos).

(** facts of the entry, which no tick changes *)
Definition entry_state pos :=
  (ps_wallet_id pos, ps_pool pos, ps_initial_holdings pos, ps_holdings pos, ps_enter_mcap pos,
   ps_entry_time pos, ps_total_returned pos, ps_spent_sol pos, ps_dev_address pos,
   ps_early_buyers pos, ps_learning_snapshot pos, ps_open_reason pos, ps_exit_mcap_jupiter pos).

(** the effect of queueing a sell: a full close marks the position as closing
    and is for all of it; a partial sell takes the single partial slot, which
    was free, and uses up exactly one trigger *)
Definition sell_protocol pos pos' (a : SellAction) : Prop :=
  if ps_is_closing pos' then
    sa_percent a = 100%float /\ triggers pos' = triggers pos /\
    ps_pending_partial_sell pos' = ps_pending_partial_sell pos
  else
    ps_pending_partial_sell pos = false /\ ps_pending_partial_sell pos' = true /\
    sa_urgent a = false /\
    exists i : nat, triggers pos !! i = Some false /\ triggers pos' = <[i := true]> (triggers pos).

Definition frame pos pos' : Prop :=
  sell_state pos' = sell_state pos /\ entry_state pos' = entry_state pos.

Definition flow_ok pos (f : flow P) : Prop :=
  match f with
  | Next pos' => frame pos pos'
  | Stop pos' None => frame pos pos'
  | Stop pos' (Some a) =>
      entry_state pos' = entry_state pos /\ (ps_is_closing pos = false -> sell_protocol pos pos' a)
  end.

Lemma frame_refl pos : frame pos pos.
Proof. by split. Qed.

Lemma frame_trans p1 p2 p3 : frame p1 p2 -> frame p2 p3 -> frame p1 p3.
Proof. intros [H1 H2] [H3 H4]. split; congruence. Qed.

Lemma flow_ok_frame pos pos' f : frame pos pos' -> flow_ok pos' f -> flow_ok pos f.
Proof.
  intros [HS HE] Hf. destruct f as [p|p [a|]]; cbn in *.
  - by apply (frame_trans _ pos').
  - destruct Hf as [H1 H2]. split; [congruence|].
    unfold sell_state in HS. injection HS as HC HP T1 T2 T3 T4 T5 T6.
    assert (triggers pos' = triggers pos) as HT by (unfold triggers; congruence).
    intros Hc. rewrite <- HC in Hc. specialize (H2 Hc). unfold sell_protocol in *.
    rewrite <- HT, <- HP. done.
  - by apply (frame_trans _ pos').
Qed.

Lemma andThen_ok pos f k :
  flow_ok pos f -> (forall pos', flow_ok pos' (k pos')) -> flow_ok pos (andThen f k).
Proof.
  intros Hf Hk. destruct f as [p|p a]; [|done]. cbn. by apply (flow_ok_frame _ p).
Qed.

Ltac frame_solve := repeat case_match; cbn; try (split; reflexivity).

Lemma full_close_ok pos reason urgent : flow_ok pos (full_close pos reason urgent).
Proof. by split. Qed.

Lemma refresh_frame r pos : frame pos (tick_refresh cfg r pos).
Proof. unfold tick_refresh. destruct (maybe_upgrade_runner _ _ _ _ _). frame_solve. Qed.
Lemma staircase_frame pos : frame pos (tick_staircase cfg pos).
Proof. unfold tick_staircase. frame_solve. Qed.
Lemma kill_window_frame r pos : frame pos (tick_kill_window cfg r pos).
Proof. unfold tick_kill_window. destruct (time_kill_window_profile _ _ _ _ _). split; reflexivity. Qed.
Lemma flush_frame r pos : frame pos (tick_flush cfg r pos).
Proof. unfold tick_flush. frame_solve. Qed.
Lemma protect_frame r pos : frame pos (tick_protect cfg r pos).
Proof. unfold tick_protect. frame_solve. Qed.

Lemma observe_frame now raw pos : frame pos (tick_observe cfg now raw pos).1.
Proof.
  unfold tick_observe, push_exit_mcap_tick, time_kill_note_mcap_sample.
  cbn [fst]. repeat case_match; split; reflexivity.
Qed.

Lemma prepare_frame r pos : frame pos (tick_prepare cfg r pos).
Proof.
  unfold tick_prepare. eapply frame_trans; [apply refresh_frame|].
  eapply frame_trans; [apply staircase_frame | apply kill_window_frame].
Qed.

Lemma poll_frame b now raw pos : frame pos (tick_poll b now raw pos).1.
Proof. unfold tick_poll. case_match; split; reflexivity. Qed.

Lemma decay_ok r pos : flow_ok pos (tick_decay cfg r pos).
Proof.
  unfold tick_decay. case_match; [|apply frame_refl].
  set (p1 := tick_flush cfg r pos).
  match goal with |- context [full_close ?p _ _] => set (p2 := p) end.
  apply (flow_ok_frame _ p2).
  - eapply frame_trans; [apply (flush_frame r)|]. split; reflexivity.
  - destruct (_ <=? ps_decay_streak p2); [apply full_close_ok | apply frame_refl].
Qed.

Lemma time_kill_ok r pos : flow_ok pos (tick_time_kill cfg r pos).
Proof. unfold tick_time_kill. case_match; [apply full_close_ok | apply frame_refl]. Qed.

Lemma stop_loss_ok r pos : flow_ok pos (tick_stop_loss cfg r pos).
Proof.
  unfold tick_stop_loss. case_match; [apply full_close_ok|].
  case_match; split; try reflexivity. by split.
Qed.

Lemma ceiling_ok r pos : flow_ok pos (tick_ceiling cfg r pos).
Proof.
  unfold tick_ceiling. destruct (_ && _) eqn:E; [|apply frame_refl].
  apply andb_true_iff in E as [E EP]. apply andb_true_iff in E as [_ ET].
  apply negb_true_iff in EP, ET. cbn [flow_ok]. split; [by case_match|].
  intros HC. unfold sell_protocol. cbn.
  destruct (ps_trailing_active pos); cbn; rewrite HC; split_and!; try done;
    exists 5%nat; cbn; by rewrite ET.
Qed.

Lemma trailing_ok r pos : flow_ok pos (tick_trailing cfg r pos).
Proof.
  unfold tick_trailing. destruct (ps_trailing_active pos); [|apply frame_refl].
  cbv zeta. destruct (_ <=? _)%float; [apply full_close_ok | apply frame_refl].
Qed.

Lemma partial_ok pos pos' i pct reason :
  entry_state pos' = entry_state pos -> ps_is_closing pos' = ps_is_closing pos ->
  ps_pending_partial_sell pos = false ->
  triggers pos !! i = Some false -> triggers pos' = <[i := true]> (triggers pos) ->
  flow_ok pos (partial_sell pos' pct reason).
Proof.
  intros HE HC HP HI HT. split; [exact HE|]. intros Hc.
  unfold sell_protocol. cbn. rewrite HC, Hc. split_and!; [done..|]. by exists i.
Qed.

Lemma take_profit_ok r pos : flow_ok pos (tick_take_profit cfg r pos).
Proof.
  unfold tick_take_profit. cbv zeta.
  destruct (ps_pending_partial_sell pos) eqn:EP; [apply frame_refl|].
  repeat match goal with
  | |- flow_ok _ (if ?a && negb ?b then _ else _) =>
      destruct (a && negb b) eqn:?H;
      [match goal with H : _ && negb _ = true |- _ => apply andb_true_iff in H as [_ H%negb_true_iff] end|]
  end; [..|apply frame_refl].
  all: match goal with
       | H : ps_tp1_triggered _ = false |- _ => apply (partial_ok _ _ 0)
       | H : ps_tp2_triggered _ = false |- _ => apply (partial_ok _ _ 1)
       | H : ps_tp3_triggered _ = false |- _ => apply (partial_ok _ _ 2)
       | H : ps_tp4_triggered _ = false |- _ => apply (partial_ok _ _ 3)
       | H : ps_tp5_triggered _ = false |- _ => apply (partial_ok _ _ 4)
       end; try reflexivity; try done; unfold triggers; cbn; congruence.
Qed.

Lemma checks_ok r pos : flow_ok pos (tick_checks cfg r pos).
Proof.
  unfold tick_checks.
  apply andThen_ok; [apply decay_ok | intros p1].
  apply andThen_ok; [apply time_kill_ok | intros p2].
  apply andThen_ok; [apply stop_loss_ok | intros p3].
  apply andThen_ok; [apply ceiling_ok | intros p4].
  apply andThen_ok; [apply trailing_ok | intros p5].
  eapply flow_ok_frame; [apply (protect_frame r) | apply take_profit_ok].
Qed.

(** the position the checks start from, and their readings *)
Definition tick_start (has_rpc : bool) (now : Z) (pool_raw raw_mcap : f64) pos
    : Position P * Reading :=
  let '(pos, r) := tick_observe cfg now raw_mcap (tick_poll has_rpc now pool_raw pos).1 in
  (tick_prepare cfg r pos, r).

Lemma start_frame b now pr raw pos : frame pos (tick_start b now pr raw pos).1.
Proof.
  unfold tick_start. destruct (tick_observe cfg now raw _) as [p r] eqn:E. cbn.
  eapply frame_trans; [apply (poll_frame b now pr)|].
  eapply frame_trans; [|apply prepare_frame].
  replace p with (tick_observe cfg now raw (tick_poll b now pr pos).1).1 by (by rewrite E).
  apply observe_frame.
Qed.

(** a tick of a position that is not closing runs the checks once *)
Lemma tick_position_inv b now pos t :
  ps_is_closing pos = false -> tick_position cfg b now pos = Ret t ->
  exists pr raw, pool_mcap_sol (ps_pool pos) = Ret pr /\ exit_raw_mcap pos = Ret raw /\
    let s := tick_start b now pr raw pos in
    match tick_checks cfg s.2 s.1 with
    | Next p => to_pos t = p /\ to_action t = None
    | Stop p a => to_pos t = p /\ to_action t = a
    end.
Proof.
  intros HC. unfold tick_position. rewrite HC.
  destruct (pool_mcap_sol (ps_pool pos)) as [pr|] eqn:E1; [|done]. cbn -[tick_poll tick_observe tick_checks].
  assert (exit_raw_mcap (tick_poll b now pr pos).1 = exit_raw_mcap pos) as HX.
  { unfold tick_poll. case_match; reflexivity. }
  intros H. exists pr.
  destruct (exit_raw_mcap pos) as [raw|] eqn:E2; [exists raw|].
  - split; [done|]. split; [done|]. revert H. unfold tick_start.
    destruct (tick_poll b now pr pos) as [p0 poll]. cbn [fst] in *. rewrite HX.
    cbn -[tick_observe tick_checks]. destruct (tick_observe cfg now raw p0) as [p1 r].
    cbn -[tick_checks]. intros [= <-].
    destruct (tick_checks cfg r (tick_prepare cfg r p1)); split; reflexivity.
  - revert H. destruct (tick_poll b now pr pos) as [p0 poll]. cbn [fst] in *. by rewrite HX.
Qed.
End TickProps.

(** one tick of a position that is not closing yet *)
Lemma tick_sell_protocol_step {P} `{!Pool P} cfg b now (pos : Position P) t :
  tick_position cfg b now pos = Ret t -> ps_is_closing pos = false ->
  entry_state (to_pos t) = entry_state pos /\
  match to_action t with
  | None => sell_state (to_pos t) = sell_state pos
  | Some a => sell_protocol pos (to_pos t) a
  end.
Proof.
  intros H HC.
  destruct (tick_position_inv cfg _ _ _ _ HC H) as (pr & raw & _ & _ & HT).
  cbv zeta in HT.
  pose proof (flow_ok_frame _ _ _ (start_frame cfg b now pr raw pos)
    (checks_ok cfg (tick_start cfg b now pr raw pos).2 _)) as HO.
  destruct (tick_checks cfg _ _) as [p|p [a|]]; destruct HT as [-> ->]; cbn in HO;
    destruct HO; auto.
Qed.

(** C33: The protocol between ticks and sells: a position already closing is
    left alone; otherwise one tick queues at most one sell, and it is either a
    full close, which marks the position as closing, or a partial sell, which
    requires the partial slot to be free, takes it, and uses up exactly one of
    the six one-shot triggers; without a sell the slot, the triggers and the
    closing flag stay.  Nothing recorded at entry ever changes. *)
Theorem tick_sell_protocol {P} `{!Pool P} cfg b now (pos : Position P) t :
  tick_position cfg b now pos = Ret t ->
  entry_state (to_pos t) = entry_state pos /\
  if ps_is_closing pos then to_pos t = pos /\ to_action t = None
  else match to_action t with
       | None => sell_state (to_pos t) = sell_state pos
       | Some a => sell_protocol pos (to_pos t) a
       end.
Proof.
  intros H. destruct (ps_is_closing pos) eqn:HC.
  { unfold tick_position in H. rewrite HC in H. injection H as <-. auto. }
  by apply (tick_sell_protocol_step cfg b now).
Qed.

(** ** Exits that are certain *)

Section TickExits.
Context {P : Type} `{!Pool P}.
Implicit Types pos : Position P.
Variable cfg : SmartBuyConfig.

Definition closes (f : flow P) : Prop :=
  exists p a, f = Stop p (Some a) /\ ps_is_closing p = true /\ sa_percent a = 100%float.

Lemma full_close_closes pos reason urgent : closes (full_close pos reason urgent).
Proof. eexists _, _. split; [reflexivity | split; reflexivity]. Qed.

Lemma andThen_closes f k :
  closes f \/ (exists p, f = Next p /\ closes (k p)) -> closes (andThen f k).
Proof.
  intros [(p & a & -> & H)|(p & -> & H)]; [|exact H]. exists p, a. auto.
Qed.

Lemma decay_next_or_closes r pos :
  closes (tick_decay cfg r pos) \/ exists p, tick_decay cfg r pos = Next p.
Proof.
  unfold tick_decay. case_match; [|eauto]. cbv zeta.
  destruct (_ <=? ps_decay_streak _); [left; apply full_close_closes | eauto].
Qed.

Lemma time_kill_next_or_closes r pos :
  closes (tick_time_kill cfg r pos) \/ tick_time_kill cfg r pos = Next pos.
Proof. unfold tick_time_kill. case_match; [left; apply full_close_closes | by right]. Qed.

Lemma stop_loss_next_or_closes r pos :
  closes (tick_stop_loss cfg r pos) \/ exists p, tick_stop_loss cfg r pos = Next p.
Proof.
  unfold tick_stop_loss. cbv zeta.
  destruct (sl_crash_triggered _ _ _ _ _ _); [left; apply full_close_closes|].
  destruct (_ && _); [left; apply full_close_closes | eauto].
Qed.

(** a check that closes whatever the earlier ones left closes the tick *)
Lemma checks_close_at_stop_loss r pos :
  (forall p, tick_decay cfg r pos = Next p -> closes (tick_stop_loss cfg r p)) ->
  closes (tick_checks cfg r pos).
Proof.
  intros H. unfold tick_checks. apply andThen_closes.
  destruct (decay_next_or_closes r pos) as [C|[p E]]; [by left | right].
  exists p. split; [done|]. apply andThen_closes.
  destruct (time_kill_next_or_closes r p) as [C|E2]; [by left | right].
  exists p. split; [done|]. apply andThen_closes. left. by apply H.
Qed.

Lemma observe_profit_raw now raw pos :
  rd_profit_raw (tick_observe cfg now raw pos).2 = pnl_at_mcap pos raw.
Proof.
  unfold tick_observe, push_exit_mcap_tick, time_kill_note_mcap_sample.
  cbn [snd]. repeat case_match; reflexivity.
Qed.

Lemma observe_sl_profit_le now raw pos c :
  (pnl_at_mcap pos raw <=? c)%float = true ->
  (rd_sl_profit (tick_observe cfg now raw pos).2 <=? c)%float = true.
Proof.
  intros H. rewrite <- (observe_profit_raw now) in H. by apply f64_min_le_r.
Qed.

(** reading a tick after the poll bookkeeping *)
Lemma start_reading b now pr raw pos :
  (tick_start cfg b now pr raw pos).2 = (tick_observe cfg now raw (tick_poll b now pr pos).1).2.
Proof. unfold tick_start. by destruct (tick_observe cfg now raw _). Qed.

Lemma start_sl_profit_le b now pr raw pos c :
  (pnl_at_mcap pos raw <=? c)%float = true ->
  (rd_sl_profit (tick_start cfg b now pr raw pos).2 <=? c)%float = true.
Proof.
  intros H. rewrite start_reading. apply observe_sl_profit_le.
  unfold tick_poll. by case_match.
Qed.

Lemma closes_result b now pos t :
  ps_is_closing pos = false -> tick_position cfg b now pos = Ret t ->
  (forall pr raw, pool_mcap_sol (ps_pool pos) = Ret pr -> exit_raw_mcap pos = Ret raw ->
     let s := tick_start cfg b now pr raw pos in closes (tick_checks cfg s.2 s.1)) ->
  ps_is_closing (to_pos t) = true /\
  exists a, to_action t = Some a /\ sa_percent a = 100%float.
Proof.
  intros HC H HK. destruct (tick_position_inv cfg _ _ _ _ HC H) as (pr & raw & E1 & E2 & HT).
  destruct (HK pr raw E1 E2) as (p & a & E & Hp & Ha). cbv zeta in HT. rewrite E in HT.
  destruct HT as [-> ->]. eauto.
Qed.
End TickExits.

(** C31: A crash always exits: if a position that is not closing yet reads a
    market cap whose PnL is at or below the crash threshold, this very tick
    marks it as closing and queues a sell of 100%, whatever its phase, profile,
    grace period, streaks or pending partial sell. *)
Theorem crash_always_exits {P} `{!Pool P} cfg b now (pos : Position P) raw t :
  ps_is_closing pos = false -> exit_raw_mcap pos = Ret raw ->
  (pnl_at_mcap pos raw <=? sb_sl_crash_pnl_pct cfg)%float = true ->
  tick_position cfg b now pos = Ret t ->
  ps_is_closing (to_pos t) = true /\
  exists a, to_action t = Some a /\ sa_percent a = 100%float.
Proof.
  intros HC HR HP H. apply (closes_result cfg b now pos t HC H).
  intros pr raw' _ E. rewrite HR in E. injection E as <-. cbv zeta.
  apply checks_close_at_stop_loss. intros p _. unfold tick_stop_loss, sl_crash_triggered.
  rewrite (start_sl_profit_le cfg b now pr raw pos _ HP). apply full_close_closes.
Qed.

(** ** The confirmed stop loss *)

(** Ticks of one position: each comes with the time and the pool as last
    updated. *)
Fixpoint tick_run {P} `{!Pool P} cfg (has_rpc : bool) (evs : list (Z * P)) (pos : Position P)
    : outcome (Position P * list SellAction) :=
  match evs with
  | [] => Ret (pos, [])
  | (now, pool) :: evs' =>
      t ← tick_position cfg has_rpc now (pos <| ps_pool := pool |>);
      r ← tick_run cfg has_rpc evs' (to_pos t);
      Ret (r.1, option_list (to_action t) ++ r.2)
  end.

Section StopLoss.
Context {P : Type} `{!Pool P}.
Implicit Types pos : Position P.
Variable cfg : SmartBuyConfig.
Variable F : f64.

(** no configured profit lock is below [F] *)
Definition locks_above : Prop :=
  (F <=? 35)%float = true /\
  forall p, (F <=? ep_trailing_floor_profit_pct (profile_params (sb_exit_v4 cfg) p))%float = true.

Definition guarded (k : Z) pos : Prop :=
  (F <=? ps_exit_profit_floor pos)%float = true /\ ps_sl_below_floor_streak pos = k.

Definition flow_guarded (k : Z) (f : flow P) : Prop :=
  match f with
  | Next p => guarded k p
  | Stop p _ => ps_is_closing p = true \/ guarded k p
  end.

Hypothesis HL : locks_above.

Lemma tp_floor_above pos : (F <=? ep_trailing_floor_profit_pct (tick_tp_cfg cfg pos))%float = true.
Proof.
  destruct HL as [H1 H2]. unfold tick_tp_cfg. case_match; [|exact H1].
  unfold apply_phase_to_tp. case_match; apply H2.
Qed.

Lemma prepare_guarded k r pos : guarded k pos -> guarded k (tick_prepare cfg r pos).
Proof.
  intros [HF HS]. unfold tick_prepare, tick_kill_window.
  destruct (time_kill_window_profile _ _ _ _ _). unfold guarded. cbn.
  assert (forall p, guarded k p -> guarded k (tick_staircase cfg p)) as HST.
  { intros p [HF1 HS1]. unfold tick_staircase.
    destruct (_ && _); [|by split].
    destruct (profit_lock_staircase_floor _) as [fl|]; [|by split].
    destruct (_ <? fl)%float eqn:E; split; cbn; try done. f64_order. }
  apply HST. unfold tick_refresh. destruct (maybe_upgrade_runner _ _ _ _ _). by case_match.
Qed.

Lemma observe_guarded k now raw pos :
  guarded k pos -> guarded k (tick_observe cfg now raw pos).1.
Proof.
  unfold tick_observe, push_exit_mcap_tick, time_kill_note_mcap_sample.
  intros [HF HS]. cbn [fst]. repeat case_match; split; assumption.
Qed.

Lemma start_guarded k b now pr raw pos :
  guarded k pos -> guarded k (tick_start cfg b now pr raw pos).1.
Proof.
  intros H. unfold tick_start.
  assert (guarded k (tick_observe cfg now raw (tick_poll b now pr pos).1).1) as H1.
  { apply observe_guarded. unfold tick_poll. by case_match. }
  destruct (tick_observe cfg now raw _). by apply prepare_guarded.
Qed.

Lemma decay_guarded k r pos p :
  tick_decay cfg r pos = Next p -> guarded k pos -> guarded k p.
Proof.
  intros E [H1 H2]. revert E. unfold tick_decay. case_match; [|by intros [= <-]]. cbv zeta.
  destruct (_ <=? ps_decay_streak _); [done|]. intros [= <-].
  unfold guarded, tick_flush. cbn. repeat case_match; done.
Qed.

(** below [F], a stop-loss check past the grace period counts one more tick *)
Lemma stop_loss_counts k r pos :
  guarded k pos -> 0 <= k < 255 -> 1 <= sb_sl_confirm_ticks cfg < 256 ->
  sb_sl_grace_secs cfg <= rd_held_secs r -> (rd_sl_profit r <=? F)%float = true ->
  closes (tick_stop_loss cfg r pos) \/
  exists p, tick_stop_loss cfg r pos = Next p /\ guarded (k + 1) p /\ k + 1 < sb_sl_confirm_ticks cfg.
Proof.
  intros [H1 H2] Hk Hc Hg HP. unfold tick_stop_loss, in_sl_grace_period.
  destruct (Z.ltb_spec (rd_held_secs r) (sb_sl_grace_secs cfg)); [lia|]. cbv zeta.
  destruct (sl_crash_triggered _ _ _ _ _ _); [left; apply full_close_closes|].
  rewrite (f64_le_trans _ _ _ HP H1). rewrite wrap_u_small by (unfold in_u; lia).
  cbn. rewrite H2. unfold sat_add, U8_MAX.
  destruct (Z.leb_spec (Z.max (sb_sl_confirm_ticks cfg) 1) (Z.min (Z.min (2 ^ 8 - 1) (k + 1)) 255));
    [left; apply full_close_closes | right].
  eexists. split; [reflexivity|]. split; [split; cbn; [done | lia] | lia].
Qed.

Lemma take_profit_guarded k r pos : guarded k pos -> flow_guarded k (tick_take_profit cfg r pos).
Proof.
  intros HG. unfold tick_take_profit. cbv zeta.
  repeat match goal with
  | |- flow_guarded _ (if ?b then _ else _) => destruct b
  end; right; exact HG.
Qed.

Lemma tail_guarded k r pos :
  guarded k pos ->
  flow_guarded k (andThen (tick_ceiling cfg r pos) (fun pos =>
    andThen (tick_trailing cfg r pos) (fun pos => tick_take_profit cfg r (tick_protect cfg r pos)))).
Proof.
  intros [H1 H2]. pose proof (tp_floor_above pos) as HT. unfold tick_ceiling. cbv zeta.
  destruct (_ && _); cbn [andThen].
  { right. cbn. destruct (negb _); split; cbn; try done. auto with bounds. }
  unfold tick_trailing. destruct (ps_trailing_active pos); cbv zeta;
    [destruct (rd_current_mcap r <=? _)%float; [by left|cbn [andThen]]|cbn [andThen]].
  all: assert (guarded k (tick_protect cfg r pos)) as HG by
    (unfold tick_protect; repeat case_match; split; cbn; try done;
     match goal with H : _ && _ = true |- _ => apply andb_true_iff in H as [_ H] end; f64_order).
  all: by apply take_profit_guarded.
Qed.

Lemma observe_held now raw pos :
  rd_held_secs (tick_observe cfg now raw pos).2 = sat_sub now (ps_entry_time pos).
Proof.
  unfold tick_observe, push_exit_mcap_tick, time_kill_note_mcap_sample.
  cbn [snd]. repeat case_match; reflexivity.
Qed.

(** one tick of a losing position past the grace period *)
Lemma stop_loss_step k b now pos mcap :
  guarded k pos -> 0 <= k < 255 -> 1 <= sb_sl_confirm_ticks cfg < 256 ->
  ps_is_closing pos = false -> ps_exit_mcap_jupiter pos = None ->
  pool_mcap_sol (ps_pool pos) = Ret mcap -> (pnl_at_mcap pos mcap <=? F)%float = true ->
  sb_sl_grace_secs cfg <= sat_sub now (ps_entry_time pos) ->
  exists t, tick_position cfg b now pos = Ret t /\
    (ps_is_closing (to_pos t) = true \/
     guarded (k + 1) (to_pos t) /\ k + 1 < sb_sl_confirm_ticks cfg).
Proof.
  intros HG Hk Hc HC HJ HM HP Hg.
  assert (exit_raw_mcap pos = Ret mcap) as HR.
  { unfold exit_raw_mcap. rewrite HJ. by case_match. }
  destruct (tick_position cfg b now pos) as [t|e] eqn:ET.
  2:{ exfalso. revert ET. unfold tick_position. rewrite HC, HM. cbn -[tick_poll tick_observe tick_checks].
      assert (exit_raw_mcap (tick_poll b now mcap pos).1 = Ret mcap) as HX.
      { unfold tick_poll. case_match; exact HR. }
      destruct (tick_poll b now mcap pos). cbn [fst] in HX. rewrite HX.
      cbn -[tick_poll tick_observe tick_checks]. by destruct (tick_observe cfg now mcap _). }
  exists t. split; [done|].
  destruct (tick_position_inv cfg _ _ _ _ HC ET) as (pr & raw & E1 & E2 & HT).
  rewrite HR in E2. injection E2 as <-. rewrite HM in E1. injection E1 as <-. cbv zeta in HT.
  pose proof (start_guarded k b now mcap mcap pos HG) as HG0.
  pose proof (start_sl_profit_le cfg b now mcap mcap pos _ HP) as HP0.
  assert (sb_sl_grace_secs cfg <= rd_held_secs (tick_start cfg b now mcap mcap pos).2) as Hg0.
  { rewrite start_reading, observe_held. unfold tick_poll. destruct (_ && _); exact Hg. }
  destruct (tick_start cfg b now mcap mcap pos) as [p0 r]. cbn [fst snd] in *.
  assert (closes (tick_checks cfg r p0) \/
    flow_guarded (k + 1) (tick_checks cfg r p0) /\ k + 1 < sb_sl_confirm_ticks cfg) as HD.
  { unfold tick_checks.
    destruct (decay_next_or_closes cfg r p0) as [C|[p1 E]]; [left; apply andThen_closes; by left|].
    pose proof (decay_guarded k r p0 p1 E HG0) as HG1. rewrite E. cbn [andThen].
    destruct (time_kill_next_or_closes cfg r p1) as [C|E2]; [left; apply andThen_closes; by left|].
    rewrite E2. cbn [andThen].
    destruct (stop_loss_counts k r p1 HG1 Hk Hc Hg0 HP0) as [C|(p2 & E3 & HG2 & Hlt)];
      [left; apply andThen_closes; by left|].
    rewrite E3. right. split; [|done]. by apply tail_guarded. }
  destruct HD as [(p & a & E & Hp & _)|[HF Hlt]].
  - rewrite E in HT. destruct HT as [-> _]. by left.
  - destruct (tick_checks cfg r p0) as [p|p a]; destruct HT as [-> _]; cbn in HF; [auto|].
    destruct HF; auto.
Qed.
End StopLoss.

(** a tick is losing: its pool's PnL is at or below [F], past the grace period *)
Definition losing {P} `{!Pool P} cfg (F : f64) (pos : Position P) (ev : Z * P) : Prop :=
  (exists mcap, pool_mcap_sol ev.2 = Ret mcap /\ (pnl_at_mcap pos mcap <=? F)%float = true) /\
  sb_sl_grace_secs cfg <= sat_sub ev.1 (ps_entry_time pos).

Lemma tick_run_closing {P} `{!Pool P} cfg b evs (pos : Position P) :
  ps_is_closing pos = true ->
  exists pos', tick_run cfg b evs pos = Ret (pos', []) /\ ps_is_closing pos' = true.
Proof.
  revert pos. induction evs as [|[now pool] evs IH]; intros pos HC; [by exists pos|].
  cbn [tick_run]. set (p0 := pos <| ps_pool := pool |>).
  assert (ps_is_closing p0 = true) as HC0 by exact HC. clearbody p0.
  unfold tick_position. rewrite HC0. cbn [mbind outcome_bind to_pos to_action option_list app].
  destruct (IH p0 HC0) as (pos' & -> & HC'). by exists pos'.
Qed.

Lemma stop_loss_run {P} `{!Pool P} cfg F b evs : forall k (pos : Position P),
  locks_above cfg F -> guarded F k pos -> 0 <= k < 255 -> 1 <= sb_sl_confirm_ticks cfg < 256 ->
  k < sb_sl_confirm_ticks cfg <= k + Z.of_nat (length evs) ->
  ps_is_closing pos = false -> ps_exit_mcap_jupiter pos = None ->
  Forall (losing cfg F pos) evs ->
  exists pos' acts, tick_run cfg b evs pos = Ret (pos', acts) /\ ps_is_closing pos' = true /\
    exists a, a ∈ acts /\ sa_percent a = 100%float.
Proof.
  induction evs as [|[now pool] evs IH]; intros k pos HL HG Hk Hc Hn HC HJ HE; [cbn in Hn; lia|].
  inversion HE as [|? ? [(mcap & HM & HP) Hg] HE']; subst. cbn [fst snd] in *.
  set (p0 := pos <| ps_pool := pool |>).
  destruct (stop_loss_step cfg F HL k b now p0 mcap HG Hk Hc HC HJ HM HP Hg) as (t & ET & HT).
  pose proof (tick_sell_protocol_step cfg b now p0 t ET HC) as (HEn & HPr).
  cbn [tick_run]. fold p0. rewrite ET. cbn [mbind outcome_bind].
  destruct (ps_is_closing (to_pos t)) eqn:HCt.
  - destruct (tick_run_closing cfg b evs _ HCt) as (pos' & -> & HC').
    exists pos'. eexists. split; [reflexivity|]. split; [done|].
    destruct (to_action t) as [a|].
    + unfold sell_protocol in HPr. rewrite HCt in HPr. exists a. split; [by left | apply HPr].
    + apply (f_equal (fun s => s.1.1)) in HPr. cbn in HPr. congruence.
  - destruct HT as [HT|[HG' Hlt]]; [done|].
    unfold entry_state in HEn. injection HEn as _ _ _ _ Eenter Etime _ _ _ _ _ _ EJ.
    destruct (IH (k + 1) (to_pos t)) as (pos' & acts & -> & HC' & a & Ha & Hp);
      try done; try lia; [cbn [length] in Hn; lia | congruence | |].
    + eapply Forall_impl; [exact HE'|]. intros [now' pool'].
      unfold losing, pnl_at_mcap. cbn [fst snd]. by rewrite Eenter, Etime.
    + exists pos'. eexists. split; [reflexivity|]. split; [done|].
      exists a. split; [|done]. cbn. destruct (to_action t); cbn; [by right | done].
Qed.

(** C32: A confirmed loss always exits: if every tick of a run reads a PnL at
    or below some level [F] that no floor of the position or of the
    configuration is under, and the grace period is over, then after
    [sl_confirm_ticks] ticks (at most 255) the position is closing and a sell
    of 100% has been queued, whatever the tape, the profile or the phase do in
    between. *)
Theorem stop_loss_confirms {P} `{!Pool P} cfg F b evs (pos : Position P) :
  locks_above cfg F -> (F <=? ps_exit_profit_floor pos)%float = true ->
  ps_sl_below_floor_streak pos = 0 -> 1 <= sb_sl_confirm_ticks cfg < 256 ->
  ps_is_closing pos = false -> ps_exit_mcap_jupiter pos = None ->
  Forall (losing cfg F pos) evs -> sb_sl_confirm_ticks cfg <= Z.of_nat (length evs) ->
  exists pos' acts, tick_run cfg b evs pos = Ret (pos', acts) /\ ps_is_closing pos' = true /\
    exists a, a ∈ acts /\ sa_percent a = 100%float.
Proof.
  intros. by apply (stop_loss_run cfg F b evs 0); try lia.
Qed.

(** ** A concrete position *)

Definition demo_pool : PumpPool Bonding := pump_pool_new id 1%N 2%N.

(** the fresh bonding curve is worth about 27.96 SOL *)
Definition demo_position (entry_mcap : f64) : outcome (Position (PumpPool Bonding)) :=
  position_new "wallet_1" demo_pool (amount_from_raw_native 5) 1000 (Some entry_mcap).

Ltac returned o := let r := eval vm_compute in o in lazymatch r with Ret ?p => exact p end.

Definition demo_gain : Position (PumpPool Bonding) := ltac:(returned (demo_position 20)).
Definition demo_crash : Position (PumpPool Bonding) := ltac:(returned (demo_position 40)).
Definition demo_loss : Position (PumpPool Bonding) := ltac:(returned (demo_position 34)).
Definition demo_flat : Position (PumpPool Bonding) := ltac:(returned (demo_position 27)).

Lemma tick_sell_protocol_witness :
  exists t, tick_position SmartBuyConfig_default true 1005 demo_gain = Ret t /\
    (entry_state (to_pos t) = entry_state demo_gain /\
     if ps_is_closing demo_gain then to_pos t = demo_gain /\ to_action t = None
     else match to_action t with
          | None => sell_state (to_pos t) = sell_state demo_gain
          | Some a => sell_protocol demo_gain (to_pos t) a
          end).
Proof.
  eexists. split; [vm_compute; reflexivity|].
  apply (tick_sell_protocol SmartBuyConfig_default true 1005). vm_compute. reflexivity.
Defined.

Lemma crash_always_exits_witness :
  exists t, tick_position SmartBuyConfig_default true 1001 demo_crash = Ret t /\
    ps_is_closing (to_pos t) = true /\
    exists a, to_action t = Some a /\ sa_percent a = 100%float.
Proof.
  eexists. split; [vm_compute; reflexivity|].
  eapply (crash_always_exits SmartBuyConfig_default true 1001 demo_crash);
    vm_compute; reflexivity.
Defined.

Lemma stop_loss_confirms_witness :
  exists pos' acts,
    tick_run SmartBuyConfig_default true
      [(1006, demo_pool); (1007, demo_pool); (1008, demo_pool)] demo_loss = Ret (pos', acts) /\
    ps_is_closing pos' = true /\ exists a, a ∈ acts /\ sa_percent a = 100%float.
Proof.
  apply (stop_loss_confirms SmartBuyConfig_default (-16)%float true).
  - split; [reflexivity|]. intros []; reflexivity.
  - reflexivity.
  - reflexivity.
  - split; [vm_compute; discriminate | reflexivity].
  - reflexivity.
  - reflexivity.
  - repeat (constructor; [split; [eexists; split; [vm_compute; reflexivity | vm_compute; reflexivity]
                                 | vm_compute; discriminate]|]). constructor.
  - vm_compute. discriminate.
Defined.

(** ** The time limit *)

Section TimeKill.
Context {P : Type} `{!Pool P}.
Implicit Types pos : Position P.
Variable cfg : SmartBuyConfig.

Lemma window_bounds pos profit mcap held :
  sb_time_kill_adaptive cfg = true -> 18 <= (time_kill_window_profile cfg pos profit mcap held).1 <= 80.
Proof.
  intros H. unfold time_kill_window_profile. rewrite H. cbn [negb]. cbv zeta. unfold sat_s.
  destruct (_ && _); [cbn [fst]; lia|]. destruct (_ && _); cbn [fst]; lia.
Qed.

Lemma kill_window_le r pos :
  sb_time_kill_adaptive cfg = true -> rd_is_a_plus r = false ->
  v4_tier_a_time_kill_defer_min_secs (sb_exit_v4 cfg) <= 80 ->
  18 <= ps_last_time_kill_after_secs (tick_kill_window cfg r pos) <= 80.
Proof.
  intros HA HP HD. unfold tick_kill_window.
  pose proof (window_bounds pos (rd_profit r) (rd_current_mcap r) (rd_held_secs r) HA) as HB.
  destruct (time_kill_window_profile _ _ _ _ _) as [secs tier]. cbn in HB |- *.
  rewrite HP, andb_false_r. case_match; [|exact HB].
  unfold tier_a_time_kill_defer_floor_secs. destruct (_ || _); [exact HB|].
  destruct (ps_learning_snapshot pos) as [s|]; [|exact HB].
  destruct (negb _); [exact HB|]. destruct (_ <=? _)%float; [exact HB|]. lia.
Qed.

Lemma decay_keeps_window r pos p :
  tick_decay cfg r pos = Next p ->
  ps_last_time_kill_after_secs p = ps_last_time_kill_after_secs pos.
Proof.
  unfold tick_decay. case_match; [|by intros [= <-]]. cbv zeta.
  destruct (_ <=? ps_decay_streak _); [done|]. intros [= <-].
  unfold tick_flush. cbn. repeat case_match; done.
Qed.

Lemma observe_a_plus now raw pos :
  rd_is_a_plus (tick_observe cfg now raw pos).2 = entry_tier_is_a_plus (entry_tier pos) /\
  rd_now (tick_observe cfg now raw pos).2 = now.
Proof.
  unfold tick_observe, push_exit_mcap_tick, time_kill_note_mcap_sample.
  cbn [snd]. repeat case_match; split; reflexivity.
Qed.
End TimeKill.

(** No stale position: with the adaptive time limit and a tier-A deferral
    of at most 80 s, a position that is neither tier A+ nor past TP1 or TP2 and
    whose filtered PnL is below the survival threshold 80 s or more after entry
    is closed by that tick. *)
Theorem time_kill_bound {P} `{!Pool P} cfg b now (pos : Position P) pr raw t :
  ps_is_closing pos = false -> pool_mcap_sol (ps_pool pos) = Ret pr -> exit_raw_mcap pos = Ret raw ->
  sb_time_kill_adaptive cfg = true ->
  v4_tier_a_time_kill_defer_min_secs (sb_exit_v4 cfg) <= 80 ->
  entry_tier_is_a_plus (entry_tier pos) = false ->
  ps_tp1_triggered pos || ps_tp2_triggered pos = false ->
  0 <= ps_entry_time pos -> ps_entry_time pos + 80 <= now < 2 ^ 64 ->
  (rd_profit (tick_start cfg b now pr raw pos).2 <? sb_time_kill_min_profit_pct cfg)%float = true ->
  tick_position cfg b now pos = Ret t ->
  ps_is_closing (to_pos t) = true /\
  exists a, to_action t = Some a /\ sa_percent a = 100%float.
Proof.
  intros HC HM HR HA HD HT HTP He Hn HP H. apply (closes_result cfg b now pos t HC H).
  intros pr' raw' E1 E2. rewrite HM in E1. rewrite HR in E2. injection E1 as <-. injection E2 as <-.
  cbv zeta. pose proof (start_frame cfg b now pr raw pos) as [HS HE].
  assert (rd_is_a_plus (tick_start cfg b now pr raw pos).2 = false /\
          rd_now (tick_start cfg b now pr raw pos).2 = now /\
          18 <= ps_last_time_kill_after_secs (tick_start cfg b now pr raw pos).1 <= 80) as (HA' & HN & HW).
  { rewrite start_reading. destruct (observe_a_plus cfg now raw (tick_poll b now pr pos).1) as [HO1 HO2].
    assert (entry_tier (tick_poll b now pr pos).1 = entry_tier pos) as HTi.
    { unfold tick_poll. destruct (_ && _); reflexivity. }
    rewrite HTi, HT in HO1. split_and!; [done|done|..]; unfold tick_start;
      destruct (tick_observe cfg now raw _) as [p r] eqn:EO; cbn [fst snd] in *;
      by apply kill_window_le. }
  destruct (tick_start cfg b now pr raw pos) as [p0 r]. cbn [fst snd] in *.
  unfold tick_checks. apply andThen_closes.
  destruct (decay_next_or_closes cfg r p0) as [C|[p1 E]]; [by left | right].
  exists p1. split; [done|]. apply andThen_closes. left.
  pose proof (decay_ok cfg r p0) as HF. rewrite E in HF. destruct HF as [HS1 HE1].
  unfold tick_time_kill. rewrite HA', andb_false_r. cbn [andb orb].
  assert (ps_tp1_triggered p1 || ps_tp2_triggered p1 = false) as ->.
  { rewrite HS in HS1. unfold sell_state, triggers in HS1. congruence. }
  rewrite andb_false_r. cbn [andb orb negb].
  assert (ps_entry_time p1 = ps_entry_time pos) as ->.
  { rewrite HE in HE1. unfold entry_state in HE1. congruence. }
  rewrite (decay_keeps_window cfg r p0 p1 E), HN, HP, wrap_u_small by (unfold in_u; lia).
  destruct (Z.leb_spec (ps_entry_time pos + ps_last_time_kill_after_secs p0) now); [|lia].
  apply full_close_closes.
Qed.

Lemma time_kill_bound_witness :
  exists t, tick_position SmartBuyConfig_default true 1080 demo_flat = Ret t /\
    ps_is_closing (to_pos t) = true /\
    exists a, to_action t = Some a /\ sa_percent a = 100%float.
Proof.
  eexists. split; [vm_compute; reflexivity|].
  eapply (time_kill_bound SmartBuyConfig_default true 1080 demo_flat);
    lazymatch goal with
    | |- _ = _ => vm_compute; reflexivity
    | |- _ <= _ < _ => split; [vm_compute; discriminate | vm_compute; reflexivity]
    | |- _ <= _ => vm_compute; discriminate
    end.
Defined.

(** the confirm count is compared after a cast to [u8]: 256 ticks mean none, and
    a position in profit is stopped out by the first tick after the grace *)
Example sl_confirm_256_fires_at_once :
  match tick_position (SmartBuyConfig_default <| sb_sl_confirm_ticks := 256 |>) true 1005 demo_gain with
  | Ret t => ps_is_closing (to_pos t) = true /\ ps_sl_below_floor_streak (to_pos t) = 0
  | Panic _ => False
  end.
Proof. vm_compute. auto. Qed.
