(* ===== verification/Blacklist.v ===== *)
(** What a bad close does to the mint and to its developer:
    [src/src/autobuy/curve_quarantine.rs] and [src/src/autobuy/dev_blacklist.rs].

    The developer classifier reads the text of the close reason, so its theorem
    is about the text [ExitEngine.format_sl_close_reason] writes. *)
From Stdlib Require Import Ascii.
From S2P Require Import Prelude Text ExitEngine.

(* autobuy/filters/config.rs 46-48: curve_quarantine_default_enabled *)
Definition curve_quarantine_default_enabled : bool := true.

(* autobuy/filters/config.rs 49-51: curve_quarantine_default_cooldown_secs *)
Definition curve_quarantine_default_cooldown_secs : Z := (24 * 3600).

(* autobuy/filters/config.rs 52-54: curve_quarantine_default_min_divergence *)
Definition curve_quarantine_default_min_divergence : f64 := 35%float.

(* autobuy/filters/config.rs 55-57: curve_quarantine_default_max_pnl_sol *)
Definition curve_quarantine_default_max_pnl_sol : f64 := (-10)%float.

(* autobuy/filters/config.rs 58-60: curve_quarantine_default_sl_crash_filt *)
Definition curve_quarantine_default_sl_crash_filt : f64 := 10%float.

(* autobuy/filters/config.rs 61-63: curve_quarantine_default_sl_crash_raw *)
Definition curve_quarantine_default_sl_crash_raw : f64 := 5%float.

(* autobuy/filters/config.rs 15-31: CurveQuarantineConfig *)
Record CurveQuarantineConfig := mkCurveQuarantineConfig {
  cq_enabled : bool;
  cq_cooldown_secs : Z;
  cq_min_mcap_sol_divergence_pct : f64;
  cq_max_pnl_sol_pct : f64;
  cq_sl_crash_false_positive_min_filt_pnl : f64;
  cq_sl_crash_false_positive_max_raw_pnl : f64
}.
#[export] Instance CurveQuarantineConfig_settable : Settable CurveQuarantineConfig := fun r =>
  mkCurveQuarantineConfig (cq_enabled r) (cq_cooldown_secs r) (cq_min_mcap_sol_divergence_pct r)
    (cq_max_pnl_sol_pct r) (cq_sl_crash_false_positive_min_filt_pnl r)
    (cq_sl_crash_false_positive_max_raw_pnl r).

(* autobuy/filters/config.rs 33-44: Default for CurveQuarantineConfig *)
Definition CurveQuarantineConfig_default : CurveQuarantineConfig := {|
  cq_enabled := curve_quarantine_default_enabled;
  cq_cooldown_secs := curve_quarantine_default_cooldown_secs;
  cq_min_mcap_sol_divergence_pct := curve_quarantine_default_min_divergence;
  cq_max_pnl_sol_pct := curve_quarantine_default_max_pnl_sol;
  cq_sl_crash_false_positive_min_filt_pnl := curve_quarantine_default_sl_crash_filt;
  cq_sl_crash_false_positive_max_raw_pnl := curve_quarantine_default_sl_crash_raw
|}.

(* autobuy/filters/config.rs 143-145: dev_blacklist_default_enabled *)
Definition dev_blacklist_default_enabled : bool := true.

(* autobuy/filters/config.rs 146-148: dev_blacklist_default_cooldown_secs *)
Definition dev_blacklist_default_cooldown_secs : Z := (7 * 24 * 3600).

(* autobuy/filters/config.rs 149-151: dev_blacklist_default_min_pnl_pct *)
Definition dev_blacklist_default_min_pnl_pct : f64 := (-30)%float.

(* autobuy/filters/config.rs 152-154: dev_blacklist_default_min_tick_drop *)
Definition dev_blacklist_default_min_tick_drop : f64 := 40%float.

(* autobuy/filters/config.rs 155-157: dev_blacklist_default_permanent_min_tick_drop *)
Definition dev_blacklist_default_permanent_min_tick_drop : f64 := 55%float.

(* autobuy/filters/config.rs 158-160: dev_blacklist_default_permanent_min_mcap_drop *)
Definition dev_blacklist_default_permanent_min_mcap_drop : f64 := 60%float.

(* autobuy/filters/config.rs 110-128: DevBlacklistConfig *)
Record DevBlacklistConfig := mkDevBlacklistConfig {
  db_enabled : bool;
  db_cooldown_secs : Z;
  db_min_pnl_pct_for_sl : f64;
  db_min_tick_drop_pct : f64;
  db_permanent_min_tick_drop_pct : f64;
  db_permanent_min_mcap_drop_pct : f64
}.
#[export] Instance DevBlacklistConfig_settable : Settable DevBlacklistConfig := fun r =>
  mkDevBlacklistConfig (db_enabled r) (db_cooldown_secs r) (db_min_pnl_pct_for_sl r)
    (db_min_tick_drop_pct r) (db_permanent_min_tick_drop_pct r) (db_permanent_min_mcap_drop_pct
    r).

(* autobuy/filters/config.rs 130-141: Default for DevBlacklistConfig *)
Definition DevBlacklistConfig_default : DevBlacklistConfig := {|
  db_enabled := dev_blacklist_default_enabled;
  db_cooldown_secs := dev_blacklist_default_cooldown_secs;
  db_min_pnl_pct_for_sl := dev_blacklist_default_min_pnl_pct;
  db_min_tick_drop_pct := dev_blacklist_default_min_tick_drop;
  db_permanent_min_tick_drop_pct := dev_blacklist_default_permanent_min_tick_drop;
  db_permanent_min_mcap_drop_pct := dev_blacklist_default_permanent_min_mcap_drop
|}.


(** ** Developer blacklist *)

(* autobuy/dev_blacklist.rs 9-9: DEV_BLACKLIST_NEVER_EXPIRES *)
Definition DEV_BLACKLIST_NEVER_EXPIRES : Z := 0.

(* autobuy/dev_blacklist.rs 11-17: DevBlacklistTier *)
Inductive DevBlacklistTier := PermanentRug | Timed.
#[export] Instance DevBlacklistTier_eq_dec : EqDecision DevBlacklistTier.
Proof. solve_decision. Defined.

(* autobuy/dev_blacklist.rs 20-26: short_mint_prefix *)
Definition short_mint_prefix (mint : string) : string :=
  if (6 <? String.length mint)%nat then str_take 6 mint else mint.

(* autobuy/dev_blacklist.rs 28-30: is_permanent_expires *)
Definition is_permanent_expires (expires_at : Z) : bool := expires_at =? DEV_BLACKLIST_NEVER_EXPIRES.

(* autobuy/dev_blacklist.rs 33-39: format_skip_detail *)
Definition dev_skip_detail (active_reason trigger_mint : string) : string :=
  "previous " +:+ active_reason +:+ " on " +:+ short_mint_prefix trigger_mint.

(* autobuy/dev_blacklist.rs 42-62: format_filter_skip *)
Definition format_filter_skip (active_reason trigger_mint : string) (expires_at : Z)
    : string * string :=
  if is_permanent_expires expires_at || starts_with "dev_blacklist_permanent:" active_reason then
    let rug_tag :=
      match strip_prefix "dev_blacklist_permanent:" active_reason with
      | Some rest => trim rest
      | None => "rug"
      end in
    ("dev_blacklist_permanent",
     "previous " +:+ rug_tag +:+ " on " +:+ short_mint_prefix trigger_mint)
  else ("dev_blacklist", dev_skip_detail active_reason trigger_mint).

(* autobuy/dev_blacklist.rs 65-71: pnl_pct_from_sol *)
Definition pnl_pct_from_sol (spent_sol pnl_sol : f64) : f64 :=
  if (0 <? spent_sol)%float then (pnl_sol / spent_sol * 100)%float else 0%float.

(* autobuy/dev_blacklist.rs 74-82: cliff_reason_tag *)
Definition cliff_reason_tag (close_reason : string) : string :=
  if starts_with "SL CRASH" close_reason then "SL CRASH"
  else if starts_with "SL " close_reason then "SL"
  else "cliff exit".

Definition number_end (c : ascii) : bool :=
  is_whitespace c || Ascii.eqb c "|" || Ascii.eqb c "%".

(* autobuy/dev_blacklist.rs 84-91: parse_f64_after *)
Definition parse_f64_after (close_reason needle : string) : option f64 :=
  match str_find needle close_reason with
  | None => None
  | Some idx =>
      let rest := str_drop (idx + String.length needle) close_reason in
      parse_f64 (trim (take_until number_end rest))
  end.

(* autobuy/dev_blacklist.rs 93-95: parse_tick_drop_pct *)
Definition parse_tick_drop_pct (close_reason : string) : option f64 :=
  parse_f64_after close_reason "tick_drop=".

(* autobuy/dev_blacklist.rs 98-106: parse_mcap_drop_pct *)
Definition parse_mcap_drop_pct (close_reason : string) : option f64 :=
  filt ← parse_f64_after close_reason "filt_mcap=";
  raw ← parse_f64_after close_reason "raw_mcap=";
  if (0 <? filt)%float && (raw <? filt)%float then Some ((filt - raw) / filt * 100)%float
  else None.

(** [opt.is_some_and(|d| d >= min)] *)
Definition at_least (min : f64) (o : option f64) : bool :=
  match o with Some d => (min <=? d)%float | None => false end.

(* autobuy/dev_blacklist.rs 109-120: is_permanent_rug_exit *)
Definition is_permanent_rug_exit (close_reason : string) (cfg : DevBlacklistConfig) : bool :=
  if starts_with "SL CRASH" close_reason then true
  else if at_least (db_permanent_min_tick_drop_pct cfg) (parse_tick_drop_pct close_reason) then true
  else at_least (db_permanent_min_mcap_drop_pct cfg) (parse_mcap_drop_pct close_reason).

(* autobuy/dev_blacklist.rs 123-134: is_timed_sl_blacklist *)
Definition is_timed_sl_blacklist (close_reason : string) (pnl_pct_sol : f64)
    (cfg : DevBlacklistConfig) : bool :=
  if is_permanent_rug_exit close_reason cfg then false
  else if negb (starts_with "SL " close_reason) then false
  else if (pnl_pct_sol <=? db_min_pnl_pct_for_sl cfg)%float then true
  else at_least (db_min_tick_drop_pct cfg) (parse_tick_drop_pct close_reason).

(* autobuy/dev_blacklist.rs 137-152: classify_dev_blacklist *)
Definition classify_dev_blacklist (close_reason : string) (pnl_pct_sol : f64)
    (cfg : DevBlacklistConfig) : option DevBlacklistTier :=
  if negb (db_enabled cfg) then None
  else if is_permanent_rug_exit close_reason cfg then Some PermanentRug
  else if is_timed_sl_blacklist close_reason pnl_pct_sol cfg then Some Timed
  else None.

(* autobuy/dev_blacklist.rs 154-162: permanent_rug_label *)
Definition permanent_rug_label (close_reason : string) : string :=
  if starts_with "SL CRASH" close_reason then "SL CRASH rug"
  else if at_least 55%float (parse_tick_drop_pct close_reason) then "instant dump rug"
  else "mcap collapse rug".

(* autobuy/dev_blacklist.rs 165-181: build_blacklist_reason *)
Definition build_blacklist_reason (tier : DevBlacklistTier) (close_reason : string)
    (pnl_pct_sol : f64) : string :=
  match tier with
  | PermanentRug => "dev_blacklist_permanent: " +:+ permanent_rug_label close_reason
  | Timed => cliff_reason_tag close_reason +:+ " " +:+ fmt_fixed 0 (f64_round pnl_pct_sol) +:+ "%"
  end.

(* autobuy/dev_blacklist.rs 184-186: should_blacklist_dev *)
Definition should_blacklist_dev (close_reason : string) (pnl_pct_sol : f64)
    (cfg : DevBlacklistConfig) : bool :=
  match classify_dev_blacklist close_reason pnl_pct_sol cfg with Some _ => true | None => false end.

(** ** Mint quarantine *)

(* autobuy/curve_quarantine.rs 11-13: CurveQuarantineCache *)
Definition CurveQuarantineCache := gmap Address Z.

(* autobuy/curve_quarantine.rs 16-20: CurveQuarantineCache::is_active *)
Definition quarantine_is_active (mint : Address) (now_secs : Z) (q : CurveQuarantineCache) : bool :=
  match q !! mint with Some exp => now_secs <? exp | None => false end.

(* autobuy/curve_quarantine.rs 22-24: CurveQuarantineCache::insert *)
Definition quarantine_insert (mint : Address) (expires_at : Z) (q : CurveQuarantineCache)
    : CurveQuarantineCache := <[mint := expires_at]> q.

(* autobuy/curve_quarantine.rs 26-28: CurveQuarantineCache::prune *)
Definition quarantine_prune (now_secs : Z) (q : CurveQuarantineCache) : CurveQuarantineCache :=
  base.filter (fun kv => now_secs < kv.2) q.

(* autobuy/curve_quarantine.rs 32-34: mcap_sol_pnl_divergence_pct *)
Definition mcap_sol_pnl_divergence_pct (filt_pnl_pct pnl_sol_pct : f64) : f64 :=
  (filt_pnl_pct - pnl_sol_pct)%float.

(* autobuy/curve_quarantine.rs 37-61: should_quarantine_mint *)
Definition should_quarantine_mint (close_reason : string)
    (pnl_sol_pct filt_pnl_pct raw_pnl_pct : f64) (cfg : CurveQuarantineConfig) : bool :=
  if negb (cq_enabled cfg) then false
  else if (pnl_sol_pct >? cq_max_pnl_sol_pct cfg)%float then false
  else
    let div := mcap_sol_pnl_divergence_pct filt_pnl_pct pnl_sol_pct in
    if (cq_min_mcap_sol_divergence_pct cfg <=? div)%float then true
    else starts_with "SL CRASH" close_reason
         && (cq_sl_crash_false_positive_min_filt_pnl cfg <=? filt_pnl_pct)%float
         && (raw_pnl_pct <=? cq_sl_crash_false_positive_max_raw_pnl cfg)%float.

(* autobuy/curve_quarantine.rs 63-68: format_skip_detail *)
Definition quarantine_skip_detail (trigger_mint : string) : string :=
  "curve_quarantine (mcap/SOL glitch on " +:+ short_mint_prefix trigger_mint +:+ ")".

(** The tests of the source. *)
Example dev_blacklist_tests :
  let c := DevBlacklistConfig_default in
  classify_dev_blacklist "SL CRASH trigger_pnl=-75.6% | instant tick_drop=72.4%" (-76) c
    = Some PermanentRug /\
  classify_dev_blacklist "SL trigger_pnl=-18.0% tick_drop=55.0%" (-20) c = Some PermanentRug /\
  classify_dev_blacklist "SL trigger_pnl=-25.0% tick_drop=45.0%" (-26) c = Some Timed /\
  classify_dev_blacklist "SL trigger_pnl=-18.0% tick_drop=10.0%" (-20) c = None /\
  classify_dev_blacklist "TIME KILL weak" (-40) c = None.
Proof. vm_compute. auto 10. Qed.

(** ** The close reason round trip *)

Lemma number_end_numeric c : numeric_char c = true -> negb (number_end c) = true.
Proof.
  intros H. unfold number_end, is_whitespace.
  destruct (Ascii.eqb_spec c "|"%char) as [E|E]; [by subst c | clear E].
  destruct (Ascii.eqb_spec c "%"%char) as [E|E]; [by subst c | clear E]. rewrite !orb_false_r.
  destruct (Ascii.eqb c "-") eqn:E1; [by apply Ascii.eqb_eq in E1 as ->|].
  destruct (Ascii.eqb c ".") eqn:E2; [by apply Ascii.eqb_eq in E2 as ->|].
  unfold numeric_char, digit_of in H. rewrite E1, E2 in H. cbn [orb] in H.
  destruct (Z.leb_spec 48 (Z.of_N (N_of_ascii c))); [|done].
  destruct (N.eqb_spec (N_of_ascii c) 32); [lia|].
  destruct (N.leb_spec 9 (N_of_ascii c)); [|done].
  destruct (N.leb_spec (N_of_ascii c) 13); [lia|done].
Qed.

Lemma fixed_no_end k x : str_all (fun c => negb (number_end c)) (fmt_fixed k x) = true.
Proof. apply fmt_fixed_all; [apply number_end_numeric | reflexivity]. Qed.

(** reading back a formatted float that is followed by a delimiter *)
Lemma parse_field k x s needle c rest :
  str_after needle s = Some (fmt_fixed k x +:+ String c rest) -> number_end c = true ->
  parse_f64_after s needle = parse_f64 (fmt_fixed k x).
Proof.
  intros HA Hc. rewrite <- str_find_after in HA. unfold parse_f64_after.
  destruct (str_find needle s) as [i|]; [|done]. cbn in HA. injection HA as ->. cbv zeta.
  rewrite take_until_app by (done || apply fixed_no_end). rewrite trim_id; [done|].
  eapply str_all_impl; [|apply (fixed_no_end k x)]. intros a. unfold number_end.
  by destruct (is_whitespace a).
Qed.

Lemma parse_missing s needle : str_after needle s = None -> parse_f64_after s needle = None.
Proof.
  rewrite <- str_find_after. unfold parse_f64_after. by destruct (str_find needle s).
Qed.

(** scans a concatenation of literals and formatted numbers for a needle *)
Ltac scan_reason :=
  rewrite ?append_assoc, ?append_cons, ?append_nil;
  repeat (cbn [str_after starts_with Ascii.eqb Bool.eqb];
          first [rewrite after_fixed by reflexivity
                |rewrite after_numeric by (apply fmt_int_numeric || reflexivity)]);
  cbn [str_after starts_with Ascii.eqb Bool.eqb str_drop String.length].

(** What the exit engine writes, the blacklist reads back. *)
Lemma sl_reason_fields crash tp fl fp rp fm rm confirm td :
  let r := format_sl_close_reason crash tp fl fp rp fm rm confirm td in
  parse_f64_after r "filt_mcap=" = parse_f64 (fmt_fixed 1 fm) /\
  parse_f64_after r "raw_mcap=" = parse_f64 (fmt_fixed 1 rm) /\
  parse_tick_drop_pct r =
    match td with
    | Some d => if (0 <? d)%float then parse_f64 (fmt_fixed 1 d) else None
    | None => None
    end.
Proof.
  cbv zeta. unfold format_sl_close_reason, parse_tick_drop_pct. split_and!.
  - eapply (parse_field 1 fm _ _ " "%char); [|reflexivity].
    destruct crash; scan_reason; reflexivity.
  - eapply (parse_field 1 rm _ _ " "%char); [|reflexivity].
    destruct crash; scan_reason; reflexivity.
  - destruct td as [d|]; [destruct (0 <? d)%float|].
    + eapply (parse_field 1 d _ _ "%"%char); [|reflexivity].
      destruct crash, confirm; scan_reason; reflexivity.
    + apply parse_missing. destruct crash, confirm; scan_reason; reflexivity.
    + apply parse_missing. destruct crash, confirm; scan_reason; reflexivity.
Qed.

(** a number after a trip through one decimal of text *)
Definition rounded (x : f64) : option f64 := parse_f64 (fmt_fixed 1 x).

Definition reported_drop (td : option f64) : option f64 :=
  d ← td; if (0 <? d)%float then rounded d else None.

Definition reported_mcap_drop (fm rm : f64) : option f64 :=
  filt ← rounded fm; raw ← rounded rm;
  if (0 <? filt)%float && (raw <? filt)%float then Some ((filt - raw) / filt * 100)%float else None.

(** The classification of a stop loss depends on the exit's numbers only,
    read back from the text at one decimal: a crash bans the developer for
    ever; any other stop loss does so exactly when the reported tick drop or
    the drop between the reported market caps reaches its threshold, and
    otherwise earns a timed ban exactly when the loss or the tick drop reaches
    its own. *)
Theorem sl_reason_classified crash tp fl fp rp fm rm confirm td pnl cfg :
  db_enabled cfg = true ->
  classify_dev_blacklist (format_sl_close_reason crash tp fl fp rp fm rm confirm td) pnl cfg =
    if crash
       || at_least (db_permanent_min_tick_drop_pct cfg) (reported_drop td)
       || at_least (db_permanent_min_mcap_drop_pct cfg) (reported_mcap_drop fm rm)
    then Some PermanentRug
    else if (pnl <=? db_min_pnl_pct_for_sl cfg)%float
            || at_least (db_min_tick_drop_pct cfg) (reported_drop td)
    then Some Timed
    else None.
Proof.
  intros HE.
  pose proof (sl_reason_fields crash tp fl fp rp fm rm confirm td) as (HF & HR & HT).
  assert (parse_mcap_drop_pct (format_sl_close_reason crash tp fl fp rp fm rm confirm td)
          = reported_mcap_drop fm rm) as HM.
  { unfold parse_mcap_drop_pct. by rewrite HF, HR. }
  assert (parse_tick_drop_pct (format_sl_close_reason crash tp fl fp rp fm rm confirm td)
          = reported_drop td) as HT'.
  { rewrite HT. by destruct td. }
  assert (starts_with "SL CRASH" (format_sl_close_reason crash tp fl fp rp fm rm confirm td) = crash)
    as HC by (unfold format_sl_close_reason; by destruct crash).
  assert (starts_with "SL " (format_sl_close_reason crash tp fl fp rp fm rm confirm td) = true)
    as HS by (unfold format_sl_close_reason; by destruct crash).
  unfold classify_dev_blacklist, is_timed_sl_blacklist, is_permanent_rug_exit.
  rewrite HE, HC, HS, HT', HM. clear.
  destruct crash, (at_least _ (reported_drop td)) eqn:E1, (at_least _ (reported_mcap_drop fm rm));
    try reflexivity.
Qed.

Lemma sl_reason_classified_witness :
  classify_dev_blacklist
    (format_sl_close_reason false (-25.04) (-16) (-20) (-25.04) 80 75 (Some 3%Z) (Some 54.96))%float
    (-26)%float DevBlacklistConfig_default
  = if false
       || at_least (db_permanent_min_tick_drop_pct DevBlacklistConfig_default)
            (reported_drop (Some 54.96%float))
       || at_least (db_permanent_min_mcap_drop_pct DevBlacklistConfig_default)
            (reported_mcap_drop 80 75)
    then Some PermanentRug
    else if (-26 <=? db_min_pnl_pct_for_sl DevBlacklistConfig_default)%float
            || at_least (db_min_tick_drop_pct DevBlacklistConfig_default)
                 (reported_drop (Some 54.96%float))
    then Some Timed else None.
Proof. apply sl_reason_classified. reflexivity. Defined.

(** rounding to one decimal decides: a drop of 54.96% is reported as 55.0% and
    bans for ever *)
Example reported_drop_rounds_up :
  (54.96 <? db_permanent_min_tick_drop_pct DevBlacklistConfig_default)%float = true /\
  reported_drop (Some 54.96%float) = Some 55%float.
Proof. vm_compute. auto. Qed.

(** ** The quarantine is a log of its insertions *)

Inductive QuarantineOp :=
  | QInsert (mint : Address) (expires_at : Z)
  | QPrune (now_secs : Z).

Definition quarantine_step (q : CurveQuarantineCache) (op : QuarantineOp) : CurveQuarantineCache :=
  match op with
  | QInsert m e => quarantine_insert m e q
  | QPrune now => quarantine_prune now q
  end.

(** the expiry last recorded for a mint *)
Fixpoint last_expiry (mint : Address) (ops : list QuarantineOp) (acc : option Z) : option Z :=
  match ops with
  | [] => acc
  | QInsert m e :: ops' => last_expiry mint ops' (if decide (m = mint) then Some e else acc)
  | QPrune _ :: ops' => last_expiry mint ops' acc
  end.

Definition pruned_by (now : Z) (op : QuarantineOp) : Prop :=
  match op with QPrune t => t <= now | _ => True end.

Definition expiry_active (now : Z) (o : option Z) : bool :=
  match o with Some e => now <? e | None => false end.

Lemma quarantine_run mint now ops q acc :
  Forall (pruned_by now) ops ->
  quarantine_is_active mint now q = expiry_active now acc ->
  quarantine_is_active mint now (List.fold_left quarantine_step ops q)
  = expiry_active now (last_expiry mint ops acc).
Proof.
  intros HP. revert q acc. induction HP as [|op ops Hop HP IH]; intros q acc HQ; [exact HQ|].
  cbn [List.fold_left last_expiry].
  destruct op as [m e|t]; cbn [quarantine_step pruned_by] in *; apply IH;
    unfold quarantine_is_active, quarantine_insert, quarantine_prune, CurveQuarantineCache in *.
  - destruct (decide (m = mint)) as [->|N];
      [by rewrite lookup_insert_eq | rewrite lookup_insert_ne by done; exact HQ].
  - rewrite map_lookup_filter. destruct (q !! mint) as [e|]; [|exact HQ]. cbn.
    case_guard; cbn; [exact HQ|]. rewrite <- HQ. lia.
Qed.

(** Pruning is invisible: after any sequence of insertions and prunings at
    earlier times, a mint is quarantined now exactly when the expiry last
    recorded for it is still ahead. *)
Theorem quarantine_refines_log mint now ops :
  Forall (pruned_by now) ops ->
  quarantine_is_active mint now (List.fold_left quarantine_step ops ∅)
  = expiry_active now (last_expiry mint ops None).
Proof. intros H. by apply quarantine_run. Qed.

Lemma quarantine_refines_log_witness :
  quarantine_is_active 7%N 50
    (List.fold_left quarantine_step [QInsert 7%N 40; QInsert 8%N 90; QPrune 45; QInsert 7%N 60] ∅)
  = expiry_active 50 (last_expiry 7%N [QInsert 7%N 40; QInsert 8%N 90; QPrune 45; QInsert 7%N 60] None).
Proof. apply quarantine_refines_log. repeat constructor; vm_compute; discriminate. Defined.
