(* ===== verification/Brokers.v ===== *)
(** Brokers and wallets: [src/src/autobuy/broker.rs], [broker_mock.rs],
    [wallet_registry.rs] and the balance bookkeeping of [pump_brocker.rs].

    [Broker] is the interface the position manager is written against; the
    in-memory [MockBroker] implements it here.  A live broker answers from the
    chain: for the manager it is any other instance. *)
From S2P Require Import Prelude Text Amounts Pump Features ExitEngine Positions.

(** ** Receipts and errors *)

(* autobuy/broker.rs 9-22: BuyReceipt *)
Record BuyReceipt := mkBuyReceipt {
  br_sol_spent : f64;
  br_tokens_received : f64;
  br_signature : option string;
  br_entry_mcap_fill_sol : option f64
}.

(* autobuy/broker.rs 24-34: SellReceipt *)
Record SellReceipt := mkSellReceipt {
  sr_sol_received_actual : f64;
  sr_sol_received_estimated : f64;
  sr_signature : option string
}.

(* autobuy/broker.rs 39-45: SellReceipt::mock *)
Definition sell_receipt_mock (sol : f64) (signature : option string) : SellReceipt :=
  mkSellReceipt sol sol signature.

(* autobuy/broker.rs 50-67: BrokerError *)
Inductive BrokerError :=
  | InsufficientBalance (have need : f64)
  | PositionNotFound (mint : Address)
  | TransactionFailed (msg : string)
  | JupiterSellExhausted (msg : string)
  | MintNotOnChain (mint detail : string)
  | Custom (msg : string).

(* autobuy/broker.rs 71-73: BrokerError::requires_manual_sell *)
Definition requires_manual_sell (e : BrokerError) : bool :=
  match e with JupiterSellExhausted _ => true | _ => false end.

(* autobuy/broker.rs 76-78: BrokerError::is_mint_not_on_chain *)
Definition is_mint_not_on_chain (e : BrokerError) : bool :=
  match e with MintNotOnChain _ _ => true | _ => false end.

(* autobuy/broker.rs 83-85: BrokerError::is_post_grad_no_route *)
Definition is_post_grad_no_route (e : BrokerError) : bool :=
  match e with Custom msg => contains "post_grad_no_route" msg | _ => false end.

Section ErrorText.
(** base58 text of an address, from the SDK *)
Context (show_address : Address -> string).

(** the [#[error]] attributes *)
(* autobuy/broker.rs 50-67: Display for BrokerError *)
Definition error_to_string (e : BrokerError) : string :=
  match e with
  | InsufficientBalance have need =>
      "Insufficient balance: have " +:+ fmt_fixed 4 have +:+ " SOL, need " +:+ fmt_fixed 4 need +:+ " SOL"
  | PositionNotFound m => "No open position for mint " +:+ show_address m
  | TransactionFailed msg => "Transaction failed: " +:+ msg
  | JupiterSellExhausted msg => "Jupiter sell exhausted (manual exit required): " +:+ msg
  | MintNotOnChain m detail => "Mint not on-chain: " +:+ m +:+ " (" +:+ detail +:+ ")"
  | Custom msg => "Custom : " +:+ msg
  end.

(* autobuy/manager.rs 58-66: is_buy_mint_unavailable *)
Definition is_buy_mint_unavailable (err : BrokerError) : bool :=
  if is_mint_not_on_chain err then true
  else
    let msg := to_ascii_lowercase (error_to_string err) in
    contains "mint account not found" msg
    || (contains "buy mint" msg && contains "accountnotfound" msg)
    || contains "not visible on rpc" msg.
End ErrorText.

(** ** The interface *)

(* autobuy/broker.rs 90-140: Broker *)
Class Broker (B P : Type) := {
  broker_buy : Address -> f64 -> P -> B -> outcome (result BuyReceipt BrokerError * B);
  broker_sell : Address -> f64 -> P -> bool -> B -> outcome (result SellReceipt BrokerError * B);
  broker_balance_sol : B -> result f64 BrokerError;
  broker_refresh : B -> result unit BrokerError * B;
  broker_on_trade : TradeAction -> P -> B -> outcome B;
  broker_forget_position : Address -> B -> B;
  broker_mode_label : B -> string
}.

(** ** The mock broker *)

(* autobuy/broker_mock.rs 15-18: MockPosition *)
Record MockPosition := mkMockPosition { mp_tokens : f64; mp_entry_mcap : f64 }.

(* autobuy/broker_mock.rs 22-25: MockBroker *)
Record MockBroker := mkMockBroker { mb_balance : f64; mb_positions : gmap Address MockPosition }.
#[export] Instance MockBroker_settable : Settable MockBroker :=
  fun r => mkMockBroker (mb_balance r) (mb_positions r).

(* autobuy/broker_mock.rs 28-33: MockBroker::new *)
Definition mock_new (initial_balance_sol : f64) : MockBroker := mkMockBroker initial_balance_sol ∅.

Section Mock.
Context {P : Type} `{!Pool P}.

(** the balance is debited before the market cap is read *)
(* autobuy/broker_mock.rs 38-68: MockBroker::buy *)
Definition mock_buy (m : Address) (amount_sol : f64) (pool : P) (b : MockBroker)
    : outcome (result BuyReceipt BrokerError * MockBroker) :=
  if (mb_balance b <? amount_sol)%float
  then Ret (Err (InsufficientBalance (mb_balance b) amount_sol), b)
  else
    let b := b <| mb_balance := (mb_balance b - amount_sol)%float |> in
    entry_mcap ← pool_mcap_sol pool;
    let tokens_received := amount_sol in
    let b := b <| mb_positions := <[m := mkMockPosition tokens_received entry_mcap]> (mb_positions b) |> in
    Ret (Ok (mkBuyReceipt amount_sol tokens_received None None), b).

(* autobuy/broker_mock.rs 70-104: MockBroker::sell *)
Definition mock_sell (m : Address) (token_amount : f64) (pool : P) (close_account_after : bool)
    (b : MockBroker) : outcome (result SellReceipt BrokerError * MockBroker) :=
  current_mcap ← pool_mcap_sol pool;
  match mb_positions b !! m with
  | None => Ret (Err (PositionNotFound m), b)
  | Some pos =>
      let price_ratio :=
        if (0 <? mp_entry_mcap pos)%float then (current_mcap / mp_entry_mcap pos)%float else 1%float in
      let sol := (token_amount * price_ratio)%float in
      let tokens := (mp_tokens pos - token_amount)%float in
      let positions :=
        if (tokens <=? 0)%float then delete m (mb_positions b)
        else <[m := mkMockPosition tokens (mp_entry_mcap pos)]> (mb_positions b) in
      Ret (Ok (sell_receipt_mock sol None),
           mkMockBroker (mb_balance b + sol)%float positions)
  end.

(* autobuy/broker_mock.rs 110-112: MockBroker::forget_position *)
Definition mock_forget (m : Address) (b : MockBroker) : MockBroker :=
  b <| mb_positions := delete m (mb_positions b) |>.

(* autobuy/broker_mock.rs 35-117: Broker for MockBroker *)
#[export] Instance MockBroker_broker : Broker MockBroker P := {
  broker_buy := mock_buy;
  broker_sell := mock_sell;
  broker_balance_sol b := Ok (mb_balance b);
  broker_refresh b := (Ok tt, b);
  broker_on_trade _ _ b := Ret b;
  broker_forget_position := mock_forget;
  broker_mode_label _ := "demo"
}.
End Mock.

(** ** Balance reads of the live broker *)

(* autobuy/pump_brocker.rs 1905-1920: is_transient_rpc_error *)
Definition is_transient_rpc_error (msg : string) : bool :=
  let m := to_ascii_lowercase msg in
  existsb (fun n => contains n m)
    ["429"; "too many requests"; "503"; "502"; "504"; "timed out"; "timeout"; "connection reset";
     "broken pipe"; "temporarily unavailable"; "error sending request"; "connection closed"; "dns"]%string.

(* autobuy/pump_brocker.rs 1923-1929: is_rpc_account_missing *)
Definition is_rpc_account_missing (msg : string) : bool :=
  let m := to_ascii_lowercase msg in
  existsb (fun n => contains n m)
    ["accountnotfound"; "account not found"; "could not find account"; "mint account not found"]%string.

(* autobuy/pump_brocker.rs 2016-2022: is_account_propagation_error *)
Definition is_account_propagation_error (msg : string) : bool :=
  let m := to_ascii_lowercase msg in
  contains "0xbc4" m || contains "accountnotinitialized" m || contains "error number: 3012" m
  || contains (String (Ascii.ascii_of_N 34) ("err" +:+ String (Ascii.ascii_of_N 34) ": 3012")) m.

(** milliseconds slept *)
(* autobuy/pump_brocker.rs 1984-1996: backoff_balance *)
Definition backoff_balance_ms (attempt : Z) (err_msg : string) : Z :=
  let m := to_ascii_lowercase err_msg in
  if contains "429" m || contains "too many requests" m then
    Z.min (u64 (5 + sat_mul U64_MAX attempt 7)) 90 * 1000
  else
    let shift := Z.min (sat_sub attempt 1) 7 in
    Z.min (sat_mul U64_MAX 500 (Z.shiftl 1 shift)) 15000.

(* autobuy/pump_brocker.rs 1998-2003: backoff *)
Definition backoff_ms (attempt : Z) : Z :=
  let shift := Z.min (sat_sub attempt 1) 4 in
  Z.min (sat_mul U64_MAX 150 (Z.shiftl 1 shift)) 2000.

(* autobuy/pump_brocker.rs 2007-2011: propagation_backoff *)
Definition propagation_backoff_ms (attempt : Z) : Z :=
  Z.min (sat_mul U64_MAX 700 attempt) 3000.

Section Retry.
Context (show_address : Address -> string).
(** the RPC's answer at each attempt *)
Context (rpc : Z -> result f64 BrokerError).

(** from [attempt], with [fuel] attempts left; the milliseconds slept are kept *)
(* autobuy/pump_brocker.rs 1934-1982: fetch_balance_sol_with_retry *)
Fixpoint balance_retry (fuel : nat) (attempt max_attempts : Z) (fallback : option f64)
    (slept : Z) : result f64 BrokerError * Z * Z :=
  match rpc attempt with
  | Ok v => (Ok v, attempt, slept)
  | Err e =>
      let msg := error_to_string show_address e in
      let exhausted :=
        match fallback with
        | Some f => if is_transient_rpc_error msg then (Ok f, attempt, slept) else (Err e, attempt, slept)
        | None => (Err e, attempt, slept)
        end in
      if negb (is_transient_rpc_error msg) then (Err e, attempt, slept)
      else if max_attempts <=? attempt then exhausted
      else match fuel with
           | O => exhausted
           | S fuel' =>
               balance_retry fuel' (attempt + 1) max_attempts fallback
                 (slept + backoff_balance_ms attempt msg)
           end
  end.

(* autobuy/pump_brocker.rs 1934-1982: fetch_balance_sol_with_retry *)
Definition fetch_balance_sol_with_retry (fallback : option f64) : result f64 BrokerError * Z * Z :=
  let max_attempts := match fallback with Some _ => 8 | None => 24 end in
  balance_retry (Z.to_nat max_attempts) 1 max_attempts fallback 0.

Definition transient_at (n : Z) : bool :=
  match rpc n with
  | Ok _ => false
  | Err e => is_transient_rpc_error (error_to_string show_address e)
  end.

Lemma backoff_balance_bounds n msg : 1 <= n < 2 ^ 32 -> 500 <= backoff_balance_ms n msg <= 90000.
Proof.
  intros H. unfold backoff_balance_ms, sat_mul, sat_sub, U64_MAX. cbv zeta.
  destruct (_ || _).
  - rewrite (Z.min_r (2 ^ 64 - 1)) by lia. rewrite wrap_u_small by (unfold in_u; lia). lia.
  - rewrite Z.shiftl_mul_pow2 by lia.
    assert (1 <= 2 ^ Z.min (Z.max 0 (n - 1)) 7) by (apply (Z.pow_le_mono_r 2 0); lia).
    assert (2 ^ Z.min (Z.max 0 (n - 1)) 7 <= 2 ^ 7) by (apply Z.pow_le_mono_r; lia). lia.
Qed.

Lemma balance_retry_spec fuel : forall attempt mx fb slept,
  1 <= attempt <= mx -> mx < 2 ^ 32 -> mx - attempt <= Z.of_nat fuel ->
  let '(r, last, total) := balance_retry fuel attempt mx fb slept in
  attempt <= last <= mx /\
  (forall n, attempt <= n < last -> transient_at n = true) /\
  slept + 500 * (last - attempt) <= total <= slept + 90000 * (last - attempt) /\
  match rpc last with
  | Ok v => r = Ok v
  | Err e => if transient_at last then last = mx /\ r = match fb with Some f => Ok f | None => Err e end
             else r = Err e
  end.
Proof.
  induction fuel as [|fuel IH]; intros attempt mx fb slept Ha Hm Hf; cbn [balance_retry];
    pose proof (eq_refl (transient_at attempt)) as HT; unfold transient_at in HT at 2;
    destruct (rpc attempt) as [v|e] eqn:E.
  1, 3: split_and!; try lia; by rewrite E.
  - destruct (is_transient_rpc_error _) eqn:ET; cbn [negb].
    + destruct (Z.leb_spec mx attempt); [|lia].
      destruct fb; split_and!; try lia; rewrite E, HT; split; (done || lia).
    + split_and!; try lia. by rewrite E, HT.
  - destruct (is_transient_rpc_error _) eqn:ET; cbn [negb].
    + destruct (Z.leb_spec mx attempt).
      * destruct fb; split_and!; try lia; rewrite E, HT; split; (done || lia).
      * specialize (IH (attempt + 1) mx fb (slept + backoff_balance_ms attempt (error_to_string show_address e))).
        destruct (balance_retry fuel _ _ _ _) as [[r last] total].
        destruct IH as (H1 & H2 & H3 & H4); try lia.
        pose proof (backoff_balance_bounds attempt (error_to_string show_address e)) as HB.
        split_and!; try lia; [|exact H4].
        intros n Hn. destruct (decide (n = attempt)) as [->|]; [done | apply H2; lia].
    + split_and!; try lia. by rewrite E, HT.
Qed.

(** Reading the balance always ends: after at most 24 attempts (8 at boot)
    the reader returns the first answer that is not a transient failure, and
    only when every attempt failed transiently the fallback, or else the last
    error; it sleeps between half a second and 90 s before each new attempt. *)
Theorem balance_retry_total fallback :
  let '(r, last, slept) := fetch_balance_sol_with_retry fallback in
  let mx := match fallback with Some _ => 8 | None => 24 end in
  1 <= last <= mx /\
  (forall n, 1 <= n < last -> transient_at n = true) /\
  500 * (last - 1) <= slept <= 90000 * (last - 1) /\
  match rpc last with
  | Ok v => r = Ok v
  | Err e => if transient_at last
             then last = mx /\ r = match fallback with Some f => Ok f | None => Err e end
             else r = Err e
  end.
Proof.
  unfold fetch_balance_sol_with_retry.
  set (mx := match fallback with Some _ => 8 | None => 24 end).
  assert (1 <= mx <= 24) as Hm by (subst mx; destruct fallback; lia).
  pose proof (balance_retry_spec (Z.to_nat mx) 1 mx fallback 0 ltac:(lia) ltac:(lia) ltac:(lia)) as H.
  destruct (balance_retry _ _ _ _ _) as [[r last] slept].
  destruct H as (H1 & H2 & H3 & H4). split_and!; try lia; done.
Qed.
End Retry.
