(* ===== verification/Wallets.v ===== *)
(** The copy-trade wallets, [src/src/autobuy/wallet_registry.rs].

    A [WalletHandle] is shared behind an [Arc] by the ordered list, the map by
    id and the map by public key; here the handles live in one store keyed by
    id, and the list and the second map hold ids. *)
From S2P Require Import Prelude Text Amounts Pump Features Positions Brokers.

(* autobuy/wallet_registry.rs 28-33: WalletTierSize *)
Record WalletTierSize := mkWalletTierSize { ws_a_sol : f64; ws_a_plus_sol : f64; ws_b_sol : f64 }.

(* autobuy/wallet_registry.rs 35-37: default_wallet_b_sol *)
Definition default_wallet_b_sol : f64 := 0.2%float.

(* autobuy/wallet_registry.rs 41-61: WalletEntryConfig *)
Record WalletEntryConfig := mkWalletEntryConfig {
  we_id : string;
  we_label : string;
  we_enabled : bool;
  we_private_key_env : string;
  we_size_sol : option f64;
  we_tier_size : option WalletTierSize;
  we_demo_balance_sol : option f64;
  we_rpc_url_env : option string
}.

(* autobuy/wallet_registry.rs 68-74: WalletEntryConfig::effective_label *)
Definition effective_label (e : WalletEntryConfig) : string :=
  if String.eqb (we_label e) "" then we_id e else we_label e.

(* autobuy/wallet_registry.rs 78-89: WalletHandle *)
Record WalletHandle (B : Type) := mkWalletHandle {
  wh_id : string;
  wh_label : string;
  wh_enabled : bool;
  wh_size_sol : option f64;
  wh_tier_size : option WalletTierSize;
  wh_private_key_env : string;
  wh_pubkey : string;
  wh_wallet_address : Address;
  wh_broker : B;
  wh_balance : f64
}.
Arguments mkWalletHandle {B}.
Arguments wh_id {B} w.
Arguments wh_label {B} w.
Arguments wh_enabled {B} w.
Arguments wh_size_sol {B} w.
Arguments wh_tier_size {B} w.
Arguments wh_private_key_env {B} w.
Arguments wh_pubkey {B} w.
Arguments wh_wallet_address {B} w.
Arguments wh_broker {B} w.
Arguments wh_balance {B} w.
#[export] Instance WalletHandle_settable B : Settable (WalletHandle B) := fun w =>
  mkWalletHandle (wh_id w) (wh_label w) (wh_enabled w) (wh_size_sol w) (wh_tier_size w)
    (wh_private_key_env w) (wh_pubkey w) (wh_wallet_address w) (wh_broker w) (wh_balance w).

(* autobuy/wallet_registry.rs 165-170: WalletRegistry *)
Record WalletRegistry (B : Type) := mkWalletRegistry {
  wr_ordered : list string;
  wr_by_id : gmap string (WalletHandle B);
  wr_by_pubkey : gmap Address string;
  wr_mode_label : string
}.
Arguments mkWalletRegistry {B}.
Arguments wr_ordered {B} w.
Arguments wr_by_id {B} w.
Arguments wr_by_pubkey {B} w.
Arguments wr_mode_label {B} w.
#[export] Instance WalletRegistry_settable B : Settable (WalletRegistry B) := fun w =>
  mkWalletRegistry (wr_ordered w) (wr_by_id w) (wr_by_pubkey w) (wr_mode_label w).

Section Wallets.
Context {B P : Type} `{!Pool P, !Broker B P}.
Implicit Types (w : WalletHandle B) (r : WalletRegistry B).

(* autobuy/wallet_registry.rs 128-138: WalletHandle::amount_for_signal *)
Definition amount_for_signal w (signal_sol : f64) (buy_tier : Tier) : f64 :=
  match wh_tier_size w with
  | Some ts =>
      match buy_tier with
      | TierAPlus => ws_a_plus_sol ts
      | TierA => ws_a_sol ts
      | TierB => ws_b_sol ts
      | TierSkip => signal_sol
      end
  | None => default signal_sol (wh_size_sol w)
  end.

(* autobuy/wallet_registry.rs 177-179: WalletRegistry::all *)
Definition wallets_all r : list (WalletHandle B) := omap (fun i => wr_by_id r !! i) (wr_ordered r).

(* autobuy/wallet_registry.rs 181-183: WalletRegistry::get *)
Definition wallet_get r (id : string) : option (WalletHandle B) := wr_by_id r !! id.

(** a method of the shared handle mutates the one object all three hold *)
Definition wallet_update r (id : string) (f : WalletHandle B -> WalletHandle B) : WalletRegistry B :=
  r <| wr_by_id := alter f id (wr_by_id r) |>.

(* autobuy/wallet_registry.rs 185-191: WalletRegistry::enabled_wallets *)
Definition enabled_wallets r : list (WalletHandle B) := List.filter wh_enabled (wallets_all r).

(* autobuy/wallet_registry.rs 193-195: WalletRegistry::total_balance_sol *)
Definition total_balance_sol r : f64 :=
  List.fold_left (fun acc w => (acc + wh_balance w)%float) (wallets_all r) 0%float.

(* autobuy/wallet_registry.rs 197-202: WalletRegistry::primary_pubkey *)
Definition primary_pubkey r : string :=
  match wallets_all r with w :: _ => wh_pubkey w | [] => "no-wallet" end.

(* autobuy/wallet_registry.rs 208-213: WalletRegistry::on_trade *)
Definition wallets_on_trade (trade : TradeAction) (pool : P) r : outcome (WalletRegistry B) :=
  match wr_by_pubkey r !! trade_trader trade ≫= fun id => wr_by_id r !! id with
  | Some w =>
      b ← broker_on_trade trade pool (wh_broker w);
      Ret (wallet_update r (wh_id w) (fun w => w <| wh_broker := b |>))
  | None => Ret r
  end.

(** the error of a failed refresh is only logged *)
(* autobuy/wallet_registry.rs 215-226: WalletRegistry::refresh_all_balances *)
Definition refresh_wallet (do_refresh : bool) w : WalletHandle B :=
  let w := if do_refresh then w <| wh_broker := (broker_refresh (wh_broker w)).2 |> else w in
  match broker_balance_sol (wh_broker w) with
  | Ok bal => w <| wh_balance := bal |>
  | Err _ => w
  end.

(* autobuy/wallet_registry.rs 215-226: WalletRegistry::refresh_all_balances *)
Definition refresh_all_balances (refresh_every_n_ticks tick : Z) r : WalletRegistry B :=
  let due := if refresh_every_n_ticks =? 0 then tick =? 0 else tick mod refresh_every_n_ticks =? 0 in
  List.fold_left (fun r id => wallet_update r id (refresh_wallet due)) (wr_ordered r) r.

(* autobuy/wallet_registry.rs 228-236: WalletRegistry::apply_config_patch *)
Definition apply_config_patch (entries : list WalletEntryConfig) r : WalletRegistry B :=
  List.fold_left (fun r e =>
    wallet_update r (we_id e) (fun w =>
      w <| wh_enabled := we_enabled e |> <| wh_size_sol := we_size_sol e |>
        <| wh_tier_size := we_tier_size e |>)) entries r.

(* autobuy/wallet_registry.rs 240-251: default_wallet_entries *)
Definition default_wallet_entries : list WalletEntryConfig :=
  [mkWalletEntryConfig "wallet_1" "Main" true "PRIVATE_KEY" None None None None].

(** Opening a wallet reads the environment, generates or parses a key and, in
    live mode, asks the chain: it is an argument ([Startup.open_wallet]).
    [None] is a disabled live wallet without a key, which is skipped. *)
Context (open_wallet : WalletEntryConfig -> outcome (result (option (B * string * Address * f64)) string)).

(** the handle is put into the three collections *)
(* autobuy/wallet_registry.rs 358-372: build_wallet_registry *)
Definition register_wallet (cfg : WalletEntryConfig) (opened : B * string * Address * f64) r : WalletRegistry B :=
  let '(broker, pubkey, addr, bal) := opened in
  let w := mkWalletHandle (we_id cfg) (effective_label cfg) (we_enabled cfg)
             (we_size_sol cfg) (we_tier_size cfg) (we_private_key_env cfg) pubkey addr broker bal in
  r <| wr_by_pubkey := <[addr := we_id cfg]> (wr_by_pubkey r) |>
    <| wr_by_id := <[we_id cfg := w]> (wr_by_id r) |>
    <| wr_ordered := wr_ordered r ++ [we_id cfg] |>.

(* autobuy/wallet_registry.rs 272-373: build_wallet_registry *)
Definition build_step (acc : outcome (result (WalletRegistry B) string)) (cfg : WalletEntryConfig)
    : outcome (result (WalletRegistry B) string) :=
  match acc with
  | Panic p => Panic p
  | Ret (Err e) => Ret (Err e)
  | Ret (Ok r) =>
      match wr_by_id r !! we_id cfg with
      | Some _ => Ret (Err ("duplicate wallet id " +:+ we_id cfg))
      | None =>
          opened ← open_wallet cfg;
          Ret match opened with
              | Err e => Err e
              | Ok None => Ok r
              | Ok (Some opened) => Ok (register_wallet cfg opened r)
              end
      end
  end.

(* autobuy/wallet_registry.rs 258-262: build_wallet_registry *)
Definition effective_entries (entries : list WalletEntryConfig) : list WalletEntryConfig :=
  match entries with [] => default_wallet_entries | _ => entries end.

(* autobuy/wallet_registry.rs 253-381: build_wallet_registry *)
Definition build_wallet_registry (entries : list WalletEntryConfig) (mode_label : string)
    : outcome (result (WalletRegistry B) string) :=
  List.fold_left build_step (effective_entries entries) (Ret (Ok (mkWalletRegistry [] ∅ ∅ mode_label))).

(** ** The registry's invariant *)

Record registry_ok r : Prop := {
  rok_nodup : NoDup (wr_ordered r);
  rok_ids : forall i, i ∈ wr_ordered r <-> is_Some (wr_by_id r !! i);
  rok_keys : forall i w, wr_by_id r !! i = Some w -> wh_id w = i;
  rok_pubkey : forall a i, wr_by_pubkey r !! a = Some i -> is_Some (wr_by_id r !! i)
}.

Lemma update_ok r id f :
  (forall w, wh_id (f w) = wh_id w) -> registry_ok r -> registry_ok (wallet_update r id f).
Proof.
  intros Hf [H1 H2 H3 H4]. unfold wallet_update.
  assert (forall i, is_Some (alter f id (wr_by_id r) !! i) <-> is_Some (wr_by_id r !! i)) as HA.
  { intros i. destruct (decide (id = i)) as [->|N].
    - rewrite lookup_alter_eq. by rewrite fmap_is_Some.
    - by rewrite lookup_alter_ne. }
  split; cbn.
  - exact H1.
  - intros i. by rewrite HA.
  - intros i w. destruct (decide (id = i)) as [->|N].
    + rewrite lookup_alter_eq. intros (w' & E & ->)%fmap_Some. rewrite Hf. by apply H3.
    + rewrite lookup_alter_ne by done. apply H3.
  - intros a i Ha. apply HA. by eapply H4.
Qed.

Lemma fold_ok {A} (f : WalletRegistry B -> A -> WalletRegistry B) l r :
  (forall r a, registry_ok r -> registry_ok (f r a)) -> registry_ok r ->
  registry_ok (List.fold_left f l r).
Proof. intros Hf. revert r. induction l; intros r Hr; cbn; auto. Qed.

Lemma register_ok cfg opened r :
  wr_by_id r !! we_id cfg = None -> registry_ok r -> registry_ok (register_wallet cfg opened r).
Proof.
  destruct opened as [[[b pk] addr] bal]. intros EN [H1 H2 H3 H4]. split; cbn.
  - apply NoDup_app. split; [done|]. split; [|apply NoDup_singleton].
    intros i Hi Hj. rewrite list_elem_of_singleton in Hj. subst i.
    apply H2 in Hi as [? ?]. congruence.
  - intros i. rewrite elem_of_app, list_elem_of_singleton, H2.
    destruct (decide (we_id cfg = i)) as [->|N].
    + rewrite lookup_insert_eq. split; [by eexists | by right].
    + rewrite lookup_insert_ne by done. split; [by intros [?| ->] | by left].
  - intros i w. destruct (decide (we_id cfg = i)) as [->|N].
    + rewrite lookup_insert_eq. by intros [= <-].
    + rewrite lookup_insert_ne by done. apply H3.
  - intros a i. destruct (decide (addr = a)) as [->|N].
    + rewrite lookup_insert_eq. intros [= <-]. by rewrite lookup_insert_eq.
    + rewrite lookup_insert_ne by done. intros Ha. apply H4 in Ha.
      destruct (decide (we_id cfg = i)) as [->|N']; [by rewrite lookup_insert_eq|].
      by rewrite lookup_insert_ne.
Qed.

(** Induction over a build that succeeds: [I done r] holds of the entries done
    so far and the registry they made. *)
Lemma build_ind (I : list WalletEntryConfig -> WalletRegistry B -> Prop) entries mode r :
  I [] (mkWalletRegistry [] ∅ ∅ mode) ->
  (forall done cfg r, I done r -> wr_by_id r !! we_id cfg = None -> open_wallet cfg = Ret (Ok None) ->
     I (done ++ [cfg]) r) ->
  (forall done cfg opened r, I done r -> wr_by_id r !! we_id cfg = None ->
     open_wallet cfg = Ret (Ok (Some opened)) -> I (done ++ [cfg]) (register_wallet cfg opened r)) ->
  build_wallet_registry entries mode = Ret (Ok r) -> I (effective_entries entries) r.
Proof.
  intros I0 ISkip IAdd. unfold build_wallet_registry. generalize (mkWalletRegistry (B := B) [] ∅ ∅ mode) I0.
  clear I0. change (effective_entries entries) with ([] ++ effective_entries entries) at 2.
  generalize (@nil WalletEntryConfig) as seen. generalize (effective_entries entries) as l.
  assert (forall l x, x = Ret (Ok r) \/ List.fold_left build_step l x <> Ret (Ok r) \/
            exists r0, x = Ret (Ok r0)) as HX.
  { intros l x. destruct x as [[r0|e]|p]; [by eauto| |]; right; left; induction l; cbn; by auto. }
  induction l as [|cfg l IH]; intros seen r0 I0; cbn.
  - rewrite app_nil_r. by intros [= <-].
  - destruct (wr_by_id r0 !! we_id cfg) eqn:EN.
    { intros H. destruct (HX l (Ret (Err ("duplicate wallet id " +:+ we_id cfg)))) as [?|[?|[? ?]]]; done. }
    destruct (open_wallet cfg) as [[[opened|]|e]|p] eqn:EO; cbn; intros H.
    + rewrite cons_middle, app_assoc. eapply IH; [|exact H]. by apply IAdd.
    + rewrite cons_middle, app_assoc. eapply IH; [|exact H]. by apply ISkip.
    + destruct (HX l (Ret (Err e))) as [?|[?|[? ?]]]; done.
    + destruct (HX l (Panic p)) as [?|[?|[? ?]]]; done.
Qed.

Lemma build_ok entries mode r : build_wallet_registry entries mode = Ret (Ok r) -> registry_ok r.
Proof.
  apply (build_ind (fun _ => registry_ok)).
  - split; cbn; [constructor| |done|done].
    intros i. rewrite lookup_empty, elem_of_nil, is_Some_alt. done.
  - done.
  - intros _ cfg opened r0 H N _. by apply register_ok.
Qed.

(** what the manager and the HTTP API do to a built registry *)
Inductive WalletOp :=
  | OpPatch (entries : list WalletEntryConfig)
  | OpRefresh (every tick : Z)
  | OpSetBalance (id : string) (bal : f64)
  | OpSetBroker (id : string) (b : B).

Definition wallet_op r (op : WalletOp) : WalletRegistry B :=
  match op with
  | OpPatch entries => apply_config_patch entries r
  | OpRefresh every tick => refresh_all_balances every tick r
  | OpSetBalance id bal => wallet_update r id (fun w => w <| wh_balance := bal |>)
  | OpSetBroker id b => wallet_update r id (fun w => w <| wh_broker := b |>)
  end.

Lemma wallet_op_ok r op : registry_ok r -> registry_ok (wallet_op r op).
Proof.
  intros H. destruct op; cbn [wallet_op].
  - apply fold_ok; [|exact H]. intros r' e Hr. by apply update_ok.
  - apply fold_ok; [|exact H]. intros r' i Hr. apply update_ok; [|exact Hr].
    intros w. unfold refresh_wallet. by repeat case_match.
  - by apply update_ok.
  - by apply update_ok.
Qed.

(** what a patch changes of a wallet, and what never changes *)
Definition patched (e : WalletEntryConfig) w : WalletHandle B :=
  w <| wh_enabled := we_enabled e |> <| wh_size_sol := we_size_sol e |>
    <| wh_tier_size := we_tier_size e |>.

(** the last entry for the wallet *)
Definition entry_for (id : string) (entries : list WalletEntryConfig) : option WalletEntryConfig :=
  list.last (List.filter (fun e => String.eqb (we_id e) id) entries).

Lemma patch_lookup entries : forall r id,
  wr_by_id (apply_config_patch entries r) !! id =
    (fun w => match entry_for id entries with Some e => patched e w | None => w end)
      <$> wr_by_id r !! id.
Proof.
  induction entries as [|e entries IH]; intros r id.
  { cbn. by destruct (wr_by_id r !! id). }
  change (apply_config_patch (e :: entries) r)
    with (apply_config_patch entries (wallet_update r (we_id e) (patched e))).
  rewrite IH. unfold wallet_update, entry_for. cbn [List.filter]. cbn.
  destruct (String.eqb_spec (we_id e) id) as [<-|N].
  - rewrite lookup_alter_eq, last_cons.
    destruct (wr_by_id r !! we_id e) as [w|]; [|done]. cbn.
    by destruct (list.last (List.filter _ entries)).
  - by rewrite lookup_alter_ne.
Qed.
End Wallets.

(** The registry of wallets stays coherent: however it was built and
    whatever patches, refreshes and balance updates follow, the ordered list
    has no duplicates and names exactly the known wallets, every wallet is
    stored under its own id, and every public key resolves to a wallet. *)
Theorem wallet_registry_invariant {B P : Type} `{!Pool P, !Broker B P}
    (open_wallet : WalletEntryConfig -> outcome (result (option (B * string * Address * f64)) string))
    entries mode r ops :
  build_wallet_registry open_wallet entries mode = Ret (Ok r) ->
  registry_ok (List.fold_left (wallet_op (P := P)) ops r).
Proof.
  intros H. apply fold_ok; [|by eapply build_ok]. intros r' op. apply wallet_op_ok.
Qed.

Definition demo_open (cfg : WalletEntryConfig)
    : outcome (result (option (MockBroker * string * Address * f64)) string) :=
  Ret (Ok (Some (mock_new 10%float, "pk", 9%N, 10%float))).

Definition demo_registry : WalletRegistry MockBroker :=
  ltac:(let r := eval vm_compute in (build_wallet_registry demo_open [] "demo") in
        lazymatch r with Ret (Ok ?x) => exact x end).

Lemma wallet_registry_invariant_witness :
  registry_ok (List.fold_left (wallet_op (P := PumpPool Bonding))
    [OpPatch default_wallet_entries; OpRefresh 5 0; OpSetBalance "wallet_1" 3%float] demo_registry).
Proof.
  apply (wallet_registry_invariant demo_open [] "demo"). vm_compute. reflexivity.
Defined.

(** In a configuration patch the last entry for a wallet wins: it sets the
    wallet's enabled flag and sizes and nothing else, wallets without an entry
    are unchanged, and unknown ids add nothing. *)
Theorem config_patch_last_wins {B : Type} entries (r : WalletRegistry B) id :
  wr_by_id (apply_config_patch entries r) !! id =
    (fun w => match entry_for id entries with
              | Some e => w <| wh_enabled := we_enabled e |> <| wh_size_sol := we_size_sol e |>
                            <| wh_tier_size := we_tier_size e |>
              | None => w
              end) <$> wr_by_id r !! id /\
  wr_ordered (apply_config_patch entries r) = wr_ordered r /\
  wr_by_pubkey (apply_config_patch entries r) = wr_by_pubkey r.
Proof.
  split; [apply patch_lookup|].
  revert r. induction entries as [|e entries IH]; intros r; [done|].
  change (apply_config_patch (e :: entries) r)
    with (apply_config_patch entries (wallet_update r (we_id e) (patched e))).
  destruct (IH (wallet_update r (we_id e) (patched e))) as [H1 H2]. rewrite H1, H2. done.
Qed.
