(* ===== verification/Messages.v ===== *)
(** What the position manager talks about: its mailbox ([PositionMessage] of
    [src/src/autobuy/manager.rs]), the events it publishes to the dashboards
    ([WsFeedMessage]), the rows it stores, and the tasks it spawns. *)
From S2P Require Import Prelude Text Amounts Pump Swarm Features Strategy Registry Learning.
From S2P Require Import LivePosition ExitEngine Positions Tick Blacklist Brokers Wallets.

(* autobuy/manager.rs 70-77: V3TapeWire *)
Record V3TapeWire := mkV3TapeWire {
  v3_bv_persist : f64; v3_sell_press : f64; v3_absorb : f64; v3_dumps : Z; v3_sm_exits : Z }.

(* autobuy/manager.rs 80-88: V3TapeWire::from_learning *)
Definition from_learning (s : LearningTradeSnapshot) : V3TapeWire :=
  mkV3TapeWire (ls_buyer_velocity_persistence s) (ls_sell_pressure_score s)
    (ls_absorb_quality_score s) (ls_repeat_dump_slices s) (ls_smart_wallet_early_exits s).

(* autobuy/manager.rs 91-97: entry_meta_json *)
Definition entry_meta_json (to_json : V3TapeWire -> string) (snap : option LearningTradeSnapshot)
    : string := default "" ((fun s => to_json (from_learning s)) <$> snap).

(** ** Rows *)

(* persistence/bot_trades.rs 3-15: BotTradeEntry *)
Record BotTradeEntry := mkBotTradeEntry {
  bt_wallet_id : string; bt_mint : string; bt_entry_mcap_sol : f64; bt_invested_sol : f64;
  bt_realized_pnl_pct : f64; bt_close_reason : string; bt_entry_at : Z; bt_closed_at : Z;
  bt_exit_mcap_sol : f64; bt_entry_meta : string }.

(* persistence/dev_blacklist.rs 3-12: DevBlacklistEntry *)
Record DevBlacklistEntry := mkDevBlacklistEntry {
  de_dev_wallet : string; de_reason : string; de_mint : string; de_pnl_sol : f64;
  de_close_reason : string; de_created_at : Z; de_expires_at : Z }.

(** [json!({..})] payloads of the skip log *)
Inductive JsonValue := JNum (x : f64) | JStr (s : string).

(** ** Dashboard events *)

(* autobuy/manager.rs 2897-2902: TxEventKind *)
Inductive TxEventKind := TxBuy | TxSell.

(* autobuy/manager.rs 2861-2885: WsFeedMessage::TxEvent *)
Record TxEvent := mkTxEvent {
  tx_kind : TxEventKind; tx_wallet_id : string; tx_mint : string; tx_signature : option string;
  tx_amount_sol : f64; tx_amount_sol_estimated : option f64; tx_status : string;
  tx_reason : option string; tx_mode : string; tx_ts : Z; tx_v3_tape : option V3TapeWire;
  tx_time_kill_detail : option string; tx_pnl_mcap_pct : option f64; tx_pnl_sol_pct : option f64 }.

(* autobuy/manager.rs 2821-2895: WsFeedMessage *)
Inductive WsFeedMessage :=
  | WsPositionOpen (address wallet_id : string) (open_reason : OpenReason) (enter_mcap : f64)
      (v3_tape : option V3TapeWire)
  | WsPositionUpdate (address wallet_id : string) (pnl holdings market_cap : f64)
      (time_kill_tier : option string) (time_kill_after_secs : option Z)
  | WsPositionClose (address wallet_id reason : string)
  | WsBalanceUpdate (balance : f64)
  | WsWalletBalanceUpdate (wallet_id : string) (balance : f64)
  | WsPausedState (paused : bool)
  | WsTxEvent (e : TxEvent)
  | WsManualSellRequired (wallet_id mint exit_reason detail : string) (holdings : f64) (ts : Z).

(* autobuy/manager.rs 430-445: OpenPositionWire *)
Record OpenPositionWire := mkOpenPositionWire {
  ow_wallet_id : string; ow_address : string; ow_open_reason : OpenReason; ow_enter_mcap : f64;
  ow_pnl : f64; ow_holdings : f64; ow_market_cap : f64; ow_v3_tape : option V3TapeWire;
  ow_time_kill_tier : option string; ow_time_kill_after_secs : option Z }.

(** ** The mailbox *)

(** the four fields that travel together from the signal to the position *)
Record BuyContext := mkBuyContext {
  bc_open_reason : OpenReason;
  bc_dev_address : option Address;
  bc_early_buyers : list Address;
  bc_learning_snapshot : option LearningTradeSnapshot
}.

(** The oneshot senders of the queries are the caller's: the reply is an effect. *)
(* autobuy/manager.rs 449-537: PositionMessage *)
Inductive PositionMessage (P : Type) :=
  | UpdatePool (pool : P)
  | UpdateTokenBucket (bucket : TokenBucket)
  | ApplyLiveSnapshot (m : Address) (live : LivePositionSnapshot)
  | SetPaused (paused : bool)
  | InitiateBuy (pool : P) (amount_sol : f64) (buy_tier : Tier) (ctx : BuyContext)
  | ClearPendingMint (m : Address)
  | ExecuteBuy (m : Address) (wallet_id : string) (amount_sol : f64) (ctx : BuyContext)
  | BuyCompleted (m : Address) (wallet_id : string) (amount_sol : f64) (ctx : BuyContext)
      (latest_pool : P) (mode_label : string) (v3_wire : option V3TapeWire)
      (res : result BuyReceipt BrokerError)
  | GetStrategySnapshot
  | ExecuteSell (m : Address) (wallet_id : string) (percent : f64) (reason : string)
  | GetPnl (m : Address)
  | GetOpenPositions
  | AbandonPosition (m : Address) (wallet_id : option string)
  | TickMsg
  | ApplyExitMcapRefresh (m : Address) (mcap : f64) (use_jupiter : bool).
Arguments UpdatePool {P}.
Arguments UpdateTokenBucket {P}.
Arguments ApplyLiveSnapshot {P}.
Arguments SetPaused {P}.
Arguments InitiateBuy {P}.
Arguments ClearPendingMint {P}.
Arguments ExecuteBuy {P}.
Arguments BuyCompleted {P}.
Arguments GetStrategySnapshot {P}.
Arguments ExecuteSell {P}.
Arguments GetPnl {P}.
Arguments GetOpenPositions {P}.
Arguments AbandonPosition {P}.
Arguments TickMsg {P}.
Arguments ApplyExitMcapRefresh {P}.

(** ** Effects *)

(** The tasks that answer with a message: the copy-trade fan-out, a buy, a
    delayed sell, the poll of an exit market cap and a live snapshot. *)
Inductive Task (P : Type) :=
  | FanOut (m : Address) (targets : list (string * f64)) (delay_ms : Z) (ctx : BuyContext)
  | BuyTask (m : Address) (wallet_id : string) (amount_sol : f64) (ctx : BuyContext)
      (latest_pool : P) (mode_label : string) (v3_wire : option V3TapeWire)
  | SellTask (delay_ms : Z) (m : Address) (wallet_id : string) (percent : f64) (reason : string)
  | PollTask (m : Address) (pool_raw : f64) (force_jupiter : bool)
  | LiveTask (m : Address) (bucket : TokenBucket) (entry_time : Z) (early_buyers : list Address)
      (prev : option EarlyTapePoint) (tolerance : f64).
Arguments FanOut {P}.
Arguments BuyTask {P}.
Arguments SellTask {P}.
Arguments PollTask {P}.
Arguments LiveTask {P}.

(** writes to a store or another actor, spawned and never answered *)
Inductive Note :=
  | LogSkipped (mint : string) (dev : option string) (stage reason : string)
      (payload : list (string * JsonValue)) (ts : Z)
  | LogClosedTrade (snap : LearningTradeSnapshot) (exit_mcap_sol pnl_pct : f64) (held_secs : Z)
      (reason : string) (closed_at : Z)
  | InsertDevBlacklist (entry : DevBlacklistEntry)
  | NoteDevOutcome (dev : Address) (outcome : TokenOutcome)
  | NoteTradeOutcome (buyers : list Address) (pnl_pct : f64)
  | SaveBotTrade (entry : BotTradeEntry) (track_post_exit : bool)
  | LatencyGate (m : Address)
  | LatencySent (m : Address) (wallet_id : string)
  | LatencyConfirmed (m : Address) (wallet_id : string)
  | LatencyBuyFailed (m : Address) (wallet_id : string).

Inductive Reply :=
  | StrategyReply (s : StrategySnapshot)
  | PnlReply (pnl : option f64)
  | OpenPositionsReply (l : list OpenPositionWire).

Inductive Effect (P : Type) :=
  | Event (e : WsFeedMessage)
  | Spawn (t : Task P)
  | Notify (n : Note)
  | Answer (r : Reply).
Arguments Event {P} e.
Arguments Spawn {P} t.
Arguments Notify {P} n.
Arguments Answer {P} r.
