(* ===== verification/Manager.v ===== *)
(** The position manager, [PositionManagerActor] of [src/src/autobuy/manager.rs].

    One handler per message of the mailbox.  A handler runs alone, so it is a
    function of the manager's state, in a monad [M] that threads the state,
    collects the effects in order and may panic.  The clocks a handler reads are
    arguments: [now] in seconds and, for a tick, [instant] in milliseconds.
    Where the source iterates over a [HashMap] the order is that of
    [map_to_list]. *)
From S2P Require Import Prelude Text Amounts Pump Swarm Features Config Strategy Registry.
From S2P Require Import Learning LivePosition ExitEngine Positions Tick Blacklist Brokers Wallets.
From S2P Require Import Messages.

(** ** State *)

(** [dev_ranker], [smart_money], [learning], [buy_latency] and [post_exit_rpc]
    are handles fixed at start: only their presence matters. *)
(* autobuy/manager.rs 558-593: PositionManagerActor *)
Record Manager (B P : Type) := mkManager {
  mg_config : SmartBuyConfig;
  mg_wallets : WalletRegistry B;
  mg_positions : gmap PositionKey (Position P);
  mg_pending_mints : gset Address;
  mg_pending_wallet_buys : gset PositionKey;
  mg_closed_mints : gset Address;
  mg_pool_cache : gmap Address P;
  mg_bucket_cache : gmap Address TokenBucket;
  mg_last_print_time : Z;
  mg_dev_blacklist_cfg : DevBlacklistConfig;
  mg_curve_quarantine_cfg : CurveQuarantineConfig;
  mg_curve_quarantine : CurveQuarantineCache;
  mg_paused : bool;
  mg_paused_state : bool;
  mg_balance_state : f64;
  mg_strategy : StrategyController;
  mg_post_exit_rpc : bool;
  mg_dev_ranker : bool;
  mg_smart_money : bool;
  mg_learning : bool;
  mg_buy_latency : bool;
  mg_last_live_snapshot_at : gmap Address Z
}.
Arguments mkManager {B P}.
Arguments mg_config {B P} m.
Arguments mg_wallets {B P} m.
Arguments mg_positions {B P} m.
Arguments mg_pending_mints {B P} m.
Arguments mg_pending_wallet_buys {B P} m.
Arguments mg_closed_mints {B P} m.
Arguments mg_pool_cache {B P} m.
Arguments mg_bucket_cache {B P} m.
Arguments mg_last_print_time {B P} m.
Arguments mg_dev_blacklist_cfg {B P} m.
Arguments mg_curve_quarantine_cfg {B P} m.
Arguments mg_curve_quarantine {B P} m.
Arguments mg_paused {B P} m.
Arguments mg_paused_state {B P} m.
Arguments mg_balance_state {B P} m.
Arguments mg_strategy {B P} m.
Arguments mg_post_exit_rpc {B P} m.
Arguments mg_dev_ranker {B P} m.
Arguments mg_smart_money {B P} m.
Arguments mg_learning {B P} m.
Arguments mg_buy_latency {B P} m.
Arguments mg_last_live_snapshot_at {B P} m.
#[export] Instance Manager_settable B P : Settable (Manager B P) := fun r =>
  mkManager (mg_config r) (mg_wallets r) (mg_positions r) (mg_pending_mints r)
    (mg_pending_wallet_buys r) (mg_closed_mints r) (mg_pool_cache r) (mg_bucket_cache r)
    (mg_last_print_time r) (mg_dev_blacklist_cfg r) (mg_curve_quarantine_cfg r)
    (mg_curve_quarantine r) (mg_paused r) (mg_paused_state r) (mg_balance_state r) (mg_strategy r)
    (mg_post_exit_rpc r) (mg_dev_ranker r) (mg_smart_money r) (mg_learning r) (mg_buy_latency r)
    (mg_last_live_snapshot_at r).

(* autobuy/manager.rs 594-653: PositionManagerActor::new *)
Definition manager_new {B P} (wallets : WalletRegistry B) (initial_balance_sol : f64)
    (config : SmartBuyConfig) (dev_blacklist_cfg : DevBlacklistConfig)
    (curve_quarantine_cfg : CurveQuarantineConfig) (strategy_cfg : StrategyConfig)
    (post_exit_rpc dev_ranker smart_money learning buy_latency : bool) (now : Z) : Manager B P := {|
  mg_config := config; mg_wallets := wallets; mg_positions := ∅; mg_pending_mints := ∅;
  mg_pending_wallet_buys := ∅; mg_closed_mints := ∅; mg_pool_cache := ∅; mg_bucket_cache := ∅;
  mg_last_print_time := 0; mg_dev_blacklist_cfg := dev_blacklist_cfg;
  mg_curve_quarantine_cfg := curve_quarantine_cfg; mg_curve_quarantine := ∅;
  mg_paused := false; mg_paused_state := false; mg_balance_state := initial_balance_sol;
  mg_strategy := strategy_new strategy_cfg now;
  mg_post_exit_rpc := post_exit_rpc; mg_dev_ranker := dev_ranker; mg_smart_money := smart_money;
  mg_learning := learning; mg_buy_latency := buy_latency; mg_last_live_snapshot_at := ∅ |}.

(** ** The handlers' monad *)

Section Monad.
Context {B P : Type}.

Definition M (A : Type) : Type := Manager B P -> outcome (A * Manager B P * list (Effect P)).

#[export] Instance M_ret : MRet M := fun A a s => Ret (a, s, []).
#[export] Instance M_bind : MBind M := fun A C k m s =>
  match m s with
  | Panic p => Panic p
  | Ret (a, s1, e1) =>
      match k a s1 with
      | Panic p => Panic p
      | Ret (b, s2, e2) => Ret (b, s2, e1 ++ e2)
      end
  end.

Definition gets {A} (f : Manager B P -> A) : M A := fun s => Ret (f s, s, []).
Definition modify (f : Manager B P -> Manager B P) : M unit := fun s => Ret (tt, f s, []).
Definition tell (e : Effect P) : M unit := fun s => Ret (tt, s, [e]).
Definition lift {A} (o : outcome A) : M A := fun s =>
  match o with Ret a => Ret (a, s, []) | Panic p => Panic p end.
Definition when (b : bool) (m : M unit) : M unit := if b then m else mret tt.

Fixpoint for_each {A} (l : list A) (f : A -> M unit) : M unit :=
  match l with [] => mret tt | a :: l' => f a ;; for_each l' f end.
End Monad.
Arguments M : clear implicits.

Section Manager.
Context {B P : Type} `{!Pool P, !Broker B P}.
(** base58 text of an address and JSON text of a tape, from libraries; [boxed]
    is the unsizing of a bonding pool to [Box<dyn Pool>]. *)
Context (show_address : Address -> string) (to_json : V3TapeWire -> string).
Context (boxed : PumpPool Bonding -> P).
Implicit Types (s : Manager B P) (pos : Position P).

(* autobuy/manager.rs 655-660: pos_key *)
Definition pos_key (m : Address) (wallet_id : string) : PositionKey := mkPositionKey m wallet_id.

(** [positions.keys()] *)
Definition position_keys s : list PositionKey := (map_to_list (mg_positions s)).*1.

(* autobuy/manager.rs 662-664: any_position_for_mint *)
Definition any_position_for_mint (m : Address) s : bool :=
  existsb (fun k => bool_decide (pk_mint k = m)) (position_keys s).

(* autobuy/manager.rs 666-675: unique_open_mints *)
Definition unique_open_mints s : Z :=
  u32 (Z.of_nat (size (list_to_set (pk_mint <$> position_keys s) ∪ mg_pending_mints s))).

(* autobuy/manager.rs 677-682: maybe_finalize_closed_mint *)
Definition maybe_finalize_closed_mint (m : Address) s : Manager B P :=
  if negb (any_position_for_mint m s)
  then s <| mg_closed_mints := {[m]} ∪ mg_closed_mints s |>
         <| mg_pool_cache := delete m (mg_pool_cache s) |>
  else s.

(* autobuy/manager.rs 684-700: broadcast_wallet_balances *)
Definition broadcast_wallet_balances : M B P unit :=
  modify (fun s => s <| mg_balance_state := total_balance_sol (mg_wallets s) |>) ;;
  ws ← gets (fun s => wallets_all (mg_wallets s));
  for_each ws (fun w => tell (Event (WsWalletBalanceUpdate (wh_id w) (wh_balance w)))) ;;
  total ← gets (fun s => total_balance_sol (mg_wallets s));
  tell (Event (WsBalanceUpdate total)).

(* autobuy/manager.rs 702-708: update_positions_pool_for_mint *)
Definition update_positions_pool_for_mint (m : Address) (pool : P) s : Manager B P :=
  s <| mg_positions :=
         map_imap (fun k pos => Some (if decide (pk_mint k = m) then pos <| ps_pool := pool |> else pos))
           (mg_positions s) |>.

Definition put_position (k : PositionKey) pos : M B P unit :=
  modify (fun s => s <| mg_positions := <[k := pos]> (mg_positions s) |>).

(** [broker.balance_sol().await] and [wallet.set_balance_sol] *)
Definition refresh_cached_balance (wallet_id : string) : M B P unit :=
  w ← gets (fun s => wallet_get (mg_wallets s) wallet_id);
  match w with
  | Some w =>
      match broker_balance_sol (wh_broker w) with
      | Ok bal => modify (fun s => s <| mg_wallets :=
                    wallet_update (mg_wallets s) wallet_id (fun w => w <| wh_balance := bal |>) |>)
      | Err _ => mret tt
      end
  | None => mret tt
  end.

(** a call of a wallet's broker; the broker is shared behind its [Arc] *)
Definition wallet_sell (w : WalletHandle B) (wallet_id : string) (m : Address) (qty : f64) (pool : P)
    (close_ata : bool) : M B P (result SellReceipt BrokerError) :=
  rb ← lift (broker_sell m qty pool close_ata (wh_broker w));
  modify (fun s => s <| mg_wallets :=
            wallet_update (mg_wallets s) wallet_id (fun w => w <| wh_broker := rb.2 |>) |>) ;;
  mret rb.1.

(** ** Market data *)

(* autobuy/manager.rs 2012-2044: spawn_live_snapshot_refresh *)
Definition spawn_live_snapshot_refresh (m : Address) : M B P unit :=
  bucket ← gets (fun s => mg_bucket_cache s !! m);
  first ← gets (fun s => List.find (fun kp => bool_decide (pk_mint kp.1 = m))
                           (map_to_list (mg_positions s)));
  tol ← gets (fun s => v4_bundle_similar_tolerance (sb_exit_v4 (mg_config s)));
  match bucket, first with
  | Some bucket, Some (_, pos) =>
      tell (Spawn (LiveTask m bucket (ps_entry_time pos) (ps_early_buyers pos)
                     (ps_live_tape_curr pos) tol))
  | _, _ => mret tt
  end.

(* autobuy/manager.rs 715-719: run *)
Definition handle_update_pool (pool : P) : M B P unit :=
  modify (fun s => s <| mg_pool_cache := <[mint pool := pool]> (mg_pool_cache s) |>) ;;
  modify (update_positions_pool_for_mint (mint pool) pool).

(* autobuy/manager.rs 721-730: run *)
Definition handle_update_token_bucket (bucket : TokenBucket) : M B P unit :=
  let pool := boxed (bucket_pool bucket) in
  let m := mint pool in
  modify (fun s => s <| mg_pool_cache := <[m := pool]> (mg_pool_cache s) |>) ;;
  modify (fun s => s <| mg_bucket_cache := <[m := bucket]> (mg_bucket_cache s) |>) ;;
  modify (update_positions_pool_for_mint m pool) ;;
  any ← gets (any_position_for_mint m);
  when any (spawn_live_snapshot_refresh m).

Definition mint_keys (m : Address) s : list PositionKey :=
  List.filter (fun k => bool_decide (pk_mint k = m)) (position_keys s).

(** [for key in keys { if let Some(pos) = self.positions.get_mut(&key) { .. } }] *)
Definition update_each (keys : list PositionKey) (f : Position P -> outcome (Position P)) : M B P unit :=
  for_each keys (fun k =>
    p ← gets (fun s => mg_positions s !! k);
    match p with
    | Some pos => pos' ← lift (f pos); put_position k pos'
    | None => mret tt
    end).

(** The pool's market cap is read for the log line. *)
(* autobuy/manager.rs 744-769: run *)
Definition apply_exit_mcap (mcap : f64) (use_jupiter : bool) pos : outcome (Position P) :=
  if use_jupiter then
    let pos := pos <| ps_use_jupiter_exit_mcap := true |> <| ps_exit_mcap_jupiter := Some mcap |> in
    _pool_mcap ← pool_mcap_sol (ps_pool pos); Ret pos
  else Ret pos.

(* autobuy/manager.rs 732-771: run *)
Definition handle_apply_exit_mcap_refresh (m : Address) (mcap : f64) (use_jupiter : bool)
    : M B P unit :=
  keys ← gets (mint_keys m);
  update_each keys (apply_exit_mcap mcap use_jupiter).

(* autobuy/manager.rs 780-840: run *)
Definition apply_live (cfg : SmartBuyConfig) (now : Z) (live : LivePositionSnapshot) pos
    : outcome (Position P) :=
  let v4 := sb_exit_v4 cfg in
  let pos := pos <| ps_live_tape_prev := ps_live_tape_curr pos |>
                 <| ps_live_tape_curr := Some (lp_tape live) |> in
  let held := sat_sub now (ps_entry_time pos) in
  let vel := time_kill_mcap_velocity_pct_per_sec pos (amount_to_float (ps_enter_mcap pos)) in
  profit ← pnl pos;
  let entry_vel := snap_get (ps_learning_snapshot pos) ls_velocity_pct 0%float in
  let metrics := live_metrics_from_snapshot live (ps_live_prev_buyers_per_sec pos) vel
                   (ps_live_prev_velocity pos) entry_vel profit v4 in
  let pos := pos <| ps_live_prev_buyers_per_sec := ps_live_buyers_per_sec pos |>
                 <| ps_live_buyers_per_sec := lp_buyers_per_sec live |>
                 <| ps_live_prev_velocity := vel |>
                 <| ps_live_score :=
                      Z.max (calculate_live_score metrics) (ps_live_score_entry_floor pos) |>
                 <| ps_last_live_score_at := now |> in
  let entry_tier := snap_get (ps_learning_snapshot pos) ls_tier "" in
  let pos :=
    if negb (in_exit_grace_period_tier held entry_tier v4)
    then pos <| ps_exit_phase := transition_position_phase (ps_exit_phase pos) (ps_live_score pos)
                                   (lm_momentum_decay metrics) profit v4 |>
    else pos in
  let '(profile, hold) :=
    maybe_upgrade_runner v4 (ps_exit_profile pos) metrics (ps_live_score pos) (ps_hold_mode pos) in
  Ret (pos <| ps_exit_profile := profile |> <| ps_hold_mode := hold |>).

(* autobuy/manager.rs 772-842: run *)
Definition handle_apply_live_snapshot (now : Z) (m : Address) (live : LivePositionSnapshot)
    : M B P unit :=
  keys ← gets (mint_keys m);
  cfg ← gets mg_config;
  update_each keys (apply_live cfg now live).

(* autobuy/manager.rs 844-852: run *)
Definition handle_set_paused (paused : bool) : M B P unit :=
  modify (fun s => s <| mg_paused := paused |> <| mg_paused_state := paused |>) ;;
  tell (Event (WsPausedState paused)).

(** ** Buying *)

(** [{:?}] of the decision *)
Definition buy_decision_debug (d : BuyDecision) : string :=
  match d with
  | Allow => "Allow" | BlockMaxOpen => "BlockMaxOpen" | BlockDailyTrades => "BlockDailyTrades"
  | BlockDailyLoss => "BlockDailyLoss" | BlockProfitLock => "BlockProfitLock"
  | BlockLossStreak => "BlockLossStreak" | BlockRegime => "BlockRegime"
  end.

Definition log_skipped (m : Address) (dev : option Address) (stage reason : string)
    (payload : list (string * JsonValue)) (ts : Z) : M B P unit :=
  has ← gets mg_learning;
  when has (tell (Notify (LogSkipped (show_address m) (show_address <$> dev) stage reason payload ts))).

Definition latency (n : Note) : M B P unit :=
  has ← gets mg_buy_latency; when has (tell (Notify n)).

(** the amounts of the enabled wallets *)
(* autobuy/manager.rs 926-931: run *)
Definition fanout_targets (amount_sol : f64) (buy_tier : Tier) s : list (string * f64) :=
  (fun w => (wh_id w, amount_for_signal w amount_sol buy_tier)) <$> enabled_wallets (mg_wallets s).

(* autobuy/manager.rs 924-967: run *)
Definition start_fanout (pool : P) (amount_sol : f64) (buy_tier : Tier) (ctx : BuyContext) (now : Z)
    : M B P unit :=
  let m := mint pool in
  modify (fun s => s <| mg_pending_mints := {[m]} ∪ mg_pending_mints s |>) ;;
  modify (fun s => s <| mg_pool_cache := <[m := pool]> (mg_pool_cache s) |>) ;;
  enabled ← gets (fanout_targets amount_sol buy_tier);
  match enabled with
  | [] => modify (fun s => s <| mg_pending_mints := mg_pending_mints s ∖ {[m]} |>)
  | _ =>
      modify (fun s => s <| mg_strategy := note_position_opened now (mg_strategy s) |>) ;;
      latency (LatencyGate m) ;;
      delay ← gets (fun s => sb_buy_fanout_delay_ms (mg_config s));
      tell (Spawn (FanOut m enabled delay ctx))
  end.

(* autobuy/manager.rs 872-877: run *)
Definition mint_is_taken (m : Address) s : bool :=
  any_position_for_mint m s || bool_decide (m ∈ mg_pending_mints s)
  || bool_decide (m ∈ mg_closed_mints s).

(* autobuy/manager.rs 855-968: run *)
Definition handle_initiate_buy (pool : P) (amount_sol : f64) (buy_tier : Tier) (ctx : BuyContext)
    (now : Z) : M B P unit :=
  let m := mint pool in
  paused ← gets mg_paused;
  if (paused : bool) then mret tt
  else
    taken ← gets (mint_is_taken m);
    if (taken : bool) then mret tt
    else
      modify (fun s => s <| mg_curve_quarantine := quarantine_prune now (mg_curve_quarantine s) |>) ;;
      quarantined ← gets (fun s => cq_enabled (mg_curve_quarantine_cfg s)
                                   && quarantine_is_active m now (mg_curve_quarantine s));
      if (quarantined : bool) then mret tt
      else
        open_now ← gets unique_open_mints;
        decision ← gets (fun s => can_open open_now now (mg_strategy s));
        modify (fun s => s <| mg_strategy := decision.2 |>) ;;
        match decision.1 with
        | Allow => start_fanout pool amount_sol buy_tier ctx now
        | block =>
            log_skipped m (bc_dev_address ctx) "strategy_gate" (buy_decision_debug block)
              [("tier_sol", JNum amount_sol)] now
        end.

(* autobuy/manager.rs 1006-1008: run *)
Definition handle_clear_pending_mint (m : Address) : M B P unit :=
  modify (fun s => s <| mg_pending_mints := mg_pending_mints s ∖ {[m]} |>).

Definition forget_wallet_buy (k : PositionKey) : M B P unit :=
  modify (fun s => s <| mg_pending_wallet_buys := mg_pending_wallet_buys s ∖ {[k]} |>).

(* autobuy/manager.rs 1011-1092: run *)
Definition handle_execute_buy (m : Address) (wallet_id : string) (amount_sol : f64) (ctx : BuyContext)
    : M B P unit :=
  let k := pos_key m wallet_id in
  modify (fun s => s <| mg_pending_wallet_buys := {[k]} ∪ mg_pending_wallet_buys s |>) ;;
  paused ← gets mg_paused;
  wallet ← gets (fun s => wallet_get (mg_wallets s) wallet_id);
  held ← gets (fun s => mg_positions s !! k);
  cached ← gets (fun s => mg_pool_cache s !! m);
  match (paused : bool), wallet, held, cached with
  | false, Some w, None, Some latest_pool =>
      let v3_wire := from_learning <$> bc_learning_snapshot ctx in
      latency (LatencySent m wallet_id) ;;
      tell (Spawn (BuyTask m wallet_id amount_sol ctx latest_pool (broker_mode_label (wh_broker w))
                     v3_wire))
  | _, _, _, _ => forget_wallet_buy k
  end.

(** a fill market cap that was read and is positive *)
Definition positive_fill (receipt : BuyReceipt) : option f64 :=
  match br_entry_mcap_fill_sol receipt with
  | Some m => if (0 <? m)%float then Some m else None
  | None => None
  end.

(* autobuy/manager.rs 1838-1879: detect_fill_mcap_spike *)
Definition detect_fill_mcap_spike (cfg : SmartBuyConfig) (snapshot : option LearningTradeSnapshot)
    (receipt : BuyReceipt) : option FillMcapSpike :=
  if negb (sb_fill_mcap_abort_enabled cfg) then None
  else
    snap ← snapshot;
    let score_mcap := ls_entry_mcap_sol snap in
    if (score_mcap <=? 0)%float then None
    else
      fill_mcap ← positive_fill receipt;
      let ratio := (fill_mcap / score_mcap)%float in
      let max_ratio := f64_max (sb_fill_mcap_abort_max_ratio cfg) 1%float in
      let min_ratio := f64_clamp (sb_fill_mcap_abort_min_ratio cfg) 0.1%float 1%float in
      if (ratio >? max_ratio)%float
      then Some (mkFillMcapSpike score_mcap fill_mcap ratio max_ratio min_ratio false)
      else if (ratio <? min_ratio)%float
      then Some (mkFillMcapSpike score_mcap fill_mcap ratio max_ratio min_ratio true)
      else None.

(* autobuy/manager.rs 1900-1916: abort_buy_after_fill_mcap_spike *)
Definition abort_reason (spike : FillMcapSpike) : string :=
  if fs_adverse spike then
    "FILL MCAP ADVERSE ABORT (" +:+ fmt_fixed 2 (fs_ratio spike) +:+ "x < "
    +:+ fmt_fixed 2 (fs_min_ratio spike) +:+ "x: score " +:+ fmt_fixed 1 (fs_score_mcap_sol spike)
    +:+ "→fill " +:+ fmt_fixed 1 (fs_fill_mcap_sol spike) +:+ " SOL)"
  else
    "FILL MCAP SPIKE ABORT (" +:+ fmt_fixed 2 (fs_ratio spike) +:+ "x > "
    +:+ fmt_fixed 2 (fs_max_ratio spike) +:+ "x: " +:+ fmt_fixed 1 (fs_score_mcap_sol spike)
    +:+ "→" +:+ fmt_fixed 1 (fs_fill_mcap_sol spike) +:+ " SOL)".

(** [(a / b - 1) * 100] when [b] is positive, else 0 *)
Definition pct_of (a b : f64) : f64 := if (0 <? b)%float then ((a / b - 1) * 100)%float else 0%float.

(* autobuy/manager.rs 1881-2010: abort_buy_after_fill_mcap_spike *)
Definition abort_buy_after_fill_mcap_spike (wallet_id : string) (m : Address) (amount_sol : f64)
    (receipt : BuyReceipt) (pool : P) (spike : FillMcapSpike)
    (snap : option LearningTradeSnapshot) (dev : option Address) (now : Z) : M B P bool :=
  wallet ← gets (fun s => wallet_get (mg_wallets s) wallet_id);
  match wallet with
  | None => mret false
  | Some w =>
      let mode_label := broker_mode_label (wh_broker w) in
      let reason := abort_reason spike in
      log_skipped m dev "post_buy" "fill_mcap_spike"
        [("score_mcap_sol", JNum (fs_score_mcap_sol spike));
         ("fill_mcap_sol", JNum (fs_fill_mcap_sol spike)); ("ratio", JNum (fs_ratio spike));
         ("max_ratio", JNum (fs_max_ratio spike)); ("spent_sol", JNum amount_sol)] now ;;
      res ← wallet_sell w wallet_id m (br_tokens_received receipt) pool true;
      match res with
      | Err _ => mret false
      | Ok r =>
          let pnl_pct := pct_of (sr_sol_received_actual r) amount_sol in
          let pnl_mcap := pct_of (fs_fill_mcap_sol spike) (fs_score_mcap_sol spike) in
          tell (Event (WsTxEvent {|
            tx_kind := TxSell; tx_wallet_id := wallet_id; tx_mint := show_address m;
            tx_signature := sr_signature r; tx_amount_sol := sr_sol_received_actual r;
            tx_amount_sol_estimated := Some (sr_sol_received_estimated r); tx_status := "confirmed";
            tx_reason := Some reason; tx_mode := mode_label; tx_ts := now; tx_v3_tape := None;
            tx_time_kill_detail := None; tx_pnl_mcap_pct := Some pnl_mcap;
            tx_pnl_sol_pct := Some pnl_pct |})) ;;
          let pnl_sol := (sr_sol_received_actual r - amount_sol)%float in
          modify (fun s => s <| mg_strategy := note_position_closed pnl_sol now (mg_strategy s) |>) ;;
          refresh_cached_balance wallet_id ;;
          broadcast_wallet_balances ;;
          exit_mcap ← lift (pool_mcap_sol pool);
          tell (Notify (SaveBotTrade {|
            bt_wallet_id := wallet_id; bt_mint := show_address m;
            bt_entry_mcap_sol := fs_fill_mcap_sol spike; bt_invested_sol := amount_sol;
            bt_realized_pnl_pct := pnl_pct; bt_close_reason := reason; bt_entry_at := now;
            bt_closed_at := now; bt_exit_mcap_sol := exit_mcap;
            bt_entry_meta := entry_meta_json to_json snap |} false)) ;;
          mret true
      end
  end.

(** the market cap the position's PnL is measured from *)
(* autobuy/manager.rs 1728-1749: apply_buy_result *)
Definition entry_baseline (cfg : SmartBuyConfig) (snap : option LearningTradeSnapshot)
    (receipt : BuyReceipt) : option f64 :=
  fill ← positive_fill receipt;
  Some (if sb_honest_entry_baseline cfg then
          match ls_entry_mcap_sol <$> snap with
          | Some score =>
              if (0 <? score)%float then
                let floor := (fill * f64_clamp (sb_honest_entry_baseline_min_ratio cfg) 0 1)%float in
                f64_max (f64_min fill score) floor
              else fill
          | None => fill
          end
        else fill).

(* autobuy/manager.rs 1727-1804: apply_buy_result *)
Definition build_position (cfg : SmartBuyConfig) (m : Address) (wallet_id : string)
    (amount_sol : f64) (ctx : BuyContext) (latest_pool : P) (receipt : BuyReceipt) (now : Z)
    : outcome (Position P) :=
  let snap := bc_learning_snapshot ctx in
  let baseline := entry_baseline cfg snap receipt in
  let tokens := amount_from_float_native (br_tokens_received receipt) in
  pos ← position_new wallet_id latest_pool tokens now baseline;
  let pos :=
    match baseline with
    | Some entry_mcap =>
        if (0 <? entry_mcap)%float then
          push_exit_mcap_tick entry_mcap (sb_exit_mcap_median_ticks cfg)
            (pos <| ps_exit_mcap_ticks := [] |>) <| ps_sl_prev_raw_mcap := Some entry_mcap |>
        else pos
    | None => pos
    end in
  let pos := pos <| ps_exit_profit_floor := sb_exit_profit_floor cfg |>
                 <| ps_spent_sol := amount_sol |> <| ps_dev_address := bc_dev_address ctx |>
                 <| ps_early_buyers := bc_early_buyers ctx |> in
  let pos :=
    match snap with
    | Some s => pos <| ps_tk_entry_buyers := ls_buyer_count s |>
                    <| ps_tk_entry_smart := ls_smart_wallet_count s |>
                    <| ps_tk_entry_b2s := ls_buy_to_sell_ratio s |>
    | None => pos <| ps_tk_entry_buyers := Z.of_nat (length (ps_early_buyers pos)) |>
                  <| ps_tk_entry_smart := 0 |> <| ps_tk_entry_b2s := 0%float |>
    end in
  let pos :=
    if v4_enabled (sb_exit_v4 cfg) then
      let tk := mkTkEntryThresholds (sb_time_kill_strong_min_buyers cfg)
                  (sb_time_kill_strong_min_b2s cfg) (sb_time_kill_weak_max_buyers cfg)
                  (sb_time_kill_weak_max_b2s cfg) in
      let '(profile, hold) := resolve_entry_profile tk (sb_exit_v4 cfg) pos snap in
      let floor := entry_live_score_floor snap in
      pos <| ps_exit_profile := profile |> <| ps_hold_mode := hold |>
          <| ps_exit_phase := Exploration |> <| ps_live_score_entry_floor := floor |>
          <| ps_live_score := floor |> <| ps_last_live_score_at := now |>
    else pos in
  let pos := pos <| ps_learning_snapshot := snap |>
                 <| ps_open_reason := Some (bc_open_reason ctx) |> in
  Ret (push_exit_mcap_tick (amount_to_float (ps_enter_mcap pos)) (sb_exit_mcap_median_ticks cfg) pos).

(* autobuy/manager.rs 1727-1836: apply_buy_result *)
Definition open_position (m : Address) (wallet_id : string) (amount_sol : f64) (ctx : BuyContext)
    (latest_pool : P) (v3_wire : option V3TapeWire) (receipt : BuyReceipt) (now : Z) : M B P unit :=
  cfg ← gets mg_config;
  pos ← lift (build_position cfg m wallet_id amount_sol ctx latest_pool receipt now);
  spawn_live_snapshot_refresh m ;;
  put_position (pos_key m wallet_id) pos ;;
  refresh_cached_balance wallet_id ;;
  broadcast_wallet_balances ;;
  tell (Event (WsPositionOpen (show_address m) wallet_id (bc_open_reason ctx)
                 (amount_to_float (ps_enter_mcap pos)) v3_wire)).

(** a mint that cannot be bought is closed unless a wallet holds it *)
(* autobuy/manager.rs 1602-1662: apply_buy_result *)
Definition skip_unbuyable (m : Address) (wallet_id : string) (ctx : BuyContext)
    (stage reason : string) (e : BrokerError) (now : Z) : M B P unit :=
  latency (LatencyBuyFailed m wallet_id) ;;
  forget_wallet_buy (pos_key m wallet_id) ;;
  modify (fun s => if negb (any_position_for_mint m s)
                   then s <| mg_closed_mints := {[m]} ∪ mg_closed_mints s |> else s) ;;
  log_skipped m (bc_dev_address ctx) stage reason
    [("detail", JStr (error_to_string show_address e))] now.

(* autobuy/manager.rs 1578-1836: apply_buy_result *)
Definition apply_buy_result (m : Address) (wallet_id : string) (amount_sol : f64) (ctx : BuyContext)
    (latest_pool : P) (mode_label : string) (v3_wire : option V3TapeWire)
    (res : result BuyReceipt BrokerError) (now : Z) : M B P unit :=
  let k := pos_key m wallet_id in
  match res with
  | Err e =>
      if is_buy_mint_unavailable show_address e
      then skip_unbuyable m wallet_id ctx "buy_rpc" "mint_not_on_chain" e now
      else if is_post_grad_no_route e
      then skip_unbuyable m wallet_id ctx "buy_route" "post_grad_no_route" e now
      else
        latency (LatencyBuyFailed m wallet_id) ;;
        forget_wallet_buy k ;;
        tell (Event (WsTxEvent {|
          tx_kind := TxBuy; tx_wallet_id := wallet_id; tx_mint := show_address m;
          tx_signature := None; tx_amount_sol := amount_sol; tx_amount_sol_estimated := None;
          tx_status := "failed"; tx_reason := Some (error_to_string show_address e);
          tx_mode := mode_label; tx_ts := now; tx_v3_tape := v3_wire; tx_time_kill_detail := None;
          tx_pnl_mcap_pct := None; tx_pnl_sol_pct := None |}))
  | Ok receipt =>
      latency (LatencyConfirmed m wallet_id) ;;
      forget_wallet_buy k ;;
      cfg ← gets mg_config;
      aborted ← match detect_fill_mcap_spike cfg (bc_learning_snapshot ctx) receipt with
                | Some spike =>
                    abort_buy_after_fill_mcap_spike wallet_id m amount_sol receipt latest_pool spike
                      (bc_learning_snapshot ctx) (bc_dev_address ctx) now
                | None => mret false
                end;
      if (aborted : bool) then mret tt
      else open_position m wallet_id amount_sol ctx latest_pool v3_wire receipt now
  end.

(** ** Selling *)

(* autobuy/manager.rs 1155-1168: run *)
Definition time_kill_detail (cfg : SmartBuyConfig) pos (reason : string) : option string :=
  if String.eqb reason "TIME KILL" then
    if sb_time_kill_adaptive cfg && negb (String.eqb (ps_last_time_kill_tier pos) "") then
      Some ("adaptive · " +:+ ps_last_time_kill_tier pos +:+ " · "
            +:+ fmt_int (ps_last_time_kill_after_secs pos) +:+ "s")
    else if negb (sb_time_kill_adaptive cfg)
    then Some ("fixed · " +:+ fmt_int (sb_time_kill_secs cfg) +:+ "s")
    else Some "adaptive · ?"
  else None.

(** what the handler reads off the position before it sells *)
Record SellQuote := mkSellQuote {
  sq_filt_pnl : f64; sq_raw_pnl : f64; sq_mcap_pnl_pct : f64; sq_entry_mcap_sol : f64;
  sq_invested_sol : f64; sq_exit_mcap_sol : f64; sq_sell_qty : f64; sq_detail : option string }.

(* autobuy/manager.rs 1138-1168: run *)
Definition sell_quote (cfg : SmartBuyConfig) (percent : f64) (reason : string) pos : outcome SellQuote :=
  let filt := pnl_filtered pos (sb_exit_mcap_band_low_ratio cfg) (sb_exit_mcap_band_high_ratio cfg) in
  raw_mcap ← exit_raw_mcap pos;
  mcap_pnl_pct ← pnl pos;
  exit_mcap_sol ← pool_mcap_sol (ps_pool pos);
  Ret {| sq_filt_pnl := filt; sq_raw_pnl := pnl_at_mcap pos raw_mcap;
         sq_mcap_pnl_pct := mcap_pnl_pct; sq_entry_mcap_sol := amount_to_float (ps_enter_mcap pos);
         sq_invested_sol := amount_to_float (ps_initial_holdings pos);
         sq_exit_mcap_sol := exit_mcap_sol;
         sq_sell_qty := (amount_to_float (ps_holdings pos) * (percent / 100))%float;
         sq_detail := time_kill_detail cfg pos reason |}.

(** a position whose sell failed can be sold again by a later tick *)
(* autobuy/manager.rs 1181-1204: run *)
Definition release_position (percent : f64) (e : BrokerError) pos : Position P :=
  if requires_manual_sell e || (100 <=? percent)%float
  then pos <| ps_is_closing := false |> <| ps_pending_partial_sell := false |>
  else pos <| ps_pending_partial_sell := false |>.

(* autobuy/manager.rs 1179-1223: run *)
Definition sell_failed (m : Address) (wallet_id mode_label : string) (percent : f64)
    (reason : string) (q : SellQuote) (e : BrokerError) pos (now : Z) : M B P unit :=
  when (requires_manual_sell e)
    (tell (Event (WsManualSellRequired wallet_id (show_address m) reason
                    (error_to_string show_address e) (amount_to_float (ps_holdings pos)) now))) ;;
  tell (Event (WsTxEvent {|
    tx_kind := TxSell; tx_wallet_id := wallet_id; tx_mint := show_address m; tx_signature := None;
    tx_amount_sol := 0%float; tx_amount_sol_estimated := None; tx_status := "failed";
    tx_reason := Some (reason +:+ ": " +:+ error_to_string show_address e); tx_mode := mode_label;
    tx_ts := now; tx_v3_tape := None; tx_time_kill_detail := sq_detail q;
    tx_pnl_mcap_pct := Some (sq_mcap_pnl_pct q); tx_pnl_sol_pct := None |})) ;;
  put_position (pos_key m wallet_id) (release_position percent e pos).

(** the SOL result of a closed position *)
(* autobuy/manager.rs 1293-1309: run *)
Definition close_pnl pos (q : SellQuote) : f64 * f64 :=
  let total := ps_total_returned pos in
  let spent := ps_spent_sol pos in
  let overall := ((total / sq_invested_sol q - 1) * 100)%float in
  if (0 <? spent)%float then ((total - spent)%float, ((total / spent - 1) * 100)%float)
  else (0%float, overall).

(* autobuy/manager.rs 1315-1334: run *)
Definition close_quarantine (m : Address) (reason : string) (pnl_pct_sol : f64) (q : SellQuote)
    (now : Z) s : Manager B P :=
  if should_quarantine_mint reason pnl_pct_sol (sq_filt_pnl q) (sq_raw_pnl q)
       (mg_curve_quarantine_cfg s)
  then s <| mg_curve_quarantine :=
              quarantine_insert m (u64 (now + cq_cooldown_secs (mg_curve_quarantine_cfg s)))
                (mg_curve_quarantine s) |>
  else s.

(* autobuy/manager.rs 1336-1381: run *)
Definition blacklist_entry (cfg : DevBlacklistConfig) (m : Address) (dev : option Address)
    (reason : string) (pnl_sol pnl_pct_sol : f64) (now : Z) : option DevBlacklistEntry :=
  dev ← dev;
  tier ← classify_dev_blacklist reason pnl_pct_sol cfg;
  let expires_at :=
    match tier with
    | PermanentRug => DEV_BLACKLIST_NEVER_EXPIRES
    | Timed => i64 (now + db_cooldown_secs cfg)
    end in
  Some {| de_dev_wallet := show_address dev;
          de_reason := build_blacklist_reason tier reason pnl_pct_sol;
          de_mint := show_address m; de_pnl_sol := pnl_sol; de_close_reason := reason;
          de_created_at := now; de_expires_at := expires_at |}.

(* autobuy/manager.rs 1451-1479: run *)
Definition close_row (m : Address) (wallet_id reason : string) (pnl_pct_sol : f64) (q : SellQuote)
    pos (now : Z) : BotTradeEntry :=
  let spent := ps_spent_sol pos in {|
  bt_wallet_id := wallet_id; bt_mint := show_address m; bt_entry_mcap_sol := sq_entry_mcap_sol q;
  bt_invested_sol := if (0 <? spent)%float then spent else 0%float;
  bt_realized_pnl_pct :=
    if (0 <? spent)%float then pnl_pct_sol
    else if (0 <? sq_entry_mcap_sol q)%float
    then ((sq_exit_mcap_sol q / sq_entry_mcap_sol q - 1) * 100)%float else 0%float;
  bt_close_reason := reason; bt_entry_at := ps_entry_time pos; bt_closed_at := now;
  bt_exit_mcap_sol := sq_exit_mcap_sol q;
  bt_entry_meta := entry_meta_json to_json (ps_learning_snapshot pos) |}.

(* autobuy/manager.rs 1290-1500: run *)
Definition close_position (m : Address) (wallet_id reason : string) (q : SellQuote) pos (now : Z)
    : M B P unit :=
  modify (maybe_finalize_closed_mint m) ;;
  let '(pnl_sol, pnl_pct_sol) := close_pnl pos q in
  modify (fun s => s <| mg_strategy := note_position_closed pnl_sol now (mg_strategy s) |>) ;;
  modify (close_quarantine m reason pnl_pct_sol q now) ;;
  bl ← gets (fun s => blacklist_entry (mg_dev_blacklist_cfg s) m (ps_dev_address pos) reason pnl_sol
                        pnl_pct_sol now);
  match bl with Some entry => tell (Notify (InsertDevBlacklist entry)) | None => mret tt end ;;
  ranker ← gets mg_dev_ranker;
  match ps_dev_address pos, (ranker : bool) with
  | Some dev, true => tell (Notify (NoteDevOutcome dev (classify pnl_pct_sol)))
  | _, _ => mret tt
  end ;;
  smart ← gets mg_smart_money;
  match ps_early_buyers pos, (smart : bool) with
  | _ :: _ as buyers, true => tell (Notify (NoteTradeOutcome buyers pnl_pct_sol))
  | _, _ => mret tt
  end ;;
  learning ← gets mg_learning;
  match (learning : bool), ps_learning_snapshot pos with
  | true, Some snap =>
      tell (Notify (LogClosedTrade snap (sq_exit_mcap_sol q) pnl_pct_sol
                      (Z.max (now - ps_entry_time pos) 0) reason now))
  | _, _ => mret tt
  end ;;
  tell (Event (WsPositionClose (show_address m) wallet_id reason)) ;;
  rpc ← gets mg_post_exit_rpc;
  tell (Notify (SaveBotTrade (close_row m wallet_id reason pnl_pct_sol q pos now) rpc)).

(** what is left after a partial sell *)
(* autobuy/manager.rs 1279-1283: run *)
Definition keep_rest (q : SellQuote) pos : Position P :=
  pos <| ps_holdings := amount_from_float_native (amount_to_float (ps_holdings pos) - sq_sell_qty q) |>
      <| ps_pending_partial_sell := false |>.

(** [early_buyers] is moved out of the position that closes, which is dropped. *)
(* autobuy/manager.rs 1226-1500: run *)
Definition sell_confirmed (m : Address) (wallet_id mode_label : string) (percent : f64)
    (reason : string) (q : SellQuote) (r : SellReceipt) pos (now : Z) : M B P unit :=
  let pos := pos <| ps_total_returned :=
                      (ps_total_returned pos + sr_sol_received_actual r)%float |> in
  let pnl_sol_pct :=
    if (0 <? ps_spent_sol pos)%float && (100 <=? percent)%float
    then Some ((ps_total_returned pos / ps_spent_sol pos - 1) * 100)%float else None in
  tell (Event (WsTxEvent {|
    tx_kind := TxSell; tx_wallet_id := wallet_id; tx_mint := show_address m;
    tx_signature := sr_signature r; tx_amount_sol := sr_sol_received_actual r;
    tx_amount_sol_estimated := Some (sr_sol_received_estimated r); tx_status := "confirmed";
    tx_reason := Some reason; tx_mode := mode_label; tx_ts := now; tx_v3_tape := None;
    tx_time_kill_detail := sq_detail q; tx_pnl_mcap_pct := Some (sq_mcap_pnl_pct q);
    tx_pnl_sol_pct := pnl_sol_pct |})) ;;
  when (percent <? 100)%float (put_position (pos_key m wallet_id) (keep_rest q pos)) ;;
  refresh_cached_balance wallet_id ;;
  broadcast_wallet_balances ;;
  when (100 <=? percent)%float (close_position m wallet_id reason q pos now).

(* autobuy/manager.rs 1124-1502: run *)
Definition handle_execute_sell (m : Address) (wallet_id : string) (percent : f64) (reason : string)
    (now : Z) : M B P unit :=
  let k := pos_key m wallet_id in
  wallet ← gets (fun s => wallet_get (mg_wallets s) wallet_id);
  held ← gets (fun s => mg_positions s !! k);
  match wallet, held with
  | Some w, Some pos =>
      let mode_label := broker_mode_label (wh_broker w) in
      modify (fun s => s <| mg_positions := delete k (mg_positions s) |>) ;;
      cfg ← gets mg_config;
      q ← lift (sell_quote cfg percent reason pos);
      res ← wallet_sell w wallet_id m (sq_sell_qty q) (ps_pool pos) (100 <=? percent)%float;
      match res with
      | Err e => sell_failed m wallet_id mode_label percent reason q e pos now
      | Ok r => sell_confirmed m wallet_id mode_label percent reason q r pos now
      end
  | _, _ => mret tt
  end.

(** ** Operator and queries *)

(* autobuy/manager.rs 987-999: run *)
Definition abandon_one (m : Address) (k : PositionKey) : M B P unit :=
  modify (fun s => s <| mg_positions := delete k (mg_positions s) |>) ;;
  modify (fun s => s <| mg_wallets := wallet_update (mg_wallets s) (pk_wallet_id k)
                          (fun w => w <| wh_broker := broker_forget_position m (wh_broker w) |>) |>) ;;
  tell (Event (WsPositionClose (show_address m) (pk_wallet_id k)
                 "abandoned (operator removed from OPEN)")).

(* autobuy/manager.rs 976-1004: run *)
Definition handle_abandon_position (m : Address) (wallet_id : option string) : M B P unit :=
  keys ← gets (mint_keys m);
  let keys := List.filter (fun k => match wallet_id with
                                    | Some w => String.eqb w (pk_wallet_id k)
                                    | None => true
                                    end) keys in
  for_each keys (abandon_one m) ;;
  modify (maybe_finalize_closed_mint m).

(* autobuy/manager.rs 1528-1537: run *)
Definition handle_get_pnl (m : Address) : M B P unit :=
  first ← gets (fun s => List.find (fun kp => bool_decide (pk_mint kp.1 = m))
                           (map_to_list (mg_positions s)));
  match first with
  | Some (_, pos) => p ← lift (pnl pos); tell (Answer (PnlReply (Some p)))
  | None => tell (Answer (PnlReply None))
  end.

(* autobuy/manager.rs 1543-1570: run *)
Definition position_wire (kp : PositionKey * Position P) : outcome (list OpenPositionWire) :=
  let '(k, pos) := kp in
  match ps_open_reason pos with
  | None => Ret []
  | Some open_reason =>
      market_cap ← display_market_cap pos;
      p ← pnl pos;
      Ret [{| ow_wallet_id := pk_wallet_id k; ow_address := show_address (pk_mint k);
              ow_open_reason := open_reason; ow_enter_mcap := amount_to_float (ps_enter_mcap pos);
              ow_pnl := p; ow_holdings := amount_to_float (ps_holdings pos);
              ow_market_cap := market_cap;
              ow_v3_tape := from_learning <$> ps_learning_snapshot pos;
              ow_time_kill_tier := if String.eqb (ps_last_time_kill_tier pos) "" then None
                                   else Some (ps_last_time_kill_tier pos);
              ow_time_kill_after_secs := if ps_last_time_kill_after_secs pos =? 0 then None
                                         else Some (ps_last_time_kill_after_secs pos) |}]
  end.

(* autobuy/manager.rs 1539-1573: run *)
Definition handle_get_open_positions : M B P unit :=
  all ← gets (fun s => map_to_list (mg_positions s));
  wires ← lift (mapM position_wire all);
  tell (Answer (OpenPositionsReply (mjoin wires))).

(** ** The tick *)

Definition schedule_delay_ms (urgent : bool) : Z := if urgent then 0 else 800.

(* autobuy/manager.rs 2631-2654: schedule_sell *)
Definition schedule_sell (ka : PositionKey * SellAction) : M B P unit :=
  let '(k, a) := ka in
  tell (Spawn (SellTask (schedule_delay_ms (sa_urgent a)) (pk_mint k) (pk_wallet_id k)
                 (sa_percent a) (sa_reason a))).

(** one position: its new state, its poll, its [PositionUpdate] *)
(* autobuy/manager.rs 2129-2618: process_positions *)
Definition process_position (cfg : SmartBuyConfig) (rpc : bool) (now : Z)
    (kp : PositionKey * Position P) : M B P (list (PositionKey * SellAction)) :=
  let '(k, pos) := kp in
  t ← lift (tick_position cfg rpc now pos);
  put_position k (to_pos t) ;;
  match to_poll t with
  | Some (pool_raw, force) => tell (Spawn (PollTask (pk_mint k) pool_raw force))
  | None => mret tt
  end ;;
  match to_update t with
  | Some (profit, holdings, mcap, tier, after) =>
      tell (Event (WsPositionUpdate (show_address (pk_mint k)) (pk_wallet_id k) profit holdings mcap
                     (Some tier) (Some after)))
  | None => mret tt
  end ;;
  mret (match to_action t with Some a => [(k, a)] | None => [] end).

Fixpoint process_each (cfg : SmartBuyConfig) (rpc : bool) (now : Z)
    (l : list (PositionKey * Position P)) : M B P (list (PositionKey * SellAction)) :=
  match l with
  | [] => mret []
  | kp :: l' =>
      a ← process_position cfg rpc now kp;
      rest ← process_each cfg rpc now l';
      mret (a ++ rest)
  end.

(* autobuy/manager.rs 2115-2629: process_positions *)
Definition process_positions (now : Z) : M B P unit :=
  cfg ← gets mg_config;
  rpc ← gets mg_post_exit_rpc;
  all ← gets (fun s => map_to_list (mg_positions s));
  actions ← process_each cfg rpc now all;
  for_each actions schedule_sell ;;
  modify (fun s => if mg_last_print_time s <? now then s <| mg_last_print_time := now |> else s).

(* autobuy/manager.rs 1511-1524: run *)
Definition refresh_live_if_due (instant interval_ms : Z) (m : Address) : M B P unit :=
  cached ← gets (fun s => bool_decide (is_Some (mg_bucket_cache s !! m)));
  due ← gets (fun s => match mg_last_live_snapshot_at s !! m with
                       | Some t => interval_ms <=? sat_sub instant t
                       | None => true
                       end);
  when (cached && due)
    (modify (fun s => s <| mg_last_live_snapshot_at :=
                             <[m := instant]> (mg_last_live_snapshot_at s) |>) ;;
     spawn_live_snapshot_refresh m).

(* autobuy/manager.rs 1505-1527: run *)
Definition handle_tick (now instant : Z) : M B P unit :=
  cfg ← gets mg_config;
  mints ← gets (fun s => remove_dups (pk_mint <$> position_keys s));
  when (v4_enabled (sb_exit_v4 cfg))
    (for_each mints
       (refresh_live_if_due instant (Z.max (sb_exit_v4_live_snapshot_interval_ms cfg) 100))) ;;
  process_positions now.

(** ** The actor loop *)

(* autobuy/manager.rs 710-1576: run *)
Definition handle (now instant : Z) (msg : PositionMessage P) : M B P unit :=
  match msg with
  | UpdatePool pool => handle_update_pool pool
  | UpdateTokenBucket bucket => handle_update_token_bucket bucket
  | ApplyExitMcapRefresh m mcap use_jupiter => handle_apply_exit_mcap_refresh m mcap use_jupiter
  | ApplyLiveSnapshot m live => handle_apply_live_snapshot now m live
  | SetPaused paused => handle_set_paused paused
  | InitiateBuy pool amount_sol buy_tier ctx => handle_initiate_buy pool amount_sol buy_tier ctx now
  | GetStrategySnapshot =>
      snap ← gets (fun s => strategy_snapshot (mg_strategy s)); tell (Answer (StrategyReply snap))
  | AbandonPosition m wallet_id => handle_abandon_position m wallet_id
  | ClearPendingMint m => handle_clear_pending_mint m
  | ExecuteBuy m wallet_id amount_sol ctx => handle_execute_buy m wallet_id amount_sol ctx
  | BuyCompleted m wallet_id amount_sol ctx latest_pool mode_label v3_wire res =>
      apply_buy_result m wallet_id amount_sol ctx latest_pool mode_label v3_wire res now
  | ExecuteSell m wallet_id percent reason => handle_execute_sell m wallet_id percent reason now
  | TickMsg => handle_tick now instant
  | GetPnl m => handle_get_pnl m
  | GetOpenPositions => handle_get_open_positions
  end.
End Manager.
