(* ===== verification/System.v ===== *)
(** The manager together with what runs around it: its mailbox, the tasks it
    spawned, the feed and the operators, and the shared wallets.

    A [System] is the manager's state, the queue of the mailbox and the tasks
    that have not finished.  [sys_step] interleaves them freely: the manager
    handles the message at the head of the queue, a task advances (a delay, an
    RPC call and a crash all end somewhere), a message arrives from outside, or
    the shared wallet registry is patched or refreshed.  No assumption is made
    on time or on the answers of the chain. *)
From S2P Require Import Prelude Text Amounts Pump Swarm Features Config Strategy Registry.
From S2P Require Import Learning LivePosition ExitEngine Positions Tick Blacklist Brokers Wallets.
From S2P Require Import Messages Manager.

Record System (B P : Type) := mkSystem {
  sy_mgr : Manager B P;
  sy_inbox : list (PositionMessage P);
  sy_tasks : list (Task P)
}.
Arguments mkSystem {B P}.
Arguments sy_mgr {B P} s.
Arguments sy_inbox {B P} s.
Arguments sy_tasks {B P} s.

Section System.
Context {B P : Type} `{!Pool P, !Broker B P}.
Context (show_address : Address -> string) (to_json : V3TapeWire -> string).
Context (boxed : PumpPool Bonding -> P).
Implicit Types (s : Manager B P) (S : System B P) (pos : Position P) (t : Task P)
  (msg : PositionMessage P).

Definition spawned (es : list (Effect P)) : list (Task P) :=
  omap (fun e => match e with Spawn t => Some t | _ => None end) es.

(** the messages the HTTP API, the feed and the ticker send *)
Definition external msg : bool :=
  match msg with
  | UpdatePool _ | UpdateTokenBucket _ | SetPaused _ | InitiateBuy _ _ _ _ | GetStrategySnapshot
  | GetPnl _ | GetOpenPositions | AbandonPosition _ _ | TickMsg => true
  | _ => false
  end.

(** One advance of a task: the message it sends, what remains of it, and the
    wallets afterwards.  A task whose call panics ends without a message. *)
(* autobuy/manager.rs 943-967: run *)
Inductive task_step : WalletRegistry B -> Task P ->
    option (PositionMessage P) -> option (Task P) -> WalletRegistry B -> Prop :=
  (* autobuy/manager.rs 938-967: the fan-out loop *)
  | FanOut_buy r m w a targets d ctx :
      task_step r (FanOut m ((w, a) :: targets) d ctx) (Some (ExecuteBuy m w a ctx))
        (Some (FanOut m targets d ctx)) r
  | FanOut_done r m d ctx :
      task_step r (FanOut m [] d ctx) (Some (ClearPendingMint m)) None r
  (* autobuy/manager.rs 1057-1091: the buy *)
  | BuyTask_done r m wid amount ctx pool mode wire w res b :
      wallet_get r wid = Some w -> broker_buy m amount pool (wh_broker w) = Ret (res, b) ->
      task_step r (BuyTask m wid amount ctx pool mode wire)
        (Some (BuyCompleted m wid amount ctx pool mode wire res)) None
        (wallet_update r wid (fun w => w <| wh_broker := b |>))
  | BuyTask_lost r m wid amount ctx pool mode wire :
      task_step r (BuyTask m wid amount ctx pool mode wire) None None r
  (* autobuy/manager.rs 2641-2653: schedule_sell *)
  | SellTask_done r d m w percent reason :
      task_step r (SellTask d m w percent reason) (Some (ExecuteSell m w percent reason)) None r
  (* autobuy/manager.rs 2148-2167: the exit-mcap poll *)
  | PollTask_done r m raw force mcap use_jupiter :
      task_step r (PollTask m raw force) (Some (ApplyExitMcapRefresh m mcap use_jupiter)) None r
  (* autobuy/manager.rs 2025-2044: the live snapshot *)
  | LiveTask_done r m bucket entry eb prev tol live :
      task_step r (LiveTask m bucket entry eb prev tol) (Some (ApplyLiveSnapshot m live)) None r
  | LiveTask_lost r m bucket entry eb prev tol :
      task_step r (LiveTask m bucket entry eb prev tol) None None r.

Inductive sys_step : System B P -> System B P -> Prop :=
  | step_deliver now instant msg inbox s tasks s' es :
      handle show_address to_json boxed now instant msg s = Ret (tt, s', es) ->
      sys_step (mkSystem s (msg :: inbox) tasks) (mkSystem s' inbox (tasks ++ spawned es))
  | step_input msg s inbox tasks :
      external msg = true ->
      sys_step (mkSystem s inbox tasks) (mkSystem s (inbox ++ [msg]) tasks)
  | step_task s inbox l1 t l2 out rest r :
      task_step (mg_wallets s) t out rest r ->
      sys_step (mkSystem s inbox (l1 ++ t :: l2))
        (mkSystem (s <| mg_wallets := r |>) (inbox ++ option_list out) (l1 ++ option_list rest ++ l2))
  | step_wallets s inbox tasks op :
      sys_step (mkSystem s inbox tasks)
        (mkSystem (s <| mg_wallets := wallet_op (mg_wallets s) op |>) inbox tasks).

Definition boot s : System B P := mkSystem s [] [].

(** ** What a handler leaves alone

    [quiet A s s' es]: from [s] to [s'] with effects [es], the set of wallets is
    the same, no mint becomes pending and none is reopened, no fan-out or buy
    starts, and a position's sell flags are raised only where [A] allows. *)
Definition known (w : string) s : Prop := is_Some (wr_by_id (mg_wallets s) !! w).

Definition below pos' pos : Prop :=
  (ps_is_closing pos' = true -> ps_is_closing pos = true) /\
  (ps_pending_partial_sell pos' = true -> ps_pending_partial_sell pos = true).

Definition calm (e : Effect P) : Prop :=
  match e with Spawn (FanOut _ _ _ _) | Spawn (BuyTask _ _ _ _ _ _ _) => False | _ => True end.

Definition Allowed := PositionKey -> Position P -> Prop.
Class Downward (A : Allowed) := downward : forall k p p', A k p -> below p' p -> A k p'.

Record quiet (A : Allowed) s s' (es : list (Effect P)) : Prop := {
  quiet_known : forall w, known w s' <-> known w s;
  quiet_positions : forall k pos', mg_positions s' !! k = Some pos' ->
    A k pos' \/ exists pos, mg_positions s !! k = Some pos /\ below pos' pos;
  quiet_pending : mg_pending_mints s' ⊆ mg_pending_mints s;
  quiet_closed : mg_closed_mints s ⊆ mg_closed_mints s';
  quiet_effects : Forall calm es
}.

Definition nothing : Allowed := fun _ _ => False.
#[local] Instance nothing_downward : Downward nothing.
Proof. by intros k p p' H. Qed.

Lemma below_refl pos : below pos pos.
Proof. by split. Qed.

Lemma below_trans p1 p2 p3 : below p1 p2 -> below p2 p3 -> below p1 p3.
Proof. intros [H1 H2] [H3 H4]. split; auto. Qed.

Lemma quiet_trans A `{!Downward A} s1 s2 s3 es1 es2 :
  quiet A s1 s2 es1 -> quiet A s2 s3 es2 -> quiet A s1 s3 (es1 ++ es2).
Proof.
  intros [H1 H2 H3 H4 H5] [G1 G2 G3 G4 G5]. split.
  - intros w. rewrite (G1 w). apply H1.
  - intros k p3 Hp. destruct (G2 k p3 Hp) as [HA|(p2 & Hp2 & HB)]; [by left|].
    destruct (H2 k p2 Hp2) as [HA|(p1 & Hp1 & HB')].
    + left. by eapply downward.
    + right. exists p1. split; [done | by eapply below_trans].
  - by etrans.
  - by etrans.
  - by apply Forall_app.
Qed.

Lemma quiet_same A s s' es :
  (forall w, known w s' <-> known w s) -> mg_positions s' = mg_positions s ->
  mg_pending_mints s' ⊆ mg_pending_mints s -> mg_closed_mints s ⊆ mg_closed_mints s' ->
  Forall calm es -> quiet A s s' es.
Proof.
  intros H1 H2 H3 H4 H5. split; try done. intros k p. rewrite H2. intros Hp. right.
  exists p. split; [done | apply below_refl].
Qed.

Lemma known_update r i f w :
  is_Some (wr_by_id (wallet_update (B := B) r i f) !! w) <-> is_Some (wr_by_id r !! w).
Proof.
  unfold wallet_update. cbn. destruct (decide (i = w)) as [->|N].
  - rewrite lookup_alter_eq. apply fmap_is_Some.
  - by rewrite lookup_alter_ne.
Qed.

Lemma known_wallet_op r op w :
  is_Some (wr_by_id (wallet_op (B := B) (P := P) r op) !! w) <-> is_Some (wr_by_id r !! w).
Proof.
  assert (forall A (f : WalletRegistry B -> A -> WalletRegistry B) l r,
    (forall r a, is_Some (wr_by_id (f r a) !! w) <-> is_Some (wr_by_id r !! w)) ->
    is_Some (wr_by_id (List.fold_left f l r) !! w) <-> is_Some (wr_by_id r !! w)) as HF.
  { intros A f l. induction l as [|a l IH]; intros r' Hf; cbn; [done|].
    rewrite (IH _ Hf). apply Hf. }
  destruct op; cbn [wallet_op]; [apply HF; intros; apply known_update..| |]; apply known_update.
Qed.

(** ** A logic for quiet handlers *)

Definition quietly A {X} (m : M B P X) : Prop :=
  forall s x s' es, m s = Ret (x, s', es) -> quiet A s s' es.

Section Rules.
Context (A : Allowed) `{!Downward A}.

Lemma quietly_nop {X} (m : M B P X) :
  (forall s x s' es, m s = Ret (x, s', es) -> s' = s /\ es = []) -> quietly A m.
Proof. intros H s x s' es E. destruct (H _ _ _ _ E) as [-> ->]. by apply quiet_same. Qed.

Lemma quietly_ret {X} (x : X) : quietly A (mret x : M B P X).
Proof. apply quietly_nop. by intros s x' s' es [= <- <- <-]. Qed.
Lemma quietly_gets {X} (f : Manager B P -> X) : quietly A (gets f).
Proof. apply quietly_nop. by intros s x' s' es [= <- <- <-]. Qed.
Lemma quietly_lift {X} (o : outcome X) : quietly A (lift o).
Proof. apply quietly_nop. intros s x' s' es. unfold lift. destruct o; [|done]. by intros [= <- <- <-]. Qed.

Lemma quietly_bind {X Y} (m : M B P X) (k : X -> M B P Y) :
  quietly A m -> (forall x, quietly A (k x)) -> quietly A (m ≫= k).
Proof.
  intros Hm Hk s y s' es. unfold mbind, M_bind.
  destruct (m s) as [[[x s1] e1]|] eqn:E1; [|done].
  destruct (k x s1) as [[[y' s2] e2]|] eqn:E2; [|done]. intros [= <- <- <-].
  apply (quiet_trans A s s1); [by eapply Hm | by eapply Hk].
Qed.

Lemma quietly_tell (e : Effect P) : calm e -> quietly A (tell e).
Proof. intros H s x s' es [= <- <- <-]. apply quiet_same; try done. by constructor. Qed.

Lemma quietly_modify (f : Manager B P -> Manager B P) :
  (forall s, quiet A s (f s) []) -> quietly A (modify f).
Proof. intros H s x s' es [= <- <- <-]. apply H. Qed.

Lemma quietly_when (b : bool) (m : M B P unit) : quietly A m -> quietly A (when b m).
Proof. intros H. destruct b; [exact H | apply quietly_ret]. Qed.

Lemma quietly_for_each {X} (l : list X) (f : X -> M B P unit) :
  (forall x, quietly A (f x)) -> quietly A (for_each l f).
Proof.
  intros H. induction l as [|x l IH]; cbn; [apply quietly_ret|].
  apply quietly_bind; [apply H | intros _; exact IH].
Qed.

Lemma quietly_put k pos : A k pos -> quietly A (put_position k pos).
Proof.
  intros HA. apply quietly_modify. intros s. split; try done. cbn. intros k' p Hp.
  destruct (decide (k = k')) as [<-|N].
  - rewrite lookup_insert_eq in Hp. injection Hp as <-. by left.
  - rewrite lookup_insert_ne in Hp by done. right. exists p. split; [done | apply below_refl].
Qed.

Lemma quiet_pool m pool s : quiet A s (update_positions_pool_for_mint m pool s) [].
Proof.
  split; try done. cbn. intros k p. rewrite map_lookup_imap.
  destruct (mg_positions s !! k) as [p0|]; [|done]. cbn. intros [= <-]. right.
  exists p0. split; [done|]. by destruct (decide (pk_mint k = m)).
Qed.

Lemma quiet_wallets s i f : quiet A s (s <| mg_wallets := wallet_update (mg_wallets s) i f |>) [].
Proof. apply quiet_same; try done. intros w. apply known_update. Qed.

Lemma quiet_delete s k : quiet A s (s <| mg_positions := delete k (mg_positions s) |>) [].
Proof.
  split; try done. cbn. intros k' p Hp. apply lookup_delete_Some in Hp as [_ Hp].
  right. exists p. split; [done | apply below_refl].
Qed.

Lemma quiet_finalize m s : quiet A s (maybe_finalize_closed_mint m s) [].
Proof.
  unfold maybe_finalize_closed_mint. case_match; apply quiet_same; try done. cbn. set_solver.
Qed.

Lemma quietly_update_each keys f :
  (forall pos pos', f pos = Ret pos' -> below pos' pos) -> quietly A (update_each keys f).
Proof.
  intros Hf. apply quietly_for_each. intros k s x s' es.
  unfold mbind, M_bind, gets. destruct (mg_positions s !! k) as [pos|] eqn:E.
  - unfold lift. destruct (f pos) as [pos'|] eqn:Ef; [|done].
    unfold put_position, modify. intros [= <- <- <-]. split; try done. cbn. intros k' p Hp.
    right. destruct (decide (k = k')) as [<-|N].
    + rewrite lookup_insert_eq in Hp. injection Hp as <-. exists pos. split; [done | by apply Hf].
    + rewrite lookup_insert_ne in Hp by done. exists p. split; [done | apply below_refl].
  - intros [= <- <- <-]. by apply quiet_same.
Qed.
End Rules.

Create HintDb quiet.
#[local] Hint Resolve quietly_ret quietly_gets quietly_lift quietly_put quiet_pool quiet_wallets
  quiet_delete quiet_finalize : quiet.

(** one structural rule at a time; what is left are the state updates *)
Ltac quiet_step :=
  first
  [ solve [eauto with quiet]
  | apply quietly_bind; [assumption || typeclasses eauto | | intros ?]
  | apply quietly_tell; exact I
  | apply quietly_when
  | apply quietly_for_each; [assumption || typeclasses eauto | intros ?]
  | apply quietly_modify; intros ?; solve [eauto with quiet | apply quiet_same; solve [done | cbn; set_solver]]
  | progress case_match ].
Ltac quiet_auto := repeat quiet_step.

(** ** The quiet handlers *)

Section Handlers.
Context (A : Allowed) `{!Downward A}.

Lemma quietly_broadcast : quietly A broadcast_wallet_balances.
Proof. unfold broadcast_wallet_balances. quiet_auto. Qed.
Lemma quietly_refresh_balance w : quietly A (refresh_cached_balance w).
Proof. unfold refresh_cached_balance. quiet_auto. Qed.
Lemma quietly_wallet_sell w i m qty pool c : quietly A (wallet_sell w i m qty pool c).
Proof. unfold wallet_sell. quiet_auto. Qed.
Lemma quietly_live m : quietly A (spawn_live_snapshot_refresh m).
Proof. unfold spawn_live_snapshot_refresh. quiet_auto. Qed.
Lemma quietly_latency n : quietly A (latency n).
Proof. unfold latency. quiet_auto. Qed.
Lemma quietly_log_skipped m dev st re pl ts : quietly A (log_skipped show_address m dev st re pl ts).
Proof. unfold log_skipped. quiet_auto. Qed.
Lemma quietly_forget k : quietly A (forget_wallet_buy k).
Proof. unfold forget_wallet_buy. quiet_auto. Qed.
#[local] Hint Resolve quietly_broadcast quietly_refresh_balance quietly_wallet_sell quietly_live
  quietly_latency quietly_log_skipped quietly_forget : quiet.

Lemma quietly_skip_unbuyable m w ctx st re e now :
  quietly A (skip_unbuyable show_address m w ctx st re e now).
Proof.
  unfold skip_unbuyable. quiet_auto. apply quietly_modify. intros s.
  case_match; apply quiet_same; try done. cbn. set_solver.
Qed.

Lemma quietly_abort w m a rc pool sp sn dev now :
  quietly A (abort_buy_after_fill_mcap_spike show_address to_json w m a rc pool sp sn dev now).
Proof. unfold abort_buy_after_fill_mcap_spike. quiet_auto. Qed.

Lemma quietly_close m w reason q pos now :
  quietly A (close_position show_address to_json m w reason q pos now).
Proof.
  unfold close_position. destruct (close_pnl pos q). quiet_auto.
  apply quietly_modify. intros s. unfold close_quarantine. case_match; by apply quiet_same.
Qed.

Lemma quietly_abandon m w : quietly A (handle_abandon_position show_address m w).
Proof. unfold handle_abandon_position, abandon_one. quiet_auto. Qed.

Lemma quietly_update_pool pool : quietly A (handle_update_pool pool).
Proof. unfold handle_update_pool. quiet_auto. Qed.

Lemma quietly_update_bucket b : quietly A (handle_update_token_bucket boxed b).
Proof. unfold handle_update_token_bucket. quiet_auto. Qed.

Lemma quietly_exit_mcap m mcap j : quietly A (handle_apply_exit_mcap_refresh m mcap j).
Proof.
  unfold handle_apply_exit_mcap_refresh. apply quietly_bind; [done | apply quietly_gets|].
  intros keys. apply quietly_update_each; [done|]. intros pos pos'. unfold apply_exit_mcap.
  destruct j; [|intros [= <-]; apply below_refl].
  destruct (pool_mcap_sol _); [|done]. by intros [= <-].
Qed.

Lemma quietly_apply_live now m live : quietly A (handle_apply_live_snapshot now m live).
Proof.
  unfold handle_apply_live_snapshot. apply quietly_bind; [done | apply quietly_gets|].
  intros keys. apply quietly_bind; [done | apply quietly_gets|]. intros cfg.
  apply quietly_update_each; [done|]. intros pos pos'. unfold apply_live. cbv zeta.
  destruct (pnl _) as [profit|]; [|done].
  cbn -[maybe_upgrade_runner live_metrics_from_snapshot transition_position_phase calculate_live_score].
  destruct (maybe_upgrade_runner _ _ _ _ _) as [profile hold].
  intros [= <-]. destruct (negb _); by split.
Qed.

Lemma quietly_set_paused b : quietly A (handle_set_paused b).
Proof. unfold handle_set_paused. quiet_auto. Qed.
Lemma quietly_clear m : quietly A (handle_clear_pending_mint m).
Proof. unfold handle_clear_pending_mint. quiet_auto. Qed.
Lemma quietly_get_pnl m : quietly A (handle_get_pnl m).
Proof. unfold handle_get_pnl. quiet_auto. Qed.
Lemma quietly_get_open : quietly A (handle_get_open_positions show_address).
Proof. unfold handle_get_open_positions. quiet_auto. Qed.

Lemma quietly_live_due instant iv m : quietly A (refresh_live_if_due instant iv m).
Proof. unfold refresh_live_if_due. quiet_auto. Qed.

Lemma quietly_schedule ka : quietly A (schedule_sell ka).
Proof. unfold schedule_sell. quiet_auto. Qed.
End Handlers.

(** ** Computing in the monad *)

Lemma bind_gets {X Y} (f : Manager B P -> X) (k : X -> M B P Y) s : (gets f ≫= k) s = k (f s) s.
Proof. unfold mbind, M_bind, gets. by destruct (k (f s) s) as [[[]]|]. Qed.
Lemma bind_modify {Y} f (k : unit -> M B P Y) s : (modify f ≫= k) s = k tt (f s).
Proof. unfold mbind, M_bind, modify. by destruct (k tt (f s)) as [[[]]|]. Qed.
Lemma bind_lift {X Y} (x : X) (k : X -> M B P Y) s : (lift (Ret x) ≫= k) s = k x s.
Proof. unfold mbind, M_bind, lift. by destruct (k x s) as [[[]]|]. Qed.
Lemma bind_inv {X Y} (m : M B P X) (k : X -> M B P Y) s y s' es :
  (m ≫= k) s = Ret (y, s', es) ->
  exists x s1 e1 e2, m s = Ret (x, s1, e1) /\ k x s1 = Ret (y, s', e2) /\ es = e1 ++ e2.
Proof.
  unfold mbind, M_bind. destruct (m s) as [[[x s1] e1]|]; [|done].
  destruct (k x s1) as [[[y' s2] e2]|] eqn:E; [|done]. intros [= <- <- <-].
  by exists x, s1, e1, e2.
Qed.

(** the message a task will certainly send before it ends *)
Definition promised t : option (PositionMessage P) :=
  match t with
  | FanOut m _ _ _ => Some (ClearPendingMint m)
  | SellTask _ m w percent reason => Some (ExecuteSell m w percent reason)
  | _ => None
  end.

(** a sell of [k] among some messages; a full one when [full] *)
Definition sell_among (full : bool) (k : PositionKey) (msgs : list (PositionMessage P)) : Prop :=
  exists percent reason, ExecuteSell (pk_mint k) (pk_wallet_id k) percent reason ∈ msgs /\
    (full = true -> (100 <=? percent)%float = true).

Definition sells (full : bool) (k : PositionKey) msg : Prop :=
  match msg with
  | ExecuteSell m w percent _ => k = mkPositionKey m w /\ (full = true -> (100 <=? percent)%float = true)
  | _ => False
  end.

(** ** What handling one message guarantees *)

Record handled msg s s' (es : list (Effect P)) : Prop := {
  hd_known : forall w, known w s' <-> known w s;
  hd_keys : forall k pos', mg_positions s' !! k = Some pos' ->
    is_Some (mg_positions s !! k) \/ known (pk_wallet_id k) s;
  hd_closing : forall k pos', mg_positions s' !! k = Some pos' -> ps_is_closing pos' = true ->
    (exists pos, mg_positions s !! k = Some pos /\ ps_is_closing pos = true /\ ~ sells true k msg) \/
    sell_among true k (omap promised (spawned es));
  hd_partial : forall k pos', mg_positions s' !! k = Some pos' -> ps_pending_partial_sell pos' = true ->
    (exists pos, mg_positions s !! k = Some pos /\ ps_pending_partial_sell pos = true /\
       ~ sells false k msg) \/
    sell_among false k (omap promised (spawned es));
  hd_pending : forall m, m ∈ mg_pending_mints s' ->
    (m ∈ mg_pending_mints s /\ msg <> ClearPendingMint m) \/
    ClearPendingMint m ∈ omap promised (spawned es);
  hd_closed : mg_closed_mints s ⊆ mg_closed_mints s';
  hd_fanout : forall m ts d ctx, FanOut m ts d ctx ∈ spawned es -> m ∉ mg_closed_mints s;
  hd_buys : forall m w a ctx p md v, BuyTask m w a ctx p md v ∈ spawned es -> known w s
}.

Lemma calm_spawned es : Forall calm es ->
  (forall m ts d ctx, FanOut m ts d ctx ∉ spawned es) /\
  (forall m w a ctx p md v, BuyTask m w a ctx p md v ∉ spawned es).
Proof.
  intros H. split; intros; intros Hin; apply list_elem_of_omap in Hin as (e & He & E);
    rewrite Forall_forall in H; specialize (H e He); destruct e as [|t| |]; try done;
    injection E as ->; done.
Qed.

Lemma handled_quiet msg s s' es :
  quiet nothing s s' es -> (forall k, ~ sells false k msg) -> (forall m, msg <> ClearPendingMint m) ->
  handled msg s s' es.
Proof.
  intros [H1 H2 H3 H4 H5] HS HC. destruct (calm_spawned es H5) as [HF HB]. split; try done.
  - intros k p Hp. destruct (H2 k p Hp) as [[]|(p0 & Hp0 & _)]. left. by eexists.
  - intros k p Hp HCl. destruct (H2 k p Hp) as [[]|(p0 & Hp0 & [HB1 _])]. left. exists p0.
    split_and!; auto. intros Hs. apply (HS k). destruct msg; try done. by destruct Hs as [-> _].
  - intros k p Hp HPa. destruct (H2 k p Hp) as [[]|(p0 & Hp0 & [_ HB2])]. left. exists p0.
    split_and!; auto.
  - intros m Hm. left. split; [set_solver | done].
  - intros m ts d ctx Hin. by destruct (HF _ _ _ _ Hin).
  - intros m w a ctx p md v Hin. by destruct (HB _ _ _ _ _ _ _ Hin).
Qed.

(** ** The other handlers *)

Lemma handled_clear m s s' es :
  handle_clear_pending_mint m s = Ret (tt, s', es) -> handled (ClearPendingMint m) s s' es.
Proof.
  intros [= <- <-]. split; cbn; try done.
  - intros k p Hp. left. by eexists.
  - intros k p Hp Hc. left. exists p. tauto.
  - intros k p Hp Hc. left. exists p. tauto.
  - intros m' Hm. left. split; [set_solver|]. intros [= ->]. set_solver.
  - by intros m' ts d ctx Hin%not_elem_of_nil.
  - by intros m' w a ctx p md v Hin%not_elem_of_nil.
Qed.

Definition own_fanout (m : Address) (e : Effect P) : Prop :=
  calm e \/ exists ts d ctx, e = Spawn (FanOut m ts d ctx).

(** a signal either changes nothing that matters here or passes every gate *)
Lemma initiate_cases pool a tier ctx now s s' es :
  handle_initiate_buy show_address pool a tier ctx now s = Ret (tt, s', es) ->
  quiet nothing s s' es \/
  (mg_paused s = false /\ mint_is_taken (mint pool) s = false /\
   exists s1, (forall w, known w s1 <-> known w s) /\ mg_positions s1 = mg_positions s /\
     mg_pending_mints s1 = mg_pending_mints s /\ mg_closed_mints s1 = mg_closed_mints s /\
     start_fanout pool a tier ctx now s1 = Ret (tt, s', es)).
Proof.
  unfold handle_initiate_buy. cbv zeta. rewrite bind_gets.
  destruct (mg_paused s) eqn:EP; [intros [= <- <-]; left; by apply quiet_same|].
  rewrite bind_gets.
  destruct (mint_is_taken (mint pool) s) eqn:ET; [intros [= <- <-]; left; by apply quiet_same|].
  rewrite bind_modify, bind_gets. destruct (_ && _); [intros [= <- <-]; left; by apply quiet_same|].
  rewrite !bind_gets, bind_modify. set (dec := can_open _ _ _).
  set (s1 := _ <| mg_strategy := _ |>). intros H.
  destruct dec.1; [right; split_and!; [done..|]; exists s1; by split_and!|..]; left;
    (eapply (quiet_trans nothing s s1 _ [] es);
      [by apply quiet_same | by eapply (quietly_log_skipped nothing)]).
Qed.

Lemma taken_closed m s : mint_is_taken m s = false -> m ∉ mg_closed_mints s.
Proof.
  unfold mint_is_taken. intros [_ H]%orb_false_iff. by apply bool_decide_eq_false in H.
Qed.

(** what a started fan-out adds *)
Lemma start_fanout_inv pool a tier ctx now s s' es :
  start_fanout pool a tier ctx now s = Ret (tt, s', es) ->
  (forall w, known w s' <-> known w s) /\ mg_positions s' = mg_positions s /\
  mg_closed_mints s' = mg_closed_mints s /\
  match fanout_targets a tier s with
  | [] => es = [] /\ mg_pending_mints s' = ({[mint pool]} ∪ mg_pending_mints s) ∖ {[mint pool]}
  | targets => spawned es = [FanOut (mint pool) targets (sb_buy_fanout_delay_ms (mg_config s)) ctx] /\
               mg_pending_mints s' = {[mint pool]} ∪ mg_pending_mints s /\
               mg_strategy s' = note_position_opened now (mg_strategy s)
  end.
Proof.
  unfold start_fanout. cbv zeta. rewrite !bind_modify, bind_gets.
  match goal with |- context [fanout_targets a tier ?s2] =>
    change (fanout_targets a tier s2) with (fanout_targets a tier s) end.
  destruct (fanout_targets a tier s) as [|x l].
  { intros [= <- <-]. done. }
  rewrite bind_modify. unfold latency, when. intros H.
  apply bind_inv in H as (u & s1 & e1 & e2 & H1 & H2 & ->).
  rewrite bind_gets in H1. cbv beta in H2. rewrite bind_gets in H2. revert H1.
  match goal with |- context [if ?b then _ else _] => destruct b end;
    intros [= <- <- <-]; injection H2 as <- <-; done.
Qed.

Lemma handled_initiate pool a tier ctx now s s' es :
  handle_initiate_buy show_address pool a tier ctx now s = Ret (tt, s', es) ->
  handled (InitiateBuy pool a tier ctx) s s' es.
Proof.
  intros H. destruct (initiate_cases _ _ _ _ _ _ _ _ H) as [HQ|(_ & HT & s1 & K & EP & EM & EC & HS)].
  { apply handled_quiet; [done | by intros k [] | done]. }
  destruct (start_fanout_inv _ _ _ _ _ _ _ _ HS) as (K' & EP' & EC' & HM).
  assert (forall m, m ∈ mg_pending_mints s' -> m ∈ mg_pending_mints s \/
            ClearPendingMint m ∈ omap promised (spawned es)) as HP.
  { intros m Hm. destruct (fanout_targets a tier s1).
    - destruct HM as [-> E]. left. clear - Hm E EM. set_solver.
    - destruct HM as (-> & E & _). cbn. rewrite E, EM in Hm.
      apply elem_of_union in Hm as [Hm|Hm]; [|by left]. right.
      apply elem_of_singleton in Hm as ->. by left. }
  assert (forall t, t ∈ spawned es -> exists ts d, t = FanOut (mint pool) ts d ctx) as HSp.
  { intros t Ht. destruct (fanout_targets a tier s1).
    - destruct HM as [-> _]. by apply not_elem_of_nil in Ht.
    - destruct HM as (E & _). rewrite E in Ht. apply list_elem_of_singleton in Ht as ->.
      by eexists _, _. }
  split.
  - intros w. rewrite (K' w). apply K.
  - rewrite EP', EP. intros k p Hp. left. by eexists.
  - rewrite EP', EP. intros k p Hp Hc. left. exists p. tauto.
  - rewrite EP', EP. intros k p Hp Hc. left. exists p. tauto.
  - intros m Hm. destruct (HP m Hm); [left; by split | by right].
  - by rewrite EC', EC.
  - intros m ts d c (ts' & d' & E)%HSp. injection E as -> _ _ _. by apply taken_closed.
  - by intros m w am c p md v (ts' & d' & E)%HSp.
Qed.

Lemma handled_execute_buy m w a ctx s s' es :
  handle_execute_buy m w a ctx s = Ret (tt, s', es) -> handled (ExecuteBuy m w a ctx) s s' es.
Proof.
  unfold handle_execute_buy. cbv zeta. rewrite bind_modify, !bind_gets.
  set (s0 := s <| mg_pending_wallet_buys := _ |>).
  change (wallet_get (mg_wallets s0) w) with (wallet_get (mg_wallets s) w).
  assert (quiet nothing s s0 []) as Q0 by (by apply quiet_same).
  assert (forget_wallet_buy (pos_key m w) s0 = Ret (tt, s', es) ->
          handled (ExecuteBuy m w a ctx) s s' es) as HF.
  { intros H. apply handled_quiet; [|by intros k [] | done].
    eapply (quiet_trans nothing s s0 _ [] es); [done | by eapply (quietly_forget nothing)]. }
  destruct (mg_paused s0); [exact HF|].
  destruct (wallet_get (mg_wallets s) w) as [wh|] eqn:EW; [|exact HF].
  destruct (mg_positions s0 !! _); [exact HF|]. destruct (mg_pool_cache s0 !! m); [|exact HF].
  intros H. apply bind_inv in H as (u & s1 & e1 & e2 & H1 & [= <- <-] & ->).
  pose proof (quiet_trans nothing s s0 s1 [] e1 Q0 (quietly_latency nothing _ _ _ _ _ H1)) as Q.
  pose proof (handled_quiet (ExecuteBuy m w a ctx) s s1 e1 Q ltac:(by intros k []) ltac:(done)) as HH.
  assert (omap promised (spawned (e1 ++ [Spawn (BuyTask m w a ctx p (broker_mode_label (wh_broker wh))
            (from_learning <$> bc_learning_snapshot ctx))])) = omap promised (spawned e1)) as EO.
  { unfold spawned. by rewrite omap_app, omap_app, app_nil_r. }
  destruct HH as [H01 H02 H03 H04 H05 H06 H07 H08]. split; rewrite ?EO; try done.
  - intros m' ts d c Hin. unfold spawned in Hin. rewrite omap_app in Hin.
    apply elem_of_app in Hin as [Hin|Hin%list_elem_of_singleton]; [|done]. by eapply H07.
  - intros m' w' a' c p' md v Hin. unfold spawned in Hin. rewrite omap_app in Hin.
    apply elem_of_app in Hin as [Hin|Hin%list_elem_of_singleton]; [by eapply H08|].
    injection Hin as -> -> _ _ _ _ _. by exists wh.
Qed.

(** an opened position waits for no sell *)
Definition fresh_at (k : PositionKey) : Allowed := fun k' pos =>
  k' = k /\ ps_is_closing pos <> true /\ ps_pending_partial_sell pos <> true.
#[local] Instance fresh_at_downward k : Downward (fresh_at k).
Proof. intros k' p p' (H1 & H2 & H3) [H4 H5]. split_and!; auto. Qed.

Lemma build_position_fresh cfg m w a ctx pool rc now k pos :
  build_position cfg m w a ctx pool rc now = Ret pos -> fresh_at k k pos.
Proof.
  unfold build_position. cbv zeta. destruct (position_new _ _ _ _ _) as [p0|] eqn:E0; [|done].
  assert (ps_is_closing p0 = false /\ ps_pending_partial_sell p0 = false) as [H1 H2].
  { unfold position_new in E0. destruct (match _ with Some _ => _ | None => _ end); [|done].
    by injection E0 as <-. }
  unfold mbind, outcome_bind. set (p1 := match entry_baseline cfg _ rc with Some _ => _ | None => _ end).
  assert (ps_is_closing p1 = false /\ ps_pending_partial_sell p1 = false) as [H3 H4].
  { subst p1. unfold push_exit_mcap_tick. by repeat case_match. }
  clearbody p1. clear E0 H1 H2 p0.
  destruct (resolve_entry_profile _ _ _ _) as [pr hold].
  unfold push_exit_mcap_tick. intros [= <-].
  split_and!; [done | |]; repeat case_match; cbn; congruence.
Qed.

Lemma quietly_bind_lift A `{!Downward A} {X Y} (o : outcome X) (k : X -> M B P Y) :
  (forall x, o = Ret x -> quietly A (k x)) -> quietly A (lift o ≫= k).
Proof.
  intros H s y s' es. destruct o as [x|]; [|done]. rewrite bind_lift. by apply H.
Qed.

Lemma quietly_open m w a ctx pool v rc now :
  quietly (fresh_at (pos_key m w)) (open_position show_address m w a ctx pool v rc now).
Proof.
  unfold open_position. apply quietly_bind; [apply _ | apply quietly_gets|]. intros cfg.
  apply quietly_bind_lift; [apply _|]. intros pos E.
  apply quietly_bind; [apply _ | apply quietly_live; apply _|]. intros _.
  apply quietly_bind; [apply _ | apply quietly_put; by eapply build_position_fresh|]. intros _.
  apply quietly_bind; [apply _ | apply quietly_refresh_balance; apply _|]. intros _.
  apply quietly_bind; [apply _ | apply quietly_broadcast; apply _|]. intros _.
  by apply quietly_tell.
Qed.

Lemma quietly_buy_result m w a ctx pool md v res now :
  quietly (fresh_at (pos_key m w)) (apply_buy_result show_address to_json m w a ctx pool md v res now).
Proof.
  unfold apply_buy_result. cbv zeta. destruct res as [rc|e].
  - apply quietly_bind; [apply _ | apply quietly_latency; apply _|]. intros _.
    apply quietly_bind; [apply _ | apply quietly_forget; apply _|]. intros _.
    apply quietly_bind; [apply _ | apply quietly_gets|]. intros cfg.
    apply quietly_bind; [apply _ | |].
    + case_match; [apply quietly_abort; apply _ | apply quietly_ret].
    + intros [|]; [apply quietly_ret | apply quietly_open].
  - case_match; [apply quietly_skip_unbuyable; apply _|].
    case_match; [apply quietly_skip_unbuyable; apply _|].
    apply quietly_bind; [apply _ | apply quietly_latency; apply _|]. intros _.
    apply quietly_bind; [apply _ | apply quietly_forget; apply _|]. intros _.
    by apply quietly_tell.
Qed.

Lemma handled_buy_result m w a ctx pool md v res now s s' es :
  known w s ->
  apply_buy_result show_address to_json m w a ctx pool md v res now s = Ret (tt, s', es) ->
  handled (BuyCompleted m w a ctx pool md v res) s s' es.
Proof.
  intros HK H. destruct (quietly_buy_result _ _ _ _ _ _ _ _ _ _ _ _ _ H) as [H1 H2 H3 H4 H5].
  destruct (calm_spawned es H5) as [HF HB]. split; try done.
  - intros k p Hp. destruct (H2 k p Hp) as [(-> & _)|(p0 & Hp0 & _)]; [by right | left; by eexists].
  - intros k p Hp HC. destruct (H2 k p Hp) as [(_ & HN & _)|(p0 & Hp0 & [HB1 _])]; [done|].
    left. exists p0. split_and!; auto.
  - intros k p Hp HC. destruct (H2 k p Hp) as [(_ & _ & HN)|(p0 & Hp0 & [_ HB2])]; [done|].
    left. exists p0. split_and!; auto.
  - intros m' Hm. left. split; [by apply H3 | done].
  - intros m' ts d c Hin. by destruct (HF _ _ _ _ Hin).
  - intros m' w' a' c p md' v' Hin. by destruct (HB _ _ _ _ _ _ _ Hin).
Qed.

(** what a sell of [k] leaves of the position it took *)
Definition released_at (k : PositionKey) (full : bool) pos : Allowed := fun k' pos' =>
  k' = k /\ ps_pending_partial_sell pos' <> true /\
  (full = true -> ps_is_closing pos' <> true) /\
  (ps_is_closing pos' = true -> ps_is_closing pos = true).
#[local] Instance released_at_downward k full pos : Downward (released_at k full pos).
Proof. intros k' p p' (H1 & H2 & H3 & H4) [H5 H6]. unfold released_at. naive_solver. Qed.

Lemma quietly_sell_failed m w md pct reason q e pos now :
  quietly (released_at (pos_key m w) (100 <=? pct)%float pos)
    (sell_failed show_address m w md pct reason q e pos now).
Proof.
  unfold sell_failed. apply quietly_bind; [apply _ | apply quietly_when; by apply quietly_tell|].
  intros _. apply quietly_bind; [apply _ | by apply quietly_tell|]. intros _.
  apply quietly_put. unfold release_position.
  destruct (requires_manual_sell e), (100 <=? pct)%float; cbn; by split_and!.
Qed.

Lemma quietly_sell_confirmed m w md pct reason q r pos now :
  quietly (released_at (pos_key m w) (100 <=? pct)%float pos)
    (sell_confirmed show_address to_json m w md pct reason q r pos now).
Proof.
  unfold sell_confirmed. apply quietly_bind; [apply _ | by apply quietly_tell|]. intros _.
  apply quietly_bind; [apply _ | |].
  - destruct (pct <? 100)%float eqn:E; [|apply quietly_ret]. apply quietly_put.
    split_and!; try done. intros E'. exfalso. f64_order.
  - intros _. apply quietly_bind; [apply _ | apply quietly_refresh_balance; apply _|]. intros _.
    apply quietly_bind; [apply _ | apply quietly_broadcast; apply _|]. intros _.
    apply quietly_when. apply quietly_close; apply _.
Qed.

(** the handler takes the position out and then works on the rest *)
Lemma execute_sell_quiet m w pct reason now s s' es pos :
  known w s -> mg_positions s !! pos_key m w = Some pos ->
  handle_execute_sell show_address to_json m w pct reason now s = Ret (tt, s', es) ->
  quiet (released_at (pos_key m w) (100 <=? pct)%float pos)
    (s <| mg_positions := delete (pos_key m w) (mg_positions s) |>) s' es.
Proof.
  intros [wh HW] HP. unfold handle_execute_sell. cbv zeta. rewrite !bind_gets.
  unfold wallet_get. rewrite HW, HP, bind_modify, bind_gets. intros H.
  match type of H with
  | ?prog _ = _ =>
      enough (quietly (released_at (pos_key m w) (100 <=? pct)%float pos) prog) as HQ
        by exact (HQ _ _ _ _ H)
  end.
  apply quietly_bind; [apply _ | apply quietly_lift|]. intros q.
  apply quietly_bind; [apply _ | apply quietly_wallet_sell; apply _|].
  intros [r|e]; [apply quietly_sell_confirmed | apply quietly_sell_failed].
Qed.

Lemma handled_execute_sell m w pct reason now s s' es :
  (forall k, is_Some (mg_positions s !! k) -> known (pk_wallet_id k) s) ->
  handle_execute_sell show_address to_json m w pct reason now s = Ret (tt, s', es) ->
  handled (ExecuteSell m w pct reason) s s' es.
Proof.
  intros HK H. set (k := pos_key m w) in *.
  assert (mg_positions s !! k = None -> s' = s /\ es = []) as HN.
  { intros HN. revert H. unfold handle_execute_sell. cbv zeta. rewrite !bind_gets. fold k.
    rewrite HN. destruct (wallet_get _ w); by intros [= <- <-]. }
  assert (forall k' p f, mg_positions s !! k' = Some p -> k' <> k ->
            ~ sells f k' (ExecuteSell m w pct reason)) as HO.
  { intros k' p f _ N [-> _]. by apply N. }
  destruct (mg_positions s !! k) as [pos|] eqn:HP.
  - destruct (execute_sell_quiet m w pct reason now s s' es pos) as [H1 H2 H3 H4 H5]; [|done..|].
    { apply (HK k). by eexists. }
    destruct (calm_spawned es H5) as [HF HB]. cbn in H2, H3, H4. fold k in H2. split; try done.
    + intros k' p Hp. destruct (H2 k' p Hp) as [(-> & _)|(p0 & Hp0 & _)].
      * left. by eexists.
      * left. apply lookup_delete_Some in Hp0 as [_ Hp0]. by eexists.
    + intros k' p Hp HC. left. destruct (H2 k' p Hp) as [(-> & _ & HR & HM)|(p0 & Hp0 & [HB1 _])].
      * exists pos. split_and!; [done | auto |]. intros [_ HS]. by apply HR; [apply HS|].
      * apply lookup_delete_Some in Hp0 as [N Hp0]. exists p0. split_and!; auto. by eapply HO.
    + intros k' p Hp HC. left. destruct (H2 k' p Hp) as [(_ & HR & _)|(p0 & Hp0 & [_ HB2])]; [done|].
      apply lookup_delete_Some in Hp0 as [N Hp0]. exists p0. split_and!; auto. by eapply HO.
    + intros m' Hm. left. split; [by apply H3 | done].
    + intros m' ts d c Hin. by destruct (HF _ _ _ _ Hin).
    + intros m' w' a' c p md' v' Hin. by destruct (HB _ _ _ _ _ _ _ Hin).
  - destruct (HN eq_refl) as [-> ->]. split; try done.
    + intros k' p Hp. left. by eexists.
    + intros k' p Hp HC. left. exists p. split_and!; [done..|]. eapply HO; [done | congruence].
    + intros k' p Hp HC. left. exists p. split_and!; [done..|]. eapply HO; [done | congruence].
    + intros m' Hm. by left.
    + by intros m' ts d c Hin%not_elem_of_nil.
    + by intros m' w' a' c p md' v' Hin%not_elem_of_nil.
Qed.

(** ** The tick *)

(** after a tick a flag is as before, or an action of the tick stands for it *)
Definition ticked (l : list (PositionKey * Position P)) (acts : list (PositionKey * SellAction))
    : Allowed := fun k pos' =>
  exists pos, (k, pos) ∈ l /\
    (below pos' pos \/
     exists a, (k, a) ∈ acts /\ (ps_is_closing pos' = true -> sa_percent a = 100%float)).
#[local] Instance ticked_downward l acts : Downward (ticked l acts).
Proof.
  intros k p p' (p0 & Hl & [H|(a & H1 & H2)]) HB; exists p0; (split; [done|]).
  - left. by eapply below_trans.
  - right. exists a. split; [done|]. destruct HB as [HB _]. auto.
Qed.

Lemma ticked_mono l l' acts acts' k p :
  l ⊆ l' -> acts ⊆ acts' -> ticked l acts k p -> ticked l' acts' k p.
Proof.
  intros H1 H2 (p0 & Hl & [H|(a & H3 & H4)]); exists p0; (split; [auto|]); [by left|].
  right. exists a. auto.
Qed.

Lemma quiet_weaken (A A' : Allowed) s s' es :
  (forall k p, A k p -> A' k p) -> quiet A s s' es -> quiet A' s s' es.
Proof.
  intros HA [H1 H2 H3 H4 H5]. split; try done. intros k p Hp.
  destruct (H2 k p Hp); [left; by apply HA | by right].
Qed.

Lemma tick_position_ticked cfg rpc now k pos o :
  tick_position cfg rpc now pos = Ret o ->
  ticked [(k, pos)] (match to_action o with Some a => [(k, a)] | None => [] end) k (to_pos o).
Proof.
  intros H. destruct (ps_is_closing pos) eqn:HC.
  { unfold tick_position in H. rewrite HC in H. injection H as <-. exists pos.
    split; [by left|]. left. apply below_refl. }
  destruct (tick_sell_protocol_step _ _ _ _ _ H HC) as [_ HS]. exists pos. split; [by left|].
  destruct (to_action o) as [a|].
  - right. exists a. split; [by left|]. unfold sell_protocol in HS.
    intros E. rewrite E in HS. by destruct HS.
  - left. unfold sell_state in HS. injection HS as E1 E2 _.
    split; congruence.
Qed.

Lemma process_position_quiet cfg rpc now k pos s acts s' es :
  process_position show_address cfg rpc now (k, pos) s = Ret (acts, s', es) ->
  quiet (ticked [(k, pos)] acts) s s' es.
Proof.
  unfold process_position. intros H.
  destruct (tick_position cfg rpc now pos) as [o|] eqn:E; [|by unfold lift in H].
  rewrite bind_lift in H.
  pose proof (tick_position_ticked cfg rpc now k pos o E) as HT.
  apply bind_inv in H as (u1 & s1 & e1 & e2 & H1 & H & ->).
  apply bind_inv in H as (u2 & s2 & e3 & e4 & H2 & H & ->).
  apply bind_inv in H as (u3 & s3 & e5 & e6 & H3 & H & ->).
  injection H as <- <- <-.
  eapply quiet_trans; [apply _ | by eapply (quietly_put _ k (to_pos o) HT)|].
  eapply quiet_trans; [apply _ | |].
  { revert H2. destruct (to_poll o) as [[]|]; intros H2.
    - by eapply (quietly_tell (ticked _ _) (Spawn (PollTask _ _ _)) I).
    - by eapply (quietly_ret (ticked _ _)). }
  rewrite app_nil_r.
  revert H3. destruct (to_update o) as [[[[[]]]]|]; intros H3.
  - by eapply (quietly_tell (ticked _ _) (Event _) I).
  - by eapply (quietly_ret (ticked _ _)).
Qed.

Lemma process_each_quiet cfg rpc now l : forall s acts s' es,
  process_each show_address cfg rpc now l s = Ret (acts, s', es) -> quiet (ticked l acts) s s' es.
Proof.
  induction l as [|[k pos] l IH]; intros s acts s' es H; cbn [process_each] in H.
  { injection H as <- <- <-. by apply quiet_same. }
  apply bind_inv in H as (a1 & s1 & e1 & e2 & H1 & H & ->).
  apply bind_inv in H as (a2 & s2 & e3 & e4 & H2 & H & ->). injection H as <- <- <-.
  rewrite app_nil_r. eapply quiet_trans; [apply _ | |].
  - eapply quiet_weaken; [|by eapply process_position_quiet]. intros k' p. apply ticked_mono.
    + intros x Hx. apply list_elem_of_singleton in Hx as ->. by left.
    + intros x Hx. apply elem_of_app. by left.
  - eapply quiet_weaken; [|by eapply IH]. intros k' p. apply ticked_mono.
    + intros x Hx. by right.
    + intros x Hx. apply elem_of_app. by right.
Qed.

Lemma schedule_all_spawned acts s u s' es :
  for_each acts schedule_sell s = Ret (u, s', es) -> s' = s /\
  forall k a, (k, a) ∈ acts ->
    ExecuteSell (pk_mint k) (pk_wallet_id k) (sa_percent a) (sa_reason a)
      ∈ omap promised (spawned es).
Proof.
  revert s u s' es. induction acts as [|[k a] acts IH]; intros s u s' es H.
  { injection H as <- <- <-. split; [done|]. by intros k a ?%not_elem_of_nil. }
  cbn [for_each] in H. apply bind_inv in H as (u1 & s1 & e1 & e2 & [= <- <- <-] & H & ->).
  destruct (IH _ _ _ _ H) as [-> HI]. split; [done|]. intros k' a' [[= -> ->]|Hin]%elem_of_cons.
  - by left.
  - right. by apply HI.
Qed.

Lemma handled_tick now instant s s' es :
  handle_tick show_address now instant s = Ret (tt, s', es) -> handled TickMsg s s' es.
Proof.
  unfold handle_tick. rewrite !bind_gets. intros H.
  apply bind_inv in H as (u1 & s1 & e1 & e2 & H1 & H & ->).
  assert (quiet nothing s s1 e1) as Q1.
  { revert H1. apply quietly_when, quietly_for_each; [apply _|]. intros m.
    apply quietly_live_due; apply _. }
  clear H1. unfold process_positions in H. rewrite !bind_gets in H.
  apply bind_inv in H as (acts & s2 & e3 & e4 & H2 & H & ->).
  apply process_each_quiet in H2.
  apply bind_inv in H as (u3 & s3 & e5 & e6 & H3 & H & ->).
  pose proof (quietly_for_each nothing acts schedule_sell (quietly_schedule nothing) _ _ _ _ H3) as Q3.
  apply schedule_all_spawned in H3 as [-> HA]. injection H as <- <-.
  set (s4 := if mg_last_print_time s2 <? now then _ else s2).
  assert (mg_positions s4 = mg_positions s2 /\ mg_pending_mints s4 = mg_pending_mints s2 /\
          mg_closed_mints s4 = mg_closed_mints s2 /\ mg_wallets s4 = mg_wallets s2) as (E1 & E2 & E3 & E4).
  { subst s4. by case_match. }
  rewrite app_nil_r. destruct Q1 as [K1 P1 M1 C1 F1], H2 as [K2 P2 M2 C2 F2], Q3 as [_ _ _ _ F3].
  assert (Forall calm (e1 ++ e3 ++ e5)) as HC by (by repeat apply Forall_app_2).
  destruct (calm_spawned _ HC) as [HF HB].
  assert (forall k p', mg_positions s4 !! k = Some p' ->
    exists pos, mg_positions s !! k = Some pos /\
      (below p' pos \/
       exists a, (k, a) ∈ acts /\ (ps_is_closing p' = true -> sa_percent a = 100%float))) as HP.
  { rewrite E1. intros k p' Hp.
    assert (exists p1, mg_positions s1 !! k = Some p1 /\ (below p' p1 \/
      exists a, (k, a) ∈ acts /\ (ps_is_closing p' = true -> sa_percent a = 100%float)))
      as (p1 & Hp1 & HD).
    { destruct (P2 _ _ Hp) as [(p1 & Hin & HD)|(p1 & Hp1 & HBe)]; exists p1.
      - by apply elem_of_map_to_list in Hin.
      - by split; [|left]. }
    destruct (P1 _ _ Hp1) as [[]|(p0 & Hp0 & HB0)]. exists p0. split; [done|].
    destruct HD as [HD|HD]; [left; by eapply below_trans | by right]. }
  assert (forall k a, (k, a) ∈ acts -> forall full, (full = true -> sa_percent a = 100%float) ->
    sell_among full k (omap promised (spawned (e1 ++ e3 ++ e5)))) as HS.
  { intros k a Hin full Hf. exists (sa_percent a), (sa_reason a). split.
    - unfold spawned. rewrite !omap_app, !elem_of_app. right. right. by apply HA.
    - intros E. by rewrite (Hf E). }
  split.
  - intros w. unfold known. rewrite E4. etrans; [apply K2 | apply K1].
  - intros k p Hp. destruct (HP _ _ Hp) as (p0 & Hp0 & _). left. by eexists.
  - intros k p Hp HCl. destruct (HP _ _ Hp) as (p0 & Hp0 & [[HB1 _]|(a & Hin & HCa)]).
    + left. exists p0. split_and!; auto.
    + right. apply (HS k a Hin). auto.
  - intros k p Hp HPa. destruct (HP _ _ Hp) as (p0 & Hp0 & [[_ HB2]|(a & Hin & HCa)]).
    + left. exists p0. split_and!; auto.
    + right. by apply (HS k a Hin).
  - intros m Hm. left. split; [|done]. apply M1, M2. by rewrite <- E2.
  - rewrite E3. by etrans.
  - intros m ts d ctx Hin. by destruct (HF _ _ _ _ Hin).
  - intros m w a ctx p md v Hin. by destruct (HB _ _ _ _ _ _ _ Hin).
Qed.

(** ** One message, any message *)

(** a completed buy names a wallet of the registry *)
Definition buy_known s msg : Prop :=
  match msg with BuyCompleted _ w _ _ _ _ _ _ => known w s | _ => True end.
Definition task_known s t : Prop :=
  match t with BuyTask _ w _ _ _ _ _ => known w s | _ => True end.

Lemma handle_handled now instant msg s s' es :
  (forall k, is_Some (mg_positions s !! k) -> known (pk_wallet_id k) s) -> buy_known s msg ->
  handle show_address to_json boxed now instant msg s = Ret (tt, s', es) -> handled msg s s' es.
Proof.
  intros HK HB H. assert (quietly nothing (handle show_address to_json boxed now instant msg) ->
    (forall k, ~ sells false k msg) -> (forall m, msg <> ClearPendingMint m) -> handled msg s s' es) as HQ.
  { intros Q. apply handled_quiet. by eapply Q. }
  destruct msg; cbn [handle] in H.
  - apply HQ; [apply quietly_update_pool; apply _ | by intros k [] | done].
  - apply HQ; [apply quietly_update_bucket; apply _ | by intros k [] | done].
  - apply HQ; [apply quietly_apply_live; apply _ | by intros k [] | done].
  - apply HQ; [apply quietly_set_paused; apply _ | by intros k [] | done].
  - by eapply handled_initiate.
  - by apply handled_clear.
  - by apply handled_execute_buy.
  - by eapply handled_buy_result.
  - apply HQ; [|by intros k [] | done].
    apply quietly_bind; [apply _ | apply quietly_gets|]. intros snap. by apply quietly_tell.
  - by eapply handled_execute_sell.
  - apply HQ; [apply quietly_get_pnl; apply _ | by intros k [] | done].
  - apply HQ; [apply quietly_get_open; apply _ | by intros k [] | done].
  - apply HQ; [apply quietly_abandon; apply _ | by intros k [] | done].
  - by eapply handled_tick.
  - apply HQ; [apply quietly_exit_mcap; apply _ | by intros k [] | done].
Qed.

(** ** The invariant of the system *)

(** the messages already queued and the ones running tasks will send *)
Definition due S : list (PositionMessage P) := sy_inbox S ++ omap promised (sy_tasks S).

Record system_ok S : Prop := {
  so_known : forall k, is_Some (mg_positions (sy_mgr S) !! k) -> known (pk_wallet_id k) (sy_mgr S);
  so_closing : forall k pos, mg_positions (sy_mgr S) !! k = Some pos -> ps_is_closing pos = true ->
    sell_among true k (due S);
  so_partial : forall k pos, mg_positions (sy_mgr S) !! k = Some pos ->
    ps_pending_partial_sell pos = true -> sell_among false k (due S);
  so_pending : forall m, m ∈ mg_pending_mints (sy_mgr S) -> ClearPendingMint m ∈ due S;
  so_buys : Forall (buy_known (sy_mgr S)) (sy_inbox S);
  so_tasks : Forall (task_known (sy_mgr S)) (sy_tasks S)
}.

Lemma sell_among_mono full k l l' :
  (forall msg, sells full k msg -> msg ∈ l -> msg ∈ l') -> sell_among full k l -> sell_among full k l'.
Proof.
  intros H (pct & reason & Hin & Hf). exists pct, reason. split; [|done]. apply H; [|done].
  split; [by destruct k | done].
Qed.

(** the manager's positions and pending mints stay, nothing due is lost *)
Lemma system_ok_env S S' :
  system_ok S ->
  mg_positions (sy_mgr S') = mg_positions (sy_mgr S) ->
  mg_pending_mints (sy_mgr S') = mg_pending_mints (sy_mgr S) ->
  (forall w, known w (sy_mgr S) -> known w (sy_mgr S')) ->
  (forall msg, msg ∈ due S -> msg ∈ due S') ->
  (forall msg, msg ∈ sy_inbox S' -> msg ∈ sy_inbox S \/ buy_known (sy_mgr S') msg) ->
  (forall t, t ∈ sy_tasks S' -> t ∈ sy_tasks S \/ task_known (sy_mgr S') t) ->
  system_ok S'.
Proof.
  intros [H1 H2 H3 H4 H5 H6] EP EM EK ED EI ET. split.
  - intros k. rewrite EP. intros Hk. by apply EK, H1.
  - rewrite EP. intros k pos Hp HC. eapply sell_among_mono; [|by eapply H2]. auto.
  - rewrite EP. intros k pos Hp HC. eapply sell_among_mono; [|by eapply H3]. auto.
  - rewrite EM. auto.
  - apply Forall_forall. intros msg Hm. destruct (EI _ Hm) as [Hi|]; [|done].
    rewrite Forall_forall in H5. specialize (H5 _ Hi). destruct msg; try done. by apply EK.
  - apply Forall_forall. intros t Ht. destruct (ET _ Ht) as [Hi|]; [|done].
    rewrite Forall_forall in H6. specialize (H6 _ Hi). destruct t; try done. by apply EK.
Qed.

Lemma system_ok_deliver now instant msg inbox s tasks s' es :
  handle show_address to_json boxed now instant msg s = Ret (tt, s', es) ->
  system_ok (mkSystem s (msg :: inbox) tasks) ->
  system_ok (mkSystem s' inbox (tasks ++ spawned es)).
Proof.
  intros H [H1 H2 H3 H4 H5 H6]. cbn in *. apply Forall_cons in H5 as [H5 H5'].
  destruct (handle_handled now instant msg s s' es H1 H5 H) as [K1 K2 K3 K4 K5 K6 K7 K8].
  assert (forall m', m' ∈ due (mkSystem s (msg :: inbox) tasks) -> m' <> msg ->
            m' ∈ due (mkSystem s' inbox (tasks ++ spawned es))) as HD.
  { intros m' Hm N. unfold due in *. cbn in *. rewrite omap_app, !elem_of_app.
    apply elem_of_cons in Hm as [->|Hm]; [done|]. apply elem_of_app in Hm. tauto. }
  assert (forall m', m' ∈ omap promised (spawned es) ->
            m' ∈ due (mkSystem s' inbox (tasks ++ spawned es))) as HN.
  { intros m' Hm. unfold due. cbn. rewrite omap_app, !elem_of_app. auto. }
  split; cbn.
  - intros k [p Hp]. apply K1. destruct (K2 k p Hp) as [Hs|]; [by apply H1 | done].
  - intros k p Hp HC. destruct (K3 k p Hp HC) as [(p0 & Hp0 & HC0 & HS)|HS].
    + eapply sell_among_mono; [|by eapply H2]. intros m' Hs Hin. apply HD; [done|]. by intros ->.
    + eapply sell_among_mono; [|exact HS]. auto.
  - intros k p Hp HC. destruct (K4 k p Hp HC) as [(p0 & Hp0 & HC0 & HS)|HS].
    + eapply sell_among_mono; [|by eapply H3]. intros m' Hs Hin. apply HD; [done|]. by intros ->.
    + eapply sell_among_mono; [|exact HS]. auto.
  - intros m Hm. destruct (K5 m Hm) as [[Hp N]|]; [|by apply HN]. apply HD; [by apply H4 | done].
  - eapply Forall_impl; [exact H5'|]. intros [] Hb; try done. by apply K1.
  - apply Forall_app_2.
    + eapply Forall_impl; [exact H6|]. intros [] Hb; try done. by apply K1.
    + apply Forall_forall. intros [] Ht; try done. apply K1. by eapply K8.
Qed.

Lemma task_step_facts r t out rest r' :
  task_step r t out rest r' ->
  (forall w, is_Some (wr_by_id r' !! w) <-> is_Some (wr_by_id r !! w)) /\
  (forall msg, promised t = Some msg ->
     out = Some msg \/ exists t', rest = Some t' /\ promised t' = Some msg) /\
  (forall m w a ctx p md v res, out = Some (BuyCompleted m w a ctx p md v res) ->
     is_Some (wr_by_id r !! w)) /\
  (forall t', rest = Some t' -> exists m ts ts' d ctx,
     t' = FanOut m ts' d ctx /\ t = FanOut m ts d ctx).
Proof.
  intros []; (split; [intros i; try done; apply known_update|]); split_and!; intros; simplify_eq/=;
    try done; eauto 10.
  match goal with E : BuyCompleted _ _ _ _ _ _ _ _ = _ |- _ => inversion E; subst; by eexists end.
Qed.

Lemma sys_step_ok S S' : sys_step S S' -> system_ok S -> system_ok S'.
Proof.
  intros [now instant msg inbox s tasks s' es H|msg s inbox tasks HE|s inbox l1 t l2 out rest r HT
         |s inbox tasks op] HS.
  - by eapply system_ok_deliver.
  - apply (system_ok_env _ _ HS); cbn; try done.
    + unfold due. cbn. intros m Hm. rewrite !elem_of_app in *. tauto.
    + intros m [Hm|Hm%list_elem_of_singleton]%elem_of_app; [by left|]. right. subst m. by destruct msg.
    + auto.
  - destruct (task_step_facts _ _ _ _ _ HT) as (HK & HP & HB & HR).
    apply (system_ok_env _ _ HS); cbn; try done.
    + intros w. apply HK.
    + unfold due. cbn. intros m. rewrite !omap_app, !elem_of_app. cbn [omap list_omap].
      destruct (promised t) as [m'|] eqn:Et; [|tauto]. rewrite elem_of_cons.
      intros [?|[?|[->|?]]]; try tauto. destruct (HP m' eq_refl) as [->|(t' & -> & Et')].
      * left. right. by left.
      * right. right. left. cbn. rewrite Et'. by left.
    + intros m [Hm|Hm]%elem_of_app; [by left|]. right. destruct out as [m'|]; [|by apply not_elem_of_nil in Hm].
      apply list_elem_of_singleton in Hm as ->. destruct m'; try done. unfold known. cbn.
      apply HK. by eapply HB.
    + intros t' Ht. rewrite !elem_of_app in Ht. destruct Ht as [Ht|[Ht|Ht]].
      * left. rewrite elem_of_app. by left.
      * right. destruct rest as [t''|]; [|by apply not_elem_of_nil in Ht].
        apply list_elem_of_singleton in Ht as ->.
        by destruct (HR _ eq_refl) as (m & ts & ts' & d & ctx & -> & _).
      * left. rewrite elem_of_app, elem_of_cons. tauto.
  - apply (system_ok_env _ _ HS); cbn; auto. intros w. apply known_wallet_op.
Qed.

Lemma reachable_ok s S :
  mg_positions s = ∅ -> mg_pending_mints s = ∅ -> rtc sys_step (boot s) S -> system_ok S.
Proof.
  intros E1 E2 H. assert (system_ok (boot s)) as H0.
  { split; cbn; try rewrite E1; try rewrite E2; try done.
    - intros k Hk. by rewrite lookup_empty, is_Some_alt in Hk. }
  revert H0. induction H as [|S1 S2 S3 HS _ IH]; [done|]. intros H1. apply IH. by eapply sys_step_ok.
Qed.

(** a fan-out of a closed mint is older than the closing *)
Lemma no_reentry_step S S' m :
  system_ok S -> sys_step S S' -> m ∈ mg_closed_mints (sy_mgr S) ->
  m ∈ mg_closed_mints (sy_mgr S') /\
  forall ts' d ctx, FanOut m ts' d ctx ∈ sy_tasks S' ->
    exists ts, FanOut m ts d ctx ∈ sy_tasks S.
Proof.
  intros HS HStep HM. revert HS HM.
  destruct HStep as [now instant msg inbox s tasks s' es H|msg s inbox tasks HE
    |s inbox l1 t l2 out rest r HT|s inbox tasks op]; intros HS HM; cbn in *; try (split; [done | by eauto]).
  - destruct HS as [H1 _ _ _ H5 _]. cbn in *. apply Forall_cons in H5 as [H5 _].
    destruct (handle_handled now instant msg s s' es H1 H5 H) as [_ _ _ _ _ K6 K7 _].
    split; [by apply K6|]. intros ts' d ctx [Hin|Hin]%elem_of_app; [by eauto|].
    by destruct (K7 _ _ _ _ Hin).
  - split; [done|]. destruct (task_step_facts _ _ _ _ _ HT) as (_ & _ & _ & HR).
    intros ts' d ctx Hin. rewrite !elem_of_app in Hin. destruct Hin as [Hin|[Hin|Hin]].
    + exists ts'. rewrite elem_of_app. by left.
    + destruct rest as [t'|]; [|by apply not_elem_of_nil in Hin].
      apply list_elem_of_singleton in Hin. subst t'.
      destruct (HR _ eq_refl) as (m0 & ts & ts0 & d0 & ctx0 & [= -> -> -> ->] & ->).
      exists ts. rewrite elem_of_app, elem_of_cons. auto.
    + exists ts'. rewrite elem_of_app, elem_of_cons. auto.
Qed.
End System.
