(* ===== verification/Runs.v ===== *)
(** Theorems about every run of the manager, and the contract of its two entry
    points: the buy signal and the sell. *)
From S2P Require Import Prelude Text Amounts Pump Swarm Features Config Strategy Registry.
From S2P Require Import Learning LivePosition ExitEngine Positions Tick Blacklist Brokers Wallets.
From S2P Require Import Messages Manager System.

Section Runs.
Context {B P : Type} `{!Pool P, !Broker B P}.
Context (show_address : Address -> string) (to_json : V3TapeWire -> string).
Context (boxed : PumpPool Bonding -> P).
Implicit Types (s : Manager B P) (S : System B P) (pos : Position P).

Local Abbreviation step := (sys_step show_address to_json boxed).

(** the position [pos] under [k] is served: its wallet is known, and what its
    flags wait for is queued or scheduled *)
Definition served S (k : PositionKey) (pos : Position P) : Prop :=
  known (pk_wallet_id k) (sy_mgr S) /\
  (ps_is_closing pos = true -> sell_among true k (due S)) /\
  (ps_pending_partial_sell pos = true -> sell_among false k (due S)).

(** the fan-outs of buys for [m] in [S'] were already running in [S] *)
Definition no_new_fanout (m : Address) S S' : Prop :=
  forall ts' d ctx, FanOut m ts' d ctx ∈ sy_tasks S' -> exists ts, FanOut m ts d ctx ∈ sy_tasks S.

(** C10: No sell and no signal is ever stuck: in every state a run from boot
    reaches, whatever the interleaving, the answers of the chain and the tasks
    that crash, a position marked as closing has a sell of 100% queued or
    scheduled, a position whose partial slot is taken has a sell queued or
    scheduled, both for a wallet the registry knows, and a pending mint has the
    message that clears it queued or coming. *)
Theorem sells_never_stuck s S :
  mg_positions s = ∅ -> mg_pending_mints s = ∅ -> rtc step (boot s) S ->
  (forall k pos, mg_positions (sy_mgr S) !! k = Some pos -> served S k pos) /\
  (forall m, m ∈ mg_pending_mints (sy_mgr S) -> ClearPendingMint m ∈ due S).
Proof.
  intros E1 E2 H. destruct (reachable_ok show_address to_json boxed s S E1 E2 H) as [H1 H2 H3 H4 _ _].
  split; [|done]. intros k pos Hp. unfold served. split_and!; [by apply H1; eexists | by apply H2 | by apply H3].
Qed.

(** C11: A closed mint is not re-entered: along any run, once a mint is among
    the closed mints it stays there, and no new fan-out of buys for it ever
    starts: every later one was already running at that moment. *)
Theorem no_reentry s S S' m :
  mg_positions s = ∅ -> mg_pending_mints s = ∅ -> rtc step (boot s) S -> rtc step S S' ->
  m ∈ mg_closed_mints (sy_mgr S) ->
  m ∈ mg_closed_mints (sy_mgr S') /\ no_new_fanout m S S'.
Proof.
  intros E1 E2 H H' HM. unfold no_new_fanout. pose proof (reachable_ok show_address to_json boxed s S E1 E2 H) as HS.
  clear H. induction H' as [S|S S1 S2 H1 _ IH]; [by eauto|].
  destruct (no_reentry_step _ _ _ _ _ _ HS H1 HM) as [HM1 HF].
  destruct (IH HM1 (sys_step_ok _ _ _ _ _ H1 HS)) as [HM2 HF2]. split; [done|].
  intros ts' d ctx Hin. destruct (HF2 _ _ _ Hin) as [ts Hts]. by eapply HF.
Qed.

(** ** The gate of a signal *)

(** what a buy signal must pass *)
Definition buy_gates (m : Address) (now : Z) s : Prop :=
  mg_paused s = false /\
  (forall k, is_Some (mg_positions s !! k) -> pk_mint k <> m) /\
  m ∉ mg_pending_mints s /\ m ∉ mg_closed_mints s /\
  (cq_enabled (mg_curve_quarantine_cfg s) = true ->
     forall expiry, mg_curve_quarantine s !! m = Some expiry -> expiry <= now) /\
  (can_open (unique_open_mints s) now (mg_strategy s)).1 = Allow.

Lemma any_position_false m s :
  any_position_for_mint m s = false <-> forall k, is_Some (mg_positions s !! k) -> pk_mint k <> m.
Proof.
  unfold any_position_for_mint, position_keys. split.
  - intros H k [pos Hp] E. apply not_true_iff_false in H. apply H, existsb_exists.
    exists k. split; [|by apply bool_decide_eq_true].
    rewrite <- list_elem_of_In, list_elem_of_fmap. exists (k, pos).
    split; [done | by apply elem_of_map_to_list].
  - intros H. apply not_true_iff_false. intros (k & Hk & E)%existsb_exists.
    rewrite <- list_elem_of_In, list_elem_of_fmap in Hk. destruct Hk as ([k' pos] & -> & Hp).
    apply elem_of_map_to_list in Hp. apply bool_decide_eq_true in E.
    apply (H k'); [by eexists | done].
Qed.

Lemma taken_false m s :
  mint_is_taken m s = false <->
  (forall k, is_Some (mg_positions s !! k) -> pk_mint k <> m) /\
  m ∉ mg_pending_mints s /\ m ∉ mg_closed_mints s.
Proof.
  unfold mint_is_taken. rewrite !orb_false_iff, !bool_decide_eq_false, any_position_false. tauto.
Qed.

Lemma pruned_active m now q :
  quarantine_is_active m now (quarantine_prune now q) = false <->
  forall expiry, q !! m = Some expiry -> expiry <= now.
Proof.
  unfold quarantine_is_active, quarantine_prune, CurveQuarantineCache in *.
  rewrite map_lookup_filter. destruct (q !! m) as [e|]; cbn; [|done].
  destruct (decide (now < e)) as [L|L].
  - rewrite option_guard_True by done. cbn. split; [intros H; lia|].
    intros H. specialize (H e eq_refl). lia.
  - rewrite option_guard_False by done. cbn. split; [intros _ e' [= <-]; lia | done].
Qed.

Lemma run_log_skipped m dev st re pl ts s :
  exists es, log_skipped (P := P) show_address m dev st re pl ts s = Ret (tt, s, es) /\ spawned es = [].
Proof.
  unfold log_skipped. rewrite bind_gets. destruct (mg_learning s); cbn; eexists; by split.
Qed.

Lemma run_start_fanout pool a tier ctx now s :
  exists s' es, start_fanout pool a tier ctx now s = Ret (tt, s', es).
Proof.
  unfold start_fanout. cbv zeta. rewrite !bind_modify, bind_gets.
  destruct (fanout_targets _ _ _); [by eexists _, _|]. rewrite bind_modify.
  unfold latency, mbind, M_bind, gets, when, tell.
  match goal with |- context [if ?b then _ else _] => destruct b end; by eexists _, _.
Qed.

(** C12: A buy signal is accepted exactly when every gate is open: trading is
    not paused, no wallet holds the mint, it is neither pending nor closed nor
    under an active curve quarantine, the strategy allows one more mint, and
    some wallet is enabled.  An accepted signal counts one trade, marks the mint
    as pending and starts one fan-out with the amount of each enabled wallet; a
    rejected one starts nothing and leaves the pending mints as they were.  The
    handler never panics and never touches a position. *)
Theorem initiate_buy_gate pool amount tier ctx now s :
  exists s' es, handle_initiate_buy show_address pool amount tier ctx now s = Ret (tt, s', es) /\
  mg_positions s' = mg_positions s /\ mg_closed_mints s' = mg_closed_mints s /\
  ((buy_gates (mint pool) now s /\ fanout_targets amount tier s <> [] /\
    spawned es = [FanOut (mint pool) (fanout_targets amount tier s)
                    (sb_buy_fanout_delay_ms (mg_config s)) ctx] /\
    mg_pending_mints s' = {[mint pool]} ∪ mg_pending_mints s /\
    mg_strategy s' =
      note_position_opened now (can_open (unique_open_mints s) now (mg_strategy s)).2) \/
   (~ (buy_gates (mint pool) now s /\ fanout_targets amount tier s <> []) /\
    spawned es = [] /\ mg_pending_mints s' ≡ mg_pending_mints s)).
Proof.
  unfold handle_initiate_buy. cbv zeta. rewrite !bind_gets.
  assert (forall (Q : Manager B P -> list (Effect P) -> Prop) s0, (buy_gates (mint pool) now s -> False) -> mg_positions s0 = mg_positions s ->
    mg_closed_mints s0 = mg_closed_mints s -> mg_pending_mints s0 = mg_pending_mints s ->
    exists s' es, (mret tt : M B P unit) s0 = Ret (tt, s', es) /\
      mg_positions s' = mg_positions s /\ mg_closed_mints s' = mg_closed_mints s /\
      (Q s' es \/ (~ (buy_gates (mint pool) now s /\ fanout_targets amount tier s <> []) /\
        spawned es = [] /\ mg_pending_mints s' ≡ mg_pending_mints s))) as HN.
  { intros Q s0 Hg E1 E2 E3. exists s0, []. split_and!; [done..|]. right. rewrite E3. by split_and!; [tauto|..]. }
  destruct (mg_paused s) eqn:EP.
  { apply HN; try done. intros (E & _). congruence. }
  rewrite bind_gets. destruct (mint_is_taken (mint pool) s) eqn:ET.
  { apply HN; try done. intros (_ & G2 & G3 & G4 & _). apply not_false_iff_true in ET. apply ET.
    by apply taken_false. }
  rewrite bind_modify, bind_gets. set (s1 := s <| mg_curve_quarantine := _ |>).
  change (mg_curve_quarantine_cfg s1) with (mg_curve_quarantine_cfg s).
  change (mg_curve_quarantine s1) with (quarantine_prune now (mg_curve_quarantine s)).
  destruct (cq_enabled (mg_curve_quarantine_cfg s)
            && quarantine_is_active (mint pool) now (quarantine_prune now (mg_curve_quarantine s))) eqn:EQ.
  { apply HN; try done. intros (_ & _ & _ & _ & G5 & _). apply andb_true_iff in EQ as [Q1 Q2].
    apply (pruned_active (mint pool) now) in G5; [|done]. congruence. }
  rewrite !bind_gets, bind_modify.
  change (unique_open_mints s1) with (unique_open_mints s). change (mg_strategy s1) with (mg_strategy s).
  set (d := can_open (unique_open_mints s) now (mg_strategy s)).
  set (s2 := s1 <| mg_strategy := d.2 |>).
  assert (d.1 = Allow -> buy_gates (mint pool) now s) as HG.
  { intros Ed. apply taken_false in ET as (G2 & G3 & G4). split_and!; try done.
    intros Q. rewrite Q in EQ. by apply pruned_active. }
  assert (d.1 = Allow \/ d.1 <> Allow) as [Ed|Nd] by (destruct d.1; auto).
  - rewrite Ed. destruct (run_start_fanout pool amount tier ctx now s2) as (s' & es & HR).
    destruct (start_fanout_inv _ _ _ _ _ _ _ _ HR) as (_ & EP' & EC' & HM).
    exists s', es. split_and!; [done..|].
    change (fanout_targets amount tier s2) with (fanout_targets amount tier s) in HM.
    destruct (fanout_targets amount tier s) as [|x l].
    + right. destruct HM as [-> E]. rewrite E. split; [tauto|]. split; [done|].
      destruct (HG Ed) as (_ & _ & G3 & _). cbn. set_solver.
    + left. destruct HM as (E1 & E2 & E3). by split_and!; [apply HG | ..].
  - destruct (run_log_skipped (mint pool) (bc_dev_address ctx) "strategy_gate"
      (buy_decision_debug d.1) [("tier_sol"%string, JNum amount)] now s2) as (es & HR & HS).
    exists s2, es. split.
    { destruct d.1; try done; exact HR. }
    split_and!; [done..|]. right. split_and!; [|done..]. by intros [(_ & _ & _ & _ & _ & G) _].
Qed.

(** ** The contract of a sell *)

(** outside the wallets and the published balance *)
Definition money_only s s' : Prop :=
  exists r b, s' = s <| mg_wallets := r |> <| mg_balance_state := b |>.

Lemma run_for_tell {X} (l : list X) (f : X -> Effect P) s :
  for_each l (fun x => tell (f x)) s = Ret (tt, s, f <$> l).
Proof.
  induction l as [|x l IH]; [done|]. cbn [for_each]. unfold mbind, M_bind, tell at 1.
  by rewrite IH.
Qed.

Lemma run_broadcast s : exists s' es,
  broadcast_wallet_balances s = Ret (tt, s', es) /\ money_only s s'.
Proof.
  unfold broadcast_wallet_balances. rewrite bind_modify, bind_gets.
  unfold mbind, M_bind. rewrite run_for_tell. unfold gets, tell. eexists _, _. split; [done|].
  by exists (mg_wallets s), (total_balance_sol (mg_wallets s)).
Qed.

Lemma run_refresh_balance w s : exists s',
  refresh_cached_balance w s = Ret (tt, s', []) /\ money_only s s'.
Proof.
  assert (money_only s s) as H0 by (exists (mg_wallets s), (mg_balance_state s); by destruct s).
  unfold refresh_cached_balance. rewrite bind_gets. destruct (wallet_get _ w) as [wh|]; [|by exists s].
  destruct (broker_balance_sol _) as [bal|]; [|by exists s]. eexists. split; [done|].
  by exists (wallet_update (mg_wallets s) w (fun w => w <| wh_balance := bal |>)), (mg_balance_state s).
Qed.

Lemma money_trans s1 s2 s3 : money_only s1 s2 -> money_only s2 s3 -> money_only s1 s3.
Proof. intros (r & b & ->) (r' & b' & ->). by exists r', b'. Qed.

(** balances first: they panic nowhere and touch no position *)
Lemma run_balances w (k : M B P unit) s : exists s1 e1, money_only s s1 /\
  (refresh_cached_balance w ;; broadcast_wallet_balances ;; k) s =
    match k s1 with Ret (u, s', e) => Ret (u, s', e1 ++ e) | Panic p => Panic p end.
Proof.
  destruct (run_refresh_balance w s) as (s1 & H1 & M1).
  destruct (run_broadcast s1) as (s2 & e2 & H2 & M2).
  exists s2, e2. split; [by eapply money_trans|].
  unfold mbind, M_bind. rewrite H1, H2. by destruct (k s2) as [[[]]|].
Qed.

(** a step that only emits effects, before a continuation that emits [e] *)
Lemma emit_then (m : M B P unit) (k : M B P unit) (e : Effect P) s s' :
  (forall s0, exists es, m s0 = Ret (tt, s0, es)) ->
  (exists es, k s = Ret (tt, s', es) /\ e ∈ es) ->
  exists es, (m ;; k) s = Ret (tt, s', es) /\ e ∈ es.
Proof.
  intros Hm (es & Hk & He). destruct (Hm s) as [es0 E]. exists (es0 ++ es).
  unfold mbind, M_bind. rewrite E, Hk. split; [done|]. apply elem_of_app. by right.
Qed.

Lemma emits_match {X} (o : option X) (f : X -> Effect P) s0 : exists es,
  (match o with Some x => tell (f x) | None => mret tt end : M B P unit) s0 = Ret (tt, s0, es).
Proof. destruct o; by eexists. Qed.

(** the state after the position [pos] of [m] has been closed *)
Lemma run_close m w reason q pos now s : exists s' es,
  close_position show_address to_json m w reason q pos now s = Ret (tt, s', es) /\
  mg_positions s' = mg_positions s /\
  mg_strategy s' = note_position_closed (close_pnl pos q).1 now (mg_strategy s) /\
  mg_closed_mints s' = mg_closed_mints (maybe_finalize_closed_mint m s) /\
  Notify (SaveBotTrade (close_row show_address to_json m w reason (close_pnl pos q).2 q pos now)
            (mg_post_exit_rpc s)) ∈ es.
Proof.
  unfold close_position. rewrite bind_modify. destruct (close_pnl pos q) as [pnl_sol pnl_pct].
  rewrite !bind_modify, bind_gets. set (s1 := close_quarantine _ _ _ _ _ _).
  assert (mg_positions s1 = mg_positions s /\
    mg_strategy s1 = note_position_closed pnl_sol now (mg_strategy s) /\
    mg_closed_mints s1 = mg_closed_mints (maybe_finalize_closed_mint m s) /\
    mg_post_exit_rpc s1 = mg_post_exit_rpc s) as (E1 & E2 & E3 & <-).
  { subst s1. unfold close_quarantine, maybe_finalize_closed_mint. by repeat case_match. }
  clearbody s1. exists s1.
  enough (exists es, _ = Ret (tt, s1, es) /\ _ ∈ es) as (es & HR & He)
    by (exists es; split_and!; [exact HR | done..| exact He]).
  apply emit_then; [apply emits_match|]. rewrite bind_gets.
  apply emit_then; [intros s0; destruct (ps_dev_address pos), (mg_dev_ranker s1); by eexists|].
  rewrite bind_gets.
  apply emit_then; [intros s0; destruct (ps_early_buyers pos), (mg_smart_money s1); by eexists|].
  rewrite bind_gets.
  apply emit_then; [intros s0; destruct (mg_learning s1), (ps_learning_snapshot pos); by eexists|].
  apply emit_then; [intros s0; by eexists|]. rewrite bind_gets. eexists. split; [reflexivity | by left].
Qed.

Lemma finalize_closed m s x :
  x ∈ mg_closed_mints (maybe_finalize_closed_mint m s) <->
  x ∈ mg_closed_mints s \/ x = m /\ forall k, is_Some (mg_positions s !! k) -> pk_mint k <> m.
Proof.
  unfold maybe_finalize_closed_mint.
  destruct (any_position_for_mint m s) eqn:E; cbn [negb].
  - split; [by left|]. intros [|[-> H]]; [done|]. apply any_position_false in H. congruence.
  - pose proof (proj1 (any_position_false m s) E) as EA. change (mg_closed_mints (_ <| mg_pool_cache := _ |>))
      with ({[m]} ∪ mg_closed_mints s). rewrite elem_of_union, elem_of_singleton. tauto.
Qed.

Lemma bind_tell (e : Effect P) (k : M B P unit) s :
  (tell e ;; k) s =
    match k s with Ret (u, s', es) => Ret (u, s', e :: es) | Panic p => Panic p end.
Proof. unfold mbind, M_bind, tell. by destruct (k s) as [[[]]|]. Qed.
Lemma bind_ret (k : M B P unit) s : (mret tt ;; k) s = k s.
Proof. unfold mbind, M_bind, mret, M_ret. by destruct (k s) as [[[]]|]. Qed.

Lemma run_sell_failed m w md pct reason q e pos now s : exists es,
  sell_failed show_address m w md pct reason q e pos now s =
    Ret (tt, s <| mg_positions := <[pos_key m w := release_position pct e pos]> (mg_positions s) |>, es).
Proof.
  unfold sell_failed, when, mbind, M_bind, tell, put_position, modify, mret, M_ret.
  destruct (requires_manual_sell e); by eexists.
Qed.

(** what a confirmed sell of [k] does to the manager *)
Definition sell_booked m w pct reason q (r : SellReceipt) pos now s s'
    (es : list (Effect P)) : Prop :=
  let pos' := pos <| ps_total_returned := (ps_total_returned pos + sr_sol_received_actual r)%float |> in
  let k := pos_key m w in
  if (100 <=? pct)%float then
    mg_positions s' = delete k (mg_positions s) /\
    mg_strategy s' = note_position_closed (close_pnl pos' q).1 now (mg_strategy s) /\
    (forall x, x ∈ mg_closed_mints s' <-> x ∈ mg_closed_mints s \/
       x = m /\ forall k', is_Some (mg_positions s !! k') -> k' <> k -> pk_mint k' <> m) /\
    Notify (SaveBotTrade (close_row show_address to_json m w reason (close_pnl pos' q).2 q pos' now)
              (mg_post_exit_rpc s)) ∈ es
  else
    mg_positions s' = <[k := keep_rest q pos']> (mg_positions s) /\
    mg_strategy s' = mg_strategy s /\ mg_closed_mints s' = mg_closed_mints s.

Lemma run_sell_confirmed m w md pct reason q r pos now s s0 :
  PrimFloat.is_nan pct = false ->
  mg_positions s0 = delete (pos_key m w) (mg_positions s) -> mg_strategy s0 = mg_strategy s ->
  mg_closed_mints s0 = mg_closed_mints s -> mg_post_exit_rpc s0 = mg_post_exit_rpc s ->
  exists s' es, sell_confirmed show_address to_json m w md pct reason q r pos now s0 = Ret (tt, s', es) /\
    sell_booked m w pct reason q r pos now s s' es.
Proof.
  intros HN E1 E2 E3 E4. unfold sell_confirmed, sell_booked. cbv zeta.
  set (p' := pos <| ps_total_returned := _ |>). set (ev := Event (WsTxEvent _)).
  rewrite bind_tell. destruct (100 <=? pct)%float eqn:EF.
  - assert ((pct <? 100)%float = false) as -> by f64_order. unfold when.
    rewrite bind_ret.
    match goal with |- context [(refresh_cached_balance w ;; broadcast_wallet_balances ;; ?k) s0] =>
      destruct (run_balances w k s0) as (s1 & e1 & (rg & bl & ->) & ->) end.
    set (s1 := s0 <| mg_wallets := rg |> <| mg_balance_state := bl |>).
    destruct (run_close m w reason q p' now s1) as (s2 & e2 & -> & F1 & F2 & F3 & F4).
    eexists _, _. split; [reflexivity|]. split_and!.
    + rewrite F1. exact E1.
    + rewrite F2. by change (mg_strategy s1) with (mg_strategy s0); rewrite E2.
    + intros x. rewrite F3, finalize_closed. change (mg_closed_mints s1) with (mg_closed_mints s0).
      change (mg_positions s1) with (mg_positions s0). rewrite E1, E3.
      split; (intros [|[-> H]]; [by left|]; right; split; [done|]); intros k'.
      * intros Hk N. apply H. by rewrite lookup_delete_ne.
      * intros [p Hp]. apply lookup_delete_Some in Hp as [N Hp]. apply H; [by eexists | done].
    + apply elem_of_cons. right. apply elem_of_app. right. rewrite <- E4. exact F4.
  - assert ((pct <? 100)%float = true) as -> by f64_order. unfold when, put_position.
    rewrite bind_modify. set (s1 := s0 <| mg_positions := _ |>).
    match goal with |- context [(refresh_cached_balance w ;; broadcast_wallet_balances ;; ?k) s1] =>
      destruct (run_balances w k s1) as (s2 & e1 & (rg & bl & ->) & ->) end.
    eexists _, _. split; [reflexivity|]. cbn. rewrite E1, E2, E3.
    by split_and!; [rewrite insert_delete_eq | ..].
Qed.

(** C13: A sell settles the position it was for and no other.  If the broker
    fails, the position is back with its holdings and records, its partial slot
    free and, when the sell was a full one or needs a human, its closing flag
    lowered, so that a later tick can sell again; neither the risk limits nor
    the closed mints move.  If the broker succeeds the SOL received is booked:
    a full sell removes the position, reports the PnL of its whole life to the
    strategy, stores the trade, and closes the mint exactly when no other wallet
    holds it; a partial one keeps the rest and frees the slot. *)
Theorem execute_sell_outcome m w pct reason now s wh pos q res b :
  PrimFloat.is_nan pct = false ->
  wallet_get (mg_wallets s) w = Some wh -> mg_positions s !! pos_key m w = Some pos ->
  sell_quote (mg_config s) pct reason pos = Ret q ->
  broker_sell m (sq_sell_qty q) (ps_pool pos) (100 <=? pct)%float (wh_broker wh) = Ret (res, b) ->
  exists s' es, handle_execute_sell show_address to_json m w pct reason now s = Ret (tt, s', es) /\
  match res with
  | Err e =>
      mg_positions s' = <[pos_key m w := release_position pct e pos]> (mg_positions s) /\
      ps_pending_partial_sell (release_position pct e pos) = false /\
      ps_holdings (release_position pct e pos) = ps_holdings pos /\
      ps_is_closing (release_position pct e pos) =
        negb ((100 <=? pct)%float || requires_manual_sell e) && ps_is_closing pos /\
      mg_strategy s' = mg_strategy s /\ mg_closed_mints s' = mg_closed_mints s
  | Ok r => sell_booked m w pct reason q r pos now s s' es
  end.
Proof.
  intros HN HW HP HQ HB. unfold handle_execute_sell. cbv zeta.
  rewrite !bind_gets, HW, HP, bind_modify, bind_gets. set (s1 := s <| mg_positions := _ |>).
  change (mg_config s1) with (mg_config s). rewrite HQ, bind_lift.
  assert (wallet_sell wh w m (sq_sell_qty q) (ps_pool pos) (100 <=? pct)%float s1 =
    Ret (res, s1 <| mg_wallets := wallet_update (mg_wallets s1) w (fun w => w <| wh_broker := b |>) |>, []))
    as HS.
  { unfold wallet_sell. by rewrite HB, bind_lift, bind_modify. }
  unfold mbind at 1, M_bind at 1. rewrite HS. set (s2 := s1 <| mg_wallets := _ |>). destruct res as [r|e].
  - destruct (run_sell_confirmed m w (broker_mode_label (wh_broker wh)) pct reason q r pos now s s2)
      as (s' & es & -> & HR); try done. by eexists _, _.
  - destruct (run_sell_failed m w (broker_mode_label (wh_broker wh)) pct reason q e pos now s2) as [es ->].
    eexists _, _. split; [reflexivity|]. cbn. rewrite insert_delete_eq. split_and!; try done;
      unfold release_position; destruct (requires_manual_sell e), (100 <=? pct)%float; done.
Qed.
End Runs.

(** ** Scheduled runs

    A schedule picks one step after the other; following it is executable, and
    every schedule is a run. *)
Section Schedules.
Context {B P : Type} `{!Pool P, !Broker B P}.
Context (show_address : Address -> string) (to_json : V3TapeWire -> string).
Context (boxed : PumpPool Bonding -> P).

Inductive Move :=
  | Deliver (now instant : Z)
  | Input (msg : PositionMessage P)
  | Advance (task : nat).

Definition advance (r : WalletRegistry B) (t : Task P)
    : option (option (PositionMessage P) * option (Task P) * WalletRegistry B) :=
  match t with
  | FanOut m ((w, a) :: targets) d ctx =>
      Some (Some (ExecuteBuy m w a ctx), Some (FanOut m targets d ctx), r)
  | FanOut m [] d ctx => Some (Some (ClearPendingMint m), None, r)
  | BuyTask m wid amount ctx pool mode wire =>
      match wallet_get r wid with
      | Some w =>
          match broker_buy m amount pool (wh_broker w) with
          | Ret (res, b) => Some (Some (BuyCompleted m wid amount ctx pool mode wire res), None,
                                  wallet_update r wid (fun w => w <| wh_broker := b |>))
          | Panic _ => None
          end
      | None => None
      end
  | SellTask d m w percent reason => Some (Some (ExecuteSell m w percent reason), None, r)
  | _ => None
  end.

Definition exec (mv : Move) (S : System B P) : option (System B P) :=
  match mv with
  | Deliver now instant =>
      match sy_inbox S with
      | msg :: inbox =>
          match handle show_address to_json boxed now instant msg (sy_mgr S) with
          | Ret (_, s', es) => Some (mkSystem s' inbox (sy_tasks S ++ spawned es))
          | Panic _ => None
          end
      | [] => None
      end
  | Input msg =>
      if external msg then Some (mkSystem (sy_mgr S) (sy_inbox S ++ [msg]) (sy_tasks S)) else None
  | Advance i =>
      match drop i (sy_tasks S) with
      | t :: l2 =>
          match advance (mg_wallets (sy_mgr S)) t with
          | Some (out, rest, r) =>
              Some (mkSystem (sy_mgr S <| mg_wallets := r |>) (sy_inbox S ++ option_list out)
                      (take i (sy_tasks S) ++ option_list rest ++ l2))
          | None => None
          end
      | [] => None
      end
  end.

Fixpoint follow (l : list Move) (S : System B P) : option (System B P) :=
  match l with
  | [] => Some S
  | mv :: l' => match exec mv S with Some S' => follow l' S' | None => None end
  end.

Lemma advance_sound r t out rest r' : advance r t = Some (out, rest, r') -> task_step r t out rest r'.
Proof.
  destruct t as [m [|[w a] ts] d ctx|m wid amount ctx pool mode wire|d m w pct reason| |]; cbn; try done.
  - intros [= <- <- <-]. constructor.
  - intros [= <- <- <-]. constructor.
  - destruct (wallet_get r wid) as [w|] eqn:EW; [|done].
    destruct (broker_buy m amount pool (wh_broker w)) as [[res b]|] eqn:EB; [|done].
    intros [= <- <- <-]. by eapply BuyTask_done.
  - intros [= <- <- <-]. constructor.
Qed.

Lemma exec_sound mv S S' : exec mv S = Some S' -> sys_step show_address to_json boxed S S'.
Proof.
  destruct S as [s inbox tasks], mv as [now instant|msg|i]; cbn [exec sy_mgr sy_inbox sy_tasks].
  - destruct inbox as [|msg inbox]; [done|].
    destruct (handle _ _ _ _ _ _ _) as [[[[] s'] es]|] eqn:E; [|done]. intros [= <-]. by econstructor.
  - destruct (external msg) eqn:E; [|done]. intros [= <-]. by constructor.
  - destruct (drop i tasks) as [|t l2] eqn:E; [done|].
    destruct (advance _ _) as [[[out rest] r]|] eqn:EA; [|done]. intros [= <-].
    rewrite <- (take_drop i tasks) at 1. rewrite E. constructor. by apply advance_sound.
Qed.

Lemma follow_sound l S S' : follow l S = Some S' -> rtc (sys_step show_address to_json boxed) S S'.
Proof.
  revert S. induction l as [|mv l IH]; cbn; intros S; [by intros [= <-]|].
  destruct (exec mv S) as [S1|] eqn:E; [|done]. intros H.
  eapply rtc_l; [by eapply exec_sound | by apply IH].
Qed.
End Schedules.

(** ** A position from signal to crash *)

Definition demo_show (a : Address) : string := pretty a.
Definition demo_json (w : V3TapeWire) : string := "{}".

(** the same curve at twice the price *)
Definition demo_pump : PumpPool Bonding :=
  mkPumpPool ((pp_state demo_pool) <| virtual_sol_reserves := amount_from_raw_native 60000000000 |>).

Definition demo_manager : Manager MockBroker (PumpPool Bonding) :=
  manager_new demo_registry 10%float SmartBuyConfig_default DevBlacklistConfig_default
    CurveQuarantineConfig_default StrategyConfig_default false false false false false 1700000000.

Definition demo_ctx : BuyContext := mkBuyContext TraderStats (Some 7%N) [8%N] None.
Definition demo_signal : PositionMessage (PumpPool Bonding) :=
  InitiateBuy demo_pump 0.5%float TierA demo_ctx.

Definition demo_follow := follow demo_show demo_json (fun p : PumpPool Bonding => p).

(** signal, fan-out, buy, the mint cleared, the price halves, a tick *)
Definition demo_crash_schedule : list (Move (P := PumpPool Bonding)) :=
  [Input demo_signal; Deliver 1700000100 0; Advance 0; Deliver 1700000100 0;
   Advance 1; Deliver 1700000101 0; Advance 0; Deliver 1700000101 0;
   Input (UpdatePool demo_pool); Deliver 1700000102 0; Input TickMsg; Deliver 1700000103 0].

Ltac followed o := let r := eval vm_compute in o in lazymatch r with Some ?p => exact p end.

Definition demo_crashed : System MockBroker (PumpPool Bonding) :=
  ltac:(followed (demo_follow demo_crash_schedule (boot demo_manager))).

Lemma demo_crashed_run :
  demo_follow demo_crash_schedule (boot demo_manager) = Some demo_crashed.
Proof. vm_compute. reflexivity. Qed.

Lemma sells_never_stuck_witness :
  sell_among true (mkPositionKey 1%N "wallet_1") (due demo_crashed).
Proof.
  destruct (sells_never_stuck demo_show demo_json (fun p : PumpPool Bonding => p) demo_manager
    demo_crashed) as [H _].
  - reflexivity.
  - reflexivity.
  - apply (follow_sound _ _ _ demo_crash_schedule). exact demo_crashed_run.
  - destruct (mg_positions (sy_mgr demo_crashed) !! mkPositionKey 1%N "wallet_1") as [pos|] eqn:E;
      [|vm_compute in E; discriminate].
    apply (H _ pos E). vm_compute in E. injection E as <-. reflexivity.
Defined.

(** the sell is executed, and the same mint is signalled again *)
Definition demo_close_schedule : list (Move (P := PumpPool Bonding)) :=
  [Advance 0; Deliver 1700000103 0].
Definition demo_closed : System MockBroker (PumpPool Bonding) :=
  ltac:(followed (demo_follow demo_close_schedule demo_crashed)).
Definition demo_again_schedule : list (Move (P := PumpPool Bonding)) :=
  [Input demo_signal; Deliver 1700009000 0].
Definition demo_again : System MockBroker (PumpPool Bonding) :=
  ltac:(followed (demo_follow demo_again_schedule demo_closed)).

Lemma no_reentry_witness :
  1%N ∈ mg_closed_mints (sy_mgr demo_again) /\
  forall ts' d ctx, FanOut 1%N ts' d ctx ∈ sy_tasks demo_again ->
    exists ts, FanOut 1%N ts d ctx ∈ sy_tasks demo_closed.
Proof.
  apply (no_reentry demo_show demo_json (fun p : PumpPool Bonding => p) demo_manager demo_closed).
  - reflexivity.
  - reflexivity.
  - apply (follow_sound _ _ _ (demo_crash_schedule ++ demo_close_schedule)).
    vm_compute. reflexivity.
  - apply (follow_sound _ _ _ demo_again_schedule). vm_compute. reflexivity.
  - vm_compute. reflexivity.
Defined.

Definition demo_held : Position (PumpPool Bonding) :=
  ltac:(let r := eval vm_compute in
          (mg_positions (sy_mgr demo_crashed) !! mkPositionKey 1%N "wallet_1") in
        lazymatch r with Some ?p => exact p end).
Definition demo_wallet : WalletHandle MockBroker :=
  ltac:(let r := eval vm_compute in (wallet_get (mg_wallets (sy_mgr demo_crashed)) "wallet_1") in
        lazymatch r with Some ?p => exact p end).
Definition demo_quote : SellQuote :=
  ltac:(returned (sell_quote SmartBuyConfig_default 100 "SL" demo_held)).
Definition demo_sold : result SellReceipt BrokerError * MockBroker :=
  ltac:(returned (broker_sell 1%N (sq_sell_qty demo_quote) (ps_pool demo_held) true
                    (wh_broker demo_wallet))).

Lemma execute_sell_outcome_witness :
  exists s' es,
    handle_execute_sell demo_show demo_json 1%N "wallet_1" 100 "SL" 1700000103 (sy_mgr demo_crashed)
      = Ret (tt, s', es) /\
    match demo_sold.1 with
    | Ok r => sell_booked demo_show demo_json 1%N "wallet_1" 100 "SL" demo_quote r demo_held 1700000103
                (sy_mgr demo_crashed) s' es
    | Err _ => False
    end.
Proof.
  destruct (execute_sell_outcome demo_show demo_json 1%N "wallet_1" 100 "SL" 1700000103
    (sy_mgr demo_crashed) demo_wallet demo_held demo_quote demo_sold.1 demo_sold.2)
    as (s' & es & H1 & H2);
    [reflexivity | vm_compute; reflexivity | vm_compute; reflexivity | vm_compute; reflexivity
    | vm_compute; reflexivity |].
  exists s', es. split; [exact H1 | exact H2].
Defined.

(** ** A buy in flight is not counted

    [pending_wallet_buys] is written and never read.  When the first signal's
    fan-out has ended and its buy is still on its way to the chain, the mint is
    neither pending nor held: a second signal for it is accepted, both buys are
    executed, and the second receipt replaces the position of the first.  The
    wallet has paid for both (1 SOL); the position knows of half of it. *)
Definition demo_double_schedule : list (Move (P := PumpPool Bonding)) :=
  [Input demo_signal; Deliver 1700000100 0; Advance 0; Deliver 1700000100 0;
   Advance 0; Deliver 1700000100 0;
   Input demo_signal; Deliver 1700000101 0; Advance 1; Deliver 1700000101 0;
   Advance 0; Deliver 1700000102 0; Advance 1; Deliver 1700000102 0].

Example second_buy_replaces_first :
  match demo_follow demo_double_schedule (boot demo_manager) with
  | Some sys =>
      (fun kp => (pk_wallet_id kp.1, ps_spent_sol kp.2)) <$> map_to_list (mg_positions (sy_mgr sys))
        = [("wallet_1", 0.5%float)] /\
      mb_balance <$> (wh_broker <$> wallet_get (mg_wallets (sy_mgr sys)) "wallet_1") = Some 9%float
  | None => False
  end.
Proof. vm_compute. split; reflexivity. Qed.
