(* ===== verification/Feed.v ===== *)
(** Feed metrics, signature deduplication and feed health ([feed/metrics.rs]).

    The counters of a feed and of the bot are [AtomicU64]s: a record of
    integers that wrap.  Both deduplicators keep a bounded queue of signatures
    beside a hash table over the same signatures; they are shown to answer as
    a window of the latest signatures would.  The health monitor keeps a streak
    of silent intervals per feed; its answers are shown to be a function of the
    checks it has made.  [SystemTime::now] is an argument. *)
From S2P Require Import Prelude Text.

(** ** Feed counters *)
(* feed/metrics.rs 14-52: FeedSnapshot *)
Record FeedSnapshot := mkFeedSnapshot {
  fs_name : string;
  fs_subscribed : Z;
  fs_reconnects : Z;
  fs_idle_reconnects : Z;
  fs_stream_errors : Z;
  fs_messages : Z;
  fs_events : Z;
  fs_parse_errors : Z;
  fs_err_logs : Z;
  fs_bytes_in : Z;
  fs_dropped_failed_tx : Z;
  fs_dropped_no_program_data : Z;
  fs_dropped_self_dup : Z;
  fs_duplicates_cross_feed : Z;
  fs_lines_total : Z;
  fs_lines_program_data : Z;
  fs_last_message_unix : Z;
  fs_started_unix : Z;
  fs_uptime_secs : Z;
  fs_msg_per_sec_avg : f64;
  fs_events_per_sec_avg : f64;
  fs_bytes_per_sec_avg : f64;
  fs_useful_msg_ratio : f64;
  fs_events_per_msg_total : f64
}.
#[export] Instance FeedSnapshot_settable : Settable FeedSnapshot :=
  fun r => mkFeedSnapshot
    (fs_name r) (fs_subscribed r) (fs_reconnects r) (fs_idle_reconnects r) (fs_stream_errors r)
    (fs_messages r) (fs_events r) (fs_parse_errors r) (fs_err_logs r) (fs_bytes_in r)
    (fs_dropped_failed_tx r) (fs_dropped_no_program_data r) (fs_dropped_self_dup r)
    (fs_duplicates_cross_feed r) (fs_lines_total r) (fs_lines_program_data r)
    (fs_last_message_unix r) (fs_started_unix r) (fs_uptime_secs r) (fs_msg_per_sec_avg r)
    (fs_events_per_sec_avg r) (fs_bytes_per_sec_avg r) (fs_useful_msg_ratio r)
    (fs_events_per_msg_total r).

(* feed/metrics.rs 54-77: FeedMetrics *)
Record FeedMetrics := mkFeedMetrics {
  fm_name : string;
  fm_subscribed : Z;
  fm_reconnects : Z;
  fm_idle_reconnects : Z;
  fm_stream_errors : Z;
  fm_messages : Z;
  fm_events : Z;
  fm_parse_errors : Z;
  fm_err_logs : Z;
  fm_bytes_in : Z;
  fm_dropped_failed_tx : Z;
  fm_dropped_no_program_data : Z;
  fm_dropped_self_dup : Z;
  fm_duplicates_cross_feed : Z;
  fm_lines_total : Z;
  fm_lines_program_data : Z;
  fm_last_message_unix : Z;
  fm_started_unix : Z
}.
#[export] Instance FeedMetrics_settable : Settable FeedMetrics :=
  fun r => mkFeedMetrics
    (fm_name r) (fm_subscribed r) (fm_reconnects r) (fm_idle_reconnects r) (fm_stream_errors r)
    (fm_messages r) (fm_events r) (fm_parse_errors r) (fm_err_logs r) (fm_bytes_in r)
    (fm_dropped_failed_tx r) (fm_dropped_no_program_data r) (fm_dropped_self_dup r)
    (fm_duplicates_cross_feed r) (fm_lines_total r) (fm_lines_program_data r)
    (fm_last_message_unix r) (fm_started_unix r).

(** [fetch_add(n)] on an [AtomicU64] wraps *)
Definition fetch_add {R} (proj : R -> Z) `{!Setter proj} (n : Z) : R -> R :=
  set proj (fun z => u64 (z + n)).

(* feed/metrics.rs 80-101: FeedMetrics::new *)
Definition feed_metrics_new (now : Z) (name : string) : FeedMetrics := {|
  fm_name := name;
  fm_subscribed := 0;
  fm_reconnects := 0;
  fm_idle_reconnects := 0;
  fm_stream_errors := 0;
  fm_messages := 0;
  fm_events := 0;
  fm_parse_errors := 0;
  fm_err_logs := 0;
  fm_bytes_in := 0;
  fm_dropped_failed_tx := 0;
  fm_dropped_no_program_data := 0;
  fm_dropped_self_dup := 0;
  fm_duplicates_cross_feed := 0;
  fm_lines_total := 0;
  fm_lines_program_data := 0;
  fm_last_message_unix := 0;
  fm_started_unix := now
|}.

(* feed/metrics.rs 103-105: FeedMetrics::note_subscribed *)
Definition note_subscribed : FeedMetrics -> FeedMetrics := fetch_add fm_subscribed 1.
(* feed/metrics.rs 106-108: FeedMetrics::note_reconnect *)
Definition note_reconnect : FeedMetrics -> FeedMetrics := fetch_add fm_reconnects 1.
(* feed/metrics.rs 109-111: FeedMetrics::note_idle_reconnect *)
Definition note_idle_reconnect : FeedMetrics -> FeedMetrics := fetch_add fm_idle_reconnects 1.
(* feed/metrics.rs 112-114: FeedMetrics::note_stream_error *)
Definition note_stream_error : FeedMetrics -> FeedMetrics := fetch_add fm_stream_errors 1.
(* feed/metrics.rs 115-119: FeedMetrics::note_message *)
Definition note_message (now bytes : Z) (m : FeedMetrics) : FeedMetrics :=
  fetch_add fm_bytes_in bytes (fetch_add fm_messages 1 m) <| fm_last_message_unix := now |>.
(* feed/metrics.rs 120-122: FeedMetrics::note_event *)
Definition note_event : FeedMetrics -> FeedMetrics := fetch_add fm_events 1.
(* feed/metrics.rs 123-125: FeedMetrics::note_parse_error *)
Definition note_parse_error : FeedMetrics -> FeedMetrics := fetch_add fm_parse_errors 1.
(* feed/metrics.rs 126-128: FeedMetrics::note_err_log *)
Definition note_err_log : FeedMetrics -> FeedMetrics := fetch_add fm_err_logs 1.
(* feed/metrics.rs 129-131: FeedMetrics::note_dropped_failed_tx *)
Definition note_dropped_failed_tx : FeedMetrics -> FeedMetrics := fetch_add fm_dropped_failed_tx 1.
(* feed/metrics.rs 132-134: FeedMetrics::note_dropped_no_program_data *)
Definition note_dropped_no_program_data : FeedMetrics -> FeedMetrics := fetch_add fm_dropped_no_program_data 1.
(* feed/metrics.rs 135-137: FeedMetrics::note_dropped_self_dup *)
Definition note_dropped_self_dup : FeedMetrics -> FeedMetrics := fetch_add fm_dropped_self_dup 1.
(* feed/metrics.rs 138-140: FeedMetrics::note_cross_dup *)
Definition note_cross_dup : FeedMetrics -> FeedMetrics := fetch_add fm_duplicates_cross_feed 1.
(* feed/metrics.rs 141-145: FeedMetrics::add_lines *)
Definition add_lines (total program_data : Z) (m : FeedMetrics) : FeedMetrics :=
  fetch_add fm_lines_program_data program_data (fetch_add fm_lines_total total m).

(** messages that reached the parser, as the snapshot counts them *)
(* feed/metrics.rs 157-161: FeedMetrics::snapshot *)
Definition processed_after_prefilter (m : FeedMetrics) : Z :=
  Z.max (sat_sub (sat_sub (sat_sub (fm_messages m) (fm_dropped_failed_tx m))
    (fm_dropped_no_program_data m)) (fm_dropped_self_dup m)) 1.

(* feed/metrics.rs 147-189: FeedMetrics::snapshot *)
Definition feed_snapshot (now : Z) (m : FeedMetrics) : FeedSnapshot :=
  let uptime := Z.max (sat_sub now (fm_started_unix m)) 1 in
  let per_sec n := (f64_of_Z n / f64_of_Z uptime)%float in {|
  fs_name := fm_name m;
  fs_subscribed := fm_subscribed m;
  fs_reconnects := fm_reconnects m;
  fs_idle_reconnects := fm_idle_reconnects m;
  fs_stream_errors := fm_stream_errors m;
  fs_messages := fm_messages m;
  fs_events := fm_events m;
  fs_parse_errors := fm_parse_errors m;
  fs_err_logs := fm_err_logs m;
  fs_bytes_in := fm_bytes_in m;
  fs_dropped_failed_tx := fm_dropped_failed_tx m;
  fs_dropped_no_program_data := fm_dropped_no_program_data m;
  fs_dropped_self_dup := fm_dropped_self_dup m;
  fs_duplicates_cross_feed := fm_duplicates_cross_feed m;
  fs_lines_total := fm_lines_total m;
  fs_lines_program_data := fm_lines_program_data m;
  fs_last_message_unix := fm_last_message_unix m;
  fs_started_unix := fm_started_unix m;
  fs_uptime_secs := uptime;
  fs_msg_per_sec_avg := per_sec (fm_messages m);
  fs_events_per_sec_avg := per_sec (fm_events m);
  fs_bytes_per_sec_avg := per_sec (fm_bytes_in m);
  fs_useful_msg_ratio := (f64_of_Z (fm_events m) / f64_of_Z (processed_after_prefilter m))%float;
  fs_events_per_msg_total := (f64_of_Z (fm_events m) / f64_of_Z (Z.max (fm_messages m) 1))%float
|}.

(** ** Signature deduplication *)

(* feed/metrics.rs 194-198: SignatureDedup *)
Record SignatureDedup := mkSignatureDedup {
  sg_capacity : nat;
  sg_order : list string;
  sg_owner : gmap string string
}.

(* feed/metrics.rs 201-207: SignatureDedup::new *)
Definition signature_dedup_new (capacity : nat) : SignatureDedup := mkSignatureDedup capacity [] ∅.

(* feed/metrics.rs 211-223: SignatureDedup::observe *)
Definition observe (signature feed : string) (d : SignatureDedup) : bool * SignatureDedup :=
  match sg_owner d !! signature with
  | Some prev => (negb (String.eqb prev feed), d)
  | None =>
      let '(order, owner) :=
        if (sg_capacity d <=? length (sg_order d))%nat then
          match sg_order d with
          | old :: order => (order, delete old (sg_owner d))
          | [] => ([], sg_owner d)
          end
        else (sg_order d, sg_owner d) in
      (false, mkSignatureDedup (sg_capacity d) (order ++ [signature]) (<[signature := feed]> owner))
  end.

(* feed/metrics.rs 235-239: SelfDedup *)
Record SelfDedup := mkSelfDedup {
  sd_capacity : nat;
  sd_order : list string;
  sd_seen : gset string
}.

(* feed/metrics.rs 242-248: SelfDedup::new *)
Definition self_dedup_new (capacity : nat) : SelfDedup := mkSelfDedup capacity [] ∅.

(* feed/metrics.rs 251-263: SelfDedup::check_and_remember *)
Definition check_and_remember (signature : string) (d : SelfDedup) : bool * SelfDedup :=
  if decide (signature ∈ sd_seen d) then (true, d)
  else
    let '(order, seen) :=
      if (sd_capacity d <=? length (sd_order d))%nat then
        match sd_order d with
        | old :: order => (order, sd_seen d ∖ {[old]})
        | [] => ([], sd_seen d)
        end
      else (sd_order d, sd_seen d) in
    (false, mkSelfDedup (sd_capacity d) (order ++ [signature]) ({[signature]} ∪ seen)).

(** ** Feed health *)

(* feed/metrics.rs 269-269: FEED_STALL_MSG_AGE_SECS *)
Definition FEED_STALL_MSG_AGE_SECS : Z := 60.
(* feed/metrics.rs 271-271: FEED_ZERO_RATE_STREAK *)
Definition FEED_ZERO_RATE_STREAK : Z := 3.
(* feed/metrics.rs 273-273: FEED_STARTUP_GRACE_SECS *)
Definition FEED_STARTUP_GRACE_SECS : Z := 90.
(* feed/metrics.rs 276-276: FEED_ZERO_RATE_EPS *)
Definition FEED_ZERO_RATE_EPS : f64 := 0.05%float.

(* feed/metrics.rs 278-283: FeedHealthEvent *)
Inductive FeedHealthEvent := HealthOk | HealthStall | HealthRecovered.
#[export] Instance FeedHealthEvent_eq_dec : EqDecision FeedHealthEvent.
Proof. solve_decision. Defined.

(* feed/metrics.rs 286-289: FeedHealthMonitor *)
Record FeedHealthMonitor := mkFeedHealthMonitor {
  hm_zero_rate_streak : gmap string Z;
  hm_was_stalled : gmap string bool
}.

(* feed/metrics.rs 292-297: FeedHealthMonitor::new *)
Definition health_monitor_new : FeedHealthMonitor := mkFeedHealthMonitor ∅ ∅.

(* feed/metrics.rs 346-353: FeedHealthMonitor::last_msg_age_secs *)
Definition last_msg_age_secs (now : Z) (snap : FeedSnapshot) : Z :=
  if fs_last_message_unix snap =? 0 then fs_uptime_secs snap
  else sat_sub now (fs_last_message_unix snap).

(* feed/metrics.rs 342-344: FeedHealthMonitor::zero_rate_streak *)
Definition zero_rate_streak (feed : string) (m : FeedHealthMonitor) : Z :=
  default 0 (hm_zero_rate_streak m !! feed).

(* feed/metrics.rs 300-340: FeedHealthMonitor::evaluate *)
Definition evaluate (now : Z) (snap : FeedSnapshot) (interval_rate : f64) (m : FeedHealthMonitor)
    : FeedHealthEvent * FeedHealthMonitor :=
  if fs_uptime_secs snap <? FEED_STARTUP_GRACE_SECS then (HealthOk, m)
  else if fs_subscribed snap =? 0 then (HealthOk, m)
  else
    let last_msg_age_s := last_msg_age_secs now snap in
    let zero_rate := (interval_rate <? FEED_ZERO_RATE_EPS)%float in
    let streak := if zero_rate then sat_add U32_MAX (zero_rate_streak (fs_name snap) m) 1 else 0 in
    let stalled := (FEED_STALL_MSG_AGE_SECS <? last_msg_age_s) || (FEED_ZERO_RATE_STREAK <=? streak) in
    let was := default false (hm_was_stalled m !! fs_name snap) in
    let m' := mkFeedHealthMonitor (<[fs_name snap := streak]> (hm_zero_rate_streak m))
                                  (<[fs_name snap := stalled]> (hm_was_stalled m)) in
    (if stalled then HealthStall else if was then HealthRecovered else HealthOk, m').

(** ** Bot counters *)

(* feed/metrics.rs 358-377: BotSnapshot *)
Record BotSnapshot := mkBotSnapshot {
  bs_creates_total : Z;
  bs_creates_no_history : Z;
  bs_creates_filter_rejected : Z;
  bs_creates_passed_filter : Z;
  bs_spam_dev_skipped : Z;
  bs_score_skipped : Z;
  bs_score_a : Z;
  bs_score_a_plus : Z;
  bs_score_b : Z;
  bs_continuation_skipped : Z;
  bs_parabolic_skipped : Z;
  bs_strategy_blocked : Z;
  bs_positions_initiated : Z;
  bs_fresh_watchlist_added : Z;
  bs_fresh_watchlist_passed : Z;
  bs_fresh_watchlist_rejected : Z;
  bs_uptime_secs : Z
}.

(* feed/metrics.rs 379-397: BotMetrics *)
Record BotMetrics := mkBotMetrics {
  bm_creates_total : Z;
  bm_creates_no_history : Z;
  bm_creates_filter_rejected : Z;
  bm_creates_passed_filter : Z;
  bm_spam_dev_skipped : Z;
  bm_score_skipped : Z;
  bm_score_a : Z;
  bm_score_a_plus : Z;
  bm_score_b : Z;
  bm_continuation_skipped : Z;
  bm_parabolic_skipped : Z;
  bm_strategy_blocked : Z;
  bm_positions_initiated : Z;
  bm_fresh_watchlist_added : Z;
  bm_fresh_watchlist_passed : Z;
  bm_fresh_watchlist_rejected : Z;
  bm_started_unix : Z
}.
#[export] Instance BotMetrics_settable : Settable BotMetrics :=
  fun r => mkBotMetrics
    (bm_creates_total r) (bm_creates_no_history r) (bm_creates_filter_rejected r)
    (bm_creates_passed_filter r) (bm_spam_dev_skipped r) (bm_score_skipped r) (bm_score_a r)
    (bm_score_a_plus r) (bm_score_b r) (bm_continuation_skipped r) (bm_parabolic_skipped r)
    (bm_strategy_blocked r) (bm_positions_initiated r) (bm_fresh_watchlist_added r)
    (bm_fresh_watchlist_passed r) (bm_fresh_watchlist_rejected r) (bm_started_unix r).

(* feed/metrics.rs 400-420: BotMetrics::new *)
Definition bot_metrics_new (now : Z) : BotMetrics := {|
  bm_creates_total := 0;
  bm_creates_no_history := 0;
  bm_creates_filter_rejected := 0;
  bm_creates_passed_filter := 0;
  bm_spam_dev_skipped := 0;
  bm_score_skipped := 0;
  bm_score_a := 0;
  bm_score_a_plus := 0;
  bm_score_b := 0;
  bm_continuation_skipped := 0;
  bm_parabolic_skipped := 0;
  bm_strategy_blocked := 0;
  bm_positions_initiated := 0;
  bm_fresh_watchlist_added := 0;
  bm_fresh_watchlist_passed := 0;
  bm_fresh_watchlist_rejected := 0;
  bm_started_unix := now
|}.

(* feed/metrics.rs 422-424: BotMetrics::note_create *)
Definition note_create : BotMetrics -> BotMetrics := fetch_add bm_creates_total 1.
(* feed/metrics.rs 425-427: BotMetrics::note_no_history *)
Definition note_no_history : BotMetrics -> BotMetrics := fetch_add bm_creates_no_history 1.
(* feed/metrics.rs 428-430: BotMetrics::note_filter_rejected *)
Definition note_filter_rejected : BotMetrics -> BotMetrics := fetch_add bm_creates_filter_rejected 1.
(* feed/metrics.rs 431-433: BotMetrics::note_passed_filter *)
Definition note_passed_filter : BotMetrics -> BotMetrics := fetch_add bm_creates_passed_filter 1.
(* feed/metrics.rs 434-436: BotMetrics::note_spam_dev_skip *)
Definition note_spam_dev_skip : BotMetrics -> BotMetrics := fetch_add bm_spam_dev_skipped 1.
(* feed/metrics.rs 437-439: BotMetrics::note_score_skip *)
Definition note_score_skip : BotMetrics -> BotMetrics := fetch_add bm_score_skipped 1.
(* feed/metrics.rs 440-442: BotMetrics::note_score_a *)
Definition note_score_a : BotMetrics -> BotMetrics := fetch_add bm_score_a 1.
(* feed/metrics.rs 443-445: BotMetrics::note_score_a_plus *)
Definition note_score_a_plus : BotMetrics -> BotMetrics := fetch_add bm_score_a_plus 1.
(* feed/metrics.rs 446-448: BotMetrics::note_score_b *)
Definition note_score_b : BotMetrics -> BotMetrics := fetch_add bm_score_b 1.
(* feed/metrics.rs 449-451: BotMetrics::note_continuation_skip *)
Definition note_continuation_skip : BotMetrics -> BotMetrics := fetch_add bm_continuation_skipped 1.
(* feed/metrics.rs 452-454: BotMetrics::note_parabolic_skip *)
Definition note_parabolic_skip : BotMetrics -> BotMetrics := fetch_add bm_parabolic_skipped 1.
(* feed/metrics.rs 455-457: BotMetrics::note_strategy_blocked *)
Definition note_strategy_blocked : BotMetrics -> BotMetrics := fetch_add bm_strategy_blocked 1.
(* feed/metrics.rs 458-460: BotMetrics::note_position_initiated *)
Definition note_position_initiated : BotMetrics -> BotMetrics := fetch_add bm_positions_initiated 1.
(* feed/metrics.rs 461-463: BotMetrics::note_fresh_watchlist_added *)
Definition note_fresh_watchlist_added : BotMetrics -> BotMetrics := fetch_add bm_fresh_watchlist_added 1.
(* feed/metrics.rs 464-466: BotMetrics::note_fresh_watchlist_passed *)
Definition note_fresh_watchlist_passed : BotMetrics -> BotMetrics := fetch_add bm_fresh_watchlist_passed 1.
(* feed/metrics.rs 467-469: BotMetrics::note_fresh_watchlist_rejected *)
Definition note_fresh_watchlist_rejected : BotMetrics -> BotMetrics := fetch_add bm_fresh_watchlist_rejected 1.

(* feed/metrics.rs 471-492: BotMetrics::snapshot *)
Definition bot_snapshot (now : Z) (m : BotMetrics) : BotSnapshot := {|
  bs_creates_total := bm_creates_total m;
  bs_creates_no_history := bm_creates_no_history m;
  bs_creates_filter_rejected := bm_creates_filter_rejected m;
  bs_creates_passed_filter := bm_creates_passed_filter m;
  bs_spam_dev_skipped := bm_spam_dev_skipped m;
  bs_score_skipped := bm_score_skipped m;
  bs_score_a := bm_score_a m;
  bs_score_a_plus := bm_score_a_plus m;
  bs_score_b := bm_score_b m;
  bs_continuation_skipped := bm_continuation_skipped m;
  bs_parabolic_skipped := bm_parabolic_skipped m;
  bs_strategy_blocked := bm_strategy_blocked m;
  bs_positions_initiated := bm_positions_initiated m;
  bs_fresh_watchlist_added := bm_fresh_watchlist_added m;
  bs_fresh_watchlist_passed := bm_fresh_watchlist_passed m;
  bs_fresh_watchlist_rejected := bm_fresh_watchlist_rejected m;
  bs_uptime_secs := Z.max (sat_sub now (bm_started_unix m)) 1
|}.
(** ** The deduplicators are windows

    The reference keeps every signature it ever let through, in order, and
    looks for a repetition among the latest [max 1 capacity]: the code pops
    before it pushes, so that a capacity of 0 still remembers one. *)
Definition window {A} (capacity : nat) (h : list A) : list A :=
  drop (length h - Nat.max 1 capacity) h.

Lemma window_nil {A} c : window c (@nil A) = [].
Proof. apply drop_nil. Qed.

Lemma window_length {A} c (h : list A) :
  length (window c h) = Nat.min (length h) (Nat.max 1 c).
Proof. unfold window. rewrite length_drop. lia. Qed.

Lemma window_snoc {A} c (h : list A) x :
  window c (h ++ [x]) =
    (if (c <=? length (window c h))%nat then tail (window c h) else window c h) ++ [x].
Proof.
  rewrite window_length. unfold window. rewrite length_app. cbn [length].
  destruct (Nat.leb_spec c (Nat.min (length h) (Nat.max 1 c))) as [E|E].
  - destruct h as [|y h].
    { assert (c = 0)%nat as -> by (cbn in E; lia). done. }
    rewrite drop_app_le by (cbn; lia). f_equal.
    assert (forall n (l : list A), tail (drop n l) = drop (S n) l) as T.
    { intros n. induction n as [|n IH]; intros [|a l]; try done. cbn [drop]. by rewrite IH. }
    rewrite T. f_equal. cbn [length] in *. lia.
  - rewrite drop_app_le by lia. f_equal. f_equal. lia.
Qed.

Lemma window_fmap {A B} (f : A -> B) c h : f <$> window c h = window c (f <$> h).
Proof. unfold window. by rewrite fmap_drop, length_fmap. Qed.

(** a signature outside the window of the earlier ones keeps it free of
    repetitions *)
Lemma window_nodup {A} c (h : list A) x :
  NoDup (window c h) -> x ∉ window c h -> NoDup (window c (h ++ [x])).
Proof.
  intros N Hx. rewrite window_snoc.
  set (w := if (c <=? length (window c h))%nat then _ else _).
  assert (w `sublist_of` window c h) as S.
  { unfold w. case_match; [|done]. destruct (window c h); [done|]. by constructor. }
  apply NoDup_app. split; [by eapply sublist_NoDup|]. split; [|apply NoDup_singleton].
  intros y Hy ->%list_elem_of_singleton. apply Hx. by eapply elem_of_sublist.
Qed.

Fixpoint self_dedup_run (sigs : list string) (d : SelfDedup) : list bool :=
  match sigs with
  | [] => []
  | s :: sigs => let '(dup, d) := check_and_remember s d in dup :: self_dedup_run sigs d
  end.

(** the reference: [h] is what was let through so far *)
Fixpoint window_run (c : nat) (h sigs : list string) : list bool :=
  match sigs with
  | [] => []
  | s :: sigs =>
      let dup := bool_decide (s ∈ window c h) in
      dup :: window_run c (if dup then h else h ++ [s]) sigs
  end.

Record self_dedup_repr (h : list string) (d : SelfDedup) : Prop := {
  sr_order : sd_order d = window (sd_capacity d) h;
  sr_seen : forall s, s ∈ sd_seen d <-> s ∈ sd_order d;
  sr_nodup : NoDup (sd_order d)
}.

Lemma check_and_remember_repr h d s :
  self_dedup_repr h d ->
  let r := check_and_remember s d in
  let dup := bool_decide (s ∈ window (sd_capacity d) h) in
  r.1 = dup /\ sd_capacity r.2 = sd_capacity d /\
  self_dedup_repr (if dup then h else h ++ [s]) r.2.
Proof.
  intros [O S N]. cbn zeta. unfold check_and_remember.
  destruct (decide (s ∈ sd_seen d)) as [I|I]; rewrite S, O in I.
  - rewrite bool_decide_true by done. done.
  - rewrite bool_decide_false by done. rewrite O in N.
    pose proof (window_nodup _ _ _ N I) as N'. rewrite window_snoc in N'.
    rewrite O. destruct (Nat.leb_spec (sd_capacity d) (length (window (sd_capacity d) h))) as [E|E].
    + destruct (window (sd_capacity d) h) as [|old w] eqn:W; cbn [tail] in *.
      * split; [done|]. split; [done|]. split; cbn.
        -- rewrite window_snoc, W. case_match; done.
        -- intros x. rewrite elem_of_union, S, O. set_solver.
        -- done.
      * split; [done|]. split; [done|]. split; cbn.
        -- rewrite window_snoc, W. apply Nat.leb_le in E. by rewrite E.
        -- intros x. rewrite elem_of_union, elem_of_difference, S, O, elem_of_cons, elem_of_app.
           apply NoDup_cons_1_1 in N. set_solver.
        -- done.
    + split; [done|]. split; [done|]. split; cbn.
      * rewrite window_snoc. apply Nat.leb_gt in E. by rewrite E.
      * intros x. rewrite elem_of_union, S, O, elem_of_app. set_solver.
      * done.
Qed.

Lemma self_dedup_run_repr sigs h d :
  self_dedup_repr h d -> self_dedup_run sigs d = window_run (sd_capacity d) h sigs.
Proof.
  revert h d. induction sigs as [|s sigs IH]; intros h d R; [done|]. cbn.
  destruct (check_and_remember_repr h d s R) as (E1 & E2 & R').
  destruct (check_and_remember s d) as [dup d']. cbn in *. subst dup.
  by rewrite (IH _ _ R'), E2.
Qed.

Lemma self_dedup_new_repr c : self_dedup_repr [] (self_dedup_new c).
Proof. split; [by rewrite window_nil | set_solver | constructor]. Qed.

(** The self-feed deduplicator refines its specification: on any sequence of
    signatures it answers as a log of all signatures let through that looks
    for a repetition among the latest [max 1 capacity] of them. *)
Theorem self_dedup_refines_window c sigs :
  self_dedup_run sigs (self_dedup_new c) = window_run c [] sigs.
Proof. apply (self_dedup_run_repr sigs [] (self_dedup_new c)), self_dedup_new_repr. Qed.

(** *** The cross-feed window *)

Record signature_dedup_repr (h : list (string * string)) (d : SignatureDedup) : Prop := {
  sgr_order : sg_order d = (window (sg_capacity d) h).*1;
  sgr_owner : sg_owner d = list_to_map (window (sg_capacity d) h);
  sgr_nodup : NoDup (sg_order d)
}.

Definition known (c : nat) (h : list (string * string)) (s : string) : bool :=
  bool_decide (s ∈ (window c h).*1).

(** some other feed let the signature through *)
Definition overlaps (c : nat) (h : list (string * string)) (s feed : string) : bool :=
  existsb (fun kv => String.eqb kv.1 s && negb (String.eqb kv.2 feed)) (window c h).

Fixpoint observe_run (sigs : list (string * string)) (d : SignatureDedup) : list bool :=
  match sigs with
  | [] => []
  | (s, feed) :: sigs => let '(dup, d) := observe s feed d in dup :: observe_run sigs d
  end.

Fixpoint overlap_run (c : nat) (h sigs : list (string * string)) : list bool :=
  match sigs with
  | [] => []
  | (s, feed) :: sigs =>
      overlaps c h s feed :: overlap_run c (if known c h s then h else h ++ [(s, feed)]) sigs
  end.

Lemma existsb_key (w : list (string * string)) s feed :
  NoDup w.*1 ->
  existsb (fun kv => String.eqb kv.1 s && negb (String.eqb kv.2 feed)) w =
    match (list_to_map w : gmap string string) !! s with
    | Some prev => negb (String.eqb prev feed)
    | None => false
    end.
Proof.
  induction w as [|[k v] w IH]; cbn; [done|]. intros [Hk N]%NoDup_cons. rewrite IH by done.
  destruct (String.eqb_spec k s) as [->|Hne].
  - rewrite lookup_insert_eq. apply not_elem_of_list_to_map_1 in Hk. rewrite Hk. by rewrite orb_false_r.
  - by rewrite lookup_insert_ne.
Qed.

Lemma observe_repr h d s feed :
  signature_dedup_repr h d ->
  let c := sg_capacity d in
  let r := observe s feed d in
  r.1 = overlaps c h s feed /\ sg_capacity r.2 = c /\
  signature_dedup_repr (if known c h s then h else h ++ [(s, feed)]) r.2.
Proof.
  intros [O W N]. cbn zeta. unfold overlaps, known, observe.
  rewrite O in N. rewrite (existsb_key _ s feed N), W.
  destruct (list_to_map (window (sg_capacity d) h) !! s) as [prev|] eqn:L.
  - apply elem_of_list_to_map_2 in L. apply (list_elem_of_fmap_2 fst) in L.
    rewrite bool_decide_true by done. split; [done|]. split; [done|]. split; cbn; [done|done|by rewrite O].
  - apply not_elem_of_list_to_map_2 in L. rewrite bool_decide_false by done.
    pose proof L as L'. rewrite window_fmap in L', N.
    pose proof (window_nodup _ _ _ N L') as N'.
    rewrite <- window_fmap in N, L'.
    change [s] with (fst <$> [(s, feed)]) in N'. rewrite <- fmap_app, <- window_fmap in N'.
    rewrite O, length_fmap.
    destruct (Nat.leb_spec (sg_capacity d) (length (window (sg_capacity d) h))) as [E|E].
    + destruct (window (sg_capacity d) h) as [|[k v] w] eqn:EW; cbn [fmap list_fmap fst tail] in *.
      * split; [done|]. split; [done|].
        assert (window (sg_capacity d) (h ++ [(s, feed)]) = [(s, feed)]) as EW'
          by (rewrite window_snoc, EW; by case_match).
        split; cbn -[window]; [by rewrite EW'..|by rewrite EW' in N'].
      * apply NoDup_cons in N as [Hk N]. apply not_elem_of_list_to_map_1 in Hk as Hk'.
        assert (window (sg_capacity d) (h ++ [(s, feed)]) = w ++ [(s, feed)]) as EW'
          by (rewrite window_snoc, EW; apply Nat.leb_le in E; by rewrite E).
        split; [done|]. split; [done|]. split; cbn -[window]; rewrite ?EW'.
        -- by rewrite fmap_app.
        -- rewrite list_to_map_snoc by set_solver. by rewrite delete_insert_id.
        -- by rewrite EW', fmap_app in N'.
    + assert (window (sg_capacity d) (h ++ [(s, feed)]) = window (sg_capacity d) h ++ [(s, feed)]) as EW'
        by (rewrite window_snoc; apply Nat.leb_gt in E; by rewrite E).
      split; [done|]. split; [done|]. split; cbn -[window]; rewrite ?EW'.
      * by rewrite fmap_app.
      * by rewrite list_to_map_snoc.
      * by rewrite EW', fmap_app in N'.
Qed.

(** The cross-feed deduplicator refines its specification: it reports an
    overlap exactly when another feed let the signature through among the
    latest [max 1 capacity] distinct ones. *)
Theorem observe_refines_window c sigs :
  observe_run sigs (signature_dedup_new c) = overlap_run c [] sigs.
Proof.
  enough (forall h d, signature_dedup_repr h d ->
            observe_run sigs d = overlap_run (sg_capacity d) h sigs) as H.
  { apply (H [] (signature_dedup_new c)). by split; rewrite ?window_nil; try constructor. }
  induction sigs as [|[s feed] sigs IH]; intros h d R; [done|]. cbn.
  destruct (observe_repr h d s feed R) as (E1 & E2 & R').
  destruct (observe s feed d) as [dup d']. cbn in *. subst dup.
  by rewrite (IH _ _ R'), E2.
Qed.

(** ** The health monitor as a function of its history *)

Record HealthCheck := mkHealthCheck { hc_now : Z; hc_snap : FeedSnapshot; hc_rate : f64 }.

(** checks made during start-up or of a feed never subscribed are ignored *)
Definition counted (c : HealthCheck) : bool :=
  negb (fs_uptime_secs (hc_snap c) <? FEED_STARTUP_GRACE_SECS) && negb (fs_subscribed (hc_snap c) =? 0).

Definition silent (c : HealthCheck) : bool := (hc_rate c <? FEED_ZERO_RATE_EPS)%float.

(** the silent checks at the head of a history, the latest first *)
Fixpoint silent_run (past : list HealthCheck) : Z :=
  match past with
  | c :: past => if silent c then 1 + silent_run past else 0
  | [] => 0
  end.

Definition stalled_at (past : list HealthCheck) : bool :=
  match past with
  | c :: _ => (60 <? last_msg_age_secs (hc_now c) (hc_snap c)) || (3 <=? silent_run past)
  | [] => false
  end.

Definition health_answer (past : list HealthCheck) (c : HealthCheck) : FeedHealthEvent :=
  if counted c then
    if stalled_at (c :: past) then HealthStall
    else if stalled_at past then HealthRecovered else HealthOk
  else HealthOk.

(** the counted checks of one feed *)
Definition of_feed (name : string) (past : list HealthCheck) : list HealthCheck :=
  List.filter (fun c => counted c && String.eqb (fs_name (hc_snap c)) name) past.

Fixpoint health_spec (past cs : list HealthCheck) : list FeedHealthEvent :=
  match cs with
  | [] => []
  | c :: cs => health_answer (of_feed (fs_name (hc_snap c)) past) c :: health_spec (c :: past) cs
  end.

Fixpoint health_run (cs : list HealthCheck) (m : FeedHealthMonitor) : list FeedHealthEvent :=
  match cs with
  | [] => []
  | c :: cs => let '(e, m) := evaluate (hc_now c) (hc_snap c) (hc_rate c) m in e :: health_run cs m
  end.

Definition monitors (past : list HealthCheck) (m : FeedHealthMonitor) : Prop :=
  forall name,
    zero_rate_streak name m = Z.min U32_MAX (silent_run (of_feed name past)) /\
    default false (hm_was_stalled m !! name) = stalled_at (of_feed name past).

Lemma silent_run_nonneg past : 0 <= silent_run past.
Proof. induction past as [|c past IH]; cbn [silent_run]; [done|]. destruct (silent c); lia. Qed.

Lemma streak_step past c :
  (if silent c then sat_add U32_MAX (Z.min U32_MAX (silent_run past)) 1 else 0) =
    Z.min U32_MAX (silent_run (c :: past)).
Proof.
  cbn [silent_run]. pose proof (silent_run_nonneg past). unfold sat_add, U32_MAX.
  destruct (silent c); lia.
Qed.

Lemma streak_stalled past : (3 <=? Z.min U32_MAX (silent_run past)) = (3 <=? silent_run past).
Proof.
  unfold U32_MAX. destruct (Z.leb_spec 3 (silent_run past)).
  - apply Z.leb_le. lia.
  - apply Z.leb_gt. lia.
Qed.

Lemma evaluate_monitors past m c :
  monitors past m ->
  let r := evaluate (hc_now c) (hc_snap c) (hc_rate c) m in
  r.1 = health_answer (of_feed (fs_name (hc_snap c)) past) c /\ monitors (c :: past) r.2.
Proof.
  intros M. cbn zeta. unfold evaluate, health_answer, monitors, of_feed. cbn [List.filter].
  destruct (fs_uptime_secs (hc_snap c) <? FEED_STARTUP_GRACE_SECS) eqn:U.
  { unfold counted. rewrite U. cbn. done. }
  destruct (fs_subscribed (hc_snap c) =? 0) eqn:Sb.
  { unfold counted. rewrite U, Sb. cbn. done. }
  assert (counted c = true) as C by (unfold counted; by rewrite U, Sb).
  rewrite C. cbn [fst snd]. fold (silent c).
  set (name := fs_name (hc_snap c)) in *. fold (of_feed name past).
  pose proof (M name) as [Ms Mw]. rewrite Ms, Mw, streak_step.
  unfold FEED_STALL_MSG_AGE_SECS, FEED_ZERO_RATE_STREAK. rewrite streak_stalled.
  split; [done|]. intros n. unfold zero_rate_streak. cbn [hm_zero_rate_streak hm_was_stalled].
  cbn [andb]. destruct (String.eqb_spec name n) as [<-|Hne].
  - by rewrite !lookup_insert_eq.
  - rewrite !lookup_insert_ne by done. apply M.
Qed.

(** The answers of the health monitor are a function of the checks alone:
    checks in the start-up grace or of a feed never subscribed answer Ok and
    leave no trace; a counted check reports a stall exactly when the last
    message is more than 60 s old or the feed's last three counted checks were
    all silent, and reports a recovery exactly when it is not stalled and the
    feed's previous counted check was. *)
Theorem health_run_refines_history cs :
  health_run cs health_monitor_new = health_spec [] cs.
Proof.
  enough (forall past m, monitors past m -> health_run cs m = health_spec past cs) as H
    by (apply H; intros name; done).
  induction cs as [|c cs IH]; intros past m M; [done|]. cbn.
  destruct (evaluate_monitors past m c M) as [E M'].
  destruct (evaluate _ _ _ m) as [e m']. cbn in *. subst e. by rewrite (IH _ _ M').
Qed.
