(* ===== verification/Ingest.v ===== *)
(** The ingestion of the log streams ([feed/logs_feed.rs]) and the consumer that
    turns launch-pad events into general actions ([pipelines/pump.rs]).

    A subscription is folded over what the outside does: the instants the
    items of the stream are ready at, the time the task spends between them, the
    signatures other feeds put in the shared deduplicator, the connections that
    fail.  What a wait for an item gives, and when it ends, is computed: [timeout]
    races the item against the idle budget that is left.  [T::from_str] is the
    argument [from_str]; instants are nanoseconds on one clock, which the
    subscription carries ([su_clock]). *)
From S2P Require Import Prelude Amounts Pump Swarm Text Feed.

(** ** The subscription loop *)

(* feed/logs_feed.rs 21-21: RECONNECT_BACKOFF_INITIAL_MS *)
Definition RECONNECT_BACKOFF_INITIAL_MS : Z := 1000.
(* feed/logs_feed.rs 22-22: RECONNECT_BACKOFF_MAX_MS *)
Definition RECONNECT_BACKOFF_MAX_MS : Z := 60000.
(* feed/logs_feed.rs 30-30: STREAM_USEFUL_IDLE_TIMEOUT_SECS *)
Definition STREAM_USEFUL_IDLE_TIMEOUT_SECS : Z := 15.
(* feed/logs_feed.rs 32-32: SELF_DEDUP_CAPACITY *)
Definition SELF_DEDUP_CAPACITY : nat := Z.to_nat 4096.
(* feed/logs_feed.rs 33-33: PROGRAM_DATA_PREFIX *)
Definition PROGRAM_DATA_PREFIX : string := "Program data: ".

(** a log notification, with the Unix time it is counted at *)
Record LogInfo := mkLogInfo {
  li_slot : Z;
  li_signature : string;
  li_logs : list string;
  li_err : bool;
  li_unix : Z
}.

(** what the outside brings to one turn of the loop: the next item of the stream
    (a message, or [None] for its end) with the instant it is ready at, or no
    item at all; how late the timer wakes the task, how long the task works on
    the item until it forwards its last event, and how long it takes from there
    to the next reading of the clock.  Between two turns another feed may observe
    a signature. *)
Inductive poll :=
  | Poll (next : option (Z * option LogInfo)) (late work lag : N)
  | OtherFeed (signature feed : string).

(** [tokio::time::timeout]: the instant the wait of at most [d] from [now] ends
    at, with the item, or [None] when the time has elapsed.  The future is asked
    before the timer, so an item ready when the timer wakes the task still
    wins. *)
Definition timeout {A} (now d late : Z) (next : option (Z * A)) : Z * option A :=
  match next with
  | Some (ready, x) => if ready <=? now + d + late then (Z.max now ready, Some x) else (now + d + late, None)
  | None => (now + d + late, None)
  end.

Inductive session_end := WatchdogFired | StreamClosed | ReceiverDropped | StillOpen.
#[export] Instance session_end_eq_dec : EqDecision session_end.
Proof. solve_decision. Defined.

Section Subscribe.
Context {T E : Type} (from_str : string -> result T E).

(** the feed, its deduplicators, the clock, and the channel: the events sent so
    far and how many more the receiver takes before it is dropped *)
Record Sub := mkSub {
  su_metrics : FeedMetrics;
  su_self : SelfDedup;
  su_cross : SignatureDedup;
  su_last_event : Z;
  su_clock : Z;
  su_sent : list (Z * T);
  su_room : option nat
}.
#[export] Instance Sub_settable : Settable Sub :=
  fun s => mkSub (su_metrics s) (su_self s) (su_cross s) (su_last_event s) (su_clock s) (su_sent s) (su_room s).

Definition count (f : FeedMetrics -> FeedMetrics) (s : Sub) : Sub := s <| su_metrics := f (su_metrics s) |>.

(** [Sender::send]: false when the receiver is gone *)
Definition send (x : Z * T) (s : Sub) : bool * Sub :=
  match su_room s with
  | Some O => (false, s)
  | Some (S n) => (true, s <| su_sent := su_sent s ++ [x] |> <| su_room := Some n |>)
  | None => (true, s <| su_sent := su_sent s ++ [x] |>)
  end.

Definition is_program_data (log : string) : bool := starts_with PROGRAM_DATA_PREFIX log.

(** the lines of a message; false when the receiver is gone *)
(* feed/logs_feed.rs 155-183: Feed::subscribe *)
Fixpoint forward_lines (slot : Z) (logs : list string) (s : Sub) : bool * Sub :=
  match logs with
  | [] => (true, s)
  | log :: logs =>
      if negb (is_program_data log) then forward_lines slot logs s
      else
        match from_str log with
        | Ok event =>
            let s := count note_event s <| su_last_event := su_clock s |> in
            let '(sent, s) := send (slot, event) s in
            if sent then forward_lines slot logs s else (false, s)
        | Err _ => forward_lines slot logs (count note_parse_error s)
        end
  end.

(* feed/logs_feed.rs 90-98: Feed::subscribe *)
Definition message_bytes (log_info : LogInfo) : Z :=
  u64 (List.fold_left (fun a l => a + Z.of_nat (String.length l)) (li_logs log_info) 0
       + Z.of_nat (String.length (li_signature log_info))).

(* feed/logs_feed.rs 121-130: Feed::subscribe *)
Definition observe_cross (signature : string) (s : Sub) : Sub :=
  if String.eqb signature "" then s
  else
    let '(dup, cross) := observe signature (fm_name (su_metrics s)) (su_cross s) in
    let s := s <| su_cross := cross |> in
    if dup then count note_cross_dup s else s.

(* feed/logs_feed.rs 89-184: Feed::subscribe *)
Definition handle_log (log_info : LogInfo) (s : Sub) : bool * Sub :=
  let signature := li_signature log_info in
  let s := count (note_message (li_unix log_info) (message_bytes log_info)) s in
  if li_err log_info then (true, count note_dropped_failed_tx (count note_err_log s))
  else
    let '(dup, self_dedup) :=
      if String.eqb signature "" then (false, su_self s) else check_and_remember signature (su_self s) in
    let s := s <| su_self := self_dedup |> in
    if dup then (true, count note_dropped_self_dup s)
    else
      let s := observe_cross signature s in
      let total_lines := Z.of_nat (length (li_logs log_info)) in
      let program_data_lines := Z.of_nat (length (List.filter is_program_data (li_logs log_info))) in
      let s := count (add_lines total_lines program_data_lines) s in
      if program_data_lines =? 0 then (true, count note_dropped_no_program_data s)
      else forward_lines (li_slot log_info) (li_logs log_info) s.

(* feed/logs_feed.rs 67-67: Feed::subscribe *)
Definition useful_idle : Z := STREAM_USEFUL_IDLE_TIMEOUT_SECS * 1000000000.

(** [last_event.elapsed()], which saturates at zero *)
(* feed/logs_feed.rs 76-76: Feed::subscribe *)
Definition waited (s : Sub) : Z := Z.max 0 (su_clock s - su_last_event s).

(** the turns of one subscription; one whose turns run out is waiting for the
    next item.  An elapsed wait leaves the item in the stream; the next reading of
    the clock is then past the idle limit ([elapsed_fires]). *)
(* feed/logs_feed.rs 67-195: Feed::subscribe *)
Fixpoint session (polls : list poll) (s : Sub) : session_end * Sub :=
  if useful_idle <=? waited s then (WatchdogFired, count note_idle_reconnect s)
  else
    let remaining := useful_idle - waited s in
    match polls with
    | [] => (StillOpen, s)
    | OtherFeed signature feed :: polls =>
        session polls (s <| su_cross := (observe signature feed (su_cross s)).2 |>)
    | Poll next late work lag :: polls =>
        let '(woken, item) := timeout (su_clock s) remaining (Z.of_N late) next in
        match item with
        | Some (Some log_info) =>
            let '(ok, s) := handle_log log_info (s <| su_clock := woken + Z.of_N work |>) in
            if ok then session polls (s <| su_clock := su_clock s + Z.of_N lag |>) else (ReceiverDropped, s)
        | Some None => (StreamClosed, s <| su_clock := woken |>)
        | None => session polls (s <| su_clock := woken + Z.of_N lag |>)
        end
    end.

(** a turn of the outer loop: the connection fails, or a subscription starts at
    an instant and is polled; [nanos] is the sub-second clock the jitter reads *)
Record attempt := mkAttempt {
  at_session : option (Z * list poll);
  at_nanos : Z
}.

Record Subscriber := mkSubscriber {
  sb_backoff_ms : Z;
  sb_failures : Z;
  sb_sub : Sub
}.
#[export] Instance Subscriber_settable : Settable Subscriber :=
  fun s => mkSubscriber (sb_backoff_ms s) (sb_failures s) (sb_sub s).

(* feed/logs_feed.rs 233-242: pseudo_jitter_ms *)
Definition pseudo_jitter_ms (nanos span_ms : Z) : Z :=
  if span_ms =? 0 then 0 else nanos mod span_ms.

(* feed/logs_feed.rs 53-222: Feed::subscribe *)
Definition attempt_session (a : option (Z * list poll)) (b : Subscriber) : session_end * Subscriber :=
  match a with
  | None => (StreamClosed, b <| sb_sub := count note_stream_error (sb_sub b) |>)
  | Some (start, polls) =>
      let sub := count note_subscribed (sb_sub b) <| su_last_event := start |> <| su_clock := start |> in
      let '(ended, sub) := session polls sub in
      (ended, mkSubscriber RECONNECT_BACKOFF_INITIAL_MS 0 sub)
  end.

(** the sleep before the next connection *)
(* feed/logs_feed.rs 199-228: Feed::subscribe *)
Definition reconnect (nanos : Z) (b : Subscriber) : Z * Subscriber :=
  let b := b <| sb_failures := u64 (sb_failures b + 1) |>
             <| sb_sub := count note_reconnect (sb_sub b) |> in
  let jitter_ms := pseudo_jitter_ms nanos (sb_backoff_ms b / 4) in
  let sleep_ms := sat_add U64_MAX (sb_backoff_ms b) jitter_ms in
  (sleep_ms, b <| sb_backoff_ms := Z.min (sat_mul U64_MAX (sb_backoff_ms b) 2) RECONNECT_BACKOFF_MAX_MS |>).

(** [subscribe] never returns: how its sessions ended, each with the sleep after
    it; a session whose polls run out is still open *)
(* feed/logs_feed.rs 39-230: Feed::subscribe *)
Fixpoint subscribe (attempts : list attempt) (b : Subscriber) : list (session_end * Z) * Subscriber :=
  match attempts with
  | [] => ([], b)
  | a :: attempts =>
      let '(ended, b) := attempt_session (at_session a) b in
      if decide (ended = StillOpen) then ([(StillOpen, 0)], b)
      else
        let '(sleep_ms, b) := reconnect (at_nanos a) b in
        let '(rs, b) := subscribe attempts b in ((ended, sleep_ms) :: rs, b)
  end.

(* feed/logs_feed.rs 45-50: Feed::subscribe *)
Definition subscriber_new (metrics : FeedMetrics) (dedup : SignatureDedup) (room : option nat) : Subscriber :=
  mkSubscriber RECONNECT_BACKOFF_INITIAL_MS 0
    (mkSub metrics (self_dedup_new SELF_DEDUP_CAPACITY) dedup 0 0 [] room).

(** ** What the feed forwards

    The reference keeps every signature let through and parses every
    program-data line of the messages it keeps. *)
Definition line_event (slot : Z) (log : string) : list (Z * T) :=
  if is_program_data log then match from_str log with Ok e => [(slot, e)] | Err _ => [] end else [].

Definition events_of (m : LogInfo) : list (Z * T) := li_logs m ≫= line_event (li_slot m).

(** the signatures let through once the message has been handled *)
Definition log_signature (c : nat) (h : list string) (m : LogInfo) : list string :=
  if li_err m || String.eqb (li_signature m) "" || bool_decide (li_signature m ∈ window c h) then h
  else h ++ [li_signature m].

Definition is_kept (c : nat) (h : list string) (m : LogInfo) : bool :=
  negb (li_err m) &&
  (String.eqb (li_signature m) "" || bool_decide (li_signature m ∉ window c h)).

Fixpoint kept (c : nat) (h : list string) (msgs : list LogInfo) : list LogInfo :=
  match msgs with
  | [] => []
  | m :: msgs => (if is_kept c h m then [m] else []) ++ kept c (log_signature c h m) msgs
  end.

Definition signatures (c : nat) (h : list string) (msgs : list LogInfo) : list string :=
  List.fold_left (log_signature c) msgs h.

(** the feed has an open receiver and its deduplicator stands for [h] *)
Record feeding (h : list string) (s : Sub) : Prop := {
  fd_self : self_dedup_repr h (su_self s);
  fd_room : su_room s = None
}.

Lemma feeding_same h s s' :
  su_self s' = su_self s -> su_room s' = su_room s -> feeding h s -> feeding h s'.
Proof. intros E1 E2 [R O]. split; by rewrite ?E1, ?E2. Qed.

Lemma forward_lines_open slot logs s :
  su_room s = None ->
  let r := forward_lines slot logs s in
  r.1 = true /\ su_self r.2 = su_self s /\ su_room r.2 = None /\
  su_sent r.2 = su_sent s ++ (logs ≫= line_event slot).
Proof.
  revert s. induction logs as [|l logs IH]; intros s O; cbn zeta.
  { cbn. by rewrite app_nil_r. }
  rewrite bind_cons. unfold line_event at 1. cbn [forward_lines].
  destruct (is_program_data l); cbn [negb]; [|by apply IH].
  destruct (from_str l) as [e|e]; [|by apply (IH (count note_parse_error s))].
  unfold send. cbn [su_room count set]. cbn. rewrite O. cbn.
  match goal with |- context [forward_lines _ _ ?s] => destruct (IH s O) as (A & B & C & D) end.
  split; [done|]. split; [done|]. split; [done|]. rewrite D. cbn. by rewrite <- app_assoc.
Qed.

Lemma events_none m :
  Z.of_nat (length (List.filter is_program_data (li_logs m))) = 0 -> events_of m = [].
Proof.
  intros H. unfold events_of. induction (li_logs m) as [|l logs IH]; [done|].
  rewrite bind_cons. unfold line_event at 1. cbn [List.filter] in H.
  destruct (is_program_data l); cbn [length] in H; [lia | by apply IH].
Qed.

Lemma observe_cross_fields signature s :
  su_self (observe_cross signature s) = su_self s /\ su_room (observe_cross signature s) = su_room s /\
  su_sent (observe_cross signature s) = su_sent s /\
  su_last_event (observe_cross signature s) = su_last_event s /\
  su_clock (observe_cross signature s) = su_clock s.
Proof.
  unfold observe_cross. case_match; [done|]. by destruct (observe _ _ _) as [[] ?].
Qed.

Lemma handle_log_open h m s :
  feeding h s ->
  let c := sd_capacity (su_self s) in
  let r := handle_log m s in
  r.1 = true /\ sd_capacity (su_self r.2) = c /\ feeding (log_signature c h m) r.2 /\
  su_sent r.2 = su_sent s ++ (if is_kept c h m then events_of m else []).
Proof.
  intros [R O]. cbn zeta. unfold handle_log, log_signature, is_kept. cbn.
  destruct (li_err m); cbn; [by rewrite app_nil_r|].
  assert (forall s', su_room s' = None ->
    let r := (if Z.of_nat (length (List.filter is_program_data (li_logs m))) =? 0
              then (true, count note_dropped_no_program_data s')
              else forward_lines (li_slot m) (li_logs m) s') in
    r.1 = true /\ su_self r.2 = su_self s' /\ su_room r.2 = None /\
    su_sent r.2 = su_sent s' ++ events_of m) as K.
  { intros s' O'. cbn zeta. destruct (Z.eqb_spec (Z.of_nat (length (List.filter is_program_data (li_logs m)))) 0).
    - cbn. by rewrite events_none, app_nil_r.
    - by apply forward_lines_open. }
  set (s1 := count (note_message _ _) s).
  assert (forall d, let s2 := s1 <| su_self := d |> in
    let s3 := count (add_lines (Z.of_nat (length (li_logs m)))
                (Z.of_nat (length (List.filter is_program_data (li_logs m)))))
                (observe_cross (li_signature m) s2) in
    su_self s3 = d /\ su_room s3 = None /\ su_sent s3 = su_sent s) as P.
  { intros d. cbn. destruct (observe_cross_fields (li_signature m) (s1 <| su_self := d |>))
      as (E1 & E2 & E3 & _ & _). by rewrite E1, E2, E3. }
  destruct (String.eqb_spec (li_signature m) "") as [Hs|Hs]; cbn [orb].
  - destruct (P (su_self s)) as (P1 & P2 & P3).
    destruct (K _ P2) as (K1 & K2 & K3 & K4). split; [exact K1|].
    cbn [negb andb]. rewrite K2, P1. split; [done|].
    split; [split; [by rewrite K2, P1|exact K3]|]. by rewrite K4, P3.
  - destruct (check_and_remember_repr h _ (li_signature m) R) as (E1 & E2 & R').
    destruct (check_and_remember (li_signature m) (su_self s)) as [dup d]. cbn in E1, E2, R'. subst dup.
    destruct (decide (li_signature m ∈ window (sd_capacity (su_self s)) h)) as [I|I].
    + rewrite !bool_decide_true in * by done. rewrite bool_decide_false by naive_solver. cbn.
      rewrite app_nil_r. split; [done|]. split; [done|]. split; [by split|done].
    + rewrite bool_decide_false in R' by done. rewrite bool_decide_false, bool_decide_true by done.
      destruct (P d) as (P1 & P2 & P3).
      destruct (K _ P2) as (K1 & K2 & K3 & K4). split; [exact K1|].
      cbn [negb andb]. rewrite K2, P1. split; [done|].
      split; [split; [by rewrite K2, P1|exact K3]|]. by rewrite K4, P3.
Qed.

(** the messages a stream delivers before it closes *)
Fixpoint delivered (polls : list poll) : list LogInfo :=
  match polls with
  | Poll (Some (_, Some m)) _ _ _ :: polls => m :: delivered polls
  | Poll (Some (_, None)) _ _ _ :: _ => []
  | _ :: polls => delivered polls
  | [] => []
  end.

(** [h] becomes [h'] and [evs] are sent, by handling the messages [ms] *)
Record handles (c : nat) (h : list string) (s : Sub) (ms : list LogInfo) (s' : Sub) : Prop := {
  hs_cap : sd_capacity (su_self s') = c;
  hs_feeding : feeding (signatures c h ms) s';
  hs_sent : su_sent s' = su_sent s ++ (kept c h ms ≫= events_of)
}.

Lemma handles_nil c h s s' :
  sd_capacity (su_self s) = c -> feeding h s ->
  su_self s' = su_self s -> su_room s' = su_room s -> su_sent s' = su_sent s -> handles c h s [] s'.
Proof.
  intros C F E1 E2 E3. split; [by rewrite E1|by eapply feeding_same|]. by rewrite E3, app_nil_r.
Qed.

Lemma handles_cons c h s m ms s' :
  sd_capacity (su_self s) = c -> feeding h s ->
  handles c (log_signature c h m) (handle_log m s).2 ms s' -> handles c h s (m :: ms) s'.
Proof.
  intros C F [H1 H2 H3]. destruct (handle_log_open h m s F) as (_ & _ & _ & HE).
  rewrite C in HE. split; [done|done|].
  rewrite H3, HE, <- app_assoc. cbn [kept]. rewrite bind_app. f_equal. f_equal.
  case_match; [|done]. by rewrite bind_singleton.
Qed.

(** *** The clock of a subscription *)

Lemma forward_lines_clock slot logs s :
  let r := forward_lines slot logs s in
  su_clock r.2 = su_clock s /\ (su_last_event r.2 = su_last_event s \/ su_last_event r.2 = su_clock s).
Proof.
  revert s. induction logs as [|l logs IH]; intros s; cbn zeta; [by auto|]. cbn [forward_lines].
  destruct (is_program_data l); cbn [negb]; [|by apply IH].
  destruct (from_str l); [|by apply (IH (count note_parse_error s))].
  unfold send. cbn. destruct (su_room s) as [[|k]|]; cbn; [by auto|..];
    match goal with |- context [forward_lines _ _ ?s] => destruct (IH s) as [E1 [E2|E2]] end;
    rewrite E1, E2; cbn; by auto.
Qed.

Lemma handle_log_clock m s :
  let r := handle_log m s in
  su_clock r.2 = su_clock s /\ (su_last_event r.2 = su_last_event s \/ su_last_event r.2 = su_clock s).
Proof.
  cbn zeta. unfold handle_log. cbn. destruct (li_err m); [by auto|].
  destruct (if String.eqb (li_signature m) "" then _ else _) as [[] d]; [by auto|].
  set (s1 := count (note_message _ _) s <| su_self := d |>).
  destruct (observe_cross_fields (li_signature m) s1) as (_ & _ & _ & F & G).
  case_match; [cbn; rewrite F, G; by auto|].
  match goal with |- context [forward_lines ?a ?l ?s] => destruct (forward_lines_clock a l s) as [E1 E2] end.
  rewrite E1. cbn in *. by rewrite F, G in *.
Qed.

(** what a wait gives, and when it ends *)
Lemma timeout_wakes {A} now d late (next : option (Z * A)) :
  0 <= d -> 0 <= late ->
  let r := timeout now d late next in
  now <= r.1 <= now + d + late /\ (r.2 = None -> r.1 = now + d + late).
Proof.
  intros D L. cbn zeta. unfold timeout. destruct next as [[ready x]|]; cbn; [|lia].
  destruct (Z.leb_spec ready (now + d + late)); cbn; [split; [lia|done]|lia].
Qed.

Lemma session_expired polls s :
  useful_idle <= waited s -> session polls s = (WatchdogFired, count note_idle_reconnect s).
Proof. intros H. destruct polls; cbn [session]; by rewrite (proj2 (Z.leb_le _ _) H). Qed.

(** an elapsed wait is the end of the subscription *)
Lemma elapsed_fires {A} late lag (next : option (Z * A)) polls s :
  waited s < useful_idle -> su_last_event s <= su_clock s ->
  (timeout (su_clock s) (useful_idle - waited s) (Z.of_N late) next).2 = None ->
  let s' := s <| su_clock := (timeout (su_clock s) (useful_idle - waited s) (Z.of_N late) next).1 + Z.of_N lag |> in
  su_clock s' = su_last_event s + useful_idle + Z.of_N late + Z.of_N lag /\
  session polls s' = (WatchdogFired, count note_idle_reconnect s').
Proof.
  intros W L N. cbn zeta.
  destruct (timeout_wakes (su_clock s) (useful_idle - waited s) (Z.of_N late) next) as [_ K]; [lia..|].
  rewrite (K N). unfold waited in *. cbn. split; [lia|]. apply session_expired. unfold waited. cbn. lia.
Qed.

Lemma session_open c h polls s :
  sd_capacity (su_self s) = c -> feeding h s -> su_last_event s <= su_clock s ->
  let r := session polls s in
  exists ms, ms `prefix_of` delivered polls /\ (r.1 <> WatchdogFired -> ms = delivered polls) /\
    handles c h s ms r.2.
Proof.
  revert h s. induction polls as [|p polls IH]; intros h s C F L; cbn zeta.
  { exists []. split; [done|]. split; [done|]. cbn [session]. destruct (useful_idle <=? waited s); by apply handles_nil. }
  assert (forall l s', su_self s' = su_self s -> su_room s' = su_room s -> su_sent s' = su_sent s ->
    exists ms, ms `prefix_of` l /\ (WatchdogFired <> WatchdogFired -> ms = l) /\
            handles c h s ms (count note_idle_reconnect s')) as Fire.
  { intros l s' ???. exists []. split; [apply prefix_nil|]. split; [done|]. by apply handles_nil. }
  cbn [session delivered]. destruct (Z.leb_spec useful_idle (waited s)) as [W|W]; [by apply Fire|].
  destruct p as [next late work lag|sig feed].
  2: { destruct (IH h (s <| su_cross := (observe sig feed (su_cross s)).2 |>)) as (ms & P & N & [H1 H2 H3]);
       [done|by apply (feeding_same h s)|done|]. exists ms. split; [done|]. by split. }
  pose proof (timeout_wakes (su_clock s) (useful_idle - waited s) (Z.of_N late) next) as [B _]; [lia..|].
  pose proof (elapsed_fires late lag next polls s W L) as El.
  destruct (timeout _ _ _ next) as [woken item] eqn:TO. cbn in B, El. destruct item as [item|].
  2: { destruct El as [_ ->]; [done|]. by apply Fire. }
  assert (exists ready, next = Some (ready, item)) as [ready ->].
  { unfold timeout in TO. destruct next as [[ready x]|]; [|done]. case_match; simplify_eq. by exists ready. }
  destruct item as [m|].
  2: { exists []. split; [done|]. split; [done|]. by apply handles_nil. }
  set (s1 := s <| su_clock := woken + Z.of_N work |>).
  assert (feeding h s1) as F1 by by apply (feeding_same h s).
  destruct (handle_log_open h m s1 F1) as (OK & C' & F' & _). change (sd_capacity (su_self s1)) with (sd_capacity (su_self s)) in *.
  rewrite C in F', C'. destruct (handle_log_clock m s1) as [K1 K2].
  destruct (handle_log m s1) as [ok s'] eqn:HL. cbn in OK, C', F', K1, K2. subst ok.
  set (s2 := s' <| su_clock := su_clock s' + Z.of_N lag |>).
  destruct (IH (log_signature c h m) s2 C') as (ms & P & N & [H1 H2 H3]);
    [by apply (feeding_same _ s')|cbn; lia|].
  exists (m :: ms). split; [by apply prefix_cons|]. split; [intros NW; by rewrite N|].
  assert (handles c h s1 (m :: ms) (session polls s2).2) as [G1 G2 G3].
  { apply handles_cons; [done..|]. rewrite HL. by split. }
  by split.
Qed.

Definition deliveries (a : attempt) : list LogInfo :=
  match at_session a with Some (_, polls) => delivered polls | None => [] end.

Lemma attempt_session_open c h a b :
  sd_capacity (su_self (sb_sub b)) = c -> feeding h (sb_sub b) ->
  let r := attempt_session (at_session a) b in
  exists ms, ms `prefix_of` deliveries a /\ (r.1 <> WatchdogFired -> ms = deliveries a) /\
    handles c h (sb_sub b) ms (sb_sub r.2).
Proof.
  intros C F. unfold deliveries. destruct (at_session a) as [[start polls]|]; cbn.
  - match goal with |- context [session polls ?s] => destruct (session_open c h polls s) as (ms & P & W & [H1 H2 H3]) end;
      [done|by eapply feeding_same; [..|exact F]|done|].
    exists ms. destruct (session _ _) as [e s']. cbn in *. split; [done|]. split; [done|]. by split.
  - exists []. split; [done|]. split; [done|]. by apply handles_nil.
Qed.

Lemma kept_app c h ms ms' : kept c h (ms ++ ms') = kept c h ms ++ kept c (signatures c h ms) ms'.
Proof.
  revert h. induction ms as [|m ms IH]; intros h; [done|]. cbn. by rewrite IH, app_assoc.
Qed.

Lemma handles_app c h s ms s' ms' s'' :
  handles c h s ms s' -> handles c (signatures c h ms) s' ms' s'' -> handles c h s (ms ++ ms') s''.
Proof.
  intros [A1 A2 A3] [B1 B2 B3]. split; [done| |].
  - unfold signatures in *. by rewrite fold_left_app.
  - by rewrite B3, A3, kept_app, bind_app, app_assoc.
Qed.

Lemma subscribe_open c h attempts b :
  sd_capacity (su_self (sb_sub b)) = c -> feeding h (sb_sub b) ->
  let r := subscribe attempts b in
  exists mss, Forall3 (fun ms a e => ms `prefix_of` deliveries a /\ (e.1 <> WatchdogFired -> ms = deliveries a))
      mss (take (length r.1) attempts) r.1 /\
    handles c h (sb_sub b) (concat mss) (sb_sub r.2).
Proof.
  revert h b. induction attempts as [|a attempts IH]; intros h b C F; cbn zeta.
  { exists []. split; [constructor|]. by apply handles_nil. }
  cbn [subscribe]. destruct (attempt_session_open c h a b C F) as (ms & P & W & Hh).
  destruct (attempt_session (at_session a) b) as [ended b1]. cbn in W, Hh.
  destruct (decide (ended = StillOpen)) as [->|Hne].
  - exists [ms]. cbn. rewrite take_0, app_nil_r. split; [|done]. repeat constructor; [done|]. by intros; apply W.
  - destruct (reconnect (at_nanos a) b1) as [sleep b2] eqn:RC.
    assert (su_self (sb_sub b2) = su_self (sb_sub b1) /\ su_room (sb_sub b2) = su_room (sb_sub b1)
            /\ su_sent (sb_sub b2) = su_sent (sb_sub b1)) as (E1 & E2 & E3)
      by (unfold reconnect in RC; by simplify_eq).
    destruct Hh as [H1 H2 H3].
    destruct (IH (signatures c h ms) b2) as (mss & P' & Hh'); [by rewrite E1|by eapply feeding_same|].
    destruct (subscribe attempts b2) as [rs b3]. cbn in *.
    exists (ms :: mss). split; [by constructor|]. cbn. eapply handles_app; [by split|].
    destruct Hh' as [B1 B2 B3]. split; [done|done|]. by rewrite B3, E3.
Qed.

(** C24: Across all its reconnections a feed with an open receiver forwards
    exactly the events of the program-data lines, in order, of the messages that
    did not fail and whose signature is not among the last 4096 it let through;
    it handles every message a connection delivers, unless the watchdog cut that
    connection, which drops an end of its messages. *)
Theorem feed_forwards_window metrics dedup attempts :
  let r := subscribe attempts (subscriber_new metrics dedup None) in
  exists mss,
    Forall3 (fun ms a e => ms `prefix_of` deliveries a /\ (e.1 <> WatchdogFired -> ms = deliveries a))
      mss (take (length r.1) attempts) r.1 /\
    su_sent (sb_sub r.2) = kept SELF_DEDUP_CAPACITY [] (concat mss) ≫= events_of.
Proof.
  cbn zeta.
  destruct (subscribe_open SELF_DEDUP_CAPACITY [] attempts (subscriber_new metrics dedup None))
    as (mss & P & [_ _ H]); [done|split; [apply self_dedup_new_repr|done]|].
  by exists mss.
Qed.

(** ** The counters balance

    What a feed did, in unbounded integers. *)
Record tally := mkTally {
  ta_failed : Z; ta_repeated : Z; ta_empty : Z; ta_kept : Z;
  ta_events : Z; ta_errors : Z; ta_lines : Z
}.
#[local] Instance tally_settable : Settable tally :=
  fun t => mkTally (ta_failed t) (ta_repeated t) (ta_empty t) (ta_kept t) (ta_events t) (ta_errors t) (ta_lines t).

(** the counters are the tally modulo [2^64] *)
Record tallied (t : tally) (m : FeedMetrics) : Prop := {
  tl_messages : fm_messages m = u64 (ta_failed t + ta_repeated t + ta_empty t + ta_kept t);
  tl_failed : fm_dropped_failed_tx m = u64 (ta_failed t);
  tl_err_logs : fm_err_logs m = u64 (ta_failed t);
  tl_repeated : fm_dropped_self_dup m = u64 (ta_repeated t);
  tl_empty : fm_dropped_no_program_data m = u64 (ta_empty t);
  tl_events : fm_events m = u64 (ta_events t);
  tl_errors : fm_parse_errors m = u64 (ta_errors t);
  tl_lines : fm_lines_program_data m = u64 (ta_lines t)
}.

(** every kept message has a program-data line, and every such line is either an
    event or a parse error, unless the receiver was dropped half-way *)
Record balanced (t : tally) (s : Sub) : Prop := {
  ba_tallied : tallied t (su_metrics s);
  ba_nonneg : 0 <= ta_failed t /\ 0 <= ta_repeated t /\ 0 <= ta_empty t /\ 0 <= ta_kept t /\
              0 <= ta_events t /\ 0 <= ta_errors t;
  ba_kept : ta_kept t <= ta_lines t;
  ba_lines : ta_events t + ta_errors t <= ta_lines t;
  ba_open : su_room s = None ->
    ta_events t + ta_errors t = ta_lines t /\ ta_events t = Z.of_nat (length (su_sent s))
}.

Lemma u64_add a n : u64 (u64 a + n) = u64 (a + n).
Proof. unfold wrap_u. by rewrite Zplus_mod_idemp_l. Qed.

#[local] Arguments wrap_u : simpl never.
Ltac tallying :=
  split; cbn in *;
  repeat match goal with H : ?a = u64 _ |- context [?a] => rewrite H end;
  rewrite ?u64_add; f_equal; lia.

(** the lines of a message not parsed yet are [n] of the tally's lines *)
Lemma forward_lines_balanced slot logs t s :
  tallied t (su_metrics s) ->
  let n := Z.of_nat (length (List.filter is_program_data logs)) in
  let r := forward_lines slot logs s in
  exists ev er, 0 <= ev /\ 0 <= er /\ ev + er <= n /\
    tallied (t <| ta_events := ta_events t + ev |> <| ta_errors := ta_errors t + er |>) (su_metrics r.2) /\
    (su_room r.2 = None -> ev + er = n /\ Z.of_nat (length (su_sent r.2)) = Z.of_nat (length (su_sent s)) + ev).
Proof.
  revert t s. induction logs as [|l logs IH]; intros t s H; cbn zeta.
  { exists 0, 0. cbn. split_and!; try lia. destruct H; tallying. }
  cbn [forward_lines List.filter]. destruct (is_program_data l); cbn [negb length]; [|by apply IH].
  destruct (from_str l) as [e|e].
  - unfold send. cbn. destruct (su_room s) as [[|n]|] eqn:O; cbn.
    + exists 1, 0. split_and!; try lia. { destruct H; tallying. } by rewrite O.
    + match goal with |- context [forward_lines slot logs ?s'] =>
        destruct (IH (t <| ta_events := ta_events t + 1 |>) s') as (ev & er & ? & ? & ? & Ht & Ho) end.
      { destruct H; tallying. }
      exists (ev + 1), er. split_and!; try lia. { destruct Ht; tallying. }
      intros N. apply Ho in N. cbn in N. rewrite length_app in N. cbn [length] in N. lia.
    + match goal with |- context [forward_lines slot logs ?s'] =>
        destruct (IH (t <| ta_events := ta_events t + 1 |>) s') as (ev & er & ? & ? & ? & Ht & Ho) end.
      { destruct H; tallying. }
      exists (ev + 1), er. split_and!; try lia. { destruct Ht; tallying. }
      intros N. apply Ho in N. cbn in N. rewrite length_app in N. cbn [length] in N. lia.
  - destruct (IH (t <| ta_errors := ta_errors t + 1 |>) (count note_parse_error s)) as (ev & er & ? & ? & ? & Ht & Ho).
    { destruct H; tallying. }
    exists ev, (er + 1). split_and!; try lia. { destruct Ht; tallying. }
    intros N. apply Ho in N. cbn in N. lia.
Qed.

Lemma observe_cross_metrics signature s :
  exists d, su_metrics (observe_cross signature s) = su_metrics s <| fm_duplicates_cross_feed := d |>.
Proof.
  unfold observe_cross. case_match; [exists (fm_duplicates_cross_feed (su_metrics s)); by destruct (su_metrics s)|].
  destruct (observe _ _ _) as [[] ?]; cbn; [by eexists|].
  exists (fm_duplicates_cross_feed (su_metrics s)). by destruct (su_metrics s).
Qed.

Lemma forward_lines_room slot logs s :
  su_room s <> None -> su_room (forward_lines slot logs s).2 <> None.
Proof.
  revert s. induction logs as [|l logs IH]; intros s R; [done|]. cbn [forward_lines].
  destruct (is_program_data l); cbn [negb]; [|by apply IH].
  destruct (from_str l); [|by apply IH].
  unfold send. cbn. destruct (su_room s) as [[|k]|] eqn:K; cbn; [congruence|by apply IH|done].
Qed.

Lemma handle_log_balanced t m s :
  balanced t s -> exists t', balanced t' (handle_log m s).2.
Proof.
  intros [H N K L O]. unfold handle_log. cbn.
  destruct (li_err m); cbn.
  { exists (t <| ta_failed := ta_failed t + 1 |>). split; cbn; [destruct H; tallying|lia..|done]. }
  destruct (if String.eqb (li_signature m) "" then _ else _) as [dup d].
  destruct dup; cbn.
  { exists (t <| ta_repeated := ta_repeated t + 1 |>). split; cbn; [destruct H; tallying|lia..|done]. }
  set (s1 := count (note_message _ _) s <| su_self := d |>).
  destruct (observe_cross_fields (li_signature m) s1) as (_ & F2 & F3 & _ & _).
  destruct (observe_cross_metrics (li_signature m) s1) as [dc FM].
  set (s2 := observe_cross (li_signature m) s1) in *.
  set (n := length (List.filter is_program_data (li_logs m))).
  destruct (Z.eqb_spec (Z.of_nat n) 0) as [Z|Z]; cbn.
  - exists (t <| ta_empty := ta_empty t + 1 |>). rewrite Z.
    split; cbn; rewrite ?FM, ?F2, ?F3; cbn; [destruct H; tallying|lia..|done].
  - set (s3 := count (add_lines _ _) s2).
    assert (tallied (t <| ta_kept := ta_kept t + 1 |> <| ta_lines := ta_lines t + Z.of_nat n |>) (su_metrics s3)) as H3.
    { unfold s3. cbn. rewrite FM. cbn. destruct H; tallying. }
    destruct (forward_lines_balanced (li_slot m) (li_logs m) _ s3 H3)
      as (ev & er & ? & ? & ? & Ht & Ho). fold n in Ho, H2.
    set (s4 := (forward_lines _ _ s3).2) in *.
    eexists. split; [exact Ht|cbn; lia..|].
    intros N4. pose proof N4 as N4'. apply Ho in N4 as [E1 E2].
    assert (su_room s = None) as R.
    { destruct (su_room s) as [k|] eqn:R; [|done]. exfalso.
      apply (forward_lines_room (li_slot m) (li_logs m) s3); [|done]. unfold s3. cbn. rewrite F2. unfold s1. cbn. congruence. }
    apply O in R as [R1 R2]. cbn. unfold s3 in E2. cbn in E2. rewrite F3 in E2. cbn in E2. lia.
Qed.

(** the counters of the connections *)
Definition connections (m : FeedMetrics) : Z * Z * Z * Z :=
  (fm_subscribed m, fm_reconnects m, fm_idle_reconnects m, fm_stream_errors m).

Lemma forward_lines_connections slot logs s :
  connections (su_metrics (forward_lines slot logs s).2) = connections (su_metrics s).
Proof.
  revert s. induction logs as [|l logs IH]; intros s; [done|]. cbn [forward_lines].
  destruct (is_program_data l); cbn [negb]; [|by apply IH].
  destruct (from_str l); [|by rewrite IH].
  unfold send. cbn. destruct (su_room s) as [[|k]|]; cbn; [done|by rewrite IH..].
Qed.

Lemma handle_log_connections m s :
  connections (su_metrics (handle_log m s).2) = connections (su_metrics s).
Proof.
  unfold handle_log. cbn. destruct (li_err m); [done|].
  destruct (if String.eqb (li_signature m) "" then _ else _) as [[] d]; [done|].
  destruct (Z.eqb_spec (Z.of_nat (length (List.filter is_program_data (li_logs m)))) 0); cbn;
    rewrite ?forward_lines_connections; cbn;
    match goal with |- context [observe_cross ?g ?s] => by destruct (observe_cross_metrics g s) as [? ->] end.
Qed.

Lemma session_balanced t polls s :
  balanced t s ->
  let r := session polls s in
  exists t', balanced t' r.2 /\
    connections (su_metrics r.2) =
      (fm_subscribed (su_metrics s), fm_reconnects (su_metrics s),
       (if decide (r.1 = WatchdogFired) then u64 (fm_idle_reconnects (su_metrics s) + 1)
        else fm_idle_reconnects (su_metrics s)), fm_stream_errors (su_metrics s)).
Proof.
  revert t s. induction polls as [|p polls IH]; intros t s B; cbn zeta;
    assert (balanced t (count note_idle_reconnect s)) as Fire
      by (destruct B as [H ? ? ? ?]; split; [destruct H; tallying|done..]).
  { cbn [session]. destruct (useful_idle <=? waited s); exists t; by split. }
  assert (forall k, balanced t (s <| su_clock := k |>)) as BC
    by (intros k; destruct B as [H ? ? ? ?]; by split).
  cbn [session]. destruct (useful_idle <=? waited s); [by exists t|].
  destruct p as [next late work lag|sig feed].
  - destruct (timeout _ _ _ next) as [woken [[m|]|]]; [|exists t; split; [apply BC|done]|exact (IH t _ (BC _))].
    destruct (handle_log_balanced t m _ (BC (woken + Z.of_N work))) as [t2 B2].
    pose proof (handle_log_connections m (s <| su_clock := woken + Z.of_N work |>)) as HC.
    destruct (handle_log m _) as [[] s'] eqn:HL; cbn in B2, HC; [|by exists t2].
    assert (balanced t2 (s' <| su_clock := su_clock s' + Z.of_N lag |>)) as B3
      by (destruct B2 as [H ? ? ? ?]; by split).
    destruct (IH t2 _ B3) as (t3 & B4 & E3). exists t3. split; [done|].
    injection HC as C1 C2 C3 C4. rewrite E3. cbn. by rewrite C1, C2, C3, C4.
  - assert (balanced t (s <| su_cross := (observe sig feed (su_cross s)).2 |>)) as B'
      by (destruct B as [H ? ? ? ?]; by split).
    exact (IH t _ B').
Qed.

(** how many results satisfy a boolean *)
Definition number {A} (f : A -> bool) (l : list A) : Z := Z.of_nat (length (List.filter f l)).

Lemma number_cons {A} (f : A -> bool) x l : number f (x :: l) = (if f x then 1 else 0) + number f l.
Proof. unfold number. cbn. destruct (f x); cbn [length]; lia. Qed.

Definition is_connected (a : attempt) : bool := match at_session a with Some _ => true | None => false end.

Lemma subscribe_balanced t attempts b c r i x :
  balanced t (sb_sub b) ->
  connections (su_metrics (sb_sub b)) = (u64 c, u64 r, u64 i, u64 x) ->
  let res := subscribe attempts b in
  let tried := take (length res.1) attempts in
  exists t', balanced t' (sb_sub res.2) /\
    connections (su_metrics (sb_sub res.2)) =
      (u64 (c + number is_connected tried),
       u64 (r + number (fun e => negb (bool_decide (e.1 = StillOpen))) res.1),
       u64 (i + number (fun e => bool_decide (e.1 = WatchdogFired)) res.1),
       u64 (x + number (fun a => negb (is_connected a)) tried)).
Proof.
  revert t b c r i x. induction attempts as [|a attempts IH]; intros t b c r i x B HC; cbn zeta.
  { exists t. split; [done|]. cbn. by rewrite !Z.add_0_r. }
  cbn [subscribe]. injection HC as C1 C2 C3 C4.
  assert (exists t1, balanced t1 (sb_sub (attempt_session (at_session a) b).2) /\
    connections (su_metrics (sb_sub (attempt_session (at_session a) b).2)) =
      (u64 (c + if is_connected a then 1 else 0), u64 r,
       u64 (i + if bool_decide ((attempt_session (at_session a) b).1 = WatchdogFired) then 1 else 0),
       u64 (x + if negb (is_connected a) then 1 else 0))) as (t1 & B1 & E1).
  { unfold is_connected. destruct (at_session a) as [[start polls]|]; cbn.
    - match goal with |- context [session polls ?s] =>
        destruct (session_balanced t polls s) as (t1 & B1 & E1) end.
      { destruct B as [H ? ? ? ?]. split; [destruct H; tallying|done..]. }
      exists t1. destruct (session polls _) as [e s']. cbn in B1, E1 |- *. split; [done|].
      rewrite E1, C1, C2, C3, C4. rewrite !u64_add, !Z.add_0_r.
      destruct (decide (e = WatchdogFired)) as [D|D];
        [by rewrite bool_decide_true|by rewrite bool_decide_false, Z.add_0_r].
    - exists t. split; [destruct B as [H ? ? ? ?]; split; [destruct H; tallying|done..]|].
      unfold connections, count. cbn. rewrite C1, C2, C3, C4, u64_add, !Z.add_0_r. done. }
  destruct (attempt_session (at_session a) b) as [e b1]. cbn in B1, E1.
  destruct (decide (e = StillOpen)) as [->|D].
  - exists t1. cbn. split; [done|]. rewrite E1, take_0. unfold number. cbn.
    by destruct (is_connected a); cbn; rewrite ?Z.add_0_r.
  - injection E1 as E1 E2 E3 E4.
    assert (exists sl b2, reconnect (at_nanos a) b1 = (sl, b2) /\ balanced t1 (sb_sub b2) /\
      connections (su_metrics (sb_sub b2)) =
        (u64 (c + if is_connected a then 1 else 0), u64 (r + 1),
         u64 (i + if bool_decide (e = WatchdogFired) then 1 else 0),
         u64 (x + if negb (is_connected a) then 1 else 0))) as (sl & b2 & -> & B2 & E').
    { unfold reconnect. do 2 eexists. split; [done|]. cbn. split.
      - destruct B1 as [H ? ? ? ?]; split; [destruct H; tallying|done..].
      - unfold connections, count. cbn. by rewrite E1, E2, E3, E4, u64_add. }
    destruct (IH _ _ _ _ _ _ B2 E') as (t3 & B3 & E5).
    destruct (subscribe attempts b2) as [rs b3]. cbn in B3, E5. exists t3. cbn. split; [done|].
    rewrite E5, !number_cons, !Z.add_assoc. cbn [fst]. by rewrite (bool_decide_false (e = StillOpen)).
Qed.

Lemma prefilter_exact t m :
  tallied t m -> 0 <= ta_failed t -> 0 <= ta_repeated t -> 0 <= ta_empty t -> 0 <= ta_kept t ->
  ta_failed t + ta_repeated t + ta_empty t + ta_kept t < 2 ^ 64 ->
  processed_after_prefilter m = Z.max 1 (ta_kept t).
Proof.
  intros [] ? ? ? ? ?. unfold processed_after_prefilter, sat_sub.
  rewrite tl_messages0, tl_failed0, tl_repeated0, tl_empty0.
  rewrite !wrap_u_small by (unfold in_u; lia). lia.
Qed.

(** The counters of a feed balance over any run with any failures: modulo
    [2^64] the messages are those failed, repeated, without program data and
    kept; the lines with program data are the events and the parse errors, and
    the events are those sent, while the receiver is open; every reconnection
    counted by the watchdog is a reconnection and every connection is counted.
    Below [2^64] messages the snapshot's saturating subtraction is exact: it
    yields the messages kept, or 1. *)
Theorem feed_counters_balance now name dedup room attempts :
  let res := subscribe attempts (subscriber_new (feed_metrics_new now name) dedup room) in
  let m := su_metrics (sb_sub res.2) in
  let tried := take (length res.1) attempts in
  exists t, balanced t (sb_sub res.2) /\
    fm_subscribed m = u64 (number is_connected tried) /\
    fm_stream_errors m = u64 (number (fun a => negb (is_connected a)) tried) /\
    fm_reconnects m = u64 (number (fun e => negb (bool_decide (e.1 = StillOpen))) res.1) /\
    fm_idle_reconnects m = u64 (number (fun e => bool_decide (e.1 = WatchdogFired)) res.1) /\
    (ta_failed t + ta_repeated t + ta_empty t + ta_kept t < 2 ^ 64 ->
     processed_after_prefilter m = Z.max 1 (ta_kept t)).
Proof.
  cbn zeta. set (b := subscriber_new _ _ _).
  destruct (subscribe_balanced (mkTally 0 0 0 0 0 0 0) attempts b 0 0 0 0) as (t & B & E').
  { split; cbn; [by split|lia..|done]. }
  { done. }
  exists t. injection E' as E1 E2 E3 E4. split; [done|].
  split; [exact E1|]. split; [exact E4|]. split; [exact E2|]. split; [exact E3|].
  intros Hlt. destruct B as [H N _ _ _]. apply (prefilter_exact t _ H); lia.
Qed.

(** ** The watchdog *)

(** junk: the stream stays open and no message has an event to forward *)
Definition junk (p : poll) : Prop :=
  match p with
  | Poll (Some (_, Some m)) _ _ _ => li_err m = true \/ events_of m = []
  | Poll (Some (_, None)) _ _ _ => False
  | _ => True
  end.

(** the timer and the task are late by at most [slack] in the turn *)
Definition punctual (slack : Z) (p : poll) : Prop :=
  match p with
  | Poll _ late work lag => Z.of_N late + Z.of_N work + Z.of_N lag <= slack
  | OtherFeed _ _ => True
  end.

(** the stream brings the turn an item by the instant [t] *)
Definition brings_by (t : Z) (p : poll) : Prop :=
  match p with
  | Poll (Some (ready, _)) _ _ _ => ready <= t
  | Poll None _ _ _ => False
  | OtherFeed _ _ => True
  end.

Lemma forward_lines_junk slot logs s :
  logs ≫= line_event slot = [] ->
  let r := forward_lines slot logs s in r.1 = true /\ su_last_event r.2 = su_last_event s.
Proof.
  revert s. induction logs as [|l logs IH]; intros s; [done|].
  rewrite bind_cons. unfold line_event at 1. cbn [forward_lines]. intros [H1 H2]%app_eq_nil.
  destruct (is_program_data l); cbn [negb]; [|by apply IH].
  destruct (from_str l); [done|]. by apply (IH (count note_parse_error s)).
Qed.

Lemma handle_log_junk m s :
  li_err m = true \/ events_of m = [] ->
  let r := handle_log m s in r.1 = true /\ su_last_event r.2 = su_last_event s.
Proof.
  intros J. cbn zeta. unfold handle_log. cbn. destruct (li_err m); [done|].
  destruct J as [J|J]; [done|].
  destruct (if String.eqb (li_signature m) "" then _ else _) as [[] d]; [done|].
  set (s1 := count (note_message _ _) s <| su_self := d |>).
  destruct (observe_cross_fields (li_signature m) s1) as (_ & _ & _ & F & _).
  case_match; [done|].
  match goal with |- context [forward_lines ?a ?l ?s] =>
    destruct (forward_lines_junk a l s J) as [E1 E2] end.
  by rewrite E1, E2.
Qed.

(** one turn of an open subscription that is not expired: an elapsed wait makes
    the next reading of the clock fire; an item is there in time, and the clock
    after it is within the slack of the deadline it leaves *)
Lemma turn_clock slack next late work lag polls s :
  punctual slack (Poll next late work lag) ->
  waited s < useful_idle -> su_last_event s <= su_clock s ->
  let r := timeout (su_clock s) (useful_idle - waited s) (Z.of_N late) next in
  let s1 := s <| su_clock := r.1 + Z.of_N lag |> in
  match r.2 with
  | None => su_last_event s + useful_idle <= su_clock s1 <= su_last_event s + useful_idle + slack /\
            session polls s1 = (WatchdogFired, count note_idle_reconnect s1)
  | Some item =>
      brings_by (su_last_event s + useful_idle + slack) (Poll next late work lag) /\
      su_clock s <= r.1 <= su_last_event s + useful_idle + slack - Z.of_N work - Z.of_N lag
  end.
Proof.
  intros P W L. cbn zeta. cbn in P.
  pose proof (timeout_wakes (su_clock s) (useful_idle - waited s) (Z.of_N late) next) as [B _]; [lia..|].
  pose proof (elapsed_fires late lag next polls s W L) as El. cbn zeta in El.
  assert (su_last_event s <= su_clock s -> su_clock s + (useful_idle - waited s) = su_last_event s + useful_idle)
    as D by (unfold waited; lia).
  unfold timeout in *. destruct next as [[ready x]|]; cbn in *.
  - destruct (Z.leb_spec ready (su_clock s + (useful_idle - waited s) + Z.of_N late)); cbn in *; [lia|].
    destruct El as [E1 E2]; [done|]. split; [lia|done].
  - destruct El as [E1 E2]; [done|]. split; [lia|done].
Qed.

Lemma session_clock slack polls s :
  0 <= slack -> Forall (punctual slack) polls ->
  su_last_event s <= su_clock s <= su_last_event s + useful_idle + slack ->
  let r := session polls s in
  let deadline := su_last_event r.2 + useful_idle in
  (r.1 = WatchdogFired -> deadline <= su_clock r.2 <= deadline + slack) /\
  (r.1 = StillOpen -> su_clock r.2 < deadline).
Proof.
  intros S. revert s. induction polls as [|p polls IH]; intros s P L; cbn zeta; cbn [session];
    destruct (Z.leb_spec useful_idle (waited s)) as [W|W]; unfold waited in W; cbn; try (split; [lia|done]).
  { split; [done|lia]. }
  inversion P as [|? ? P1 P2]; subst. destruct p as [next late work lag|sig feed].
  2: { set (s1 := s <| su_cross := _ |>). exact (IH s1 P2 L). }
  pose proof (turn_clock slack next late work lag polls s P1 W ltac:(lia)) as K. cbn zeta in K.
  destruct (timeout _ _ _ next) as [woken [[m|]|]]; cbn in K.
  - set (s1 := s <| su_clock := woken + Z.of_N work |>).
    destruct (handle_log_clock m s1) as [K1 K2]. change (su_clock s1) with (woken + Z.of_N work) in *.
    change (su_last_event s1) with (su_last_event s) in *.
    destruct (handle_log m s1) as [[] s']; cbn in K1, K2 |- *; [|done].
    cbn in P1. set (s2 := s' <| su_clock := _ |>). apply (IH s2 P2). cbn. lia.
  - done.
  - destruct K as [K ->]. cbn. split; [lia|done].
Qed.

(** however much junk arrives, the deadline stays where it is, and the
    subscription is open only if every item was there by then *)
Lemma session_junk slack polls s :
  Forall junk polls -> Forall (punctual slack) polls -> su_last_event s <= su_clock s ->
  let r := session polls s in
  su_last_event r.2 = su_last_event s /\
  (r.1 = WatchdogFired \/
   r.1 = StillOpen /\ Forall (brings_by (su_last_event s + useful_idle + slack)) polls).
Proof.
  revert s. induction polls as [|p polls IH]; intros s J P L; cbn zeta; cbn [session];
    destruct (Z.leb_spec useful_idle (waited s)) as [W|W]; cbn; try (split; [done|by left]).
  { split; [done|]. by right. }
  inversion J as [|? ? J1 J2]; inversion P as [|? ? P1 P2]; subst.
  destruct p as [next late work lag|sig feed].
  2: { set (s1 := s <| su_cross := _ |>). destruct (IH s1 J2 P2 L) as [I1 I2].
       split; [exact I1|]. destruct I2 as [I2|[I2 I3]]; [by left|right]. split; [done|by constructor]. }
  pose proof (turn_clock slack next late work lag polls s P1 W L) as K. cbn zeta in K.
  destruct (timeout _ _ _ next) as [woken item] eqn:TO. cbn [fst snd] in K.
  destruct item as [item|]; [|destruct K as [_ ->]; split; [done|by left]].
  assert (exists ready, next = Some (ready, item)) as [ready ->].
  { unfold timeout in TO. destruct next as [[ready x]|]; [|done]. case_match; simplify_eq. by exists ready. }
  destruct item as [m|]; [|done]. destruct K as [K1 K2].
  set (s1 := s <| su_clock := woken + Z.of_N work |>).
  destruct (handle_log_junk m s1 J1) as [E1 E2]. destruct (handle_log_clock m s1) as [E3 _].
  destruct (handle_log m s1) as [ok s']. cbn in E1, E2, E3. subst ok.
  set (s2 := s' <| su_clock := su_clock s' + Z.of_N lag |>).
  destruct (IH s2 J2 P2) as [I1 I2]; [cbn; lia|]. change (su_last_event s2) with (su_last_event s') in *.
  rewrite E2 in I1, I2. split; [exact I1|]. destruct I2 as [I2|[I2 I3]]; [by left|right].
  split; [done|]. by constructor.
Qed.

(** C25: The idle watchdog measures useful events, not traffic, and it is
    punctual: a subscription that it ends has forwarded its last event 15 seconds
    before, to the nanosecond when the timer and the task are never late, and
    otherwise not sooner and not later than the lateness of one turn; one that is
    still open forwarded an event less than 15 seconds ago.  However much junk
    arrives, the deadline stays where it is, and a stream that brings nothing by
    then is ended. *)
Theorem watchdog_sees_through_junk slack polls s :
  0 <= slack -> Forall (punctual slack) polls ->
  su_last_event s <= su_clock s <= su_last_event s + 15000000000 + slack ->
  let r := session polls s in
  let deadline := su_last_event r.2 + 15000000000 in
  (r.1 = WatchdogFired -> deadline <= su_clock r.2 <= deadline + slack) /\
  (r.1 = StillOpen -> su_clock r.2 < deadline) /\
  (Forall junk polls ->
   su_last_event r.2 = su_last_event s /\
   (r.1 = WatchdogFired \/ r.1 = StillOpen /\ Forall (brings_by (deadline + slack)) polls)).
Proof.
  intros S P L. cbn zeta. destruct (session_clock slack polls s S P L) as [H1 H2].
  split; [exact H1|]. split; [exact H2|]. intros J.
  destruct (session_junk slack polls s J P) as [H3 H4]; [lia|]. rewrite H3. by split.
Qed.

(** ** The reconnection backoff *)

(** the failures since the last working subscription, at each attempt *)
Fixpoint failures_before (n : nat) (attempts : list attempt) : list nat :=
  match attempts with
  | [] => []
  | a :: attempts =>
      let n := if is_connected a then O else n in n :: failures_before (S n) attempts
  end.

Definition backoff (n : nat) : Z := Z.min 60000 (1000 * 2 ^ Z.of_nat n).

Lemma backoff_next n :
  Z.min (sat_mul U64_MAX (backoff n) 2) RECONNECT_BACKOFF_MAX_MS = backoff (S n).
Proof.
  unfold backoff, sat_mul, U64_MAX, RECONNECT_BACKOFF_MAX_MS.
  rewrite Nat2Z.inj_succ, Z.pow_succ_r by lia. lia.
Qed.

Lemma backoff_range n : 1000 <= backoff n <= 60000.
Proof. unfold backoff. pose proof (Z.pow_pos_nonneg 2 (Z.of_nat n)). lia. Qed.

Lemma attempt_backoff a n b :
  sb_backoff_ms b = backoff n ->
  sb_backoff_ms (attempt_session (at_session a) b).2 = backoff (if is_connected a then O else n).
Proof.
  intros E0. unfold is_connected. destruct (at_session a) as [[start polls]|]; cbn; [|done].
  by destruct (session polls _).
Qed.

Lemma reconnect_backoff n nanos b :
  sb_backoff_ms b = backoff n ->
  let r := reconnect nanos b in
  backoff n <= r.1 < backoff n + backoff n / 4 /\ sb_backoff_ms r.2 = backoff (S n).
Proof.
  intros E0. cbn zeta. unfold reconnect. cbn. rewrite E0. split; [|apply backoff_next].
  pose proof (backoff_range n) as R. unfold pseudo_jitter_ms, sat_add, U64_MAX.
  assert (250 <= backoff n / 4 <= 15000) as Q by (split; [apply Z.div_le_lower_bound|apply Z.div_le_upper_bound]; lia).
  destruct (Z.eqb_spec (backoff n / 4) 0); [lia|].
  pose proof (Z.mod_pos_bound nanos (backoff n / 4)). lia.
Qed.

(** Before each reconnection the feed sleeps [min (60 s, 1 s * 2^n)] plus
    less than a quarter of it, where [n] counts the failed connections since the
    last working subscription: a reconnection after a working one, the
    watchdog's included, waits less than 1.25 s. *)
Theorem reconnect_backoff_bounds metrics dedup room attempts :
  let rs := (subscribe attempts (subscriber_new metrics dedup room)).1 in
  Forall2 (fun n r => r.1 = StillOpen \/ backoff n <= r.2 < backoff n + backoff n / 4)
    (take (length rs) (failures_before 0 attempts)) rs.
Proof.
  cbn zeta.
  enough (forall n b, sb_backoff_ms b = backoff n ->
    Forall2 (fun n r => r.1 = StillOpen \/ backoff n <= r.2 < backoff n + backoff n / 4)
      (take (length (subscribe attempts b).1) (failures_before n attempts)) (subscribe attempts b).1)
    as H by by apply H.
  induction attempts as [|a attempts IH]; intros n b E0; [constructor|].
  cbn [subscribe failures_before].
  pose proof (attempt_backoff a n b E0) as E1.
  destruct (attempt_session (at_session a) b) as [e b1]. cbn in E1.
  destruct (decide (e = StillOpen)) as [->|D].
  { cbn. rewrite take_0. repeat constructor. }
  destruct (reconnect_backoff _ (at_nanos a) b1 E1) as [R E2].
  destruct (reconnect (at_nanos a) b1) as [sl b2]. cbn in R, E2.
  specialize (IH _ b2 E2). destruct (subscribe attempts b2) as [rs b3]. cbn in *.
  constructor; [by right|exact IH].
Qed.

End Subscribe.

(** A receiver that is gone does not end the feed: it reconnects as after any
    clean end of the stream. *)
Example dropped_receiver_reconnects :
  let parse (s : string) : result nat unit := Ok O in
  let msg sig := mkLogInfo 7 sig ["Program data: xyz"%string] false 0 in
  let a := mkAttempt (Some (0, [Poll (Some (0, Some (msg "a"%string))) 0 0 0])) 0 in
  let b := mkAttempt (Some (0, [Poll (Some (0, Some (msg "b"%string))) 0 0 0])) 0 in
  (subscribe parse [a; b] (subscriber_new (feed_metrics_new 0 "pumpswap") (signature_dedup_new 8) (Some O))).1
    = [(ReceiverDropped, 1000); (ReceiverDropped, 1000)].
Proof. vm_compute. reflexivity. Qed.

(** ** The consumer of launch-pad events *)

Section Consumer.
Context (bounding_curve pool_pda : Address -> Address).

(** one event: the launch-pad storage after its commands, and what is sent on *)
(* pipelines/pump.rs 106-159: PumpPipeline::run *)
Definition consume (mayhem : bool) (s : PumpLaunchpadStorage) (slot : Z) (event : PumpEvent)
    : PumpLaunchpadStorage * option (Z * Action * TokenBucket) :=
  let mint := pump_event_mint event in
  let ask := listen_step bounding_curve pool_pda in
  let wrong_mode :=
    match event with
    | PumpCreate create => negb (Bool.eqb (ce_is_mayhem_mode create) mayhem)
    | PumpTrade _ => false
    end in
  if wrong_mode then (s, None)
  else
    match ask s (Event slot event) with
    | (s, ReplyFinished) =>
        match ask s (TokenExists mint) with
        | (s, ReplyExists true) =>
            match ask s (GetBucket mint) with
            | (s, ReplyBucket bucket) => (s, Some (slot, action_of_pump event, bucket))
            | (s, _) => (s, None)
            end
        | (s, _) => (s, None)
        end
    | (s, _) => (s, None)
    end.

(* pipelines/pump.rs 104-161: PumpPipeline::run *)
Fixpoint run_consumer (mayhem : bool) (s : PumpLaunchpadStorage) (events : list (Z * PumpEvent))
    : PumpLaunchpadStorage * list (Z * Action * TokenBucket) :=
  match events with
  | [] => (s, [])
  | (slot, event) :: events =>
      let '(s, sent) := consume mayhem s slot event in
      let '(s, rest) := run_consumer mayhem s events in
      (s, match sent with Some x => x :: rest | None => rest end)
  end.

(** the create admitted for a token by the events so far *)
Definition admits (mayhem : bool) (mint : Address) (e : PumpEvent) : bool :=
  match e with
  | PumpCreate c => Bool.eqb (ce_is_mayhem_mode c) mayhem && bool_decide (pool_pda (ce_mint c) = pool_pda mint)
  | PumpTrade _ => false
  end.

Definition passes (mayhem : bool) (past : list PumpEvent) (e : PumpEvent) : bool :=
  match e with
  | PumpCreate c => Bool.eqb (ce_is_mayhem_mode c) mayhem
  | PumpTrade t => existsb (admits mayhem (te_mint t)) past
  end.

Fixpoint passed (mayhem : bool) (past : list PumpEvent) (events : list (Z * PumpEvent)) : list (Z * PumpEvent) :=
  match events with
  | [] => []
  | (slot, e) :: events =>
      (if passes mayhem past e then [(slot, e)] else []) ++ passed mayhem (e :: past) events
  end.

(** the storage knows the tokens admitted so far *)
Definition knows (mayhem : bool) (past : list PumpEvent) (s : PumpLaunchpadStorage) : Prop :=
  forall m, bool_decide (is_Some (tokens s !! pool_pda m)) = existsb (admits mayhem m) past.

(** the bucket sent with an event serves the event's token *)
Definition serves (x : Z * Action * TokenBucket) : Prop :=
  pool_pda (mint (bucket_pool x.2)) = pool_pda (action_mint x.1.2).

Lemma consume_passes mayhem past s slot e :
  storage_ok pool_pda s -> knows mayhem past s ->
  let r := consume mayhem s slot e in
  storage_ok pool_pda r.1 /\ knows mayhem (e :: past) r.1 /\
  match r.2 with
  | Some x => passes mayhem past e = true /\ x.1 = (slot, action_of_pump e) /\ serves x
  | None => passes mayhem past e = false
  end.
Proof.
  intros O K. cbn zeta. unfold consume.
  pose proof (react_ok bounding_curve pool_pda s e slot O) as O'.
  destruct e as [c|t]; cbn [passes].
  - destruct (Bool.eqb (ce_is_mayhem_mode c) mayhem) eqn:M; cbn [negb].
    + cbn in O' |- *. rewrite !lookup_insert_eq. cbn. split; [exact O'|]. split; [|done].
      intros m. cbn. rewrite M. cbn. destruct (decide (pool_pda (ce_mint c) = pool_pda m)) as [E|E].
      * rewrite <- E, lookup_insert_eq. by rewrite !bool_decide_true.
      * rewrite lookup_insert_ne by done. rewrite (bool_decide_false (pool_pda (ce_mint c) = _)) by done. apply K.
    + cbn. split; [done|]. split; [|done]. intros m. cbn. rewrite M. apply K.
  - cbn in O' |- *. pose proof (K (te_mint t)) as Kt.
    destruct (tokens s !! pool_pda (te_mint t)) as [b|] eqn:B; cbn in O' |- *.
    + rewrite !lookup_insert_eq. cbn. split; [exact O'|]. split; [|split; [done|]].
      * intros m. cbn. rewrite <- K. destruct (decide (pool_pda (te_mint t) = pool_pda m)) as [E|E].
        -- rewrite <- E, lookup_insert_eq, B. by rewrite !bool_decide_true.
        -- by rewrite lookup_insert_ne.
      * split; [done|]. unfold serves. cbn.
        assert (trade_mint (trade_of_pump t) = te_mint t) as -> by (unfold trade_of_pump; by destruct (te_is_buy t)).
        apply (so_key pool_pda s O) in B. rewrite B. by destruct (bucket_pool b) as [[]].
    + split; [done|]. split; [|done]. intros m. apply K.
Qed.

(** From an empty launch pad the consumer sends on, in order, exactly the
    creates of its mode and the trades of tokens whose create it admitted before,
    each with the bucket of its own token; a trade seen before its create is
    dropped. *)
Theorem consumer_sends_known_tokens mayhem threshold events :
  let sent := (run_consumer mayhem (storage_new threshold) events).2 in
  sent.*1 = (fun x => (x.1, action_of_pump x.2)) <$> passed mayhem [] events /\ Forall serves sent.
Proof.
  cbn zeta.
  enough (forall past s, storage_ok pool_pda s -> knows mayhem past s ->
    (run_consumer mayhem s events).2.*1 = (fun x => (x.1, action_of_pump x.2)) <$> passed mayhem past events
    /\ Forall serves (run_consumer mayhem s events).2) as H.
  { apply H; [apply storage_new_ok|]. intros m. cbn. by rewrite lookup_empty. }
  induction events as [|[slot e] events IH]; intros past s O K; [done|]. cbn [run_consumer passed].
  destruct (consume_passes mayhem past s slot e O K) as (O' & K' & R).
  destruct (consume mayhem s slot e) as [s' sent]. cbn in O', K', R.
  destruct (IH _ s' O' K') as [I1 I2].
  destruct (run_consumer mayhem s' events) as [s'' rest]. cbn in I1, I2 |- *.
  destruct sent as [x|].
  - destruct R as (-> & E1 & Sv). cbn. rewrite E1, I1. split; [done|]. by constructor.
  - rewrite R. cbn. done.
Qed.

End Consumer.

(** a stream that delivers a failed or empty transaction every four seconds and
    is never late *)
Definition trickle : list poll :=
  (fun k => Poll (Some (4000000000 * k, Some (mkLogInfo k "" ["Program log: x"%string] (Z.even k) k))) 0 0 0)
    <$> [1; 2; 3; 4; 5].

(** It is ended at 15 s sharp, between two messages, where a wait of the whole
    window would end at 20 s or never; the same for a silent stream. *)
Example junk_is_cut_at_fifteen :
  let parse (s : string) : result nat unit := Err () in
  let s0 := mkSub (feed_metrics_new 0 "pump") (self_dedup_new 8) (signature_dedup_new 8) 0 0 [] None in
  let run polls := let r := session parse polls s0 in (r.1, su_clock r.2) in
  run trickle = (WatchdogFired, 15000000000) /\
  run [Poll None 0 0 0] = (WatchdogFired, 15000000000) /\
  run (take 3 trickle) = (StillOpen, 12000000000).
Proof. vm_compute. done. Qed.

Lemma watchdog_sees_through_junk_witness :
  let parse (s : string) : result nat unit := Err () in
  let s0 := mkSub (feed_metrics_new 0 "pump") (self_dedup_new 8) (signature_dedup_new 8) 0 0 [] None in
  let r := session parse trickle s0 in
  r.1 = WatchdogFired /\ 15000000000 <= su_clock r.2 <= 15000000000.
Proof.
  cbn zeta.
  destruct (watchdog_sees_through_junk (fun _ => Err () : result nat unit) 0 trickle
    (mkSub (feed_metrics_new 0 "pump") (self_dedup_new 8) (signature_dedup_new 8) 0 0 [] None))
    as (Fired & _ & Junk).
  - reflexivity.
  - repeat (constructor; [vm_compute; discriminate|]). constructor.
  - split; vm_compute; discriminate.
  - destruct Junk as [Last [F|[_ B]]].
    + do 5 (constructor; [right; vm_compute; reflexivity|]). constructor.
    + split; [exact F|]. rewrite Last in Fired. exact (Fired F).
    + exfalso. rewrite Last in B. pose proof (Forall_lookup_1 _ _ 3%nat _ B eq_refl) as X. apply X. vm_compute. reflexivity.
Defined.
