(* ===== verification/Pipeline.v ===== *)
(** The entry pipeline ([pipeline/score_buy.rs]): from a new token to the
    [InitiateBuy] the position manager receives.

    What the awaited services answer (the tape windows, the registries, the
    wallets' traders, the operator's cap) is an argument; what the task does is
    a list of events.  A gate returns early with [skip] as the code does, after
    the row of the learning log.  The panic of a pool without reserves and the
    overflow-free parts come from the modules of the components called. *)
From S2P Require Import Prelude Amounts Pump Swarm Config Registry Features ScoreEngine Learning.
From S2P Require Import Positions Messages Feed.

(* autobuy/execution.rs 19-26: ExecutionMode *)
Inductive ExecutionMode := Demo | Live.
#[export] Instance ExecutionMode_eq_dec : EqDecision ExecutionMode.
Proof. solve_decision. Defined.

(** ** What the pipeline does *)

Inductive Counter := CPassedFilter | CScoreSkip | CSpamDevSkip | CScoreA | CScoreAPlus | CScoreB
  | CContinuationSkip | CParabolicSkip | CPositionInitiated.

Definition count_event (c : Counter) : BotMetrics -> BotMetrics :=
  match c with
  | CPassedFilter => note_passed_filter
  | CScoreSkip => note_score_skip
  | CSpamDevSkip => note_spam_dev_skip
  | CScoreA => note_score_a
  | CScoreAPlus => note_score_a_plus
  | CScoreB => note_score_b
  | CContinuationSkip => note_continuation_skip
  | CParabolicSkip => note_parabolic_skip
  | CPositionInitiated => note_position_initiated
  end.

Inductive Event :=
  | ECount (c : Counter)
  | ELogSkipped (stage reason : string) (snap : LearningTradeSnapshot) (velocity_pct : option f64)
  | EObserve (window_ms slices : Z)
  | ESleep (ms : Z)
  | EScoreDone (m : Address)
  | ESend (msg : PositionMessage (PumpPool Bonding)).

(** a gate does events and passes a value on, or returns from the function *)
Definition Gate (A : Type) : Type := list Event * option A.
#[export] Instance Gate_ret : MRet Gate := fun A a => ([], Some a).
#[export] Instance Gate_bind : MBind Gate := fun A B f m =>
  match m.2 with
  | Some a => let r := f a in (m.1 ++ r.1, r.2)
  | None => (m.1, None)
  end.
Definition emit (e : Event) : Gate unit := ([e], Some tt).
Definition stop {A} : Gate A := ([], None).
Definition pass : Gate unit := mret tt.

(** ** The services and the input *)

(** answers to the polls of one observation window *)
Abbreviation Window := ((nat -> Poll) * Poll)%type.

(* pipeline/score_buy.rs 60-72: ScoringPipelineDeps *)
Record Deps := mkDeps {
  dp_scoring : ScoringConfig;
  dp_mode : ExecutionMode;
  dp_learning_log : bool
}.
#[export] Instance Deps_settable : Settable Deps :=
  fun r => mkDeps (dp_scoring r) (dp_mode r) (dp_learning_log r).

(** what the actors and the channels behind [ScoringPipelineDeps] answer *)
Record Answers := mkAnswers {
  an_window : Window;
  an_patch : FeatureThresholdPatch;
  an_regulars : list (Address * Trader);
  an_snipers : list (Address * Trader);
  an_category : Address -> DevCategory * DevRecord;
  an_count_smart : list Address -> Z;
  an_filter_smart : list Address -> list Address;
  an_trader : Address -> option Trader;
  an_operator_cap : f64;
  an_confirm : Window;
  an_recheck : Window;
  an_elapsed_ms : Z;
  an_manager_open : bool
}.

(* pipeline/score_buy.rs 74-82: ScoringPipelineInput *)
Record ScoringPipelineInput := mkInput {
  in_mint : Address;
  in_dev : Address;
  in_dev_stats : option CreatorStatistics;
  in_is_spam_dev : bool;
  in_bucket_for_score : TokenBucket;
  in_from_fresh_watchlist : bool
}.

(** ** Scoring *)

(** the locals of [run_scoring_and_buy] once the token is scored *)
Record Scored := mkScored {
  tk_features : TokenFeatures;
  tk_breakdown : ScoreBreakdown;
  tk_smart_count : Z;
  tk_current_mcap : f64;
  tk_peak_mcap : f64;
  tk_bucket : TokenBucket;
  tk_buyers : list Address;
  tk_baseline_buyers : Z
}.

(* pipeline/score_buy.rs 135-137: run_scoring_and_buy *)
Definition pool_mcap (b : TokenBucket) : outcome f64 :=
  cap ← market_cap (bucket_pool b); Ret (amount_to_float (currency_amount cap)).

(* pipeline/score_buy.rs 176-183: run_scoring_and_buy *)
Definition early_exits (an : Answers) (smart_addrs : list Address) : Z :=
  List.fold_left (fun n a =>
    match an_trader an a with
    | Some t => if (amount_raw (current_holdings t) =? 0) && (0 <? amount_raw (total_spent t))
                then u32 (n + 1) else n
    | None => n
    end) smart_addrs 0.

Section Pipeline.
Context (tanh : f64 -> f64) (to_string : Address -> string).

(* pipeline/score_buy.rs 95-220: run_scoring_and_buy *)
Definition score_token (dp : Deps) (an : Answers) (inp : ScoringPipelineInput) : outcome Scored :=
  let scoring := dp_scoring dp in
  let tape_slices := Z.max (sc_buyer_velocity_slices scoring) 1 in
  let momentum_low_pct := th_momentum_good_low_pct (sc_thresholds scoring) in
  let tape_observe :=
    observe_early_tape_points_live (sc_scoring_window_ms scoring) tape_slices (Some momentum_low_pct)
      (an_window an).1 (an_window an).2 in
  let scoring_bucket := default (in_bucket_for_score inp) (ob_last_bucket tape_observe) in
  initial_mcap_sol ←
    (if (0 <? ob_initial_mcap_sol tape_observe)%float then Ret (ob_initial_mcap_sol tape_observe)
     else pool_mcap scoring_bucket);
  let current_mcap_sol := ob_current_mcap_sol tape_observe in
  let peak_mcap_sol := f64_max (ob_peak_mcap_sol tape_observe) current_mcap_sol in
  let merged_thr := merge_thresholds (sc_thresholds scoring) (an_patch an) in
  let thr := if sc_legacy_scoring scoring then sc_thresholds scoring else merged_thr in
  let '(early_buyers, _, buy_volume_sol, still_long, sold, bundle) :=
    snapshot_early_buyers (an_regulars an) (an_snipers an) thr in
  let '(dev_category, dev_record) :=
    if negb (bool_decide (is_Some (in_dev_stats inp))) && tb_enabled (sc_tier_b scoring)
       && negb (in_is_spam_dev inp)
    then (CatFresh, DevRecord_default)
    else an_category an (in_dev inp) in
  let buyers_for_position := eb_all early_buyers in
  let smart_count := an_count_smart an buyers_for_position in
  let smart_wallet_early_exits := early_exits an (an_filter_smart an buyers_for_position) in
  let tape := from_tape_points tanh (ob_points tape_observe) smart_wallet_early_exits in
  let regular_buyer_count := Z.of_nat (length (eb_regulars early_buyers)) in
  let sniper_count := Z.of_nat (length (eb_snipers early_buyers)) in
  let token_features :=
    assemble (in_mint inp) (in_dev inp) (in_dev_stats inp) dev_category dev_record initial_mcap_sol
      current_mcap_sol peak_mcap_sol early_buyers regular_buyer_count sniper_count buy_volume_sol
      still_long sold bundle smart_count tape <| tf_is_spam_dev := in_is_spam_dev inp |> in
  let breakdown := score scoring token_features thr in
  Ret (mkScored token_features breakdown smart_count current_mcap_sol peak_mcap_sol scoring_bucket
         buyers_for_position (u64 (regular_buyer_count + sniper_count))).

(** ** The gates *)

Section Gates.
Context (dp : Deps) (an : Answers) (inp : ScoringPipelineInput) (sc : Scored).

Local Abbreviation scoring := (dp_scoring dp).
Local Abbreviation breakdown := (tk_breakdown sc).
Local Abbreviation token_features := (tk_features sc).
Local Abbreviation smart_count := (tk_smart_count sc).
Local Abbreviation tier := (sb_tier (tk_breakdown sc)).
Local Abbreviation items := (sb_items (tk_breakdown sc)).

(* pipeline/score_buy.rs 44-57: learning_snap *)
Definition learning_snap : LearningTradeSnapshot :=
  from_scoring_fresh_b to_string token_features breakdown
    (fresh_b_for_path (in_dev_stats inp) (in_from_fresh_watchlist inp))
    (if in_from_fresh_watchlist inp then Some "passed" else None).

(** a row of the learning log, when there is a log *)
Definition log_skipped (stage reason : string) (snap : LearningTradeSnapshot)
    (velocity_pct : option f64) : Gate unit :=
  if dp_learning_log dp then emit (ELogSkipped stage reason snap velocity_pct) else pass.

Definition skip (stage reason : string) : Gate unit :=
  log_skipped stage reason learning_snap None;; stop.

Definition gate (reason : option string) (stage : string) : Gate unit :=
  match reason with Some r => skip stage r | None => pass end.

(* pipeline/score_buy.rs 250-304: run_scoring_and_buy *)
Definition tier_gate : Gate unit :=
  if decide (tier = TierSkip) then
    emit (ECount CScoreSkip);;
    let fail_reason :=
      if tier_b_dev_eligible token_features (sc_tier_b scoring)
      then fresh_b_gate_fail_reason (sc_tier_b scoring) token_features items else None in
    match fail_reason with
    | Some r => skip "fresh_b_gate" r
    | None => skip "score_skip" "tier_skip"
    end
  else pass.

(* pipeline/score_buy.rs 342-374: run_scoring_and_buy *)
Definition momentum_good_satisfied : bool :=
  let smart_bypass := sc_momentum_good_smart_bypass scoring in
  let aplus_smart_bypass := sc_momentum_good_aplus_smart_bypass scoring in
  has_momentum_good items
  || ((0 <? smart_bypass) && (smart_bypass <=? smart_count))
  || ((0 <? aplus_smart_bypass) && bool_decide (tier = TierAPlus) && (aplus_smart_bypass <=? smart_count))
  || strong_a_momentum_bypass_ok (sc_momentum_good_strong_a scoring) tier (sb_total breakdown)
       token_features items
  || sb_a_momentum_override breakdown
  || sb_a_plus_momentum_override breakdown
  || (bool_decide (tier = TierB) && sb_fresh_b_hot_override breakdown).

(* pipeline/score_buy.rs 384-423: run_scoring_and_buy *)
Definition log_override (on : bool) (reason : string) : Gate unit :=
  if on && negb (has_momentum_good items) then
    log_skipped "aa_momentum_override" reason
      (learning_snap <| ls_first_seen_mcap_sol := Some (tf_initial_mcap_sol token_features) |>) None
  else pass.

(* pipeline/score_buy.rs 480-510: run_scoring_and_buy *)
Definition momentum_gate : Gate unit :=
  if sc_require_momentum_good scoring && negb momentum_good_satisfied
  then skip "live_gate_momentum" "require_momentum_good" else pass.

(* pipeline/score_buy.rs 512-549: run_scoring_and_buy *)
Definition anti_rug_gate : Gate unit :=
  gate (entry_skip_reason token_features (sc_anti_rug scoring)) "anti_rug".

(* pipeline/score_buy.rs 551-583: run_scoring_and_buy *)
Definition minimum_tier_gate : Gate unit :=
  if bool_decide (sc_minimum_tier_for_buy scoring = MinAPlus)
     && bool_decide (tier <> TierAPlus) && bool_decide (tier <> TierB)
  then skip "live_gate_tier" "minimum_tier_APlus" else pass.

(* pipeline/score_buy.rs 590-623: run_scoring_and_buy *)
Definition spam_dev_gate : Gate unit :=
  if in_is_spam_dev inp && sc_spam_dev_require_a_plus scoring && bool_decide (tier <> TierAPlus)
  then emit (ECount CSpamDevSkip);; skip "spam_dev_weak" "spam_dev_require_a_plus"
  else pass.

(* pipeline/score_buy.rs 627-674: run_scoring_and_buy *)
Definition weak_a_gate : Gate unit :=
  gate (weak_a_hard_skip_reason (sc_weak_a_gate scoring) tier (sb_total breakdown) smart_count
          token_features items) "weak_a_gate".

(* pipeline/score_buy.rs 676-721: run_scoring_and_buy *)
Definition weak_a_synthetic_gate : Gate unit :=
  gate (weak_a_synthetic_pump_skip_reason (wa_synthetic_pump (sc_weak_a_gate scoring)) tier smart_count
          token_features items) "weak_a_synthetic_pump".

(* pipeline/score_buy.rs 723-765: run_scoring_and_buy *)
Definition aplus_rug_gate : Gate unit :=
  gate (aplus_rug_gate_skip_reason tier smart_count (tf_buy_to_sell_ratio token_features)) "aplus_rug_gate".

(* pipeline/score_buy.rs 767-821: run_scoring_and_buy *)
Definition velocity_gate : Gate unit :=
  let velocity_pct :=
    momentum_peak_pct (tf_initial_mcap_sol token_features)
      (f64_max (tf_peak_mcap_sol token_features) (tf_current_mcap_sol token_features)) in
  match tier_a_low_velocity_skip_reason tier velocity_pct with
  | Some reason => log_skipped "velocity_gate" reason learning_snap (Some velocity_pct);; stop
  | None => pass
  end.

(* pipeline/score_buy.rs 341-822: run_scoring_and_buy *)
Definition live_gates : Gate unit :=
  log_override (sb_a_momentum_override breakdown) "A_MOMENTUM_OVERRIDE";;
  log_override (sb_a_plus_momentum_override breakdown) "APLUS_MOMENTUM_OVERRIDE";;
  momentum_gate;; anti_rug_gate;; minimum_tier_gate;; spam_dev_gate;;
  weak_a_gate;; weak_a_synthetic_gate;; aplus_rug_gate;; velocity_gate.

(* pipeline/score_buy.rs 824-829: run_scoring_and_buy *)
Definition count_tier : Gate unit :=
  match tier with
  | TierA => emit (ECount CScoreA)
  | TierAPlus => emit (ECount CScoreAPlus)
  | TierB => emit (ECount CScoreB)
  | TierSkip => stop
  end.

(** [f64::EPSILON] *)
Definition F64_EPSILON : f64 := 0x1p-52%float.

(* pipeline/score_buy.rs 833-865: run_scoring_and_buy *)
Definition size_gate : Gate f64 :=
  let amount_sol := f64_max (f64_min (sb_recommended_size_sol breakdown) (an_operator_cap an)) 0 in
  if (amount_sol <=? F64_EPSILON)%float then skip "size_zero" "operator_cap";; stop
  else mret amount_sol.

(** ** The confirmation window *)

Definition observe_window (w : Window) (window_ms slices : Z) : Gate EarlyTapeObserveResult :=
  emit (EObserve window_ms slices);;
  mret (observe_early_tape_points_live window_ms slices None w.1 w.2).

(** a result as the reason to skip *)
Definition reason_of (r : result unit string) : option string :=
  match r with Ok _ => None | Err e => Some e end.

(* pipeline/score_buy.rs 932-1050: run_scoring_and_buy *)
Definition peak_recheck : Gate (option string) :=
  let cont_cfg := sc_continuation scoring in
  let sl_cfg := ct_second_look cont_cfg in
  let peak_cfg := ct_aplus_peak_guard cont_cfg in
  let is_a_plus := bool_decide (tier = TierAPlus) in
  let baseline_buyers := tk_baseline_buyers sc in
  emit (ESleep (Z.max (sl_wait_ms sl_cfg) 1));;
  recheck ← observe_window (an_recheck an) (sl_recheck_window_ms sl_cfg) (sl_recheck_slices sl_cfg);
  let mcap_ok :=
    aplus_peak_recheck_mcap_acceptable peak_cfg (tk_peak_mcap sc) (tk_current_mcap sc)
      (ob_current_mcap_sol recheck) in
  let unless_collapsed := if mcap_ok then None else Some "aplus_peak_recheck_mcap_drop"%string in
  mret match evaluate_continuation cont_cfg (tf_buy_to_sell_ratio token_features) baseline_buyers
               (ob_points recheck) (ct_confirm_window_ms cont_cfg) is_a_plus with
       | Ok _ => unless_collapsed
       | Err reason =>
           if continuation_second_look_eligible_for_buy sl_cfg (sc_weak_a_gate scoring) tier is_a_plus
                (sb_total breakdown) smart_count token_features items reason
           then match evaluate_continuation_second_look (ob_current_mcap_sol recheck) baseline_buyers
                        (ob_points recheck) with
                | Ok _ => unless_collapsed
                | Err sl_reason => Some sl_reason
                end
           else Some reason
       end.

(* pipeline/score_buy.rs 1051-1116: run_scoring_and_buy *)
Definition second_look (confirm : EarlyTapeObserveResult) (reason : string) : Gate (option string) :=
  let sl_cfg := ct_second_look (sc_continuation scoring) in
  if continuation_second_look_eligible_for_buy sl_cfg (sc_weak_a_gate scoring) tier
       (bool_decide (tier = TierAPlus)) (sb_total breakdown) smart_count token_features items reason
  then
    emit (ESleep (Z.max (sl_wait_ms sl_cfg) 1));;
    recheck ← observe_window (an_recheck an) (sl_recheck_window_ms sl_cfg) (sl_recheck_slices sl_cfg);
    mret (reason_of (evaluate_continuation_second_look (ob_current_mcap_sol confirm)
                       (tk_baseline_buyers sc) (ob_points recheck)))
  else mret (Some reason).

(* pipeline/score_buy.rs 905-1156: run_scoring_and_buy *)
Definition continuation_gate (confirm : EarlyTapeObserveResult) : Gate unit :=
  let cont_cfg := sc_continuation scoring in
  let peak_cfg := ct_aplus_peak_guard cont_cfg in
  let is_a_plus := bool_decide (tier = TierAPlus) in
  let baseline_buyers := tk_baseline_buyers sc in
  let peak_guard :=
    aplus_peak_no_smart_guard peak_cfg is_a_plus smart_count (tk_current_mcap sc) (tk_peak_mcap sc) in
  let first_cont :=
    evaluate_continuation cont_cfg (tf_buy_to_sell_ratio token_features) baseline_buyers
      (ob_points confirm) (ct_confirm_window_ms cont_cfg) is_a_plus in
  let needs_peak_defer :=
    peak_guard && (is_err first_cont
                   || negb (continuation_confirm_strong peak_cfg (ob_points confirm) baseline_buyers)) in
  continuation_skip_reason ←
    (if needs_peak_defer then peak_recheck
     else match first_cont with
          | Err reason => second_look confirm reason
          | Ok _ => mret None
          end);
  match continuation_skip_reason with
  | Some reason => emit (ECount CContinuationSkip);; skip "continuation" reason
  | None => pass
  end.

(* pipeline/score_buy.rs 1163-1218: run_scoring_and_buy *)
Definition parabolic_gate (confirm : EarlyTapeObserveResult) : Gate unit :=
  let parab_cfg := sc_anti_parabolic scoring in
  if parabolic_peak_suspect parab_cfg (bool_decide (tier = TierAPlus)) (sb_total breakdown) smart_count
       (tk_current_mcap sc) (tk_peak_mcap sc)
  then
    let '(upticks, new_buyers) := continuation_strength (ob_points confirm) (tk_baseline_buyers sc) in
    if (ap_strong_upticks parab_cfg <=? upticks) && (ap_strong_new_buyers parab_cfg <=? new_buyers)
    then pass
    else emit (ECount CParabolicSkip);; skip "parabolic_peak_entry" "weak_peak_no_demand"
  else pass.

(* pipeline/score_buy.rs 879-1219: run_scoring_and_buy *)
Definition confirmation : Gate unit :=
  let cont_cfg := sc_continuation scoring in
  let parab_cfg := sc_anti_parabolic scoring in
  let live := bool_decide (dp_mode dp = Live) in
  let cont_enabled := live && ct_enabled cont_cfg in
  let parab_enabled := live && ap_enabled parab_cfg in
  if cont_enabled || parab_enabled then
    let '(poll_window_ms, poll_slices) :=
      if cont_enabled then (ct_confirm_window_ms cont_cfg, ct_confirm_slices cont_cfg)
      else (ap_confirm_window_ms parab_cfg, ap_confirm_slices parab_cfg) in
    confirm ← observe_window (an_confirm an) poll_window_ms poll_slices;
    (if cont_enabled then continuation_gate confirm else pass);;
    (if parab_enabled then parabolic_gate confirm else pass)
  else pass.

(** ** The buy *)

(* pipeline/score_buy.rs 1221-1276: run_scoring_and_buy *)
Definition buy_message (amount_sol : f64) : PositionMessage (PumpPool Bonding) :=
  let learning_snapshot :=
    learning_snap <| ls_first_seen_mcap_sol := Some (tf_initial_mcap_sol token_features) |>
                  <| ls_discovery_to_buy_ms := Some (u64 (an_elapsed_ms an)) |> in
  let open_reason := match in_dev_stats inp with Some s => DevStats s | None => TraderStats end in
  InitiateBuy (bucket_pool (tk_bucket sc)) amount_sol tier
    (mkBuyContext open_reason (Some (in_dev inp)) (tk_buyers sc) (Some learning_snapshot)).

(* pipeline/score_buy.rs 250-1281: run_scoring_and_buy *)
Definition buy_scored : Gate unit :=
  tier_gate;;
  (if decide (dp_mode dp = Live) then live_gates else pass);;
  count_tier;;
  amount_sol ← size_gate;
  confirmation;;
  emit (EScoreDone (in_mint inp));;
  if an_manager_open an
  then emit (ESend (buy_message amount_sol));; emit (ECount CPositionInitiated)
  else pass.

End Gates.

(** the events of a run, and whether it returned (a pool without reserves
    panics while it is scored) *)
(* pipeline/score_buy.rs 84-1283: run_scoring_and_buy *)
Definition run_scoring_and_buy (dp : Deps) (an : Answers) (inp : ScoringPipelineInput)
    : list Event * outcome unit :=
  let resumed := (if in_from_fresh_watchlist inp then [ECount CPassedFilter] else []) ++
    [EObserve (sc_scoring_window_ms (dp_scoring dp))
              (Z.max (sc_buyer_velocity_slices (dp_scoring dp)) 1)] in
  match score_token dp an inp with
  | Panic p => (resumed, Panic p)
  | Ret sc => (resumed ++ (buy_scored dp an inp sc).1, Ret ())
  end.

(** ** Gates as predicates *)

Lemma gate_bind_some {A B} (m : Gate A) (f : A -> Gate B) b :
  (m ≫= f).2 = Some b <-> exists a, m.2 = Some a /\ (f a).2 = Some b.
Proof. destruct m as [l [a|]]; cbn; naive_solver. Qed.

Lemma gate_in_bind {A B} (m : Gate A) (f : A -> Gate B) e :
  e ∈ (m ≫= f).1 <-> e ∈ m.1 \/ exists a, m.2 = Some a /\ e ∈ (f a).1.
Proof. destruct m as [l [a|]]; cbn; rewrite ?elem_of_app; naive_solver. Qed.

(** a gate that sends nothing to the manager *)
Definition silent {A} (g : Gate A) : Prop := forall msg, ESend msg ∉ g.1.

Lemma silent_bind {A B} (m : Gate A) (f : A -> Gate B) :
  silent m -> (forall a, silent (f a)) -> silent (m ≫= f).
Proof. intros Hm Hf msg [H|(a & _ & H)]%gate_in_bind; [by apply Hm in H | by apply Hf in H]. Qed.

Lemma silent_ret {A} (a : A) : silent (mret a : Gate A).
Proof. intros msg H. by apply not_elem_of_nil in H. Qed.

Lemma silent_stop {A} : silent (@stop A).
Proof. intros msg H. by apply not_elem_of_nil in H. Qed.

Lemma silent_emit e : (forall msg, e <> ESend msg) -> silent (emit e).
Proof. intros N msg H%list_elem_of_singleton. by eapply N. Qed.

Create HintDb gates.
#[local] Hint Resolve silent_bind silent_ret silent_stop : gates.
#[local] Hint Extern 1 (silent (emit _)) => (apply silent_emit; discriminate) : gates.
#[local] Hint Extern 1 (silent pass) => apply silent_ret : gates.
#[local] Hint Extern 2 (silent (if _ then _ else _)) => case_match : gates.
#[local] Hint Extern 2 (silent (match _ with _ => _ end)) => case_match : gates.

Section GateFacts.
Context (dp : Deps) (an : Answers) (inp : ScoringPipelineInput) (sc : Scored).

Lemma silent_log stage reason snap v : silent (log_skipped dp stage reason snap v).
Proof. unfold log_skipped. auto with gates. Qed.
#[local] Hint Resolve silent_log : gates.

Lemma silent_skip stage reason : silent (skip dp inp sc stage reason).
Proof. unfold skip. auto with gates. Qed.
#[local] Hint Resolve silent_skip : gates.

Lemma silent_gate r stage : silent (gate dp inp sc r stage).
Proof. unfold gate. auto with gates. Qed.
#[local] Hint Resolve silent_gate : gates.

Lemma silent_tier_gate : silent (tier_gate dp inp sc).
Proof. unfold tier_gate. auto 6 with gates. Qed.

Lemma silent_live_gates : silent (live_gates dp inp sc).
Proof.
  unfold live_gates, log_override, momentum_gate, anti_rug_gate, minimum_tier_gate, spam_dev_gate,
    weak_a_gate, weak_a_synthetic_gate, aplus_rug_gate, velocity_gate.
  auto 30 with gates.
Qed.

Lemma silent_count_tier : silent (count_tier sc).
Proof. unfold count_tier. auto with gates. Qed.

Lemma silent_size_gate : silent (size_gate dp an inp sc).
Proof. unfold size_gate. auto 6 with gates. Qed.

Lemma silent_observe w ms n : silent (observe_window w ms n).
Proof. unfold observe_window. auto with gates. Qed.
#[local] Hint Resolve silent_observe : gates.

Lemma silent_continuation confirm : silent (continuation_gate dp an inp sc confirm).
Proof. unfold continuation_gate, peak_recheck, second_look. cbv zeta. auto 12 with gates. Qed.

Lemma silent_parabolic confirm : silent (parabolic_gate dp inp sc confirm).
Proof. unfold parabolic_gate. auto 8 with gates. Qed.
#[local] Hint Resolve silent_continuation silent_parabolic : gates.

Lemma silent_confirmation : silent (confirmation dp an inp sc).
Proof. unfold confirmation. cbv zeta. auto 12 with gates. Qed.

(** *** When a gate lets the token through *)

Lemma skip_none {A} stage reason (f : unit -> Gate A) : (skip dp inp sc stage reason ≫= f).2 = None.
Proof. unfold skip, log_skipped. by destruct (dp_learning_log dp). Qed.

Lemma skip_not_some stage reason a : (skip dp inp sc stage reason).2 <> Some a.
Proof. unfold skip, log_skipped. by destruct (dp_learning_log dp). Qed.

Lemma gate_some r stage : (gate dp inp sc r stage).2 = Some () <-> r = None.
Proof. destruct r; cbn; [|done]. split; [|done]. intros H. by apply skip_not_some in H. Qed.

Lemma log_some stage reason snap v : (log_skipped dp stage reason snap v).2 = Some ().
Proof. unfold log_skipped. by case_match. Qed.

Lemma override_some on reason : (log_override dp inp sc on reason).2 = Some ().
Proof. unfold log_override. case_match; [apply log_some|done]. Qed.

Lemma tier_gate_some : (tier_gate dp inp sc).2 = Some () <-> sb_tier (tk_breakdown sc) <> TierSkip.
Proof.
  unfold tier_gate. case_decide; [|by split]. split; [|done]. cbn.
  case_match; intros E; by apply skip_not_some in E.
Qed.

(** what the live mode asks of a scored token *)
Record live_ok : Prop := {
  lo_momentum : sc_require_momentum_good (dp_scoring dp) = true -> momentum_good_satisfied dp sc = true;
  lo_anti_rug : entry_skip_reason (tk_features sc) (sc_anti_rug (dp_scoring dp)) = None;
  lo_minimum : sc_minimum_tier_for_buy (dp_scoring dp) = MinAPlus -> sb_tier (tk_breakdown sc) <> TierA;
  lo_spam : in_is_spam_dev inp = true -> sc_spam_dev_require_a_plus (dp_scoring dp) = true ->
            sb_tier (tk_breakdown sc) = TierAPlus;
  lo_weak : weak_a_hard_skip_reason (sc_weak_a_gate (dp_scoring dp)) (sb_tier (tk_breakdown sc))
              (sb_total (tk_breakdown sc)) (tk_smart_count sc) (tk_features sc)
              (sb_items (tk_breakdown sc)) = None;
  lo_synthetic : weak_a_synthetic_pump_skip_reason (wa_synthetic_pump (sc_weak_a_gate (dp_scoring dp)))
              (sb_tier (tk_breakdown sc)) (tk_smart_count sc) (tk_features sc)
              (sb_items (tk_breakdown sc)) = None;
  lo_smart : sb_tier (tk_breakdown sc) = TierAPlus -> 1 <= tk_smart_count sc;
  lo_velocity : sb_tier (tk_breakdown sc) = TierA ->
    (momentum_peak_pct (tf_initial_mcap_sol (tk_features sc))
       (f64_max (tf_peak_mcap_sol (tk_features sc)) (tf_current_mcap_sol (tk_features sc)))
       <? 3)%float = false
}.

Lemma unit_some (o : option ()) : (exists a, o = Some a) <-> o = Some ().
Proof. split; [by intros [[] ->]|by eexists]. Qed.

Lemma seq_some (m k : Gate ()) : (m;; k).2 = Some () <-> m.2 = Some () /\ k.2 = Some ().
Proof. rewrite gate_bind_some. split; [by intros ([] & ? & ?)|intros []; by eexists]. Qed.

Lemma momentum_some : (momentum_gate dp inp sc).2 = Some () <->
  (sc_require_momentum_good (dp_scoring dp) = true -> momentum_good_satisfied dp sc = true).
Proof.
  unfold momentum_gate.
  destruct (sc_require_momentum_good (dp_scoring dp)), (momentum_good_satisfied dp sc); cbn;
    try (split; naive_solver). split; [intros E; by apply skip_not_some in E|naive_solver].
Qed.

Lemma minimum_some : sb_tier (tk_breakdown sc) <> TierSkip ->
  (minimum_tier_gate dp inp sc).2 = Some () <->
  (sc_minimum_tier_for_buy (dp_scoring dp) = MinAPlus -> sb_tier (tk_breakdown sc) <> TierA).
Proof.
  intros NS. unfold minimum_tier_gate.
  destruct (sc_minimum_tier_for_buy (dp_scoring dp)), (sb_tier (tk_breakdown sc)); cbn;
    try (split; naive_solver). split; [intros E; by apply skip_not_some in E|naive_solver].
Qed.

Lemma spam_some : (spam_dev_gate dp inp sc).2 = Some () <->
  (in_is_spam_dev inp = true -> sc_spam_dev_require_a_plus (dp_scoring dp) = true ->
   sb_tier (tk_breakdown sc) = TierAPlus).
Proof.
  unfold spam_dev_gate.
  destruct (in_is_spam_dev inp), (sc_spam_dev_require_a_plus (dp_scoring dp)),
    (sb_tier (tk_breakdown sc)); cbn; try (split; naive_solver);
    (split; [intros E; by apply skip_not_some in E|naive_solver]).
Qed.

Lemma aplus_some : (aplus_rug_gate dp inp sc).2 = Some () <->
  (sb_tier (tk_breakdown sc) = TierAPlus -> 1 <= tk_smart_count sc).
Proof.
  unfold aplus_rug_gate. rewrite gate_some. unfold aplus_rug_gate_skip_reason.
  destruct (decide (sb_tier (tk_breakdown sc) = TierAPlus)) as [->|N].
  - rewrite bool_decide_false by naive_solver. destruct (Z.ltb_spec (tk_smart_count sc) 1).
    + split; [done|]. intros G. specialize (G eq_refl). lia.
    + destruct (Z.eqb_spec (tk_smart_count sc) 0); [lia|]. cbn. split; [intros; lia|done].
  - rewrite bool_decide_true by done. naive_solver.
Qed.

Lemma velocity_some : (velocity_gate dp inp sc).2 = Some () <->
  (sb_tier (tk_breakdown sc) = TierA ->
    (momentum_peak_pct (tf_initial_mcap_sol (tk_features sc))
       (f64_max (tf_peak_mcap_sol (tk_features sc)) (tf_current_mcap_sol (tk_features sc)))
       <? 3)%float = false).
Proof.
  unfold velocity_gate, tier_a_low_velocity_skip_reason, TIER_A_MIN_VELOCITY_PCT.
  set (v := momentum_peak_pct _ _). case_bool_decide; cbn [andb]; [|naive_solver].
  destruct (v <? 3)%float eqn:V; [|naive_solver].
  split; [|naive_solver]. unfold log_skipped. by destruct (dp_learning_log dp).
Qed.

Lemma live_gates_some : sb_tier (tk_breakdown sc) <> TierSkip ->
  (live_gates dp inp sc).2 = Some () <-> live_ok.
Proof.
  intros NS. unfold live_gates, anti_rug_gate, weak_a_gate, weak_a_synthetic_gate.
  rewrite !seq_some, !override_some, !gate_some, momentum_some, (minimum_some NS), spam_some,
    aplus_some, velocity_some.
  split; [|intros []; tauto]. intros (_ & _ & ? & ? & ? & ? & ? & ? & ? & ?). by split.
Qed.

(** *** The confirmation without the peak guard *)

Definition cont_on : bool := bool_decide (dp_mode dp = Live) && ct_enabled (sc_continuation (dp_scoring dp)).
Definition parab_on : bool := bool_decide (dp_mode dp = Live) && ap_enabled (sc_anti_parabolic (dp_scoring dp)).

Definition confirm_seen : EarlyTapeObserveResult :=
  let cont := sc_continuation (dp_scoring dp) in
  let parab := sc_anti_parabolic (dp_scoring dp) in
  observe_early_tape_points_live
    (if cont_on then ct_confirm_window_ms cont else ap_confirm_window_ms parab)
    (if cont_on then ct_confirm_slices cont else ap_confirm_slices parab)
    None (an_confirm an).1 (an_confirm an).2.

Definition recheck_seen : EarlyTapeObserveResult :=
  let sl := ct_second_look (sc_continuation (dp_scoring dp)) in
  observe_early_tape_points_live (sl_recheck_window_ms sl) (sl_recheck_slices sl) None
    (an_recheck an).1 (an_recheck an).2.

(** the momentum continues in the confirmation window, or fails for a reason that
    earns a second look and recovers in it *)
Definition continues : Prop :=
  let cfg := sc_continuation (dp_scoring dp) in
  let is_a_plus := bool_decide (sb_tier (tk_breakdown sc) = TierAPlus) in
  match evaluate_continuation cfg (tf_buy_to_sell_ratio (tk_features sc)) (tk_baseline_buyers sc)
          (ob_points confirm_seen) (ct_confirm_window_ms cfg) is_a_plus with
  | Ok _ => True
  | Err reason =>
      continuation_second_look_eligible_for_buy (ct_second_look cfg) (sc_weak_a_gate (dp_scoring dp))
        (sb_tier (tk_breakdown sc)) is_a_plus (sb_total (tk_breakdown sc)) (tk_smart_count sc)
        (tk_features sc) (sb_items (tk_breakdown sc)) reason = true /\
      evaluate_continuation_second_look (ob_current_mcap_sol confirm_seen) (tk_baseline_buyers sc)
        (ob_points recheck_seen) = Ok ()
  end.

(** a suspected parabolic peak shows strong demand in the confirmation window *)
Definition demanded : Prop :=
  let cfg := sc_anti_parabolic (dp_scoring dp) in
  parabolic_peak_suspect cfg (bool_decide (sb_tier (tk_breakdown sc) = TierAPlus))
    (sb_total (tk_breakdown sc)) (tk_smart_count sc) (tk_current_mcap sc) (tk_peak_mcap sc) = true ->
  let strength := continuation_strength (ob_points confirm_seen) (tk_baseline_buyers sc) in
  ap_strong_upticks cfg <= strength.1 /\ ap_strong_new_buyers cfg <= strength.2.

Lemma peak_guard_dead cfg current peak :
  (sb_tier (tk_breakdown sc) = TierAPlus -> 1 <= tk_smart_count sc) ->
  aplus_peak_no_smart_guard cfg (bool_decide (sb_tier (tk_breakdown sc) = TierAPlus))
    (tk_smart_count sc) current peak = false.
Proof.
  intros G. unfold aplus_peak_no_smart_guard. case_bool_decide as T; [|by rewrite orb_true_r].
  apply G in T. assert (0 <? tk_smart_count sc = true) as -> by lia. by rewrite orb_true_r.
Qed.

Lemma observe_some w ms n :
  (observe_window w ms n).2 = Some (observe_early_tape_points_live ms n None w.1 w.2).
Proof. done. Qed.

Lemma gate_bind_known {A B} (m : Gate A) (f : A -> Gate B) a : m.2 = Some a -> (m ≫= f).2 = (f a).2.
Proof. destruct m as [l o]. cbn. by intros ->. Qed.

Lemma continuation_some :
  cont_on = true -> (sb_tier (tk_breakdown sc) = TierAPlus -> 1 <= tk_smart_count sc) ->
  (continuation_gate dp an inp sc confirm_seen).2 = Some () <-> continues.
Proof.
  intros On G. unfold continuation_gate, continues. cbv zeta. rewrite (peak_guard_dead _ _ _ G). cbn [andb].
  destruct (evaluate_continuation _ _ _ _ _ _) as [[]|reason]; [done|].
  unfold second_look. destruct (continuation_second_look_eligible_for_buy _ _ _ _ _ _ _ _ reason).
  - erewrite gate_bind_known by reflexivity. fold recheck_seen. cbn [mret].
    destruct (evaluate_continuation_second_look _ _ _) as [[]|e]; cbn [reason_of]; [by split|].
    rewrite seq_some. split; [|naive_solver]. intros [_ E]. by apply skip_not_some in E.
  - erewrite gate_bind_known by reflexivity. rewrite seq_some. split; [|naive_solver].
    intros [_ E]. by apply skip_not_some in E.
Qed.

Lemma parabolic_some :
  (parabolic_gate dp inp sc confirm_seen).2 = Some () <-> demanded.
Proof.
  unfold parabolic_gate, demanded. cbv zeta. destruct (parabolic_peak_suspect _ _ _ _ _ _); [|naive_solver].
  destruct (continuation_strength _ _) as [up nb]. cbn [fst snd].
  destruct (Z.leb_spec (ap_strong_upticks (sc_anti_parabolic (dp_scoring dp))) up),
    (Z.leb_spec (ap_strong_new_buyers (sc_anti_parabolic (dp_scoring dp))) nb); cbn [andb]; [naive_solver|..];
    rewrite seq_some; (split; [intros [_ E]; by apply skip_not_some in E|intros D; exfalso; specialize (D eq_refl); lia]).
Qed.

Lemma confirmation_some :
  (dp_mode dp = Live -> sb_tier (tk_breakdown sc) = TierAPlus -> 1 <= tk_smart_count sc) ->
  (confirmation dp an inp sc).2 = Some () <->
  (cont_on = true -> continues) /\ (parab_on = true -> demanded).
Proof.
  intros G. unfold confirmation. cbv zeta. fold cont_on parab_on.
  destruct (cont_on || parab_on) eqn:On.
  2:{ apply orb_false_iff in On as [-> ->]. split; [by intros|done]. }
  assert ((if cont_on
     then (ct_confirm_window_ms (sc_continuation (dp_scoring dp)), ct_confirm_slices (sc_continuation (dp_scoring dp)))
     else (ap_confirm_window_ms (sc_anti_parabolic (dp_scoring dp)), ap_confirm_slices (sc_anti_parabolic (dp_scoring dp))))
    = (if cont_on then ct_confirm_window_ms (sc_continuation (dp_scoring dp)) else ap_confirm_window_ms (sc_anti_parabolic (dp_scoring dp)),
       if cont_on then ct_confirm_slices (sc_continuation (dp_scoring dp)) else ap_confirm_slices (sc_anti_parabolic (dp_scoring dp))))
    as -> by (by destruct cont_on).
  erewrite gate_bind_known by apply observe_some. fold confirm_seen.
  rewrite seq_some.
  assert (cont_on = true -> sb_tier (tk_breakdown sc) = TierAPlus -> 1 <= tk_smart_count sc) as G'.
  { unfold cont_on. intros [L _]%andb_prop. apply bool_decide_eq_true in L. by apply G. }
  assert ((if cont_on then continuation_gate dp an inp sc confirm_seen else pass).2 = Some () <->
          (cont_on = true -> continues)) as ->.
  { destruct cont_on eqn:C; [|naive_solver]. rewrite (continuation_some C (G' eq_refl)). split; auto. }
  assert ((if parab_on then parabolic_gate dp inp sc confirm_seen else pass).2 = Some () <->
          (parab_on = true -> demanded)) as ->; [|done].
  destruct parab_on; [rewrite parabolic_some; split; auto|naive_solver].
Qed.

Lemma size_some amount :
  (size_gate dp an inp sc).2 = Some amount <->
  amount = f64_max (f64_min (sb_recommended_size_sol (tk_breakdown sc)) (an_operator_cap an)) 0 /\
  (amount <=? F64_EPSILON)%float = false.
Proof.
  unfold size_gate. set (v := f64_max _ _). destruct (v <=? F64_EPSILON)%float eqn:Q.
  - rewrite gate_bind_some. split; [intros (? & E & _); by apply skip_not_some in E|intros [-> E]; congruence].
  - cbn. split; [intros [= <-]; done|by intros [-> _]].
Qed.

Lemma count_tier_some : sb_tier (tk_breakdown sc) <> TierSkip -> (count_tier sc).2 = Some ().
Proof. unfold count_tier. by destruct (sb_tier (tk_breakdown sc)). Qed.

Lemma buy_scored_sends msg :
  ESend msg ∈ (buy_scored dp an inp sc).1 <->
  sb_tier (tk_breakdown sc) <> TierSkip /\ (dp_mode dp = Live -> live_ok) /\
  (cont_on = true -> continues) /\ (parab_on = true -> demanded) /\ an_manager_open an = true /\
  exists amount,
    amount = f64_max (f64_min (sb_recommended_size_sol (tk_breakdown sc)) (an_operator_cap an)) 0 /\
    (amount <=? F64_EPSILON)%float = false /\ msg = buy_message an inp sc amount.
Proof.
  assert (silent (if decide (dp_mode dp = Live) then live_gates dp inp sc else pass)) as SL
    by (case_decide; [apply silent_live_gates|apply silent_ret]).
  unfold buy_scored. rewrite gate_in_bind. split.
  - intros [H|([] & T%tier_gate_some & H)]; [by apply silent_tier_gate in H|].
    apply gate_in_bind in H as [H|([] & L & H)]; [by apply SL in H|].
    apply gate_in_bind in H as [H|([] & _ & H)]; [by apply silent_count_tier in H|].
    apply gate_in_bind in H as [H|(amount & [Sz Se]%size_some & H)]; [by apply silent_size_gate in H|].
    apply gate_in_bind in H as [H|([] & Cf & H)]; [by apply silent_confirmation in H|].
    assert (dp_mode dp = Live -> live_ok) as L'.
    { intros M. rewrite decide_True in L by done. by apply live_gates_some. }
    apply confirmation_some in Cf as [C1 C2]; [|intros M; apply (lo_smart (L' M))].
    split_and!; try done. { destruct (an_manager_open an); [done|]. set_solver. }
    destruct (an_manager_open an); [|set_solver]. exists amount. split_and!; [done..|]. set_solver.
  - intros (T & L & C1 & C2 & O & amount & Sz & Se & ->).
    right. exists (). split; [by apply tier_gate_some|]. apply gate_in_bind. right. exists ().
    split. { case_decide as M; [|done]. by apply live_gates_some, L. }
    apply gate_in_bind. right. exists (). split; [by apply count_tier_some|].
    apply gate_in_bind. right. exists amount. split; [by apply size_some|].
    apply gate_in_bind. right. exists (). split.
    { apply confirmation_some; [|done]. intros M. apply (lo_smart (L M)). }
    rewrite O. set_solver.
Qed.

End GateFacts.

(** a token of the fresh lane is scored for tier B or skipped *)
Lemma fresh_tier cfg f thr :
  tier_b_dev_eligible f (sc_tier_b cfg) = true ->
  sb_tier (score cfg f thr) = TierB \/ sb_tier (score cfg f thr) = TierSkip.
Proof.
  intros H. assert (forall acc, sb_tier (finish_breakdown cfg f acc) = TierB \/
    sb_tier (finish_breakdown cfg f acc) = TierSkip) as F.
  { intros [total items]. unfold finish_breakdown. rewrite H. cbn. case_match; auto. }
  unfold score, score_legacy, score_v2. case_match; apply F.
Qed.

Lemma fresh_scored_tier dp an inp sc :
  score_token dp an inp = Ret sc -> in_dev_stats inp = None -> in_is_spam_dev inp = false ->
  tb_enabled (sc_tier_b (dp_scoring dp)) = true ->
  sb_tier (tk_breakdown sc) = TierB \/ sb_tier (tk_breakdown sc) = TierSkip.
Proof.
  intros H D Sp B. unfold score_token in H. cbv zeta in H. rewrite D, Sp, B in H.
  rewrite bool_decide_false in H by (intros [? [=]]). cbn [negb andb] in H.
  match type of H with (?m ≫= _) = _ => destruct m as [i|]; [|done] end.
  cbn [mbind outcome_bind] in H.
  destruct (snapshot_early_buyers _ _ _) as [[[[[eb ?] vol] sl] so] bu].
  injection H as <-. apply fresh_tier. unfold tier_b_dev_eligible. rewrite B. reflexivity.
Qed.

Lemma run_sends_iff dp an inp msg :
  ESend msg ∈ (run_scoring_and_buy dp an inp).1 <->
  exists sc, score_token dp an inp = Ret sc /\
    sb_tier (tk_breakdown sc) <> TierSkip /\ (dp_mode dp = Live -> live_ok dp inp sc) /\
    (cont_on dp = true -> continues dp an sc) /\ (parab_on dp = true -> demanded dp an sc) /\
    an_manager_open an = true /\
    exists amount,
      amount = f64_max (f64_min (sb_recommended_size_sol (tk_breakdown sc)) (an_operator_cap an)) 0 /\
      (amount <=? F64_EPSILON)%float = false /\ msg = buy_message an inp sc amount.
Proof.
  unfold run_scoring_and_buy.
  destruct (score_token dp an inp) as [sc|p]; cbn [fst].
  - rewrite elem_of_app, buy_scored_sends. split.
    + intros [H|H]; [exfalso; destruct (in_from_fresh_watchlist inp); set_solver|]. by exists sc.
    + intros (sc' & [= <-] & H). by right.
  - split; [|by intros (? & ? & _)]. intros H. exfalso. destruct (in_from_fresh_watchlist inp); set_solver.
Qed.

Lemma run_sends dp an inp msg :
  ESend msg ∈ (run_scoring_and_buy dp an inp).1 ->
  exists sc, score_token dp an inp = Ret sc /\ sb_tier (tk_breakdown sc) <> TierSkip /\
    exists amount, msg = buy_message an inp sc amount.
Proof.
  rewrite run_sends_iff. intros (sc & E & T & _ & _ & _ & _ & amount & _ & _ & M).
  exists sc. split; [done|]. split; [done|]. by exists amount.
Qed.

(** C20: The pipeline asks the manager for a buy exactly when the token's score
    is not SKIP; in live mode, every live gate holds (momentum, anti-rug, minimum
    tier, spam developer, weak A, synthetic pump, a smart wallet for A+, 3%
    velocity for A); the confirmation window continues the momentum, or earns and
    passes a second look, and shows demand at a suspected peak, when those checks
    are on; and the recommended size under the operator's cap exceeds the
    machine epsilon.  It is then this one message. *)
Theorem pipeline_buys_iff dp an inp msg :
  ESend msg ∈ (run_scoring_and_buy dp an inp).1 <->
  exists sc, score_token dp an inp = Ret sc /\
    sb_tier (tk_breakdown sc) <> TierSkip /\ (dp_mode dp = Live -> live_ok dp inp sc) /\
    (cont_on dp = true -> continues dp an sc) /\ (parab_on dp = true -> demanded dp an sc) /\
    an_manager_open an = true /\
    exists amount,
      amount = f64_max (f64_min (sb_recommended_size_sol (tk_breakdown sc)) (an_operator_cap an)) 0 /\
      (amount <=? F64_EPSILON)%float = false /\ msg = buy_message an inp sc amount.
Proof. apply run_sends_iff. Qed.

(** *** Every run ends in one way *)

(** a row of the learning log that ends the run, or the message *)
Definition terminal (e : Event) : bool :=
  match e with
  | ELogSkipped stage _ _ _ => negb (String.eqb stage "aa_momentum_override")
  | ESend _ => true
  | _ => false
  end.

Definition ends {A} (g : Gate A) : Prop :=
  length (List.filter terminal g.1) = match g.2 with Some _ => 0%nat | None => 1%nat end.

Lemma ends_bind {A B} (m : Gate A) (f : A -> Gate B) :
  ends m -> (forall a, m.2 = Some a -> ends (f a)) -> ends (m ≫= f).
Proof.
  unfold ends. destruct m as [l [a|]]; cbn; intros Hm Hf; [|done].
  rewrite List.filter_app, length_app, Hm. by rewrite Hf.
Qed.

Lemma ends_then {A B} (m : Gate A) (f : A -> Gate B) :
  ends m -> (forall a, m.2 = Some a -> length (List.filter terminal (f a).1) = 1%nat) ->
  length (List.filter terminal (m ≫= f).1) = 1%nat.
Proof.
  unfold ends. destruct m as [l [a|]]; cbn; intros Hm Hf; [|done].
  rewrite List.filter_app, length_app, Hm. by rewrite Hf.
Qed.

Lemma ends_ret {A} (a : A) : ends (mret a : Gate A).
Proof. done. Qed.

Section Ends.
Context (dp : Deps) (an : Answers) (inp : ScoringPipelineInput) (sc : Scored).
Context (logging : dp_learning_log dp = true).

Lemma ends_emit e : terminal e = false -> ends (emit e).
Proof. unfold ends, emit. cbn. by intros ->. Qed.

Lemma ends_skip stage reason : String.eqb stage "aa_momentum_override" = false -> ends (skip dp inp sc stage reason).
Proof. unfold ends, skip, log_skipped. rewrite logging. cbn. by intros ->. Qed.

#[local] Hint Resolve ends_bind ends_ret : gates.
#[local] Hint Extern 1 (ends (emit _)) => (apply ends_emit; reflexivity) : gates.
#[local] Hint Extern 1 (ends (skip _ _ _ _ _)) => (apply ends_skip; reflexivity) : gates.
#[local] Hint Extern 1 (ends pass) => apply ends_ret : gates.
#[local] Hint Extern 2 (ends (if _ then _ else _)) => case_match : gates.
#[local] Hint Extern 2 (ends (match _ with _ => _ end)) => case_match : gates.

Lemma ends_gate r stage : String.eqb stage "aa_momentum_override" = false -> ends (gate dp inp sc r stage).
Proof. intros Hs. unfold gate. destruct r; [by apply ends_skip|apply ends_ret]. Qed.
#[local] Hint Extern 1 (ends (gate _ _ _ _ _)) => (apply ends_gate; reflexivity) : gates.

Lemma ends_override on reason : ends (log_override dp inp sc on reason).
Proof. unfold log_override, log_skipped. rewrite logging. case_match; [by apply ends_emit|apply ends_ret]. Qed.
#[local] Hint Resolve ends_override : gates.

Lemma ends_velocity : ends (velocity_gate dp inp sc).
Proof. unfold velocity_gate, log_skipped. rewrite logging. cbv zeta. case_match; [done|apply ends_ret]. Qed.
#[local] Hint Resolve ends_velocity : gates.

Lemma ends_live : ends (live_gates dp inp sc).
Proof.
  unfold live_gates, momentum_gate, anti_rug_gate, minimum_tier_gate, spam_dev_gate,
    weak_a_gate, weak_a_synthetic_gate, aplus_rug_gate.
  auto 30 with gates.
Qed.

Lemma ends_tier : ends (tier_gate dp inp sc).
Proof. unfold tier_gate. cbv zeta. auto 8 with gates. Qed.

Lemma ends_size : ends (size_gate dp an inp sc).
Proof.
  unfold size_gate. cbv zeta. case_match; [|apply ends_ret].
  apply ends_bind; [by apply ends_skip|]. intros a E. by apply skip_not_some in E.
Qed.

Lemma ends_confirmation : ends (confirmation dp an inp sc).
Proof.
  unfold confirmation, continuation_gate, parabolic_gate, peak_recheck, second_look, observe_window.
  cbv zeta. auto 40 with gates.
Qed.

End Ends.

(** C23: With a learning log and an open manager a run that scores its token ends
    in exactly one way: one row that names the gate that skipped it, or one
    message to the manager. *)
Theorem pipeline_ends_once dp an inp :
  dp_learning_log dp = true -> an_manager_open an = true ->
  (run_scoring_and_buy dp an inp).2 = Ret () ->
  length (List.filter terminal (run_scoring_and_buy dp an inp).1) = 1%nat.
Proof.
  intros L O. unfold run_scoring_and_buy. destruct (score_token dp an inp) as [sc|p]; [|done].
  intros _. cbn [fst]. rewrite List.filter_app, length_app.
  assert (forall w n, length (List.filter terminal ((if in_from_fresh_watchlist inp then [ECount CPassedFilter]
            else []) ++ [EObserve w n])) = 0%nat) as -> by (intros; by case_match).
  cbn [Nat.add]. unfold buy_scored.
  apply ends_then; [by apply ends_tier|]. intros [] T%tier_gate_some.
  apply ends_then; [by case_decide; [apply ends_live|apply ends_ret]|]. intros [] _.
  apply ends_then; [unfold count_tier; by destruct (sb_tier (tk_breakdown sc))|]. intros [] _.
  apply ends_then; [by apply ends_size|]. intros amount _.
  apply ends_then; [by apply ends_confirmation|]. intros [] _. by rewrite O.
Qed.

(** *** The A+ peak guard *)

(** the configuration with another [aplus_peak_guard] section *)
Definition with_peak_guard (g : ContinuationAplusPeakGuardConfig) (dp : Deps) : Deps :=
  let scoring := dp_scoring dp in
  dp <| dp_scoring := scoring <| sc_continuation := sc_continuation scoring <| ct_aplus_peak_guard := g |> |> |>.

Lemma continuation_guard g dp an inp sc confirm :
  (sb_tier (tk_breakdown sc) = TierAPlus -> 1 <= tk_smart_count sc) ->
  continuation_gate (with_peak_guard g dp) an inp sc confirm = continuation_gate dp an inp sc confirm.
Proof.
  intros G. unfold continuation_gate. cbv zeta.
  rewrite (peak_guard_dead sc _ _ _ G), (peak_guard_dead sc _ _ _ G). reflexivity.
Qed.

Lemma gate_bind_ext {A B} (m : Gate A) (f f' : A -> Gate B) :
  (forall a, m.2 = Some a -> f a = f' a) -> m ≫= f = m ≫= f'.
Proof. destruct m as [l [a|]]; cbn; intros E; [|done]. by rewrite E. Qed.

Lemma score_guard (scoring : ScoringConfig) (c : ContinuationConfig) :
  score (scoring <| sc_continuation := c |>) = score scoring.
Proof. reflexivity. Qed.

Lemma score_token_guard g dp an inp : score_token (with_peak_guard g dp) an inp = score_token dp an inp.
Proof.
  cbv beta delta [score_token]. unfold with_peak_guard.
  set (c := sc_continuation (dp_scoring dp) <| ct_aplus_peak_guard := g |>).
  change (dp_scoring (dp <| dp_scoring := dp_scoring dp <| sc_continuation := c |> |>))
    with (dp_scoring dp <| sc_continuation := c |>).
  set (scoring := dp_scoring dp). cbv zeta.
  rewrite score_guard.
  change (sc_scoring_window_ms (scoring <| sc_continuation := c |>)) with (sc_scoring_window_ms scoring).
  change (sc_buyer_velocity_slices (scoring <| sc_continuation := c |>)) with (sc_buyer_velocity_slices scoring).
  change (sc_thresholds (scoring <| sc_continuation := c |>)) with (sc_thresholds scoring).
  change (sc_legacy_scoring (scoring <| sc_continuation := c |>)) with (sc_legacy_scoring scoring).
  change (sc_tier_b (scoring <| sc_continuation := c |>)) with (sc_tier_b scoring).
  reflexivity.
Qed.

(** The A+ peak guard of the continuation check never acts: whatever its
    configuration, the pipeline does exactly the same, because the A+ rug gate
    has already skipped every A+ token without a smart wallet. *)
Theorem peak_guard_config_irrelevant g dp an inp :
  run_scoring_and_buy (with_peak_guard g dp) an inp = run_scoring_and_buy dp an inp.
Proof.
  unfold run_scoring_and_buy.
  rewrite score_token_guard.
  destruct (score_token dp an inp) as [sc|p]; [|reflexivity]. cbn [dp_scoring with_peak_guard].
  enough (buy_scored (with_peak_guard g dp) an inp sc = buy_scored dp an inp sc) as -> by reflexivity.
  unfold buy_scored. apply (gate_bind_ext (tier_gate dp inp sc)). intros [] T%tier_gate_some.
  apply (gate_bind_ext (if decide (dp_mode dp = Live) then live_gates dp inp sc else pass)). intros [] L.
  apply (gate_bind_ext (count_tier sc)). intros [] _.
  apply (gate_bind_ext (size_gate dp an inp sc)). intros amount _.
  enough (confirmation (with_peak_guard g dp) an inp sc = confirmation dp an inp sc) as -> by reflexivity.
  unfold confirmation. cbv zeta.
  change (dp_mode (with_peak_guard g dp)) with (dp_mode dp).
  destruct (decide (dp_mode dp = Live)) as [M|M]; [|by rewrite bool_decide_false].
  apply live_gates_some in L; [|done].
  rewrite bool_decide_true by done. cbn [andb].
  change (ct_enabled (sc_continuation (dp_scoring (with_peak_guard g dp)))) with (ct_enabled (sc_continuation (dp_scoring dp))).
  destruct (ct_enabled (sc_continuation (dp_scoring dp))); [|reflexivity]. cbn [orb].
  match goal with |- ?m ≫= _ = _ => apply (gate_bind_ext m) end. intros confirm _.
  rewrite continuation_guard by apply (lo_smart _ _ _ L). reflexivity.
Qed.

End Pipeline.

(** a token nobody bought, in demo mode *)
Definition quiet_answers : Answers := {|
  an_window := (fun _ => None, None); an_patch := FeatureThresholdPatch_default;
  an_regulars := []; an_snipers := []; an_category := fun _ => (CatNeutral, DevRecord_default);
  an_count_smart := fun _ => 0; an_filter_smart := fun l => l; an_trader := fun _ => None;
  an_operator_cap := 1%float; an_confirm := (fun _ => None, None); an_recheck := (fun _ => None, None);
  an_elapsed_ms := 0; an_manager_open := true |}.

Definition quiet_input : ScoringPipelineInput := {|
  in_mint := 1%N; in_dev := 2%N; in_dev_stats := None; in_is_spam_dev := true;
  in_bucket_for_score := mkTokenBucket (pump_pool_new id 1%N 2%N) 0 0;
  in_from_fresh_watchlist := false |}.

Lemma pipeline_ends_once_witness :
  length (List.filter terminal
    (run_scoring_and_buy id (fun _ => ""%string) (mkDeps ScoringConfig_default Demo true)
       quiet_answers quiet_input).1) = 1%nat.
Proof.
  apply (pipeline_ends_once id (fun _ => ""%string) (mkDeps ScoringConfig_default Demo true)
           quiet_answers quiet_input); vm_compute; reflexivity.
Defined.
