(* ===== verification/Watchlist.v ===== *)
(** The fresh watchlist ([pipeline/fresh_watchlist.rs]): tokens of fresh
    developers polled until their tier-B gates pass or a deadline.

    The manager is shared by the tasks of all new tokens: the set of watched
    tokens is behind a lock, the number of running tasks is an atomic beside it.
    Each of their accesses is one step of a transition system, so that the
    interleavings are explicit.  The polls of one task are a loop over the clock
    readings and the answers of the services. *)
From S2P Require Import Prelude Pump Swarm Config Registry Features ScoreEngine Learning Feed Pipeline.

(** ** One poll *)

(** what the launch pad and the registries answer to one poll *)
Record PollAnswer := mkPollAnswer {
  pa_point : EarlyTapePoint;
  pa_regulars : list (Address * Trader);
  pa_snipers : list (Address * Trader);
  pa_patch : FeatureThresholdPatch;
  pa_count_smart : list Address -> Z
}.

Section Polls.
Context (tanh : f64 -> f64).

(* pipeline/fresh_watchlist.rs 293-354: poll_b_gates *)
Definition poll_b_gates (mint dev : Address) (initial_mcap_sol : f64) (scoring_cfg : ScoringConfig)
    (tier_b : TierBGateConfig) (answer : option PollAnswer) : option TierBGatePoll :=
  pa ← answer;
  let current_mcap_sol := tp_mcap_sol (pa_point pa) in
  let peak_mcap_sol := f64_max initial_mcap_sol current_mcap_sol in
  let merged_thr := merge_thresholds (sc_thresholds scoring_cfg) (pa_patch pa) in
  let thr := if sc_legacy_scoring scoring_cfg then sc_thresholds scoring_cfg else merged_thr in
  let '(early_buyers, _, buy_volume_sol, still_long, sold, bundle) :=
    snapshot_early_buyers (pa_regulars pa) (pa_snipers pa) thr in
  let smart_count := pa_count_smart pa (eb_all early_buyers) in
  let tape := from_tape_points tanh [pa_point pa] 0 in
  let token_features :=
    assemble mint dev None CatFresh DevRecord_default initial_mcap_sol current_mcap_sol peak_mcap_sol
      early_buyers (Z.of_nat (length (eb_regulars early_buyers)))
      (Z.of_nat (length (eb_snipers early_buyers))) buy_volume_sol still_long sold bundle smart_count tape in
  let breakdown := score scoring_cfg token_features thr in
  Some (evaluate_tier_b_poll tier_b token_features (sb_items breakdown)).

End Polls.

(** ** The task of one token *)

(** an iteration: the clock at the head of the loop, the poll after the sleep *)
Abbreviation Turn := (Z * option TierBGatePoll)%type.

Record Watch := mkWatch {
  wt_passed : bool;
  wt_passed_hot_override : bool;
  wt_last_momentum_only_poll : option TierBGatePoll
}.

(** [None] while the task is still waiting *)
(* pipeline/fresh_watchlist.rs 129-171: FreshWatchlistManager::try_add *)
Fixpoint watch_loop (deadline : Z) (turns : list Turn) (last : option TierBGatePoll) : option Watch :=
  match turns with
  | [] => None
  | (now, answer) :: turns =>
      if now <? deadline then
        match answer with
        | None => watch_loop deadline turns last
        | Some poll =>
            let last := if bp_momentum_only_fail poll then Some poll else last in
            if tier_b_poll_passes poll then Some (mkWatch true (bp_hot_override poll) last)
            else watch_loop deadline turns last
        end
      else Some (mkWatch false false last)
  end.

(* pipeline/fresh_watchlist.rs 119-133: FreshWatchlistManager::try_add *)
Definition watch (cfg : FreshWatchlistConfig) (start : Z) (turns : list Turn) : option Watch :=
  let poll_ms := Z.max (fw_poll_interval_ms cfg) 1 in
  let max_wait_ms := Z.max (fw_max_wait_ms cfg) poll_ms in
  watch_loop (start + max_wait_ms) turns None.

Inductive WatchEvent :=
  | WCountPassed
  | WCountRejected
  | WLog (reason : string) (last_momentum_only : option TierBGatePoll)
  | WScore (inp : ScoringPipelineInput).

(** what the task does once it has left the watchlist *)
(* pipeline/fresh_watchlist.rs 173-286: FreshWatchlistManager::try_add *)
Definition watch_done (learning_log : bool) (mint dev : Address) (bucket_for_score : TokenBucket) (w : Watch)
    : list WatchEvent :=
  let log reason poll := if learning_log then [WLog reason poll] else [] in
  if wt_passed w then
    [WCountPassed] ++
    log "watchlist_passed"%string (if wt_passed_hot_override w then wt_last_momentum_only_poll w else None) ++
    [WScore (mkInput mint dev None false bucket_for_score true)]
  else [WCountRejected] ++ log "watchlist_rejected"%string (wt_last_momentum_only_poll w).

(** ** The shared manager *)

(* pipeline/fresh_watchlist.rs 34-39: TryAddError *)
Inductive TryAddError := Disabled | Duplicate | CapFull.
#[export] Instance TryAddError_eq_dec : EqDecision TryAddError.
Proof. solve_decision. Defined.

(** [active] and [running], with the program points of the tasks between their
    accesses: [adding] holds the tokens inserted but not counted yet, [watching]
    those of the spawned tasks, [leaving] counts the tasks that have removed
    their token but not decremented the counter *)
(* pipeline/fresh_watchlist.rs 41-44: FreshWatchlistManager *)
Record FreshWatchlistManager := mkWatchlist {
  wl_active : gset Address;
  wl_running : Z;
  wl_adding : list Address;
  wl_watching : list Address;
  wl_leaving : nat
}.

(* pipeline/fresh_watchlist.rs 47-52: FreshWatchlistManager::new *)
Definition watchlist_new : FreshWatchlistManager := mkWatchlist ∅ 0 [] [] 0.

(** the critical section of [try_add] *)
(* pipeline/fresh_watchlist.rs 69-83: FreshWatchlistManager::try_add *)
Definition try_add_locked (cfg : FreshWatchlistConfig) (mint : Address) (s : FreshWatchlistManager)
    : result () TryAddError * FreshWatchlistManager :=
  if negb (fw_enabled cfg) then (Err Disabled, s)
  else if decide (mint ∈ wl_active s) then (Err Duplicate, s)
  else if fw_max_concurrent cfg <=? wl_running s then (Err CapFull, s)
  else (Ok (), mkWatchlist ({[mint]} ∪ wl_active s) (wl_running s) (mint :: wl_adding s)
                 (wl_watching s) (wl_leaving s)).

(** removes the first occurrence *)
Fixpoint remove_one (x : Address) (l : list Address) : list Address :=
  match l with
  | [] => []
  | y :: l => if decide (x = y) then l else y :: remove_one x l
  end.

Section System.
Context (cfg : FreshWatchlistConfig).

Inductive wl_step : FreshWatchlistManager -> FreshWatchlistManager -> Prop :=
  | step_try_add mint s :
      wl_step s (try_add_locked cfg mint s).2
  (* pipeline/fresh_watchlist.rs 83: running.fetch_add(1), then the task is spawned *)
  | step_count mint s :
      mint ∈ wl_adding s ->
      wl_step s (mkWatchlist (wl_active s) (u64 (wl_running s + 1)) (remove_one mint (wl_adding s))
                   (mint :: wl_watching s) (wl_leaving s))
  (* pipeline/fresh_watchlist.rs 173-176: active.remove(&mint) *)
  | step_remove mint s :
      mint ∈ wl_watching s ->
      wl_step s (mkWatchlist (wl_active s ∖ {[mint]}) (wl_running s) (wl_adding s)
                   (remove_one mint (wl_watching s)) (S (wl_leaving s)))
  (* pipeline/fresh_watchlist.rs 177: running.fetch_sub(1) *)
  | step_uncount s n :
      wl_leaving s = S n ->
      wl_step s (mkWatchlist (wl_active s) (u64 (wl_running s - 1)) (wl_adding s) (wl_watching s) n).

(** at most [callers] calls of [try_add] are between their two accesses *)
Inductive wl_reachable (callers : nat) : FreshWatchlistManager -> Prop :=
  | reach_new : wl_reachable callers watchlist_new
  | reach_step s s' :
      wl_reachable callers s -> wl_step s s' -> (length (wl_adding s') <= callers)%nat ->
      wl_reachable callers s'.

(** the counter counts the tasks, the set holds each watched token once *)
Record wl_ok (s : FreshWatchlistManager) : Prop := {
  wo_active : forall m, m ∈ wl_active s <-> m ∈ wl_adding s \/ m ∈ wl_watching s;
  wo_once : NoDup (wl_adding s ++ wl_watching s);
  wo_running : wl_running s = Z.of_nat (length (wl_watching s) + wl_leaving s)
}.

Lemma remove_one_perm x l : x ∈ l -> x :: remove_one x l ≡ₚ l.
Proof.
  induction l as [|y l IH]; intros H; [by apply not_elem_of_nil in H|]. cbn. case_decide as D; [by subst|].
  apply elem_of_cons in H as [H|H]; [done|]. rewrite (Permutation_swap y x). by rewrite IH.
Qed.

Definition wl_limit (callers : nat) : Z := Z.max 0 (fw_max_concurrent cfg - 1 + Z.of_nat callers).

Lemma remove_one_length x l : x ∈ l -> length l = S (length (remove_one x l)).
Proof. intros H. by rewrite <- (remove_one_perm x l H) at 1. Qed.

Lemma elem_of_remove_one x y l : NoDup l -> x ∈ l -> (y ∈ remove_one x l <-> y ∈ l /\ y <> x).
Proof.
  intros N H. pose proof (remove_one_perm x l H) as P.
  assert (y ∈ l <-> y ∈ x :: remove_one x l) as -> by (by rewrite P).
  assert (NoDup (x :: remove_one x l)) as [N' _]%NoDup_cons by (by rewrite P).
  rewrite elem_of_cons. naive_solver.
Qed.

Lemma remove_one_nodup x l : NoDup l -> x ∈ l -> NoDup (remove_one x l).
Proof.
  intros N H. assert (NoDup (x :: remove_one x l)) as [_ N']%NoDup_cons; [|done].
  by rewrite (remove_one_perm x l H).
Qed.

Lemma wl_step_ok callers s s' :
  Z.of_nat callers + fw_max_concurrent cfg <= 2 ^ 64 ->
  wl_step s s' -> (length (wl_adding s') <= callers)%nat ->
  wl_ok s -> wl_running s + Z.of_nat (length (wl_adding s)) <= wl_limit callers ->
  wl_ok s' /\ wl_running s' + Z.of_nat (length (wl_adding s')) <= wl_limit callers.
Proof.
  intros Hw St Hc [A N R] B. unfold wl_limit in *.
  destruct St as [mint s|mint s H|mint s H|s n H]; cbn in *.
  - unfold try_add_locked in *. destruct (fw_enabled cfg); cbn in *; [|by split].
    case_decide as I; cbn in *; [by split|].
    destruct (Z.leb_spec (fw_max_concurrent cfg) (wl_running s)) as [L|L]; cbn in *; [by split|].
    split; [split; cbn|lia].
    + intros m. rewrite elem_of_union, A. set_solver.
    + constructor; [|done]. rewrite elem_of_app, <- A. done.
    + done.
  - pose proof (remove_one_length _ _ H) as Le. pose proof (remove_one_perm _ _ H) as P.
    assert (NoDup (wl_adding s)) as Na by (by apply NoDup_app in N as [? _]).
    rewrite wrap_u_small by (unfold in_u; lia).
    split; [split; cbn|lia].
    + intros m. rewrite A, elem_of_cons, (elem_of_remove_one mint m _ Na H).
      destruct (decide (m = mint)) as [->|]; naive_solver.
    + by rewrite <- Permutation_middle, app_comm_cons, P.
    + lia.
  - pose proof (remove_one_length _ _ H) as Le. apply NoDup_app in N as (Na & Nd & Nw).
    split; [split; cbn|done].
    + intros m. rewrite elem_of_difference, elem_of_singleton, A, (elem_of_remove_one mint m _ Nw H).
      split; [naive_solver|]. intros [I|I]; [|naive_solver]. split; [by left|]. intros ->. by apply (Nd mint).
    + apply NoDup_app. split; [done|]. split; [|by apply remove_one_nodup].
      intros m I1 [I2 _]%(elem_of_remove_one mint m _ Nw H). by apply (Nd m I1).
    + lia.
  - rewrite wrap_u_small by (unfold in_u; lia). split; [split; cbn; [done|done|lia]|lia].
Qed.

(** C26: However the calls of [try_add] and the ends of the tasks interleave, the
    counter is the number of tasks that have not left, the set holds exactly the
    tokens being added or watched, no token is watched twice at a time, and the
    counter exceeds the configured maximum by at most the number of calls that
    are between their check and their increment, less one: a single caller
    respects the maximum. *)
Theorem watchlist_bounded callers s :
  Z.of_nat callers + fw_max_concurrent cfg <= 2 ^ 64 ->
  wl_reachable callers s ->
  wl_ok s /\ wl_running s <= Z.max 0 (fw_max_concurrent cfg - 1 + Z.of_nat callers).
Proof.
  intros Hw Hr.
  enough (wl_ok s /\ wl_running s + Z.of_nat (length (wl_adding s)) <= wl_limit callers) as [O B]
    by (split; [done|unfold wl_limit in B; lia]).
  induction Hr as [|s s' Hr [O B] St Hc].
  - split; [split; cbn; [set_solver|constructor|done]|]. unfold wl_limit. cbn. lia.
  - by eapply wl_step_ok.
Qed.

End System.

(** With two callers the maximum of one is exceeded: both find the counter at 0
    before either has counted its token. *)
Definition crowded_config : FreshWatchlistConfig :=
  FreshWatchlistConfig_default <| fw_enabled := true |> <| fw_max_concurrent := 1 |>.
Definition crowded : FreshWatchlistManager := mkWatchlist {[2%N; 1%N]} 2 [] [2%N; 1%N] 0.

Lemma crowded_reachable : wl_reachable crowded_config 2 crowded.
Proof.
  set (s1 := (try_add_locked crowded_config 1%N watchlist_new).2).
  set (s2 := (try_add_locked crowded_config 2%N s1).2).
  set (s3 := mkWatchlist (wl_active s2) 1 [2%N] [1%N] 0).
  assert (wl_reachable crowded_config 2 s1) as R1.
  { apply (reach_step _ 2 watchlist_new s1);
      [exact (reach_new _ 2)|apply (step_try_add _ 1%N watchlist_new)|vm_compute; lia]. }
  assert (wl_reachable crowded_config 2 s2) as R2.
  { apply (reach_step _ 2 s1 s2); [exact R1|apply (step_try_add _ 2%N s1)|vm_compute; lia]. }
  assert (wl_reachable crowded_config 2 s3) as R3.
  { apply (reach_step _ 2 s2 s3); [exact R2|apply (step_count _ 1%N s2)|vm_compute; lia]. right. left. }
  apply (reach_step _ 2 s3); [exact R3|apply (step_count _ 2%N s3)|vm_compute; lia]. left.
Qed.

Example watchlist_cap_exceeded :
  wl_reachable crowded_config 2 crowded /\ fw_max_concurrent crowded_config < wl_running crowded.
Proof. split; [exact crowded_reachable|reflexivity]. Qed.

Lemma watchlist_bounded_witness :
  wl_ok crowded /\ wl_running crowded <= Z.max 0 (fw_max_concurrent crowded_config - 1 + Z.of_nat 2).
Proof.
  apply (watchlist_bounded crowded_config 2); [vm_compute; discriminate|exact crowded_reachable].
Defined.

(** ** The polls end *)

(** the readings of the clock are at least one sleep apart *)
Fixpoint spaced (poll_ms : Z) (turns : list Turn) : Prop :=
  match turns with
  | (t1, _) :: (((t2, _) :: _) as turns') => t1 + poll_ms <= t2 /\ spaced poll_ms turns'
  | _ => True
  end.

(** the answer of the task: the first turn that is past the deadline or passes *)
Definition decides (deadline : Z) (t : Turn) : bool :=
  (deadline <=? t.1) || match t.2 with Some p => tier_b_poll_passes p | None => false end.

Lemma watch_loop_spec deadline turns last :
  match watch_loop deadline turns last with
  | None => Forall (fun t => decides deadline t = false) turns
  | Some w => exists before t after, turns = before ++ t :: after /\
      Forall (fun t => decides deadline t = false) before /\ decides deadline t = true /\
      wt_passed w = (t.1 <? deadline)
  end.
Proof.
  revert last. induction turns as [|[now answer] turns IH]; intros last; cbn [watch_loop]; [constructor|].
  assert (forall last, decides deadline (now, answer) = false ->
    match watch_loop deadline turns last with
    | None => Forall (fun t => decides deadline t = false) ((now, answer) :: turns)
    | Some w => exists before t after, (now, answer) :: turns = before ++ t :: after /\
        Forall (fun t => decides deadline t = false) before /\ decides deadline t = true /\
        wt_passed w = (t.1 <? deadline)
    end) as Go.
  { intros l D. specialize (IH l). destruct (watch_loop deadline turns l) as [w|]; [|by constructor].
    destruct IH as (before & t & after & -> & F & Dt & P).
    exists ((now, answer) :: before), t, after. split_and!; [done|by constructor|done|done]. }
  destruct (Z.ltb_spec now deadline) as [L|L].
  - assert (deadline <=? now = false) as E by lia.
    destruct answer as [p|]; [|by apply Go; unfold decides; cbn; rewrite E].
    destruct (tier_b_poll_passes p) eqn:Q; [|by apply Go; unfold decides; cbn; rewrite E, Q].
    exists [], (now, Some p), turns. cbn. split_and!; [done|constructor| |lia].
    unfold decides. cbn. by rewrite Q, orb_true_r.
  - exists [], (now, answer), turns. cbn. split_and!; [done|constructor| |lia].
    unfold decides. cbn. by assert (deadline <=? now = true) as -> by lia.
Qed.

Lemma spaced_lookup poll_ms turns t0 a i t :
  spaced poll_ms ((t0, a) :: turns) -> ((t0, a) :: turns) !! i = Some t -> t0 + Z.of_nat i * poll_ms <= t.1.
Proof.
  revert t0 a i. induction turns as [|[t1 a1] turns IH]; intros t0 a i Sp L.
  - destruct i; [|done]. cbn in L. simplify_eq. cbn. lia.
  - destruct Sp as [S1 S2]. destruct i as [|i]; [cbn in L; simplify_eq; cbn; lia|].
    pose proof (IH t1 a1 i S2 L). lia.
Qed.

(** C27: The task of a watched token ends: with readings of the clock at least one
    poll interval apart, it has decided after [max_wait / poll_interval + 2]
    turns, and its decision is that of the first turn that is past the deadline
    or whose poll passes; it passes exactly when that turn is before the
    deadline, whatever the polls without an answer. *)
Theorem watch_decides cfg start answer turns :
  let poll_ms := Z.max (fw_poll_interval_ms cfg) 1 in
  let max_wait_ms := Z.max (fw_max_wait_ms cfg) poll_ms in
  let all := (start, answer) :: turns in
  spaced poll_ms all -> max_wait_ms / poll_ms + 2 <= Z.of_nat (length all) ->
  exists w before t after,
    watch cfg start all = Some w /\ all = before ++ t :: after /\
    Forall (fun t => decides (start + max_wait_ms) t = false) before /\
    decides (start + max_wait_ms) t = true /\ wt_passed w = (t.1 <? start + max_wait_ms).
Proof.
  cbn zeta. intros Sp Len. unfold watch. set (p := Z.max (fw_poll_interval_ms cfg) 1) in *.
  set (mw := Z.max (fw_max_wait_ms cfg) p) in *.
  pose proof (watch_loop_spec (start + mw) ((start, answer) :: turns) None) as W.
  destruct (watch_loop _ _ _) as [w|].
  - destruct W as (before & t & after & ? & ? & ? & ?). by exists w, before, t, after.
  - exfalso. assert (0 < p) as Pp by lia. assert (0 <= mw / p) as Q by (apply Z.div_pos; lia).
    destruct (lookup_lt_is_Some_2 ((start, answer) :: turns) (Z.to_nat (mw / p + 1))) as [t Ht]; [lia|].
    pose proof (spaced_lookup p turns start answer _ t Sp Ht) as G.
    rewrite Forall_lookup in W. apply W in Ht. unfold decides in Ht. apply orb_false_iff in Ht as [Ht _].
    apply Z.leb_gt in Ht. pose proof (Z.mul_succ_div_gt mw p Pp). rewrite Z2Nat.id in G by lia. lia.
Qed.

Lemma watch_decides_witness :
  let cfg := FreshWatchlistConfig_default <| fw_poll_interval_ms := 400 |> <| fw_max_wait_ms := 800 |> in
  let poll_ms := Z.max (fw_poll_interval_ms cfg) 1 in
  let max_wait_ms := Z.max (fw_max_wait_ms cfg) poll_ms in
  let all := [(0, None); (400, None); (801, None); (1300, None)] in
  exists w before t after,
    watch cfg 0 all = Some w /\ all = before ++ t :: after /\
    Forall (fun t => decides (0 + max_wait_ms) t = false) before /\
    decides (0 + max_wait_ms) t = true /\ wt_passed w = (t.1 <? 0 + max_wait_ms).
Proof.
  apply (watch_decides (FreshWatchlistConfig_default <| fw_poll_interval_ms := 400 |> <| fw_max_wait_ms := 800 |>)
           0 None [(400, None); (801, None); (1300, None)]).
  - repeat split; vm_compute; discriminate.
  - vm_compute. discriminate.
Defined.
