(* ===== verification/Creator.v ===== *)
(** Creator statistics: the operator's filter ([autobuy/filters/creator.rs]) and
    the performance tracker with the creator registry
    ([autobuy/performance_tracker.rs]).

    The tracker's actor is a step function over its messages; its count of
    processed tokens is part of the state. *)
From S2P Require Import Prelude Amounts Pump Features.

(** ** The filter *)

(* autobuy/filters/creator.rs 5-7: default_spam_skip_coins *)
Definition default_spam_skip_coins : option Z := Some 100.

(* autobuy/filters/creator.rs 14-40: CreatorStatisticsFilter *)
Record CreatorStatisticsFilter := mkCreatorStatisticsFilter {
  cf_min_total_coins : option Z;
  cf_max_total_coins : option Z;
  cf_spam_skip_coins : option Z;
  cf_spam_dev_whitelist : list string;
  cf_min_median_market_cap : option f64;
  cf_min_trader_pnl_average : option f64;
  cf_min_total_holders_average : option f64;
  cf_min_average_volume : option f64;
  cf_min_median_total_trades : option f64;
  cf_min_average_unique_buy_to_sell_ratio : option f64;
  cf_min_average_buy_trader_size : option f64
}.

(* autobuy/filters/creator.rs 44-48: CreatorStatisticsFilter::is_spam_dev_whitelisted *)
Definition is_spam_dev_whitelisted (f : CreatorStatisticsFilter) (dev : string) : bool :=
  existsb (fun w => String.eqb w dev) (cf_spam_dev_whitelist f).

Definition currency_float (c : Currency) : f64 := amount_to_float (currency_amount c).

(** a threshold that is set and fails pushes its name *)
Definition fails {A} (threshold : option A) (below : A -> bool) (name : string) : list string :=
  match threshold with Some t => if below t then [name] else [] | None => [] end.

(* autobuy/filters/creator.rs 55-113: CreatorStatisticsFilter::reject_reasons *)
Definition reject_reasons (f : CreatorStatisticsFilter) (s : CreatorStatistics) : list string :=
  fails (cf_min_total_coins f) (fun min => cs_total_coins s <? min) "min_total_coins" ++
  fails (cf_max_total_coins f) (fun max => max <? cs_total_coins s) "max_total_coins" ++
  fails (cf_min_median_market_cap f)
    (fun min => currency_float (cs_median_market_cap s) <? min)%float "min_median_market_cap" ++
  fails (cf_min_trader_pnl_average f)
    (fun min => cs_trader_pnl_average s <? min)%float "min_trader_pnl_average" ++
  fails (cf_min_total_holders_average f)
    (fun min => f64_of_Z (cs_total_holders_average s) <? min)%float "min_total_holders_average" ++
  fails (cf_min_average_volume f) (fun min => cs_average_volume s <? min)%float "min_average_volume" ++
  fails (cf_min_median_total_trades f)
    (fun min => f64_of_Z (cs_median_total_trades s) <? min)%float "min_median_total_trades" ++
  fails (cf_min_average_unique_buy_to_sell_ratio f)
    (fun min => cs_average_unique_buy_to_sell_ratio s <? min)%float "min_average_unique_buy_to_sell_ratio" ++
  fails (cf_min_average_buy_trader_size f)
    (fun min => currency_float (cs_average_buy_trader_size s) <? min)%float "min_average_buy_trader_size".

(* autobuy/filters/creator.rs 50-52: CreatorStatisticsFilter::filter *)
Definition creator_filter (f : CreatorStatisticsFilter) (s : CreatorStatistics) : bool :=
  match reject_reasons f s with [] => true | _ => false end.

(* autobuy/filters/creator.rs 122-128: is_early_stats_only_reject *)
Definition EARLY : list string :=
  ["min_median_market_cap"; "min_trader_pnl_average"; "min_total_holders_average"; "min_average_volume";
   "min_median_total_trades"]%string.

(* autobuy/filters/creator.rs 118-130: is_early_stats_only_reject *)
Definition is_early_stats_only_reject (reasons : list string) : bool :=
  match reasons with
  | [] => false
  | _ => forallb (fun r => existsb (String.eqb r) EARLY) reasons
  end.

(** ** The performance tracker *)

(* autobuy/performance_tracker.rs 16-20: PerformanceTracker *)
Record PerformanceTracker := mkPerformanceTracker {
  pt_creator_filter : CreatorStatistics;
  pt_threshold : f64;
  pt_best_market_cap : f64
}.
#[export] Instance PerformanceTracker_settable : Settable PerformanceTracker := fun r =>
  mkPerformanceTracker (pt_creator_filter r) (pt_threshold r) (pt_best_market_cap r).

(* autobuy/performance_tracker.rs 24-35: PerformanceTracker::default_floor *)
Definition default_floor : CreatorStatistics := {|
  cs_median_market_cap := Native (amount_from_float_native 50%float);
  cs_trader_pnl_average := 5%float;
  cs_total_holders_average := 30;
  cs_average_volume := 50%float;
  cs_median_total_trades := 40;
  cs_average_unique_buy_to_sell_ratio := 0%float;
  cs_average_buy_trader_size := Native (amount_from_float_native 1%float);
  cs_total_coins := 0
|}.

(* autobuy/performance_tracker.rs 37-43: PerformanceTracker::new *)
Definition tracker_new (threshold : f64) : PerformanceTracker :=
  mkPerformanceTracker default_floor threshold 0%float.

(* autobuy/performance_tracker.rs 47-94: PerformanceTracker::decay_baseline *)
Definition decay_baseline (t : PerformanceTracker) : PerformanceTracker :=
  let decay := 0.9%float in
  let floor := default_floor in
  let c := pt_creator_filter t in
  let decayed_u64 (a b : Z) := Z.max (f64_as_u64 (f64_of_Z a * decay)%float) b in
  let decayed_cur (a b : Currency) :=
    Native (amount_from_float_native (f64_max (currency_float a * decay)%float (currency_float b))) in
  t <| pt_best_market_cap := f64_max (pt_best_market_cap t * decay)%float 0%float |>
    <| pt_creator_filter := {|
         cs_median_market_cap := decayed_cur (cs_median_market_cap c) (cs_median_market_cap floor);
         cs_trader_pnl_average :=
           f64_max (cs_trader_pnl_average c * decay)%float (cs_trader_pnl_average floor);
         cs_total_holders_average :=
           decayed_u64 (cs_total_holders_average c) (cs_total_holders_average floor);
         cs_average_volume := f64_max (cs_average_volume c * decay)%float (cs_average_volume floor);
         cs_median_total_trades := decayed_u64 (cs_median_total_trades c) (cs_median_total_trades floor);
         cs_average_unique_buy_to_sell_ratio :=
           f64_max (cs_average_unique_buy_to_sell_ratio c * decay)%float
             (cs_average_unique_buy_to_sell_ratio floor);
         cs_average_buy_trader_size :=
           decayed_cur (cs_average_buy_trader_size c) (cs_average_buy_trader_size floor);
         cs_total_coins := cs_total_coins c
       |} |>.

(** the seven comparisons of [compare], in order *)
(* autobuy/performance_tracker.rs 101-138: PerformanceTracker::compare *)
Definition comparisons (baseline s : CreatorStatistics) : list bool :=
  [ (cs_trader_pnl_average s >=? cs_trader_pnl_average baseline)%float;
    cs_total_holders_average baseline <=? cs_total_holders_average s;
    (cs_average_volume s >=? cs_average_volume baseline)%float;
    cs_median_total_trades baseline <=? cs_median_total_trades s;
    (cs_average_unique_buy_to_sell_ratio s >=? cs_average_unique_buy_to_sell_ratio baseline)%float;
    (currency_float (cs_median_market_cap s) >=? currency_float (cs_median_market_cap baseline))%float;
    (currency_float (cs_average_buy_trader_size s)
       >=? currency_float (cs_average_buy_trader_size baseline))%float ].

(* autobuy/performance_tracker.rs 100-142: PerformanceTracker::compare *)
Definition compare (t : PerformanceTracker) (creator_stats : CreatorStatistics) : bool :=
  let '(score, total) :=
    List.fold_left (fun (acc : f64 * f64) (ge : bool) =>
        ((if ge then acc.1 + 1 else acc.1)%float, (acc.2 + 1)%float))
      (comparisons (pt_creator_filter t) creator_stats) (0%float, 0%float) in
  let final_score := if (total =? 0)%float then 0%float else (score / total)%float in
  (final_score >=? pt_threshold t)%float.

(* autobuy/performance_tracker.rs 149-165: TrackerMessage *)
Inductive TrackerMessage :=
  | Compare (stats : CreatorStatistics)
  | GetBestMarketCap
  | SetFilter (stats : CreatorStatistics)
  | TryUpdateAth (market_cap : f64) (stats : CreatorStatistics).

Inductive TrackerReply := RBool (b : bool) | RFloat (x : f64) | RNone.

(** the tracker and [tokens_processed] *)
(* autobuy/performance_tracker.rs 173-217: PerformanceTrackerHandle::new *)
Definition tracker_step (s : PerformanceTracker * Z) (m : TrackerMessage)
    : (PerformanceTracker * Z) * TrackerReply :=
  let '(tracker, tokens_processed) := s in
  match m with
  | Compare stats =>
      let n := tokens_processed + 1 in
      let '(tracker, n) := if 100 <=? n then (decay_baseline tracker, 0) else (tracker, n) in
      ((tracker, n), RBool (compare tracker stats))
  | GetBestMarketCap =>
      (s, RFloat (currency_float (cs_median_market_cap (pt_creator_filter tracker))))
  | SetFilter stats => ((tracker <| pt_creator_filter := stats |>, tokens_processed), RNone)
  | TryUpdateAth market_cap stats =>
      if (market_cap >? pt_best_market_cap tracker)%float
      then ((tracker <| pt_best_market_cap := market_cap |> <| pt_creator_filter := stats |>,
             tokens_processed), RBool true)
      else (s, RBool false)
  end.

(** ** The creator registry *)

(* autobuy/performance_tracker.rs 264-273: RegistryMessage *)
Inductive RegistryMessage :=
  | RegSave (address : Address) (stats : CreatorStatistics)
  | RegGet (address : Address).

(* autobuy/performance_tracker.rs 287-310: CreatorRegistryHandle::new *)
Definition creator_registry_step (map : gmap Address CreatorStatistics) (m : RegistryMessage)
    : gmap Address CreatorStatistics * option CreatorStatistics :=
  match m with
  | RegSave address stats => (<[address := stats]> map, None)
  | RegGet address => (map, map !! address)
  end.

(** ** The decay keeps the floor *)

Lemma f64_max_ge_r x y : PrimFloat.is_nan y = false -> (f64_max x y >=? y)%float = true.
Proof. intros N. unfold f64_max. rewrite N. repeat case_match; f64_order. Qed.

(** However the statistics of the baseline were set, not-a-number included, a decay
    leaves every standard at or above the floor and the coin count alone. *)
Lemma decay_keeps_floor t :
  let c := pt_creator_filter (decay_baseline t) in
  (cs_trader_pnl_average c >=? 5)%float = true /\ 30 <= cs_total_holders_average c /\
  (cs_average_volume c >=? 50)%float = true /\ 40 <= cs_median_total_trades c /\
  (cs_average_unique_buy_to_sell_ratio c >=? 0)%float = true /\
  (pt_best_market_cap (decay_baseline t) >=? 0)%float = true /\
  cs_total_coins c = cs_total_coins (pt_creator_filter t).
Proof.
  cbn zeta. unfold decay_baseline, default_floor. cbn -[f64_max].
  split_and!; try (by apply f64_max_ge_r); lia || done.
Qed.

