(* ===== verification/Admission.v ===== *)
(** The admission of a created token (the [Action::Create] handler of
    [main.rs]): the quote-mint filter, the developer blacklist, the spam gate,
    the creator filter and the two fresh-developer lanes, up to the call of the
    scoring pipeline or of the fresh watchlist.

    The database answers are arguments; a failed lookup is an [Err].  The
    handler's early returns carry the rows and counters it leaves. *)
From S2P Require Import Prelude Amounts Pump Swarm Config Registry Features ScoreEngine Learning.
From S2P Require Import Positions Messages Feed Blacklist Pipeline Watchlist Creator.

(* persistence/dev_blacklist.rs 15-22: ActiveDevBlacklist *)
Record ActiveDevBlacklist := mkActiveDevBlacklist {
  abl_reason : string;
  abl_mint : string;
  abl_pnl_sol : f64;
  abl_close_reason : string;
  abl_created_at : Z;
  abl_expires_at : Z
}.

(** the sections of the configuration the handler reads *)
Record AdmissionConfig := mkAdmissionConfig {
  ad_dev_blacklist_enabled : bool;
  ad_creator : CreatorStatisticsFilter;
  ad_deps : Deps
}.

(** the answers of the database, in the order they are asked for *)
Record Lookups := mkLookups {
  lk_blacklist : result (option ActiveDevBlacklist) string;
  lk_coins_capped : Z -> result Z string;
  lk_stats : result (option CreatorStatistics) string;
  lk_prior_coins : result Z string
}.

Inductive AdmCounter := ACreate | AFilterRejected | ASpamDevSkip | ANoHistory | APassedFilter.

Inductive AdmEvent :=
  | ACount (c : AdmCounter)
  | ALog (stage reason : string)
  | ALatencyCreated (m : Address)
  | ASave (m : Address) (stats : CreatorStatistics)
  | AWatch (m dev : Address) (initial_mcap_sol : f64) (reasons : list string)
  | AScore (inp : ScoringPipelineInput).

Section Admit.
Context (of_base58 : string -> Address) (to_string : Address -> string) (cfg : AdmissionConfig) (lk : Lookups).
Context (create : GeneralCreate) (bucket : TokenBucket).

Local Abbreviation scoring := (dp_scoring (ad_deps cfg)).

Definition adm_log (stage reason : string) : list AdmEvent :=
  if dp_learning_log (ad_deps cfg) then [ALog stage reason] else [].

(** the row of an active entry, when the lookup finds one *)
(* main.rs 1372-1424: main *)
Definition blacklist_gate : option (list AdmEvent) :=
  if ad_dev_blacklist_enabled cfg then
    match lk_blacklist lk with
    | Ok (Some active) =>
        let '(bl_label, _) :=
          format_filter_skip (abl_reason active) (abl_mint active) (abl_expires_at active) in
        Some ([ACount AFilterRejected] ++ adm_log "filter_dev_blacklist" bl_label)
    | _ => None
    end
  else None.

(* main.rs 1435-1472: main *)
Definition spam_dev_gate_result : bool * list AdmEvent :=
  let whitelisted := is_spam_dev_whitelisted (ad_creator cfg) (to_string (gc_user create)) in
  match cf_spam_skip_coins (ad_creator cfg) with
  | None => (false, [])
  | Some spam_cap =>
      match lk_coins_capped lk spam_cap with
      | Ok n => if (spam_cap <? n) && negb whitelisted then (true, [ACount ASpamDevSkip]) else (false, [])
      | Err _ => (false, [])
      end
  end.

(** whether a rejected creator qualifies for the fresh watchlist *)
(* main.rs 1541-1547: main *)
Definition watchlist_eligible (is_spam_dev : bool) (prior : Z) (reasons : list string) : bool :=
  fw_enabled (tb_fresh_watchlist (sc_tier_b scoring)) && tb_enabled (sc_tier_b scoring)
  && negb is_spam_dev && (prior =? 0) && is_early_stats_only_reject reasons.

Definition score_input (dev_stats : option CreatorStatistics) (is_spam_dev : bool) : AdmEvent :=
  AScore (mkInput (gc_mint create) (gc_user create) dev_stats is_spam_dev bucket false).

(** a creator whose statistics the filter rejects *)
(* main.rs 1520-1632: main *)
Definition reject_creator (is_spam_dev : bool) (s : CreatorStatistics) (wl : FreshWatchlistManager)
    : outcome (list AdmEvent * FreshWatchlistManager) :=
  let reasons := reject_reasons (ad_creator cfg) s in
  let wl_cfg := tb_fresh_watchlist (sc_tier_b scoring) in
  match lk_prior_coins lk with
  | Err _ => Ret ([ACount AFilterRejected], wl)
  | Ok prior =>
      let rejected := [ACount AFilterRejected] ++ adm_log "filter_creator" "creator_config_rejected" in
      if watchlist_eligible is_spam_dev prior reasons then
        initial_mcap ← pool_mcap bucket;
        match try_add_locked wl_cfg (gc_mint create) wl with
        | (Ok _, wl) => Ret ([AWatch (gc_mint create) (gc_user create) initial_mcap reasons], wl)
        | (Err Duplicate, wl) => Ret ([], wl)
        | (Err CapFull, wl) => Ret (rejected, wl)
        | (Err Disabled, wl) => Ret (rejected, wl)
        end
      else Ret (rejected, wl)
  end.

(* main.rs 1482-1674: main *)
Definition dev_stats_gate (is_spam_dev : bool) (wl : FreshWatchlistManager)
    : outcome (list AdmEvent * FreshWatchlistManager) :=
  let passed stats saved :=
    Ret (saved ++ [ACount APassedFilter; score_input stats is_spam_dev], wl) in
  if is_spam_dev then passed None []
  else
    match lk_stats lk with
    | Err msg => Ret (adm_log "filter_db" msg, wl)
    | Ok (Some s) =>
        if negb (creator_filter (ad_creator cfg) s) then reject_creator is_spam_dev s wl
        else passed (Some s) [ASave (gc_mint create) s]
    | Ok None =>
        if tb_enabled (sc_tier_b scoring) && negb is_spam_dev then passed None []
        else Ret ([ACount ANoHistory] ++ adm_log "filter_no_history" "no_creator_history", wl)
    end.

(* main.rs 1308-1704: main *)
Definition admit_create (wl : FreshWatchlistManager) : outcome (list AdmEvent * FreshWatchlistManager) :=
  if is_unsupported_quote_mint of_base58 create then
    Ret ([ACount AFilterRejected] ++ adm_log "filter_quote_mint" "unsupported_quote_mint", wl)
  else
    let created := [ACount ACreate; ALatencyCreated (gc_mint create)] in
    match blacklist_gate with
    | Some skipped => Ret (created ++ skipped, wl)
    | None =>
        let '(is_spam_dev, counted) := spam_dev_gate_result in
        r ← dev_stats_gate is_spam_dev wl;
        Ret (created ++ counted ++ r.1, r.2)
    end.

End Admit.

(** ** What is scored, and how *)

Section AdmitFacts.
Context (of_base58 : string -> Address) (to_string : Address -> string).
Implicit Types (cfg : AdmissionConfig) (lk : Lookups) (create : GeneralCreate) (bucket : TokenBucket).

(** the spam gate alone *)
Definition spam (cfg : AdmissionConfig) (lk : Lookups) (create : GeneralCreate) : bool :=
  (spam_dev_gate_result to_string cfg lk create).1.

(** the creator's statistics, if any, let the token through *)
Definition creator_admitted (cfg : AdmissionConfig) (lk : Lookups) (create : GeneralCreate)
    (stats : option CreatorStatistics) : Prop :=
  if spam cfg lk create then stats = None
  else lk_stats lk = Ok stats /\
       match stats with
       | Some s => reject_reasons (ad_creator cfg) s = []
       | None => tb_enabled (sc_tier_b (dp_scoring (ad_deps cfg))) = true
       end.

(** an event of a closed list of events *)
Ltac in_events :=
  repeat match goal with
  | H : _ ∈ [] |- _ => by apply not_elem_of_nil in H
  | H : _ ∈ _ :: _ |- _ => apply elem_of_cons in H as [H|H]; [try discriminate H|]
  end.

Lemma adm_log_scores cfg stage reason inp : AScore inp ∉ adm_log cfg stage reason.
Proof. unfold adm_log. case_match; set_solver. Qed.

Lemma adm_log_watches cfg stage reason m d c r : AWatch m d c r ∉ adm_log cfg stage reason.
Proof. unfold adm_log. case_match; set_solver. Qed.

Lemma spam_events cfg lk create e :
  e ∈ (spam_dev_gate_result to_string cfg lk create).2 -> e = ACount ASpamDevSkip.
Proof.
  unfold spam_dev_gate_result. case_match; [|set_solver]. case_match; [|set_solver].
  case_match; set_solver.
Qed.

Lemma blacklist_events cfg lk l e :
  blacklist_gate cfg lk = Some l -> e ∈ l -> e = ACount AFilterRejected \/ exists s r, e = ALog s r.
Proof.
  unfold blacklist_gate, adm_log. case_match; [|done]. case_match; [|done]. case_match; [|done].
  case_match. intros [= <-]. case_match; set_solver.
Qed.

Lemma reject_creator_events cfg lk create bucket b s wl evs wl' :
  reject_creator cfg lk create bucket b s wl = Ret (evs, wl') ->
  (forall inp, AScore inp ∉ evs) /\
  forall m d c r, AWatch m d c r ∈ evs -> tb_enabled (sc_tier_b (dp_scoring (ad_deps cfg))) = true.
Proof.
  set (rejected := [ACount AFilterRejected] ++ adm_log cfg "filter_creator" "creator_config_rejected").
  assert ((forall inp, AScore inp ∉ rejected) /\ forall m d c r, AWatch m d c r ∉ rejected) as [N1 N2].
  { unfold rejected, adm_log. split; intros *; case_match; cbn; intros H'; in_events. }
  unfold reject_creator. fold rejected.
  destruct (lk_prior_coins lk) as [prior|e]; [|intros [= <- <-]; split; intros * H; in_events].
  cbv zeta. fold rejected. destruct (watchlist_eligible cfg b prior _) eqn:W; [|intros [= <- <-]; split; [done|]; by intros m d c r []%N2].
  assert (tb_enabled (sc_tier_b (dp_scoring (ad_deps cfg))) = true) as T.
  { unfold watchlist_eligible in W. by destruct (fw_enabled _), (tb_enabled _). }
  destruct (pool_mcap bucket) as [c|p]; [|done]. cbn [mbind outcome_bind].
  destruct (try_add_locked _ _ _) as [[[]|[]] wl1]; intros [= <- <-]; split; try done;
    intros *; try (intros []%N1); try (by intros []%N2); try (intros H; in_events).
Qed.

Lemma passed_scores saved create bucket stats b inp :
  (forall i, AScore i ∉ saved) ->
  AScore inp ∈ saved ++ [ACount APassedFilter; score_input create bucket stats b] <->
    inp = mkInput (gc_mint create) (gc_user create) stats b bucket false.
Proof.
  intros N. rewrite elem_of_app, !elem_of_cons, elem_of_nil. unfold score_input. split.
  - intros [H|[H|[H|[]]]]; [by apply N in H|done|by injection H].
  - intros ->. auto.
Qed.

Lemma dev_stats_gate_scores cfg lk create bucket wl evs wl' inp :
  dev_stats_gate cfg lk create bucket (spam cfg lk create) wl = Ret (evs, wl') ->
  AScore inp ∈ evs <->
    exists stats, creator_admitted cfg lk create stats /\
      inp = mkInput (gc_mint create) (gc_user create) stats (spam cfg lk create) bucket false.
Proof.
  assert (forall i : ScoringPipelineInput, AScore i ∉ []) as N0 by (intros i H; in_events).
  unfold dev_stats_gate, creator_admitted. cbv zeta. destruct (spam cfg lk create).
  { intros [= <- <-]. pose proof (passed_scores [] create bucket None true inp N0) as P. cbn [app] in P.
    rewrite P. naive_solver. }
  destruct (lk_stats lk) as [[s|]|msg]; cbn [negb].
  - unfold creator_filter. destruct (reject_reasons (ad_creator cfg) s) as [|r rs] eqn:RR; cbn [negb].
    + intros [= <- <-].
      pose proof (passed_scores [ASave (gc_mint create) s] create bucket (Some s) false inp) as P.
      cbn [app] in P. rewrite P by (intros i H; in_events). naive_solver.
    + intros H. apply reject_creator_events in H as [H _]. split; [by intros ?%H|].
      intros (stats & [[= <-] E] & _). congruence.
  - destruct (tb_enabled _); cbn [andb].
    + intros [= <- <-]. pose proof (passed_scores [] create bucket None false inp N0) as P. cbn [app] in P.
      rewrite P. naive_solver.
    + intros [= <- <-]. split; [|naive_solver]. unfold adm_log. case_match; cbn; intros H'; in_events.
  - intros [= <- <-]. split; [by intros ?%adm_log_scores|naive_solver].
Qed.

Lemma admission_scored_iff cfg lk create bucket wl evs wl' inp :
  admit_create of_base58 to_string cfg lk create bucket wl = Ret (evs, wl') ->
  AScore inp ∈ evs <->
    is_unsupported_quote_mint of_base58 create = false /\ blacklist_gate cfg lk = None /\
    exists stats, creator_admitted cfg lk create stats /\
      inp = mkInput (gc_mint create) (gc_user create) stats (spam cfg lk create) bucket false.
Proof.
  unfold admit_create. destruct (is_unsupported_quote_mint of_base58 create).
  { intros [= <- <-]. split; [|by intros [? _]]. unfold adm_log. case_match; set_solver. }
  destruct (blacklist_gate cfg lk) as [skipped|] eqn:B.
  { intros [= <- <-]. split; [|by intros (_ & ? & _)]. intros H. exfalso. in_events.
    apply (blacklist_events _ _ _ _ B) in H as [H|(? & ? & H)]; done. }
  pose proof (spam_events cfg lk create) as Sp.
  pose proof (dev_stats_gate_scores cfg lk create bucket wl) as D. unfold spam in D at 1.
  destruct (spam_dev_gate_result to_string cfg lk create) as [b counted] eqn:G. cbn [fst snd] in D, Sp.
  destruct (dev_stats_gate cfg lk create bucket b wl) as [[evs0 wl0]|]; [|done].
  cbn [mbind outcome_bind fst snd]. intros [= <- <-].
  rewrite !elem_of_cons, elem_of_app, (D evs0 wl0 inp eq_refl). split.
  - intros [H|[H|[H|H]]]; [done|done|by apply Sp in H|done].
  - intros (_ & _ & H). auto.
Qed.

Lemma admission_scored cfg lk create bucket wl evs wl' inp :
  admit_create of_base58 to_string cfg lk create bucket wl = Ret (evs, wl') -> AScore inp ∈ evs ->
  exists stats, creator_admitted cfg lk create stats /\
    inp = mkInput (gc_mint create) (gc_user create) stats (spam cfg lk create) bucket false.
Proof. intros A H. by apply (admission_scored_iff _ _ _ _ _ _ _ _ A) in H as (_ & _ & ?). Qed.

(** C22: A created token is scored at once exactly when its quote is SOL, no active
    blacklist entry stops its developer, and either its developer is a spammer
    (scored without statistics), or the statistics are read and pass every
    threshold of the creator filter, or there are none and tier B is enabled. *)
Theorem admission_scores_iff cfg lk create bucket wl evs wl' inp :
  admit_create of_base58 to_string cfg lk create bucket wl = Ret (evs, wl') ->
  AScore inp ∈ evs <->
    is_unsupported_quote_mint of_base58 create = false /\ blacklist_gate cfg lk = None /\
    exists stats, creator_admitted cfg lk create stats /\
      inp = mkInput (gc_mint create) (gc_user create) stats (spam cfg lk create) bucket false.
Proof. apply admission_scored_iff. Qed.

(** ** The fresh lane *)

Lemma watched_enabled cfg lk create bucket wl evs wl' m d c r :
  admit_create of_base58 to_string cfg lk create bucket wl = Ret (evs, wl') ->
  AWatch m d c r ∈ evs -> tb_enabled (sc_tier_b (dp_scoring (ad_deps cfg))) = true.
Proof.
  unfold admit_create. destruct (is_unsupported_quote_mint of_base58 create).
  { intros [= <- <-]. unfold adm_log. case_match; set_solver. }
  destruct (blacklist_gate cfg lk) as [skipped|] eqn:B.
  { intros [= <- <-] H. exfalso. in_events.
    apply (blacklist_events _ _ _ _ B) in H as [H|(? & ? & H)]; done. }
  pose proof (spam_events cfg lk create) as Sp.
  destruct (spam_dev_gate_result to_string cfg lk create) as [b counted]. cbn [snd] in Sp.
  destruct (dev_stats_gate cfg lk create bucket b wl) as [[evs0 wl0]|] eqn:G; [|done].
  cbn [mbind outcome_bind fst snd]. intros [= <- <-].
  rewrite !elem_of_cons, elem_of_app. intros [H|[H|[H|H]]]; [done|done|by apply Sp in H|].
  unfold dev_stats_gate in G. cbv zeta in G. destruct b; [injection G as <- _; set_solver|].
  destruct (lk_stats lk) as [[s|]|msg].
  - destruct (negb (creator_filter (ad_creator cfg) s)); [|injection G as <- _; set_solver].
    apply reject_creator_events in G as [_ G]. by eapply G.
  - destruct (tb_enabled _); [done|]. injection G as <- _. unfold adm_log in H. case_match; set_solver.
  - injection G as <- _. by apply adm_log_watches in H.
Qed.

(** the tier a message asks to buy at *)
Definition buy_tier (msg : PositionMessage (PumpPool Bonding)) : option Tier :=
  match msg with InitiateBuy _ _ t _ => Some t | _ => None end.

Context (tanh : f64 -> f64).

Lemma fresh_run_tier dp an inp msg :
  in_dev_stats inp = None -> in_is_spam_dev inp = false -> tb_enabled (sc_tier_b (dp_scoring dp)) = true ->
  ESend msg ∈ (run_scoring_and_buy tanh to_string dp an inp).1 -> buy_tier msg = Some TierB.
Proof.
  intros D Sp T H. apply run_sends in H as (sc & E & NS & amount & ->).
  cbn. by destruct (fresh_scored_tier tanh dp an inp sc E D Sp T) as [->|?].
Qed.

(** C21: A token of a developer without usable history who is not held as a
    spammer is never bought above tier B: whether it is scored at once without
    statistics, or waits on the fresh watchlist and is scored when it passes
    there, every buy its pipeline sends to the manager is a tier-B buy.  (A
    spammer's statistics are not read either, but his tokens are scored in full:
    [spam_developers_are_scored_in_full].) *)
Theorem fresh_developers_buy_only_b cfg lk create bucket wl evs wl' an msg :
  admit_create of_base58 to_string cfg lk create bucket wl = Ret (evs, wl') ->
  (forall inp, AScore inp ∈ evs -> in_dev_stats inp = None -> in_is_spam_dev inp = false ->
     ESend msg ∈ (run_scoring_and_buy tanh to_string (ad_deps cfg) an inp).1 -> buy_tier msg = Some TierB) /\
  (forall m d c r w inp, AWatch m d c r ∈ evs ->
     WScore inp ∈ watch_done (dp_learning_log (ad_deps cfg)) m d bucket w ->
     ESend msg ∈ (run_scoring_and_buy tanh to_string (ad_deps cfg) an inp).1 -> buy_tier msg = Some TierB).
Proof.
  intros A. split.
  - intros inp Hi D Sp. apply (admission_scored _ _ _ _ _ _ _ _ A) in Hi as (stats & Ad & ->).
    cbn in D, Sp. subst stats. unfold creator_admitted in Ad. rewrite Sp in Ad. destruct Ad as [_ T].
    by apply fresh_run_tier.
  - intros m d c r w inp Hw Hs. apply (watched_enabled _ _ _ _ _ _ _ _ _ _ _ A) in Hw.
    assert (in_dev_stats inp = None /\ in_is_spam_dev inp = false) as [D Sp].
    { unfold watch_done in Hs. cbv zeta in Hs.
      destruct (wt_passed w), (dp_learning_log (ad_deps cfg)); set_solver. }
    by apply fresh_run_tier.
Qed.

End AdmitFacts.

(** ** A fresh developer's token *)

Definition open_filter : CreatorStatisticsFilter :=
  mkCreatorStatisticsFilter None None None [] None None None None None None None.

Definition fresh_config : AdmissionConfig :=
  mkAdmissionConfig true open_filter (mkDeps ScoringConfig_default Demo true).

Definition fresh_lookups : Lookups := mkLookups (Ok None) (fun _ => Ok 0) (Ok None) (Ok 0).

Definition fresh_create : GeneralCreate := mkGeneralCreate 1%N 2%N None 0%N.

Definition fresh_bucket : TokenBucket := mkTokenBucket (pump_pool_new id 1%N 2%N) 0 0.

Definition fresh_events : list AdmEvent :=
  [ACount ACreate; ALatencyCreated 1%N; ACount APassedFilter;
   AScore (mkInput 1%N 2%N None false fresh_bucket false)].

Lemma admission_scores_iff_witness :
  let inp := mkInput 1%N 2%N None false fresh_bucket false in
  AScore inp ∈ fresh_events <->
    is_unsupported_quote_mint (fun _ => 0%N) fresh_create = false /\
    blacklist_gate fresh_config fresh_lookups = None /\
    exists stats, creator_admitted (fun _ => ""%string) fresh_config fresh_lookups fresh_create stats /\
      inp = mkInput 1%N 2%N stats (spam (fun _ => ""%string) fresh_config fresh_lookups fresh_create)
              fresh_bucket false.
Proof.
  apply (admission_scores_iff (fun _ => 0%N) (fun _ => ""%string) fresh_config fresh_lookups fresh_create
           fresh_bucket watchlist_new fresh_events watchlist_new).
  vm_compute. reflexivity.
Defined.

(** twelve buyers of different sizes take the market cap from 30 to 36 SOL *)
Definition hot_buyers : list (Address * Trader) :=
  (fun n => (n, trader_empty Regular 6 9 <| current_holdings := amount_from_raw 1000000000 6 |>
                  <| total_spent := amount_from_raw (Z.of_N n * Z.of_N n * 10000000) 9 |>))
    <$> [10; 11; 12; 13; 14; 15; 16; 17; 18; 19; 20; 21]%N.

Definition hot_point (mcap : f64) : EarlyTapePoint := mkEarlyTapePoint 12 12 0 18%float 0 0 mcap.

Definition hot_answers (smart : Z) (category : DevCategory) : Answers :=
  {| an_window := (fun k => Some (fresh_bucket, hot_point (if (k =? 0)%nat then 30 else 36)%float), None);
     an_patch := FeatureThresholdPatch_default; an_regulars := hot_buyers; an_snipers := [];
     an_category := fun _ => (category, DevRecord_default);
     an_count_smart := fun _ => smart; an_filter_smart := fun _ => []; an_trader := fun _ => None;
     an_operator_cap := 1%float; an_confirm := (fun _ => None, None); an_recheck := (fun _ => None, None);
     an_elapsed_ms := 0; an_manager_open := true |}.

(** the message a run sends, if any *)
Definition sent_by (evs : list Event) : option (PositionMessage (PumpPool Bonding)) :=
  List.fold_left (fun r e => match e with ESend m => Some m | _ => r end) evs None.

Lemma sent_by_in evs msg : sent_by evs = Some msg -> ESend msg ∈ evs.
Proof.
  unfold sent_by. induction evs as [|e evs IH] using rev_ind; [done|].
  rewrite fold_left_app. cbn. rewrite elem_of_app, list_elem_of_singleton.
  destruct e; [..|intros [= ->]; by right]; intros H; left; by apply IH.
Qed.

Definition hot_run (dp : Deps) (smart : Z) (category : DevCategory) (inp : ScoringPipelineInput) : list Event :=
  (run_scoring_and_buy id (fun _ => ""%string) dp (hot_answers smart category) inp).1.

(** With five smart wallets among its buyers a token of a developer of the best
    category is bought at A+ when the developer is held as a spammer, although
    his statistics are not read: the fresh lane is not for him.  The same token
    of an unknown developer is bought at B. *)
Example spam_developers_are_scored_in_full :
  let tier spam := sent_by (hot_run (ad_deps fresh_config) 5 CatAPlus (mkInput 1%N 2%N None spam fresh_bucket false)) ≫= buy_tier in
  tier true = Some TierAPlus /\ tier false = Some TierB.
Proof. vm_compute. done. Qed.

(** a creator filter with a threshold on the volume, and the fresh watchlist on *)
Definition watch_config : AdmissionConfig :=
  let tb := sc_tier_b ScoringConfig_default in
  let wl := tb_fresh_watchlist tb in
  mkAdmissionConfig true
    (mkCreatorStatisticsFilter None None None [] None None None (Some 1%float) None None None)
    (mkDeps (ScoringConfig_default <| sc_tier_b := tb <| tb_fresh_watchlist := wl <| fw_enabled := true |> |> |>)
       Demo true).

(** a developer of one token whose volume is below it *)
Definition watch_lookups : Lookups :=
  let none := Native (amount_from_raw 0 9) in
  mkLookups (Ok None) (fun _ => Ok 0)
    (Ok (Some (mkCreatorStatistics none 0%float 0 0.5%float 0 0%float none 1))) (Ok 0).

(** the watch of his token: nothing at the first poll, the twelve buyers at the next *)
Definition watched : option Watch :=
  let scoring := dp_scoring (ad_deps watch_config) in
  let tb := sc_tier_b scoring in
  watch (tb_fresh_watchlist tb) 0
    [(0, None);
     (100, poll_b_gates id 1%N 2%N 30%float scoring tb
             (Some (mkPollAnswer (hot_point 36%float) hot_buyers [] FeatureThresholdPatch_default (fun _ => 0))))].

Lemma fresh_developers_buy_only_b_witness :
  (exists msg, AScore (mkInput 1%N 2%N None false fresh_bucket false) ∈ fresh_events /\
     ESend msg ∈ hot_run (ad_deps fresh_config) 5 CatAPlus (mkInput 1%N 2%N None false fresh_bucket false) /\
     buy_tier msg = Some TierB) /\
  (exists evs wl' c r w msg,
     admit_create (fun _ => 0%N) (fun _ => ""%string) watch_config watch_lookups fresh_create fresh_bucket
       watchlist_new = Ret (evs, wl') /\
     AWatch 1%N 2%N c r ∈ evs /\ watched = Some w /\
     WScore (mkInput 1%N 2%N None false fresh_bucket true) ∈ watch_done true 1%N 2%N fresh_bucket w /\
     ESend msg ∈ hot_run (ad_deps watch_config) 5 CatAPlus (mkInput 1%N 2%N None false fresh_bucket true) /\
     buy_tier msg = Some TierB).
Proof.
  split.
  - destruct (sent_by (hot_run (ad_deps fresh_config) 5 CatAPlus (mkInput 1%N 2%N None false fresh_bucket false)))
      as [msg|] eqn:S; [|exfalso; vm_compute in S; discriminate S]. apply sent_by_in in S.
    assert (AScore (mkInput 1%N 2%N None false fresh_bucket false) ∈ fresh_events) as I
      by (do 3 right; left).
    exists msg. split; [exact I|]. split; [exact S|].
    apply (fresh_developers_buy_only_b (fun _ => 0%N) (fun _ => ""%string) id fresh_config fresh_lookups
      fresh_create fresh_bucket watchlist_new fresh_events watchlist_new (hot_answers 5 CatAPlus) msg)
      with (inp := mkInput 1%N 2%N None false fresh_bucket false);
      [vm_compute; reflexivity|exact I|reflexivity|reflexivity|exact S].
  - destruct (admit_create (fun _ => 0%N) (fun _ => ""%string) watch_config watch_lookups fresh_create
      fresh_bucket watchlist_new) as [[evs wl']|p] eqn:A; [|exfalso; vm_compute in A; discriminate A].
    pose proof A as A'. vm_compute in A'. injection A' as Evs _.
    destruct (sent_by (hot_run (ad_deps watch_config) 5 CatAPlus (mkInput 1%N 2%N None false fresh_bucket true)))
      as [msg|] eqn:S; [|exfalso; vm_compute in S; discriminate S]. apply sent_by_in in S.
    assert (exists c r, AWatch 1%N 2%N c r ∈ evs) as (c & r & I)
      by (rewrite <- Evs; do 2 eexists; do 2 right; left).
    assert (watched = Some (mkWatch true false None)) as W by (vm_compute; reflexivity).
    assert (WScore (mkInput 1%N 2%N None false fresh_bucket true)
              ∈ watch_done true 1%N 2%N fresh_bucket (mkWatch true false None)) as P by (do 2 right; left).
    exists evs, wl', c, r, (mkWatch true false None), msg.
    split; [reflexivity|]. split; [exact I|]. split; [exact W|]. split; [exact P|]. split; [exact S|].
    apply (fresh_developers_buy_only_b (fun _ => 0%N) (fun _ => ""%string) id watch_config watch_lookups
      fresh_create fresh_bucket watchlist_new evs wl' (hot_answers 5 CatAPlus) msg A)
      with (1 := I) (2 := P) (3 := S).
Defined.
