(* ===== verification/Instructions.v ===== *)
(** The instruction builder of the [sips] crate, [src/sips/src]: program-derived
    addresses, the account lists and the borsh data of the instructions the
    live broker sends, and their decoding.

    The hash, the curve test and base58 are functions of other crates: they are
    the class [Crypto].  Bytes are [Z]s, as in [Curve]. *)
From S2P Require Import Prelude Amounts Curve.

(** ** Bytes *)

Fixpoint bytes_of_string (s : string) : list Z :=
  match s with
  | EmptyString => []
  | String c s' => Z.of_N (Ascii.N_of_ascii c) :: bytes_of_string s'
  end.

Definition bytes_of_address (a : Address) : list Z := le_to_bytes 32 (Z.of_N a).

Definition is_byte (b : Z) : bool := (0 <=? b) && (b <? 256).

(** a continuation byte *)
Definition cont_byte (b : Z) : bool := (128 <=? b) && (b <? 192).

(** [str::from_utf8]: shortest forms only, no surrogates, at most U+10FFFF *)
Fixpoint utf8_valid (bs : list Z) : bool :=
  match bs with
  | [] => true
  | b :: r =>
      if b <? 128 then (0 <=? b) && utf8_valid r
      else if (194 <=? b) && (b <? 224) then
        match r with c :: r' => cont_byte c && utf8_valid r' | _ => false end
      else if (224 <=? b) && (b <? 240) then
        match r with
        | c :: d :: r' =>
            cont_byte c && cont_byte d
            && negb ((b =? 224) && (c <? 160)) && negb ((b =? 237) && (160 <=? c)) && utf8_valid r'
        | _ => false
        end
      else if (240 <=? b) && (b <? 245) then
        match r with
        | c :: d :: e :: r' =>
            cont_byte c && cont_byte d && cont_byte e
            && negb ((b =? 240) && (c <? 144)) && negb ((b =? 244) && (144 <=? c)) && utf8_valid r'
        | _ => false
        end
      else false
  end.

(** ** Functions of other crates *)

Class Crypto := {
  (** [five8_const::decode_32_const], on the constants of the source *)
  decode_32_const : string -> Address;
  sha256 : list Z -> list Z;
  (** [CompressedEdwardsY::from_slice(b)] succeeds and [decompress] is [Some] *)
  edwards_point : list Z -> bool
}.

(** ** Addresses *)

(* sips/src/address.rs 77-80: AddressError *)
Inductive AddressError := MaxSeedLengthExceeded | InvalidSeeds.

Section Address.
Context `{Crypto}.

(* sips/src/address.rs 7-9: Address::from_str_const *)
Definition from_str_const (data : string) : Address := decode_32_const data.

(* sips/src/address.rs 39-46: bytes_are_curve_point *)
Definition bytes_are_curve_point (bytes : list Z) : bool := edwards_point bytes.

(* sips/src/address.rs 48-75: create_program_address *)
Definition create_program_address (seeds : list (list Z)) (program_id : Address)
    : result Address AddressError :=
  if (16 <? length seeds)%nat then Err MaxSeedLengthExceeded
  else if existsb (fun seed => (32 <? length seed)%nat) seeds then Err MaxSeedLengthExceeded
  else
    let hash := sha256 (concat seeds ++ bytes_of_address program_id
                        ++ bytes_of_string "ProgramDerivedAddress") in
    if bytes_are_curve_point hash then Err InvalidSeeds else Ok (address_of_bytes hash).

(** [n] bumps are left, the next one is [bump_seed] *)
(* sips/src/address.rs 22-35: Address::pda *)
Fixpoint pda_loop (n : nat) (bump_seed : Z) (program : Address) (seeds : list (list Z))
    : outcome (Address * Z) :=
  match n with
  | O => Panic (AssertFailed "No valid PDA was found")
  | S n' =>
      match create_program_address (seeds ++ [[bump_seed]]) program with
      | Ok address => Ret (address, bump_seed)
      | Err InvalidSeeds => pda_loop n' (bump_seed - 1) program seeds
      | Err MaxSeedLengthExceeded => Panic (AssertFailed "No valid PDA was found")
      end
  end.

(* sips/src/address.rs 20-36: Address::pda *)
Definition pda (program : Address) (seeds : list (list Z)) : outcome (Address * Z) :=
  pda_loop 255 255 program seeds.

(* sips/src/helper.rs 38-39: ATA_PROGRAM *)
Definition ATA_PROGRAM : Address := from_str_const "ATokenGPvbdGVxr1b2hvZbsiqW5xWH25efTNsLJA8knL".

(* sips/src/helper.rs 41-46: ata *)
Definition ata (address token_program mint : Address) : outcome (Address * Z) :=
  pda ATA_PROGRAM [bytes_of_address address; bytes_of_address token_program; bytes_of_address mint].
End Address.

(** ** Amounts of a fixed precision *)

(* sips/src/helper.rs 15-15: Amount::SCALE *)
Definition sips_scale (precision : Z) : Z := pow10_u64 precision.

(* sips/src/helper.rs 17-19: Amount::from_float *)
Definition sips_from_float (precision : Z) (v : f64) : Z :=
  f64_as_u64 (f64_round (v * f64_of_Z (sips_scale precision))%float).

(* sips/src/helper.rs 29-31: Amount::to_float *)
Definition sips_to_float (precision raw : Z) : f64 :=
  (f64_of_Z raw / f64_of_Z (sips_scale precision))%float.

(* sips/src/helper.rs 34-34: NATIVE_SOL_PRECISION *)
Definition NATIVE_SOL_PRECISION : Z := 9.
(* sips/src/instructions/pump/instructions.rs 16-16: PUMP_SPL_PRECISION *)
Definition PUMP_SPL_PRECISION : Z := 6.

(** ** Borsh *)

(** a decoder consumes a prefix of the bytes *)
Definition Dec (A : Type) : Type := list Z -> option (A * list Z).
#[export] Instance Dec_ret : MRet Dec := fun A a bs => Some (a, bs).
#[export] Instance Dec_bind : MBind Dec := fun A B f m bs =>
  match m bs with Some (a, rest) => f a rest | None => None end.

Definition dec_fail {A} : Dec A := fun _ => None.
Definition dec_bytes (n : nat) : Dec (list Z) := fun bs =>
  if (n <=? length bs)%nat then Some (take n bs, drop n bs) else None.
Definition dec_le (n : nat) : Dec Z := bs ← dec_bytes n; mret (le_of_bytes bs).
Definition dec_address : Dec Address := bs ← dec_bytes 32; mret (address_of_bytes bs).
Definition dec_bool : Dec bool := fun bs =>
  match bs with 0 :: r => Some (false, r) | 1 :: r => Some (true, r) | _ => None end.
Definition dec_text : Dec (list Z) :=
  n ← dec_le 4;
  bs ← dec_bytes (Z.to_nat n);
  if utf8_valid bs then mret bs else dec_fail.

Definition enc_bool (b : bool) : list Z := [Z.b2z b].
Definition enc_text (t : list Z) : list Z := le_to_bytes 4 (Z.of_nat (length t)) ++ t.

(** [borsh::from_slice] refuses bytes left over *)
Definition borsh_from_slice {A} (d : Dec A) (bs : list Z) : option A :=
  match d bs with Some (a, []) => Some a | _ => None end.

(* sips/src/instructions/error.rs 2-7: Error *)
Inductive InstructionError :=
  | InstructionDataIsTooSmall
  | InvalidDiscriminator
  | InvalidInstructionSize
  | InvalidInstructionData.

(** borsh's two derives and the discriminator of the [Instruction] derive *)
(* sips/src/instructions/raw_instruction.rs 49-50: InstructionArgs *)
Class InstructionArgs (A : Type) := {
  DISCRIMINATOR : list Z;
  serialize : A -> list Z;
  deserialize : Dec A
}.
Arguments DISCRIMINATOR A {_}.

(** the values the fields of the Rust type can hold, and the promise of the
    derives: reading back what was written *)
Class BorshOk (A : Type) `{InstructionArgs A} := {
  fits : A -> Prop;
  deserialize_serialize a rest : fits a -> deserialize (serialize a ++ rest) = Some (a, rest)
}.

Section Args.
Context {A : Type} `{InstructionArgs A}.

(* sips/src/instructions/raw_instruction.rs 52-70: InstructionArgs::from_bytes *)
Definition from_bytes (data : list Z) : result A InstructionError :=
  let discriminator_size := length (DISCRIMINATOR A) in
  if (length data <? discriminator_size)%nat then Err InstructionDataIsTooSmall
  else if negb (bool_decide (DISCRIMINATOR A = take discriminator_size data)) then Err InvalidDiscriminator
  else match borsh_from_slice deserialize (drop discriminator_size data) with
       | Some instruction => Ok instruction
       | None => Err InvalidInstructionData
       end.

(* sips/src/instructions/raw_instruction.rs 72-81: InstructionArgs::to_le_bytes *)
Definition to_le_bytes (a : A) : list Z := DISCRIMINATOR A ++ serialize a.
End Args.

(** ** Instructions *)

(* sips/src/instructions/account.rs 8-12: AccountMeta *)
Record AccountMeta := mkMeta { pubkey : Address; is_signer : bool; writable : bool }.

(* sips/src/instructions/account.rs 3-5: IntoAccountMetaArray *)
Class IntoAccountMetaArray (A : Type) := accounts_meta : A -> list AccountMeta.

(** [impl IntoAccountMetaArray for ()] *)
(* sips/src/instructions/raw_instruction.rs 36-40: IntoAccountMetaArray for () *)
#[export] Instance unit_accounts : IntoAccountMetaArray unit := fun _ => [].

(** the program that executes instructions of this data: the [Instructions] derive *)
(* sips/src/instructions/raw_instruction.rs 84-86: ProgramAddress *)
Class ProgramAddress (A : Type) := program_address : Crypto -> Address.
Arguments program_address A {_ _}.

(* sips/src/instructions/raw_instruction.rs 12-16: Instruction *)
Record Instruction (Args Accounts : Type) := mkInstruction { ix_data : Args; ix_accounts : Accounts }.
Arguments mkInstruction {Args Accounts}.
Arguments ix_data {Args Accounts}.
Arguments ix_accounts {Args Accounts}.

(* sips/src/instructions/raw_instruction.rs 42-47: RawInstruction *)
Record RawInstruction := mkRaw { raw_program : Address; raw_data : list Z; raw_accounts : list AccountMeta }.

Section IntoRaw.
Context `{Crypto} {A Acc : Type} `{!InstructionArgs A} `{!IntoAccountMetaArray Acc} `{!ProgramAddress A}.

(* sips/src/instructions/raw_instruction.rs 23-32: Instruction::into_raw *)
Definition into_raw (ix : Instruction A Acc) (program : Address) : RawInstruction :=
  mkRaw program (to_le_bytes (ix_data ix)) (accounts_meta (ix_accounts ix)).

(** [solana_instruction::Instruction] has the same three fields *)
(* sips/src/solana_adapter.rs 9-50: From<Instruction<Args, Accounts>> *)
Definition into_solana (ix : Instruction A Acc) : RawInstruction := into_raw ix (program_address A).
End IntoRaw.

Definition ro (a : Address) : AccountMeta := mkMeta a false false.
Definition rw (a : Address) : AccountMeta := mkMeta a false true.
Definition signer_rw (a : Address) : AccountMeta := mkMeta a true true.
Definition signer_ro (a : Address) : AccountMeta := mkMeta a true false.

(** *** Compute budget *)

(* sips/src/instructions/compute_budget/mod.rs 12-14: ComputeUnitLimit *)
Record ComputeUnitLimit := mkComputeUnitLimit { cl_limit : Z }.
(* sips/src/instructions/compute_budget/mod.rs 10-14: InstructionArgs for ComputeUnitLimit *)
#[export] Instance ComputeUnitLimit_args : InstructionArgs ComputeUnitLimit := {
  DISCRIMINATOR := [2];
  serialize x := le_to_bytes 4 (cl_limit x);
  deserialize := v ← dec_le 4; mret (mkComputeUnitLimit v)
}.

(* sips/src/instructions/compute_budget/mod.rs 18-20: ComputeUnitPrice *)
Record ComputeUnitPrice := mkComputeUnitPrice { cp_price : Z }.
(* sips/src/instructions/compute_budget/mod.rs 16-20: InstructionArgs for ComputeUnitPrice *)
#[export] Instance ComputeUnitPrice_args : InstructionArgs ComputeUnitPrice := {
  DISCRIMINATOR := [3];
  serialize x := le_to_bytes 16 (cp_price x);
  deserialize := v ← dec_le 16; mret (mkComputeUnitPrice v)
}.

(* sips/src/instructions/compute_budget/mod.rs 30-35: ComputeBudgetInstruction *)
Definition COMPUTE_BUDGET_PROGRAM `{Crypto} : Address :=
  from_str_const "ComputeBudget111111111111111111111111111111".
#[export] Instance ComputeUnitLimit_program : ProgramAddress ComputeUnitLimit := @COMPUTE_BUDGET_PROGRAM.
#[export] Instance ComputeUnitPrice_program : ProgramAddress ComputeUnitPrice := @COMPUTE_BUDGET_PROGRAM.

(* sips/src/instructions/compute_budget/mod.rs 23-27: ComputeUnitPrice::from_sol *)
Definition price_from_sol (amount : Z) : ComputeUnitPrice := mkComputeUnitPrice (u128 (amount * 1000000)).

(* sips/src/instructions/compute_budget/mod.rs 38-59: ComputeBudgetInstruction::priority_fee *)
Definition priority_fee (compute_limit fee : Z)
    : outcome (Instruction ComputeUnitPrice unit * Instruction ComputeUnitLimit unit) :=
  unit_price ← checked_div (u128 (fee * 1000000)) compute_limit;
  Ret (mkInstruction (mkComputeUnitPrice unit_price) tt, mkInstruction (mkComputeUnitLimit compute_limit) tt).

(** *** System program *)

(* sips/src/instructions/system_program/mod.rs 16-18: Transfer *)
Record Transfer := mkTransfer { tf_sol : Z }.
(* sips/src/instructions/system_program/mod.rs 12-18: InstructionArgs for Transfer *)
#[export] Instance Transfer_args : InstructionArgs Transfer := {
  DISCRIMINATOR := [2; 0; 0; 0];
  serialize x := le_to_bytes 8 (tf_sol x);
  deserialize := v ← dec_le 8; mret (mkTransfer v)
}.
(* sips/src/instructions/system_program/mod.rs 20-27: TransferAccounts *)
Record SystemTransferAccounts := mkSystemTransferAccounts { sender : Address; receiver : Address }.
(* sips/src/instructions/system_program/mod.rs 20-27: IntoAccountMetaArray for TransferAccounts *)
#[export] Instance SystemTransferAccounts_meta : IntoAccountMetaArray SystemTransferAccounts :=
  fun a => [signer_rw (sender a); rw (receiver a)].

(** *** Associated token accounts *)

(* sips/src/instructions/associated_token_program/mod.rs 39-39: CreateIdempotentInstruction *)
Inductive CreateIdempotentInstruction := CreateIdempotent.
(* sips/src/instructions/associated_token_program/mod.rs 37-39: InstructionArgs for CreateIdempotentInstruction *)
#[export] Instance CreateIdempotent_args : InstructionArgs CreateIdempotentInstruction := {
  DISCRIMINATOR := [1];
  serialize _ := [];
  deserialize := mret CreateIdempotent
}.
(* sips/src/instructions/associated_token_program/mod.rs 10-14: AssociatedTokenProgram *)
#[export] Instance CreateIdempotent_program : ProgramAddress CreateIdempotentInstruction :=
  fun _ => from_str_const "ATokenGPvbdGVxr1b2hvZbsiqW5xWH25efTNsLJA8knL".

(* sips/src/instructions/associated_token_program/mod.rs 42-57: CreateIdempotentAccounts *)
Record CreateIdempotentAccounts := mkCreateIdempotentAccounts {
  ci_source : Address; ci_account : Address; ci_address : Address; ci_mint : Address;
  ci_system_program : Address; ci_token_program : Address }.
(* sips/src/instructions/associated_token_program/mod.rs 41-57: IntoAccountMetaArray for CreateIdempotentAccounts *)
#[export] Instance CreateIdempotentAccounts_meta : IntoAccountMetaArray CreateIdempotentAccounts :=
  fun a => [signer_rw (ci_source a); rw (ci_account a); rw (ci_address a); ro (ci_mint a);
            ro (ci_system_program a); ro (ci_token_program a)].

Definition SYSTEM_PROGRAM `{Crypto} : Address := from_str_const "11111111111111111111111111111111".

(* sips/src/instructions/associated_token_program/mod.rs 17-34: AssociatedTokenProgram::create_idempotent *)
Definition create_idempotent `{Crypto} (mint source address token_program : Address)
    : outcome (Instruction CreateIdempotentInstruction CreateIdempotentAccounts) :=
  account ← ata address token_program mint;
  Ret (mkInstruction CreateIdempotent
         (mkCreateIdempotentAccounts source account.1 address mint SYSTEM_PROGRAM token_program)).

(** *** The two token programs *)

(* sips/src/instructions/spl_token/mod.rs 40-43: TransferCheckedInstruction *)
Record TransferCheckedInstruction := mkTransferChecked { tc_amount : Z; tc_decimals : Z }.
(* sips/src/instructions/spl_token/mod.rs 38-43: InstructionArgs for TransferCheckedInstruction *)
#[export] Instance TransferChecked_args : InstructionArgs TransferCheckedInstruction := {
  DISCRIMINATOR := [12];
  serialize x := le_to_bytes 8 (tc_amount x) ++ le_to_bytes 1 (tc_decimals x);
  deserialize := a ← dec_le 8; d ← dec_le 1; mret (mkTransferChecked a d)
}.
(* sips/src/instructions/spl_token/mod.rs 46-54: TransferAccounts *)
Record TransferAccounts := mkTransferAccounts {
  ta_source : Address; ta_mint : Address; ta_destination : Address; ta_authority : Address }.
(* sips/src/instructions/spl_token/mod.rs 45-54: IntoAccountMetaArray for TransferAccounts *)
#[export] Instance TransferAccounts_meta : IntoAccountMetaArray TransferAccounts :=
  fun a => [signer_rw (ta_source a); ro (ta_mint a); rw (ta_destination a); ro (ta_authority a)].

(* sips/src/instructions/spl_token/mod.rs 58-58: CloseAccountInstruction *)
Inductive CloseAccountInstruction := CloseAccount.
(* sips/src/instructions/spl_token/mod.rs 56-58: InstructionArgs for CloseAccountInstruction *)
#[export] Instance CloseAccount_args : InstructionArgs CloseAccountInstruction := {
  DISCRIMINATOR := [9];
  serialize _ := [];
  deserialize := mret CloseAccount
}.
(* sips/src/instructions/spl_token/mod.rs 61-70: CloseAccountAccounts *)
Record CloseAccountAccounts := mkCloseAccountAccounts {
  ca_account : Address; ca_destination : Address; ca_authority : Address }.
(* sips/src/instructions/spl_token/mod.rs 60-70: IntoAccountMetaArray for CloseAccountAccounts *)
#[export] Instance CloseAccountAccounts_meta : IntoAccountMetaArray CloseAccountAccounts :=
  fun a => [rw (ca_account a); rw (ca_destination a); signer_ro (ca_authority a)].

(* sips/src/instructions/spl_token/mod.rs 13-19: SplTokenProgram *)
Definition SPL_TOKEN_PROGRAM `{Crypto} : Address :=
  from_str_const "TokenkegQfeZyiNwAJbNbGKPFXCWuBvf9Ss623VQ5DA".
#[export] Instance CloseAccount_program : ProgramAddress CloseAccountInstruction := @SPL_TOKEN_PROGRAM.

(* sips/src/instructions/spl_token/mod.rs 22-35: SplTokenProgram::close_account *)
Definition spl_close_account (account destination authority : Address)
    : Instruction CloseAccountInstruction CloseAccountAccounts :=
  mkInstruction CloseAccount (mkCloseAccountAccounts account destination authority).

(** Token-2022 declares the same data and accounts under another program *)
(* sips/src/instructions/token_program_2022/mod.rs 61-61: CloseAccountInstruction *)
Inductive CloseAccountInstruction2022 := CloseAccount2022.
(* sips/src/instructions/token_program_2022/mod.rs 59-61: InstructionArgs for CloseAccountInstruction *)
#[export] Instance CloseAccount2022_args : InstructionArgs CloseAccountInstruction2022 := {
  DISCRIMINATOR := [9];
  serialize _ := [];
  deserialize := mret CloseAccount2022
}.
(* sips/src/instructions/token_program_2022/mod.rs 63-73: CloseAccountAccounts *)
Record CloseAccountAccounts2022 := mkCloseAccountAccounts2022 {
  c22_account : Address; c22_destination : Address; c22_authority : Address }.
(* sips/src/instructions/token_program_2022/mod.rs 63-73: IntoAccountMetaArray for CloseAccountAccounts *)
#[export] Instance CloseAccountAccounts2022_meta : IntoAccountMetaArray CloseAccountAccounts2022 :=
  fun a => [rw (c22_account a); rw (c22_destination a); signer_ro (c22_authority a)].
(* sips/src/instructions/token_program_2022/mod.rs 10-18: TokenProgram2022 *)
Definition TOKEN_2022_PROGRAM `{Crypto} : Address :=
  from_str_const "TokenzQdBNbLqP5VEhdkAS6EPFLC1PHnBqCXEpPxuEb".
#[export] Instance CloseAccount2022_program : ProgramAddress CloseAccountInstruction2022 := @TOKEN_2022_PROGRAM.
(* sips/src/instructions/token_program_2022/mod.rs 25-38: TokenProgram2022::close_account *)
Definition t22_close_account (account destination authority : Address)
    : Instruction CloseAccountInstruction2022 CloseAccountAccounts2022 :=
  mkInstruction CloseAccount2022 (mkCloseAccountAccounts2022 account destination authority).
(* sips/src/instructions/token_program_2022/mod.rs 43-46: TransferCheckedInstruction *)
Record TransferCheckedInstruction2022 := mkTransferChecked2022 { t22_amount : Z; t22_decimals : Z }.
(* sips/src/instructions/token_program_2022/mod.rs 41-46: InstructionArgs for TransferCheckedInstruction *)
#[export] Instance TransferChecked2022_args : InstructionArgs TransferCheckedInstruction2022 := {
  DISCRIMINATOR := [12];
  serialize x := le_to_bytes 8 (t22_amount x) ++ le_to_bytes 1 (t22_decimals x);
  deserialize := a ← dec_le 8; d ← dec_le 1; mret (mkTransferChecked2022 a d)
}.

(** ** The pump program *)

(* sips/src/instructions/pump/instructions.rs 18-31: PumpInstruction *)
Definition PUMP_PROGRAM `{Crypto} : Address := from_str_const "6EF8rrecthR5Dkzon8Nwu78hRvfCKubJ14M5uBEwF6P".

(** texts are kept as their UTF-8 bytes *)
(* sips/src/instructions/pump/instructions.rs 120-125: PumpMetadata *)
Record PumpMetadata := mkPumpMetadata { md_name : list Z; md_symbol : list Z; md_uri : list Z }.

Definition enc_metadata (m : PumpMetadata) : list Z :=
  enc_text (md_name m) ++ enc_text (md_symbol m) ++ enc_text (md_uri m).
Definition dec_metadata : Dec PumpMetadata :=
  name ← dec_text; symbol ← dec_text; uri ← dec_text; mret (mkPumpMetadata name symbol uri).

(* sips/src/instructions/pump/instructions.rs 129-132: PumpCreateInstruction *)
Record PumpCreateInstruction := mkPumpCreate { pc_metadata : PumpMetadata; pc_creator : Address }.
(* sips/src/instructions/pump/instructions.rs 127-132: InstructionArgs for PumpCreateInstruction *)
#[export] Instance PumpCreate_args : InstructionArgs PumpCreateInstruction := {
  DISCRIMINATOR := [24; 30; 200; 40; 5; 28; 7; 119];
  serialize x := enc_metadata (pc_metadata x) ++ bytes_of_address (pc_creator x);
  deserialize := m ← dec_metadata; c ← dec_address; mret (mkPumpCreate m c)
}.

(** [OptionBool] is a [bool] *)
(* sips/src/instructions/pump/instructions.rs 136-144: PumpCreateV2Instruction *)
Record PumpCreateV2Instruction := mkPumpCreateV2 {
  p2_metadata : PumpMetadata; p2_creator : Address; p2_mayhem : bool; p2_is_cashback_enabled : bool }.
(* sips/src/instructions/pump/instructions.rs 134-141: InstructionArgs for PumpCreateV2Instruction *)
#[export] Instance PumpCreateV2_args : InstructionArgs PumpCreateV2Instruction := {
  DISCRIMINATOR := [214; 144; 76; 236; 95; 139; 49; 180];
  serialize x := enc_metadata (p2_metadata x) ++ bytes_of_address (p2_creator x)
    ++ enc_bool (p2_mayhem x) ++ enc_bool (p2_is_cashback_enabled x);
  deserialize := m ← dec_metadata; c ← dec_address; a ← dec_bool; b ← dec_bool;
    mret (mkPumpCreateV2 m c a b)
}.

(* sips/src/instructions/pump/instructions.rs 148-152: PumpBuyInstruction *)
Record PumpBuyInstruction := mkPumpBuy {
  pb_spl_amount : Z; pb_maximum_sol_input : Z; pb_track_volume : bool }.
(* sips/src/instructions/pump/instructions.rs 146-152: InstructionArgs for PumpBuyInstruction *)
#[export] Instance PumpBuy_args : InstructionArgs PumpBuyInstruction := {
  DISCRIMINATOR := [102; 6; 61; 18; 1; 218; 235; 234];
  serialize x := le_to_bytes 8 (pb_spl_amount x) ++ le_to_bytes 8 (pb_maximum_sol_input x)
    ++ enc_bool (pb_track_volume x);
  deserialize := a ← dec_le 8; b ← dec_le 8; t ← dec_bool; mret (mkPumpBuy a b t)
}.

(* sips/src/instructions/pump/instructions.rs 156-159: PumpSellInstruction *)
Record PumpSellInstruction := mkPumpSell { ps_spl_amount : Z; ps_minimum_sol_payout : Z }.
(* sips/src/instructions/pump/instructions.rs 154-159: InstructionArgs for PumpSellInstruction *)
#[export] Instance PumpSell_args : InstructionArgs PumpSellInstruction := {
  DISCRIMINATOR := [51; 230; 133; 164; 1; 127; 131; 173];
  serialize x := le_to_bytes 8 (ps_spl_amount x) ++ le_to_bytes 8 (ps_minimum_sol_payout x);
  deserialize := a ← dec_le 8; b ← dec_le 8; mret (mkPumpSell a b)
}.

(* sips/src/instructions/pump/instructions.rs 163-167: PumpBuyExactSolInInstruction *)
Record PumpBuyExactSolInInstruction := mkPumpBuyExactSolIn {
  px_sol_amount : Z; px_minimum_token_output : Z; px_track_volume : bool }.
(* sips/src/instructions/pump/instructions.rs 161-167: InstructionArgs for PumpBuyExactSolInInstruction *)
#[export] Instance PumpBuyExactSolIn_args : InstructionArgs PumpBuyExactSolInInstruction := {
  DISCRIMINATOR := [56; 252; 116; 8; 158; 223; 205; 95];
  serialize x := le_to_bytes 8 (px_sol_amount x) ++ le_to_bytes 8 (px_minimum_token_output x)
    ++ enc_bool (px_track_volume x);
  deserialize := a ← dec_le 8; b ← dec_le 8; t ← dec_bool; mret (mkPumpBuyExactSolIn a b t)
}.

(* sips/src/instructions/pump/instructions.rs 171-171: CloseUserVolumeAccumulator *)
Inductive CloseUserVolumeAccumulator := CloseAccumulator.
(* sips/src/instructions/pump/instructions.rs 169-171: InstructionArgs for CloseUserVolumeAccumulator *)
#[export] Instance CloseAccumulator_args : InstructionArgs CloseUserVolumeAccumulator := {
  DISCRIMINATOR := [249; 69; 164; 218; 150; 103; 84; 138];
  serialize _ := [];
  deserialize := mret CloseAccumulator
}.

#[export] Instance PumpCreate_program : ProgramAddress PumpCreateInstruction := @PUMP_PROGRAM.
#[export] Instance PumpCreateV2_program : ProgramAddress PumpCreateV2Instruction := @PUMP_PROGRAM.
#[export] Instance PumpBuy_program : ProgramAddress PumpBuyInstruction := @PUMP_PROGRAM.
#[export] Instance PumpSell_program : ProgramAddress PumpSellInstruction := @PUMP_PROGRAM.
#[export] Instance PumpBuyExactSolIn_program : ProgramAddress PumpBuyExactSolInInstruction := @PUMP_PROGRAM.
#[export] Instance CloseAccumulator_program : ProgramAddress CloseUserVolumeAccumulator := @PUMP_PROGRAM.

(** *** Account lists *)

(* sips/src/instructions/pump/accounts.rs 10-19: PUMP_BUYBACK_FEE_RECIPIENTS *)
Definition PUMP_BUYBACK_FEE_RECIPIENTS : list string :=
  ["5YxQFdt3Tr9zJLvkFccqXVUwhdTWJQc1fFg2YPbxvxeD"; "9M4giFFMxmFGXtc3feFzRai56WbBqehoSeRE5GK7gf7";
   "GXPFM2caqTtQYC2cJ5yJRi9VDkpsYZXzYdwYpGnLmtDL"; "3BpXnfJaUTiwXnJNe7Ej1rcbzqTTQUvLShZaWazebsVR";
   "5cjcW9wExnJJiqgLjq7DEG75Pm6JBgE1hNv4B2vHXUW6"; "EHAAiTxcdDwQ3U4bU6YcMsQGaekdzLS3B5SmYo46kJtL";
   "5eHhjP8JaYkz83CWwvGU2uMUXefd3AazWGx4gpcuEEYD"; "A7hAgCzFw14fejgCp387JUJRMNyz4j89JKnhtKU8piqW"]%string.

(* sips/src/instructions/pump/accounts.rs 22-51: CreateAccounts *)
Record CreateAccounts := mkCreateAccounts {
  cr_mint : Address; cr_mint_authority : Address; cr_bonding_curve : Address;
  cr_associated_bonding_curve : Address; cr_global : Address;
  cr_metaplex_token_metadata_program : Address; cr_metadata : Address; cr_user : Address;
  cr_system_program : Address; cr_token_program : Address; cr_associated_token_program : Address;
  cr_rent : Address; cr_event_authority : Address; cr_program : Address }.
(* sips/src/instructions/pump/accounts.rs 21-51: IntoAccountMetaArray for CreateAccounts *)
#[export] Instance CreateAccounts_meta : IntoAccountMetaArray CreateAccounts := fun a =>
  [signer_rw (cr_mint a); ro (cr_mint_authority a); rw (cr_bonding_curve a);
   rw (cr_associated_bonding_curve a); ro (cr_global a); ro (cr_metaplex_token_metadata_program a);
   rw (cr_metadata a); signer_rw (cr_user a); ro (cr_system_program a); ro (cr_token_program a);
   ro (cr_associated_token_program a); ro (cr_rent a); ro (cr_event_authority a); ro (cr_program a)].

(* sips/src/instructions/pump/accounts.rs 105-143: CreateV2Accounts *)
Record CreateV2Accounts := mkCreateV2Accounts {
  c2_mint : Address; c2_mint_authority : Address; c2_bonding_curve : Address;
  c2_associated_bonding_curve : Address; c2_global : Address; c2_user : Address;
  c2_system_program : Address; c2_token_program : Address; c2_associated_token_program : Address;
  c2_mayhem_program : Address; c2_global_params : Address; c2_sol_vault : Address;
  c2_mayhem_state : Address; c2_mayhem_token_vault : Address; c2_event_authority : Address;
  c2_program : Address }.
(* sips/src/instructions/pump/accounts.rs 104-143: IntoAccountMetaArray for CreateV2Accounts *)
#[export] Instance CreateV2Accounts_meta : IntoAccountMetaArray CreateV2Accounts := fun a =>
  [signer_rw (c2_mint a); ro (c2_mint_authority a); rw (c2_bonding_curve a);
   rw (c2_associated_bonding_curve a); ro (c2_global a); signer_rw (c2_user a);
   ro (c2_system_program a); ro (c2_token_program a); ro (c2_associated_token_program a);
   rw (c2_mayhem_program a); ro (c2_global_params a); rw (c2_sol_vault a); rw (c2_mayhem_state a);
   rw (c2_mayhem_token_vault a); ro (c2_event_authority a); ro (c2_program a)].

(* sips/src/instructions/pump/accounts.rs 189-217: BuyAccounts *)
Record BuyAccounts := mkBuyAccounts {
  ba_global : Address; ba_fee_recipient : Address; ba_mint : Address; ba_bonding_curve : Address;
  ba_associated_bonding_curve : Address; ba_associated_user : Address; ba_user : Address;
  ba_system_program : Address; ba_token_program : Address; ba_creator_vault : Address;
  ba_event_authority : Address; ba_program : Address; ba_global_volume_accumulator : Address;
  ba_user_volume_accumulator : Address; ba_fee_config : Address; ba_fee_program : Address;
  ba_bonding_curve_v2 : Address; ba_buyback_fee_recipient : Address }.
(* sips/src/instructions/pump/accounts.rs 188-217: IntoAccountMetaArray for BuyAccounts *)
#[export] Instance BuyAccounts_meta : IntoAccountMetaArray BuyAccounts := fun a =>
  [ro (ba_global a); rw (ba_fee_recipient a); ro (ba_mint a); rw (ba_bonding_curve a);
   rw (ba_associated_bonding_curve a); rw (ba_associated_user a); signer_rw (ba_user a);
   ro (ba_system_program a); ro (ba_token_program a); rw (ba_creator_vault a);
   ro (ba_event_authority a); ro (ba_program a); ro (ba_global_volume_accumulator a);
   rw (ba_user_volume_accumulator a); ro (ba_fee_config a); ro (ba_fee_program a);
   ro (ba_bonding_curve_v2 a); rw (ba_buyback_fee_recipient a)].

(* sips/src/instructions/pump/accounts.rs 273-292: SellAccounts *)
Record SellAccounts := mkSellAccounts {
  sa_cashback_enabled : bool; sa_global : Address; sa_fee_recipient : Address; sa_mint : Address;
  sa_bonding_curve : Address; sa_associated_bonding_curve : Address; sa_associated_user : Address;
  sa_user : Address; sa_system_program : Address; sa_creator_vault : Address;
  sa_token_program : Address; sa_event_authority : Address; sa_program : Address;
  sa_fee_config : Address; sa_fee_program : Address; sa_user_volume_accumulator : Address;
  sa_bonding_curve_v2 : Address; sa_buyback_fee_recipient : Address }.
(* sips/src/instructions/pump/accounts.rs 294-386: IntoAccountMetaArray for SellAccounts *)
#[export] Instance SellAccounts_meta : IntoAccountMetaArray SellAccounts := fun a =>
  [ro (sa_global a); rw (sa_fee_recipient a); ro (sa_mint a); rw (sa_bonding_curve a);
   rw (sa_associated_bonding_curve a); rw (sa_associated_user a); signer_rw (sa_user a);
   ro (sa_system_program a); rw (sa_creator_vault a); ro (sa_token_program a);
   ro (sa_event_authority a); ro (sa_program a); ro (sa_fee_config a); ro (sa_fee_program a)]
  ++ (if sa_cashback_enabled a then [rw (sa_user_volume_accumulator a)] else [])
  ++ [ro (sa_bonding_curve_v2 a); rw (sa_buyback_fee_recipient a)].

(* sips/src/instructions/pump/accounts.rs 437-445: CloseUserVolumeAccumulatorAccounts *)
Record CloseAccumulatorAccounts := mkCloseAccumulatorAccounts {
  cv_user : Address; cv_user_volume_accumulator : Address; cv_event_authority : Address;
  cv_program : Address }.
(* sips/src/instructions/pump/accounts.rs 436-445: IntoAccountMetaArray for CloseUserVolumeAccumulatorAccounts *)
#[export] Instance CloseAccumulatorAccounts_meta : IntoAccountMetaArray CloseAccumulatorAccounts := fun a =>
  [signer_rw (cv_user a); rw (cv_user_volume_accumulator a); ro (cv_event_authority a); ro (cv_program a)].

(** *** Building the instructions *)

Section Build.
Context `{Crypto}.

Definition seed (name : string) (a : Address) : list (list Z) := [bytes_of_string name; bytes_of_address a].

Definition PUMP_GLOBAL : Address := from_str_const "4wTV1YmiEkRvAtNtsSGPtUrqRYQMe5SKy2uB4Jjaxnjf".
Definition PUMP_FEE_RECIPIENT : Address := from_str_const "62qc2CNXwrYqQScmEdiZFFAnJR262PxWEuNQtxfafNgV".
Definition EVENT_AUTHORITY : Address := from_str_const "Ce6TQqeHC9p8KetsN6JsjHK7UTZk7nasjjnr7XxXp9F1".
Definition MINT_AUTHORITY : Address := from_str_const "TSLvdd1pWpHVjahSpsvCXUbgwsL3JAcvokwaKt1eokM".
Definition FEE_CONFIG : Address := from_str_const "8Wf5TiAheLUqBrKXeYg2JtAFFMWtKdG2BSFgqUcPVwTt".
Definition FEE_PROGRAM : Address := from_str_const "pfeeUxB6jkeY1Hxd7CsFCAjcbHA9rWtchMGdZ6VojVZ".

(** [PUMP_BUYBACK_FEE_RECIPIENTS[0]] *)
Definition BUYBACK_FEE_RECIPIENT : Address :=
  from_str_const (default EmptyString (PUMP_BUYBACK_FEE_RECIPIENTS !! 0%nat)).

(* sips/src/instructions/pump/accounts.rs 54-101: CreateAccounts::new *)
Definition CreateAccounts_new (m user : Address) : outcome CreateAccounts :=
  let token_program := from_str_const "TokenkegQfeZyiNwAJbNbGKPFXCWuBvf9Ss623VQ5DA" in
  bonding_curve ← pda PUMP_PROGRAM (seed "bonding-curve" m);
  associated_bonding_curve ← ata bonding_curve.1 token_program m;
  let metaplex_program := from_str_const "metaqbxxUerdq28cj1RbAWkYQm3ybzjb6a8bt518x1s" in
  metadata ← pda metaplex_program
    [bytes_of_string "metadata"; bytes_of_address metaplex_program; bytes_of_address m];
  Ret {| cr_mint := m; cr_mint_authority := MINT_AUTHORITY; cr_bonding_curve := bonding_curve.1;
         cr_associated_bonding_curve := associated_bonding_curve.1; cr_global := PUMP_GLOBAL;
         cr_metaplex_token_metadata_program := metaplex_program; cr_metadata := metadata.1;
         cr_user := user; cr_system_program := SYSTEM_PROGRAM; cr_token_program := token_program;
         cr_associated_token_program := ATA_PROGRAM;
         cr_rent := from_str_const "SysvarRent111111111111111111111111111111111";
         cr_event_authority := EVENT_AUTHORITY; cr_program := PUMP_PROGRAM |}.

(* sips/src/instructions/pump/accounts.rs 146-185: CreateV2Accounts::new *)
Definition CreateV2Accounts_new (m user : Address) : outcome CreateV2Accounts :=
  let mayhem_program := from_str_const "MAyhSmzXzV1pTf7LsNkrNwkWKTo4ougAJ1PPg47MD4e" in
  let token_program := from_str_const "TokenzQdBNbLqP5VEhdkAS6EPFLC1PHnBqCXEpPxuEb" in
  bonding_curve ← pda PUMP_PROGRAM (seed "bonding-curve" m);
  associated_bonding_curve ← ata bonding_curve.1 token_program m;
  let sol_vault := from_str_const "BwWK17cbHxwWBKZkUYvzxLcNQ1YVyaFezduWbtm2de6s" in
  mayhem_state ← pda mayhem_program (seed "mayhem-state" m);
  mayhem_token_vault ← ata sol_vault token_program m;
  Ret {| c2_mint := m; c2_mint_authority := MINT_AUTHORITY; c2_bonding_curve := bonding_curve.1;
         c2_associated_bonding_curve := associated_bonding_curve.1; c2_global := PUMP_GLOBAL;
         c2_user := user; c2_system_program := SYSTEM_PROGRAM; c2_token_program := token_program;
         c2_associated_token_program := ATA_PROGRAM; c2_mayhem_program := mayhem_program;
         c2_global_params := from_str_const "13ec7XdrjF3h3YcqBTFDSReRcUFwbCnJaAQspM4j6DDJ";
         c2_sol_vault := sol_vault; c2_mayhem_state := mayhem_state.1;
         c2_mayhem_token_vault := mayhem_token_vault.1; c2_event_authority := EVENT_AUTHORITY;
         c2_program := PUMP_PROGRAM |}.

(* sips/src/instructions/pump/accounts.rs 220-260: BuyAccounts::new *)
Definition BuyAccounts_new (m user creator token_program : Address) : outcome BuyAccounts :=
  bonding_curve ← pda PUMP_PROGRAM (seed "bonding-curve" m);
  associated_bonding_curve ← ata bonding_curve.1 token_program m;
  associated_user ← ata user token_program m;
  creator_vault ← pda PUMP_PROGRAM (seed "creator-vault" creator);
  user_volume_accumulator ← pda PUMP_PROGRAM (seed "user_volume_accumulator" user);
  bonding_curve_v2 ← pda PUMP_PROGRAM (seed "bonding-curve-v2" m);
  Ret {| ba_global := PUMP_GLOBAL; ba_fee_recipient := PUMP_FEE_RECIPIENT; ba_mint := m;
         ba_bonding_curve := bonding_curve.1; ba_associated_bonding_curve := associated_bonding_curve.1;
         ba_associated_user := associated_user.1; ba_user := user; ba_system_program := SYSTEM_PROGRAM;
         ba_token_program := token_program; ba_creator_vault := creator_vault.1;
         ba_event_authority := EVENT_AUTHORITY; ba_program := PUMP_PROGRAM;
         ba_global_volume_accumulator := from_str_const "Hq2wp8uJ9jCPsYgNHex8RtqdvMPfVGoYwjvF1ATiwn2Y";
         ba_user_volume_accumulator := user_volume_accumulator.1; ba_fee_config := FEE_CONFIG;
         ba_fee_program := FEE_PROGRAM; ba_bonding_curve_v2 := bonding_curve_v2.1;
         ba_buyback_fee_recipient := BUYBACK_FEE_RECIPIENT |}.

(* sips/src/instructions/pump/accounts.rs 389-433: SellAccounts::new *)
Definition SellAccounts_new (m user creator token_program : Address) (cashback_enabled : bool)
    : outcome SellAccounts :=
  bonding_curve ← pda PUMP_PROGRAM (seed "bonding-curve" m);
  associated_bonding_curve ← ata bonding_curve.1 token_program m;
  associated_user ← ata user token_program m;
  creator_vault ← pda PUMP_PROGRAM (seed "creator-vault" creator);
  bonding_curve_v2 ← pda PUMP_PROGRAM (seed "bonding-curve-v2" m);
  user_volume_accumulator ← pda PUMP_PROGRAM (seed "user_volume_accumulator" user);
  Ret {| sa_cashback_enabled := cashback_enabled; sa_global := PUMP_GLOBAL;
         sa_fee_recipient := PUMP_FEE_RECIPIENT; sa_mint := m; sa_bonding_curve := bonding_curve.1;
         sa_associated_bonding_curve := associated_bonding_curve.1;
         sa_associated_user := associated_user.1; sa_user := user; sa_system_program := SYSTEM_PROGRAM;
         sa_creator_vault := creator_vault.1; sa_token_program := token_program;
         sa_event_authority := EVENT_AUTHORITY; sa_program := PUMP_PROGRAM; sa_fee_config := FEE_CONFIG;
         sa_fee_program := FEE_PROGRAM; sa_user_volume_accumulator := user_volume_accumulator.1;
         sa_bonding_curve_v2 := bonding_curve_v2.1; sa_buyback_fee_recipient := BUYBACK_FEE_RECIPIENT |}.

(* sips/src/instructions/pump/instructions.rs 34-46: PumpInstruction::create *)
Definition pump_create (metadata : PumpMetadata) (m creator : Address)
    : outcome (Instruction PumpCreateInstruction CreateAccounts) :=
  accounts ← CreateAccounts_new m creator; Ret (mkInstruction (mkPumpCreate metadata creator) accounts).

(* sips/src/instructions/pump/instructions.rs 48-63: PumpInstruction::create_v2 *)
Definition pump_create_v2 (metadata : PumpMetadata) (m creator : Address) (mayhem : bool)
    : outcome (Instruction PumpCreateV2Instruction CreateV2Accounts) :=
  accounts ← CreateV2Accounts_new m creator;
  Ret (mkInstruction (mkPumpCreateV2 metadata creator mayhem false) accounts).

(* sips/src/instructions/pump/instructions.rs 65-81: PumpInstruction::buy *)
Definition pump_buy (m user creator token_program : Address) (token_amount maximum_sol_spent : Z)
    : outcome (Instruction PumpBuyInstruction BuyAccounts) :=
  accounts ← BuyAccounts_new m user creator token_program;
  Ret (mkInstruction (mkPumpBuy token_amount maximum_sol_spent false) accounts).

(* sips/src/instructions/pump/instructions.rs 83-99: PumpInstruction::buy_exact_in *)
Definition pump_buy_exact_in (m user creator token_program : Address) (sol minimum_token_output : Z)
    : outcome (Instruction PumpBuyExactSolInInstruction BuyAccounts) :=
  accounts ← BuyAccounts_new m user creator token_program;
  Ret (mkInstruction (mkPumpBuyExactSolIn sol minimum_token_output false) accounts).

(* sips/src/instructions/pump/instructions.rs 101-117: PumpInstruction::sell *)
Definition pump_sell (m user creator token_program : Address) (token_amount minimum_sol_payout : Z)
    (cashback_enabled : bool) : outcome (Instruction PumpSellInstruction SellAccounts) :=
  accounts ← SellAccounts_new m user creator token_program cashback_enabled;
  Ret (mkInstruction (mkPumpSell token_amount minimum_sol_payout) accounts).
End Build.

(** ** Reading back what was written *)

Lemma dec_bytes_app n bs rest : length bs = n -> dec_bytes n (bs ++ rest) = Some (bs, rest).
Proof.
  intros <-. unfold dec_bytes. rewrite length_app.
  destruct (Nat.leb_spec (length bs) (length bs + length rest)); [|lia].
  by rewrite take_app_length, drop_app_length.
Qed.

Lemma dec_le_app n z rest :
  0 <= z < 256 ^ Z.of_nat n -> dec_le n (le_to_bytes n z ++ rest) = Some (z, rest).
Proof.
  intros Hz. unfold dec_le, mbind, Dec_bind. rewrite dec_bytes_app by apply le_to_bytes_length.
  by rewrite le_bytes_roundtrip.
Qed.

Lemma dec_address_app a rest :
  Z.of_N a < 256 ^ 32 -> dec_address (bytes_of_address a ++ rest) = Some (a, rest).
Proof.
  intros Ha. unfold dec_address, bytes_of_address, mbind, Dec_bind.
  rewrite dec_bytes_app by apply le_to_bytes_length. unfold address_of_bytes.
  rewrite le_bytes_roundtrip by (split; [lia|done]). by rewrite N2Z.id.
Qed.

Lemma dec_bool_app b rest : dec_bool (enc_bool b ++ rest) = Some (b, rest).
Proof. by destruct b. Qed.

Definition text_ok (t : list Z) : Prop := Z.of_nat (length t) < 2 ^ 32 /\ utf8_valid t = true.

Lemma dec_text_app t rest : text_ok t -> dec_text (enc_text t ++ rest) = Some (t, rest).
Proof.
  intros [L V]. unfold dec_text, enc_text, mbind, Dec_bind. rewrite <- app_assoc, dec_le_app by (cbn; lia).
  rewrite Nat2Z.id, dec_bytes_app by done. by rewrite V.
Qed.

Definition metadata_ok (m : PumpMetadata) : Prop :=
  text_ok (md_name m) /\ text_ok (md_symbol m) /\ text_ok (md_uri m).
Definition address_ok (a : Address) : Prop := Z.of_N a < 256 ^ 32.

Lemma dec_metadata_app m rest : metadata_ok m -> dec_metadata (enc_metadata m ++ rest) = Some (m, rest).
Proof.
  intros (Hn & Hs & Hu). unfold dec_metadata, enc_metadata, mbind, Dec_bind. rewrite <- !app_assoc.
  rewrite dec_text_app, dec_text_app, dec_text_app by done. by destruct m.
Qed.

Create HintDb borsh.
#[export] Hint Unfold ComputeUnitLimit_args ComputeUnitPrice_args Transfer_args CreateIdempotent_args
  TransferChecked_args CloseAccount_args CloseAccount2022_args TransferChecked2022_args PumpCreate_args
  PumpCreateV2_args PumpBuy_args PumpSell_args PumpBuyExactSolIn_args CloseAccumulator_args : borsh.

(** solves [deserialize (serialize a ++ rest) = Some (a, rest)] field by field *)
Ltac borsh :=
  autounfold with borsh; cbn [deserialize serialize]; unfold mbind, Dec_bind; rewrite <- ?app_assoc;
  repeat first
    [ rewrite dec_le_app by (cbn in *; unfold in_u in *; lia)
    | rewrite dec_address_app by done
    | rewrite dec_bool_app
    | rewrite dec_metadata_app by done ];
  reflexivity.

#[export] Program Instance ComputeUnitLimit_ok : BorshOk ComputeUnitLimit := {
  fits x := in_u 32 (cl_limit x) }.
Next Obligation. intros [l] rest Hl. borsh. Qed.
#[export] Program Instance ComputeUnitPrice_ok : BorshOk ComputeUnitPrice := {
  fits x := in_u 128 (cp_price x) }.
Next Obligation. intros [l] rest Hl. borsh. Qed.
#[export] Program Instance Transfer_ok : BorshOk Transfer := { fits x := in_u 64 (tf_sol x) }.
Next Obligation. intros [l] rest Hl. borsh. Qed.
#[export] Program Instance CreateIdempotent_ok : BorshOk CreateIdempotentInstruction := { fits _ := True }.
Next Obligation. by intros [] rest _. Qed.
#[export] Program Instance TransferChecked_ok : BorshOk TransferCheckedInstruction := {
  fits x := in_u 64 (tc_amount x) /\ in_u 8 (tc_decimals x) }.
Next Obligation. intros [a d] rest [Ha Hd]. borsh. Qed.
#[export] Program Instance CloseAccount_ok : BorshOk CloseAccountInstruction := { fits _ := True }.
Next Obligation. by intros [] rest _. Qed.
#[export] Program Instance CloseAccount2022_ok : BorshOk CloseAccountInstruction2022 := { fits _ := True }.
Next Obligation. by intros [] rest _. Qed.
#[export] Program Instance TransferChecked2022_ok : BorshOk TransferCheckedInstruction2022 := {
  fits x := in_u 64 (t22_amount x) /\ in_u 8 (t22_decimals x) }.
Next Obligation. intros [a d] rest [Ha Hd]. borsh. Qed.
#[export] Program Instance PumpCreate_ok : BorshOk PumpCreateInstruction := {
  fits x := metadata_ok (pc_metadata x) /\ address_ok (pc_creator x) }.
Next Obligation. intros [m c] rest [Hm Hc]. borsh. Qed.
#[export] Program Instance PumpCreateV2_ok : BorshOk PumpCreateV2Instruction := {
  fits x := metadata_ok (p2_metadata x) /\ address_ok (p2_creator x) }.
Next Obligation. intros [m c a b] rest [Hm Hc]. borsh. Qed.
#[export] Program Instance PumpBuy_ok : BorshOk PumpBuyInstruction := {
  fits x := in_u 64 (pb_spl_amount x) /\ in_u 64 (pb_maximum_sol_input x) }.
Next Obligation. intros [a b t] rest [Ha Hb]. borsh. Qed.
#[export] Program Instance PumpSell_ok : BorshOk PumpSellInstruction := {
  fits x := in_u 64 (ps_spl_amount x) /\ in_u 64 (ps_minimum_sol_payout x) }.
Next Obligation. intros [a b] rest [Ha Hb]. borsh. Qed.
#[export] Program Instance PumpBuyExactSolIn_ok : BorshOk PumpBuyExactSolInInstruction := {
  fits x := in_u 64 (px_sol_amount x) /\ in_u 64 (px_minimum_token_output x) }.
Next Obligation. intros [a b t] rest [Ha Hb]. borsh. Qed.
#[export] Program Instance CloseAccumulator_ok : BorshOk CloseUserVolumeAccumulator := { fits _ := True }.
Next Obligation. by intros [] rest _. Qed.

Lemma to_le_bytes_split {A} `{InstructionArgs A} (a : A) rest :
  let d := to_le_bytes a ++ rest in
  (length d <? length (DISCRIMINATOR A))%nat = false /\
  take (length (DISCRIMINATOR A)) d = DISCRIMINATOR A /\
  drop (length (DISCRIMINATOR A)) d = serialize a ++ rest.
Proof.
  cbv zeta. unfold to_le_bytes. rewrite <- app_assoc, take_app_length, drop_app_length. split; [|done].
  rewrite length_app. apply Nat.ltb_ge. lia.
Qed.

(** ** What the builders send *)

Section Sent.
Context {CR : Crypto}.

(** the instruction goes to [program], its data reads back as [a], and with
    anything after it as nothing *)
Record reads_as {A} {HA : InstructionArgs A} (program : Address) (a : A) (raw : RawInstruction) : Prop := {
  ra_program : raw_program raw = program;
  ra_data : from_bytes (raw_data raw) = Ok a;
  ra_tail rest : rest <> [] -> from_bytes (A := A) (raw_data raw ++ rest) = Err InvalidInstructionData
}.

Definition refusal {A} (r : result A InstructionError) : option InstructionError :=
  match r with Ok _ => None | Err e => Some e end.

(** what each instruction type of the pump program makes of the data *)
Definition pump_readings (data : list Z) : list (option InstructionError) :=
  [refusal (from_bytes (A := PumpCreateInstruction) data); refusal (from_bytes (A := PumpCreateV2Instruction) data);
   refusal (from_bytes (A := PumpBuyInstruction) data); refusal (from_bytes (A := PumpBuyExactSolInInstruction) data);
   refusal (from_bytes (A := PumpSellInstruction) data); refusal (from_bytes (A := CloseUserVolumeAccumulator) data)].

(** the [k]-th type of the pump program reads the data as [a], the five others
    refuse its discriminator *)
Definition sent_to_pump {A} {HA : InstructionArgs A} (k : nat) (a : A) (raw : RawInstruction) : Prop :=
  reads_as PUMP_PROGRAM a raw /\
  pump_readings (raw_data raw) = (fun i => if decide (i = k) then None else Some InvalidDiscriminator) <$> seq 0 6.

Lemma to_le_bytes_reads {A} `{BorshOk A} (a : A) :
  fits a ->
  from_bytes (to_le_bytes a) = Ok a /\
  forall rest, rest <> [] -> from_bytes (A := A) (to_le_bytes a ++ rest) = Err InvalidInstructionData.
Proof.
  intros F. split.
  - destruct (to_le_bytes_split a []) as (L & T & D). rewrite app_nil_r in L, T, D.
    unfold from_bytes. rewrite L, T, D, bool_decide_true by done. cbn [negb].
    unfold borsh_from_slice. by rewrite deserialize_serialize.
  - intros rest R. destruct (to_le_bytes_split a rest) as (L & T & D).
    unfold from_bytes. rewrite L, T, D, bool_decide_true by done. cbn [negb].
    unfold borsh_from_slice. rewrite deserialize_serialize by done. by destruct rest.
Qed.

Lemma into_solana_reads {A Acc} `{BorshOk A} `{!IntoAccountMetaArray Acc} `{!ProgramAddress A}
    (ix : Instruction A Acc) :
  fits (ix_data ix) -> reads_as (program_address A) (ix_data ix) (into_solana ix).
Proof. intros F. destruct (to_le_bytes_reads _ F) as [H1 H2]. by split. Qed.

Lemma wrong_discriminator B {HB : InstructionArgs B} d bs :
  length (DISCRIMINATOR B) = length d -> DISCRIMINATOR B <> d ->
  from_bytes (A := B) (d ++ bs) = Err InvalidDiscriminator.
Proof.
  intros L N. unfold from_bytes. rewrite length_app, L, take_app_length.
  destruct (Nat.ltb_spec (length d + length bs) (length d)); [lia|].
  by rewrite bool_decide_false.
Qed.

(** the instruction [ix] of a pump type goes to the pump program *)
Ltac to_pump ix :=
  let R := fresh in let D := fresh in
  assert (fits (ix_data ix)) as R by (cbn; by auto);
  split; [exact (into_solana_reads ix R)|];
  destruct (to_le_bytes_reads (ix_data ix) R) as [D _];
  change (raw_data (into_solana ix)) with (to_le_bytes (ix_data ix));
  unfold pump_readings; rewrite D; unfold to_le_bytes;
  rewrite !wrong_discriminator by first [reflexivity | by vm_compute];
  reflexivity.

Lemma create_sent md m creator :
  metadata_ok md -> address_ok creator ->
  (forall ix, pump_create md m creator = Ret ix -> sent_to_pump 0 (mkPumpCreate md creator) (into_solana ix)) /\
  (forall mayhem ix, pump_create_v2 md m creator mayhem = Ret ix ->
     sent_to_pump 1 (mkPumpCreateV2 md creator mayhem false) (into_solana ix)).
Proof.
  intros Hm Hc. split.
  - intros ix. unfold pump_create. destruct (CreateAccounts_new m creator) as [acc|]; [|done].
    intros [= <-]. to_pump (mkInstruction (mkPumpCreate md creator) acc).
  - intros mayhem ix. unfold pump_create_v2. destruct (CreateV2Accounts_new m creator) as [acc|]; [|done].
    intros [= <-]. to_pump (mkInstruction (mkPumpCreateV2 md creator mayhem false) acc).
Qed.

Lemma trade_sent m user creator token_program x y :
  in_u 64 x -> in_u 64 y ->
  (forall ix, pump_buy m user creator token_program x y = Ret ix ->
     sent_to_pump 2 (mkPumpBuy x y false) (into_solana ix)) /\
  (forall ix, pump_buy_exact_in m user creator token_program x y = Ret ix ->
     sent_to_pump 3 (mkPumpBuyExactSolIn x y false) (into_solana ix)) /\
  (forall cashback ix, pump_sell m user creator token_program x y cashback = Ret ix ->
     sent_to_pump 4 (mkPumpSell x y) (into_solana ix)).
Proof.
  intros Hx Hy. split_and!.
  - intros ix. unfold pump_buy. destruct (BuyAccounts_new _ _ _ _) as [acc|]; [|done].
    intros [= <-]. to_pump (mkInstruction (mkPumpBuy x y false) acc).
  - intros ix. unfold pump_buy_exact_in. destruct (BuyAccounts_new _ _ _ _) as [acc|]; [|done].
    intros [= <-]. to_pump (mkInstruction (mkPumpBuyExactSolIn x y false) acc).
  - intros cashback ix. unfold pump_sell. destruct (SellAccounts_new _ _ _ _ _) as [acc|]; [|done].
    intros [= <-]. to_pump (mkInstruction (mkPumpSell x y) acc).
Qed.

Lemma accumulator_sent acc :
  sent_to_pump 5 CloseAccumulator (into_solana (mkInstruction CloseAccumulator (acc : CloseAccumulatorAccounts))).
Proof. to_pump (mkInstruction CloseAccumulator acc). Qed.

Lemma priority_fee_sent limit fee p l :
  in_u 32 limit -> priority_fee limit fee = Ret (p, l) ->
  reads_as COMPUTE_BUDGET_PROGRAM (mkComputeUnitPrice (u128 (fee * 1000000) / limit)) (into_solana p) /\
  reads_as COMPUTE_BUDGET_PROGRAM (mkComputeUnitLimit limit) (into_solana l) /\
  from_bytes (A := ComputeUnitLimit) (raw_data (into_solana p)) = Err InvalidDiscriminator /\
  from_bytes (A := ComputeUnitPrice) (raw_data (into_solana l)) = Err InvalidDiscriminator.
Proof.
  intros L. unfold priority_fee, checked_div. destruct (Z.eqb_spec limit 0) as [|N]; [done|].
  intros [= <- <-]. split_and!.
  3,4: by apply wrong_discriminator.
  - apply (into_solana_reads (mkInstruction (mkComputeUnitPrice (u128 (fee * 1000000) / limit)) tt)). cbn.
    pose proof (wrap_u_range 128 (fee * 1000000) ltac:(lia)) as U. unfold in_u in *.
    split; [apply Z.div_pos; lia|]. apply Z.div_lt_upper_bound; nia.
  - by apply (into_solana_reads (mkInstruction (mkComputeUnitLimit limit) tt)).
Qed.

(** C18: what the builders send reads back as what they were asked to build.
    Every instruction of the pump program (the two creates, the two buys, the
    sell and the closing of the volume accumulator), of the token and
    associated-token programs and of the compute budget goes to its program; its
    data reads back as the instruction with exactly the arguments of the call;
    with any byte after it, it is refused; and every other type of the same
    program refuses its discriminator.  So do the data of the three transfers,
    which no builder makes. *)
Theorem instruction_roundtrip (md : PumpMetadata) (m user creator token_program : Address) (x y limit d : Z) :
  metadata_ok md -> address_ok creator -> in_u 64 x -> in_u 64 y -> in_u 32 limit -> in_u 8 d ->
  ((forall ix, pump_create md m creator = Ret ix -> sent_to_pump 0 (mkPumpCreate md creator) (into_solana ix)) /\
   (forall mayhem ix, pump_create_v2 md m creator mayhem = Ret ix ->
      sent_to_pump 1 (mkPumpCreateV2 md creator mayhem false) (into_solana ix)) /\
   (forall ix, pump_buy m user creator token_program x y = Ret ix ->
      sent_to_pump 2 (mkPumpBuy x y false) (into_solana ix)) /\
   (forall ix, pump_buy_exact_in m user creator token_program x y = Ret ix ->
      sent_to_pump 3 (mkPumpBuyExactSolIn x y false) (into_solana ix)) /\
   (forall cashback ix, pump_sell m user creator token_program x y cashback = Ret ix ->
      sent_to_pump 4 (mkPumpSell x y) (into_solana ix)) /\
   (forall acc : CloseAccumulatorAccounts,
      sent_to_pump 5 CloseAccumulator (into_solana (mkInstruction CloseAccumulator acc)))) /\
  ((forall ix, create_idempotent m user creator token_program = Ret ix ->
      reads_as ATA_PROGRAM CreateIdempotent (into_solana ix)) /\
   reads_as SPL_TOKEN_PROGRAM CloseAccount (into_solana (spl_close_account m user creator)) /\
   reads_as TOKEN_2022_PROGRAM CloseAccount2022 (into_solana (t22_close_account m user creator))) /\
  (forall p l, priority_fee limit x = Ret (p, l) ->
     reads_as COMPUTE_BUDGET_PROGRAM (mkComputeUnitPrice (u128 (x * 1000000) / limit)) (into_solana p) /\
     reads_as COMPUTE_BUDGET_PROGRAM (mkComputeUnitLimit limit) (into_solana l) /\
     from_bytes (A := ComputeUnitLimit) (raw_data (into_solana p)) = Err InvalidDiscriminator /\
     from_bytes (A := ComputeUnitPrice) (raw_data (into_solana l)) = Err InvalidDiscriminator) /\
  (from_bytes (to_le_bytes (mkTransfer x)) = Ok (mkTransfer x) /\
   from_bytes (to_le_bytes (mkTransferChecked x d)) = Ok (mkTransferChecked x d) /\
   from_bytes (to_le_bytes (mkTransferChecked2022 x d)) = Ok (mkTransferChecked2022 x d)).
Proof.
  intros Hm Hc Hx Hy Hl Hd.
  destruct (create_sent md m creator Hm Hc) as [C1 C2].
  destruct (trade_sent m user creator token_program x y Hx Hy) as (T1 & T2 & T3).
  split; [|split; [|split]].
  - split_and!; [exact C1|exact C2|exact T1|exact T2|exact T3|exact accumulator_sent].
  - split; [|split; [by apply (into_solana_reads (spl_close_account m user creator))
                    |by apply (into_solana_reads (t22_close_account m user creator))]].
    intros ix. unfold create_idempotent. destruct (ata _ _ _); [|done].
    intros [= <-]. by apply (into_solana_reads (mkInstruction CreateIdempotent _)).
  - intros p l. by apply priority_fee_sent.
  - split_and!; by apply to_le_bytes_reads.
Qed.
End Sent.

(** a deployment where every hash is off the curve *)
#[local] Instance demo_crypto : Crypto := {
  decode_32_const s := N.of_nat (String.length s);
  sha256 bs := take 32 (bs ++ repeat 0 32);
  edwards_point _ := false
}.

Lemma instruction_roundtrip_witness :
  let hello := mkPumpMetadata [72; 105] [72] [104; 116; 116; 112] in
  (exists ix, pump_sell 11 12 13 14 123456789 1000 true = Ret ix /\
     from_bytes (raw_data (into_solana ix)) = Ok (mkPumpSell 123456789 1000) /\
     from_bytes (A := PumpBuyInstruction) (raw_data (into_solana ix)) = Err InvalidDiscriminator) /\
  (exists ix, pump_create_v2 hello 11 13 true = Ret ix /\
     from_bytes (raw_data (into_solana ix)) = Ok (mkPumpCreateV2 hello 13 true false)) /\
  (exists p l, priority_fee 200000 123456789 = Ret (p, l) /\
     from_bytes (raw_data (into_solana p)) = Ok (mkComputeUnitPrice 617283945)).
Proof.
  cbn zeta.
  destruct (instruction_roundtrip (mkPumpMetadata [72; 105] [72] [104; 116; 116; 112]) 11 12 13 14
    123456789 1000 200000 6) as ((_ & V2 & _ & _ & Sell & _) & _ & Fee & _); [by repeat split|done|by split..|].
  split; [|split].
  - destruct (pump_sell 11 12 13 14 123456789 1000 true) as [ix|] eqn:E; [|by vm_compute in E].
    exists ix. destruct (Sell true ix E) as [R1 R2]. split; [done|]. split; [exact (ra_data _ _ _ R1)|].
    apply (f_equal (lookup 2%nat)) in R2.
    change (Some (refusal (from_bytes (A := PumpBuyInstruction) (raw_data (into_solana ix))))
            = Some (Some InvalidDiscriminator)) in R2.
    destruct (from_bytes _); [done|]. by injection R2 as ->.
  - destruct (pump_create_v2 _ 11 13 true) as [ix|] eqn:E; [|by vm_compute in E].
    exists ix. split; [done|]. destruct (V2 true ix E) as [R1 _]. exact (ra_data _ _ _ R1).
  - destruct (priority_fee 200000 123456789) as [[p l]|] eqn:E; [|by vm_compute in E].
    exists p, l. split; [done|]. destruct (Fee p l eq_refl) as [[_ R1 _] _].
    change 617283945 with (u128 (123456789 * 1000000) / 200000). exact R1.
Defined.

(** the six pump instructions have six discriminators of eight bytes *)
Lemma pump_discriminators :
  let ds := [DISCRIMINATOR PumpCreateInstruction; DISCRIMINATOR PumpCreateV2Instruction;
             DISCRIMINATOR PumpBuyInstruction; DISCRIMINATOR PumpBuyExactSolInInstruction;
             DISCRIMINATOR PumpSellInstruction; DISCRIMINATOR CloseUserVolumeAccumulator] in
  NoDup ds /\ Forall (fun d => length d = 8%nat) ds.
Proof. split; [apply (bool_decide_unpack _); by vm_compute | repeat constructor]. Qed.

(** ** Program-derived addresses *)

Section Pda.
Context `{Crypto}.

(** the bump does not change whether the seeds are too long *)
Lemma seeds_too_long program seeds b b' :
  create_program_address (seeds ++ [[b]]) program = Err MaxSeedLengthExceeded ->
  create_program_address (seeds ++ [[b']]) program = Err MaxSeedLengthExceeded.
Proof.
  unfold create_program_address. rewrite !length_app, !existsb_app. cbn [length existsb].
  destruct (16 <? length seeds + 1)%nat; [done|].
  change (32 <? 1)%nat with false. rewrite !orb_false_r.
  destruct (existsb (fun seed => (32 <? length seed)%nat) seeds); [done|].
  by destruct (bytes_are_curve_point _).
Qed.

Lemma pda_loop_spec program seeds n bump :
  Z.of_nat n <= bump ->
  match pda_loop n bump program seeds with
  | Ret (a, b) => bump - Z.of_nat n < b <= bump /\ create_program_address (seeds ++ [[b]]) program = Ok a /\
      forall b', b < b' <= bump -> create_program_address (seeds ++ [[b']]) program = Err InvalidSeeds
  | Panic _ => forall b, bump - Z.of_nat n < b <= bump ->
      is_err (create_program_address (seeds ++ [[b]]) program) = true
  end.
Proof.
  revert bump. induction n as [|n IH]; intros bump Hb; cbn [pda_loop]; [lia|].
  destruct (create_program_address (seeds ++ [[bump]]) program) as [a|[]] eqn:E.
  - split; [lia|]. split; [done|]. lia.
  - intros b _. by rewrite (seeds_too_long _ _ _ b E).
  - specialize (IH (bump - 1) ltac:(lia)). destruct (pda_loop n (bump - 1) program seeds) as [[a b]|p].
    + destruct IH as (B & Ha & Hn). split; [lia|]. split; [done|]. intros b' Hb'.
      destruct (decide (b' = bump)) as [->|]; [done|]. apply Hn. lia.
    + intros b Hb'. destruct (decide (b = bump)) as [->|]; [by rewrite E|]. apply IH. lia.
Qed.

(** C19: the search for a program-derived address ends after at most 255 hashes
    with the address of the highest bump off the curve, and panics only when
    no bump from 255 down to 1 gives one *)
Theorem pda_highest_bump program seeds :
  match pda program seeds with
  | Ret (a, b) => 1 <= b <= 255 /\ create_program_address (seeds ++ [[b]]) program = Ok a /\
      forall b', b < b' <= 255 -> create_program_address (seeds ++ [[b']]) program = Err InvalidSeeds
  | Panic _ => forall b, 1 <= b <= 255 -> is_err (create_program_address (seeds ++ [[b]]) program) = true
  end.
Proof.
  pose proof (pda_loop_spec program seeds 255 255 ltac:(lia)) as P. unfold pda.
  destruct (pda_loop 255 255 program seeds) as [[a b]|p].
  - destruct P as (B & P). split; [lia|exact P].
  - intros b B. apply P. lia.
Qed.
End Pda.
