(* ===== verification/Onchain.v ===== *)
(** Talking to the chain: the waits, polls and retry loops of
    [src/src/autobuy/pump_brocker.rs] and [wallet_tx_sol.rs], and the state of
    the live broker.

    The RPC node and the clock are the interface [Chain]; the functions of the
    Solana SDK are the class [Sdk].  The broker's code is written in [Io], a
    state and error monad over the broker and its world; a loop that waits for
    a time gets fuel, and running out of it is the outcome [Hang], which the
    theorems exclude.  Every question to the node is kept with its answer in a
    trace, a history variable the code does not read.  Printing is left out. *)
From S2P Require Import Prelude Text Amounts Pump Positions Brokers Curve Instructions.

(** ** Configuration and state *)

(* autobuy/execution.rs 30-63: LiveExecutionConfig *)
Record LiveExecutionConfig := mkLiveExecutionConfig {
  lx_slippage_bps : Z;
  lx_priority_fee_micro_lamports : Z;
  lx_compute_unit_limit : Z;
  lx_max_retries : Z;
  lx_balance_refresh_secs : Z;
  lx_skip_preflight : bool
}.

(* autobuy/execution.rs 65-92: Default for LiveExecutionConfig *)
Definition live_execution_default : LiveExecutionConfig :=
  mkLiveExecutionConfig 500 200000 200000 3 10 false.

(* autobuy/pump_brocker.rs 48-51: Position *)
Record LivePosition := mkLivePosition { lp_tokens : f64; lp_entry_mcap : f64 }.

(** the RPC client and the key pair are in the world *)
(* autobuy/pump_brocker.rs 55-69: SolanaBroker *)
Record SolanaBroker := mkSolanaBroker {
  sb_wallet_address : Address;
  sb_exec_cfg : LiveExecutionConfig;
  sb_balance : f64;
  sb_positions : gmap Address LivePosition
}.
#[export] Instance SolanaBroker_settable : Settable SolanaBroker :=
  fun b => mkSolanaBroker (sb_wallet_address b) (sb_exec_cfg b) (sb_balance b) (sb_positions b).

(* autobuy/pump_brocker.rs 2220-2223: MintTokenKind *)
Inductive MintTokenKind := LegacySpl | Token2022.

(** ** The answers of the node *)

(** a [TransactionStatus]: the texts of [err] and of an [Err] in [status], and
    the answers of [satisfies_commitment] *)
Record SignatureStatus := mkSignatureStatus {
  st_err : option string;
  st_status_err : option string;
  st_confirmed : bool;
  st_processed : bool
}.

Record Account := mkAccount { ac_owner : Address; ac_data : list Z }.

(** the message of an encoded transaction *)
Inductive EncodedTransaction :=
  | JsonParsed (account_keys : list string)
  | JsonRaw (account_keys : list string)
  | BinaryEncoded.

Record TransactionMeta := mkTransactionMeta {
  tm_err : option string;
  tm_pre_balances : list Z;
  tm_post_balances : list Z;
  tm_loaded_addresses : option (list string * list string)   (* writable, readonly *)
}.

Record ConfirmedTransaction := mkConfirmedTransaction {
  ct_transaction : EncodedTransaction;
  ct_meta : option TransactionMeta
}.

(** [serde_json::Value] *)
Inductive Number := PosInt (n : Z) | NegInt (n : Z) | Float (x : f64).
Inductive Value :=
  | VNull
  | VBool (b : bool)
  | VNumber (n : Number)
  | VString (s : string)
  | VArray (l : list Value)
  | VObject (fields : list (string * Value)).

(** the body is given with its parse by [serde_json::from_str] *)
Record HttpResponse := mkHttpResponse {
  hr_success : bool;
  hr_status : string;
  hr_body : string;
  hr_json : result Value string
}.

(** a transaction as it is broadcast: instructions the broker signs with a
    blockhash, or the bytes of a signed versioned transaction *)
Inductive Tx :=
  | LegacyTx (ixs : list RawInstruction) (blockhash : string)
  | VersionedTx (signed : list Z).

Inductive Query :=
  | GetLatestBlockhash
  | SendTransaction (tx : Tx) (skip_preflight : bool)
  | GetSignatureStatus (signature : string)
  | GetAccount (a : Address)
  | GetTokenAccountBalance (ata : Address)
  | GetTransaction (signature : string)
  | GetBalance (wallet : Address)
  | HttpRequest (post : bool) (url : string) (body : option Value).

(** an error is the text of the client's error *)
Definition Reply (q : Query) : Type :=
  match q with
  | GetLatestBlockhash => result string string
  | SendTransaction _ _ => result string string
  | GetSignatureStatus _ => result (option SignatureStatus) string
  | GetAccount _ => result (option Account) string
  | GetTokenAccountBalance _ => result (string * Z) string    (* amount, decimals *)
  | GetTransaction _ => result ConfirmedTransaction string
  | GetBalance _ => result Z string
  | HttpRequest _ _ _ => result HttpResponse string
  end.

(** The world: a clock in milliseconds, sleeping, and a node that answers. *)
Class Chain (W : Type) := {
  chain_now : W -> Z;
  chain_sleep : Z -> W -> W;
  chain_answer : forall q : Query, W -> Reply q * W
}.

(** time does not go back, a sleep lasts at least as long as it is asked to, and
    the data of an account are bytes *)
Class ChainLaws (W : Type) `{Chain W} := {
  sleep_lasts ms w : 0 <= ms -> chain_now w + ms <= chain_now (chain_sleep ms w);
  answer_lasts q w : chain_now w <= chain_now (snd (chain_answer q w));
  account_bytes a w acc :
    fst (chain_answer (GetAccount a) w) = Ok (Some acc) -> Forall (fun b => in_u 8 b) (ac_data acc)
}.

(** Functions of the SDK and of other crates: base58 text of an address, the
    debug text of a duration, base64, the bincode form of a versioned
    transaction and its signing with the broker's key. *)
Class Sdk := {
  show_address : Address -> string;
  show_duration : Z -> string;
  show_json : Value -> string;
  base64_decode : string -> result (list Z) string;
  base64_encode : list Z -> string;
  (** [bincode::deserialize]: the message of the transaction *)
  decode_versioned : list Z -> result (list Z) string;
  set_recent_blockhash : string -> list Z -> list Z;
  (** [VersionedTransaction::try_new] with the broker's key *)
  sign_message : list Z -> result (list Z) string;
  serialize_versioned : list Z -> result (list Z) string;
  parse_signature : string -> result string string
}.

(** ** The monad *)

Inductive TraceEvent := Asked (q : Query) (r : Reply q).

Record Live (W : Type) := mkLive { lv_broker : SolanaBroker; lv_world : W; lv_trace : list TraceEvent }.
Arguments mkLive {W}.
Arguments lv_broker {W}.
Arguments lv_world {W}.
Arguments lv_trace {W}.

Inductive Run (W A : Type) :=
  | Done (r : result A BrokerError) (s : Live W)
  | Crash (p : panic)
  | Hang.
Arguments Done {W A}.
Arguments Crash {W A}.
Arguments Hang {W A}.

Definition Io (W A : Type) : Type := Live W -> Run W A.

Section Io.
Context {W : Type}.

#[global] Instance Io_ret : MRet (Io W) := fun A a s => Done (Ok a) s.
#[global] Instance Io_bind : MBind (Io W) := fun A B f m s =>
  match m s with
  | Done (Ok a) s' => f a s'
  | Done (Err e) s' => Done (Err e) s'
  | Crash p => Crash p
  | Hang => Hang
  end.

Definition throw {A} (e : BrokerError) : Io W A := fun s => Done (Err e) s.

(** the [Result] of a call, to be matched on *)
Definition try_io {A} (m : Io W A) : Io W (result A BrokerError) := fun s =>
  match m s with
  | Done r s' => Done (Ok r) s'
  | Crash p => Crash p
  | Hang => Hang
  end.

Definition of_result {A} (r : result A BrokerError) : Io W A :=
  match r with Ok a => mret a | Err e => throw e end.
Definition of_outcome {A} (o : outcome A) : Io W A := fun s =>
  match o with Ret a => Done (Ok a) s | Panic p => Crash p end.

Definition broker : Io W SolanaBroker := fun s => Done (Ok (lv_broker s)) s.
Definition set_broker (f : SolanaBroker -> SolanaBroker) : Io W unit := fun s =>
  Done (Ok tt) (mkLive (f (lv_broker s)) (lv_world s) (lv_trace s)).

(** [loop]: the body goes on with a new state or leaves with a value *)
Fixpoint loop {S A} (fuel : nat) (body : S -> Io W (S + A)) (st : S) : Io W A :=
  match fuel with
  | O => fun _ => Hang
  | S fuel' =>
      x ← body st;
      match x with inl st' => loop fuel' body st' | inr a => mret a end
  end.

(** a [for] loop with an accumulator *)
Fixpoint for_each {X S} (l : list X) (body : X -> S -> Io W (S + S)) (st : S) : Io W S :=
  match l with
  | [] => mret st
  | x :: l' =>
      r ← body x st;
      match r with inl st' => for_each l' body st' | inr st' => mret st' end
  end.

Context `{Chain W}.

Definition ask (q : Query) : Io W (Reply q) := fun s =>
  let '(r, w) := chain_answer q (lv_world s) in
  Done (Ok r) (mkLive (lv_broker s) w (lv_trace s ++ [Asked q r])).
Definition clock : Io W Z := fun s => Done (Ok (chain_now (lv_world s))) s.
Definition sleep_ms (ms : Z) : Io W unit := fun s =>
  Done (Ok tt) (mkLive (lv_broker s) (chain_sleep ms (lv_world s)) (lv_trace s)).
Definition elapsed (started : Z) : Io W Z := now ← clock; mret (now - started).
End Io.

(** ** Reading accounts *)

(** [str::parse::<u64>], with the text of its error *)
Fixpoint parse_u64_digits (s : string) (acc : Z) : result Z string :=
  match s with
  | EmptyString => Ok acc
  | String c s' =>
      match digit_of c with
      | None => Err "invalid digit found in string"
      | Some d =>
          if U64_MAX <? acc * 10 + d then Err "number too large to fit in target type"
          else parse_u64_digits s' (acc * 10 + d)
      end
  end.
Definition parse_u64 (s : string) : result Z string :=
  match s with
  | EmptyString => Err "cannot parse integer from empty string"
  | String c EmptyString => parse_u64_digits s 0
  | String c s' => if N.eqb (Ascii.N_of_ascii c) 43 then parse_u64_digits s' 0 else parse_u64_digits s 0
  end.

Section Reads.
Context {W : Type} `{Chain W} `{Sdk} `{Crypto}.

(* autobuy/pump_brocker.rs 2226-2231: MintTokenKind::program *)
Definition token_program_of (k : MintTokenKind) : Address :=
  match k with LegacySpl => SPL_TOKEN_PROGRAM | Token2022 => TOKEN_2022_PROGRAM end.

(* autobuy/pump_brocker.rs 2233-2243: MintTokenKind::close_account_ix *)
Definition close_account_ix (k : MintTokenKind) (account destination authority : Address) : RawInstruction :=
  match k with
  | LegacySpl => into_solana (spl_close_account account destination authority)
  | Token2022 => into_solana (t22_close_account account destination authority)
  end.

(* autobuy/pump_brocker.rs 2247-2283: fetch_mint_token_kind *)
Definition fetch_mint_token_kind (m : Address) : Io W MintTokenKind :=
  let mint_str := show_address m in
  resp ← ask (GetAccount m);
  match resp with
  | Err e => throw (Custom ("get_account mint " +:+ mint_str +:+ ": " +:+ e))
  | Ok None => throw (MintNotOnChain mint_str "fetch_mint_token_kind: account empty at confirmed")
  | Ok (Some acc) =>
      let owner := show_address (ac_owner acc) in
      if String.eqb owner "TokenkegQfeZyiNwAJbNbGKPFXCWuBvf9Ss623VQ5DA" then mret LegacySpl
      else if String.eqb owner "TokenzQdBNbLqP5VEhdkAS6EPFLC1PHnBqCXEpPxuEb" then mret Token2022
      else throw (Custom ("mint " +:+ mint_str +:+ " owner " +:+ owner
                          +:+ " is not SPL Token (Tokenkeg) or Token-2022 (Tokenz)"))
  end.

(* autobuy/pump_brocker.rs 2287-2298: derive_ata_address *)
Definition derive_ata_address (wallet m token_program : Address) : Io W Address :=
  a ← of_outcome (ata wallet token_program m); mret a.1.

(* autobuy/pump_brocker.rs 2318-2335: fetch_token_account_raw_with_decimals *)
Definition fetch_token_account_raw_with_decimals (a : Address) : Io W (Z * Z) :=
  let ata_s := show_address a in
  resp ← ask (GetTokenAccountBalance a);
  match resp with
  | Err e => throw (Custom ("get_token_account_balance " +:+ ata_s +:+ ": " +:+ e))
  | Ok (amount, decimals) =>
      match parse_u64 amount with
      | Err e => throw (Custom ("parse token amount " +:+ ata_s +:+ ": " +:+ e))
      | Ok raw => mret (raw, decimals)
      end
  end.

(* autobuy/pump_brocker.rs 2303-2315: fetch_token_account_raw *)
Definition fetch_token_account_raw (a : Address) : Io W Z :=
  r ← fetch_token_account_raw_with_decimals a; mret r.1.

(** [fetch_token_account_raw(..).await.unwrap_or(0)] *)
Definition raw_or_zero (a : Address) : Io W Z :=
  r ← try_io (fetch_token_account_raw a); mret match r with Ok raw => raw | Err _ => 0 end.

(** [derive_program_address] of the SDK is the derivation of [pda] *)
(* launchpads/pump/general.rs 36-40: bounding_curve *)
Definition bounding_curve (m : Address) : outcome Address :=
  a ← pda PUMP_PROGRAM (seed "bonding-curve" m); Ret a.1.

Definition curve_error_text (pk : string) (rpc_error : string) (e : CurveError) : string :=
  match e with
  | RpcError => "get_account bonding_curve " +:+ pk +:+ ": " +:+ rpc_error
  | AccountNotFound => "bonding curve " +:+ pk +:+ " not found"
  | DataTooShort got need =>
      "bonding_curve data too short: " +:+ fmt_int (Z.of_nat got) +:+ " bytes, need at least "
      +:+ fmt_int (Z.of_nat need)
  end.

(** [Curve.fetch_bonding_curve_state] decodes the answer *)
(* autobuy/pump_brocker.rs 2094-2147: fetch_bonding_curve_state *)
Definition read_curve_state (m : Address) : Io W BondingCurveState :=
  curve_addr ← of_outcome (bounding_curve m);
  resp ← ask (GetAccount curve_addr);
  let '(answer, text) := match resp with
    | Err e => (Err tt, e)
    | Ok acc => (Ok (ac_data <$> acc), EmptyString)
    end in
  match fetch_bonding_curve_state answer with
  | Ok c => mret c
  | Err e => throw (Custom (curve_error_text (show_address curve_addr) text e))
  end.

(* autobuy/pump_brocker.rs 2036-2041: fetch_bonding_curve_creator *)
Definition fetch_bonding_curve_creator (m : Address) : Io W Address :=
  c ← read_curve_state m; mret (bc_creator c).

(* autobuy/pump_brocker.rs 1885-1898: fetch_balance_sol *)
Definition fetch_balance_sol (wallet : Address) : Io W f64 :=
  lamports ← ask (GetBalance wallet);
  match lamports with
  | Err e => throw (Custom e)
  | Ok n => mret (f64_of_Z n / 1000000000)%float
  end.

(** ** Waiting *)

(** The polls of an account until it is visible: [attempts] polls are behind. *)
(* autobuy/pump_brocker.rs 2517-2561: wait_for_account_visible *)
Definition visible_poll (a : Address) (label : string) (total_timeout min_polls poll_delay started : Z)
    (attempts : Z) : Io W (Z + unit) :=
  let attempts := attempts + 1 in
  let pubkey_str := show_address a in
  resp ← ask (GetAccount a);
  let retry : Io W (Z + unit) :=
    e ← elapsed started;
    if (total_timeout <=? e) && (min_polls <=? attempts) then
      throw (MintNotOnChain pubkey_str (label +:+ ": not visible on RPC after " +:+ fmt_int attempts
                                        +:+ " polls in " +:+ show_duration e))
    else if total_timeout <=? e then
      throw (MintNotOnChain pubkey_str (label +:+ ": timeout " +:+ show_duration total_timeout
                                        +:+ " before min_polls"))
    else sleep_ms poll_delay;; mret (inl attempts) in
  match resp with
  | Ok (Some _) => mret (inr tt)
  | Ok None => retry
  | Err msg =>
      if negb (is_rpc_account_missing msg) && negb (is_transient_rpc_error msg) then
        throw (Custom (label +:+ ": get_account_with_commitment " +:+ pubkey_str +:+ " failed: " +:+ msg))
      else retry
  end.

(** fuel for a loop that sleeps at least [delay] before each new turn and
    leaves after [timeout] *)
Definition poll_fuel (timeout delay : Z) : nat := Z.to_nat (timeout / delay + 2).

(* autobuy/pump_brocker.rs 2501-2562: wait_for_account_visible *)
Definition wait_for_account_visible (a : Address) (label : string)
    (total_timeout min_polls poll_delay : Z) : Io W unit :=
  started ← clock;
  loop (poll_fuel total_timeout poll_delay)
    (visible_poll a label total_timeout min_polls poll_delay started) 0.

Definition TX_TIMEOUT_MS : Z := 90000.
Definition POLL_FAST_MS : Z := 150.
Definition POLL_SLOW_MS : Z := 400.

(* autobuy/pump_brocker.rs 180-227: SolanaBroker::wait_until_signature_confirmed_ok *)
Definition signature_poll (sig label : string) (started : Z) (_ : unit) : Io W (unit + unit) :=
  resp ← ask (GetSignatureStatus sig);
  match resp with
  | Err e => throw (Custom (label +:+ ": get_signature_statuses: " +:+ e))
  | Ok status =>
      let again : Io W (unit + unit) :=
        e ← elapsed started;
        if TX_TIMEOUT_MS <=? e then
          throw (TransactionFailed (label +:+ ": timed out after " +:+ show_duration TX_TIMEOUT_MS
            +:+ " waiting for confirmed success (sig=" +:+ sig +:+ ")"))
        else
          e' ← elapsed started;
          sleep_ms (if e' <? 3000 then POLL_FAST_MS else POLL_SLOW_MS);;
          mret (inl tt) in
      match status with
      | None => again
      | Some st =>
          match st_err st, st_status_err st with
          | Some err, _ => throw (TransactionFailed (label +:+ ": on-chain transaction error: " +:+ err))
          | None, Some err => throw (TransactionFailed (label +:+ ": on-chain transaction status: " +:+ err))
          | None, None =>
              if st_confirmed st then mret (inr tt)
              else if st_processed st then mret (inr tt)
              else again
          end
      end
  end.

(* autobuy/pump_brocker.rs 170-228: SolanaBroker::wait_until_signature_confirmed_ok *)
Definition wait_until_signature_confirmed_ok (sig label : string) : Io W unit :=
  started ← clock;
  loop (poll_fuel TX_TIMEOUT_MS POLL_FAST_MS) (signature_poll sig label started) tt.

(** the polls behind, the last balance seen and the last error *)
(* autobuy/pump_brocker.rs 2349-2388: poll_token_balance_increase *)
Definition increase_poll (a : Address) (pre_raw total_timeout started : Z)
    (st : Z * option (Z * Z) * option string)
    : Io W (Z * option (Z * Z) * option string + Z * Z) :=
  let '(attempts, last_seen, last_err) := st in
  let attempts := attempts + 1 in
  r ← try_io (fetch_token_account_raw_with_decimals a);
  let '(found, last_seen, last_err) := match r with
    | Ok (raw, decimals) =>
        (if pre_raw <? raw then Some (raw, decimals) else None, Some (raw, decimals), last_err)
    | Err e => (None, last_seen, Some (error_to_string show_address e))
    end in
  match found with
  | Some v => mret (inr v)
  | None =>
      e ← elapsed started;
      if total_timeout <=? e then
        let polls := fmt_int attempts +:+ " polls in " +:+ show_duration total_timeout in
        let read_failed := Custom ("ATA " +:+ show_address a +:+ " balance read failed after " +:+ polls
          +:+ ": " +:+ default "no successful read" last_err) in
        match last_seen with
        | Some (raw, _) =>
            if raw =? pre_raw then
              throw (Custom ("ATA " +:+ show_address a +:+ " balance did not increase after " +:+ polls
                +:+ " (pre=" +:+ fmt_int pre_raw +:+ ", post=" +:+ fmt_int raw +:+ ")"))
            else throw read_failed
        | None => throw read_failed
        end
      else sleep_ms 400;; mret (inl (attempts, last_seen, last_err))
  end.

(* autobuy/pump_brocker.rs 2343-2389: poll_token_balance_increase *)
Definition poll_token_balance_increase (a : Address) (pre_raw total_timeout : Z) : Io W (Z * Z) :=
  started ← clock;
  loop (poll_fuel total_timeout 400) (increase_poll a pre_raw total_timeout started) (0, None, None).

(** ** Confirming a sell *)

(* autobuy/pump_brocker.rs 2426-2495: poll_ata_confirms_sell *)
Definition sell_poll (a : Address) (pre_raw sold_raw : Z) (expect_ata_closed : bool) (m : Address)
    (total_timeout started : Z) (attempts : Z) : Io W (Z + unit) :=
  let attempts := attempts + 1 in
  let mint_s := show_address m in
  let ata_s := show_address a in
  let late (error : BrokerError) : Io W (Z + unit) :=
    e ← elapsed started;
    if total_timeout <=? e then throw error else sleep_ms 400;; mret (inl attempts) in
  if expect_ata_closed then
    resp ← ask (GetAccount a);
    match resp with
    | Ok None => mret (inr tt)
    | Ok (Some _) =>
        late (TransactionFailed (mint_s +:+ ": expected ATA " +:+ ata_s
          +:+ " to close after full SELL; still present after " +:+ fmt_int attempts +:+ " polls in "
          +:+ show_duration total_timeout +:+ " (pre_raw=" +:+ fmt_int pre_raw +:+ ", sold_raw="
          +:+ fmt_int sold_raw +:+ ")"))
    | Err msg => late (Custom (mint_s +:+ ": get_account ATA " +:+ ata_s +:+ " after full SELL: " +:+ msg))
    end
  else
    r ← try_io (fetch_token_account_raw_with_decimals a);
    match r with
    | Ok (post_raw, _) =>
        let drop := sat_sub pre_raw post_raw in
        if min_drop sold_raw <=? drop then mret (inr tt)
        else late (TransactionFailed (mint_s +:+ ": ATA " +:+ ata_s
          +:+ " balance did not drop enough after confirmed SELL: pre_raw=" +:+ fmt_int pre_raw
          +:+ " post_raw=" +:+ fmt_int post_raw +:+ " delta=" +:+ fmt_int drop +:+ " need>="
          +:+ fmt_int (min_drop sold_raw) +:+ " sold_raw=" +:+ fmt_int sold_raw +:+ " after "
          +:+ fmt_int attempts +:+ " polls in " +:+ show_duration total_timeout))
    | Err e =>
        late (Custom (mint_s +:+ ": token balance read ATA " +:+ ata_s +:+ " after SELL: "
          +:+ error_to_string show_address e))
    end.

(* autobuy/pump_brocker.rs 2405-2496: poll_ata_confirms_sell *)
Definition poll_ata_confirms_sell (a : Address) (pre_raw sold_raw : Z) (expect_ata_closed : bool)
    (m : Address) (total_timeout : Z) : Io W unit :=
  started ← clock;
  loop (poll_fuel total_timeout 400)
    (sell_poll a pre_raw sold_raw expect_ata_closed m total_timeout started) 0.

(** ** Sending *)

(* autobuy/pump_brocker.rs 140-163: SolanaBroker::compute_budget_prelude *)
Definition compute_budget_prelude (cfg : LiveExecutionConfig) : list RawInstruction :=
  (if 0 <? lx_priority_fee_micro_lamports cfg
   then [into_solana (mkInstruction (mkComputeUnitPrice (lx_priority_fee_micro_lamports cfg)) tt)] else [])
  ++ (if 0 <? lx_compute_unit_limit cfg
      then [into_solana (mkInstruction (mkComputeUnitLimit (lx_compute_unit_limit cfg)) tt)] else []).

(* autobuy/pump_brocker.rs 253-253: SolanaBroker::send_with_retries *)
Definition effective_retries (cfg : LiveExecutionConfig) : Z := Z.max (Z.max (lx_max_retries cfg) 1) 6.

(* autobuy/pump_brocker.rs 254-307: SolanaBroker::send_with_retries *)
Definition send_attempt (cfg : LiveExecutionConfig) (ixs : list RawInstruction) (label : string)
    (attempt : Z) : Io W (Z + string) :=
  let attempt := attempt + 1 in
  let max_retries := effective_retries cfg in
  bh ← ask GetLatestBlockhash;
  match bh with
  | Err e =>
      if max_retries <=? attempt then
        throw (Custom (label +:+ ": blockhash fetch failed after " +:+ fmt_int attempt +:+ " attempts: " +:+ e))
      else sleep_ms (backoff_ms attempt);; mret (inl attempt)
  | Ok blockhash =>
      sent ← ask (SendTransaction (LegacyTx ixs blockhash) (lx_skip_preflight cfg));
      match sent with
      | Ok sig => wait_until_signature_confirmed_ok sig label;; mret (inr sig)
      | Err msg =>
          if max_retries <=? attempt then throw (TransactionFailed msg)
          else
            sleep_ms (if is_account_propagation_error msg then propagation_backoff_ms attempt
                      else backoff_ms attempt);;
            mret (inl attempt)
      end
  end.

(* autobuy/pump_brocker.rs 240-308: SolanaBroker::send_with_retries *)
Definition send_with_retries (ixs : list RawInstruction) (label : string) : Io W string :=
  b ← broker;
  let cfg := sb_exec_cfg b in
  loop (Z.to_nat (effective_retries cfg)) (send_attempt cfg ixs label) 0.

(* autobuy/pump_brocker.rs 953-992: SolanaBroker::send_versioned_jupiter_with_retries *)
Definition versioned_attempt (cfg : LiveExecutionConfig) (template : list Z) (label : string)
    (attempt : Z) : Io W (Z + string) :=
  let attempt := attempt + 1 in
  bh ← ask GetLatestBlockhash;
  match bh with
  | Err e => throw (Custom (label +:+ ": get_latest_blockhash: " +:+ e))
  | Ok blockhash =>
      match sign_message (set_recent_blockhash blockhash template) with
      | Err e => throw (Custom (label +:+ ": VersionedTransaction::try_new: " +:+ e))
      | Ok signed =>
          sent ← ask (SendTransaction (VersionedTx signed) (lx_skip_preflight cfg));
          match sent with
          | Ok sig => wait_until_signature_confirmed_ok sig label;; mret (inr sig)
          | Err msg =>
              if effective_retries cfg <=? attempt then throw (TransactionFailed msg)
              else sleep_ms (backoff_ms attempt);; mret (inl attempt)
          end
      end
  end.

(* autobuy/pump_brocker.rs 945-993: SolanaBroker::send_versioned_jupiter_with_retries *)
Definition send_versioned_jupiter_with_retries (template : list Z) (label : string) : Io W string :=
  b ← broker;
  let cfg := sb_exec_cfg b in
  loop (Z.to_nat (effective_retries cfg)) (versioned_attempt cfg template label) 0.

(** ** What a transaction paid *)

(* autobuy/wallet_tx_sol.rs 17-17: META_FETCH_RETRIES *)
Definition META_FETCH_RETRIES : nat := 10.
(* autobuy/wallet_tx_sol.rs 18-18: META_FETCH_DELAY_MS *)
Definition META_FETCH_DELAY_MS : Z := 200.

(* autobuy/wallet_tx_sol.rs 21-50: account_keys_for_meta *)
Definition account_keys_for_meta (encoded_tx : EncodedTransaction) (meta : TransactionMeta)
    : result (list string) BrokerError :=
  let keys := match encoded_tx with
    | JsonParsed keys | JsonRaw keys => Ok keys
    | BinaryEncoded =>
        Err (Custom "getTransaction: expected JSON-encoded transaction (set encoding=json)")
    end in
  match keys, tm_loaded_addresses meta with
  | Ok keys, Some (writable, readonly) => Ok (keys ++ writable ++ readonly)
  | keys, _ => keys
  end.

(* autobuy/wallet_tx_sol.rs 52-66: wallet_lamport_delta *)
Definition wallet_lamport_delta (meta : TransactionMeta) (keys : list string) (wallet : string)
    : result Z BrokerError :=
  match list_find (fun k => k = wallet) keys with
  | None => Err (Custom ("wallet " +:+ wallet +:+ " not present in transaction account keys (len="
                         +:+ fmt_int (Z.of_nat (length keys)) +:+ ")"))
  | Some (idx, _) =>
      let pre := default 0 (tm_pre_balances meta !! idx) in
      let post := default 0 (tm_post_balances meta !! idx) in
      Ok (post - pre)
  end.

(* autobuy/wallet_tx_sol.rs 68-117: try_wallet_net_sol_once *)
Definition try_wallet_net_sol_once (sig : string) (wallet : Address) : Io W f64 :=
  resp ← ask (GetTransaction sig);
  let fail (text : string) : Io W f64 := throw (Custom ("getTransaction " +:+ sig +:+ ": " +:+ text)) in
  match resp with
  | Err e => fail e
  | Ok confirmed =>
      match ct_meta confirmed with
      | None => fail "missing meta"
      | Some meta =>
          match tm_err meta with
          | Some err => fail ("transaction meta has err Some(" +:+ err +:+ ")")
          | None =>
              keys ← of_result (account_keys_for_meta (ct_transaction confirmed) meta);
              let n := length keys in
              let pre := length (tm_pre_balances meta) in
              let post := length (tm_post_balances meta) in
              if negb (n =? pre)%nat || negb (n =? post)%nat then
                fail ("balance/key len mismatch keys=" +:+ fmt_int (Z.of_nat n) +:+ " pre="
                      +:+ fmt_int (Z.of_nat pre) +:+ " post=" +:+ fmt_int (Z.of_nat post))
              else
                delta ← of_result (wallet_lamport_delta meta keys (show_address wallet));
                mret (f64_of_Z delta / 1000000000)%float
          end
      end
  end.

(** [n] attempts are left *)
(* autobuy/wallet_tx_sol.rs 125-137: wallet_net_sol_received_f64 *)
Fixpoint wallet_net_sol_attempts (n : nat) (last_err : BrokerError) (sig : string) (wallet : Address)
    : Io W f64 :=
  match n with
  | O => throw last_err
  | S n' =>
      r ← try_io (try_wallet_net_sol_once sig wallet);
      match r with
      | Ok v => mret v
      | Err e =>
          (if (0 <? n')%nat then sleep_ms META_FETCH_DELAY_MS else mret tt);;
          wallet_net_sol_attempts n' e sig wallet
      end
  end.

(* autobuy/wallet_tx_sol.rs 120-138: wallet_net_sol_received_f64 *)
Definition wallet_net_sol_received_f64 (sig : string) (wallet : Address) : Io W f64 :=
  wallet_net_sol_attempts META_FETCH_RETRIES (Custom "wallet_net_sol_received_f64: no attempts") sig wallet.

(* autobuy/pump_brocker.rs 112-134: SolanaBroker::wallet_net_sol_or_fallback *)
Definition wallet_net_sol_or_fallback (sig : string) (fallback_sol : f64) : Io W f64 :=
  b ← broker;
  r ← try_io (wallet_net_sol_received_f64 sig (sb_wallet_address b));
  mret match r with Ok v => v | Err _ => fallback_sol end.
End Reads.
