(* ===== verification/Jupiter.v ===== *)
(** Trading after the bonding curve: the client of the Jupiter API,
    [src/src/autobuy/jupiter_sell.rs], and the routes of the live broker through
    it ([jupiter_*] and [*_post_graduation] of [pump_brocker.rs]). *)
From S2P Require Import Prelude Text Amounts Pump Positions Brokers Curve Instructions Onchain.

(** ** Constants *)

(* autobuy/jupiter_sell.rs 19-19: WSOL_MINT *)
Definition WSOL_MINT : string := "So11111111111111111111111111111111111111112".
(* autobuy/jupiter_sell.rs 22-22: JUPITER_QUOTE *)
Definition JUPITER_QUOTE : string := "https://api.jup.ag/swap/v1/quote".
(* autobuy/jupiter_sell.rs 23-23: JUPITER_SWAP *)
Definition JUPITER_SWAP : string := "https://api.jup.ag/swap/v1/swap".
(* autobuy/jupiter_sell.rs 26-26: JUPITER_ORDER_V2 *)
Definition JUPITER_ORDER_V2 : string := "https://api.jup.ag/swap/v2/order".
(* autobuy/jupiter_sell.rs 27-27: JUPITER_EXECUTE_V2 *)
Definition JUPITER_EXECUTE_V2 : string := "https://api.jup.ag/swap/v2/execute".
(* autobuy/jupiter_sell.rs 30-30: JUPITER_PRICE_V3 *)
Definition JUPITER_PRICE_V3 : string := "https://api.jup.ag/price/v3".
(* autobuy/jupiter_sell.rs 32-32: PUMP_FUN_TOKEN_SUPPLY *)
Definition PUMP_FUN_TOKEN_SUPPLY : f64 := 1000000000%float.
(* autobuy/jupiter_sell.rs 39-39: JUPITER_EXCLUDE_PUMP_DEXES *)
Definition JUPITER_EXCLUDE_PUMP_DEXES : string := "Pump.fun,Pump.fun+Amm".

(* autobuy/jupiter_sell.rs 43-46: JupiterQuoteOpts *)
Record JupiterQuoteOpts := mkQuoteOpts { qo_exclude_dexes : option string; qo_only_direct_routes : bool }.
(* autobuy/jupiter_sell.rs 49-52: JupiterQuoteOpts::POST_GRADUATION *)
Definition POST_GRADUATION : JupiterQuoteOpts := mkQuoteOpts (Some JUPITER_EXCLUDE_PUMP_DEXES) false.
(* autobuy/jupiter_sell.rs 54-57: JupiterQuoteOpts::POST_GRADUATION_DIRECT_ONLY *)
Definition POST_GRADUATION_DIRECT_ONLY : JupiterQuoteOpts := mkQuoteOpts (Some JUPITER_EXCLUDE_PUMP_DEXES) true.
(* autobuy/jupiter_sell.rs 60-63: JupiterQuoteOpts::POST_GRADUATION_ALLOW_PUMP *)
Definition POST_GRADUATION_ALLOW_PUMP : JupiterQuoteOpts := mkQuoteOpts None false.
(* autobuy/jupiter_sell.rs 65-68: JupiterQuoteOpts::POST_GRADUATION_ALLOW_PUMP_DIRECT *)
Definition POST_GRADUATION_ALLOW_PUMP_DIRECT : JupiterQuoteOpts := mkQuoteOpts None true.

(** ** Errors *)

(* autobuy/jupiter_sell.rs 72-79: is_jupiter_no_routes_found *)
Definition is_jupiter_no_routes_found (err : BrokerError) : bool :=
  match err with
  | Custom msg => contains "NO_ROUTES_FOUND" msg || contains "No routes found" msg
  | _ => false
  end.

(* autobuy/jupiter_sell.rs 82-89: is_jupiter_empty_order *)
Definition is_jupiter_empty_order (err : BrokerError) : bool :=
  match err with
  | Custom msg => contains "EMPTY_ORDER" msg || contains "empty transaction" msg
  | _ => false
  end.

(* autobuy/jupiter_sell.rs 92-101: is_jupiter_slippage *)
Definition is_jupiter_slippage (err : BrokerError) : bool :=
  match err with
  | TransactionFailed msg =>
      contains "15001" msg || contains "slippage tolerance exceeded" (to_ascii_lowercase msg)
      || contains "slippage" (to_ascii_lowercase msg)
  | _ => false
  end.

(* autobuy/jupiter_sell.rs 103-105: is_jupiter_execute_failed *)
Definition is_jupiter_execute_failed (err : BrokerError) : bool :=
  match err with TransactionFailed _ => negb (is_jupiter_slippage err) | _ => false end.

(* autobuy/pump_brocker.rs 1881-1883: is_bonding_curve_complete_pump_error *)
Definition is_bonding_curve_complete_pump_error (msg : string) : bool := contains "Custom(6005)" msg.

(** ** JSON *)

(** [Value::get] of an object, [as_str], [as_f64], [as_u64] *)
Definition json_get (key : string) (v : Value) : option Value :=
  match v with VObject fields => snd <$> List.find (fun kv => String.eqb kv.1 key) fields | _ => None end.
Definition json_str (v : Value) : option string := match v with VString s => Some s | _ => None end.
Definition json_f64 (v : Value) : option f64 :=
  match v with
  | VNumber (PosInt n) | VNumber (NegInt n) => Some (f64_of_Z n)
  | VNumber (Float x) => Some x
  | _ => None
  end.
Definition json_u64 (v : Value) : option Z := match v with VNumber (PosInt n) => Some n | _ => None end.
Definition json_text (key : string) (v : Value) : option string :=
  match json_get key v with Some w => json_str w | None => None end.
Definition non_empty (s : string) : option string := if String.eqb s EmptyString then None else Some s.

Definition json_nonempty (key : string) (v : Value) : option string :=
  match json_text key v with Some s => non_empty s | None => None end.

(* autobuy/jupiter_sell.rs 267-275: JupiterSwapBuild *)
Record JupiterSwapBuild := mkSwapBuild {
  jb_swap_transaction_b64 : string;
  jb_out_lamports : Z;
  jb_v2_request_id : option string;
  jb_used_exclude_pump_dexes : bool
}.

(* autobuy/jupiter_sell.rs 278-290: JupiterSwapBuild::from_v1_swap_response *)
Definition from_v1_swap_response (swap : Value) (out_lamports : Z) : result JupiterSwapBuild BrokerError :=
  match json_text "swapTransaction" swap with
  | None => Err (Custom "Jupiter swap: missing swapTransaction")
  | Some b64 => Ok (mkSwapBuild b64 out_lamports None false)
  end.

(* autobuy/jupiter_sell.rs 334-340: parse_out_amount_lamports *)
Definition parse_out_amount_lamports (quote : Value) : Z :=
  match json_text "outAmount" quote with
  | Some s => match parse_u64 s with Ok n => n | Err _ => 0 end
  | None => 0
  end.

(* autobuy/jupiter_sell.rs 477-487: parse_price_v3_usd *)
Definition parse_price_v3_usd (body : Value) (mint_s : string) : option f64 :=
  entry ← json_get mint_s body;
  v ← json_get "usdPrice" entry;
  usd ← match json_f64 v with Some x => Some x | None => json_str v ≫= parse_f64 end;
  if f64_is_finite usd && (0 <? usd)%float then Some usd else None.

(* autobuy/jupiter_sell.rs 489-494: parse_price_v3_decimals *)
Definition parse_price_v3_decimals (body : Value) (mint_s : string) : option Z :=
  entry ← json_get mint_s body;
  d ← json_get "decimals" entry ≫= json_u64;
  if d <=? U8_MAX then Some d else None.

Section Client.
Context {W : Type} `{Chain W} `{Sdk}.

(* autobuy/jupiter_sell.rs 162-200: jupiter_http_json *)
Definition jupiter_http_json (post : bool) (url : string) (body : option Value) (op : string) : Io W Value :=
  resp ← ask (HttpRequest post url body);
  match resp with
  | Err e => throw (Custom ("Jupiter " +:+ op +:+ " request: " +:+ e))
  | Ok resp =>
      if negb (hr_success resp) then
        throw (Custom ("Jupiter " +:+ op +:+ " HTTP " +:+ hr_status resp +:+ ": " +:+ hr_body resp))
      else match hr_json resp with
           | Ok v => mret v
           | Err e => throw (Custom ("Jupiter " +:+ op +:+ " JSON: " +:+ e +:+ "; body=" +:+ hr_body resp))
           end
  end.

(* autobuy/jupiter_sell.rs 294-332: jupiter_fetch_quote_exact_in *)
Definition jupiter_fetch_quote_exact_in (input_mint output_mint : string) (amount_raw slippage_bps : Z)
    (opts : JupiterQuoteOpts) : Io W Value :=
  let quote_url := JUPITER_QUOTE +:+ "?inputMint=" +:+ input_mint +:+ "&outputMint=" +:+ output_mint
    +:+ "&amount=" +:+ fmt_int amount_raw +:+ "&slippageBps=" +:+ fmt_int slippage_bps
    +:+ "&swapMode=ExactIn"
    +:+ match qo_exclude_dexes opts with Some e => "&excludeDexes=" +:+ e | None => "" end
    +:+ (if qo_only_direct_routes opts then "&onlyDirectRoutes=true" else "") in
  quote ← jupiter_http_json false quote_url None "quote";
  match json_get "error" quote with
  | Some err => throw (Custom ("Jupiter quote error: " +:+ show_json err))
  | None => mret quote
  end.

(* autobuy/jupiter_sell.rs 343-411: jupiter_build_swap_v2_order_exact_in *)
Definition jupiter_build_swap_v2_order_exact_in (input_mint : string) (amount_raw slippage_bps : Z)
    (taker : string) (exclude_dexes : option string) : Io W JupiterSwapBuild :=
  let url := JUPITER_ORDER_V2 +:+ "?inputMint=" +:+ input_mint +:+ "&outputMint=" +:+ WSOL_MINT
    +:+ "&amount=" +:+ fmt_int amount_raw +:+ "&slippageBps=" +:+ fmt_int slippage_bps
    +:+ "&swapMode=ExactIn&taker=" +:+ taker
    +:+ match exclude_dexes with Some e => "&excludeDexes=" +:+ e | None => "" end in
  order ← jupiter_http_json false url None "order";
  let order_text (v : option Value) := match v with Some v => show_json v | None => "" end in
  match json_nonempty "error" order with
  | Some err => throw (Custom ("Jupiter EMPTY_ORDER: " +:+ err))
  | None =>
      match json_nonempty "transaction" order with
      | None =>
          let code := order_text (json_get "errorCode" order) in
          let msg := order_text (match json_get "errorMessage" order with
                                 | Some v => Some v | None => json_get "error" order end) in
          throw (Custom ("Jupiter EMPTY_ORDER: empty transaction (errorCode=" +:+ code +:+ ", message="
                         +:+ msg +:+ ")"))
      | Some b64 =>
          match json_nonempty "requestId" order with
          | None => throw (Custom "Jupiter order: missing requestId")
          | Some request_id =>
              mret (mkSwapBuild b64 (parse_out_amount_lamports order) (Some request_id)
                      (if exclude_dexes is Some _ then true else false))
          end
      end
  end.

(** [STANDARD.decode(..)] and [decode_jupiter_swap_transaction] *)
(* autobuy/jupiter_sell.rs 259-265: decode_jupiter_swap_transaction *)
Definition decode_swap (b64 what : string) : Io W (list Z) :=
  match base64_decode (trim b64) with
  | Err e => throw (Custom (what +:+ " base64: " +:+ e))
  | Ok bytes =>
      match decode_versioned bytes with
      | Err e => throw (Custom ("Jupiter swapTransaction decode (bincode): " +:+ e))
      | Ok message => mret message
      end
  end.

(* autobuy/jupiter_sell.rs 414-475: jupiter_execute_v2_order *)
Definition jupiter_execute_v2_order (build : JupiterSwapBuild) : Io W string :=
  match jb_v2_request_id build with
  | None => throw (Custom "Jupiter execute: missing v2 requestId")
  | Some request_id =>
      template ← decode_swap (jb_swap_transaction_b64 build) "Jupiter order tx";
      signed ← match sign_message template with
        | Err e => throw (Custom ("Jupiter order sign: VersionedTransaction::try_new: " +:+ e))
        | Ok signed => mret signed
        end;
      signed_bytes ← match serialize_versioned signed with
        | Err e => throw (Custom ("Jupiter order tx serialize: " +:+ e))
        | Ok bytes => mret bytes
        end;
      let body := VObject [("signedTransaction", VString (base64_encode signed_bytes));
                           ("requestId", VString request_id)]%string in
      resp ← jupiter_http_json true JUPITER_EXECUTE_V2 (Some body) "execute";
      let status := default "" (json_text "status" resp) in
      if String.eqb status "Success" then
        match json_text "signature" resp with
        | None => throw (Custom "Jupiter execute: missing signature")
        | Some sig_str =>
            match parse_signature sig_str with
            | Err e => throw (Custom ("Jupiter execute: bad signature: " +:+ e))
            | Ok sig => mret sig
            end
        end
      else
        let err := default "unknown" (match json_get "error" resp with
          | Some v => json_str v | None => json_text "errorMessage" resp end) in
        let code := match json_get "code" resp with Some v => show_json v | None => "?" end in
        throw (TransactionFailed ("Jupiter execute status=" +:+ status +:+ " code=" +:+ code +:+ ": " +:+ err))
  end.

(* autobuy/jupiter_sell.rs 601-627: jupiter_build_swap_exact_in_mints *)
Definition jupiter_build_swap_exact_in_mints (input_mint output_mint : string)
    (amount_raw slippage_bps : Z) (user_pubkey : string) (opts : JupiterQuoteOpts) : Io W JupiterSwapBuild :=
  quote ← jupiter_fetch_quote_exact_in input_mint output_mint amount_raw slippage_bps opts;
  let out_lamports := parse_out_amount_lamports quote in
  let body := VObject [("quoteResponse", quote); ("userPublicKey", VString user_pubkey);
                       ("wrapAndUnwrapSol", VBool true); ("dynamicComputeUnitLimit", VBool true);
                       ("prioritizationFeeLamports", VString "auto")]%string in
  swap ← jupiter_http_json true JUPITER_SWAP (Some body) "swap";
  build ← of_result (from_v1_swap_response swap out_lamports);
  mret (mkSwapBuild (jb_swap_transaction_b64 build) (jb_out_lamports build) (jb_v2_request_id build)
          (if qo_exclude_dexes opts is Some _ then true else false)).

(* autobuy/jupiter_sell.rs 630-646: jupiter_build_swap_exact_in *)
Definition jupiter_build_swap_exact_in (input_mint : string) (amount_raw slippage_bps : Z)
    (user_pubkey : string) (opts : JupiterQuoteOpts) : Io W JupiterSwapBuild :=
  jupiter_build_swap_exact_in_mints input_mint WSOL_MINT amount_raw slippage_bps user_pubkey opts.

(* autobuy/jupiter_sell.rs 649-665: jupiter_build_swap_wsol_to_mint_exact_in *)
Definition jupiter_build_swap_wsol_to_mint_exact_in (output_mint : string) (sol_lamports_in slippage_bps : Z)
    (user_pubkey : string) (opts : JupiterQuoteOpts) : Io W JupiterSwapBuild :=
  jupiter_build_swap_exact_in_mints WSOL_MINT output_mint sol_lamports_in slippage_bps user_pubkey opts.

(** *** Prices *)

(** [&s[..max]] panics inside a character *)
(* autobuy/jupiter_sell.rs 122-128: truncate_log_body *)
Definition truncate_log_body (s : string) (max : nat) : outcome string :=
  if (String.length s <=? max)%nat then Ret s
  else head ← slice_to max s; Ret (head +:+ "…").

(* autobuy/jupiter_sell.rs 35-35: JUPITER_PRICE_LOG_BODY_MAX *)
Definition JUPITER_PRICE_LOG_BODY_MAX : nat := 400.

(** the truncated texts of the log lines are computed before the error's *)
(* autobuy/jupiter_sell.rs 220-256: jupiter_fetch_price_v3 *)
Definition jupiter_fetch_price_v3 (ids : string) : Io W Value :=
  resp ← ask (HttpRequest false (JUPITER_PRICE_V3 +:+ "?ids=" +:+ ids) None);
  match resp with
  | Err e => throw (Custom ("Jupiter PRICE request: " +:+ e))
  | Ok resp =>
      if negb (hr_success resp) then
        _logged ← of_outcome (truncate_log_body (hr_body resp) JUPITER_PRICE_LOG_BODY_MAX);
        detail ← of_outcome (truncate_log_body (hr_body resp) 200);
        throw (Custom ("Jupiter PRICE HTTP " +:+ take_until is_whitespace (hr_status resp) +:+ ": " +:+ detail))
      else match hr_json resp with
           | Ok v => mret v
           | Err e =>
               _logged ← of_outcome (truncate_log_body (hr_body resp) JUPITER_PRICE_LOG_BODY_MAX);
               throw (Custom ("Jupiter PRICE JSON: " +:+ e))
           end
  end.

Definition positive_finite (x : f64) : option f64 := if f64_is_finite x && (0 <? x)%float then Some x else None.

(* autobuy/jupiter_sell.rs 497-534: jupiter_implied_mcap_sol_price_v3 *)
Definition jupiter_implied_mcap_sol_price_v3 (mint_s : string) : Io W (option f64) :=
  r ← try_io (jupiter_fetch_price_v3 (mint_s +:+ "," +:+ WSOL_MINT));
  mret match r with
  | Err _ => None
  | Ok body =>
      match parse_price_v3_usd body mint_s, parse_price_v3_usd body WSOL_MINT with
      | Some token_usd, Some sol_usd =>
          if (sol_usd <=? 0)%float then None
          else positive_finite ((token_usd / sol_usd) * PUMP_FUN_TOKEN_SUPPLY)%float
      | _, _ => None
      end
  end.

(* autobuy/jupiter_sell.rs 565-568: jupiter_token_decimals *)
Definition jupiter_token_decimals (mint_s : string) : Io W (option Z) :=
  r ← try_io (jupiter_fetch_price_v3 mint_s);
  mret match r with Ok body => parse_price_v3_decimals body mint_s | Err _ => None end.

(* autobuy/jupiter_sell.rs 537-563: jupiter_implied_mcap_sol_quote *)
Definition jupiter_implied_mcap_sol_quote (mint_s : string) : Io W (option f64) :=
  d ← jupiter_token_decimals mint_s;
  let one_token_raw := pow10_u64 (Z.min (default 6 d) 12) in
  r ← try_io (jupiter_fetch_quote_exact_in mint_s WSOL_MINT one_token_raw 300 (mkQuoteOpts None false));
  mret match r with
  | Err _ => None
  | Ok quote =>
      match json_text "outAmount" quote with
      | None => None
      | Some s =>
          match parse_u64 s with
          | Err _ => None
          | Ok out_lamports =>
              if out_lamports =? 0 then None
              else positive_finite ((f64_of_Z out_lamports / 1000000000) * PUMP_FUN_TOKEN_SUPPLY)%float
          end
      end
  end.

(* autobuy/jupiter_sell.rs 571-583: jupiter_implied_mcap_sol *)
Definition jupiter_implied_mcap_sol (mint_s : string) : Io W (option f64) :=
  r ← jupiter_implied_mcap_sol_price_v3 mint_s;
  match r with
  | Some m => mret (Some m)
  | None => jupiter_implied_mcap_sol_quote mint_s
  end.
End Client.

(** ** The routes of the broker *)

Section Routes.
Context {W : Type} `{Chain W} `{Sdk} `{Crypto}.

(** the slippage of the quotes fits in a [u16] *)
(* autobuy/pump_brocker.rs 861-866: SolanaBroker::sell_tokens_post_graduation *)
Definition quote_slippage_bps (cfg : LiveExecutionConfig) : Z := Z.min (lx_slippage_bps cfg) 5000.

(* autobuy/pump_brocker.rs 423-470: SolanaBroker::jupiter_buy_build_post_graduation *)
Definition jupiter_buy_build_post_graduation (mint_s : string) (sol_lamports slippage_bps : Z)
    : Io W (JupiterSwapBuild * bool) :=
  b ← broker;
  let wallet := show_address (sb_wallet_address b) in
  r ← try_io (jupiter_build_swap_wsol_to_mint_exact_in mint_s sol_lamports slippage_bps wallet POST_GRADUATION);
  match r with
  | Ok build => mret (build, false)
  | Err e =>
      if negb (is_jupiter_no_routes_found e) then throw e
      else
        r ← try_io (jupiter_build_swap_wsol_to_mint_exact_in mint_s sol_lamports slippage_bps wallet
                      POST_GRADUATION_ALLOW_PUMP);
        match r with
        | Ok build => mret (build, true)
        | Err e =>
            if is_jupiter_no_routes_found e then
              throw (Custom ("post_grad_no_route: " +:+ mint_s
                             +:+ " no Jupiter buy route (excluded+allow-pump NO_ROUTES)"))
            else throw e
        end
  end.

(* autobuy/pump_brocker.rs 472-495: SolanaBroker::jupiter_quote_swap_build *)
Definition jupiter_quote_swap_build (mint_s : string) (chunk_raw slippage_bps : Z) (opts : JupiterQuoteOpts)
    : Io W JupiterSwapBuild :=
  b ← broker;
  jupiter_build_swap_exact_in mint_s chunk_raw slippage_bps (show_address (sb_wallet_address b)) opts.

(* autobuy/pump_brocker.rs 497-512: SolanaBroker::jupiter_send_swap_build *)
Definition jupiter_send_swap_build (build : JupiterSwapBuild) : Io W string :=
  match jb_v2_request_id build with
  | Some _ => jupiter_execute_v2_order build
  | None =>
      template ← decode_swap (jb_swap_transaction_b64 build) "Jupiter swapTransaction";
      send_versioned_jupiter_with_retries template "SELL-JUPITER"
  end.

(* autobuy/pump_brocker.rs 515-575: SolanaBroker::jupiter_quote_swap_build_post_graduation *)
Definition jupiter_quote_swap_build_post_graduation (mint_s : string) (chunk_raw slippage_bps : Z)
    : Io W JupiterSwapBuild :=
  b ← broker;
  let wallet := show_address (sb_wallet_address b) in
  r ← try_io (jupiter_quote_swap_build mint_s chunk_raw slippage_bps POST_GRADUATION);
  match r with
  | Ok build => mret build
  | Err e =>
      if negb (is_jupiter_no_routes_found e) then throw e
      else
        r ← try_io (jupiter_build_swap_v2_order_exact_in mint_s chunk_raw slippage_bps wallet
                      (Some JUPITER_EXCLUDE_PUMP_DEXES));
        match r with
        | Ok build => mret build
        | Err _ => jupiter_quote_swap_build mint_s chunk_raw slippage_bps POST_GRADUATION_ALLOW_PUMP
        end
  end.

(* autobuy/pump_brocker.rs 578-597: SolanaBroker::jupiter_quote_swap_build_allow_pump_v1 *)
Definition jupiter_quote_swap_build_allow_pump_v1 (mint_s : string) (chunk_raw slippage_bps : Z)
    : Io W JupiterSwapBuild :=
  jupiter_quote_swap_build mint_s chunk_raw slippage_bps POST_GRADUATION_ALLOW_PUMP.

(* autobuy/pump_brocker.rs 610-642: SolanaBroker::jupiter_retry_build_after_pump_6005 *)
Definition jupiter_retry_build_after_pump_6005 (mint_s : string) (chunk_raw slippage_bps : Z)
    (had_exclude_on_first_quote : bool) : Io W JupiterSwapBuild :=
  let allow_pump := jupiter_quote_swap_build mint_s chunk_raw slippage_bps POST_GRADUATION_ALLOW_PUMP_DIRECT in
  if had_exclude_on_first_quote then
    r ← try_io (jupiter_quote_swap_build mint_s chunk_raw slippage_bps POST_GRADUATION_DIRECT_ONLY);
    match r with Ok build => mret build | Err _ => allow_pump end
  else allow_pump.

(** closing the account after the last chunk, when it is empty: what it adds
    to the SOL received, and the last signature *)
(* autobuy/pump_brocker.rs 798-823: SolanaBroker::jupiter_sell_chunk_once *)
Definition close_after_jupiter (ata_sol : Address) (mint_token : MintTokenKind)
    (sol_actual : f64) (last_sig : string) : Io W (f64 * string) :=
  r ← try_io (fetch_token_account_raw ata_sol);
  match r with
  | Ok 0 =>
      b ← broker;
      let wallet := sb_wallet_address b in
      let ixs := compute_budget_prelude (sb_exec_cfg b) ++ [close_account_ix mint_token ata_sol wallet wallet] in
      r ← try_io (send_with_retries ixs "CLOSE-ATA");
      match r with
      | Ok cs =>
          close_delta ← wallet_net_sol_or_fallback cs 0%float;
          mret ((sol_actual + close_delta)%float, cs)
      | Err _ => mret (sol_actual, last_sig)
      end
  | _ => mret (sol_actual, last_sig)
  end.

(* autobuy/pump_brocker.rs 716-834: SolanaBroker::jupiter_sell_chunk_once *)
Definition jupiter_sell_chunk_once (m ata_sol : Address) (pre_sell_raw chunk_raw : Z) (close_ata_after : bool)
    (slip : f64) (mint_token : MintTokenKind) (slippage_bps : Z) (allow_pump_v1_only : bool)
    : Io W SellReceipt :=
  let mint_s := show_address m in
  build ← (if allow_pump_v1_only then jupiter_quote_swap_build_allow_pump_v1 mint_s chunk_raw slippage_bps
           else jupiter_quote_swap_build_post_graduation mint_s chunk_raw slippage_bps);
  r ← try_io (jupiter_send_swap_build build);
  sent ← match r with
    | Ok sig => mret (sig, build)
    | Err (TransactionFailed msg as e) =>
        if is_bonding_curve_complete_pump_error msg then
          build ← jupiter_retry_build_after_pump_6005 mint_s chunk_raw slippage_bps
                    (jb_used_exclude_pump_dexes build);
          sig ← jupiter_send_swap_build build;
          mret (sig, build)
        else throw e
    | Err e => throw e
    end;
  let '(sig, build) := (sent : string * JupiterSwapBuild) in
  poll_ata_confirms_sell ata_sol pre_sell_raw chunk_raw false m 90000;;
  let sol_gross := (f64_of_Z (jb_out_lamports build) / 1000000000)%float in
  let sol_estimated := f64_max (sol_gross * (1 - slip))%float 0%float in
  sol_actual ← wallet_net_sol_or_fallback sig sol_estimated;
  closed ← (if close_ata_after then close_after_jupiter ata_sol mint_token sol_actual sig
            else mret (sol_actual, sig));
  let '(sol_actual, last_sig) := (closed : f64 * string) in
  set_broker (fun b => b <| sb_balance := (sb_balance b + sol_actual)%float |>);;
  mret (mkSellReceipt sol_actual sol_estimated (Some last_sig)).

(** the slippage steps left *)
(* autobuy/pump_brocker.rs 664-713: SolanaBroker::jupiter_sell_chunk *)
Fixpoint slippage_attempts (once : Z -> bool -> Io W SellReceipt) (steps : list Z) (max_slip : Z)
    : Io W SellReceipt :=
  match steps with
  | [] => once max_slip true
  | slip_bps :: steps' =>
      r ← try_io (once slip_bps false);
      match r with
      | Ok receipt => mret receipt
      | Err e => if is_jupiter_slippage e then slippage_attempts once steps' max_slip else throw e
      end
  end.

(* autobuy/pump_brocker.rs 645-714: SolanaBroker::jupiter_sell_chunk *)
Definition jupiter_sell_chunk (m ata_sol : Address) (pre_sell_raw chunk_raw : Z) (close_ata_after : bool)
    (slip : f64) (mint_token : MintTokenKind) (slippage_bps : Z) : Io W SellReceipt :=
  if chunk_raw =? 0 then throw (Custom (show_address m +:+ ": Jupiter chunk amount is zero"))
  else
    let slip_steps := jupiter_slippage_steps slippage_bps in
    slippage_attempts
      (jupiter_sell_chunk_once m ata_sol pre_sell_raw chunk_raw close_ata_after slip mint_token)
      slip_steps (default slippage_bps (last slip_steps)).

(** what the chunks of one attempt have brought, and the balance before the next *)
Record ChunkTotals := mkChunkTotals {
  jt_actual : f64; jt_est : f64; jt_last_sig : option string; jt_pre_raw : Z }.

(* autobuy/pump_brocker.rs 886-917: SolanaBroker::sell_tokens_post_graduation *)
Fixpoint sell_chunks (chunk : Z -> Z -> bool -> Io W SellReceipt) (chunks : list Z) (do_close_ata : bool)
    (t : ChunkTotals) : Io W (ChunkTotals * option BrokerError) :=
  match chunks with
  | [] => mret (t, None)
  | chunk_raw :: chunks' =>
      let close_ata := do_close_ata && (match chunks' with [] => true | _ => false end) in
      r ← try_io (chunk (jt_pre_raw t) chunk_raw close_ata);
      match r with
      | Ok receipt =>
          sell_chunks chunk chunks' do_close_ata
            (mkChunkTotals (jt_actual t + sr_sol_received_actual receipt)%float
               (jt_est t + sr_sol_received_estimated receipt)%float
               (match sr_signature receipt with Some sig => Some sig | None => jt_last_sig t end)
               (sat_sub (jt_pre_raw t) chunk_raw))
      | Err e => mret (t, Some e)
      end
  end.

(** the attempts left: in one chunk, then in four *)
(* autobuy/pump_brocker.rs 871-942: SolanaBroker::sell_tokens_post_graduation *)
Fixpoint sell_in_parts (chunk : Z -> Z -> bool -> Io W SellReceipt) (parts : list Z) (mint_s : string)
    (pre_sell_raw sold_raw : Z) (do_close_ata : bool) (last_err : option BrokerError) : Io W SellReceipt :=
  match parts with
  | [] =>
      let detail := match last_err with Some e => error_to_string show_address e | None => "unknown" end in
      throw (JupiterSellExhausted (mint_s +:+
        ": Jupiter sell exhausted after exclude→v2→v1-allow-pump, slippage retries, and 4-way split (raw="
        +:+ fmt_int sold_raw +:+ "): " +:+ detail))
  | p :: parts' =>
      r ← sell_chunks chunk (jupiter_chunk_amounts sold_raw p) do_close_ata
            (mkChunkTotals 0%float 0%float None pre_sell_raw);
      let '(t, failed) := (r : ChunkTotals * option BrokerError) in
      match failed with
      | None => mret (mkSellReceipt (jt_actual t) (jt_est t) (jt_last_sig t))
      | Some e => sell_in_parts chunk parts' mint_s pre_sell_raw sold_raw do_close_ata (Some e)
      end
  end.

(* autobuy/pump_brocker.rs 850-943: SolanaBroker::sell_tokens_post_graduation *)
Definition sell_tokens_post_graduation (m ata_sol : Address) (pre_sell_raw sold_raw : Z)
    (do_close_ata : bool) (slip : f64) (mint_token : MintTokenKind) : Io W SellReceipt :=
  b ← broker;
  let slippage_bps := quote_slippage_bps (sb_exec_cfg b) in
  sell_in_parts
    (fun pre_raw chunk_raw close_ata =>
       jupiter_sell_chunk m ata_sol pre_raw chunk_raw close_ata slip mint_token slippage_bps)
    [1; 4] (show_address m) pre_sell_raw sold_raw do_close_ata None.

(* autobuy/pump_brocker.rs 312-415: SolanaBroker::buy_tokens_post_graduation *)
Definition buy_tokens_post_graduation (m : Address) (amount_sol : f64) (mint_token : MintTokenKind)
    : Io W BuyReceipt :=
  b ← broker;
  let sol_lamports := f64_as_u64 (f64_round (amount_sol * 1000000000)%float) in
  if sol_lamports =? 0 then throw (Custom "Jupiter BUY: amount_sol rounds to 0 lamports")
  else
    ata_a ← derive_ata_address (sb_wallet_address b) m (token_program_of mint_token);
    pre_raw ← raw_or_zero ata_a;
    let mint_s := show_address m in
    built ← jupiter_buy_build_post_graduation mint_s sol_lamports (quote_slippage_bps (sb_exec_cfg b));
    let '(build, used_fallback) := (built : JupiterSwapBuild * bool) in
    template ← decode_swap (jb_swap_transaction_b64 build) "Jupiter swapTransaction";
    r ← try_io (send_versioned_jupiter_with_retries template "BUY-JUPITER");
    sig ← match r with
      | Ok sig => mret sig
      | Err (TransactionFailed msg as e) =>
          if is_bonding_curve_complete_pump_error msg then
            throw (Custom ("post_grad_no_route: " +:+ mint_s +:+ " BUY route hit bonding curve 6005 (fallback="
                           +:+ (if used_fallback then "true" else "false") +:+ ")"))
          else throw e
      | Err e => throw e
      end;
    set_broker (fun b => b <| sb_balance := (sb_balance b - amount_sol)%float |>);;
    r ← try_io (poll_token_balance_increase ata_a pre_raw 15000);
    tokens ← match r with
      | Ok (post_raw, decimals) =>
          mret (f64_of_Z (sat_sub post_raw pre_raw) / f64_of_Z (pow10_u64 decimals))%float
      | Err _ =>
          r ← try_io (fetch_token_account_raw_with_decimals ata_a);
          let scale := match r with Ok (_, decimals) => f64_of_Z (10 ^ decimals) | Err _ => 1000000%float end in
          mret (f64_max (f64_of_Z (jb_out_lamports build) / scale)%float 0%float)
      end;
    mret (mkBuyReceipt amount_sol tokens (Some sig) None).
End Routes.
