(* ===== verification/Hoare.v ===== *)
(** A small program logic for the broker's monad: total correctness of a
    computation of [Onchain.Io], rules for its operations and loops, and the
    specifications of the waits, polls and sends. *)
From S2P Require Import Prelude Text Amounts Pump Positions Brokers Curve Instructions Onchain Jupiter.

Section Logic.
Context {W : Type} `{Chain W} `{!ChainLaws W}.
Implicit Types (s : Live W).

(** [m] ends from [s], and its result and final state are in [Q]; a panic is
    allowed only if [C] *)
Definition wp {A} (C : Prop) (m : Io W A) s (Q : result A BrokerError -> Live W -> Prop) : Prop :=
  match m s with
  | Done r s' => Q r s'
  | Crash _ => C
  | Hang => False
  end.

Definition now s : Z := chain_now (lv_world s).

(** ** Rules *)

Lemma wp_mono {A} C (m : Io W A) s (Q Q' : result A BrokerError -> Live W -> Prop) :
  wp C m s Q -> (forall r s', Q r s' -> Q' r s') -> wp C m s Q'.
Proof. unfold wp. destruct (m s); auto. Qed.

Lemma wp_bind {A B} C (m : Io W A) (f : A -> Io W B) s Q :
  wp C m s (fun r s' => match r with Ok a => wp C (f a) s' Q | Err e => Q (Err e) s' end) ->
  wp C (m ≫= f) s Q.
Proof. unfold wp, mbind, Io_bind. by destruct (m s) as [[a|e] s'|p|]. Qed.

Lemma wp_ret {A} C (a : A) s Q : Q (Ok a) s -> wp C (mret a : Io W A) s Q.
Proof. done. Qed.

Lemma wp_throw {A} C e s Q : Q (Err e) s -> wp C (throw e : Io W A) s Q.
Proof. done. Qed.

Lemma wp_try {A} C (m : Io W A) s Q : wp C m s (fun r s' => Q (Ok r) s') -> wp C (try_io m) s Q.
Proof. unfold wp, try_io. by destruct (m s). Qed.

Lemma wp_result {A} C (r : result A BrokerError) s Q : Q r s -> wp C (of_result r) s Q.
Proof. by destruct r. Qed.

Lemma wp_outcome {A} (C : Prop) (o : outcome A) s Q :
  (forall a, o = Ret a -> Q (Ok a) s) -> (forall p, o = Panic p -> C) -> wp C (of_outcome o) s Q.
Proof. unfold wp, of_outcome. destruct o; eauto. Qed.

Lemma wp_broker C s Q : Q (Ok (lv_broker s)) s -> wp C (broker : Io W _) s Q.
Proof. done. Qed.

Lemma wp_set_broker C f s Q :
  Q (Ok tt) (mkLive (f (lv_broker s)) (lv_world s) (lv_trace s)) -> wp C (set_broker f) s Q.
Proof. done. Qed.

Lemma wp_clock C s Q : Q (Ok (now s)) s -> wp C clock s Q.
Proof. done. Qed.

Lemma wp_elapsed C started s Q : Q (Ok (now s - started)) s -> wp C (elapsed started) s Q.
Proof. done. Qed.

(** a loop that leaves before its fuel, by a measure *)
Lemma wp_loop {S A} C fuel (body : S -> Io W (S + A)) st s
    (I : S -> Live W -> Prop) (mu : S -> Live W -> Z) (Q : result A BrokerError -> Live W -> Prop) :
  I st s -> mu st s < Z.of_nat fuel ->
  (forall st' s', I st' s' -> 0 <= mu st' s') ->
  (forall st1 s1, I st1 s1 ->
     wp C (body st1) s1 (fun r s' => match r with
       | Ok (inl st') => I st' s' /\ mu st' s' < mu st1 s1
       | Ok (inr a) => Q (Ok a) s'
       | Err e => Q (Err e) s' end)) ->
  wp C (loop fuel body st) s Q.
Proof.
  intros HI HF HP HB. revert st s HI HF. induction fuel as [|fuel IH]; intros st s HI HF.
  { specialize (HP st s HI). lia. }
  cbn [loop]. apply wp_bind. eapply wp_mono; [by apply HB|]. cbv beta.
  intros [[st'|a]|e] s' R; [|by apply wp_ret|done].
  destruct R as [HI' HD]. apply IH; [done|lia].
Qed.

(** ** Reading *)

(** A transaction leaves the broker by a broadcast, or in a signed order that
    Jupiter executes. *)
Inductive Submission := Broadcast (tx : Tx) | Executed (body : option Value).

Definition submitted (q : Query) : option Submission :=
  match q with
  | SendTransaction tx _ => Some (Broadcast tx)
  | HttpRequest true url body => if String.eqb url JUPITER_EXECUTE_V2 then Some (Executed body) else None
  | _ => None
  end.
Definition submission (e : TraceEvent) : option Submission := match e with Asked q _ => submitted q end.

(** the broker is as it was, time has not gone back, and nothing was sent *)
Record quiet s s' : Prop := {
  quiet_broker : lv_broker s' = lv_broker s;
  quiet_time : now s <= now s';
  quiet_trace : exists es, lv_trace s' = lv_trace s ++ es /\ omap submission es = []
}.

#[export] Instance quiet_preorder : PreOrder quiet.
Proof.
  split.
  - intros s. split; [done|lia|]. exists []. by rewrite app_nil_r.
  - intros s1 s2 s3 [B1 T1 (es1 & E1 & N1)] [B2 T2 (es2 & E2 & N2)].
    split; [congruence|lia|]. exists (es1 ++ es2).
    by rewrite E2, E1, app_assoc, omap_app, N1, N2.
Qed.

Lemma quiet_sleep ms s : 0 <= ms ->
  let s' := mkLive (lv_broker s) (chain_sleep ms (lv_world s)) (lv_trace s) in
  quiet s s' /\ now s + ms <= now s'.
Proof.
  intros M s'. pose proof (sleep_lasts ms (lv_world s) M) as L. unfold now. cbn. split; [|done].
  split; [done|unfold now; cbn; lia|]. exists []. by rewrite app_nil_r.
Qed.

Lemma wp_sleep C ms s (Q : result unit BrokerError -> Live W -> Prop) :
  0 <= ms ->
  (forall s', quiet s s' -> now s + ms <= now s' -> Q (Ok tt) s') -> wp C (sleep_ms ms) s Q.
Proof. intros M K. unfold wp, sleep_ms. destruct (quiet_sleep ms s M) as [Q1 Q2]. by apply K. Qed.

Lemma wp_ask C q s (Q : result (Reply q) BrokerError -> Live W -> Prop) :
  (forall r s', lv_broker s' = lv_broker s -> now s <= now s' ->
     lv_trace s' = lv_trace s ++ [Asked q r] -> Q (Ok r) s') -> wp C (ask q) s Q.
Proof.
  intros K. unfold wp, ask. pose proof (answer_lasts q (lv_world s)) as L.
  destruct (chain_answer q (lv_world s)) as [r w]. by apply K.
Qed.

Definition is_send (q : Query) : bool := if submitted q is Some _ then true else false.

Lemma wp_ask_quiet C q s (Q : result (Reply q) BrokerError -> Live W -> Prop) :
  is_send q = false ->
  (forall r s', quiet s s' -> lv_trace s' = lv_trace s ++ [Asked q r] -> Q (Ok r) s') -> wp C (ask q) s Q.
Proof.
  intros N K. apply wp_ask. intros r s' B T E. apply K; [|done].
  split; [done|done|]. exists [Asked q r]. split; [done|].
  unfold is_send in N. cbn. by destruct (submitted q).
Qed.

(** [m] only reads: whatever it answers, it is quiet *)
Definition reads {A} (C : Prop) (m : Io W A) : Prop :=
  forall s (Q : result A BrokerError -> Live W -> Prop), (forall r s', quiet s s' -> Q r s') -> wp C m s Q.

Lemma reads_bind {A B} C (m : Io W A) (f : A -> Io W B) :
  reads C m -> (forall a, reads C (f a)) -> reads C (m ≫= f).
Proof.
  intros M F s Q K. apply wp_bind, M. intros [a|e] s' Q1; [|by apply K].
  apply F. intros r s'' Q2. apply K. by transitivity s'.
Qed.
Lemma reads_try {A} C (m : Io W A) : reads C m -> reads C (try_io m).
Proof. intros M s Q K. apply wp_try, M. intros r s' Q1. by apply K. Qed.
Lemma reads_ret {A} C (a : A) : reads C (mret a).
Proof. intros s Q K. apply wp_ret. by apply K. Qed.
Lemma reads_throw {A} C e : reads C (throw e : Io W A).
Proof. intros s Q K. apply wp_throw. by apply K. Qed.
Lemma reads_result {A} C (r : result A BrokerError) : reads C (of_result r).
Proof. destruct r; [apply reads_ret | apply reads_throw]. Qed.
Lemma reads_outcome {A} (C : Prop) (o : outcome A) : (forall p, o = Panic p -> C) -> reads C (of_outcome o).
Proof. intros P s Q K. apply wp_outcome; [|done]. intros a _. by apply K. Qed.
Lemma reads_ask C q : is_send q = false -> reads C (ask q).
Proof. intros N s Q K. apply wp_ask_quiet; [done|]. intros r s' Q1 _. by apply K. Qed.
Lemma reads_clock C : reads C clock.
Proof. intros s Q K. apply wp_clock. by apply K. Qed.
Lemma reads_elapsed C started : reads C (elapsed started).
Proof. intros s Q K. apply wp_elapsed. by apply K. Qed.
Lemma reads_broker C : reads C (broker : Io W _).
Proof. intros s Q K. apply wp_broker. by apply K. Qed.
Lemma reads_sleep C ms : 0 <= ms -> reads C (sleep_ms ms).
Proof. intros M s Q K. apply wp_sleep; [done|]. intros s' Q1 _. by apply K. Qed.

(** ** Polling loops *)

(** the turns left of a loop that sleeps [delay] between its turns *)
Definition polls_left (timeout delay e : Z) : Z := Z.max 0 ((timeout - e + delay - 1) / delay).

Lemma polls_left_next timeout delay e e' :
  0 < delay -> e < timeout -> e + delay <= e' -> polls_left timeout delay e' < polls_left timeout delay e.
Proof.
  intros D L N. unfold polls_left.
  assert (1 <= (timeout - e + delay - 1) / delay) by (apply Z.div_le_lower_bound; lia).
  assert ((timeout - e' + delay - 1) / delay + 1 <= (timeout - e + delay - 1) / delay); [|lia].
  rewrite <- (Z.div_add _ 1) by lia. apply Z.div_le_mono; lia.
Qed.

Lemma polls_left_start timeout delay :
  0 < delay -> 0 <= timeout -> polls_left timeout delay 0 < Z.of_nat (poll_fuel timeout delay).
Proof.
  intros D T. unfold polls_left, poll_fuel. pose proof (Z.div_pos timeout delay T D).
  assert ((timeout - 0 + delay - 1) / delay <= timeout / delay + 1); [|lia].
  rewrite <- (Z.div_add timeout 1) by lia. apply Z.div_le_mono; lia.
Qed.

(** a turn only reads, and goes on only before the timeout and after a delay *)
Definition polls {S A} (C : Prop) (timeout delay started : Z) (body : S -> Io W (S + A)) : Prop :=
  forall st s, wp C (body st) s (fun r s' => quiet s s' /\
    match r with
    | Ok (inl _) => now s - started < timeout /\ now s + delay <= now s'
    | _ => True
    end).

(** such a loop leaves before its fuel, by a turn of its body *)
Lemma wp_poll_loop {S A} C timeout delay (body : S -> Io W (S + A)) st s Q :
  0 < delay -> 0 <= timeout -> polls C timeout delay (now s) body ->
  (forall st1 s1 r s2, quiet s s1 -> quiet s1 s2 -> body st1 s1 = Done r s2 ->
     match r with Ok (inl _) => True | Ok (inr a) => Q (Ok a) s2 | Err e => Q (Err e) s2 end) ->
  wp C (loop (poll_fuel timeout delay) body st) s Q.
Proof.
  intros D T P K.
  apply wp_loop with (I := fun _ s1 => quiet s s1) (mu := fun _ s1 => polls_left timeout delay (now s1 - now s)).
  - reflexivity.
  - replace (now s - now s) with 0 by lia. by apply polls_left_start.
  - intros _ s1 _. unfold polls_left. lia.
  - intros st1 s1 Q1. specialize (P st1 s1). specialize (K st1 s1). unfold wp in *.
    destruct (body st1 s1) as [r s2|p|] eqn:E; [|done|done]. destruct P as [Q2 P].
    specialize (K r s2 Q1 Q2 eq_refl). destruct r as [[st2|a]|e]; [|done|done].
    split; [by transitivity s1|]. apply polls_left_next; [done|lia|lia].
Qed.

Lemma reads_poll_loop {S A} C timeout delay (body : S -> Z -> Io W (S + A)) st :
  0 < delay -> 0 <= timeout -> (forall started, polls C timeout delay started (fun st' => body st' started)) ->
  reads C (started ← clock; loop (poll_fuel timeout delay) (fun st' => body st' started) st).
Proof.
  intros D T P s Q K. apply wp_bind, wp_clock. apply wp_poll_loop; [done|done|apply P|].
  intros st1 s1 r s2 Q1 Q2 _. assert (quiet s s2) by by transitivity s1. destruct r as [[?|a]|e]; auto.
Qed.
End Logic.

(** ** The questions a computation asks *)

Section Asks.
Context {W : Type} `{Chain W}.
Implicit Types (s : Live W).

Definition question (e : TraceEvent) : Query := match e with Asked q _ => q end.

(** when [m] ends, its new events are questions of [K] *)
Definition asks {A} (K : Query -> bool) (m : Io W A) : Prop :=
  forall s, match m s with
    | Done _ s' => exists es, lv_trace s' = lv_trace s ++ es /\ Forall (fun e => K (question e) = true) es
    | _ => True
    end.

Lemma asks_silent {A} K (m : Io W A) :
  (forall s, match m s with Done _ s' => lv_trace s' = lv_trace s | _ => True end) -> asks K m.
Proof.
  intros S s. specialize (S s). destruct (m s) as [r s'|p|]; [|done|done].
  exists []. by rewrite app_nil_r.
Qed.

Lemma asks_bind {A B} K (m : Io W A) (f : A -> Io W B) :
  asks K m -> (forall a, asks K (f a)) -> asks K (m ≫= f).
Proof.
  intros M F s. unfold mbind, Io_bind. specialize (M s). destruct (m s) as [[a|e] s1|p|]; [|exact M|done|done].
  destruct M as (es1 & E1 & K1). specialize (F a s1). destruct (f a s1) as [r s2|p|]; [|done|done].
  destruct F as (es2 & E2 & K2). exists (es1 ++ es2). split; [by rewrite E2, E1, app_assoc|by apply Forall_app].
Qed.

Lemma asks_try {A} K (m : Io W A) : asks K m -> asks K (try_io m).
Proof. intros M s. specialize (M s). unfold try_io. by destruct (m s). Qed.

Lemma asks_ask (K : Query -> bool) q : K q = true -> asks K (ask q).
Proof.
  intros Kq s. unfold ask. destruct (chain_answer q (lv_world s)) as [r w].
  exists [Asked q r]. split; [done|]. by repeat constructor.
Qed.

Lemma asks_loop {S A} K fuel (body : S -> Io W (S + A)) st :
  (forall st', asks K (body st')) -> asks K (loop fuel body st).
Proof.
  intros B. revert st. induction fuel as [|fuel IH]; intros st; [done|].
  cbn [loop]. apply asks_bind; [apply B|]. intros [st'|a]; [apply IH|by apply asks_silent].
Qed.
End Asks.

Ltac asks_auto :=
  cbv zeta; repeat first
    [ progress (intros; cbv zeta)
    | match goal with |- asks ?K (ask ?q) => exact (asks_ask K q eq_refl) end
    | match goal with
      | |- asks _ (mret _) => by apply asks_silent
      | |- asks _ (throw _) => by apply asks_silent
      | |- asks _ clock => by apply asks_silent
      | |- asks _ (sleep_ms _) => by apply asks_silent
      | |- asks _ broker => by apply asks_silent
      | |- asks _ (loop _ _ _) => apply asks_loop
      | |- asks _ (_ ≫= _) => apply asks_bind
      | |- asks _ (try_io _) => apply asks_try
      end
    | match goal with |- asks _ (match ?x with _ => _ end) => destruct x end ].

Create HintDb io.
#[export] Hint Resolve reads_ret reads_throw reads_result reads_clock reads_elapsed reads_broker : io.
#[export] Hint Resolve reads_try reads_sleep : io.
#[export] Hint Extern 1 (reads ?C (ask ?q)) => exact (reads_ask C q eq_refl) : io.

(** splits a computation that reads into its steps *)
Ltac reads_auto :=
  cbv zeta; repeat first
    [ progress (intros; cbv zeta)
    | match goal with |- reads _ (_ ≫= _) => apply reads_bind end
    | solve [eauto with io]
    | match goal with |- reads _ (match ?x with _ => _ end) => destruct x end ].

(** the node is asked something that sends nothing *)
Ltac ask_quiet :=
  match goal with |- wp ?C (ask ?q) ?s ?Q => refine (wp_ask_quiet C q s Q eq_refl _) end.

(** ** The operations of [Onchain] *)

Section Operations.
Context {W : Type} `{Chain W} `{!ChainLaws W} `{Sdk} `{Crypto}.
Implicit Types (s : Live W).

Lemma reads_mint_token_kind C m : reads C (fetch_mint_token_kind m : Io W _).
Proof. unfold fetch_mint_token_kind. reads_auto. Qed.

Lemma reads_raw_with_decimals C a : reads C (fetch_token_account_raw_with_decimals a : Io W _).
Proof. unfold fetch_token_account_raw_with_decimals. reads_auto. Qed.

Lemma reads_raw C a : reads C (fetch_token_account_raw a : Io W _).
Proof. apply reads_bind; [apply reads_raw_with_decimals|]. reads_auto. Qed.

Lemma reads_raw_or_zero C a : reads C (raw_or_zero a : Io W _).
Proof. apply reads_bind; [apply reads_try, reads_raw|]. reads_auto. Qed.

Lemma reads_net_sol_once C sig w : reads C (try_wallet_net_sol_once sig w : Io W _).
Proof. unfold try_wallet_net_sol_once. reads_auto. Qed.

Lemma reads_net_sol_attempts C n e sig w : reads C (wallet_net_sol_attempts n e sig w : Io W _).
Proof.
  revert e. induction n as [|n IH]; intros e; cbn [wallet_net_sol_attempts]; [apply reads_throw|].
  apply reads_bind; [apply reads_try, reads_net_sol_once|]. intros [v|e']; [apply reads_ret|].
  apply reads_bind; [|intros _; apply IH]. destruct (0 <? n)%nat; [|apply reads_ret].
  apply reads_sleep. unfold META_FETCH_DELAY_MS. lia.
Qed.

Lemma reads_net_sol_or_fallback C sig f : reads C (wallet_net_sol_or_fallback sig f : Io W _).
Proof.
  unfold wallet_net_sol_or_fallback. apply reads_bind; [apply reads_broker|]. intros b.
  apply reads_bind; [apply reads_try, reads_net_sol_attempts|]. reads_auto.
Qed.

Lemma polls_throw {S A} C timeout delay started s0 e s :
  quiet s0 s ->
  wp C (throw e : Io W (S + A)) s (fun r s' => quiet s0 s' /\ match r with
    | Ok (inl _) => now s0 - started < timeout /\ now s0 + delay <= now s' | _ => True end).
Proof. intros Q0. by apply wp_throw. Qed.

Lemma polls_leave {S A} C timeout delay started s0 (a : A) s :
  quiet s0 s ->
  wp C (mret (inr a) : Io W (S + A)) s (fun r s' => quiet s0 s' /\ match r with
    | Ok (inl _) => now s0 - started < timeout /\ now s0 + delay <= now s' | _ => True end).
Proof. intros Q0. by apply wp_ret. Qed.

Lemma polls_again {S A} C timeout delay d started s0 (st : S) s :
  0 <= delay <= d -> quiet s0 s -> now s - started < timeout ->
  wp C (sleep_ms d;; mret (inl st) : Io W (S + A)) s
    (fun r s' => quiet s0 s' /\ match r with
       | Ok (inl _) => now s0 - started < timeout /\ now s0 + delay <= now s' | _ => True end).
Proof.
  intros D Q0 T. apply wp_bind, wp_sleep; [lia|]. intros s' Q1 T1. apply wp_ret.
  pose proof (quiet_time _ _ Q0). split; [by transitivity s|]. split; lia.
Qed.

Lemma polls_late {S A} C timeout delay started s0 e (st : S) s :
  0 <= delay -> quiet s0 s ->
  wp C (t ← elapsed started; if timeout <=? t then throw e else sleep_ms delay;; mret (inl st) : Io W (S + A)) s
    (fun r s' => quiet s0 s' /\ match r with
       | Ok (inl _) => now s0 - started < timeout /\ now s0 + delay <= now s' | _ => True end).
Proof.
  intros D Q0. apply wp_bind, wp_elapsed. cbv beta iota.
  destruct (Z.leb_spec timeout (now s - started)); [by apply polls_throw|by apply polls_again].
Qed.

Lemma visible_polls C a label timeout min_polls delay started :
  0 <= delay -> polls C timeout delay started (visible_poll a label timeout min_polls delay started : _ -> Io W _).
Proof.
  intros D attempts s. unfold visible_poll. cbv zeta. apply wp_bind; ask_quiet.
  intros resp s1 Q1 _.
  assert (forall e1 e2 : Z -> BrokerError,
    wp C (e ← elapsed started;
          if (timeout <=? e) && (min_polls <=? attempts + 1) then throw (e1 e)
          else if timeout <=? e then throw (e2 e)
          else sleep_ms delay;; mret (inl (attempts + 1)) : Io W (Z + unit)) s1
      (fun r s' => quiet s s' /\ match r with
         | Ok (inl _) => now s - started < timeout /\ now s + delay <= now s' | _ => True end)) as Late.
  { intros e1 e2. apply wp_bind, wp_elapsed. cbv beta iota.
    destruct (Z.leb_spec timeout (now s1 - started)); cbn [andb].
    - destruct (min_polls <=? attempts + 1); by apply polls_throw.
    - by apply polls_again. }
  destruct resp as [[acc|]|msg]; [by apply polls_leave|apply Late|].
  destruct (_ && _); [by apply polls_throw|apply Late].
Qed.

Lemma signature_polls C sig label started :
  polls C TX_TIMEOUT_MS POLL_FAST_MS started (signature_poll sig label started : _ -> Io W _).
Proof.
  intros [] s. unfold signature_poll. apply wp_bind; ask_quiet. intros resp s1 Q1 _.
  destruct resp as [status|e]; [|by apply polls_throw].
  assert (forall e1, wp C (e ← elapsed started;
      if TX_TIMEOUT_MS <=? e then throw e1
      else e' ← elapsed started;
           sleep_ms (if e' <? 3000 then POLL_FAST_MS else POLL_SLOW_MS);; mret (inl tt) : Io W (unit + unit)) s1
      (fun r s' => quiet s s' /\ match r with
         | Ok (inl _) => now s - started < TX_TIMEOUT_MS /\ now s + POLL_FAST_MS <= now s' | _ => True end)) as Late.
  { intros e1. apply wp_bind, wp_elapsed. cbv beta iota.
    destruct (Z.leb_spec TX_TIMEOUT_MS (now s1 - started)); [by apply polls_throw|].
    apply wp_bind, wp_elapsed. cbv beta iota. apply polls_again; [|done|done].
    by destruct (_ <? _). }
  destruct status as [st|]; [|apply Late].
  destruct (st_err st); [by apply polls_throw|]. destruct (st_status_err st); [by apply polls_throw|].
  destruct (st_confirmed st); [by apply polls_leave|]. destruct (st_processed st); [by apply polls_leave|].
  apply Late.
Qed.

Lemma increase_polls C a pre timeout started :
  polls C timeout 400 started (increase_poll a pre timeout started : _ -> Io W _).
Proof.
  intros [[attempts seen] err] s. unfold increase_poll. cbv zeta. apply wp_bind, wp_try.
  apply reads_raw_with_decimals. intros r s1 Q1. cbv beta iota.
  destruct r as [[raw decimals]|e].
  - destruct (pre <? raw); [by apply polls_leave|]. destruct (raw =? pre); by apply polls_late.
  - destruct seen as [[raw decimals]|]; [|by apply polls_late]. destruct (raw =? pre); by apply polls_late.
Qed.

Lemma sell_polls C a pre sold closed m timeout started :
  polls C timeout 400 started (sell_poll a pre sold closed m timeout started : _ -> Io W _).
Proof.
  intros attempts s. unfold sell_poll. cbv zeta. destruct closed.
  - apply wp_bind. ask_quiet. intros resp s1 Q1 _.
    destruct resp as [[acc|]|msg]; [by apply polls_late|by apply polls_leave|by apply polls_late].
  - apply wp_bind, wp_try, reads_raw_with_decimals. intros r s1 Q1. cbv beta iota.
    destruct r as [[post decimals]|e]; [|by apply polls_late].
    destruct (min_drop sold <=? sat_sub pre post); [by apply polls_leave|by apply polls_late].
Qed.

Lemma reads_visible C a label timeout min_polls delay :
  0 < delay -> 0 <= timeout -> reads C (wait_for_account_visible a label timeout min_polls delay : Io W _).
Proof.
  intros D T. unfold wait_for_account_visible.
  apply (reads_poll_loop C timeout delay (fun st started => visible_poll a label timeout min_polls delay started st)).
  - done.
  - done.
  - intros started. apply visible_polls. lia.
Qed.

Lemma reads_increase C a pre timeout :
  0 <= timeout -> reads C (poll_token_balance_increase a pre timeout : Io W _).
Proof.
  intros T. unfold poll_token_balance_increase.
  apply (reads_poll_loop C timeout 400 (fun st started => increase_poll a pre timeout started st)).
  - lia.
  - done.
  - intros started. apply increase_polls.
Qed.

Lemma reads_sell_poll C a pre sold closed m timeout :
  0 <= timeout -> reads C (poll_ata_confirms_sell a pre sold closed m timeout : Io W _).
Proof.
  intros T. unfold poll_ata_confirms_sell.
  apply (reads_poll_loop C timeout 400 (fun st started => sell_poll a pre sold closed m timeout started st)).
  - lia.
  - done.
  - intros started. apply sell_polls.
Qed.

Lemma reads_signature C sig label : reads C (wait_until_signature_confirmed_ok sig label : Io W _).
Proof.
  unfold wait_until_signature_confirmed_ok.
  apply (reads_poll_loop C TX_TIMEOUT_MS POLL_FAST_MS (fun st started => signature_poll sig label started st));
    [done|done|]. intros started. apply signature_polls.
Qed.

(** ** A signature that is waited for with success was seen on the chain *)

Definition landed (sig : string) (e : TraceEvent) : Prop :=
  exists st, e = Asked (GetSignatureStatus sig) (Ok (Some st)) /\
    st_err st = None /\ st_status_err st = None /\ (st_confirmed st || st_processed st) = true.

Lemma signature_poll_landed sig label started s u s' :
  signature_poll sig label started tt s = Done (Ok (inr u)) s' ->
  exists e, lv_trace s' = lv_trace s ++ [e] /\ landed sig e.
Proof.
  unfold signature_poll, ask, mbind, Io_bind. cbn beta iota.
  destruct (chain_answer (GetSignatureStatus sig) (lv_world s)) as [r w].
  set (s1 := mkLive (lv_broker s) w (lv_trace s ++ [Asked (GetSignatureStatus sig) r])).
  assert (forall e1 : BrokerError, (match elapsed started s1 with
      | Done (Ok e) s2 => (if TX_TIMEOUT_MS <=? e then throw e1
           else e' ← elapsed started;
                sleep_ms (if e' <? 3000 then POLL_FAST_MS else POLL_SLOW_MS);; mret (inl tt)) s2
      | Done (Err e) s2 => Done (Err e) s2 | Crash p => Crash p | Hang => Hang end)
      <> Done (Ok (inr u)) s') as Again.
  { intros e1. unfold elapsed, mbind, Io_bind. cbn. by destruct (_ <=? _). }
  intros E.
  destruct r as [[st|]|e]; [|by apply Again in E|done].
  destruct (st_err st) as [?|] eqn:E1; [done|]. destruct (st_status_err st) as [?|] eqn:E2; [done|].
  destruct (st_confirmed st) eqn:E3; [|destruct (st_processed st) eqn:E4; [|by apply Again in E]].
  all: injection E as _ <-; eexists; split; [done|]; exists st; split; [done|].
  all: rewrite E3, ?E4; done.
Qed.

Lemma wait_landed C sig label s (Q : result unit BrokerError -> Live W -> Prop) :
  (forall r s', quiet s s' ->
     (forall u, r = Ok u -> exists es, lv_trace s' = lv_trace s ++ es /\ Exists (landed sig) es) -> Q r s') ->
  wp C (wait_until_signature_confirmed_ok sig label) s Q.
Proof.
  intros K. unfold wait_until_signature_confirmed_ok. apply wp_bind, wp_clock.
  apply wp_poll_loop; [done|done|apply signature_polls|].
  intros [] s1 r s2 Q1 Q2 E. assert (quiet s s2) as Q3 by by transitivity s1.
  destruct r as [[[]|u]|e]; [done| |by apply K].
  apply K; [done|]. intros u' _. apply signature_poll_landed in E as (e & E & L).
  destruct (quiet_trace _ _ Q1) as (es & E1 & _). exists (es ++ [e]). split.
  - by rewrite E, E1, app_assoc.
  - apply Exists_app. right. by constructor.
Qed.

(** ** Sending *)

Definition accepted_as (e : TraceEvent) : option string :=
  match e with
  | Asked q r =>
      match q return Reply q -> option string with
      | SendTransaction _ _ => fun r => match r with Ok sig => Some sig | Err _ => None end
      | _ => fun _ => None
      end r
  end.

(** what a call that sends does to the state: the broker is as it was, every
    transaction submitted is one of [K], at most [mx] are, and the node
    accepts those with the signatures [acc] *)
Record sends (K : Submission -> Prop) (mx : Z) s s' (acc : list string) (es : list TraceEvent) : Prop := {
  sends_broker : lv_broker s' = lv_broker s;
  sends_time : now s <= now s';
  sends_trace : lv_trace s' = lv_trace s ++ es;
  sends_txs : Forall K (omap submission es);
  sends_count : Z.of_nat (length (omap submission es)) <= mx;
  sends_accepted : omap accepted_as es = acc
}.

Lemma unsent_unaccepted es : omap submission es = [] -> omap accepted_as es = [].
Proof.
  induction es as [|[q r] es IH]; [done|]. cbn. destruct q as [|tx skip| | | | | |[] url body]; cbn; auto; [done|].
  by destruct (String.eqb url JUPITER_EXECUTE_V2).
Qed.

Lemma sends_none K s : sends K 0 s s [] [].
Proof. split; cbn; try done. by rewrite app_nil_r. Qed.

Lemma sends_quiet K mx s s1 s2 acc es :
  sends K mx s s1 acc es -> quiet s1 s2 ->
  exists es', sends K mx s s2 acc (es ++ es') /\ lv_trace s2 = lv_trace s1 ++ es'.
Proof.
  intros [B T E F N A] [B' T' (es' & E' & N')]. exists es'. split; [|done]. split.
  - congruence.
  - lia.
  - by rewrite E', E, app_assoc.
  - by rewrite omap_app, N', app_nil_r.
  - by rewrite omap_app, N', app_nil_r.
  - by rewrite omap_app, (unsent_unaccepted es'), app_nil_r by done.
Qed.

Lemma sends_one (K : Submission -> Prop) mx s s1 s2 es tx skip (r : Reply (SendTransaction tx skip)) :
  sends K mx s s1 [] es -> K (Broadcast tx) -> lv_broker s2 = lv_broker s1 -> now s1 <= now s2 ->
  lv_trace s2 = lv_trace s1 ++ [Asked (SendTransaction tx skip) r] ->
  sends K (mx + 1) s s2 (match r with Ok sig => [sig] | Err _ => [] end) (es ++ [Asked (SendTransaction tx skip) r]).
Proof.
  intros [B T E F N A] Kt B' T' E'. split.
  - congruence.
  - lia.
  - by rewrite E', E, app_assoc.
  - rewrite omap_app. apply Forall_app. split; [done|]. by repeat constructor.
  - rewrite omap_app, length_app. cbn. lia.
  - rewrite omap_app, A. cbn. by destruct r.
Qed.

Lemma sends_weaken K mx mx' s s' acc es : sends K mx s s' acc es -> mx <= mx' -> sends K mx' s s' acc es.
Proof. intros [] L. split; try done. lia. Qed.

(** the promise of both retry loops: at most one transaction is accepted, none
    is submitted after it, and on success it has landed *)
Definition sent_once (K : Submission -> Prop) (mx : Z) s (r : result string BrokerError) s' : Prop :=
  exists acc es, sends K mx s s' acc es /\ (length acc <= 1)%nat /\
    (forall sig, r = Ok sig -> acc = [sig] /\ Exists (landed sig) es).

(** a loop over attempts, none of which is accepted before the last *)
Lemma sent_once_loop C (K : Submission -> Prop) mx (body : Z -> Io W (Z + string)) s :
  0 < mx ->
  (forall n s1 es, 0 <= n < mx -> sends K n s s1 [] es ->
     wp C (body n) s1 (fun r s2 => match r with
       | Ok (inl n') => n' = n + 1 /\ n' < mx /\ exists es', sends K n' s s2 [] es'
       | Ok (inr sig) => sent_once K mx s (Ok sig) s2
       | Err e => sent_once K mx s (Err e) s2
       end)) ->
  wp C (loop (Z.to_nat mx) body 0) s (sent_once K mx s).
Proof.
  intros M B. apply wp_loop with
    (I := fun n s1 => 0 <= n < mx /\ exists es, sends K n s s1 [] es) (mu := fun n _ => mx - 1 - n).
  - split; [lia|]. exists []. apply sends_none.
  - lia.
  - intros n _ [L _]. lia.
  - intros n s1 [L [es S1]]. eapply wp_mono; [by apply (B n s1 es)|]. cbv beta.
    intros [[n'|sig]|e] s2 R; [|done|done]. destruct R as (-> & L' & R). split; [split; [lia|done]|lia].
Qed.

Definition attempt_post (K : Submission -> Prop) (mx n : Z) s (r : result (Z + string) BrokerError) s' : Prop :=
  match r with
  | Ok (inl n') => n' = n + 1 /\ n' < mx /\ exists es', sends K n' s s' [] es'
  | Ok (inr sig) => sent_once K mx s (Ok sig) s'
  | Err e => sent_once K mx s (Err e) s'
  end.

Lemma attempt_fails K mx n s s1 s2 e es :
  n <= mx -> sends K n s s1 [] es -> quiet s1 s2 -> attempt_post K mx n s (Err e) s2.
Proof.
  intros L S1 Q1. destruct (sends_quiet _ _ _ _ _ _ _ S1 Q1) as (es' & S2 & _).
  exists [], (es ++ es'). split; [by eapply sends_weaken|]. by split; [cbn; lia|].
Qed.

Lemma attempt_again K mx n s s1 s2 es :
  n + 1 < mx -> sends K (n + 1) s s1 [] es -> quiet s1 s2 -> attempt_post K mx n s (Ok (inl (n + 1))) s2.
Proof.
  intros L S1 Q1. destruct (sends_quiet _ _ _ _ _ _ _ S1 Q1) as (es' & S2 & _).
  split; [done|]. split; [lia|]. by eexists.
Qed.

(** submitting, and waiting when the node accepts *)
Lemma attempt_tail C K mx n s s1 es tx skip label (error : string -> BrokerError) (delay : string -> Z) :
  0 <= n < mx -> sends K n s s1 [] es -> K (Broadcast tx) -> (forall msg, 0 <= delay msg) ->
  wp C (sent ← ask (SendTransaction tx skip);
        match sent with
        | Ok sig => wait_until_signature_confirmed_ok sig label;; mret (inr sig)
        | Err msg => if mx <=? n + 1 then throw (error msg) else sleep_ms (delay msg);; mret (inl (n + 1))
        end : Io W (Z + string)) s1 (attempt_post K mx n s).
Proof.
  intros L S1 Kt D. apply wp_bind. refine (wp_ask C (SendTransaction tx skip) s1 _ _).
  intros r s2 B T E. pose proof (sends_one _ _ _ _ _ _ _ _ r S1 Kt B T E) as S2. destruct r as [sig|msg].
  - apply wp_bind, wait_landed. intros r s3 Q3 HL.
    destruct (sends_quiet _ _ _ _ _ _ _ S2 Q3) as (es' & S3 & E3). apply (sends_weaken _ _ mx) in S3; [|lia].
    destruct r as [[]|e]; [apply wp_ret|]; eexists _, _; (split; [exact S3|]); (split; [done|]).
    + intros sig' [= <-]. split; [done|]. destruct (HL tt eq_refl) as (es2 & E2 & X).
      rewrite E3 in E2. apply app_inv_head in E2 as ->. apply Exists_app. by right.
    + done.
  - destruct (Z.leb_spec mx (n + 1)).
    + apply wp_throw. exists [], (es ++ [Asked (SendTransaction tx skip) (Err msg)]).
      split; [eapply sends_weaken; [exact S2|lia]|]. by split; [cbn; lia|].
    + apply wp_bind, wp_sleep; [done|]. intros s3 Q3 _. apply wp_ret. by eapply attempt_again.
Qed.

Lemma backoff_nonneg n : 0 <= n -> 0 <= backoff_ms n.
Proof.
  intros N. unfold backoff_ms, sat_mul, sat_sub, U64_MAX. rewrite Z.shiftl_mul_pow2 by lia.
  pose proof (Z.pow_nonneg 2 (Z.min (Z.max 0 (n - 1)) 4)). lia.
Qed.

Lemma propagation_backoff_nonneg n : 0 <= n -> 0 <= propagation_backoff_ms n.
Proof. intros N. unfold propagation_backoff_ms, sat_mul, U64_MAX. lia. Qed.

Definition signed_legacy (ixs : list RawInstruction) (x : Submission) : Prop :=
  exists bh, x = Broadcast (LegacyTx ixs bh).
Definition signed_versioned (template : list Z) (x : Submission) : Prop :=
  exists bh signed, sign_message (set_recent_blockhash bh template) = Ok signed /\
    x = Broadcast (VersionedTx signed).

Lemma effective_retries_pos cfg : 6 <= effective_retries cfg.
Proof. unfold effective_retries. lia. Qed.

Lemma wp_send_with_retries C ixs label s :
  wp C (send_with_retries ixs label) s
    (sent_once (signed_legacy ixs) (effective_retries (sb_exec_cfg (lv_broker s))) s).
Proof.
  unfold send_with_retries. apply wp_bind, wp_broker. cbv beta iota zeta.
  set (cfg := sb_exec_cfg (lv_broker s)). pose proof (effective_retries_pos cfg) as M.
  apply sent_once_loop; [lia|]. intros n s1 es L S1. change (wp C (send_attempt cfg ixs label n) s1
    (attempt_post (signed_legacy ixs) (effective_retries cfg) n s)).
  unfold send_attempt. cbv zeta. apply wp_bind. ask_quiet. intros [bh|e] s2 Q2 _.
  - destruct (sends_quiet _ _ _ _ _ _ _ S1 Q2) as (es' & S2 & _).
    apply (attempt_tail C _ _ _ _ _ _ _ _ _ TransactionFailed (fun msg =>
      if is_account_propagation_error msg then propagation_backoff_ms (n + 1) else backoff_ms (n + 1)) L S2).
    + by eexists.
    + intros msg. destruct (is_account_propagation_error msg);
        [apply propagation_backoff_nonneg|apply backoff_nonneg]; lia.
  - destruct (Z.leb_spec (effective_retries cfg) (n + 1)).
    + apply wp_throw. eapply attempt_fails; [|done|done]. lia.
    + apply wp_bind, wp_sleep; [apply backoff_nonneg; lia|]. intros s3 Q3 _. apply wp_ret.
      eapply attempt_again; [lia|eapply sends_weaken; [exact S1|lia]|by transitivity s2].
Qed.

Lemma wp_send_versioned C template label s :
  wp C (send_versioned_jupiter_with_retries template label) s
    (sent_once (signed_versioned template) (effective_retries (sb_exec_cfg (lv_broker s))) s).
Proof.
  unfold send_versioned_jupiter_with_retries. apply wp_bind, wp_broker. cbv beta iota zeta.
  set (cfg := sb_exec_cfg (lv_broker s)). set (K := signed_versioned template).
  pose proof (effective_retries_pos cfg) as M. apply sent_once_loop; [lia|]. intros n s1 es L S1.
  change (wp C (versioned_attempt cfg template label n) s1 (attempt_post K (effective_retries cfg) n s)).
  unfold versioned_attempt. cbv zeta. apply wp_bind. ask_quiet. intros [bh|e] s2 Q2 _.
  - destruct (sign_message (set_recent_blockhash bh template)) as [signed|e] eqn:E.
    + destruct (sends_quiet _ _ _ _ _ _ _ S1 Q2) as (es' & S2 & _).
      apply (attempt_tail C _ _ _ _ _ _ _ _ _ TransactionFailed (fun _ => backoff_ms (n + 1)) L S2).
      * by exists bh, signed.
      * intros _. apply backoff_nonneg. lia.
    + apply wp_throw. eapply attempt_fails; [|done|done]. lia.
  - apply wp_throw. eapply attempt_fails; [|done|done]. lia.
Qed.
(** sending asks for blockhashes, submits and asks for the status of signatures *)
Definition sending (q : Query) : bool :=
  match q with GetLatestBlockhash | SendTransaction _ _ | GetSignatureStatus _ => true | _ => false end.

Lemma asks_wait sig label : asks sending (wait_until_signature_confirmed_ok sig label : Io W _).
Proof. unfold wait_until_signature_confirmed_ok, signature_poll, elapsed. asks_auto. Qed.

Lemma asks_send_with_retries ixs label : asks sending (send_with_retries ixs label : Io W _).
Proof.
  unfold send_with_retries, send_attempt. asks_auto. apply asks_wait.
Qed.

Lemma asks_send_versioned template label :
  asks sending (send_versioned_jupiter_with_retries template label : Io W _).
Proof.
  unfold send_versioned_jupiter_with_retries, versioned_attempt. asks_auto. apply asks_wait.
Qed.

Lemma wp_asks {A} C K (m : Io W A) s Q :
  asks K m -> wp C m s Q ->
  wp C m s (fun r s' => Q r s' /\
    exists es, lv_trace s' = lv_trace s ++ es /\ Forall (fun e => K (question e) = true) es).
Proof. intros M. specialize (M s). unfold wp. by destruct (m s). Qed.
End Operations.
