(* ===== verification/LiveBroker.v ===== *)
(** The live broker, [SolanaBroker] of [src/src/autobuy/pump_brocker.rs]: buying
    and selling on the bonding curve with the fall-back to Jupiter, draining an
    account after a clamped exit, the bookkeeping of observed trades; and the
    implementation of the [Broker] interface the position manager uses. *)
From S2P Require Import Prelude Text Amounts Pump Positions Brokers Curve Instructions Onchain Jupiter Hoare.

(** [f64::MIN_POSITIVE] *)
Definition F64_MIN_POSITIVE : f64 := 0x1p-1022%float.

Section LiveBroker.
Context {W P : Type} `{Chain W} `{!Pool P} `{Sdk} `{Crypto}.

(** ** Parts shared by the handlers *)

(** [pool.price().amount().to_float()] *)
Definition pool_price_sol (pool : P) : outcome f64 :=
  c ← price pool; Ret (amount_to_float (currency_amount c)).

(** [pool.creators()[0]] *)
Definition first_creator (pool : P) : outcome Address :=
  match creators pool with c :: _ => Ret c | [] => Panic OutOfBounds end.

Definition slippage_fraction (cfg : LiveExecutionConfig) : f64 :=
  (f64_of_Z (lx_slippage_bps cfg) / 10000)%float.

(* autobuy/pump_brocker.rs 1598-1598: SolanaBroker::sell *)
Definition after_slip (expected_sol slip : f64) : f64 := f64_max (expected_sol * (1 - slip))%float 0%float.

(** the pump [Sell] of [raw] units at any price *)
(* autobuy/pump_brocker.rs 1677-1690: SolanaBroker::sell *)
Definition sell_ix (m wallet creator : Address) (mint_token : MintTokenKind) (raw : Z) (cashback : bool)
    : Io W RawInstruction :=
  ix ← of_outcome (pump_sell m wallet creator (token_program_of mint_token) raw
                     (sips_from_float NATIVE_SOL_PRECISION 0%float) cashback);
  mret (into_solana ix).

(** a failed transaction whose error is the end of the curve *)
Definition curve_complete_error (e : BrokerError) : bool :=
  match e with TransactionFailed msg => is_bonding_curve_complete_pump_error msg | _ => false end.

(** ** Buying *)

(* autobuy/pump_brocker.rs 1230-1430: SolanaBroker::buy *)
Definition live_buy (m : Address) (amount_sol : f64) (pool : P) : Io W BuyReceipt :=
  b ← broker;
  let wallet := sb_wallet_address b in
  let cfg := sb_exec_cfg b in
  if (sb_balance b <? amount_sol)%float then throw (InsufficientBalance (sb_balance b) amount_sol)
  else
    wait_for_account_visible m "BUY mint" 3500 3 300;;
    mint_token ← fetch_mint_token_kind m;
    curve ← try_io (read_curve_state m);
    if (match curve with Ok c => bc_curve_complete c | Err _ => false end) then
      buy_tokens_post_graduation m amount_sol mint_token
    else
      price ← of_outcome (pool_price_sol pool);
      let price_sol_per_token := f64_max price F64_MIN_POSITIVE in
      let expected_tokens := (amount_sol / price_sol_per_token)%float in
      let min_token_out_f := (expected_tokens * f64_max (1 - slippage_fraction cfg) 0)%float in
      let sol_amount_in := sips_from_float NATIVE_SOL_PRECISION amount_sol in
      let min_token_out := sips_from_float PUMP_SPL_PRECISION (f64_max min_token_out_f 0%float) in
      let program := token_program_of mint_token in
      create_ata_ix ← of_outcome (create_idempotent m wallet wallet program);
      ata_a ← derive_ata_address wallet m program;
      pre_raw ← raw_or_zero ata_a;
      creator ← try_io (fetch_bonding_curve_creator m);
      creator_for_vault ← match creator with Ok c => mret c | Err _ => of_outcome (first_creator pool) end;
      ix ← of_outcome (pump_buy_exact_in m wallet creator_for_vault program sol_amount_in min_token_out);
      let ixs := compute_budget_prelude cfg ++ [into_solana create_ata_ix; into_solana ix] in
      r ← try_io (send_with_retries ixs "BUY");
      match r with
      | Err e => if curve_complete_error e then buy_tokens_post_graduation m amount_sol mint_token else throw e
      | Ok sig =>
          set_broker (fun b => b <| sb_balance := (sb_balance b - amount_sol)%float |>);;
          r ← try_io (poll_token_balance_increase ata_a pre_raw 15000);
          let tokens := match r with
            | Ok (post_raw, decimals) =>
                (f64_of_Z (sat_sub post_raw pre_raw) / f64_of_Z (pow10_u64 decimals))%float
            | Err _ => min_token_out_f
            end in
          curve ← try_io (read_curve_state m);
          let fill := match curve with
            | Ok c => if (0 <? bonding_curve_mcap_sol c)%float then Some (bonding_curve_mcap_sol c) else None
            | Err _ => None
            end in
          mret (mkBuyReceipt amount_sol tokens (Some sig) fill)
      end.

(** ** Selling *)

(** SOL received and estimated so far, and the last signature *)
Record DrainTotals := mkDrainTotals { dt_actual : f64; dt_est : f64; dt_last_sig : string }.

(* autobuy/pump_brocker.rs 1052-1056: SolanaBroker::drain_pump_ata_after_clamped_full_exit *)
Definition add_receipt (t : DrainTotals) (r : SellReceipt) : DrainTotals :=
  mkDrainTotals (dt_actual t + sr_sol_received_actual r)%float (dt_est t + sr_sol_received_estimated r)%float
    (default (dt_last_sig t) (sr_signature r)).

(* autobuy/pump_brocker.rs 1065-1084: SolanaBroker::drain_pump_ata_after_clamped_full_exit *)
Definition clamp_leg (pre_raw : Z) (c : BondingCurveState) : Z * bool :=
  let '(clamped, over) := clamp_sell pre_raw (Some c) in (clamped, over && (clamped <? pre_raw)).

(** One leg; [inr] leaves the loop.  The curve was read: the branches of the
    source for an unread curve are dead. *)
(* autobuy/pump_brocker.rs 1012-1190: SolanaBroker::drain_pump_ata_after_clamped_full_exit *)
Definition drain_leg (m ata_a : Address) (mint_token : MintTokenKind) (slip : f64) (leg : Z) (t : DrainTotals)
    : Io W (DrainTotals + DrainTotals) :=
  pre_raw ← raw_or_zero ata_a;
  if pre_raw =? 0 then mret (inr t)
  else
    curve ← try_io (read_curve_state m);
    match curve with
    | Err _ => mret (inr t)
    | Ok c =>
        if bc_curve_complete c then
          jup ← sell_tokens_post_graduation m ata_a pre_raw pre_raw true slip mint_token;
          mret (inr (add_receipt t jup))
        else
          let '(token_amount_raw, leg_clamped) := clamp_leg pre_raw c in
          if token_amount_raw =? 0 then mret (inr t)
          else
            let expected_sol := (f64_of_Z (pump_sol_out_for_tokens token_amount_raw c) / 1000000000)%float in
            let expected := after_slip expected_sol slip in
            b ← broker;
            ix ← sell_ix m (sb_wallet_address b) (bc_creator c) mint_token token_amount_raw (bc_is_cashback_coin c);
            r ← try_io (send_with_retries (compute_budget_prelude (sb_exec_cfg b) ++ [ix])
                          ("SELL-DRAIN-" +:+ fmt_int leg));
            match r with
            | Err e =>
                if curve_complete_error e then
                  jup ← sell_tokens_post_graduation m ata_a pre_raw pre_raw true slip mint_token;
                  mret (inr (add_receipt t jup))
                else throw e
            | Ok sig =>
                poll_ata_confirms_sell ata_a pre_raw token_amount_raw false m 45000;;
                leg_actual ← wallet_net_sol_or_fallback sig expected;
                let t := mkDrainTotals (dt_actual t + leg_actual)%float (dt_est t + expected)%float sig in
                if negb leg_clamped && (sat_sub pre_raw (sell_raw_delta_slack pre_raw) <=? token_amount_raw) then
                  after ← raw_or_zero ata_a;
                  mret (if (0 <? after) && (after <=? 1000) then inr t else inl t)
                else mret (inl t)
            end
    end.

(* autobuy/pump_brocker.rs 1011-1011: SolanaBroker::drain_pump_ata_after_clamped_full_exit *)
Definition MAX_DRAIN_LEGS : Z := 50.

(* autobuy/pump_brocker.rs 998-1225: SolanaBroker::drain_pump_ata_after_clamped_full_exit *)
Definition drain_pump_ata_after_clamped_full_exit (m ata_a : Address) (mint_token : MintTokenKind)
    (slip : f64) (first_confirmed_sig : string) : Io W DrainTotals :=
  t ← for_each (seqZ 0 MAX_DRAIN_LEGS) (drain_leg m ata_a mint_token slip)
        (mkDrainTotals 0%float 0%float first_confirmed_sig);
  rem ← raw_or_zero ata_a;
  if rem =? 0 then
    b ← broker;
    let wallet := sb_wallet_address b in
    let ixs := compute_budget_prelude (sb_exec_cfg b) ++ [close_account_ix mint_token ata_a wallet wallet] in
    csig ← send_with_retries ixs "SELL-CLOSE-ATA";
    poll_ata_confirms_sell ata_a 0 1 true m 30000;;
    close_actual ← wallet_net_sol_or_fallback csig 0%float;
    mret (mkDrainTotals (dt_actual t + close_actual)%float (dt_est t) csig)
  else mret t.

(** the amount a sell starts from: [Curve.resolve_sell_amount] on the balance
    that was read *)
(* autobuy/pump_brocker.rs 1449-1508: SolanaBroker::sell *)
Definition sell_amount (m ata_a : Address) (token_amount : f64) (close_account_after : bool) : Io W f64 :=
  chain ← (if close_account_after then
             r ← try_io (fetch_token_account_raw_with_decimals ata_a);
             mret match r with Ok v => Ok v | Err _ => Err tt end
           else mret (Err tt));
  b ← broker;
  match resolve_sell_amount close_account_after chain token_amount (lp_tokens <$> sb_positions b !! m) with
  | Ok amount => mret amount
  | Err text => throw (Custom text)
  end.

(** selling the planned amount on the curve, closing the account with it *)
(* autobuy/pump_brocker.rs 1660-1793: SolanaBroker::sell *)
Definition sell_on_curve (m ata_a : Address) (mint_token : MintTokenKind) (slip : f64)
    (creator_for_vault : Address) (cashback_enabled close_account_after : bool) (plan : SellPlan)
    : Io W SellReceipt :=
  b ← broker;
  let wallet := sb_wallet_address b in
  let raw := plan_raw plan in
  let needs_sell_ix := 0 <? raw in
  sells ← (if needs_sell_ix then
             ix ← sell_ix m wallet creator_for_vault mint_token raw cashback_enabled; mret [ix]
           else mret []);
  let ixs := compute_budget_prelude (sb_exec_cfg b) ++ sells
    ++ (if plan_close_ata plan then [close_account_ix mint_token ata_a wallet wallet] else []) in
  if (match ixs with [] => true | _ => false end) || (negb needs_sell_ix && negb (plan_close_ata plan)) then
    throw (Custom (show_address m +:+ ": nothing to send (no tokens to sell after clamp and no close requested)"))
  else
    pre_sell_raw ← raw_or_zero ata_a;
    r ← try_io (send_with_retries ixs "SELL");
    match r with
    | Err e =>
        if curve_complete_error e then
          if (raw =? 0) || negb needs_sell_ix then throw e
          else sell_tokens_post_graduation m ata_a pre_sell_raw raw (plan_close_ata plan) slip mint_token
        else throw e
    | Ok sig =>
        poll_ata_confirms_sell ata_a pre_sell_raw raw (plan_close_ata plan) m 45000;;
        let est_first := after_slip (plan_expected_sol plan) slip in
        act_first ← wallet_net_sol_or_fallback sig est_first;
        if close_account_after && plan_clamped plan then
          d ← drain_pump_ata_after_clamped_full_exit m ata_a mint_token slip sig;
          mret (mkSellReceipt (act_first + dt_actual d)%float (est_first + dt_est d)%float (Some (dt_last_sig d)))
        else mret (mkSellReceipt act_first est_first (Some sig))
    end.

(* autobuy/pump_brocker.rs 1432-1793: SolanaBroker::sell *)
Definition live_sell (m : Address) (token_amount : f64) (pool : P) (close_account_after : bool)
    : Io W SellReceipt :=
  mint_token ← fetch_mint_token_kind m;
  b ← broker;
  ata_a ← derive_ata_address (sb_wallet_address b) m (token_program_of mint_token);
  actual_token_amount ← sell_amount m ata_a token_amount close_account_after;
  let slip := slippage_fraction (sb_exec_cfg b) in
  r ← try_io (read_curve_state m);
  let curve_state_opt := match r with Ok c => Some c | Err _ => None end in
  creator_for_vault ← match curve_state_opt with
    | Some c => mret (bc_creator c)
    | None => of_outcome (first_creator pool)
    end;
  pool_price ← match curve_state_opt with
    | Some _ => mret 0%float
    | None => of_outcome (pool_price_sol pool)
    end;
  let plan := sell_plan actual_token_amount close_account_after curve_state_opt pool_price in
  if plan_jupiter plan then
    pre_raw ← raw_or_zero ata_a;
    sell_tokens_post_graduation m ata_a pre_raw (plan_raw plan) (plan_close_ata plan) slip mint_token
  else
    sell_on_curve m ata_a mint_token slip creator_for_vault
      (default false (bc_is_cashback_coin <$> curve_state_opt)) close_account_after plan.

(** ** Balance and positions *)

(** [n] attempts are left after this one *)
(* autobuy/pump_brocker.rs 1949-1981: fetch_balance_sol_with_retry *)
Fixpoint balance_attempts (n : nat) (attempt : Z) (wallet : Address)
    (transient_exhausted_placeholder : option f64) : Io W f64 :=
  r ← try_io (fetch_balance_sol wallet);
  match r with
  | Ok v => mret v
  | Err e =>
      let msg := error_to_string show_address e in
      if negb (is_transient_rpc_error msg) then throw e
      else match n with
           | O => match transient_exhausted_placeholder with Some f => mret f | None => throw e end
           | S n' =>
               sleep_ms (backoff_balance_ms attempt msg);;
               balance_attempts n' (attempt + 1) wallet transient_exhausted_placeholder
           end
  end.

Definition balance_with_retry (wallet : Address) (placeholder : option f64) : Io W f64 :=
  let max_attempts := match placeholder with Some _ => 8 | None => 24 end in
  balance_attempts (Z.to_nat (max_attempts - 1)) 1 wallet placeholder.

(* autobuy/pump_brocker.rs 78-108: SolanaBroker::new *)
Definition solana_broker_new (wallet : Address) (cfg : LiveExecutionConfig)
    (balance_init_placeholder_sol : f64) : Io W SolanaBroker :=
  initial ← balance_with_retry wallet (Some balance_init_placeholder_sol);
  mret (mkSolanaBroker wallet cfg initial ∅).

(* autobuy/pump_brocker.rs 1799-1810: SolanaBroker::refresh_onchain_balance *)
Definition live_refresh : Io W unit :=
  b ← broker;
  onchain ← balance_with_retry (sb_wallet_address b) None;
  set_broker (fun b => b <| sb_balance := onchain |>).

(* autobuy/pump_brocker.rs 1814-1867: SolanaBroker::on_trade *)
Definition live_on_trade (trade : TradeAction) (pool : P) (b : SolanaBroker) : outcome SolanaBroker :=
  if negb (bool_decide (trade_trader trade = sb_wallet_address b)) then Ret b
  else
    let m := trade_mint trade in
    match trade with
    | TradeBuy buy =>
        entry_mcap ← pool_mcap_sol pool;
        let tokens_received := amount_to_float (gb_bought buy) in
        let pos := default (mkLivePosition 0%float entry_mcap) (sb_positions b !! m) in
        let pos := mkLivePosition (lp_tokens pos + tokens_received)%float (lp_entry_mcap pos) in
        Ret (b <| sb_positions := <[m := pos]> (sb_positions b) |> <| sb_balance := (sb_balance b + 0)%float |>)
    | TradeSell sell =>
        let received_sol := amount_to_float (currency_amount (gs_received sell)) in
        let b := b <| sb_balance := (sb_balance b + received_sol)%float |> in
        let tokens_sold := amount_to_float (gs_sold sell) in
        match sb_positions b !! m with
        | None => Ret b
        | Some pos =>
            let tokens := (lp_tokens pos - tokens_sold)%float in
            Ret (b <| sb_positions :=
              if (tokens <=? 0)%float then delete m (sb_positions b)
              else <[m := mkLivePosition tokens (lp_entry_mcap pos)]> (sb_positions b) |>)
        end
    end.

(* autobuy/pump_brocker.rs 1869-1871: SolanaBroker::forget_position *)
Definition live_forget (m : Address) (b : SolanaBroker) : SolanaBroker :=
  b <| sb_positions := delete m (sb_positions b) |>.
End LiveBroker.

(** ** The interface of the manager *)

(** A call of the broker as the manager sees it.  [Hang] does not occur, which
    the theorems of [LiveRuns] show. *)
Definition run_live {W A} (io : Io W A) (s : Live W) : outcome (result A BrokerError * Live W) :=
  match io s with
  | Done r s' => Ret (r, s')
  | Crash p => Panic p
  | Hang => Panic NotImplemented
  end.

Definition on_broker {W} (b : SolanaBroker) (s : Live W) : Live W := mkLive b (lv_world s) (lv_trace s).

(* autobuy/pump_brocker.rs 1228-1876: Broker for SolanaBroker *)
#[export] Instance SolanaBroker_broker {W P : Type} `{!Chain W} `{!Pool P} `{!Sdk} `{!Crypto} : Broker (Live W) P := {
  broker_buy m amount pool := run_live (live_buy m amount pool);
  broker_sell m amount pool close := run_live (live_sell m amount pool close);
  broker_balance_sol s := Ok (sb_balance (lv_broker s));
  broker_refresh s := match live_refresh s with
    | Done r s' => (r, s') | _ => (Err (Custom EmptyString), s) end;
  broker_on_trade trade pool s :=
    b ← live_on_trade trade pool (lv_broker s); Ret (on_broker b s);
  broker_forget_position m s := on_broker (live_forget m (lv_broker s)) s;
  broker_mode_label _ := "live"
}.
