(* ===== verification/Node.v ===== *)
(** A node, a Jupiter and a key pair to run the live broker against: concrete
    instances of [Chain], [Sdk] and [Crypto], on which the broker's definitions
    evaluate.  The node holds one token account and one curve; it accepts every
    transaction, and a sale on the curve lowers the account by what it sells. *)
From S2P Require Import Prelude Text Amounts Pump Positions Brokers Curve Instructions Onchain Jupiter Hoare LiveBroker.

(** [nd_lags]: the reads of the token balance fail *)
Record Node := mkNode {
  nd_now : Z;
  nd_tokens : Z;
  nd_lamports : Z;
  nd_curve : BondingCurveState;
  nd_lags : bool;
  nd_sent : Z
}.
#[export] Instance Node_settable : Settable Node :=
  fun n => mkNode (nd_now n) (nd_tokens n) (nd_lamports n) (nd_curve n) (nd_lags n) (nd_sent n).

Fixpoint text_hash (s : string) : N :=
  match s with
  | EmptyString => 0
  | String c s' => (Ascii.N_of_ascii c + 257 * text_hash s') mod 2305843009213693951
  end%N.
Definition list_hash (bs : list Z) : Z := fold_right (fun b h => (b + 257 * h) mod 2305843009213693951) 0 bs.

#[export] Instance node_crypto : Crypto := {|
  decode_32_const := text_hash;
  sha256 bs := le_to_bytes 32 (list_hash bs);
  edwards_point _ := false
|}.

Definition SPL_OWNER : string := "TokenkegQfeZyiNwAJbNbGKPFXCWuBvf9Ss623VQ5DA".
Definition node_show (a : Address) : string :=
  if N.eqb a SPL_TOKEN_PROGRAM then SPL_OWNER else if N.ltb a 1000 then pretty a else "derived".

#[export] Instance node_sdk : Sdk := {|
  show_address := node_show;
  show_duration ms := fmt_int ms;
  show_json _ := "{}";
  base64_decode s := Ok (bytes_of_string s);
  base64_encode _ := "";
  decode_versioned bs := Ok bs;
  set_recent_blockhash _ m := m;
  sign_message m := Ok m;
  serialize_versioned bs := Ok bs;
  parse_signature s := Ok s
|}.

Definition DEMO_MINT : Address := 1%N.
Definition DEMO_CURVE : Address :=
  Eval vm_compute in match bounding_curve DEMO_MINT with Ret a => a | Panic _ => 0%N end.

(** what the pump sales among the instructions sell *)
Definition sold_on_curve (ixs : list RawInstruction) : Z :=
  foldr (fun ix t => if N.eqb (raw_program ix) PUMP_PROGRAM && (length (raw_data ix) =? 24)%nat
                     then read_u64 (raw_data ix) 8 + t else t) 0 ixs.

Definition node_send (tx : Tx) (n : Node) : Node :=
  let n := n <| nd_sent := nd_sent n + 1 |> in
  match tx with
  | LegacyTx ixs _ => n <| nd_tokens := nd_tokens n - sold_on_curve ixs |>
  | VersionedTx _ => n
  end.

Definition node_account (n : Node) (a : Address) : option Account :=
  if N.eqb a DEMO_MINT then Some (mkAccount SPL_TOKEN_PROGRAM [])
  else if N.eqb a DEMO_CURVE then Some (mkAccount PUMP_PROGRAM (encode_curve (repeat 0 8) (nd_curve n) 0 false []))
  else if nd_tokens n =? 0 then None
  else Some (mkAccount SPL_TOKEN_PROGRAM []).

(** Jupiter: a quote for an amount gives as many lamports; the transaction of a
    swap is the text of the amount *)
Definition node_http (url : string) (body : option Value) : HttpResponse :=
  let v := match body with
    | None =>
        let amount := take_until (fun c => N.eqb (Ascii.N_of_ascii c) 38) (default "" (str_after "&amount=" url)) in
        VObject [("outAmount", VString amount)]%string
    | Some b => VObject [("swapTransaction", default VNull (json_get "quoteResponse" b ≫= json_get "outAmount"))]%string
    end in
  mkHttpResponse true "200 OK" "" (Ok v).

Definition node_answer (q : Query) (n : Node) : Reply q * Node :=
  let n := n <| nd_now := nd_now n + 50 |> in
  match q return Reply q * Node with
  | GetLatestBlockhash => (Ok "hash", n)
  | SendTransaction tx _ => let n := node_send tx n in (Ok ("sig" +:+ fmt_int (nd_sent n)), n)
  | GetSignatureStatus _ => (Ok (Some (mkSignatureStatus None None true true)), n)
  | GetAccount a => (Ok (node_account n a), n)
  | GetTokenAccountBalance _ => (if nd_lags n then Err "timeout" else Ok (fmt_int (nd_tokens n), 6), n)
  | GetTransaction _ => (Err "not found", n)
  | GetBalance _ => (Ok (nd_lamports n), n)
  | HttpRequest _ url body => (Ok (node_http url body), n)
  end%string.

#[export] Instance node_chain : Chain Node := {|
  chain_now := nd_now;
  chain_sleep ms n := n <| nd_now := nd_now n + ms |>;
  chain_answer := node_answer
|}.

Lemma le_to_bytes_bytes k z : Forall (in_u 8) (le_to_bytes k z).
Proof.
  revert z. induction k as [|k IH]; intros z; cbn [le_to_bytes]; constructor; [|done].
  apply Z.mod_pos_bound. lia.
Qed.

Lemma encode_curve_bytes c : Forall (in_u 8) (encode_curve (repeat 0 8) c 0 false []).
Proof.
  unfold encode_curve. repeat (apply Forall_app; split); try apply le_to_bytes_bytes; repeat constructor; try done.
  all: first [by destruct (bc_curve_complete c)|by destruct (bc_is_cashback_coin c)].
Qed.

#[export] Instance node_laws : ChainLaws Node.
Proof.
  split.
  - intros ms n _. cbn. lia.
  - intros q n. destruct q as [|[]| | | | | |]; cbn; lia.
  - intros a n acc. cbn. unfold node_account. destruct (N.eqb a DEMO_MINT); [by intros [= <-]; constructor|].
    destruct (N.eqb a DEMO_CURVE); [intros [= <-]; apply encode_curve_bytes|].
    destruct (_ =? 0); [done|]. intros [= <-]. constructor.
Qed.

Definition node_state (tokens : Z) (c : BondingCurveState) (lags : bool) : Live Node :=
  mkLive (mkSolanaBroker 42%N live_execution_default 3%float ∅) (mkNode 0 tokens 3000000000 c lags 0) [].

Definition done_with {A} (r : Run Node A) : option (result A BrokerError * Live Node) :=
  match r with Done r s => Some (r, s) | _ => None end.

Definition node_pool : PumpPool Bonding := pump_pool_new id DEMO_MINT 2%N.
