(* ===== verification/LiveRuns.v ===== *)
(** Theorems about the live broker: its calls end, a retried transaction is
    accepted at most once, a buy debits exactly when it succeeds, a sell never
    asks the curve for more than it holds. *)
From S2P Require Import Prelude Text Amounts Pump Positions Brokers Curve Instructions Onchain Jupiter Hoare LiveBroker Node.

Section Reading.
Context {W : Type} `{Chain W} `{!ChainLaws W} `{Sdk} `{Crypto}.
Implicit Types (s : Live W).

(** ** The Jupiter client only reads, but for executing an order *)

Lemma reads_http C post url body op :
  is_send (HttpRequest post url body) = false -> reads C (jupiter_http_json post url body op : Io W _).
Proof.
  intros N. unfold jupiter_http_json. apply reads_bind; [exact (reads_ask C _ N)|]. intros [resp|e]; reads_auto.
Qed.

Lemma reads_quote C i o a b opts : reads C (jupiter_fetch_quote_exact_in i o a b opts : Io W _).
Proof.
  unfold jupiter_fetch_quote_exact_in. cbv zeta. apply reads_bind; [by apply reads_http|]. reads_auto.
Qed.

Lemma reads_order C i a b t e : reads C (jupiter_build_swap_v2_order_exact_in i a b t e : Io W _).
Proof.
  unfold jupiter_build_swap_v2_order_exact_in. cbv zeta. apply reads_bind; [by apply reads_http|]. reads_auto.
Qed.

Lemma reads_build_mints C i o a b u opts : reads C (jupiter_build_swap_exact_in_mints i o a b u opts : Io W _).
Proof.
  unfold jupiter_build_swap_exact_in_mints. cbv zeta. apply reads_bind; [apply reads_quote|]. intros quote.
  apply reads_bind; [by apply reads_http|]. reads_auto.
Qed.

Lemma reads_build C i a b u opts : reads C (jupiter_build_swap_exact_in i a b u opts : Io W _).
Proof. apply reads_build_mints. Qed.
Lemma reads_build_buy C o a b u opts : reads C (jupiter_build_swap_wsol_to_mint_exact_in o a b u opts : Io W _).
Proof. apply reads_build_mints. Qed.

Lemma reads_decode C b64 what : reads C (decode_swap b64 what : Io W _).
Proof. unfold decode_swap. reads_auto. Qed.

Lemma reads_swap_build C ms a b opts : reads C (jupiter_quote_swap_build ms a b opts : Io W _).
Proof. apply reads_bind; [apply reads_broker|]. intros br. apply reads_build. Qed.
Hint Resolve reads_order reads_build reads_build_buy reads_decode reads_swap_build : io.

Lemma reads_post_graduation C ms a b : reads C (jupiter_quote_swap_build_post_graduation ms a b : Io W _).
Proof. unfold jupiter_quote_swap_build_post_graduation. reads_auto. Qed.

Lemma reads_buy_build C ms a b : reads C (jupiter_buy_build_post_graduation ms a b : Io W _).
Proof. unfold jupiter_buy_build_post_graduation. reads_auto. Qed.

Lemma reads_retry_6005 C ms a b e : reads C (jupiter_retry_build_after_pump_6005 ms a b e : Io W _).
Proof. unfold jupiter_retry_build_after_pump_6005. reads_auto. Qed.

Lemma reads_curve (C : Prop) m : (forall p, bounding_curve m = Panic p -> C) -> reads C (read_curve_state m : Io W _).
Proof.
  intros HC. unfold read_curve_state. apply reads_bind; [by apply reads_outcome|]. intros a.
  apply reads_bind; [by eauto with io|]. intros resp. destruct resp; reads_auto.
Qed.
Lemma reads_ata (C : Prop) w m p : (forall q, ata w p m = Panic q -> C) -> reads C (derive_ata_address w m p : Io W _).
Proof. intros HC. apply reads_bind; [by apply reads_outcome|]. reads_auto. Qed.
End Reading.
#[export] Hint Resolve reads_order reads_build reads_build_buy reads_decode reads_swap_build
  reads_post_graduation reads_buy_build reads_retry_6005 reads_raw_with_decimals reads_raw
  reads_raw_or_zero reads_mint_token_kind reads_net_sol_or_fallback : io.

(** ** Sending and confirming *)

Section Sending.
Context {W : Type} `{Chain W} `{!ChainLaws W} `{Sdk} `{Crypto}.
Implicit Types (s : Live W).

(** C16: sending with retries always ends, without a panic; every transaction it
    submits carries exactly the given instructions, it submits at most
    [effective_retries] of them, the node accepts at most one, and a success
    names the one accepted, whose status was seen on the chain without an
    error *)
Theorem send_accepts_once ixs label s :
  exists r s', send_with_retries ixs label s = Done r s' /\
    sent_once (signed_legacy ixs) (effective_retries (sb_exec_cfg (lv_broker s))) s r s'.
Proof.
  pose proof (wp_send_with_retries False ixs label s) as T. unfold wp in T.
  destruct (send_with_retries ixs label s) as [r s'|p|]; [|done|done]. by exists r, s'.
Qed.

(** the answer that confirms a sell of [sold]: the account is gone, when it was
    closed with the sell, otherwise its balance is lower by what was sold, up
    to the slack *)
Definition confirms (a : Address) (pre sold : Z) (closed : bool) (e : TraceEvent) : Prop :=
  if closed then e = Asked (GetAccount a) (Ok None)
  else exists text post decimals, e = Asked (GetTokenAccountBalance a) (Ok (text, decimals)) /\
    parse_u64 text = Ok post /\ min_drop sold <= sat_sub pre post.

Lemma bind_done {A B} (io : Io W A) (f : A -> Io W B) s a s1 : io s = Done (Ok a) s1 -> (io ≫= f) s = f a s1.
Proof. intros E. unfold mbind, Io_bind. by rewrite E. Qed.
Lemma try_done {A} (io : Io W A) s r s1 : io s = Done r s1 -> try_io io s = Done (Ok r) s1.
Proof. intros E. unfold try_io. by rewrite E. Qed.

Lemma fetch_raw_run a s : exists r s1,
  fetch_token_account_raw_with_decimals a s = Done r s1 /\
  forall post decimals, r = Ok (post, decimals) -> exists text,
    lv_trace s1 = lv_trace s ++ [Asked (GetTokenAccountBalance a) (Ok (text, decimals))] /\ parse_u64 text = Ok post.
Proof.
  unfold fetch_token_account_raw_with_decimals, ask, mbind, Io_bind.
  destruct (chain_answer (GetTokenAccountBalance a) (lv_world s)) as [[[text decimals]|msg] w]; cbn beta iota.
  - destruct (parse_u64 text) as [post|e] eqn:E; eexists _, _; (split; [done|]); [|done].
    intros ? ? [= <- <-]. by exists text.
  - eexists _, _. by split.
Qed.

(** one turn ends the wait on a confirming answer, or late *)
Lemma sell_poll_ends a pre sold closed m timeout started n s r s' :
  sell_poll a pre sold closed m timeout started n s = Done r s' ->
  match r with
  | Ok (inr _) => exists e, lv_trace s' = lv_trace s ++ [e] /\ confirms a pre sold closed e
  | Ok (inl _) => True
  | Err _ => timeout <= now s' - started
  end.
Proof.
  assert (forall error s1 k, (e ← elapsed started;
      if timeout <=? e then throw error else sleep_ms 400;; mret (inl k) : Io W (Z + unit)) s1 = Done r s' ->
    match r with
    | Ok (inr _) => exists e, lv_trace s' = lv_trace s ++ [e] /\ confirms a pre sold closed e
    | Ok (inl _) => True
    | Err _ => timeout <= now s' - started
    end) as Late.
  { intros error s1 k. unfold elapsed, mbind, Io_bind, clock, mret, Io_ret, throw.
    destruct (Z.leb_spec timeout (chain_now (lv_world s1) - started)) as [L|L]; by intros [= <- <-]. }
  unfold sell_poll. cbv zeta. destruct closed.
  - destruct (chain_answer (GetAccount a) (lv_world s)) as [resp w] eqn:E.
    erewrite bind_done by (unfold ask; rewrite E; done).
    destruct resp as [[acc|]|msg]; [by apply Late| |by apply Late]. intros [= <- <-]. by eexists.
  - destruct (fetch_raw_run a s) as (q & s1 & E & K). erewrite bind_done by by apply try_done.
    destruct q as [[post decimals]|e]; [|by apply Late]. destruct (K _ _ eq_refl) as (text & T & Ep).
    destruct (Z.leb_spec (min_drop sold) (sat_sub pre post)) as [L|L]; [|by apply Late].
    intros [= <- <-]. eexists. split; [exact T|]. by exists text, post, decimals.
Qed.

(** C17: waiting for the confirmation of a sell always ends, without a panic and
    without sending anything; it succeeds only on an answer of the chain that
    confirms the sell, the last question it asks, and gives up only after its
    timeout *)
Theorem sell_confirmed_by_chain a pre sold closed m timeout s :
  0 <= timeout ->
  exists r s', poll_ata_confirms_sell a pre sold closed m timeout s = Done r s' /\ quiet s s' /\
    match r with
    | Ok _ => exists es e, lv_trace s' = lv_trace s ++ es ++ [e] /\ confirms a pre sold closed e
    | Err _ => timeout <= now s' - now s
    end.
Proof.
  intros T. cut (wp False (poll_ata_confirms_sell a pre sold closed m timeout) s (fun r s' => quiet s s' /\
    match r with
    | Ok _ => exists es e, lv_trace s' = lv_trace s ++ es ++ [e] /\ confirms a pre sold closed e
    | Err _ => timeout <= now s' - now s
    end)).
  { unfold wp. destruct (poll_ata_confirms_sell _ _ _ _ _ _ _) as [r s'|p|]; [|done|done]. by exists r, s'. }
  unfold poll_ata_confirms_sell. apply wp_bind, wp_clock. cbv beta iota.
  apply wp_poll_loop; [lia|done|apply sell_polls|]. intros n s1 r s2 Q1 Q2 E.
  apply sell_poll_ends in E. assert (quiet s s2) as Q by by transitivity s1.
  destruct r as [[k|u]|e]; [done| |by split]. split; [done|]. destruct E as (e & E & C).
  destruct (quiet_trace _ _ Q1) as (es & E1 & _). exists es, e. by rewrite E, E1, app_assoc.
Qed.
End Sending.

(** ** Buying *)

Section Buying.
Context {W P : Type} `{Chain W} `{!ChainLaws W} `{!Pool P} `{Sdk} `{Crypto}.
Implicit Types (s : Live W) (pool : P).

(** what a buy of [amount] has done when it ends with [r]: at most [n]
    transactions were accepted; on success the balance is debited once, the
    receipt names a transaction that landed, and on an error the broker is as
    it was *)
Record bought (amount : f64) (n : nat) s (r : result BuyReceipt BrokerError) s' (es : list TraceEvent) : Prop := {
  bought_trace : lv_trace s' = lv_trace s ++ es;
  bought_accepted : (length (omap accepted_as es) <= n)%nat;
  bought_result : match r with
    | Ok receipt =>
        lv_broker s' = lv_broker s <| sb_balance := (sb_balance (lv_broker s) - amount)%float |> /\
        br_sol_spent receipt = amount /\
        exists sig, br_signature receipt = Some sig /\ Exists (landed sig) es
    | Err _ => lv_broker s' = lv_broker s
    end
}.

(** a phase before the balance is touched *)
Record before (n : nat) s s' (es : list TraceEvent) : Prop := {
  before_broker : lv_broker s' = lv_broker s;
  before_trace : lv_trace s' = lv_trace s ++ es;
  before_accepted : (length (omap accepted_as es) <= n)%nat
}.

Lemma before_refl s : before 0 s s [].
Proof. split; [done| |done]. by rewrite app_nil_r. Qed.

Lemma before_quiet n s s1 s2 es :
  before n s s1 es -> quiet s1 s2 -> exists es', before n s s2 (es ++ es') /\ lv_trace s2 = lv_trace s1 ++ es'.
Proof.
  intros [B T A] [B' _ (es' & E' & N')]. exists es'. split; [|done]. split.
  - congruence.
  - by rewrite E', T, app_assoc.
  - by rewrite omap_app, (unsent_unaccepted es'), app_nil_r by done.
Qed.

Lemma before_sent n K mx s s1 s2 es r :
  before n s s1 es -> sent_once K mx s1 r s2 ->
  exists es', before (S n) s s2 (es ++ es') /\ lv_trace s2 = lv_trace s1 ++ es' /\
    (forall sig, r = Ok sig -> Exists (landed sig) es').
Proof.
  intros [B T A] (acc & es' & [B' _ T' _ _ A'] & L & O). exists es'. split; [|split; [done|]].
  - split; [congruence|by rewrite T', T, app_assoc|]. rewrite omap_app, length_app, A'. lia.
  - intros sig ->. by destruct (O sig eq_refl).
Qed.

Lemma bought_error amount n s s' es e : before n s s' es -> bought amount n s (Err e) s' es.
Proof. intros [B T A]. by split. Qed.

Lemma bought_after amount n k s s1 r s2 es es' :
  before n s s1 es -> bought amount k s1 r s2 es' -> bought amount (n + k) s r s2 (es ++ es').
Proof.
  intros [B T A] [T' A' R]. split.
  - by rewrite T', T, app_assoc.
  - rewrite omap_app, length_app. lia.
  - destruct r as [receipt|e]; [|congruence]. destruct R as (R1 & R2 & sig & R3 & R4).
    split; [by rewrite R1, B|]. split; [done|]. exists sig. split; [done|]. apply Exists_app. by right.
Qed.

(** the part of both buys after the transaction landed: debit, then only reads *)
Lemma bought_landed C amount n s s1 es sig (m : Io W BuyReceipt) :
  before n s s1 es -> Exists (landed sig) es ->
  (forall s2 Q, (forall tokens fill s3, quiet s2 s3 -> Q (Ok (mkBuyReceipt amount tokens (Some sig) fill)) s3) ->
     wp C m s2 Q) ->
  wp C (set_broker (fun b => b <| sb_balance := (sb_balance b - amount)%float |>);; m) s1
    (fun r s' => exists es, bought amount n s r s' es).
Proof.
  intros [B T A] L R. apply wp_bind, wp_set_broker. cbv beta iota. apply R.
  intros tokens fill s3 [B3 _ (es3 & E3 & N3)]. exists (es ++ es3). split.
  - by rewrite E3, T, app_assoc.
  - by rewrite omap_app, (unsent_unaccepted es3), app_nil_r by done.
  - split; [by rewrite B3, <- B|]. split; [done|]. exists sig. split; [done|]. apply Exists_app. by left.
Qed.

Definition buys (amount : f64) (n : nat) s (r : result BuyReceipt BrokerError) s' : Prop :=
  exists es, bought amount n s r s' es.

Lemma buys_error amount n k s s' es e : before n s s' es -> (n <= k)%nat -> buys amount k s (Err e) s'.
Proof. intros [B T A] L. exists es. split; [done|lia|done]. Qed.

Lemma buys_weaken amount n k s r s' : buys amount n s r s' -> (n <= k)%nat -> buys amount k s r s'.
Proof. intros [es [T A R]] L. exists es. split; [done|lia|done]. Qed.

(** a step that only reads before the balance is touched *)
Lemma buys_bind {A} C amount n k (m : Io W A) (f : A -> Io W BuyReceipt) s s1 es :
  before n s s1 es -> (n <= k)%nat -> reads C m ->
  (forall a s2 es2, before n s s2 es2 -> wp C (f a) s2 (buys amount k s)) ->
  wp C (m ≫= f) s1 (buys amount k s).
Proof.
  intros B L R F. apply wp_bind, R. intros r s2 Q2. destruct (before_quiet _ _ _ _ _ B Q2) as (es' & B2 & _).
  destruct r as [a|e]; [by eapply F|]. by eapply buys_error.
Qed.

Lemma wp_jupiter_buy m amount mint_token s :
  wp True (buy_tokens_post_graduation m amount mint_token) s (buys amount 1 s).
Proof.
  unfold buy_tokens_post_graduation. pose proof (before_refl s) as B0.
  eapply buys_bind; [exact B0|lia|apply reads_broker|]. intros b s1 es1 B1. cbv zeta.
  destruct (_ =? 0); [apply wp_throw; eapply buys_error; [done|lia]|].
  eapply buys_bind; [exact B1|lia|by apply reads_ata|]. intros ata_a s2 es2 B2.
  eapply buys_bind; [exact B2|lia|by eauto with io|]. intros pre_raw s3 es3 B3.
  eapply buys_bind; [exact B3|lia|by eauto with io|]. intros [build used] s4 es4 B4.
  eapply buys_bind; [exact B4|lia|by eauto with io|]. intros template s5 es5 B5.
  apply wp_bind, wp_try. eapply wp_mono; [apply wp_send_versioned|]. cbv beta iota. intros r s6 O6.
  destruct (before_sent _ _ _ _ _ _ _ _ B5 O6) as (es' & B6 & _ & L6). destruct r as [sig|e].
  - apply wp_bind, wp_ret. eapply bought_landed; [exact B6|apply Exists_app; right; by apply L6|].
    intros s7 Q K. apply wp_bind, wp_try, reads_increase; [lia|]. intros r s8 Q8. cbv beta iota.
    destruct r as [[post decimals]|e].
    + apply wp_bind, wp_ret, wp_ret. by apply K.
    + apply wp_bind, wp_bind, wp_try, reads_raw_with_decimals. intros r s9 Q9. apply wp_ret, wp_ret.
      apply K. by transitivity s8.
  - assert (forall e', wp True (throw e' : Io W string) s6 (fun r s' => match r with
      | Ok a => False | Err e0 => buys amount 1 s (Err e0) s' end)) as T.
    { intros e'. apply wp_throw. eapply buys_error; [done|lia]. }
    apply wp_bind. destruct e; try (eapply wp_mono; [apply T|]; by intros [?|?] ? ?).
    destruct (is_bonding_curve_complete_pump_error msg); eapply wp_mono; try apply T; by intros [?|?] ? ?.
Qed.

(** from the transaction on: send, and buy over Jupiter when the curve is complete *)
Lemma wp_buy_send m amount mint_token ata_a pre_raw floor ixs s s1 es :
  before 0 s s1 es ->
  wp True (r ← try_io (send_with_retries ixs "BUY");
           match r with
           | Err e => if curve_complete_error e then buy_tokens_post_graduation m amount mint_token else throw e
           | Ok sig =>
               set_broker (fun b => b <| sb_balance := (sb_balance b - amount)%float |>);;
               r ← try_io (poll_token_balance_increase ata_a pre_raw 15000);
               let tokens := match r with
                 | Ok (post_raw, decimals) =>
                     (f64_of_Z (sat_sub post_raw pre_raw) / f64_of_Z (pow10_u64 decimals))%float
                 | Err _ => floor
                 end in
               curve ← try_io (read_curve_state m);
               let fill := match curve with
                 | Ok c => if (0 <? bonding_curve_mcap_sol c)%float then Some (bonding_curve_mcap_sol c) else None
                 | Err _ => None
                 end in
               mret (mkBuyReceipt amount tokens (Some sig) fill)
           end) s1 (buys amount 2 s).
Proof.
  intros B1. apply wp_bind, wp_try. eapply wp_mono; [apply wp_send_with_retries|]. cbv beta iota. intros r s2 O2.
  destruct (before_sent _ _ _ _ _ _ _ _ B1 O2) as (es' & B2 & _ & L2). destruct r as [sig|e].
  - apply (wp_mono True _ s2 (buys amount 1 s)); [|intros r s' Hb; by eapply buys_weaken; [exact Hb|lia]].
    eapply bought_landed; [exact B2|apply Exists_app; right; by apply L2|].
    intros s3 Q K. apply wp_bind, wp_try, reads_increase; [lia|]. intros r s4 Q4. cbv beta iota zeta.
    apply wp_bind, wp_try, reads_curve; [done|]. intros c s5 Q5. apply wp_ret, K. by transitivity s4.
  - destruct (curve_complete_error e); [|apply wp_throw; eapply buys_error; [done|lia]].
    eapply wp_mono; [apply wp_jupiter_buy|]. cbv beta. intros r s3 [es3 B3].
    eexists. apply (bought_after amount 1 1 _ _ _ _ _ _ B2 B3).
Qed.

Lemma wp_live_buy m amount pool s :
  wp True (live_buy m amount pool) s (buys amount 2 s).
Proof.
  unfold live_buy. pose proof (before_refl s) as B0.
  eapply buys_bind; [exact B0|lia|apply reads_broker|]. intros b s1 es1 B1. cbv zeta.
  destruct (_ <? _)%float; [apply wp_throw; eapply buys_error; [done|lia]|].
  eapply buys_bind; [exact B1|lia|by apply reads_visible|]. intros _ s2 es2 B2.
  eapply buys_bind; [exact B2|lia|by eauto with io|]. intros mint_token s3 es3 B3.
  eapply buys_bind; [exact B3|lia|by apply reads_try, reads_curve|]. intros curve s4 es4 B4.
  destruct (match curve with Ok c => bc_curve_complete c | Err _ => false end).
  { eapply wp_mono; [apply wp_jupiter_buy|]. cbv beta. intros r s5 [es5 B5].
    eapply buys_weaken; [eexists; exact (bought_after amount 0 1 _ _ _ _ _ _ B4 B5)|lia]. }
  eapply buys_bind; [exact B4|lia|by apply reads_outcome|]. intros price s5 es5 B5. cbv zeta.
  eapply buys_bind; [exact B5|lia|by apply reads_outcome|]. intros create s6 es6 B6.
  eapply buys_bind; [exact B6|lia|by apply reads_ata|]. intros ata_a s7 es7 B7.
  eapply buys_bind; [exact B7|lia|by eauto with io|]. intros pre_raw s8 es8 B8.
  eapply buys_bind; [exact B8|lia| |].
  { apply reads_try, reads_bind; [by apply reads_curve|]. intros c. apply reads_ret. }
  intros creator s9 es9 B9.
  eapply buys_bind; [exact B9|lia|destruct creator; [apply reads_ret|by apply reads_outcome]|].
  intros vault s10 es10 B10.
  eapply buys_bind; [exact B10|lia|by apply reads_outcome|]. intros ix s11 es11 B11.
  exact (wp_buy_send _ _ _ _ _ _ _ _ _ _ B11).
Qed.

(** C15: a buy of the live broker ends, unless the code panics; it debits the
    balance by the amount exactly when it succeeds, and then the receipt's
    transaction was seen on the chain without an error; on an error the broker
    is as it was; whatever is retried, at most two transactions are accepted;
    and without the balance for it nothing is asked or sent *)
Theorem buy_debits_iff_ok m amount pool s :
  match live_buy m amount pool s with
  | Done r s' =>
      (exists es, bought amount 2 s r s' es) /\
      ((sb_balance (lv_broker s) <? amount)%float = true ->
       r = Err (InsufficientBalance (sb_balance (lv_broker s)) amount) /\ s' = s)
  | Crash _ => True
  | Hang => False
  end.
Proof.
  pose proof (wp_live_buy m amount pool s) as B. unfold wp in B.
  destruct (live_buy m amount pool s) as [r s'|p|] eqn:E; [|done|done]. split; [exact B|].
  intros L. unfold live_buy, broker, mbind, Io_bind in E. cbv beta iota zeta in E. rewrite L in E.
  unfold throw in E. by injection E as <- <-.
Qed.
End Buying.

Local Abbreviation demo_buy :=
  (live_buy DEMO_MINT 0.5 node_pool (node_state 0 fresh_curve false)).

Lemma demo_buy_runs :
  match demo_buy with
  | Done (Ok receipt) s' => br_signature receipt = Some "sig1"%string /\ sb_balance (lv_broker s') = 2.5%float
  | _ => False
  end.
Proof. vm_compute. by split. Qed.

Lemma buy_debits_iff_ok_witness :
  match demo_buy with
  | Done r s' => exists es, bought 0.5 2 (node_state 0 fresh_curve false) r s' es /\ sb_balance (lv_broker s') = 2.5%float
  | _ => False
  end.
Proof.
  pose proof (buy_debits_iff_ok DEMO_MINT 0.5 node_pool (node_state 0 fresh_curve false)) as T.
  pose proof demo_buy_runs as E.
  destruct (live_buy DEMO_MINT 0.5 node_pool (node_state 0 fresh_curve false)) as [r s'|p|]; [|done|done].
  destruct T as [[es T] _]. exists es. split; [exact T|]. destruct r as [receipt|e]; [apply E|done].
Defined.

Lemma send_accepts_once_witness :
  exists r s', send_with_retries [] "DEMO" (node_state 0 fresh_curve false) = Done r s' /\
    sent_once (signed_legacy []) 6 (node_state 0 fresh_curve false) r s'.
Proof. exact (send_accepts_once [] "DEMO" (node_state 0 fresh_curve false)). Defined.

Lemma sell_confirmed_by_chain_witness :
  let s := node_state 40 fresh_curve false in
  exists r s', poll_ata_confirms_sell 9%N 100 60 false DEMO_MINT 45000 s = Done r s' /\ quiet s s' /\
    match r with
    | Ok _ => exists es e, lv_trace s' = lv_trace s ++ es ++ [e] /\ confirms 9%N 100 60 false e
    | Err _ => 45000 <= now s' - now s
    end.
Proof. apply sell_confirmed_by_chain. done. Defined.
