(* ===== verification/LiveSell.v ===== *)
(** What a sell of the live broker submits: every transaction it signs itself
    is guarded by what the sell has read of the curve. *)
From S2P Require Import Prelude Text Amounts Pump Positions Brokers Curve Instructions Onchain Jupiter Hoare LiveBroker Node LiveRuns.

(** ** The curve as the call has seen it *)

(** the answer of the node about the account [a], as the broker decodes it *)
Definition curve_reply (a : Address) (e : TraceEvent) : option (result (option (list Z)) unit) :=
  match e with
  | Asked q r =>
      match q return Reply q -> option (result (option (list Z)) unit) with
      | GetAccount a' => fun r =>
          if decide (a' = a) then Some (match r with Ok acc => Ok (ac_data <$> acc) | Err _ => Err tt end)
          else None
      | _ => fun _ => None
      end r
  end.

(** what the last read of the curve of [m] among [es] gave, if it could be read *)
Definition curve_seen `{Crypto} (m : Address) (es : list TraceEvent) : option BondingCurveState :=
  match bounding_curve m with
  | Ret a =>
      match last (omap (curve_reply a) es) with
      | Some resp => match fetch_bonding_curve_state resp with Ok c => Some c | Err _ => None end
      | None => None
      end
  | Panic _ => None
  end.

(** ** Guarded submissions *)

(** every submission among [es] is allowed by what was seen before it *)
Definition guarded (P : list TraceEvent -> Submission -> Prop) (es : list TraceEvent) : Prop :=
  forall pre e post x, es = pre ++ e :: post -> submission e = Some x -> P pre x.

Lemma guarded_nil P : guarded P [].
Proof. intros pre e post x E. by destruct pre. Qed.

Lemma guarded_app (P : list TraceEvent -> Submission -> Prop) es es' :
  guarded P es -> (forall pre e post x, es' = pre ++ e :: post -> submission e = Some x -> P (es ++ pre) x) ->
  guarded P (es ++ es').
Proof.
  intros G G' pre e post x E S. apply app_eq_inv in E as [(l & E1 & E2)|(l & E1 & E2)].
  - destruct l as [|e' l].
    + rewrite app_nil_r in E1. subst pre. cbn in E2. rewrite <- (app_nil_r es). by apply (G' [] e post x).
    + injection E2 as -> ->. by apply (G pre e' l x).
  - subst pre. by apply (G' l e post x).
Qed.

(** ** Ranges *)

Lemma le_of_bytes_range bs : Forall (in_u 8) bs -> 0 <= le_of_bytes bs < 256 ^ Z.of_nat (length bs).
Proof.
  induction 1 as [|b bs Hb _ IH]; [done|]. cbn [le_of_bytes length].
  rewrite Nat2Z.inj_succ, Z.pow_succ_r by lia. unfold in_u in Hb. lia.
Qed.

Lemma read_u64_range data off : Forall (in_u 8) data -> in_u 64 (read_u64 data off).
Proof.
  intros B. unfold read_u64, in_u.
  pose proof (le_of_bytes_range (take 8 (drop off data)) ltac:(by apply Forall_take, Forall_drop)) as R.
  assert (256 ^ Z.of_nat (length (take 8 (drop off data))) <= 2 ^ 64); [|lia].
  change (2 ^ 64) with (256 ^ 8). apply Z.pow_le_mono_r; [lia|].
  pose proof (length_take_le (drop off data) 8). rewrite length_take. lia.
Qed.

(** the reserves are [u64]s *)
Record curve_u64 (c : BondingCurveState) : Prop := {
  u64_real_sol : in_u 64 (bc_real_sol_reserves c);
  u64_vsr : in_u 64 (bc_virtual_sol_reserves c);
  u64_vtr : in_u 64 (bc_virtual_token_reserves c)
}.

Lemma decoded_u64 data c :
  Forall (in_u 8) data -> fetch_bonding_curve_state (Ok (Some data)) = Ok c -> curve_u64 c.
Proof.
  intros B. unfold fetch_bonding_curve_state, decode_bonding_curve_state.
  destruct (_ <? _)%nat; [done|]. intros [= <-]. by split; apply read_u64_range.
Qed.

Lemma parse_u64_digits_range s acc n : in_u 64 acc -> parse_u64_digits s acc = Ok n -> in_u 64 n.
Proof.
  revert acc. induction s as [|c s IH]; intros acc A; cbn [parse_u64_digits]; [by intros [= <-]|].
  unfold digit_of. destruct (_ && _) eqn:D; [|done]. apply andb_true_iff in D as [D1 D2].
  destruct (Z.ltb_spec U64_MAX (acc * 10 + (Z.of_N (Ascii.N_of_ascii c) - 48))) as [L|L]; [done|].
  apply IH. unfold in_u, U64_MAX in *. lia.
Qed.

Lemma parse_u64_range s n : parse_u64 s = Ok n -> in_u 64 n.
Proof.
  assert (in_u 64 0) as Z0 by done.
  unfold parse_u64. destruct s as [|c [|c' s]]; [done|by apply parse_u64_digits_range|].
  destruct (N.eqb _ _); by apply parse_u64_digits_range.
Qed.

Create HintDb keeps.

Section Selling.
Context {W P : Type} `{Chain W} `{!ChainLaws W} `{!Pool P} `{Sdk} `{Crypto}.
Implicit Types (s : Live W) (pool : P).

(** ** What a sell may submit *)

(** an instruction around a sell: the compute budget, closing the account *)
Definition housekeeping (wallet : Address) (ix : RawInstruction) : Prop :=
  (exists price, ix = into_solana (mkInstruction (mkComputeUnitPrice price) tt)) \/
  (exists units, ix = into_solana (mkInstruction (mkComputeUnitLimit units) tt)) \/
  (exists kind account, ix = close_account_ix kind account wallet wallet).

(** a sale of [raw] units at any price that respects the curve as it was seen:
    to its creator, with its cashback accounts, not after its end, and for at
    most 90% of its real SOL *)
Definition safe_sale (m wallet : Address) (seen : option BondingCurveState) (ix : RawInstruction) : Prop :=
  exists creator kind raw cashback i,
    pump_sell m wallet creator (token_program_of kind) raw (sips_from_float NATIVE_SOL_PRECISION 0%float) cashback
      = Ret i /\ ix = into_solana i /\ 0 < raw < 2 ^ 64 /\
    match seen with
    | Some c => creator = bc_creator c /\ cashback = bc_is_cashback_coin c /\ bc_curve_complete c = false /\
        pump_sol_out_for_tokens raw c <= bc_real_sol_reserves c * 90 / 100
    | None => cashback = false
    end.

(** a submission of a sell of [m]: the broker's own transactions are guarded,
    the others are Jupiter's *)
Definition sale_ok (m wallet : Address) (es : list TraceEvent) (x : Submission) : Prop :=
  match x with
  | Broadcast (LegacyTx ixs _) =>
      Forall (fun ix => housekeeping wallet ix \/ safe_sale m wallet (curve_seen m es) ix) ixs
  | Broadcast (VersionedTx signed) =>
      exists blockhash template, sign_message (set_recent_blockhash blockhash template) = Ok signed
  | Executed _ => True
  end.

Section Call.
Variables (m : Address) (s0 : Live W).
Let wallet := sb_wallet_address (lv_broker s0).

(** What a call that began in [s0] has done up to [s]: only the balance of the
    broker may have changed, and its submissions are guarded. *)
Record since s (es : list TraceEvent) : Prop := {
  since_wallet : sb_wallet_address (lv_broker s) = wallet;
  since_cfg : sb_exec_cfg (lv_broker s) = sb_exec_cfg (lv_broker s0);
  since_positions : sb_positions (lv_broker s) = sb_positions (lv_broker s0);
  since_trace : lv_trace s = lv_trace s0 ++ es;
  since_guarded : guarded (sale_ok m wallet) es
}.

Definition sells {A} (_ : result A BrokerError) s : Prop := exists es, since s es.

(** a computation that keeps to the guard, whatever was seen before *)
Definition keeps {A} (io : Io W A) : Prop := forall s es, since s es -> wp True io s sells.

Lemma since_quiet s s' es es' :
  since s es -> quiet s s' -> lv_trace s' = lv_trace s ++ es' -> since s' (es ++ es').
Proof.
  intros [A B D T Gd] [B' _ (es'' & E' & N')] E. rewrite E in E'. apply app_inv_head in E' as <-.
  split; [congruence..| |].
  - by rewrite E, T, app_assoc.
  - apply guarded_app; [done|]. intros pre e post x -> S. rewrite omap_app in N'.
    apply app_eq_nil in N' as [_ N']. cbn in N'. by rewrite S in N'.
Qed.

Lemma since_sent K mx s r s' es :
  since s es -> sent_once K mx s r s' ->
  (forall x l, K x -> lv_trace s' = lv_trace s ++ l -> forall pre post, l = pre ++ post -> sale_ok m wallet (es ++ pre) x) ->
  sells r s'.
Proof.
  intros [A B D T Gd] (acc & es' & [B' _ T' F' _ _] & _) HK. exists (es ++ es'). split; [congruence..| |].
  - by rewrite T', T, app_assoc.
  - apply guarded_app; [done|]. intros pre e post x -> S. eapply HK; [|exact T'|done].
    rewrite omap_app in F'. apply Forall_app in F' as [_ F']. cbn in F'. rewrite S in F'. by inversion F'.
Qed.

Lemma keeps_reads {A} (io : Io W A) : reads True io -> keeps io.
Proof.
  intros R s es S. apply R. intros r s' Q. destruct (quiet_trace _ _ Q) as (es' & E & _).
  exists (es ++ es'). by eapply since_quiet.
Qed.

Lemma keeps_bind {A B} (io : Io W A) (f : A -> Io W B) :
  keeps io -> (forall a, keeps (f a)) -> keeps (io ≫= f).
Proof.
  intros M F s es S. apply wp_bind. eapply wp_mono; [by eapply M|]. cbv beta.
  intros [a|e] s' [es' S']; [by eapply F|by exists es'].
Qed.

Lemma keeps_try {A} (io : Io W A) : keeps io -> keeps (try_io io).
Proof. intros M s es S. apply wp_try. by eapply wp_mono; [by eapply M|]. Qed.

Lemma keeps_balance (f : SolanaBroker -> f64) : keeps (set_broker (fun b => b <| sb_balance := f b |>) : Io W unit).
Proof. intros s es [A B D T Gd]. apply wp_set_broker. exists es. by split. Qed.

Lemma keeps_broker {A} (f : SolanaBroker -> Io W A) :
  (forall b, sb_wallet_address b = wallet -> keeps (f b)) -> keeps (broker ≫= f).
Proof. intros F s es S. apply wp_bind, wp_broker. cbv beta iota. eapply F; [apply S|done]. Qed.

(** *** Sending what needs no guard *)

Lemma keeps_send ixs label : Forall (housekeeping wallet) ixs -> keeps (send_with_retries ixs label : Io W _).
Proof.
  intros L s es S. eapply wp_mono; [apply wp_send_with_retries|]. cbv beta. intros r s' O.
  eapply since_sent; [done|done|]. intros x l [bh ->] _ pre post _. cbn.
  eapply Forall_impl; [exact L|]. by left.
Qed.

Lemma keeps_send_versioned template label : keeps (send_versioned_jupiter_with_retries template label : Io W _).
Proof.
  intros s es S. eapply wp_mono; [apply wp_send_versioned|]. cbv beta. intros r s' O.
  eapply since_sent; [done|done|]. intros x l (bh & signed & E & ->) _ pre post _. by exists bh, template.
Qed.

Lemma keeps_http post url body op : keeps (jupiter_http_json post url body op : Io W _).
Proof.
  unfold jupiter_http_json. apply keeps_bind.
  - intros s es [A B D T Gd]. refine (wp_ask True (HttpRequest post url body) s _ _). intros r s' B' _ E.
    exists (es ++ [Asked (HttpRequest post url body) r]). split; [congruence..|by rewrite E, T, app_assoc|].
    apply guarded_app; [done|]. intros pre e post' x E' S. destruct pre as [|? [|]]; [|done..].
    injection E' as <- <-. cbn in S. destruct post; [|done]. destruct (String.eqb _ _); [|done].
    by injection S as <-.
  - intros resp. apply keeps_reads. destruct resp as [resp|e]; reads_auto.
Qed.

(** *** Jupiter *)

Hint Resolve keeps_send_versioned keeps_http : keeps.
Hint Extern 2 (keeps _) => apply keeps_reads; solve [reads_auto] : keeps.

(** splits a computation that keeps the guard into its steps *)
Ltac keeps_auto :=
  cbv zeta; repeat first
    [ progress (intros; cbv zeta)
    | solve [eauto with keeps]
    | match goal with |- keeps (_ ≫= _) => apply keeps_bind end
    | match goal with |- keeps (try_io _) => apply keeps_try end
    | match goal with |- keeps (match ?x with _ => _ end) => destruct x end ].

Lemma keeps_send_swap build : keeps (jupiter_send_swap_build build : Io W _).
Proof.
  unfold jupiter_send_swap_build, jupiter_execute_v2_order, decode_swap. keeps_auto.
Qed.

Lemma close_housekeeping cfg kind account :
  Forall (housekeeping wallet) (compute_budget_prelude cfg ++ [close_account_ix kind account wallet wallet]).
Proof.
  unfold compute_budget_prelude. apply Forall_app; split; [apply Forall_app; split|].
  - destruct (_ <? _); [|done]. apply Forall_singleton. left. by eexists.
  - destruct (_ <? _); [|done]. apply Forall_singleton. right. left. by eexists.
  - apply Forall_singleton. right. right. by eexists _, _.
Qed.

Lemma keeps_close_after ata_sol kind sol sig : keeps (close_after_jupiter ata_sol kind sol sig : Io W _).
Proof.
  unfold close_after_jupiter. apply keeps_bind; [apply keeps_reads, reads_try, reads_raw|].
  intros [[| |]|]; try (apply keeps_reads, reads_ret). apply keeps_broker. intros b ->. cbv zeta.
  apply keeps_bind; [apply keeps_try, keeps_send, close_housekeeping|]. keeps_auto.
Qed.

Lemma keeps_chunk_once ata_sol pre raw close slip kind bps allow :
  keeps (jupiter_sell_chunk_once m ata_sol pre raw close slip kind bps allow : Io W _).
Proof.
  unfold jupiter_sell_chunk_once, jupiter_quote_swap_build_allow_pump_v1. cbv zeta.
  apply keeps_bind; [destruct allow; apply keeps_reads; [apply reads_swap_build|apply reads_post_graduation]|].
  intros build. apply keeps_bind; [apply keeps_try, keeps_send_swap|]. intros r. apply keeps_bind.
  - destruct r as [sig|e]; [keeps_auto|]. destruct e; try (apply keeps_reads, reads_throw).
    destruct (is_bonding_curve_complete_pump_error _); [|apply keeps_reads, reads_throw].
    apply keeps_bind; [apply keeps_reads, reads_retry_6005|]. intros build'.
    apply keeps_bind; [apply keeps_send_swap|]. keeps_auto.
  - intros [sig build']. apply keeps_bind; [by apply keeps_reads, reads_sell_poll|]. intros _.
    apply keeps_bind; [apply keeps_reads, reads_net_sol_or_fallback|]. intros actual.
    apply keeps_bind; [destruct close; [apply keeps_close_after|apply keeps_reads, reads_ret]|].
    intros [actual' last]. apply keeps_bind; [apply keeps_balance|]. keeps_auto.
Qed.

Lemma keeps_slippage once steps mx :
  (forall slip allow, keeps (once slip allow)) -> keeps (slippage_attempts once steps mx : Io W _).
Proof.
  intros O. induction steps as [|slip steps IH]; cbn [slippage_attempts]; [apply O|].
  apply keeps_bind; [apply keeps_try, O|]. intros [r|e]; [keeps_auto|].
  destruct (is_jupiter_slippage e); [apply IH|keeps_auto].
Qed.

Lemma keeps_chunks chunk chunks close t :
  (forall pre raw c, keeps (chunk pre raw c)) -> keeps (sell_chunks chunk chunks close t : Io W _).
Proof.
  intros O. revert t. induction chunks as [|raw chunks IH]; intros t; cbn [sell_chunks]; [keeps_auto|].
  cbv zeta. apply keeps_bind; [apply keeps_try, O|]. intros [r|e]; [apply IH|keeps_auto].
Qed.

Lemma keeps_parts chunk parts text pre raw close err :
  (forall p r c, keeps (chunk p r c)) -> keeps (sell_in_parts chunk parts text pre raw close err : Io W _).
Proof.
  intros O. revert err. induction parts as [|p parts IH]; intros err; cbn [sell_in_parts]; [keeps_auto|].
  apply keeps_bind; [by apply keeps_chunks|]. intros [t [e|]]; [apply IH|keeps_auto].
Qed.

Lemma keeps_jupiter ata_sol pre raw close slip kind :
  keeps (sell_tokens_post_graduation m ata_sol pre raw close slip kind : Io W _).
Proof.
  unfold sell_tokens_post_graduation. apply keeps_broker. intros b _. cbv zeta. apply keeps_parts.
  intros p r c. unfold jupiter_sell_chunk. destruct (r =? 0); [keeps_auto|]. cbv zeta.
  apply keeps_slippage. intros. apply keeps_chunk_once.
Qed.

(** *** Reading the curve *)

(** no question about an account *)
Definition unseen (q : Query) : bool := match q with GetAccount _ => false | _ => true end.

Lemma curve_seen_app es l :
  Forall (fun e => unseen (question e) = true) l -> curve_seen m (es ++ l) = curve_seen m es.
Proof.
  intros U. unfold curve_seen. destruct (bounding_curve m) as [a|]; [|done].
  assert (omap (curve_reply a) l = []) as E; [|by rewrite omap_app, E, app_nil_r].
  induction U as [|[q r] l Hq _ IH]; [done|]. by destruct q.
Qed.

Lemma wp_read_curve s es (Q : result (result BondingCurveState BrokerError) BrokerError -> Live W -> Prop) :
  since s es ->
  (forall r s' es', since s' es' ->
     curve_seen m es' = match r with Ok c => Some c | Err _ => None end ->
     match r with Ok c => curve_u64 c | Err _ => True end -> Q (Ok r) s') ->
  wp True (try_io (read_curve_state m)) s Q.
Proof.
  intros S K. apply wp_try. unfold read_curve_state. apply wp_bind, wp_outcome; [|done]. intros a Ea.
  apply wp_bind. unfold wp, ask. destruct (chain_answer (GetAccount a) (lv_world s)) as [resp w] eqn:E.
  set (s1 := mkLive _ _ _).
  assert (since s1 (es ++ [Asked (GetAccount a) resp])) as S1.
  { apply (since_quiet s); [done| |done]. split; [done| |by eexists].
    pose proof (answer_lasts (GetAccount a) (lv_world s)) as T. by rewrite E in T. }
  assert (curve_seen m (es ++ [Asked (GetAccount a) resp]) =
    match fetch_bonding_curve_state (match resp with Ok acc => Ok (ac_data <$> acc) | Err _ => Err tt end) with
    | Ok c => Some c | Err _ => None end) as V.
  { unfold curve_seen. rewrite Ea, omap_app, last_app. cbn. by rewrite decide_True by done. }
  pose proof (account_bytes a (lv_world s)) as B. rewrite E in B. cbn [fst] in B.
  destruct resp as [[acc|]|msg]; cbn [fmap option_fmap option_map] in *; [|by eapply K..].
  specialize (B acc eq_refl). cbv iota zeta.
  destruct (fetch_bonding_curve_state (Ok (Some (ac_data acc)))) as [c|e] eqn:D.
  - eapply K; [exact S1|done|by eapply decoded_u64].
  - by eapply K.
Qed.

Lemma wp_unseen {A} (io : Io W A) s es (Q : result A BrokerError -> Live W -> Prop) :
  reads True io -> asks unseen io -> since s es ->
  (forall r s' es', since s' es' -> curve_seen m es' = curve_seen m es -> io s = Done r s' -> Q r s') ->
  wp True io s Q.
Proof.
  intros R U S K. specialize (U s). specialize (R s (fun _ => quiet s) (fun _ _ q => q)). unfold wp in *.
  destruct (io s) as [r s'|p|]; [|done|done]. destruct U as (l & E & U).
  eapply K; [by eapply since_quiet|by apply curve_seen_app|done].
Qed.

Lemma wp_raw a s es (Q : result Z BrokerError -> Live W -> Prop) :
  since s es ->
  (forall raw s' es', in_u 64 raw -> since s' es' -> curve_seen m es' = curve_seen m es -> Q (Ok raw) s') ->
  wp True (raw_or_zero a) s Q.
Proof.
  intros S K. eapply wp_unseen; [apply reads_raw_or_zero| |exact S|].
  { unfold raw_or_zero, fetch_token_account_raw, fetch_token_account_raw_with_decimals. asks_auto. }
  intros r s' es' S' V E. cut (exists raw, r = Ok raw /\ in_u 64 raw); [intros (raw & -> & U); by eapply K|].
  unfold raw_or_zero, fetch_token_account_raw, fetch_token_account_raw_with_decimals, try_io, ask, mbind, Io_bind in E.
  destruct (chain_answer _ _) as [[[amount decimals]|e] w]; cbn in E.
  - destruct (parse_u64 amount) as [raw|e] eqn:E'; cbn in E; injection E as <- _; eexists; split; try done.
    by eapply parse_u64_range.
  - injection E as <- _. by eexists.
Qed.

(** *** Sending a sale *)

Definition allowed es (ix : RawInstruction) : Prop :=
  housekeeping wallet ix \/ safe_sale m wallet (curve_seen m es) ix.

Lemma wp_send_sale ixs label s es :
  since s es -> Forall (allowed es) ixs -> wp True (send_with_retries ixs label) s sells.
Proof.
  intros S L. eapply wp_mono; [apply wp_asks; [apply asks_send_with_retries|apply wp_send_with_retries]|].
  cbv beta. intros r s' (O & l & E & A). eapply since_sent; [done|done|].
  intros x l' [bh ->] E' pre post ->. rewrite E in E'. apply app_inv_head in E' as ->.
  apply Forall_app in A as [A _]. cbn. rewrite curve_seen_app; [exact L|].
  eapply Forall_impl; [exact A|]. intros [[] r']; cbn; done.
Qed.

Lemma prelude_allowed cfg es : Forall (allowed es) (compute_budget_prelude cfg).
Proof.
  pose proof (close_housekeeping cfg LegacySpl 0%N) as F. apply Forall_app in F as [F _].
  eapply Forall_impl; [exact F|]. by left.
Qed.

(** the sale of what [clamp_sell] leaves *)
Lemma clamped_sale kind t c raw clamped i :
  curve_u64 c -> in_u 64 t -> clamp_sell t (Some c) = (raw, clamped) -> raw <> 0 ->
  bc_curve_complete c = false ->
  pump_sell m wallet (bc_creator c) (token_program_of kind) raw (sips_from_float NATIVE_SOL_PRECISION 0%float)
    (bc_is_cashback_coin c) = Ret i ->
  safe_sale m wallet (Some c) (into_solana i).
Proof.
  intros [U1 U2 U3] T C N L E. destruct (clamp_sell_spec _ _ _ _ T U1 U2 U3 C) as (L1 & L2 & _).
  exists (bc_creator c), kind, raw, (bc_is_cashback_coin c), i. unfold in_u in T. by split_and!; try lia.
Qed.

(** *** Draining *)

Hint Resolve keeps_jupiter reads_sell_poll : keeps.

Lemma keeps_poll a pre sold closed timeout :
  0 <= timeout -> keeps (poll_ata_confirms_sell a pre sold closed m timeout : Io W _).
Proof. intros T. by apply keeps_reads, reads_sell_poll. Qed.

Lemma sells_ret {A} (a : A) s es : since s es -> wp True (mret a : Io W A) s sells.
Proof. intros S. apply wp_ret. by exists es. Qed.
Lemma sells_throw {A} e s es : since s es -> wp True (throw e : Io W A) s sells.
Proof. intros S. apply wp_throw. by exists es. Qed.

Lemma wp_sell_ix creator kind raw cashback s (Q : result RawInstruction BrokerError -> Live W -> Prop) :
  (forall i, pump_sell m wallet creator (token_program_of kind) raw (sips_from_float NATIVE_SOL_PRECISION 0%float)
     cashback = Ret i -> Q (Ok (into_solana i)) s) ->
  wp True (sell_ix m wallet creator kind raw cashback) s Q.
Proof. intros K. unfold sell_ix. apply wp_bind, wp_outcome; [|done]. intros i E. apply wp_ret. by apply K. Qed.

(** after a sale was sent: on an error maybe over Jupiter, otherwise [f] *)
Lemma wp_sent_sale {A} ixs label s es (f : result string BrokerError -> Io W A) :
  since s es -> Forall (allowed es) ixs -> (forall r, keeps (f r)) ->
  wp True (try_io (send_with_retries ixs label) ≫= f) s sells.
Proof.
  intros S L F. apply wp_bind, wp_try. eapply wp_mono; [by eapply wp_send_sale|]. cbv beta.
  intros r s' [es' S']. by eapply F.
Qed.

Lemma clamp_leg_spec pre c raw lc :
  clamp_leg pre c = (raw, lc) -> exists over, clamp_sell pre (Some c) = (raw, over).
Proof.
  unfold clamp_leg. destruct (clamp_sell pre (Some c)) as [clamped over]. intros [= <- _]. by exists over.
Qed.

Lemma keeps_drain_leg ata_a kind slip leg t : keeps (drain_leg m ata_a kind slip leg t : Io W _).
Proof.
  intros s es S. unfold drain_leg. apply wp_bind, (wp_raw _ _ _ _ S). intros pre s1 es1 U S1 _. cbv beta iota.
  destruct (pre =? 0); [eapply sells_ret; eauto|]. apply wp_bind, (wp_read_curve _ _ _ S1).
  intros [c|e] s2 es2 S2 V U2; cbv beta iota; [|eapply sells_ret; eauto].
  destruct (bc_curve_complete c) eqn:Complete.
  { revert S2. generalize s2, es2. change (keeps (jup ← sell_tokens_post_graduation m ata_a pre pre true slip kind;
      mret (inr (add_receipt t jup)) : Io W (DrainTotals + DrainTotals))). keeps_auto. }
  destruct (clamp_leg pre c) as [raw lc] eqn:C. apply clamp_leg_spec in C as [over C].
  destruct (Z.eqb_spec raw 0) as [|N]; [eapply sells_ret; eauto|]. cbv zeta.
  apply wp_bind, wp_broker. cbv beta iota. rewrite (since_wallet _ _ S2). apply wp_bind, wp_sell_ix.
  intros i E. eapply wp_sent_sale; [exact S2| |].
  - apply Forall_app. split; [apply prelude_allowed|]. apply Forall_singleton. right. rewrite V.
    by eapply clamped_sale.
  - intros [sig|e]; [|destruct (curve_complete_error e); keeps_auto].
    apply keeps_bind; [by apply keeps_poll|]. keeps_auto.
Qed.

Lemma keeps_for_each {X T} (l : list X) (body : X -> T -> Io W (T + T)) t :
  (forall x t', keeps (body x t')) -> keeps (for_each l body t).
Proof.
  intros B. revert t. induction l as [|x l IH]; intros t; cbn [for_each]; [keeps_auto|].
  apply keeps_bind; [apply B|]. intros [t'|t']; [apply IH|keeps_auto].
Qed.

Lemma keeps_drain ata_a kind slip sig :
  keeps (drain_pump_ata_after_clamped_full_exit m ata_a kind slip sig : Io W _).
Proof.
  unfold drain_pump_ata_after_clamped_full_exit. apply keeps_bind; [apply keeps_for_each, keeps_drain_leg|].
  intros t. apply keeps_bind; [apply keeps_reads, reads_raw_or_zero|]. intros rem.
  destruct (rem =? 0); [|keeps_auto]. apply keeps_broker. intros b ->. cbv zeta.
  apply keeps_bind; [apply keeps_send, close_housekeeping|]. intros csig.
  apply keeps_bind; [by apply keeps_poll|]. keeps_auto.
Qed.

(** *** The sell itself *)

(** the plan of a sell agrees with the curve as it was seen *)
Definition planned (creator : Address) (cashback : bool) (seen : option BondingCurveState) (plan : SellPlan) : Prop :=
  plan_jupiter plan = false -> 0 < plan_raw plan -> forall kind i,
  pump_sell m wallet creator (token_program_of kind) (plan_raw plan)
    (sips_from_float NATIVE_SOL_PRECISION 0%float) cashback = Ret i ->
  safe_sale m wallet seen (into_solana i).

Lemma sell_plan_planned amount close seen price creator :
  match seen with Some c => curve_u64 c /\ creator = bc_creator c | None => True end ->
  planned creator (default false (bc_is_cashback_coin <$> seen)) seen (sell_plan amount close seen price).
Proof.
  intros U. unfold planned, sell_plan. set (t := f64_as_u64 _).
  assert (in_u 64 t) as T.
  { unfold t, f64_as_u64, in_u. pose proof (f64_to_int_range 0 U64_MAX (f64_round (amount * 1000000)%float) ltac:(done)).
    unfold U64_MAX in *. lia. }
  destruct (clamp_sell t seen) as [raw clamped] eqn:C. cbn [plan_jupiter plan_raw]. intros J N kind i E.
  destruct seen as [c|]; cbn [fmap option_fmap option_map default] in *.
  - destruct U as [U ->]. destruct (bc_curve_complete c) eqn:Complete.
    { cbn in J. destruct (Z.ltb_spec 0 raw); [done|lia]. }
    eapply clamped_sale; [done|exact T|exact C|lia|done|exact E].
  - cbn in C. injection C as <- _. exists creator, kind, t, false, i. unfold in_u in T. by split_and!; try lia.
Qed.

Lemma wp_sell_on_curve ata_a kind slip creator cashback close plan s es :
  since s es -> planned creator cashback (curve_seen m es) plan -> plan_jupiter plan = false -> 0 <= plan_raw plan ->
  wp True (sell_on_curve m ata_a kind slip creator cashback close plan) s sells.
Proof.
  intros S Pl J R. unfold sell_on_curve. apply wp_bind, wp_broker. cbv beta iota zeta. rewrite (since_wallet _ _ S).
  apply wp_bind. apply (wp_mono True _ _ (fun r s' => s' = s /\ exists sales, r = Ok sales /\ Forall (allowed es) sales)).
  { destruct (Z.ltb_spec 0 (plan_raw plan)); [|by apply wp_ret; eauto]. apply wp_bind, wp_sell_ix. intros i E.
    apply wp_ret. split; [done|]. eexists. split; [done|]. apply Forall_singleton. right. by eapply Pl. }
  cbv beta. intros r s' (-> & sales & -> & L).
  assert (forall cfg, Forall (allowed es) (compute_budget_prelude cfg ++ sales
    ++ (if plan_close_ata plan then [close_account_ix kind ata_a wallet wallet] else []))) as LA.
  { intros cfg. apply Forall_app; split; [apply prelude_allowed|]. apply Forall_app; split; [done|].
    destruct (plan_close_ata plan); [|done]. apply Forall_singleton. left. right. right. by eexists _, _. }
  destruct (_ || _); [by eapply sells_throw|]. apply wp_bind, (wp_raw _ _ _ _ S). intros pre s1 es1 _ S1 V.
  cbv beta iota. eapply wp_sent_sale; [exact S1| |].
  - unfold allowed in *. rewrite V. apply LA.
  - intros [sig|e].
    + apply keeps_bind; [by apply keeps_poll|]. intros _. apply keeps_bind; [keeps_auto|]. intros act.
      destruct (_ && _); [|keeps_auto]. apply keeps_bind; [apply keeps_drain|]. keeps_auto.
    + destruct (curve_complete_error e); [|keeps_auto]. destruct (_ || _); keeps_auto.
Qed.

Lemma sell_plan_raw_nonneg amount close seen price :
  match seen with Some c => curve_u64 c | None => True end -> 0 <= plan_raw (sell_plan amount close seen price).
Proof.
  intros U. unfold sell_plan. set (t := f64_as_u64 _).
  assert (in_u 64 t) as T.
  { unfold t, f64_as_u64, in_u. pose proof (f64_to_int_range 0 U64_MAX (f64_round (amount * 1000000)%float) ltac:(done)).
    unfold U64_MAX in *. lia. }
  destruct (clamp_sell t seen) as [raw clamped] eqn:C. cbn [plan_raw]. destruct seen as [c|].
  - destruct U as [U1 U2 U3]. by destruct (clamp_sell_spec _ _ _ _ T U1 U2 U3 C) as (_ & [? _] & _).
  - injection C as <- _. apply T.
Qed.

Lemma reads_sell_amount ata_a amount close : reads True (sell_amount m ata_a amount close : Io W _).
Proof.
  unfold sell_amount. apply reads_bind.
  - destruct close; [|apply reads_ret]. apply reads_bind; [apply reads_try, reads_raw_with_decimals|]. reads_auto.
  - intros chain. reads_auto.
Qed.

Lemma wp_live_sell amount pool close : wp True (live_sell m amount pool close) s0 sells.
Proof.
  assert (since s0 []) as S0.
  { split; [done..| |apply guarded_nil]. by rewrite app_nil_r. }
  unfold live_sell.
  assert (forall s es, since s es -> forall {A B} (io : Io W A) (f : A -> Io W B), reads True io ->
    (forall a s1 es1, since s1 es1 -> wp True (f a) s1 sells) -> wp True (io ≫= f) s sells) as Step.
  { intros s es S A B io f R F. apply wp_bind. eapply wp_mono; [by eapply keeps_reads|]. cbv beta.
    intros [a|e] s1 [es1 S1]; [by eapply F|by exists es1]. }
  eapply Step; [exact S0|apply reads_mint_token_kind|]. intros kind s1 es1 S1.
  apply wp_bind, wp_broker. cbv beta iota. rewrite (since_wallet _ _ S1).
  eapply Step; [exact S1|by apply reads_ata|]. intros ata_a s2 es2 S2.
  eapply Step; [exact S2|apply reads_sell_amount|]. intros actual s3 es3 S3. cbv zeta.
  apply wp_bind, (wp_read_curve _ _ _ S3). intros r s4 es4 S4 V U. cbv beta iota.
  set (seen := match r with Ok c => Some c | Err _ => None end) in *.
  apply wp_bind. apply (wp_mono True _ _ (fun creator s' => s' = s4 /\
    exists a, creator = Ok a /\ match seen with Some c => curve_u64 c /\ a = bc_creator c | None => True end)).
  { destruct r as [c|e]; cbn [seen]; subst seen; cbv iota; [by apply wp_ret; eauto|].
    apply wp_outcome; [|done]. eauto. }
  cbv beta. intros ? s' (-> & creator & -> & Cr).
  apply wp_bind. apply (wp_mono True _ _ (fun price s' => s' = s4 /\ exists x, price = Ok x)).
  { destruct seen; [apply wp_ret; eauto|]. apply wp_outcome; [|done]. eauto. }
  cbv beta. intros ? s' (-> & price & ->). set (plan := sell_plan actual close seen price).
  destruct (plan_jupiter plan) eqn:J.
  - apply wp_bind, (wp_raw _ _ _ _ S4). intros pre s5 es5 _ S5 _. by eapply keeps_jupiter.
  - eapply wp_sell_on_curve; [exact S4| |exact J|].
    + rewrite V. by apply sell_plan_planned.
    + apply sell_plan_raw_nonneg. destruct seen; [apply Cr|done].
Qed.
End Call.

(** C14: a sell of the live broker ends, unless the code panics, and keeps to its
    guard whatever the chain and Jupiter answer: only the balance of the broker
    can have changed, and in every transaction it signs and sends, on whatever
    leg of a draining exit, each instruction is a compute budget, the closing of
    an account to the wallet, or a sale to the creator of the curve, not after
    the curve's end, of a positive [u64] amount whose proceeds, by the curve as
    it was last read in this very sell, are at most 90% of its real SOL *)
Theorem sell_submits_safely m amount pool close s :
  match live_sell m amount pool close s with
  | Done _ s' => exists es,
      lv_trace s' = lv_trace s ++ es /\ guarded (sale_ok m (sb_wallet_address (lv_broker s))) es /\
      lv_broker s' = lv_broker s <| sb_balance := sb_balance (lv_broker s') |>
  | Crash _ => True
  | Hang => False
  end.
Proof.
  pose proof (wp_live_sell m s amount pool close) as K. unfold wp, sells in K.
  destruct (live_sell m amount pool close s) as [r s'|p|]; [|done|done].
  destruct K as (es & [A B D T G]). exists es. split; [done|]. split; [done|].
  destruct (lv_broker s') as [w cfg bal ps], (lv_broker s) as [w' cfg' bal' ps']. cbn in *. by subst.
Qed.
End Selling.

(** ** Sells against the node *)

(** what a transaction sells: on the curve, or the text Jupiter was asked to sell *)
Definition sale_of (e : TraceEvent) : option (Z + list Z) :=
  match submission e with
  | Some (Broadcast (LegacyTx ixs _)) => Some (inl (sold_on_curve ixs))
  | Some (Broadcast (VersionedTx signed)) => Some (inr signed)
  | _ => None
  end.

(** a full exit of an account too large for the curve *)
Local Abbreviation demo_exit :=
  (live_sell DEMO_MINT 0 node_pool true (node_state 50000000000000 fresh_curve false)).

Example demo_exit_runs :
  match demo_exit with
  | Done (Ok receipt) s' =>
      sr_signature receipt = Some "sig5"%string /\ nd_tokens (lv_world s') = 0 /\
      omap sale_of (lv_trace s') = [inl 16340101522842; inl 16340101522842; inl 16340101522842; inl 979695431474; inl 0]
  | _ => False
  end.
Proof. vm_compute. by split. Qed.

Lemma sell_submits_safely_witness :
  match demo_exit with
  | Done _ s' => exists es,
      (lv_trace s' = es /\ guarded (sale_ok DEMO_MINT 42%N) es) /\ nd_tokens (lv_world s') = 0
  | _ => False
  end.
Proof.
  pose proof (sell_submits_safely DEMO_MINT 0 node_pool true (node_state 50000000000000 fresh_curve false)) as T.
  pose proof demo_exit_runs as E.
  destruct (live_sell DEMO_MINT 0 node_pool true _) as [r s'|p|]; [|done|done].
  destruct T as (es & T & G & _). exists es. split; [by split|]. destruct r as [receipt|e]; [apply E|done].
Defined.

(** A partial sell of a complete curve over Jupiter while the balance cannot be
    read: the sale of five million tokens is accepted, its confirmation fails,
    and a quarter of the amount is sold again. *)
Example jupiter_sells_again :
  match live_sell DEMO_MINT 5000000 node_pool false
          (node_state 50000000000000 (mkCurve 1073000000000000 30000000000 793100000000000 500000000 7%N false true) true) with
  | Done (Err (JupiterSellExhausted _)) s' =>
      omap sale_of (lv_trace s') = [inr (bytes_of_string "5000000000000"); inr (bytes_of_string "1250000000000")]
  | _ => False
  end.
Proof. vm_compute. reflexivity. Qed.
