(* ===== verification/Storage.v ===== *)
(** The write path to the database: the batched queue of
    [persistence/write_queue.rs], the tape row of [persistence/coin_mcap_tape.rs]
    and the actor of [setup/waiter.rs] that keeps the trades of a token behind
    its row.

    The worker of the queue and the actor are folds over what reaches them; the
    database itself is outside: a write is an effect. *)
From S2P Require Import Prelude Amounts Pump Swarm.

(** ** Rows *)

(* persistence/coin_mcap_tape.rs 7-7: MCAP_ABS_MAX *)
Definition MCAP_ABS_MAX : f64 := 200000%float.

(* persistence/coin_mcap_tape.rs 9-11: mcap_valid *)
Definition mcap_valid (mcap : f64) : bool :=
  f64_is_finite mcap && (0 <? mcap)%float && (mcap <=? MCAP_ABS_MAX)%float.

(* persistence/coin_mcap_tape.rs 14-19: TapeRow *)
Record TapeRow := mkTapeRow {
  tr_coin_address : string; tr_ts_unix : Z; tr_mcap_sol : f64; tr_source : string }.

(* persistence/coin_mcap_tape.rs 29-39: tape_row *)
Definition tape_row (now : Z) (coin_address : string) (mcap_sol : f64) (source : string) : option TapeRow :=
  if negb (mcap_valid mcap_sol) then None else Some (mkTapeRow coin_address now mcap_sol source).

(* persistence/traders.rs 7-16: TraderEntry *)
Record TraderEntry := mkTraderEntry {
  en_trader_address : string;
  en_coin_address : string;
  en_realized_pnl : f64;
  en_slot : Z;
  en_is_buy : bool;
  en_market_cap : Currency;
  en_currency : Currency;
  en_role : TraderType
}.

(** ** The write queue *)

(* persistence/write_queue.rs 19-19: CHANNEL_CAP *)
Definition CHANNEL_CAP : Z := 32768.
(* persistence/write_queue.rs 20-20: FLUSH_INTERVAL_MS *)
Definition FLUSH_INTERVAL_MS : Z := 150.
(* persistence/write_queue.rs 21-21: FLUSH_MAX_OPS *)
Definition FLUSH_MAX_OPS : nat := 64.

(* persistence/write_queue.rs 23-30: WriteOp *)
Inductive WriteOp :=
  | Tape (coin : string) (mcap_sol : f64) (source : string)
  | TradeOp (entry : TraderEntry).

(* persistence/write_queue.rs 32-37: WriteQueueMetrics *)
Record WriteQueueMetrics := mkWriteQueueMetrics {
  wq_enqueued : Z; wq_dropped : Z; wq_flushed_ops : Z; wq_flush_batches : Z }.
#[export] Instance WriteQueueMetrics_settable : Settable WriteQueueMetrics := fun r =>
  mkWriteQueueMetrics (wq_enqueued r) (wq_dropped r) (wq_flushed_ops r) (wq_flush_batches r).

(* persistence/write_queue.rs 40-47: WriteQueueMetrics::default *)
Definition write_queue_metrics_new : WriteQueueMetrics := mkWriteQueueMetrics 0 0 0 0.

(** statements sent to the database *)
Inductive DbWrite :=
  | InsertTape (rows : list TapeRow)
  | SaveTrade (entry : TraderEntry).

(** the channel, the buffer of the worker, the counters and what was written *)
Record WriteQueue := mkWriteQueue {
  wq_channel : list WriteOp;
  wq_buf : list WriteOp;
  wq_metrics : WriteQueueMetrics;
  wq_written : list DbWrite
}.
#[export] Instance WriteQueue_settable : Settable WriteQueue := fun r =>
  mkWriteQueue (wq_channel r) (wq_buf r) (wq_metrics r) (wq_written r).

(* persistence/write_queue.rs 61-66: PersistenceWriteQueue::spawn *)
Definition write_queue_new : WriteQueue := mkWriteQueue [] [] write_queue_metrics_new [].

Definition rows_of (now : Z) (ops : list WriteOp) : list TapeRow :=
  omap (fun op => match op with Tape coin mcap source => tape_row now coin mcap source | TradeOp _ => None end) ops.

Definition trades_of (ops : list WriteOp) : list TraderEntry :=
  omap (fun op => match op with TradeOp e => Some e | Tape _ _ _ => None end) ops.

(** one batch: the valid tape rows in one statement, then the trades in order *)
(* persistence/write_queue.rs 131-172: flush_batch *)
Definition flush_batch (now : Z) (q : WriteQueue) : WriteQueue :=
  let n := Z.of_nat (length (wq_buf q)) in
  let tape_rows := rows_of now (wq_buf q) in
  let trade_ops := trades_of (wq_buf q) in
  let tape := match tape_rows with [] => [] | _ => [InsertTape tape_rows] end in
  q <| wq_metrics := wq_metrics q <| wq_flush_batches := u64 (wq_flush_batches (wq_metrics q) + 1) |>
                                 <| wq_flushed_ops := u64 (wq_flushed_ops (wq_metrics q) + n) |> |>
    <| wq_buf := [] |>
    <| wq_written := wq_written q ++ tape ++ (SaveTrade <$> trade_ops) |>.

Definition flush_pending (now : Z) (q : WriteQueue) : WriteQueue :=
  match wq_buf q with [] => q | _ => flush_batch now q end.

(* persistence/write_queue.rs 120-128: PersistenceWriteQueue::try_send *)
Definition try_send (op : WriteOp) (q : WriteQueue) : WriteQueue :=
  let m := wq_metrics q <| wq_enqueued := u64 (wq_enqueued (wq_metrics q) + 1) |> in
  if Z.of_nat (length (wq_channel q)) <? CHANNEL_CAP
  then q <| wq_metrics := m |> <| wq_channel := wq_channel q ++ [op] |>
  else q <| wq_metrics := m <| wq_dropped := u64 (wq_dropped m + 1) |> |>.

(** the worker takes the next operation off the channel and flushes a full buffer *)
(* persistence/write_queue.rs 74-81: PersistenceWriteQueue::spawn *)
Definition receive_op (now : Z) (q : WriteQueue) : WriteQueue :=
  match wq_channel q with
  | [] => q
  | op :: channel =>
      let q := q <| wq_channel := channel |> <| wq_buf := wq_buf q ++ [op] |> in
      if (FLUSH_MAX_OPS <=? length (wq_buf q))%nat then flush_batch now q else q
  end.

(** what happens to the queue, in any order: an operation is sent, the worker
    receives one, its timer fires *)
Inductive QueueEvent := QSend (op : WriteOp) | QReceive (now : Z) | QDeadline (now : Z).

(* persistence/write_queue.rs 67-102: PersistenceWriteQueue::spawn *)
Definition queue_step (q : WriteQueue) (e : QueueEvent) : WriteQueue :=
  match e with
  | QSend op => try_send op q
  | QReceive now => receive_op now q
  | QDeadline now => flush_pending now q
  end.

Definition queue_run (es : list QueueEvent) (q : WriteQueue) : WriteQueue := List.fold_left queue_step es q.

(** every sender is gone: the worker drains the channel and flushes the rest *)
(* persistence/write_queue.rs 82-93: PersistenceWriteQueue::spawn *)
Definition queue_close (now : Z) (q : WriteQueue) : WriteQueue :=
  flush_pending now (Nat.iter (length (wq_channel q)) (receive_op now) q).

(** ** The waiter *)

(** a oneshot sender is a number; releasing it is an effect *)
(* setup/waiter.rs 5-8: WaiterMessage *)
Inductive WaiterMessage :=
  | NotifyCreated (a : Address)
  | WaitUntilCreated (a : Address) (reply : nat).

(* setup/waiter.rs 10-13: TokenState *)
Inductive TokenState := Created | Waiting (waiters : list nat).

(** the senders released by a message, with the token they waited for *)
(* setup/waiter.rs 31-59: DatabaseCreateWaiter::run *)
Definition waiter_step (state : gmap Address TokenState) (m : WaiterMessage)
    : gmap Address TokenState * list (Address * nat) :=
  match m with
  | NotifyCreated a =>
      (<[a := Created]> (delete a state),
       match state !! a with Some (Waiting waiters) => (a,.) <$> waiters | _ => [] end)
  | WaitUntilCreated a reply =>
      match state !! a with
      | Some Created => (state, [(a, reply)])
      | Some (Waiting waiters) => (<[a := Waiting (waiters ++ [reply])]> state, [])
      | None => (<[a := Waiting [reply]]> state, [])
      end
  end.

Fixpoint waiter_run (state : gmap Address TokenState) (ms : list WaiterMessage)
    : gmap Address TokenState * list (Address * nat) :=
  match ms with
  | [] => (state, [])
  | m :: ms =>
      let '(state, out) := waiter_step state m in
      let '(state, rest) := waiter_run state ms in (state, out ++ rest)
  end.

(** ** Nothing accepted is lost *)

(** what an operation sends to the database once it is flushed *)
Definition tapes_of (ops : list WriteOp) : list (string * f64 * string) :=
  omap (fun op => match op with
                  | Tape coin mcap source => if mcap_valid mcap then Some (coin, mcap, source) else None
                  | TradeOp _ => None
                  end) ops.

Definition saved (ws : list DbWrite) : list TraderEntry :=
  omap (fun w => match w with SaveTrade e => Some e | InsertTape _ => None end) ws.

Definition taped (ws : list DbWrite) : list (string * f64 * string) :=
  ws ≫= fun w => match w with
                 | InsertTape rows => (fun r => (tr_coin_address r, tr_mcap_sol r, tr_source r)) <$> rows
                 | SaveTrade _ => []
                 end.

(** the operations the channel had room for, and the sends *)
Definition accepted_now (e : QueueEvent) (q : WriteQueue) : list WriteOp :=
  match e with
  | QSend op => if Z.of_nat (length (wq_channel q)) <? CHANNEL_CAP then [op] else []
  | _ => []
  end.

Fixpoint accepted (es : list QueueEvent) (q : WriteQueue) : list WriteOp :=
  match es with [] => [] | e :: es => accepted_now e q ++ accepted es (queue_step q e) end.

Definition sends_now (e : QueueEvent) : Z := match e with QSend _ => 1 | _ => 0 end.

Fixpoint sends (es : list QueueEvent) : Z :=
  match es with [] => 0 | e :: es => sends_now e + sends es end.

(** [done] is flushed, the rest of the accepted operations is in the buffer and
    the channel *)
Record queue_ok (acc done : list WriteOp) (sent : Z) (q : WriteQueue) : Prop := {
  qo_split : acc = done ++ wq_buf q ++ wq_channel q;
  qo_saved : saved (wq_written q) = trades_of done;
  qo_taped : taped (wq_written q) = tapes_of done;
  qo_flushed : wq_flushed_ops (wq_metrics q) = u64 (Z.of_nat (length done));
  qo_enqueued : wq_enqueued (wq_metrics q) = u64 sent;
  qo_dropped : wq_dropped (wq_metrics q) = u64 (sent - Z.of_nat (length acc));
  qo_buf : (length (wq_buf q) < FLUSH_MAX_OPS)%nat;
  qo_channel : Z.of_nat (length (wq_channel q)) <= CHANNEL_CAP
}.

Lemma wrap_add a n : u64 (u64 a + n) = u64 (a + n).
Proof. unfold wrap_u. by rewrite Zplus_mod_idemp_l. Qed.

Lemma saved_trades es : saved (SaveTrade <$> es) = es.
Proof. unfold saved. induction es as [|e es IH]; [done|]. cbn. by f_equal. Qed.

Lemma taped_trades es : taped (SaveTrade <$> es) = [].
Proof. unfold taped. by induction es. Qed.

Lemma rows_tapes now ops :
  (fun r => (tr_coin_address r, tr_mcap_sol r, tr_source r)) <$> rows_of now ops = tapes_of ops.
Proof.
  unfold rows_of, tapes_of, tape_row. induction ops as [|[coin mcap src|e] ops IH]; cbn; [done| |done].
  destruct (mcap_valid mcap); cbn; [by rewrite IH|done].
Qed.

Lemma flush_batch_written now q :
  saved (wq_written (flush_batch now q)) = saved (wq_written q) ++ trades_of (wq_buf q) /\
  taped (wq_written (flush_batch now q)) = taped (wq_written q) ++ tapes_of (wq_buf q).
Proof.
  cbn. unfold saved, taped. rewrite !omap_app, !bind_app.
  fold (saved (SaveTrade <$> trades_of (wq_buf q))) (taped (SaveTrade <$> trades_of (wq_buf q))).
  rewrite saved_trades, taped_trades, <- (rows_tapes now), app_nil_r.
  destruct (rows_of now (wq_buf q)) as [|r rs]; cbn; [done|]. by rewrite app_nil_r.
Qed.

Lemma flush_batch_ok acc done sent now q chan :
  wq_channel q = chan -> acc = done ++ wq_buf q ++ chan ->
  saved (wq_written q) = trades_of done -> taped (wq_written q) = tapes_of done ->
  wq_flushed_ops (wq_metrics q) = u64 (Z.of_nat (length done)) ->
  wq_enqueued (wq_metrics q) = u64 sent ->
  wq_dropped (wq_metrics q) = u64 (sent - Z.of_nat (length acc)) -> Z.of_nat (length chan) <= CHANNEL_CAP ->
  queue_ok acc (done ++ wq_buf q) sent (flush_batch now q).
Proof.
  intros Ec Ea Es Et Ef Ee Ed Hc. destruct (flush_batch_written now q) as [W1 W2].
  split.
  - cbn. by rewrite Ec, Ea, app_assoc.
  - rewrite W1, Es. unfold trades_of. by rewrite omap_app.
  - rewrite W2, Et. unfold tapes_of. by rewrite omap_app.
  - cbn. rewrite Ef, wrap_add, length_app, Nat2Z.inj_add. done.
  - done.
  - done.
  - cbn. unfold FLUSH_MAX_OPS. lia.
  - cbn. by rewrite Ec.
Qed.

Lemma flush_pending_ok acc done sent now q :
  queue_ok acc done sent q -> queue_ok acc (done ++ wq_buf q) sent (flush_pending now q).
Proof.
  intros [? ? ? ? ? ? ? ?]. unfold flush_pending. destruct (wq_buf q) as [|op buf] eqn:B.
  - rewrite app_nil_r. split; rewrite ?B; done.
  - rewrite <- B. eapply flush_batch_ok; eauto. by rewrite B.
Qed.

Lemma receive_ok acc done sent now q :
  queue_ok acc done sent q -> exists done', queue_ok acc done' sent (receive_op now q).
Proof.
  intros [Q1 Q2 Q3 Q4 Q5 Q6 Q7 Q8]. unfold receive_op. destruct (wq_channel q) as [|op channel] eqn:Ch.
  { exists done. split; rewrite ?Ch; done. }
  set (q' := q <| wq_channel := channel |> <| wq_buf := wq_buf q ++ [op] |>).
  assert (acc = done ++ wq_buf q' ++ channel) as A by (cbn; by rewrite <- app_assoc).
  assert (Z.of_nat (length channel) <= CHANNEL_CAP) as L by (cbn [length] in Q8; lia).
  destruct (Nat.leb_spec FLUSH_MAX_OPS (length (wq_buf q'))) as [F|F].
  - exists (done ++ wq_buf q'). by eapply flush_batch_ok.
  - exists done. by split.
Qed.

Lemma queue_step_ok acc done sent q e :
  queue_ok acc done sent q ->
  exists done', queue_ok (acc ++ accepted_now e q) done' (sent + sends_now e) (queue_step q e).
Proof.
  intros Q. destruct e as [op|now|now]; cbn [accepted_now sends_now queue_step].
  - destruct Q as [Q1 Q2 Q3 Q4 Q5 Q6 Q7 Q8]. exists done. unfold try_send.
    destruct (Z.ltb_spec (Z.of_nat (length (wq_channel q))) CHANNEL_CAP); split; cbn; try done;
      rewrite ?app_nil_r, ?Q5, ?Q6, ?wrap_add, ?length_app; cbn [length]; try (f_equal; lia); try done; try lia.
    by rewrite Q1, <- !app_assoc.
  - rewrite app_nil_r, Z.add_0_r. by eapply receive_ok.
  - rewrite app_nil_r, Z.add_0_r. eexists. by apply flush_pending_ok.
Qed.

Lemma queue_run_ok es : forall acc done sent q, queue_ok acc done sent q ->
  exists done', queue_ok (acc ++ accepted es q) done' (sent + sends es) (queue_run es q).
Proof.
  induction es as [|e es IH]; intros acc done sent q Q.
  - exists done. cbn. by rewrite app_nil_r, Z.add_0_r.
  - destruct (queue_step_ok _ _ _ _ e Q) as [done' Q']. destruct (IH _ _ _ _ Q') as [done'' Q''].
    exists done''. cbn [accepted sends]. by rewrite app_assoc, Z.add_assoc.
Qed.

Lemma receive_channel now q : wq_channel (receive_op now q) = drop 1 (wq_channel q).
Proof. unfold receive_op. destruct (wq_channel q) as [|op ch] eqn:C; [done|]. 
  cbn zeta. by case_match. Qed.

Lemma receive_all_ok n : forall acc done sent now q, queue_ok acc done sent q ->
  exists done', queue_ok acc done' sent (Nat.iter n (receive_op now) q) /\
    wq_channel (Nat.iter n (receive_op now) q) = drop n (wq_channel q).
Proof.
  induction n as [|n IH]; intros acc done sent now q Q; [by exists done|].
  destruct (IH _ _ _ now _ Q) as (d & Q' & C). cbn [Nat.iter nat_rect].
  destruct (receive_ok _ _ _ now _ Q') as [d' Q'']. exists d'. split; [done|].
  rewrite receive_channel. change (nat_rect (fun _ => WriteQueue) q (fun _ => receive_op now) n)
    with (Nat.iter n (receive_op now) q). rewrite C, drop_drop. f_equal. lia.
Qed.

Lemma queue_new_ok : queue_ok [] [] 0 write_queue_new.
Proof. split; cbn; try done; unfold FLUSH_MAX_OPS, CHANNEL_CAP; lia. Qed.

(** the closed queue has flushed everything it accepted *)
Lemma queue_closed_ok es now :
  let acc := accepted es write_queue_new in
  let final := queue_close now (queue_run es write_queue_new) in
  queue_ok acc acc (sends es) final /\ wq_channel final = [] /\ wq_buf final = [].
Proof.
  intros acc final. set (q := queue_run es write_queue_new) in *.
  destruct (queue_run_ok es _ _ _ _ queue_new_ok) as [d Q]. fold q acc in Q. cbn [app] in Q.
  destruct (receive_all_ok (length (wq_channel q)) _ _ _ now _ Q) as (d' & Q' & C).
  rewrite drop_all in C. pose proof (flush_pending_ok _ _ _ now _ Q') as F.
  change (flush_pending now _) with final in F. set (q' := Nat.iter _ _ q) in *.
  assert (wq_channel final = [] /\ wq_buf final = []) as [E1 E2].
  { unfold final, queue_close, flush_pending. fold q'. destruct (wq_buf q') eqn:B; by split. }
  replace (0 + sends es) with (sends es) in F by lia.
  pose proof (qo_split _ _ _ _ F) as S. rewrite E1, E2, !app_nil_r in S. by rewrite <- S in F.
Qed.

Lemma queue_drained es now :
  let acc := accepted es write_queue_new in
  let final := queue_close now (queue_run es write_queue_new) in
  wq_channel final = [] /\ wq_buf final = [] /\
  saved (wq_written final) = trades_of acc /\ taped (wq_written final) = tapes_of acc.
Proof. intros acc final. destruct (queue_closed_ok es now) as ([] & ? & ?). done. Qed.

(** whatever the order of sends, receptions and timer ticks, once the queue
    is closed every accepted trade is handed to the repository exactly once and
    in order, every accepted valid tape row is in exactly one insert and in order, nothing is
    left in the buffer, and the counters are the sends, the refused sends and
    the flushed operations modulo 2^64 *)
Theorem queue_conserves es now :
  let q := queue_run es write_queue_new in
  let acc := accepted es write_queue_new in
  let n := Z.of_nat (length acc) in
  let final := queue_close now q in
  (length (wq_buf q) < FLUSH_MAX_OPS)%nat /\ Z.of_nat (length (wq_channel q)) <= CHANNEL_CAP /\
  wq_channel final = [] /\ wq_buf final = [] /\
  saved (wq_written final) = trades_of acc /\ taped (wq_written final) = tapes_of acc /\
  wq_enqueued (wq_metrics final) = u64 (sends es) /\
  wq_dropped (wq_metrics final) = u64 (sends es - n) /\
  wq_flushed_ops (wq_metrics final) = u64 n.
Proof.
  intros q acc n final. destruct (queue_closed_ok es now) as (F & E1 & E2).
  destruct (queue_run_ok es _ _ _ _ queue_new_ok) as [d Q]. fold q in Q.
  split; [apply Q|]. split; [apply Q|]. destruct F. done.
Qed.

(** ** Every waiter of a created token is released *)

(** the senders that wait for a token, and the ones released for it *)
Definition waits_of (a : Address) (ms : list WaiterMessage) : list nat :=
  omap (fun m => match m with
                 | WaitUntilCreated b r => if decide (b = a) then Some r else None
                 | NotifyCreated _ => None
                 end) ms.

Definition released (a : Address) (out : list (Address * nat)) : list nat :=
  omap (fun o : Address * nat => if decide (o.1 = a) then Some o.2 else None) out.

Fixpoint is_notified (a : Address) (ms : list WaiterMessage) : bool :=
  match ms with
  | [] => false
  | NotifyCreated b :: ms => bool_decide (b = a) || is_notified a ms
  | WaitUntilCreated _ _ :: ms => is_notified a ms
  end.

(** what a state still owes the waiters of a token *)
Definition answers (st : option TokenState) (a : Address) (ms : list WaiterMessage) : list nat :=
  match st with
  | Some Created => waits_of a ms
  | Some (Waiting ws) => if is_notified a ms then ws ++ waits_of a ms else []
  | None => if is_notified a ms then waits_of a ms else []
  end.

Lemma released_app a xs ys : released a (xs ++ ys) = released a xs ++ released a ys.
Proof. unfold released. by rewrite omap_app. Qed.

Lemma released_same a (ws : list nat) : released a ((a,.) <$> ws) = ws.
Proof. induction ws as [|w ws IH]; [done|]. unfold released in *. cbn. rewrite decide_True by done. by f_equal. Qed.

Lemma released_other a b (ws : list nat) : b <> a -> released a ((b,.) <$> ws) = [].
Proof. intros N. induction ws as [|w ws IH]; [done|]. unfold released in *. cbn. by rewrite decide_False. Qed.

(** messages about other tokens touch neither the state nor the answers *)
Definition about (m : WaiterMessage) : Address :=
  match m with NotifyCreated a => a | WaitUntilCreated a _ => a end.

Lemma waiter_step_other state m a : about m <> a ->
  fst (waiter_step state m) !! a = state !! a /\ released a (snd (waiter_step state m)) = [].
Proof.
  intros N. destruct m as [b|b r]; cbn in N |- *.
  - split; [rewrite lookup_insert_ne, lookup_delete_ne; done|].
    destruct (state !! b) as [[|ws]|]; cbn; try done. by apply released_other.
  - assert (released a [(b, r)] = []) as R by (unfold released; cbn; by rewrite decide_False).
    destruct (state !! b) as [[|ws]|]; cbn; split; try done; by rewrite lookup_insert_ne.
Qed.

Lemma answers_other st m ms a : about m <> a -> answers st a (m :: ms) = answers st a ms.
Proof.
  intros N. destruct m as [b|b r]; cbn in N; unfold answers, waits_of; cbn.
  - by rewrite (bool_decide_false _ N).
  - by rewrite (decide_False (P := b = a) _ _ N).
Qed.

Lemma waiter_step_same state m ms a : about m = a ->
  released a (snd (waiter_step state m)) ++ answers (fst (waiter_step state m) !! a) a ms =
  answers (state !! a) a (m :: ms).
Proof.
  intros <-. destruct m as [b|b r]; cbn [about].
  - cbn [waiter_step fst snd]. rewrite lookup_insert_eq. unfold answers. cbn [is_notified].
    rewrite (bool_decide_true (b = b)) by done.
    destruct (state !! b) as [[|ws]|]; cbn [orb]; try done. by rewrite released_same.
  - assert (waits_of b (WaitUntilCreated b r :: ms) = r :: waits_of b ms) as W
      by (unfold waits_of; cbn; by rewrite decide_True).
    assert (released b [(b, r)] = [r]) as R by (unfold released; cbn; by rewrite decide_True).
    cbn [waiter_step]. destruct (state !! b) as [[|ws]|] eqn:S; cbn [fst snd]; rewrite ?lookup_insert_eq, ?S, ?R;
      cbn [answers is_notified app]; rewrite W; try done;
      destruct (is_notified b ms); cbn; by rewrite <- ?app_assoc.
Qed.

Lemma waiter_run_answers a ms : forall state,
  released a (snd (waiter_run state ms)) = answers (state !! a) a ms.
Proof.
  induction ms as [|m ms IH]; intros state.
  - cbn. destruct (state !! a) as [[|ws]|]; done.
  - cbn [waiter_run]. destruct (waiter_step state m) as [s' out] eqn:E.
    specialize (IH s'). destruct (waiter_run s' ms) as [s'' rest] eqn:E'. cbn [snd] in IH |- *.
    rewrite released_app, IH. destruct (decide (about m = a)) as [D|D].
    + rewrite <- (waiter_step_same state m ms a D), E. done.
    + destruct (waiter_step_other state m a D) as [S R]. rewrite E in S, R. cbn [fst snd] in S, R.
      by rewrite S, R, answers_other.
Qed.

(** the actor releases, for every token, exactly the senders that waited
    for it, each once and in the order in which they asked, when the creation
    of the token is announced at any time, before or after them; and none when
    it never is *)
Theorem waiter_answers a ms :
  released a (snd (waiter_run ∅ ms)) = if is_notified a ms then waits_of a ms else [].
Proof. by rewrite waiter_run_answers, lookup_empty. Qed.
