(* ===== verification/PostExit.v ===== *)
(** The samples taken after a position is closed: [autobuy/post_exit_tracker.rs]
    and the state and metrics of [persistence/bot_trade_post_exit.rs].

    The two price probes are outside: what they answer at a checkpoint is an
    argument. *)
From S2P Require Import Prelude.

(** ** The probes *)

(* autobuy/post_exit_tracker.rs 20-24: PostExitMcapSource *)
Inductive PostExitMcapSource := SourceBonding | SourceJupiter.

(* autobuy/post_exit_tracker.rs 27-32: PostExitMcapSource::as_str *)
Definition post_exit_source_str (s : PostExitMcapSource) : string :=
  match s with SourceBonding => "bonding" | SourceJupiter => "jupiter" end.

(* autobuy/post_exit_tracker.rs 36-36: OPEN_EXIT_JUPITER_DIVERGENCE_RATIO *)
Definition OPEN_EXIT_JUPITER_DIVERGENCE_RATIO : f64 := 0.85%float.

(** [bonding] and [jupiter]: the answers of the two probes *)
(* autobuy/post_exit_tracker.rs 42-53: sample_post_exit_mcap *)
Definition sample_post_exit_mcap (bonding jupiter : option f64) : option (f64 * PostExitMcapSource) :=
  match bonding with
  | Some mcap => Some (mcap, SourceBonding)
  | None => (., SourceJupiter) <$> jupiter
  end.

Definition usable (m : f64) : bool := f64_is_finite m && (0 <? m)%float.
Definition only_usable (o : option f64) : option f64 :=
  match o with Some m => if usable m then Some m else None | None => None end.

(* autobuy/post_exit_tracker.rs 56-90: decide_open_exit_mcap *)
Definition decide_open_exit_mcap (bonding jupiter : option f64) (pool_raw_mcap : f64)
    (force_jupiter : bool) : f64 * bool :=
  if force_jupiter then
    match only_usable jupiter with
    | Some j => (j, true)
    | None => match only_usable bonding with Some b => (b, true) | None => (pool_raw_mcap, true) end
    end
  else
    match only_usable jupiter, only_usable bonding with
    | Some j, Some b =>
        if (j <? b * OPEN_EXIT_JUPITER_DIVERGENCE_RATIO)%float then (j, true) else (b, false)
    | j, b =>
        match bonding, j with
        | None, Some j => (j, true)
        | _, _ => match b with Some b => (b, false) | None => (pool_raw_mcap, false) end
        end
    end.

(** ** Samples and metrics *)

(* persistence/bot_trade_post_exit.rs 4-6: POST_EXIT_CHECKPOINT_SECS *)
Definition POST_EXIT_CHECKPOINT_SECS : list Z := [10; 30; 50; 70; 100; 180; 240; 300; 600; 900; 1800].

(* persistence/bot_trade_post_exit.rs 8-15: pct_from_exit *)
Definition pct_from_exit (exit_mcap_sol : f64) (mcap : option f64) : option f64 :=
  match mcap with
  | None => None
  | Some m =>
      if (0 <? exit_mcap_sol)%float && f64_is_finite m && (0 <? m)%float
      then Some ((m / exit_mcap_sol - 1) * 100)%float else None
  end.

(* persistence/bot_trade_post_exit.rs 95-112: PostExitSampleState *)
Record PostExitSampleState := mkPostExitSampleState {
  mcap_10s : option f64; mcap_30s : option f64; mcap_50s : option f64; mcap_70s : option f64;
  mcap_100s : option f64; mcap_180s : option f64; mcap_240s : option f64; mcap_300s : option f64;
  mcap_10m : option f64; mcap_15m : option f64; mcap_30m : option f64;
  max_mcap : option f64; min_mcap : option f64;
  time_to_max_secs : option Z; time_to_min_secs : option Z
}.
#[export] Instance PostExitSampleState_settable : Settable PostExitSampleState := fun r =>
  mkPostExitSampleState (mcap_10s r) (mcap_30s r) (mcap_50s r) (mcap_70s r) (mcap_100s r) (mcap_180s r)
    (mcap_240s r) (mcap_300s r) (mcap_10m r) (mcap_15m r) (mcap_30m r) (max_mcap r) (min_mcap r)
    (time_to_max_secs r) (time_to_min_secs r).

(* persistence/bot_trade_post_exit.rs 95-112: PostExitSampleState *)
Definition sample_state_default : PostExitSampleState :=
  mkPostExitSampleState None None None None None None None None None None None None None None None.

(* persistence/bot_trade_post_exit.rs 143-166: PostExitSampleState::update_extrema *)
Definition update_extrema (elapsed_secs : Z) (mcap : f64) (s : PostExitSampleState) : PostExitSampleState :=
  let s :=
    match max_mcap s with
    | None => s <| max_mcap := Some mcap |> <| time_to_max_secs := Some elapsed_secs |>
    | Some prev =>
        if (mcap >? prev)%float
        then s <| max_mcap := Some mcap |> <| time_to_max_secs := Some elapsed_secs |> else s
    end in
  match min_mcap s with
  | None => s <| min_mcap := Some mcap |> <| time_to_min_secs := Some elapsed_secs |>
  | Some prev =>
      if (mcap <? prev)%float
      then s <| min_mcap := Some mcap |> <| time_to_min_secs := Some elapsed_secs |> else s
  end.

(* persistence/bot_trade_post_exit.rs 116-120: PostExitSampleState::record_exit_baseline *)
Definition record_exit_baseline (exit_mcap_sol : f64) (s : PostExitSampleState) : PostExitSampleState :=
  if f64_is_finite exit_mcap_sol && (0 <? exit_mcap_sol)%float then update_extrema 0 exit_mcap_sol s else s.

(* persistence/bot_trade_post_exit.rs 122-141: PostExitSampleState::set_checkpoint *)
Definition set_checkpoint (checkpoint_secs : Z) (mcap : f64) (s : PostExitSampleState) : PostExitSampleState :=
  if negb (f64_is_finite mcap) || (mcap <=? 0)%float then s
  else
    let s := update_extrema checkpoint_secs mcap s in
    match checkpoint_secs with
    | 10 => s <| mcap_10s := Some mcap |>
    | 30 => s <| mcap_30s := Some mcap |>
    | 50 => s <| mcap_50s := Some mcap |>
    | 70 => s <| mcap_70s := Some mcap |>
    | 100 => s <| mcap_100s := Some mcap |>
    | 180 => s <| mcap_180s := Some mcap |>
    | 240 => s <| mcap_240s := Some mcap |>
    | 300 => s <| mcap_300s := Some mcap |>
    | 600 => s <| mcap_10m := Some mcap |>
    | 900 => s <| mcap_15m := Some mcap |>
    | 1800 => s <| mcap_30m := Some mcap |>
    | _ => s
    end.

(* persistence/bot_trade_post_exit.rs 18-51: PostExitMetrics *)
Record PostExitMetrics := mkPostExitMetrics {
  post_exit_mcap_10s : option f64; post_exit_mcap_30s : option f64; post_exit_mcap_50s : option f64;
  post_exit_mcap_70s : option f64; post_exit_mcap_100s : option f64; post_exit_mcap_180s : option f64;
  post_exit_mcap_240s : option f64; post_exit_mcap_300s : option f64; post_exit_mcap_5m : option f64;
  post_exit_mcap_10m : option f64; post_exit_mcap_15m : option f64; post_exit_mcap_30m : option f64;
  post_exit_max_mcap : option f64; post_exit_min_mcap : option f64;
  post_exit_time_to_max_secs : option Z; post_exit_time_to_min_secs : option Z;
  post_exit_pct_10s : option f64; post_exit_pct_30s : option f64; post_exit_pct_50s : option f64;
  post_exit_pct_70s : option f64; post_exit_pct_100s : option f64; post_exit_pct_180s : option f64;
  post_exit_pct_240s : option f64; post_exit_pct_300s : option f64; post_exit_pct_5m : option f64;
  post_exit_pct_10m : option f64; post_exit_pct_15m : option f64; post_exit_pct_30m : option f64;
  post_exit_max_pct : option f64; post_exit_min_pct : option f64
}.

(** [i64::try_from(s).unwrap_or(i64::MAX)] *)
Definition i64_or_max (s : Z) : Z := Z.min s I64_MAX.

(* persistence/bot_trade_post_exit.rs 54-92: PostExitMetrics::from_samples *)
Definition from_samples (exit_mcap_sol : f64) (samples : PostExitSampleState) : PostExitMetrics :=
  let m300 := mcap_300s samples in
  let pct := pct_from_exit exit_mcap_sol in
  {| post_exit_mcap_10s := mcap_10s samples;
     post_exit_mcap_30s := mcap_30s samples;
     post_exit_mcap_50s := mcap_50s samples;
     post_exit_mcap_70s := mcap_70s samples;
     post_exit_mcap_100s := mcap_100s samples;
     post_exit_mcap_180s := mcap_180s samples;
     post_exit_mcap_240s := mcap_240s samples;
     post_exit_mcap_300s := m300;
     post_exit_mcap_5m := m300;
     post_exit_mcap_10m := mcap_10m samples;
     post_exit_mcap_15m := mcap_15m samples;
     post_exit_mcap_30m := mcap_30m samples;
     post_exit_max_mcap := max_mcap samples;
     post_exit_min_mcap := min_mcap samples;
     post_exit_time_to_max_secs := i64_or_max <$> time_to_max_secs samples;
     post_exit_time_to_min_secs := i64_or_max <$> time_to_min_secs samples;
     post_exit_pct_10s := pct (mcap_10s samples);
     post_exit_pct_30s := pct (mcap_30s samples);
     post_exit_pct_50s := pct (mcap_50s samples);
     post_exit_pct_70s := pct (mcap_70s samples);
     post_exit_pct_100s := pct (mcap_100s samples);
     post_exit_pct_180s := pct (mcap_180s samples);
     post_exit_pct_240s := pct (mcap_240s samples);
     post_exit_pct_300s := pct m300;
     post_exit_pct_5m := pct m300;
     post_exit_pct_10m := pct (mcap_10m samples);
     post_exit_pct_15m := pct (mcap_15m samples);
     post_exit_pct_30m := pct (mcap_30m samples);
     post_exit_max_pct := pct (max_mcap samples);
     post_exit_min_pct := pct (min_mcap samples) |}.

(** ** The schedule *)

(** the samples, and how many came from each source or were missed *)
Record Tracking := mkTracking {
  tk_samples : PostExitSampleState; tk_bonding : Z; tk_jupiter : Z; tk_missed : Z }.
#[export] Instance Tracking_settable : Settable Tracking := fun r =>
  mkTracking (tk_samples r) (tk_bonding r) (tk_jupiter r) (tk_missed r).

(* autobuy/post_exit_tracker.rs 175-193: spawn_post_exit_tracking *)
Definition take_sample (t : Tracking) (c : Z * option (f64 * PostExitMcapSource)) : Tracking :=
  match c.2 with
  | Some (mcap, source) =>
      let t := t <| tk_samples := set_checkpoint c.1 mcap (tk_samples t) |> in
      match source with
      | SourceBonding => t <| tk_bonding := u32 (tk_bonding t + 1) |>
      | SourceJupiter => t <| tk_jupiter := u32 (tk_jupiter t + 1) |>
      end
  | None => t <| tk_missed := u32 (tk_missed t + 1) |>
  end.

(** [answers c]: what the probes answer at the checkpoint [c] *)
(* autobuy/post_exit_tracker.rs 162-196: spawn_post_exit_tracking *)
Definition post_exit_tracking (exit_mcap_sol : f64) (answers : Z -> option (f64 * PostExitMcapSource))
    : Tracking * PostExitMetrics :=
  let t := List.fold_left take_sample ((fun c => (c, answers c)) <$> POST_EXIT_CHECKPOINT_SECS)
             (mkTracking (record_exit_baseline exit_mcap_sol sample_state_default) 0 0 0) in
  (t, from_samples exit_mcap_sol (tk_samples t)).

(** ** The recorded extrema *)

(** [best], attained first at [at_], is the best of the samples [vs]: better
    than every earlier one, no later one is better *)
Definition first_best (better : f64 -> f64 -> bool) (vs : list (Z * f64)) (best : option f64) (at_ : option Z) : Prop :=
  match best, at_ with
  | Some m, Some t => exists l r, vs = l ++ (t, m) :: r /\
      Forall (fun v => better m v.2 = true) l /\ Forall (fun v => better v.2 m = false) r
  | None, None => vs = []
  | _, _ => False
  end.

Definition greater (x y : f64) : bool := (x >? y)%float.
Definition smaller (x y : f64) : bool := (x <? y)%float.

(** the usable samples, in order, with the market capitalisation at the exit
    first *)
Definition usable_samples (exit_mcap_sol : f64) (cs : list (Z * option (f64 * PostExitMcapSource)))
    : list (Z * f64) :=
  (if usable exit_mcap_sol then [(0, exit_mcap_sol)] else []) ++
  omap (fun c : Z * option (f64 * PostExitMcapSource) => match c.2 with Some (m, _) => if usable m then Some (c.1, m) else None | None => None end) cs.

Record extrema_of (vs : list (Z * f64)) (s : PostExitSampleState) : Prop := {
  eo_usable : Forall (fun v => usable v.2 = true) vs;
  eo_max : first_best greater vs (max_mcap s) (time_to_max_secs s);
  eo_min : first_best smaller vs (min_mcap s) (time_to_min_secs s)
}.

Lemma usable_pos m : usable m = true -> (0 <? m)%float = true.
Proof. unfold usable. by intros [_ H]%andb_prop. Qed.

(** what a strict order on the usable samples gives *)
Record order_on (better : f64 -> f64 -> bool) : Prop := {
  oo_trans : forall x y z, better x y = true -> better y z = true -> better x z = true;
  oo_weak : forall x y z, usable x = true -> usable y = true -> usable z = true ->
    better x y = true -> better z y = false -> better x z = true
}.

Lemma greater_order : order_on greater.
Proof.
  split; unfold greater.
  - intros x y z H1 H2. f64_order.
  - intros x y z ?%usable_pos ?%usable_pos ?%usable_pos H1 H2. f64_order.
Qed.

Lemma smaller_order : order_on smaller.
Proof.
  split; unfold smaller.
  - intros x y z H1 H2. f64_order.
  - intros x y z ?%usable_pos ?%usable_pos ?%usable_pos H1 H2. f64_order.
Qed.

(** a new sample becomes the best exactly when it is better than the best so far *)
Lemma first_best_step better vs m t t' m' :
  order_on better -> Forall (fun v => usable v.2 = true) vs -> usable m' = true ->
  first_best better vs (Some m) (Some t) ->
  first_best better (vs ++ [(t', m')]) (Some (if better m' m then m' else m)) (Some (if better m' m then t' else t)).
Proof.
  intros O Us Um (l & r & -> & L & R). apply Forall_app in Us as [Ul [Um0 Ur]%Forall_cons].
  destruct (better m' m) eqn:B.
  - exists (l ++ (t, m) :: r), []. split; [done|]. split; [|done].
    apply Forall_app. split; [|constructor; [done|]].
    + eapply Forall_impl; [exact L|]. intros v Lv. by eapply oo_trans.
    + rewrite Forall_forall in *. intros v V. apply (oo_weak _ O m' m v.2); auto.
  - exists l, (r ++ [(t', m')]). rewrite <- app_assoc. split; [done|]. split; [done|].
    apply Forall_app. split; [done|]. by repeat constructor.
Qed.

Lemma update_extrema_ok vs s t m :
  usable m = true -> extrema_of vs s -> extrema_of (vs ++ [(t, m)]) (update_extrema t m s).
Proof.
  intros Um [U Mx Mn]. split.
  - apply Forall_app. split; [done|]. by repeat constructor.
  - assert (max_mcap (update_extrema t m s) = match max_mcap s with
      | None => Some m | Some p => Some (if greater m p then m else p) end /\
      time_to_max_secs (update_extrema t m s) = match max_mcap s with
      | None => Some t | Some p => if greater m p then Some t else time_to_max_secs s end) as [-> ->].
    { unfold update_extrema, greater. cbn. destruct (max_mcap s) as [p|] eqn:E; [destruct (p <? m)%float|];
        cbn; destruct (min_mcap s) as [q|]; try destruct (m <? q)%float; cbn; by rewrite ?E. }
    revert Mx. destruct (max_mcap s) as [p|], (time_to_max_secs s) as [t0|]; intros Mx; try (exfalso; exact Mx).
    + pose proof (first_best_step _ _ _ _ t m greater_order U Um Mx) as S. by destruct (greater m p).
    + unfold first_best in Mx. subst vs. by exists [], [].
  - assert (min_mcap (update_extrema t m s) = match min_mcap s with
      | None => Some m | Some p => Some (if smaller m p then m else p) end /\
      time_to_min_secs (update_extrema t m s) = match min_mcap s with
      | None => Some t | Some p => if smaller m p then Some t else time_to_min_secs s end) as [-> ->].
    { unfold update_extrema, smaller. cbn. destruct (max_mcap s) as [p|]; [destruct (p <? m)%float|];
        cbn; destruct (min_mcap s) as [q|] eqn:E; try destruct (m <? q)%float; cbn; by rewrite ?E. }
    revert Mn. destruct (min_mcap s) as [p|], (time_to_min_secs s) as [t0|]; intros Mn; try (exfalso; exact Mn).
    + pose proof (first_best_step _ _ _ _ t m smaller_order U Um Mn) as S. by destruct (smaller m p).
    + unfold first_best in Mn. subst vs. by exists [], [].
Qed.

Lemma positive_not_leb m : f64_is_finite m = true -> (m <=? 0)%float = negb (0 <? m)%float.
Proof.
  intros F. destruct (m <=? 0)%float eqn:A, (0 <? m)%float eqn:B; try done; exfalso.
  - f64_order.
  - assert (PrimFloat.is_nan m = false) as N.
    { unfold f64_is_finite in F. destruct (PrimFloat.is_nan m); [|done]. by rewrite ?andb_false_r, ?orb_true_r in F. }
    f64_order.
Qed.

Lemma set_checkpoint_guard c m s : usable m = false -> set_checkpoint c m s = s.
Proof.
  unfold usable, set_checkpoint. destruct (f64_is_finite m) eqn:F; [|done].
  rewrite (positive_not_leb _ F). cbn. by intros ->.
Qed.

Lemma set_checkpoint_usable m : usable m = true -> negb (f64_is_finite m) || (m <=? 0)%float = false.
Proof.
  unfold usable. destruct (f64_is_finite m) eqn:F; [|done]. rewrite (positive_not_leb _ F). by destruct (0 <? m)%float.
Qed.

(** the checkpoints store their sample in one field each and share the extrema *)
Definition checkpoint_field (c : Z) (s : PostExitSampleState) : option f64 :=
  match c with
  | 10 => mcap_10s s | 30 => mcap_30s s | 50 => mcap_50s s | 70 => mcap_70s s | 100 => mcap_100s s
  | 180 => mcap_180s s | 240 => mcap_240s s | 300 => mcap_300s s | 600 => mcap_10m s | 900 => mcap_15m s
  | 1800 => mcap_30m s | _ => None
  end.

(** one case per checkpoint *)
Ltac checkpoint_cases H :=
  unfold POST_EXIT_CHECKPOINT_SECS in H; rewrite !elem_of_cons, elem_of_nil in H;
  repeat match type of H with _ \/ _ => destruct H as [->|H] end; try (exfalso; exact H).

Lemma update_extrema_fields t m s c :
  c ∈ POST_EXIT_CHECKPOINT_SECS -> checkpoint_field c (update_extrema t m s) = checkpoint_field c s.
Proof.
  intros H. unfold update_extrema. cbn.
  destruct (max_mcap s) as [p|]; [destruct (p <? m)%float|]; cbn;
    destruct (min_mcap s) as [q|]; try destruct (m <? q)%float; checkpoint_cases H; done.
Qed.

Lemma set_checkpoint_ok vs s c m :
  c ∈ POST_EXIT_CHECKPOINT_SECS -> usable m = true -> extrema_of vs s ->
  extrema_of (vs ++ [(c, m)]) (set_checkpoint c m s).
Proof.
  intros H U E. pose proof (update_extrema_ok vs s c m U E) as [E1 E2 E3].
  unfold set_checkpoint. rewrite (set_checkpoint_usable m U). cbv zeta.
  set (s' := update_extrema c m s) in *. clearbody s'. checkpoint_cases H; by split.
Qed.

Lemma set_checkpoint_field c c' m s :
  c ∈ POST_EXIT_CHECKPOINT_SECS -> c' ∈ POST_EXIT_CHECKPOINT_SECS -> usable m = true ->
  checkpoint_field c (set_checkpoint c' m s) = if c' =? c then Some m else checkpoint_field c s.
Proof.
  intros H H' U. rewrite <- (update_extrema_fields c' m s c H).
  unfold set_checkpoint. rewrite (set_checkpoint_usable m U). cbv zeta.
  set (s' := update_extrema c' m s). clearbody s'. checkpoint_cases H; checkpoint_cases H'; done.
Qed.

(** ** The whole schedule *)

Definition scheduled (c : Z * option (f64 * PostExitMcapSource)) : Prop := c.1 ∈ POST_EXIT_CHECKPOINT_SECS.

Lemma take_sample_state t c :
  tk_samples (take_sample t c) =
    match c.2 with Some (m, _) => set_checkpoint c.1 m (tk_samples t) | None => tk_samples t end.
Proof. unfold take_sample. by destruct c as [c [[m []]|]]. Qed.

Lemma take_samples_extrema cs : forall vs t,
  Forall scheduled cs -> extrema_of vs (tk_samples t) ->
  extrema_of (vs ++ omap (fun c : Z * option (f64 * PostExitMcapSource) => match c.2 with Some (m, _) => if usable m then Some (c.1, m) else None | None => None end) cs)
    (tk_samples (List.fold_left take_sample cs t)).
Proof.
  induction cs as [|c cs IH]; intros vs t F E; [by rewrite app_nil_r|].
  apply Forall_cons in F as [Sc F]. cbn [List.fold_left].
  pose proof (take_sample_state t c) as S. destruct c as [c [[m src]|]]; cbn [fst snd omap list_omap] in S |- *.
  - destruct (usable m) eqn:U.
    + rewrite (cons_middle (c, m)), (app_assoc vs). apply IH; [done|]. rewrite S. by apply set_checkpoint_ok.
    + apply IH; [done|]. by rewrite S, set_checkpoint_guard.
  - apply IH; [done|]. by rewrite S.
Qed.

Lemma take_samples_field cs c : forall t,
  Forall scheduled cs -> c ∈ POST_EXIT_CHECKPOINT_SECS ->
  checkpoint_field c (tk_samples (List.fold_left take_sample cs t)) =
    List.fold_left (fun o (d : Z * option (f64 * PostExitMcapSource)) => match d.2 with
      | Some (m, _) => if (d.1 =? c) && usable m then Some m else o | None => o end) cs
      (checkpoint_field c (tk_samples t)).
Proof.
  induction cs as [|d cs IH]; intros t F C; [done|].
  apply Forall_cons in F as [Sd F]. cbn [List.fold_left]. rewrite (IH _ F C), take_sample_state. f_equal.
  destruct d as [d [[m src]|]]; cbn; [|done]. destruct (usable m) eqn:U.
  - rewrite set_checkpoint_field, andb_true_r; done.
  - by rewrite set_checkpoint_guard, andb_false_r.
Qed.

(** one answer per checkpoint: the field holds it when it is usable *)
Lemma answer_field answers c l o :
  NoDup l ->
  List.fold_left (fun o (d : Z * option (f64 * PostExitMcapSource)) => match d.2 with
      | Some (m, _) => if (d.1 =? c) && usable m then Some m else o | None => o end)
    ((fun d => (d, answers d)) <$> l) o =
  if decide (c ∈ l) then from_option Some o (only_usable (fst <$> answers c)) else o.
Proof.
  revert o. induction l as [|d l IH]; intros o N; [done|].
  apply NoDup_cons in N as [Nd N]. cbn. rewrite IH by done. destruct (Z.eqb_spec d c) as [->|D].
  - rewrite (decide_False (P := c ∈ l)), (decide_True (P := c ∈ c :: l)) by set_solver.
    destruct (answers c) as [[m src]|]; cbn; [|done]. by destruct (usable m).
  - destruct (decide (c ∈ l)) as [I|I]; [rewrite (decide_True (P := c ∈ d :: l)) by set_solver|
      rewrite (decide_False (P := c ∈ d :: l)) by set_solver]; by destruct (answers d) as [[m src]|].
Qed.

Lemma take_sample_counts t c :
  0 <= tk_bonding t -> 0 <= tk_jupiter t -> 0 <= tk_missed t ->
  tk_bonding t + tk_jupiter t + tk_missed t < U32_MAX ->
  0 <= tk_bonding (take_sample t c) /\ 0 <= tk_jupiter (take_sample t c) /\ 0 <= tk_missed (take_sample t c) /\
  tk_bonding (take_sample t c) + tk_jupiter (take_sample t c) + tk_missed (take_sample t c) =
    tk_bonding t + tk_jupiter t + tk_missed t + 1.
Proof.
  unfold U32_MAX. intros B J M S. unfold take_sample.
  destruct (c.2) as [[m []]|]; cbn; rewrite wrap_u_small by (unfold in_u; lia); lia.
Qed.

Lemma take_samples_counts cs : forall t,
  0 <= tk_bonding t -> 0 <= tk_jupiter t -> 0 <= tk_missed t ->
  tk_bonding t + tk_jupiter t + tk_missed t + Z.of_nat (length cs) <= U32_MAX ->
  let t' := List.fold_left take_sample cs t in
  tk_bonding t' + tk_jupiter t' + tk_missed t' = tk_bonding t + tk_jupiter t + tk_missed t + Z.of_nat (length cs).
Proof.
  induction cs as [|c cs IH]; intros t B J M S; cbn [length List.fold_left] in *; [lia|].
  destruct (take_sample_counts t c) as (B' & J' & M' & E); [lia..|]. cbv zeta. rewrite IH; lia.
Qed.

Lemma schedule_nodup : NoDup POST_EXIT_CHECKPOINT_SECS.
Proof. by apply (bool_decide_unpack _). Qed.

Lemma scheduled_answers answers l :
  (forall c, c ∈ l -> c ∈ POST_EXIT_CHECKPOINT_SECS) ->
  Forall scheduled ((fun c => (c, answers c)) <$> l).
Proof. intros H. apply Forall_fmap, Forall_forall. intros c Hc. by apply H. Qed.

Lemma baseline_extrema exit :
  extrema_of (if usable exit then [(0, exit)] else []) (record_exit_baseline exit sample_state_default).
Proof.
  unfold record_exit_baseline. fold (usable exit). destruct (usable exit) eqn:U.
  - apply (update_extrema_ok []); [done|]. by split.
  - by split.
Qed.

(** a time of an extremum is one of the schedule, far below [i64::MAX] *)
Lemma first_best_time better vs best t :
  Forall (fun v => v.1 <= I64_MAX) vs -> first_best better vs best t -> i64_or_max <$> t = t.
Proof.
  intros F. destruct best as [m|], t as [t|]; cbn; try done.
  intros (l & r & -> & _). apply Forall_app in F as [_ [F _]%Forall_cons]. cbn in F.
  f_equal. unfold i64_or_max. lia.
Qed.

Lemma usable_samples_times exit answers :
  Forall (fun v : Z * f64 => v.1 <= I64_MAX)
    (usable_samples exit ((fun c => (c, answers c)) <$> POST_EXIT_CHECKPOINT_SECS)).
Proof.
  unfold usable_samples. apply Forall_app. split; [destruct (usable exit); by repeat constructor|].
  apply Forall_forall. intros v (c & Hc & Ev)%list_elem_of_omap.
  apply list_elem_of_fmap in Hc as (d & -> & Hd). cbn in Ev.
  destruct (answers d) as [[m src]|]; [|done]. destruct (usable m); [|done]. injection Ev as <-. cbn.
  checkpoint_cases Hd; done.
Qed.

(** the columns of the metrics: the checkpoint, the sample and its percentage *)
Definition metric_columns : list (Z * (PostExitMetrics -> option f64) * (PostExitMetrics -> option f64)) :=
  [(10, post_exit_mcap_10s, post_exit_pct_10s); (30, post_exit_mcap_30s, post_exit_pct_30s);
   (50, post_exit_mcap_50s, post_exit_pct_50s); (70, post_exit_mcap_70s, post_exit_pct_70s);
   (100, post_exit_mcap_100s, post_exit_pct_100s); (180, post_exit_mcap_180s, post_exit_pct_180s);
   (240, post_exit_mcap_240s, post_exit_pct_240s); (300, post_exit_mcap_300s, post_exit_pct_300s);
   (300, post_exit_mcap_5m, post_exit_pct_5m); (600, post_exit_mcap_10m, post_exit_pct_10m);
   (900, post_exit_mcap_15m, post_exit_pct_15m); (1800, post_exit_mcap_30m, post_exit_pct_30m)].

(** the columns read the fields of the sample state *)
Lemma metric_columns_fields exit s :
  Forall (fun col : Z * _ * _ => col.1.1 ∈ POST_EXIT_CHECKPOINT_SECS /\
    col.1.2 (from_samples exit s) = checkpoint_field col.1.1 s /\
    col.2 (from_samples exit s) = pct_from_exit exit (checkpoint_field col.1.1 s)) metric_columns.
Proof.
  unfold metric_columns. repeat (constructor; [split; [by apply (bool_decide_unpack _)|done]|]). constructor.
Qed.

(** C28: whatever the probes answer, the saved maximum and minimum are the
    extrema of the usable samples, the exit included, each with the first time
    it was attained, and both are absent only when no sample was usable; each
    column holds the usable answer of its checkpoint and the change since the
    exit; every checkpoint is counted once, by its source or as missed *)
Theorem post_exit_metrics_sound exit_mcap answers :
  let '(t, m) := post_exit_tracking exit_mcap answers in
  let vs := usable_samples exit_mcap ((fun c => (c, answers c)) <$> POST_EXIT_CHECKPOINT_SECS) in
  first_best greater vs (post_exit_max_mcap m) (post_exit_time_to_max_secs m) /\
  first_best smaller vs (post_exit_min_mcap m) (post_exit_time_to_min_secs m) /\
  Forall (fun col : Z * _ * _ =>
    let sample := only_usable (fst <$> answers col.1.1) in
    col.1.2 m = sample /\ col.2 m = pct_from_exit exit_mcap sample) metric_columns /\
  tk_bonding t + tk_jupiter t + tk_missed t = Z.of_nat (length POST_EXIT_CHECKPOINT_SECS).
Proof.
  unfold post_exit_tracking. set (cs := (fun c => (c, answers c)) <$> POST_EXIT_CHECKPOINT_SECS).
  set (t0 := mkTracking _ 0 0 0). cbv zeta. set (t := List.fold_left take_sample cs t0).
  assert (Forall scheduled cs) as Sch by by apply scheduled_answers.
  pose proof (take_samples_extrema cs _ t0 Sch (baseline_extrema exit_mcap)) as [_ Mx Mn].
  pose proof (usable_samples_times exit_mcap answers) as Ts. fold cs in Ts.
  fold (usable_samples exit_mcap cs) in Mx, Mn. fold t in Mx, Mn.
  cbn [post_exit_max_mcap post_exit_time_to_max_secs post_exit_min_mcap post_exit_time_to_min_secs from_samples].
  rewrite (first_best_time _ _ _ _ Ts Mx), (first_best_time _ _ _ _ Ts Mn).
  split; [done|]. split; [done|]. split.
  - eapply Forall_impl; [exact (metric_columns_fields exit_mcap (tk_samples t))|].
    intros [[c f] g] (C & -> & ->). cbn [fst snd] in *.
    assert (checkpoint_field c (tk_samples t) = only_usable (fst <$> answers c)) as ->; [|done].
    unfold t. rewrite (take_samples_field cs c t0 Sch C). unfold cs.
    rewrite (answer_field answers c _ _ schedule_nodup), decide_True by done.
    assert (checkpoint_field c (tk_samples t0) = None) as ->.
    { cbn [t0 tk_samples]. unfold t0, record_exit_baseline. cbn [tk_samples].
      destruct (_ && _); [rewrite update_extrema_fields by done|]; checkpoint_cases C; done. }
    by destruct (only_usable (fst <$> answers c)).
  - unfold t. rewrite (take_samples_counts cs t0); [done|done..|]. cbn. unfold U32_MAX. lia.
Qed.
