(* ===== verification/Latency.v ===== *)
(** The timing of the buy path, [telemetry/buy_latency.rs]: a trace per created
    token, logged and removed once every wallet it knows of is done.

    Times are milliseconds of a monotonic clock and arguments of the handlers.
    The log line is a value. *)
From S2P Require Import Prelude Amounts Messages.

(* telemetry/buy_latency.rs 10-14: WalletTiming *)
Record WalletTiming := mkWalletTiming { wt_sent : option Z; wt_confirmed : option Z }.
#[export] Instance WalletTiming_settable : Settable WalletTiming := fun r =>
  mkWalletTiming (wt_sent r) (wt_confirmed r).

(* telemetry/buy_latency.rs 10-14: WalletTiming *)
Definition wallet_timing_default : WalletTiming := mkWalletTiming None None.

(* telemetry/buy_latency.rs 16-22: Trace *)
Record Trace := mkTrace {
  la_created : Z; la_score_done : option Z; la_gate : option Z; la_wallets : gmap string WalletTiming }.
#[export] Instance Trace_settable : Settable Trace := fun r =>
  mkTrace (la_created r) (la_score_done r) (la_gate r) (la_wallets r).

(* telemetry/buy_latency.rs 24-27: BuyLatencyRegistry *)
Definition BuyLatencyRegistry : Type := gmap Address Trace.

(** one line per wallet in the log *)
Record WalletLatency := mkWalletLatency {
  wl_gate_to_sent_ms : Z; wl_sent_ms : Z; wl_confirmed_ms : Z; wl_sent_to_confirmed_ms : Z }.

Record LatencyLog := mkLatencyLog {
  ll_mint : Address;
  ll_created_to_score_ms : Z; ll_created_to_gate_ms : Z; ll_score_to_gate_ms : Z;
  ll_wallets : list string
}.

(** [Instant::duration_since] saturates at zero *)
(* telemetry/buy_latency.rs 100-102: BuyLatencyRegistry::ms *)
Definition latency_ms (from to : Z) : Z := sat_sub to from.

Definition ms_between (from to : option Z) : Z :=
  match from, to with Some a, Some b => latency_ms a b | _, _ => 0 end.

(* telemetry/buy_latency.rs 120-136: BuyLatencyRegistry::log_and_remove *)
Definition wallet_latency (t : Trace) (w : WalletTiming) : WalletLatency := {|
  wl_sent_ms := ms_between (Some (la_created t)) (wt_sent w);
  wl_confirmed_ms := ms_between (Some (la_created t)) (wt_confirmed w);
  wl_sent_to_confirmed_ms := ms_between (wt_sent w) (wt_confirmed w);
  wl_gate_to_sent_ms := ms_between (la_gate t) (wt_sent w)
|}.

(* telemetry/buy_latency.rs 137-139: BuyLatencyRegistry::log_and_remove *)
Definition wallet_part (t : Trace) (w : string * WalletTiming) : string :=
  let l := wallet_latency t w.2 in
  w.1 +:+ ":gate_to_sent_ms=" +:+ show_Z (wl_gate_to_sent_ms l)
      +:+ " sent_ms=" +:+ show_Z (wl_sent_ms l)
      +:+ " confirmed_ms=" +:+ show_Z (wl_confirmed_ms l)
      +:+ " sent_to_confirmed_ms=" +:+ show_Z (wl_sent_to_confirmed_ms l).

(** the parts are sorted as byte strings *)
(* telemetry/buy_latency.rs 104-152: BuyLatencyRegistry::log_and_remove *)
Definition log_and_remove (g : BuyLatencyRegistry) (mint : Address) (t : Trace)
    : BuyLatencyRegistry * LatencyLog :=
  (delete mint g : gmap Address Trace,
   {| ll_mint := mint;
      ll_created_to_score_ms := ms_between (Some (la_created t)) (la_score_done t);
      ll_created_to_gate_ms := ms_between (Some (la_created t)) (la_gate t);
      ll_score_to_gate_ms := ms_between (la_score_done t) (la_gate t);
      ll_wallets := merge_sort String.le (wallet_part t <$> map_to_list (la_wallets t)) |}).

(* telemetry/buy_latency.rs 38-46: BuyLatencyRegistry::on_created *)
Definition on_created (now : Z) (mint : Address) (g : BuyLatencyRegistry) : BuyLatencyRegistry :=
  match (g : gmap Address Trace) !! mint with
  | Some _ => g
  | None => <[mint := mkTrace now None None ∅]> (g : gmap Address Trace)
  end.

(* telemetry/buy_latency.rs 48-53: BuyLatencyRegistry::on_score_done *)
Definition on_score_done (now : Z) (mint : Address) (g : BuyLatencyRegistry) : BuyLatencyRegistry :=
  match (g : gmap Address Trace) !! mint with
  | Some t => <[mint := t <| la_score_done := Some now |>]> (g : gmap Address Trace)
  | None => g
  end.

(* telemetry/buy_latency.rs 55-60: BuyLatencyRegistry::on_gate *)
Definition on_gate (now : Z) (mint : Address) (g : BuyLatencyRegistry) : BuyLatencyRegistry :=
  match (g : gmap Address Trace) !! mint with
  | Some t => <[mint := t <| la_gate := Some now |>]> (g : gmap Address Trace)
  | None => g
  end.

Definition wallet_entry (t : Trace) (wallet_id : string) : WalletTiming :=
  from_option id wallet_timing_default (la_wallets t !! wallet_id).

(* telemetry/buy_latency.rs 62-70: BuyLatencyRegistry::on_sent *)
Definition on_sent (now : Z) (mint : Address) (wallet_id : string) (g : BuyLatencyRegistry)
    : BuyLatencyRegistry :=
  match (g : gmap Address Trace) !! mint with
  | Some t =>
      <[mint := t <| la_wallets := <[wallet_id := wallet_entry t wallet_id <| wt_sent := Some now |>]> (la_wallets t) |>]>
        (g : gmap Address Trace)
  | None => g
  end.

Definition wallet_done (w : WalletTiming) : bool := bool_decide (is_Some (wt_sent w)) && bool_decide (is_Some (wt_confirmed w)).

(* telemetry/buy_latency.rs 89-93: BuyLatencyRegistry::mark_wallet_done *)
Definition all_done (t : Trace) : bool :=
  bool_decide (la_wallets t <> ∅) && bool_decide (map_Forall (fun _ w => wallet_done w = true) (la_wallets t)).

(* telemetry/buy_latency.rs 80-98: BuyLatencyRegistry::mark_wallet_done *)
Definition mark_wallet_done (now : Z) (mint : Address) (wallet_id : string) (g : BuyLatencyRegistry)
    : BuyLatencyRegistry * option LatencyLog :=
  match (g : gmap Address Trace) !! mint with
  | None => (g, None)
  | Some t =>
      let t := t <| la_wallets := <[wallet_id := wallet_entry t wallet_id <| wt_confirmed := Some now |>]> (la_wallets t) |> in
      let g : BuyLatencyRegistry := <[mint := t]> (g : gmap Address Trace) in
      if all_done t then let '(g, l) := log_and_remove g mint t in (g, Some l) else (g, None)
  end.

(** ** The handlers as events *)

Inductive LatencyEvent :=
  | LtCreated (m : Address)
  | LtScoreDone (m : Address)
  | LtGate (m : Address)
  | LtSent (m : Address) (w : string)
  | LtDone (m : Address) (w : string).

(** what the notes of the position manager do *)
(* telemetry/buy_latency.rs 72-78: BuyLatencyRegistry::on_confirmed *)
Definition event_of_note (n : Note) : option LatencyEvent :=
  match n with
  | LatencyGate m => Some (LtGate m)
  | LatencySent m w => Some (LtSent m w)
  | LatencyConfirmed m w | LatencyBuyFailed m w => Some (LtDone m w)
  | _ => None
  end.

Definition latency_step (g : BuyLatencyRegistry) (e : Z * LatencyEvent) : BuyLatencyRegistry * option LatencyLog :=
  match e.2 with
  | LtCreated m => (on_created e.1 m g, None)
  | LtScoreDone m => (on_score_done e.1 m g, None)
  | LtGate m => (on_gate e.1 m g, None)
  | LtSent m w => (on_sent e.1 m w g, None)
  | LtDone m w => mark_wallet_done e.1 m w g
  end.

Definition log_list (l : option LatencyLog) : list LatencyLog := match l with Some l => [l] | None => [] end.

Fixpoint latency_run (es : list (Z * LatencyEvent)) (g : BuyLatencyRegistry)
    : BuyLatencyRegistry * list LatencyLog :=
  match es with
  | [] => (g, [])
  | e :: es =>
      let '(g, l) := latency_step g e in
      let '(g, ls) := latency_run es g in (g, log_list l ++ ls)
  end.

(** ** One log per trace, and only for a trace whose wallets are done *)

(** whether an event opens a trace of [m], and the logs of [m] *)
Definition opening (m : Address) (e : LatencyEvent) (g : BuyLatencyRegistry) : Z :=
  match e with
  | LtCreated m' => if decide (m' = m /\ (g : gmap Address Trace) !! m = None) then 1 else 0
  | _ => 0
  end.

Fixpoint openings (m : Address) (es : list (Z * LatencyEvent)) (g : BuyLatencyRegistry) : Z :=
  match es with
  | [] => 0
  | e :: es => opening m e.2 g + openings m es (fst (latency_step g e))
  end.

Definition logs_of (m : Address) (ls : list LatencyLog) : Z :=
  Z.of_nat (length (List.filter (fun l => bool_decide (ll_mint l = m)) ls)).

Definition traced (m : Address) (g : BuyLatencyRegistry) : Z :=
  if (g : gmap Address Trace) !! m is Some _ then 1 else 0.

Definition closes (m : Address) (e : LatencyEvent) : bool :=
  match e with LtDone m' _ => bool_decide (m' = m) | _ => false end.

Lemma logs_of_app m a b : logs_of m (a ++ b) = logs_of m a + logs_of m b.
Proof. unfold logs_of. rewrite List.filter_app, length_app. lia. Qed.

Lemma logs_of_one m l : logs_of m [l] = if decide (ll_mint l = m) then 1 else 0.
Proof. unfold logs_of. cbn. destruct (decide (ll_mint l = m)); [by rewrite bool_decide_true|by rewrite bool_decide_false]. Qed.

(** a write to an existing trace changes no presence *)
Lemma traced_update m m' t t' (g : BuyLatencyRegistry) :
  (g : gmap Address Trace) !! m' = Some t -> traced m (<[m' := t']> (g : gmap Address Trace)) = traced m g.
Proof.
  intros E. unfold traced, BuyLatencyRegistry in *. destruct (decide (m' = m)) as [->|N].
  - by rewrite lookup_insert_eq, E.
  - by rewrite lookup_insert_ne.
Qed.

(** the next log is the trace with its last wallet marked, and nothing of it
    is left *)
Lemma mark_wallet_done_cases now m w g :
  let r := mark_wallet_done now m w g in
  (exists t, (g : gmap Address Trace) !! m = Some t /\
     let t' := t <| la_wallets := <[w := wallet_entry t w <| wt_confirmed := Some now |>]> (la_wallets t) |> in
     all_done t' = true /\ fst r = delete m (<[m := t']> (g : gmap Address Trace)) /\
     snd r = Some (snd (log_and_remove g m t'))) \/
  snd r = None /\ forall m', traced m' (fst r) = traced m' g.
Proof.
  unfold mark_wallet_done. destruct ((g : gmap Address Trace) !! m) as [t|] eqn:E; [|by right].
  cbv zeta. set (t' := t <| la_wallets := _ |>). destruct (all_done t') eqn:D; cbn.
  - left. exists t. split; [done|]. by split.
  - right. split; [done|]. intros m'. by eapply traced_update.
Qed.

Lemma latency_step_counts m g e :
  logs_of m (log_list (snd (latency_step g e))) + traced m (fst (latency_step g e)) =
  traced m g + opening m e.2 g /\
  (closes m e.2 = false -> logs_of m (log_list (snd (latency_step g e))) = 0).
Proof.
  destruct e as [now [m'|m'|m'|m' w|m' w]]; cbn [latency_step fst snd opening closes log_list].
  1-4: split; [|done]; unfold logs_of, on_created, on_score_done, on_gate, on_sent; cbn.
  - destruct ((g : gmap Address Trace) !! m') as [t|] eqn:E.
    + rewrite decide_False; [lia|]. intros [-> H]. congruence.
    + unfold traced, BuyLatencyRegistry in *. destruct (decide (m' = m)) as [->|N].
      * rewrite lookup_insert_eq, E, decide_True by done. done.
      * rewrite lookup_insert_ne by done. rewrite decide_False by naive_solver. lia.
  - destruct ((g : gmap Address Trace) !! m') as [t|] eqn:E; [|lia]. rewrite (traced_update m m' t) by done. lia.
  - destruct ((g : gmap Address Trace) !! m') as [t|] eqn:E; [|lia]. rewrite (traced_update m m' t) by done. lia.
  - destruct ((g : gmap Address Trace) !! m') as [t|] eqn:E; [|lia]. rewrite (traced_update m m' t) by done. lia.
  - destruct (mark_wallet_done_cases now m' w g) as [(t & E & _ & -> & ->)|[-> T]]; cbn [log_list].
    + rewrite logs_of_one. cbn [log_and_remove snd ll_mint]. unfold traced, BuyLatencyRegistry in *.
      destruct (decide (m' = m)) as [->|N].
      * rewrite lookup_delete_eq, E. split; [lia|]. by rewrite bool_decide_true.
      * rewrite lookup_delete_ne, lookup_insert_ne by done. split; lia.
    + rewrite T. unfold logs_of. cbn. split; [lia|done].
Qed.

Lemma latency_run_counts m es : forall g,
  let '(g', ls) := latency_run es g in
  logs_of m ls + traced m g' = traced m g + openings m es g /\
  (Forall (fun e => closes m e.2 = false) es -> logs_of m ls = 0).
Proof.
  induction es as [|e es IH]; intros g; cbn [latency_run openings].
  - unfold logs_of. cbn. split; [lia|done].
  - pose proof (latency_step_counts m g e) as [C N]. destruct (latency_step g e) as [g1 l].
    specialize (IH g1). destruct (latency_run es g1) as [g2 ls]. cbn [fst snd] in *.
    destruct IH as [IC IN]. rewrite logs_of_app. split; [lia|].
    intros [Ne Nes]%Forall_cons. rewrite N, IN by done. lia.
Qed.

(** every trace is logged at most once: for each mint, the logs and the
    trace still kept make up the creations that opened a trace; and a trace
    whose mint is never bought is kept for ever *)
Theorem latency_conserves m es :
  let '(g, ls) := latency_run es ∅ in
  logs_of m ls + traced m g = openings m es ∅ /\
  (Forall (fun e => closes m e.2 = false) es -> traced m g = openings m es ∅).
Proof.
  pose proof (latency_run_counts m es ∅) as H. destruct (latency_run es ∅) as [g ls].
  destruct H as [C N]. change (traced m ∅) with 0 in C.
  split; [lia|]. intros F. specialize (N F). lia.
Qed.

(** When the first wallet is done before the second is sent, the trace is
    logged and removed, and the second wallet is in no log. *)
Example early_wallet_drops_later :
  let '(g, ls) := latency_run
    [(0, LtCreated 1%N); (5, LtScoreDone 1%N); (9, LtGate 1%N); (10, LtSent 1%N "w1"); (30, LtDone 1%N "w1");
     (40, LtSent 1%N "w2"); (70, LtDone 1%N "w2")] ∅ in
  (g : gmap Address Trace) !! 1%N = None /\
  (ll_wallets <$> ls) = [["w1:gate_to_sent_ms=1 sent_ms=10 confirmed_ms=30 sent_to_confirmed_ms=20"]].
Proof. vm_compute. done. Qed.
