(* ===== verification/Server.v ===== *)
(** The HTTP interface of [main.rs]: the mode switch with its rewriting of the
    configuration file, the wallet editor, the buy size and the operator's
    abandon list, and the chart of a token.

    Request bodies arrive decoded; reading and writing the file and the rows of
    the database are arguments. *)
From Stdlib Require Import Ascii.
From S2P Require Import Prelude Text Amounts Features Wallets.

Local Open Scope string_scope.
Local Open Scope Z_scope.
Local Open Scope list_scope.

(** ** Lines *)

Definition LF : ascii := "010".
Definition CR : ascii := "013".
Definition newline : string := String LF "".

(** [str::lines]: a line ends at [\n] or [\r\n], the last one may be unended *)
Fixpoint str_lines (s : string) : list string :=
  match s with
  | "" => []
  | String c s' =>
      if Ascii.eqb c LF then "" :: str_lines s'
      else
        match s' with
        | String d _ =>
            if Ascii.eqb c CR && Ascii.eqb d LF then str_lines s'
            else match str_lines s' with [] => [String c ""] | l :: ls => String c l :: ls end
        | "" => [String c ""]
        end
  end.

Fixpoint unlines (ls : list string) : string :=
  match ls with [] => "" | l :: ls => l +:+ newline +:+ unlines ls end.

Fixpoint indent_of (s : string) : string :=
  match s with
  | String c s' => if is_whitespace c then String c (indent_of s') else ""
  | "" => ""
  end.

(** ** The mode in the configuration file *)

(** a new top-level key *)
(* main.rs 1889-1891: rewrite_yaml_mode *)
Definition is_top_level (line : string) : bool :=
  negb (String.eqb line "") && (String.length line - String.length (trim_start line) =? 0)%nat.

(** the lines written from a state of the scan *)
(* main.rs 1876-1924: rewrite_yaml_mode *)
Fixpoint rewrite_mode_lines (new_mode : string) (inside_exec mode_written saw_exec_header : bool)
    (lines : list string) : list string :=
  match lines with
  | [] =>
      if mode_written then []
      else (if saw_exec_header then [] else [""; "execution:"]) ++ ["  mode: " +:+ new_mode]
  | line :: rest =>
      let trimmed := trim_start line in
      if starts_with "execution:" trimmed
      then line :: rewrite_mode_lines new_mode true mode_written true rest
      else if inside_exec then
        if is_top_level line then
          (if mode_written then [] else ["  mode: " +:+ new_mode]) ++
          line :: rewrite_mode_lines new_mode false true saw_exec_header rest
        else if negb mode_written && starts_with "mode:" trimmed then
          (indent_of line +:+ "mode: " +:+ new_mode)
          :: rewrite_mode_lines new_mode true true saw_exec_header rest
        else line :: rewrite_mode_lines new_mode true mode_written saw_exec_header rest
      else line :: rewrite_mode_lines new_mode false mode_written saw_exec_header rest
  end.

(* main.rs 1870-1927: rewrite_yaml_mode *)
Definition rewrite_yaml_mode (content new_mode : string) : string :=
  unlines (rewrite_mode_lines new_mode false false false (str_lines content)).

(** ** [PUT /mode] *)

Inductive ModeResponse :=
  | ModeBadRequest
  | ModeForbidden
  | ModeIoError (e : string)
  | ModeOk (mode current_mode : string) (restart_required : bool).

(** [mode]: the string under ["mode"] in the body; [confirm]: the header
    [X-Confirm-Live]; [content]: the file; [write]: whether a write succeeds.
    The result is the response and the file afterwards. *)
(* main.rs 1124-1191: put_mode *)
Definition put_mode (current_mode : string) (mode confirm : option string)
    (content : result string string) (write_error : option string)
    : ModeResponse * result string string :=
  let target :=
    match mode with
    | Some m => if String.eqb m "demo" then Some "demo" else if String.eqb m "live" then Some "live" else None
    | None => None
    end in
  match target with
  | None => (ModeBadRequest, content)
  | Some target =>
      let confirmed :=
        match confirm with Some s => String.eqb (to_ascii_lowercase s) "yes" | None => false end in
      if String.eqb target "live" && negb confirmed then (ModeForbidden, content)
      else
        match content with
        | Err e => (ModeIoError e, content)
        | Ok text =>
            let new_content := rewrite_yaml_mode text target in
            match write_error with
            | Some e => (ModeIoError e, content)
            | None => (ModeOk target current_mode (negb (String.eqb current_mode target)), Ok new_content)
            end
        end
  end.

(** ** [PUT /wallets] *)

(** an element of the array: a missing or non-string id is [None];
    [pt_size_sol] is [Some None] for a JSON null *)
Record WalletPatch := mkWalletPatch {
  pt_id : option string; pt_enabled : option bool; pt_size_sol : option (option f64) }.

Section Patches.
Context {B : Type}.
Implicit Types (r : WalletRegistry B) (w : WalletHandle B).

(* main.rs 941-946: put_wallets *)
Definition apply_patch (p : WalletPatch) w : WalletHandle B :=
  let w := match pt_enabled p with Some on => w <| wh_enabled := on |> | None => w end in
  match pt_size_sol p with Some sz => w <| wh_size_sol := sz |> | None => w end.

(** the entry written to the configuration *)
(* main.rs 947-956: put_wallets *)
Definition entry_of_wallet (id : string) w : WalletEntryConfig := {|
  we_id := id; we_label := wh_label w; we_enabled := wh_enabled w;
  we_private_key_env := wh_private_key_env w; we_size_sol := wh_size_sol w;
  we_tier_size := wh_tier_size w; we_demo_balance_sol := None; we_rpc_url_env := None |}.

(* main.rs 928-957: put_wallets *)
Definition patch_step (acc : WalletRegistry B * list WalletEntryConfig) (p : WalletPatch)
    : WalletRegistry B * list WalletEntryConfig :=
  let '(r, patches) := acc in
  match pt_id p with
  | None => (r, patches)
  | Some id =>
      match wallet_get r id with
      | None => (r, patches)
      | Some w => (wallet_update r id (apply_patch p), patches ++ [entry_of_wallet id (apply_patch p w)])
      end
  end.

Inductive WalletsResponse := WalletsBadRequest | WalletsIoError (e : string) | WalletsOk.

(** [config]: the wallets of the file; a failed rewrite leaves them *)
(* main.rs 916-968: put_wallets *)
Definition put_wallets (body : option (list WalletPatch)) (write_error : option string) r
    (config : list WalletEntryConfig) : WalletsResponse * WalletRegistry B * list WalletEntryConfig :=
  match body with
  | None => (WalletsBadRequest, r, config)
  | Some arr =>
      let '(r, patches) := List.fold_left patch_step arr (r, []) in
      match write_error with
      | Some e => (WalletsIoError e, r, config)
      | None => (WalletsOk, r, patches)
      end
  end.
End Patches.

(** ** [PUT /buy-size], [POST /positions/abandon] and [GET /bot-trades] *)

Inductive BuySizeResponse := BuySizeBadRequest | BuySizeTooSmall | BuySizeStored.

(** [sol]: the number under ["sol"]; the shared buy size afterwards *)
(* main.rs 1193-1222: set_buy_size *)
Definition set_buy_size (buy_cap_floor : f64) (sol : option f64) (buy_size : f64) : BuySizeResponse * f64 :=
  match sol with
  | Some v =>
      if (0 <? v)%float then
        if (v <? buy_cap_floor)%float then (BuySizeTooSmall, buy_size) else (BuySizeStored, v)
      else (BuySizeBadRequest, buy_size)
  | None => (BuySizeBadRequest, buy_size)
  end.

Inductive AbandonResponse :=
  | AbandonBadRequest
  | AbandonUnavailable
  | AbandonOk (abandoned invalid : list string).

(** [mints]: the array, non-strings as [None]; [parse] reads an address;
    [manager_open]: how many messages the manager still takes.  The messages
    sent are [AbandonPosition] for the listed mints. *)
(* main.rs 1241-1268: post_positions_abandon *)
Fixpoint abandon_loop (parse : string -> option Address) (mints : list (option string)) (manager_open : nat)
    (abandoned invalid : list string) : AbandonResponse * list Address :=
  match mints with
  | [] => (AbandonOk abandoned invalid, [])
  | None :: rest => abandon_loop parse rest manager_open abandoned invalid
  | Some s :: rest =>
      match parse s with
      | None => abandon_loop parse rest manager_open abandoned (invalid ++ [s])
      | Some m =>
          match manager_open with
          | O => (AbandonUnavailable, [])
          | S n => let '(r, sent) := abandon_loop parse rest n (abandoned ++ [s]) invalid in (r, m :: sent)
          end
      end
  end.

(* main.rs 1224-1277: post_positions_abandon *)
Definition post_positions_abandon (parse : string -> option Address) (mints : option (list (option string)))
    (manager_open : nat) : AbandonResponse * list Address :=
  match mints with
  | None => (AbandonBadRequest, [])
  | Some arr => abandon_loop parse arr manager_open [] []
  end.

(** a query that timed out is repeated, twice at most *)
(* main.rs 620-646: get_bot_trades *)
Fixpoint bot_trades_loop {Rows : Type} (query : nat -> result Rows string) (attempt fuel : nat) : option Rows * nat :=
  match fuel with
  | O => (None, attempt)
  | S fuel =>
      match query attempt with
      | Ok rows => (Some rows, S attempt)
      | Err e =>
          if contains "timed out" e && (attempt <? 2)%nat then bot_trades_loop query (S attempt) fuel
          else (None, S attempt)
      end
  end.

(* main.rs 590-651: get_bot_trades *)
Definition get_bot_trades {Rows : Type} (query : nat -> result Rows string) : option Rows * nat :=
  bot_trades_loop query 0 3.

(** three attempts at most; no rows only after an error that is final or the
    third time-out *)
Lemma bot_trades_attempts {Rows : Type} (query : nat -> result Rows string) :
  let '(rows, attempts) := get_bot_trades query in
  (1 <= attempts <= 3)%nat /\
  (forall i, (S i < attempts)%nat -> exists e, query i = Err e /\ contains "timed out" e = true) /\
  match rows with
  | Some r => query (attempts - 1)%nat = Ok r
  | None => exists e, query (attempts - 1)%nat = Err e /\ (contains "timed out" e = true -> attempts = 3%nat)
  end.
Proof.
  unfold get_bot_trades. cbn [bot_trades_loop].
  destruct (query 0%nat) as [r|e0] eqn:Q0; [split; [lia|]; split; [intros i Hi; lia|done]|].
  destruct (contains "timed out" e0) eqn:C0; cbn [andb Nat.ltb Nat.leb].
  2: { split; [lia|]. split; [intros i Hi; lia|]. exists e0. split; [done|]. by rewrite C0. }
  destruct (query 1%nat) as [r|e1] eqn:Q1.
  { split; [lia|]. split; [|done]. intros i Hi. assert (i = 0%nat) as -> by lia. by exists e0. }
  destruct (contains "timed out" e1) eqn:C1; cbn [andb Nat.ltb Nat.leb].
  2: { split; [lia|]. split; [|by exists e1; rewrite C1]. intros i Hi. assert (i = 0%nat) as -> by lia. by exists e0. }
  assert (forall i, (S i < 3)%nat -> exists e, query i = Err e /\ contains "timed out" e = true) as B.
  { intros i Hi. assert (i = 0%nat \/ i = 1%nat) as [-> | ->] by lia; by eexists. }
  destruct (query 2%nat) as [r|e2] eqn:Q2; [by split; [lia|]|].
  rewrite andb_false_r. split; [lia|]. split; [done|]. by exists e2.
Qed.

(** every mint of the array is abandoned, invalid or not a string *)
Lemma abandon_loop_ok parse mints : forall n ab inv r sent,
  abandon_loop parse mints n ab inv = (r, sent) ->
  sent = take (length sent) (omap (fun s => s ≫= parse) mints) /\
  match r with
  | AbandonOk ab' inv' =>
      sent = omap (fun s => s ≫= parse) mints /\ (length sent <= n)%nat /\
      ab' = ab ++ List.filter (fun s => bool_decide (is_Some (parse s))) (omap id mints) /\
      inv' = inv ++ List.filter (fun s => bool_decide (parse s = None)) (omap id mints)
  | AbandonUnavailable => length sent = n
  | AbandonBadRequest => False
  end.
Proof.
  induction mints as [|[s|] mints IH]; intros n ab inv r sent; cbn.
  - intros [= <- <-]. rewrite !app_nil_r. split; [done|]. split; [done|]. split; [cbn; lia|done].
  - destruct (parse s) as [m|] eqn:P.
    + destruct n as [|n]; [intros [= <- <-]; done|].
      destruct (abandon_loop parse mints n (ab ++ [s]) inv) as [r' sent'] eqn:E. intros [= <- <-].
      apply IH in E as [E1 E2]. cbn. split; [by f_equal|]. destruct r'; [done|cbn in *; lia|].
      destruct E2 as (-> & L & -> & ->). rewrite <- app_assoc. cbn in *. split; [done|]. split; [lia|done].
    + intros E. apply IH in E as [E1 E2]. split; [done|]. destruct r; [done|done|].
      destruct E2 as (-> & L & -> & ->). by rewrite <- app_assoc.
  - apply IH.
Qed.

(** ** One line of the file changes, and the last switch wins *)

Section Mode.
Variable new_mode : string.

(** the edit of the mode line: replaced, inserted in its block, or appended
    with a new block *)
Inductive mode_edit : list string -> list string -> Prop :=
  | edit_replace old indent :
      starts_with "mode:" (trim_start old) = true -> mode_edit [old] [indent +:+ "mode: " +:+ new_mode]
  | edit_insert : mode_edit [] ["  mode: " +:+ new_mode]
  | edit_append : mode_edit [] [""; "execution:"; "  mode: " +:+ new_mode].

Definition one_edit (before after : list string) : Prop :=
  exists pre post old new, before = pre ++ old ++ post /\ after = pre ++ new ++ post /\ mode_edit old new.

Lemma one_edit_cons l before after : one_edit before after -> one_edit (l :: before) (l :: after).
Proof. intros (pre & post & old & new & -> & -> & E). by exists (l :: pre), post, old, new. Qed.

Lemma rewrite_written i s ls : rewrite_mode_lines new_mode i true s ls = ls.
Proof.
  revert i s. induction ls as [|l ls IH]; intros i s; [done|].
  cbn [rewrite_mode_lines]. destruct (starts_with "execution:" (trim_start l)); [by rewrite IH|]. destruct i; [|by rewrite IH].
  destruct (is_top_level l); cbn; by rewrite IH.
Qed.

Lemma rewrite_one_edit s ls : forall i, one_edit ls (rewrite_mode_lines new_mode i false s ls).
Proof.
  revert s. induction ls as [|l ls IH]; intros s i; cbn [rewrite_mode_lines].
  - exists [], []. destruct s; eexists _, _; (split; [|split; [|constructor]]); done.
  - destruct (starts_with "execution:" (trim_start l)); [by apply one_edit_cons|].
    destruct i; [|by apply one_edit_cons].
    destruct (is_top_level l) eqn:T.
    + rewrite rewrite_written. exists [], (l :: ls), [], ["  mode: " +:+ new_mode].
      split; [done|]. split; [done|]. constructor.
    + cbn [negb andb]. destruct (starts_with "mode:" (trim_start l)) eqn:M; [|by apply one_edit_cons].
      rewrite rewrite_written. eexists [], ls, [l], [_]. split; [done|]. split; [done|]. by constructor.
Qed.
End Mode.

(** what the scan makes of the lines it writes *)
#[local] Arguments is_whitespace : simpl never.

#[local] Arguments String.append : simpl nomatch.

Lemma trim_start_app indent s : trim_start (indent_of indent +:+ s) = trim_start s.
Proof.
  induction indent as [|c indent IH]; [done|]. cbn. destruct (is_whitespace c) eqn:W; [|done].
  cbn. by rewrite W.
Qed.

Lemma indent_of_app indent c s :
  is_whitespace c = false -> indent_of (indent_of indent +:+ String c s) = indent_of indent.
Proof.
  intros W. induction indent as [|d indent IH]; cbn; [by rewrite W|].
  destruct (is_whitespace d) eqn:D; cbn; [by rewrite D, IH|by rewrite W].
Qed.

Lemma length_trim_start s : (String.length (trim_start s) <= String.length s)%nat.
Proof. induction s as [|c s IH]; cbn; [lia|]. destruct (is_whitespace c); cbn; lia. Qed.

Lemma not_top_level_indent line :
  line <> "" -> is_top_level line = false -> exists c s, indent_of line = String c s.
Proof.
  intros N. unfold is_top_level. destruct line as [|c line]; [done|]. cbn.
  destruct (is_whitespace c); [by eexists _, _|]. cbn. by rewrite Nat.sub_diag.
Qed.

Lemma indented_not_top c s t :
  is_whitespace c = true -> is_top_level (String c s +:+ t) = false.
Proof.
  intros W. unfold is_top_level. cbn. rewrite W. pose proof (length_trim_start (s +:+ t)).
  apply Nat.eqb_neq. lia.
Qed.

Lemma indent_of_head line c s : indent_of line = String c s -> is_whitespace c = true.
Proof. destruct line as [|d line]; [done|]. cbn. destruct (is_whitespace d) eqn:W; [|done]. by intros [= <- _]. Qed.

(** a mode line of the block, read by a second scan *)
Lemma rescan_mode_line line m1 m2 s rest :
  (exists c i, indent_of line = String c i) ->
  rewrite_mode_lines m2 true false s ((indent_of line +:+ "mode: " +:+ m1) :: rest) =
  (indent_of line +:+ "mode: " +:+ m2) :: rewrite_mode_lines m2 true true s rest.
Proof.
  intros (c & i & E). cbn [rewrite_mode_lines].
  rewrite trim_start_app. cbn [trim_start starts_with].
  replace (is_top_level _) with false.
  - cbn. by rewrite indent_of_app.
  - rewrite E. symmetry. apply indented_not_top. by eapply indent_of_head.
Qed.

(** the second of two switches alone decides *)
Lemma rewrite_twice m1 m2 ls : forall i w s, (i = false -> w = true \/ s = false) -> (i = true -> s = true) ->
  rewrite_mode_lines m2 i w s (rewrite_mode_lines m1 i w s ls) = rewrite_mode_lines m2 i w s ls.
Proof.
  induction ls as [|l ls IH]; intros i w s I1 I2.
  - destruct w; [done|]. destruct i.
    + rewrite (I2 eq_refl). apply (rescan_mode_line "  " m1 m2 true []). by eexists _, _.
    + destruct (I1 eq_refl) as [?| ->]; [done|].
      transitivity ("" :: "execution:" ::
        rewrite_mode_lines m2 true false true [indent_of "  " +:+ "mode: " +:+ m1]); [done|].
      rewrite rescan_mode_line by by eexists _, _. done.
  - cbn [rewrite_mode_lines]. destruct (starts_with "execution:" (trim_start l)) eqn:E.
    + cbn [rewrite_mode_lines]. rewrite E. f_equal. by apply IH.
    + destruct i.
      2: { cbn [rewrite_mode_lines]. rewrite E. f_equal. by apply IH. }
      destruct (is_top_level l) eqn:T.
      * destruct w; cbn [app].
        -- cbn [rewrite_mode_lines]. rewrite E, T. cbn [app]. f_equal. apply IH; [by left|done].
        -- rewrite (rescan_mode_line "  " m1 m2 s) by by eexists _, _.
           rewrite !rewrite_written. done.
      * destruct w; cbn [negb andb].
        -- cbn [rewrite_mode_lines]. rewrite E, T. cbn [negb andb]. f_equal. by apply IH.
        -- destruct (starts_with "mode:" (trim_start l)) eqn:M.
           ++ rewrite rescan_mode_line.
              ** by rewrite !rewrite_written.
              ** apply not_top_level_indent; [by intros ->|done].
           ++ cbn [rewrite_mode_lines]. rewrite E, T, M. cbn [negb andb]. f_equal. by apply IH.
Qed.

(** *** Back to the text *)

Definition line_char (c : ascii) : bool := negb (Ascii.eqb c LF) && negb (Ascii.eqb c CR).
Definition no_cr (c : ascii) : bool := negb (Ascii.eqb c CR).

Lemma str_lines_step c d t :
  str_lines (String c (String d t)) =
    if Ascii.eqb c LF then "" :: str_lines (String d t)
    else if Ascii.eqb c CR && Ascii.eqb d LF then str_lines (String d t)
    else match str_lines (String d t) with [] => [String c ""] | l :: ls => String c l :: ls end.
Proof. done. Qed.

Lemma line_newline l rest :
  str_all line_char l = true -> str_lines (l +:+ newline +:+ rest) = l :: str_lines rest.
Proof.
  induction l as [|c l IH]; [done|]. cbn [str_all]. intros H.
  destruct (line_char c) eqn:C; [|done]. specialize (IH H). rewrite append_cons.
  unfold line_char in C. apply andb_true_iff in C as [C1%negb_true_iff C2%negb_true_iff].
  assert (exists d t, l +:+ newline +:+ rest = String d t) as (d & t & E) by (destruct l; by eexists _, _).
  rewrite E in IH |- *. by rewrite str_lines_step, C1, C2, IH.
Qed.

Lemma lines_unlines ls : Forall (fun l => str_all line_char l = true) ls -> str_lines (unlines ls) = ls.
Proof. induction 1 as [|l ls H _ IH]; [done|]. cbn [unlines]. by rewrite line_newline, IH. Qed.

Lemma str_lines_clean s : str_all no_cr s = true -> Forall (fun l => str_all line_char l = true) (str_lines s).
Proof.
  induction s as [|c s IH]; [constructor|]. cbn [str_all]. intros H.
  destruct (no_cr c) eqn:N; [|done]. specialize (IH H). unfold no_cr in N.
  destruct (Ascii.eqb c LF) eqn:L; [cbn [str_lines]; rewrite L; by constructor|].
  assert (line_char c = true) as LC by (unfold line_char; by rewrite L, N).
  apply negb_true_iff in N.
  destruct s as [|d s]; [cbn [str_lines]; rewrite L; constructor; [cbn; by rewrite LC|constructor]|].
  rewrite str_lines_step, L, N. cbn [andb].
  destruct (str_lines (String d s)) as [|l ls].
  - constructor; [cbn; by rewrite LC|constructor].
  - apply Forall_cons in IH as [Hl Hls]. constructor; [|done]. cbn. by rewrite LC.
Qed.

Lemma indent_clean l : str_all line_char l = true -> str_all line_char (indent_of l) = true.
Proof.
  induction l as [|c l IH]; [done|]. cbn. destruct (line_char c) eqn:C; [|done].
  destruct (is_whitespace c); [|done]. cbn. by rewrite C.
Qed.

Lemma rewrite_clean m ls : forall i w s,
  str_all line_char m = true -> Forall (fun l => str_all line_char l = true) ls ->
  Forall (fun l => str_all line_char l = true) (rewrite_mode_lines m i w s ls).
Proof.
  assert (forall indent, str_all line_char indent = true -> str_all line_char m = true ->
    str_all line_char (indent +:+ "mode: " +:+ m) = true) as W.
  { intros indent I M. by rewrite !str_all_app, I, M. }
  induction ls as [|l ls IH]; intros i w s M F; cbn [rewrite_mode_lines].
  - destruct w; [constructor|]. apply Forall_app. split; [by destruct s; repeat constructor|].
    constructor; [by apply (W "  ")|constructor].
  - apply Forall_cons in F as [L F]. destruct (starts_with _ _); [constructor; by auto|].
    destruct i; [|constructor; by auto]. destruct (is_top_level l).
    + apply Forall_app. split; [destruct w; [constructor|constructor; [by apply (W "  ")|constructor]]|].
      constructor; by auto.
    + destruct (_ && _); constructor; auto. apply W; [by apply indent_clean|done].
Qed.

(** C29: the mode of the configuration file is changed only by an accepted
    request; a switch to live needs the confirmation header; the new file has
    the old lines but for one edit, the mode line of the execution block
    replaced, inserted or appended with its block *)
Theorem put_mode_sound current_mode mode confirm content write_error :
  let '(response, after) := put_mode current_mode mode confirm content write_error in
  match response with
  | ModeOk t _ restart =>
      mode = Some t /\ restart = negb (String.eqb current_mode t) /\
      (t = "demo" \/ t = "live" /\ exists h, confirm = Some h /\ to_ascii_lowercase h = "yes") /\
      exists text ls, content = Ok text /\ after = Ok (unlines ls) /\ one_edit t (str_lines text) ls
  | _ => after = content
  end.
Proof.
  unfold put_mode. destruct mode as [m|]; [|done].
  assert (forall t confirmed, (t = "live" -> confirmed = true ->
      exists h, confirm = Some h /\ to_ascii_lowercase h = "yes") -> m = t -> t = "demo" \/ t = "live" ->
    let '(response, after) := (if String.eqb t "live" && negb confirmed then (ModeForbidden, content)
      else match content with
        | Err e => (ModeIoError e, content)
        | Ok text =>
            match write_error with
            | Some e => (ModeIoError e, content)
            | None => (ModeOk t current_mode (negb (String.eqb current_mode t)), Ok (rewrite_yaml_mode text t))
            end
        end) in
    match response with
    | ModeOk t _ restart =>
        Some m = Some t /\ restart = negb (String.eqb current_mode t) /\
        (t = "demo" \/ t = "live" /\ exists h, confirm = Some h /\ to_ascii_lowercase h = "yes") /\
        exists text ls, content = Ok text /\ after = Ok (unlines ls) /\ one_edit t (str_lines text) ls
    | _ => after = content
    end) as G.
  { intros t confirmed Hc -> Ht. destruct (String.eqb t "live" && negb confirmed) eqn:F; [done|].
    destruct content as [text|e]; [|done]. destruct write_error; [done|].
    split; [done|]. split; [done|]. split.
    - destruct Ht as [->| ->]; [by left|right]. split; [done|]. apply Hc; [done|]. by destruct confirmed.
    - eexists text, _. split; [done|]. split; [done|]. apply rewrite_one_edit. }
  destruct (String.eqb_spec m "demo") as [->|N].
  - apply (G "demo"); by auto.
  - destruct (String.eqb_spec m "live") as [->|N']; [|done]. apply G; [|done|by right].
    intros _. destruct confirm as [h|]; [|done]. intros H%String.eqb_eq. by exists h.
Qed.

(** The last switch decides: switching the mode of a file twice is switching
    it once to the second mode. *)
Theorem mode_last_wins content m1 m2 :
  str_all no_cr content = true -> str_all line_char m1 = true ->
  rewrite_yaml_mode (rewrite_yaml_mode content m1) m2 = rewrite_yaml_mode content m2.
Proof.
  intros C M. unfold rewrite_yaml_mode. rewrite lines_unlines.
  - rewrite rewrite_twice; [done|by right|done].
  - apply rewrite_clean; [done|]. by apply str_lines_clean.
Qed.

(** A comment in the first column ends the block for the scan, so the mode is
    inserted before it and the old mode line stays: the key is there twice. *)
Example comment_duplicates_mode :
  rewrite_mode_lines "live" false false false
    ["execution:"; "# trading mode"; "  mode: demo"; "scoring:"] =
  ["execution:"; "  mode: live"; "# trading mode"; "  mode: demo"; "scoring:"].
Proof. vm_compute. done. Qed.

(** ** The wallet editor *)

Section PatchesOk.
Context {B : Type}.
Implicit Types (r : WalletRegistry B).

Definition known r (id : string) : bool := bool_decide (is_Some (wr_by_id r !! id)).

Lemma update_known r id f i : known (wallet_update r id f) i = known r i.
Proof.
  unfold known, wallet_update. cbn. apply bool_decide_ext. destruct (decide (id = i)) as [->|N].
  - rewrite lookup_alter_eq. by rewrite fmap_is_Some.
  - by rewrite lookup_alter_ne.
Qed.

(** what the walk over the request adds to the saved entries, and the registry
    it leaves *)
Record patched_ok r r' (arr : list WalletPatch) (new : list WalletEntryConfig) : Prop := {
  po_ids : we_id <$> new = List.filter (known r) (omap pt_id arr);
  po_saved : Forall (fun e => exists w, wr_by_id r' !! we_id e = Some w /\ e = entry_of_wallet (we_id e) w) new;
  po_others : forall id, id ∉ omap pt_id arr -> wr_by_id r' !! id = wr_by_id r !! id;
  po_ordered : wr_ordered r' = wr_ordered r /\ wr_by_pubkey r' = wr_by_pubkey r
}.

Lemma patch_fold_ok arr : forall r ps, NoDup (omap pt_id arr) ->
  let '(r', ps') := List.fold_left patch_step arr (r, ps) in
  exists new, ps' = ps ++ new /\ patched_ok r r' arr new.
Proof.
  induction arr as [|p arr IH]; intros r ps N.
  { exists []. rewrite app_nil_r. split; [done|]. by split. }
  cbn [List.fold_left]. assert (forall id, pt_id p = Some id -> omap pt_id (p :: arr) = id :: omap pt_id arr) as Os
    by (intros id E; cbn; by rewrite E).
  assert (pt_id p = None -> omap pt_id (p :: arr) = omap pt_id arr) as On by (intros E; cbn; by rewrite E).
  unfold patch_step at 2. destruct (pt_id p) as [id|] eqn:E.
  2: { rewrite (On eq_refl) in N. specialize (IH r ps N). destruct (List.fold_left _ _ _) as [r' ps'].
       destruct IH as (new & -> & [P1 P2 P3 P4]). exists new. split; [done|]. by split; rewrite ?(On eq_refl). }
  rewrite (Os id eq_refl) in N. apply NoDup_cons in N as [Ni N]. unfold wallet_get.
  destruct (wr_by_id r !! id) as [w|] eqn:W.
  - set (e := entry_of_wallet id (apply_patch p w)). set (r1 := wallet_update r id (apply_patch p)).
    specialize (IH r1 (ps ++ [e]) N). destruct (List.fold_left _ _ _) as [r' ps'].
    destruct IH as (new & -> & [P1 P2 P3 P4]). exists (e :: new). rewrite <- app_assoc. split; [done|].
    assert (wr_by_id r1 !! id = Some (apply_patch p w)) as L
      by (unfold r1, wallet_update; cbn; by rewrite lookup_alter_eq, W).
    split; rewrite ?(Os id eq_refl).
    + cbn [fmap list_fmap List.filter]. unfold known at 1. rewrite W, bool_decide_true by by eexists.
      cbn. f_equal. rewrite P1. apply filter_ext. intros i. apply update_known.
    + constructor; [|done]. exists (apply_patch p w). split; [|done]. cbn. by rewrite P3.
    + intros i [Hi Hn]%not_elem_of_cons. rewrite P3 by done. unfold r1, wallet_update. cbn.
      by rewrite lookup_alter_ne.
    + done.
  - specialize (IH r ps N). destruct (List.fold_left _ _ _) as [r' ps'].
    destruct IH as (new & -> & [P1 P2 P3 P4]). exists new. split; [done|]. split; rewrite ?(Os id eq_refl); try done.
    + cbn [List.filter]. unfold known at 1. rewrite W, bool_decide_false by by intros [? ?]. done.
    + intros i [Hi Hn]%not_elem_of_cons. by apply P3.
Qed.
End PatchesOk.

(** when a request names every wallet at most once and the file can be
    written, the file then lists exactly the requested wallets that exist, in
    the order of the request, each as it is now in the registry, without its
    demo balance and its RPC override; wallets the request does not name are
    unchanged in the registry and absent from the file *)
Theorem put_wallets_saves {B : Type} (arr : list WalletPatch) (r : WalletRegistry B) config :
  NoDup (omap pt_id arr) ->
  let '(response, r', saved) := put_wallets (Some arr) None r config in
  response = WalletsOk /\
  we_id <$> saved = List.filter (known r) (omap pt_id arr) /\
  Forall (fun e => exists w, wr_by_id r' !! we_id e = Some w /\ e = entry_of_wallet (we_id e) w) saved /\
  (forall id, id ∉ omap pt_id arr -> wr_by_id r' !! id = wr_by_id r !! id /\ id ∉ (we_id <$> saved)) /\
  wr_ordered r' = wr_ordered r.
Proof.
  intros N. unfold put_wallets. pose proof (patch_fold_ok arr r [] N) as H.
  destruct (List.fold_left _ _ _) as [r' saved]. destruct H as (new & -> & [P1 P2 P3 P4]). cbn [app].
  split; [done|]. split; [done|]. split; [done|]. split; [|apply P4].
  intros id Hid. split; [by apply P3|]. rewrite P1, list_elem_of_In, filter_In, <- list_elem_of_In. naive_solver.
Qed.

Definition demo_patch : WalletPatch := mkWalletPatch (Some "wallet_1") (Some false) None.

Lemma put_wallets_saves_witness :
  let '(response, r', saved) := put_wallets (Some [demo_patch]) None demo_registry default_wallet_entries in
  response = WalletsOk /\ we_id <$> saved = List.filter (known demo_registry) ["wallet_1"] /\
  Forall (fun e => exists w, wr_by_id r' !! we_id e = Some w /\ e = entry_of_wallet (we_id e) w) saved /\
  (forall id, id ∉ ["wallet_1"] -> wr_by_id r' !! id = wr_by_id demo_registry !! id /\ id ∉ (we_id <$> saved)) /\
  wr_ordered r' = wr_ordered demo_registry.
Proof.
  exact (put_wallets_saves [demo_patch] demo_registry default_wallet_entries (NoDup_singleton "wallet_1")).
Defined.

(** A request that names a wallet twice writes it twice, and the next start
    refuses the configuration. *)
Example duplicate_patch_bricks_start :
  let saved := (put_wallets (Some [demo_patch; demo_patch]) None demo_registry default_wallet_entries).2 in
  we_id <$> saved = ["wallet_1"; "wallet_1"] /\
  build_wallet_registry demo_open saved "demo" = Ret (Err "duplicate wallet id wallet_1").
Proof. vm_compute. done. Qed.
