(* ===== verification/Chart.v ===== *)
(** The chart of a token served by [main.rs]: the market-capitalisation points
    and the markers of the bot's trades on one axis.

    The rows of the three queries are arguments. *)
From S2P Require Import Prelude Amounts.

(* main.rs 53-53: CHART_SLOTS_PER_SEC *)
Definition CHART_SLOTS_PER_SEC : f64 := 2.5%float.
(* main.rs 55-55: CHART_PRE_SECS *)
Definition CHART_PRE_SECS : Z := 300.
(* main.rs 56-56: CHART_POST_SECS *)
Definition CHART_POST_SECS : Z := 120.
(* main.rs 58-58: CHART_MAX_SPAN_SECS *)
Definition CHART_MAX_SPAN_SECS : Z := 3600.
(* main.rs 60-60: CHART_MCAP_ABS_MAX *)
Definition CHART_MCAP_ABS_MAX : f64 := 200000%float.

(** a sample: time (unix seconds or slot) and market capitalisation *)
Definition Point : Type := Z * f64.

(** [i64::saturating_sub] *)
Definition i64_sat_sub (a b : Z) : Z := sat_s I64_MIN I64_MAX (a - b).

(* main.rs 62-64: chart_mcap_valid *)
Definition chart_mcap_valid (mcap : f64) : bool :=
  f64_is_finite mcap && (0 <? mcap)%float && (mcap <=? CHART_MCAP_ABS_MAX)%float.

(* main.rs 66-77: chart_tape_median *)
Definition chart_tape_median (mcaps : list f64) : option f64 :=
  let v := f64_sort (List.filter chart_mcap_valid mcaps) in
  match v with [] => None | _ => v !! (length v / 2)%nat end.

(* main.rs 79-90: chart_mcap_matches_tape *)
Definition chart_mcap_matches_tape (mcap : f64) (median : option f64) : bool :=
  if negb (chart_mcap_valid mcap) then false
  else
    match median with
    | None => true
    | Some med =>
        if (med <=? 0)%float then true else (mcap >=? med * 0.02)%float && (mcap <=? med * 50)%float
    end.

(* main.rs 92-94: chart_is_unix_secs *)
Definition chart_is_unix_secs (t : Z) : bool := 1000000000 <=? t.

(* main.rs 96-99: chart_slot_to_sec *)
Definition chart_slot_to_sec (slot slot0 : Z) : Z :=
  let delta := i64_sat_sub slot slot0 in
  f64_as_i64 (f64_max (f64_round (f64_of_Z delta / CHART_SLOTS_PER_SEC)%float) 0%float).

(** [min_by] keeps the first of two equal elements; two distances that do not
    compare are equal *)
Definition closer (target : f64) (a b : Point) : Point :=
  if (PrimFloat.abs (b.2 - target) <? PrimFloat.abs (a.2 - target))%float then b else a.

(* main.rs 101-113: chart_infer_slot_by_mcap *)
Definition chart_infer_slot_by_mcap (target : f64) (series : list Point) : Z :=
  match List.filter (fun p : Point => chart_mcap_valid p.2) series with
  | p :: ps => (List.fold_left (closer target) ps p).1
  | [] => match series with p :: _ => p.1 | [] => 0 end
  end.

(* main.rs 116-153: chart_normalize_marker_secs *)
Definition chart_normalize_marker_secs (entry_at closed_at : Z) (entry_mcap exit_mcap : f64)
    (series : list Point) (slot0 : Z) (timeline_unix : bool) : Z * Z :=
  let entry_unix := (0 <? entry_at) && chart_is_unix_secs entry_at in
  let close_unix := (0 <? closed_at) && chart_is_unix_secs closed_at in
  if timeline_unix && entry_unix && close_unix && (entry_at <=? closed_at) then (entry_at, closed_at)
  else
    let exit_sec := chart_slot_to_sec (chart_infer_slot_by_mcap exit_mcap series) slot0 in
    let entry_sec :=
      if (0 <? entry_at) && negb entry_unix then chart_slot_to_sec entry_at slot0
      else if entry_unix then entry_at
      else chart_slot_to_sec (chart_infer_slot_by_mcap entry_mcap series) slot0 in
    let closed_sec :=
      if (0 <? closed_at) && negb close_unix then chart_slot_to_sec closed_at slot0
      else if close_unix then closed_at
      else Z.max exit_sec entry_sec in
    (entry_sec, closed_sec).

(** [sort_by_key] is stable *)
Fixpoint insert_point (p : Point) (l : list Point) : list Point :=
  match l with
  | [] => [p]
  | q :: l => if p.1 <=? q.1 then p :: q :: l else q :: insert_point p l
  end.
Definition sort_points (l : list Point) : list Point := List.fold_right insert_point [] l.

(** the last point is replaced by one of the same time: [push_last] on the
    reversed output *)
Definition push_last (out : list Point) (p : Point) : list Point :=
  match out with
  | q :: out' => if q.1 =? p.1 then p :: out' else p :: out
  | [] => [p]
  end.

(* main.rs 155-168: chart_dedup_points *)
Definition chart_dedup_points (points : list Point) : list Point :=
  rev (List.fold_left push_last (sort_points points) []).

Definition list_min (l : list Z) : option Z :=
  match l with [] => None | x :: l => Some (List.fold_left Z.min l x) end.
Definition list_max (l : list Z) : option Z :=
  match l with [] => None | x :: l => Some (List.fold_left Z.max l x) end.

(* main.rs 170-187: chart_trade_window_bounds *)
Definition chart_trade_window_bounds (marker_times : list (Z * Z)) (points : list Point) : Z * Z :=
  match marker_times with
  | _ :: _ =>
      let entry_min := default 0 (list_min (fst <$> marker_times)) in
      let exit_max := default entry_min (list_max (snd <$> marker_times)) in
      (i64_sat_sub entry_min CHART_PRE_SECS, i64 (exit_max + CHART_POST_SECS))
  | [] =>
      match head points, list.last points with
      | Some (lo, _), Some (hi, _) =>
          let span := i64_sat_sub hi lo in
          if CHART_MAX_SPAN_SECS <? span
          then (i64_sat_sub lo CHART_PRE_SECS, i64 (lo + CHART_MAX_SPAN_SECS))
          else (i64_sat_sub lo CHART_PRE_SECS, i64 (hi + 60))
      | _, _ => (0, CHART_POST_SECS)
      end
  end.

(** ** The handler *)

(* main.rs 663-670: get_chart *)
Record BotTradeMarkerRow := mkMarkerRow {
  mr_entry_at : Z; mr_closed_at : Z; mr_entry_mcap_sol : f64; mr_exit_mcap_sol : f64;
  mr_realized_pnl_pct : f64; mr_close_reason : string }.

(* main.rs 677-684: get_chart *)
Record ChartMarker := mkChartMarker {
  cm_entry_at : Z; cm_closed_at : Z; cm_entry_mcap : f64; cm_exit_mcap : f64;
  cm_pnl : f64; cm_reason : string }.
#[export] Instance ChartMarker_settable : Settable ChartMarker := fun r =>
  mkChartMarker (cm_entry_at r) (cm_closed_at r) (cm_entry_mcap r) (cm_exit_mcap r) (cm_pnl r) (cm_reason r).

(* main.rs 686-690: get_chart *)
Record ChartResponse := mkChartResponse {
  cr_t0 : Z; cr_points : list Point; cr_markers : list ChartMarker }.

(** the points of the tape, or those of the trades with one point per slot *)
(* main.rs 745-774: get_chart *)
Definition chart_series (use_unix_tape : bool) (rows : list Point) : list Point * option f64 :=
  let valid := List.filter (fun p : Point => chart_mcap_valid p.2) rows in
  let series := if use_unix_tape then valid else rev (List.fold_left push_last valid []) in
  let median := chart_tape_median (snd <$> series) in
  (List.filter (fun p : Point => chart_mcap_matches_tape p.2 median) series, median).

(* main.rs 795-823: get_chart *)
Definition chart_marker (series : list Point) (slot0 : Z) (use_unix_tape : bool) (median : option f64)
    (m : BotTradeMarkerRow) : option ChartMarker :=
  if negb (chart_mcap_matches_tape (mr_entry_mcap_sol m) median)
     || negb (chart_mcap_matches_tape (mr_exit_mcap_sol m) median) then None
  else
    let '(entry_at, closed_at) :=
      chart_normalize_marker_secs (mr_entry_at m) (mr_closed_at m) (mr_entry_mcap_sol m) (mr_exit_mcap_sol m)
        series slot0 use_unix_tape in
    if closed_at <? entry_at then None
    else Some (mkChartMarker entry_at closed_at (mr_entry_mcap_sol m) (mr_exit_mcap_sol m)
                 (mr_realized_pnl_pct m) (mr_close_reason m)).

(** [i64::clamp] panics when the bounds are crossed *)
Definition i64_clamp (x lo hi : Z) : outcome Z :=
  if lo <=? hi then Ret (Z.min (Z.max x lo) hi) else Panic (AssertFailed "min <= max").

(* main.rs 843-846: get_chart *)
Definition place_marker (win_lo win_hi entry_base : Z) (m : ChartMarker) : outcome ChartMarker :=
  e ← i64_clamp (cm_entry_at m) win_lo win_hi;
  c ← i64_clamp (cm_closed_at m) win_lo win_hi;
  Ret (m <| cm_entry_at := i64_sat_sub e entry_base |> <| cm_closed_at := i64_sat_sub c entry_base |>).

Fixpoint outcome_all {A B} (f : A -> outcome B) (l : list A) : outcome (list B) :=
  match l with
  | [] => Ret []
  | a :: l => b ← f a; bs ← outcome_all f l; Ret (b :: bs)
  end.

(** the points and the markers on the axis of the window *)
(* main.rs 825-853: get_chart *)
Definition lay_out (point_series : list Point) (markers : list ChartMarker) : outcome ChartResponse :=
  let '(win_lo, win_hi) :=
    chart_trade_window_bounds ((fun m => (cm_entry_at m, cm_closed_at m)) <$> markers) point_series in
  let point_series := List.filter (fun p : Point => (win_lo <=? p.1) && (p.1 <=? win_hi)) point_series in
  let entry_base := default win_lo (list_min (cm_entry_at <$> markers)) in
  let points := (fun p : Point => (i64_sat_sub p.1 entry_base, p.2)) <$> point_series in
  markers ← outcome_all (place_marker win_lo win_hi entry_base) markers;
  Ret (mkChartResponse 0 points markers).

(* main.rs 777-786: get_chart *)
Definition chart_points (use_unix_tape : bool) (slot0 : Z) (series : list Point) : list Point :=
  chart_dedup_points
    (if use_unix_tape then series else (fun p : Point => (chart_slot_to_sec p.1 slot0, p.2)) <$> series).

(** [None]: the query failed and the answer is an internal error *)
(* main.rs 653-854: get_chart *)
Definition get_chart (tape_rows : list Point) (trade_rows : option (list Point))
    (marker_rows : option (list BotTradeMarkerRow)) : option (outcome ChartResponse) :=
  let use_unix_tape := match tape_rows with [] => false | _ => true end in
  rows ← (if use_unix_tape then Some tape_rows else trade_rows);
  marker_rows ← marker_rows;
  let '(series, median) := chart_series use_unix_tape rows in
  let slot0 := if use_unix_tape then 0 else match series with p :: _ => p.1 | [] => 0 end in
  let point_series := chart_points use_unix_tape slot0 series in
  let series_for_markers := if use_unix_tape then point_series else series in
  Some (lay_out point_series (omap (chart_marker series_for_markers slot0 use_unix_tape median) marker_rows)).

(** ** Sorting and deduplication *)

Definition later (p q : Point) : Prop := p.1 < q.1.

Lemma insert_point_perm p l : insert_point p l ≡ₚ p :: l.
Proof.
  induction l as [|q l IH]; [done|]. cbn. destruct (p.1 <=? q.1); [done|].
  rewrite IH. constructor.
Qed.

Lemma sort_points_perm l : sort_points l ≡ₚ l.
Proof. induction l as [|p l IH]; [done|]. cbn. by rewrite insert_point_perm, IH. Qed.

Lemma insert_point_sorted p l :
  StronglySorted (fun p q : Point => p.1 <= q.1) l ->
  StronglySorted (fun p q : Point => p.1 <= q.1) (insert_point p l).
Proof.
  induction 1 as [|q l S IH F]; cbn; [by repeat constructor|].
  destruct (Z.leb_spec p.1 q.1).
  - constructor; [by constructor|]. constructor; [done|].
    eapply Forall_impl; [exact F|]. intros r Hr. cbn in Hr. lia.
  - constructor; [done|]. rewrite insert_point_perm. constructor; [lia|done].
Qed.

Lemma sort_points_sorted l : StronglySorted (fun p q : Point => p.1 <= q.1) (sort_points l).
Proof. induction l as [|p l IH]; [constructor|]. by apply insert_point_sorted. Qed.

Lemma sorted_snoc {A} (R : A -> A -> Prop) l x :
  StronglySorted R l -> Forall (fun y => R y x) l -> StronglySorted R (l ++ [x]).
Proof.
  induction 1 as [|y l S IH F]; intros H; [by repeat constructor|].
  apply Forall_cons in H as [H1 H2]. cbn. constructor; [by apply IH|].
  apply Forall_app. split; [done|]. by repeat constructor.
Qed.

Lemma sorted_rev {A} (R : A -> A -> Prop) l : StronglySorted (flip R) l -> StronglySorted R (rev l).
Proof.
  induction 1 as [|x l S IH F]; [constructor|]. cbn. apply sorted_snoc; [done|].
  rewrite Forall_forall in *. intros y Hy. apply F. by rewrite list_elem_of_In, in_rev, <- list_elem_of_In.
Qed.

(** the reversed output stays strictly descending *)
Lemma dedup_desc l : forall out,
  StronglySorted (fun p q : Point => p.1 <= q.1) l -> StronglySorted (flip later) out ->
  (forall p q, p ∈ l -> head out = Some q -> q.1 <= p.1) ->
  StronglySorted (flip later) (List.fold_left push_last l out) /\
  (forall p, p ∈ List.fold_left push_last l out -> p ∈ out \/ p ∈ l).
Proof.
  induction l as [|p l IH]; intros out S O H; cbn [List.fold_left]; [by auto|].
  apply StronglySorted_inv in S as [S F]. rewrite Forall_forall in F.
  assert (StronglySorted (flip later) (push_last out p) /\ head (push_last out p) = Some p /\
    (forall r, r ∈ push_last out p -> r ∈ out \/ r = p)) as (O' & Hd & Sub).
  { destruct out as [|q out]; cbn; [split; [by repeat constructor|]; set_solver|].
    apply StronglySorted_inv in O as [O Fq]. specialize (H p q ltac:(by left) eq_refl).
    destruct (Z.eqb_spec q.1 p.1) as [E|N].
    - split; [|split; [done|set_solver]]. constructor; [done|].
      eapply Forall_impl; [exact Fq|]. intros r Hr. unfold flip, later in *. lia.
    - split; [|split; [done|set_solver]]. constructor; [by constructor|]. constructor; [unfold flip, later; lia|].
      eapply Forall_impl; [exact Fq|]. intros r Hr. unfold flip, later in *. lia. }
  destruct (IH (push_last out p) S O') as [R1 R2].
  { intros r q Hr Hq. rewrite Hd in Hq. injection Hq as <-. by apply F. }
  split; [done|]. intros r Hr. destruct (R2 r Hr) as [Hin|Hin]; [|by right; right].
  destruct (Sub r Hin) as [?| ->]; [by left|right; by left].
Qed.

Lemma dedup_points_ok l :
  StronglySorted later (chart_dedup_points l) /\ (forall p, p ∈ chart_dedup_points l -> p ∈ l).
Proof.
  destruct (dedup_desc (sort_points l) [] (sort_points_sorted l) ltac:(constructor)) as [D Sub]; [done|].
  unfold chart_dedup_points. split; [by apply sorted_rev|].
  intros p Hp. rewrite list_elem_of_In, <- in_rev, <- list_elem_of_In in Hp.
  destruct (Sub p Hp) as [Hn|Hs]; [by apply elem_of_nil in Hn|]. by rewrite sort_points_perm in Hs.
Qed.

(** the output of [push_last] holds points of its input *)
Lemma push_last_elem l : forall out p, p ∈ List.fold_left push_last l out -> p ∈ out \/ p ∈ l.
Proof.
  induction l as [|q l IH]; intros out p; cbn [List.fold_left]; [by auto|].
  intros [H|H]%IH; [|by right; right]. destruct out as [|r out]; cbn in H; [set_solver|].
  destruct (r.1 =? q.1); set_solver.
Qed.

Lemma filter_sorted {A} (R : A -> A -> Prop) f l : StronglySorted R l -> StronglySorted R (List.filter f l).
Proof.
  induction 1 as [|x l S IH F]; [constructor|]. cbn. destruct (f x); [|done]. constructor; [done|].
  rewrite Forall_forall in *. intros y Hy. apply F. rewrite list_elem_of_In in *. by apply filter_In in Hy as [? _].
Qed.

Lemma fmap_sorted {A C} (R : A -> A -> Prop) (Q : C -> C -> Prop) (f : A -> C) l :
  (forall x y, x ∈ l -> y ∈ l -> R x y -> Q (f x) (f y)) -> StronglySorted R l -> StronglySorted Q (f <$> l).
Proof.
  intros H S. induction S as [|x l S IH F]; [constructor|]. cbn. constructor.
  - apply IH. intros y z Hy Hz. apply H; by right.
  - rewrite Forall_fmap. rewrite Forall_forall in *. intros y Hy. apply H; [by left|by right|by apply F].
Qed.

(** ** The axis *)

Lemma i64_sat_sub_range a b : I64_MIN <= i64_sat_sub a b <= I64_MAX.
Proof. unfold i64_sat_sub, sat_s, I64_MIN, I64_MAX. lia. Qed.

Lemma f64_max_zero_as_i64 x : 0 <= f64_as_i64 (f64_max x 0%float) <= I64_MAX.
Proof.
  assert (f64_as_i64 (f64_max x 0%float) <= I64_MAX) as U.
  { unfold f64_as_i64. apply f64_to_int_range. unfold I64_MIN, I64_MAX. lia. }
  split; [|done]. clear U. unfold f64_max.
  destruct (PrimFloat.is_nan x) eqn:N; [vm_compute; discriminate|].
  repeat (match goal with |- context [if ?b then _ else _] => destruct b eqn:? end);
    try (vm_compute; discriminate).
  assert (PrimFloat.leb 0%float x = true) as L by f64_order.
  apply f64_leb_iff in L. unfold f64_le, f64_cls, f64_as_i64, f64_to_int, sf_trunc in *.
  destruct (Prim2SF x) as [s|s| |s m e]; unfold I64_MIN, I64_MAX; try lia.
  - destruct s; [|lia]. cbn in L. exfalso. f64_const. lia.
  - destruct s.
    + exfalso. cbn in L. f64_const. lia.
    + destruct (0 <=? e); [pose proof (Z.shiftl_nonneg (Z.pos m) e)|pose proof (Z.shiftr_nonneg (Z.pos m) (- e))]; lia.
Qed.

Lemma slot_to_sec_range slot slot0 : 0 <= chart_slot_to_sec slot slot0 <= I64_MAX.
Proof. apply f64_max_zero_as_i64. Qed.

(** a marker before it is placed: from zero on, and closed after its entry *)
Definition marker_ok (m : ChartMarker) : Prop := 0 <= cm_entry_at m <= cm_closed_at m /\ cm_closed_at m <= I64_MAX.

Lemma normalize_range e c em xm series slot0 u :
  e <= I64_MAX -> c <= I64_MAX ->
  0 <= (chart_normalize_marker_secs e c em xm series slot0 u).1 <= I64_MAX /\
  (chart_normalize_marker_secs e c em xm series slot0 u).2 <= I64_MAX.
Proof.
  intros He Hc. unfold chart_normalize_marker_secs.
  assert (forall b, b && chart_is_unix_secs e = true -> 0 <= e) as U
    by (intros b [_ H%Z.leb_le]%andb_prop; lia).
  set (xs := chart_slot_to_sec (chart_infer_slot_by_mcap xm series) slot0).
  set (es := chart_slot_to_sec (chart_infer_slot_by_mcap em series) slot0).
  pose proof (slot_to_sec_range (chart_infer_slot_by_mcap xm series) slot0) as Hx. fold xs in Hx.
  pose proof (slot_to_sec_range (chart_infer_slot_by_mcap em series) slot0) as Hs. fold es in Hs.
  pose proof (slot_to_sec_range e slot0) as H1. pose proof (slot_to_sec_range c slot0) as H2.
  destruct ((0 <? e) && chart_is_unix_secs e) eqn:EU, ((0 <? c) && chart_is_unix_secs c) eqn:CU;
    try (pose proof (U _ EU)); destruct u, (e <=? c), (0 <? e), (0 <? c); cbn; lia.
Qed.

Lemma chart_marker_ok series slot0 u median r m :
  mr_entry_at r <= I64_MAX -> mr_closed_at r <= I64_MAX ->
  chart_marker series slot0 u median r = Some m -> marker_ok m.
Proof.
  intros He Hc. unfold chart_marker. destruct (_ || _); [done|].
  pose proof (normalize_range (mr_entry_at r) (mr_closed_at r) (mr_entry_mcap_sol r) (mr_exit_mcap_sol r)
    series slot0 u He Hc) as [H1 H2].
  destruct (chart_normalize_marker_secs _ _ _ _ _ _ _) as [e c]. cbn in H1, H2.
  destruct (Z.ltb_spec c e); [done|]. intros [= <-]. unfold marker_ok. cbn. lia.
Qed.

Lemma fold_min_spec l : forall x,
  let m := List.fold_left Z.min l x in (m = x \/ m ∈ l) /\ m <= x /\ Forall (fun y => m <= y) l.
Proof.
  induction l as [|y l IH]; intros x; cbn; [auto with lia|].
  destruct (IH (Z.min x y)) as (H1 & H2 & H3). split; [|split; [lia|constructor; [lia|done]]].
  destruct H1 as [->|H1]; [|right; by right]. destruct (Z.min_spec x y) as [[_ ->]|[_ ->]]; [by left|right; by left].
Qed.

Lemma fold_max_spec l : forall x,
  let m := List.fold_left Z.max l x in (m = x \/ m ∈ l) /\ x <= m /\ Forall (fun y => y <= m) l.
Proof.
  induction l as [|y l IH]; intros x; cbn; [auto with lia|].
  destruct (IH (Z.max x y)) as (H1 & H2 & H3). split; [|split; [lia|constructor; [lia|done]]].
  destruct H1 as [->|H1]; [|right; by right]. destruct (Z.max_spec x y) as [[_ ->]|[_ ->]]; [right; by left|by left].
Qed.

Lemma list_min_spec l x : list_min l = Some x -> x ∈ l /\ Forall (fun y => x <= y) l.
Proof.
  destruct l as [|a l]; [done|]. intros [= <-]. destruct (fold_min_spec l a) as (H1 & H2 & H3).
  split; [destruct H1 as [->|H1]; [by left|by right]|by constructor].
Qed.

Lemma list_max_spec l x : list_max l = Some x -> x ∈ l /\ Forall (fun y => y <= x) l.
Proof.
  destruct l as [|a l]; [done|]. intros [= <-]. destruct (fold_max_spec l a) as (H1 & H2 & H3).
  split; [destruct H1 as [->|H1]; [by left|by right]|by constructor].
Qed.

(** ** The window *)

Lemma place_marker_in lo hi base m :
  lo <= cm_entry_at m -> cm_closed_at m <= hi -> cm_entry_at m <= cm_closed_at m ->
  0 <= base <= cm_entry_at m -> cm_closed_at m <= I64_MAX ->
  place_marker lo hi base m =
    Ret (m <| cm_entry_at := cm_entry_at m - base |> <| cm_closed_at := cm_closed_at m - base |>).
Proof.
  intros H1 H2 H3 H4 H5. unfold place_marker, i64_clamp.
  destruct (Z.leb_spec lo hi); [|lia].
  assert (forall t, cm_entry_at m <= t <= cm_closed_at m ->
    i64_sat_sub (Z.min (Z.max t lo) hi) base = t - base) as P
    by (intros t Ht; unfold i64_sat_sub, sat_s, I64_MAX, I64_MIN in *; lia).
  cbn [mbind outcome_bind]. by rewrite !P by lia.
Qed.

Lemma window_of_markers m0 ms pts :
  chart_trade_window_bounds ((fun m => (cm_entry_at m, cm_closed_at m)) <$> (m0 :: ms)) pts =
  let entry_min := default 0 (list_min (cm_entry_at <$> (m0 :: ms))) in
  let exit_max := default entry_min (list_max (cm_closed_at <$> (m0 :: ms))) in
  (i64_sat_sub entry_min CHART_PRE_SECS, i64 (exit_max + CHART_POST_SECS)).
Proof.
  set (pair := fun m => (cm_entry_at m, cm_closed_at m)).
  assert (cm_entry_at <$> (m0 :: ms) = fst <$> (pair <$> (m0 :: ms))) as -> by by rewrite <- list_fmap_compose.
  assert (cm_closed_at <$> (m0 :: ms) = snd <$> (pair <$> (m0 :: ms))) as -> by by rewrite <- list_fmap_compose.
  reflexivity.
Qed.

(** the markers of a chart, with their window and the base of the axis *)
Lemma place_markers_ok ms m0 pts :
  Forall marker_ok (m0 :: ms) ->
  let times := (fun m => (cm_entry_at m, cm_closed_at m)) <$> (m0 :: ms) in
  let '(lo, hi) := chart_trade_window_bounds times pts in
  exists base, list_min (cm_entry_at <$> (m0 :: ms)) = Some base /\ 0 <= base <= I64_MAX /\
  (exists m, m ∈ m0 :: ms /\ cm_entry_at m = base) /\
  ((exists m, m ∈ m0 :: ms /\ I64_MAX - CHART_POST_SECS < cm_closed_at m) \/
   Forall (fun m => place_marker lo hi base m =
     Ret (m <| cm_entry_at := cm_entry_at m - base |> <| cm_closed_at := cm_closed_at m - base |>) /\
     base <= cm_entry_at m) (m0 :: ms)).
Proof.
  intros F times. unfold times. rewrite window_of_markers. cbv zeta.
  destruct (list_min (cm_entry_at <$> (m0 :: ms))) as [b|] eqn:B; [|done].
  destruct (list_max (cm_closed_at <$> (m0 :: ms))) as [x|] eqn:X; [|done]. cbn [default from_option id].
  apply list_min_spec in B as [Bi Bm]. apply list_max_spec in X as [Xi Xm].
  apply list_elem_of_fmap in Bi as (mb & Eb & Hb). apply list_elem_of_fmap in Xi as (mx & Ex & Hx).
  rewrite Forall_fmap in Bm, Xm. rewrite Forall_forall in F, Bm, Xm.
  pose proof (F mb Hb) as [Rb Rb']. exists b. split; [done|]. split; [lia|]. split; [by exists mb|].
  destruct (Z.le_gt_cases (cm_closed_at mx) (I64_MAX - CHART_POST_SECS)) as [L|G]; [right|left; by exists mx].
  rewrite Forall_forall. intros m Hm. destruct (F m Hm) as [Rm Rm'].
  pose proof (Bm m Hm) as Lb. pose proof (Xm m Hm) as Lx. cbn in Lb, Lx. split; [|done].
  unfold CHART_POST_SECS, CHART_PRE_SECS in *. rewrite wrap_s_small by (unfold in_s, I64_MAX in *; lia).
  apply place_marker_in; try lia. unfold i64_sat_sub, sat_s, I64_MIN, I64_MAX in *. lia.
Qed.

(** ** The points *)

Lemma sorted_last l p q : StronglySorted later l -> list.last l = Some q -> p ∈ l -> p.1 <= q.1.
Proof.
  induction 1 as [|r l S IH F]; [done|]. rewrite last_cons. intros L Hp.
  apply elem_of_cons in Hp as [->|Hp].
  - destruct (list.last l) as [x|] eqn:E; [|injection L as <-; lia].
    injection L as ->. rewrite Forall_forall in F. apply last_Some_elem_of in E. specialize (F q E). unfold later in F. lia.
  - destruct (list.last l) as [x|] eqn:E; [by apply IH|]. apply last_None in E. subst l. by apply elem_of_nil in Hp.
Qed.

Definition point_typed (p : Point) : Prop := I64_MIN <= p.1 <= I64_MAX.

(** without a marker the window starts the axis, and no shown point is far from it *)
Lemma unmarked_window pts p :
  StronglySorted later pts -> Forall point_typed pts -> p ∈ pts ->
  let '(lo, hi) := chart_trade_window_bounds [] pts in
  lo <= p.1 <= hi -> I64_MIN <= p.1 - lo <= I64_MAX.
Proof.
  intros S T Hp. unfold chart_trade_window_bounds. rewrite Forall_forall in T.
  destruct pts as [|[a ma] pts]; [by apply elem_of_nil in Hp|].
  match goal with |- context [list.last ?l] => destruct (list.last l) as [[b mb]|] eqn:L end;
    [|by apply last_None in L].
  pose proof (sorted_last _ _ _ S L Hp) as Hb. cbn [head fst] in *.
  pose proof (T (a, ma) ltac:(by left)) as Ta.
  pose proof (T (b, mb) ltac:(by apply last_Some_elem_of)) as Tb. unfold point_typed in Ta, Tb. cbn in Ta, Tb.
  unfold CHART_MAX_SPAN_SECS, CHART_PRE_SECS, i64_sat_sub, sat_s, I64_MIN, I64_MAX in *.
  destruct (Z.ltb_spec 3600 (Z.max (- 2 ^ 63) (Z.min (2 ^ 63 - 1) (b - a)))) as [Sp|Sp].
  - rewrite wrap_s_small by (unfold in_s; lia). lia.
  - lia.
Qed.

(** a shown point is valid and placed without saturation *)
Definition shown (lo hi : Z) (pts : list Point) : list Point :=
  List.filter (fun p : Point => (lo <=? p.1) && (p.1 <=? hi)) pts.

Lemma shown_elem lo hi pts p : p ∈ shown lo hi pts -> p ∈ pts /\ lo <= p.1 <= hi.
Proof.
  unfold shown. rewrite !list_elem_of_In, filter_In. intros [H [H1%Z.leb_le H2%Z.leb_le]%andb_prop]. auto.
Qed.

Lemma placed_points lo hi base pts (f : f64 -> bool) :
  StronglySorted later pts -> Forall (fun p : Point => f p.2 = true) pts ->
  (forall p, p ∈ pts -> lo <= p.1 <= hi -> I64_MIN <= p.1 - base <= I64_MAX) ->
  let out := (fun p : Point => (i64_sat_sub p.1 base, p.2)) <$> shown lo hi pts in
  StronglySorted later out /\ Forall (fun p : Point => f p.2 = true) out.
Proof.
  intros S V H. split.
  - eapply (fmap_sorted later later); [|by apply filter_sorted].
    intros x y [Hx Lx]%shown_elem [Hy Ly]%shown_elem L. pose proof (H x Hx Lx). pose proof (H y Hy Ly).
    unfold later, i64_sat_sub, sat_s in *. cbn. lia.
  - apply Forall_fmap, Forall_forall. intros p [Hp _]%shown_elem. rewrite Forall_forall in V. exact (V p Hp).
Qed.

(** the points of the series: valid, and of the times of the rows *)
Lemma chart_series_ok u rows :
  let '(series, median) := chart_series u rows in
  Forall (fun p : Point => chart_mcap_valid p.2 = true) series /\ (forall p, p ∈ series -> p ∈ rows).
Proof.
  unfold chart_series. set (valid := List.filter _ rows).
  assert (forall p, p ∈ (if u then valid else rev (List.fold_left push_last valid [])) -> p ∈ rows) as Sub.
  { assert (forall p, p ∈ valid -> p ∈ rows) as Hv.
    { intros p. unfold valid. rewrite !list_elem_of_In, filter_In. by intros [? _]. }
    destruct u; [done|]. intros p Hp. rewrite list_elem_of_In, <- in_rev, <- list_elem_of_In in Hp.
    apply push_last_elem in Hp as [Hp|Hp]; [by apply elem_of_nil in Hp|by apply Hv]. }
  split.
  - apply Forall_forall. intros p. rewrite list_elem_of_In, filter_In. intros [_ M].
    unfold chart_mcap_matches_tape in M. by destruct (chart_mcap_valid p.2).
  - intros p. rewrite list_elem_of_In, filter_In, <- list_elem_of_In. intros [Hp _]. by apply Sub.
Qed.

Lemma outcome_all_forall {A B} (f : A -> outcome B) (g : A -> B) l :
  Forall (fun a => f a = Ret (g a)) l -> outcome_all f l = Ret (g <$> l).
Proof. induction 1 as [|a l H _ IH]; [done|]. cbn. by rewrite H, IH. Qed.

Record chart_ok (resp : ChartResponse) : Prop := {
  co_points : StronglySorted later (cr_points resp);
  co_valid : Forall (fun p : Point => chart_mcap_valid p.2 = true) (cr_points resp);
  co_markers : Forall (fun m => 0 <= cm_entry_at m <= cm_closed_at m) (cr_markers resp);
  co_origin : cr_markers resp <> [] -> exists m, m ∈ cr_markers resp /\ cm_entry_at m = 0
}.

(** a marker closed in the last two minutes of the [i64] range *)
Definition overflowing (m : ChartMarker) : Prop := I64_MAX - CHART_POST_SECS < cm_closed_at m.

Definition marker_overflow (rows : list BotTradeMarkerRow) : Prop :=
  exists r series slot0 u median m, r ∈ rows /\ chart_marker series slot0 u median r = Some m /\ overflowing m.

Lemma lay_out_ok pts ms :
  StronglySorted later pts -> Forall point_typed pts ->
  Forall (fun p : Point => chart_mcap_valid p.2 = true) pts -> Forall marker_ok ms ->
  match lay_out pts ms with
  | Ret resp => chart_ok resp \/ exists m, m ∈ ms /\ overflowing m
  | Panic _ => exists m, m ∈ ms /\ overflowing m
  end.
Proof.
  intros Srt Pt Pv Mk. unfold lay_out. destruct ms as [|m0 ms].
  - cbn [fmap list_fmap list_min default]. pose proof (unmarked_window pts) as W.
    destruct (chart_trade_window_bounds [] pts) as [lo hi]. cbn. left.
    destruct (placed_points lo hi lo pts chart_mcap_valid Srt Pv) as [P1 P2]; [intros p Hp; by apply W|by split].
  - pose proof (place_markers_ok ms m0 pts Mk) as W. cbv zeta in W.
    destruct (chart_trade_window_bounds _ pts) as [lo hi] eqn:WB.
    destruct W as (base & Lm & Bb & (mb & Hmb & Emb) & [Ov|PF]); [destruct (outcome_all _ _); [by right|done]|].
    rewrite Lm. cbn [default from_option id].
    rewrite (outcome_all_forall _ (fun m => m <| cm_entry_at := cm_entry_at m - base |>
                                            <| cm_closed_at := cm_closed_at m - base |>)).
    2: { eapply Forall_impl; [exact PF|]. by intros m [H _]. }
    cbn [mbind outcome_bind]. left.
    assert (lo = i64_sat_sub base CHART_PRE_SECS) as Elo
      by (rewrite window_of_markers, Lm in WB; by injection WB as <- _).
    destruct (placed_points lo hi base pts chart_mcap_valid Srt Pv) as [P1 P2].
    { rewrite Forall_forall in Pt. intros p Hp [L1 L2]. pose proof (Pt p Hp). subst lo.
      unfold point_typed, i64_sat_sub, sat_s, CHART_PRE_SECS, I64_MIN, I64_MAX in *. lia. }
    split; [done|done| |].
    + cbn [cr_markers]. apply Forall_fmap. rewrite Forall_forall in *. intros m Hm.
      destruct (Mk m Hm) as [M1 M2]. destruct (PF m Hm) as [_ Hb]. cbn. lia.
    + intros _. eexists. split; [apply list_elem_of_fmap; exists mb; split; [reflexivity|done]|]. cbn. lia.
Qed.

Lemma chart_points_ok u slot0 series :
  Forall point_typed series -> Forall (fun p : Point => chart_mcap_valid p.2 = true) series ->
  StronglySorted later (chart_points u slot0 series) /\ Forall point_typed (chart_points u slot0 series) /\
  Forall (fun p : Point => chart_mcap_valid p.2 = true) (chart_points u slot0 series).
Proof.
  intros T V. unfold chart_points. set (base := if u then series else _).
  destruct (dedup_points_ok base) as [Srt Sub]. split; [done|].
  rewrite !Forall_forall in *. unfold base in Sub. split; intros p Hp%Sub; destruct u.
  - by apply T.
  - apply list_elem_of_fmap in Hp as (q & -> & Hq).
    pose proof (slot_to_sec_range q.1 slot0). unfold point_typed, I64_MIN. cbn. lia.
  - by apply V.
  - apply list_elem_of_fmap in Hp as (q & -> & Hq). exact (V q Hq).
Qed.

(** C30: on rows of the column types the chart is well-formed: the points have
    strictly increasing times and valid values, every marker is entered at or
    after zero and closed at or after its entry, the earliest is entered at
    zero; the handler fails only without any tape when the query of the trades
    has failed, and can panic or be misplaced only on a trade closed within the
    last two minutes of the i64 range *)
Theorem chart_well_formed tape trades rows :
  Forall point_typed tape -> Forall point_typed (default [] trades) ->
  Forall (fun r => mr_entry_at r <= I64_MAX /\ mr_closed_at r <= I64_MAX) rows ->
  match get_chart tape trades (Some rows) with
  | None => tape = [] /\ trades = None
  | Some (Ret resp) => chart_ok resp \/ marker_overflow rows
  | Some (Panic _) => marker_overflow rows
  end.
Proof.
  intros Tt Tr Tm. unfold get_chart. set (u := match tape with [] => false | _ => true end).
  destruct (if u then Some tape else trades) as [prows|] eqn:ER; cbn [mbind option_bind].
  2: { destruct tape; [|done]. by cbn in ER. }
  assert (Forall point_typed prows) as Tp by (destruct u; [by injection ER as <-|by rewrite ER in Tr]).
  pose proof (chart_series_ok u prows) as Hs. destruct (chart_series u prows) as [series median].
  destruct Hs as [Sv Ss]. set (slot0 := if u then 0 else _).
  assert (Forall point_typed series) as St by (rewrite Forall_forall in *; auto).
  destruct (chart_points_ok u slot0 series St Sv) as (Srt & Pt & Pv).
  set (ser := if u then _ else series). set (ms := omap (chart_marker ser slot0 u median) rows).
  assert (Forall marker_ok ms) as Mk.
  { apply Forall_forall. rewrite Forall_forall in Tm. intros m (r & Hr & E)%list_elem_of_omap.
    destruct (Tm r Hr). by eapply chart_marker_ok. }
  pose proof (lay_out_ok _ ms Srt Pt Pv Mk) as L.
  assert ((exists m, m ∈ ms /\ overflowing m) -> marker_overflow rows) as MO.
  { intros (m & (r & Hr & E)%list_elem_of_omap & Ov). by exists r, ser, slot0, u, median, m. }
  destruct (lay_out _ ms); [destruct L; auto|auto].
Qed.

Lemma chart_well_formed_witness :
  match get_chart [(1700000000, 30%float); (1700000000, 31%float); (1700000060, 42%float)] None
          (Some [mkMarkerRow 1700000000 1700000060 31%float 42%float 35%float "TP1"]) with
  | None => False
  | Some (Ret resp) => chart_ok resp \/ marker_overflow [mkMarkerRow 1700000000 1700000060 31%float 42%float 35%float "TP1"]
  | Some (Panic _) => marker_overflow [mkMarkerRow 1700000000 1700000060 31%float 42%float 35%float "TP1"]
  end.
Proof.
  assert (Forall point_typed [(1700000000, 30%float); (1700000000, 31%float); (1700000060, 42%float)]) as T
    by (repeat constructor; cbn; unfold I64_MIN, I64_MAX; lia).
  pose proof (chart_well_formed [(1700000000, 30%float); (1700000000, 31%float); (1700000060, 42%float)] None
    [mkMarkerRow 1700000000 1700000060 31%float 42%float 35%float "TP1"] T ltac:(constructor)
    ltac:(repeat constructor; cbn; unfold I64_MAX; lia)) as H.
  destruct (get_chart _ _ _); [exact H|]. by destruct H.
Defined.

(** two samples of one second: the later one is shown; times are relative to
    the entry *)
Example chart_demo :
  get_chart [(1700000000, 30%float); (1700000000, 31%float); (1700000060, 42%float)] None
    (Some [mkMarkerRow 1700000000 1700000060 31%float 42%float 35%float "TP1"]) =
  Some (Ret (mkChartResponse 0 [(0, 31%float); (60, 42%float)]
    [mkChartMarker 0 60 31%float 42%float 35%float "TP1"])).
Proof. vm_compute. done. Qed.
