(* ===== verification/DashChart.v ===== *)
(** The chart as the dashboard shows it: [sanitize_chart] of
    [src/dashboard/src/main.rs], which cleans what [GET /chart] of [Chart]
    serves, and the reading of the cleaned series. *)
From S2P Require Import Prelude Amounts Chart.

(** ** Definitions *)

(* dashboard/src/main.rs 315-315: CHART_MCAP_ABS_MAX *)
Definition UI_CHART_MCAP_ABS_MAX : f64 := 200000%float.
(* dashboard/src/main.rs 317-317: CHART_PRE_SECS *)
Definition UI_CHART_PRE_SECS : Z := 300.
(* dashboard/src/main.rs 318-318: CHART_POST_SECS *)
Definition UI_CHART_POST_SECS : Z := 120.

(* dashboard/src/main.rs 320-322: chart_mcap_valid *)
Definition ui_chart_mcap_valid (mcap : f64) : bool :=
  f64_is_finite mcap && (0 <? mcap)%float && (mcap <=? UI_CHART_MCAP_ABS_MAX)%float.

(* dashboard/src/main.rs 324-335: chart_tape_median *)
Definition ui_chart_tape_median (mcaps : list f64) : option f64 :=
  let v := f64_sort (List.filter ui_chart_mcap_valid mcaps) in
  match v with [] => None | _ => v !! (length v / 2)%nat end.

(* dashboard/src/main.rs 337-348: chart_mcap_matches_tape *)
Definition ui_chart_mcap_matches_tape (mcap : f64) (median : option f64) : bool :=
  if negb (ui_chart_mcap_valid mcap) then false
  else
    match median with
    | None => true
    | Some med =>
        if (med <=? 0)%float then true else (mcap >=? med * 0.02)%float && (mcap <=? med * 50)%float
    end.

(** [points.windows(2)]; the last value when no window holds [t] *)
(* dashboard/src/main.rs 484-495: mcap_at_time *)
Fixpoint mcap_in_windows (points : list Point) (t : Z) (last_mcap : f64) : f64 :=
  match points with
  | [] => last_mcap
  | (t0, m0) :: rest =>
      match rest with
      | [] => last_mcap
      | (t1, m1) :: _ =>
          if (t0 <=? t) && (t <=? t1) then
            if t1 =? t0 then m0
            else
              let f := (f64_of_Z (i64 (t - t0)) / f64_of_Z (i64 (t1 - t0)))%float in
              (m0 + (m1 - m0) * f)%float
          else mcap_in_windows rest t last_mcap
      end
  end.

(* dashboard/src/main.rs 474-496: mcap_at_time *)
Definition mcap_at_time (points : list Point) (t : Z) : f64 :=
  match points with
  | [] => 0%float
  | p :: _ =>
      if t <=? p.1 then p.2
      else
        let q := default p (list.last points) in
        if q.1 <=? t then q.2 else mcap_in_windows points t q.2
  end.

(* dashboard/src/main.rs 395-412: chart_trade_window_bounds *)
Definition ui_chart_trade_window_bounds (markers : list ChartMarker) (points : list Point) : Z * Z :=
  match markers with
  | _ :: _ =>
      let entry_min := default 0 (list_min (cm_entry_at <$> markers)) in
      let exit_max := default entry_min (list_max (cm_closed_at <$> markers)) in
      (i64_sat_sub entry_min UI_CHART_PRE_SECS, i64 (exit_max + UI_CHART_POST_SECS))
  | [] =>
      match head points, list.last points with
      | Some (lo, _), Some (hi, _) =>
          let span := i64_sat_sub hi lo in
          if 180 <? span then (i64_sat_sub lo UI_CHART_PRE_SECS, i64 (lo + 180))
          else (i64_sat_sub lo UI_CHART_PRE_SECS, i64 (hi + 60))
      | _, _ => (0, UI_CHART_POST_SECS)
      end
  end.

(** a marker far from the tape takes the tape's value at its time *)
(* dashboard/src/main.rs 369-382: sanitize_chart *)
Definition repair_marker (series : list Point) (median : option f64) (m : ChartMarker) : ChartMarker :=
  let m :=
    if negb (ui_chart_mcap_matches_tape (cm_entry_mcap m) median) then
      let v := mcap_at_time series (cm_entry_at m) in
      if ui_chart_mcap_valid v then m <| cm_entry_mcap := v |> else m
    else m in
  if negb (ui_chart_mcap_matches_tape (cm_exit_mcap m) median) then
    let v := mcap_at_time series (cm_closed_at m) in
    if ui_chart_mcap_valid v then m <| cm_exit_mcap := v |> else m
  else m.

(* dashboard/src/main.rs 383-389: sanitize_chart *)
Definition keep_marker (median : option f64) (m : ChartMarker) : bool :=
  (cm_entry_at m <=? cm_closed_at m) && (0 <=? cm_entry_at m) && (0 <=? cm_closed_at m)
  && ui_chart_mcap_matches_tape (cm_entry_mcap m) median
  && ui_chart_mcap_matches_tape (cm_exit_mcap m) median.

(* dashboard/src/main.rs 415-431: chart_focus_trade_window *)
Definition chart_focus_trade_window (chart : ChartResponse) : outcome ChartResponse :=
  let '(win_lo, win_hi) := ui_chart_trade_window_bounds (cr_markers chart) (cr_points chart) in
  let points := List.filter (fun p : Point => (win_lo <=? p.1) && (p.1 <=? win_hi)) (cr_points chart) in
  let entry_base := default win_lo (list_min (cm_entry_at <$> cr_markers chart)) in
  let points := (fun p : Point => (i64_sat_sub p.1 entry_base, p.2)) <$> points in
  markers ← outcome_all (place_marker win_lo win_hi entry_base) (cr_markers chart);
  Ret (mkChartResponse (cr_t0 chart) points markers).

(** sorting is stable, and of two points of one time the later one stays *)
(* dashboard/src/main.rs 350-393: sanitize_chart *)
Definition sanitize_chart (chart : ChartResponse) : outcome ChartResponse :=
  let points := chart_dedup_points (List.filter (fun p : Point => ui_chart_mcap_valid p.2) (cr_points chart)) in
  let median := ui_chart_tape_median (snd <$> points) in
  let points := List.filter (fun p : Point => ui_chart_mcap_matches_tape p.2 median) points in
  let markers := List.filter (keep_marker median) (repair_marker points median <$> cr_markers chart) in
  chart ← chart_focus_trade_window (mkChartResponse (cr_t0 chart) points markers);
  Ret (mkChartResponse 0 (cr_points chart) (cr_markers chart)).

(** [fold] of [f64::min] and [f64::max] from the infinities *)
(* dashboard/src/main.rs 434-471: chart_plot_y_bounds *)
Definition chart_plot_y_bounds (points : list Point) (markers : list ChartMarker)
    (price_mult x_entry x_exit : f64) : option (f64 * f64) :=
  let ys :=
    ((fun p : Point => (p.2 * price_mult)%float) <$>
       List.filter (fun p : Point =>
           let x := f64_of_Z p.1 in (x >=? x_entry - 30)%float && (x <=? x_exit + 30)%float)
         (List.filter (fun p : Point => ui_chart_mcap_valid p.2) points))
    ++ mjoin ((fun m =>
         (if ui_chart_mcap_valid (cm_entry_mcap m) then [(cm_entry_mcap m * price_mult)%float] else [])
         ++ (if ui_chart_mcap_valid (cm_exit_mcap m) then [(cm_exit_mcap m * price_mult)%float] else [])) <$> markers) in
  match ys with
  | [] => None
  | _ =>
      let lo := List.fold_left f64_min ys infinity in
      let hi := List.fold_left f64_max ys neg_infinity in
      if negb (f64_is_finite lo) || negb (f64_is_finite hi) || (hi <=? lo)%float then None else Some (lo, hi)
  end.

(* dashboard/src/main.rs 498-500: chart_x_sec *)
Definition chart_x_sec (t t0 : Z) : f64 := f64_of_Z (i64_sat_sub t t0).

(** ** The server's and the dashboard's rules agree *)

Lemma ui_valid_same mcap : ui_chart_mcap_valid mcap = chart_mcap_valid mcap.
Proof. reflexivity. Qed.
Lemma ui_matches_same mcap median : ui_chart_mcap_matches_tape mcap median = chart_mcap_matches_tape mcap median.
Proof. reflexivity. Qed.
Lemma ui_median_same l : ui_chart_tape_median l = chart_tape_median l.
Proof. reflexivity. Qed.

(** with a marker the dashboard lays the chart out as the server does *)
Lemma focus_is_lay_out t0 pts m ms :
  chart_focus_trade_window (mkChartResponse t0 pts (m :: ms)) =
  r ← lay_out pts (m :: ms); Ret (mkChartResponse t0 (cr_points r) (cr_markers r)).
Proof.
  unfold chart_focus_trade_window, lay_out. rewrite window_of_markers. cbn [cr_markers cr_points cr_t0].
  unfold ui_chart_trade_window_bounds. cbv zeta.
  change (UI_CHART_PRE_SECS) with CHART_PRE_SECS. change UI_CHART_POST_SECS with CHART_POST_SECS.
  set (lo := i64_sat_sub _ _). set (hi := i64 _). cbv beta iota. by destruct (outcome_all _ _).
Qed.

(** without a marker the window starts the axis, and no shown point is far from it *)
Lemma ui_unmarked_window pts p :
  StronglySorted later pts -> Forall point_typed pts -> p ∈ pts ->
  let '(lo, hi) := ui_chart_trade_window_bounds [] pts in
  lo <= p.1 <= hi -> I64_MIN <= p.1 - lo <= I64_MAX.
Proof.
  intros S T Hp. unfold ui_chart_trade_window_bounds. rewrite Forall_forall in T.
  destruct pts as [|[a ma] pts]; [by apply elem_of_nil in Hp|].
  match goal with |- context [list.last ?l] => destruct (list.last l) as [[b mb]|] eqn:L end;
    [|by apply last_None in L].
  pose proof (sorted_last _ _ _ S L Hp) as Hb. cbn [head fst] in *.
  pose proof (T (a, ma) ltac:(by left)) as Ta.
  pose proof (T (b, mb) ltac:(by apply last_Some_elem_of)) as Tb. unfold point_typed in Ta, Tb. cbn in Ta, Tb.
  unfold UI_CHART_PRE_SECS, i64_sat_sub, sat_s, I64_MIN, I64_MAX in *.
  destruct (Z.ltb_spec 180 (Z.max (- 2 ^ 63) (Z.min (2 ^ 63 - 1) (b - a)))) as [Sp|Sp].
  - rewrite wrap_s_small by (unfold in_s; lia). lia.
  - lia.
Qed.

(** ** The cleaned chart *)

(** the values of a marker can be drawn *)
Definition marker_drawn (m : ChartMarker) : Prop :=
  ui_chart_mcap_valid (cm_entry_mcap m) = true /\ ui_chart_mcap_valid (cm_exit_mcap m) = true.

Definition marker_typed (m : ChartMarker) : Prop := cm_entry_at m <= I64_MAX /\ cm_closed_at m <= I64_MAX.

Lemma repair_times series median m :
  cm_entry_at (repair_marker series median m) = cm_entry_at m /\
  cm_closed_at (repair_marker series median m) = cm_closed_at m.
Proof. unfold repair_marker. by repeat case_match. Qed.

Lemma keep_marker_spec median m :
  marker_typed m -> keep_marker median m = true -> marker_ok m /\ marker_drawn m.
Proof.
  intros [T1 T2]. unfold keep_marker, marker_ok, marker_drawn, ui_chart_mcap_matches_tape.
  destruct (ui_chart_mcap_valid (cm_entry_mcap m)), (ui_chart_mcap_valid (cm_exit_mcap m)); cbn [negb];
    rewrite ?andb_false_r; try done. intros H. split; [|done]. lia.
Qed.

Lemma place_marker_mcaps lo hi base m m' :
  place_marker lo hi base m = Ret m' -> cm_entry_mcap m' = cm_entry_mcap m /\ cm_exit_mcap m' = cm_exit_mcap m.
Proof.
  unfold place_marker, i64_clamp. destruct (lo <=? hi); [|done]. cbn. by intros [= <-].
Qed.

Lemma outcome_all_elem {A B} (f : A -> outcome B) l l' b :
  outcome_all f l = Ret l' -> b ∈ l' -> exists a, a ∈ l /\ f a = Ret b.
Proof.
  revert l'. induction l as [|a l IH]; cbn [outcome_all]; intros l'.
  - intros [= <-] H. by apply elem_of_nil in H.
  - destruct (f a) as [b'|] eqn:E; [|done]. destruct (outcome_all f l) as [bs|]; [|done].
    cbn. intros [= <-] [->|H]%elem_of_cons; [by exists a; split; [left|]|].
    destruct (IH bs eq_refl H) as (a' & Ha & Ea). by exists a'; split; [right|].
Qed.

(** the markers laid out are drawn where those before were *)
Lemma focus_drawn chart r :
  chart_focus_trade_window chart = Ret r -> Forall marker_drawn (cr_markers chart) -> Forall marker_drawn (cr_markers r).
Proof.
  unfold chart_focus_trade_window. destruct (ui_chart_trade_window_bounds _ _) as [lo hi]. cbv zeta.
  set (base := default lo _). destruct (outcome_all _ _) as [ms|] eqn:E; [|done]. cbn. intros [= <-] F.
  rewrite Forall_forall in *. intros m Hm. destruct (outcome_all_elem _ _ _ _ E Hm) as (m0 & H0 & E0).
  apply place_marker_mcaps in E0 as [E1 E2]. unfold marker_drawn. rewrite E1, E2. by apply F.
Qed.

Lemma focus_ok t0 pts ms :
  StronglySorted later pts -> Forall point_typed pts ->
  Forall (fun p : Point => chart_mcap_valid p.2 = true) pts -> Forall marker_ok ms ->
  match chart_focus_trade_window (mkChartResponse t0 pts ms) with
  | Ret r => chart_ok r \/ exists m, m ∈ ms /\ overflowing m
  | Panic _ => exists m, m ∈ ms /\ overflowing m
  end.
Proof.
  intros S T V Mk. destruct ms as [|m ms].
  - unfold chart_focus_trade_window. cbn [cr_markers cr_points cr_t0]. pose proof (ui_unmarked_window pts) as W.
    destruct (ui_chart_trade_window_bounds [] pts) as [lo hi]. cbn. left.
    destruct (placed_points lo hi lo pts chart_mcap_valid S V) as [P1 P2]; [intros p Hp; by apply W|by split].
  - rewrite focus_is_lay_out. pose proof (lay_out_ok pts (m :: ms) S T V Mk) as L.
    destruct (lay_out pts (m :: ms)) as [r|p]; [|exact L]. cbn. destruct L as [[L1 L2 L3 L4]|L]; [left|by right].
    by split.
Qed.

(** whatever chart arrives, with times that fit their type, the chart the
    dashboard shows has strictly increasing points and drawable values, every
    marker is entered at or after zero, closed at or after its entry and has
    drawable values, and the earliest is entered at zero; cleaning panics or
    misplaces a marker only when one closes within the last two minutes of the
    [i64] range *)
Theorem sanitized_chart_ok chart :
  Forall point_typed (cr_points chart) -> Forall marker_typed (cr_markers chart) ->
  match sanitize_chart chart with
  | Ret r => (chart_ok r /\ Forall marker_drawn (cr_markers r) /\ cr_t0 r = 0)
             \/ exists m, m ∈ cr_markers chart /\ overflowing m
  | Panic _ => exists m, m ∈ cr_markers chart /\ overflowing m
  end.
Proof.
  intros T M. unfold sanitize_chart. set (pts0 := chart_dedup_points _). set (median := ui_chart_tape_median _).
  set (pts := List.filter _ pts0). set (ms := List.filter _ _).
  destruct (dedup_points_ok (List.filter (fun p : Point => ui_chart_mcap_valid p.2) (cr_points chart))) as [Srt Sub].
  assert (forall p, p ∈ pts -> p ∈ cr_points chart /\ chart_mcap_valid p.2 = true) as Pin.
  { intros p. unfold pts. rewrite list_elem_of_In, filter_In, <- list_elem_of_In. intros [Hp%Sub _].
    by rewrite list_elem_of_In, filter_In, <- list_elem_of_In in Hp. }
  assert (forall m, m ∈ ms -> (exists m0, m0 ∈ cr_markers chart /\ cm_closed_at m = cm_closed_at m0) /\
    marker_ok m /\ marker_drawn m) as Min.
  { intros m. unfold ms. rewrite list_elem_of_In, filter_In, <- list_elem_of_In.
    intros [(m0 & -> & H0)%list_elem_of_fmap K]. rewrite Forall_forall in M. destruct (M m0 H0) as [M1 M2].
    destruct (repair_times pts median m0) as [R1 R2]. split; [by exists m0|].
    apply (keep_marker_spec median); [|done]. unfold marker_typed. by rewrite R1, R2. }
  rewrite Forall_forall in T.
  assert (Forall point_typed pts) as P1 by (apply Forall_forall; intros p Hp; by apply T, Pin).
  assert (Forall (fun p : Point => chart_mcap_valid p.2 = true) pts) as P2
    by (apply Forall_forall; intros p Hp; by apply Pin).
  assert (Forall marker_ok ms) as P3 by (apply Forall_forall; intros m Hm; by apply Min).
  assert (Forall marker_drawn ms) as P4 by (apply Forall_forall; intros m Hm; by apply Min).
  assert ((exists m, m ∈ ms /\ overflowing m) -> exists m, m ∈ cr_markers chart /\ overflowing m) as O.
  { intros (m & Hm & O). destruct (Min m Hm) as [(m0 & H0 & E) _]. exists m0. unfold overflowing in *. by rewrite <- E. }
  pose proof (focus_ok (cr_t0 chart) pts ms ltac:(by apply filter_sorted) P1 P2 P3) as F.
  pose proof (focus_drawn (mkChartResponse (cr_t0 chart) pts ms)) as Dr.
  destruct (chart_focus_trade_window _) as [r|p]; [|by apply O]. cbn. specialize (Dr r eq_refl P4).
  destruct F as [[F1 F2 F3 F4]|F]; [left|right; by apply O]. split; [by split|]. by split.
Qed.

Definition demo_chart : ChartResponse :=
  mkChartResponse 5 [(60, 42%float); (0, 30%float); (0, 31%float); (30, 9000000%float)]
    [mkChartMarker 0 60 31%float 9000000%float 35%float "TP1"].

Example demo_chart_cleaned :
  sanitize_chart demo_chart =
  Ret (mkChartResponse 0 [(0, 31%float); (60, 42%float)] [mkChartMarker 0 60 31%float 42%float 35%float "TP1"]).
Proof. vm_compute. done. Qed.

Lemma sanitized_chart_ok_witness :
  exists r, sanitize_chart demo_chart = Ret r /\ chart_ok r /\ Forall marker_drawn (cr_markers r).
Proof.
  pose proof (sanitized_chart_ok demo_chart ltac:(repeat constructor; cbn; unfold I64_MIN, I64_MAX; lia)
    ltac:(repeat constructor; cbn; unfold I64_MAX; lia)) as H.
  rewrite demo_chart_cleaned in *. eexists. split; [reflexivity|].
  destruct H as [(H1 & H2 & _)|(m & Hm & O)]; [by split|].
  apply list_elem_of_singleton in Hm as ->. unfold overflowing, I64_MAX, CHART_POST_SECS in O. cbn in O. lia.
Defined.
