(* ===== verification/Dash.v ===== *)
(** The operator's dashboard, [src/dashboard/src/main.rs]: the messages it
    receives, its state, and the event loop that applies what the background
    thread delivers.  The controls and what is drawn are in [DashView], the
    background thread in [DashLink], the chart in [DashChart]. *)
From S2P Require Import Prelude Text Amounts Features LivePosition Chart Positions Messages.
From S2P Require Import DashChart.

(** ** Wire types *)

(* dashboard/src/main.rs 20-25: Amount *)
Record UiAmount := mkUiAmount { ua_value : Z; ua_decimals : Z }.

(* dashboard/src/main.rs 33-37: Currency *)
Inductive UiCurrency := UiNative (a : UiAmount) | UiDollar (a : UiAmount).

(* dashboard/src/main.rs 61-71: DevStats *)
Record UiDevStats := mkUiDevStats {
  us_median_market_cap : UiCurrency;
  us_trader_pnl_average : f64;
  us_total_holders_average : Z;
  us_average_volume : f64;
  us_median_total_trades : Z;
  us_average_unique_buy_to_sell_ratio : f64;
  us_average_buy_trader_size : UiCurrency;
  us_total_coins : Z
}.

(* dashboard/src/main.rs 73-77: TierExitReasonCount *)
Record TierExitReasonCount := mkTierExitReasonCount { te_reason : string; te_n : Z }.

(* dashboard/src/main.rs 79-88: TierSubtypeStatsWire *)
Record TierSubtypeStatsWire := mkTierSubtypeStatsWire {
  tb_n : Z; tb_wins : Z; tb_winrate_pct : f64; tb_avg_pnl_pct : f64; tb_profit_factor : f64;
  tb_exit_reasons : list TierExitReasonCount
}.

(* dashboard/src/main.rs 90-95: FreshWatchlistSkipStatsWire *)
Record FreshWatchlistSkipStatsWire := mkFreshWatchlistSkipStatsWire {
  fw_added : Z; fw_passed : Z; fw_rejected : Z }.

(* dashboard/src/main.rs 97-112: TierStatsWire *)
Record TierStatsWire := mkTierStatsWire {
  tr_tier : string; tr_n : Z; tr_wins : Z; tr_winrate_pct : f64; tr_avg_pnl_pct : f64;
  tr_profit_factor : f64; tr_exit_reasons : list TierExitReasonCount;
  tr_b_true_fresh : TierSubtypeStatsWire; tr_b_unknown : TierSubtypeStatsWire;
  tr_fresh_watchlist : FreshWatchlistSkipStatsWire
}.

(* dashboard/src/main.rs 114-119: OpenReason *)
Inductive UiOpenReason := UiFromDevStats (s : UiDevStats) | UiFromTraderStats.

(* dashboard/src/main.rs 136-138: default_wallet_id *)
Definition default_wallet_id : string := "wallet_1".

(* dashboard/src/main.rs 140-142: pos_map_key *)
Definition pos_map_key (m wallet_id : string) : string := m +:+ ":" +:+ wallet_id.

(* dashboard/src/main.rs 144-152: WalletWire *)
Record WalletWire := mkWalletWire {
  ww_id : string; ww_label : string; ww_enabled : bool; ww_pubkey : string; ww_balance_sol : f64;
  ww_size_sol : option f64
}.
#[export] Instance WalletWire_settable : Settable WalletWire := fun w =>
  mkWalletWire (ww_id w) (ww_label w) (ww_enabled w) (ww_pubkey w) (ww_balance_sol w) (ww_size_sol w).

(** the rows of GET /positions; the tape has the backend's fields *)
(* dashboard/src/main.rs 154-171: OpenPositionWire *)
Record UiOpenPosition := mkUiOpenPosition {
  uo_wallet_id : string; uo_address : string; uo_open_reason : UiOpenReason; uo_enter_mcap : f64;
  uo_pnl : f64; uo_holdings : f64; uo_market_cap : f64; uo_v3_tape : option V3TapeWire;
  uo_time_kill_tier : option string; uo_time_kill_after_secs : option Z
}.

(* dashboard/src/main.rs 246-251: TxEventKind *)
Inductive UiTxKind := UiBuy | UiSell.
#[export] Instance UiTxKind_eq_dec : EqDecision UiTxKind.
Proof. solve_decision. Defined.

(* dashboard/src/main.rs 253-269: TxLogRow *)
Record TxLogRow := mkTxLogRow {
  tl_wallet_id : string; tl_kind : UiTxKind; tl_mint : string; tl_signature : option string;
  tl_amount_sol : f64; tl_amount_sol_estimated : option f64; tl_status : string;
  tl_reason : option string; tl_mode : string; tl_ts : Z; tl_v3_tape : option V3TapeWire;
  tl_time_kill_detail : option string; tl_pnl_mcap_pct : option f64; tl_pnl_sol_pct : option f64
}.

(** the fields of a [TxEvent] are those of the row it becomes *)
(* dashboard/src/main.rs 173-244: WsMsg *)
Inductive WsMsg :=
  | MsgPositionOpen (address wallet_id : string) (open_reason : UiOpenReason) (enter_mcap : f64)
      (v3_tape : option V3TapeWire)
  | MsgPositionUpdate (address wallet_id : string) (pnl holdings market_cap : f64)
      (time_kill_tier : option string) (time_kill_after_secs : option Z)
  | MsgPositionClose (address wallet_id reason : string)
  | MsgBalanceUpdate (balance : f64)
  | MsgWalletBalanceUpdate (wallet_id : string) (balance : f64)
  | MsgPausedState (paused : bool)
  | MsgTxEvent (row : TxLogRow)
  | MsgManualSellRequired (wallet_id mint exit_reason detail : string) (holdings : f64) (ts : Z).

(* dashboard/src/main.rs 271-286: BotTradeRow *)
Record BotTradeRow := mkBotTradeRow {
  br_id : Z; br_wallet_id : string; br_mint : string; br_entry_mcap_sol : f64; br_invested_sol : f64;
  br_realized_pnl_pct : f64; br_close_reason : string; br_entry_at : Z; br_closed_at : Z;
  br_exit_mcap_sol : f64; br_entry_meta : string
}.

(** ** Commands and events *)

(* dashboard/src/main.rs 510-519: LiveCfg *)
Record LiveCfg := mkLiveCfg {
  lc_slippage_bps : Z; lc_priority_fee_micro_lamports : Z; lc_compute_unit_limit : Z;
  lc_max_retries : Z; lc_balance_refresh_secs : Z; lc_skip_preflight : bool
}.

(* dashboard/src/main.rs 521-527: ModeInfo *)
Record ModeInfo := mkModeInfo { mi_mode : string; mi_wallet : string; mi_balance_sol : f64; mi_live : LiveCfg }.

(** [Ws] has the one command [WsCmd::SetPaused] *)
(* dashboard/src/main.rs 504-549: DashCmd *)
Inductive DashCmd :=
  | CmdSetPaused (paused : bool)
  | FetchDevStats (m : string)
  | FetchChart (m : string)
  | FetchBuySize
  | SetBuySize (sol : f64)
  | FetchMode
  | FetchTxLog
  | FetchBotTrades
  | FetchStatus
  | RefreshBotTradesAfterClose
  | FetchOpenPositions
  | FetchTierStats
  | SetMode (mode : string) (confirm_live : bool)
  | PutWallets (wallets : list WalletWire).

(* dashboard/src/main.rs 553-587: AppEvent *)
Inductive AppEvent :=
  | Connected
  | Disconnected
  | EvMsg (msg : WsMsg)
  | EvBotTrades (rows : list BotTradeRow)
  | EvStatus (paused : bool) (mode : option string)
  | EvDevStats (m : string) (stats : option UiDevStats)
  | EvChartData (m : string) (data : option ChartResponse)
  | EvSolPrice (price : f64)
  | EvPubkey (key : string)
  | EvBuySize (sol : f64)
  | EvBuySizeSetOk
  | EvBuySizeSetErr (msg : string)
  | EvModeInfo (info : ModeInfo)
  | EvTxLog (rows : list TxLogRow)
  | EvModeSetOk (mode : string) (restart_required : bool)
  | EvModeSetErr (msg : string)
  | EvOpenPositions (rows : list UiOpenPosition)
  | EvWallets (w : list WalletWire)
  | EvWalletsSaveOk
  | EvWalletsSaveErr (msg : string)
  | EvTierStats (stats : TierStatsWire).

(** ** State *)

(* dashboard/src/main.rs 591-602: Position *)
Record UiPosition := mkUiPosition {
  up_wallet_id : string; up_address : string; up_open_reason : UiOpenReason; up_pnl : f64;
  up_holdings : f64; up_market_cap : f64; up_enter_mcap : f64; up_v3_tape : option V3TapeWire;
  up_time_kill_tier : option string; up_time_kill_after_secs : option Z
}.
#[export] Instance UiPosition_settable : Settable UiPosition := fun p =>
  mkUiPosition (up_wallet_id p) (up_address p) (up_open_reason p) (up_pnl p) (up_holdings p)
    (up_market_cap p) (up_enter_mcap p) (up_v3_tape p) (up_time_kill_tier p) (up_time_kill_after_secs p).

(* dashboard/src/main.rs 606-628: ConfigPanel *)
Record ConfigPanel := mkConfigPanel {
  cp_open : bool;
  cp_buy_size_remote : option f64;
  cp_buy_size_input : string;
  cp_buy_size_status : option string;
  cp_buy_size_saving : bool;
  cp_mode_info : option ModeInfo;
  cp_pending_live_switch : bool;
  cp_confirm_input : string;
  cp_mode_saving : bool;
  cp_mode_status : option string;
  cp_restart_required : bool
}.
#[export] Instance ConfigPanel_settable : Settable ConfigPanel := fun c =>
  mkConfigPanel (cp_open c) (cp_buy_size_remote c) (cp_buy_size_input c) (cp_buy_size_status c)
    (cp_buy_size_saving c) (cp_mode_info c) (cp_pending_live_switch c) (cp_confirm_input c)
    (cp_mode_saving c) (cp_mode_status c) (cp_restart_required c).

(* dashboard/src/main.rs 631-645: ConfigPanel::new *)
Definition config_panel_new : ConfigPanel :=
  mkConfigPanel false None "" None false None false "" false None false.

(* dashboard/src/main.rs 647-652: ConfigPanel::on_loaded *)
Definition on_loaded (sol : f64) (c : ConfigPanel) : ConfigPanel :=
  let c := c <| cp_buy_size_remote := Some sol |> in
  if String.eqb (cp_buy_size_input c) "" then c <| cp_buy_size_input := fmt_fixed 4 sol |> else c.

(* dashboard/src/main.rs 654-658: ConfigPanel::on_save_ok *)
Definition on_save_ok (sol : f64) (c : ConfigPanel) : ConfigPanel :=
  c <| cp_buy_size_saving := false |> <| cp_buy_size_remote := Some sol |>
    <| cp_buy_size_status := Some "✓ Saved"%string |>.

(* dashboard/src/main.rs 660-663: ConfigPanel::on_save_err *)
Definition on_save_err (msg : string) (c : ConfigPanel) : ConfigPanel :=
  c <| cp_buy_size_saving := false |> <| cp_buy_size_status := Some ("✗ " +:+ msg) |>.

(* dashboard/src/main.rs 700-707: ManualSellAlert *)
Record ManualSellAlert := mkManualSellAlert {
  ms_mint : string; ms_exit_reason : string; ms_detail : string; ms_holdings : f64; ms_ts : Z }.

(** the two channel ends are the arguments and results of the steps *)
(* dashboard/src/main.rs 668-698: Dashboard *)
Record Dashboard := mkDashboard {
  ds_connected : bool;
  ds_paused : bool;
  ds_balance : option f64;
  ds_open : gmap string UiPosition;
  ds_history : list BotTradeRow;
  ds_selected_dev : option (string * option UiDevStats);
  ds_loading_dev : option string;
  ds_chart_window : option (string * ChartResponse);
  ds_sol_price : option f64;
  ds_pubkey : option string;
  ds_mode : option string;
  ds_tx_log_by_wallet : gmap string (list TxLogRow);
  ds_last_http_poll : option Z;
  ds_config_panel : ConfigPanel;
  ds_mint_copy_flash_until : option Z;
  ds_manual_sell_alert : option ManualSellAlert;
  ds_wallets : list WalletWire;
  ds_wallet_view : string;
  ds_wallet_save_status : option string;
  ds_tier_b_stats : option TierStatsWire
}.
#[export] Instance Dashboard_settable : Settable Dashboard := fun d =>
  mkDashboard (ds_connected d) (ds_paused d) (ds_balance d) (ds_open d) (ds_history d) (ds_selected_dev d)
    (ds_loading_dev d) (ds_chart_window d) (ds_sol_price d) (ds_pubkey d) (ds_mode d) (ds_tx_log_by_wallet d)
    (ds_last_http_poll d) (ds_config_panel d) (ds_mint_copy_flash_until d) (ds_manual_sell_alert d)
    (ds_wallets d) (ds_wallet_view d) (ds_wallet_save_status d) (ds_tier_b_stats d).

Implicit Types (d : Dashboard).

(* dashboard/src/main.rs 734-757: Dashboard::new *)
Definition dashboard_new : Dashboard :=
  mkDashboard false false None ∅ [] None None None None None None ∅ None config_panel_new None None [] "all"
    None None.

(* dashboard/src/main.rs 711-719: Dashboard::clear_manual_sell_for_mint *)
Definition clear_manual_sell_for_mint (m : string) d : Dashboard :=
  match ds_manual_sell_alert d with
  | Some a => if String.eqb (ms_mint a) m then d <| ds_manual_sell_alert := None |> else d
  | None => d
  end.

(* dashboard/src/main.rs 790-790: Dashboard::TX_LOG_CAP *)
Definition TX_LOG_CAP : nat := 256.

(* dashboard/src/main.rs 792-802: Dashboard::push_tx_log *)
Definition push_tx_log (row : TxLogRow) d : Dashboard :=
  let q := default [] (ds_tx_log_by_wallet d !! tl_wallet_id row) in
  let q := if (TX_LOG_CAP <=? length q)%nat then tail q else q in
  d <| ds_tx_log_by_wallet := <[tl_wallet_id row := q ++ [row]]> (ds_tx_log_by_wallet d) |>.

(** [Iterator::sum] of floats starts from the negative zero *)
Definition f64_sum (l : list f64) : f64 := List.fold_left (fun acc x => (acc + x)%float) l (-0)%float.

(** ** What a view shows *)

(* dashboard/src/main.rs 760-766: Dashboard::wallet_view_label *)
Definition wallet_view_label d : string := if String.eqb (ds_wallet_view d) "all" then "All" else ds_wallet_view d.

(* dashboard/src/main.rs 768-770: Dashboard::wallet_matches_view *)
Definition wallet_matches_view (wallet_id : string) d : bool :=
  String.eqb (ds_wallet_view d) "all" || String.eqb (ds_wallet_view d) wallet_id.

(* dashboard/src/main.rs 772-781: Dashboard::filtered_history *)
Definition filtered_history d : list BotTradeRow :=
  if String.eqb (ds_wallet_view d) "all" then ds_history d
  else List.filter (fun t => String.eqb (br_wallet_id t) (ds_wallet_view d)) (ds_history d).

(* dashboard/src/main.rs 783-788: Dashboard::filtered_open_positions *)
Definition filtered_open_positions d : list UiPosition :=
  List.filter (fun p => wallet_matches_view (up_wallet_id p) d) (snd <$> map_to_list (ds_open d)).

(* dashboard/src/main.rs 805-810: Dashboard::tx_log_wallet_for_view *)
Definition tx_log_wallet_for_view d : option string :=
  if String.eqb (ds_wallet_view d) "all" then None else Some (ds_wallet_view d).

Definition find_wallet (wallet_id : string) d : option WalletWire :=
  List.find (fun w => String.eqb (ww_id w) wallet_id) (ds_wallets d).

(* dashboard/src/main.rs 812-824: Dashboard::wallet_display_label *)
Definition wallet_display_label (wallet_id : string) d : string :=
  match find_wallet wallet_id d with
  | Some w => if String.eqb (ww_label w) "" then wallet_id else wallet_id +:+ " · " +:+ ww_label w
  | None => wallet_id
  end.

(* dashboard/src/main.rs 1030-1042: Dashboard::context_balance_sol *)
Definition context_balance_sol d : option f64 :=
  match ds_wallets d with
  | _ :: _ =>
      if String.eqb (ds_wallet_view d) "all" then Some (f64_sum (ww_balance_sol <$> ds_wallets d))
      else ww_balance_sol <$> find_wallet (ds_wallet_view d) d
  | [] => ds_balance d
  end.

(* dashboard/src/main.rs 1044-1058: Dashboard::context_pubkey_display *)
Definition context_pubkey_display d : string :=
  let pubkey := default "…"%string (ds_pubkey d) in
  if String.eqb (ds_wallet_view d) "all" then
    match ds_wallets d with
    | [] => pubkey
    | _ => "All (" +:+ fmt_int (Z.of_nat (length (ds_wallets d))) +:+ " wallets)"
    end
  else default pubkey (ww_pubkey <$> find_wallet (ds_wallet_view d) d).

(* dashboard/src/main.rs 1060-1065: Dashboard::context_open_pnl *)
Definition context_open_pnl d : f64 := f64_sum (up_pnl <$> filtered_open_positions d).

(* dashboard/src/main.rs 1068-1073: Dashboard::context_realized_pnl_sol *)
Definition context_realized_pnl_sol d : f64 :=
  f64_sum ((fun t => br_invested_sol t * br_realized_pnl_pct t / 100)%float <$> filtered_history d).

(* dashboard/src/main.rs 1076-1085: Dashboard::display_buy_size_sol *)
Definition display_buy_size_sol d : option f64 :=
  let own := if String.eqb (ds_wallet_view d) "all" then None
             else w ← find_wallet (ds_wallet_view d) d; ww_size_sol w in
  match own with Some sz => Some sz | None => cp_buy_size_remote (ds_config_panel d) end.

(** ** Events *)

(* dashboard/src/main.rs 1087-1100: Dashboard::wire_to_position *)
Definition wire_to_position (w : UiOpenPosition) : UiPosition := {|
  up_wallet_id := uo_wallet_id w; up_address := uo_address w; up_open_reason := uo_open_reason w;
  up_pnl := uo_pnl w; up_holdings := uo_holdings w; up_market_cap := uo_market_cap w;
  up_enter_mcap := uo_enter_mcap w; up_v3_tape := uo_v3_tape w;
  up_time_kill_tier := uo_time_kill_tier w; up_time_kill_after_secs := uo_time_kill_after_secs w |}.

Definition row_key (w : UiOpenPosition) : string := pos_map_key (uo_address w) (uo_wallet_id w).

(* dashboard/src/main.rs 1103-1119: Dashboard::apply_open_positions *)
Definition apply_open_positions (rows : list UiOpenPosition) d : Dashboard :=
  let live : gset string := list_to_set (row_key <$> rows) in
  let d := match ds_manual_sell_alert d with
    | Some alert =>
        if existsb (fun w => String.eqb (uo_address w) (ms_mint alert)) rows then d
        else d <| ds_manual_sell_alert := None |>
    | None => d
    end in
  let kept := filter (fun kp : string * UiPosition => kp.1 ∈ live) (ds_open d) in
  d <| ds_open := List.fold_left (fun open w => <[row_key w := wire_to_position w]> open) rows kept |>.

Definition update_config (f : ConfigPanel -> ConfigPanel) d : Dashboard :=
  d <| ds_config_panel := f (ds_config_panel d) |>.

(** the first wallet with the id *)
Fixpoint set_wallet_balance (wallet_id : string) (balance : f64) (l : list WalletWire) : list WalletWire :=
  match l with
  | [] => []
  | w :: l' => if String.eqb (ww_id w) wallet_id then w <| ww_balance_sol := balance |> :: l'
               else w :: set_wallet_balance wallet_id balance l'
  end.

(* dashboard/src/main.rs 1197-1318: Dashboard::drain_events *)
Definition apply_msg (msg : WsMsg) d : Dashboard * list DashCmd :=
  match msg with
  | MsgPositionOpen address wallet_id open_reason enter_mcap v3_tape =>
      (d <| ds_open := <[pos_map_key address wallet_id :=
          mkUiPosition wallet_id address open_reason 0%float 0%float 0%float enter_mcap v3_tape None None]>
        (ds_open d) |>, [])
  | MsgPositionUpdate address wallet_id pnl holdings market_cap tier after =>
      (d <| ds_open := alter (fun pos =>
          let pos := pos <| up_pnl := pnl |> <| up_holdings := holdings |> <| up_market_cap := market_cap |> in
          let pos := if tier is Some _ then pos <| up_time_kill_tier := tier |> else pos in
          if after is Some _ then pos <| up_time_kill_after_secs := after |> else pos)
        (pos_map_key address wallet_id) (ds_open d) |>, [])
  | MsgPositionClose address wallet_id _ =>
      let d := clear_manual_sell_for_mint address d in
      (d <| ds_open := delete (pos_map_key address wallet_id) (ds_open d) |>, [RefreshBotTradesAfterClose])
  | MsgBalanceUpdate balance => (d <| ds_balance := Some balance |>, [])
  | MsgWalletBalanceUpdate wallet_id balance =>
      let d := d <| ds_wallets := set_wallet_balance wallet_id balance (ds_wallets d) |> in
      (d <| ds_balance := Some (f64_sum (ww_balance_sol <$> ds_wallets d)) |>, [])
  | MsgPausedState paused => (d <| ds_paused := paused |>, [])
  | MsgManualSellRequired _ m exit_reason detail holdings ts =>
      (d <| ds_manual_sell_alert := Some (mkManualSellAlert m exit_reason detail holdings ts) |>, [])
  | MsgTxEvent row =>
      let sell := bool_decide (tl_kind row = UiSell) in
      let confirmed := String.eqb (tl_status row) "confirmed" in
      let d := if sell && (confirmed || String.eqb (tl_status row) "sent")
               then clear_manual_sell_for_mint (tl_mint row) d else d in
      (push_tx_log row d, if sell && confirmed then [RefreshBotTradesAfterClose] else [])
  end.

(** the commands are tried on the bounded channel of the background thread *)
(* dashboard/src/main.rs 1123-1319: Dashboard::drain_events *)
Definition apply_event (ev : AppEvent) d : outcome (Dashboard * list DashCmd) :=
  match ev with
  | Connected => Ret (d <| ds_connected := true |>, [])
  | Disconnected => Ret (d <| ds_connected := false |>, [])
  | EvBotTrades rows => Ret (d <| ds_history := rows |>, [])
  | EvStatus paused mode =>
      let d := d <| ds_paused := paused |> in
      Ret (if mode is Some _ then d <| ds_mode := mode |> else d, [])
  | EvModeInfo info =>
      Ret (update_config (fun c => c <| cp_mode_info := Some info |>) (d <| ds_mode := Some (mi_mode info) |>), [])
  | EvTxLog rows =>
      Ret (List.fold_left (fun d r => push_tx_log r d) rows (d <| ds_tx_log_by_wallet := ∅ |>), [])
  | EvModeSetOk mode restart_required =>
      Ret (update_config (fun c =>
        c <| cp_mode_saving := false |> <| cp_pending_live_switch := false |> <| cp_confirm_input := ""%string |>
          <| cp_restart_required := restart_required |>
          <| cp_mode_status := Some ("✓ saved (mode=" +:+ mode +:+ ")  — "
               +:+ (if restart_required then "restart bot to activate" else "no change")) |>) d, [])
  | EvModeSetErr msg =>
      Ret (update_config (fun c => c <| cp_mode_saving := false |>
                                     <| cp_mode_status := Some ("✗ " +:+ msg) |>) d, [])
  | EvSolPrice price => Ret (d <| ds_sol_price := Some price |>, [])
  | EvPubkey key => Ret (d <| ds_pubkey := Some key |>, [])
  | EvBuySize sol => Ret (update_config (on_loaded sol) d, [])
  | EvBuySizeSetOk =>
      let saved := default 0%float (parse_f64 (cp_buy_size_input (ds_config_panel d))) in
      Ret (update_config (on_save_ok saved) d, [])
  | EvBuySizeSetErr msg => Ret (update_config (on_save_err msg) d, [])
  | EvDevStats m stats =>
      let d := if bool_decide (ds_loading_dev d = Some m) then d <| ds_loading_dev := None |> else d in
      Ret (d <| ds_selected_dev := Some (m, stats) |>, [])
  | EvChartData m data =>
      match data with
      | Some chart => chart ← sanitize_chart chart; Ret (d <| ds_chart_window := Some (m, chart) |>, [])
      | None => Ret (d, [])
      end
  | EvWallets w => Ret (d <| ds_wallets := w |>, [])
  | EvWalletsSaveOk => Ret (d <| ds_wallet_save_status := Some "✓ Wallets saved"%string |>, [])
  | EvWalletsSaveErr msg => Ret (d <| ds_wallet_save_status := Some ("✗ " +:+ msg) |>, [])
  | EvTierStats stats => Ret (d <| ds_tier_b_stats := Some stats |>, [])
  | EvOpenPositions rows => Ret (apply_open_positions rows d, [])
  | EvMsg msg => Ret (apply_msg msg d)
  end.

(* dashboard/src/main.rs 1121-1321: Dashboard::drain_events *)
Fixpoint drain_events (events : list AppEvent) d : outcome (Dashboard * list DashCmd) :=
  match events with
  | [] => Ret (d, [])
  | ev :: events' =>
      r ← apply_event ev d;
      r' ← drain_events events' r.1;
      Ret (r'.1, r.2 ++ r'.2)
  end.
