(* ===== verification/DashView.v ===== *)
(** What the dashboard draws, [src/dashboard/src/main.rs]: the texts and
    colours of its bars, grids and badges as functions of the state.  Layout,
    fonts and hover texts are left to egui. *)
From Stdlib Require Import Ascii.
From S2P Require Import Prelude Text Amounts Features LivePosition Chart Positions Messages.
From S2P Require Import DashChart Dash.

Local Open Scope string_scope.
Local Open Scope list_scope.
Local Open Scope Z_scope.

(** ** Colours and cells *)

Inductive Colour := Rgb (r g b : Z) | White | LightGray | Gray | DarkGray | Default.

(** a coloured label *)
Abbreviation Cell := (string * Colour)%type.
Definition plain (s : string) : Cell := (s, Default).
Definition dash : Cell := ("—", Gray).

(* dashboard/src/main.rs 1561-1569: pnl_color *)
Definition pnl_color (pnl : f64) : Colour :=
  if (0 <? pnl)%float then Rgb 100 220 100 else if (pnl <? 0)%float then Rgb 220 90 90 else Gray.

(* dashboard/src/main.rs 1587-1595: time_kill_tier_color *)
Definition time_kill_tier_color (tier : string) : Colour :=
  if String.eqb tier "strong" then Rgb 110 200 130
  else if String.eqb tier "weak" then Rgb 255 120 100
  else if String.eqb tier "neutral" then Rgb 230 200 90
  else if String.eqb tier "fixed" then Rgb 160 170 190
  else LightGray.

(** [✓] starts a message of success *)
(* dashboard/src/main.rs 1480-1487: Dashboard::render_mode_block *)
Definition status_color (status : string) : Colour :=
  if starts_with "✓" status then Rgb 100 220 100 else Rgb 220 90 90.

(** ** Texts *)

(** [f64::powi] of the platform: repeated squaring *)
Fixpoint powi_loop (n : nat) (a r : f64) (b : Z) : f64 :=
  match n with
  | O => r
  | S n' => let r := if Z.odd b then (r * a)%float else r in
            if b / 2 =? 0 then r else powi_loop n' (a * a)%float r (b / 2)
  end.
Definition powi (a : f64) (b : Z) : f64 := powi_loop 32 a 1%float b.

(* dashboard/src/main.rs 27-31: Amount::to_float *)
Definition ui_amount_to_float (a : UiAmount) : f64 := (f64_of_Z (ua_value a) / powi 10 (ua_decimals a))%float.

Definition dollars (decimals : nat) (v : f64) : string := "$" +:+ fmt_fixed decimals v.
Definition in_sol (decimals : nat) (v : f64) : string := fmt_fixed decimals v +:+ " SOL".

(* dashboard/src/main.rs 1323-1329: Dashboard::usd_val *)
Definition usd_val (sol_price : option f64) (v : f64) (decimals : nat) : string :=
  match sol_price with Some p => dollars decimals (v * p)%float | None => in_sol decimals v end.

(* dashboard/src/main.rs 39-44: Currency::to_float *)
Definition ui_currency_to_float (c : UiCurrency) : f64 :=
  match c with UiNative a | UiDollar a => ui_amount_to_float a end.

(* dashboard/src/main.rs 46-58: Currency::format_usd *)
Definition format_usd (sol_price : option f64) (decimals : nat) (c : UiCurrency) : string :=
  match c with
  | UiDollar a => dollars decimals (ui_amount_to_float a)
  | UiNative a => usd_val sol_price (ui_amount_to_float a) decimals
  end.

(* dashboard/src/main.rs 1580-1585: format_v3_tape_compact *)
Definition format_v3_tape_compact (t : V3TapeWire) : string :=
  "bv " +:+ fmt_fixed 2 (v3_bv_persist t) +:+ " · sp " +:+ fmt_fixed 2 (v3_sell_press t)
    +:+ " · ab " +:+ fmt_fixed 2 (v3_absorb t) +:+ " · d" +:+ fmt_int (v3_dumps t)
    +:+ " · sm" +:+ fmt_int (v3_sm_exits t).

(* dashboard/src/main.rs 1597-1612: format_age *)
Definition format_age (now closed_at : Z) : string :=
  let age := Z.max (i64 (now - closed_at)) 0 in
  if age <? 60 then fmt_int age +:+ "s ago"
  else if age <? 3600 then fmt_int (age / 60) +:+ "m ago"
  else if age <? 86400 then fmt_int (age / 3600) +:+ "h ago"
  else fmt_int (age / 86400) +:+ "d ago".

(* dashboard/src/main.rs 1614-1620: short_addr *)
Definition short_addr (addr : string) : outcome string :=
  if (12 <? String.length addr)%nat then
    head ← slice_to 6 addr; tail ← slice_from (String.length addr - 4) addr;
    Ret (head +:+ "…" +:+ tail)
  else Ret addr.

(* dashboard/src/main.rs 1622-1647: render_mint_with_copy *)
Definition mint_cell (full_mint : string) : outcome Cell :=
  s ← short_addr full_mint; Ret (s, Rgb 200 210 230).

(* dashboard/src/main.rs 1649-1669: render_open_reason *)
Definition open_reason_cell (sol_price : option f64) (reason : UiOpenReason) : Cell :=
  match reason with
  | UiFromDevStats s =>
      ("DEV  coins:" +:+ fmt_int (us_total_coins s) +:+ " avgpnl:" +:+ fmt_fixed 1 (us_trader_pnl_average s)
         +:+ "% vol:" +:+ usd_val sol_price (us_average_volume s) 0, Rgb 100 180 255)
  | UiFromTraderStats => ("TRADER", Rgb 255 200 80)
  end.

Definition tape_cell (c : Colour) (t : option V3TapeWire) : Cell :=
  match t with Some t => (format_v3_tape_compact t, c) | None => dash end.

(** ** The transaction log *)

Section Rows.
(** the clock, the JSON reader of a stored tape, the Unicode upper casing *)
Context (now : Z) (read_tape : string -> option V3TapeWire) (to_uppercase : string -> string).

(* dashboard/src/main.rs 1571-1577: parse_entry_meta_v3 *)
Definition parse_entry_meta_v3 (json : string) : option V3TapeWire :=
  let s := trim json in if String.eqb s "" then None else read_tape s.

Definition mode_color (mode : string) : Colour :=
  if String.eqb mode "live" then Rgb 255 90 90
  else if String.eqb mode "demo" then Rgb 120 220 120 else Gray.

(* dashboard/src/main.rs 904-936: Dashboard::render_tx_log_panel *)
Definition tx_pnl_cells (row : TxLogRow) : list Cell :=
  let part name (p : option f64) :=
    match p with Some p => name +:+ " " +:+ fmt_signed 1 p +:+ "%" | None => name +:+ " —" end in
  match tl_kind row with
  | UiSell => [plain (part "mcap" (tl_pnl_mcap_pct row)); (part "SOL" (tl_pnl_sol_pct row), Rgb 200 220 255)]
  | UiBuy => [dash]
  end.

(* dashboard/src/main.rs 988-1001: Dashboard::render_tx_log_panel *)
Definition tx_short_reason (reason : option string) : outcome (list Cell) :=
  match reason with
  | Some r =>
      if String.eqb r "" then Ret []
      else if (28 <? String.length r)%nat then head ← slice_to 28 r; Ret [(head +:+ "…", Gray)]
      else Ret [(r, Gray)]
  | None => Ret []
  end.

(** a transaction that reached the chain has a signature *)
(* dashboard/src/main.rs 978-1022: Dashboard::render_tx_log_panel *)
Definition tx_status_cells (row : TxLogRow) : outcome (list Cell) :=
  let status := tl_status row in
  match tl_signature row with
  | Some _ =>
      let st : Cell :=
        if String.eqb status "sent" || String.eqb status "confirmed" then ("ok", Rgb 110 190 130)
        else if String.eqb status "failed" then ("failed", Rgb 220 90 90)
        else (status, LightGray) in
      reason ← tx_short_reason (tl_reason row); Ret (st :: reason)
  | None =>
      Ret [if String.eqb status "failed" then (default "failed" (tl_reason row), Rgb 220 90 90)
           else ("simulated", Gray)]
  end.

(* dashboard/src/main.rs 861-1024: Dashboard::render_tx_log_panel *)
Definition tx_row_cells (row : TxLogRow) : outcome (list (list Cell)) :=
  m ← mint_cell (tl_mint row);
  status ← tx_status_cells row;
  let kind : Cell := match tl_kind row with
    | UiBuy => ("BUY", Rgb 120 200 255) | UiSell => ("SELL", Rgb 255 200 100) end in
  let est : Cell := match tl_kind row, tl_amount_sol_estimated row with
    | UiSell, Some est => plain (fmt_fixed 4 est) | _, _ => dash end in
  let tape : Cell := match tl_kind row with
    | UiBuy => tape_cell (Rgb 180 200 235) (tl_v3_tape row)
    | UiSell => match tl_time_kill_detail row with Some s => (s, Rgb 240 190 120) | None => dash end
    end in
  Ret [[(format_age now (tl_ts row), Gray)]; [kind]; [(to_uppercase (tl_mode row), mode_color (tl_mode row))];
       [m]; [plain (fmt_fixed 4 (tl_amount_sol row))]; [est]; tx_pnl_cells row; [tape]; status].

(* dashboard/src/main.rs 846-859: Dashboard::render_tx_log_panel *)
Definition tx_headers : list string :=
  ["Time"; "Kind"; "Mode"; "Mint"; "SOL act."; "SOL est."; "PnL"; "V3 / time kill"; "Status"].

(** the newest row first *)
(* dashboard/src/main.rs 826-861: Dashboard::render_tx_log_panel *)
Definition tx_log_panel (wallet_id : string) (d : Dashboard) : outcome (list (list (list Cell))) :=
  outcome_all tx_row_cells (rev (default [] (ds_tx_log_by_wallet d !! wallet_id))).

(** the title of the log and its size *)
(* dashboard/src/main.rs 2540-2566: Dashboard::update *)
Definition tx_log_header (d : Dashboard) : option (list Cell) :=
  wid ← tx_log_wallet_for_view d;
  let badge (m : string) : Cell :=
    if String.eqb m "live" then ("LIVE", Rgb 255 90 90)
    else if String.eqb m "demo" then ("DEMO", Rgb 120 220 120) else ("?", Gray) in
  let count := length (default [] (ds_tx_log_by_wallet d !! wid)) in
  Some ([plain ("TX LOG · " +:+ wallet_display_label wid d)]
    ++ (match ds_mode d with Some m => [badge m] | None => [] end)
    ++ [("(" +:+ fmt_int (Z.of_nat count) +:+ ")", Gray)]).

(** ** The tables *)

Definition single_wallet_view (d : Dashboard) : bool := negb (String.eqb (ds_wallet_view d) "all").

Fixpoint insert_string (s : string) (l : list string) : list string :=
  match l with [] => [s] | t :: l' => if String.leb s t then s :: t :: l' else t :: insert_string s l' end.
Definition sort_strings (l : list string) : list string := List.fold_right insert_string [] l.

(* dashboard/src/main.rs 2443-2449: Dashboard::update *)
Definition open_addresses (d : Dashboard) : list string :=
  sort_strings (fst <$> List.filter (fun kp => wallet_matches_view (up_wallet_id kp.2) d) (map_to_list (ds_open d))).

(* dashboard/src/main.rs 2454-2471: Dashboard::update *)
Definition open_headers (d : Dashboard) : list string :=
  (if single_wallet_view d then [] else ["Wallet"])
    ++ ["Address"; "PnL % (mcap)"; "Holdings"; "Entry MCAP ($)"; "Curr MCAP ($)"; "Source"; "V3 @ entry"; "Time kill"].

(* dashboard/src/main.rs 2473-2532: Dashboard::update *)
Definition open_row_cells (d : Dashboard) (pos : UiPosition) : outcome (list Cell) :=
  m ← mint_cell (up_address pos);
  let kill : Cell := match up_time_kill_tier pos, up_time_kill_after_secs pos with
    | Some tier, Some secs => (tier +:+ " · " +:+ fmt_int secs +:+ "s", time_kill_tier_color tier)
    | _, _ => ("…", Gray)
    end in
  Ret ((if single_wallet_view d then [] else [(up_wallet_id pos, Rgb 180 200 255)]) ++
    [m; (fmt_signed 2 (up_pnl pos) +:+ "%", pnl_color (up_pnl pos)); plain (fmt_fixed 4 (up_holdings pos));
     plain (usd_val (ds_sol_price d) (up_enter_mcap pos) 0); plain (usd_val (ds_sol_price d) (up_market_cap pos) 0);
     open_reason_cell (ds_sol_price d) (up_open_reason pos); tape_cell (Rgb 190 205 230) (up_v3_tape pos); kill]).

(** the row of a key that is gone is skipped *)
(* dashboard/src/main.rs 2450-2533: Dashboard::update *)
Definition open_table (d : Dashboard) : outcome (list (list Cell)) :=
  outcome_all (open_row_cells d) (omap (fun addr => ds_open d !! addr) (open_addresses d)).

(* dashboard/src/main.rs 2588-2607: Dashboard::update *)
Definition history_headers (d : Dashboard) : list string :=
  ["Time"] ++ (if single_wallet_view d then [] else ["Wallet"])
    ++ ["Mint"; "PnL % (SOL)"; "Invested ($)"; "Entry MCAP ($)"; "V3 @ close"; "Close Reason"].

(* dashboard/src/main.rs 2609-2658: Dashboard::update *)
Definition history_row_cells (d : Dashboard) (row : BotTradeRow) : outcome (list Cell) :=
  m ← mint_cell (br_mint row);
  let tape : Cell := match parse_entry_meta_v3 (br_entry_meta row) with
    | Some t => (format_v3_tape_compact t, Rgb 175 195 225) | None => ("—", DarkGray) end in
  Ret ([(format_age now (br_closed_at row), Gray)]
    ++ (if single_wallet_view d then [] else [plain (br_wallet_id row)])
    ++ [m; (fmt_signed 2 (br_realized_pnl_pct row) +:+ "%", pnl_color (br_realized_pnl_pct row));
        plain (usd_val (ds_sol_price d) (br_invested_sol row) 2);
        plain (usd_val (ds_sol_price d) (br_entry_mcap_sol row) 0); tape; plain (br_close_reason row)]).

(* dashboard/src/main.rs 2582-2661: Dashboard::update *)
Definition history_table (d : Dashboard) : outcome (list (list Cell)) :=
  outcome_all (history_row_cells d) (filtered_history d).

End Rows.

(** ** The bars *)

Section Bars.
Implicit Types (d : Dashboard).

(* dashboard/src/main.rs 1332-1355: Dashboard::render_header_balance *)
Definition header_balance (b : f64) d : list Cell :=
  let lbl := plain (if String.eqb (ds_wallet_view d) "all" then "Balance (combined):" else "Balance:") in
  match ds_sol_price d with
  | Some p =>
      [lbl; (usd_val (Some p) b 2, Rgb 255 215 0); (in_sol 4 b, Rgb 210 215 225);
       ("(@ $" +:+ fmt_fixed 2 p +:+ "/SOL)", Rgb 150 185 220)]
  | None => [lbl; (in_sol 4 b, Rgb 255 215 0)]
  end.

(* dashboard/src/main.rs 2104-2108: Dashboard::update *)
Definition connection_badge d : Cell :=
  if ds_connected d then ("● CONNECTED", Rgb 100 220 100) else ("● DISCONNECTED", Rgb 220 90 90).

(* dashboard/src/main.rs 2111-2141: Dashboard::update *)
Definition manual_sell_banner (now : Z) d : outcome (list Cell) :=
  match ds_manual_sell_alert d with
  | None => Ret []
  | Some alert =>
      m ← mint_cell (ms_mint alert);
      Ret [("⚠ MANUAL SELL REQUIRED", Rgb 255 90 90); m;
           plain ("holdings " +:+ fmt_fixed 4 (ms_holdings alert) +:+ " · trigger: " +:+ ms_exit_reason alert
                    +:+ " · " +:+ format_age now (ms_ts alert));
           (ms_detail alert, Rgb 255 180 120)]
  end.

(* dashboard/src/main.rs 2147-2172: Dashboard::update *)
Definition mode_badges d : list Cell :=
  let badge : Cell := match ds_mode d with
    | Some m => if String.eqb m "live" then ("⚠ LIVE", Rgb 255 80 80)
                else if String.eqb m "demo" then ("● DEMO", Rgb 120 220 120) else ("mode: …", Gray)
    | None => ("mode: …", Gray)
    end in
  badge :: (if cp_restart_required (ds_config_panel d) then [("⟳ restart required", Rgb 255 200 60)] else []).

(** the choices of the wallet view: the id and the text *)
(* dashboard/src/main.rs 2176-2189: Dashboard::update *)
Definition wallet_choices d : list (string * string) :=
  ("all", "All") ::
  ((fun w => (ww_id w, if String.eqb (ww_label w) "" then ww_id w
                       else ww_id w +:+ " (" +:+ ww_label w +:+ ")")) <$> ds_wallets d).

(* dashboard/src/main.rs 2192-2198: Dashboard::update *)
Definition pause_button d : Cell :=
  if ds_paused d then ("▶ RESUME", Rgb 100 220 100) else ("⏸ PAUSE", Rgb 220 170 50).

(** the text of the address and whether a click copies it *)
(* dashboard/src/main.rs 2237-2259: Dashboard::update *)
Definition address_cell d : outcome (Cell * bool) :=
  let pk := context_pubkey_display d in
  if negb (String.eqb (ds_wallet_view d) "all") && negb (String.eqb pk "…") then
    s ← short_addr pk; Ret ("📋 " +:+ s, Rgb 180 180 255, true)
  else Ret (pk, Rgb 180 180 255, false).

(* dashboard/src/main.rs 2261-2284: Dashboard::update *)
Definition buy_and_open_cells d : list Cell :=
  let all := String.eqb (ds_wallet_view d) "all" in
  let n := fmt_int (Z.of_nat (length (filtered_open_positions d))) in
  (match display_buy_size_sol d with
   | Some bs => [((if all then "buy cap: " else "buy: ") +:+ in_sol 4 bs, Rgb 180 220 255)]
   | None => []
   end) ++ [plain (if all then "open: " +:+ n else "open (" +:+ ds_wallet_view d +:+ ") : " +:+ n)].

(* dashboard/src/main.rs 2229-2234: Dashboard::update *)
Definition balance_cells d : list Cell :=
  match context_balance_sol d with Some b => header_balance b d | None => [plain "Balance: —"] end.

(** [f64::signum] *)
Definition f64_signum (x : f64) : f64 :=
  match Prim2SF x with
  | S754_nan => nan
  | S754_zero s | S754_infinity s | S754_finite s _ _ => if s then (-1)%float else 1%float
  end.

Record HistoryStats := mkHistoryStats {
  hs_wins : Z; hs_winrate : f64; hs_avg_pnl : f64; hs_open_pnl : f64; hs_realized_sol : f64 }.

(* dashboard/src/main.rs 2288-2304: Dashboard::update *)
Definition history_stats d : HistoryStats :=
  let hist := filtered_history d in
  let wins := Z.of_nat (length (List.filter (fun t => br_realized_pnl_pct t >? 0)%float hist)) in
  let n := f64_of_Z (Z.of_nat (length hist)) in
  let winrate := match hist with [] => 0%float | _ => (f64_of_Z wins / n * 100)%float end in
  let avg := match hist with [] => 0%float | _ => (f64_sum (br_realized_pnl_pct <$> hist) / n)%float end in
  mkHistoryStats wins winrate avg (context_open_pnl d) (context_realized_pnl_sol d).

(** the wallets of the view with their balances *)
(* dashboard/src/main.rs 2329-2344: Dashboard::update *)
Definition wallet_balance_cells d : list Cell :=
  if String.eqb (ds_wallet_view d) "all" then
    flat_map (fun w => [plain (ww_id w +:+ ":"); plain (in_sol 4 (ww_balance_sol w))]) (ds_wallets d)
  else match find_wallet (ds_wallet_view d) d with
    | Some w => [plain (ww_id w +:+ " bal:"); plain (in_sol 4 (ww_balance_sol w))]
                ++ (match ww_size_sol w with Some sz => [plain ("size: " +:+ in_sol 4 sz)] | None => [] end)
    | None => []
    end.

(** shown once a trade is closed or a position open *)
(* dashboard/src/main.rs 2286-2347: Dashboard::update *)
Definition stats_bar d : option (list Cell) :=
  match filtered_history d, filtered_open_positions d with
  | [], [] => None
  | hist, _ =>
      let s := history_stats d in
      Some ([("Stats · " +:+ wallet_view_label d, Rgb 200 210 255);
        plain ("Trades: " +:+ fmt_int (Z.of_nat (length hist)));
        plain "Winrate:"; (fmt_fixed 1 (hs_winrate s) +:+ "%", pnl_color (hs_winrate s - 50)%float);
        plain "Avg PnL (hist):"; (fmt_signed 2 (hs_avg_pnl s) +:+ "%", pnl_color (hs_avg_pnl s));
        plain "Realized (est):"; (fmt_signed 4 (hs_realized_sol s) +:+ " SOL",
                                  pnl_color (f64_signum (hs_realized_sol s) * 10)%float);
        plain "Open PnL (sum):"; (fmt_signed 2 (hs_open_pnl s) +:+ "%", pnl_color (hs_open_pnl s))]
        ++ wallet_balance_cells d)
  end.

(* dashboard/src/main.rs 2349-2412: Dashboard::update *)
Definition tier_stats_bar d : option (list Cell) :=
  b ← ds_tier_b_stats d;
  let pf := tr_profit_factor b in
  let sub (name : string) (s : TierSubtypeStatsWire) :=
    plain (name +:+ ": " +:+ fmt_int (tb_n s) +:+ " (" +:+ fmt_fixed 0 (tb_winrate_pct s) +:+ "% WR)") in
  let wl := tr_fresh_watchlist b in
  Some ([("Tier B · Fresh Dev Setup", Rgb 200 180 255);
    plain ("Trades: " +:+ fmt_int (tr_n b));
    plain "Winrate:"; (fmt_fixed 1 (tr_winrate_pct b) +:+ "%", pnl_color (tr_winrate_pct b - 50)%float);
    plain "Avg PnL:"; (fmt_signed 2 (tr_avg_pnl_pct b) +:+ "%", pnl_color (tr_avg_pnl_pct b));
    plain "Profit Factor:"; (if f64_is_finite pf then fmt_fixed 2 pf else "∞", pnl_color (f64_signum pf * 10)%float)]
    ++ (match tr_exit_reasons b with
        | [] => []
        | rs => plain "Exits:" :: ((fun r => plain (te_reason r +:+ ": " +:+ fmt_int (te_n r))) <$> take 4 rs)
        end)
    ++ (if (0 <? tb_n (tr_b_true_fresh b)) || (0 <? tb_n (tr_b_unknown b))
        then [sub "B_TRUE_FRESH" (tr_b_true_fresh b); sub "B_UNKNOWN" (tr_b_unknown b)] else [])
    ++ (if (0 <? fw_added wl) || (0 <? fw_passed wl) || (0 <? fw_rejected wl)
        then [plain ("WL: +" +:+ fmt_int (fw_added wl) +:+ " / ok" +:+ fmt_int (fw_passed wl)
                       +:+ " / x" +:+ fmt_int (fw_rejected wl))] else [])).

(** ** Popups *)

(** [None] for a mint without a developer *)
(* dashboard/src/main.rs 1904-1948: Dashboard::update *)
Definition dev_stats_popup d (stats : option UiDevStats) : list (string * Cell) :=
  match stats with
  | None => [("No dev stats available for this mint.", ("(coin not indexed or developer unknown)", Gray))]
  | Some s =>
      [("Total coins:", plain (fmt_int (us_total_coins s)));
       ("Avg trader PnL:", (fmt_fixed 1 (us_trader_pnl_average s) +:+ "%", pnl_color (us_trader_pnl_average s)));
       ("Avg volume:", plain (usd_val (ds_sol_price d) (us_average_volume s) 0));
       ("Avg holders:", plain (fmt_int (us_total_holders_average s)));
       ("Median trades:", plain (fmt_int (us_median_total_trades s)));
       ("Median MCAP:", plain (format_usd (ds_sol_price d) 0 (us_median_market_cap s)));
       ("Buy/sell ratio:", plain (fmt_fixed 2 (us_average_unique_buy_to_sell_ratio s)));
       ("Avg buy size:", plain (format_usd (ds_sol_price d) 2 (us_average_buy_trader_size s)))]
  end.

(** the mode shown by the configuration window *)
(* dashboard/src/main.rs 1361-1368: Dashboard::render_mode_block *)
Definition current_mode d : string :=
  match mi_mode <$> cp_mode_info (ds_config_panel d) with
  | Some m => m
  | None => default "unknown" (ds_mode d)
  end.

(* dashboard/src/main.rs 1370-1379: Dashboard::render_mode_block *)
Definition current_mode_cell d : Cell :=
  let m := current_mode d in
  if String.eqb m "live" then ("⚠ LIVE", Rgb 255 80 80)
  else if String.eqb m "demo" then ("● DEMO", Rgb 120 220 120) else ("…", Gray).

(* dashboard/src/main.rs 1999-2013: Dashboard::update *)
Definition buy_size_feedback d : Cell :=
  match cp_buy_size_status (ds_config_panel d), cp_buy_size_remote (ds_config_panel d) with
  | Some status, _ => (status, status_color status)
  | None, Some remote => ("Server value: " +:+ in_sol 4 remote, Gray)
  | None, None => ("Loading from server…", Gray)
  end.

End Bars.

(** ** The chart window *)

Section Plot.
Context (sol_price : option f64) (chart : ChartResponse).

Record DrawnMarker := mkDrawnMarker { dm_x : f64; dm_y : f64; dm_name : string; dm_colour : Colour }.

Record ChartScene := mkChartScene {
  sc_x : f64 * f64; sc_y : option (f64 * f64); sc_line : list (f64 * f64); sc_markers : list DrawnMarker }.

Let price_mult : f64 := default 1%float sol_price.
Let prefix : string := match sol_price with Some _ => "$" | None => "" end.
Let dec : nat := match sol_price with Some _ => 0%nat | None => 1%nat end.
Let t0 : Z := cr_t0 chart.

(* dashboard/src/main.rs 1699-1703: Dashboard::update *)
Definition chart_y_name : string :=
  match sol_price with Some _ => "Market Cap ($)" | None => "Market Cap (SOL)" end.

(* dashboard/src/main.rs 1716-1731: Dashboard::update *)
Definition chart_xs : list f64 :=
  ((fun p => chart_x_sec p.1 t0) <$> cr_points chart)
    ++ flat_map (fun m => [chart_x_sec (cm_entry_at m) t0; chart_x_sec (cm_closed_at m) t0]) (cr_markers chart).

(** a marker is a pair of points, unless it cannot be placed *)
(* dashboard/src/main.rs 1801-1853: Dashboard::update *)
Definition drawn_marker (m : ChartMarker) : list DrawnMarker :=
  let x_entry := chart_x_sec (cm_entry_at m) t0 in
  let x_exit := chart_x_sec (cm_closed_at m) t0 in
  let entry_y := (cm_entry_mcap m * price_mult)%float in
  let exit_y := (cm_exit_mcap m * price_mult)%float in
  if (x_exit <? x_entry)%float then []
  else if negb (f64_is_finite entry_y) || negb (f64_is_finite exit_y)
          || (entry_y <=? 0)%float || (exit_y <=? 0)%float then []
  else [mkDrawnMarker x_entry entry_y ("BUY " +:+ prefix +:+ fmt_fixed dec entry_y) (Rgb 70 210 90);
        mkDrawnMarker x_exit exit_y
          ("SELL +" +:+ fmt_fixed 0 x_exit +:+ "s " +:+ prefix +:+ fmt_fixed dec exit_y
             +:+ " (" +:+ fmt_signed 0 (cm_pnl m) +:+ "%) — " +:+ cm_reason m) (Rgb 230 85 85)].

(** nothing is drawn without a tape *)
(* dashboard/src/main.rs 1690-1854: Dashboard::update *)
Definition chart_scene : option ChartScene :=
  match cr_points chart with
  | [] => None
  | _ =>
      let x_min := List.fold_left f64_min chart_xs infinity in
      let x_hi := f64_max (List.fold_left f64_max chart_xs neg_infinity) 1 in
      let x_lo := if f64_is_finite x_min then x_min else (-10)%float in
      let y := '(y_lo, y_hi) ← chart_plot_y_bounds (cr_points chart) (cr_markers chart) price_mult x_lo x_hi;
               let pad := f64_max (f64_max ((y_hi - y_lo) * 0.12) (y_hi * 0.05)) 1 in
               Some (y_lo - pad, y_hi + pad)%float in
      Some (mkChartScene (x_lo - 4, x_hi + 4)%float y
              ((fun p => (chart_x_sec p.1 t0, p.2 * price_mult)%float) <$> cr_points chart)
              (flat_map drawn_marker (cr_markers chart)))
  end.

(** what the pointer at [x] reads *)
(* dashboard/src/main.rs 1856-1890: Dashboard::update *)
Definition hover_tip (x : f64) : string :=
  let series := cr_points chart in
  let ref_entry_mcap :=
    match cr_markers chart, series with
    | m :: _, _ => cm_entry_mcap m | [], p :: _ => p.2 | [], [] => 1%float end in
  let mcap_plot := mcap_at_time series (f64_as_i64 (f64_round x)) in
  let pct := if (ref_entry_mcap >? 0)%float && ui_chart_mcap_valid mcap_plot
             then ((mcap_plot / ref_entry_mcap - 1) * 100)%float else 0%float in
  let t_label := (if (x >=? 0)%float then "+" else "") +:+ fmt_fixed 0 x +:+ "s" in
  "t = " +:+ t_label +:+ " | mcap = " +:+ prefix +:+ fmt_fixed dec (mcap_plot * price_mult)%float
    +:+ " | " +:+ fmt_signed 1 pct +:+ "% vs entry".

End Plot.

(** * Properties *)

(** ** Drawing ends *)

Definition ascii_char (c : ascii) : bool := (N_of_ascii c <? 128)%N.
Definition is_ascii (s : string) : Prop := str_all ascii_char s = true.

Lemma ascii_boundary s n : is_ascii s -> (n <= String.length s)%nat -> char_boundary s n = true.
Proof.
  unfold is_ascii, char_boundary. revert n. induction s as [|c s IH]; intros n A L.
  - by destruct n; [|cbn in L; lia].
  - cbn in A, L. apply andb_true_iff in A as [C A]. destruct n as [|n].
    + cbn. unfold ascii_char in C. apply N.ltb_lt in C. apply negb_true_iff, andb_false_iff. left.
      apply N.leb_gt. lia.
    + apply IH; [done|lia].
Qed.

Lemma slice_to_ascii n s : is_ascii s -> (n <= String.length s)%nat -> slice_to n s = Ret (str_take n s).
Proof. intros A L. unfold slice_to. by rewrite ascii_boundary. Qed.
Lemma slice_from_ascii n s : is_ascii s -> (n <= String.length s)%nat -> slice_from n s = Ret (str_drop n s).
Proof. intros A L. unfold slice_from. by rewrite ascii_boundary. Qed.

Lemma short_addr_ascii s : is_ascii s -> exists t, short_addr s = Ret t.
Proof.
  intros A. unfold short_addr. destruct (Nat.ltb_spec 12 (String.length s)) as [L|L]; [|by eexists].
  rewrite slice_to_ascii by (done || lia). rewrite slice_from_ascii by (done || lia). by eexists.
Qed.

Lemma mint_cell_ascii s : is_ascii s -> exists c, mint_cell s = Ret c.
Proof. intros [t E]%short_addr_ascii. unfold mint_cell. rewrite E. by eexists. Qed.

Lemma outcome_all_draws {A B} (f : A -> outcome B) (P : B -> Prop) l :
  Forall (fun x => exists y, f x = Ret y /\ P y) l ->
  exists ys, outcome_all f l = Ret ys /\ Forall2 (fun x y => f x = Ret y /\ P y) l ys.
Proof.
  induction 1 as [|x l [y [E Q]] _ [ys [E' F]]]; [by exists []|].
  exists (y :: ys). split; [|by constructor]. cbn. rewrite E. cbn. by rewrite E'.
Qed.

Lemma open_row_draws d p : is_ascii (up_address p) ->
  exists row, open_row_cells d p = Ret row /\ length row = length (open_headers d).
Proof.
  intros [c E]%mint_cell_ascii. unfold open_row_cells, open_headers. rewrite E. eexists. split; [reflexivity|].
  rewrite !length_app. cbn. by destruct (single_wallet_view d).
Qed.

Lemma history_row_draws now read d r : is_ascii (br_mint r) ->
  exists row, history_row_cells now read d r = Ret row /\ length row = length (history_headers d).
Proof.
  intros [c E]%mint_cell_ascii. unfold history_row_cells, history_headers. rewrite E. eexists. split; [reflexivity|].
  rewrite !length_app. cbn. by destruct (single_wallet_view d).
Qed.

Definition tx_row_ascii (r : TxLogRow) : Prop := is_ascii (tl_mint r) /\ is_ascii (default "" (tl_reason r)).

Lemma tx_row_draws now up r : tx_row_ascii r ->
  exists row, tx_row_cells now up r = Ret row /\ length row = length tx_headers.
Proof.
  intros [[c E]%mint_cell_ascii R]. unfold tx_row_cells. rewrite E. cbn [mbind outcome_bind].
  assert (exists st, tx_status_cells r = Ret st) as [st ->]; [|by eexists].
  unfold tx_status_cells. destruct (tl_signature r); [|by eexists].
  unfold tx_short_reason. destruct (tl_reason r) as [why|]; [|by eexists]. cbn in R.
  destruct (String.eqb why ""); [by eexists|]. destruct (Nat.ltb_spec 28 (String.length why)); [|by eexists].
  rewrite slice_to_ascii by (done || lia). by eexists.
Qed.

Lemma insert_string_perm s l : insert_string s l ≡ₚ s :: l.
Proof.
  induction l as [|t l IH]; [done|]. cbn. destruct (String.leb s t); [done|]. rewrite IH. by constructor.
Qed.
Lemma sort_strings_perm l : sort_strings l ≡ₚ l.
Proof. induction l as [|s l IH]; [done|]. cbn. by rewrite insert_string_perm, IH. Qed.

Lemma string_leb_total s t : String.leb s t = false -> String.leb t s = true.
Proof. unfold String.leb. rewrite (String.compare_antisym t s). by destruct (String.compare s t). Qed.

Lemma insert_string_sorted s l :
  Sorted (fun a b => String.leb a b = true) l -> Sorted (fun a b => String.leb a b = true) (insert_string s l).
Proof.
  induction 1 as [|t l S IH H]; cbn; [by repeat constructor|].
  destruct (String.leb s t) eqn:E; [by repeat constructor|].
  constructor; [done|]. apply string_leb_total in E. destruct l as [|u l]; cbn; [by constructor|].
  inversion H; subst. by destruct (String.leb s u); constructor.
Qed.

Lemma sort_strings_sorted l : Sorted (fun a b => String.leb a b = true) (sort_strings l).
Proof. induction l as [|s l IH]; [constructor|]. by apply insert_string_sorted. Qed.

Lemma filter_snd {A B} (f : B -> bool) (l : list (A * B)) :
  List.filter f (snd <$> l) = snd <$> List.filter (fun kp => f kp.2) l.
Proof. induction l as [|[a b] l IH]; [done|]. cbn. rewrite IH. by destruct (f b). Qed.

Lemma open_shown_perm d :
  omap (fun addr => ds_open d !! addr) (open_addresses d) ≡ₚ filtered_open_positions d.
Proof.
  unfold open_addresses, filtered_open_positions. rewrite sort_strings_perm, filter_snd.
  set (l := List.filter _ (map_to_list (ds_open d))).
  assert (Forall (fun kp => ds_open d !! kp.1 = Some kp.2) l) as F.
  { apply Forall_forall. intros [k p] I. unfold l in I.
    apply list_elem_of_In, filter_In in I as [I _]. by apply list_elem_of_In, elem_of_map_to_list in I. }
  clearbody l. induction F as [|[k p] l E F IH]; [done|]. cbn in *. rewrite E. by constructor.
Qed.

(** With ASCII addresses (and reasons) the three tables draw without a
    panic in every state, whatever the numbers: one row per open position of
    the view, by key, one per shown trade, one per logged transaction, newest
    first, and a cell for each header. *)
Theorem tables_draw now read_tape to_uppercase d
    (HO : forall k p, ds_open d !! k = Some p -> is_ascii (up_address p))
    (HH : Forall (fun r => is_ascii (br_mint r)) (ds_history d))
    (HT : forall w l, ds_tx_log_by_wallet d !! w = Some l -> Forall tx_row_ascii l) :
  (exists ps rows, open_table d = Ret rows /\ ps ≡ₚ filtered_open_positions d /\
     Sorted (fun a b => String.leb a b = true) (open_addresses d) /\
     Forall2 (fun p row => open_row_cells d p = Ret row /\ length row = length (open_headers d)) ps rows) /\
  (exists rows, history_table now read_tape d = Ret rows /\
     Forall2 (fun r row => history_row_cells now read_tape d r = Ret row /\
                           length row = length (history_headers d)) (filtered_history d) rows) /\
  (forall w, exists rows, tx_log_panel now to_uppercase w d = Ret rows /\
     Forall2 (fun r row => tx_row_cells now to_uppercase r = Ret row /\ length row = length tx_headers)
       (rev (default [] (ds_tx_log_by_wallet d !! w))) rows).
Proof.
  split_and!.
  - destruct (outcome_all_draws (open_row_cells d) (fun row => length row = length (open_headers d))
      (omap (fun addr => ds_open d !! addr) (open_addresses d))) as (rows & E & F).
    + apply Forall_forall. intros p (k & _ & Hk)%list_elem_of_omap. eapply open_row_draws, HO, Hk.
    + exists (omap (fun addr => ds_open d !! addr) (open_addresses d)), rows.
      split; [done|]. split; [apply open_shown_perm|]. split; [apply sort_strings_sorted|done].
  - apply outcome_all_draws. apply Forall_forall. intros r I. apply history_row_draws.
    rewrite Forall_forall in HH. apply HH. unfold filtered_history in I.
    case_match; [done|]. by apply list_elem_of_In, filter_In in I as [I%list_elem_of_In _].
  - intros w. apply outcome_all_draws. apply Forall_rev. destruct (ds_tx_log_by_wallet d !! w) as [l|] eqn:E.
    + eapply Forall_impl; [by eapply HT|]. intros r. apply tx_row_draws.
    + constructor.
Qed.

Definition demo_view : Dashboard :=
  dashboard_new
    <| ds_open := {[ "MintA:wallet_1" := mkUiPosition "wallet_1" "MintAddressOneOfTheDemo" UiFromTraderStats
         12.5%float 1000%float 61%float 54%float None (Some "weak"%string) (Some 21) ]} |>
    <| ds_tx_log_by_wallet := {[ "wallet_1" := [mkTxLogRow "wallet_1" UiSell "MintAddressOneOfTheDemo" (Some "sig"%string)
         0.1%float None "confirmed" None "live" 100 None None (Some 3%float) None] ]} |>.

Lemma tables_draw_witness : exists rows, open_table demo_view = Ret rows /\ length rows = 1%nat.
Proof.
  destruct (tables_draw 160 (fun _ => None) (fun s => s) demo_view) as ((ps & rows & E & P & _ & F) & _ & _).
  - unfold demo_view. cbn. intros k p [_ <-]%lookup_singleton_Some. done.
  - constructor.
  - unfold demo_view. cbn. intros w l [_ <-]%lookup_singleton_Some. by repeat constructor.
  - exists rows. split; [done|]. by rewrite <- (Forall2_length _ _ _ F), P.
Defined.

(** with no closed trade the realised result is a negative zero, drawn as a loss *)
Example realized_of_nothing :
  (fmt_signed 4 (context_realized_pnl_sol demo_view) +:+ " SOL",
   pnl_color (f64_signum (context_realized_pnl_sol demo_view) * 10)%float) = ("-0.0000 SOL", Rgb 220 90 90).
Proof. vm_compute. reflexivity. Qed.

(** a reason with a character across byte 28 stops the dashboard *)
Example long_reason_panics :
  tx_short_reason (Some "1234567890123456789012345678—"%string) = Ret [("1234567890123456789012345678…", Gray)] /\
  tx_short_reason (Some "123456789012345678901234567— rejected"%string) = Panic OutOfBounds.
Proof. vm_compute. auto. Qed.
