(* ===== verification/DashControls.v ===== *)
(** The dashboard's controls, [Dashboard::update] of
    [src/dashboard/src/main.rs]: what a click or an edit does to the state and
    which commands it sends.  A control that is not shown or is disabled has
    no step. *)
From S2P Require Import Prelude Text Amounts Features LivePosition Chart Positions Messages.
From S2P Require Import DashChart Dash DashView.

Local Open Scope string_scope.
Local Open Scope list_scope.
Local Open Scope Z_scope.

(** ** Definitions *)

Inductive UiAction :=
  | ChartDevStats | CloseChart | CloseDevStats
  | EditBuySize (text : string) | SaveBuySize | ReloadBuySize
  | EditConfirm (text : string) | ConfirmLive | CancelLive | SwitchToDemo | SwitchToLive
  | EditWallets (edits : list (bool * option string)) | RefreshWallets | CloseConfig
  | DismissAlert | SelectWallet (wallet_id : string) | TogglePause | ToggleConfig
  | CopyMint (m : string) | FetchHistoryChart (m : string).

Implicit Types (d : Dashboard).

Definition when {A} (b : bool) (a : A) : option A := if b then Some a else None.

(* dashboard/src/main.rs 1685-1688: Dashboard::update *)
Definition chart_dev_stats d : option (Dashboard * list DashCmd) :=
  '(m, _) ← ds_chart_window d; Some (d <| ds_loading_dev := Some m |>, [FetchDevStats m]).

(** *** The configuration window *)

(* dashboard/src/main.rs 2018-2023: Dashboard::update *)
Definition parsed_buy_size d : option f64 :=
  v ← parse_f64 (cp_buy_size_input (ds_config_panel d)); when (v >? 0)%float v.

(* dashboard/src/main.rs 2025-2031: Dashboard::update *)
Definition buy_size_can_save d : bool :=
  let parsed := parsed_buy_size d in
  let dirty := match parsed, cp_buy_size_remote (ds_config_panel d) with
    | Some a, Some b => (PrimFloat.abs (a - b) >? 1e-9)%float
    | _, _ => if parsed is Some _ then true else false
    end in
  dirty && (if parsed is Some _ then true else false) && negb (cp_buy_size_saving (ds_config_panel d)).

(* dashboard/src/main.rs 2044-2058: Dashboard::update *)
Definition save_buy_size d : option (Dashboard * list DashCmd) :=
  if buy_size_can_save d then
    v ← parsed_buy_size d;
    Some (update_config (fun c => c <| cp_buy_size_saving := true |> <| cp_buy_size_status := None |>) d,
          [SetBuySize v])
  else None.

(* dashboard/src/main.rs 2060-2064: Dashboard::update *)
Definition reload_buy_size d : Dashboard * list DashCmd :=
  (update_config (fun c => c <| cp_buy_size_status := None |> <| cp_buy_size_input := "" |>) d, [FetchBuySize]).

Definition start_mode_switch (mode : string) (confirm_live : bool) d : Dashboard * list DashCmd :=
  (update_config (fun c => c <| cp_mode_saving := true |> <| cp_mode_status := None |>) d,
   [SetMode mode confirm_live]).

(** the switch to live is offered in two steps *)
(* dashboard/src/main.rs 1386-1470: Dashboard::render_mode_block *)
Definition mode_block (a : UiAction) d : option (Dashboard * list DashCmd) :=
  let c := ds_config_panel d in
  let current := current_mode d in
  match a, cp_pending_live_switch c with
  | EditConfirm text, true => Some (update_config (fun c => c <| cp_confirm_input := text |>) d, [])
  | ConfirmLive, true =>
      let armed := String.eqb (cp_confirm_input c) "LIVE" && negb (cp_mode_saving c) in
      when armed (start_mode_switch "live" true d)
  | CancelLive, true =>
      Some (update_config (fun c => c <| cp_pending_live_switch := false |> <| cp_confirm_input := "" |>) d, [])
  | SwitchToDemo, false =>
      when (negb (String.eqb current "demo") && negb (cp_mode_saving c)) (start_mode_switch "demo" false d)
  | SwitchToLive, false =>
      when (negb (String.eqb current "live") && negb (cp_mode_saving c))
        (update_config (fun c => c <| cp_pending_live_switch := true |> <| cp_confirm_input := "" |>
                                   <| cp_mode_status := None |>) d, [])
  | _, _ => None
  end.

(** one wallet of the grid: the box was clicked, the size was typed *)
(* dashboard/src/main.rs 1515-1538: Dashboard::render_wallets_block *)
Definition edit_wallet (edit : bool * option string) (w : WalletWire) : WalletWire :=
  let w := if edit.1 then w <| ww_enabled := negb (ww_enabled w) |> else w in
  match edit.2 with
  | Some text =>
      w <| ww_size_sol := if String.eqb (trim text) "" then None else parse_f64 (trim text) |>
  | None => w
  end.

Definition edited (edit : bool * option string) : bool := edit.1 || (if edit.2 is Some _ then true else false).

(** the whole list is sent once when a row changed *)
(* dashboard/src/main.rs 1512-1546: Dashboard::render_wallets_block *)
Definition edit_wallets (edits : list (bool * option string)) d : option (Dashboard * list DashCmd) :=
  let wallets := zip_with edit_wallet edits (ds_wallets d) in
  when ((length edits =? length (ds_wallets d))%nat && existsb edited edits)
    (d <| ds_wallets := wallets |>, [PutWallets wallets]).

(* dashboard/src/main.rs 1491-1556: Dashboard::render_wallets_block *)
Definition wallets_block (a : UiAction) d : option (Dashboard * list DashCmd) :=
  match ds_wallets d, a with
  | _ :: _, EditWallets edits => edit_wallets edits d
  | _ :: _, RefreshWallets => Some (d, [FetchStatus])
  | _, _ => None
  end.

(* dashboard/src/main.rs 1955-2078: Dashboard::update *)
Definition config_window (a : UiAction) d : option (Dashboard * list DashCmd) :=
  if cp_open (ds_config_panel d) then
    match a with
    | EditBuySize text => Some (update_config (fun c => c <| cp_buy_size_input := text |>) d, [])
    | SaveBuySize => save_buy_size d
    | ReloadBuySize => Some (reload_buy_size d)
    | CloseConfig => Some (update_config (fun c => c <| cp_open := false |>) d, [])
    | EditWallets _ | RefreshWallets => wallets_block a d
    | _ => mode_block a d
    end
  else None.

(** *** The top bar and the tables *)

(* dashboard/src/main.rs 2197-2205: Dashboard::update *)
Definition toggle_pause d : Dashboard * list DashCmd :=
  let d := d <| ds_paused := negb (ds_paused d) |> in (d, [CmdSetPaused (ds_paused d)]).

(* dashboard/src/main.rs 2214-2226: Dashboard::update *)
Definition toggle_config d : Dashboard * list DashCmd :=
  let d := update_config (fun c => c <| cp_open := negb (cp_open c) |>) d in
  if cp_open (ds_config_panel d) then (update_config (fun c => c <| cp_buy_size_status := None |>) d, [FetchBuySize])
  else (d, []).

(** the milliseconds the notice of a copied mint stays *)
Definition COPY_FLASH_MS : Z := 1600.

(* dashboard/src/main.rs 1638-1645: render_mint_with_copy *)
Definition copy_mint (now : Z) d : Dashboard := d <| ds_mint_copy_flash_until := Some (now + COPY_FLASH_MS) |>.

(* dashboard/src/main.rs 1893-1895: Dashboard::update *)
Definition close_chart d : option (Dashboard * list DashCmd) :=
  _ ← ds_chart_window d; Some (d <| ds_chart_window := None |>, []).

(* dashboard/src/main.rs 1949-1951: Dashboard::update *)
Definition close_dev_stats d : option (Dashboard * list DashCmd) :=
  _ ← ds_selected_dev d; Some (d <| ds_selected_dev := None |>, []).

(* dashboard/src/main.rs 2130-2144: Dashboard::update *)
Definition dismiss_alert d : option (Dashboard * list DashCmd) :=
  _ ← ds_manual_sell_alert d; Some (d <| ds_manual_sell_alert := None |>, []).

(** the choice is among the shown ones *)
(* dashboard/src/main.rs 2176-2190: Dashboard::update *)
Definition select_wallet (wid : string) d : option (Dashboard * list DashCmd) :=
  when (existsb (fun c => String.eqb c.1 wid) (wallet_choices d)) (d <| ds_wallet_view := wid |>, []).

(** each row of the history has the button *)
(* dashboard/src/main.rs 2624-2630: Dashboard::update *)
Definition fetch_history_chart (m : string) d : option (Dashboard * list DashCmd) :=
  when (existsb (fun r => String.eqb (br_mint r) m) (filtered_history d)) (d, [FetchChart m]).

(** [now] is the clock of the frame *)
Definition ui_act (now : Z) (a : UiAction) d : option (Dashboard * list DashCmd) :=
  match a with
  | ChartDevStats => chart_dev_stats d
  | CloseChart => close_chart d
  | CloseDevStats => close_dev_stats d
  | DismissAlert => dismiss_alert d
  | SelectWallet wid => select_wallet wid d
  | TogglePause => Some (toggle_pause d)
  | ToggleConfig => Some (toggle_config d)
  | CopyMint _ => Some (copy_mint now d, [])
  | FetchHistoryChart m => fetch_history_chart m d
  | _ => config_window a d
  end.

(** [now] in milliseconds *)
(* dashboard/src/main.rs 2084-2096: Dashboard::update *)
Definition poll_http (now : Z) d : Dashboard * list DashCmd :=
  let should_poll := match ds_last_http_poll d with Some t => 15000 <=? now - t | None => true end in
  if should_poll then
    (d <| ds_last_http_poll := Some now |>,
     [FetchMode; FetchTxLog; FetchBotTrades; FetchStatus; FetchOpenPositions; FetchTierStats])
  else (d, []).

(** the notice of a copied mint is taken down once its time is over *)
(* dashboard/src/main.rs 2417-2429: Dashboard::update *)
Definition expire_copy_flash (now : Z) d : Dashboard :=
  match ds_mint_copy_flash_until d with
  | Some til => if now <? til then d else d <| ds_mint_copy_flash_until := None |>
  | None => d
  end.

(** the inputs of a run: delivered events, the user's actions, the frames *)
Inductive UiInput :=
  | Delivered (ev : AppEvent)
  | Acted (a : UiAction)
  | Framed.

(** a click on what is not there is no step of a run *)
Definition ui_step (now : Z) (i : UiInput) d : option (Dashboard * list DashCmd) :=
  match i with
  | Delivered ev => match apply_event ev d with Ret r => Some r | Panic _ => None end
  | Acted a => ui_act now a d
  | Framed => let r := poll_http now d in Some (expire_copy_flash now r.1, r.2)
  end.

(** the commands of a run with the inputs at their times *)
Fixpoint ui_run (inputs : list (Z * UiInput)) d : option (Dashboard * list DashCmd) :=
  match inputs with
  | [] => Some (d, [])
  | (now, i) :: rest =>
      '(d, cmds) ← ui_step now i d;
      '(d, cmds') ← ui_run rest d;
      Some (d, cmds ++ cmds')
  end.

(** * Properties *)

(** ** The commands that change the bot *)

(** the confirmation as the inputs alone tell it: the text typed since the
    switch to live was asked for, if it still is *)
Definition arm (armed : option string) (i : UiInput) : option string :=
  match i with
  | Acted SwitchToLive => Some ""
  | Acted (EditConfirm text) => _ ← armed; Some text
  | Acted CancelLive | Delivered (EvModeSetOk _ _) => None
  | _ => armed
  end.

Definition armed_by (c : ConfigPanel) : option string :=
  if cp_pending_live_switch c then Some (cp_confirm_input c) else None.

(** what a command may say of the state after its step *)
Definition command_ok (cmd : DashCmd) d' : Prop :=
  match cmd with
  | CmdSetPaused paused => paused = ds_paused d'
  | SetBuySize sol => (0 <? sol)%float = true
  | PutWallets wallets => wallets = ds_wallets d'
  | _ => True
  end.

Definition mode_quiet (f : Dashboard -> Dashboard) : Prop := forall d,
  armed_by (ds_config_panel (f d)) = armed_by (ds_config_panel d) /\
  cp_mode_saving (ds_config_panel (f d)) = cp_mode_saving (ds_config_panel d).

Definition same_mode (c c' : ConfigPanel) : Prop :=
  armed_by c' = armed_by c /\ cp_mode_saving c' = cp_mode_saving c.

Lemma push_tx_log_config row d : ds_config_panel (push_tx_log row d) = ds_config_panel d.
Proof. reflexivity. Qed.

Lemma clear_manual_sell_config m d : ds_config_panel (clear_manual_sell_for_mint m d) = ds_config_panel d.
Proof. unfold clear_manual_sell_for_mint. by repeat case_match. Qed.

Lemma push_rows_config rows d :
  ds_config_panel (List.fold_left (fun d r => push_tx_log r d) rows d) = ds_config_panel d.
Proof. revert d. induction rows as [|r rows IH]; intros d; [done|]. cbn. by rewrite IH. Qed.

Lemma apply_open_positions_config rows d : ds_config_panel (apply_open_positions rows d) = ds_config_panel d.
Proof. unfold apply_open_positions. by repeat case_match. Qed.

Lemma apply_msg_config msg d : ds_config_panel (apply_msg msg d).1 = ds_config_panel d.
Proof.
  destruct msg; cbn; try done; rewrite ?push_tx_log_config; try case_match;
    by rewrite ?clear_manual_sell_config.
Qed.

Definition is_set_mode (cmd : DashCmd) : bool := match cmd with SetMode _ _ => true | _ => false end.
Definition is_mode_reply (i : UiInput) : bool :=
  match i with Delivered (EvModeSetOk _ _) | Delivered (EvModeSetErr _) => true | _ => false end.
Definition count {A} (f : A -> bool) (l : list A) : nat := length (List.filter f l).

Lemma event_commands ev d r : apply_event ev d = Ret r -> Forall (eq RefreshBotTradesAfterClose) r.2.
Proof.
  destruct ev as [| | msg| | | | m data| | | | | | | | | | | | | |]; cbn; intros E; simplify_eq/=;
    try (constructor; fail).
  - destruct msg; cbn; repeat constructor. destruct (_ && _); by repeat constructor.
  - destruct data as [chart|]; [|by simplify_eq; constructor].
    destruct (sanitize_chart chart); by simplify_eq/=.
Qed.

Record step_spec (i : UiInput) d d' (cmds : list DashCmd) : Prop := {
  st_armed : armed_by (ds_config_panel d') = arm (armed_by (ds_config_panel d)) i;
  st_saving : (count is_set_mode cmds + Nat.b2n (cp_mode_saving (ds_config_panel d))
               <= Nat.b2n (is_mode_reply i) + Nat.b2n (cp_mode_saving (ds_config_panel d')))%nat;
  st_ok : Forall (fun cmd => command_ok cmd d') cmds;
  st_mode : forall m c, SetMode m c ∈ cmds ->
    (m = "demo" /\ c = false /\ i = Acted SwitchToDemo) \/
    (m = "live" /\ c = true /\ i = Acted ConfirmLive /\ armed_by (ds_config_panel d) = Some "LIVE")
}.

Definition harmless (cmd : DashCmd) : Prop :=
  match cmd with SetMode _ _ | CmdSetPaused _ | SetBuySize _ | PutWallets _ => False | _ => True end.

Lemma harmless_count cmds : Forall harmless cmds -> count is_set_mode cmds = 0%nat.
Proof. induction 1 as [|[] l H _ IH]; try done. Qed.

Lemma quiet_step i d d' cmds :
  armed_by (ds_config_panel d') = arm (armed_by (ds_config_panel d)) i ->
  (is_mode_reply i = true \/ cp_mode_saving (ds_config_panel d') = cp_mode_saving (ds_config_panel d)) ->
  Forall harmless cmds -> step_spec i d d' cmds.
Proof.
  intros A S H. constructor; [done| |by eapply Forall_impl; [exact H|]; intros []|].
  - rewrite harmless_count by done. destruct S as [->| ->]; [|lia].
    destruct (cp_mode_saving (ds_config_panel d)); cbn; lia.
  - intros m c I. rewrite Forall_forall in H. by apply H in I.
Qed.

Lemma sent_step i d d' cmd :
  armed_by (ds_config_panel d') = arm (armed_by (ds_config_panel d)) i ->
  cp_mode_saving (ds_config_panel d') = cp_mode_saving (ds_config_panel d) ->
  is_set_mode cmd = false -> command_ok cmd d' -> step_spec i d d' [cmd].
Proof.
  intros A S M O. constructor; [done| |by repeat constructor|].
  - unfold count. cbn. rewrite M, S. cbn. lia.
  - intros m c I%list_elem_of_singleton. by subst.
Qed.

(** what an event does to the configuration window *)
Definition config_after (ev : AppEvent) (c : ConfigPanel) : ConfigPanel :=
  match ev with
  | EvModeInfo info => c <| cp_mode_info := Some info |>
  | EvModeSetOk mode restart =>
      c <| cp_mode_saving := false |> <| cp_pending_live_switch := false |> <| cp_confirm_input := "" |>
        <| cp_restart_required := restart |>
        <| cp_mode_status := Some ("✓ saved (mode=" +:+ mode +:+ ")  — "
             +:+ (if restart then "restart bot to activate" else "no change")) |>
  | EvModeSetErr msg => c <| cp_mode_saving := false |> <| cp_mode_status := Some ("✗ " +:+ msg) |>
  | EvBuySize sol => on_loaded sol c
  | EvBuySizeSetOk => on_save_ok (default 0%float (parse_f64 (cp_buy_size_input c))) c
  | EvBuySizeSetErr msg => on_save_err msg c
  | _ => c
  end.

Lemma apply_event_config ev d d' cmds :
  apply_event ev d = Ret (d', cmds) -> ds_config_panel d' = config_after ev (ds_config_panel d).
Proof.
  intros E. destruct ev as [| | msg| | | | m data| | | | | | |rows| | | | | | |]; cbn in E |- *; simplify_eq/=; try done.
  - pose proof (apply_msg_config msg d) as H. by rewrite E in H.
  - by destruct mode.
  - by destruct (bool_decide _).
  - destruct data; [|by simplify_eq]. destruct (sanitize_chart _); by simplify_eq/=.
  - by rewrite push_rows_config.
  - by repeat case_match.
Qed.

Lemma event_step ev d d' cmds : apply_event ev d = Ret (d', cmds) -> step_spec (Delivered ev) d d' cmds.
Proof.
  intros E. pose proof (apply_event_config _ _ _ _ E) as C. apply quiet_step.
  - rewrite C. unfold armed_by. destruct ev; try done. cbn [config_after arm]. unfold on_loaded. by destruct (String.eqb _ _).
  - rewrite C. destruct ev; try (by left); right; try done. cbn [config_after]. unfold on_loaded. by destruct (String.eqb _ _).
  - eapply Forall_impl; [by eapply (event_commands ev d (d', cmds))|]. by intros ? <-.
Qed.

Lemma when_Some {A} (b : bool) (a r : A) : when b a = Some r -> b = true /\ a = r.
Proof. destruct b; [by intros [= ->]|done]. Qed.

Lemma mode_block_step a d d' cmds : mode_block a d = Some (d', cmds) -> step_spec (Acted a) d d' cmds.
Proof.
  unfold mode_block. destruct (cp_pending_live_switch (ds_config_panel d)) eqn:P;
    destruct a; intros E; simplify_eq/=.
  - by apply quiet_step; [unfold armed_by; cbn; rewrite P|right|constructor].
  - apply when_Some in E as [[L S]%andb_true_iff [= <- <-]].
    apply String.eqb_eq in L. apply negb_true_iff in S. constructor.
    + unfold armed_by. cbn. by rewrite P.
    + cbn. by rewrite S.
    + by repeat constructor.
    + intros m c [= -> ->]%list_elem_of_singleton. right. unfold armed_by. rewrite P, L. done.
  - by apply quiet_step; [|right|constructor].
  - apply when_Some in E as [[_ S]%andb_true_iff [= <- <-]]. apply negb_true_iff in S. constructor.
    + unfold armed_by. cbn. by rewrite P.
    + cbn. by rewrite S.
    + by repeat constructor.
    + intros m c [= -> ->]%list_elem_of_singleton. by left.
  - apply when_Some in E as [_ [= <- <-]]. by apply quiet_step; [|right|constructor].
Qed.

Lemma config_window_step a d d' cmds : config_window a d = Some (d', cmds) -> step_spec (Acted a) d d' cmds.
Proof.
  unfold config_window. destruct (cp_open _); [|done].
  destruct a; try (by intros E; apply mode_block_step in E).
  - intros [= <- <-]. by apply quiet_step; [|right|constructor].
  - unfold save_buy_size. destruct (buy_size_can_save d); [|done]. unfold parsed_buy_size.
    destruct (parse_f64 _) as [v|]; [|done]. cbn. destruct (0 <? v)%float eqn:V; [|done].
    intros [= <- <-]. by apply sent_step.
  - intros [= <- <-]. apply quiet_step; [done|by right|by repeat constructor].
  - unfold wallets_block. destruct (ds_wallets d) as [|w ws] eqn:W; [done|].
    unfold edit_wallets. intros [_ [= <- <-]]%when_Some. by apply sent_step.
  - unfold wallets_block. destruct (ds_wallets d); [done|]. intros [= <- <-].
    apply quiet_step; [done|by right|by repeat constructor].
  - intros [= <- <-]. by apply quiet_step; [|right|constructor].
Qed.

Lemma action_step now a d d' cmds : ui_act now a d = Some (d', cmds) -> step_spec (Acted a) d d' cmds.
Proof.
  assert (forall d1 cmds1, ds_config_panel d1 = ds_config_panel d -> Forall harmless cmds1 ->
            arm (armed_by (ds_config_panel d)) (Acted a) = armed_by (ds_config_panel d) ->
            step_spec (Acted a) d d1 cmds1) as Q.
  { intros d1 cmds1 C H A. by apply quiet_step; [rewrite C, A|rewrite C; right|]. }
  destruct a; try (by intros E; apply config_window_step in E); cbn.
  - unfold chart_dev_stats. destruct (ds_chart_window d) as [[m c]|]; [|done]. intros [= <- <-].
    apply Q; [done|by repeat constructor|done].
  - unfold close_chart. destruct (ds_chart_window d); [|done]. intros [= <- <-]. by apply Q; [|constructor|].
  - unfold close_dev_stats. destruct (ds_selected_dev d); [|done]. intros [= <- <-]. by apply Q; [|constructor|].
  - unfold dismiss_alert. destruct (ds_manual_sell_alert d); [|done]. intros [= <- <-]. by apply Q; [|constructor|].
  - unfold select_wallet. intros [_ [= <- <-]]%when_Some. by apply Q; [|constructor|].
  - intros [= <- <-]. by apply sent_step.
  - unfold toggle_config. cbn. destruct (negb _); intros [= <- <-].
    + apply quiet_step; [done|by right|by repeat constructor].
    + by apply quiet_step; [|right|constructor].
  - intros [= <- <-]. by apply Q; [|constructor|].
  - unfold fetch_history_chart. intros [_ [= <- <-]]%when_Some. apply Q; [done|by repeat constructor|done].
Qed.

Lemma frame_step now d : step_spec Framed d (expire_copy_flash now (poll_http now d).1) (poll_http now d).2.
Proof.
  assert (ds_config_panel (expire_copy_flash now (poll_http now d).1) = ds_config_panel d) as C.
  { unfold expire_copy_flash, poll_http. by repeat case_match. }
  apply quiet_step; [by rewrite C|right; by rewrite C|].
  unfold poll_http. case_match; [by repeat constructor|constructor].
Qed.

Lemma ui_step_spec now i d d' cmds : ui_step now i d = Some (d', cmds) -> step_spec i d d' cmds.
Proof.
  destruct i as [ev|a|]; cbn.
  - destruct (apply_event ev d) as [[d1 c1]|] eqn:E; [|done]. intros [= -> ->]. by apply event_step.
  - apply action_step.
  - intros [= <- <-]. apply frame_step.
Qed.

(** ** Runs *)

Lemma ui_run_app l1 l2 d :
  ui_run (l1 ++ l2) d = ('(d1, c1) ← ui_run l1 d; '(d2, c2) ← ui_run l2 d1; Some (d2, c1 ++ c2)).
Proof.
  revert d. induction l1 as [|[t i] l1 IH]; intros d; cbn.
  - by destruct (ui_run l2 d) as [[]|].
  - destruct (ui_step t i d) as [[d1 c1]|]; [|done]. cbn. rewrite IH.
    destruct (ui_run l1 d1) as [[d2 c2]|]; [|done]. cbn.
    destruct (ui_run l2 d2) as [[d3 c3]|]; [|done]. cbn. by rewrite app_assoc.
Qed.

Lemma ui_run_snoc l t i d : ui_run (l ++ [(t, i)]) d =
  ('(d1, c1) ← ui_run l d; '(d2, c2) ← ui_step t i d1; Some (d2, c1 ++ c2)).
Proof.
  rewrite ui_run_app. destruct (ui_run l d) as [[d1 c1]|]; [|done]. cbn.
  destruct (ui_step t i d1) as [[d2 c2]|]; [|done]. cbn. by rewrite app_nil_r.
Qed.

Definition armed_after (inputs : list (Z * UiInput)) : option string :=
  List.fold_left arm (snd <$> inputs) None.

Lemma armed_after_snoc l t i : armed_after (l ++ [(t, i)]) = arm (armed_after l) i.
Proof. unfold armed_after. by rewrite fmap_app, fold_left_app. Qed.

(** the number of replies to mode switches and of switches sent *)
Lemma run_spec inputs : forall d cmds, ui_run inputs dashboard_new = Some (d, cmds) ->
  armed_by (ds_config_panel d) = armed_after inputs /\
  (count is_set_mode cmds <= count is_mode_reply (snd <$> inputs) + Nat.b2n (cp_mode_saving (ds_config_panel d)))%nat.
Proof.
  induction inputs as [|[t i] inputs IH] using rev_ind; intros d cmds.
  - intros [= <- <-]. done.
  - rewrite ui_run_snoc. destruct (ui_run inputs dashboard_new) as [[d1 c1]|] eqn:E; [|done]. cbn.
    destruct (ui_step t i d1) as [[d2 c2]|] eqn:S; [|done]. intros [= <- <-].
    apply ui_step_spec in S. destruct (IH _ _ eq_refl) as [A C]. split.
    + rewrite armed_after_snoc, <- A. apply S.
    + pose proof (st_saving _ _ _ _ S) as H. unfold count in *.
      rewrite fmap_app, !List.filter_app, !length_app. cbn. destruct (is_mode_reply i); cbn in H |- *; lia.
Qed.

(** *** The text was typed *)

(** the inputs that start, change or end the confirmation *)
Definition touches_confirm (i : UiInput) : bool :=
  match i with
  | Acted SwitchToLive | Acted (EditConfirm _) | Acted CancelLive | Delivered (EvModeSetOk _ _) => true
  | _ => false
  end.
Definition ends_confirm (i : UiInput) : bool :=
  match i with Acted CancelLive | Delivered (EvModeSetOk _ _) => true | _ => false end.

Definition typed_live (inputs : list (Z * UiInput)) : Prop := exists pre mid1 mid2 t1 t2,
  inputs = pre ++ (t1, Acted SwitchToLive) :: mid1 ++ (t2, Acted (EditConfirm "LIVE")) :: mid2 /\
  Forall (fun x => ends_confirm x.2 = false) mid1 /\ Forall (fun x => touches_confirm x.2 = false) mid2.

Lemma armed_asked l : armed_after l <> None -> exists pre mid t,
  l = pre ++ (t, Acted SwitchToLive) :: mid /\ Forall (fun x => ends_confirm x.2 = false) mid.
Proof.
  induction l as [|[t i] l IH] using rev_ind; [done|]. rewrite armed_after_snoc. intros A.
  assert (i = Acted SwitchToLive \/ i <> Acted SwitchToLive) as [->|N].
  { destruct i as [|[]|]; (by left) || (by right). }
  { by exists l, [], t. }
  destruct (armed_after l) eqn:E.
  - destruct (IH ltac:(done)) as (pre & mid & t' & -> & F). exists pre, (mid ++ [(t, i)]), t'.
    split; [by rewrite <- app_assoc|]. apply Forall_app. split; [done|]. apply Forall_singleton.
    destruct i as [[]|[]|]; done.
  - destruct i as [[]|[]|]; done.
Qed.

Lemma armed_live l : armed_after l = Some "LIVE" -> typed_live l.
Proof.
  induction l as [|[t i] l IH] using rev_ind; [done|]. rewrite armed_after_snoc. intros A.
  destruct (touches_confirm i) eqn:T.
  - assert (i = Acted (EditConfirm "LIVE") /\ armed_after l <> None) as [-> N].
    { destruct i as [[]|[]|]; try done. cbn in A. destruct (armed_after l); by simplify_eq/=. }
    destruct (armed_asked l N) as (pre & mid & t' & -> & F). exists pre, mid, [], t', t.
    split; [by rewrite <- app_assoc|]. by split; [|constructor].
  - assert (arm (armed_after l) i = armed_after l) as E by (by destruct i as [[]|[]|]).
    rewrite E in A. destruct (IH A) as (pre & mid1 & mid2 & t1 & t2 & -> & F1 & F2).
    exists pre, mid1, (mid2 ++ [(t, i)]), t1, t2. split; [by rewrite <- !app_assoc, <- !app_comm_cons, <- app_assoc|].
    split; [done|]. by apply Forall_app_2; [|apply Forall_singleton].
Qed.

(** After any run of the dashboard the next step sends a switch to live
    only on a click on the confirmation, after the operator asked for it and
    then typed LIVE without anything ending or changing it since; a switch to
    demo only on its button; a buy size only when it is positive, and wallets
    and the pause as the state shows them.  Of all mode switches sent at most
    one is unanswered. *)
Theorem operator_commands inputs now i d0 cmds0 d cmds :
  ui_run inputs dashboard_new = Some (d0, cmds0) -> ui_step now i d0 = Some (d, cmds) ->
  Forall (fun cmd => match cmd with
    | SetMode m c => (m = "demo" /\ c = false /\ i = Acted SwitchToDemo) \/
        (m = "live" /\ c = true /\ i = Acted ConfirmLive /\ typed_live inputs)
    | CmdSetPaused paused => paused = ds_paused d
    | SetBuySize sol => (0 <? sol)%float = true
    | PutWallets wallets => wallets = ds_wallets d
    | _ => True
    end) cmds /\
  (count is_set_mode (cmds0 ++ cmds) <= S (count is_mode_reply (snd <$> inputs ++ [(now, i)])))%nat.
Proof.
  intros R S. pose proof S as P. apply ui_step_spec in P. destruct (run_spec _ _ _ R) as [A _]. split.
  - pose proof (st_ok _ _ _ _ P) as K. rewrite Forall_forall in *. intros cmd I. specialize (K _ I).
    destruct cmd as [| | | | | | | | | | | |m c|]; try exact K; try done.
    destruct (st_mode _ _ _ _ P _ _ I) as [?|(-> & -> & -> & L)]; [by left|right].
    split_and!; [done..|]. apply armed_live. by rewrite <- A.
  - destruct (run_spec (inputs ++ [(now, i)]) d (cmds0 ++ cmds)) as [_ C].
    { rewrite ui_run_snoc, R. cbn. by rewrite S. }
    destruct (cp_mode_saving (ds_config_panel d)); cbn in C; lia.
Qed.

Definition demo_clicks : list (Z * UiInput) :=
  [(0, Framed); (1, Acted ToggleConfig); (2, Delivered (EvStatus false (Some "demo"))); (3, Acted SwitchToLive);
   (4, Acted (EditConfirm "LIV")); (5, Acted (EditConfirm "LIVE"))].

Lemma operator_commands_witness : exists d0 cmds0 d cmds,
  ui_run demo_clicks dashboard_new = Some (d0, cmds0) /\
  ui_step 6 (Acted ConfirmLive) d0 = Some (d, cmds) /\ SetMode "live" true ∈ cmds /\ typed_live demo_clicks.
Proof.
  eexists _, _, _, _. split; [vm_compute; reflexivity|]. split; [vm_compute; reflexivity|].
  split; [by apply list_elem_of_singleton|].
  destruct (operator_commands demo_clicks 6 (Acted ConfirmLive) _ _ _ _
    ltac:(vm_compute; reflexivity) ltac:(vm_compute; reflexivity)) as [F _].
  apply Forall_singleton in F as [(H & _)|(_ & _ & _ & H)]; [done|exact H].
Defined.

(** Typing a size saves every text on the way: a size that does not parse is
    saved as the tier's. *)
Example size_typo_clears :
  ww_size_sol (edit_wallet (false, Some "0,05") (mkWalletWire "w" "" true "" 0%float (Some 0.5%float))) = None /\
  ww_size_sol (edit_wallet (false, Some "0") (mkWalletWire "w" "" true "" 0%float (Some 0.5%float))) = Some 0%float.
Proof. vm_compute. auto. Qed.
