(* ===== verification/DashLink.v ===== *)
(** The dashboard's background thread, [ws_loop] and the HTTP helpers of
    [src/dashboard/src/main.rs]: which requests a message or a command starts,
    what an answer delivers, and the thread, its two bounded channels and the
    window together as a step function.  The HTTP client, the socket and the
    JSON reader are parameters. *)
From Stdlib Require Import Ascii.
From S2P Require Import Prelude Text Amounts Features LivePosition Chart Positions Messages.
From S2P Require Import DashChart Dash DashView DashControls.

Local Open Scope string_scope.
Local Open Scope list_scope.
Local Open Scope Z_scope.

(** ** Requests and answers *)

(* dashboard/src/main.rs 3073-3085: StatusResp *)
Record StatusResp := mkStatusResp {
  sr_paused : bool; sr_balance_sol : f64; sr_total_balance_sol : option f64; sr_mode : option string;
  sr_wallet : option string; sr_wallets : list WalletWire }.

(** what the JSON reader makes of a text *)
Class DashJson := {
  read_ws : string -> option WsMsg;
  read_status : string -> option StatusResp;
  read_pubkey : string -> option string;
  read_buy_size : string -> option f64;
  read_mode_info : string -> option ModeInfo;
  read_mode_set : string -> option (string * bool);
  read_tx_log : string -> option (list WsMsg);
  read_trades : string -> option (list BotTradeRow);
  read_positions : string -> option (list UiOpenPosition);
  read_tier_stats : string -> option TierStatsWire;
  read_dev_stats : string -> option (option UiDevStats);
  read_chart : string -> option ChartResponse;
  read_wallets : string -> option (list WalletWire);
  read_ticker : string -> option string
}.

(** the answer of the HTTP client: its error, or the status, its text and the
    body when it can be read *)
Inductive HttpReply :=
  | NoReply (error : string)
  | Replied (status : Z) (status_text : string) (body : option string).

Definition is_success (status : Z) : bool := (200 <=? status) && (status <? 300).

(** [None] also for a body that is not the expected JSON *)
Definition decode {A} (read : string -> option A) (r : HttpReply) : option A :=
  match r with Replied _ _ (Some body) => read body | _ => None end.
Definition decode_success {A} (read : string -> option A) (r : HttpReply) : option A :=
  match r with
  | Replied status _ (Some body) => if is_success status then read body else None
  | _ => None
  end.
Definition body_text (body : option string) : string := default "" body.
Definition maybe {A B} (f : A -> B) (o : option A) : list B := match o with Some a => [f a] | None => [] end.

Inductive Request :=
  | GetStatus | GetPubkey | GetBuySize | PutBuySize (sol : f64)
  | GetDevStats (m : string) | GetChart (m : string) | GetMode | GetTxLog | GetOpenPositions | GetTierStats
  | PutWalletsReq (wallets : list WalletWire) | PutMode (mode : string) (confirm : bool).

Section Answers.
Context `{DashJson}.

(* dashboard/src/main.rs 3087-3118: fetch_status_http *)
Definition status_events (s : StatusResp) : list AppEvent :=
  [EvStatus (sr_paused s) (sr_mode s)]
    ++ maybe EvPubkey (sr_wallet s)
    ++ (match sr_wallets s with [] => [] | ws => [EvWallets ws] end)
    ++ [EvMsg (MsgBalanceUpdate (default (sr_balance_sol s) (sr_total_balance_sol s)))].

(* dashboard/src/main.rs 2910-2948: ws_loop *)
Definition tx_rows (events : list WsMsg) : list TxLogRow :=
  omap (fun m => match m with MsgTxEvent row => Some row | _ => None end) events.

(* dashboard/src/main.rs 2993-3022: ws_loop *)
Definition put_wallets_events (r : HttpReply) : list AppEvent :=
  match r with
  | Replied status text body =>
      if is_success status then maybe EvWallets (decode read_wallets r) ++ [EvWalletsSaveOk]
      else [EvWalletsSaveErr ("HTTP " +:+ text +:+ ": " +:+ body_text body)]
  | NoReply e => [EvWalletsSaveErr e]
  end.

(* dashboard/src/main.rs 3024-3055: ws_loop *)
Definition put_mode_events (r : HttpReply) : list AppEvent :=
  match r with
  | Replied status text body =>
      if is_success status then
        match read_mode_set (body_text body) with
        | Some (mode, restart) => [EvModeSetOk mode restart]
        | None => [EvModeSetErr ("bad response: " +:+ body_text body)]
        end
      else [EvModeSetErr ("HTTP " +:+ text +:+ ": " +:+ body_text body)]
  | NoReply e => [EvModeSetErr e]
  end.

(* dashboard/src/main.rs 3255-3270: set_buy_size *)
Definition put_buy_size_events (r : HttpReply) : list AppEvent :=
  match r with
  | Replied status text _ => [if is_success status then EvBuySizeSetOk else EvBuySizeSetErr ("HTTP " +:+ text)]
  | NoReply e => [EvBuySizeSetErr e]
  end.

(** a status other than success matters only where the code looks at it *)
(* dashboard/src/main.rs 2862-2951: ws_loop *)
Definition reply_events (req : Request) (r : HttpReply) : list AppEvent :=
  match req with
  | GetStatus => match decode_success read_status r with Some s => status_events s | None => [] end
  | GetPubkey => maybe EvPubkey (decode read_pubkey r)
  | GetBuySize => maybe EvBuySize (decode read_buy_size r)
  | PutBuySize _ => put_buy_size_events r
  | GetDevStats m =>
      [EvDevStats m (match r with
                     | Replied _ _ body => mjoin (read_dev_stats (body_text body))
                     | NoReply _ => None
                     end)]
  | GetChart m => [EvChartData m (decode read_chart r)]
  | GetMode => maybe EvModeInfo (decode read_mode_info r)
  | GetTxLog => maybe (fun events => EvTxLog (tx_rows events)) (decode read_tx_log r)
  | GetOpenPositions => maybe EvOpenPositions (decode_success read_positions r)
  | GetTierStats => maybe EvTierStats (decode_success read_tier_stats r)
  | PutWalletsReq _ => put_wallets_events r
  | PutMode _ _ => put_mode_events r
  end.

(** the price task polls a ticker, whatever its status *)
(* dashboard/src/main.rs 2717-2739: ws_loop *)
Definition price_events (r : HttpReply) : list AppEvent :=
  maybe EvSolPrice (price ← decode read_ticker r; parse_f64 price).

(** ** Tasks *)

(** [StatusLoop n]: [n] more fetches of the status, one after the other;
    [TradesWait n]: [n] more fetches of the closed trades, the next not begun;
    [TradesFly g n]: fetch [g] is out *)
Inductive Task :=
  | Single (req : Request)
  | StatusLoop (more : nat)
  | TradesWait (more : nat)
  | TradesFly (g : Z) (more : nat).

(** at once, and 400 and 1500 ms later *)
(* dashboard/src/main.rs 3120-3137: schedule_status_refresh *)
Definition schedule_status_refresh : Task := StatusLoop (length [0; 400; 1500]).

(* dashboard/src/main.rs 3175-3194: schedule_bot_trades_refresh *)
Definition schedule_bot_trades_refresh : Task := TradesWait (length [0; 800; 2000; 5000; 10000; 15000]).

Definition fetch_bot_trades_task : Task := TradesWait 1.

(** what is fetched when the socket opens *)
(* dashboard/src/main.rs 2743-2796: ws_loop *)
Definition connect_tasks : list Task :=
  [fetch_bot_trades_task; Single GetStatus; Single GetPubkey; Single GetBuySize; Single GetOpenPositions;
   Single GetTierStats].

(* dashboard/src/main.rs 2805-2835: ws_loop *)
Definition message_tasks (msg : WsMsg) : list Task :=
  let refresh_positions := match msg with MsgPositionOpen _ _ _ _ _ => true | _ => false end in
  let refresh_history := match msg with
    | MsgPositionClose _ _ _ => true
    | MsgTxEvent row => bool_decide (tl_kind row = UiSell) && String.eqb (tl_status row) "confirmed"
    | _ => false
    end in
  let refresh_status := match msg with MsgPositionClose _ _ _ | MsgTxEvent _ => true | _ => false end in
  (if refresh_positions then [Single GetOpenPositions] else [])
    ++ (if refresh_history then [schedule_bot_trades_refresh] else [])
    ++ (if refresh_status then [schedule_status_refresh] else []).

(** the pause goes over the socket *)
(* dashboard/src/main.rs 2850-3057: ws_loop *)
Definition command_task (cmd : DashCmd) : option Task :=
  match cmd with
  | CmdSetPaused _ => None
  | FetchBuySize => Some (Single GetBuySize)
  | SetBuySize sol => Some (Single (PutBuySize sol))
  | FetchDevStats m => Some (Single (GetDevStats m))
  | FetchChart m => Some (Single (GetChart m))
  | FetchMode => Some (Single GetMode)
  | FetchTxLog => Some (Single GetTxLog)
  | FetchBotTrades => Some fetch_bot_trades_task
  | FetchStatus => Some (Single GetStatus)
  | RefreshBotTradesAfterClose => Some schedule_bot_trades_refresh
  | FetchOpenPositions => Some (Single GetOpenPositions)
  | FetchTierStats => Some (Single GetTierStats)
  | PutWallets ws => Some (Single (PutWalletsReq ws))
  | SetMode mode confirm => Some (Single (PutMode mode confirm))
  end.

(** the log line of an unreadable message slices its text at 200 bytes *)
(* dashboard/src/main.rs 2803-2845: ws_loop *)
Definition on_text (text : string) : outcome (list Task * list AppEvent) :=
  match read_ws text with
  | Some msg => Ret (message_tasks msg, [EvMsg msg])
  | None => _ ← slice_to (Nat.min (String.length text) 200) text; Ret ([], [])
  end.

(** ** The thread, the channels and the window *)

(* dashboard/src/main.rs 3330-3331: main *)
Definition CMD_CHANNEL : nat := 128.
Definition EVENT_CHANNEL : nat := 1024.

(** [lk_events] holds the channel and what a blocked send still has to put;
    [lk_alive] is lost when the thread panics.  The last two fields record the
    run: the inputs of the window, and the fetches of the trades delivered. *)
Record Link := mkLink {
  lk_ui : Dashboard; lk_cmds : list DashCmd; lk_events : list AppEvent;
  lk_alive : bool; lk_connected : bool; lk_tasks : list Task; lk_gen : Z;
  lk_inputs : list (Z * UiInput); lk_delivered : list (Z * list BotTradeRow)
}.
#[export] Instance Link_settable : Settable Link := fun k =>
  mkLink (lk_ui k) (lk_cmds k) (lk_events k) (lk_alive k) (lk_connected k) (lk_tasks k) (lk_gen k)
    (lk_inputs k) (lk_delivered k).

Implicit Types (k : Link).

(** the history is asked for before the socket opens *)
(* dashboard/src/main.rs 2693-2715: ws_loop *)
Definition link_new : Link :=
  mkLink dashboard_new [] [] true false [fetch_bot_trades_task] 0 [] [].

(** a full channel, or one whose thread is gone, drops the command *)
(* dashboard/src/main.rs 2687-2691: send_dash_cmd *)
Definition try_send_cmd (cmd : DashCmd) k : Link :=
  if lk_alive k && (length (lk_cmds k) <? CMD_CHANNEL)%nat then k <| lk_cmds := lk_cmds k ++ [cmd] |> else k.

Definition send_events (events : list AppEvent) k : Link := k <| lk_events := lk_events k ++ events |>.
Definition spawn (tasks : list Task) k : Link := k <| lk_tasks := lk_tasks k ++ tasks |>.

(** the thread runs unless it has panicked or a send blocks it *)
Definition runs k : bool := lk_alive k && (length (lk_events k) <? EVENT_CHANNEL)%nat.

(* dashboard/src/main.rs 2741-2745: ws_loop *)
Definition link_connect k : option Link :=
  when (runs k && negb (lk_connected k))
    (send_events [Connected] (spawn connect_tasks k) <| lk_connected := true |>).

(* dashboard/src/main.rs 3062-3068: ws_loop *)
Definition link_disconnect k : option Link :=
  when (runs k && lk_connected k) (send_events [Disconnected] k <| lk_connected := false |>).

(* dashboard/src/main.rs 2801-2849: ws_loop *)
Definition link_text (text : string) k : option Link :=
  if runs k && lk_connected k then
    match on_text text with
    | Ret (tasks, events) => Some (send_events events (spawn tasks k))
    | Panic _ => Some (k <| lk_alive := false |>)
    end
  else None.

(** commands wait while there is no connection *)
(* dashboard/src/main.rs 2850-2861: ws_loop *)
Definition link_command k : option Link :=
  match lk_cmds k with
  | cmd :: cmds =>
      when (runs k && lk_connected k)
        (spawn (match command_task cmd with Some t => [t] | None => [] end) (k <| lk_cmds := cmds |>))
  | [] => None
  end.

(** a fetch of the closed trades takes the next number *)
(* dashboard/src/main.rs 3139-3147: fetch_bot_trades_http *)
Definition begin_trades (n : nat) k : option Link :=
  match lk_tasks k !! n with
  | Some (TradesWait (S more)) =>
      let g := u64 (lk_gen k + 1) in
      when (runs k) (k <| lk_gen := g |> <| lk_tasks := <[n := TradesFly g more]> (lk_tasks k) |>)
  | _ => None
  end.

(** the answer counts only when no other fetch has begun since *)
(* dashboard/src/main.rs 3147-3173: fetch_bot_trades_http *)
Definition end_trades (n : nat) (g : Z) (more : nat) (r : HttpReply) k : Link :=
  let k := k <| lk_tasks := <[n := TradesWait more]> (lk_tasks k) |> in
  if lk_gen k =? g then
    match decode_success read_trades r with
    | Some rows => send_events [EvBotTrades rows] k <| lk_delivered := lk_delivered k ++ [(g, rows)] |>
    | None => k
    end
  else k.

Definition link_answer (n : nat) (r : HttpReply) k : option Link :=
  if runs k then
    match lk_tasks k !! n with
    | Some (Single req) =>
        Some (send_events (reply_events req r) (k <| lk_tasks := delete n (lk_tasks k) |>))
    | Some (StatusLoop (S more)) =>
        Some (send_events (reply_events GetStatus r) (k <| lk_tasks := <[n := StatusLoop more]> (lk_tasks k) |>))
    | Some (TradesFly g more) => Some (end_trades n g more r k)
    | _ => None
    end
  else None.

(** an input of the window; its commands go into the channel *)
Definition window_input (now : Z) (i : UiInput) k : option Link :=
  '(d, cmds) ← ui_step now i (lk_ui k);
  Some (List.fold_left (fun k cmd => try_send_cmd cmd k) cmds
          (k <| lk_ui := d |> <| lk_inputs := lk_inputs k ++ [(now, i)] |>)).

Inductive LinkStep :=
  | LConnect | LDisconnect | LText (text : string) | LCommand
  | LBegin (n : nat) | LAnswer (n : nat) (r : HttpReply) | LPrice (r : HttpReply)
  | WReceive (now : Z) | WAct (now : Z) (a : UiAction) | WFrame (now : Z).

Definition link_step (s : LinkStep) k : option Link :=
  match s with
  | LConnect => link_connect k
  | LDisconnect => link_disconnect k
  | LText text => link_text text k
  | LCommand => link_command k
  | LBegin n => begin_trades n k
  | LAnswer n r => link_answer n r k
  | LPrice r => when (runs k) (send_events (price_events r) k)
  | WReceive now =>
      match lk_events k with
      | ev :: events => window_input now (Delivered ev) (k <| lk_events := events |>)
      | [] => None
      end
  | WAct now a => window_input now (Acted a) k
  | WFrame now => window_input now Framed k
  end.

Fixpoint link_run (steps : list LinkStep) k : option Link :=
  match steps with [] => Some k | s :: steps => k ← link_step s k; link_run steps k end.

End Answers.
