(* ===== verification/DashRuns.v ===== *)
(** What holds in every run of the dashboard of [DashLink]: the mode switches
    on their way to the server, the fetches of the closed trades, the channels. *)
From S2P Require Import Prelude Text Amounts Features LivePosition Chart Positions Messages Strategy Config Server.
From S2P Require Import DashChart Dash DashView DashControls DashLink.

Local Open Scope string_scope.
Local Open Scope list_scope.
Local Open Scope Z_scope.

Implicit Types (k : Link) (d : Dashboard).

(** * Definitions *)

Definition is_put_mode (t : Task) : bool := match t with Single (PutMode _ _) => true | _ => false end.
Definition is_mode_event (ev : AppEvent) : bool :=
  match ev with EvModeSetOk _ _ | EvModeSetErr _ => true | _ => false end.

(** the mode switches that wait, are with the server, or answered unseen *)
Definition switches_out k : nat :=
  (count is_set_mode (lk_cmds k) + count is_put_mode (lk_tasks k) + count is_mode_event (lk_events k))%nat.

(** the operator asked for the switch *)
Definition switch_ok (inputs : list (Z * UiInput)) (mode : string) (confirm : bool) : Prop :=
  (mode = "demo" /\ confirm = false) \/
  (mode = "live" /\ confirm = true /\
   exists before t after, inputs = before ++ (t, Acted ConfirmLive) :: after /\ typed_live before).

Definition flying (t : Task) : option Z := match t with TradesFly g _ => Some g | _ => None end.
Definition trades_rows (ev : AppEvent) : option (list BotTradeRow) :=
  match ev with EvBotTrades rows => Some rows | _ => None end.

Definition starts (steps : list LinkStep) : Z :=
  Z.of_nat (count (fun s => match s with LBegin _ => true | _ => false end) steps).

(** * Lists *)

#[local] Arguments count : simpl never.

Lemma count_app {A} (f : A -> bool) l1 l2 : count f (l1 ++ l2) = (count f l1 + count f l2)%nat.
Proof. unfold count. by rewrite List.filter_app, length_app. Qed.
Lemma count_cons {A} (f : A -> bool) x l : count f (x :: l) = (Nat.b2n (f x) + count f l)%nat.
Proof. unfold count. cbn. by destruct (f x). Qed.

Lemma split_at {A} (l : list A) n x : l !! n = Some x ->
  exists l1 l2, l = l1 ++ x :: l2 /\ (forall y, <[n := y]> l = l1 ++ y :: l2) /\ delete n l = l1 ++ l2.
Proof.
  intros E. exists (take n l), (drop (S n) l).
  assert (length (take n l) = n) as L by (apply lookup_lt_Some in E; rewrite length_take; lia).
  assert (l = take n l ++ x :: drop (S n) l) as D by (by rewrite take_drop_middle).
  split; [done|]. split.
  - intros y. rewrite D at 1. rewrite insert_app_r_alt by lia. rewrite L, Nat.sub_diag. done.
  - by rewrite delete_take_drop.
Qed.

Section Runs.
Context `{DashJson}.

(** ** What the pieces send *)

Lemma no_mode_event req r : match req with PutMode _ _ => False | _ => True end ->
  count is_mode_event (reply_events req r) = 0%nat.
Proof.
  destruct req; cbn [reply_events]; intros Q; try done; unfold maybe, status_events, put_buy_size_events,
    put_wallets_events; repeat (case_match; try done).
  all: unfold count; cbn; repeat (case_match; try done).
  all: by unfold maybe; repeat case_match.
Qed.
Lemma put_mode_event r : exists ev, put_mode_events r = [ev] /\ is_mode_event ev = true.
Proof.
  destruct r as [e|status text body]; cbn; [by eexists|].
  repeat (case_match; try (by eexists)).
Qed.

Lemma reply_mode_events req r :
  count is_mode_event (reply_events req r) = Nat.b2n (is_put_mode (Single req)).
Proof.
  destruct (is_put_mode (Single req)) eqn:P.
  - destruct req; try done. cbn [reply_events]. destruct (put_mode_event r) as (ev & -> & M).
    unfold count. cbn. by rewrite M.
  - apply no_mode_event. by destruct req.
Qed.

Lemma connect_quiet : count is_put_mode connect_tasks = 0%nat /\ omap flying connect_tasks = [].
Proof. done. Qed.
Lemma message_quiet msg : count is_put_mode (message_tasks msg) = 0%nat /\ omap flying (message_tasks msg) = [].
Proof. unfold message_tasks. destruct msg; try done. by destruct (_ && _). Qed.
Lemma command_tasks cmd :
  count is_put_mode (match command_task cmd with Some t => [t] | None => [] end) = Nat.b2n (is_set_mode cmd) /\
  omap flying (match command_task cmd with Some t => [t] | None => [] end) = [].
Proof. by destruct cmd. Qed.

Lemma no_trades_rows req r : omap trades_rows (reply_events req r) = [].
Proof.
  destruct req; cbn [reply_events]; unfold maybe, status_events, put_buy_size_events, put_wallets_events,
    put_mode_events; repeat (case_match; try done).
  all: cbn; repeat (case_match; try done).
  all: by unfold maybe; repeat case_match.
Qed.

Lemma reply_few req r : (length (reply_events req r) <= 4)%nat.
Proof.
  destruct req; cbn [reply_events]; unfold maybe, status_events, put_buy_size_events, put_wallets_events,
    put_mode_events; repeat (case_match; try (cbn; lia)).
  all: cbn; repeat (case_match; try (cbn; lia)).
  all: unfold maybe; repeat case_match; cbn; lia.
Qed.

(** ** The channel of commands *)

Lemma try_send_fields cmd k :
  lk_ui (try_send_cmd cmd k) = lk_ui k /\ lk_events (try_send_cmd cmd k) = lk_events k /\
  lk_tasks (try_send_cmd cmd k) = lk_tasks k /\ lk_gen (try_send_cmd cmd k) = lk_gen k /\
  lk_inputs (try_send_cmd cmd k) = lk_inputs k /\ lk_delivered (try_send_cmd cmd k) = lk_delivered k.
Proof. unfold try_send_cmd. by destruct (_ && _). Qed.

Definition sent cmds k : Link := List.fold_left (fun k cmd => try_send_cmd cmd k) cmds k.

Lemma sent_cons cmd cmds k : sent (cmd :: cmds) k = sent cmds (try_send_cmd cmd k).
Proof. done. Qed.

Lemma sent_fields cmds : forall k,
  lk_ui (sent cmds k) = lk_ui k /\ lk_events (sent cmds k) = lk_events k /\
  lk_tasks (sent cmds k) = lk_tasks k /\ lk_gen (sent cmds k) = lk_gen k /\
  lk_inputs (sent cmds k) = lk_inputs k /\ lk_delivered (sent cmds k) = lk_delivered k.
Proof.
  induction cmds as [|cmd cmds IH]; intros k; [done|]. rewrite sent_cons.
  destruct (IH (try_send_cmd cmd k)) as (-> & -> & -> & -> & -> & ->). apply try_send_fields.
Qed.

(** the commands sent are some of those given, behind the waiting ones *)
Lemma sent_cmds cmds : forall k, (length (lk_cmds k) <= CMD_CHANNEL)%nat ->
  exists l, lk_cmds (sent cmds k) = lk_cmds k ++ l /\ sublist l cmds /\
    (length (lk_cmds (sent cmds k)) <= CMD_CHANNEL)%nat.
Proof.
  induction cmds as [|cmd cmds IH]; intros k L.
  - exists []. cbn. by rewrite app_nil_r.
  - rewrite sent_cons. unfold try_send_cmd. destruct (lk_alive k && _) eqn:F.
    + apply andb_true_iff in F as [_ F%Nat.ltb_lt].
      destruct (IH (k <| lk_cmds := lk_cmds k ++ [cmd] |>)) as (l & E & S & B).
      { cbn. rewrite length_app. cbn. lia. }
      exists (cmd :: l). rewrite E in *. cbn in *. rewrite <- app_assoc in *.
      split; [done|]. by split; [constructor|].
    + destruct (IH k L) as (l & E & S & B). exists l. by split; [|split; [constructor|]].
Qed.

Lemma sublist_count {A} (f : A -> bool) l1 l2 : sublist l1 l2 -> (count f l1 <= count f l2)%nat.
Proof. induction 1; rewrite ?count_cons; lia. Qed.

(** ** Mode switches *)

Record switch_inv k : Prop := {
  sw_run : exists cmds, ui_run (lk_inputs k) dashboard_new = Some (lk_ui k, cmds);
  sw_one : (switches_out k <= Nat.b2n (cp_mode_saving (ds_config_panel (lk_ui k))))%nat;
  sw_cmds : forall m c, SetMode m c ∈ lk_cmds k -> switch_ok (lk_inputs k) m c;
  sw_tasks : forall m c, Single (PutMode m c) ∈ lk_tasks k -> switch_ok (lk_inputs k) m c;
  sw_room : (length (lk_cmds k) <= CMD_CHANNEL)%nat /\ (length (lk_events k) <= EVENT_CHANNEL + 3)%nat
}.

(** what a step of the thread may do to them *)
Record thread_step k k' : Prop := {
  ts_ui : lk_ui k' = lk_ui k;
  ts_inputs : lk_inputs k' = lk_inputs k;
  ts_out : (switches_out k' <= switches_out k)%nat;
  ts_cmds : lk_cmds k' = lk_cmds k \/ exists cmd, lk_cmds k = cmd :: lk_cmds k';
  ts_tasks : forall m c, Single (PutMode m c) ∈ lk_tasks k' ->
    Single (PutMode m c) ∈ lk_tasks k \/ SetMode m c ∈ lk_cmds k;
  ts_room : lk_events k' = lk_events k \/
    (length (lk_events k) < EVENT_CHANNEL)%nat /\ (length (lk_events k') <= length (lk_events k) + 4)%nat
}.

Lemma thread_inv k k' : thread_step k k' -> switch_inv k -> switch_inv k'.
Proof.
  intros T I. constructor.
  - rewrite (ts_ui _ _ T), (ts_inputs _ _ T). apply I.
  - rewrite (ts_ui _ _ T). pose proof (ts_out _ _ T). pose proof (sw_one _ I). lia.
  - rewrite (ts_inputs _ _ T). intros m c M. apply (sw_cmds _ I).
    destruct (ts_cmds _ _ T) as [E|[cmd E]]; [by rewrite <- E|]. rewrite E. by right.
  - rewrite (ts_inputs _ _ T). intros m c M. destruct (ts_tasks _ _ T _ _ M); [by apply (sw_tasks _ I)|by apply (sw_cmds _ I)].
  - destruct (sw_room _ I) as [B1 B2]. split.
    + destruct (ts_cmds _ _ T) as [E|[cmd E]]; [by rewrite E|]. rewrite E in B1. cbn in B1. lia.
    + destruct (ts_room _ _ T) as [E|[L1 L2]]; [by rewrite E|]. unfold EVENT_CHANNEL in *. lia.
Qed.

Lemma runs_room k : runs k = true -> (length (lk_events k) < EVENT_CHANNEL)%nat.
Proof. by intros [_ ?%Nat.ltb_lt]%andb_true_iff. Qed.

(** a step that adds tasks and events without mode switches *)
Lemma quiet_thread k tasks events :
  runs k = true -> count is_put_mode tasks = 0%nat -> count is_mode_event events = 0%nat ->
  (length events <= 4)%nat -> thread_step k (send_events events (spawn tasks k)).
Proof.
  intros R T E L. constructor; try done.
  - unfold switches_out. cbn. rewrite !count_app. lia.
  - by left.
  - cbn. intros m c [M|M]%elem_of_app; [by left|]. exfalso.
    unfold count in T. apply length_zero_iff_nil in T. by apply (filter_nil_none _ _ T) in M.
  - right. split; [by apply runs_room|]. cbn. rewrite length_app. lia.
Qed.

Lemma events_thread k events :
  runs k = true -> count is_mode_event events = 0%nat -> (length events <= 4)%nat ->
  thread_step k (send_events events k).
Proof.
  intros R E L. destruct (quiet_thread k [] events R) as [? ? O ? T ?]; [done..|].
  unfold switches_out in O. cbn in *. rewrite app_nil_r in *. by constructor.
Qed.

Lemma connected_thread k k' b : thread_step k k' -> thread_step k (k' <| lk_connected := b |>).
Proof. by intros [? ? O ? T ?]; constructor. Qed.

Lemma task_split k n t : lk_tasks k !! n = Some t ->
  exists l1 l2, lk_tasks k = l1 ++ t :: l2 /\ (forall y, <[n := y]> (lk_tasks k) = l1 ++ y :: l2) /\
                delete n (lk_tasks k) = l1 ++ l2.
Proof. apply split_at. Qed.

(** replacing a task by one without a request *)
Lemma replace_thread k n t t' events :
  lk_tasks k !! n = Some t -> runs k = true -> is_put_mode t' = false -> count is_mode_event events = 0%nat ->
  (length events <= 4)%nat ->
  thread_step k (send_events events (k <| lk_tasks := <[n := t']> (lk_tasks k) |>)).
Proof.
  intros Hn R T E L. destruct (task_split k n t Hn) as (l1 & l2 & D & I & _). constructor; try done.
  - unfold switches_out. cbn. rewrite I, D, !count_app, !count_cons, T. cbn. lia.
  - by left.
  - cbn. rewrite I, D. intros m c M. left. apply elem_of_app in M as [M|M]; apply elem_of_app; [by left|].
    apply elem_of_cons in M as [<-|M]; [done|]. right. by right.
  - right. split; [by apply runs_room|]. cbn. rewrite length_app. lia.
Qed.

(** an answered request leaves *)
Lemma answered_thread k n req r : lk_tasks k !! n = Some (Single req) -> runs k = true ->
  thread_step k (send_events (reply_events req r) (k <| lk_tasks := delete n (lk_tasks k) |>)).
Proof.
  intros Hn R. destruct (task_split k n _ Hn) as (l1 & l2 & D & _ & X). constructor; try done.
  - unfold switches_out. cbn. rewrite X, D, !count_app, count_cons, reply_mode_events. lia.
  - by left.
  - cbn. rewrite X, D. intros m c M. left. apply elem_of_app in M as [M|M]; apply elem_of_app; [by left|].
    right. by right.
  - right. split; [by apply runs_room|]. cbn. rewrite length_app. pose proof (reply_few req r). lia.
Qed.

Lemma command_thread k cmd cmds : lk_cmds k = cmd :: cmds ->
  thread_step k (spawn (match command_task cmd with Some t => [t] | None => [] end) (k <| lk_cmds := cmds |>)).
Proof.
  intros E. destruct (command_tasks cmd) as [C _]. constructor; try done.
  - unfold switches_out. cbn. rewrite E, !count_app, count_cons, C. lia.
  - right. by exists cmd.
  - cbn. intros m c [M|M]%elem_of_app; [by left|]. right. rewrite E.
    destruct cmd; try (by apply elem_of_nil in M); apply list_elem_of_singleton in M; simplify_eq. by left.
  - by left.
Qed.

Lemma end_trades_thread k n g more r : lk_tasks k !! n = Some (TradesFly g more) -> runs k = true ->
  thread_step k (end_trades n g more r k).
Proof.
  intros Hn R. unfold end_trades. pose proof (replace_thread k n _ (TradesWait more) [] Hn R) as Q.
  assert (thread_step k (k <| lk_tasks := <[n := TradesWait more]> (lk_tasks k) |>)) as Q0.
  { destruct (Q ltac:(done) ltac:(done) ltac:(cbn; lia)) as [? ? O C T B]. unfold switches_out in O. cbn in *.
    rewrite app_nil_r in *. by constructor. }
  cbn. destruct (_ =? g); [|done]. destruct (decode_success _ _) as [rows|]; [|done].
  pose proof (replace_thread k n _ (TradesWait more) [EvBotTrades rows] Hn R) as [? ? O C T B];
    [done|done|cbn; lia|]. by constructor.
Qed.

Lemma switch_ok_later inputs x m c : switch_ok inputs m c -> switch_ok (inputs ++ [x]) m c.
Proof.
  intros [D|(-> & -> & before & t & after & -> & T)]; [by left|right]. split; [done|]. split; [done|].
  exists before, t, (after ++ [x]). by rewrite <- app_assoc.
Qed.

Lemma window_inv now i k k0 k' :
  lk_ui k0 = lk_ui k -> lk_inputs k0 = lk_inputs k -> lk_cmds k0 = lk_cmds k -> lk_tasks k0 = lk_tasks k ->
  count is_mode_event (lk_events k) = (Nat.b2n (is_mode_reply i) + count is_mode_event (lk_events k0))%nat ->
  (length (lk_events k0) <= length (lk_events k))%nat ->
  window_input now i k0 = Some k' -> switch_inv k -> switch_inv k'.
Proof.
  intros U I C T Ev Le E K. unfold window_input in E. rewrite U in E.
  destruct (ui_step now i (lk_ui k)) as [[d cmds]|] eqn:S; [|done]. cbn in E. injection E as <-.
  pose proof (ui_step_spec _ _ _ _ _ S) as P. destruct (sw_run _ K) as [all R].
  destruct (run_spec _ _ _ R) as [A _]. destruct (sw_room _ K) as [B1 B2].
  set (k1 := k0 <| lk_ui := d |> <| lk_inputs := lk_inputs k0 ++ [(now, i)] |>).
  change (switch_inv (sent cmds k1)).
  assert (lk_ui k1 = d /\ lk_inputs k1 = lk_inputs k ++ [(now, i)] /\ lk_cmds k1 = lk_cmds k /\
    lk_tasks k1 = lk_tasks k /\ lk_events k1 = lk_events k0) as (U1 & I1 & C1 & T1 & E1) by (cbn; by rewrite I).
  clearbody k1. destruct (sent_fields cmds k1) as (FU & FE & FT & _ & FI & _).
  destruct (sent_cmds cmds k1) as (l & L & Sub & B); [by rewrite C1|].
  rewrite U1 in FU. rewrite I1 in FI. rewrite C1 in L. rewrite T1 in FT. rewrite E1 in FE.
  constructor; rewrite ?FU, ?FI, ?FT, ?FE, ?L.
  - exists (all ++ cmds). rewrite ui_run_snoc, R. cbn. by rewrite S.
  - unfold switches_out. rewrite L, FT, FE, count_app. pose proof (sw_one _ K) as O. unfold switches_out in O.
    pose proof (sublist_count is_set_mode _ _ Sub). pose proof (st_saving _ _ _ _ P). lia.
  - intros m c [M|M]%elem_of_app; [by apply switch_ok_later, (sw_cmds _ K)|].
    assert (SetMode m c ∈ cmds) as M' by (by eapply sublist_subseteq).
    destruct (st_mode _ _ _ _ P _ _ M') as [(-> & -> & _)|(-> & -> & -> & AL)]; [by left|right].
    split; [done|]. split; [done|]. exists (lk_inputs k), now, []. split; [done|].
    apply armed_live. by rewrite <- A.
  - intros m c M. by apply switch_ok_later, (sw_tasks _ K).
  - rewrite L in B. split; [done|lia].
Qed.

Lemma switch_step s k k' : link_step s k = Some k' -> switch_inv k -> switch_inv k'.
Proof.
  intros E K. destruct s as [| |text| |n|n r|r|now|now a|now]; cbn [link_step] in E.
  - apply when_Some in E as [[R _]%andb_true_iff <-]. eapply thread_inv; [|exact K].
    apply connected_thread. apply quiet_thread; [done..|cbn; lia].
  - apply when_Some in E as [[R _]%andb_true_iff <-]. eapply thread_inv; [|exact K].
    apply connected_thread. apply events_thread; [done..|cbn; lia].
  - unfold link_text in E. destruct (runs k && _) eqn:R; [|done]. apply andb_true_iff in R as [R _].
    unfold on_text in E. destruct (read_ws text) as [msg|]; simplify_eq/=.
    + eapply thread_inv; [|exact K]. destruct (message_quiet msg) as [Q _].
      apply quiet_thread; [done..|cbn; lia].
    + destruct (slice_to _ _); simplify_eq/=; eapply thread_inv; try exact K.
      * apply quiet_thread; [done..|cbn; lia].
      * constructor; [done|done|done|by left|by intros; left|by left].
  - unfold link_command in E. destruct (lk_cmds k) as [|cmd cmds] eqn:C; [done|].
    apply when_Some in E as [_ <-]. eapply thread_inv; [|exact K]. by apply command_thread.
  - unfold begin_trades in E. destruct (lk_tasks k !! n) as [[| |[|more]|]|] eqn:Hn; try done.
    apply when_Some in E as [R <-]. eapply thread_inv; [|exact K].
    destruct (replace_thread k n _ (TradesFly (u64 (lk_gen k + 1)) more) [] Hn R) as [? ? O ? T ?]; [done..|cbn; lia|].
    unfold switches_out in O. cbn in *. rewrite app_nil_r in *. by constructor.
  - unfold link_answer in E. destruct (runs k) eqn:R; [|done].
    destruct (lk_tasks k !! n) as [[req|[|more]|more|g more]|] eqn:Hn; simplify_eq; eapply thread_inv; try exact K.
    + by apply answered_thread.
    + apply (replace_thread k n _ _ _ Hn R); [done|by rewrite reply_mode_events|apply reply_few].
    + by apply end_trades_thread.
  - apply when_Some in E as [R <-]. eapply thread_inv; [|exact K].
    unfold price_events, maybe. case_match; apply events_thread; (done || cbn; lia).
  - destruct (lk_events k) as [|ev evs] eqn:Ev; [done|].
    refine (window_inv now (Delivered ev) k _ k' _ _ _ _ _ _ E K); try done; rewrite Ev; [|cbn; lia].
    rewrite count_cons. by destruct ev.
  - by refine (window_inv now (Acted a) k k k' _ _ _ _ _ _ E K).
  - by refine (window_inv now Framed k k k' _ _ _ _ _ _ E K).
Qed.

Lemma link_new_inv : switch_inv link_new.
Proof.
  constructor.
  - by exists [].
  - unfold switches_out, count. cbn. lia.
  - by intros m c M%elem_of_nil.
  - intros m c M%list_elem_of_singleton. done.
  - cbn. unfold CMD_CHANNEL, EVENT_CHANNEL. lia.
Qed.

Lemma switch_run steps : forall k k', link_run steps k = Some k' -> switch_inv k -> switch_inv k'.
Proof.
  induction steps as [|s steps IH]; intros k k' E K; cbn in E; [by simplify_eq|].
  destruct (link_step s k) as [k1|] eqn:S; [|done]. cbn in E.
  eapply IH; [exact E|]. by eapply switch_step.
Qed.

(** ** The closed trades *)

(** [n] fetches have begun *)
Record trades_inv (n : Z) k : Prop := {
  ti_gen : lk_gen k = n;
  ti_fly : NoDup (omap flying (lk_tasks k));
  ti_out : Forall (fun g => g <= n /\ g ∉ (lk_delivered k).*1) (omap flying (lk_tasks k));
  ti_sorted : StronglySorted Z.lt (lk_delivered k).*1;
  ti_old : Forall (fun g => g <= n) (lk_delivered k).*1;
  ti_shown : exists seen, (lk_delivered k).*2 = seen ++ omap trades_rows (lk_events k) /\
    ds_history (lk_ui k) = default [] (last seen)
}.

Record trades_same k k' : Prop := {
  tm_gen : lk_gen k' = lk_gen k;
  tm_fly : omap flying (lk_tasks k') = omap flying (lk_tasks k);
  tm_delivered : lk_delivered k' = lk_delivered k;
  tm_events : omap trades_rows (lk_events k') = omap trades_rows (lk_events k);
  tm_shown : ds_history (lk_ui k') = ds_history (lk_ui k)
}.

Lemma trades_same_inv n k k' : trades_same k k' -> trades_inv n k -> trades_inv n k'.
Proof. intros [G F D E S] [? ? ? ? ? ?]. constructor; by rewrite ?G, ?F, ?D, ?E, ?S. Qed.

Lemma spawn_same k tasks events :
  omap flying tasks = [] -> omap trades_rows events = [] ->
  trades_same k (send_events events (spawn tasks k)).
Proof. intros T E. constructor; cbn; rewrite ?omap_app, ?T, ?E, ?app_nil_r; done. Qed.

Lemma events_same k events : omap trades_rows events = [] -> trades_same k (send_events events k).
Proof. intros E. constructor; cbn; rewrite ?omap_app, ?E, ?app_nil_r; done. Qed.

Lemma connected_same k k' b : trades_same k k' -> trades_same k (k' <| lk_connected := b |>).
Proof. by intros []; constructor. Qed.

Lemma omap_insert k n t t' : lk_tasks k !! n = Some t -> flying t = flying t' ->
  omap flying (<[n := t']> (lk_tasks k)) = omap flying (lk_tasks k).
Proof.
  intros Hn F. destruct (task_split k n t Hn) as (l1 & l2 & D & I & _). rewrite I, D, !omap_app. cbn.
  by rewrite F.
Qed.

Lemma omap_delete k n t : lk_tasks k !! n = Some t -> flying t = None ->
  omap flying (delete n (lk_tasks k)) = omap flying (lk_tasks k).
Proof.
  intros Hn F. destruct (task_split k n t Hn) as (l1 & l2 & D & _ & X). rewrite X, D, !omap_app. cbn.
  by rewrite F.
Qed.

(** a fetch of the trades takes a fresh number *)
Lemma begin_trades_inv n i k k' : begin_trades i k = Some k' -> 0 <= n -> n + 1 < 2 ^ 64 ->
  trades_inv n k -> trades_inv (n + 1) k'.
Proof.
  unfold begin_trades. destruct (lk_tasks k !! i) as [[| |[|more]|]|] eqn:Hi; try done.
  intros [_ <-]%when_Some N0 N [G F O S L (seen & E & H1)].
  destruct (task_split k i _ Hi) as (l1 & l2 & D & I & _).
  assert (u64 (lk_gen k + 1) = n + 1) as U by (rewrite G; apply wrap_u_small; unfold in_u; lia).
  assert (omap flying (<[i := TradesFly (u64 (lk_gen k + 1)) more]> (lk_tasks k)) ≡ₚ
          n + 1 :: omap flying (lk_tasks k)) as P.
  { rewrite I, D, !omap_app. cbn. rewrite U. by rewrite Permutation_middle. }
  constructor; cbn.
  - done.
  - rewrite P. constructor; [|done]. intros M. rewrite Forall_forall in O. apply O in M. lia.
  - rewrite P. constructor.
    + split; [lia|]. intros M. rewrite Forall_forall in L. apply L in M. lia.
    + eapply Forall_impl; [exact O|]. cbn. intros g [? ?]. split; [lia|done].
  - done.
  - eapply Forall_impl; [exact L|]. cbn. lia.
  - by exists seen.
Qed.

Lemma sorted_snoc_lt l g : StronglySorted Z.lt l -> Forall (fun h => h <= g) l -> g ∉ l ->
  StronglySorted Z.lt (l ++ [g]).
Proof.
  intros S F N. apply StronglySorted_app_2; [|done|repeat constructor].
  intros h h' Hh ->%list_elem_of_singleton. rewrite Forall_forall in F. specialize (F _ Hh).
  assert (h <> g) by (by intros ->). lia.
Qed.

(** a delivered fetch is the newest *)
Lemma end_trades_inv n i g more r k : lk_tasks k !! i = Some (TradesFly g more) ->
  trades_inv n k -> trades_inv n (end_trades i g more r k).
Proof.
  intros Hi [G F O S L (seen & E & H1)]. destruct (task_split k i _ Hi) as (l1 & l2 & D & I & _).
  assert (omap flying (lk_tasks k) ≡ₚ g :: omap flying (<[i := TradesWait more]> (lk_tasks k))) as P.
  { rewrite I, D, !omap_app. cbn. by rewrite Permutation_middle. }
  rewrite P in F, O. inversion F as [|? ? Ng F' Eq]; subst. inversion O as [|? ? [Gl Gd] O']; subst.
  unfold end_trades. cbn. destruct (Z.eqb_spec (lk_gen k) g) as [Eg|_].
  - destruct (decode_success _ _) as [rows|].
    + constructor; cbn; rewrite ?fmap_app; cbn; try done.
      * apply Forall_forall. intros h Hh. rewrite Forall_forall in O'. destruct (O' h Hh) as [? ?].
        split; [done|]. intros [M|M%list_elem_of_singleton]%elem_of_app; [done|]. by subst.
      * rewrite <- Eg in Gd |- *. by apply sorted_snoc_lt.
      * apply Forall_app. split; [done|]. apply Forall_singleton. lia.
      * exists seen. by rewrite omap_app, E, <- app_assoc.
    + constructor; cbn; try done. by exists seen.
  - constructor; cbn; try done. by exists seen.
Qed.

Lemma push_rows_history rows d :
  ds_history (List.fold_left (fun d r => push_tx_log r d) rows d) = ds_history d.
Proof. revert d. induction rows as [|r rows IH]; intros d; [done|]. cbn. by rewrite IH. Qed.

Lemma clear_manual_sell_history m d : ds_history (clear_manual_sell_for_mint m d) = ds_history d.
Proof. unfold clear_manual_sell_for_mint. by repeat case_match. Qed.

Lemma apply_event_history ev d d' cmds : apply_event ev d = Ret (d', cmds) ->
  ds_history d' = default (ds_history d) (trades_rows ev).
Proof.
  intros E. destruct ev as [| |msg| | | |m data| | | | | | |rows| | | | | | |]; cbn [apply_event trades_rows] in E |- *;
    simplify_eq; try done.
  - destruct msg; simplify_eq/=; try done; rewrite ?clear_manual_sell_history; try done.
    case_match; by rewrite ?clear_manual_sell_history.
  - by destruct mode.
  - by destruct (bool_decide _).
  - destruct data; [|by simplify_eq]. destruct (sanitize_chart _); by simplify_eq/=.
  - cbn. by rewrite push_rows_history.
  - cbn. unfold apply_open_positions. by repeat case_match.
Qed.

Lemma ui_act_history now a d d' cmds : ui_act now a d = Some (d', cmds) -> ds_history d' = ds_history d.
Proof.
  intros E. destruct a; cbn in E; unfold chart_dev_stats, close_chart, close_dev_stats, dismiss_alert, select_wallet,
    toggle_config, toggle_pause, fetch_history_chart, config_window, save_buy_size, reload_buy_size, mode_block,
    start_mode_switch, wallets_block, edit_wallets, when in E;
    repeat (case_match; simplify_eq/=; try done).
  all: unfold option_bind, mbind in *; repeat (case_match; simplify_eq/=; try done).
  all: by simplify_eq.
Qed.

Lemma ui_step_history now i d d' cmds : ui_step now i d = Some (d', cmds) ->
  ds_history d' = match i with Delivered ev => default (ds_history d) (trades_rows ev) | _ => ds_history d end.
Proof.
  destruct i as [ev|a|]; cbn.
  - destruct (apply_event ev d) as [[d1 c1]|] eqn:E; [|done]. intros [= -> ->]. by eapply apply_event_history.
  - apply ui_act_history.
  - intros [= <- <-]. unfold expire_copy_flash, poll_http. by repeat case_match.
Qed.
Lemma window_fields now i k k' : window_input now i k = Some k' ->
  exists d cmds, ui_step now i (lk_ui k) = Some (d, cmds) /\ lk_ui k' = d /\ lk_events k' = lk_events k /\
    lk_tasks k' = lk_tasks k /\ lk_gen k' = lk_gen k /\ lk_delivered k' = lk_delivered k.
Proof.
  unfold window_input. destruct (ui_step now i (lk_ui k)) as [[d cmds]|]; [|done]. cbn. intros [= <-].
  destruct (sent_fields cmds (k <| lk_ui := d |> <| lk_inputs := lk_inputs k ++ [(now, i)] |>))
    as (U & E & T & G & _ & D). unfold sent in *. exists d, cmds. rewrite U, E, T, G, D. done.
Qed.

Lemma window_same now i k k' : window_input now i k = Some k' ->
  match i with Delivered _ => False | _ => True end -> trades_same k k'.
Proof.
  intros (d & cmds & S & U & E & T & G & D)%window_fields Q.
  apply ui_step_history in S. constructor; rewrite ?U, ?E, ?T, ?G, ?D; try done. by destruct i.
Qed.

(** a delivered event leaves the queue; rows become the history *)
Lemma receive_inv n now ev evs k k' : lk_events k = ev :: evs ->
  window_input now (Delivered ev) (k <| lk_events := evs |>) = Some k' -> trades_inv n k -> trades_inv n k'.
Proof.
  intros Ev (d & cmds & S & U & E & T & G & D)%window_fields [I1 I2 I3 I4 I5 (seen & I6 & I7)].
  apply ui_step_history in S. cbn in S, E, T, G, D.
  constructor; rewrite ?U, ?E, ?T, ?G, ?D; try done. rewrite S. rewrite Ev in I6. cbn in I6.
  destruct (trades_rows ev) as [rows|]; cbn.
  - exists (seen ++ [rows]). rewrite I6, last_snoc, <- app_assoc. done.
  - by exists seen.
Qed.

Definition begins (s : LinkStep) : Z := match s with LBegin _ => 1 | _ => 0 end.

Lemma trades_step n s k k' : link_step s k = Some k' -> 0 <= n -> n + begins s < 2 ^ 64 ->
  trades_inv n k -> trades_inv (n + begins s) k'.
Proof.
  intros E N0 N K. destruct s as [| |text| |i|i r|r|now|now a|now]; cbn [begins]; rewrite ?Z.add_0_r; cbn [link_step] in E.
  - apply when_Some in E as [_ <-]. eapply trades_same_inv; [|exact K]. by apply connected_same, spawn_same.
  - apply when_Some in E as [_ <-]. eapply trades_same_inv; [|exact K]. by apply connected_same, events_same.
  - unfold link_text in E. destruct (_ && _); [|done]. unfold on_text in E.
    destruct (read_ws text) as [msg|]; simplify_eq/=.
    + eapply trades_same_inv; [|exact K]. apply spawn_same; [apply message_quiet|done].
    + destruct (slice_to _ _); simplify_eq/=; eapply trades_same_inv; try exact K; [by apply spawn_same|done].
  - unfold link_command in E. destruct (lk_cmds k) as [|cmd cmds]; [done|]. apply when_Some in E as [_ <-].
    eapply trades_same_inv; [|exact K]. destruct (command_tasks cmd) as [_ Q].
    constructor; cbn; rewrite ?omap_app, ?Q, ?app_nil_r; done.
  - by eapply begin_trades_inv.
  - unfold link_answer in E. destruct (runs k); [|done].
    destruct (lk_tasks k !! i) as [[req|[|more]|more|g more]|] eqn:Hi; simplify_eq.
    + eapply trades_same_inv; [|exact K]. constructor; cbn; try done; [by eapply omap_delete|].
      by rewrite omap_app, no_trades_rows, app_nil_r.
    + eapply trades_same_inv; [|exact K]. constructor; cbn; try done; [by eapply omap_insert|].
      rewrite omap_app. change (_ ++ omap _ _) with (omap trades_rows (lk_events k) ++ omap trades_rows (reply_events GetStatus r)).
      by rewrite no_trades_rows, app_nil_r.
    + by apply end_trades_inv.
  - apply when_Some in E as [_ <-]. eapply trades_same_inv; [|exact K]. apply events_same.
    unfold price_events, maybe. by case_match.
  - destruct (lk_events k) as [|ev evs] eqn:Ev; [done|]. by eapply receive_inv.
  - eapply trades_same_inv; [|exact K]. by eapply window_same.
  - eapply trades_same_inv; [|exact K]. by eapply window_same.
Qed.

Lemma trades_new : trades_inv 0 link_new.
Proof. constructor; try by constructor. by exists []. Qed.

Lemma trades_run steps : forall n k k', link_run steps k = Some k' -> 0 <= n -> n + starts steps < 2 ^ 64 ->
  trades_inv n k -> trades_inv (n + starts steps) k'.
Proof.
  induction steps as [|s steps IH]; intros n k k' E N0 N K; cbn in E.
  - simplify_eq. by rewrite Z.add_0_r.
  - destruct (link_step s k) as [k1|] eqn:S; [|done]. cbn in E.
    assert (starts (s :: steps) = begins s + starts steps) as A.
    { unfold starts. rewrite count_cons, Nat2Z.inj_add. by destruct s. }
    assert (0 <= starts steps) as P by (unfold starts; lia).
    assert (0 <= begins s <= 1) as B by (destruct s; cbn; lia).
    rewrite A in *. rewrite Z.add_assoc. eapply IH; [exact E|lia|lia|].
    eapply trades_step; [exact S|done|lia|exact K].
Qed.

(** * Properties *)

(** C2: In every run of the dashboard, whatever the server answers, the socket
    does and the channels drop: at most one mode switch waits, is with the
    server or is answered unseen, and then the panel shows it as being saved; a
    switch to live, waiting or sent, is one the operator confirmed by typing
    LIVE, so the server changes the file to live only for such a one; and
    neither channel outgrows its capacity but for one blocked send. *)
Theorem mode_switch_end_to_end steps k : link_run steps link_new = Some k ->
  (switches_out k <= Nat.b2n (cp_mode_saving (ds_config_panel (lk_ui k))))%nat /\
  (forall m c, SetMode m c ∈ lk_cmds k -> switch_ok (lk_inputs k) m c) /\
  (forall m c current content err t old restart,
     Single (PutMode m c) ∈ lk_tasks k ->
     fst (put_mode current (Some m) (if c then Some "yes" else None) content err) = ModeOk t old restart ->
     t = m /\ switch_ok (lk_inputs k) m c) /\
  (length (lk_cmds k) <= CMD_CHANNEL)%nat /\ (length (lk_events k) <= EVENT_CHANNEL + 3)%nat.
Proof.
  intros R. destruct (switch_run _ _ _ R link_new_inv) as [_ O C T B].
  split_and!; [done|done| |apply B|apply B].
  intros m c current content err t old restart M E. pose proof (T _ _ M) as K. split; [|done].
  unfold put_mode in E. destruct K as [(-> & ->)|(-> & -> & _)]; cbn in E; repeat (case_match; simplify_eq/=; try done).
Qed.

(** C38: In every run with fewer than 2^64 fetches the closed trades are
    delivered in the order in which they were asked for, each answer at most
    once and never after a newer request began; the history is the newest one
    the window has seen, and the ones it has not seen wait in order. *)
Theorem history_is_newest steps k :
  link_run steps link_new = Some k -> starts steps < 2 ^ 64 ->
  StronglySorted Z.lt (lk_delivered k).*1 /\ Forall (fun g => g <= starts steps) (lk_delivered k).*1 /\
  (forall n g more r k', lk_tasks k !! n = Some (TradesFly g more) -> link_answer n r k = Some k' ->
     lk_delivered k' <> lk_delivered k -> g = starts steps) /\
  exists seen, (lk_delivered k).*2 = seen ++ omap trades_rows (lk_events k) /\
    ds_history (lk_ui k) = default [] (last seen).
Proof.
  intros R N. destruct (trades_run _ 0 _ _ R ltac:(lia) ltac:(lia) trades_new) as [G _ _ S L E].
  rewrite Z.add_0_l in *. split_and!; [done|done| |done].
  intros n g more r k' Hn A D. unfold link_answer in A. destruct (runs k); [|done]. rewrite Hn in A.
  injection A as <-. unfold end_trades in D. cbn in D. destruct (Z.eqb_spec (lk_gen k) g) as [<-|_]; done.
Qed.

End Runs.

(** ** Runs *)

Definition demo_json : DashJson := {|
  read_ws := fun _ => None; read_status := fun _ => None; read_pubkey := fun _ => None;
  read_buy_size := fun _ => None; read_mode_info := fun _ => None; read_mode_set := fun _ => None;
  read_tx_log := fun _ => None; read_trades := fun s => if String.eqb s "[]" then Some [] else None;
  read_positions := fun _ => None; read_tier_stats := fun _ => None; read_dev_stats := fun _ => None;
  read_chart := fun _ => None; read_wallets := fun _ => None; read_ticker := fun _ => None |}.
#[local] Existing Instance demo_json.

Definition live_steps : list LinkStep :=
  [WFrame 0; LConnect; WAct 1 ToggleConfig; WAct 2 SwitchToLive; WAct 3 (EditConfirm "LIVE"); WAct 4 ConfirmLive]
    ++ replicate 8 LCommand.

Definition live_link : Link := Eval vm_compute in default link_new (link_run live_steps link_new).

Lemma mode_switch_end_to_end_witness : link_run live_steps link_new = Some live_link /\
  Single (PutMode "live" true) ∈ lk_tasks live_link /\ switch_ok (lk_inputs live_link) "live" true.
Proof.
  assert (link_run live_steps link_new = Some live_link) as R by (vm_compute; reflexivity).
  assert (Single (PutMode "live" true) ∈ lk_tasks live_link) as M.
  { apply (list_elem_of_lookup_2 _ 14). reflexivity. }
  split; [exact R|]. split; [exact M|].
  destruct (mode_switch_end_to_end live_steps live_link R) as (_ & _ & T & _).
  exact (proj2 (T _ _ "demo" (Ok "") None "live" "demo" true M eq_refl)).
Defined.

Definition fetch_steps : list LinkStep := [LBegin 0; LAnswer 0 (Replied 200 "200 OK" (Some "[]")); WReceive 5].

Lemma history_is_newest_witness : exists k, link_run fetch_steps link_new = Some k /\
  (lk_delivered k).*1 = [1] /\ Forall (fun g => g <= starts fetch_steps) (lk_delivered k).*1.
Proof.
  assert (exists k, link_run fetch_steps link_new = Some k /\ (lk_delivered k).*1 = [1]) as (k & R & D).
  { eexists. split; vm_compute; reflexivity. }
  exists k. split; [exact R|]. split; [exact D|].
  exact (proj1 (proj2 (history_is_newest fetch_steps k R ltac:(reflexivity)))).
Defined.

(** Polls fill the channel while there is no connection; a switch to demo
    clicked then is dropped, and the panel says it is saving it for ever. *)
Example full_channel_sticks :
  (fun k => (count is_set_mode (lk_cmds k), cp_mode_saving (ds_config_panel (lk_ui k)))) <$>
    link_run (((fun i => WFrame (15000 * Z.of_nat i)) <$> seq 0 22)
                ++ [WAct 400000 ToggleConfig; WAct 400001 SwitchToDemo]) link_new = Some (0%nat, true).
Proof. vm_compute. reflexivity. Qed.

(** An answer is thrown away as soon as a newer fetch begins, even when that
    one fails. *)
Example failed_newest_discards :
  (fun k => (lk_delivered k, ds_history (lk_ui k))) <$>
    link_run [LConnect; LBegin 0; LBegin 1; LAnswer 1 (NoReply "timeout");
              LAnswer 0 (Replied 200 "200 OK" (Some "[]"))] link_new = Some ([], []).
Proof. vm_compute. reflexivity. Qed.

(** An unreadable message with a character across byte 200 ends the thread;
    the window goes on showing a connection. *)
Example unreadable_text_kills :
  (fun k => (lk_alive k, ds_connected (lk_ui k))) <$>
    link_run [LConnect; LText (Nat.iter 199 (fun s => "x" +:+ s) "é"); WReceive 1] link_new = Some (false, true).
Proof. vm_compute. reflexivity. Qed.
