(* ===== verification/Mirror.v ===== *)
(** The dashboard mirrors the manager: the events the handlers of [Manager]
    publish, carried as JSON to the window of [Dash], keep its open table equal
    to the open positions.  The JSON pass is the interface [Wire]. *)
From Stdlib Require Import Ascii.
From S2P Require Import Prelude Text Amounts Pump Swarm Features Config Strategy Registry.
From S2P Require Import Learning LivePosition ExitEngine Positions Tick Blacklist Brokers Wallets.
From S2P Require Import Messages Manager System Runs Chart DashChart Dash.

Local Open Scope string_scope.
Local Open Scope list_scope.
Local Open Scope Z_scope.

(** * Definitions *)

(** an event that neither opens nor closes a row of the table *)
Definition neutral_ws (e : WsFeedMessage) : Prop :=
  match e with WsPositionOpen _ _ _ _ _ | WsPositionClose _ _ _ => False | _ => True end.
Definition neutral_msg (m : WsMsg) : Prop :=
  match m with MsgPositionOpen _ _ _ _ _ | MsgPositionClose _ _ _ => False | _ => True end.

(** What a message is after [serde_json] has written and read it: the tag and
    the strings stay, a float is [json_f64] of itself, and a text that does not
    read back ([NaN] and the infinities are written as null) is lost.  A close
    carries no number, so it always arrives. *)
Class Wire := {
  wire : WsFeedMessage -> option WsMsg;
  wire_row : OpenPositionWire -> option UiOpenPosition;
  json_f64 : f64 -> f64;
  wire_open a w r e t m : wire (WsPositionOpen a w r e t) = Some m ->
    exists r' t', m = MsgPositionOpen a w r' (json_f64 e) t';
  wire_close a w r : exists r', wire (WsPositionClose a w r) = Some (MsgPositionClose a w r');
  wire_neutral e m : neutral_ws e -> wire e = Some m -> neutral_msg m;
  wire_row_fields row u : wire_row row = Some u ->
    uo_address u = ow_address row /\ uo_wallet_id u = ow_wallet_id row /\
    uo_enter_mcap u = json_f64 (ow_enter_mcap row)
}.

Section Mirror.
Context {B P : Type} `{PP : !Pool P, BB : !Broker B P} `{WW : !Wire}.
Context (show_address : Address -> string) (to_json : V3TapeWire -> string).
Context (boxed : PumpPool Bonding -> P).
Implicit Types (s : Manager B P) (pos : Position P) (d : Dashboard) (es : list (Effect P)).

(** what a row shows of a position: its entry, and that it has a reason *)
Definition face pos : f64 * bool :=
  (amount_to_float (ps_enter_mcap pos), bool_decide (is_Some (ps_open_reason pos))).
Abbreviation Faces := (gmap PositionKey (f64 * bool)).
Definition faces s : Faces := face <$> mg_positions s.

Definition show_key (k : PositionKey) : string := pos_map_key (show_address (pk_mint k)) (pk_wallet_id k).

(** the table has exactly one row for each position, under its key, with its
    address, its wallet and its entry market cap *)
Definition mirrors (v : Faces) d : Prop :=
  (forall k f, v !! k = Some f -> f.2 = true /\ exists up, ds_open d !! show_key k = Some up /\
     up_address up = show_address (pk_mint k) /\ up_wallet_id up = pk_wallet_id k /\
     up_enter_mcap up = json_f64 f.1) /\
  (forall key up, ds_open d !! key = Some up -> exists k, key = show_key k /\ is_Some (v !! k)).

Definition published es : list WsFeedMessage :=
  omap (fun e => match e with Event ev => Some ev | _ => None end) es.

(** the messages that arrive are applied in order *)
Definition watch es d : Dashboard :=
  List.fold_left (fun d m => (apply_msg m d).1) (omap wire (published es)) d.

(** no opening is lost on the way *)
Definition openings_arrive es : Prop :=
  Forall (fun ev => match ev with WsPositionOpen _ _ _ _ _ => is_Some (wire ev) | _ => True end) (published es).

(** messages with the clocks of their handlers *)
Fixpoint manage (msgs : list (Z * Z * PositionMessage P)) s : outcome (Manager B P * list (Effect P)) :=
  match msgs with
  | [] => Ret (s, [])
  | (now, instant, msg) :: rest =>
      r ← handle show_address to_json boxed now instant msg s;
      r' ← manage rest r.1.2;
      Ret (r'.1, r.2 ++ r'.2)
  end.

(** a sell names a number of percent *)
Definition sane (msg : PositionMessage P) : Prop :=
  match msg with ExecuteSell _ _ percent _ => PrimFloat.is_nan percent = false | _ => True end.

(** * Neutral handlers *)

Definition neutral_fx (e : Effect P) : Prop := match e with Event ev => neutral_ws ev | _ => True end.

Definition neutral {X} (m : M B P X) : Prop := forall s x s' es,
  m s = Ret (x, s', es) -> faces s' = faces s /\ Forall neutral_fx es.

Lemma neutral_bind {X Y} (m : M B P X) (k : X -> M B P Y) :
  neutral m -> (forall x, neutral (k x)) -> neutral (m ≫= k).
Proof.
  intros Hm Hk s y s' es E. apply bind_inv in E as (x & s1 & e1 & e2 & E1 & E2 & ->).
  destruct (Hm _ _ _ _ E1) as [F1 N1], (Hk _ _ _ _ _ E2) as [F2 N2].
  split; [by rewrite F2|by apply Forall_app_2].
Qed.

Lemma neutral_nop {X} (m : M B P X) :
  (forall s x s' es, m s = Ret (x, s', es) -> s' = s /\ es = []) -> neutral m.
Proof. intros HN s x s' es E. by destruct (HN _ _ _ _ E) as [-> ->]. Qed.

Lemma neutral_ret {X} (x : X) : neutral (mret x : M B P X).
Proof. apply neutral_nop. by intros s x' s' es [= <- <- <-]. Qed.
Lemma neutral_gets {X} (f : Manager B P -> X) : neutral (gets f).
Proof. apply neutral_nop. by intros s x' s' es [= <- <- <-]. Qed.
Lemma neutral_lift {X} (o : outcome X) : neutral (lift o).
Proof. apply neutral_nop. intros s x' s' es. unfold lift. destruct o; [|done]. by intros [= <- <- <-]. Qed.

Lemma neutral_tell (e : Effect P) : neutral_fx e -> neutral (tell e).
Proof. intros H s x s' es [= <- <- <-]. split; [done|by apply Forall_singleton]. Qed.

Lemma neutral_modify (f : Manager B P -> Manager B P) : (forall s, faces (f s) = faces s) -> neutral (modify f).
Proof. intros H s x s' es [= <- <- <-]. by split. Qed.

Lemma neutral_when (b : bool) (m : M B P unit) : neutral m -> neutral (when b m).
Proof. intros H. destruct b; [exact H|apply neutral_ret]. Qed.

Lemma neutral_for_each {X} (l : list X) (f : X -> M B P unit) : (forall x, neutral (f x)) -> neutral (for_each l f).
Proof.
  intros H. induction l as [|x l IH]; cbn; [apply neutral_ret|].
  apply neutral_bind; [apply H|intros _; exact IH].
Qed.

Lemma faces_put k pos s p0 : mg_positions s !! k = Some p0 -> face pos = face p0 ->
  faces (s <| mg_positions := <[k := pos]> (mg_positions s) |>) = faces s.
Proof.
  intros E F. unfold faces. cbn. rewrite fmap_insert, F. apply insert_id. by rewrite lookup_fmap, E.
Qed.

Lemma faces_pool m pool s : faces (update_positions_pool_for_mint m pool s) = faces s.
Proof.
  unfold faces, update_positions_pool_for_mint. cbn. apply map_eq. intros k.
  rewrite !lookup_fmap, map_lookup_imap. destruct (mg_positions s !! k); [|done]. cbn. by case_match.
Qed.

Lemma faces_finalize m s : faces (maybe_finalize_closed_mint m s) = faces s.
Proof. unfold maybe_finalize_closed_mint. by case_match. Qed.

Lemma neutral_update_each keys f :
  (forall pos pos', f pos = Ret pos' -> face pos' = face pos) -> neutral (update_each keys f).
Proof.
  intros Hf. apply neutral_for_each. intros k s x s' es.
  unfold mbind, M_bind, gets. destruct (mg_positions s !! k) as [pos|] eqn:E.
  - unfold lift. destruct (f pos) as [pos'|] eqn:Ef; [|done].
    unfold put_position, modify. intros [= <- <- <-]. split; [|by constructor]. eapply faces_put; [exact E|]. by apply Hf.
  - by intros [= <- <- <-].
Qed.

Create HintDb neutral.
#[local] Hint Resolve neutral_ret neutral_gets neutral_lift faces_pool faces_finalize : neutral.

Ltac neutral_step :=
  first
  [ solve [eauto with neutral]
  | apply neutral_bind; [|intros ?]
  | apply neutral_tell; exact I
  | apply neutral_when
  | apply neutral_for_each; intros ?
  | apply neutral_modify; intros ?; solve [eauto with neutral | reflexivity]
  | progress case_match ].
Ltac neutral_auto := repeat neutral_step.

Lemma neutral_broadcast : neutral broadcast_wallet_balances.
Proof. unfold broadcast_wallet_balances. neutral_auto. Qed.
Lemma neutral_refresh_balance w : neutral (refresh_cached_balance w).
Proof. unfold refresh_cached_balance. neutral_auto. Qed.
Lemma neutral_wallet_sell w i m qty pool c : neutral (wallet_sell w i m qty pool c).
Proof. unfold wallet_sell. neutral_auto. Qed.
Lemma neutral_live m : neutral (spawn_live_snapshot_refresh m).
Proof. unfold spawn_live_snapshot_refresh. neutral_auto. Qed.
Lemma neutral_latency n : neutral (latency n).
Proof. unfold latency. neutral_auto. Qed.
Lemma neutral_log_skipped m dev st re pl ts : neutral (log_skipped show_address m dev st re pl ts).
Proof. unfold log_skipped. neutral_auto. Qed.
Lemma neutral_forget k : neutral (forget_wallet_buy k).
Proof. unfold forget_wallet_buy. neutral_auto. Qed.
#[local] Hint Resolve neutral_broadcast neutral_refresh_balance neutral_wallet_sell neutral_live
  neutral_latency neutral_log_skipped neutral_forget : neutral.

Lemma neutral_skip_unbuyable m w ctx st re e now : neutral (skip_unbuyable show_address m w ctx st re e now).
Proof. unfold skip_unbuyable. neutral_auto. apply neutral_modify. intros s. by case_match. Qed.

Lemma neutral_abort w m a rc pool sp sn dev now :
  neutral (abort_buy_after_fill_mcap_spike show_address to_json w m a rc pool sp sn dev now).
Proof. unfold abort_buy_after_fill_mcap_spike. neutral_auto. Qed.

Lemma neutral_update_pool pool : neutral (handle_update_pool pool).
Proof. unfold handle_update_pool. neutral_auto. Qed.
Lemma neutral_update_bucket b : neutral (handle_update_token_bucket boxed b).
Proof. unfold handle_update_token_bucket. neutral_auto. Qed.

Lemma neutral_exit_mcap m mcap j : neutral (handle_apply_exit_mcap_refresh m mcap j).
Proof.
  unfold handle_apply_exit_mcap_refresh. apply neutral_bind; [apply neutral_gets|]. intros keys.
  apply neutral_update_each. intros pos pos'. unfold apply_exit_mcap. destruct j; [|by intros [= <-]].
  destruct (pool_mcap_sol _); [|done]. by intros [= <-].
Qed.

Lemma neutral_apply_live now m live : neutral (handle_apply_live_snapshot now m live).
Proof.
  unfold handle_apply_live_snapshot. apply neutral_bind; [apply neutral_gets|]. intros keys.
  apply neutral_bind; [apply neutral_gets|]. intros cfg.
  apply neutral_update_each. intros pos pos'. unfold apply_live. cbv zeta.
  destruct (pnl _) as [profit|]; [|done].
  cbn -[maybe_upgrade_runner live_metrics_from_snapshot transition_position_phase calculate_live_score face].
  destruct (maybe_upgrade_runner _ _ _ _ _) as [profile hold]. intros [= <-]. by destruct (negb _).
Qed.

Lemma neutral_initiate pool a tier ctx now : neutral (handle_initiate_buy show_address pool a tier ctx now).
Proof. unfold handle_initiate_buy, start_fanout. neutral_auto. Qed.

Lemma neutral_execute_buy m w a ctx : neutral (handle_execute_buy m w a ctx).
Proof. unfold handle_execute_buy. neutral_auto. Qed.

Lemma neutral_live_due instant iv m : neutral (refresh_live_if_due instant iv m).
Proof. unfold refresh_live_if_due. neutral_auto. Qed.
(** * The table *)

(** ** Keys *)

Definition not_colon (c : ascii) : bool := negb (Ascii.eqb c ":"%char).

Lemma colon_split a b w w' :
  str_all not_colon a = true -> str_all not_colon b = true ->
  a +:+ ":" +:+ w = b +:+ ":" +:+ w' -> a = b /\ w = w'.
Proof.
  revert b. induction a as [|c a IH]; intros [|c' b] Ha Hb E; cbn in Ha, Hb;
    rewrite ?append_nil, ?append_cons, ?append_nil in E.
  - by injection E as ->.
  - injection E as <- _. by cbn in Hb.
  - injection E as -> _. by cbn in Ha.
  - apply andb_true_iff in Ha as [_ Ha], Hb as [_ Hb]. injection E as -> E.
    destruct (IH _ Ha Hb E) as [-> ->]. done.
Qed.

Context (show_inj : Inj (=) (=) show_address).
Context (show_plain : forall a, str_all not_colon (show_address a) = true).

Lemma show_key_inj k k' : show_key k = show_key k' -> k = k'.
Proof.
  destruct k as [m w], k' as [m' w']. unfold show_key, pos_map_key. cbn.
  intros [E ->]%colon_split; [|done..]. by apply show_inj in E as ->.
Qed.

(** ** Messages *)

Lemma mirrors_open v d d' : ds_open d' = ds_open d -> mirrors v d -> mirrors v d'.
Proof. unfold mirrors. by intros ->. Qed.

Lemma ds_open_clear m d : ds_open (clear_manual_sell_for_mint m d) = ds_open d.
Proof. unfold clear_manual_sell_for_mint. by repeat case_match. Qed.

Lemma mirrors_update v d key f :
  (forall up, up_address (f up) = up_address up /\ up_wallet_id (f up) = up_wallet_id up /\
              up_enter_mcap (f up) = up_enter_mcap up) ->
  mirrors v d -> mirrors v (d <| ds_open := alter f key (ds_open d) |>).
Proof.
  intros F [M1 M2]. split; cbn.
  - intros k g E. destruct (M1 k g E) as (R & up & U & A & W & T). split; [done|].
    destruct (decide (key = show_key k)) as [->|N].
    + exists (f up). rewrite lookup_alter_eq, U. destruct (F up) as (-> & -> & ->). done.
    + exists up. rewrite lookup_alter_ne by done. done.
  - intros key' up U. destruct (decide (key = key')) as [->|N].
    + rewrite lookup_alter_eq in U. destruct (ds_open d !! key') as [up0|] eqn:E; [|done]. by eapply M2.
    + rewrite lookup_alter_ne in U by done. by eapply M2.
Qed.

Lemma neutral_apply m v d : neutral_msg m -> mirrors v d -> mirrors v (apply_msg m d).1.
Proof.
  destruct m; cbn [neutral_msg]; intros N M; try done; cbn [apply_msg fst].
  - apply mirrors_update; [|done]. intros up. by repeat case_match.
  - eapply mirrors_open; [|exact M]. change (ds_open (push_tx_log ?r ?x)) with (ds_open x).
    destruct (_ && _); [apply ds_open_clear|done].
Qed.

Lemma watch_app es1 es2 d : watch (es1 ++ es2) d = watch es2 (watch es1 d).
Proof. unfold watch, published. by rewrite !omap_app, fold_left_app. Qed.

Lemma openings_app es1 es2 : openings_arrive (es1 ++ es2) <-> openings_arrive es1 /\ openings_arrive es2.
Proof. unfold openings_arrive, published. by rewrite omap_app, Forall_app. Qed.

Lemma watch_event ev d :
  watch [Event ev] d = match wire ev with Some m => (apply_msg m d).1 | None => d end.
Proof. unfold watch, published. cbn. by destruct (wire ev). Qed.

Lemma neutral_watch es v : Forall neutral_fx es -> forall d, mirrors v d -> mirrors v (watch es d).
Proof.
  induction 1 as [|e es N _ IH]; intros d M; [done|].
  change (e :: es) with ([e] ++ es). rewrite watch_app. apply IH.
  destruct e as [ev| | |]; try done. rewrite watch_event. destruct (wire ev) as [m|] eqn:E; [|done].
  apply neutral_apply; [|done]. by eapply wire_neutral.
Qed.

Lemma open_watch k e r t v d :
  is_Some (wire (WsPositionOpen (show_address (pk_mint k)) (pk_wallet_id k) r e t)) -> mirrors v d ->
  mirrors (<[k := (e, true)]> v)
    (watch [Event (WsPositionOpen (show_address (pk_mint k)) (pk_wallet_id k) r e t)] d).
Proof.
  intros [m Hm] [M1 M2]. rewrite watch_event, Hm. destruct (wire_open _ _ _ _ _ _ Hm) as (r' & t' & ->).
  cbn [apply_msg fst]. fold (show_key k). split; cbn.
  - intros k' f E. destruct (decide (k = k')) as [<-|N].
    + rewrite lookup_insert_eq in E. injection E as <-. split; [done|]. eexists. by rewrite lookup_insert_eq.
    + rewrite lookup_insert_ne in E by done. destruct (M1 _ _ E) as (R & up & U & Q). split; [done|].
      exists up. rewrite lookup_insert_ne by (by intros ?%show_key_inj). done.
  - intros key up. destruct (decide (show_key k = key)) as [<-|N].
    + intros _. exists k. by rewrite lookup_insert_eq.
    + rewrite lookup_insert_ne by done. intros U. destruct (M2 _ _ U) as (k' & -> & S).
      exists k'. split; [done|]. rewrite lookup_insert_ne; [done|]. by intros ->.
Qed.

Lemma close_watch k r v d : mirrors v d ->
  mirrors (delete k v) (watch [Event (WsPositionClose (show_address (pk_mint k)) (pk_wallet_id k) r)] d).
Proof.
  intros [M1 M2]. rewrite watch_event.
  destruct (wire_close (show_address (pk_mint k)) (pk_wallet_id k) r) as (r' & ->).
  cbn [apply_msg fst]. fold (show_key k). split; cbn; rewrite ds_open_clear.
  - intros k' f [N E]%lookup_delete_Some. destruct (M1 _ _ E) as (R & up & U & Q). split; [done|].
    exists up. rewrite lookup_delete_ne by (by intros ?%show_key_inj). done.
  - intros key up [N U]%lookup_delete_Some. destruct (M2 _ _ U) as (k' & -> & S).
    exists k'. split; [done|]. rewrite lookup_delete_ne; [done|]. by intros ->.
Qed.

(** ** Handlers that keep the table in step *)

Definition tracks {X} (m : M B P X) : Prop := forall s x s' es,
  m s = Ret (x, s', es) -> openings_arrive es -> forall d, mirrors (faces s) d -> mirrors (faces s') (watch es d).

Lemma tracks_neutral {X} (m : M B P X) : neutral m -> tracks m.
Proof. intros N s x s' es E _ d M. destruct (N _ _ _ _ E) as [-> F]. by apply neutral_watch. Qed.

Lemma tracks_bind {X Y} (m : M B P X) (k : X -> M B P Y) :
  tracks m -> (forall x, tracks (k x)) -> tracks (m ≫= k).
Proof.
  intros Hm Hk s y s' es E. apply bind_inv in E as (x & s1 & e1 & e2 & E1 & E2 & ->).
  intros [A1 A2]%openings_app d M. rewrite watch_app. eapply Hk; [exact E2|done|]. by eapply Hm.
Qed.

Lemma tracks_for_each {X} (l : list X) (f : X -> M B P unit) : (forall x, tracks (f x)) -> tracks (for_each l f).
Proof.
  intros F. induction l as [|x l IH]; cbn; [apply tracks_neutral, neutral_ret|].
  apply tracks_bind; [apply F|intros _; exact IH].
Qed.

(** a program that changes no face and publishes one event besides neutral ones *)
Definition publishes {X} (ev : WsFeedMessage) (m : M B P X) : Prop := forall s x s' es,
  m s = Ret (x, s', es) -> faces s' = faces s /\
  exists e1 e2, es = e1 ++ Event ev :: e2 /\ Forall neutral_fx e1 /\ Forall neutral_fx e2.

Lemma publishes_tell ev : publishes ev (tell (Event ev)).
Proof. intros s x s' es [= <- <- <-]. split; [done|]. exists [], []. by repeat constructor. Qed.

Lemma publishes_later {X Y} ev (m : M B P X) (k : X -> M B P Y) :
  neutral m -> (forall x, publishes ev (k x)) -> publishes ev (m ≫= k).
Proof.
  intros N Q s y s' es E. apply bind_inv in E as (x & s1 & e1 & e2 & E1 & E2 & ->).
  destruct (N _ _ _ _ E1) as [F1 N1], (Q _ _ _ _ _ E2) as (F2 & e3 & e4 & -> & N3 & N4).
  split; [by rewrite F2|]. exists (e1 ++ e3), e4. by rewrite <- app_assoc; split_and!; [|apply Forall_app_2|].
Qed.

Lemma publishes_first {X Y} ev (m : M B P X) (k : X -> M B P Y) :
  publishes ev m -> (forall x, neutral (k x)) -> publishes ev (m ≫= k).
Proof.
  intros Q N s y s' es E. apply bind_inv in E as (x & s1 & e1 & e2 & E1 & E2 & ->).
  destruct (N _ _ _ _ _ E2) as [F1 N1], (Q _ _ _ _ E1) as (F2 & e3 & e4 & -> & N3 & N4).
  split; [by rewrite F1|]. exists e3, (e4 ++ e2). by rewrite <- app_assoc; split_and!; [| |apply Forall_app_2].
Qed.

Lemma publishes_watch ev e1 e2 (v v' : Faces) :
  (forall d, mirrors v d -> mirrors v' (watch [Event ev] d)) ->
  Forall neutral_fx e1 -> Forall neutral_fx e2 ->
  forall d, mirrors v d -> mirrors v' (watch (e1 ++ Event ev :: e2) d).
Proof.
  intros W N1 N2 d M. change (Event ev :: e2) with ([Event (P := P) ev] ++ e2). rewrite !watch_app.
  by apply neutral_watch, W, neutral_watch.
Qed.

(** ** Opening *)

Lemma build_position_reason cfg m w a ctx pool rc now pos :
  build_position cfg m w a ctx pool rc now = Ret pos -> is_Some (ps_open_reason pos).
Proof.
  unfold build_position. cbv zeta. destruct (position_new _ _ _ _ _) as [p0|]; [|done].
  unfold mbind, outcome_bind. destruct (resolve_entry_profile _ _ _ _) as [pr hold].
  unfold push_exit_mcap_tick. intros [= <-]. repeat case_match; cbn; eauto.
Qed.

Lemma faces_insert k pos s :
  faces (s <| mg_positions := <[k := pos]> (mg_positions s) |>) = <[k := face pos]> (faces s).
Proof. unfold faces. cbn. by rewrite fmap_insert. Qed.

Lemma faces_delete k s :
  faces (s <| mg_positions := delete k (mg_positions s) |>) = delete k (faces s).
Proof. unfold faces. cbn. by rewrite fmap_delete. Qed.

Lemma tracks_open m w a ctx pool v rc now : tracks (open_position show_address m w a ctx pool v rc now).
Proof.
  unfold open_position. apply tracks_bind; [apply tracks_neutral, neutral_gets|]. intros cfg.
  intros s x s' es E A d HM.
  destruct (build_position cfg m w a ctx pool rc now) as [pos|] eqn:Eb; [|done]. rewrite bind_lift in E.
  apply build_position_reason in Eb.
  apply bind_inv in E as (u1 & s1 & e1 & e2 & E1 & E2 & ->). destruct (neutral_live _ _ _ _ _ E1) as [F1 N1].
  unfold put_position in E2. rewrite bind_modify in E2.
  set (ev := WsPositionOpen _ _ _ _ _) in E2.
  assert (publishes ev (refresh_cached_balance w ;; broadcast_wallet_balances ;; tell (Event ev) : M B P unit)) as Q.
  { apply publishes_later; [apply neutral_refresh_balance|]. intros _.
    apply publishes_later; [apply neutral_broadcast|]. intros _. apply publishes_tell. }
  destruct (Q _ _ _ _ E2) as (F2 & e3 & e4 & -> & N3 & N4).
  rewrite F2, faces_insert, F1. rewrite watch_app. apply publishes_watch with (v := faces s); [|done..|].
  - intros d' M'. replace (face pos) with (amount_to_float (ps_enter_mcap pos), true).
    + apply (open_watch (pos_key m w)); [|done].
      apply openings_app in A as [_ A]. apply openings_app in A as [_ A].
      unfold openings_arrive, published in A. cbn in A. by apply Forall_cons in A as [A _].
    + unfold face. f_equal. symmetry. by apply bool_decide_eq_true.
  - by apply neutral_watch.
Qed.

Lemma tracks_buy_result m w a ctx pool md v res now :
  tracks (apply_buy_result show_address to_json m w a ctx pool md v res now).
Proof.
  unfold apply_buy_result. cbv zeta. destruct res as [rc|e].
  - apply tracks_bind; [apply tracks_neutral, neutral_latency|]. intros _.
    apply tracks_bind; [apply tracks_neutral, neutral_forget|]. intros _.
    apply tracks_bind; [apply tracks_neutral, neutral_gets|]. intros cfg.
    apply tracks_bind.
    + case_match; apply tracks_neutral; [apply neutral_abort|apply neutral_ret].
    + intros [|]; [apply tracks_neutral, neutral_ret|apply tracks_open].
  - case_match; [apply tracks_neutral, neutral_skip_unbuyable|].
    case_match; [apply tracks_neutral, neutral_skip_unbuyable|]. apply tracks_neutral. neutral_auto.
Qed.

(** ** Closing *)

Lemma publishes_close m w reason q pos now :
  publishes (WsPositionClose (show_address m) w reason)
    (close_position show_address to_json m w reason q pos now : M B P unit).
Proof.
  unfold close_position. destruct (close_pnl pos q) as [pnl_sol pnl_pct].
  repeat (apply publishes_later; [neutral_auto; apply neutral_modify; intros s; unfold close_quarantine; by case_match|intros ?]).
  apply publishes_first; [apply publishes_tell|]. intros _. neutral_auto.
Qed.

(** what is left of a sold position has the position's face *)
Lemma sell_failed_face m w md pct reason q e pos now s x s' es :
  sell_failed show_address m w md pct reason q e pos now s = Ret (x, s', es) ->
  faces s' = <[pos_key m w := face pos]> (faces s) /\ Forall neutral_fx es.
Proof.
  unfold sell_failed. intros E.
  apply bind_inv in E as (u1 & s1 & e1 & e2 & E1 & E & ->).
  apply bind_inv in E as (u2 & s2 & e3 & e4 & E2 & E & ->).
  assert (faces s1 = faces s /\ Forall neutral_fx e1) as [F1 N1].
  { revert E1. apply neutral_when. by apply neutral_tell. }
  injection E2 as <- <- <-. injection E as <- <- <-. split.
  - rewrite faces_insert, F1. f_equal. unfold release_position. by case_match.
  - apply Forall_app_2; [done|]. by repeat constructor.
Qed.

Lemma sell_confirmed_face m w md pct reason q r pos now s x s' es : PrimFloat.is_nan pct = false ->
  sell_confirmed show_address to_json m w md pct reason q r pos now s = Ret (x, s', es) ->
  if (100 <=? pct)%float
  then faces s' = faces s /\
       exists e1 e2, es = e1 ++ Event (WsPositionClose (show_address m) w reason) :: e2 /\
         Forall neutral_fx e1 /\ Forall neutral_fx e2
  else faces s' = <[pos_key m w := face pos]> (faces s) /\ Forall neutral_fx es.
Proof.
  intros NN. unfold sell_confirmed. cbv zeta. intros E. destruct (100 <=? pct)%float eqn:F.
  - assert ((pct <? 100)%float = false) as F' by f64_order. rewrite F' in E. cbn [when] in E.
    revert E. apply publishes_later; [by apply neutral_tell|]. intros _.
    apply publishes_later; [apply neutral_ret|]. intros _.
    apply publishes_later; [apply neutral_refresh_balance|]. intros _.
    apply publishes_later; [apply neutral_broadcast|]. intros _. apply publishes_close.
  - assert ((pct <? 100)%float = true) as F' by f64_order. rewrite F' in E. cbn [when] in E.
    apply bind_inv in E as (u1 & s1 & e1 & e2 & [= <- <- <-] & E & ->).
    unfold put_position in E. rewrite bind_modify in E.
    match type of E with ?prog _ = _ => assert (neutral prog) as N end.
    { apply neutral_bind; [apply neutral_refresh_balance|]. intros _.
      apply neutral_bind; [apply neutral_broadcast|]. intros _. apply neutral_ret. }
    destruct (N _ _ _ _ E) as [-> N2]. rewrite faces_insert. split; [done|]. by constructor.
Qed.

Lemma tracks_execute_sell m w pct reason now : PrimFloat.is_nan pct = false ->
  tracks (handle_execute_sell show_address to_json m w pct reason now).
Proof.
  intros NN s x s' es. unfold handle_execute_sell. cbv zeta. rewrite !bind_gets.
  destruct (wallet_get _ _) as [wh|]; [|by apply (tracks_neutral (mret tt)), neutral_ret].
  destruct (mg_positions s !! pos_key m w) as [pos|] eqn:Hk; [|by apply (tracks_neutral (mret tt)), neutral_ret].
  rewrite bind_modify, bind_gets. set (s1 := s <| mg_positions := _ |>).
  assert (faces s1 = delete (pos_key m w) (faces s)) as F1 by apply faces_delete.
  assert (faces s !! pos_key m w = Some (face pos)) as Fk by (unfold faces; by rewrite lookup_fmap, Hk).
  clearbody s1. intros E A d HM.
  apply bind_inv in E as (q & s2 & e1 & e2 & E1 & E & ->).
  apply bind_inv in E as (r & s3 & e3 & e4 & E2 & E & ->).
  destruct (neutral_lift _ _ _ _ _ E1) as [F2 N1], (neutral_wallet_sell _ _ _ _ _ _ _ _ _ _ E2) as [F3 N2].
  rewrite F1 in F2. rewrite F2 in F3. rewrite !watch_app.
  assert (mirrors (faces s) (watch e3 (watch e1 d))) as HM' by (by apply neutral_watch, neutral_watch).
  destruct r as [r|e].
  - pose proof (sell_confirmed_face _ _ _ _ _ _ _ _ _ _ _ _ _ NN E) as K.
    destruct (100 <=? pct)%float; rewrite F3 in K.
    + destruct K as (-> & e5 & e6 & -> & N5 & N6). eapply publishes_watch; [|done..|exact HM'].
      intros d' M'. by apply (close_watch (pos_key m w)).
    + destruct K as [-> N5]. rewrite insert_delete_id by done. by apply neutral_watch.
  - apply sell_failed_face in E as [-> N5]. rewrite F3, insert_delete_id by done. by apply neutral_watch.
Qed.

Lemma tracks_abandon_one k : tracks (abandon_one show_address (pk_mint k) k).
Proof.
  intros s x s' es E A d HM. unfold abandon_one in E. rewrite !bind_modify in E. injection E as <- <- <-.
  match goal with |- mirrors (faces ?s1) _ => assert (faces s1 = delete k (faces s)) as -> by apply faces_delete end.
  by apply close_watch.
Qed.

Lemma tracks_abandon m w : tracks (handle_abandon_position show_address m w).
Proof.
  intros s. unfold handle_abandon_position. rewrite bind_gets.
  set (keys := List.filter _ _). assert (Forall (fun k => pk_mint k = m) keys) as F.
  { apply Forall_forall. intros k I. apply list_elem_of_In, filter_In in I as [I _].
    unfold mint_keys in I. apply filter_In in I as [_ I]. by apply bool_decide_eq_true in I. }
  clearbody keys. revert s.
  enough (tracks (for_each keys (abandon_one show_address m))) as T.
  { intros s. eapply tracks_bind; [exact T|]. intros _. apply tracks_neutral, neutral_modify, faces_finalize. }
  induction F as [|k l <- _ IH]; cbn [for_each]; [apply tracks_neutral, neutral_ret|].
  apply tracks_bind; [apply tracks_abandon_one|intros _; exact IH].
Qed.

(** ** The tick *)

Lemma tick_position_face cfg b now pos t : tick_position cfg b now pos = Ret t -> face (to_pos t) = face pos.
Proof.
  intros E. destruct (ps_is_closing pos) eqn:C.
  - unfold tick_position in E. rewrite C in E. by injection E as <-.
  - destruct (tick_sell_protocol_step _ _ _ _ _ E C) as [Q _]. unfold entry_state in Q. unfold face.
    assert (ps_enter_mcap (to_pos t) = ps_enter_mcap pos /\ ps_open_reason (to_pos t) = ps_open_reason pos)
      as [-> ->] by (split; congruence). done.
Qed.

Lemma process_each_neutral cfg rpc now l : forall s acts s' es,
  (forall k pos, (k, pos) ∈ l -> faces s !! k = Some (face pos)) ->
  process_each show_address cfg rpc now l s = Ret (acts, s', es) -> faces s' = faces s /\ Forall neutral_fx es.
Proof.
  induction l as [|[k pos] l IH]; intros s acts s' es L E; cbn [process_each] in E; [by injection E as <- <- <-|].
  apply bind_inv in E as (a1 & s1 & e1 & e2 & E1 & E & ->).
  apply bind_inv in E as (a2 & s2 & e3 & e4 & E2 & E & ->). injection E as <- <- <-. rewrite app_nil_r.
  assert (faces s1 = faces s /\ Forall neutral_fx e1) as [F1 N1].
  { unfold process_position in E1. destruct (tick_position cfg rpc now pos) as [t|] eqn:Et; [|done].
    rewrite bind_lift in E1. unfold put_position in E1. rewrite bind_modify in E1.
    match type of E1 with ?prog _ = _ => assert (neutral prog) as N by neutral_auto end.
    destruct (N _ _ _ _ E1) as [-> ?]. split; [|done]. rewrite faces_insert, (tick_position_face _ _ _ _ _ Et).
    apply insert_id, L. by left. }
  destruct (IH s1 _ _ _ ltac:(intros k' p' I; rewrite F1; apply L; by right) E2) as [F2 N2].
  split; [by rewrite F2|by apply Forall_app_2].
Qed.

Lemma neutral_tick now instant : neutral (handle_tick show_address now instant).
Proof.
  unfold handle_tick. apply neutral_bind; [apply neutral_gets|]. intros cfg.
  apply neutral_bind; [apply neutral_gets|]. intros mints.
  apply neutral_bind; [apply neutral_when, neutral_for_each; intros m; apply neutral_live_due|]. intros _.
  unfold process_positions. apply neutral_bind; [apply neutral_gets|]. intros cfg'.
  apply neutral_bind; [apply neutral_gets|]. intros rpc. intros s x s' es. rewrite bind_gets. intros E.
  apply bind_inv in E as (acts & s1 & e1 & e2 & E1 & E & ->).
  apply process_each_neutral in E1 as [F1 N1].
  - match type of E with ?prog _ = _ => assert (neutral prog) as N end.
    { apply neutral_bind; [apply neutral_for_each; intros [k a]; by apply neutral_tell|]. intros _.
      apply neutral_modify. intros s0. by case_match. }
    destruct (N _ _ _ _ E) as [-> N2]. split; [done|by apply Forall_app_2].
  - intros k pos I%elem_of_map_to_list. unfold faces. by rewrite lookup_fmap, I.
Qed.

(** ** Runs *)

Lemma handle_tracks now instant msg : sane msg ->
  tracks (handle show_address to_json boxed now instant msg).
Proof.
  intros S. destruct msg; cbn [handle];
    try (apply tracks_neutral; first [apply neutral_update_pool | apply neutral_update_bucket
      | apply neutral_apply_live | apply neutral_initiate | apply neutral_execute_buy | apply neutral_tick
      | apply neutral_exit_mcap
      | solve [unfold handle_set_paused, handle_clear_pending_mint, handle_get_pnl, handle_get_open_positions; neutral_auto]]).
  - apply tracks_buy_result.
  - by apply tracks_execute_sell.
  - apply tracks_abandon.
Qed.

Lemma manage_tracks msgs : Forall (fun x => sane x.2) msgs -> forall s s' es,
  manage msgs s = Ret (s', es) -> openings_arrive es ->
  forall d, mirrors (faces s) d -> mirrors (faces s') (watch es d).
Proof.
  induction 1 as [|[[now instant] msg] msgs S _ IH]; intros s s' es E A d HM; cbn [manage] in E.
  { by injection E as <- <-. }
  destruct (handle _ _ _ _ _ _ s) as [[[u s1] e1]|] eqn:E1; [|done]. cbn in E.
  destruct (manage msgs s1) as [[s2 e2]|] eqn:E2; [|done]. injection E as <- <-. cbn in *.
  apply openings_app in A as [A1 A2]. rewrite watch_app. eapply IH; [exact E2|done|].
  by eapply (handle_tracks now instant msg S).
Qed.

(** ** The snapshot *)

Definition row_of (kp : PositionKey * Position P) (u : UiOpenPosition) : Prop :=
  uo_address u = show_address (pk_mint kp.1) /\ uo_wallet_id u = pk_wallet_id kp.1 /\
  uo_enter_mcap u = json_f64 (amount_to_float (ps_enter_mcap kp.2)).

Lemma snapshot_rows l : forall wires rows urows,
  Forall (fun kp : PositionKey * Position P => is_Some (ps_open_reason kp.2)) l ->
  mapM (position_wire show_address) l = Ret wires -> mjoin wires = rows -> mapM wire_row rows = Some urows ->
  Forall2 row_of l urows.
Proof.
  induction l as [|[k pos] l IH]; intros wires rows urows R E J U.
  { cbn in E. injection E as <-. cbn in J. subst rows. cbn in U. by injection U as <-. }
  inversion R as [|? ? [r Hr] R']; subst. cbn in E, Hr. rewrite Hr in E.
  destruct (display_market_cap pos) as [mc|]; [|done]. cbn in E. destruct (pnl pos) as [p|]; [|done]. cbn in E.
  destruct (mapM _ l) as [ws|] eqn:El; [|done]. cbn in E. injection E as <-. cbn in U.
  destruct (wire_row _) as [u|] eqn:Eu; [|done]. cbn in U.
  destruct (mapM wire_row _) as [us|] eqn:Es; [|done]. cbn in U. injection U as <-.
  constructor; [|by eapply IH]. apply wire_row_fields in Eu. cbn in Eu. done.
Qed.

Lemma insert_rows_other rows : forall (m : gmap string UiPosition) key, key ∉ row_key <$> rows ->
  List.fold_left (fun open w => <[row_key w := wire_to_position w]> open) rows m !! key = m !! key.
Proof.
  induction rows as [|u rows IH]; intros m key N; [done|]. cbn in *.
  apply not_elem_of_cons in N as [N1 N2]. rewrite IH by done. by rewrite lookup_insert_ne.
Qed.

Lemma insert_rows_in rows : forall (m : gmap string UiPosition) u, NoDup (row_key <$> rows) -> u ∈ rows ->
  List.fold_left (fun open w => <[row_key w := wire_to_position w]> open) rows m !! row_key u
    = Some (wire_to_position u).
Proof.
  induction rows as [|w rows IH]; intros m u N I; [by apply elem_of_nil in I|]. cbn in *.
  apply NoDup_cons in N as [N1 N2]. apply elem_of_cons in I as [->|I]; [|by apply IH].
  rewrite insert_rows_other by done. by rewrite lookup_insert_eq.
Qed.

Lemma snapshot_open rows d : ds_open (apply_open_positions rows d) =
  List.fold_left (fun open w => <[row_key w := wire_to_position w]> open) rows
    (filter (fun kp : string * UiPosition => kp.1 ∈ (list_to_set (row_key <$> rows) : gset string)) (ds_open d)).
Proof. unfold apply_open_positions. cbn. by repeat case_match. Qed.

Lemma snapshot_mirrors s wires urows d :
  Forall (fun kp => is_Some (ps_open_reason kp.2)) (map_to_list (mg_positions s)) ->
  mapM (position_wire show_address) (map_to_list (mg_positions s)) = Ret wires ->
  mapM wire_row (mjoin wires) = Some urows ->
  mirrors (faces s) (apply_open_positions urows d).
Proof.
  intros R E U. pose proof (snapshot_rows _ _ _ _ R E eq_refl U) as F.
  assert (row_key <$> urows = show_key <$> (map_to_list (mg_positions s)).*1) as K.
  { clear -F. induction F as [|[k p] u l us (A & W & _) _ IH]; [done|]. cbn. rewrite IH.
    unfold row_key, show_key. by rewrite A, W. }
  assert (NoDup (row_key <$> urows)) as N.
  { rewrite K. apply NoDup_fmap_2; [intros ? ?; apply show_key_inj|apply NoDup_fst_map_to_list]. }
  unfold mirrors. rewrite snapshot_open. split.
  - intros k f Hf. unfold faces in Hf. rewrite lookup_fmap in Hf.
    destruct (mg_positions s !! k) as [pos|] eqn:Hk; [|done]. injection Hf as <-.
    apply elem_of_map_to_list in Hk. rewrite Forall_forall in R. pose proof (R _ Hk) as Rk. cbn in Rk.
    split; [by apply bool_decide_eq_true|]. apply list_elem_of_lookup in Hk as [i Hi].
    destruct (Forall2_lookup_l _ _ _ _ _ F Hi) as (u & Hu & A & W & T). cbn in A, W, T.
    exists (wire_to_position u). assert (show_key k = row_key u) as -> by (unfold row_key, show_key; by rewrite A, W).
    rewrite insert_rows_in by (done || by eapply list_elem_of_lookup_2). done.
  - intros key up H1. destruct (decide (key ∈ row_key <$> urows)) as [I|I].
    + rewrite K in I. apply list_elem_of_fmap in I as (k & -> & I). exists k. split; [done|].
      apply list_elem_of_fmap in I as ([k' pos] & -> & I). apply elem_of_map_to_list in I.
      unfold faces. cbn. by rewrite lookup_fmap, I.
    + rewrite insert_rows_other in H1 by done. apply map_lookup_filter_Some in H1 as [_ I'].
      cbn in I'. by apply elem_of_list_to_set in I'.
Qed.

End Mirror.

(** ** Positions have a reason *)

(** a pass that loses nothing; the reasons of the rows are not looked at *)
Definition ideal_ws (e : WsFeedMessage) : WsMsg :=
  match e with
  | WsPositionOpen a w _ m t => MsgPositionOpen a w UiFromTraderStats m t
  | WsPositionUpdate a w p h m t s => MsgPositionUpdate a w p h m t s
  | WsPositionClose a w r => MsgPositionClose a w r
  | WsBalanceUpdate b => MsgBalanceUpdate b
  | WsWalletBalanceUpdate w b => MsgWalletBalanceUpdate w b
  | WsPausedState p => MsgPausedState p
  | WsTxEvent e => MsgTxEvent {|
      tl_wallet_id := tx_wallet_id e; tl_kind := match tx_kind e with TxBuy => UiBuy | TxSell => UiSell end;
      tl_mint := tx_mint e; tl_signature := tx_signature e; tl_amount_sol := tx_amount_sol e;
      tl_amount_sol_estimated := tx_amount_sol_estimated e; tl_status := tx_status e; tl_reason := tx_reason e;
      tl_mode := tx_mode e; tl_ts := tx_ts e; tl_v3_tape := tx_v3_tape e;
      tl_time_kill_detail := tx_time_kill_detail e; tl_pnl_mcap_pct := tx_pnl_mcap_pct e;
      tl_pnl_sol_pct := tx_pnl_sol_pct e |}
  | WsManualSellRequired w m r dt h ts => MsgManualSellRequired w m r dt h ts
  end.

Definition ideal_row (r : OpenPositionWire) : UiOpenPosition :=
  mkUiOpenPosition (ow_wallet_id r) (ow_address r) UiFromTraderStats (ow_enter_mcap r) (ow_pnl r) (ow_holdings r)
    (ow_market_cap r) (ow_v3_tape r) (ow_time_kill_tier r) (ow_time_kill_after_secs r).

Program Definition ideal_wire : Wire :=
  {| wire := fun e => Some (ideal_ws e); wire_row := fun r => Some (ideal_row r); json_f64 := fun x => x |}.
Next Obligation. cbn. intros a w r e t m [= <-]. by eexists _, _. Qed.
Next Obligation. cbn. intros a w r. by eexists. Qed.
Next Obligation. cbn. intros e m N [= <-]. by destruct e. Qed.
Next Obligation. cbn. by intros row u [= <-]. Qed.

Section Properties.
Context {B P : Type} `{PP : !Pool P, BB : !Broker B P}.
Context (show_address : Address -> string) (to_json : V3TapeWire -> string).
Context (boxed : PumpPool Bonding -> P).
Context (show_inj : Inj (=) (=) show_address).
Context (show_plain : forall a, str_all not_colon (show_address a) = true).
Implicit Types (s : Manager B P) (d : Dashboard) (es : list (Effect P)).

Lemma positions_reasoned msgs s s' es :
  mg_positions s = ∅ -> Forall (fun x => sane x.2) msgs ->
  manage show_address to_json boxed msgs s = Ret (s', es) ->
  Forall (fun kp => is_Some (ps_open_reason kp.2)) (map_to_list (mg_positions s')).
Proof.
  intros E0 S E. pose proof (manage_tracks (WW := ideal_wire) show_address to_json boxed show_inj show_plain
    msgs S s s' es E) as T.
  destruct (T ltac:(unfold openings_arrive; apply Forall_forall; intros [] _; done || by eexists) dashboard_new) as [M1 _].
  - unfold faces. rewrite E0. split; [done|]. intros key up. cbn. by rewrite lookup_empty.
  - apply Forall_forall. intros [k pos] I%elem_of_map_to_list. unfold faces in M1.
    destruct (M1 k (face pos)) as [R _]; [by rewrite lookup_fmap, I|]. by apply bool_decide_eq_true in R.
Qed.

(** * Properties *)

Context `{WW : !Wire}.

(** the dashboard's table, whatever it was, after the answer to a query of the
    open positions and the events that follow it *)
Definition resynced (rows : list UiOpenPosition) es d : Dashboard := watch es (apply_open_positions rows d).

Lemma resync_mirrors s0 msgs1 s1 es1 rows urows s1' msgs2 s2 es2 d :
  mg_positions s0 = ∅ -> Forall (fun x => sane x.2) (msgs1 ++ msgs2) ->
  manage show_address to_json boxed msgs1 s0 = Ret (s1, es1) ->
  handle_get_open_positions show_address s1 = Ret (tt, s1', [Answer (OpenPositionsReply rows)]) ->
  mapM wire_row rows = Some urows ->
  manage show_address to_json boxed msgs2 s1' = Ret (s2, es2) -> openings_arrive es2 ->
  mirrors show_address (faces s2) (resynced urows es2 d).
Proof.
  intros E0 [S1 S2]%Forall_app R1 Q U R2 A. pose proof (positions_reasoned _ _ _ _ E0 S1 R1) as Re.
  unfold handle_get_open_positions in Q. rewrite bind_gets in Q.
  destruct (mapM _ _) as [wires|] eqn:W; [|done]. rewrite bind_lift in Q. injection Q as <- <-.
  eapply manage_tracks; [done|done|exact S2|exact R2|done|].
  by eapply snapshot_mirrors.
Qed.

(** C1: Wherever the dashboard's table is, after lost messages or a restart:
    one answer of the manager to the query of the open positions brings it in
    step, and from then on the events of every handler keep it there as long as
    they arrive in order: one row for each position the manager has, under its
    mint and wallet, with its entry market cap, and no other. *)
Theorem dashboard_mirrors_manager s0 msgs1 s1 es1 rows urows s1' msgs2 s2 es2 d :
  mg_positions s0 = ∅ -> Forall (fun x => sane x.2) (msgs1 ++ msgs2) ->
  manage show_address to_json boxed msgs1 s0 = Ret (s1, es1) ->
  handle_get_open_positions show_address s1 = Ret (tt, s1', [Answer (OpenPositionsReply rows)]) ->
  mapM wire_row rows = Some urows ->
  manage show_address to_json boxed msgs2 s1' = Ret (s2, es2) -> openings_arrive es2 ->
  mirrors show_address (faces s2) (resynced urows es2 d).
Proof. apply resync_mirrors. Qed.
End Properties.

(** ** A run *)

Definition show_ones (a : Address) : string := Nat.iter (N.to_nat a) (String "1"%char) "".

Lemma show_ones_length a : String.length (show_ones a) = N.to_nat a.
Proof. unfold show_ones. induction (N.to_nat a) as [|n IH]; [done|]. cbn. by f_equal. Qed.
Lemma show_ones_inj : Inj (=) (=) show_ones.
Proof.
  intros a b E. assert (N.to_nat a = N.to_nat b) as L by (by rewrite <- !show_ones_length, E). lia.
Qed.
Lemma show_ones_plain a : str_all not_colon (show_ones a) = true.
Proof. unfold show_ones. by induction (N.to_nat a). Qed.

Definition mirror_buy (m : Address) : Z * Z * PositionMessage (PumpPool Bonding) :=
  (1700000100, 0, BuyCompleted m "wallet_1" 0.5%float demo_ctx demo_pump "demo" None
     (Ok (mkBuyReceipt 0.5%float 1000%float None None))).

Abbreviation mirror_manage := (manage show_ones demo_json (fun p : PumpPool Bonding => p)).
Abbreviation mirror_first := [mirror_buy 1%N; mirror_buy 2%N].
Abbreviation mirror_then := [(1700000101, 0, TickMsg);
  (1700000102, 0, ExecuteSell 1%N "wallet_1" 100%float "TP"); (1700000103, 0, AbandonPosition 1%N None);
  mirror_buy 3%N].


Definition mirror_mid : Manager MockBroker (PumpPool Bonding) * list (Effect (PumpPool Bonding)) :=
  ltac:(returned (mirror_manage mirror_first demo_manager)).
Definition mirror_rows : list OpenPositionWire :=
  ltac:(returned (mapM (position_wire show_ones) (map_to_list (mg_positions mirror_mid.1)) ≫= fun l => Ret (mjoin l))).
Definition mirror_end : Manager MockBroker (PumpPool Bonding) * list (Effect (PumpPool Bonding)) :=
  ltac:(returned (mirror_manage mirror_then mirror_mid.1)).

Lemma dashboard_mirrors_manager_witness :
  size (mg_positions mirror_end.1) = 2%nat /\
  mirrors (WW := ideal_wire) show_ones (faces mirror_end.1)
    (resynced (WW := ideal_wire) (ideal_row <$> mirror_rows) mirror_end.2 dashboard_new).
Proof.
  split; [vm_compute; reflexivity|].
  apply (dashboard_mirrors_manager (WW := ideal_wire) show_ones demo_json (fun p : PumpPool Bonding => p)
    show_ones_inj show_ones_plain demo_manager mirror_first mirror_mid.1 mirror_mid.2 mirror_rows
    (ideal_row <$> mirror_rows) mirror_mid.1 mirror_then mirror_end.1 mirror_end.2 dashboard_new).
  - reflexivity.
  - by repeat constructor.
  - vm_compute. reflexivity.
  - vm_compute. reflexivity.
  - vm_compute. reflexivity.
  - vm_compute. reflexivity.
  - apply Forall_forall. intros [] _; done || by eexists.
Defined.

(** An answer that arrives after a later close brings the closed position back
    until the next answer: here the rows of before the abandonment. *)
Example stale_answer_revives :
  mg_positions mirror_end.1 !! mkPositionKey 1%N "wallet_1" = None /\
  (up_address <$> ds_open (apply_open_positions (ideal_row <$> mirror_rows)
     (resynced (WW := ideal_wire) (ideal_row <$> mirror_rows) mirror_end.2 dashboard_new))
   !! show_key show_ones (mkPositionKey 1%N "wallet_1")) = Some (show_ones 1%N).
Proof. split; vm_compute; reflexivity. Qed.
