(* ===== verification/Database.v ===== *)
(** The database behind the repositories: the tables of [migrations/] and the
    statements of [persistence/postgres/], [persistence/coin_mcap_tape.rs] and
    [learning/db.rs].

    A statement is a function of the tables that answers or is refused for a
    broken constraint.  The server may also fail whatever the statement is,
    before it takes effect or after, with the answer lost ([Fault]); every call
    of a repository takes the faults it meets.  A number drawn for a row that is
    then refused is drawn again here, where PostgreSQL leaves a gap. *)
From Stdlib Require Import Ascii.
From S2P Require Import Prelude Text Amounts Pump Swarm Config Registry Features ScoreEngine Learning.
From S2P Require Import LivePosition ExitEngine Positions Messages Feed Blacklist Brokers Wallets PostExit Storage.
From S2P Require Import Pipeline Watchlist Creator Admission.

Local Open Scope string_scope.
Local Open Scope list_scope.
Local Open Scope Z_scope.

(** ** Tables *)

(* persistence/traders.rs 18-23: DbCurrency *)
Inductive DbCurrency := DbSol | DbUsd.
#[export] Instance DbCurrency_dec : EqDecision DbCurrency.
Proof. solve_decision. Defined.

(* persistence/traders.rs 25-31: DbTraderType *)
Inductive DbTraderType := DbCreator | DbSniper | DbRegular.
#[export] Instance DbTraderType_dec : EqDecision DbTraderType.
Proof. solve_decision. Defined.

(** a row of [coins], under its address *)
Record CoinRow := mkCoinRow { co_developer : string; co_created_at : Z }.

(** a row of [trades]; the numeric columns hold what a float8 reads back from them *)
Record TradeRow := mkTradeRow {
  td_id : Z; td_trader_address : string; td_coin_address : string; td_pnl : option f64; td_slot_time : Z;
  td_is_buy : bool; td_market_cap : option f64; td_currency : DbCurrency; td_size : f64; td_role : DbTraderType }.

(** a row of [bot_trades]; the samples after the exit come later, with
    [post_exit_tracking_done] *)
Record BotTradeDbRow := mkBotTradeDbRow {
  br_id : Z; br_entry : BotTradeEntry; br_post_exit : option PostExitMetrics }.

(** a row of [learning_trades]; [feature_json] is the snapshot *)
Record LearningTradeRow := mkLearningTradeRow {
  lt_id : Z; lt_snapshot : LearningTradeSnapshot; lt_smart_wallets : Z; lt_buyer_count : Z; lt_exit_mcap_sol : f64;
  lt_pnl_sol_pct : f64; lt_hold_time_secs : Z; lt_close_reason : string; lt_closed_at : Z }.

(** a row of [learning_skipped] *)
Record SkippedRow := mkSkippedRow {
  sk_mint : string; sk_dev : option string; sk_stage : string; sk_reason : string;
  sk_payload : list (string * JsonValue); sk_created_at : Z }.

(** rows are in the order they were inserted *)
Record Database := mkDatabase {
  db_developers : gmap string Z;
  db_coins : gmap string CoinRow;
  db_traders : gmap string Z;
  db_trades : list TradeRow;
  db_tape : list TapeRow;
  db_dev_blacklist : list DevBlacklistEntry;
  db_bot_trades : list BotTradeDbRow;
  db_learning_trades : list LearningTradeRow;
  db_learning_skipped : list SkippedRow
}.
#[export] Instance Database_settable : Settable Database := fun r =>
  mkDatabase (db_developers r) (db_coins r) (db_traders r) (db_trades r) (db_tape r) (db_dev_blacklist r)
    (db_bot_trades r) (db_learning_trades r) (db_learning_skipped r).

Definition database_new : Database := mkDatabase ∅ ∅ ∅ [] [] [] [] [] [].

Implicit Types (db : Database).

(** ** Statements and faults *)

Definition Statement (A : Type) : Type := Database -> result (A * Database) string.

(** refused before it takes effect, or done with its answer lost *)
Inductive Fault := Served | Refused (e : string) | Lost (e : string).

Definition execute {A} (f : Fault) (q : Statement A) db : result A string * Database :=
  match f, q db with
  | Served, Ok (a, db') => (Ok a, db')
  | Served, Err e => (Err e, db)
  | Refused e, _ => (Err e, db)
  | Lost e, Ok (_, db') => (Err e, db')
  | Lost e, Err _ => (Err e, db)
  end.

Definition query {A} (f : Database -> A) : Statement A := fun db => Ok (f db, db).

(** [begin] and [commit]: an error on the way rolls the whole transaction back *)
Definition commit (f : Fault) (tx : Database) db : result unit string * Database :=
  match f with Served => (Ok tt, tx) | Refused e => (Err e, db) | Lost e => (Err e, tx) end.

(** characters of a text: the bytes that do not continue one *)
Definition continues (c : ascii) : bool := ((128 <=? N_of_ascii c) && (N_of_ascii c <? 192))%N.
Fixpoint char_count (s : string) : nat :=
  match s with "" => O | String c s => if continues c then char_count s else S (char_count s) end.

Definition varchar (n : nat) (s : string) : bool := (char_count s <=? n)%nat.
Definition too_long (n : nat) : string :=
  "value too long for type character varying(" +:+ pretty (Z.of_nat n) +:+ ")".

Definition fk_violation (table : string) : string :=
  "insert or update on table " +:+ table +:+ " violates foreign key constraint".

(** the number a sequence gives next *)
Definition next_id (ids : list Z) : Z := List.fold_right Z.max 0 ids + 1.

(** ** Tokens *)

(** both inserts of the statement leave an existing row as it is *)
(* persistence/postgres/tokens.rs 25-50: TokenRepositoryPostgres::save_token *)
Definition insert_token (coin dev : string) (slot : Z) : Statement unit := fun db =>
  if negb (varchar 44 coin && varchar 44 dev) then Err (too_long 44)
  else
    let developers := match db_developers db !! dev with Some _ => db_developers db | None => <[dev := slot]> (db_developers db) end in
    let coins := match db_coins db !! coin with
                 | Some _ => db_coins db
                 | None => <[coin := mkCoinRow dev slot]> (db_coins db)
                 end in
    Ok (tt, db <| db_developers := developers |> <| db_coins := coins |>).

Section Repositories.
Context (show_address : Address -> string) (from_str : string -> option Address) (as_numeric : f64 -> f64).

(* persistence/postgres/tokens.rs 25-50: TokenRepositoryPostgres::save_token *)
Definition save_token (f : Fault) (coin developer : Address) (slot : Z) : Database -> result unit string * Database :=
  execute f (insert_token (show_address coin) (show_address developer) (i64 slot)).

(* persistence/tokens.rs 5-8: TokenData *)
Record TokenData := mkTokenData { tk_mint : Address; tk_created_at : Z }.

(* persistence/postgres/tokens.rs 52-85: TokenRepositoryPostgres::get_token *)
Definition get_token (f : Fault) (coin : Address) db : option TokenData :=
  match (execute f (query (fun db => db_coins db !! show_address coin)) db).1 with
  | Ok (Some row) => (fun m => mkTokenData m (u64 (co_created_at row))) <$> from_str (show_address coin)
  | _ => None
  end.

(** ** Trades *)

(* persistence/postgres/traders.rs 27-37: TraderRepositoryPostgres::save_trade *)
Definition insert_trader (trader : string) (slot : Z) : Statement unit := fun db =>
  if negb (varchar 44 trader) then Err (too_long 44)
  else Ok (tt, match db_traders db !! trader with
               | Some _ => db
               | None => db <| db_traders := <[trader := slot]> (db_traders db) |>
               end).

(* persistence/postgres/traders.rs 41-55: TraderRepositoryPostgres::save_trade *)
Definition trade_row (id : Z) (e : TraderEntry) : TradeRow :=
  let size := currency_float (en_currency e) in
  let '(db_currency, market_cap) := match en_market_cap e with
                                    | Native amt => (DbSol, amount_to_float amt)
                                    | Dollar amt => (DbUsd, amount_to_float amt)
                                    end in
  let db_role := match en_role e with Creator => DbCreator | Sniper => DbSniper | Regular => DbRegular end in
  mkTradeRow id (en_trader_address e) (en_coin_address e) (Some (as_numeric (en_realized_pnl e))) (i64 (en_slot e))
    (en_is_buy e) (Some (as_numeric market_cap)) db_currency (as_numeric size) db_role.

(* persistence/postgres/traders.rs 57-77: TraderRepositoryPostgres::save_trade *)
Definition insert_trade (e : TraderEntry) : Statement unit := fun db =>
  if negb (varchar 44 (en_trader_address e) && varchar 44 (en_coin_address e)) then Err (too_long 44)
  else if negb (bool_decide (is_Some (db_traders db !! en_trader_address e))
                && bool_decide (is_Some (db_coins db !! en_coin_address e))) then Err (fk_violation "trades")
  else Ok (tt, db <| db_trades := db_trades db ++ [trade_row (next_id (td_id <$> db_trades db)) e] |>).

(** the faults of [begin], the two inserts and [commit] *)
(* persistence/postgres/traders.rs 23-82: TraderRepositoryPostgres::save_trade *)
Definition save_trade (fs : Fault * Fault * Fault * Fault) (e : TraderEntry) db : result unit string * Database :=
  let '(f_begin, f_trader, f_trade, f_commit) := fs in
  match execute f_begin (query (fun _ => tt)) db with
  | (Err err, _) => (Err err, db)
  | (Ok _, _) =>
      match execute f_trader (insert_trader (en_trader_address e) (i64 (en_slot e))) db with
      | (Err err, _) => (Err err, db)
      | (Ok _, tx) =>
          match execute f_trade (insert_trade e) tx with
          | (Err err, _) => (Err err, db)
          | (Ok _, tx) => commit f_commit tx db
          end
      end
  end.

(** ** Reading a trade back *)

(** a value of a column, by the type of the column *)
Inductive SqlValue :=
  | VText (s : string) | VFloat (x : f64) | VBigint (z : Z) | VBool (b : bool) | VNumeric (x : f64) | VNull
  | VCurrency (c : DbCurrency) | VRole (r : DbTraderType).

(** [try_get]: the column must be in the row and of the type asked for; a
    numeric column is no [f64] *)
Definition try_get {A} (as_type : SqlValue -> option A) (row : gmap string SqlValue) (column : string) : result A string :=
  match row !! column with
  | None => Err ("no column found for name: " +:+ column)
  | Some v => match as_type v with Some a => Ok a | None => Err ("mismatched types: " +:+ column) end
  end.

Definition as_bigint v : option Z := match v with VBigint z => Some z | _ => None end.
Definition as_float v : option f64 := match v with VFloat x => Some x | _ => None end.
Definition as_currency v : option DbCurrency := match v with VCurrency c => Some c | _ => None end.
Definition as_role v : option DbTraderType := match v with VRole r => Some r | _ => None end.
Definition as_text v : option string := match v with VText s => Some s | _ => None end.
Definition as_bool v : option bool := match v with VBool b => Some b | _ => None end.

(** [?] on a result *)
Definition try {A B} (r : result A string) (k : A -> result B string) : result B string :=
  match r with Ok a => k a | Err e => Err e end.

(** the market cap is read from the column of the size *)
(* persistence/traders.rs 35-71: FromRow for TraderEntry *)
Definition entry_from_row (row : gmap string SqlValue) : result TraderEntry string :=
  try (try_get as_bigint row "slot") (fun slot_i64 =>
  try (try_get as_currency row "currency") (fun db_currency =>
  try (try_get as_role row "role") (fun db_trader_type =>
  try (try_get as_float row "size") (fun size =>
  try (try_get as_float row "size") (fun market_cap =>
  let trader := match db_trader_type with DbCreator => Creator | DbSniper => Sniper | DbRegular => Regular end in
  let cur x := match db_currency with DbSol => Native (amount_from_float_native x) | DbUsd => Dollar (amount_from_float_native x) end in
  try (try_get as_text row "trader_address") (fun trader_address =>
  try (try_get as_text row "coin_address") (fun coin_address =>
  try (try_get as_float row "realized_pnl") (fun realized_pnl =>
  try (try_get as_bool row "is_buy") (fun is_buy =>
  Ok (mkTraderEntry trader_address coin_address realized_pnl (u64 slot_i64) is_buy (cur market_cap) (cur size) trader)))))))))).

(** the columns the statement selects *)
(* persistence/postgres/traders.rs 93-107: TraderRepositoryPostgres::get_trade *)
Definition trade_columns (r : TradeRow) : gmap string SqlValue :=
  list_to_map [
    ("trader_address", VText (td_trader_address r)); ("coin_address", VText (td_coin_address r));
    ("realized_pnl", from_option VFloat VNull (td_pnl r));
    ("slot", VBigint (td_slot_time r)); ("is_buy", VBool (td_is_buy r));
    ("market_cap", from_option VNumeric VNull (td_market_cap r)); ("currency", VCurrency (td_currency r));
    ("size", VNumeric (td_size r))].

(** [ORDER BY key DESC LIMIT 1]: a row with the greatest key; which of several
    is the server's choice, here the first *)
Definition latest {A} (key : A -> Z) (rows : list A) : option A :=
  List.fold_right (fun r best => match best with
                                 | Some b => if key b <=? key r then Some r else Some b
                                 | None => Some r
                                 end) None rows.

(* persistence/postgres/traders.rs 84-114: TraderRepositoryPostgres::get_trade *)
Definition get_trade (f : Fault) (trader token : Address) db : option TraderEntry :=
  let mine r := String.eqb (td_trader_address r) (show_address trader) && String.eqb (td_coin_address r) (show_address token) in
  let found := query (fun db => latest td_slot_time (List.filter mine (db_trades db))) in
  match (execute f found db).1 with
  | Ok (Some row) => match entry_from_row (trade_columns row) with Ok e => Some e | Err _ => None end
  | _ => None
  end.

End Repositories.

(** ** The developer blacklist *)

(* persistence/postgres/dev_blacklist.rs 20-39: DevBlacklistRepositoryPostgres::insert *)
Definition insert_blacklist_row (e : DevBlacklistEntry) : Statement unit := fun db =>
  if negb (varchar 44 (de_dev_wallet e) && varchar 44 (de_mint e)) then Err (too_long 44)
  else Ok (tt, db <| db_dev_blacklist := db_dev_blacklist db ++ [e] |>).

(* persistence/postgres/dev_blacklist.rs 20-39: DevBlacklistRepositoryPostgres::insert *)
Definition insert_dev_blacklist (f : Fault) (e : DevBlacklistEntry) : Database -> result unit string * Database :=
  execute f (insert_blacklist_row e).

(* persistence/postgres/dev_blacklist.rs 53-53: DevBlacklistRepositoryPostgres::active_for_dev *)
Definition blacklist_row_active (dev_wallet : string) (now : Z) (e : DevBlacklistEntry) : bool :=
  String.eqb (de_dev_wallet e) dev_wallet && ((de_expires_at e =? 0) || (now <? de_expires_at e)).

(* persistence/postgres/dev_blacklist.rs 41-74: DevBlacklistRepositoryPostgres::active_for_dev *)
Definition active_for_dev (f : Fault) (dev_wallet : string) (now : Z) db : result (option ActiveDevBlacklist) string :=
  (execute f (query (fun db =>
     (fun e => mkActiveDevBlacklist (de_reason e) (de_mint e) (de_pnl_sol e) (de_close_reason e) (de_created_at e) (de_expires_at e))
       <$> latest de_created_at (List.filter (blacklist_row_active dev_wallet now) (db_dev_blacklist db)))) db).1.

(** ** Trades of the bot *)

(* persistence/postgres/bot_trades.rs 21-46: BotTradesRepositoryPostgres::save_bot_trade *)
Definition insert_bot_trade (e : BotTradeEntry) : Statement Z := fun db =>
  let id := next_id (br_id <$> db_bot_trades db) in
  if negb (varchar 32 (bt_wallet_id e)) then Err (too_long 32)
  else if negb (varchar 44 (bt_mint e)) then Err (too_long 44)
  else Ok (id, db <| db_bot_trades := db_bot_trades db ++ [mkBotTradeDbRow id e None] |>).

(* persistence/postgres/bot_trades.rs 21-46: BotTradesRepositoryPostgres::save_bot_trade *)
Definition save_bot_trade (f : Fault) (e : BotTradeEntry) : Database -> result Z string * Database :=
  execute f (insert_bot_trade e).

(* persistence/postgres/bot_trades.rs 50-127: BotTradesRepositoryPostgres::update_post_exit_metrics *)
Definition update_post_exit_metrics (f : Fault) (trade_id : Z) (m : PostExitMetrics) : Database -> result unit string * Database :=
  execute f (fun db => Ok (tt, db <| db_bot_trades :=
    (fun r => if br_id r =? trade_id then mkBotTradeDbRow (br_id r) (br_entry r) (Some m) else r) <$> db_bot_trades db |>)).

(** ** The tape *)

(* persistence/coin_mcap_tape.rs 55-79: record_batch *)
Definition record_batch (f : Fault) (rows : list TapeRow) db : result unit string * Database :=
  match rows with
  | [] => (Ok tt, db)
  | _ => execute f (fun db =>
           if negb (forallb (fun r => varchar 44 (tr_coin_address r)) rows) then Err (too_long 44)
           else if negb (forallb (fun r => varchar 16 (tr_source r)) rows) then Err (too_long 16)
           else Ok (tt, db <| db_tape := db_tape db ++ rows |>)) db
  end.

(* persistence/coin_mcap_tape.rs 42-52: record *)
Definition record_tape (f : Fault) (now : Z) (coin_address : string) (mcap_sol : f64) (source : string) db
    : result unit string * Database :=
  match tape_row now coin_address mcap_sol source with
  | None => (Ok tt, db)
  | Some row => record_batch f [row] db
  end.

(** ** The learning log *)

(* learning/db.rs 19-60: LearningLogPg::log_closed_trade *)
Definition log_closed_trade (f : Fault) (snap : LearningTradeSnapshot) (exit_mcap_sol pnl_sol_pct : f64) (hold_time_secs : Z)
    (close_reason : string) (closed_at : Z) : Database -> result unit string * Database :=
  execute f (fun db =>
    if negb (varchar 64 (ls_mint snap) && varchar 64 (ls_dev snap)) then Err (too_long 64)
    else if negb (varchar 16 (ls_tier snap)) then Err (too_long 16)
    else Ok (tt, db <| db_learning_trades := db_learning_trades db ++
      [mkLearningTradeRow (next_id (lt_id <$> db_learning_trades db)) snap (i32 (ls_smart_wallet_count snap))
         (i64 (ls_buyer_count snap)) exit_mcap_sol pnl_sol_pct hold_time_secs close_reason closed_at] |>)).

(* learning/db.rs 63-87: LearningLogPg::log_skipped *)
Definition log_skipped (f : Fault) (m : string) (dev : option string) (stage reason : string)
    (payload : list (string * JsonValue)) (created_at : Z) : Database -> result unit string * Database :=
  execute f (fun db =>
    if negb (varchar 64 m && varchar 64 (default "" dev) && varchar 64 stage) then Err (too_long 64)
    else Ok (tt, db <| db_learning_skipped := db_learning_skipped db ++ [mkSkippedRow m dev stage reason payload created_at] |>)).

(* learning/db.rs 89-94: LearningLogPg::count_trades *)
Definition count_trades (f : Fault) db : result Z string :=
  (execute f (query (fun db => Z.of_nat (length (db_learning_trades db)))) db).1.

(** ** Counting the coins of a developer *)

Definition coins_of (dev : string) db : list (string * CoinRow) :=
  List.filter (fun c => String.eqb (co_developer c.2) dev) (map_to_list (db_coins db)).

(** [LIMIT] stops the count one past the cap *)
(* persistence/postgres/creators.rs 69-93: CreatorsRepositoryPostgres::count_creator_coins_capped *)
Definition count_creator_coins_capped (f : Fault) (dev : string) (cap : Z) db : result Z string :=
  let limit := Z.min I64_MAX (i64 cap + 1) in
  let counted db := if limit <? 0 then Err "LIMIT must not be negative"
                    else Ok (Z.min limit (Z.of_nat (length (coins_of dev db))), db) in
  match (execute f counted db).1 with Ok n => Ok (u64 (Z.max n 0)) | Err e => Err e end.

(* persistence/postgres/creators.rs 229-250: CreatorsRepositoryPostgres::count_prior_coins *)
Definition count_prior_coins (f : Fault) (dev exclude_mint : string) db : result Z string :=
  let prior := List.filter (fun c => negb (String.eqb c.1 exclude_mint)) (coins_of dev db) in
  match (execute f (query (fun _ => Z.of_nat (length prior))) db).1 with
  | Ok n => Ok (u64 (Z.max n 0))
  | Err e => Err e
  end.

(** ** What the program writes *)

Section Writes.
Context (show_address : Address -> string) (from_str : string -> option Address) (as_numeric : f64 -> f64).

(** the calls of the repositories that write, with the faults they meet *)
Inductive DbOp :=
  | OpToken (f : Fault) (coin developer : Address) (slot : Z)
  | OpTrade (fs : Fault * Fault * Fault * Fault) (e : TraderEntry)
  | OpTape (f : Fault) (rows : list TapeRow)
  | OpBlacklist (f : Fault) (e : DevBlacklistEntry)
  | OpBotTrade (f : Fault) (e : BotTradeEntry)
  | OpPostExit (f : Fault) (trade_id : Z) (m : PostExitMetrics)
  | OpClosedTrade (f : Fault) (snap : LearningTradeSnapshot) (exit_mcap_sol pnl_sol_pct : f64) (hold_time_secs : Z)
      (close_reason : string) (closed_at : Z)
  | OpSkipped (f : Fault) (m : string) (dev : option string) (stage reason : string)
      (payload : list (string * JsonValue)) (created_at : Z).

Definition db_step (op : DbOp) db : Database :=
  match op with
  | OpToken f coin developer slot => (save_token show_address f coin developer slot db).2
  | OpTrade fs e => (save_trade as_numeric fs e db).2
  | OpTape f rows => (record_batch f rows db).2
  | OpBlacklist f e => (insert_dev_blacklist f e db).2
  | OpBotTrade f e => (save_bot_trade f e db).2
  | OpPostExit f trade_id m => (update_post_exit_metrics f trade_id m db).2
  | OpClosedTrade f snap x p h r t => (log_closed_trade f snap x p h r t db).2
  | OpSkipped f m dev stage reason payload t => (log_skipped f m dev stage reason payload t db).2
  end.

Definition db_run (ops : list DbOp) db : Database := List.fold_left (fun db op => db_step op db) ops db.

(** the worker of the write queue hands a batch to the repositories and drops
    their errors *)
(* persistence/write_queue.rs 161-171: flush_batch *)
Definition write_op (served : DbWrite) : DbOp :=
  match served with
  | InsertTape rows => OpTape Served rows
  | SaveTrade e => OpTrade (Served, Served, Served, Served) e
  end.

(** ** Integrity *)

(** every coin has its developer, every trade its trader and its coin, and the
    numbers are not given twice *)
Record db_ok db : Prop := {
  dk_coins : forall c row, db_coins db !! c = Some row -> is_Some (db_developers db !! co_developer row);
  dk_trades : Forall (fun t => is_Some (db_traders db !! td_trader_address t) /\
                               is_Some (db_coins db !! td_coin_address t)) (db_trades db);
  dk_trade_ids : NoDup (td_id <$> db_trades db);
  dk_bot_ids : NoDup (br_id <$> db_bot_trades db);
  dk_learning_ids : NoDup (lt_id <$> db_learning_trades db)
}.

(** no row goes away, and none changes but for the samples after an exit *)
Record grows db db' : Prop := {
  gw_developers : db_developers db ⊆ db_developers db';
  gw_coins : db_coins db ⊆ db_coins db';
  gw_traders : db_traders db ⊆ db_traders db';
  gw_trades : db_trades db `prefix_of` db_trades db';
  gw_tape : db_tape db `prefix_of` db_tape db';
  gw_dev_blacklist : db_dev_blacklist db `prefix_of` db_dev_blacklist db';
  gw_bot_trades : ((fun r => (br_id r, br_entry r)) <$> db_bot_trades db) `prefix_of`
                  ((fun r => (br_id r, br_entry r)) <$> db_bot_trades db');
  gw_learning_trades : db_learning_trades db `prefix_of` db_learning_trades db';
  gw_learning_skipped : db_learning_skipped db `prefix_of` db_learning_skipped db'
}.

#[export] Instance grows_preorder : PreOrder grows.
Proof.
  split.
  - intros db. by split.
  - intros a b c [] []. split; by etrans.
Qed.

(** what a call keeps: the tables grow and stay sound *)
Definition sound_step db db' : Prop := grows db db' /\ (db_ok db -> db_ok db').

#[export] Instance sound_step_preorder : PreOrder sound_step.
Proof.
  split.
  - intros db. by split.
  - intros a b c [G1 K1] [G2 K2]. split; [by etrans|auto].
Qed.

Lemma execute_sound {A} f (q : Statement A) db :
  (forall a db', q db = Ok (a, db') -> sound_step db db') -> sound_step db (execute f q db).2.
Proof.
  intros H. destruct f, (q db) as [[a db']|err] eqn:E; unfold execute; rewrite ?E; cbn; try done; by eapply H.
Qed.

Lemma execute_ok {A} f (q : Statement A) db a db' : execute f q db = (Ok a, db') -> q db = Ok (a, db').
Proof. destruct f; cbn; destruct (q db) as [[]|]; by intros [= -> ->]. Qed.

Lemma next_id_fresh ids : next_id ids ∉ ids.
Proof.
  assert (forall i, i ∈ ids -> i <= List.fold_right Z.max 0 ids) as B.
  { induction ids as [|j ids IH]; intros i Hi; [by apply not_elem_of_nil in Hi|].
    cbn. apply elem_of_cons in Hi as [->|Hi]; [lia|]. specialize (IH i Hi). lia. }
  intros H. apply B in H. unfold next_id in H. lia.
Qed.

Lemma fresh_ids {A} (id : A -> Z) rows row : id row = next_id (id <$> rows) ->
  NoDup (id <$> rows) -> NoDup (id <$> rows ++ [row]).
Proof.
  intros E H. rewrite fmap_app. apply NoDup_app. split_and!; [done| |apply NoDup_singleton].
  intros i Hi ->%list_elem_of_singleton. rewrite E in Hi. by apply next_id_fresh in Hi.
Qed.

Lemma insert_new_subseteq {A} (m : gmap string A) k v : m !! k = None -> m ⊆ <[k := v]> m.
Proof. apply insert_subseteq. Qed.

Lemma token_sound coin dev slot db a db' : insert_token coin dev slot db = Ok (a, db') -> sound_step db db'.
Proof.
  unfold insert_token. destruct (negb _); [done|]. intros [= _ <-].
  set (developers := match db_developers db !! dev with Some _ => _ | None => _ end).
  set (coins := match db_coins db !! coin with Some _ => _ | None => _ end).
  assert (db_developers db ⊆ developers /\ is_Some (developers !! dev)) as [Hd Hdev].
  { subst developers. destruct (db_developers db !! dev) eqn:D; [done|].
    split; [by apply insert_new_subseteq|rewrite lookup_insert_eq; eauto]. }
  assert (db_coins db ⊆ coins) as Hc.
  { subst coins. destruct (db_coins db !! coin) eqn:C; [done|by apply insert_new_subseteq]. }
  split; [by split|]. intros [K1 K2 K3 K4 K5]. split; [|cbn..]; [|..|done|done|done].
  - cbn. intros c row R. destruct (db_coins db !! c) as [row'|] eqn:C.
    + assert (row' = row) as -> by (eapply lookup_weaken in C; [|exact Hc]; congruence).
      destruct (K1 _ _ C) as [v V]. eapply lookup_weaken in V; [|exact Hd]. eauto.
    + subst coins. destruct (db_coins db !! coin) eqn:C'; [congruence|].
      apply lookup_insert_Some in R as [[<- <-]|[_ R]]; [done|congruence].
  - eapply Forall_impl; [exact K2|]. cbn. intros t [T1 [v V]]. split; [done|].
    eapply lookup_weaken in V; [|exact Hc]. eauto.
Qed.

Lemma trader_sound trader slot db a db' : insert_trader trader slot db = Ok (a, db') -> sound_step db db'.
Proof.
  unfold insert_trader. destruct (negb _); [done|]. intros [= _ <-]. destruct (db_traders db !! trader) eqn:T; [done|].
  pose proof (insert_new_subseteq _ _ slot T) as Ht. split; [by split|].
  intros [K1 K2 K3 K4 K5]. split; try done. cbn. eapply Forall_impl; [exact K2|].
  cbn. intros t [[v V] T2]. split; [|done]. eapply lookup_weaken in V; [|exact Ht]. eauto.
Qed.

Lemma trade_row_id id e : td_id (trade_row as_numeric id e) = id.
Proof. unfold trade_row. by case_match. Qed.

Lemma trade_row_refs id e :
  td_trader_address (trade_row as_numeric id e) = en_trader_address e /\
  td_coin_address (trade_row as_numeric id e) = en_coin_address e.
Proof. unfold trade_row. by case_match. Qed.

Lemma trade_sound e db a db' : insert_trade as_numeric e db = Ok (a, db') -> sound_step db db'.
Proof.
  unfold insert_trade. destruct (negb _); [done|]. destruct (negb (_ && _)) eqn:R; [done|]. intros [= _ <-].
  apply negb_false_iff, andb_true_iff in R as [R1%bool_decide_eq_true R2%bool_decide_eq_true].
  split; [by split; try done; cbn; apply prefix_app_r|]. intros [K1 K2 K3 K4 K5]. split; try done.
  - cbn. apply Forall_app_2; [done|]. apply Forall_singleton. destruct (trade_row_refs (next_id (td_id <$> db_trades db)) e) as [-> ->].
    done.
  - cbn [db_trades]. apply fresh_ids; [apply trade_row_id|done].
Qed.

Lemma save_trade_sound fs e db : sound_step db (save_trade as_numeric fs e db).2.
Proof.
  destruct fs as [[[fb f1] f2] fc]. unfold save_trade.
  destruct (execute fb _ db) as [[[]|err] db0]; [|done].
  destruct (execute f1 _ db) as [[[]|err] tx] eqn:E1; [|done].
  destruct (execute f2 _ tx) as [[[]|err] tx'] eqn:E2; [|done].
  assert (sound_step db tx') as S.
  { change tx with (Ok (A:=unit) (E:=string) tt, tx).2 in E2. rewrite <- E1 in E2. etrans.
    - apply (execute_sound f1 (insert_trader (en_trader_address e) (i64 (en_slot e)))).
      intros a db' ?. by eapply trader_sound.
    - change tx' with (Ok (A:=unit) (E:=string) tt, tx').2. rewrite <- E2. apply execute_sound.
      intros a db' ?. by eapply trade_sound. }
  by destruct fc.
Qed.


Lemma bot_trade_sound e db a db' : insert_bot_trade e db = Ok (a, db') -> sound_step db db'.
Proof.
  unfold insert_bot_trade. repeat (destruct (negb _); [done|]). intros [= _ <-]. split.
  - split; try done. cbn. rewrite fmap_app. by apply prefix_app_r.
  - intros []. split; try done. by apply fresh_ids.
Qed.

Lemma post_exit_sound f trade_id m db : sound_step db (update_post_exit_metrics f trade_id m db).2.
Proof.
  apply execute_sound. intros a db' [= _ <-].
  assert (forall {X} (g : BotTradeDbRow -> X), (forall r p, g (mkBotTradeDbRow (br_id r) (br_entry r) p) = g r) ->
    g <$> ((fun r => if br_id r =? trade_id then mkBotTradeDbRow (br_id r) (br_entry r) (Some m) else r) <$> db_bot_trades db)
    = g <$> db_bot_trades db) as G.
  { intros X g Hg. rewrite <- list_fmap_compose. apply list_fmap_ext. intros i r _. cbn. case_match; [by rewrite Hg|done]. }
  split.
  - split; try done. cbn. rewrite G; done.
  - intros []. split; try done. cbn. rewrite G; done.
Qed.

(** the statements that only append to a table without references *)
Ltac append_step :=
  apply execute_sound; intros ? ? E; repeat (destruct (negb _) in E; [done|]); injection E as _ <-;
  split; [split; try done; cbn; by apply prefix_app_r|intros []; split; try done; cbn [db_learning_trades]; by apply fresh_ids].

Lemma db_step_sound op db : sound_step db (db_step op db).
Proof.
  destruct op; cbn [db_step].
  - apply execute_sound. intros ? ? ?. by eapply token_sound.
  - apply save_trade_sound.
  - unfold record_batch. destruct rows as [|r rows]; [done|]. append_step.
  - unfold insert_dev_blacklist, insert_blacklist_row. append_step.
  - apply execute_sound. intros ? ? ?. by eapply bot_trade_sound.
  - apply post_exit_sound.
  - unfold log_closed_trade. append_step.
  - unfold log_skipped. append_step.
Qed.

Lemma db_run_sound ops : forall db, sound_step db (db_run ops db).
Proof.
  induction ops as [|op ops IH]; intros db; [done|]. cbn. etrans; [apply db_step_sound|apply IH].
Qed.

(** ** A trade is stored as a whole *)

Definition storable (e : TraderEntry) db : Prop :=
  varchar 44 (en_trader_address e) = true /\ varchar 44 (en_coin_address e) = true /\
  is_Some (db_coins db !! en_coin_address e).

(** the tables with the trade, and with its trader if he is new *)
Definition stored (e : TraderEntry) db : Database :=
  let traders := match db_traders db !! en_trader_address e with
                 | Some _ => db_traders db
                 | None => <[en_trader_address e := i64 (en_slot e)]> (db_traders db)
                 end in
  db <| db_traders := traders |>
     <| db_trades := db_trades db ++ [trade_row as_numeric (next_id (td_id <$> db_trades db)) e] |>.

Lemma insert_trader_stored e db tx a :
  insert_trader (en_trader_address e) (i64 (en_slot e)) db = Ok (a, tx) ->
  varchar 44 (en_trader_address e) = true /\ is_Some (db_traders tx !! en_trader_address e) /\
  db_coins tx = db_coins db /\ tx <| db_trades := db_trades tx ++ [trade_row as_numeric (next_id (td_id <$> db_trades tx)) e] |> = stored e db.
Proof.
  unfold insert_trader, stored. destruct (varchar 44 _) eqn:V; [|done]. cbn. intros [= _ <-].
  destruct (db_traders db !! en_trader_address e) eqn:T.
  - split_and!; eauto.
  - split_and!; try done. cbn. rewrite lookup_insert_eq. eauto.
Qed.

Lemma insert_trade_stored e tx a tx' : insert_trade as_numeric e tx = Ok (a, tx') ->
  varchar 44 (en_coin_address e) = true /\ is_Some (db_coins tx !! en_coin_address e) /\
  tx' = tx <| db_trades := db_trades tx ++ [trade_row as_numeric (next_id (td_id <$> db_trades tx)) e] |>.
Proof.
  unfold insert_trade. destruct (varchar 44 (en_trader_address e)), (varchar 44 (en_coin_address e)); try done. cbn [negb andb].
  destruct (negb (_ && _)) eqn:R; [done|]. intros [= _ <-].
  by apply negb_false_iff, andb_true_iff in R as [_ R2%bool_decide_eq_true].
Qed.

(** a call stores the whole trade or nothing; an error after a whole trade is the
    lost answer of the commit *)
Lemma save_trade_atomic fs e db r db' : save_trade as_numeric fs e db = (r, db') ->
  (db' = db /\ is_err r = true) \/
  (db' = stored e db /\ storable e db /\ (r = Ok tt \/ exists err, fs.2 = Lost err /\ r = Err err)).
Proof.
  destruct fs as [[[fb f1] f2] fc]. unfold save_trade.
  destruct (execute fb _ db) as [[[]|err] db0]; [|intros [= <- <-]; by left].
  destruct (execute f1 _ db) as [[[]|err] tx] eqn:E1; [|intros [= <- <-]; by left].
  destruct (execute f2 _ tx) as [[[]|err] tx'] eqn:E2; [|intros [= <- <-]; by left].
  apply execute_ok in E1 as I1. apply execute_ok in E2 as I2.
  apply insert_trader_stored in I1 as (V1 & _ & C & St).
  apply insert_trade_stored in I2 as (V2 & Co & ->). rewrite C in Co. rewrite St.
  assert (storable e db) as Sb by done.
  destruct fc; cbn [commit snd]; intros [= <- <-].
  - right. split_and!; [done|done|by left].
  - by left.
  - right. split_and!; [done|done|right; eauto].
Qed.

Lemma save_trade_served e db : storable e db ->
  save_trade as_numeric (Served, Served, Served, Served) e db = (Ok tt, stored e db).
Proof.
  intros (V1 & V2 & Co). unfold save_trade. cbn.
  destruct (insert_trader (en_trader_address e) (i64 (en_slot e)) db) as [[a tx]|err] eqn:I1.
  2: { unfold insert_trader in I1. by rewrite V1 in I1. }
  apply insert_trader_stored in I1 as (_ & T & C & St). rewrite <- C in Co.
  destruct (insert_trade as_numeric e tx) as [[b tx']|err] eqn:I2.
  - apply insert_trade_stored in I2 as (_ & _ & ->). cbn. by rewrite St.
  - unfold insert_trade in I2. rewrite V1, V2 in I2. cbn in I2. by rewrite !bool_decide_eq_true_2 in I2 by done.
Qed.

(** the rows of [db'] are those of [db] and one for each trade, in order *)
Definition trades_added (es : list TraderEntry) db db' : Prop :=
  exists rows, db_trades db' = db_trades db ++ rows /\
    Forall2 (fun row e => row = trade_row as_numeric (td_id row) e) rows es.

Lemma stored_added e db : trades_added [e] db (stored e db).
Proof.
  eexists. split; [done|]. constructor; [|done]. by rewrite trade_row_id.
Qed.

Lemma write_run_added ws : forall db, Forall (fun e => storable e db) (saved ws) ->
  Forall (fun r => varchar 44 r.1.1 && varchar 16 r.2 = true) (taped ws) ->
  let db' := db_run (write_op <$> ws) db in
  trades_added (saved ws) db db' /\
  ((fun r => (tr_coin_address r, tr_mcap_sol r, tr_source r)) <$> db_tape db')
    = ((fun r => (tr_coin_address r, tr_mcap_sol r, tr_source r)) <$> db_tape db) ++ taped ws.
Proof.
  induction ws as [|w ws IH]; intros db S T; cbn zeta.
  { split; [exists []; by rewrite app_nil_r|by rewrite app_nil_r]. }
  change (db_run (write_op <$> w :: ws) db) with (db_run (write_op <$> ws) (db_step (write_op w) db)).
  set (db1 := db_step (write_op w) db).
  assert (db_coins db1 = db_coins db /\ trades_added (saved [w]) db db1 /\
    ((fun r => (tr_coin_address r, tr_mcap_sol r, tr_source r)) <$> db_tape db1)
    = ((fun r => (tr_coin_address r, tr_mcap_sol r, tr_source r)) <$> db_tape db) ++ taped [w]) as (C & A & Tp).
  { subst db1. destruct w as [rows|e]; cbn [write_op db_step].
    - cbn [taped mbind list_bind] in T. apply Forall_app in T as [T _].
      unfold record_batch. destruct rows as [|r rows]; [split_and!; [done|exists []; by rewrite app_nil_r|cbn; by rewrite app_nil_r]|].
      assert (forallb (fun r => varchar 44 (tr_coin_address r)) (r :: rows) = true /\
              forallb (fun r => varchar 16 (tr_source r)) (r :: rows) = true) as [F1 F2].
      { rewrite !forallb_forall. split; intros x Hx%list_elem_of_In;
          (eapply Forall_fmap, Forall_forall in T; [|exact Hx]); cbn in T; by apply andb_true_iff in T as [? ?]. }
      unfold execute. rewrite F1, F2. cbn. split_and!; [done|exists []; by rewrite app_nil_r|].
      rewrite app_nil_r, fmap_app. done.
    - cbn in S. apply Forall_cons in S as [S _]. rewrite (save_trade_served _ _ S). cbn [snd].
      split_and!; [done|apply stored_added|cbn; by rewrite app_nil_r]. }
  destruct (IH db1) as [(rows & R1 & R2) T2].
  - unfold storable. rewrite C. change (w :: ws) with ([w] ++ ws) in S. unfold saved in S. rewrite omap_app in S.
    by apply Forall_app in S as [_ S].
  - change (w :: ws) with ([w] ++ ws) in T. unfold taped in T. rewrite bind_app in T. by apply Forall_app in T as [_ T].
  - destruct A as (rows0 & A1 & A2). split.
    + exists (rows0 ++ rows). rewrite R1, A1, app_assoc. split; [done|].
      change (w :: ws) with ([w] ++ ws). unfold saved. rewrite omap_app. by apply Forall2_app.
    + rewrite T2, Tp, <- app_assoc. f_equal. change (w :: ws) with ([w] ++ ws). unfold taped. by rewrite bind_app.
Qed.

End Writes.
