(* ===== verification/Analytics.v ===== *)
(** The aggregates read from the database: the statistics of a developer with
    their cache ([persistence/postgres/creators.rs]), the statistics of a trader,
    and the statistics of the learning log ([learning/db.rs]).

    What the server computes of the floats of a group is the interface
    [SqlFloats]; the groups, joins, filters and null values are those of the
    statements.  The cache is a step function over the questions of concurrent
    callers and the changes of the database between them. *)
From Stdlib Require Import Ascii.
From S2P Require Import Prelude Text Amounts Pump Swarm Config Registry Features ScoreEngine Learning.
From S2P Require Import Positions Messages PostExit Storage Pipeline Admission Database.

Local Open Scope string_scope.
Local Open Scope list_scope.
Local Open Scope Z_scope.

(** ** Aggregates *)

(** [avg], [sum] and [percentile_cont(0.5)] of a group that is not empty *)
Class SqlFloats := {
  sql_avg : list f64 -> f64;
  sql_avg_int : list Z -> f64;
  sql_sum : list f64 -> f64;
  sql_median : list f64 -> f64
}.

(** an aggregate of no row is null *)
Definition agg {A} (f : list A -> f64) (l : list A) : option f64 := match l with [] => None | _ => Some (f l) end.
Definition coalesce0 (o : option f64) : f64 := default 0%float o.

(** the order of the server, in which [NaN] is the greatest float *)
Definition sql_lt (x y : f64) : bool :=
  if PrimFloat.is_nan x then false else PrimFloat.is_nan y || (x <? y)%float.
Definition sql_max (l : list f64) : option f64 :=
  List.fold_left (fun best x => match best with Some b => if sql_lt b x then Some x else best | None => Some x end) l None.
Definition sql_min (l : list f64) : option f64 :=
  List.fold_left (fun best x => match best with Some b => if sql_lt x b then Some x else best | None => Some x end) l None.

Definition list_min_Z (l : list Z) : option Z :=
  match l with [] => None | z :: l => Some (List.fold_right Z.min z l) end.

(** [count(distinct ..)] *)
Definition count_distinct (l : list string) : Z := Z.of_nat (length (remove_dups l)).

Section Aggregates.
Context `{SqlFloats}.

(** ** The statistics of a developer *)

(** a row of [token_stats]; a coin without trades has one joined row, of nulls *)
(* persistence/postgres/creators.rs 123-143: CreatorsRepositoryPostgres::get_creator_stats_in_sol *)
Record TokenStats := mkTokenStats {
  ts_ath_market_cap : option f64; ts_volume : option f64; ts_total_trades : Z;
  ts_unique_buy_wallets : Z; ts_unique_sell_wallets : Z; ts_avg_buy_size : option f64 }.

(* persistence/postgres/creators.rs 138-141: CreatorsRepositoryPostgres::get_creator_stats_in_sol *)
Definition regular_sol_trade (t : TradeRow) : bool :=
  bool_decide (td_currency t = DbSol) && bool_decide (td_role t = DbRegular).

(* persistence/postgres/creators.rs 123-144: CreatorsRepositoryPostgres::get_creator_stats_in_sol *)
Definition token_stats (trades : list TradeRow) (coin : string) : TokenStats :=
  let joined := List.filter (fun t => String.eqb (td_coin_address t) coin && regular_sol_trade t) trades in
  let buys := List.filter td_is_buy joined in
  let sells := List.filter (fun t => negb (td_is_buy t)) joined in {|
    ts_ath_market_cap := sql_max (omap td_market_cap joined);
    ts_volume := agg sql_sum (td_size <$> joined);
    ts_total_trades := Z.max 1 (Z.of_nat (length joined));
    ts_unique_buy_wallets := count_distinct (td_trader_address <$> buys);
    ts_unique_sell_wallets := count_distinct (td_trader_address <$> sells);
    ts_avg_buy_size := agg sql_avg (td_size <$> buys)
  |}.

(** [DISTINCT ON (trader_address)]: the last trade of each trader, by slot and
    then by number *)
Definition later (t u : TradeRow) : bool :=
  (td_slot_time t <? td_slot_time u) || ((td_slot_time t =? td_slot_time u) && (td_id t <? td_id u)).
Definition keep_last (last : gmap string TradeRow) (t : TradeRow) : gmap string TradeRow :=
  match last !! td_trader_address t with
  | Some u => if later u t then <[td_trader_address t := t]> last else last
  | None => <[td_trader_address t := t]> last
  end.

(* persistence/postgres/creators.rs 145-155: CreatorsRepositoryPostgres::get_creator_stats_in_sol *)
Definition trader_last_trade (coins : list string) (trades : list TradeRow) : list TradeRow :=
  let joined := List.filter (fun t => bool_decide (td_coin_address t ∈ coins) && regular_sol_trade t) trades in
  snd <$> map_to_list (List.fold_left keep_last joined ∅).

(** [a / NULLIF(b, 0)] *)
Definition buy_to_sell (s : TokenStats) : option f64 :=
  if ts_unique_sell_wallets s =? 0 then None
  else Some (f64_of_Z (ts_unique_buy_wallets s) / f64_of_Z (ts_unique_sell_wallets s))%float.

(** [None] when the developer has no coin *)
(* persistence/postgres/creators.rs 116-224: CreatorsRepositoryPostgres::get_creator_stats_in_sol *)
Definition creator_statistics (dev : string) (db : Database) : option CreatorStatistics :=
  let coins := (coins_of dev db).*1 in
  let stats := token_stats (db_trades db) <$> coins in
  let total_coins := Z.of_nat (length coins) in
  if total_coins =? 0 then None
  else
    let median f := coalesce0 (agg sql_median f) in
    let average f := coalesce0 (agg sql_avg f) in
    let round_u64 x := f64_as_u64 (f64_round x) in
    Some {|
      cs_median_market_cap := Native (amount_from_float_native (median (omap ts_ath_market_cap stats)));
      cs_trader_pnl_average := average (omap td_pnl (trader_last_trade coins (db_trades db)));
      cs_total_holders_average := round_u64 (average ((fun s => f64_of_Z (ts_unique_buy_wallets s)) <$> stats));
      cs_average_volume := average ((fun s => coalesce0 (ts_volume s)) <$> stats);
      cs_median_total_trades := round_u64 (median ((fun s => f64_of_Z (ts_total_trades s)) <$> stats));
      cs_average_unique_buy_to_sell_ratio := average (omap buy_to_sell stats);
      cs_average_buy_trader_size :=
        Native (amount_from_float_native (average ((fun s => coalesce0 (ts_avg_buy_size s)) <$> stats)));
      cs_total_coins := total_coins
    |}.

(** ** The statistics of a trader *)

(* persistence/traders.rs 73-80: TraderStatistics *)
Record TraderStatistics := mkTraderStatistics {
  tt_winrate : f64; tt_total_trades : Z; tt_best_pnl : f64; tt_worst_pnl : f64; tt_active_from : Z }.

(* persistence/postgres/traders.rs 116-167: TraderRepositoryPostgres::get_trader_stats *)
Definition get_trader_stats (f : Fault) (trader : string) (db : Database) : result TraderStatistics string :=
  let rows := List.filter (fun t => String.eqb (td_trader_address t) trader && bool_decide (is_Some (td_pnl t))) (db_trades db) in
  let pnls := omap td_pnl rows in
  let count := Z.of_nat (length pnls) in
  let wins := Z.of_nat (length (List.filter (sql_lt 0%float) pnls)) in
  match (execute f (query (fun _ => tt)) db).1 with
  | Err e => Err e
  | Ok _ =>
      if count =? 0 then Ok (mkTraderStatistics 0%float 0 0%float 0%float 0)
      else Ok {| tt_winrate := (f64_of_Z wins / f64_of_Z count)%float;
                 tt_total_trades := u64 count;
                 tt_best_pnl := coalesce0 (sql_max pnls);
                 tt_worst_pnl := coalesce0 (sql_min pnls);
                 tt_active_from := u64 (default 0 (list_min_Z (td_slot_time <$> rows))) |}
  end.

(** ** The statistics of the learning log *)

(** the trades that won, by the order of the server *)
Definition won (t : LearningTradeRow) : bool := sql_lt 0%float (lt_pnl_sol_pct t).

(* learning/db.rs 96-113: LearningLogPg::stats_all *)
Definition stats_all (f : Fault) (db : Database) : result TradeBatchStats string :=
  let rows := db_learning_trades db in
  let win := List.filter won rows in
  let loss := List.filter (fun t => negb (won t)) rows in
  let avg g l := coalesce0 (agg sql_avg_int (g <$> l)) in
  (execute f (query (fun _ => {|
     bst_n := Z.of_nat (length rows); bst_wins := Z.of_nat (length win);
     bst_win_smart := avg lt_smart_wallets win; bst_loss_smart := avg lt_smart_wallets loss;
     bst_win_buyers := avg lt_buyer_count win; bst_loss_buyers := avg lt_buyer_count loss;
     bst_max_id := List.fold_right Z.max 0 (lt_id <$> rows) |})) db).1.

(* learning/db.rs 287-294: TierSummaryRow *)
Record TierSummaryRow := mkTierSummaryRow {
  sm_n : Z; sm_wins : Z; sm_avg_pnl : f64; sm_gross_profit : f64; sm_gross_loss : f64 }.

(* learning/db.rs 117-131: LearningLogPg::stats_by_tier *)
Definition tier_summary (rows : list LearningTradeRow) : TierSummaryRow :=
  let win := List.filter won rows in
  let loss := List.filter (fun t => negb (won t)) rows in {|
    sm_n := Z.of_nat (length rows); sm_wins := Z.of_nat (length win);
    sm_avg_pnl := coalesce0 (agg sql_avg (lt_pnl_sol_pct <$> rows));
    sm_gross_profit := coalesce0 (agg sql_sum (lt_pnl_sol_pct <$> win));
    sm_gross_loss := coalesce0 (PrimFloat.abs <$> agg sql_sum (lt_pnl_sol_pct <$> loss)) |}.

Definition more_frequent (a b : string * Z) : Prop := b.2 <= a.2.
#[local] Instance more_frequent_dec a b : Decision (more_frequent a b) := ltac:(unfold more_frequent; apply _).

(** [GROUP BY close_reason ORDER BY n DESC]; the order of equal counts is the
    server's choice *)
(* learning/db.rs 133-144: LearningLogPg::stats_by_tier *)
Definition exit_reasons (rows : list LearningTradeRow) : list (string * Z) :=
  let reasons := remove_dups (lt_close_reason <$> rows) in
  merge_sort more_frequent
    ((fun r => (r, Z.of_nat (length (List.filter (fun t => String.eqb (lt_close_reason t) r) rows)))) <$> reasons).

(* learning/db.rs 146-150: LearningLogPg::stats_by_tier *)
Definition winrate_pct (s : TierSummaryRow) : f64 :=
  if 0 <? sm_n s then (f64_of_Z (sm_wins s) / f64_of_Z (sm_n s) * 100)%float else 0%float.

(* learning/db.rs 151-157: LearningLogPg::stats_by_tier *)
Definition profit_factor (s : TierSummaryRow) : f64 :=
  if (F64_EPSILON <? sm_gross_loss s)%float then (sm_gross_profit s / sm_gross_loss s)%float
  else if (0 <? sm_gross_profit s)%float then infinity else 0%float.

(* learning/db.rs 319-327: TierSubtypeStats *)
Record TierSubtypeStats := mkTierSubtypeStats {
  sb_n : Z; sb_wins : Z; sb_winrate_pct : f64; sb_avg_pnl_pct : f64; sb_profit_factor : f64;
  sb_exit_reasons : list (string * Z) }.

(* learning/db.rs 255-285: tier_summary_to_subtype *)
Definition tier_summary_to_subtype (s : TierSummaryRow) (reasons : list (string * Z)) : TierSubtypeStats :=
  mkTierSubtypeStats (sm_n s) (sm_wins s) (winrate_pct s) (sm_avg_pnl s) (profit_factor s) reasons.

(* learning/db.rs 308-317: TierTradeStats *)
Record TierTradeStats := mkTierTradeStats { ti_tier : string; ti_stats : TierSubtypeStats }.

(** a statement with the fault it meets and the tables it finds *)
Definition Call : Type := Fault * Database.
Definition ask {A} (c : Call) (g : Database -> A) : result A string := (execute c.1 (query g) c.2).1.

Definition tier_rows (tier : string) (db : Database) : list LearningTradeRow :=
  List.filter (fun t => String.eqb (ls_tier (lt_snapshot t)) tier) (db_learning_trades db).

(** the summary and the reasons are two statements *)
(* learning/db.rs 116-175: LearningLogPg::stats_by_tier *)
Definition stats_by_tier (tier : string) (c1 c2 : Call) : result TierTradeStats string :=
  try (ask c1 (fun db => tier_summary (tier_rows tier db))) (fun summary =>
  try (ask c2 (fun db => exit_reasons (tier_rows tier db))) (fun reasons =>
  Ok (mkTierTradeStats tier (tier_summary_to_subtype summary reasons)))).

Definition subtype_rows (subtype : string) (db : Database) : list LearningTradeRow :=
  List.filter (fun t => bool_decide (ls_fresh_b_subtype (lt_snapshot t) = Some subtype)) (tier_rows "B" db).

(* learning/db.rs 194-230: LearningLogPg::stats_by_tier_fresh_subtype *)
Definition stats_by_tier_fresh_subtype (subtype : string) (c1 c2 : Call) : result TierSubtypeStats string :=
  try (ask c1 (fun db => tier_summary (subtype_rows subtype db))) (fun summary =>
  try (ask c2 (fun db => exit_reasons (subtype_rows subtype db))) (fun reasons =>
  Ok (tier_summary_to_subtype summary reasons))).

(* learning/db.rs 329-334: FreshWatchlistSkipStats *)
Record FreshWatchlistSkipStats := mkFreshWatchlistSkipStats { wk_added : Z; wk_passed : Z; wk_rejected : Z }.

(* learning/db.rs 232-252: LearningLogPg::fresh_watchlist_skip_stats *)
Definition fresh_watchlist_skip_stats (c : Call) : result FreshWatchlistSkipStats string :=
  ask c (fun db =>
    let rows := List.filter (fun r => String.eqb (sk_stage r) "fresh_watchlist") (db_learning_skipped db) in
    let reason (names : list string) := Z.of_nat (length (List.filter (fun r => bool_decide (sk_reason r ∈ names)) rows)) in
    mkFreshWatchlistSkipStats (reason ["watchlist_added"]) (reason ["watchlist_passed"])
      (reason ["watchlist_rejected"; "timeout_b_gates"])).

(* learning/db.rs 336-343: TierBDetailedStats *)
Record TierBDetailedStats := mkTierBDetailedStats {
  bd_overall : TierTradeStats; bd_true_fresh : TierSubtypeStats; bd_unknown : TierSubtypeStats;
  bd_fresh_watchlist : FreshWatchlistSkipStats }.

(** one statement after the other; the first error is the answer *)
(* learning/db.rs 177-192: LearningLogPg::stats_tier_b_detailed *)
Definition stats_tier_b_detailed (c1 c2 c3 c4 c5 c6 c7 : Call) : result TierBDetailedStats string :=
  try (stats_by_tier "B" c1 c2) (fun overall =>
  try (stats_by_tier_fresh_subtype (fresh_b_as_str TrueFresh) c3 c4) (fun b_true_fresh =>
  try (stats_by_tier_fresh_subtype (fresh_b_as_str Unknown) c5 c6) (fun b_unknown =>
  try (fresh_watchlist_skip_stats c7) (fun fresh_watchlist =>
  Ok (mkTierBDetailedStats overall b_true_fresh b_unknown fresh_watchlist))))).

(** ** The cache in front of it *)

(* persistence/postgres/creators.rs 23-23: CREATOR_STATS_TTL *)
Definition CREATOR_STATS_TTL : Z := 180 * 1000000000.
(* persistence/postgres/creators.rs 25-25: CREATOR_STATS_CACHE_MAX *)
Definition CREATOR_STATS_CACHE_MAX : nat := Z.to_nat 50000.

(** instants are nanoseconds of a clock that does not go back *)
(* persistence/postgres/creators.rs 27-32: CreatorsRepositoryPostgres *)
Definition StatsCache : Type := gmap string (option CreatorStatistics * Z).

(* persistence/postgres/creators.rs 42-50: CreatorsRepositoryPostgres::cache_get *)
Definition cache_get (now : Z) (dev : string) (cache : StatsCache) : option (option CreatorStatistics) :=
  '(val, at_) ← cache !! dev;
  if now - at_ <? CREATOR_STATS_TTL then Some val else None.

(* persistence/postgres/creators.rs 52-64: CreatorsRepositoryPostgres::cache_put *)
Definition cache_put (now : Z) (dev : string) (val : option CreatorStatistics) (cache : StatsCache) : StatsCache :=
  if (CREATOR_STATS_CACHE_MAX <=? size cache)%nat then
    let cache := filter (fun kv => bool_decide (now - kv.2.2 < CREATOR_STATS_TTL) = true) cache in
    if (CREATOR_STATS_CACHE_MAX <=? size cache)%nat then cache
    else <[dev := (val, now)]> cache
  else <[dev := (val, now)]> cache.

(** ** Callers *)

(** a caller that missed the cache: its query is out, or answered and about to
    be stored *)
Inductive StatsCall := CallQuery (dev : string) | CallStore (dev : string) (val : option CreatorStatistics) | CallDone.

(** what a caller is given; [sq_read] is the number of the change of the
    database its value was computed at, [sq_put] the instant it was stored *)
Record StatsAnswer := mkStatsAnswer {
  sq_dev : string; sq_val : result (option CreatorStatistics) string; sq_at : Z }.

Record StatsRun := mkStatsRun {
  sr_db : Database; sr_cache : StatsCache; sr_calls : list StatsCall; sr_clock : Z; sr_answers : list StatsAnswer }.
#[export] Instance StatsRun_settable : Settable StatsRun := fun r =>
  mkStatsRun (sr_db r) (sr_cache r) (sr_calls r) (sr_clock r) (sr_answers r).

Definition answer (dev : string) (val : result (option CreatorStatistics) string) (now : Z) (r : StatsRun) : StatsRun :=
  r <| sr_answers := sr_answers r ++ [mkStatsAnswer dev val now] |>.

Inductive StatsStep :=
  | SWrite (op : DbOp) | STime (dt : Z) | SAsk (dev : string) | SQuery (n : nat) (f : Fault) | SStore (n : nat).

Context (show_address : Address -> string) (as_numeric : f64 -> f64).

(** [get_creator_stats_in_sol] of any number of callers, between the atomic
    accesses to the cache and the database *)
(* persistence/postgres/creators.rs 95-227: CreatorsRepositoryPostgres::get_creator_stats_in_sol *)
Definition stats_step (s : StatsStep) (r : StatsRun) : option StatsRun :=
  match s with
  | SWrite op => Some (r <| sr_db := db_step show_address as_numeric op (sr_db r) |>)
  | STime dt => if 0 <=? dt then Some (r <| sr_clock := sr_clock r + dt |>) else None
  | SAsk dev =>
      Some (match cache_get (sr_clock r) dev (sr_cache r) with
            | Some cached => answer dev (Ok cached) (sr_clock r) r
            | None => r <| sr_calls := sr_calls r ++ [CallQuery dev] |>
            end)
  | SQuery n f =>
      match sr_calls r !! n with
      | Some (CallQuery dev) =>
          Some (match (execute f (query (creator_statistics dev)) (sr_db r)).1 with
                | Ok val => r <| sr_calls := <[n := CallStore dev val]> (sr_calls r) |>
                | Err e => answer dev (Err e) (sr_clock r) (r <| sr_calls := <[n := CallDone]> (sr_calls r) |>)
                end)
      | _ => None
      end
  | SStore n =>
      match sr_calls r !! n with
      | Some (CallStore dev val) =>
          Some (answer dev (Ok val) (sr_clock r)
                  (r <| sr_cache := cache_put (sr_clock r) dev val (sr_cache r) |>
                     <| sr_calls := <[n := CallDone]> (sr_calls r) |>))
      | _ => None
      end
  end.

Fixpoint stats_run (steps : list StatsStep) (r : StatsRun) : option StatsRun :=
  match steps with [] => Some r | s :: steps => r ← stats_step s r; stats_run steps r end.

Definition stats_new (db : Database) (clock : Z) : StatsRun := mkStatsRun db ∅ [] clock [].

(** ** How old an answer may be *)

Lemma cache_put_lookup now dev val cache k v :
  cache_put now dev val cache !! k = Some v -> (k = dev /\ v = (val, now)) \/ cache !! k = Some v.
Proof.
  unfold cache_put. repeat case_match; intros L.
  - right. by apply map_lookup_filter_Some in L as [? _].
  - apply lookup_insert_Some in L as [[-> <-]|[_ L]]; [by left|right]. by apply map_lookup_filter_Some in L as [? _].
  - apply lookup_insert_Some in L as [[-> <-]|[_ L]]; [by left|by right].
Qed.

Lemma size_insert_le {A} (m : gmap string A) k v n : (size m < n)%nat -> (size (<[k := v]> m) <= n)%nat.
Proof. intros L. rewrite map_size_insert. destruct (m !! k); cbn; lia. Qed.

Lemma cache_put_size now dev val cache : (size cache <= CREATOR_STATS_CACHE_MAX)%nat ->
  (size (cache_put now dev val cache) <= CREATOR_STATS_CACHE_MAX)%nat.
Proof.
  intros L. unfold cache_put. cbv zeta. set (kept := filter _ cache).
  assert (size kept <= size cache)%nat as Lk by (apply map_subseteq_size, map_filter_subseteq).
  destruct (Nat.leb_spec CREATOR_STATS_CACHE_MAX (size cache)) as [L1|L1];
    [destruct (Nat.leb_spec CREATOR_STATS_CACHE_MAX (size kept)) as [L2|L2]|]; [lia|..]; by apply size_insert_le.
Qed.

Section Staleness.
Context (r0 : StatsRun).

Lemma stats_run_app steps more : forall r,
  stats_run (steps ++ more) r = r' ← stats_run steps r; stats_run more r'.
Proof. induction steps as [|s steps IH]; intros r; cbn; [done|]. destruct (stats_step s r); [apply IH|done]. Qed.

(** [val] is what the database said of [dev] at a query of the run *)
Definition read_at (steps : list StatsStep) (dev : string) (val : option CreatorStatistics) : Prop :=
  exists pre n f post r, steps = pre ++ SQuery n f :: post /\ stats_run pre r0 = Some r /\
    val = creator_statistics dev (sr_db r).

(** and it was stored at the instant [t] *)
Definition stored_at (steps : list StatsStep) (dev : string) (val : option CreatorStatistics) (t : Z) : Prop :=
  exists pre n post r, steps = pre ++ SStore n :: post /\ stats_run pre r0 = Some r /\ sr_clock r = t /\
    read_at pre dev val.

Lemma read_later steps more dev val : read_at steps dev val -> read_at (steps ++ more) dev val.
Proof.
  intros (pre & n & f & post & r & -> & R & ->). exists pre, n, f, (post ++ more), r.
  by rewrite <- app_assoc, <- app_comm_cons.
Qed.

Lemma stored_later steps more dev val t : stored_at steps dev val t -> stored_at (steps ++ more) dev val t.
Proof.
  intros (pre & n & post & r & -> & R & C & V). exists pre, n, (post ++ more), r.
  by rewrite <- app_assoc, <- app_comm_cons.
Qed.

Record stats_ok (steps : list StatsStep) (r : StatsRun) : Prop := {
  so_size : (size (sr_cache r) <= CREATOR_STATS_CACHE_MAX)%nat;
  so_calls : forall n dev val, sr_calls r !! n = Some (CallStore dev val) -> read_at steps dev val;
  so_cache : forall dev val t, sr_cache r !! dev = Some (val, t) -> t <= sr_clock r /\ stored_at steps dev val t;
  so_answers : forall a val, a ∈ sr_answers r -> sq_val a = Ok val ->
    exists t, t <= sq_at a < t + CREATOR_STATS_TTL /\ stored_at steps (sq_dev a) val t
}.

(** a step that touches neither cache nor answers keeps them *)
Lemma stats_ok_later steps s r : stats_ok steps r -> stats_ok (steps ++ [s]) r.
Proof.
  intros [Z1 C1 K1 A1]. split; [done|..].
  - intros n dev val L. by apply read_later, (C1 n).
  - intros dev val t L. destruct (K1 _ _ _ L). split; [done|by apply stored_later].
  - intros a val Ha V. destruct (A1 _ _ Ha V) as (t & T & St). exists t. split; [done|by apply stored_later].
Qed.

Lemma stats_ok_answer steps r now dev val : stats_ok steps r ->
  (forall v, val = Ok v -> exists t, t <= now < t + CREATOR_STATS_TTL /\ stored_at steps dev v t) ->
  stats_ok steps (answer dev val now r).
Proof.
  intros [Z1 C1 K1 A1] H1. split; [done..|]. cbn. intros a v [Ha | ->%list_elem_of_singleton]%elem_of_app V.
  - by eapply A1.
  - by apply H1.
Qed.

Lemma stats_ok_calls steps r n c calls : stats_ok steps r ->
  (forall m dev val, calls !! m = Some (CallStore dev val) -> read_at steps dev val) ->
  (forall dev val, c = CallStore dev val -> read_at steps dev val) ->
  stats_ok steps (r <| sr_calls := <[n := c]> calls |>).
Proof.
  intros [Z1 C1 K1 A1] C2 H1. split; try done. cbn. intros m dev val L.
  apply list_lookup_insert_Some in L as [(-> & E & _)|[_ L]]; [by apply H1|by eapply C2].
Qed.

Lemma stats_step_ok steps r s r' : stats_run steps r0 = Some r -> stats_ok steps r ->
  stats_step s r = Some r' -> stats_ok (steps ++ [s]) r'.
Proof.
  intros R K E. apply (stats_ok_later _ s) in K as K'.
  destruct s as [op|dt|dev|n f|n]; cbn [stats_step] in E.
  - injection E as <-. by destruct K'.
  - destruct (Z.leb_spec 0 dt); [|done]. injection E as <-. destruct K' as [Z1 C1 K1 A1]. split; try done.
    cbn. intros dev val t L. destruct (K1 _ _ _ L). split; [lia|done].
  - injection E as <-. destruct (cache_get (sr_clock r) dev (sr_cache r)) as [cached|] eqn:G.
    + apply stats_ok_answer; [done|]. intros v [= <-]. unfold cache_get in G.
      destruct (sr_cache r !! dev) as [[val t]|] eqn:L; [|done]. cbn in G.
      destruct (Z.ltb_spec (sr_clock r - t) CREATOR_STATS_TTL); [|done]. injection G as <-.
      destruct (so_cache _ _ K' _ _ _ L) as [T St]. exists t. split; [lia|done].
    + destruct K' as [Z1 C1 K1 A1]. split; try done. cbn. intros m dev' val L.
      apply lookup_app_Some in L as [L|[_ L]]; [by eapply C1|]. by apply list_lookup_singleton_Some in L as [_ L].
  - destruct (sr_calls r !! n) as [[dev| |]|] eqn:L; try done. injection E as <-.
    destruct (execute f _ _) as [[val|e] db'] eqn:Ex; cbn [fst].
    + apply stats_ok_calls; [done|apply K'|]. intros dev' val' [= <- <-]. exists steps, n, f, [], r.
      split_and!; [done|done|]. apply execute_ok in Ex. by injection Ex as <- _.
    + apply stats_ok_answer; [|done]. apply stats_ok_calls; [done|apply K'|done].
  - destruct (sr_calls r !! n) as [[|dev val|]|] eqn:L; try done. injection E as <-.
    assert (stored_at (steps ++ [SStore n]) dev val (sr_clock r)) as St.
    { exists steps, n, [], r. split_and!; [done..|]. by eapply so_calls. }
    apply stats_ok_answer.
    + apply stats_ok_calls; [|apply K'|done]. destruct K' as [Z1 C1 K1 A1]. split; try done; cbn.
      * by apply cache_put_size.
      * intros k v t [[-> [= -> ->]]|Lk]%cache_put_lookup; [done|by apply K1].
    + intros v [= <-]. exists (sr_clock r). split; [|done]. cbn. unfold CREATOR_STATS_TTL. lia.
Qed.

End Staleness.

Lemma stats_run_ok db clock steps r : stats_run steps (stats_new db clock) = Some r ->
  stats_ok (stats_new db clock) steps r.
Proof.
  revert r. induction steps as [|s steps IH] using rev_ind; intros r R.
  - injection R as <-. split; [apply Nat.le_0_l|done|done|].
    intros a val Ha. by apply not_elem_of_nil in Ha.
  - rewrite stats_run_app in R. destruct (stats_run steps _) as [r1|] eqn:R1; [|done]. cbn in R.
    destruct (stats_step s r1) as [r2|] eqn:S; [|done]. injection R as <-. eapply stats_step_ok; eauto.
Qed.

(** C7: Whatever the callers, the changes of the database and the faults between
    their accesses, every answer about a developer is what the database said of
    him at a query of this run whose result was stored less than 180 seconds
    before the answer, and the cache never holds more than 50000 entries. *)
Theorem creator_stats_recent db clock steps r :
  stats_run steps (stats_new db clock) = Some r ->
  (size (sr_cache r) <= CREATOR_STATS_CACHE_MAX)%nat /\
  forall a val, a ∈ sr_answers r -> sq_val a = Ok val ->
    exists t, t <= sq_at a < t + CREATOR_STATS_TTL /\ stored_at (stats_new db clock) steps (sq_dev a) val t.
Proof. intros R. apply stats_run_ok in R as []. by split. Qed.

End Aggregates.

(** ** A run with a stale answer *)

(** plain sums and the middle of the sorted group *)
#[local] Instance plain_floats : SqlFloats := {
  sql_avg l := (List.fold_left PrimFloat.add l 0 / f64_of_Z (Z.of_nat (length l)))%float;
  sql_avg_int l := (f64_of_Z (List.fold_left Z.add l 0%Z) / f64_of_Z (Z.of_nat (length l)))%float;
  sql_sum l := List.fold_left PrimFloat.add l 0%float;
  sql_median l := List.nth (length l / 2) (f64_sort l) 0%float
}.

Definition demo_show (a : Address) : string := pretty (Z.of_N a).

(** asked, answered, a second coin, asked again within three minutes, and after *)
Definition demo_stats_steps : list StatsStep :=
  [SWrite (OpToken Served 1%N 9%N 5); SAsk "9"; SQuery 0 Served; SStore 0;
   SWrite (OpToken Served 2%N 9%N 6); STime (100 * 1000000000); SAsk "9";
   STime (80 * 1000000000); SAsk "9"; SQuery 1 Served; SStore 1].

Definition demo_coins (a : StatsAnswer) : option Z :=
  match sq_val a with Ok (Some s) => Some (cs_total_coins s) | _ => None end.

Definition demo_stats_run : option StatsRun := stats_run demo_show id demo_stats_steps (stats_new database_new 0).

Example demo_stats_answers : (fun r => demo_coins <$> sr_answers r) <$> demo_stats_run = Some [Some 1; Some 1; Some 2].
Proof. by vm_compute. Qed.

Definition demo_final : StatsRun := default (stats_new database_new 0) demo_stats_run.
Definition demo_stale : StatsAnswer := default (mkStatsAnswer "" (Err "") 0) (sr_answers demo_final !! 1%nat).

(** the second answer is of the one coin there was 100 seconds before *)
Lemma creator_stats_recent_witness : exists val, demo_stale ∈ sr_answers demo_final /\ sq_val demo_stale = Ok val /\
  (length (coins_of "9" (sr_db demo_final)) = 2)%nat /\
  exists t, t <= sq_at demo_stale < t + CREATOR_STATS_TTL /\
    stored_at demo_show id (stats_new database_new 0) demo_stats_steps (sq_dev demo_stale) val t.
Proof.
  assert (demo_stats_run = Some demo_final) as R by (vm_compute; reflexivity).
  assert (demo_stale ∈ sr_answers demo_final) as Ha by (apply (list_elem_of_lookup_2 _ 1); vm_compute; reflexivity).
  destruct (sq_val demo_stale) as [val|e] eqn:V; [|by vm_compute in V].
  exists val. split_and!; [done|done|vm_compute; reflexivity|].
  by apply (creator_stats_recent demo_show id database_new 0 demo_stats_steps demo_final R).
Defined.
