(* ===== verification/DbRuns.v ===== *)
(** Theorems across the database: what the write queue accepts ends in the
    tables, a developer whose token crashed is never scored again, the spam gate
    decides on the real number of coins, and a stored trade is never read back. *)
From Stdlib Require Import Ascii.
From S2P Require Import Prelude Text Amounts Pump Swarm Config Registry Strategy Features ScoreEngine Learning.
From S2P Require Import LivePosition ExitEngine Positions Tick Blacklist Brokers Wallets Messages Manager System Runs.
From S2P Require Import Feed PostExit Storage Pipeline Watchlist Creator Admission Database Analytics.

Local Open Scope string_scope.
Local Open Scope list_scope.
Local Open Scope Z_scope.

(** ** The latest row *)

Lemma latest_spec {A} (key : A -> Z) rows :
  match latest key rows with
  | Some r => r ∈ rows /\ Forall (fun r' => key r' <= key r) rows
  | None => rows = []
  end.
Proof.
  induction rows as [|r rows IH]; [done|]. cbn. fold (latest key rows). destruct (latest key rows) as [b|].
  - destruct IH as [Hb F]. destruct (Z.leb_spec (key b) (key r)) as [L|L].
    + split; [by left|]. constructor; [lia|]. eapply Forall_impl; [exact F|]. cbn. lia.
    + split; [by right|]. constructor; [lia|done].
  - subst. split; [by left|]. by constructor.
Qed.

Lemma latest_some {A} (key : A -> Z) rows r : r ∈ rows -> exists b, latest key rows = Some b /\ b ∈ rows.
Proof.
  intros Hr. pose proof (latest_spec key rows) as S. destruct (latest key rows) as [b|]; [exists b; by destruct S|].
  subst. by apply not_elem_of_nil in Hr.
Qed.

(** ** A crash bans the developer for good *)

Section Ban.
Context {B P : Type} `{PP : !Pool P, BB : !Broker B P}.
Context (show_address : Address -> string) (to_json : V3TapeWire -> string) (as_numeric : f64 -> f64).
Context (of_base58 : string -> Address).
Implicit Types (s : Manager B P) (pos : Position P).

(** what the tasks of the manager write to the blacklist, when the server serves them *)
Definition blacklist_writes (es : list (Effect P)) : list DbOp :=
  omap (fun e => match e with Notify (InsertDevBlacklist entry) => Some (OpBlacklist Served entry) | _ => None end) es.

Lemma close_bans m w reason q pos now dev s s' es :
  close_position show_address to_json m w reason q pos now s = Ret (tt, s', es) ->
  ps_dev_address pos = Some dev -> db_enabled (mg_dev_blacklist_cfg s) = true ->
  starts_with "SL CRASH" reason = true ->
  exists entry, Notify (InsertDevBlacklist entry) ∈ es /\ de_dev_wallet entry = show_address dev /\
    de_mint entry = show_address m /\ de_expires_at entry = 0.
Proof.
  intros E D En R. unfold close_position in E. apply bind_inv in E as (u1 & s1 & e1 & e2 & E1 & E & ->).
  destruct (close_pnl pos q) as [pnl_sol pnl_pct].
  apply bind_inv in E as (u2 & s2 & e3 & e4 & E2 & E & ->).
  apply bind_inv in E as (u3 & s3 & e5 & e6 & E3 & E & ->).
  apply bind_inv in E as (bl & s4 & e7 & e8 & E4 & E & ->).
  apply bind_inv in E as (u5 & s5 & e9 & e10 & E5 & _ & ->).
  injection E1 as _ <- <-. injection E2 as _ <- <-. injection E3 as _ <- <-. injection E4 as <- <- <-.
  set (sc := close_quarantine _ _ _ _ _ _) in E5.
  assert (mg_dev_blacklist_cfg sc = mg_dev_blacklist_cfg s) as C.
  { subst sc. unfold close_quarantine, maybe_finalize_closed_mint. by repeat case_match. }
  unfold blacklist_entry in E5. rewrite C, D in E5. cbn [mbind option_bind] in E5.
  unfold classify_dev_blacklist in E5. rewrite En in E5. unfold is_permanent_rug_exit in E5. rewrite R in E5. cbn in E5.
  injection E5 as _ _ <-. eexists. split; [|split; [|split]].
  - cbn. by left.
  - done.
  - done.
  - done.
Qed.

(** a full sell that leaves no position was confirmed, and closed it *)
Lemma full_sell_closes m w percent reason pos now s s' es :
  handle_execute_sell show_address to_json m w percent reason now s = Ret (tt, s', es) ->
  (100 <=? percent)%float = true ->
  mg_positions s !! pos_key m w = Some pos -> mg_positions s' !! pos_key m w = None ->
  exists q pos' s1 es1 es2, ps_dev_address pos' = ps_dev_address pos /\
    mg_dev_blacklist_cfg s1 = mg_dev_blacklist_cfg s /\
    close_position show_address to_json m w reason q pos' now s1 = Ret (tt, s', es2) /\ es = es1 ++ es2.
Proof.
  intros E F Hp Hn. unfold handle_execute_sell in E. rewrite !bind_gets, Hp in E.
  destruct (wallet_get (mg_wallets s) w) as [wh|]; [|injection E as <- _; congruence].
  rewrite bind_modify, bind_gets in E.
  apply bind_inv in E as (q & s1 & e1 & e2 & E1 & E & ->).
  assert (s1 = s <| mg_positions := delete (pos_key m w) (mg_positions s) |>) as ->.
  { unfold lift in E1. destruct (sell_quote _ _ _ _); [|done]. by injection E1 as _ <- _. }
  apply bind_inv in E as (res & s2 & e3 & e4 & E2 & E & ->).
  assert (mg_dev_blacklist_cfg s2 = mg_dev_blacklist_cfg s) as C.
  { unfold wallet_sell in E2. apply bind_inv in E2 as (rb & s3 & e5 & e6 & E3 & E2 & ->).
    rewrite bind_modify in E2. unfold lift in E3. destruct (broker_sell _ _ _ _ _); [|done].
    injection E3 as _ <- _. by injection E2 as _ <- _. }
  destruct res as [r|err].
  2: { destruct (run_sell_failed show_address m w (broker_mode_label (wh_broker wh)) percent reason q err pos now s2)
         as [es' E']. rewrite E' in E. injection E as <- _. cbn in Hn. by rewrite lookup_insert_eq in Hn. }
  unfold sell_confirmed in E. cbv zeta in E. rewrite bind_tell in E.
  assert ((percent <? 100)%float = false) as L by f64_order. rewrite F, L in E. unfold when in E. rewrite bind_ret in E.
  match type of E with context [(refresh_cached_balance w ;; broadcast_wallet_balances ;; ?k) s2] =>
    destruct (run_balances w k s2) as (s3 & e5 & (rg & bl & ->) & E') end.
  rewrite E' in E. destruct (close_position _ _ _ _ _ _ _ _ _) as [[[[] s4] e6]|] eqn:Cl; [|done].
  injection E as <- <-. eexists q, _, _, _, e6. split; [|split; [|split; [exact Cl|]]]; [done|exact C|].
  by rewrite !app_assoc, app_comm_cons, !app_assoc.
Qed.

(** ** Its entry stays, and stops the developer *)

Lemma ban_written entry es db : Notify (InsertDevBlacklist entry) ∈ es ->
  varchar 44 (de_dev_wallet entry) = true -> varchar 44 (de_mint entry) = true ->
  entry ∈ db_dev_blacklist (db_run show_address as_numeric (blacklist_writes es) db).
Proof.
  intros He V1 V2. apply list_elem_of_lookup in He as [i Hi]. apply take_drop_middle in Hi. rewrite <- Hi.
  unfold blacklist_writes. rewrite omap_app. cbn [omap list_omap].
  unfold db_run. rewrite List.fold_left_app. cbn [List.fold_left]. set (db1 := List.fold_left _ _ db).
  pose proof (db_run_sound show_address as_numeric (blacklist_writes (drop (S i) es))
    (db_step show_address as_numeric (OpBlacklist Served entry) db1)) as [G _].
  apply gw_dev_blacklist in G. eapply elem_of_prefix; [|exact G]. cbn [db_step].
  unfold insert_dev_blacklist, execute, insert_blacklist_row. rewrite V1, V2. cbn. apply elem_of_app. right. by left.
Qed.

Lemma ban_active f_now dev entry db : entry ∈ db_dev_blacklist db ->
  de_dev_wallet entry = show_address dev -> de_expires_at entry = 0 ->
  exists active, active_for_dev Served (show_address dev) f_now db = Ok (Some active).
Proof.
  intros He W X. unfold active_for_dev. cbn.
  destruct (latest_some de_created_at (List.filter (blacklist_row_active (show_address dev) f_now) (db_dev_blacklist db)) entry)
    as (b & -> & _); [|by eexists].
  apply list_elem_of_In, filter_In. split; [by apply list_elem_of_In|].
  unfold blacklist_row_active. by rewrite W, String.eqb_refl, X.
Qed.

Lemma active_stops cfg lk create bucket wl evs wl' active :
  lk_blacklist lk = Ok (Some active) -> ad_dev_blacklist_enabled cfg = true ->
  admit_create of_base58 show_address cfg lk create bucket wl = Ret (evs, wl') ->
  wl' = wl /\ (forall inp, AScore inp ∉ evs) /\ (forall m d c r, AWatch m d c r ∉ evs).
Proof.
  intros A En H. unfold admit_create in H. destruct (is_unsupported_quote_mint of_base58 create).
  { injection H as <- <-. unfold adm_log. split; [done|]. case_match; set_solver. }
  destruct (blacklist_gate cfg lk) as [skipped|] eqn:G.
  2: { unfold blacklist_gate in G. rewrite En, A in G. by destruct (format_filter_skip _ _ _). }
  injection H as <- <-. split; [done|].
  split; intros *; rewrite !elem_of_cons; intros [?|[?|H]]; try done;
    (eapply blacklist_events in H as [?|(? & ? & ?)]; [..|exact G]); done.
Qed.

(** C8: Once the sale of a position under a crash stop is confirmed, the task it
    leaves bans the developer for good: whatever is written to the database
    afterwards, no later token of this developer is scored or watched while the
    server answers the lookup. *)
Theorem crash_bans_developer m w percent reason pos now dev s s' es db later now'
    cfg lk create bucket wl evs wl' :
  (forall a, varchar 44 (show_address a) = true) ->
  handle_execute_sell show_address to_json m w percent reason now s = Ret (tt, s', es) ->
  (100 <=? percent)%float = true ->
  mg_positions s !! pos_key m w = Some pos -> mg_positions s' !! pos_key m w = None ->
  ps_dev_address pos = Some dev -> db_enabled (mg_dev_blacklist_cfg s) = true ->
  starts_with "SL CRASH" reason = true ->
  lk_blacklist lk = active_for_dev Served (show_address (gc_user create)) now'
                      (db_run show_address as_numeric (blacklist_writes es ++ later) db) ->
  gc_user create = dev -> ad_dev_blacklist_enabled cfg = true ->
  admit_create of_base58 show_address cfg lk create bucket wl = Ret (evs, wl') ->
  wl' = wl /\ (forall inp, AScore inp ∉ evs) /\ (forall m d c r, AWatch m d c r ∉ evs).
Proof.
  intros V E F Hp Hn D En R L Eu Ena A. rewrite Eu in L.
  destruct (full_sell_closes _ _ _ _ _ _ _ _ _ E F Hp Hn) as (q & pos' & s1 & es1 & es2 & D' & C & Cl & ->).
  rewrite <- D' in D. rewrite <- C in En.
  destruct (close_bans _ _ _ _ _ _ _ _ _ _ Cl D En R) as (entry & He & W & Mi & X).
  assert (entry ∈ db_dev_blacklist (db_run show_address as_numeric (blacklist_writes (es1 ++ es2) ++ later) db)) as Hd.
  { unfold db_run. rewrite List.fold_left_app. change (List.fold_left _ later ?d) with (db_run show_address as_numeric later d).
    destruct (db_run_sound show_address as_numeric later (db_run show_address as_numeric (blacklist_writes (es1 ++ es2)) db)) as [G _].
    eapply elem_of_prefix; [|apply (gw_dev_blacklist _ _ G)]. apply ban_written.
    - apply elem_of_app. by right.
    - by rewrite W.
    - by rewrite Mi. }
  destruct (ban_active now' dev entry _ Hd W X) as [active Ha]. rewrite Ha in L.
  by eapply active_stops.
Qed.

End Ban.

(** ** The developer of a position that crashed *)

Definition ban_show (a : Address) : string := if decide (a = 7%N) then "dev" else "mint".

Definition ban_sale := handle_execute_sell ban_show demo_json 1%N "wallet_1" 100 "SL CRASH" 1700000103 (sy_mgr demo_crashed).
Definition ban_state : Manager MockBroker (PumpPool Bonding) :=
  match ban_sale with Ret r => r.1.2 | Panic _ => sy_mgr demo_crashed end.
Definition ban_effects : list (Effect (PumpPool Bonding)) := match ban_sale with Ret r => r.2 | Panic _ => [] end.

(** the same developer creates another token a year later *)
Definition ban_create : GeneralCreate := mkGeneralCreate 3%N 7%N None 0%N.
Definition ban_later : list DbOp := [OpToken Served 3%N 7%N 5].
Definition ban_database : Database := db_run ban_show id (blacklist_writes ban_effects ++ ban_later) database_new.
Definition ban_lookups : Lookups :=
  mkLookups (active_for_dev Served (ban_show 7%N) 1731536103 ban_database) (fun _ => Ok 0) (Ok None) (Ok 0).
Definition ban_events : list AdmEvent :=
  match admit_create (fun _ => 0%N) ban_show fresh_config ban_lookups ban_create fresh_bucket watchlist_new with
  | Ret r => r.1 | Panic _ => []
  end.

Lemma crash_bans_developer_witness :
  ban_events = [ACount ACreate; ALatencyCreated 3%N; ACount AFilterRejected;
                ALog "filter_dev_blacklist" "dev_blacklist_permanent"] /\
  watchlist_new = watchlist_new /\ (forall inp, AScore inp ∉ ban_events) /\ (forall m d c r, AWatch m d c r ∉ ban_events).
Proof.
  assert (handle_execute_sell ban_show demo_json 1%N "wallet_1" 100 "SL CRASH" 1700000103 (sy_mgr demo_crashed)
          = Ret (tt, ban_state, ban_effects)) as E by (vm_compute; reflexivity).
  assert (admit_create (fun _ => 0%N) ban_show fresh_config ban_lookups ban_create fresh_bucket watchlist_new
          = Ret (ban_events, watchlist_new)) as A by (vm_compute; reflexivity).
  assert (mg_positions (sy_mgr demo_crashed) !! pos_key 1%N "wallet_1" = Some demo_held) as Hp by (vm_compute; reflexivity).
  assert (mg_positions ban_state !! pos_key 1%N "wallet_1" = None) as Hn by (vm_compute; reflexivity).
  assert (forall a, varchar 44 (ban_show a) = true) as V by (intros a; unfold ban_show; by case_decide).
  assert (ps_dev_address demo_held = Some 7%N) as D by (vm_compute; reflexivity).
  assert (db_enabled (mg_dev_blacklist_cfg (sy_mgr demo_crashed)) = true) as En by (vm_compute; reflexivity).
  assert (lk_blacklist ban_lookups = active_for_dev Served (ban_show (gc_user ban_create)) 1731536103
            (db_run ban_show id (blacklist_writes ban_effects ++ ban_later) database_new)) as L
    by (unfold ban_lookups, ban_database; cbn [lk_blacklist gc_user ban_create]; reflexivity).
  assert (starts_with "SL CRASH" "SL CRASH" = true) as S by (vm_compute; reflexivity).
  assert ((100 <=? 100)%float = true) as F by (vm_compute; reflexivity).
  split; [vm_compute; reflexivity|].
  apply (crash_bans_developer ban_show demo_json id (fun _ => 0%N) 1%N "wallet_1" 100%float "SL CRASH" demo_held 1700000103 7%N
           (sy_mgr demo_crashed) ban_state ban_effects database_new ban_later 1731536103
           fresh_config ban_lookups ban_create fresh_bucket watchlist_new ban_events watchlist_new V E
           F Hp Hn D En S L eq_refl eq_refl A).
Defined.

(** ** What the write queue accepts ends in the tables *)

Section Stored.
Context (show_address : Address -> string) (as_numeric : f64 -> f64).

Definition tape_texts (rows : list TapeRow) : list (string * f64 * string) :=
  (fun r => (tr_coin_address r, tr_mcap_sol r, tr_source r)) <$> rows.

(** C6: Whatever is sent to the write queue and however its worker and its timer
    interleave, when the coins of the accepted trades are known and the server
    serves the statements, the tables gain exactly the accepted trades and the
    accepted valid samples, each once and in the order they were accepted. *)
Theorem queue_reaches_tables es now db :
  let ops := accepted es write_queue_new in
  let db' := db_run show_address as_numeric (write_op <$> wq_written (queue_close now (queue_run es write_queue_new))) db in
  Forall (fun e => storable e db) (trades_of ops) ->
  Forall (fun r => varchar 44 r.1.1 && varchar 16 r.2 = true) (tapes_of ops) ->
  trades_added as_numeric (trades_of ops) db db' /\
  tape_texts (db_tape db') = tape_texts (db_tape db) ++ tapes_of ops.
Proof.
  intros ops db' St Tp. destruct (queue_drained es now) as (_ & _ & Sv & Tv). fold ops in Sv, Tv.
  subst db'. rewrite <- Sv, <- Tv in *. by apply write_run_added.
Qed.

(** ** The spam gate counts as if it counted all *)

Lemma capped_count dev cap db : 0 <= cap < I64_MAX ->
  count_creator_coins_capped Served dev cap db = Ok (Z.min (cap + 1) (Z.of_nat (length (coins_of dev db)))).
Proof.
  intros R. unfold count_creator_coins_capped. set (n := Z.of_nat _). assert (0 <= n) by (subst n; lia).
  unfold I64_MAX in *. assert (i64 cap = cap) as -> by (unfold wrap_s; rewrite Z.mod_small; lia).
  cbv zeta. rewrite Z.min_r by lia. unfold execute. destruct (Z.ltb_spec (cap + 1) 0); [lia|]. cbn [fst].
  rewrite Z.max_l by lia. unfold wrap_u. rewrite Z.mod_small by lia. done.
Qed.

(** With the count of the database, capped or not, the spam gate finds the
    developer spamming exactly when he has more coins than the cap and is not
    on the white list. *)
Theorem spam_gate_exact cfg lk create cap db :
  cf_spam_skip_coins (ad_creator cfg) = Some cap -> 0 <= cap < I64_MAX ->
  lk_coins_capped lk = (fun cap => count_creator_coins_capped Served (show_address (gc_user create)) cap db) ->
  (spam_dev_gate_result show_address cfg lk create).1 =
    (cap <? Z.of_nat (length (coins_of (show_address (gc_user create)) db)))
    && negb (is_spam_dev_whitelisted (ad_creator cfg) (show_address (gc_user create))).
Proof.
  intros C R L. unfold spam_dev_gate_result. rewrite C, L, capped_count by done.
  set (n := Z.of_nat _).
  assert ((cap <? Z.min (cap + 1) n) = (cap <? n)) as ->
    by (destruct (Z.ltb_spec cap n); [apply Z.ltb_lt|apply Z.ltb_ge]; lia).
  by destruct (_ && _).
Qed.

(** ** A stored trade is never read back *)

(** The lookup of the trade of a trader in a token answers that there is
    none, whatever the tables hold: its statement does not select the role, which
    the reader of the row requires. *)
Theorem get_trade_never_answers f trader token db : get_trade show_address f trader token db = None.
Proof.
  unfold get_trade. by destruct (execute f _ db).1 as [[row|]|].
Qed.

(** C5: Whatever the program writes and whatever faults the server meets, in the
    tables every coin has its developer, every trade its trader and its coin, no
    number is given twice, and no row goes away or changes but for the samples of
    a trade of the bot. *)
Theorem database_integrity ops more :
  let db := db_run show_address as_numeric ops database_new in
  let db' := db_run show_address as_numeric (ops ++ more) database_new in
  db_ok db /\ grows db db'.
Proof.
  intros db db'. split.
  - apply (db_run_sound show_address as_numeric ops database_new). split; [|by constructor..].
    intros c row E. cbn in E. by rewrite lookup_empty in E.
  - subst db'. unfold db_run. rewrite List.fold_left_app. apply (db_run_sound show_address as_numeric more db).
Qed.

End Stored.

(** ** A queue that reaches the tables *)

Definition demo_trade : TraderEntry :=
  mkTraderEntry "trader" "coin" 0.5%float 7 true (Native (amount_from_float_native 30%float))
    (Native (amount_from_float_native 1%float)) Regular.
Definition demo_queue : list QueueEvent :=
  [QSend (TradeOp demo_trade); QReceive 100; QSend (Tape "coin" 31%float "trade"); QDeadline 101;
   QSend (Tape "coin" nan "trade"); QReceive 102; QSend (TradeOp demo_trade)].
Definition demo_tables : Database := db_run (fun _ => "coin") id [OpToken Served 1%N 1%N 5] database_new.
Definition demo_flushed : Database :=
  db_run (fun _ => "coin") id (write_op <$> wq_written (queue_close 103 (queue_run demo_queue write_queue_new))) demo_tables.

Lemma queue_reaches_tables_witness :
  trades_of (accepted demo_queue write_queue_new) = [demo_trade; demo_trade] /\
  tapes_of (accepted demo_queue write_queue_new) = [("coin", 31%float, "trade")] /\
  trades_added id [demo_trade; demo_trade] demo_tables demo_flushed /\
  tape_texts (db_tape demo_flushed) = tape_texts (db_tape demo_tables) ++ [("coin", 31%float, "trade")].
Proof.
  split; [vm_compute; reflexivity|]. split; [vm_compute; reflexivity|].
  apply (queue_reaches_tables (fun _ => "coin") id demo_queue 103 demo_tables).
  - assert (storable demo_trade demo_tables) as St by (split_and!; [vm_compute; reflexivity..|]; vm_compute; eauto).
    by repeat constructor.
  - repeat constructor.
Defined.
