(* ===== verification/Trades.v ===== *)
(** What happens to a trade of the feed (the [Action::Trade] handler of
    [main.rs]): the wallets and the manager hear of it, the performance tracker
    may learn from it, and it is stored once its token is.

    The tasks of a trade and of a created token run beside each other: the
    storing side is a step function over the waiter, the write queue and the
    database, whose theorem is that no stored trade lacks its coin. *)
From Stdlib Require Import Ascii.
From S2P Require Import Prelude Text Amounts Pump Swarm Config Registry Strategy Features ScoreEngine Learning.
From S2P Require Import LivePosition ExitEngine Positions Tick Blacklist Brokers Wallets Messages.
From S2P Require Import Feed PostExit Storage Pipeline Watchlist Creator Admission Database.

Local Open Scope string_scope.
Local Open Scope list_scope.
Local Open Scope Z_scope.

(** ** In the order of the feed *)

Section OnTrade.
Context {B P : Type} `{PP : !Pool P, BB : !Broker B P} (boxed : PumpPool Bonding -> P).

(** the wallets first, then the mailbox of the manager *)
(* main.rs 1723-1744: main *)
Definition on_trade_action (trade : TradeAction) (bucket : TokenBucket) (r : WalletRegistry B)
    : outcome (WalletRegistry B * list (PositionMessage P)) :=
  r ← wallets_on_trade trade (boxed (bucket_pool bucket)) r;
  Ret (r, [UpdateTokenBucket bucket]).

End OnTrade.

(** ** The tracker *)

(** the messages the tracker gets; [trader_pnl] is the answer of the swarm and
    [stats] that of the registry *)
(* main.rs 1746-1769: main *)
Definition track_trade (bucket : TokenBucket) (trader_pnl : f64) (stats : option CreatorStatistics)
    : outcome (list TrackerMessage) :=
  current_mc ← pool_mcap bucket;
  Ret (GetBestMarketCap ::
    match stats with
    | Some s => if (0 <? trader_pnl)%float then [TryUpdateAth current_mc s] else []
    | None => []
    end).

(** ** Storing *)

(** a task that stores a trade: waiting for its token, released, or done *)
Inductive StoreState := StWaiting | StReleased | StDone.
#[export] Instance StoreState_dec : EqDecision StoreState.
Proof. solve_decision. Defined.

Record StoreTask := mkStoreTask { so_trade : TradeAction; so_bucket : TokenBucket; so_slot : Z; so_state : StoreState }.
#[export] Instance StoreTask_settable : Settable StoreTask := fun t =>
  mkStoreTask (so_trade t) (so_bucket t) (so_slot t) (so_state t).

(** [fl_saving] are the tokens whose row has been asked for and whose creation
    is not announced yet; [fl_written] counts what the worker has handed to the
    repositories, with the outcome of each *)
Record Flow := mkFlow {
  fl_db : Database; fl_waiter : gmap Address TokenState; fl_saving : list Address; fl_tasks : list StoreTask;
  fl_queue : WriteQueue; fl_log : list (DbWrite * result unit string) }.
#[export] Instance Flow_settable : Settable Flow := fun f =>
  mkFlow (fl_db f) (fl_waiter f) (fl_saving f) (fl_tasks f) (fl_queue f) (fl_log f).

Section Flow.
Context (show_address : Address -> string) (as_numeric : f64 -> f64).
Implicit Types (f : Flow) (t : StoreTask).

Definition flow_new (db : Database) : Flow := mkFlow db ∅ [] [] write_queue_new [].

(** the tasks whose sender was released *)
Definition release (out : list (Address * nat)) (tasks : list StoreTask) : list StoreTask :=
  List.fold_left (fun tasks an => alter (fun t => t <| so_state := StReleased |>) an.2 tasks) out tasks.

Definition send_waiter (m : WaiterMessage) f : Flow :=
  let '(state, out) := waiter_step (fl_waiter f) m in
  f <| fl_waiter := state |> <| fl_tasks := release out (fl_tasks f) |>.

(** a failed save is logged and forgotten *)
(* main.rs 1706-1716: main *)
Definition create_saves (fault : Fault) (coin dev : Address) (slot : Z) f : Flow :=
  f <| fl_db := (save_token show_address fault coin dev slot (fl_db f)).2 |>
    <| fl_saving := fl_saving f ++ [coin] |>.

(* main.rs 1717-1717: main *)
Definition create_notifies (n : nat) f : option Flow :=
  coin ← fl_saving f !! n;
  Some (send_waiter (NotifyCreated coin) (f <| fl_saving := delete n (fl_saving f) |>)).

(* main.rs 1772-1779: main *)
Definition trade_waits (trade : TradeAction) (bucket : TokenBucket) (slot : Z) f : Flow :=
  send_waiter (WaitUntilCreated (trade_mint trade) (length (fl_tasks f)))
    (f <| fl_tasks := fl_tasks f ++ [mkStoreTask trade bucket slot StWaiting] |>).

(* main.rs 1790-1799: main *)
Definition trader_entry (t : StoreTask) (market_cap : Currency) (trader : Trader) : TraderEntry := {|
  en_trader_address := show_address (trade_trader (so_trade t));
  en_coin_address := show_address (trade_mint (so_trade t));
  en_realized_pnl := pnl_percent trader;
  en_slot := so_slot t;
  en_is_buy := trade_is_buy (so_trade t);
  en_market_cap := market_cap;
  en_currency := trade_size (so_trade t);
  en_role := trader_type trader
|}.

(** the answer of the swarm, and what goes to the queue; a panic ends the task *)
(* main.rs 1781-1802: main *)
Definition store_ops (t : StoreTask) (trader : option Trader) : list WriteOp :=
  match trader with
  | None => []
  | Some trader =>
      match market_cap (bucket_pool (so_bucket t)) with
      | Ret cap => [Tape (show_address (trade_mint (so_trade t))) (amount_to_float (currency_amount cap)) "trade";
                    TradeOp (trader_entry t cap trader)]
      | Panic _ => []
      end
  end.

(* main.rs 1778-1803: main *)
Definition trade_stores (n : nat) (trader : option Trader) f : option Flow :=
  t ← fl_tasks f !! n;
  if decide (so_state t = StReleased) then
    Some (f <| fl_queue := List.fold_left (fun q op => try_send op q) (store_ops t trader) (fl_queue f) |>
            <| fl_tasks := <[n := t <| so_state := StDone |>]> (fl_tasks f) |>)
  else None.

(** the next statement of the worker reaches the database *)
(* persistence/write_queue.rs 161-171: flush_batch *)
Definition worker_writes f : option Flow :=
  w ← wq_written (fl_queue f) !! length (fl_log f);
  let '(r, db) := match w with
                  | InsertTape rows => record_batch Served rows (fl_db f)
                  | SaveTrade e => save_trade as_numeric (Served, Served, Served, Served) e (fl_db f)
                  end in
  Some (f <| fl_db := db |> <| fl_log := fl_log f ++ [(w, r)] |>).

Inductive FlowStep :=
  | FCreate (fault : Fault) (coin dev : Address) (slot : Z)
  | FNotify (n : nat)
  | FTrade (trade : TradeAction) (bucket : TokenBucket) (slot : Z)
  | FStore (n : nat) (trader : option Trader)
  | FReceive (now : Z) | FDeadline (now : Z)
  | FWrite
  | FOther (op : DbOp).

Definition flow_step (st : FlowStep) f : option Flow :=
  match st with
  | FCreate fault coin dev slot => Some (create_saves fault coin dev slot f)
  | FNotify n => create_notifies n f
  | FTrade trade bucket slot => Some (trade_waits trade bucket slot f)
  | FStore n trader => trade_stores n trader f
  | FReceive now => Some (f <| fl_queue := receive_op now (fl_queue f) |>)
  | FDeadline now => Some (f <| fl_queue := flush_pending now (fl_queue f) |>)
  | FWrite => worker_writes f
  | FOther op => Some (f <| fl_db := db_step show_address as_numeric op (fl_db f) |>)
  end.

Fixpoint flow_run (sts : list FlowStep) f : option Flow :=
  match sts with [] => Some f | st :: sts => f ← flow_step st f; flow_run sts f end.

(** ** No stored trade lacks its coin *)

Context (show_fits : forall a, varchar 44 (show_address a) = true).

Definition has_coin (db : Database) (a : Address) : Prop := is_Some (db_coins db !! show_address a).

Definition op_fits (db : Database) (op : WriteOp) : Prop :=
  match op with
  | TradeOp e => storable e db
  | Tape coin _ source => varchar 44 coin = true /\ varchar 16 source = true
  end.

Definition write_fits (db : Database) (w : DbWrite) : Prop :=
  match w with
  | SaveTrade e => storable e db
  | InsertTape rows => Forall (fun r => varchar 44 (tr_coin_address r) = true /\ varchar 16 (tr_source r) = true) rows
  end.

Record queue_fits (db : Database) (q : WriteQueue) : Prop := {
  qf_channel : Forall (op_fits db) (wq_channel q);
  qf_buf : Forall (op_fits db) (wq_buf q);
  qf_written : Forall (write_fits db) (wq_written q)
}.

Lemma storable_grows e db db' : grows db db' -> storable e db -> storable e db'.
Proof. intros G (V1 & V2 & [c C]). split_and!; [done..|]. exists c. eapply lookup_weaken; [done|apply G]. Qed.

Lemma queue_fits_grows db db' q : grows db db' -> queue_fits db q -> queue_fits db' q.
Proof.
  intros G [C Bu W]. split; (eapply Forall_impl; [eassumption|]); intros []; cbn; auto; by apply storable_grows.
Qed.

Lemma try_send_fits db op q : op_fits db op -> queue_fits db q -> queue_fits db (try_send op q).
Proof.
  intros O [C Bu W]. unfold try_send. case_match; split; cbn; try done. apply Forall_app_2; [done|by apply Forall_singleton].
Qed.

Lemma flush_batch_fits db now q : queue_fits db q -> queue_fits db (flush_batch now q).
Proof.
  intros [C Bu W]. split; cbn; [done|constructor|]. apply Forall_app_2; [done|]. apply Forall_app_2.
  - assert (write_fits db (InsertTape (rows_of now (wq_buf q)))) as R.
    { cbn. apply Forall_forall. intros r (op & Hop & E)%list_elem_of_omap. destruct op as [coin mcap source|]; [|done].
      eapply Forall_forall in Bu; [|exact Hop]. unfold tape_row in E. destruct (negb _); [done|]. by injection E as <-. }
    destruct (rows_of now (wq_buf q)); [constructor|by apply Forall_singleton].
  - apply Forall_fmap, Forall_forall. intros e (op & Hop & E)%list_elem_of_omap. destruct op as [|e']; [done|].
    injection E as ->. by eapply Forall_forall in Bu; [|exact Hop].
Qed.

Lemma flush_pending_fits db now q : queue_fits db q -> queue_fits db (flush_pending now q).
Proof. intros K. unfold flush_pending. case_match; [done|]. by apply flush_batch_fits. Qed.

Lemma receive_fits db now q : queue_fits db q -> queue_fits db (receive_op now q).
Proof.
  intros K. unfold receive_op. destruct (wq_channel q) as [|op channel] eqn:E; [done|].
  destruct K as [C Bu W]. rewrite E in C. apply Forall_cons in C as [O C].
  assert (queue_fits db (q <| wq_channel := channel |> <| wq_buf := wq_buf q ++ [op] |>)) as K.
  { split; cbn; [done| |done]. apply Forall_app_2; [done|by apply Forall_singleton]. }
  case_match; [by apply flush_batch_fits|done].
Qed.

Lemma sends_fit db ops : forall q, Forall (op_fits db) ops -> queue_fits db q ->
  queue_fits db (List.fold_left (fun q op => try_send op q) ops q).
Proof.
  induction ops as [|op ops IH]; intros q F K; [done|]. apply Forall_cons in F as [O F]. cbn.
  apply IH; [done|by apply try_send_fits].
Qed.

(** a logged statement succeeded, and a logged trade is in the table *)
Definition logged (db : Database) (wr : DbWrite * result unit string) : Prop :=
  wr.2 = Ok tt /\ match wr.1 with
                  | SaveTrade e => is_Some (db_coins db !! en_coin_address e) /\
                                   exists id, trade_row as_numeric id e ∈ db_trades db
                  | InsertTape _ => True
                  end.

Lemma logged_grows db db' wr : grows db db' -> logged db wr -> logged db' wr.
Proof.
  intros G [E L]. split; [done|]. destruct wr.1; [done|]. destruct L as [[c C] [id L]]. split.
  - exists c. eapply lookup_weaken; [done|apply G].
  - exists id. eapply elem_of_prefix; [done|apply G].
Qed.

(** a waiter's number is that of a task of its token; a token announced, or
    about to be, is in the table, and so is that of a released task *)
Record flow_ok f : Prop := {
  fo_saving : Forall (has_coin (fl_db f)) (fl_saving f);
  fo_created : forall a, fl_waiter f !! a = Some Created -> has_coin (fl_db f) a;
  fo_waiting : forall a ws n, fl_waiter f !! a = Some (Waiting ws) -> n ∈ ws ->
    exists t, fl_tasks f !! n = Some t /\ trade_mint (so_trade t) = a;
  fo_released : forall n t, fl_tasks f !! n = Some t -> so_state t = StReleased -> has_coin (fl_db f) (trade_mint (so_trade t));
  fo_queue : queue_fits (fl_db f) (fl_queue f);
  fo_log : Forall (logged (fl_db f)) (fl_log f)
}.

Lemma has_coin_grows db db' a : grows db db' -> has_coin db a -> has_coin db' a.
Proof. intros G [c C]. exists c. eapply lookup_weaken; [done|apply G]. Qed.

Lemma flow_db_grows db f : grows (fl_db f) db -> flow_ok f -> flow_ok (f <| fl_db := db |>).
Proof.
  intros G [S C W R Q L]. split; cbn.
  - eapply Forall_impl; [exact S|]. intros a. by apply has_coin_grows.
  - intros a E. eapply has_coin_grows; eauto.
  - done.
  - intros n t E St. eapply has_coin_grows; eauto.
  - by eapply queue_fits_grows.
  - eapply Forall_impl; [exact L|]. intros wr. by apply logged_grows.
Qed.

(** releasing keeps the tasks but for the state of those named *)
Lemma release_lookup out : forall tasks n t, release out tasks !! n = Some t ->
  exists t0, tasks !! n = Some t0 /\ so_trade t = so_trade t0 /\
    (so_state t = so_state t0 \/ exists a, (a, n) ∈ out).
Proof.
  induction out as [|[a m] out IH]; intros tasks n t E; [exists t; eauto|]. cbn in E.
  apply IH in E as (t1 & E1 & T1 & S1). destruct (decide (m = n)) as [->|N].
  - rewrite list_lookup_alter_eq in E1. destruct (tasks !! n) as [t0|] eqn:E0; [|done]. injection E1 as <-.
    exists t0. split; [done|]. split; [exact T1|]. right. exists a. by left.
  - rewrite list_lookup_alter_ne in E1 by done. exists t1. split_and!; [done..|].
    destruct S1 as [|[b Hb]]; [by left|right]. exists b. by right.
Qed.

Lemma release_keeps out : forall tasks n t, tasks !! n = Some t ->
  exists t', release out tasks !! n = Some t' /\ so_trade t' = so_trade t.
Proof.
  induction out as [|[a m] out IH]; intros tasks n t E; [by exists t|]. cbn.
  destruct (decide (m = n)) as [->|N].
  - destruct (IH (alter (fun t => t <| so_state := StReleased |>) n tasks) n (t <| so_state := StReleased |>)) as (t' & ? & ?).
    { by rewrite list_lookup_alter_eq, E. }
    by exists t'.
  - apply IH. by rewrite list_lookup_alter_ne.
Qed.

(** a message to the waiter about a token that is in the table, if it announces it *)
Lemma send_waiter_ok m f : flow_ok f ->
  match m with
  | NotifyCreated a => has_coin (fl_db f) a
  | WaitUntilCreated a n => exists t, fl_tasks f !! n = Some t /\ trade_mint (so_trade t) = a
  end -> flow_ok (send_waiter m f).
Proof.
  intros [S C W R Q L] Hm. unfold send_waiter. destruct (waiter_step (fl_waiter f) m) as [state out] eqn:E.
  assert (forall a n, (a, n) ∈ out -> has_coin (fl_db f) a /\
    exists t, fl_tasks f !! n = Some t /\ trade_mint (so_trade t) = a) as O.
  { intros a n Ho. destruct m as [b|b reply]; cbn in E.
    - destruct (fl_waiter f !! b) as [[|ws]|] eqn:Eb; injection E as <- <-; try by apply not_elem_of_nil in Ho.
      apply list_elem_of_fmap in Ho as (n' & [= -> ->] & Hn). split; [done|]. by eapply W.
    - destruct (fl_waiter f !! b) as [[|ws]|] eqn:Eb; injection E as <- <-; try by apply not_elem_of_nil in Ho.
      apply list_elem_of_singleton in Ho as [= -> ->]. split; [by apply C|done]. }
  assert (forall a s, state !! a = Some s -> fl_waiter f !! a = Some s \/
    match s with
    | Created => has_coin (fl_db f) a
    | Waiting ws => forall n, n ∈ ws -> exists t, fl_tasks f !! n = Some t /\ trade_mint (so_trade t) = a
    end) as St.
  { intros a s Ea. destruct m as [b|b reply]; cbn in E.
    - injection E as <- _. apply lookup_insert_Some in Ea as [[<- <-]|[_ Ea]]; [by right|left].
      by apply lookup_delete_Some in Ea as [_ Ea].
    - destruct (fl_waiter f !! b) as [[|ws]|] eqn:Eb; injection E as <- _; [by left|..];
        apply lookup_insert_Some in Ea as [[<- <-]|[_ Ea]]; try (by left); right; intros n Hn.
      + apply elem_of_app in Hn as [Hn | ->%list_elem_of_singleton]; [by eapply W|done].
      + by apply list_elem_of_singleton in Hn as ->. }
  split; cbn; try done.
  - intros a Ea. destruct (St _ _ Ea) as [H|H]; [by apply C|done].
  - intros a ws n Ea Hn. destruct (St _ _ Ea) as [H|H]; [destruct (W _ _ _ H Hn) as (t & Et & Mt)|destruct (H n Hn) as (t & Et & Mt)];
      destruct (release_keeps out _ _ _ Et) as (t' & ? & T); exists t'; by rewrite T.
  - intros n t Et Rt. destruct (release_lookup out _ _ _ Et) as (t0 & E0 & T & [S0|[a Ho]]).
    + rewrite T. eapply R; [exact E0|congruence].
    + destruct (O _ _ Ho) as [Hc (t1 & E1 & <-)]. rewrite E0 in E1. injection E1 as <-. by rewrite T.
Qed.

Lemma create_saves_ok fault coin dev slot f : match fault with Refused _ => False | _ => True end ->
  flow_ok f -> flow_ok (create_saves fault coin dev slot f).
Proof.
  intros Fa K. unfold create_saves.
  pose proof (db_step_sound show_address as_numeric (OpToken fault coin dev slot) (fl_db f)) as [G _]. cbn [db_step] in G.
  set (db := (save_token show_address fault coin dev slot (fl_db f)).2) in *.
  assert (has_coin db coin) as Hc.
  { subst db. unfold save_token, execute, has_coin. unfold insert_token. rewrite !show_fits. cbn [andb negb].
    destruct fault; try done; cbn; (destruct (db_coins (fl_db f) !! show_address coin) eqn:E;
      [rewrite E; eauto|rewrite lookup_insert_eq; eauto]). }
  destruct (flow_db_grows _ _ G K) as [S C W R Q L]. split; try done. cbn. apply Forall_app_2; [done|by apply Forall_singleton].
Qed.

Lemma store_ops_fit t trader db : has_coin db (trade_mint (so_trade t)) -> Forall (op_fits db) (store_ops t trader).
Proof.
  intros Hc. unfold store_ops. destruct trader as [trader|]; [|constructor].
  destruct (market_cap _) as [cap|]; [|constructor].
  constructor; [|constructor; [|constructor]]; cbn; [by rewrite show_fits|].
  split_and!; [apply show_fits|apply show_fits|exact Hc].
Qed.

Lemma trade_stores_ok n trader f f' : flow_ok f -> trade_stores n trader f = Some f' -> flow_ok f'.
Proof.
  intros [S C W R Q L] E. unfold trade_stores in E. destruct (fl_tasks f !! n) as [t|] eqn:Et; [|done].
  cbn in E. case_decide as Rt; [|done]. injection E as <-. split; cbn; try done.
  - intros a ws m Ea Hm. destruct (W _ _ _ Ea Hm) as (t0 & E0 & <-). destruct (decide (m = n)) as [->|N].
    + exists (t <| so_state := StDone |>). rewrite list_lookup_insert_eq by (by eapply lookup_lt_Some). split; [done|].
      rewrite Et in E0. by injection E0 as ->.
    + exists t0. by rewrite list_lookup_insert_ne.
  - intros m t0 E0 R0. apply list_lookup_insert_Some in E0 as [(-> & <- & _)|[_ E0]]; [done|by eapply R].
  - apply sends_fit; [|done]. apply store_ops_fit. by eapply R.
Qed.

Lemma record_served rows db :
  Forall (fun r => varchar 44 (tr_coin_address r) = true /\ varchar 16 (tr_source r) = true) rows ->
  (record_batch Served rows db).1 = Ok tt.
Proof.
  intros F. destruct rows as [|r rows]; [done|]. unfold record_batch, execute.
  assert (forallb (fun r => varchar 44 (tr_coin_address r)) (r :: rows) = true /\
          forallb (fun r => varchar 16 (tr_source r)) (r :: rows) = true) as [-> ->]; [|done].
  rewrite !forallb_forall. split; intros x Hx%list_elem_of_In; by eapply Forall_forall in F as [? ?]; [|exact Hx].
Qed.

Lemma worker_writes_ok f f' : flow_ok f -> worker_writes f = Some f' -> flow_ok f'.
Proof.
  intros K E. unfold worker_writes in E. destruct (wq_written (fl_queue f) !! length (fl_log f)) as [w|] eqn:Ew; [|done].
  pose proof (Forall_lookup_1 _ _ _ _ (qf_written _ _ (fo_queue _ K)) Ew) as Fw. cbn [mbind option_bind] in E.
  assert (exists db, grows (fl_db f) db /\ logged db (w, Ok tt) /\
    f' = f <| fl_db := db |> <| fl_log := fl_log f ++ [(w, Ok tt)] |>) as (db & G & Lw & ->).
  { destruct w as [rows|e].
    - pose proof (db_step_sound show_address as_numeric (OpTape Served rows) (fl_db f)) as [G _]. cbn [db_step] in G.
      pose proof (record_served rows (fl_db f) Fw) as R. destruct (record_batch Served rows (fl_db f)) as [r db].
      cbn in R, G. subst r. injection E as <-. exists db. by split_and!.
    - pose proof (save_trade_sound as_numeric (Served, Served, Served, Served) e (fl_db f)) as [G _].
      cbv beta iota in E. rewrite (save_trade_served as_numeric _ _ Fw) in E, G. injection E as <-. eexists. split_and!; [exact G| |reflexivity].
      split; [done|]. split; [by destruct Fw as (_ & _ & ?)|].
      exists (next_id (td_id <$> db_trades (fl_db f))). cbn. apply elem_of_app. right. by left. }
  destruct (flow_db_grows _ _ G K) as [S C W R Q L]. split; try done. cbn. apply Forall_app_2; [done|by apply Forall_singleton].
Qed.

(** the saves that take effect, with or without their answer *)
Definition saves_coin (st : FlowStep) : Prop := match st with FCreate (Refused _) _ _ _ => False | _ => True end.

Lemma flow_step_ok st f f' : saves_coin st -> flow_ok f -> flow_step st f = Some f' -> flow_ok f'.
Proof.
  intros Sv K E. destruct st as [fault coin dev slot|n|trade bucket slot|n trader|now|now| |op]; cbn [flow_step] in E.
  - injection E as <-. apply create_saves_ok; [by destruct fault|done].
  - unfold create_notifies in E. destruct (fl_saving f !! n) as [coin|] eqn:En; [|done]. injection E as <-.
    apply send_waiter_ok; [|by eapply Forall_lookup_1; [apply (fo_saving _ K)|]].
    destruct K as [S C W R Q L]. split; try done. cbn. by apply Forall_delete.
  - injection E as <-. apply send_waiter_ok.
    + destruct K as [S C W R Q L]. split; try done; cbn.
      * intros a ws n Ea Hn. destruct (W _ _ _ Ea Hn) as (t & Et & Mt). exists t. split; [by apply lookup_app_l_Some|done].
      * intros n t Et Rt. apply lookup_app_Some in Et as [Et|[_ Et]]; [by eapply R|].
        apply list_lookup_singleton_Some in Et as [_ <-]. done.
    + cbn. exists (mkStoreTask trade bucket slot StWaiting). by rewrite list_lookup_middle.
  - by eapply trade_stores_ok.
  - injection E as <-. destruct K. split; try done. by apply receive_fits.
  - injection E as <-. destruct K. split; try done. by apply flush_pending_fits.
  - by eapply worker_writes_ok.
  - injection E as <-. apply flow_db_grows; [apply (db_step_sound show_address as_numeric op)|done].
Qed.

(** C4: When the saves of the created tokens take effect, in every interleaving
    of the tasks of tokens and trades, the waiter, the write queue and anything
    else that writes, each statement the worker hands to a serving database
    succeeds, and each stored trade is in the table: no trade is written before
    its token, whatever order the feed and the tasks bring them in. *)
Theorem no_trade_without_coin sts db f : Forall saves_coin sts ->
  flow_run sts (flow_new db) = Some f ->
  forall w r, (w, r) ∈ fl_log f -> r = Ok tt /\
    match w with
    | SaveTrade e => is_Some (db_coins (fl_db f) !! en_coin_address e) /\
                     exists id, trade_row as_numeric id e ∈ db_trades (fl_db f)
    | InsertTape _ => True
    end.
Proof.
  intros Sv R.
  assert (flow_ok f) as K.
  { assert (flow_ok (flow_new db)) as K0 by (split; try constructor; try constructor; cbn; intros *; by rewrite ?lookup_empty, ?lookup_nil).
    revert R K0. generalize (flow_new db) as f0. induction Sv as [|st sts S _ IH]; intros f0 R K0; cbn in R; [by injection R as <-|].
    destruct (flow_step st f0) as [f1|] eqn:E; [|done]. eapply IH; [exact R|by eapply flow_step_ok]. }
  intros w r Hw. by eapply Forall_forall in Hw; [|apply (fo_log _ K)].
Qed.

End Flow.

(** ** A trade that comes before its token *)

Definition flow_show (a : Address) : string := if decide (a = 1%N) then "coin" else "wallet".
Lemma flow_show_fits a : varchar 44 (flow_show a) = true.
Proof. unfold flow_show. by case_decide. Qed.

Definition flow_trade : TradeAction :=
  TradeBuy (mkGeneralBuy 1%N 5%N (amount_from_float_native 100%float) (Native (amount_from_float_native 1%float))).
Definition flow_trader : Trader := trader_empty Regular 6 9.

(** the trade waits, the row is written and its answer lost, the creation is
    announced, and the trade goes through queue and worker *)
Definition flow_steps (fault : Fault) : list FlowStep :=
  [FTrade flow_trade fresh_bucket 7; FCreate fault 1%N 9%N 6; FNotify 0; FStore 0 (Some flow_trader);
   FReceive 100; FReceive 100; FDeadline 101; FWrite; FWrite].

Definition flow_end (fault : Fault) : Flow :=
  default (flow_new database_new) (flow_run flow_show id (flow_steps fault) (flow_new database_new)).

Lemma no_trade_without_coin_witness : exists e r,
  (SaveTrade e, r) ∈ fl_log (flow_end (Lost "connection reset")) /\ r = Ok tt /\
  is_Some (db_coins (fl_db (flow_end (Lost "connection reset"))) !! en_coin_address e) /\
  exists id', trade_row id id' e ∈ db_trades (fl_db (flow_end (Lost "connection reset"))).
Proof.
  assert (flow_run flow_show id (flow_steps (Lost "connection reset")) (flow_new database_new)
          = Some (flow_end (Lost "connection reset"))) as R by (vm_compute; reflexivity).
  destruct (fl_log (flow_end (Lost "connection reset")) !! 1%nat) as [[[rows|e] r]|] eqn:L;
    [vm_compute in L; discriminate| |vm_compute in L; discriminate].
  exists e, r. apply list_elem_of_lookup_2 in L as I. split; [exact I|].
  apply (no_trade_without_coin flow_show id flow_show_fits (flow_steps (Lost "connection reset")) database_new
           (flow_end (Lost "connection reset")) ltac:(by repeat constructor) R (SaveTrade e) r I).
Defined.

(** The creation is announced although its row was refused: the trade is then
    refused too, and lost. *)
Example refused_token_loses_trades :
  (snd <$> fl_log (flow_end (Refused "timeout"))) = [Ok tt; Err (fk_violation "trades")] /\
  db_trades (fl_db (flow_end (Refused "timeout"))) = [].
Proof. split; vm_compute; reflexivity. Qed.
