(* ===== verification/Hub.v ===== *)
(** What carries the events of the manager to the windows of the operator: the
    bridge task of [main] with its ring of transactions, the broadcast channel,
    the WebSocket sessions of [run_ws_server] and the commands they send back.

    The broadcast channel is a history with a cursor for every receiver: a
    receiver gets every message sent since it subscribed, in order, and an error
    once more than the capacity of the channel is ahead of it.  The JSON writer
    and reader are parameters; what the network does is chosen by the steps. *)
From Stdlib Require Import Ascii.
From S2P Require Import Prelude Text Amounts Pump Swarm Features Config Strategy Registry.
From S2P Require Import Learning LivePosition ExitEngine Positions Tick Blacklist Brokers Wallets.
From S2P Require Import Messages Manager System Runs.

Local Open Scope string_scope.
Local Open Scope list_scope.
Local Open Scope Z_scope.

(* autobuy/manager.rs 2815-2819: WsCommand *)
Inductive WsCommand := WsSetPaused (paused : bool).

(* main.rs 338-338: TX_LOG_CAPACITY *)
Definition TX_LOG_CAPACITY : nat := 200.
(* main.rs 254-254: main *)
Definition BROADCAST_CAPACITY : nat := 4096.
#[global] Arguments BROADCAST_CAPACITY : simpl never.
#[global] Arguments TX_LOG_CAPACITY : simpl never.

Definition is_tx_event (ev : WsFeedMessage) : bool := match ev with WsTxEvent _ => true | _ => false end.

(** the oldest is dropped when the ring is full *)
(* main.rs 348-354: main *)
Definition tx_log_push (ev : WsFeedMessage) (log : list WsFeedMessage) : list WsFeedMessage :=
  if is_tx_event ev then (if (TX_LOG_CAPACITY <=? length log)%nat then drop 1 log else log) ++ [ev] else log.

(** a session: accepted, then open, then over; [se_cursor] is its place in the
    broadcast, [se_start] the place it was accepted at, [se_out] what it wrote *)
Inductive SessionPhase := Handshaking | Streaming | Over.
#[export] Instance SessionPhase_dec : EqDecision SessionPhase.
Proof. solve_decision. Defined.

Record Session := mkSession { se_phase : SessionPhase; se_start : nat; se_cursor : nat; se_out : list string }.
#[export] Instance Session_settable : Settable Session := fun s =>
  mkSession (se_phase s) (se_start s) (se_cursor s) (se_out s).

(** what a client sends, as the socket yields it *)
Inductive Incoming := InText (text : string) | InOther | InClosed.

Section Hub.
Context {P : Type} (write_json : WsFeedMessage -> option string) (read_cmd : string -> option WsCommand).

(** [hb_sent] is everything that was broadcast, [hb_mailbox] what the sessions
    and the ticker have sent to the manager *)
Record Hub := mkHub {
  hb_tx_log : list WsFeedMessage; hb_sent : list WsFeedMessage;
  hb_sessions : list Session; hb_mailbox : list (PositionMessage P) }.
#[export] Instance Hub_settable : Settable Hub := fun h =>
  mkHub (hb_tx_log h) (hb_sent h) (hb_sessions h) (hb_mailbox h).

Implicit Types (h : Hub) (s : Session).

Definition hub_new : Hub := mkHub [] [] [] [].

(* main.rs 346-357: main *)
Definition bridge (ev : WsFeedMessage) h : Hub :=
  h <| hb_tx_log := tx_log_push ev (hb_tx_log h) |> <| hb_sent := hb_sent h ++ [ev] |>.

(** the session subscribes before its handshake *)
(* main.rs 1819-1821: run_ws_server *)
Definition accept h : Hub :=
  h <| hb_sessions := hb_sessions h ++ [mkSession Handshaking (length (hb_sent h)) (length (hb_sent h)) []] |>.

(* main.rs 1826-1831: run_ws_server *)
Definition handshake (ok : bool) s : option Session :=
  match se_phase s with
  | Handshaking => Some (s <| se_phase := if ok then Streaming else Over |>)
  | _ => None
  end.

(** the next message of the channel; [sink_ok] tells whether the socket took it,
    and a message that does not serialise is left out *)
(* main.rs 1835-1845: run_ws_server *)
Definition receive (sent : list WsFeedMessage) (sink_ok : bool) s : option Session :=
  match se_phase s with
  | Streaming =>
      if (BROADCAST_CAPACITY <? length sent - se_cursor s)%nat then Some (s <| se_phase := Over |>)
      else
        feed_msg ← sent !! se_cursor s;
        let s := s <| se_cursor := S (se_cursor s) |> in
        match write_json feed_msg with
        | Some json => Some (if sink_ok then s <| se_out := se_out s ++ [json] |> else s <| se_phase := Over |>)
        | None => Some s
        end
  | _ => None
  end.

(* main.rs 1846-1860: run_ws_server *)
Definition incoming (msg : Incoming) s : option (Session * list (PositionMessage P)) :=
  match se_phase s with
  | Streaming =>
      Some (match msg with
            | InText text => (s, match read_cmd text with Some (WsSetPaused paused) => [SetPaused paused] | None => [] end)
            | InOther => (s, [])
            | InClosed => (s <| se_phase := Over |>, [])
            end)
  | _ => None
  end.

Inductive HubStep :=
  | HEvent (ev : WsFeedMessage) | HAccept | HHandshake (i : nat) (ok : bool)
  | HReceive (i : nat) (sink_ok : bool) | HIncoming (i : nat) (msg : Incoming) | HTick.

Definition with_session (i : nat) s h : Hub := h <| hb_sessions := <[i := s]> (hb_sessions h) |>.

(** the ticker sends a tick every 100 ms *)
(* main.rs 364-370: main *)
Definition tick h : Hub := h <| hb_mailbox := hb_mailbox h ++ [TickMsg] |>.

(* main.rs 1809-1865: run_ws_server *)
Definition hub_step (st : HubStep) h : option Hub :=
  match st with
  | HEvent ev => Some (bridge ev h)
  | HAccept => Some (accept h)
  | HHandshake i ok => s ← hb_sessions h !! i; s' ← handshake ok s; Some (with_session i s' h)
  | HReceive i sink_ok => s ← hb_sessions h !! i; s' ← receive (hb_sent h) sink_ok s; Some (with_session i s' h)
  | HIncoming i msg =>
      s ← hb_sessions h !! i; r ← incoming msg s;
      Some (with_session i r.1 h <| hb_mailbox := hb_mailbox h ++ r.2 |>)
  | HTick => Some (tick h)
  end.

Fixpoint hub_run (sts : list HubStep) h : option Hub :=
  match sts with [] => Some h | st :: sts => h ← hub_step st h; hub_run sts h end.

(** ** What a session has written *)

(** the messages of the broadcast between two places *)
Definition segment (start stop : nat) (sent : list WsFeedMessage) : list WsFeedMessage :=
  take (stop - start) (drop start sent).
Local Arguments segment : simpl never.

(** an open session has written everything since it was accepted up to its
    place; one that is over, a part of that from the beginning *)
Record session_ok (sent : list WsFeedMessage) s : Prop := {
  sn_bounds : (se_start s <= se_cursor s <= length sent)%nat;
  sn_open : se_phase s <> Over -> se_out s = omap write_json (segment (se_start s) (se_cursor s) sent);
  sn_out : se_out s `prefix_of` omap write_json (segment (se_start s) (se_cursor s) sent)
}.

(** the last [n] *)
Definition newest {A} (n : nat) (l : list A) : list A := drop (length l - n) l.

Record hub_ok h : Prop := {
  ho_log : hb_tx_log h = newest TX_LOG_CAPACITY (List.filter is_tx_event (hb_sent h));
  ho_sessions : Forall (session_ok (hb_sent h)) (hb_sessions h)
}.

Lemma segment_app start stop sent more : (stop <= length sent)%nat ->
  segment start stop (sent ++ more) = segment start stop sent.
Proof.
  intros L. unfold segment. destruct (Nat.le_gt_cases start (length sent)) as [Hs|Hs].
  - rewrite drop_app_le by lia. rewrite take_app_le; [done|]. rewrite length_drop. lia.
  - replace (stop - start)%nat with O by lia. done.
Qed.

Lemma segment_next start stop sent ev : (start <= stop)%nat -> sent !! stop = Some ev ->
  segment start (S stop) sent = segment start stop sent ++ [ev].
Proof.
  intros L E. unfold segment. replace (S stop - start)%nat with (S (stop - start)) by lia.
  apply take_S_r. rewrite lookup_drop. by replace (start + (stop - start))%nat with stop by lia.
Qed.

Lemma newest_app {A} n (l : list A) x :
  newest n (l ++ [x]) = newest n ((if (n <=? length (newest n l))%nat then drop 1 (newest n l) else newest n l) ++ [x]).
Proof.
  unfold newest. rewrite (length_drop _ (length l - n)).
  destruct (Nat.leb_spec n (length l - (length l - n))) as [L|L];
    rewrite ?drop_drop, !length_app, length_drop; cbn [length].
  - destruct (Nat.eq_dec n O) as [->|]; [rewrite !drop_ge; rewrite ?length_app, ?length_drop; cbn; done || lia|].
    rewrite (drop_app_le l [x]) by lia. rewrite drop_app_le by (rewrite length_drop; lia).
    rewrite drop_drop. do 2 f_equal. lia.
  - replace (length l - n)%nat with O by lia. rewrite drop_0. f_equal. lia.
Qed.

Lemma tx_log_push_newest ev log sent : log = newest TX_LOG_CAPACITY (List.filter is_tx_event sent) ->
  tx_log_push ev log = newest TX_LOG_CAPACITY (List.filter is_tx_event (sent ++ [ev])).
Proof.
  intros ->. unfold tx_log_push. rewrite List.filter_app. cbn [List.filter].
  destruct (is_tx_event ev); [|by rewrite app_nil_r].
  rewrite newest_app. set (l := newest _ _). assert (length l <= TX_LOG_CAPACITY)%nat as L
    by (subst l; unfold newest; rewrite length_drop; lia).
  unfold newest at 1. rewrite length_app. cbn [length]. destruct (Nat.leb_spec TX_LOG_CAPACITY (length l)).
  - rewrite length_drop. replace (_ - _)%nat with O; [done|]. unfold TX_LOG_CAPACITY in *. lia.
  - replace (_ - _)%nat with O; [done|lia].
Qed.

Lemma session_more sent ev s : session_ok sent s -> session_ok (sent ++ [ev]) s.
Proof.
  intros [B O1 O2]. split; rewrite ?length_app; cbn [length]; [lia|..]; by rewrite segment_app by lia.
Qed.

Lemma session_receive_ok sent ok s s' : session_ok sent s -> receive sent ok s = Some s' -> session_ok sent s'.
Proof.
  intros [B O1 O2]. unfold receive. destruct (se_phase s) eqn:Ph; try done.
  destruct (Nat.ltb_spec BROADCAST_CAPACITY (length sent - se_cursor s)); [intros [= <-]; by split|].
  destruct (sent !! se_cursor s) as [ev|] eqn:E; [|done]. cbn [mbind option_bind].
  pose proof (segment_next (se_start s) _ _ _ (proj1 B) E) as N. pose proof (lookup_lt_Some _ _ _ E).
  assert (se_out s = omap write_json (segment (se_start s) (se_cursor s) sent)) as O by (apply O1; congruence).
  destruct (write_json ev) as [json|] eqn:W; [destruct ok|]; intros [= <-]; split; cbn; try lia;
    rewrite N, omap_app, O; cbn; rewrite W, ?app_nil_r; try done; by apply prefix_app_r.
Qed.

Lemma with_session_ok i s h : hub_ok h -> session_ok (hb_sent h) s -> hub_ok (with_session i s h).
Proof. intros [L F] S. split; [done|]. cbn. by apply Forall_insert. Qed.

Lemma hub_step_ok st h h' : hub_ok h -> hub_step st h = Some h' -> hub_ok h'.
Proof.
  intros K. pose proof K as [L F].
  assert (forall i s, hb_sessions h !! i = Some s -> session_ok (hb_sent h) s) as FS
    by (intros i s; by apply Forall_lookup_1).
  destruct st as [ev| |i ok|i ok|i msg|]; cbn [hub_step].
  - intros [= <-]. split; cbn; [by apply tx_log_push_newest|].
    eapply Forall_impl; [exact F|]. intros s. apply session_more.
  - intros [= <-]. split; [done|]. cbn. apply Forall_app_2; [done|]. apply Forall_singleton.
    split; cbn; [lia|..]; unfold segment; rewrite Nat.sub_diag; done.
  - destruct (hb_sessions h !! i) as [s|] eqn:E; [|done]. cbn. unfold handshake.
    destruct (se_phase s) eqn:Ph; try done. intros [= <-]. apply with_session_ok; [done|].
    destruct (FS _ _ E) as [B O1 O2]. split; cbn; [done| |done]. intros _. apply O1. congruence.
  - destruct (hb_sessions h !! i) as [s|] eqn:E; [|done]. cbn.
    destruct (receive _ ok s) as [s'|] eqn:R; [|done]. intros [= <-]. apply with_session_ok; [done|].
    eapply session_receive_ok; [by eapply FS|done].
  - destruct (hb_sessions h !! i) as [s|] eqn:E; [|done]. cbn.
    destruct (incoming msg s) as [[s' ms]|] eqn:I; [|done]. intros [= <-].
    assert (session_ok (hb_sent h) s') as S.
    { destruct (FS _ _ E) as [B O1 O2]. unfold incoming in I. destruct (se_phase s) eqn:Ph; try done.
      destruct msg; injection I as <- _; [split; [done| |done]; by rewrite Ph..|]. split; [done| |exact O2]. cbn. by intros []. }
    destruct (with_session_ok i s' h K S). by split.
  - intros [= <-]. by split.
Qed.

Lemma hub_run_ok sts : forall h h', hub_ok h -> hub_run sts h = Some h' -> hub_ok h'.
Proof.
  induction sts as [|st sts IH]; intros h h' K R; cbn in R; [by injection R as <-|].
  destruct (hub_step st h) as [h1|] eqn:S; [|done]. eapply IH; [by eapply hub_step_ok|done].
Qed.

End Hub.
