(* ===== verification/Relay.v ===== *)
(** What the hub delivers over a whole run: the ring of transactions, the
    manager's mailbox, and what a WebSocket session has written. *)
From Stdlib Require Import Ascii.
From S2P Require Import Prelude Text Amounts Pump Swarm Features Config Strategy Registry.
From S2P Require Import Learning LivePosition ExitEngine Positions Tick Blacklist Brokers Wallets.
From S2P Require Import Messages Manager System Runs Chart DashChart Dash Mirror Hub.

Local Open Scope string_scope.
Local Open Scope list_scope.
Local Open Scope Z_scope.

Section Streams.
Context {P : Type} (write_json : WsFeedMessage -> option string) (read_cmd : string -> option WsCommand).
Implicit Types (h : Hub (P := P)).

(** the events the bridge is given *)
Definition bridged (sts : list (HubStep)) : list WsFeedMessage :=
  omap (fun st => match st with HEvent ev => Some ev | _ => None end) sts.

(** the pauses the clients ask for, and the ticks, in order *)
Definition mailed (sts : list HubStep) : list (PositionMessage P) :=
  sts ≫= fun st => match st with
                   | HTick => [TickMsg]
                   | HIncoming _ (InText text) =>
                       match read_cmd text with Some (WsSetPaused paused) => [SetPaused paused] | None => [] end
                   | _ => []
                   end.

Lemma hub_step_mail st h h' : hub_step write_json read_cmd st h = Some h' ->
  hb_mailbox h' = hb_mailbox h ++ mailed [st].
Proof.
  destruct st as [ev| |i ok|i ok|i msg|]; cbn; rewrite ?app_nil_r; try (by intros [= <-]).
  - destruct (hb_sessions h !! i) as [s|]; [|done]. cbn. destruct (handshake ok s); [|done]. by intros [= <-].
  - destruct (hb_sessions h !! i) as [s|]; [|done]. cbn. destruct (receive _ _ ok s); [|done]. by intros [= <-].
  - destruct (hb_sessions h !! i) as [s|]; [|done]. cbn. unfold incoming. destruct (se_phase s); try done.
    intros [= <-]. by destruct msg.
Qed.

Lemma hub_run_mail sts : forall h h', hub_run write_json read_cmd sts h = Some h' ->
  hb_mailbox h' = hb_mailbox h ++ mailed sts.
Proof.
  induction sts as [|st sts IH]; intros h h' R; cbn in R; [injection R as <-; by rewrite app_nil_r|].
  destruct (hub_step write_json read_cmd st h) as [h1|] eqn:S; [|done].
  rewrite (IH _ _ R), (hub_step_mail _ _ _ S), <- app_assoc. f_equal.
  change (st :: sts) with ([st] ++ sts). unfold mailed. by rewrite bind_app.
Qed.

Lemma hub_step_sent st h h' : hub_step write_json read_cmd st h = Some h' ->
  hb_sent h' = hb_sent h ++ bridged [st].
Proof.
  destruct st as [ev| |i ok|i ok|i msg|]; cbn; rewrite ?app_nil_r; try (by intros [= <-]).
  - destruct (hb_sessions h !! i) as [s|]; [|done]. cbn. destruct (handshake ok s); [|done]. by intros [= <-].
  - destruct (hb_sessions h !! i) as [s|]; [|done]. cbn. destruct (receive _ _ ok s); [|done]. by intros [= <-].
  - destruct (hb_sessions h !! i) as [s|]; [|done]. cbn. destruct (incoming _ msg s) as [[]|]; [|done]. by intros [= <-].
Qed.

Lemma hub_run_sent sts : forall h h', hub_run write_json read_cmd sts h = Some h' ->
  hb_sent h' = hb_sent h ++ bridged sts.
Proof.
  induction sts as [|st sts IH]; intros h h' R; cbn in R; [injection R as <-; by rewrite app_nil_r|].
  destruct (hub_step write_json read_cmd st h) as [h1|] eqn:S; [|done].
  rewrite (IH _ _ R), (hub_step_sent _ _ _ S), <- app_assoc. f_equal.
  change (st :: sts) with ([st] ++ sts). unfold bridged. by rewrite omap_app.
Qed.

Lemma hub_new_ok : hub_ok write_json (hub_new (P := P)).
Proof. by split; [|constructor]. Qed.

(** C9: Whatever clients connect, lag, command and leave: the log of
    transactions holds the last 200 transaction events of the manager in order,
    the manager's mailbox gets each pause a client of an open session asked for
    and each tick once and in order, and what an open session has written is,
    in order and without a gap, what the manager published from its acceptance
    to its place; a session that is over has written a first part of that. *)
Theorem hub_delivers sts h : hub_run write_json read_cmd sts hub_new = Some h ->
  hb_tx_log h = newest TX_LOG_CAPACITY (List.filter is_tx_event (bridged sts)) /\
  hb_mailbox h = mailed sts /\
  forall s, s ∈ hb_sessions h ->
    (se_start s <= se_cursor s <= length (bridged sts))%nat /\
    (se_phase s <> Over -> se_out s = omap write_json (segment (se_start s) (se_cursor s) (bridged sts))) /\
    se_out s `prefix_of` omap write_json (segment (se_start s) (se_cursor s) (bridged sts)).
Proof.
  intros R. destruct (hub_run_ok _ _ _ _ _ hub_new_ok R) as [L F]. pose proof (hub_run_sent _ _ _ R) as Sn.
  cbn in Sn. rewrite Sn in L, F. split; [done|]. split; [by rewrite (hub_run_mail _ _ _ R)|].
  intros s Hs. by apply Forall_forall with (x := s) in F as [].
Qed.

End Streams.

(** ** A run with two clients *)

Definition relay_events : list WsFeedMessage := published mirror_end.2.
Definition relay_write (e : WsFeedMessage) : option string :=
  match e with
  | WsPositionOpen a _ _ _ _ => Some ("open " +:+ a)
  | WsPositionClose a _ _ => Some ("close " +:+ a)
  | _ => None
  end.
Definition relay_cmd (text : string) : option WsCommand :=
  if String.eqb text "pause" then Some (WsSetPaused true) else None.

(** the second client pauses the bot and leaves *)
Definition relay_before : list HubStep :=
  [HAccept; HHandshake 0 true; HAccept; HHandshake 1 true; HIncoming 1 (InText "pause"); HIncoming 1 InClosed].
Definition relay_steps : list HubStep := relay_events ≫= fun ev => [HEvent ev; HTick; HReceive 0 true].

Abbreviation relay_run := (hub_run (P := PumpPool Bonding) relay_write relay_cmd).
Definition relay_hub0 : Hub := default hub_new (relay_run relay_before hub_new).
Definition relay_hub : Hub := default hub_new (relay_run relay_steps relay_hub0).
Definition relay_session (h : Hub (P := PumpPool Bonding)) : Session := default (mkSession Over 0 0 []) (hb_sessions h !! O).

Lemma hub_delivers_witness :
  se_out (relay_session relay_hub) = omap relay_write (bridged (relay_before ++ relay_steps)) /\
  take 1 (hb_mailbox relay_hub) = [SetPaused true].
Proof.
  assert (relay_run (relay_before ++ relay_steps) hub_new = Some relay_hub) as R by (vm_compute; reflexivity).
  destruct (hub_delivers relay_write relay_cmd (relay_before ++ relay_steps) relay_hub R) as (_ & M & S).
  split.
  - assert (relay_session relay_hub ∈ hb_sessions relay_hub) as I
      by (apply (list_elem_of_lookup_2 _ O); vm_compute; reflexivity).
    destruct (S _ I) as (_ & O & _). rewrite O by (vm_compute; discriminate). vm_compute. reflexivity.
  - rewrite M. vm_compute. reflexivity.
Defined.
