(* ===== verification/Window.v ===== *)
(** The dashboard's table against the manager's positions, end to end: the
    events of the handlers go through the bridge, the broadcast and a WebSocket
    session ([Hub]) into the thread of the window, where they race the answers of
    [GET /positions], which is fetched when the socket opens, after every opening
    and every few seconds ([DashLink]).  An answer is a snapshot: it replaces the
    table, and the events the window has read after the snapshot was taken and
    before the answer was applied are undone for the positions they were about.

    A row is followed through a run by its key; [settled] says which rows an
    answer leaves right, and an answer that is not older than what the window has
    read leaves them all right. *)
From Stdlib Require Import Ascii.
From S2P Require Import Prelude Text Amounts Pump Swarm Features Config Strategy Registry.
From S2P Require Import Learning LivePosition ExitEngine Positions Tick Blacklist Brokers Wallets.
From S2P Require Import Messages Manager System Runs Chart DashChart Dash Mirror Hub Relay.
From S2P Require Import DashView DashControls DashLink DashRuns.

Local Open Scope string_scope.
Local Open Scope list_scope.
Local Open Scope Z_scope.

(** * Definitions *)

(** what is compared of a row: its address, wallet and entry market cap *)
Abbreviation Brief := (string * string * f64)%type.
Definition brief (up : UiPosition) : Brief := (up_address up, up_wallet_id up, up_enter_mcap up).
Definition rowat (key : string) (d : Dashboard) : option Brief := brief <$> ds_open d !! key.

(** what a message does to the row of a key *)
Definition row_step (key : string) (r : option Brief) (m : WsMsg) : option Brief :=
  match m with
  | MsgPositionOpen a w _ e _ => if String.eqb (pos_map_key a w) key then Some (a, w, e) else r
  | MsgPositionClose a w _ => if String.eqb (pos_map_key a w) key then None else r
  | _ => r
  end.
Definition row_steps (key : string) (ms : list WsMsg) (r : option Brief) : option Brief :=
  List.fold_left (row_step key) ms r.

Definition is_row_msg (m : WsMsg) : bool :=
  match m with MsgPositionOpen _ _ _ _ _ | MsgPositionClose _ _ _ => true | _ => false end.
Definition row_msgs (ms : list WsMsg) : list WsMsg := List.filter is_row_msg ms.

(** the row messages that wait in the channel, and those a run of inputs delivers *)
Definition event_msg (ev : AppEvent) : option WsMsg := match ev with EvMsg m => Some m | _ => None end.
Definition waiting (k : Link) : list WsMsg := row_msgs (omap event_msg (lk_events k)).
Definition input_msg (x : Z * UiInput) : option WsMsg :=
  match x.2 with Delivered ev => event_msg ev | _ => None end.
Definition seen (inputs : list (Z * UiInput)) : list WsMsg := row_msgs (omap input_msg inputs).

(** the texts the thread takes from the socket *)
Definition heard (steps : list LinkStep) : list string :=
  omap (fun s => match s with LText text => Some text | _ => None end) steps.

Definition is_answer (x : Z * UiInput) : bool :=
  match x.2 with Delivered (EvOpenPositions _) => true | _ => false end.

(** the event opens or closes the row of a key *)
Definition touches (key : string) (ev : WsFeedMessage) : bool :=
  match ev with
  | WsPositionOpen a w _ _ _ | WsPositionClose a w _ => String.eqb (pos_map_key a w) key
  | _ => false
  end.

(** After an answer that holds the first [a] events, applied when the window had
    read the first [q]: the row is touched again, or was not touched in between. *)
Definition settled (key : string) (story : list WsFeedMessage) (a q : nat) : bool :=
  existsb (touches key) (drop q story) || negb (existsb (touches key) (segment a q story)).

(** * The row of a key *)

Lemma rowat_open key d d' : ds_open d' = ds_open d -> rowat key d' = rowat key d.
Proof. unfold rowat. by intros ->. Qed.

Lemma rowat_update key key' f d :
  (forall up, brief (f up) = brief up) -> rowat key (d <| ds_open := alter f key' (ds_open d) |>) = rowat key d.
Proof.
  intros F. unfold rowat. cbn. destruct (decide (key' = key)) as [->|N].
  - rewrite lookup_alter_eq. destruct (ds_open d !! key); [|done]. cbn. by rewrite F.
  - by rewrite lookup_alter_ne.
Qed.

Lemma apply_msg_row key m d : rowat key (apply_msg m d).1 = row_step key (rowat key d) m.
Proof.
  destruct m; cbn [apply_msg fst row_step]; try done.
  - unfold rowat. cbn. destruct (String.eqb_spec (pos_map_key address wallet_id) key) as [->|N].
    + by rewrite lookup_insert_eq.
    + by rewrite lookup_insert_ne.
  - apply rowat_update. intros up. by repeat case_match.
  - unfold rowat. cbn. rewrite ds_open_clear.
    destruct (String.eqb_spec (pos_map_key address wallet_id) key) as [->|N].
    + by rewrite lookup_delete_eq.
    + by rewrite lookup_delete_ne.
  - apply rowat_open. change (ds_open (push_tx_log ?r ?x)) with (ds_open x).
    destruct (_ && _); [apply ds_open_clear|done].
Qed.

Lemma insert_rows_same rows : forall (m m' : gmap string UiPosition) key, key ∈ row_key <$> rows ->
  List.fold_left (fun open w => <[row_key w := wire_to_position w]> open) rows m !! key =
  List.fold_left (fun open w => <[row_key w := wire_to_position w]> open) rows m' !! key.
Proof.
  induction rows as [|u rows IH]; intros m m' key I; [by apply elem_of_nil in I|]. cbn.
  destruct (decide (key ∈ row_key <$> rows)) as [I'|N']; [by apply IH|].
  rewrite !insert_rows_other by done. cbn in I. apply elem_of_cons in I as [->|I]; [|done].
  by rewrite !lookup_insert_eq.
Qed.

(** an answer replaces the table *)
Lemma answer_row key rows d :
  rowat key (apply_open_positions rows d) = rowat key (apply_open_positions rows dashboard_new).
Proof.
  unfold rowat. f_equal. rewrite !snapshot_open.
  destruct (decide (key ∈ row_key <$> rows)) as [I|N]; [by apply insert_rows_same|].
  rewrite !insert_rows_other by done. rewrite !(proj2 (map_lookup_filter_None _ _ _)); [done|right..].
  - intros up _ I%elem_of_list_to_set. by apply N.
  - intros up _ I%elem_of_list_to_set. by apply N.
Qed.

Lemma row_steps_app key l1 l2 r : row_steps key (l1 ++ l2) r = row_steps key l2 (row_steps key l1 r).
Proof. apply fold_left_app. Qed.

Lemma row_steps_filter key ms r : row_steps key (row_msgs ms) r = row_steps key ms r.
Proof.
  unfold row_steps, row_msgs. revert r. induction ms as [|m ms IH]; intros r; [done|].
  cbn [List.filter List.fold_left]. destruct m; cbn; apply IH.
Qed.

Lemma row_msgs_app l1 l2 : row_msgs (l1 ++ l2) = row_msgs l1 ++ row_msgs l2.
Proof. apply List.filter_app. Qed.

Lemma seen_app l1 l2 : seen (l1 ++ l2) = seen l1 ++ seen l2.
Proof. unfold seen. by rewrite omap_app, row_msgs_app. Qed.

Lemma fold_msgs_row key ms d :
  rowat key (List.fold_left (fun d m => (apply_msg m d).1) ms d) = row_steps key ms (rowat key d).
Proof.
  revert d. induction ms as [|m ms IH]; intros d; [done|]. cbn. rewrite IH, apply_msg_row. done.
Qed.

(** ** The inputs of the window *)

(** what an input does to the row of a key *)
Definition input_row (key : string) (r : option Brief) (x : Z * UiInput) : option Brief :=
  match x.2 with
  | Delivered (EvMsg m) => row_step key r m
  | Delivered (EvOpenPositions rows) => rowat key (apply_open_positions rows dashboard_new)
  | _ => r
  end.

Lemma push_rows_open rows d : ds_open (List.fold_left (fun d r => push_tx_log r d) rows d) = ds_open d.
Proof. revert d. induction rows as [|r rows IH]; intros d; [done|]. cbn. by rewrite IH. Qed.

Lemma apply_event_row key ev d d' cmds now :
  apply_event ev d = Ret (d', cmds) -> rowat key d' = input_row key (rowat key d) (now, Delivered ev).
Proof.
  intros E. destruct ev; cbn in E |- *; simplify_eq; try done.
  - rewrite <- apply_msg_row. by rewrite E.
  - apply rowat_open. by repeat case_match.
  - apply rowat_open. by repeat case_match.
  - destruct data; [|by simplify_eq]. destruct (sanitize_chart _); by simplify_eq/=.
  - apply rowat_open. by rewrite push_rows_open.
  - apply answer_row.
Qed.

Lemma ui_act_open now a d d' cmds : ui_act now a d = Some (d', cmds) -> ds_open d' = ds_open d.
Proof.
  intros E. destruct a; cbn in E; unfold chart_dev_stats, close_chart, close_dev_stats, dismiss_alert, select_wallet,
    toggle_config, toggle_pause, fetch_history_chart, config_window, save_buy_size, reload_buy_size, mode_block,
    start_mode_switch, wallets_block, edit_wallets, when in E;
    repeat (case_match; simplify_eq/=; try done).
  all: unfold option_bind, mbind in *; repeat (case_match; simplify_eq/=; try done).
  all: by simplify_eq.
Qed.

Lemma ui_step_row key now i d d' cmds :
  ui_step now i d = Some (d', cmds) -> rowat key d' = input_row key (rowat key d) (now, i).
Proof.
  destruct i as [ev|a|]; cbn [ui_step].
  - destruct (apply_event ev d) as [[d1 c1]|] eqn:E; [|done]. intros [= -> ->]. by eapply apply_event_row.
  - intros E%ui_act_open. by apply rowat_open.
  - intros [= <- <-]. apply rowat_open. unfold expire_copy_flash, poll_http. by repeat case_match.
Qed.

Section Link.
Context `{DashJson}.

(** ** A run of the window and its thread *)

Lemma no_row_reply req r : row_msgs (omap event_msg (reply_events req r)) = [].
Proof.
  destruct req; cbn [reply_events]; unfold maybe, status_events, put_buy_size_events, put_wallets_events,
    put_mode_events; repeat (case_match; try done).
  all: cbn; repeat (case_match; try done).
  all: by unfold maybe; repeat case_match.
Qed.

Lemma waiting_app k k' events :
  lk_events k' = lk_events k ++ events -> waiting k' = waiting k ++ row_msgs (omap event_msg events).
Proof. unfold waiting. intros ->. by rewrite omap_app, row_msgs_app. Qed.

(** a step: the inputs it gives the window, their effect on every row, and the
    row messages it takes from the socket and from the channel *)
Record moves (s : LinkStep) (k k' : Link) (new : list (Z * UiInput)) : Prop := {
  mv_inputs : lk_inputs k' = lk_inputs k ++ new;
  mv_row key : rowat key (lk_ui k') = List.fold_left (input_row key) new (rowat key (lk_ui k));
  mv_fifo : waiting k ++ row_msgs (omap read_ws (heard [s])) = seen new ++ waiting k'
}.

Lemma thread_moves s k k' events :
  lk_inputs k' = lk_inputs k -> lk_ui k' = lk_ui k -> lk_events k' = lk_events k ++ events ->
  row_msgs (omap event_msg events) = row_msgs (omap read_ws (heard [s])) -> moves s k k' [].
Proof.
  intros I U Ev R. constructor; [by rewrite I, app_nil_r|by rewrite U|].
  by rewrite (waiting_app k k' events Ev), R.
Qed.

Lemma window_moves s now i k k0 k' :
  lk_ui k0 = lk_ui k -> lk_inputs k0 = lk_inputs k -> heard [s] = [] ->
  waiting k = seen [(now, i)] ++ waiting k0 ->
  window_input now i k0 = Some k' -> moves s k k' [(now, i)].
Proof.
  intros U I Hd W E. unfold window_input in E. rewrite U in E.
  destruct (ui_step now i (lk_ui k)) as [[d cmds]|] eqn:S; [|done]. cbn in E. injection E as <-.
  set (k1 := k0 <| lk_ui := d |> <| lk_inputs := lk_inputs k0 ++ [(now, i)] |>).
  destruct (sent_fields cmds k1) as (FU & FE & _ & _ & FI & _). unfold sent in FU, FE, FI.
  constructor.
  - rewrite FI. cbn. by rewrite I.
  - intros key. rewrite FU. cbn. by eapply ui_step_row.
  - rewrite Hd, W. cbn. rewrite app_nil_r. unfold waiting. by rewrite FE.
Qed.

Lemma link_moves s k k' : link_step s k = Some k' -> exists new, moves s k k' new.
Proof.
  intros E. destruct s as [| |text| |n|n r|r|now|now a|now]; cbn [link_step] in E.
  - apply when_Some in E as [_ <-]. exists []. by eapply thread_moves.
  - apply when_Some in E as [_ <-]. exists []. by eapply thread_moves.
  - unfold link_text in E. destruct (_ && _); [|done]. unfold on_text in E.
    destruct (read_ws text) as [msg|] eqn:R; simplify_eq/=.
    + exists []. eapply thread_moves; try done. cbn. rewrite R. done.
    + destruct (slice_to _ _); simplify_eq/=; exists []; apply (thread_moves _ _ _ []); try done;
        rewrite ?app_nil_r; cbn; rewrite ?app_nil_r, ?R; done.
  - unfold link_command in E. destruct (lk_cmds k) as [|cmd cmds]; [done|]. apply when_Some in E as [_ <-].
    exists []. apply (thread_moves _ _ _ []); try done. by rewrite app_nil_r.
  - unfold begin_trades in E. destruct (lk_tasks k !! n) as [[| |[|more]|]|]; try done.
    apply when_Some in E as [_ <-]. exists []. apply (thread_moves _ _ _ []); try done. by rewrite app_nil_r.
  - unfold link_answer in E. destruct (runs k); [|done]. exists [].
    destruct (lk_tasks k !! n) as [[req|[|more]|more|g more]|]; simplify_eq.
    + eapply thread_moves; try done. apply no_row_reply.
    + eapply thread_moves; try done. apply (no_row_reply GetStatus).
    + unfold end_trades. cbn. destruct (_ =? g); [destruct (decode_success _ _)|].
      * by eapply thread_moves.
      * apply (thread_moves _ _ _ []); try done. by rewrite app_nil_r.
      * apply (thread_moves _ _ _ []); try done. by rewrite app_nil_r.
  - apply when_Some in E as [_ <-]. exists []. eapply thread_moves; try done.
    unfold price_events, maybe. by case_match.
  - destruct (lk_events k) as [|ev evs] eqn:Ev; [done|]. exists [(now, Delivered ev)].
    apply (window_moves _ _ _ k (k <| lk_events := evs |>)); try done.
    unfold waiting, seen, input_msg. rewrite Ev. cbn. destruct (event_msg ev) as [m|]; cbn; [|done].
    by destruct (is_row_msg m).
  - exists [(now, Acted a)]. by apply (window_moves _ _ _ k k).
  - exists [(now, Framed)]. by apply (window_moves _ _ _ k k).
Qed.

(** along a run the window applies its inputs in order, and the row messages it
    has seen, with those that wait, are those heard, in order *)
Lemma run_moves steps : forall k k', link_run steps k = Some k' -> exists new,
  lk_inputs k' = lk_inputs k ++ new /\
  (forall key, rowat key (lk_ui k') = List.fold_left (input_row key) new (rowat key (lk_ui k))) /\
  waiting k ++ row_msgs (omap read_ws (heard steps)) = seen new ++ waiting k'.
Proof.
  induction steps as [|s steps IH]; intros k k' E; cbn in E.
  { injection E as <-. exists []. rewrite !app_nil_r. done. }
  destruct (link_step s k) as [k1|] eqn:S; [|done]. cbn in E.
  destruct (link_moves _ _ _ S) as (new1 & [I1 R1 F1]). destruct (IH _ _ E) as (new2 & I2 & R2 & F2).
  exists (new1 ++ new2). split; [by rewrite I2, I1, <- app_assoc|]. split.
  - intros key. by rewrite R2, R1, fold_left_app.
  - change (s :: steps) with ([s] ++ steps). unfold heard in *. rewrite !omap_app, row_msgs_app.
    rewrite app_assoc, F1, <- app_assoc, F2, seen_app. by rewrite app_assoc.
Qed.

End Link.

(** the inputs after an answer, when no other answer is among them *)
Lemma inputs_row key inputs r : existsb is_answer inputs = false ->
  List.fold_left (input_row key) inputs r = row_steps key (seen inputs) r.
Proof.
  intros N. unfold seen. rewrite row_steps_filter. revert r N.
  induction inputs as [|[now i] inputs IH]; intros r N; [done|].
  cbn [existsb List.fold_left] in *. apply orb_false_iff in N as [N1 N2]. rewrite IH by done.
  unfold is_answer, input_row, input_msg in *. cbn. destruct i as [ev| |]; cbn in *; try done.
  by destruct ev.
Qed.

(** * Events replayed over a snapshot *)

Section Replay.
Context `{WW : !Wire}.

(** the row messages the window reads for the events *)
Definition told (evs : list WsFeedMessage) : list WsMsg := row_msgs (omap wire evs).

Definition arrives (ev : WsFeedMessage) : Prop :=
  match ev with WsPositionOpen _ _ _ _ _ => is_Some (wire ev) | _ => True end.

Lemma told_app l1 l2 : told (l1 ++ l2) = told l1 ++ told l2.
Proof. unfold told. by rewrite omap_app, row_msgs_app. Qed.

(** an event that touches the row sets it, whatever it was; another leaves it *)
Lemma told_row key ev r r' : arrives ev ->
  if touches key ev then row_steps key (told [ev]) r = row_steps key (told [ev]) r'
  else row_steps key (told [ev]) r = r.
Proof.
  intros A. destruct (touches key ev) eqn:T; unfold told; cbn [omap list_omap].
  - destruct ev; cbn in T; try done.
    + destruct A as [m Hm]. rewrite Hm. destruct (wire_open _ _ _ _ _ _ Hm) as (? & ? & ->).
      cbn. by rewrite T.
    + destruct (wire_close address wallet_id reason) as [? ->]. cbn. by rewrite T.
  - destruct (wire ev) as [m|] eqn:Hm; [|done]. destruct ev; cbn in T;
      try (apply wire_neutral in Hm; [|done]; by destruct m).
    + destruct (wire_open _ _ _ _ _ _ Hm) as (? & ? & ->). cbn. by rewrite T.
    + destruct (wire_close address wallet_id reason) as [? Hc]. rewrite Hc in Hm.
      injection Hm as <-. cbn. by rewrite T.
Qed.

Lemma untouched_row key evs r : Forall arrives evs -> existsb (touches key) evs = false ->
  row_steps key (told evs) r = r.
Proof.
  intros A. revert r. induction A as [|ev evs A _ IH]; intros r T; [done|]. cbn in T.
  apply orb_false_iff in T as [T1 T2]. change (ev :: evs) with ([ev] ++ evs).
  rewrite told_app, row_steps_app. pose proof (told_row key ev r r A) as R. rewrite T1 in R.
  rewrite R. by apply IH.
Qed.

Lemma touched_row key evs r r' : Forall arrives evs -> existsb (touches key) evs = true ->
  row_steps key (told evs) r = row_steps key (told evs) r'.
Proof.
  intros A. revert r r'. induction A as [|ev evs A Aevs IH]; intros r r' T; [done|].
  change (ev :: evs) with ([ev] ++ evs). rewrite told_app, !row_steps_app.
  pose proof (told_row key ev r r' A) as R. cbn in T. destruct (touches key ev).
  - by rewrite R.
  - by apply IH.
Qed.

(** the row after an answer and what follows it: that of the whole story when it
    is settled, that of the snapshot when it is not *)
Lemma replay_row key story a q r : Forall arrives story ->
  let whole l := row_steps key (told l) r in
  row_steps key (told (drop q story)) (whole (take a story)) =
    if settled key story a q then whole story else whole (take a story).
Proof.
  intros A. cbn zeta. unfold settled.
  destruct (existsb (touches key) (drop q story)) eqn:T; cbn [orb].
  - rewrite <- (take_drop q story) at 3. rewrite told_app, row_steps_app.
    apply touched_row; [by apply Forall_drop|done].
  - rewrite untouched_row; [|by apply Forall_drop|done].
    destruct (existsb (touches key) (segment a q story)) eqn:S; cbn [negb]; [done|].
    rewrite <- (take_drop a story) at 2. rewrite told_app, row_steps_app.
    symmetry. apply untouched_row; [by apply Forall_drop|].
    destruct (Nat.le_gt_cases a q).
    + replace (drop a story) with (segment a q story ++ drop q story); [by rewrite existsb_app, S, T|].
      unfold segment. rewrite <- (take_drop (q - a) (drop a story)) at 2. rewrite drop_drop.
      do 2 f_equal. lia.
    + rewrite <- (take_drop (a - q) (drop q story)) in T. rewrite existsb_app in T.
      apply orb_false_iff in T as [_ T]. rewrite drop_drop in T. by replace (q + (a - q))%nat with a in T by lia.
Qed.

(** what the window has seen of a story is a first part of it *)
Lemma told_place story ms ms' : told story = ms ++ ms' ->
  exists q, (q <= length story)%nat /\ told (take q story) = ms.
Proof.
  revert ms. induction story as [|ev story IH]; intros ms E.
  { exists O. split; [done|]. by destruct ms. }
  destruct ms as [|m ms]; [by exists O; split; [cbn; lia|]|].
  change (ev :: story) with ([ev] ++ story) in E. rewrite told_app in E.
  destruct (told [ev]) as [|m0 [|m1 l]] eqn:T.
  - destruct (IH (m :: ms) E) as (q & L & Q). exists (S q). split; [cbn; lia|].
    change (take (S q) (ev :: story)) with ([ev] ++ take q story). by rewrite told_app, T, Q.
  - injection E as -> E. destruct (IH ms E) as (q & L & Q). exists (S q). split; [cbn; lia|].
    change (take (S q) (ev :: story)) with ([ev] ++ take q story). by rewrite told_app, T, Q.
  - exfalso. unfold told in T. cbn in T. destruct (wire ev) as [x|]; [|done]. cbn in T. by destruct (is_row_msg x).
Qed.

End Replay.

(** * Properties *)

Section Converge.
Context {B P : Type} `{PP : !Pool P, BB : !Broker B P}.
Context (show_address : Address -> string) (to_json : V3TapeWire -> string).
Context (boxed : PumpPool Bonding -> P).
Context (show_inj : Inj (=) (=) show_address).
Context (show_plain : forall a, str_all not_colon (show_address a) = true).
Context `{WW : !Wire} `{DJ : !DashJson} (write_json : WsFeedMessage -> option string)
  (read_cmd : string -> option WsCommand).
Implicit Types (s : Manager B P) (d : Dashboard).

(** the window shows of a position what the manager has of it *)
Definition shows (v : gmap PositionKey (f64 * bool)) (p : PositionKey) d : Prop :=
  rowat (show_key show_address p) d =
    (fun f => (show_address (pk_mint p), pk_wallet_id p, json_f64 f.1)) <$> v !! p.

Lemma mirrors_shows v p d : mirrors show_address v d -> shows v p d.
Proof.
  intros [M1 M2]. unfold shows, rowat. destruct (v !! p) as [f|] eqn:V.
  - destruct (M1 _ _ V) as (_ & up & -> & A & W & T). cbn. unfold brief. by rewrite A, W, T.
  - destruct (ds_open d !! show_key show_address p) as [up|] eqn:U; [|done].
    destruct (M2 _ _ U) as (p' & E & S). apply show_key_inj in E as <-; [|done..].
    rewrite V in S. by apply is_Some_None in S.
Qed.

Lemma mirrors_keys v key d : mirrors show_address v d -> rowat key d <> None -> exists p, key = show_key show_address p.
Proof.
  intros [_ M] R. unfold rowat in R. destruct (ds_open d !! key) as [up|] eqn:U; [|done].
  destruct (M _ _ U) as (p & E & _). by exists p.
Qed.

Lemma mirrors_row v key d d' :
  mirrors show_address v d -> mirrors show_address v d' -> rowat key d = rowat key d'.
Proof.
  intros M M'. pose proof (mirrors_keys v key d M) as K. pose proof (mirrors_keys v key d' M') as K'.
  assert (forall p, key = show_key show_address p -> rowat key d = rowat key d') as S.
  { intros p ->. by rewrite (mirrors_shows v p d M), (mirrors_shows v p d' M'). }
  destruct (rowat key d) eqn:R; [destruct K as [k0 Hk]; [done|]; by eapply S|].
  destruct (rowat key d') eqn:R'; [|done]. destruct K' as [k0 Hk]; [done|]. by eapply S.
Qed.

Lemma mirrors_rows v d d' :
  mirrors show_address v d -> (forall key, rowat key d' = rowat key d) -> mirrors show_address v d'.
Proof.
  intros [M1 M2] R. split.
  - intros p f V. destruct (M1 _ _ V) as (F & up & U & A & W & T). split; [done|].
    specialize (R (show_key show_address p)). unfold rowat in R. rewrite U in R.
    destruct (ds_open d' !! _) as [up'|]; [|done]. injection R as RA RW RT.
    exists up'. by rewrite RA, RW, RT.
  - intros key up U. specialize (R key). unfold rowat in R. rewrite U in R.
    destruct (ds_open d !! key) as [up'|] eqn:U'; [|done]. by eapply M2.
Qed.

(** the table a window would have that had read all the events from the start *)
Definition canonical (story : list WsFeedMessage) : Dashboard :=
  List.fold_left (fun d m => (apply_msg m d).1) (omap wire story) dashboard_new.

Lemma canonical_row key story : rowat key (canonical story) = row_steps key (told story) None.
Proof. unfold canonical, told. rewrite fold_msgs_row, row_steps_filter. done. Qed.

Lemma canonical_mirrors s0 msgs s es :
  mg_positions s0 = ∅ -> Forall (fun x => sane x.2) msgs ->
  manage show_address to_json boxed msgs s0 = Ret (s, es) -> openings_arrive es ->
  mirrors show_address (faces s) (canonical (published es)).
Proof.
  intros E0 S R A. apply (manage_tracks show_address to_json boxed show_inj show_plain msgs S _ _ _ R A).
  unfold faces. rewrite E0. split; [done|]. intros key up. cbn. by rewrite lookup_empty.
Qed.

Lemma manage_app msgs1 msgs2 s s1 es1 :
  manage show_address to_json boxed msgs1 s = Ret (s1, es1) ->
  manage show_address to_json boxed (msgs1 ++ msgs2) s =
    (r ← manage show_address to_json boxed msgs2 s1; Ret (r.1, es1 ++ r.2)).
Proof.
  revert s es1. induction msgs1 as [|[[now instant] msg] msgs1 IH]; intros s es1 E; cbn [manage app] in *.
  - injection E as <- <-. by destruct (manage _ _ _ msgs2 s) as [[]|].
  - destruct (handle _ _ _ _ _ _ s) as [[[u s'] e]|]; [|done]. cbn in *.
    destruct (manage show_address to_json boxed msgs1 s') as [[s'' es']|] eqn:E'; [|done].
    injection E as <- <-. rewrite (IH _ _ E'). destruct (manage _ _ _ msgs2 s'') as [[]|]; [|done]. cbn.
    by rewrite app_assoc.
Qed.

(** a query changes nothing *)
Lemma query_keeps s s' rows :
  handle_get_open_positions show_address s = Ret (tt, s', [Answer (OpenPositionsReply rows)]) -> s' = s.
Proof.
  unfold handle_get_open_positions. rewrite bind_gets.
  destruct (mapM (position_wire _) _); [|done]. rewrite bind_lift. by intros [= <- _].
Qed.

(** the rows of the answer are the table after the events before it *)
Lemma answer_canonical s0 msgs s es rows urows s' key :
  mg_positions s0 = ∅ -> Forall (fun x => sane x.2) msgs ->
  manage show_address to_json boxed msgs s0 = Ret (s, es) -> openings_arrive es ->
  handle_get_open_positions show_address s = Ret (tt, s', [Answer (OpenPositionsReply rows)]) ->
  mapM wire_row rows = Some urows ->
  rowat key (apply_open_positions urows dashboard_new) = row_steps key (told (published es)) None.
Proof.
  intros E0 S R A Q U. rewrite <- canonical_row. apply (mirrors_row (faces s)).
  - assert (mirrors show_address (faces s') (apply_open_positions urows dashboard_new)) as M.
    { eapply (resync_mirrors show_address to_json boxed show_inj show_plain s0 msgs s es rows urows s' [] s' []);
        try done; [by rewrite app_nil_r|by constructor]. }
    by rewrite (query_keeps _ _ _ Q) in M.
  - by eapply canonical_mirrors.
Qed.

(** the window has read the first [q] events by the inputs [pre] of a session
    accepted at event [start] *)
Definition at_place (start : nat) (story : list WsFeedMessage) (pre : list (Z * UiInput)) (q : nat) : Prop :=
  (start <= q <= length story)%nat /\ seen pre = told (segment start q story).

Lemma read_written evs : Forall (fun ev => write_json ev ≫= read_ws = wire ev) evs ->
  omap read_ws (omap write_json evs) = omap wire evs.
Proof.
  induction 1 as [|ev evs E _ IH]; [done|]. cbn [omap list_omap]. rewrite <- E.
  destruct (write_json ev) as [json|]; cbn; [|exact IH]. by destruct (read_ws json); rewrite IH.
Qed.

(** what the window sees after its last answer is what it had not read of the
    story, and before it what it had *)
Lemma window_reads story start steps k0 k pre x post :
  (start <= length story)%nat -> Forall (fun ev => write_json ev ≫= read_ws = wire ev) story ->
  link_run steps k0 = Some k -> heard steps = omap write_json (drop start story) ->
  waiting k0 = [] -> waiting k = [] -> lk_inputs k = lk_inputs k0 ++ pre ++ x :: post -> is_answer x = true ->
  existsb is_answer post = false ->
  (exists q, at_place start story pre q) /\
  forall q key, at_place start story pre q ->
    rowat key (lk_ui k) = row_steps key (told (drop q story)) (input_row key None x).
Proof.
  intros Ls W R Hd W0 W1 I X N. destruct (run_moves _ _ _ R) as (new & I' & Row & Fifo).
  rewrite I in I'. apply app_inv_head in I' as <-.
  rewrite W0, W1, Hd, app_nil_r, read_written in Fifo by by apply Forall_drop. cbn [app] in Fifo.
  change (row_msgs (omap wire ?l)) with (told l) in Fifo.
  assert (seen [x] = []) as Sx by (destruct x as [now [ev| |]]; try done; by destruct ev).
  change (x :: post) with ([x] ++ post) in *. rewrite !seen_app, Sx in Fifo. cbn [app] in Fifo. split.
  - destruct (told_place _ _ _ Fifo) as (n & L & T). rewrite length_drop in L. exists (start + n)%nat.
    split; [lia|]. unfold segment. by replace (start + n - start)%nat with n by lia.
  - intros q key [Bq Sq]. rewrite Row, !fold_left_app. cbn [List.fold_left].
    rewrite inputs_row by done. f_equal.
    + apply (app_inv_head (seen pre)). rewrite <- Fifo, Sq, <- told_app. f_equal. unfold segment.
      rewrite <- (take_drop (q - start) (drop start story)) at 1. rewrite drop_drop. do 2 f_equal. lia.
    + destruct x as [now [ev| |]]; try done. by destruct ev.
Qed.

(** C3: The window converges on the manager.  Take the last answer the window
    applied to the query of the open positions, which holds the positions the
    manager had after its first [a] events, and let the window have read the
    first [q] events when it applied it, over a socket that stayed open and has
    delivered all there was since; whatever answers came before, whatever other
    clients connect, lag, command or leave.  Then the row of a position is right
    (there with its address, wallet and entry market cap when the manager has the
    position, and absent when it has not) if it was not touched between [a] and
    [q] or is touched again later; otherwise it is what the manager had at the
    answer.  No row is of something else.  An answer that is not older than what
    the window had read leaves the whole table right. *)
Theorem window_converges s0 msgs1 s1 es1 rows urows s1' msgs2 s2 es2 sts h ss steps k0 k pre t post :
  let story := published (es1 ++ es2) in
  let a := length (published es1) in
  mg_positions s0 = ∅ -> Forall (fun x => sane x.2) (msgs1 ++ msgs2) ->
  manage show_address to_json boxed msgs1 s0 = Ret (s1, es1) ->
  handle_get_open_positions show_address s1 = Ret (tt, s1', [Answer (OpenPositionsReply rows)]) ->
  mapM wire_row rows = Some urows ->
  manage show_address to_json boxed msgs2 s1' = Ret (s2, es2) -> openings_arrive (es1 ++ es2) ->
  Forall (fun ev => write_json ev ≫= read_ws = wire ev) story ->
  hub_run (P := P) write_json read_cmd sts hub_new = Some h -> bridged sts = story ->
  ss ∈ hb_sessions h -> se_phase ss <> Over -> se_cursor ss = length story ->
  link_run steps k0 = Some k -> heard steps = se_out ss -> waiting k0 = [] -> waiting k = [] ->
  lk_inputs k = lk_inputs k0 ++ pre ++ (t, Delivered (EvOpenPositions urows)) :: post ->
  existsb is_answer post = false ->
  (exists q, at_place (se_start ss) story pre q) /\
  forall q, at_place (se_start ss) story pre q ->
    (forall p, shows (if settled (show_key show_address p) story a q then faces s2 else faces s1) p (lk_ui k)) /\
    (forall key, is_Some (ds_open (lk_ui k) !! key) -> exists p, key = show_key show_address p) /\
    ((q <= a)%nat -> mirrors show_address (faces s2) (lk_ui k)).
Proof.
  intros story a E0 Sn R1 Q U R2 A W Rh Br Is Ph Cu Rl Hd W0 W1 I N.
  destruct (hub_run_ok _ _ _ _ _ (hub_new_ok write_json) Rh) as [_ F]. rewrite Forall_forall in F.
  destruct (F _ Is) as [Bn Op _]. rewrite (hub_run_sent _ _ _ _ _ Rh), Br in Bn, Op. cbn [hb_sent hub_new app] in Bn, Op.
  specialize (Op Ph). unfold segment in Op. rewrite Cu, take_ge in Op by (rewrite length_drop; lia).
  rewrite Op in Hd. assert (se_start ss <= length story)%nat as Ls by lia.
  destruct (window_reads _ _ _ _ _ _ _ _ Ls W Rl Hd W0 W1 I eq_refl N) as [Ex Row].
  split; [exact Ex|]. intros q Hq.
  assert (published (es1 ++ es2) = published es1 ++ published es2) as Pub by (unfold published; by rewrite omap_app).
  assert (take a story = published es1) as Ta by (unfold story, a; by rewrite Pub, take_app_length).
  pose proof (proj1 (openings_app es1 es2) A) as [A1 _].
  pose proof (proj1 (Forall_app _ _ _) Sn) as [Sn1 Sn2].
  pose proof (query_keeps _ _ _ Q) as ->.
  assert (mirrors show_address (faces s1) (canonical (published es1))) as M1
    by exact (canonical_mirrors _ _ _ _ E0 Sn1 R1 A1).
  assert (mirrors show_address (faces s2) (canonical story)) as M2.
  { refine (canonical_mirrors s0 (msgs1 ++ msgs2) _ _ E0 Sn _ A). by rewrite (manage_app _ _ _ _ _ R1), R2. }
  assert (forall key, rowat key (lk_ui k) = rowat key (canonical (if settled key story a q then story else published es1)))
    as Rw.
  { intros key. rewrite (Row q key Hq). cbn [input_row snd].
    rewrite (answer_canonical _ _ _ _ _ _ _ key E0 Sn1 R1 A1 Q U), <- Ta, canonical_row.
    rewrite (replay_row key story a q None A). by destruct (settled key story a q). }
  split; [|split].
  - intros p. unfold shows. rewrite Rw. destruct (settled _ _ _ _); [exact (mirrors_shows _ p _ M2)|exact (mirrors_shows _ p _ M1)].
  - intros key [up Hup]. assert (rowat key (lk_ui k) <> None) as R by (unfold rowat; by rewrite Hup).
    rewrite Rw in R. destruct (settled _ _ _ _); [exact (mirrors_keys _ _ _ M2 R)|exact (mirrors_keys _ _ _ M1 R)].
  - intros L. eapply mirrors_rows; [exact M2|]. intros key. rewrite Rw.
    replace (settled key story a q) with true; [done|]. symmetry. unfold settled, segment.
    replace (q - a)%nat with O by lia. apply orb_true_r.
Qed.
End Converge.

(** ** A run with a late answer *)

(** only the openings and closings are written *)
Definition relay_ws (e : WsFeedMessage) : option WsMsg :=
  match e with WsPositionOpen _ _ _ _ _ | WsPositionClose _ _ _ => Some (ideal_ws e) | _ => None end.

Program Definition relay_wire : Wire :=
  {| wire := relay_ws; wire_row := fun r => Some (ideal_row r); json_f64 := fun x => x |}.
Next Obligation. cbn. intros a w r e t m [= <-]. by eexists _, _. Qed.
Next Obligation. cbn. intros a w r. by eexists. Qed.
Next Obligation. cbn. intros e m N E. by destruct e. Qed.
Next Obligation. cbn. by intros row u [= <-]. Qed.
#[local] Existing Instance relay_wire.

Definition window_story : list WsFeedMessage := published (mirror_mid.2 ++ mirror_end.2).
Definition window_read (text : string) : option WsMsg :=
  head (omap (fun ev => if bool_decide (relay_write ev = Some text) then relay_ws ev else None) window_story).

(** the answers are those of before the run and of between its two halves *)
Definition window_json : DashJson := {|
  read_ws := window_read; read_status := fun _ => None; read_pubkey := fun _ => None;
  read_buy_size := fun _ => None; read_mode_info := fun _ => None; read_mode_set := fun _ => None;
  read_tx_log := fun _ => None; read_trades := fun _ => None;
  read_positions := fun body => if String.eqb body "none" then Some []
                                else if String.eqb body "two" then Some (ideal_row <$> mirror_rows) else None;
  read_tier_stats := fun _ => None; read_dev_stats := fun _ => None;
  read_chart := fun _ => None; read_wallets := fun _ => None; read_ticker := fun _ => None |}.
#[local] Existing Instance window_json.

Definition window_hub_steps : list HubStep :=
  [HAccept; HHandshake 0 true] ++ (window_story ≫= fun ev => [HEvent ev; HReceive 0 true]).
Definition window_hub : Hub (P := PumpPool Bonding) :=
  Eval vm_compute in default hub_new (hub_run relay_write relay_cmd window_hub_steps hub_new).
Definition window_session : Session := Eval vm_compute in relay_session window_hub.

(** the answer to the fetch of the connection arrives between the openings and
    what follows, or after all of it *)
Definition on_time : list LinkStep :=
  [LConnect; LText "open 1"; LAnswer 5 (Replied 200 "OK" (Some "none")); LText "open 11";
   LAnswer 6 (Replied 200 "OK" (Some "two")); LText "close 1"; LText "open 111"] ++ replicate 7 (WReceive 1).
Definition too_late : list LinkStep :=
  [LConnect; LText "open 1"; LText "open 11"; LText "close 1"; LText "open 111";
   LAnswer 5 (Replied 200 "OK" (Some "two"))] ++ replicate 6 (WReceive 1).
Definition window_of (steps : list LinkStep) : Link := default link_new (link_run steps link_new).

(** The answer that arrives in time brings the whole table in step, although an
    older one came before it; the one that arrives last leaves the second
    position right and the first one, closed meanwhile, on the table. *)
Lemma window_converges_witness :
  mirrors show_ones (faces mirror_end.1) (lk_ui (window_of on_time)) /\
  shows show_ones (faces mirror_end.1) (mkPositionKey 2%N "wallet_1") (lk_ui (window_of too_late)) /\
  shows show_ones (faces mirror_mid.1) (mkPositionKey 1%N "wallet_1") (lk_ui (window_of too_late)).
Proof.
  assert (Forall (fun x => sane x.2) (mirror_first ++ mirror_then)) as Sn by (by repeat constructor).
  assert (mirror_manage mirror_first demo_manager = Ret mirror_mid) as R1 by (vm_compute; reflexivity).
  assert (handle_get_open_positions show_ones mirror_mid.1
            = Ret (tt, mirror_mid.1, [Answer (OpenPositionsReply mirror_rows)])) as Q by (vm_compute; reflexivity).
  assert (mirror_manage mirror_then mirror_mid.1 = Ret mirror_end) as R2 by (vm_compute; reflexivity).
  assert (openings_arrive (mirror_mid.2 ++ mirror_end.2)) as A
    by (apply Forall_forall; intros [] _; done || by eexists).
  assert (Forall (fun ev => relay_write ev ≫= read_ws = wire ev) window_story) as F
    by (repeat constructor; vm_compute; reflexivity).
  assert (hub_run relay_write relay_cmd window_hub_steps hub_new = Some window_hub) as Rh by (vm_compute; reflexivity).
  assert (window_session ∈ hb_sessions window_hub) as Is by by left.
  pose proof (fun steps pre post => window_converges show_ones Runs.demo_json (fun p : PumpPool Bonding => p)
    show_ones_inj show_ones_plain relay_write relay_cmd demo_manager mirror_first mirror_mid.1 mirror_mid.2
    mirror_rows (ideal_row <$> mirror_rows) mirror_mid.1 mirror_then mirror_end.1 mirror_end.2
    window_hub_steps window_hub window_session steps link_new (window_of steps) pre 1 post
    eq_refl Sn R1 Q eq_refl R2 A F Rh eq_refl Is ltac:(discriminate) eq_refl) as C.
  split; [|split].
  - destruct (C on_time (take 4 (lk_inputs (window_of on_time))) (drop 5 (lk_inputs (window_of on_time))))
      as [_ K]; [vm_compute; reflexivity..|].
    apply (K 6%nat); [split; [cbn; lia|vm_compute; reflexivity]|vm_compute; lia].
  - destruct (C too_late (take 5 (lk_inputs (window_of too_late))) []) as [_ K]; [vm_compute; reflexivity..|].
    destruct (K 13%nat) as (S & _); [split; [cbn; lia|vm_compute; reflexivity]|].
    exact (S (mkPositionKey 2%N "wallet_1")).
  - destruct (C too_late (take 5 (lk_inputs (window_of too_late))) []) as [_ K]; [vm_compute; reflexivity..|].
    destruct (K 13%nat) as (S & _); [split; [cbn; lia|vm_compute; reflexivity]|].
    exact (S (mkPositionKey 1%N "wallet_1")).
Defined.
