(* ===== verification/Api.v ===== *)
(** The rest of [main.rs]: the cap of the operator on a buy, the handlers that
    read the shared state, the rewriting of the wallets in the configuration
    file, the task that refreshes the balances and the logger of the feeds.

    [ApiState] is what the handlers share; the answers of the actors and of the
    database are arguments, [None] when an actor is gone. *)
From Stdlib Require Import Ascii.
From S2P Require Import Prelude Text Amounts Pump Swarm Config Registry Strategy Features ScoreEngine Learning.
From S2P Require Import LivePosition ExitEngine Positions Tick Blacklist Brokers Wallets Messages Manager.
From S2P Require Import Feed PostExit Storage Curve Instructions Onchain Server Pipeline Watchlist Creator Admission.
From S2P Require Import Database Analytics Hub.

Local Open Scope string_scope.
Local Open Scope list_scope.
Local Open Scope Z_scope.

(** ** The operator's cap on a buy *)

(* main.rs 320-320: BUY_CAP_ABSOLUTE_FLOOR_SOL *)
Definition BUY_CAP_ABSOLUTE_FLOOR_SOL : f64 := 0.4%float.

(* main.rs 321-321: main *)
Definition buy_cap_floor (a_plus_sol : f64) : f64 := f64_max BUY_CAP_ABSOLUTE_FLOOR_SOL a_plus_sol.

(* main.rs 322-325: main *)
Definition buy_cap_seed (amount_sol a_plus_sol : f64) : f64 := f64_max amount_sol (buy_cap_floor a_plus_sol).

(** the cap after the requests [PUT /buy-size] of a run *)
Definition buy_cap_run (amount_sol a_plus_sol : f64) (requests : list (option f64)) : f64 :=
  List.fold_left (fun cap sol => (set_buy_size (buy_cap_floor a_plus_sol) sol cap).2) requests
    (buy_cap_seed amount_sol a_plus_sol).

(** ** The balances *)

Section Balances.
Context {B P : Type} `{PP : !Pool P, BB : !Broker B P}.
Implicit Types (r : WalletRegistry B) (w : WalletHandle B).

(** one turn a second; the tick counter wraps *)
(* main.rs 531-548: main *)
Definition refresh_turn (balance_refresh_secs : Z) (st : Z * WalletRegistry B) : (Z * WalletRegistry B) * f64 :=
  let tick_count := u64 (st.1 + 1) in
  let r := refresh_all_balances (Z.max balance_refresh_secs 1) tick_count st.2 in
  ((tick_count, r), total_balance_sol r).

(** ** The handlers that read *)

(* autobuy/wallet_registry.rs 153-163: WalletWire *)
Record WalletInfo := mkWalletInfo {
  wi_id : string; wi_label : string; wi_enabled : bool; wi_pubkey : string; wi_balance_sol : f64;
  wi_size_sol : option f64; wi_tier_size : option WalletTierSize }.

(* autobuy/wallet_registry.rs 140-150: WalletHandle::wire_snapshot *)
Definition wire_snapshot w : WalletInfo :=
  mkWalletInfo (wh_id w) (wh_label w) (wh_enabled w) (wh_pubkey w) (wh_balance w) (wh_size_sol w) (wh_tier_size w).

(** the settings of [ApiState] that never change, and the shared cells *)
(* main.rs 224-245: ApiState *)
Record ApiState := mkApiState {
  ap_paused : bool; ap_balance : f64; ap_buy_size : f64; ap_pubkey : string; ap_wallet_registry : WalletRegistry B;
  ap_mode : string; ap_feed_metrics : list FeedMetrics; ap_bot_metrics : BotMetrics;
  ap_tx_log : list WsFeedMessage; ap_live_cfg : LiveExecutionConfig; ap_buy_cap_floor : f64; ap_learning : bool }.

Implicit Types (a : ApiState).

(* main.rs 893-900: get_status *)
Record Status := mkStatus {
  st_paused : bool; st_balance_sol : f64; st_total_balance_sol : f64; st_mode : string; st_wallet : string;
  st_wallets : list WalletInfo }.

(* main.rs 891-910: get_status *)
Definition get_status a : Status :=
  let total := total_balance_sol (ap_wallet_registry a) in
  mkStatus (ap_paused a) total total (ap_mode a) (ap_pubkey a) (wire_snapshot <$> wallets_all (ap_wallet_registry a)).

(* main.rs 912-914: get_wallets *)
Definition get_wallets a : list WalletInfo := wire_snapshot <$> wallets_all (ap_wallet_registry a).

(* main.rs 580-588: get_pubkey *)
Definition get_pubkey a : string := ap_pubkey a.

(** what the manager says of its positions; [None] when it is gone *)
(* main.rs 1085-1097: get_open_positions *)
Definition get_open_positions (reply : option (list OpenPositionWire)) : list OpenPositionWire := default [] reply.

(* main.rs 971-981: get_pnl *)
Record PnlResponse := mkPnlResponse {
  pr_combined_realized_sol : f64; pr_combined_open_unrealized_sol : f64; pr_per_wallet : list (string * f64) }.

(* main.rs 997-1000: get_pnl *)
Definition wallet_pnl (open : list OpenPositionWire) : gmap string f64 :=
  List.fold_left (fun m p =>
    <[ow_wallet_id p := (default 0 (m !! ow_wallet_id p) + ow_pnl p)%float]> m) open ∅.

(** the order of the sum is that of a hash map *)
(* main.rs 982-1015: get_pnl *)
Definition get_pnl (reply : option (list OpenPositionWire)) : PnlResponse :=
  match reply with
  | None => mkPnlResponse 0%float 0%float []
  | Some open =>
      let per_wallet := map_to_list (wallet_pnl open) in
      mkPnlResponse 0%float (List.fold_left PrimFloat.add (per_wallet.*2) 0%float) per_wallet
  end.

(* main.rs 1017-1025: get_buy_size *)
Definition get_buy_size a : f64 := ap_buy_size a.

(* main.rs 1028-1035: get_metrics *)
Record MetricsResponse := mkMetricsResponse {
  mr_feeds : list FeedSnapshot; mr_bot : BotSnapshot; mr_strategy : option StrategySnapshot;
  mr_dev_ranker : DevRankerSnapshot; mr_smart_money : Z * Z }.

(* main.rs 1036-1062: get_metrics *)
Definition get_metrics (now : Z) (strategy : option StrategySnapshot) (dev_ranker : DevRankerSnapshot)
    (smart_money : Z * Z) a : MetricsResponse :=
  mkMetricsResponse (feed_snapshot now <$> ap_feed_metrics a) (bot_snapshot now (ap_bot_metrics a)) strategy dev_ranker smart_money.

(* main.rs 1100-1106: get_mode *)
Record ModeAnswer := mkModeAnswer {
  ma_mode : string; ma_wallet : string; ma_balance_sol : f64; ma_live : LiveExecutionConfig }.

(* main.rs 1107-1115: get_mode *)
Definition get_mode a : ModeAnswer := mkModeAnswer (ap_mode a) (ap_pubkey a) (ap_balance a) (ap_live_cfg a).

(* main.rs 1077-1083: get_tx_log *)
Definition get_tx_log a : list WsFeedMessage := ap_tx_log a.

Inductive ApiAnswer (A : Type) := ApiJson (a : A) | ApiBadRequest | ApiServerError | ApiDisabled.
Arguments ApiJson {A} a.
Arguments ApiBadRequest {A}.
Arguments ApiServerError {A}.
Arguments ApiDisabled {A}.

(* main.rs 1064-1075: get_tier_stats *)
Definition get_tier_stats (stats : result TierBDetailedStats string) a : ApiAnswer TierBDetailedStats :=
  if negb (ap_learning a) then ApiDisabled
  else match stats with Ok s => ApiJson s | Err _ => ApiServerError end.

(** [stats_of] is the cached lookup of [Analytics] *)
(* main.rs 856-889: get_dev_stats *)
Definition get_dev_stats (from_str : string -> option Address) (coin : result (option CoinRow) string)
    (stats_of : Address -> result (option CreatorStatistics) string) : ApiAnswer (option CreatorStatistics) :=
  match coin with
  | Err _ => ApiServerError
  | Ok None => ApiJson None
  | Ok (Some row) =>
      match from_str (co_developer row) with
      | None => ApiBadRequest
      | Some dev => match stats_of dev with Ok stats => ApiJson stats | Err _ => ApiServerError end
      end
  end.

End Balances.

(** ** The wallets in the configuration file *)

Section Yaml.
Context {V : Type} (parse : string -> result (option (list (string * V))) string) (print : list (string * V) -> result string string)
        (to_value : list WalletEntryConfig -> result V string).

(** [Mapping::insert]: an old entry keeps its place *)
Fixpoint mapping_insert (k : string) (v : V) (m : list (string * V)) : list (string * V) :=
  match m with
  | [] => [(k, v)]
  | (k', v') :: m => if String.eqb k' k then (k', v) :: m else (k', v') :: mapping_insert k v m
  end.

(** the new text, or the error; nothing is written before everything else has
    succeeded, and comments and layout are lost *)
(* main.rs 1929-1946: rewrite_yaml_wallets *)
Definition rewrite_yaml_wallets (path : string) (content : result string string) (wallets : list WalletEntryConfig)
    : result string string :=
  match content with
  | Err e => Err ("read " +:+ path +:+ ": " +:+ e)
  | Ok content =>
      match parse content with
      | Err e => Err ("parse yaml: " +:+ e)
      | Ok doc =>
          match to_value wallets with
          | Err e => Err ("wallets value: " +:+ e)
          | Ok wv =>
              match doc with
              | None => Err "root yaml is not a mapping"
              | Some m => match print (mapping_insert "wallets" wv m) with Err e => Err ("serialize: " +:+ e) | Ok out => Ok out end
              end
          end
      end
  end.

End Yaml.

(** ** The logger of the feeds *)

(** what it keeps of each feed between two intervals *)
Record Meter := mkMeter { me_last_messages : gmap string Z; me_ema_msgs : gmap string f64; me_health : FeedHealthMonitor }.

Inductive MeterLine :=
  | LineMetrics (name : string) (rate ema : f64) (last_msg_age_s : Z)
  | LineStall (name : string) (reasons : list string)
  | LineRecovered (name : string)
  | LineSpike (name : string) (rate prior : f64).

Definition METER_INTERVAL_SECS : Z := 30.

(* main.rs 456-467: main *)
Definition stall_reasons (last_msg_age_s zero_streak : Z) : list string :=
  (if FEED_STALL_MSG_AGE_SECS <? last_msg_age_s
   then ["last_msg_age_s=" +:+ fmt_int last_msg_age_s +:+ ">" +:+ fmt_int FEED_STALL_MSG_AGE_SECS] else [])
    ++ (if FEED_ZERO_RATE_STREAK <=? zero_streak
        then ["msgs/s_zero_streak=" +:+ fmt_int zero_streak +:+ ">=" +:+ fmt_int FEED_ZERO_RATE_STREAK] else []).

(* main.rs 420-496: main *)
Definition meter_feed (now : Z) (acc : Meter * list MeterLine) (m : FeedMetrics) : Meter * list MeterLine :=
  let '(st, lines) := acc in
  let snap := feed_snapshot now m in
  let prev := default 0 (me_last_messages st !! fs_name snap) in
  let delta := sat_sub (fs_messages snap) prev in
  let rate := (f64_of_Z delta / f64_of_Z METER_INTERVAL_SECS)%float in
  let prior := default rate (me_ema_msgs st !! fs_name snap) in
  let ema := (0.3 * rate + (1 - 0.3) * prior)%float in
  let age := last_msg_age_secs now snap in
  let '(event, health) := evaluate now snap rate (me_health st) in
  let health_lines := match event with
    | HealthStall => [LineStall (fs_name snap) (stall_reasons age (zero_rate_streak (fs_name snap) health))]
    | HealthRecovered => [LineRecovered (fs_name snap)]
    | HealthOk => []
    end in
  let spike := if (1 <? prior)%float && (prior * 3 <? rate)%float then [LineSpike (fs_name snap) rate prior] else [] in
  (mkMeter (<[fs_name snap := fs_messages snap]> (me_last_messages st)) (<[fs_name snap := ema]> (me_ema_msgs st)) health,
   lines ++ [LineMetrics (fs_name snap) rate ema age] ++ health_lines ++ spike).

(* main.rs 405-419: main *)
Definition meter_turn (now : Z) (feeds : list FeedMetrics) (st : Meter) : Meter * list MeterLine :=
  List.fold_left (meter_feed now) feeds (st, []).

(** ** The cap holds *)

Lemma buy_cap_floor_ge a_plus_sol :
  (buy_cap_floor a_plus_sol >=? 0.4)%float = true /\
  PrimFloat.is_nan a_plus_sol || (buy_cap_floor a_plus_sol >=? a_plus_sol)%float = true.
Proof.
  split.
  - unfold buy_cap_floor, BUY_CAP_ABSOLUTE_FLOOR_SOL, f64_max. repeat case_match; try done; f64_order.
  - destruct (PrimFloat.is_nan a_plus_sol) eqn:N; [done|]. by apply f64_max_ge_r.
Qed.

(** a floor that is a number is kept by every request *)
Lemma set_buy_size_keeps floor sol cap :
  (floor >=? 0.4)%float = true -> (cap >=? floor)%float = true -> ((set_buy_size floor sol cap).2 >=? floor)%float = true.
Proof. intros HF HC. unfold set_buy_size. repeat case_match; try done; cbn [snd]. f64_order. Qed.

Lemma buy_cap_run_floor floor requests cap :
  (floor >=? 0.4)%float = true -> (cap >=? floor)%float = true ->
  (List.fold_left (fun cap sol => (set_buy_size floor sol cap).2) requests cap >=? floor)%float = true.
Proof.
  intros HF. revert cap. induction requests as [|sol requests IH]; intros cap HC; [done|].
  cbn [List.fold_left]. by apply IH, set_buy_size_keeps.
Qed.

(** Whatever the configuration says, not-a-number and negative sizes included,
    and whatever is asked of [PUT /buy-size], the cap on a buy is never below
    0.4 SOL nor below the size of an A+ buy. *)
Theorem buy_cap_holds amount_sol a_plus_sol requests :
  let cap := buy_cap_run amount_sol a_plus_sol requests in
  (cap >=? 0.4)%float = true /\ PrimFloat.is_nan a_plus_sol || (cap >=? a_plus_sol)%float = true.
Proof.
  intros cap. destruct (buy_cap_floor_ge a_plus_sol) as [HF HA].
  assert (HC : (cap >=? buy_cap_floor a_plus_sol)%float = true).
  { apply buy_cap_run_floor; [exact HF|]. apply f64_max_ge_r.
    destruct (PrimFloat.is_nan (buy_cap_floor a_plus_sol)) eqn:N; [|done]. f64_order. }
  split; [by eapply f64_le_trans|].
  destruct (PrimFloat.is_nan a_plus_sol); [done|]. by eapply f64_le_trans.
Qed.
