(* ===== verification/Counterfactual.v ===== *)
(** The offline tool [bin/cf_spamdev.rs]: for the tokens of developers the spam
    gate turned away, it rebuilds from the stored trades the features the token
    had in its scoring window and scores them again under several penalties.

    The tables are those of [Database], the engine that of [ScoreEngine]; the
    configuration, the registry file and the list of tokens are arguments, what
    the tool prints is what it returns. *)
From Stdlib Require Import Ascii.
From S2P Require Import Prelude Text Amounts Pump Swarm Config Registry Features ScoreEngine Learning.
From S2P Require Import Positions Messages PostExit Storage Pipeline Admission Server Database Analytics.

Local Open Scope string_scope.
Local Open Scope list_scope.
Local Open Scope Z_scope.

(* bin/cf_spamdev.rs 31-31: TTL_SECS *)
Definition TTL_SECS : Z := 172800.
(* bin/cf_spamdev.rs 32-32: PENALTIES *)
Definition PENALTIES : list Z := [0; -1; -2; -3].

(** ** The registry file *)

(* bin/cf_spamdev.rs 34-42: WalletRecord *)
Record CfWallet := mkCfWallet { cw_trades : Z; cw_wins : Z; cw_pnl_pct_sum : f64; cw_last_seen_unix : Z }.

(* bin/cf_spamdev.rs 45-51: WalletRecord::winrate *)
Definition cf_winrate (r : CfWallet) : f64 :=
  if cw_trades r =? 0 then 0%float else (f64_of_Z (cw_wins r) / f64_of_Z (cw_trades r))%float.

(* bin/cf_spamdev.rs 52-58: WalletRecord::avg_pnl_pct *)
Definition cf_avg_pnl_pct (r : CfWallet) : f64 :=
  if cw_trades r =? 0 then 0%float else (cw_pnl_pct_sum r / f64_of_Z (cw_trades r))%float.

(* bin/cf_spamdev.rs 59-68: WalletRecord::is_smart *)
Definition cf_is_smart (now : Z) (r : CfWallet) : bool :=
  if TTL_SECS <? sat_sub now (cw_last_seen_unix r) then false
  else if cw_trades r <? 4 then false
  else ((cf_winrate r >=? 0.6) && (cf_avg_pnl_pct r >=? 5))%float.

(** ** Trades and samples *)

(* bin/cf_spamdev.rs 71-79: TradeRow *)
Record CfTrade := mkCfTrade {
  ct_trader : string; ct_is_buy : bool; ct_size : f64; ct_is_sol : bool; ct_mcap : f64; ct_role : string; ct_slot : Z }.

(** [role::text] *)
Definition role_text (r : DbTraderType) : string :=
  match r with DbCreator => "creator" | DbSniper => "sniper" | DbRegular => "regular" end.

(* bin/cf_spamdev.rs 207-218: main *)
Definition cf_trade (r : TradeRow) : CfTrade := {|
  ct_trader := td_trader_address r; ct_is_buy := td_is_buy r; ct_size := td_size r;
  ct_is_sol := bool_decide (td_currency r = DbSol); ct_mcap := default 0%float (td_market_cap r);
  ct_role := role_text (td_role r); ct_slot := td_slot_time r |}.

(** the trades before the first one past the bound *)
Fixpoint upto (bound : Z) (trades : list CfTrade) : list CfTrade :=
  match trades with
  | [] => []
  | t :: trades => if bound <? ct_slot t then [] else t :: upto bound trades
  end.

Definition counted (t : CfTrade) : bool := String.eqb (ct_role t) "regular" || String.eqb (ct_role t) "sniper".

Record Snapshot := mkSnapshot {
  ss_buyers : gset string; ss_buy_vol : f64; ss_sell_raw : Z; ss_sell_events : Z; ss_mcap_at : f64; ss_peak : f64 }.
#[export] Instance Snapshot_settable : Settable Snapshot := fun s =>
  mkSnapshot (ss_buyers s) (ss_buy_vol s) (ss_sell_raw s) (ss_sell_events s) (ss_mcap_at s) (ss_peak s).

(* bin/cf_spamdev.rs 338-353: snapshot_at *)
Definition snapshot_trade (s : Snapshot) (t : CfTrade) : Snapshot :=
  let s := if (0 <? ct_mcap t)%float
           then s <| ss_mcap_at := ct_mcap t |> <| ss_peak := f64_max (ss_peak s) (ct_mcap t) |> else s in
  if negb (counted t) then s
  else if ct_is_buy t then
    let s := s <| ss_buyers := {[ct_trader t]} ∪ ss_buyers s |> in
    if ct_is_sol t then s <| ss_buy_vol := (ss_buy_vol s + ct_size t)%float |> else s
  else if ct_is_sol t then
    s <| ss_sell_raw := sat_add U64_MAX (ss_sell_raw s) (f64_as_u64 (ct_size t * 1e9)%float) |>
      <| ss_sell_events := u64 (ss_sell_events s + 1) |>
  else s.

(** the tape point at the bound, and the highest market cap up to there *)
(* bin/cf_spamdev.rs 326-367: snapshot_at *)
Definition snapshot_at (trades : list CfTrade) (bound : Z) (init_mcap : f64) : EarlyTapePoint * f64 :=
  let s := List.fold_left snapshot_trade (upto bound trades) (mkSnapshot ∅ 0%float 0 0 init_mcap init_mcap) in
  let buyers := Z.of_nat (size (ss_buyers s)) in
  (mkEarlyTapePoint buyers buyers 0 (ss_buy_vol s) (ss_sell_raw s) (ss_sell_events s) (ss_mcap_at s), ss_peak s).

(** the samples at 0, a third, two thirds and the end of the window; sampling
    stops at the first that has seen the momentum *)
(* bin/cf_spamdev.rs 387-410: reconstruct *)
Definition sample_points (trades : list CfTrade) (created win_slots : Z) (mom_low_pct init_mcap : f64)
    : list EarlyTapePoint * Z :=
  let b1 := i64 (created + win_slots ÷ 3) in
  let b2 := i64 (created + i64 (win_slots * 2) ÷ 3) in
  let b3 := i64 (created + win_slots) in
  let '(p0, _) := snapshot_at trades created init_mcap in
  let '(p1, peak1) := snapshot_at trades b1 init_mcap in
  if (momentum_peak_pct init_mcap peak1 >=? mom_low_pct)%float then ([p0; p1], b1)
  else
    let '(p2, peak2) := snapshot_at trades b2 init_mcap in
    if (momentum_peak_pct init_mcap peak2 >=? mom_low_pct)%float then ([p0; p1; p2], b2)
    else ([p0; p1; (snapshot_at trades b3 init_mcap).1], b3).

(** ** The features of the window *)

Record Window := mkWindow {
  wi_buy_size : gmap string f64; wi_has_sell : gset string; wi_regulars : gset string; wi_snipers : gset string;
  wi_seen_buyer : gset string; wi_buy_volume : f64; wi_peak : f64; wi_last : f64 }.
#[export] Instance Window_settable : Settable Window := fun w =>
  mkWindow (wi_buy_size w) (wi_has_sell w) (wi_regulars w) (wi_snipers w) (wi_seen_buyer w) (wi_buy_volume w)
    (wi_peak w) (wi_last w).

(* bin/cf_spamdev.rs 425-448: reconstruct *)
Definition window_trade (w : Window) (t : CfTrade) : Window :=
  let w := if (0 <? ct_mcap t)%float
           then w <| wi_peak := f64_max (wi_peak w) (ct_mcap t) |> <| wi_last := ct_mcap t |> else w in
  if negb (counted t) then w
  else if ct_is_buy t then
    let w := if ct_is_sol t
             then w <| wi_buy_volume := (wi_buy_volume w + ct_size t)%float |>
                    <| wi_buy_size := <[ct_trader t := (default 0 (wi_buy_size w !! ct_trader t) + ct_size t)%float]> (wi_buy_size w) |>
             else w in
    if bool_decide (ct_trader t ∈ wi_seen_buyer w) then w
    else
      let w := w <| wi_seen_buyer := {[ct_trader t]} ∪ wi_seen_buyer w |> in
      if String.eqb (ct_role t) "sniper" then w <| wi_snipers := {[ct_trader t]} ∪ wi_snipers w |>
      else w <| wi_regulars := {[ct_trader t]} ∪ wi_regulars w |>
  else w <| wi_has_sell := {[ct_trader t]} ∪ wi_has_sell w |>.

Definition scan_window (trades : list CfTrade) (eff_end : Z) (init_mcap : f64) : Window :=
  List.fold_left window_trade (upto eff_end trades) (mkWindow ∅ ∅ ∅ ∅ ∅ 0%float init_mcap init_mcap).

Definition size_u32 (s : gset string) : Z := u32 (Z.of_nat (size s)).
Definition size_u64 (s : gset string) : Z := u64 (Z.of_nat (size s)).

(** what the report shows of a token besides its score *)
Record Rebuilt := mkRebuilt {
  rb_features : TokenFeatures; rb_smart_cnt : Z; rb_buyers : Z; rb_mom_pct : f64; rb_buy_volume_sol : f64 }.

Section Tool.
Context (tanh : f64 -> f64).

(** the first market cap that is positive is the launch floor *)
Definition launch_floor (trades : list CfTrade) : option f64 :=
  ct_mcap <$> List.find (fun t => (0 <? ct_mcap t)%float) trades.

(* bin/cf_spamdev.rs 369-536: reconstruct *)
Definition reconstruct (trades : list CfTrade) (created win_slots : Z) (mom_low_pct : f64)
    (sm : gmap string CfWallet) (now : Z) : option Rebuilt :=
  init_mcap ← launch_floor trades;
  if (init_mcap <=? 0)%float then None
  else
    let '(points, eff_end) := sample_points trades created win_slots mom_low_pct init_mcap in
    let w := scan_window trades eff_end init_mcap in
    let regular_buyer_count := size_u64 (wi_regulars w) in
    let sniper_count := size_u64 (wi_snipers w) in
    let buyer_count := u64 (regular_buyer_count + sniper_count) in
    if buyer_count =? 0 then None
    else
      let smart (a : string) := match sm !! a with Some rec => cf_is_smart now rec | None => false end in
      let smart_buyers := filter (fun a => smart a = true) (wi_seen_buyer w) in
      let smart_cnt := size_u32 smart_buyers in
      let smart_exits := size_u32 (smart_buyers ∩ wi_has_sell w) in
      let already_sold := size_u64 (wi_seen_buyer w ∩ wi_has_sell w) in
      let still_long := size_u64 (wi_seen_buyer w ∖ wi_has_sell w) in
      let sizes := (map_to_list (wi_buy_size w)).*2 in
      let tape := from_tape_points tanh points smart_exits in
      let peak := f64_max (wi_peak w) (wi_last w) in
      let buy_to_sell_ratio :=
        if already_sold =? 0 then (if 0 <? still_long then f64_of_Z still_long else 0%float)
        else (f64_of_Z still_long / f64_of_Z already_sold)%float in
      let tf := {|
        tf_mint := 0%N; tf_dev := 1%N; tf_dev_has_history := false; tf_dev_total_coins := 0; tf_dev_pnl_avg := 0%float;
        tf_dev_holders_avg := 0; tf_dev_volume_avg := 0%float; tf_dev_trades_avg := 0; tf_dev_buy_to_sell_ratio := 0%float;
        tf_dev_category := CatNeutral; tf_dev_rank_score := 0%float; tf_dev_rank_record := DevRecord_default;
        tf_is_spam_dev := true; tf_current_mcap_sol := wi_last w; tf_initial_mcap_sol := init_mcap;
        tf_peak_mcap_sol := peak; tf_buyers := mkEarlyBuyersSnapshot [] [];
        tf_regular_buyer_count := regular_buyer_count; tf_sniper_count := sniper_count;
        tf_buy_volume_sol := wi_buy_volume w; tf_still_long_count := still_long; tf_already_sold_count := already_sold;
        tf_buy_to_sell_ratio := buy_to_sell_ratio; tf_bundle := compute_bundle_stats sizes 0.05%float;
        tf_smart_wallet_count := smart_cnt;
        tf_buyer_velocity_new_per_slice := td_buyer_velocity_new_per_slice tape;
        tf_buyer_velocity_persistence := td_buyer_velocity_persistence tape;
        tf_sell_pressure_score := td_sell_pressure_score tape;
        tf_absorb_quality_score := td_absorb_quality_score tape;
        tf_sell_events_window := td_sell_events_window tape;
        tf_sell_volume_window_sol := td_sell_volume_window_sol tape;
        tf_repeat_dump_slices := td_repeat_dump_slices tape;
        tf_smart_wallet_early_exits := td_smart_wallet_early_exits tape |} in
      Some (mkRebuilt tf smart_cnt buyer_count (momentum_peak_pct init_mcap peak) (wi_buy_volume w)).

(** ** The report *)

(* bin/cf_spamdev.rs 81-88: Outcome *)
Record Outcome := mkOutcome { oc_a_plus : nat; oc_a : nat; oc_skip : nat; oc_buy_a_plus : nat; oc_strong_a : nat }.
#[export] Instance Outcome_settable : Settable Outcome := fun o =>
  mkOutcome (oc_a_plus o) (oc_a o) (oc_skip o) (oc_buy_a_plus o) (oc_strong_a o).
Definition outcome_zero : Outcome := mkOutcome 0 0 0 0 0.

Definition count_when (b : bool) (n : nat) : nat := if b then S n else n.

(* bin/cf_spamdev.rs 250-262: main *)
Definition bump (bd : ScoreBreakdown) (mom_ok : bool) (o : Outcome) : Outcome :=
  let o := match sb_tier bd with
           | TierAPlus => o <| oc_a_plus := S (oc_a_plus o) |>
           | TierA => o <| oc_a := S (oc_a o) |>
           | TierB | TierSkip => o <| oc_skip := S (oc_skip o) |>
           end in
  o <| oc_buy_a_plus := count_when (bool_decide (sb_tier bd = TierAPlus) && mom_ok) (oc_buy_a_plus o) |>
    <| oc_strong_a := count_when (bool_decide (sb_tier bd <> TierSkip) && (8 <=? sb_total bd) && mom_ok) (oc_strong_a o) |>.

(* bin/cf_spamdev.rs 237-240: main *)
Definition score_under (cfg : ScoringConfig) (pen : Z) (tf : TokenFeatures) : ScoreBreakdown :=
  let c := cfg <| sc_spam_dev_penalty := pen |> in
  score c tf (sc_thresholds c).

(* bin/cf_spamdev.rs 242-243: main *)
Definition cf_mom_ok (cfg : ScoringConfig) (bd : ScoreBreakdown) (smart_cnt : Z) : bool :=
  score_items_has "momentum_good" (sb_items bd)
  || ((0 <? sc_momentum_good_smart_bypass cfg) && (sc_momentum_good_smart_bypass cfg <=? smart_cnt)).

Abbreviation Tally := (gmap Z Outcome).
Definition tally_get (pen : Z) (t : Tally) : Outcome := default outcome_zero (t !! pen).

Record Tallies := mkTallies { ta_150 : Tally; ta_250 : Tally; ta_405 : Tally }.

Definition tally_bump (cfg : ScoringConfig) (rb : Rebuilt) (pen : Z) (t : Tally) : Tally :=
  let bd := score_under cfg pen (rb_features rb) in
  <[pen := bump bd (cf_mom_ok cfg bd (rb_smart_cnt rb)) (tally_get pen t)]> t.

(* bin/cf_spamdev.rs 236-270: main *)
Definition tally_token (cfg : ScoringConfig) (pk : f64) (rb : Rebuilt) (ts : Tallies) : Tallies :=
  List.fold_left (fun ts pen => {|
    ta_150 := tally_bump cfg rb pen (ta_150 ts);
    ta_250 := if (pk >=? 250)%float then tally_bump cfg rb pen (ta_250 ts) else ta_250 ts;
    ta_405 := if (pk >=? 405)%float then tally_bump cfg rb pen (ta_405 ts) else ta_405 ts |}) PENALTIES ts.

(** ** The run *)

(* bin/cf_spamdev.rs 135-140: main *)
Definition csv_mints (csv : string) : list string :=
  List.filter (fun m => negb (String.eqb m "")) ((fun l => trim (take_until (Ascii.eqb ",") l)) <$> str_lines csv).

(** [max(mcap_sol)] of the listed coins that have samples *)
(* bin/cf_spamdev.rs 150-160: main *)
Definition peak_of (db : Database) (m : string) : option f64 :=
  sql_max (tr_mcap_sol <$> List.filter (fun r => String.eqb (tr_coin_address r) m) (db_tape db)).

(** a stable sort, the highest peak first *)
Fixpoint insert_candidate (x : string * f64) (l : list (string * f64)) : list (string * f64) :=
  match l with
  | [] => [x]
  | y :: l => if (y.2 <? x.2)%float then x :: y :: l else y :: insert_candidate x l
  end.

(* bin/cf_spamdev.rs 162-168: main *)
Definition candidates (db : Database) (mints : list string) : list (string * f64) :=
  List.fold_left (fun l x => insert_candidate x l)
    (List.filter (fun c => (c.2 >=? 150)%float) (omap (fun m => pair m <$> peak_of db m) mints)) [].

(** [ORDER BY slot_time, id] *)
Definition trade_order (t u : TradeRow) : Prop :=
  td_slot_time t < td_slot_time u \/ (td_slot_time t = td_slot_time u /\ td_id t <= td_id u).
#[local] Instance trade_order_dec t u : Decision (trade_order t u) := ltac:(unfold trade_order; apply _).

(* bin/cf_spamdev.rs 193-218: main *)
Definition window_trades (created win_end : Z) (m : string) (db : Database) : list CfTrade :=
  cf_trade <$> merge_sort trade_order
    (List.filter (fun t => String.eqb (td_coin_address t) m && (created <=? td_slot_time t) && (td_slot_time t <=? win_end))
       (db_trades db)).

(** what the tables say of a candidate, or the error that ends the tool *)
(* bin/cf_spamdev.rs 182-231: main *)
Definition rebuild (cfg : ScoringConfig) (sm : gmap string CfWallet) (now win_slots : Z) (m : string) (coin trades : Call)
    : result (option Rebuilt) string :=
  try (ask coin (fun db => db_coins db !! m)) (fun row =>
  match row with
  | None => Ok None
  | Some row =>
      let created := co_created_at row in
      try (ask trades (window_trades created (i64 (created + win_slots)) m)) (fun trades =>
      Ok (match trades with
          | [] => None
          | _ => reconstruct trades created win_slots (th_momentum_good_low_pct (sc_thresholds cfg)) sm now
          end))
  end).

(** the statements about a candidate, in the order they are sent *)
Definition Calls : Type := nat -> Call * Call.

Fixpoint tally_all (cfg : ScoringConfig) (sm : gmap string CfWallet) (now win_slots : Z) (calls : Calls) (n : nat)
    (cands : list (string * f64)) (ts : Tallies) : result Tallies string :=
  match cands with
  | [] => Ok ts
  | (m, pk) :: cands =>
      try (rebuild cfg sm now win_slots m (calls n).1 (calls n).2) (fun rb =>
      tally_all cfg sm now win_slots calls (S n) cands
        (match rb with Some rb => tally_token cfg pk rb ts | None => ts end))
  end.

Record Report := mkReport { rp_cands : nat; rp_250 : nat; rp_405 : nat; rp_tallies : Tallies }.

Definition tallies_new : Tallies := mkTallies ∅ ∅ ∅.

(** the configuration and the registry are read, the database is open *)
(* bin/cf_spamdev.rs 133-324: main *)
Definition cf_main (cfg : ScoringConfig) (sm : gmap string CfWallet) (now win_slots : Z) (csv : string)
    (peaks : Call) (calls : Calls) : result Report string :=
  let mints := csv_mints csv in
  try (ask peaks (fun db => candidates db mints)) (fun cands =>
  try (tally_all cfg sm now win_slots calls O cands tallies_new) (fun ts =>
  let over x := length (List.filter (fun c => (c.2 >=? x)%float) cands) in
  Ok (mkReport (length cands) (over 250%float) (over 405%float) ts))).

End Tool.

(** ** What a penalty changes

    Every stage of a score adds the same items whatever the total so far, so a
    penalty moves the total by itself and nothing else. *)

(** a stage that adds at most [n] items of at most [3 * K] points, the same to
    every total *)
Definition appends (K : Z) (n : nat) (g : Acc -> Acc) : Prop :=
  exists l : Items, (length l <= n)%nat /\ Forall (fun i => Z.abs i.2 <= 3 * K) l /\
    forall a, in_s 32 a.1 -> g a = (i32 (a.1 + points l), a.2 ++ l).

Lemma points_app l1 l2 : points (l1 ++ l2) = points l1 + points l2.
Proof. unfold points. induction l1 as [|i l1 IH]; cbn in *; lia. Qed.

Lemma points_bound K l : 0 <= K -> Forall (fun i => Z.abs i.2 <= 3 * K) l ->
  Z.abs (points l) <= 3 * K * Z.of_nat (length l).
Proof. intros HK. unfold points. induction 1 as [|i l B _ IH]; cbn [List.fold_right fmap list_fmap length] in *; lia. Qed.

Lemma appends_id K n : appends K n (fun a => a).
Proof.
  exists []. split_and!; [cbn; lia|constructor|]. intros [t items] R. cbn in *.
  by rewrite Z.add_0_r, app_nil_r, wrap_s_small.
Qed.

Lemma appends_add K n name p : Z.abs p <= 3 * K -> appends K (S n) (add name p).
Proof.
  intros B. unfold add. destruct (Z.eqb_spec p 0) as [->|]; [apply appends_id|].
  exists [(name, p)]. split_and!; [cbn; lia|by repeat constructor|]. intros a _. unfold points. cbn. by rewrite Z.add_0_r.
Qed.

Lemma appends_add_if K n b name p : Z.abs p <= 3 * K -> appends K (S n) (add_if b name p).
Proof. destruct b; intros B; [by apply appends_add|apply appends_id]. Qed.

Lemma appends_comp K n m (g h : Acc -> Acc) : appends K n g -> appends K m h -> appends K (n + m) (fun a => h (g a)).
Proof.
  intros (l1 & L1 & B1 & E1) (l2 & L2 & B2 & E2). exists (l1 ++ l2).
  rewrite length_app, points_app. split_and!; [lia|by apply Forall_app_2|]. intros a R.
  rewrite E1 by done. rewrite E2 by (apply wrap_s_range; lia). cbn [fst snd]. by rewrite <- app_assoc, i32_add_l, Z.add_assoc.
Qed.

(** a configuration's weights are within a bound *)
Definition weights_of (w : ScoringWeights) : list Z :=
  [w_dev_history_strong w; w_dev_history_weak w; w_dev_ranker_a_plus w; w_dev_ranker_a w; w_dev_ranker_bad w;
   w_smart_wallets_3plus w; w_smart_wallets_1plus w; w_buyers_10plus w; w_buyers_6plus w; w_buyers_below_3 w;
   w_buy_to_sell_ratio_high w; w_momentum_good w; w_momentum_overheated w; w_volume_ok w; w_bundle_similar w;
   w_bundle_identical w; w_buyer_velocity_persistent w; w_buyer_velocity_fading w; w_sell_pressure_high w;
   w_absorb_strong w; w_smart_early_exit_dump w; w_repeat_dump_penalty w].
Definition weights_within (K : Z) (w : ScoringWeights) : Prop := Forall (fun x => Z.abs x <= K) (weights_of w).

Section Penalty.
Context (K : Z) (HK : 1 <= K) (cfg : ScoringConfig) (HW : weights_within K (sc_weights cfg)).

Lemma weight_small x : x ∈ weights_of (sc_weights cfg) -> Z.abs x <= 3 * K.
Proof. intros Hx. unfold weights_within in HW. eapply Forall_forall in HW; [|exact Hx]. cbv beta in HW. lia. Qed.

Lemma halved_small x : Z.abs x <= K -> Z.abs (Z.max (x ÷ 2) (-2)) <= 3 * K.
Proof. intros B. assert (x = 2 * (x ÷ 2) + Z.rem x 2) as E by (apply Z.quot_rem; lia). assert (Z.abs (Z.rem x 2) < 2) by (apply (Z.rem_bound_abs x 2); lia). lia. Qed.

Lemma scaled_small x k : Z.abs x <= K -> 0 <= k <= 3 -> Z.abs (sat_s I32_MIN I32_MAX (x * k)) <= 3 * K.
Proof. intros B R. assert (Z.abs (x * k) <= 3 * K) by nia. unfold sat_s, I32_MIN, I32_MAX. lia. Qed.

Lemma weight_within x : x ∈ weights_of (sc_weights cfg) -> Z.abs x <= K.
Proof. intros Hx. unfold weights_within in HW. eapply Forall_forall in HW; [|exact Hx]. done. Qed.

Ltac listed := solve [unfold weights_of; repeat first [apply list_elem_of_here | apply list_elem_of_further]].
Ltac small := first [apply weight_small; listed | apply halved_small, weight_within; listed
                    | apply scaled_small; [apply weight_within; listed|lia]].

(** one stage: an [if] on something else, an item, nothing *)
Ltac stage :=
  repeat match goal with |- appends _ _ (fun a => if ?b then _ else _) => destruct b end;
  first [apply appends_id | apply appends_add_if; small | apply appends_add; small].

(** the stages of a [let] chain over the accumulator *)
Ltac stages :=
  lazymatch goal with
  | |- appends _ ?n (fun a => let x : ?T := @?E a in @?F a x) =>
      tryif unify T Acc then
        let F' := eval cbv beta in (F (0, [])) in
        let m := eval cbv in (Nat.pred n) in
        change (appends K (1 + m) (fun a => F' (E a)));
        refine (appends_comp K 1 m E F' _ _); [cbv beta; stage | cbv beta; stages]
      else
        let V := eval cbv beta in (E (0, [])) in
        let G := eval cbv beta in (fun a => F a V) in
        change (appends K n G); cbv beta; stages
  | _ => stage
  end.

Lemma tape_appends f : appends K 5 (apply_early_tape_scores cfg f (sc_weights cfg)).
Proof. cbv beta delta [apply_early_tape_scores]. stages. Qed.

(** [score_legacy] and [score_v2] after the penalty *)
Definition dev_seen (t : FeatureThresholds) (f : TokenFeatures) (acc : Acc) : Acc :=
  let w := sc_weights cfg in
  if tf_dev_has_history f then
    if (th_dev_strong_min_coins t <=? tf_dev_total_coins f) && (tf_dev_pnl_avg f >=? th_dev_strong_min_pnl_pct t)%float
    then add "dev_history_strong" (w_dev_history_strong w) acc
    else add "dev_history_weak" (w_dev_history_weak w) acc
  else acc.

Definition bundle_legacy (t : FeatureThresholds) (f : TokenFeatures) (acc : Acc) : Acc :=
  let w := sc_weights cfg in
  if (bs_identical_size_ratio (tf_bundle f) >=? th_bundle_identical_ratio t)%float
  then add "bundle_identical" (w_bundle_identical w) acc
  else if (bs_similar_size_ratio (tf_bundle f) >=? th_bundle_similar_ratio t)%float
  then add "bundle_similar" (w_bundle_similar w) acc
  else acc.

Definition score_tail (t : FeatureThresholds) (f : TokenFeatures) (momentum bundle : Acc -> Acc) (acc : Acc) : Acc :=
  let w := sc_weights cfg in
  apply_early_tape_scores cfg f w (bundle (
    add_if (tf_buy_volume_sol f >=? th_volume_ok_sol t)%float "volume_ok" (w_volume_ok w) (momentum (
    add_if (rewards_buy_to_sell_ratio f (sc_anti_rug cfg) (th_buy_to_sell_high t))
      "buy_to_sell_ratio_high" (w_buy_to_sell_ratio_high w)
      (add_wallets_buyers w t f (add_dev_rank w f (dev_seen t f acc))))))).

Lemma dev_seen_appends t f : appends K 1 (dev_seen t f).
Proof. unfold dev_seen. cbv zeta. stage. Qed.

Lemma dev_rank_appends f : appends K 1 (add_dev_rank (sc_weights cfg) f).
Proof. unfold add_dev_rank. destruct (tf_dev_category f); stage. Qed.

Lemma wallets_buyers_appends t f : appends K 2 (add_wallets_buyers (sc_weights cfg) t f).
Proof. cbv beta delta [add_wallets_buyers]. stages. Qed.

Lemma momentum_legacy_appends t f : appends K 1 (add_momentum_legacy (sc_weights cfg) t f).
Proof. unfold add_momentum_legacy. cbv zeta. stage. Qed.

Lemma momentum_v2_appends t f : appends K 1 (add_momentum_v2 (sc_weights cfg) t f).
Proof. unfold add_momentum_v2. cbv zeta. stage. Qed.

Lemma bundle_appends t f : appends K 1 (bundle_legacy t f).
Proof. unfold bundle_legacy. cbv zeta. stage. Qed.

Lemma tail_appends t f momentum bundle : appends K 1 momentum -> appends K 1 bundle ->
  appends K 13 (score_tail t f momentum bundle).
Proof.
  intros Hm Hb. unfold score_tail. cbv zeta.
  apply (appends_comp K 8 5); [|apply tape_appends].
  apply (appends_comp K 7 1); [|exact Hb].
  apply (appends_comp K 6 1); [|stage].
  apply (appends_comp K 5 1); [|exact Hm].
  apply (appends_comp K 4 1); [|stage].
  apply (appends_comp K 2 2); [|apply wallets_buyers_appends].
  apply (appends_comp K 1 1); [apply dev_seen_appends|apply dev_rank_appends].
Qed.

End Penalty.

Lemma legacy_acc_tail cfg pen tf :
  legacy_acc (cfg <| sc_spam_dev_penalty := pen |>) tf =
  score_tail cfg (sc_thresholds cfg) tf (add_momentum_legacy (sc_weights cfg) (sc_thresholds cfg) tf)
    (bundle_legacy cfg (sc_thresholds cfg) tf) (add_if (tf_is_spam_dev tf) "spam_dev_penalty" pen (0, [])).
Proof. reflexivity. Qed.

Lemma v2_acc_tail cfg pen tf t :
  v2_acc (cfg <| sc_spam_dev_penalty := pen |>) tf t =
  score_tail cfg t tf (add_momentum_v2 (sc_weights cfg) t tf)
    (add_if (bs_similar_size_ratio (tf_bundle tf) >=? th_bundle_similar_ratio t)%float
       "bundle_similar" (w_bundle_similar (sc_weights cfg))) (add_if (tf_is_spam_dev tf) "spam_dev_penalty" pen (0, [])).
Proof. reflexivity. Qed.

(** the total and the items under a penalty, from those without *)
Lemma score_acc K cfg tf : 1 <= K <= 1000000 -> weights_within K (sc_weights cfg) -> tf_is_spam_dev tf = true ->
  exists l, Z.abs (points l) <= 39 * K /\ forall pen, -1000 <= pen <= 1000 ->
    score_under cfg pen tf = finish_breakdown (cfg <| sc_spam_dev_penalty := pen |>) tf
      (pen + points l, (if pen =? 0 then [] else [("spam_dev_penalty", pen)]) ++ l).
Proof.
  intros HK HW S.
  set (tail := if sc_legacy_scoring cfg
               then score_tail cfg (sc_thresholds cfg) tf (add_momentum_legacy (sc_weights cfg) (sc_thresholds cfg) tf)
                      (bundle_legacy cfg (sc_thresholds cfg) tf)
               else score_tail cfg (sc_thresholds cfg) tf (add_momentum_v2 (sc_weights cfg) (sc_thresholds cfg) tf)
                      (add_if (bs_similar_size_ratio (tf_bundle tf) >=? th_bundle_similar_ratio (sc_thresholds cfg))%float
                         "bundle_similar" (w_bundle_similar (sc_weights cfg)))).
  assert (appends K 13 tail) as (l & L & B & E).
  { subst tail. destruct (sc_legacy_scoring cfg); apply tail_appends; try done; try lia.
    - apply momentum_legacy_appends; [lia|done].
    - apply bundle_appends; [lia|done].
    - apply momentum_v2_appends; [lia|done].
    - apply appends_add_if. eapply (weight_small K); [lia|exact HW|]. unfold weights_of.
      repeat first [apply list_elem_of_here | apply list_elem_of_further]. }
  apply points_bound in B; [|lia]. exists l. split; [nia|]. intros pen R.
  assert (score_under cfg pen tf =
    finish_breakdown (cfg <| sc_spam_dev_penalty := pen |>) tf (tail (add "spam_dev_penalty" pen (0, [])))) as ->.
  { subst tail. unfold score_under, score, score_legacy, score_v2. rewrite legacy_acc_tail, v2_acc_tail, S.
    cbn [sc_legacy_scoring set]. by destruct (sc_legacy_scoring cfg). }
  rewrite E by (unfold add; destruct (pen =? 0); cbn [fst]; [done|]; apply wrap_s_range; lia).
  unfold add. destruct (Z.eqb_spec pen 0) as [->|]; cbn [fst snd app]; do 2 f_equal.
  - apply wrap_s_small; [lia|]. unfold in_s. nia.
  - rewrite i32_add_l, Z.add_0_l. apply wrap_s_small; [lia|]. unfold in_s. nia.
Qed.

Lemma spam_tier cfg tf total items : tf_is_spam_dev tf = true ->
  sb_tier (finish_breakdown cfg tf (total, items)) =
  cap_tier_for_low_mcap tf (sc_anti_rug cfg)
    (if sc_a_plus_threshold cfg <=? total then TierAPlus else if sc_a_threshold cfg <=? total then TierA else TierSkip).
Proof.
  intros S. unfold finish_breakdown. cbn [sb_tier].
  assert (tier_b_dev_eligible tf (sc_tier_b cfg) = false) as -> by (unfold tier_b_dev_eligible; by rewrite S, orb_true_r).
  done.
Qed.

(** a milder penalty scores the difference more; a tier reached under the
    stricter one is reached, and the momentum is judged alike *)
Record milder (cfg : ScoringConfig) (p q : Z) (bp bq : ScoreBreakdown) : Prop := {
  mi_total : sb_total bq = sb_total bp + (q - p);
  mi_a_plus : sb_tier bp = TierAPlus -> sb_tier bq = TierAPlus;
  mi_bought : sb_tier bp <> TierSkip -> sb_tier bq <> TierSkip;
  mi_no_b : sb_tier bp <> TierB /\ sb_tier bq <> TierB;
  mi_mom : forall smart, cf_mom_ok cfg bp smart = cf_mom_ok cfg bq smart
}.

Lemma capped_mono tf ar ta tb total total' : total <= total' ->
  let tier x := cap_tier_for_low_mcap tf ar (if ta <=? x then TierAPlus else if tb <=? x then TierA else TierSkip) in
  (tier total = TierAPlus -> tier total' = TierAPlus) /\ (tier total <> TierSkip -> tier total' <> TierSkip) /\
  tier total <> TierB.
Proof.
  intros L. cbv zeta. unfold cap_tier_for_low_mcap. set (low := (_ && _)%bool).
  destruct (Z.leb_spec ta total), (Z.leb_spec tb total), (Z.leb_spec ta total'), (Z.leb_spec tb total'); try lia;
    destruct (ar_enabled ar), low; cbn; done.
Qed.

Lemma penalty_milder K cfg tf p q : 1 <= K <= 1000000 -> weights_within K (sc_weights cfg) -> tf_is_spam_dev tf = true ->
  -1000 <= p -> p <= q <= 1000 -> milder cfg p q (score_under cfg p tf) (score_under cfg q tf).
Proof.
  intros HK HW S Hp Hq. destruct (score_acc K cfg tf HK HW S) as (l & _ & E).
  rewrite (E p), (E q) by lia.
  destruct (capped_mono tf (sc_anti_rug cfg) (sc_a_plus_threshold cfg) (sc_a_threshold cfg) (p + points l) (q + points l))
    as (T1 & T2 & T3); [lia|].
  destruct (capped_mono tf (sc_anti_rug cfg) (sc_a_plus_threshold cfg) (sc_a_threshold cfg) (q + points l) (q + points l))
    as (_ & _ & T4); [lia|].
  split; rewrite ?spam_tier by done; cbn [sc_anti_rug sc_a_plus_threshold sc_a_threshold set]; try done.
  - cbn [finish_breakdown sb_total]. lia.
  - intros smart. unfold cf_mom_ok, score_items_has. cbn [finish_breakdown sb_items].
    f_equal. by destruct (p =? 0), (q =? 0).
Qed.

(** ** The tallies under two penalties *)

Record dominated (o o' : Outcome) : Prop := {
  do_buys : (oc_buy_a_plus o <= oc_buy_a_plus o')%nat;
  do_strong : (oc_strong_a o <= oc_strong_a o')%nat;
  do_a_plus : (oc_a_plus o <= oc_a_plus o')%nat;
  do_bought : (oc_a_plus o + oc_a o <= oc_a_plus o' + oc_a o')%nat;
  do_scored : (oc_a_plus o + oc_a o + oc_skip o = oc_a_plus o' + oc_a o' + oc_skip o')%nat
}.

Lemma count_when_le b b' n n' : (b = true -> b' = true) -> (n <= n')%nat -> (count_when b n <= count_when b' n')%nat.
Proof. intros I L. unfold count_when. destruct b; [rewrite I by done; lia|destruct b'; lia]. Qed.

Lemma bump_dominated cfg p q bp bq smart o o' : p <= q -> milder cfg p q bp bq -> dominated o o' ->
  dominated (bump bp (cf_mom_ok cfg bp smart) o) (bump bq (cf_mom_ok cfg bq smart) o').
Proof.
  intros L [T A B [N1 N2] M] [D1 D2 D3 D4 D5]. rewrite M. set (mom := cf_mom_ok cfg bq smart).
  assert (bool_decide (sb_tier bp = TierAPlus) && mom = true -> bool_decide (sb_tier bq = TierAPlus) && mom = true) as I1.
  { rewrite !andb_true_iff, !bool_decide_eq_true. intros [? ?]. auto. }
  assert (bool_decide (sb_tier bp <> TierSkip) && (8 <=? sb_total bp) && mom = true ->
          bool_decide (sb_tier bq <> TierSkip) && (8 <=? sb_total bq) && mom = true) as I2.
  { rewrite !andb_true_iff, !bool_decide_eq_true, !Z.leb_le. intros [[? ?] ?]. split_and!; [auto|lia|done]. }
  unfold bump. split; cbn [oc_buy_a_plus oc_strong_a oc_a_plus oc_a oc_skip set].
  1: destruct (sb_tier bp), (sb_tier bq); by apply count_when_le.
  1: destruct (sb_tier bp), (sb_tier bq); by apply count_when_le.
  all: destruct (sb_tier bp), (sb_tier bq); cbn; try lia; exfalso; first [by apply N1 | by apply N2 | discriminate (A eq_refl) | by apply B].
Qed.

(** one outcome grew into the other *)
Record grown (o o' : Outcome) : Prop := {
  gr_a_plus : (oc_a_plus o <= oc_a_plus o')%nat; gr_a : (oc_a o <= oc_a o')%nat; gr_skip : (oc_skip o <= oc_skip o')%nat;
  gr_buys : (oc_buy_a_plus o <= oc_buy_a_plus o')%nat; gr_strong : (oc_strong_a o <= oc_strong_a o')%nat
}.

Lemma bump_grown bd mom o o' : grown o o' -> grown (bump bd mom o) (bump bd mom o').
Proof.
  intros [G1 G2 G3 G4 G5]. unfold bump. split; cbn [oc_buy_a_plus oc_strong_a oc_a_plus oc_a oc_skip set].
  4,5: destruct (sb_tier bd); by apply count_when_le.
  all: destruct (sb_tier bd); cbn; lia.
Qed.

Lemma bump_later bd mom o o' : grown o o' -> grown o (bump bd mom o').
Proof.
  intros [G1 G2 G3 G4 G5]. unfold bump. split; cbn [oc_buy_a_plus oc_strong_a oc_a_plus oc_a oc_skip set];
    unfold count_when; destruct (sb_tier bd); cbn; repeat case_match; lia.
Qed.

(** what a scored token does to the tally of a penalty *)
Definition tallied (cfg : ScoringConfig) (on : bool) (rb : Rebuilt) (pen : Z) (o : Outcome) : Outcome :=
  let bd := score_under cfg pen (rb_features rb) in
  if on then bump bd (cf_mom_ok cfg bd (rb_smart_cnt rb)) o else o.

Lemma tally_get_bump cfg rb pen pen' t :
  tally_get pen (tally_bump cfg rb pen' t) = if decide (pen = pen') then tallied cfg true rb pen (tally_get pen t) else tally_get pen t.
Proof.
  unfold tally_bump. unfold tally_get at 1. case_decide as E; [subst pen'; by rewrite lookup_insert_eq|].
  by rewrite lookup_insert_ne.
Qed.

Lemma tally_token_get cfg pk rb ts pen : pen ∈ PENALTIES ->
  let ts' := tally_token cfg pk rb ts in
  tally_get pen (ta_150 ts') = tallied cfg true rb pen (tally_get pen (ta_150 ts)) /\
  tally_get pen (ta_250 ts') = tallied cfg (pk >=? 250)%float rb pen (tally_get pen (ta_250 ts)) /\
  tally_get pen (ta_405 ts') = tallied cfg (pk >=? 405)%float rb pen (tally_get pen (ta_405 ts)).
Proof.
  intros Hp. cbv zeta. unfold tally_token, PENALTIES. cbn [List.fold_left ta_150 ta_250 ta_405].
  destruct (pk >=? 250)%float, (pk >=? 405)%float; rewrite ?tally_get_bump;
    repeat (apply elem_of_cons in Hp as [->|Hp]; [done|]); by apply not_elem_of_nil in Hp.
Qed.

Definition scored (o : Outcome) : nat := (oc_a_plus o + oc_a o + oc_skip o)%nat.

(** [n], [n250] and [n405] candidates so far *)
Record tallies_ok (n n250 n405 : nat) (ts : Tallies) : Prop := {
  to_dominated : forall p q, p ∈ PENALTIES -> q ∈ PENALTIES -> p <= q ->
    dominated (tally_get p (ta_150 ts)) (tally_get q (ta_150 ts)) /\
    dominated (tally_get p (ta_250 ts)) (tally_get q (ta_250 ts)) /\
    dominated (tally_get p (ta_405 ts)) (tally_get q (ta_405 ts));
  to_nested : forall p, p ∈ PENALTIES ->
    grown (tally_get p (ta_405 ts)) (tally_get p (ta_250 ts)) /\ grown (tally_get p (ta_250 ts)) (tally_get p (ta_150 ts));
  to_counts : forall p, p ∈ PENALTIES ->
    (scored (tally_get p (ta_150 ts)) <= n)%nat /\ (scored (tally_get p (ta_250 ts)) <= n250)%nat /\
    (scored (tally_get p (ta_405 ts)) <= n405)%nat
}.

Lemma penalties_small p : p ∈ PENALTIES -> -1000 <= p <= 1000.
Proof. unfold PENALTIES. intros Hp. repeat (apply elem_of_cons in Hp as [->|Hp]; [lia|]). by apply not_elem_of_nil in Hp. Qed.

Lemma tallied_dominated K cfg on rb p q o o' : 1 <= K <= 1000000 -> weights_within K (sc_weights cfg) ->
  tf_is_spam_dev (rb_features rb) = true -> p ∈ PENALTIES -> q ∈ PENALTIES -> p <= q -> dominated o o' ->
  dominated (tallied cfg on rb p o) (tallied cfg on rb q o').
Proof.
  intros HK HW S Hp%penalties_small Hq%penalties_small L D. destruct on; [|done].
  apply (bump_dominated _ p q); [done| |done]. apply (penalty_milder K); done || lia.
Qed.

Lemma tallied_grown cfg (on on' : bool) rb p o o' : (on = true -> on' = true) -> grown o o' ->
  grown (tallied cfg on rb p o) (tallied cfg on' rb p o').
Proof.
  intros I G. destruct on; [rewrite I by done; by apply bump_grown|]. destruct on'; [by apply bump_later|done].
Qed.

Lemma tallied_scored cfg on rb p o : scored (tallied cfg on rb p o) = (scored o + (if on then 1 else 0))%nat.
Proof. unfold tallied, bump, scored. destruct on; [|lia]. destruct (sb_tier _); cbn; lia. Qed.

Lemma tally_token_ok K cfg pk rb n n250 n405 ts : 1 <= K <= 1000000 -> weights_within K (sc_weights cfg) ->
  tf_is_spam_dev (rb_features rb) = true -> tallies_ok n n250 n405 ts ->
  tallies_ok (S n) (count_when (pk >=? 250)%float n250) (count_when (pk >=? 405)%float n405) (tally_token cfg pk rb ts).
Proof.
  intros HK HW S [D N C].
  assert ((pk >=? 405)%float = true -> (pk >=? 250)%float = true) as I by (intros; f64_order).
  split.
  - intros p q Hp Hq L. destruct (tally_token_get cfg pk rb ts p Hp) as (-> & -> & ->).
    destruct (tally_token_get cfg pk rb ts q Hq) as (-> & -> & ->). destruct (D p q Hp Hq L) as (? & ? & ?).
    split_and!; by eapply tallied_dominated.
  - intros p Hp. destruct (tally_token_get cfg pk rb ts p Hp) as (-> & -> & ->). destruct (N p Hp).
    split; by apply tallied_grown.
  - intros p Hp. destruct (tally_token_get cfg pk rb ts p Hp) as (-> & -> & ->). destruct (C p Hp) as (? & ? & ?).
    rewrite !tallied_scored. unfold count_when. repeat case_match; lia.
Qed.

Lemma tallies_ok_more n n250 n405 m m250 m405 ts : tallies_ok n n250 n405 ts ->
  (n <= m)%nat -> (n250 <= m250)%nat -> (n405 <= m405)%nat -> tallies_ok m m250 m405 ts.
Proof. intros [D N C] L1 L2 L3. split; [done..|]. intros p Hp. destruct (C p Hp) as (? & ? & ?). lia. Qed.

Section Report.
Context (tanh : f64 -> f64) (K : Z) (cfg : ScoringConfig).
Context (HK : 1 <= K <= 1000000) (HW : weights_within K (sc_weights cfg)).

Lemma rebuild_spam sm now win_slots m c1 c2 rb : rebuild tanh cfg sm now win_slots m c1 c2 = Ok (Some rb) ->
  tf_is_spam_dev (rb_features rb) = true.
Proof.
  unfold rebuild, try. destruct (ask c1 _) as [[row|]|]; [|done..]. destruct (ask c2 _) as [[|t trades]|]; [done| |done].
  intros [= E]. unfold reconstruct in E. destruct (launch_floor _) as [init|]; [|done]. cbn [mbind option_bind] in E.
  destruct (init <=? 0)%float; [done|]. destruct (sample_points _ _ _ _ _) as [points eff_end].
  cbv zeta in E. destruct (_ =? 0); [done|]. by injection E as <-.
Qed.

Definition over (x : f64) (cands : list (string * f64)) : nat := length (List.filter (fun c => (c.2 >=? x)%float) cands).

Lemma tally_all_ok sm now win_slots calls cands : forall i n n250 n405 ts ts',
  tallies_ok n n250 n405 ts -> tally_all tanh cfg sm now win_slots calls i cands ts = Ok ts' ->
  tallies_ok (n + length cands) (n250 + over 250 cands) (n405 + over 405 cands) ts'.
Proof.
  induction cands as [|[m pk] cands IH]; intros i n n250 n405 ts ts' O R; cbn [tally_all] in R.
  { injection R as <-. eapply tallies_ok_more; [exact O|cbn; lia..]. }
  destruct (rebuild _ _ _ _ _ _ _ _) as [rb|] eqn:E; [|done]. cbn [try] in R.
  assert (tallies_ok (S n) (count_when (pk >=? 250)%float n250) (count_when (pk >=? 405)%float n405)
            (match rb with Some rb => tally_token cfg pk rb ts | None => ts end)) as O'.
  { destruct rb as [rb|]; [eapply tally_token_ok; [done..|by eapply rebuild_spam|done]|].
    eapply tallies_ok_more; [exact O|..]; unfold count_when; repeat case_match; lia. }
  eapply tallies_ok_more; [eapply IH; [exact O'|exact R]|..]; unfold over, count_when; cbn [List.filter snd length];
    repeat case_match; cbn [length]; lia.
Qed.

(** C39: The report, with weights of at most a million: a stricter penalty never
    raises the buys, the strong scores or the A+ it counts, and drops none of
    the tokens it scores; each group of tokens is counted within the larger
    ones, and within its number of candidates. *)
Theorem penalty_only_costs sm now win_slots csv peaks calls rp :
  cf_main tanh cfg sm now win_slots csv peaks calls = Ok rp ->
  tallies_ok (rp_cands rp) (rp_250 rp) (rp_405 rp) (rp_tallies rp).
Proof.
  unfold cf_main. destruct (ask peaks _) as [cands|]; [|done]. cbn [try].
  destruct (tally_all _ _ _ _ _ _ _ _ _) as [ts|] eqn:E; [|done]. intros [= <-].
  eapply (tally_all_ok _ _ _ _ _ _ 0 0 0); [|exact E].
  split; intros; cbn; unfold tally_get; rewrite ?lookup_empty; split_and!; try split; cbn; lia.
Qed.

End Report.

(** ** Against the bot *)

(** A buy the tool counts passes the momentum gate of the bot. *)
Lemma counted_buy_passes dp sc : cf_mom_ok (dp_scoring dp) (tk_breakdown sc) (tk_smart_count sc) = true ->
  momentum_good_satisfied dp sc = true.
Proof.
  unfold cf_mom_ok, momentum_good_satisfied, has_momentum_good. intros Hm. by rewrite Hm.
Qed.

(** The converse fails: the bot also lets an A+ token through for fewer smart
    wallets. *)
Example bot_buys_more tf :
  let cfg := ScoringConfig_default <| sc_momentum_good_smart_bypass := 3 |> <| sc_momentum_good_aplus_smart_bypass := 1 |> in
  let bd := mkScoreBreakdown 12 [] TierAPlus 1%float false false false in
  cf_mom_ok cfg bd 1 = false /\
  momentum_good_satisfied (mkDeps cfg Demo true)
    (mkScored tf bd 1 30%float 30%float (in_bucket_for_score quiet_input) [] 0) = true.
Proof. done. Qed.

(** ** A run *)

Definition demo_cf_trade (id : Z) (trader coin : string) (buy : bool) (mcap size : f64) (slot : Z) : TradeRow :=
  mkTradeRow id trader coin None slot buy (Some mcap) DbSol size DbRegular.

Definition demo_cf_db : Database :=
  database_new
    <| db_coins := <["M" := mkCoinRow "D" 100]> (<["N" := mkCoinRow "D" 200]> ∅) |>
    <| db_trades := [demo_cf_trade 1 "a" "M" true 30%float 2%float 100; demo_cf_trade 2 "b" "M" true 36%float 1.5%float 101;
                     demo_cf_trade 3 "c" "M" true 41%float 3%float 103; demo_cf_trade 4 "a" "M" false 40%float 1%float 109;
                     demo_cf_trade 5 "a" "N" true 30%float 1%float 200] |>
    <| db_tape := [mkTapeRow "M" 5 300%float "trade"; mkTapeRow "M" 6 260%float "trade"; mkTapeRow "N" 7 500%float "trade";
                   mkTapeRow "P" 7 100%float "trade"] |>.

Definition demo_csv : string := "N,17" +:+ newline +:+ " M ,18" +:+ newline +:+ ",19" +:+ newline +:+ "P".

Definition demo_calls : Calls := fun _ => ((Served, demo_cf_db), (Served, demo_cf_db)).

Definition demo_cf_run : result Report string :=
  cf_main id ScoringConfig_default ∅ 1000 14 demo_csv (Served, demo_cf_db) demo_calls.

Definition demo_cf_report : Report := match demo_cf_run with Ok rp => rp | Err _ => mkReport 0 0 0 tallies_new end.

Example demo_cf_counts :
  (rp_cands demo_cf_report, rp_250 demo_cf_report, rp_405 demo_cf_report,
   (fun pen => scored (tally_get pen (ta_250 (rp_tallies demo_cf_report)))) <$> PENALTIES) = (2, 2, 1, [2; 2; 2; 2])%nat.
Proof. by vm_compute. Qed.

Example demo_cf_failed : cf_main id ScoringConfig_default ∅ 1000 14 demo_csv (Served, demo_cf_db)
  (fun n => ((Served, demo_cf_db), (if (n =? 1)%nat then Lost "connection reset" else Served, demo_cf_db))) = Err "connection reset".
Proof. by vm_compute. Qed.

Lemma default_weights_small : weights_within 1000000 (sc_weights ScoringConfig_default).
Proof. apply (bool_decide_unpack _). vm_compute. exact I. Qed.

Lemma penalty_only_costs_witness :
  demo_cf_run = Ok demo_cf_report /\ tallies_ok (rp_cands demo_cf_report) (rp_250 demo_cf_report) (rp_405 demo_cf_report) (rp_tallies demo_cf_report).
Proof.
  assert (demo_cf_run = Ok demo_cf_report) as R by (vm_compute; reflexivity). split; [exact R|]. unfold demo_cf_run in R.
  assert (1 <= 1000000 <= 1000000) as HK by lia.
  eapply (penalty_only_costs id 1000000 ScoringConfig_default HK default_weights_small). exact R.
Defined.

(** The tool stops sampling for a market cap between two samples, which the
    observer of the bot never sees. *)
Example spike_between_samples :
  let trades := [mkCfTrade "a" true 1%float true 30%float "regular" 100; mkCfTrade "b" true 1%float true 45%float "regular" 101;
                 mkCfTrade "b" false 1%float true 30%float "regular" 102] in
  let '(points, eff_end) := sample_points trades 100 14 15%float 30%float in
  tp_mcap_sol <$> points = [30; 30]%float /\ eff_end = 104.
Proof. by vm_compute. Qed.
