(* ===== verification/Startup.v ===== *)
(** The start of the bot: the configuration with its defaults ([filters/config.rs],
    [execution.rs]), what is read from the environment ([setup/mod.rs],
    [jupiter_sell.rs]), the opening of the wallets ([wallet_registry.rs]) and
    [main] up to its first loop.

    The environment is a function from names to values, [None] for a variable
    that is unset or not Unicode.  Reading YAML, connecting to the database and
    generating or parsing a key are arguments. *)
From Stdlib Require Import Ascii.
From S2P Require Import Prelude Text Amounts Pump Swarm Config Registry Strategy Features ScoreEngine Learning.
From S2P Require Import LivePosition ExitEngine Positions Tick Blacklist Brokers Wallets Messages Manager System.
From S2P Require Import Feed Ingest Storage Pipeline Watchlist Creator Database Hub Server.
From S2P Require Import Curve Instructions Onchain Hoare LiveBroker Node Api.

Local Open Scope string_scope.
Local Open Scope list_scope.
Local Open Scope Z_scope.

(** [Result::expect] and [unwrap] *)
Definition expect {A} (msg : string) (o : option A) : outcome A :=
  match o with Some a => Ret a | None => Panic (AssertFailed msg) end.
Definition unwrap {A} (r : result A string) : outcome A :=
  match r with Ok a => Ret a | Err e => Panic (AssertFailed e) end.

(** ** The configuration *)

(* autobuy/execution.rs 96-102: ExecutionConfig *)
Record ExecutionConfig := mkExecutionConfig { ex_mode : ExecutionMode; ex_live : LiveExecutionConfig }.

(** the derived default of the mode is [Live] *)
(* autobuy/execution.rs 19-26: Default for ExecutionMode *)
Definition default_mode : ExecutionMode := Pipeline.Live.

(** a block [execution:] as it is written: both fields may be missing *)
Record ExecutionSection := mkExecutionSection { es_mode : option ExecutionMode; es_live : option LiveExecutionConfig }.

(* autobuy/execution.rs 96-102: Deserialize for ExecutionConfig *)
Definition read_execution (s : option ExecutionSection) : ExecutionConfig :=
  match s with
  | None => mkExecutionConfig default_mode live_execution_default
  | Some s => mkExecutionConfig (default default_mode (es_mode s)) (default live_execution_default (es_live s))
  end.

(* autobuy/filters/config.rs 65-106: Config *)
Record BotConfig := mkBotConfig {
  conf_creator : CreatorStatisticsFilter;
  conf_buy : SmartBuyConfig;
  conf_ws_port : Z;
  conf_http_port : Z;
  conf_start_balance_sol : f64;
  conf_scoring : ScoringConfig;
  conf_strategy : StrategyConfig;
  conf_persistence : PersistenceConfig;
  conf_execution : ExecutionConfig;
  conf_learning : LearningConfig;
  conf_dev_blacklist : DevBlacklistConfig;
  conf_curve_quarantine : CurveQuarantineConfig;
  conf_wallets : list WalletEntryConfig
}.

(** the sections of the file *)
Record ConfigSections := mkConfigSections {
  sec_creator : CreatorStatisticsFilter;
  sec_buy : SmartBuyConfig;
  sec_ws_port : Z;
  sec_http_port : Z;
  sec_start_balance_sol : f64;
  sec_scoring : option ScoringConfig;
  sec_strategy : option StrategyConfig;
  sec_persistence : option PersistenceConfig;
  sec_execution : option ExecutionSection;
  sec_learning : option LearningConfig;
  sec_dev_blacklist : option DevBlacklistConfig;
  sec_curve_quarantine : option CurveQuarantineConfig;
  sec_wallets : option (list WalletEntryConfig)
}.

(* autobuy/filters/config.rs 64-106: Deserialize for Config *)
Definition read_config (s : ConfigSections) : BotConfig := {|
  conf_creator := sec_creator s;
  conf_buy := sec_buy s;
  conf_ws_port := sec_ws_port s;
  conf_http_port := sec_http_port s;
  conf_start_balance_sol := sec_start_balance_sol s;
  conf_scoring := default ScoringConfig_default (sec_scoring s);
  conf_strategy := default StrategyConfig_default (sec_strategy s);
  conf_persistence := default PersistenceConfig_default (sec_persistence s);
  conf_execution := read_execution (sec_execution s);
  conf_learning := default LearningConfig_default (sec_learning s);
  conf_dev_blacklist := default DevBlacklistConfig_default (sec_dev_blacklist s);
  conf_curve_quarantine := default CurveQuarantineConfig_default (sec_curve_quarantine s);
  conf_wallets := default [] (sec_wallets s)
|}.

(** [file]: the text of [filter_config.yaml]; [yaml]: [serde_yaml::from_str] *)
(* setup/mod.rs 87-91: load_config *)
Definition load_config (file : result string string) (yaml : string -> result ConfigSections string)
    : result BotConfig string :=
  match file with
  | Err e => Err e
  | Ok content => match yaml content with Err e => Err e | Ok s => Ok (read_config s) end
  end.

(** ** The environment *)

Abbreviation Env := (string -> option string) (only parsing).

(* setup/mod.rs 32-45: setup_solana_rpc *)
Definition setup_solana_rpc (env : Env) : outcome string :=
  expect "SOLANA_WEBSOCKET must be set" (env "SOLANA_WEBSOCKET").

(* setup/mod.rs 47-56: setup_postgres_pool *)
Definition setup_postgres_pool (env : Env) (connect : string -> result Database string) : outcome Database :=
  url ← expect "DATABASE_URL must be set" (env "DATABASE_URL"); unwrap (connect url).

(** the repositories are handles on the tables *)
(* setup/mod.rs 58-85: setup_repositories *)
Definition setup_repositories (migrate : Database -> result Database string) (db : Database) : outcome Database :=
  match migrate db with Ok db => Ret db | Err _ => Panic (AssertFailed "Migration failed") end.

(** the override, then the usual variable *)
(* autobuy/execution.rs 172-175: build_post_exit_rpc *)
Definition env_rpc_url (env : Env) : option string :=
  match env "SOLANA_RPC_URL" with Some url => Some url | None => env "SOLANA_HTTP" end.

(* autobuy/jupiter_sell.rs 130-134: jupiter_api_key_present *)
Definition jupiter_api_key_present (env : Env) : bool :=
  match env "JUPITER_API_KEY" with Some k => negb (String.eqb (Text.trim k) "") | None => false end.

(** the warning is printed when the flag is first set *)
(* autobuy/jupiter_sell.rs 136-144: warn_jupiter_api_key_missing_once *)
Definition warn_jupiter_api_key_missing_once (env : Env) (warned : bool) : bool * bool :=
  if negb (jupiter_api_key_present env) && negb warned then (true, true) else (false, warned).

(* autobuy/jupiter_sell.rs 34-34: JUPITER_USER_AGENT *)
Definition JUPITER_USER_AGENT : string :=
  "loggaper/1.0 (Jupiter Swap API; +https://github.com/TaisyaFreelanse/automatamain)".

(** the headers of a request, in order *)
(* autobuy/jupiter_sell.rs 202-217: jupiter_request *)
Definition jupiter_headers (env : Env) : list (string * string) :=
  [("Accept", "application/json"); ("User-Agent", JUPITER_USER_AGENT)] ++
  match env "JUPITER_API_KEY" with
  | Some key => if String.eqb (Text.trim key) "" then [] else [("x-api-key", Text.trim key)]
  | None => []
  end.

(** [str::split] at a character *)
Fixpoint split_on (c : ascii) (s : string) : list string :=
  match s with
  | EmptyString => [""]
  | String a s' =>
      if Ascii.eqb a c then "" :: split_on c s'
      else match split_on c s' with p :: ps => String a p :: ps | [] => [String a ""] end
  end.

(** [str::to_lowercase] as far as a prefix of ASCII letters can see it: next to
    the capital letters only the Kelvin sign has a lowercase letter of ASCII *)
Fixpoint lowercase_key (s : string) : string :=
  match s with
  | EmptyString => ""
  | String a s' =>
      match s' with
      | String b (String c s3) =>
          if N.eqb (N_of_ascii a) 226 && N.eqb (N_of_ascii b) 132 && N.eqb (N_of_ascii c) 170
          then String "k" (lowercase_key s3) else String (ascii_lower a) (lowercase_key s')
      | _ => String (ascii_lower a) (lowercase_key s')
      end
  end.

(* autobuy/jupiter_sell.rs 155-155: jupiter_quote_url_for_log *)
Definition is_api_key_param (p : string) : bool := starts_with "api-key" (lowercase_key p).

(** what follows a second question mark is left out *)
(* autobuy/jupiter_sell.rs 147-160: jupiter_quote_url_for_log *)
Definition jupiter_quote_url_for_log (url : string) : string :=
  let parts := split_on "?" url in
  default url (head parts) +:+ "?" +:+
  match nth_error parts 1 with
  | Some q => String.concat "&" (List.filter (fun p => negb (is_api_key_param p)) (split_on "&" q))
  | None => ""
  end.

(** ** The broker of a wallet *)

(** [Arc<dyn Broker>]: either implementation behind the interface *)
Inductive AnyBroker (W : Type) := DemoBroker (b : MockBroker) | LiveBroker (b : Onchain.Live W).
Arguments DemoBroker {W} b.
Arguments LiveBroker {W} b.

#[export] Instance AnyBroker_broker {W P : Type} `{!Chain W} `{!Pool P} `{!Sdk} `{!Crypto} : Broker (AnyBroker W) P := {
  broker_buy m amount pool b := match b with
    | DemoBroker b => x ← broker_buy m amount pool b; Ret (x.1, DemoBroker x.2)
    | LiveBroker b => x ← broker_buy m amount pool b; Ret (x.1, LiveBroker x.2)
    end;
  broker_sell m amount pool close b := match b with
    | DemoBroker b => x ← broker_sell m amount pool close b; Ret (x.1, DemoBroker x.2)
    | LiveBroker b => x ← broker_sell m amount pool close b; Ret (x.1, LiveBroker x.2)
    end;
  broker_balance_sol b := match b with
    | DemoBroker b => broker_balance_sol (P := P) b | LiveBroker b => broker_balance_sol (P := P) b end;
  broker_refresh b := match b with
    | DemoBroker b => let x := broker_refresh (P := P) b in (x.1, DemoBroker x.2)
    | LiveBroker b => let x := broker_refresh (P := P) b in (x.1, LiveBroker x.2)
    end;
  broker_on_trade trade pool b := match b with
    | DemoBroker b => b ← broker_on_trade trade pool b; Ret (DemoBroker b)
    | LiveBroker b => b ← broker_on_trade trade pool b; Ret (LiveBroker b)
    end;
  broker_forget_position m b := match b with
    | DemoBroker b => DemoBroker (broker_forget_position (P := P) m b)
    | LiveBroker b => LiveBroker (broker_forget_position (P := P) m b)
    end;
  broker_mode_label b := match b with
    | DemoBroker b => broker_mode_label (P := P) b | LiveBroker b => broker_mode_label (P := P) b end
}.

(** ** Opening the wallets *)

Section Startup.
Context {W P : Type} `{CW : !Chain W} `{PP : !Pool P} `{SD : !Sdk} `{CR : !Crypto}.
Context (env : Env).
(** [RpcClient::new]: the node behind a url; [Keypair::new] for the wallet of an
    id; [Keypair::from_base58_string], which panics on [None]; the parser of an
    address *)
Context (rpc_client : string -> W) (new_keypair : string -> Address).
Context (keypair_of_base58 : string -> option Address) (parse_address : string -> result Address string).

Local Abbreviation opened := (AnyBroker W * string * Address * f64)%type.

(* autobuy/execution.rs 171-176: build_post_exit_rpc *)
Definition build_post_exit_rpc : option W := rpc_client <$> env_rpc_url env.

(** [SolanaBroker::new], run on the node of its url *)
Definition solana_broker_at (rpc_url : string) (wallet : Address) (live : LiveExecutionConfig) (placeholder : f64)
    : outcome (result (Onchain.Live W) BrokerError) :=
  x ← run_live (solana_broker_new wallet live placeholder)
        (mkLive (mkSolanaBroker wallet live placeholder ∅) (rpc_client rpc_url) []);
  Ret match x.1 with Ok b => Ok (on_broker b x.2) | Err e => Err e end.

(* autobuy/wallet_registry.rs 278-287: build_wallet_registry *)
Definition open_demo (default_start_balance_sol : f64) (cfg : WalletEntryConfig) : result opened string :=
  let start := default default_start_balance_sol (we_demo_balance_sol cfg) in
  let pubkey := show_address (new_keypair (we_id cfg)) in
  match parse_address pubkey with
  | Err e => Err ("demo pubkey parse: " +:+ e)
  | Ok addr => Ok (DemoBroker (mock_new start), pubkey, addr, start)
  end.

(* autobuy/wallet_registry.rs 305-319: build_wallet_registry *)
Definition wallet_rpc_url (cfg : WalletEntryConfig) : result string string :=
  match we_rpc_url_env cfg with
  | Some env_key =>
      match env env_key with
      | Some url => Ok url
      | None => Err ("env " +:+ env_key +:+ " must be set for wallet " +:+ we_id cfg +:+ " (rpc_url_env)")
      end
  | None =>
      match env_rpc_url env with
      | Some url => Ok url
      | None => Err "SOLANA_RPC_URL (or SOLANA_HTTP) env var must be set for live mode"
      end
  end.

(* autobuy/wallet_registry.rs 288-345: build_wallet_registry *)
Definition open_live (live : LiveExecutionConfig) (default_start_balance_sol : f64) (cfg : WalletEntryConfig)
    : outcome (result (option opened) string) :=
  match env (we_private_key_env cfg) with
  | None =>
      Ret (if negb (we_enabled cfg) then Ok None
           else Err ("env " +:+ we_private_key_env cfg +:+ " must be set for wallet " +:+ we_id cfg
                     +:+ " (live mode, enabled)"))
  | Some private_key =>
      match wallet_rpc_url cfg with
      | Err e => Ret (Err e)
      | Ok rpc_url =>
          key ← expect "from_base58_string" (keypair_of_base58 private_key);
          let pubkey := show_address key in
          match parse_address pubkey with
          | Err e => Ret (Err ("Failed to parse wallet " +:+ we_id cfg +:+ " pubkey: " +:+ e))
          | Ok wallet_address =>
              r ← solana_broker_at rpc_url wallet_address live default_start_balance_sol;
              Ret match r with
                  | Err e =>
                      Err ("SolanaBroker init for " +:+ we_id cfg +:+ " failed: "
                           +:+ error_to_string show_address e)
                  | Ok b =>
                      let bal := match broker_balance_sol (P := P) b with
                                 | Ok bal => bal | Err _ => default_start_balance_sol end in
                      Ok (Some (LiveBroker b, pubkey, wallet_address, bal))
                  end
          end
      end
  end.

(* autobuy/wallet_registry.rs 277-346: build_wallet_registry *)
Definition open_wallet (execution : ExecutionConfig) (default_start_balance_sol : f64) (cfg : WalletEntryConfig)
    : outcome (result (option opened) string) :=
  match ex_mode execution with
  | Demo =>
      Ret match open_demo default_start_balance_sol cfg with Ok o => Ok (Some o) | Err e => Err e end
  | Pipeline.Live => open_live (ex_live execution) default_start_balance_sol cfg
  end.

(* autobuy/wallet_registry.rs 267-270: build_wallet_registry *)
Definition mode_label_of (mode : ExecutionMode) : string :=
  match mode with Demo => "demo" | Pipeline.Live => "live" end.

(** the factory of a single broker, which [main] no longer calls *)
(* autobuy/execution.rs 116-168: build_broker *)
Definition build_broker (cfg : ExecutionConfig) (demo_start_balance_sol : f64) : outcome (result (AnyBroker W) string) :=
  match ex_mode cfg with
  | Demo => Ret (Ok (DemoBroker (mock_new demo_start_balance_sol)))
  | Pipeline.Live =>
      match env "PRIVATE_KEY" with
      | None => Ret (Err "PRIVATE_KEY env var must be set for live mode")
      | Some private_key =>
          match env_rpc_url env with
          | None => Ret (Err "SOLANA_RPC_URL (or SOLANA_HTTP) env var must be set for live mode")
          | Some rpc_url =>
              key ← expect "from_base58_string" (keypair_of_base58 private_key);
              match parse_address (show_address key) with
              | Err e => Ret (Err ("Failed to parse wallet pubkey: " +:+ e))
              | Ok wallet_address =>
                  r ← solana_broker_at rpc_url wallet_address (ex_live cfg) demo_start_balance_sol;
                  Ret match r with
                      | Err e => Err ("SolanaBroker init failed: " +:+ error_to_string show_address e)
                      | Ok b => Ok (LiveBroker b)
                      end
              end
          end
      end
  end.

(** ** [main] up to its first loop *)

(** the arguments of the process and of its libraries *)
Context (file : result string string) (yaml : string -> result ConfigSections string).
Context (db_connect : string -> result Database string) (migrate : Database -> result Database string).
Context (now : Z) (room : option nat).

(* main.rs 256-268: main *)
Definition wallets_of_config (config : BotConfig) : outcome (result (WalletRegistry (AnyBroker W)) string) :=
  build_wallet_registry (open_wallet (conf_execution config) (conf_start_balance_sol config))
    (conf_wallets config) (mode_label_of (ex_mode (conf_execution config))).

(* main.rs 286-303: main *)
Definition manager_of_config (config : BotConfig) (registry : WalletRegistry (AnyBroker W)) : Manager (AnyBroker W) P :=
  manager_new registry (total_balance_sol registry) (conf_buy config) (conf_dev_blacklist config)
    (conf_curve_quarantine config) (conf_strategy config) (if build_post_exit_rpc is Some _ then true else false) true true
    (lc_enabled (conf_learning config)) true now.

(** only the first feed is subscribed *)
(* pipelines/pump.rs 72-97: PumpPipeline::run *)
Definition pipeline_feeds (pump pumpswap : FeedMetrics) (dedup : SignatureDedup) (enable_pumpswap : bool)
    : list (Subscriber (T := PumpEvent)) :=
  subscriber_new pump dedup room ::
  (if enable_pumpswap then [subscriber_new pumpswap dedup room] else []).

(* main.rs 550-569: main *)
Definition api_of_config (config : BotConfig) (m : Manager (AnyBroker W) P) (feeds : list FeedMetrics) : ApiState (B := AnyBroker W) := {|
  ap_paused := mg_paused_state m;
  ap_balance := mg_balance_state m;
  ap_buy_size := buy_cap_seed (sb_amount_sol (conf_buy config)) (sz_a_plus_sol (sc_size (conf_scoring config)));
  ap_pubkey := primary_pubkey (mg_wallets m);
  ap_wallet_registry := mg_wallets m;
  ap_mode := wr_mode_label (mg_wallets m);
  ap_feed_metrics := feeds;
  ap_bot_metrics := bot_metrics_new now;
  ap_tx_log := [];
  ap_live_cfg := ex_live (conf_execution config);
  ap_buy_cap_floor := buy_cap_floor (sz_a_plus_sol (sc_size (conf_scoring config)));
  ap_learning := lc_enabled (conf_learning config)
|}.

(** what runs when [main] reaches its loop *)
Record Booted := mkBooted {
  bt_config : BotConfig;
  bt_database : Database;
  bt_ws_url : string;
  bt_system : System (AnyBroker W) P;
  bt_api : ApiState (B := AnyBroker W);
  bt_hub : Hub (P := P);
  bt_queue : WriteQueue;
  bt_launchpad : PumpLaunchpadStorage;
  bt_feeds : list (Subscriber (T := PumpEvent));
  bt_tracker : PerformanceTracker;
  bt_watchlist : FreshWatchlistManager
}.

(* main.rs 371-396: main *)
Definition booted (config : BotConfig) (db : Database) (ws_url : string) (registry : WalletRegistry (AnyBroker W)) : Booted :=
  let m := manager_of_config config registry in
  let pump_metrics := feed_metrics_new now "pump" in
  let pumpswap_metrics := feed_metrics_new now "pumpswap" in
  {| bt_config := config; bt_database := db; bt_ws_url := ws_url;
     bt_system := boot m;
     bt_api := api_of_config config m [pump_metrics; pumpswap_metrics];
     bt_hub := hub_new; bt_queue := write_queue_new;
     bt_launchpad := storage_new 3;
     bt_feeds := pipeline_feeds pump_metrics pumpswap_metrics (signature_dedup_new (Z.to_nat 10000)) false;
     bt_tracker := tracker_new 0.8%float;
     bt_watchlist := watchlist_new |}.

(** an [Err] is the code the process exits with *)
(* main.rs 189-268: main *)
Definition start_bot : outcome (result Booted Z) :=
  config ← unwrap (load_config file yaml);
  db ← setup_postgres_pool env db_connect;
  _analytics ← setup_postgres_pool env db_connect;
  db ← setup_repositories migrate db;
  ws_url ← setup_solana_rpc env;
  registry ← wallets_of_config config;
  Ret match registry with
      | Ok registry => Ok (booted config db ws_url registry)
      | Err _ => Err 1
      end.

(** ** What a start that succeeds has established *)

(** the wallet of an entry, in the mode of the configuration *)
Definition opened_for (execution : ExecutionConfig) (start : f64) (cfg : WalletEntryConfig)
    (broker : AnyBroker W) (addr : Address) (bal : f64) : Prop :=
  match ex_mode execution with
  | Demo => let start := default start (we_demo_balance_sol cfg) in broker = DemoBroker (mock_new start) /\ bal = start
  | Pipeline.Live =>
      exists private_key key s, env (we_private_key_env cfg) = Some private_key /\
        keypair_of_base58 private_key = Some key /\ parse_address (show_address key) = Ok addr /\
        broker = LiveBroker s /\ lv_broker s = mkSolanaBroker addr (ex_live execution) bal ∅
  end.

Lemma solana_broker_at_ok url wallet live placeholder s :
  solana_broker_at url wallet live placeholder = Ret (Ok s) ->
  exists bal, lv_broker s = mkSolanaBroker wallet live bal ∅.
Proof.
  unfold solana_broker_at, run_live, solana_broker_new, mbind, mret, outcome_bind, Io_bind, Io_ret.
  destruct (balance_with_retry wallet (Some placeholder) _) as [[v|e] s'| |]; cbn; intros [= <-].
  by eexists.
Qed.

Lemma open_wallet_ok execution start cfg broker pubkey addr bal :
  open_wallet execution start cfg = Ret (Ok (Some (broker, pubkey, addr, bal))) ->
  opened_for execution start cfg broker addr bal.
Proof.
  unfold open_wallet, opened_for. destruct (ex_mode execution).
  - unfold open_demo. by destruct (parse_address _); intros [= <- <- <- <-].
  - unfold open_live, expect. destruct (env (we_private_key_env cfg)) as [pk|]; [|by destruct (negb _)].
    destruct (wallet_rpc_url cfg) as [url|]; [|done].
    destruct (keypair_of_base58 pk) as [key|] eqn:EK; [|done]. cbn [mbind outcome_bind].
    destruct (parse_address (show_address key)) as [a|] eqn:EA; [|done].
    destruct (solana_broker_at url a _ _) as [[s|]|] eqn:ES; cbn; [|done|done].
    destruct (solana_broker_at_ok _ _ _ _ _ ES) as [b EB]. rewrite EB. cbn. intros [= <- <- <- <-].
    exists pk, key, s. by rewrite EB.
Qed.

Lemma open_wallet_skips execution start cfg :
  open_wallet execution start cfg = Ret (Ok None) -> we_enabled cfg = false.
Proof.
  unfold open_wallet. destruct (ex_mode execution); [by destruct (open_demo _ _)|].
  unfold open_live, expect. destruct (env _) as [pk|]; [|by destruct (we_enabled cfg)].
  destruct (wallet_rpc_url cfg); [|done]. destruct (keypair_of_base58 pk); [|done]. cbn.
  destruct (parse_address _); [|done]. by destruct (solana_broker_at _ _ _ _) as [[]|].
Qed.

(** every wallet comes from an entry, and every enabled entry has its wallet *)
Definition wallets_match (config : BotConfig) (entries : list WalletEntryConfig) (r : WalletRegistry (AnyBroker W)) : Prop :=
  wr_mode_label r = mode_label_of (ex_mode (conf_execution config)) /\
  (forall id w, wr_by_id r !! id = Some w -> exists cfg, cfg ∈ entries /\ we_id cfg = id /\
     wh_enabled w = we_enabled cfg /\
     opened_for (conf_execution config) (conf_start_balance_sol config) cfg (wh_broker w) (wh_wallet_address w) (wh_balance w)) /\
  (forall cfg, cfg ∈ entries -> we_enabled cfg = true -> is_Some (wr_by_id r !! we_id cfg)).

Lemma wallets_of_config_match config r :
  wallets_of_config config = Ret (Ok r) -> wallets_match config (effective_entries (conf_wallets config)) r.
Proof.
  apply (build_ind _ (wallets_match config)); unfold wallets_match.
  - split_and!; [done | done |]. by intros cfg ?%elem_of_nil.
  - intros seen cfg r0 (HL & HW & HE) _ HO%open_wallet_skips. split_and!; [done| |].
    + intros id w Hw. destruct (HW id w Hw) as (c & Hc & H). exists c. split; [set_solver|done].
    + intros c [Hc|Hc%list_elem_of_singleton]%elem_of_app; [by apply HE | congruence].
  - intros seen cfg [[[b pk] addr] bal] r0 (HL & HW & HE) EN HO%open_wallet_ok. cbn. split_and!; [done| |].
    + intros id w. destruct (decide (we_id cfg = id)) as [<-|N].
      * rewrite lookup_insert_eq. intros [= <-]. exists cfg. cbn. split_and!; [set_solver|done..].
      * rewrite lookup_insert_ne by done. intros Hw. destruct (HW id w Hw) as (c & Hc & H).
        exists c. split; [set_solver|done].
    + intros c Hc Ec. destruct (decide (we_id cfg = we_id c)) as [E|N].
      * rewrite E, lookup_insert_eq. done.
      * rewrite lookup_insert_ne by done. apply HE; [|done]. rewrite elem_of_app, list_elem_of_singleton in Hc.
        by destruct Hc as [?| ->].
Qed.

Lemma start_bot_booted b :
  start_bot = Ret (Ok b) ->
  exists config db url r, wallets_of_config config = Ret (Ok r) /\ b = booted config db url r.
Proof.
  unfold start_bot, mbind, outcome_bind. destruct (unwrap _) as [config|]; [|done].
  destruct (setup_postgres_pool env db_connect) as [db|]; [|done].
  destruct (setup_repositories migrate db) as [db'|]; [|done].
  destruct (setup_solana_rpc env) as [url|]; [|done].
  destruct (wallets_of_config config) as [[r|e]|] eqn:E; [|done|done]. intros [= <-]. by exists config, db', url, r.
Qed.

(** C37: A bot that starts trades as it is configured and begins where the
    theorems about its runs begin.  Every wallet of the registry comes from an
    entry of the configuration and its broker is that of the configured mode:
    in demo mode the mock broker, in live mode the broker of the key its
    variable names, with the configured settings and the balance shown; every
    enabled entry has its wallet.  The registry stays coherent under every
    later operation, the manager starts with the wallets' total, and every
    state its tasks and mailbox reach is a good one. *)
Theorem startup_sound (to_json : V3TapeWire -> string) (boxed : PumpPool Bonding -> P) b :
  start_bot = Ret (Ok b) ->
  let m := sy_mgr (bt_system b) in
  wallets_match (bt_config b) (effective_entries (conf_wallets (bt_config b))) (mg_wallets m) /\
  (forall ops, registry_ok (List.fold_left (wallet_op (P := P)) ops (mg_wallets m))) /\
  mg_balance_state m = total_balance_sol (mg_wallets m) /\
  (ap_buy_size (bt_api b) >=? ap_buy_cap_floor (bt_api b))%float = true /\
  (forall S, rtc (sys_step show_address to_json boxed) (bt_system b) S -> system_ok S).
Proof.
  intros (config & db & url & r & HR & ->)%start_bot_booted. cbn. split_and!.
  - by apply wallets_of_config_match.
  - intros ops. apply fold_ok; [|by eapply build_ok]. intros r' op. apply wallet_op_ok.
  - done.
  - destruct (buy_cap_floor_ge (sz_a_plus_sol (sc_size (conf_scoring config)))) as [HF _].
    apply f64_max_ge_r. destruct (PrimFloat.is_nan _) eqn:N; [f64_order|done].
  - intros S. by apply reachable_ok.
Qed.
End Startup.

(** ** Defaults *)

(** A file that does not say in which mode to run starts in live mode. *)
Lemma missing_mode_is_live s :
  (sec_execution s ≫= es_mode) = None -> ex_mode (conf_execution (read_config s)) = Pipeline.Live.
Proof. cbn. destruct (sec_execution s) as [x|]; [|done]. cbn. by intros ->. Qed.

(** ** The logged url *)

Definition free_of (c : ascii) (s : string) : Prop := str_all (fun a => negb (Ascii.eqb a c)) s = true.

Lemma split_on_free c s : Forall (free_of c) (split_on c s).
Proof.
  induction s as [|a s IH]; cbn; [by constructor|]. destruct (Ascii.eqb a c) eqn:E; [by constructor|].
  destruct (split_on c s) as [|p ps]; [constructor|]; [|done|apply Forall_cons in IH as [Hp Hps]; constructor].
  - unfold free_of. cbn. by rewrite E.
  - unfold free_of in *. cbn. by rewrite E, Hp.
  - done.
Qed.

Lemma split_on_whole c p : free_of c p -> split_on c p = [p].
Proof.
  unfold free_of. induction p as [|a p IH]; [done|]. cbn. intros [Ha Hp]%andb_prop.
  destruct (Ascii.eqb a c); [done|]. by rewrite IH.
Qed.

Lemma split_on_first c p s : free_of c p -> split_on c (p +:+ String c s) = p :: split_on c s.
Proof.
  unfold free_of. induction p as [|a p IH].
  { intros _. rewrite append_nil. cbn [split_on]. by rewrite Ascii.eqb_refl. }
  rewrite append_cons. cbn [split_on str_all]. intros [Ha Hp]%andb_prop.
  destruct (Ascii.eqb a c); [done|]. by rewrite IH.
Qed.

(** splitting undoes joining *)
Lemma split_on_concat c p ps :
  Forall (free_of c) (p :: ps) -> split_on c (String.concat (String c "") (p :: ps)) = p :: ps.
Proof.
  revert p. induction ps as [|q ps IH]; intros p [Hp Hps]%Forall_cons; [by apply split_on_whole|].
  change (String.concat (String c "") (p :: q :: ps)) with (p +:+ String c (String.concat (String c "") (q :: ps))).
  by rewrite split_on_first, IH.
Qed.

(** No parameter of the url that is written to the log carries a key, and the
    others are kept in their order. *)
Theorem logged_url_hides_key url :
  exists query kept, jupiter_quote_url_for_log url = default url (head (split_on "?" url)) +:+ "?" +:+ query /\
    kept = List.filter (fun p => negb (is_api_key_param p))
             (split_on "&" (default "" (nth_error (split_on "?" url) 1))) /\
    (kept <> [] -> split_on "&" query = kept) /\
    Forall (fun p => is_api_key_param p = false) (split_on "&" query).
Proof.
  unfold jupiter_quote_url_for_log. set (q := nth_error _ 1).
  set (kept := List.filter _ (split_on "&" (default "" q))).
  assert (HF : Forall (fun p => is_api_key_param p = false) kept).
  { apply Forall_forall. intros p [_ Hp]%list_elem_of_In%filter_In. by apply negb_true_iff. }
  assert (HS : kept <> [] -> split_on "&" (String.concat "&" kept) = kept).
  { intros HN. destruct kept as [|p ps] eqn:EK; [done|]. apply split_on_concat. rewrite <- EK.
    apply Forall_forall. intros x [Hx _]%list_elem_of_In%filter_In. apply list_elem_of_In in Hx.
    exact (proj1 (Forall_forall _ _) (split_on_free _ _) x Hx). }
  exists (String.concat "&" kept), kept. split_and!; [|done|exact HS|].
  - by destruct q.
  - destruct kept as [|p ps] eqn:EK; [by repeat constructor|]. rewrite HS by done. exact HF.
Qed.

Example logged_url_demo :
  jupiter_quote_url_for_log "https://api.jup.ag/q?inputMint=A&API-Key=secret&amount=5" =
  "https://api.jup.ag/q?inputMint=A&amount=5".
Proof. reflexivity. Qed.

(** ** A start *)

Definition demo_env (name : string) : option string :=
  if String.eqb name "PRIVATE_KEY" then Some "secret"
  else if String.eqb name "SOLANA_HTTP" then Some "http://node"
  else if String.eqb name "SOLANA_WEBSOCKET" then Some "ws://node"
  else if String.eqb name "DATABASE_URL" then Some "postgres://db"
  else None.

(** the second wallet is disabled and its key is not there *)
Definition demo_entries : list WalletEntryConfig :=
  [mkWalletEntryConfig "main" "" true "PRIVATE_KEY" None None None None;
   mkWalletEntryConfig "spare" "" false "SPARE_KEY" None None None None].

Definition demo_sections (execution : option ExecutionSection) (entries : list WalletEntryConfig) : ConfigSections :=
  mkConfigSections
    (mkCreatorStatisticsFilter None None None [] None None None None None None None)
    SmartBuyConfig_default 8080 8081 10%float None None None execution None None None (Some entries).

Definition demo_parse (s : string) : result Address string :=
  if String.eqb s "42" then Ok 42%N else if String.eqb s "43" then Ok 43%N else Err "bad address".

Definition demo_rpc (url : string) : Node :=
  mkNode 0 0 3000000000 fresh_curve false 0.

Definition demo_start (execution : option ExecutionSection) (entries : list WalletEntryConfig)
    : outcome (result (Booted (W := Node) (P := PumpPool Bonding)) Z) :=
  start_bot demo_env demo_rpc (fun id => if String.eqb id "main" then 42%N else 43%N)
    (fun k => if String.eqb k "secret" then Some 42%N else None) demo_parse (Ok "yaml")
    (fun _ => Ok (demo_sections execution entries)) (fun _ => Ok database_new) Ok 1700000000 None.

(** without a mode, the bot trades with the key; the wallet without one is left out *)
Definition demo_booted : Booted (W := Node) (P := PumpPool Bonding) :=
  ltac:(let r := eval vm_compute in (demo_start None demo_entries) in
        lazymatch r with Ret (Ok ?b) => exact b end).

Example demo_live_wallets :
  (fun w => (wh_id w, broker_mode_label (P := PumpPool Bonding) (wh_broker w), wh_balance w))
    <$> wallets_all (mg_wallets (sy_mgr (bt_system demo_booted))) = [("main", "live", 3%float)].
Proof. vm_compute. reflexivity. Qed.

(** an enabled wallet without its key ends the process, in live mode only *)
Example demo_missing_key :
  let entries := [mkWalletEntryConfig "spare" "" true "SPARE_KEY" None None None None] in
  demo_start None entries = Ret (Err 1) /\
  match demo_start (Some (mkExecutionSection (Some Demo) None)) entries with
  | Ret (Ok b) => get_pubkey (bt_api b) = "43" /\ ap_mode (bt_api b) = "demo"
  | _ => False
  end.
Proof. vm_compute. split; [reflexivity | by split]. Qed.

Lemma startup_sound_witness :
  wallets_match demo_env (fun k => if String.eqb k "secret" then Some 42%N else None) demo_parse
    (bt_config demo_booted) demo_entries (mg_wallets (sy_mgr (bt_system demo_booted))).
Proof.
  apply (startup_sound demo_env demo_rpc (fun id => if String.eqb id "main" then 42%N else 43%N)
    (fun k => if String.eqb k "secret" then Some 42%N else None) demo_parse (Ok "yaml")
    (fun _ => Ok (demo_sections None demo_entries)) (fun _ => Ok database_new) Ok 1700000000 None
    (fun _ => "{}") (fun p => p) demo_booted).
  vm_compute. reflexivity.
Defined.
