(* ===== verification/Handles.v ===== *)
(** The handles of the actors: [SwarmHandler] of [trading/swarm.rs],
    [DevRankerHandle], [SmartMoneyHandle], the two handles of
    [performance_tracker.rs], the senders of the launchpad and of the waiter.

    An actor owns its state and serves one bounded channel; its handles are
    cloned freely.  A method of a handle sends a message and awaits a oneshot
    reply; when the actor is gone, or drops the reply, it answers with a
    fallback.  [Mailbox] is the actor with its channel under every interleaving
    of its clients, its clock and its own timer; what a client finds is stated
    against the sequential actor of [Swarm], [Registry], [Creator] and
    [Storage]. *)
From S2P Require Import Prelude Text Amounts Pump Config Features ScoreEngine Positions Creator Storage.
From S2P Require Import Registry Swarm.

(** ** A mailbox *)

Section Mailbox.
(** [E] is what a step reads of the outside (a clock, the answer of a write);
    [tick] is what the actor does on its own *)
Context {E S M R : Type} (serve : E -> S -> M -> outcome (S * R)) (tick : E -> S -> S) (capacity : nat).

(** [None] is an actor whose task has panicked; [mx_sent], [mx_done] and
    [mx_answers] are histories *)
Record Mailbox := mkMailbox {
  mx_state : option S;
  mx_queue : list M;
  mx_sent : list M;
  mx_done : list (E * option M);
  mx_answers : list R
}.
Implicit Types a : Mailbox.

Definition mailbox_new (s : S) : Mailbox := mkMailbox (Some s) [] [] [] [].

(** a sender waits while the channel is full, and fails once it is closed *)
Definition post (m : M) a : option Mailbox :=
  match mx_state a with
  | Some s =>
      if (length (mx_queue a) <? capacity)%nat
      then Some (mkMailbox (Some s) (mx_queue a ++ [m]) (mx_sent a ++ [m]) (mx_done a) (mx_answers a))
      else None
  | None => None
  end.

(** the oldest message is served; a panic ends the task and closes the channel *)
Definition serve_next (e : E) a : option Mailbox :=
  match mx_state a, mx_queue a with
  | Some s, m :: q =>
      Some match serve e s m with
           | Ret (s', r) => mkMailbox (Some s') q (mx_sent a) (mx_done a ++ [(e, Some m)]) (mx_answers a ++ [r])
           | Panic _ => mkMailbox None [] (mx_sent a) (mx_done a ++ [(e, Some m)]) (mx_answers a)
           end
  | _, _ => None
  end.

Definition tick_next (e : E) a : option Mailbox :=
  match mx_state a with
  | Some s => Some (mkMailbox (Some (tick e s)) (mx_queue a) (mx_sent a) (mx_done a ++ [(e, None)]) (mx_answers a))
  | None => None
  end.

Inductive mailbox_step : Mailbox -> Mailbox -> Prop :=
  | step_post m a a' : post m a = Some a' -> mailbox_step a a'
  | step_serve e a a' : serve_next e a = Some a' -> mailbox_step a a'
  | step_tick e a a' : tick_next e a = Some a' -> mailbox_step a a'.

(** the sequential actor, over what it did *)
Fixpoint runs (s : S) (h : list (E * option M)) : outcome (S * list R) :=
  match h with
  | [] => Ret (s, [])
  | (e, Some m) :: h => x ← serve e s m; y ← runs x.1 h; Ret (y.1, x.2 :: y.2)
  | (e, None) :: h => runs (tick e s) h
  end.

Definition served (h : list (E * option M)) : list M := omap snd h.

Lemma runs_app h1 h2 s :
  runs s (h1 ++ h2) = (x ← runs s h1; y ← runs x.1 h2; Ret (y.1, x.2 ++ y.2)).
Proof.
  revert s. induction h1 as [|[e [m|]] h1 IH]; intros s; cbn.
  - destruct (runs s h2) as [[]|]; done.
  - destruct (serve e s m) as [[s' r]|]; [|done]. cbn. rewrite IH. cbn.
    destruct (runs s' h1) as [[s1 rs1]|]; [|done]. cbn. by destruct (runs s1 h2) as [[]|].
  - apply IH.
Qed.

Lemma served_app h1 h2 : served (h1 ++ h2) = served h1 ++ served h2.
Proof. apply omap_app. Qed.

Lemma runs_length s h s' rs : runs s h = Ret (s', rs) -> length rs = length (served h).
Proof.
  revert s rs. induction h as [|[e [m|]] h IH]; intros s rs; cbn; [by intros [= <- <-]| |apply IH].
  destruct (serve e s m) as [[s1 r]|]; [|done]. cbn. destruct (runs s1 h) as [[s2 rs2]|] eqn:R1; [|done].
  cbn. intros [= <- <-]. cbn. f_equal. by eapply IH.
Qed.

(** the mailbox of an actor that began in [s0]: it has done its messages in the
    order they were sent, and those not done are queued *)
Definition mailbox_ok (s0 : S) a : Prop :=
  match mx_state a with
  | Some s =>
      runs s0 (mx_done a) = Ret (s, mx_answers a) /\ mx_sent a = served (mx_done a) ++ mx_queue a /\
      (length (mx_queue a) <= capacity)%nat
  | None =>
      exists h e m s p q, mx_done a = h ++ [(e, Some m)] /\ runs s0 h = Ret (s, mx_answers a) /\
        serve e s m = Panic p /\ mx_sent a = served (mx_done a) ++ q /\ mx_queue a = []
  end.

Lemma mailbox_step_ok s0 a a' : mailbox_step a a' -> mailbox_ok s0 a -> mailbox_ok s0 a'.
Proof.
  intros [m a1 a2 H|e a1 a2 H|e a1 a2 H]; unfold mailbox_ok.
  - unfold post in H. destruct (mx_state a1) as [s|]; [|done]. case_match eqn:L; [|done].
    injection H as <-. cbn. intros (H1 & H2 & H3). apply Nat.ltb_lt in L.
    split_and!; [done|by rewrite H2, app_assoc | rewrite length_app; cbn; lia].
  - unfold serve_next in H. destruct (mx_state a1) as [s|]; [|done].
    destruct (mx_queue a1) as [|m q] eqn:Q; [done|]. injection H as <-. intros (H1 & H2 & H3).
    destruct (serve e s m) as [[s' r]|p] eqn:ES; cbn.
    + rewrite runs_app, H1, served_app. cbn. rewrite ES. cbn. split_and!; [done| |cbn in H3; lia].
      by rewrite H2, <- app_assoc.
    + exists (mx_done a1), e, m, s, p, q. split_and!; [done..| |done].
      by rewrite H2, served_app, <- app_assoc.
  - unfold tick_next in H. destruct (mx_state a1) as [s|]; [|done]. injection H as <-. cbn.
    intros (H1 & H2 & H3). rewrite runs_app, H1, served_app. cbn. by rewrite !app_nil_r.
Qed.

Lemma mailbox_reachable_ok s0 a : rtc mailbox_step (mailbox_new s0) a -> mailbox_ok s0 a.
Proof.
  intros H. assert (mailbox_ok s0 (mailbox_new s0)) as H0 by (split_and!; cbn; [done..|lia]).
  revert H0. induction H as [|a1 a2 a3 HS _ IH]; [done|]. intros H1. apply IH. by eapply mailbox_step_ok.
Qed.

(** the histories only grow *)
Lemma mailbox_step_grows a a' :
  mailbox_step a a' -> mx_sent a `prefix_of` mx_sent a' /\ mx_answers a `prefix_of` mx_answers a'.
Proof.
  intros [m a1 a2 H|e a1 a2 H|e a1 a2 H].
  - unfold post in H. repeat case_match; simplify_eq/=. split; [by apply prefix_app_r|done].
  - unfold serve_next in H. destruct (mx_state a1) as [s|]; [|done].
    destruct (mx_queue a1) as [|m q]; [done|]. injection H as <-.
    destruct (serve e s m) as [[]|]; cbn; split; try done. by apply prefix_app_r.
  - unfold tick_next in H. destruct (mx_state a1); simplify_eq/=. done.
Qed.

Lemma mailbox_grows a a' : rtc mailbox_step a a' -> mx_sent a `prefix_of` mx_sent a'.
Proof.
  induction 1 as [|a1 a2 a3 H _ IH]; [done|]. etrans; [|exact IH]. by apply mailbox_step_grows.
Qed.

(** the [t]-th answer is that of the sequential actor after [t] messages *)
Lemma runs_answer h : forall s0 s rs t r,
  runs s0 h = Ret (s, rs) -> rs !! t = Some r ->
  exists h1 e m h2 s1 s2, h = h1 ++ (e, Some m) :: h2 /\ length (served h1) = t /\
    runs s0 h1 = Ret (s1, take t rs) /\ serve e s1 m = Ret (s2, r).
Proof.
  induction h as [|[e [m|]] h IH]; intros s0 s rs t r; cbn; [by intros [= <- <-]| |].
  - destruct (serve e s0 m) as [[s' r']|] eqn:ES; [|done]. cbn.
    destruct (runs s' h) as [[s1 rs1]|] eqn:R1; [|done]. cbn. intros [= <- <-].
    destruct t as [|t]; cbn.
    + intros [= <-]. by exists [], e, m, h, s0, s'.
    + intros Ht. destruct (IH _ _ _ _ _ R1 Ht) as (h1 & e1 & m1 & h2 & s2 & s3 & -> & HL & HR & HS).
      exists ((e, Some m) :: h1), e1, m1, h2, s2, s3. split_and!; [done|exact (f_equal Datatypes.S HL)| |done].
      cbn. rewrite ES. cbn. by rewrite HR.
  - intros HR Ht. destruct (IH _ _ _ _ _ HR Ht) as (h1 & e1 & m1 & h2 & s2 & s3 & -> & HL & HR1 & HS).
    by exists ((e, None) :: h1), e1, m1, h2, s2, s3.
Qed.

(** messages of a prefix of what was sent, counted *)
Lemma take_served h1 (e : E) (m : M) h2 q sent ms (m0 : M) :
  ms ++ [m0] `prefix_of` sent -> sent = served (h1 ++ (e, Some m) :: h2) ++ q ->
  length (served h1) = length ms -> served h1 = ms /\ m = m0.
Proof.
  intros [k ->]. rewrite served_app. cbn. rewrite <- !app_assoc. cbn. intros HE HL.
  apply app_inj_1 in HE as [-> HE]; [|done]. by injection HE as -> _.
Qed.

(** A message posted after [mx_sent a] is answered for the state after exactly
    those messages, if it is answered. *)
Lemma answered_in_order s0 a m a1 a2 r :
  rtc mailbox_step (mailbox_new s0) a -> post m a = Some a1 -> rtc mailbox_step a1 a2 ->
  mx_answers a2 !! length (mx_sent a) = Some r ->
  exists h e s rs s', served h = mx_sent a /\ runs s0 h = Ret (s, rs) /\ serve e s m = Ret (s', r).
Proof.
  intros HR HP HS Ht.
  assert (mailbox_ok s0 a2) as HO.
  { apply mailbox_reachable_ok. etrans; [exact HR|]. eapply rtc_l; [by eapply step_post|exact HS]. }
  assert (mx_sent a ++ [m] `prefix_of` mx_sent a2) as HG.
  { unfold post in HP. repeat case_match; simplify_eq. by apply mailbox_grows in HS. }
  assert (exists h q s, runs s0 h = Ret (s, mx_answers a2) /\ mx_sent a2 = served h ++ q) as (h & q & s & HRun & HSent).
  { unfold mailbox_ok in HO. destruct (mx_state a2) as [s|].
    - destruct HO as (H1 & H2 & _). by exists (mx_done a2), (mx_queue a2), s.
    - destruct HO as (h & e & m' & s & p & q & HD & H1 & _ & H2 & _).
      exists h, (m' :: q), s. split; [done|]. rewrite H2, HD, served_app. cbn. by rewrite <- app_assoc. }
  destruct (runs_answer _ _ _ _ _ _ HRun Ht) as (h1 & e & m1 & h2 & s1 & s2 & -> & HL & HR1 & HS1).
  destruct (take_served _ _ _ _ _ _ _ _ HG HSent HL) as [HE ->].
  by exists h1, e, s1, (take (length (mx_sent a)) (mx_answers a2)), s2.
Qed.

(** A message that will never be answered stands behind one the actor
    panicked on, or is that one. *)
Lemma unanswered_panicked s0 a :
  rtc mailbox_step (mailbox_new s0) a -> mx_state a = None ->
  exists h e s rs m p, served h ++ [m] `prefix_of` mx_sent a /\ length (served h) = length (mx_answers a) /\
    runs s0 h = Ret (s, rs) /\ serve e s m = Panic p.
Proof.
  intros HR HN. apply mailbox_reachable_ok in HR. unfold mailbox_ok in HR. rewrite HN in HR.
  destruct HR as (h & e & m & s & p & q & HD & HRun & HS & HSent & _).
  exists h, e, s, (mx_answers a), m, p. split_and!; [|by rewrite (runs_length _ _ _ _ HRun)|done..].
  rewrite HSent, HD, served_app. cbn. by exists q.
Qed.

(** The actor is never stuck: while something is queued it can be served. *)
Lemma queued_is_served e s0 a :
  rtc mailbox_step (mailbox_new s0) a -> mx_queue a <> [] -> exists a', serve_next e a = Some a'.
Proof.
  intros HR%mailbox_reachable_ok HQ. unfold mailbox_ok in HR. unfold serve_next.
  destruct (mx_state a) as [s|].
  - destruct (mx_queue a); [done|]. by eexists.
  - destruct HR as (? & ? & ? & ? & ? & ? & _ & _ & _ & _ & ?). congruence.
Qed.
End Mailbox.
Arguments Mailbox : clear implicits.
Arguments mx_state {E S M R} m.
Arguments mx_queue {E S M R} m.
Arguments mx_sent {E S M R} m.
Arguments mx_done {E S M R} m.
Arguments mx_answers {E S M R} m.

(** ** Methods of a handle *)

(** the message, what is made of the reply, and the answer of an actor that is
    gone *)
Record Method (M R A : Type) := mkMethod { md_message : M; md_read : R -> A; md_gone : A }.
Arguments mkMethod {M R A}.
Arguments md_message {M R A} m.
Arguments md_read {M R A} m.
Arguments md_gone {M R A} m.

(** what the call that posted message number [t] returns, [None] while it waits *)
Definition returned {E S M R A} (md : Method M R A) (t : nat) (a : Mailbox E S M R) : option A :=
  match mx_answers a !! t with
  | Some r => Some (md_read md r)
  | None => if mx_state a is None then Some (md_gone md) else None
  end.

(** the method on the actor's own state *)
Definition ask {E S M R A} (serve : E -> S -> M -> outcome (S * R)) (md : Method M R A) (e : E) (s : S) : A :=
  match serve e s (md_message md) with Ret (_, r) => md_read md r | Panic _ => md_gone md end.

(** a panic of the sequential actor on its first [n] messages *)
Definition panicked_within {E S M R} (serve : E -> S -> M -> outcome (S * R)) (tick : E -> S -> S) (s0 : S)
    (sent : list M) (n : nat) : Prop :=
  exists h e s rs m p, served h ++ [m] `prefix_of` sent /\ (length (served h) <= n)%nat /\
    runs serve tick s0 h = Ret (s, rs) /\ serve e s m = Panic p.

Section Calls.
Context {E S M R A : Type} (serve : E -> S -> M -> outcome (S * R)) (tick : E -> S -> S) (capacity : nat).

Lemma call_in_order s0 a a1 a2 (md : Method M R A) x :
  rtc (mailbox_step serve tick capacity) (mailbox_new s0) a -> post capacity (md_message md) a = Some a1 ->
  rtc (mailbox_step serve tick capacity) a1 a2 -> returned md (length (mx_sent a)) a2 = Some x ->
  (exists h e s rs, served h = mx_sent a /\ runs serve tick s0 h = Ret (s, rs) /\ x = ask serve md e s) \/
  (x = md_gone md /\ panicked_within serve tick s0 (mx_sent a2) (length (mx_sent a))).
Proof.
  intros HR HP HS. unfold returned. destruct (mx_answers a2 !! _) as [r|] eqn:Ea.
  - intros [= <-]. left.
    destruct (answered_in_order _ _ _ _ _ _ _ _ _ HR HP HS Ea) as (h & e & s & rs & s' & H1 & H2 & H3).
    exists h, e, s, rs. unfold ask. by rewrite H3.
  - destruct (mx_state a2) eqn:EN; [done|]. intros [= <-]. right. split; [done|].
    assert (HR2 : rtc (mailbox_step serve tick capacity) (mailbox_new s0) a2).
    { etrans; [exact HR|]. eapply rtc_l; [by eapply step_post|exact HS]. }
    destruct (unanswered_panicked _ _ _ _ _ HR2 EN) as (h & e & s & rs & m & p & H1 & H2 & H3 & H4).
    exists h, e, s, rs, m, p. split_and!; [done| |done..]. rewrite H2. by apply lookup_ge_None.
Qed.
End Calls.

(** ** The swarm *)

(* trading/swarm.rs 209-223: SwarmHandler::update *)
Definition handler_update (addr : Address) (offer : Offer) (ty : TraderType) : SwarmMessage :=
  UpdateTrader addr offer ty.

(* trading/swarm.rs 225-235: SwarmHandler::get_pnl *)
Definition handler_get_pnl (ty : TraderType) : Method SwarmMessage SwarmReply f64 :=
  mkMethod (GetPnl ty) (fun r => match r with ReplyF64 x => x | _ => 0%float end) 0%float.

(* trading/swarm.rs 237-247: SwarmHandler::get_trader *)
Definition handler_get_trader (addr : Address) : Method SwarmMessage SwarmReply (option Trader) :=
  mkMethod (GetTrader addr) (fun r => match r with ReplyTrader t => Some t | _ => None end) None.

(* trading/swarm.rs 249-253: SwarmHandler::get_traders_count *)
Definition handler_get_traders_count : Method SwarmMessage SwarmReply Z :=
  mkMethod GetAllTraders (fun r => match r with ReplyCount n => n | _ => 0 end) 0.

(* trading/swarm.rs 255-263: SwarmHandler::get_trader_total_spent *)
Definition handler_total_spent (addr : Address) : Method SwarmMessage SwarmReply (option Amount) :=
  mkMethod (GetTraderTotalSpent addr) (fun r => match r with ReplyAmount x => Some x | _ => None end) None.

(* trading/swarm.rs 268-275: SwarmHandler::get_quote_decimals *)
Definition handler_get_quote_decimals : Method SwarmMessage SwarmReply Z :=
  mkMethod GetQuoteDecimals (fun r => match r with ReplyCount n => n | _ => 0 end) 0.

(** the argument of [unwrap_or] is a second call, made whatever the first says *)
(* trading/swarm.rs 264-266: SwarmHandler::get_trader_total_spent *)
Definition total_spent_or_zero (first : option Amount) (decimals : Z) : Amount :=
  default (amount_from_raw 0 decimals) first.

(* trading/swarm.rs 277-290: SwarmHandler::get_traders_by_type *)
Definition handler_get_traders_by_type (ty : TraderType) : Method SwarmMessage SwarmReply (list (Address * Trader)) :=
  mkMethod (GetTradersByType ty) (fun r => match r with ReplyTraders l => l | _ => [] end) [].

(* trading/swarm.rs 292-304: SwarmHandler::get_trader_pnl *)
Definition handler_get_trader_pnl (addr : Address) : Method SwarmMessage SwarmReply (option f64) :=
  mkMethod (GetTraderPnl addr) (fun r => match r with ReplyPnl x => x | _ => None end) None.

Definition serve_swarm (_ : unit) : Swarm -> SwarmMessage -> outcome (Swarm * SwarmReply) := swarm_handle.
Definition no_tick {S} (_ : unit) (s : S) : S := s.

(* trading/swarm.rs 121-121: SwarmActor::init *)
Definition SWARM_CAPACITY : nat := 2048.
#[global] Arguments SWARM_CAPACITY : simpl never.

Local Abbreviation swarm_step := (mailbox_step serve_swarm no_tick SWARM_CAPACITY).

Lemma runs_swarm h s : runs serve_swarm no_tick s h = swarm_run s (served h).
Proof.
  revert s. induction h as [|[[] [m|]] h IH]; intros s; cbn; [done| |apply IH].
  unfold serve_swarm. destruct (swarm_handle s m) as [[s' r]|]; [|done]. cbn. rewrite IH.
  unfold served. by destruct (swarm_run s' (omap snd h)) as [[]|].
Qed.

(** what each method finds *)
Lemma swarm_methods s ty addr :
  let find {A} (md : Method SwarmMessage SwarmReply A) := ask serve_swarm md tt s in
  find (handler_get_pnl ty) = average_pln s ty /\ find (handler_get_trader addr) = find_trader addr s /\
  find handler_get_traders_count = Z.of_nat (length (traders s)) /\
  find handler_get_quote_decimals = decimals_quote s /\ find (handler_get_traders_by_type ty) = of_type ty s /\
  find (handler_get_trader_pnl addr) = pnl_percent <$> find_trader addr s /\
  forall d, total_spent_or_zero (find (handler_total_spent addr)) d
    = default (amount_from_raw 0 (decimals_quote s)) (total_spent <$> find_trader addr s).
Proof. unfold ask. cbn. repeat (split; [by destruct (find_trader addr s)|]). intros d. by destruct (find_trader addr s). Qed.

(** the call returns its answer on the swarm [s] after what was sent before it *)
Definition in_turn {A} (s0 : Swarm) (sent : list SwarmMessage) (md : Method SwarmMessage SwarmReply A) (x : A) : Prop :=
  exists s rs, swarm_run s0 sent = Ret (s, rs) /\ x = ask serve_swarm md tt s.

(** C40: A call to the actor of a token's traders is answered for the swarm after
    exactly the messages sent before it, in the order they were sent, whatever
    other handles send meanwhile and however the actor is scheduled; if instead
    the call returns its fallback for a stopped actor, a message no later than
    the call's own made the actor panic.  What the methods of the handle read
    is the swarm: its average PnL, its traders, their number, types and totals. *)
Theorem swarm_calls_in_order :
  (forall A s0 a a1 a2 (md : Method SwarmMessage SwarmReply A) x,
     rtc swarm_step (mailbox_new s0) a -> post SWARM_CAPACITY (md_message md) a = Some a1 -> rtc swarm_step a1 a2 ->
     returned md (length (mx_sent a)) a2 = Some x ->
     in_turn s0 (mx_sent a) md x \/
     (x = md_gone md /\ exists ms p, ms `prefix_of` mx_sent a2 /\ (length ms <= length (mx_sent a) + 1)%nat /\
        swarm_run s0 ms = Panic p)) /\
  (forall s ty addr,
     let find {A} (md : Method SwarmMessage SwarmReply A) := ask serve_swarm md tt s in
     find (handler_get_pnl ty) = average_pln s ty /\ find (handler_get_trader addr) = find_trader addr s /\
     find handler_get_traders_count = Z.of_nat (length (traders s)) /\
     find handler_get_quote_decimals = decimals_quote s /\ find (handler_get_traders_by_type ty) = of_type ty s /\
     find (handler_get_trader_pnl addr) = pnl_percent <$> find_trader addr s /\
     forall d, total_spent_or_zero (find (handler_total_spent addr)) d
       = default (amount_from_raw 0 (decimals_quote s)) (total_spent <$> find_trader addr s)).
Proof.
  split; [|exact swarm_methods]. intros A s0 a a1 a2 md x HR HP HS HX.
  destruct (call_in_order serve_swarm no_tick SWARM_CAPACITY s0 a a1 a2 md x HR HP HS HX)
    as [(h & [] & s & rs & <- & HRun & ->)|(-> & h & [] & s & rs & m & p & HPre & HL & HRun & HS')].
  - left. exists s, rs. by rewrite <- runs_swarm.
  - right. split; [done|]. exists (served h ++ [m]), p. split_and!; [done|rewrite length_app; cbn; lia|].
    change [m] with (served [(tt, Some m)]). rewrite <- served_app, <- runs_swarm, runs_app, HRun. cbn.
    by rewrite HS'.
Qed.

(** ** Actors that do not panic *)

Section Total.
Context {E S M R A : Type} (serve : E -> S -> M -> outcome (S * R)) (tick : E -> S -> S) (capacity : nat).

(** their calls are never answered with the fallback *)
Lemma total_call_in_order (total : forall e s m p, serve e s m <> Panic p) s0 a a1 a2 (md : Method M R A) x :
  rtc (mailbox_step serve tick capacity) (mailbox_new s0) a -> post capacity (md_message md) a = Some a1 ->
  rtc (mailbox_step serve tick capacity) a1 a2 -> returned md (length (mx_sent a)) a2 = Some x ->
  exists h e s rs, served h = mx_sent a /\ runs serve tick s0 h = Ret (s, rs) /\ x = ask serve md e s.
Proof.
  intros HR HP HS HX. destruct (call_in_order serve tick capacity s0 a a1 a2 md x HR HP HS HX) as [H|(_ & H)]; [done|].
  destruct H as (h & e & s & rs & m & p & _ & _ & _ & HPanic). by apply total in HPanic.
Qed.
End Total.

(** ** The registries of developers and wallets *)

Section Registries.
Context (to_string : Address -> string) (ttl : Z).

(** the clock, and whether a write of the file succeeds *)
Local Abbreviation Env := (Z * bool)%type.

Inductive DevReply :=
  | DevCategoryReply (r : DevCategory * DevRecord)
  | DevSnapshotReply (r : DevRankerSnapshot)
  | DevNoReply.

(* scoring/dev_ranker.rs 143-204: spawn *)
Definition serve_dev (e : Env) (s : Store DevRecord) (m : DevMsg) : outcome (Store DevRecord * DevReply) :=
  Ret (dev_step to_string s (e.1, m),
       match m with
       | GetCategory dev => DevCategoryReply (dev_get_category to_string ttl dev e.1 s)
       | SnapshotCounts => DevSnapshotReply (dev_snapshot_counts ttl e.1 s)
       | UpdateOutcome _ _ | DevFlush _ => DevNoReply
       end).

Definition tick_flush {V} (e : Env) (s : Store V) : Store V := flush e.2 s.

(* scoring/dev_ranker.rs 99-101: DevRankerHandle::note_outcome *)
Definition dev_note_outcome (dev : Address) (outcome : TokenOutcome) : DevMsg := UpdateOutcome dev outcome.

(* scoring/dev_ranker.rs 103-114: DevRankerHandle::category *)
Definition dev_category (dev : Address) : Method DevMsg DevReply (DevCategory * DevRecord) :=
  mkMethod (GetCategory dev)
    (fun r => match r with DevCategoryReply x => x | _ => (CatNeutral, DevRecord_default) end)
    (CatNeutral, DevRecord_default).

(* scoring/dev_ranker.rs 116-127: DevRankerHandle::snapshot *)
Definition dev_snapshot : Method DevMsg DevReply DevRankerSnapshot :=
  let empty := mkDevRankerSnapshot 0 0 0 0 0 0 in
  mkMethod SnapshotCounts (fun r => match r with DevSnapshotReply x => x | _ => empty end) empty.

Inductive SmartReply :=
  | SmartCountReply (n : Z)
  | SmartWalletsReply (l : list Address)
  | SmartSnapshotReply (total smart : Z)
  | SmartNoReply.

(* scoring/smart_money.rs 127-180: spawn *)
Definition serve_smart (e : Env) (s : Store WalletRecord) (m : SmartMsg) : outcome (Store WalletRecord * SmartReply) :=
  Ret (smart_step to_string s (e.1, m),
       match m with
       | CountSmart ws => SmartCountReply (count_smart to_string ttl ws e.1 s)
       | FilterSmart ws => SmartWalletsReply (filter_smart to_string ttl ws e.1 s)
       | SmartSnapshotMsg => let x := smart_snapshot ttl e.1 s in SmartSnapshotReply x.1 x.2
       | UpdateOutcomes _ _ | SmartFlush _ => SmartNoReply
       end).

(* scoring/smart_money.rs 74-76: SmartMoneyHandle::note_trade_outcome *)
Definition smart_note_trade_outcome (wallets : list Address) (pnl_pct : f64) : SmartMsg := UpdateOutcomes wallets pnl_pct.

(* scoring/smart_money.rs 79-89: SmartMoneyHandle::count_smart *)
Definition smart_count (wallets : list Address) : Method SmartMsg SmartReply Z :=
  mkMethod (CountSmart wallets) (fun r => match r with SmartCountReply n => n | _ => 0 end) 0.

(* scoring/smart_money.rs 91-101: SmartMoneyHandle::filter_smart_wallets *)
Definition smart_filter_wallets (wallets : list Address) : Method SmartMsg SmartReply (list Address) :=
  mkMethod (FilterSmart wallets) (fun r => match r with SmartWalletsReply l => l | _ => [] end) [].

(* scoring/smart_money.rs 103-110: SmartMoneyHandle::snapshot *)
Definition smart_registry_snapshot : Method SmartMsg SmartReply (Z * Z) :=
  mkMethod SmartSnapshotMsg (fun r => match r with SmartSnapshotReply t n => (t, n) | _ => (0, 0) end) (0, 0).

(** The category of a developer is that of the registry after every outcome
    reported before the question, read at some instant; the flushes in between
    change nothing. *)
Lemma dev_category_in_order capacity s0 a a1 a2 dev x :
  rtc (mailbox_step serve_dev tick_flush capacity) (mailbox_new s0) a ->
  post capacity (md_message (dev_category dev)) a = Some a1 ->
  rtc (mailbox_step serve_dev tick_flush capacity) a1 a2 ->
  returned (dev_category dev) (length (mx_sent a)) a2 = Some x ->
  exists h now s rs, served h = mx_sent a /\ runs serve_dev tick_flush s0 h = Ret (s, rs) /\
    x = dev_get_category to_string ttl dev now s.
Proof.
  intros HR HP HS HX.
  destruct (total_call_in_order serve_dev tick_flush capacity (fun _ _ _ _ H => ltac:(discriminate H))
    s0 a a1 a2 _ x HR HP HS HX) as (h & e & s & rs & H1 & H2 & ->).
  by exists h, e.1, s, rs.
Qed.

(** the same for the smart wallets among some *)
Lemma smart_filter_in_order capacity s0 a a1 a2 ws x :
  rtc (mailbox_step serve_smart tick_flush capacity) (mailbox_new s0) a ->
  post capacity (md_message (smart_filter_wallets ws)) a = Some a1 ->
  rtc (mailbox_step serve_smart tick_flush capacity) a1 a2 ->
  returned (smart_filter_wallets ws) (length (mx_sent a)) a2 = Some x ->
  exists h now s rs, served h = mx_sent a /\ runs serve_smart tick_flush s0 h = Ret (s, rs) /\
    x = filter_smart to_string ttl ws now s.
Proof.
  intros HR HP HS HX.
  destruct (total_call_in_order serve_smart tick_flush capacity (fun _ _ _ _ H => ltac:(discriminate H))
    s0 a a1 a2 _ x HR HP HS HX) as (h & e & s & rs & H1 & H2 & ->).
  by exists h, e.1, s, rs.
Qed.
End Registries.

(** ** The performance tracker and the cache of statistics *)

(* autobuy/performance_tracker.rs 219-229: PerformanceTrackerHandle::compare *)
Definition tracker_compare (stats : CreatorStatistics) : Method TrackerMessage TrackerReply bool :=
  mkMethod (Compare stats) (fun r => match r with RBool b => b | _ => false end) false.

(* autobuy/performance_tracker.rs 231-238: PerformanceTrackerHandle::get_best_market_cap *)
Definition tracker_get_best_market_cap : Method TrackerMessage TrackerReply f64 :=
  mkMethod GetBestMarketCap (fun r => match r with RFloat x => x | _ => 0%float end) 0%float.

(* autobuy/performance_tracker.rs 240-242: PerformanceTrackerHandle::set_filter *)
Definition tracker_set_filter (stats : CreatorStatistics) : TrackerMessage := SetFilter stats.

(* autobuy/performance_tracker.rs 244-257: PerformanceTrackerHandle::try_update_ath *)
Definition tracker_try_update_ath (market_cap : f64) (stats : CreatorStatistics) : Method TrackerMessage TrackerReply bool :=
  mkMethod (TryUpdateAth market_cap stats) (fun r => match r with RBool b => b | _ => false end) false.

Definition serve_tracker (_ : unit) (s : PerformanceTracker * Z) (m : TrackerMessage)
    : outcome ((PerformanceTracker * Z) * TrackerReply) := Ret (tracker_step s m).

(* autobuy/performance_tracker.rs 312-317: CreatorRegistryHandle::save *)
Definition registry_save (address : Address) (stats : CreatorStatistics) : RegistryMessage := RegSave address stats.

(* autobuy/performance_tracker.rs 319-329: CreatorRegistryHandle::get *)
Definition registry_get (address : Address) : Method RegistryMessage (option CreatorStatistics) (option CreatorStatistics) :=
  mkMethod (RegGet address) (fun r => r) None.

Definition serve_creators (_ : unit) (s : gmap Address CreatorStatistics) (m : RegistryMessage)
    : outcome (gmap Address CreatorStatistics * option CreatorStatistics) := Ret (creator_registry_step s m).

(** the last statistics saved for a creator among some messages *)
Fixpoint last_saved (address : Address) (ms : list RegistryMessage) : option CreatorStatistics :=
  match ms with
  | [] => None
  | RegSave a stats :: ms =>
      match last_saved address ms with
      | Some s => Some s
      | None => if bool_decide (a = address) then Some stats else None
      end
  | RegGet _ :: ms => last_saved address ms
  end.

Lemma creators_lookup address h : forall s0 s rs,
  runs serve_creators no_tick s0 h = Ret (s, rs) ->
  s !! address = match last_saved address (served h) with Some x => Some x | None => s0 !! address end.
Proof.
  induction h as [|[[] [m|]] h IH]; intros s0 s rs; cbn; [by intros [= <- <-]| |apply IH].
  destruct (runs serve_creators no_tick _ h) as [[s1 rs1]|] eqn:HR; [|done]. cbn. intros [= <- <-].
  rewrite (IH _ _ _ HR). change (omap snd h) with (served h). destruct m as [a stats|a]; cbn; [|done].
  destruct (last_saved address (served h)); [done|]. destruct (bool_decide (a = address)) eqn:D.
  - apply bool_decide_eq_true in D as ->. by rewrite lookup_insert_eq.
  - apply bool_decide_eq_false in D. by rewrite lookup_insert_ne.
Qed.

(** The statistics read for a creator are the last ones saved before the
    question. *)
Theorem registry_get_last_saved capacity a a1 a2 address x :
  rtc (mailbox_step serve_creators no_tick capacity) (mailbox_new ∅) a ->
  post capacity (md_message (registry_get address)) a = Some a1 ->
  rtc (mailbox_step serve_creators no_tick capacity) a1 a2 ->
  returned (registry_get address) (length (mx_sent a)) a2 = Some x ->
  x = last_saved address (mx_sent a).
Proof.
  intros HR HP HS HX.
  destruct (total_call_in_order serve_creators no_tick capacity (fun _ _ _ _ H => ltac:(discriminate H))
    ∅ a a1 a2 _ x HR HP HS HX) as (h & e & s & rs & <- & H2 & ->).
  cbn. rewrite (creators_lookup address _ _ _ _ H2), lookup_empty. by destruct (last_saved address (served h)).
Qed.

(** ** The launchpad and the waiter *)

Section Launchpad.
Context (bounding_curve pool_pda : Address -> Address).

Definition serve_launchpad (_ : unit) (s : PumpLaunchpadStorage) (c : PumpLaunchpadCommand)
    : outcome (PumpLaunchpadStorage * LaunchpadReply) := Ret (listen_step bounding_curve pool_pda s c).

(* launchpads/pump/launchpad.rs 113-113: PumpLaunchpadStorageActor::new *)
Definition LAUNCHPAD_CAPACITY : nat := 4096.
#[global] Arguments LAUNCHPAD_CAPACITY : simpl never.

(* launchpads/pump/launchpad.rs 112-122: PumpLaunchpadStorageActor::new *)
Definition launchpad_mailbox (sniper_threshold : Z) : Mailbox unit PumpLaunchpadStorage PumpLaunchpadCommand LaunchpadReply :=
  mailbox_new (storage_new sniper_threshold).

(** [try_send]: an event that finds the channel full, or closed, is dropped *)
(* launchpads/pump/handler.rs 22-24: PumpLaunchpadSenderExt::send_event *)
Definition send_event (event : PumpEvent) (slot : Z)
    (a : Mailbox unit PumpLaunchpadStorage PumpLaunchpadCommand LaunchpadReply)
    : Mailbox unit PumpLaunchpadStorage PumpLaunchpadCommand LaunchpadReply :=
  default a (post LAUNCHPAD_CAPACITY (Event slot event) a).

(* launchpads/pump/handler.rs 26-41: PumpLaunchpadSenderExt::get_mint *)
Definition launchpad_get_mint (amm_pool : Address) : Method PumpLaunchpadCommand LaunchpadReply (option Address) :=
  mkMethod (GetMint amm_pool) (fun r => match r with ReplyMint m => m | _ => None end) None.

(* launchpads/pump/handler.rs 43-58: PumpLaunchpadSenderExt::get_bucket *)
Definition launchpad_get_bucket (m : Address) : Method PumpLaunchpadCommand LaunchpadReply (option TokenBucket) :=
  mkMethod (GetBucket m) (fun r => match r with ReplyBucket b => Some b | _ => None end) None.
End Launchpad.

(* setup/waiter.rs 68-73: WaiterHandle::notify_created *)
Definition waiter_notify_created (address : Address) : WaiterMessage := NotifyCreated address.
(** the oneshot of the call is numbered *)
(* setup/waiter.rs 75-81: WaiterHandle::wait_for *)
Definition waiter_wait_for (address : Address) (oneshot : nat) : WaiterMessage := WaitUntilCreated address oneshot.

(** ** Running a mailbox *)

Inductive MailboxMove (E M : Type) := MPost (m : M) | MServe (e : E) | MTick (e : E).
Arguments MPost {E M} m.
Arguments MServe {E M} e.
Arguments MTick {E M} e.

Section Run.
Context {E S M R : Type} (serve : E -> S -> M -> outcome (S * R)) (tick : E -> S -> S) (capacity : nat).

Definition mailbox_move (mv : MailboxMove E M) (a : Mailbox E S M R) : option (Mailbox E S M R) :=
  match mv with
  | MPost m => post capacity m a
  | MServe e => serve_next serve e a
  | MTick e => tick_next tick e a
  end.

Fixpoint mailbox_run (mvs : list (MailboxMove E M)) (a : Mailbox E S M R) : option (Mailbox E S M R) :=
  match mvs with [] => Some a | mv :: mvs => a ← mailbox_move mv a; mailbox_run mvs a end.

Lemma mailbox_run_sound mvs : forall a a',
  mailbox_run mvs a = Some a' -> rtc (mailbox_step serve tick capacity) a a'.
Proof.
  induction mvs as [|mv mvs IH]; intros a a'; cbn; [by intros [= ->]|].
  destruct (mailbox_move mv a) as [a1|] eqn:HM; [|done]. cbn. intros HR%IH. eapply rtc_l; [|exact HR].
  destruct mv; cbn in HM; [by eapply step_post|by eapply step_serve|by eapply step_tick].
Qed.
End Run.

(** the first trades are queued, a call comes in, and another sell behind it *)
Definition demo_before : list (MailboxMove unit SwarmMessage) :=
  [MPost (handler_update 1%N (OfferBuy 10 (mkAmount 5 6)) Sniper); MPost (md_message (handler_get_pnl Sniper)); MServe tt;
   MPost (handler_update 1%N (OfferSell (mkAmount 2 6) 30) Regular)].
Definition demo_after : list (MailboxMove unit SwarmMessage) :=
  [MPost (handler_update 1%N (OfferSell (mkAmount 3 6) 5) Regular); MServe tt; MServe tt; MServe tt; MServe tt].

Ltac ran o := let r := eval vm_compute in o in lazymatch r with Some ?a => exact a end.

Definition demo_box := mailbox_run (E := unit) (R := SwarmReply) serve_swarm no_tick SWARM_CAPACITY.
Definition demo_box0 : Mailbox unit Swarm SwarmMessage SwarmReply :=
  ltac:(ran (demo_box demo_before (mailbox_new sample_swarm))).
Definition demo_box1 : Mailbox unit Swarm SwarmMessage SwarmReply :=
  ltac:(ran (post SWARM_CAPACITY (md_message (handler_get_trader 1%N)) demo_box0)).
Definition demo_box2 : Mailbox unit Swarm SwarmMessage SwarmReply := ltac:(ran (demo_box demo_after demo_box1)).

(** the second sell is not in the answer *)
Example demo_call_returns :
  match returned (handler_get_trader 1%N) 3 demo_box2 with
  | Some (Some t) => current_holdings t = mkAmount 3 6 /\ sell_event_count t = 1
  | _ => False
  end.
Proof. vm_compute. by split. Qed.

(** amounts of different scales make the actor panic, and the call behind them
    falls back *)
Example demo_call_falls_back :
  returned (handler_get_trader 1%N) 1 <$>
    demo_box [MPost (handler_update 1%N (OfferBuy 10 (mkAmount 5 9)) Sniper);
              MPost (md_message (handler_get_trader 1%N)); MServe tt] (mailbox_new sample_swarm) = Some (Some None).
Proof. vm_compute. reflexivity. Qed.

Lemma swarm_calls_in_order_witness :
  exists x, returned (handler_get_trader 1%N) 3 demo_box2 = Some x /\
    (in_turn sample_swarm (mx_sent demo_box0) (handler_get_trader 1%N) x \/
     (x = None /\ exists ms p, ms `prefix_of` mx_sent demo_box2 /\ (length ms <= 4)%nat /\
        swarm_run sample_swarm ms = Panic p)).
Proof.
  assert (R0 : rtc (mailbox_step serve_swarm no_tick SWARM_CAPACITY) (mailbox_new sample_swarm) demo_box0).
  { apply (mailbox_run_sound _ _ _ demo_before). vm_compute. reflexivity. }
  assert (R2 : rtc (mailbox_step serve_swarm no_tick SWARM_CAPACITY) demo_box1 demo_box2).
  { apply (mailbox_run_sound _ _ _ demo_after). vm_compute. reflexivity. }
  eexists. split; [vm_compute; reflexivity|].
  apply (proj1 swarm_calls_in_order _ sample_swarm demo_box0 demo_box1 demo_box2 (handler_get_trader 1%N)).
  - exact R0.
  - vm_compute. reflexivity.
  - exact R2.
  - vm_compute. reflexivity.
Defined.
